(* ===== verification/_CoqProject ===== *)
-Q . S2P
Prelude.v
NvFs.v
NvBuf.v
NvPacket.v
NvSync.v
NvSafe.v
NvServer.v
CmrMsg.v
CmrMem.v
Crc16.v
RefNotify.v
JpegTables.v
JpegHuff.v
JpegBits.v
JpegEnc.v
JpegHeader.v
JpegParse.v
JpegRound.v
ExifStream.v
ExifTypes.v
ExifWriter.v
ExifRead.v
ExifRound.v
ExifFields.v
ExifSegment.v
ExifPicture.v
ExifDecode.v
ExifDate.v
DiagFrame.v
DiagPort.v
AtTok.v
DiagCmd.v
DiagServe.v
CArith.v
EqTables.v
EqReal.v
EqCalc.v
EqRange.v
EqStable.v
EqLow.v
VbHal.v
EqSet.v
EqImage.v
EqPara.v
EqFile.v
ParaText.v
ParaMatch.v
ParaRound.v
ParaEq.v
ParaMode.v
ParaForm.v
ModeTable.v
ParaFile.v
ParaFault.v
