(* ===== verification/Prelude.v ===== *)
(** * Verification of the Spreadtrum hardware layer

    The repository is the Android hardware layer of Spreadtrum phones: daemons that serve the modem
    (ril/), the camera HAL with its JPEG codec driver (libcamera/), engineering tools (engmode/), and
    glue over kernel drivers.  This library models the C code that has logic of its own, definition by
    definition, and proves what makes it correct.  Paths below are relative to src/.

    ** Parts and files

    Prelude.v (this file): machine integers with their wrap-around, byte strings, little-endian words,
    updates of a segment of an array, the option monad, the tactics.

    The NV daemon (ril/scx15/nvitemd) keeps the partitions of the modem's non-volatile memory:
    - NvFs.v: nvitem_fs.c.  Partitions as two image files with header and checksum; repair when one is
      damaged ([ramDisk_Read], [ramDisk_Write], [chkNVEcc]).  State: a [world] of files plus a credit
      of elementary changes that the medium still accepts, so that a run can lose power anywhere.
    - NvBuf.v: nvitem_buf.c and nvitem_os.c.  Three images per partition with dirty tables
      ([fromChannel], [backup], [toDisk]); marking, commit, roll-back, and the save task.
    - NvPacket.v: nvitem_packet.c.  Packets over the pipe: header check, group and sub-index order,
      duplicates.
    - NvSync.v: nvitem_sync.c.  The state machine that reads HEAD/BODY/TAIL tokens out of the packets and
      drives NvBuf; state [daemon] (buffers, packet layer, analyzer).
    - NvSafe.v: which reads take the analyzer out of the defined behaviour of C ([read_ok]), and that every turn on
      another one is defined.
    - NvServer.v: nvitem_server.c and nvitem_channe_spipe.c.  Configuration from system properties, the daemon's
      main loop composed of the files above, and its threads interleaved ([sys_step], [sys_run]).

    The camera:
    - CmrMsg.v: libcamera/sc8830/src/cmr_msg.c.  The message ring of the camera threads, each operation
      as the atomic steps between its synchronisation points, and the interleavings of many threads as
      the step relation [sys_step].
    - CmrMem.v: libcamera/sc8830/src/cmr_mem.c.  How much memory a capture needs and where its buffers
      lie in it.  The HAL's allocator is the class [Allocator], what the code relies on [AllocatorSpec].

    The JPEG codec driver (libcamera/jpeg/jpeg_fw_8830):
    - JpegTables.v: jpegcodec_table.c.  The tables, and what the rest relies on about them.
    - JpegHuff.v: jpegdec_vld.c.  Huffman tables of the hardware decoder, built from a DHT segment.
    - JpegBits.v: jpegdec_bitstream.c.  Byte input through a buffer that the caller refills.
    - JpegParse.v: jpegdec_parse.c, jpegdec_malloc.c and JPEG_FWParseHead.  The header parser, in an error
      monad over the stream and the codec's fields.
    - JpegEnc.v: jpegenc_init.c, jpegenc_interface.c, jpegenc_frame.c, jpegcodec_global.c and the register
      polling of vsp/sc8830/src/jpg_drv_sc8830.c.  Setup of the encoder and its registers.
    - JpegHeader.v: jpegenc_header.c and jpegenc_bitstream.c.  The header, written value by value to the
      bit-stream manager of the hardware.
    - JpegRound.v: the composition.  The header that JpegEnc and JpegHeader write, parsed by JpegParse
      over JpegBits, gives the picture back.

    EXIF (libcamera/jpeg/jpeg_fw_8830/src/exif_writer.c and jpeg_stream.c, called by jpeg_codec.c):
    - ExifStream.v: the write half of jpeg_stream.c; a function of the writer is a state transformer on a
      write context.  Also the framing used in the proofs ([holds_on], [agree]).
    - ExifTypes.v: the structures and tags of jpeg_exif_header.h and jpeg_exif_type.h.
    - ExifWriter.v: exif_writer.c and [_jpeg_enc_wexif].  The blocks of the C code that differ only in tag,
      type, count, value and condition are rows of tables ([gps_fields], [spec_fields_before], ...), in the order
      of the code, each table being written by the loop [write_fields].
    - ExifRead.v: a reader of TIFF directories; an entry written is read back ([kind_ok]).
    - ExifRound.v: directories, with the invariant [progress] of a directory in the making.
    - ExifFields.v: [wf_exif], what the types promise of a caller's structures; then every field has a
      value, and each directory a largest size.
    - ExifSegment.v: the APP1 segment as a whole, its reader [read_app1] and what it should find.
    - ExifPicture.v: the promises of [Jpeg_WriteAPP1], [IMGJPEG_WriteExif], [_jpeg_enc_wexif], and what goes wrong.
    - ExifDecode.v: the composition with the encoder and the decoder.
    - ExifDate.v: [IMGJPEG_FormatDateTime], and the order of the entries.

    The diagnostic port of the engineering mode (engmode/), between the PC's tool, the application processor
    and the modem:
    - DiagFrame.v: adc_calibration.c and eng_diag.c.  Messages in frames of 0x7e with escapes: packed,
      unpacked, and unescaped and escaped in place.
    - DiagPort.v: vdiag.c and vlog.c.  The loop that collects frames from reads of the serial line ([wthread_turn])
      and the one that relays the modem's answers; the commands are the class [DiagHandler].
    - AtTok.v: eng_attok.c.  The tokenizer of AT commands, over the memory it changes.
    - DiagCmd.v: [eng_diag_parse] of eng_diag.c and the table of eng_cmd4linuxhdlr.c.  Which frames are the
      application processor's, and what the classification leaves in the globals.
    - DiagServe.v: [eng_diag] of eng_diag.c with the commands on the product data (eng_productdata.c).  Its
      instance [ap_handler] of [DiagHandler] composes the parts.

    The audio effects (audio/sc8830/vb_effect/v2), which turn the tuning parameters of an audio mode into the register
    words of the equaliser, and those of four modes into the file the driver loads:
    - CArith.v: C expressions on integers, as computations that fail where a result does not fit its type, a divisor is zero
      or an index is outside a table.
    - EqTables.v, EqCalc.v: filter_calc.c.  Its tables, and the functions that compute the coefficients of a filter.
    - EqReal.v: the tables against powers and cosines of the real numbers.
    - EqRange.v: [Filter_CalcEQ] against its formulas, with the range of every intermediate result.
    - EqStable.v: poles of a filter ([pole]), and the gains of a band.
    - EqLow.v: [Filter_CalcLCF], the low cut.
    - VbHal.v: init_regs, the default words, vb_hal_adp.c and vb_hal_if.c.  A function is the trace of its
      assignments to registers; what a word holds after a trace ([settle]).
    - EqSet.v: vbc_codec_eq.c with the parameters of eng_audio.h.  State: [statics], the static variables.
    - EqImage.v: what [AUDENHA_SetHpf] leaves in the words, and the order in which it gets there.
    - EqPara.v: [AUDENHA_SetPara] of a well-formed mode ([handled]), and the modes it does not handle.
    - EqFile.v: [do_parse] of vb_effect_if.c and the choice of a profile.

    The text of the same parameters (audio/sc8830/nv_exchange/string_exchange_bin.c), a line for every field:
    - ParaText.v: [nvstruct2stringfile] and [stringfile2nvstruct].  State of the reader: [reader], with the structures,
      the mode found last and the indices ([ctr]) that count the elements of each array.
    - ParaMatch.v: what the searches of the reader find in a line that is known up to names and numbers.
    - ParaRound.v, ParaEq.v: the lines of the two groups, each storing the field that was written ([goes]).
    - ParaMode.v: the lines of a whole mode.
    - ParaForm.v, ModeTable.v: what all lines have in common, and the table of modes, built by [start_tag] from the
      elements of the XML file.
    - ParaFile.v: the file read back, and given to [do_parse]; ParaFault.v: lines that are misread.

    Others:
    - RefNotify.v: ril/scx15/refnotify/refnotify.c.  Commands from the modem (time, sleep) reassembled
      from a pipe and executed.
    - Crc16.v: engmode/crc16.c.

    ** Conventions

    Integers are Z with the wrap-around written out ([u8], [u16], [u32]); pointers that may be null and
    handles that may be 0 are options; a C function that can leave the defined behaviour of C (an access
    outside an array, a shift by the width, a use of a null pointer) returns [None], or [Undef] in the
    parser: a theorem that a result is [Some] is a safety statement.  Values that come from outside (bytes
    read from a pipe, register reads, [rand], [property_get], [malloc]'s memory, the real-time clock) are
    arguments.  In the audio files an intermediate result that leaves its C type makes the result [None] as well; a
    conversion to 16 bits wraps around and a negative number is shifted like its two's complement, as the compilers of the
    device do.  Trace output is left out, as are mutexes in the parts where one thread runs.

    ** What the theorems show

    - Round trips and refinement of the codec: the header written is the bytes of its reference layout, and
      is parsed back to the same picture ([JpegRound], [JpegHeader]); the parser depends only on the
      file and not on how it is cut into chunks, and ends on every input ([JpegParse]); tables are
      canonical Huffman codes ([JpegHuff], [JpegTables]); the geometry covers the image ([JpegEnc]).
    - The NV daemon: its state stays well formed and its images change by writes, commits and roll-backs only, and
      nothing takes it out of the defined behaviour of C but a packet larger than its buffer or a BODY token with a range
      outside the partition, which it does not check ([NvServer.nvitemd_safe], [NvSync.analyze_body_unchecked]); a complete
      request is committed and a failure undone ([NvSync], [NvBuf]); a power loss at any byte of a
      save leaves one of the two contents readable ([NvFs]); a saved partition is read back.
    - The camera: concurrent users of a message queue see a bounded FIFO, each operation taking effect
      at its lock ([CmrMsg]); the buffers of a regular capture lie inside the memory and do not overlap, and the size chosen
      from the tables is enough for common captures ([CmrMem], with the captures meant and counterexamples for others).
    - EXIF: a picture the hardware encoder has written, with EXIF data added, is accepted by the decoder, and
      the segment reads back as the caller's structures ([ExifDecode.exif_capture_roundtrip]); the temporary buffer of 21 KB
      is enough for every caller ([ExifPicture]); dates are read back ([ExifDate]).
    - The diagnostic port: frames are served whole however the line cuts them ([DiagPort.wthread_serves_frames]),
      responses are read field by field ([AtTok.at_line_roundtrip]), and a phase check runs from
      the line to the partition and back ([DiagServe.phase_check_session]); what is lost or mangled is stated as well.
    - The equaliser: the tables are exact ([EqReal]); a band computed at any usual sample rate neither overflows nor
      loses bits ([EqRange.Filter_CalcEQ_total]), is stable and has the gain asked for ([EqStable]); the low cut removes zero
      frequency ([EqLow]); coefficients change only in silence ([EqImage]); the profile file holds, at the
      places of its layout, the words computed from the parameters of each mode, which determine them
      ([EqFile.do_parse_file], [EqFile.do_parse_repeatable]).
    - The parameter text: every field of every mode is read back from the file written, but for a negative [q]
      ([ParaFile.stringfile_round_trip], [ParaFile.text_restores_iff]), and the profiles made of it are those of the settings
      ([ParaFile.text_to_profiles]).
    - Error theorems state what the code does on the inputs it does not handle (packet tokens split over two
      packets, commands longer than the buffer, both images damaged, tables beyond the pool).

    ** Fuel

    Recursion that is not structural runs on fuel.  The parser's loops take the number of bytes left
    in the stream plus one: each round consumes a byte ([JpegParse.ParseHead_terminates]).  The analyzer's loop
    takes twice the bytes of a packet plus three: a round consumes bytes or changes the state to one that does
    ([NvSync.analyze_packet_fuel] shows that more fuel changes nothing).  [JpegHuff.code_gen] takes one unit
    for each code length ([JpegHuff.code_gen_spec]); [NvBuf.mark_loop] one for each word of the dirty table
    ([NvBuf.mark_loop_spec]); [jpg_read_reg_poll] its own time-out ([JpegHeader.jpg_read_reg_poll_spec]); the service
    loop of RefNotify one for each read.  [decode_loop] and [encode_loop] take the length of the range, which bounds
    their turns ([DiagFrame.decode7d7e_frame], [DiagFrame.encode_loop_spec]); [ascii2bin] one unit for each digit.
    [overflow_bits] halves a number of 32 bits at most 32 times ([EqRange.prevent_overflow_spec]).
    [x_digits] writes at most the eight digits of 32 bits ([ParaMatch.x_digits_ok]).

    ** Parameters

    The bit-stream manager's output is a function [bitstream] of the register writes, assumed to append
    the n low bits, big-endian, of each value put (in whole bytes); the HAL's allocator satisfies [AllocatorSpec]
    (what it gives is disjoint from what is live); [malloc] gives some memory of the size asked
    for; [can_open] says which paths can be opened.  The commands of the diagnostic port that are not modelled are
    an argument [other] of [eng_diag_], the number of audio modes an argument of the classification and of [do_parse], whose
    arguments [allocated] and [opened] say whether [malloc] and [fopen] succeed.  The XML parser of [ModeTable] is represented by
    the elements it reports, and [alloc] says which sizes [malloc] has memory for.  Each of these is instantiated in the witnesses.

    ** Not modelled

    - The software side of JPEG decoding and encoding (dequantisation, slices): it programs the hardware
      whose behaviour is not in the repository; the progressive decoder is compiled out.
    - The sensor drivers and the ISP: register tables written over I2C.  The camera HAL, hardware composer,
      gralloc, OMX and audio HAL: glue over framework or kernel interfaces, mostly C++.
    - Of the audio effects: the calls on the mixer of the kernel; vb_effect/v1 has the same filters for the registers of an
      earlier chip.
    - The Broadcom FM and Bluetooth code and the binary codecs: third party.
    - modemd and the AT channel: process supervision and socket glue.  Of the engineering mode the commands that
      read sensors, calibrate, tune audio or run tests, and the opening of the devices.
    - The read half of jpeg_stream.c: nothing in the repository calls it.  Of jpeg_codec.c only [_jpeg_enc_wexif].
      A value of the field SubjectArea is left out of [wf_exif]: [ExifPicture.subject_area_short] shows why.
    - All captures of CmrMem.v are modelled, but the theorems are about some: those on disjointness leave out rotated JPEG
      captures ([jpeg_rotated_chroma_overlaps]) and trimmed or unaligned raw ones, and do not speak of the sensor's raw data; the
      one on sizes leaves out JPEG sensors ([jpeg_size_too_small]), unaligned images, enlarged captures and allocations that fail.
    - Within the functions modelled: nvitem_fs.c is read without CONFIG_NAND_UBI_VOL (on UBIFS boards an ioctl announces
      the size before a write); the null mutex that [waiteEvent] waits with; a wrap-around of the number of cells times
      their size in [cmr_msg_queue_create]; the scratch arrays of [JPEGFW_FixHuffTbl], taken to be there; a bit-stream register
      that loses a value put while its FIFO is not ready; the size of the destination of [untranslate_packet_header]; a
      serial line that cannot be reopened, which ends [eng_vdiag_wthread]; the reboot after CMD_USER_RESET and the restart of
      the serial gadget after a failed write to the PC; the gains that [AUDENHA_SetHpf] has stored when a band fails, which
      cannot happen to well-formed parameters. *)

From stdpp Require Export base list numbers option.
From stdpp Require Import strings.
From Stdlib Require Export ZArith Lia.

Open Scope Z_scope.

(** ** Machine integers *)

(** Unsigned integers of 8, 16 and 32 bits are Z values with the wrap-around written out. *)
Definition u8 (z : Z) : Z := z mod 2 ^ 8.
Definition u16 (z : Z) : Z := z mod 2 ^ 16.
Definition u32 (z : Z) : Z := z mod 2 ^ 32.

(** Signed reading of a 32-bit pattern. *)
Definition i32 (z : Z) : Z := let r := u32 z in if r <? 2 ^ 31 then r else r - 2 ^ 32.

Definition is_u8 (z : Z) : Prop := 0 <= z < 2 ^ 8.
Definition is_u16 (z : Z) : Prop := 0 <= z < 2 ^ 16.
Definition is_u32 (z : Z) : Prop := 0 <= z < 2 ^ 32.

(** A byte string: a list of byte values. *)
Abbreviation bytes := (list Z).
Definition wf_bytes (l : bytes) : Prop := Forall is_u8 l.

Lemma wf_nil : wf_bytes [].
Proof. constructor. Qed.

Lemma wf_cons b l : wf_bytes (b :: l) ↔ is_u8 b ∧ wf_bytes l.
Proof. apply list.Forall_cons. Qed.

Lemma wf_app l1 l2 : wf_bytes (l1 ++ l2) ↔ wf_bytes l1 ∧ wf_bytes l2.
Proof. apply Forall_app. Qed.

Lemma u8_range z : is_u8 (u8 z).
Proof. unfold u8, is_u8. apply Z.mod_pos_bound. lia. Qed.

Lemma u16_range z : is_u16 (u16 z).
Proof. unfold u16, is_u16. apply Z.mod_pos_bound. lia. Qed.

Lemma u32_range z : is_u32 (u32 z).
Proof. unfold u32, is_u32. apply Z.mod_pos_bound. lia. Qed.

Lemma u8_id z : is_u8 z → u8 z = z.
Proof. apply Z.mod_small. Qed.

Lemma u16_id z : is_u16 z → u16 z = z.
Proof. apply Z.mod_small. Qed.

Lemma u32_id z : is_u32 z → u32 z = z.
Proof. apply Z.mod_small. Qed.

Create HintDb words.
#[export] Hint Resolve u8_range u16_range u32_range wf_nil : words.

(** Case analysis on the boolean comparisons of the goal and hypotheses. *)
Ltac bsplit :=
  repeat match goal with
  | H : (_ && _)%bool = true |- _ => apply andb_prop in H as [? ?]
  | H : (_ =? _) = true |- _ => apply Z.eqb_eq in H
  | H : (_ =? _) = false |- _ => apply Z.eqb_neq in H
  | H : (_ <? _) = true |- _ => apply Z.ltb_lt in H
  | H : (_ <? _) = false |- _ => apply Z.ltb_ge in H
  | H : (_ <=? _) = true |- _ => apply Z.leb_le in H
  | H : (_ <=? _) = false |- _ => apply Z.leb_gt in H
  end.

Ltac bcase :=
  match goal with
  | |- context [if ?c then _ else _] =>
      let E := fresh "E" in destruct c eqn:E; bsplit
  | H : context [if ?c then _ else _] |- _ =>
      let E := fresh "E" in destruct c eqn:E; bsplit
  end.

(** Rewrites a comparison whose truth value follows by arithmetic. *)
Ltac bdecide :=
  repeat match goal with
  | |- context [?a =? ?b] =>
      first [rewrite (proj2 (Z.eqb_eq a b)) by lia | rewrite (proj2 (Z.eqb_neq a b)) by lia]
  | |- context [?a <? ?b] =>
      first [rewrite (proj2 (Z.ltb_lt a b)) by lia | rewrite (proj2 (Z.ltb_ge a b)) by lia]
  | |- context [?a <=? ?b] =>
      first [rewrite (proj2 (Z.leb_le a b)) by lia | rewrite (proj2 (Z.leb_gt a b)) by lia]
  end.

(** Inverts a chain of option binds that ends in [Some]. *)
Ltac binv H :=
  repeat match type of H with
  | mbind _ _ = Some _ =>
      let x := fresh "x" in let E := fresh "E" in
      apply bind_Some in H as (x & E & H)
  end.

(** ** Arrays in memory

    A C array is the list of its cells.  [None] is undefined behaviour: an
    access outside the array. *)

(** [memcpy (dst + off, src, n)] where [src] is the list of the [n] bytes copied. *)
Definition splice {A} (off : nat) (src dst : list A) : option (list A) :=
  if decide (off + length src <= length dst)%nat
  then Some (take off dst ++ src ++ drop (off + length src) dst) else None.

(** The [n] cells of [l] from [off] on. *)
Definition slice {A} (off n : nat) (l : list A) : option (list A) :=
  if decide (off + n <= length l)%nat then Some (take n (drop off l)) else None.

(** [l[i] = x]. *)
Definition store {A} (i : nat) (x : A) (l : list A) : option (list A) :=
  if decide (i < length l)%nat then Some (<[i := x]> l) else None.

Section arrays.
Context {A : Type}.
Implicit Types (src dst l : list A).

Lemma splice_Some off src dst r :
  splice off src dst = Some r →
  r = take off dst ++ src ++ drop (off + length src) dst
  ∧ (off + length src <= length dst)%nat.
Proof. unfold splice. case_decide; naive_solver. Qed.

Lemma splice_ok off src dst :
  (off + length src <= length dst)%nat →
  splice off src dst = Some (take off dst ++ src ++ drop (off + length src) dst).
Proof. intros. unfold splice. by rewrite decide_True. Qed.

Lemma splice_length off src dst r : splice off src dst = Some r → length r = length dst.
Proof.
  intros [-> ?]%splice_Some. rewrite !length_app, length_take, length_drop. lia.
Qed.

Lemma splice_all src dst : length src = length dst → splice 0 src dst = Some src.
Proof.
  intros E. rewrite splice_ok by lia. rewrite E. simpl.
  by rewrite drop_all, app_nil_r.
Qed.

Lemma slice_ok off n l :
  (off + n <= length l)%nat → slice off n l = Some (take n (drop off l)).
Proof. intros. unfold slice. by rewrite decide_True. Qed.

Lemma slice_Some off n l r :
  slice off n l = Some r → r = take n (drop off l) ∧ (off + n <= length l)%nat.
Proof. unfold slice. case_decide; naive_solver. Qed.

Lemma slice_length off n l r : slice off n l = Some r → length r = n.
Proof. intros [-> ?]%slice_Some. rewrite length_take, length_drop. lia. Qed.

Lemma splice_Forall (P : A → Prop) off src dst r :
  splice off src dst = Some r → Forall P src → Forall P dst → Forall P r.
Proof.
  intros [-> _]%splice_Some ??. rewrite !Forall_app.
  repeat split; auto using Forall_take, Forall_drop.
Qed.

Lemma slice_Forall (P : A → Prop) off n l r :
  slice off n l = Some r → Forall P l → Forall P r.
Proof. intros [-> _]%slice_Some ?. auto using Forall_take, Forall_drop. Qed.

Lemma slice_app_l off n l l' :
  (off + n <= length l)%nat → slice off n (l ++ l') = slice off n l.
Proof.
  intros. rewrite !slice_ok; [|lia|rewrite length_app; lia].
  rewrite drop_app_le by lia. rewrite take_app_le; [done|]. rewrite length_drop. lia.
Qed.

(** The same on an array given as its parts. *)
Lemma slice_mid off n (a b c : list A) :
  off = length a → n = length b → slice off n (a ++ b ++ c) = Some b.
Proof.
  intros -> ->. rewrite slice_ok by (rewrite !length_app; lia).
  by rewrite drop_app_length, take_app_length.
Qed.

Lemma slice_front n (b c : list A) : n = length b → slice 0 n (b ++ c) = Some b.
Proof. intros. by apply (slice_mid 0 n []). Qed.

Lemma slice_whole (b : list A) : slice 0 (length b) b = Some b.
Proof. rewrite <- (app_nil_r b) at 2. by apply slice_front. Qed.

Lemma splice_mid off (a b b' c : list A) :
  off = length a → length b' = length b → splice off b' (a ++ b ++ c) = Some (a ++ b' ++ c).
Proof.
  intros -> E. rewrite splice_ok by (rewrite !length_app; lia).
  rewrite take_app_length, E, <- drop_drop, drop_app_length, drop_app_length. done.
Qed.

Lemma lookup_mid off (a : list A) x c : off = length a → (a ++ x :: c) !! off = Some x.
Proof. intros ->. by apply list_lookup_middle. Qed.

Lemma store_ok i x l : (i < length l)%nat → store i x l = Some (<[i := x]> l).
Proof. intros. unfold store. by rewrite decide_True. Qed.

Lemma store_mid off x y (a c : list A) : off = length a → store off x (a ++ y :: c) = Some (a ++ x :: c).
Proof.
  intros ->. rewrite store_ok by (rewrite length_app; simpl; lia).
  f_equal. induction a as [|z a IH]; [done|]. simpl. by rewrite IH.
Qed.

Lemma store_Some i x l r :
  store i x l = Some r → r = <[i := x]> l ∧ (i < length l)%nat.
Proof. unfold store. case_decide; naive_solver. Qed.

Lemma store_length i x l r : store i x l = Some r → length r = length l.
Proof. intros [-> _]%store_Some. apply length_insert. Qed.
End arrays.

(** ** Little-endian words (the target is a little-endian ARM) *)

Definition le16 (z : Z) : bytes := [u8 z; u8 (Z.shiftr z 8)].

Definition le32 (z : Z) : bytes :=
  [u8 z; u8 (Z.shiftr z 8); u8 (Z.shiftr z 16); u8 (Z.shiftr z 24)].

Definition get32 (off : nat) (l : bytes) : option Z :=
  b0 ← l !! off; b1 ← l !! (off + 1)%nat; b2 ← l !! (off + 2)%nat; b3 ← l !! (off + 3)%nat;
  Some (b0 + 2 ^ 8 * b1 + 2 ^ 16 * b2 + 2 ^ 24 * b3).

Lemma length_le32 z : length (le32 z) = 4%nat.
Proof. done. Qed.

Lemma le32_bytes z : wf_bytes (le32 z).
Proof. unfold wf_bytes, le32. repeat constructor; apply u8_range. Qed.

Lemma le32_value z :
  u8 z + 2 ^ 8 * u8 (Z.shiftr z 8) + 2 ^ 16 * u8 (Z.shiftr z 16)
    + 2 ^ 24 * u8 (Z.shiftr z 24) = u32 z.
Proof.
  unfold u8, u32. rewrite !Z.shiftr_div_pow2 by lia.
  Z.to_euclidean_division_equations. lia.
Qed.

Lemma get32_le32 pre z post :
  get32 (length pre) (pre ++ le32 z ++ post) = Some (u32 z).
Proof.
  unfold get32.
  rewrite !(lookup_app_r pre) by lia.
  replace (length pre - length pre)%nat with 0%nat by lia.
  replace (length pre + 1 - length pre)%nat with 1%nat by lia.
  replace (length pre + 2 - length pre)%nat with 2%nat by lia.
  replace (length pre + 3 - length pre)%nat with 3%nat by lia.
  simpl. f_equal. apply le32_value.
Qed.

Lemma get32_Some off l :
  (off + 4 <= length l)%nat → is_Some (get32 off l).
Proof.
  intros. unfold get32.
  destruct (lookup_lt_is_Some_2 l off) as [? ->]; [lia|].
  destruct (lookup_lt_is_Some_2 l (off + 1)) as [? ->]; [lia|].
  destruct (lookup_lt_is_Some_2 l (off + 2)) as [? ->]; [lia|].
  destruct (lookup_lt_is_Some_2 l (off + 3)) as [? ->]; [lia|].
  simpl. eauto.
Qed.

Lemma get32_range off l v : wf_bytes l → get32 off l = Some v → is_u32 v.
Proof.
  intros W H. unfold get32 in H. binv H. simplify_eq.
  unfold wf_bytes in W. rewrite Forall_lookup in W.
  repeat match goal with E : l !! _ = Some _ |- _ => apply W in E end.
  unfold is_u8, is_u32 in *. lia.
Qed.

(** ** Packing bit fields *)

Lemma land_low_shiftl lo hi k : 0 <= k → 0 <= lo < 2 ^ k → Z.land lo (Z.shiftl hi k) = 0.
Proof.
  intros Hk Hlo. apply Z.bits_inj'. intros i Hi.
  rewrite Z.land_spec, Z.bits_0.
  destruct (Z.lt_ge_cases i k).
  - rewrite Z.shiftl_spec_low by lia. apply andb_false_r.
  - rewrite <- (Z.mod_small lo (2 ^ k)) by lia.
    rewrite Z.mod_pow2_bits_high by lia. done.
Qed.

(** A field below bit [k] or-ed with a field from bit [k] on is their sum. *)
Lemma lor_low_shiftl lo hi k :
  0 <= k → 0 <= lo < 2 ^ k → Z.lor lo (Z.shiftl hi k) = lo + 2 ^ k * hi.
Proof.
  intros. rewrite <- Z.add_nocarry_lor by auto using land_low_shiftl.
  rewrite Z.shiftl_mul_pow2 by lia. lia.
Qed.

Lemma lor_shiftl_low lo hi k :
  0 <= k → 0 <= lo < 2 ^ k → Z.lor (Z.shiftl hi k) lo = 2 ^ k * hi + lo.
Proof. intros. rewrite Z.lor_comm, lor_low_shiftl by done. lia. Qed.

Lemma land_ffff z : Z.land z 0xffff = z mod 2 ^ 16.
Proof. change 0xffff with (Z.ones 16). apply Z.land_ones. lia. Qed.

Lemma land_ff z : Z.land z 0xff = z mod 2 ^ 8.
Proof. change 0xff with (Z.ones 8). apply Z.land_ones. lia. Qed.

(** Induction two cells at a time, the way a loop over 16-bit words walks a buffer. *)
Lemma pair_ind {A} (P : list A → Prop) :
  P [] → (∀ b, P [b]) → (∀ a b t, P t → P (a :: b :: t)) → ∀ l, P l.
Proof.
  intros H0 H1 H2 l. enough (P l ∧ ∀ a, P (a :: l)) by tauto.
  induction l as [|b l [IH1 IH2]]; split; auto.
Qed.

(** A decidable property checked on a range holds on it. *)
Lemma forallb_seqZ f lo n z : forallb f (seqZ lo n) = true → lo <= z < lo + n → f z = true.
Proof.
  rewrite forallb_forall. intros H Hz. apply H. apply list_elem_of_In. by apply elem_of_seqZ.
Qed.
