(* ===== verification/NvFs.v ===== *)
(** * NV image files (ril/scx15/nvitemd/nvitem_fs.c)

    The ramdisk layer of the NV item daemon: each NV partition is kept in two
    image files, a 512-byte header (magic, length, checksum, version) followed
    by the image.  The model has the files of the operating system as a finite
    map, [read], [write] and [open] with their POSIX meaning, and a [credit] of
    elementary changes (a truncation or one byte) that the medium still accepts:
    a run with little credit is a power loss or a medium error in the middle
    of a write.  [rand] is an oracle. *)

From stdpp Require Import gmap strings.
From S2P Require Import Prelude.

(** ** Checksum *)

(** [calc_checksum (dat, len)] on the [len] bytes [dat]; [unsigned long] has 32 bits. *)
Fixpoint checksum_loop (chkSum : Z) (dat : bytes) : Z :=
  match dat with
  | lo :: hi :: t => checksum_loop (u32 (chkSum + Z.lor lo (u16 (Z.shiftl hi 8)))) t
  | [b] => u32 (chkSum + b)
  | [] => chkSum
  end.

Definition calc_checksum (dat : bytes) : Z :=
  let chkSum := checksum_loop 0 dat in
  let chkSum := u32 (Z.shiftr chkSum 16 + Z.land chkSum 0xffff) in
  let chkSum := u32 (chkSum + Z.shiftr chkSum 16) in
  u16 (Z.lnot chkSum).

Definition _chkNVEcc (buf : bytes) (checksum : Z) : bool := calc_checksum buf =? u16 checksum.

(** ** Header *)

Definition RAMNV_NUM : nat := 15.
Definition RAMNV_SECT_SIZE : nat := 512.
Definition NV_HEAD_MAGIC : Z := 0x00004e56.
Definition NV_VERSION : Z := 101.

Record nv_header_t := NvHeader { magic : Z; len : Z; checksum : Z; version : Z }.

Definition header_bytes (h : nv_header_t) : bytes :=
  (le32 (magic h) ++ le32 (len h) ++ le32 (checksum h) ++ le32 (version h))
    ++ replicate (RAMNV_SECT_SIZE - 16) 0.

(** [header_ptr->checksum] of a 512-byte header. *)
Definition header_checksum (header : bytes) : Z := default 0 (get32 8 header).

(** ** Configuration *)

Record RAM_NV_CONFIG := NvConfig {
  partId : Z; image_path : string; imageBak_path : string; image_size : Z }.

Definition cfg_zero : RAM_NV_CONFIG := NvConfig 0 "" "" 0.

(** The initial [_ramdiskCfg], [RAMNV_NUM + 1] entries. *)
Definition _ramdiskCfg : list RAM_NV_CONFIG :=
  [NvConfig 1 "/fixnv/fixnv.bin" "" 0x20000;
   NvConfig 2 "/runtimenv/runtimenv.bin" "" 0x40000] ++ replicate 14 cfg_zero.

(** The globals set by [main]. *)
Record nv_paths := NvPaths {
  fixnv_ori_path : string; fixnv_bak_path : string;
  runnv_ori_path : string; runnv_bak_path : string;
  fixnv_size : Z; runnv_size : Z }.

Definition ramDisk_Init (g : nv_paths) : list RAM_NV_CONFIG :=
  if (100 <? Z.of_nat (String.length (fixnv_ori_path g)))
     || (100 <? Z.of_nat (String.length (fixnv_bak_path g)))
     || (100 <? Z.of_nat (String.length (runnv_ori_path g)))
     || (100 <? Z.of_nat (String.length (runnv_bak_path g)))
  then _ramdiskCfg
  else [NvConfig 1 (fixnv_ori_path g) (fixnv_bak_path g) (fixnv_size g);
        NvConfig 2 (runnv_ori_path g) (runnv_bak_path g) (runnv_size g)]
       ++ replicate 14 cfg_zero.

Definition ramDisk_Open (partId : Z) : Z := partId.

(** [_getIdx]: the loop over the table from entry [i] on; [None] is -1. *)
Fixpoint _getIdx_from (i : nat) (cfg : list RAM_NV_CONFIG) (handle : Z) : option nat :=
  match cfg with
  | [] => None
  | c :: rest =>
      if 0 =? partId c then None
      else if handle =? partId c then Some i
      else _getIdx_from (S i) rest handle
  end.

Definition _getIdx (cfg : list RAM_NV_CONFIG) (handle : Z) : option nat :=
  _getIdx_from 0 cfg handle.

(** [_ramdiskCfg[idx]] for the index of the handle. *)
Definition part_cfg (cfg : list RAM_NV_CONFIG) (handle : Z) : option RAM_NV_CONFIG :=
  _getIdx cfg handle ≫= λ idx, cfg !! idx.

(** ** Operating system *)

Record world := World {
  disk : gmap string bytes;
  credit : nat;
  rands : list Z }.

Definition rand (w : world) : Z * world :=
  match rands w with
  | r :: t => (r, World (disk w) (credit w) t)
  | [] => (0, w)
  end.

Section nvfs.
(** Which paths the operating system lets the daemon open. *)
Context (can_open : string → bool).

(** [open (path, O_RDWR)], the file's contents. *)
Definition open_rdwr (path : string) (w : world) : option bytes :=
  if can_open path then disk w !! path else None.

(** [open (path, O_RDWR | O_CREAT | O_TRUNC)]. *)
Definition open_trunc (path : string) (w : world) : option world :=
  if can_open path then
    match credit w with
    | O => None
    | S c => Some (World (<[path := []]> (disk w)) c (rands w))
    end
  else None.

(** [write (fd, bs, length bs)] at the end of the file: the number of bytes written. *)
Definition write (path : string) (bs : bytes) (w : world) : nat * world :=
  let n := Nat.min (length bs) (credit w) in
  (n, World (<[path := default [] (disk w !! path) ++ take n bs]> (disk w))
            (credit w - n) (rands w)).

(** The two reads of an opened image: [read (fd, header, 512)] over a
    zeroed header and [read (fd, buf, size)] over a buffer of 0xFF. *)
Definition read_image (content : bytes) (size : nat) : Z * Z * bytes * bytes :=
  let h := take RAMNV_SECT_SIZE content in
  let b := take size (drop (length h) content) in
  (Z.of_nat (length h), Z.of_nat (length b),
   h ++ replicate (RAMNV_SECT_SIZE - length h) 0, b ++ replicate (size - length b) 0xFF).

(** ** [ramDisk_Read] *)

(** Part 1: the first image. [inl buf] is [return 1] with [buf];
    [inr ret2] falls through with the current value of [ret2]. *)
Definition read_first (firstName : string) (size : nat) (w : world) : bytes + Z :=
  match open_rdwr firstName w with
  | None => inr 0
  | Some content =>
      let '(ret1, ret2, header, buf) := read_image content size in
      if negb (Z.of_nat RAMNV_SECT_SIZE =? ret1) then inr ret2
      else if (ret2 =? Z.of_nat size) && _chkNVEcc buf (header_checksum header)
      then inl buf else inr ret2
  end.

(** Part 3: rewrite the first image from the second. *)
Definition repair_first (firstName : string) (header buf : bytes) (w : world) : world :=
  match open_trunc firstName w with
  | None => w
  | Some w1 =>
      let '(_, w2) := write firstName header w1 in
      let '(_, w3) := write firstName buf w2 in w3
  end.

(** Part 2: the second image, with [ret2] left by part 1. *)
Definition read_second (firstName secondName : string) (size : nat) (ret2 : Z) (w : world)
  : bytes * world :=
  let check ret2 header buf :=
    if negb (ret2 =? Z.of_nat size) then (buf, w)
    else if negb (_chkNVEcc buf (header_checksum header)) then (buf, w)
    else (buf, repair_first firstName header buf w) in
  match open_rdwr secondName w with
  | None => check ret2 (replicate RAMNV_SECT_SIZE 0) (replicate size 0xFF)
  | Some content =>
      let '(ret1, ret2, header, buf) := read_image content size in
      if negb (Z.of_nat RAMNV_SECT_SIZE =? ret1) then (buf, w)
      else check ret2 header buf
  end.

(** The result is [return 0] ([None]) or [return 1] with the buffer. *)
Definition ramDisk_Read (cfg : list RAM_NV_CONFIG) (handle : Z) (size : nat) (w : world)
  : option bytes * world :=
  match part_cfg cfg handle with
  | None => (None, w)
  | Some c =>
      let '(r, w) := rand w in
      let '(firstName, secondName) :=
        if Z.odd r then (image_path c, imageBak_path c)
        else (imageBak_path c, image_path c) in
      match read_first firstName size w with
      | inl buf => (Some buf, w)
      | inr ret2 =>
          let '(buf, w) := read_second firstName secondName size ret2 w in
          (Some buf, w)
      end
  end.

(** ** [ramDisk_Write] *)

(** One image: header, then body; [ret] becomes 0 on a short write. *)
Definition write_image (path : string) (header buf : bytes) (ret : bool) (w : world)
  : bool * world :=
  match open_trunc path w with
  | None => (ret, w)
  | Some w1 =>
      let '(n1, w2) := write path header w1 in
      let '(n2, w3) := write path buf w2 in
      (ret && Nat.eqb n1 RAMNV_SECT_SIZE && Nat.eqb n2 (length buf), w3)
  end.

Definition ramDisk_Write (cfg : list RAM_NV_CONFIG) (handle : Z) (buf : bytes) (w : world)
  : bool * world :=
  match part_cfg cfg handle with
  | None => (false, w)
  | Some c =>
      let header := header_bytes
        (NvHeader NV_HEAD_MAGIC (Z.of_nat (length buf)) (calc_checksum buf) NV_VERSION) in
      let '(ret, w) := write_image (imageBak_path c) header buf true w in
      write_image (image_path c) header buf ret w
  end.
End nvfs.

(** ** Checksum properties *)

(** The sum of the little-endian 16-bit words of a buffer, an odd last byte counting as a word. *)
Fixpoint words_sum (dat : bytes) : Z :=
  match dat with
  | lo :: hi :: t => lo + 2 ^ 8 * hi + words_sum t
  | [b] => b
  | [] => 0
  end.

Lemma word_of_bytes lo hi :
  is_u8 lo → is_u8 hi → Z.lor lo (u16 (Z.shiftl hi 8)) = lo + 2 ^ 8 * hi.
Proof.
  unfold is_u8. intros Hl Hh. rewrite u16_id.
  - apply lor_low_shiftl; lia.
  - unfold is_u16. rewrite Z.shiftl_mul_pow2 by lia. lia.
Qed.

Lemma words_sum_nonneg dat : wf_bytes dat → 0 <= words_sum dat.
Proof.
  induction dat as [|b|lo hi t IH] using pair_ind; simpl; [lia| |];
    rewrite ?wf_cons; unfold is_u8; [lia|]. intros (?&?&?). specialize (IH ltac:(done)). lia.
Qed.

Lemma words_sum_bound dat :
  wf_bytes dat → 2 * words_sum dat <= 65535 * (Z.of_nat (length dat) + 1).
Proof.
  induction dat as [|b|lo hi t IH] using pair_ind; simpl; [lia| |];
    rewrite ?wf_cons; unfold is_u8; [lia|]. intros (?&?&?). specialize (IH ltac:(done)). lia.
Qed.

Lemma checksum_loop_sum dat s :
  wf_bytes dat → checksum_loop (u32 s) dat = u32 (s + words_sum dat).
Proof.
  revert s.
  induction dat as [|b|lo hi t IH] using pair_ind; intros s; simpl; rewrite ?wf_cons.
  - intros _. by rewrite Z.add_0_r.
  - intros _. unfold u32. by rewrite Zplus_mod_idemp_l.
  - intros (?&?&?). rewrite word_of_bytes by done.
    replace (u32 (u32 s + (lo + 2 ^ 8 * hi))) with (u32 (s + (lo + 2 ^ 8 * hi)))
      by (unfold u32; by rewrite Zplus_mod_idemp_l).
    rewrite IH by done. f_equal. lia.
Qed.

(** The 16-bit one's complement residue of a sum: 0 for 0, else in 1..65535. *)
Definition ones_residue (s : Z) : Z := if s =? 0 then 0 else (s - 1) mod 65535 + 1.

Lemma ones_residue_range s : 0 <= ones_residue s <= 65535.
Proof. unfold ones_residue. bcase; [lia|]. pose proof (Z.mod_pos_bound (s - 1) 65535). lia. Qed.

Lemma ones_residue_mod s : ones_residue s mod 65535 = s mod 65535.
Proof.
  unfold ones_residue. bcase; [by subst|].
  rewrite Zplus_mod_idemp_l. f_equal. lia.
Qed.

Lemma fold16_residue s :
  is_u32 s →
  u16 (Z.lnot (u32 (u32 (Z.shiftr s 16 + Z.land s 0xffff)
                    + Z.shiftr (u32 (Z.shiftr s 16 + Z.land s 0xffff)) 16)))
  = 65535 - ones_residue s.
Proof.
  unfold is_u32. intros Hs. rewrite land_ffff, !Z.shiftr_div_pow2 by lia.
  set (q := s / 2 ^ 16). set (r := s mod 2 ^ 16).
  assert (Hq : s = 65536 * q + r) by (subst q r; apply Z.div_mod; lia).
  assert (Hr : 0 <= r < 65536) by (subst r; apply Z.mod_pos_bound; lia).
  clearbody q r. rewrite (u32_id (q + r)) by (unfold is_u32; lia).
  rewrite u32_id by (unfold is_u32; Z.to_euclidean_division_equations; lia).
  unfold Z.lnot, u16, ones_residue.
  bcase; Z.to_euclidean_division_equations; lia.
Qed.

Lemma checksum_value dat :
  wf_bytes dat → Z.of_nat (length dat) <= 0x20000 →
  calc_checksum dat = 65535 - ones_residue (words_sum dat).
Proof.
  intros W L. pose proof (words_sum_bound dat W). pose proof (words_sum_nonneg dat W).
  pose proof (checksum_loop_sum dat 0 W) as E. change (u32 0) with 0 in E.
  rewrite Z.add_0_l, u32_id in E by (unfold is_u32; lia).
  unfold calc_checksum. rewrite E. apply fold16_residue. unfold is_u32. lia.
Qed.

Lemma words_sum_app_one a b b' t :
  ∃ k, (k = 1 ∨ k = 256) ∧ words_sum (a ++ b' :: t) - words_sum (a ++ b :: t) = k * (b' - b).
Proof.
  induction a as [|x|lo hi a (k & Hk & IH)] using pair_ind; simpl.
  - exists 1. destruct t; lia.
  - exists 256. lia.
  - exists k. lia.
Qed.

Lemma ones_residue_separates s s' d k :
  (k = 1 ∨ k = 256) → 0 < Z.abs d < 256 → s' - s = k * d → ones_residue s ≠ ones_residue s'.
Proof.
  intros Hk Hd E R. apply (f_equal (λ z, z mod 65535)) in R.
  rewrite !ones_residue_mod in R. destruct Hk; subst k; Z.to_euclidean_division_equations; lia.
Qed.

Lemma replicate_ff_sum n : words_sum (replicate (2 * n) 0xFF) = 65535 * Z.of_nat n.
Proof.
  induction n as [|n IH]; [done|].
  replace (2 * S n)%nat with (S (S (2 * n))) by lia. cbn [replicate words_sum]. lia.
Qed.

Lemma replicate_wf b n : is_u8 b → wf_bytes (replicate n b).
Proof. apply Forall_replicate. Qed.

(** ** Properties of the checksum *)

(** [calc_checksum] is the 16-bit one's complement checksum: on at most 128 KiB (no
    32-bit overflow) it is 65535 minus the end-around-carry sum of the little-endian words. *)
Theorem calc_checksum_ones_complement dat :
  wf_bytes dat → Z.of_nat (length dat) <= 0x20000 →
  calc_checksum dat = 65535 - ones_residue (words_sum dat).
Proof. apply checksum_value. Qed.

(** Corrupting one byte of an image of at most 128 KiB is always detected by [_chkNVEcc]. *)
Theorem chkNVEcc_detects_corrupt_byte a b b' t :
  wf_bytes (a ++ b :: t) → is_u8 b' → b' ≠ b → Z.of_nat (length (a ++ b :: t)) <= 0x20000 →
  _chkNVEcc (a ++ b' :: t) (calc_checksum (a ++ b :: t)) = false.
Proof.
  intros W W' N L. unfold _chkNVEcc. apply Z.eqb_neq.
  assert (Wb : wf_bytes (a ++ b' :: t)).
  { rewrite wf_app, wf_cons in *. tauto. }
  rewrite !checksum_value by (rewrite ?length_app in *; simpl in *; done || lia).
  rewrite u16_id by (unfold is_u16; pose proof (ones_residue_range (words_sum (a ++ b :: t))); lia).
  destruct (words_sum_app_one a b b' t) as (k & Hk & E).
  assert (is_u8 b) by (rewrite wf_app, wf_cons in W; tauto). unfold is_u8 in *.
  pose proof (ones_residue_separates _ _ (b' - b) k Hk ltac:(lia) E). lia.
Qed.

(** ** Properties of the image files *)

(** The file [ramDisk_Write] makes of an image. *)
Definition image_header (buf : bytes) : bytes :=
  header_bytes (NvHeader NV_HEAD_MAGIC (Z.of_nat (length buf)) (calc_checksum buf) NV_VERSION).
Definition image_file (buf : bytes) : bytes := image_header buf ++ buf.

Lemma length_header_bytes h : length (header_bytes h) = RAMNV_SECT_SIZE.
Proof. unfold header_bytes. by rewrite length_app, length_replicate. Qed.

Lemma length_image_file buf : length (image_file buf) = (RAMNV_SECT_SIZE + length buf)%nat.
Proof. unfold image_file, image_header. by rewrite length_app, length_header_bytes. Qed.

Lemma header_checksum_bytes h : header_checksum (header_bytes h) = u32 (checksum h).
Proof.
  unfold header_checksum, header_bytes.
  rewrite !(assoc_L app), <- !(assoc_L app), (assoc_L app (le32 (magic h))).
  pose proof (get32_le32 (le32 (magic h) ++ le32 (len h)) (checksum h)
    (le32 (version h) ++ replicate (RAMNV_SECT_SIZE - 16) 0)) as E.
  rewrite length_app, !length_le32 in E. simpl Nat.add in E. by rewrite E.
Qed.

Lemma calc_checksum_range dat : is_u16 (calc_checksum dat).
Proof. apply u16_range. Qed.

Lemma chk_own_header buf : _chkNVEcc buf (header_checksum (image_header buf)) = true.
Proof.
  unfold _chkNVEcc, image_header. rewrite header_checksum_bytes. cbn [checksum].
  pose proof (calc_checksum_range buf) as R. apply Z.eqb_eq.
  rewrite u32_id by (unfold is_u16, is_u32 in *; lia). by rewrite u16_id.
Qed.

Lemma read_image_file buf :
  read_image (image_file buf) (length buf)
  = (Z.of_nat RAMNV_SECT_SIZE, Z.of_nat (length buf), image_header buf, buf).
Proof.
  unfold read_image, image_file.
  assert (H : length (image_header buf) = RAMNV_SECT_SIZE) by apply length_header_bytes.
  rewrite (take_app_length' _ _ _ (eq_sym H)), drop_app_length, H, firstn_all.
  by rewrite !Nat.sub_diag, !app_nil_r.
Qed.

(** A strict prefix of an image file is never taken for the image. *)
Lemma read_image_torn buf k :
  (k < length (image_file buf))%nat →
  ∃ ret1 ret2 h b, read_image (take k (image_file buf)) (length buf) = (ret1, ret2, h, b)
    ∧ (ret1 ≠ Z.of_nat RAMNV_SECT_SIZE ∨ ret2 ≠ Z.of_nat (length buf)).
Proof.
  intros Hk. unfold read_image. do 4 eexists. split; [done|].
  rewrite length_image_file in Hk.
  rewrite !length_take, length_drop, !length_take, length_image_file. lia.
Qed.

Section nvfs_props.
Context (can_open : string → bool).

(** The effect of writing one image: the medium keeps as much as it has credit for. *)
Lemma write_image_disk path header buf ret w :
  can_open path = true →
  disk (write_image can_open path header buf ret w).2
  = match credit w with
    | O => disk w
    | S c => <[path := take c (header ++ buf)]> (disk w)
    end
  ∧ credit (write_image can_open path header buf ret w).2
    = (credit w - S (length (header ++ buf)))%nat
  ∧ rands (write_image can_open path header buf ret w).2 = rands w.
Proof.
  intros Ho. unfold write_image, open_trunc. rewrite Ho.
  destruct (credit w) as [|c] eqn:Ec; simpl.
  { rewrite Ec. split_and!; auto; lia. }
  unfold write. cbn [disk credit rands].
  rewrite !lookup_insert_eq, !insert_insert_eq. simpl. split_and!; [|rewrite length_app; lia|done].
  f_equal. rewrite take_app.
  destruct (decide (c <= length header)%nat).
  - rewrite Nat.min_r by lia. replace (c - length header)%nat with 0%nat by lia.
    by rewrite Nat.sub_diag, Nat.min_0_r.
  - rewrite Nat.min_l by lia. rewrite !(take_ge header) by lia. f_equal.
    destruct (decide (length buf <= c - length header)%nat).
    + rewrite Nat.min_l by lia. by rewrite !take_ge by lia.
    + rewrite Nat.min_r by lia. done.
Qed.

(** With credit for header and body both writes are complete. *)
Lemma write_image_ret path header buf ret w :
  can_open path = true → length header = RAMNV_SECT_SIZE →
  (S (length (header ++ buf)) <= credit w)%nat →
  (write_image can_open path header buf ret w).1 = ret.
Proof.
  intros Ho Hh Hc. unfold write_image, open_trunc. rewrite Ho.
  destruct (credit w) as [|c]; [lia|]. rewrite length_app in Hc.
  unfold write. cbn [disk credit rands fst].
  rewrite (Nat.min_l (length header)) by lia. rewrite (Nat.min_l (length buf)) by lia.
  rewrite Hh, !Nat.eqb_refl. by destruct ret.
Qed.

Lemma read_first_valid p buf w :
  open_rdwr can_open p w = Some (image_file buf) →
  read_first can_open p (length buf) w = inl buf.
Proof.
  intros E. unfold read_first. rewrite E, read_image_file.
  rewrite !Z.eqb_refl, chk_own_header. done.
Qed.

Lemma read_first_torn p buf k w :
  open_rdwr can_open p w = Some (take k (image_file buf)) →
  (k < length (image_file buf))%nat →
  ∃ r, read_first can_open p (length buf) w = inr r.
Proof.
  intros E Hk. unfold read_first. rewrite E.
  destruct (read_image_torn buf k Hk) as (ret1 & ret2 & h & b & -> & Hr).
  destruct (Z.eqb_spec (Z.of_nat RAMNV_SECT_SIZE) ret1); cbn [negb]; [|eauto].
  bdecide. eauto.
Qed.

Lemma read_second_valid p q buf r w :
  open_rdwr can_open q w = Some (image_file buf) →
  read_second can_open p q (length buf) r w
  = (buf, repair_first can_open p (image_header buf) buf w).
Proof.
  intros E. unfold read_second. rewrite E, read_image_file.
  by rewrite !Z.eqb_refl, chk_own_header.
Qed.
End nvfs_props.

(** ** Dual-image storage *)

(** A file that holds a complete image satisfying [X], and one cut short. *)
Definition intact (X : bytes → Prop) (size : nat) (content : bytes) : Prop :=
  ∃ b, X b ∧ length b = size ∧ content = image_file b.
Definition torn (size : nat) (content : bytes) : Prop :=
  ∃ b k, length b = size ∧ (k < length (image_file b))%nat ∧ content = take k (image_file b).

Lemma take_image_file (X : bytes → Prop) buf k :
  X buf → intact X (length buf) (take k (image_file buf)) ∨ torn (length buf) (take k (image_file buf)).
Proof.
  intros HX. destruct (decide (k < length (image_file buf))%nat).
  - right. by exists buf, k.
  - left. exists buf. by rewrite take_ge by lia.
Qed.

Lemma read_two_images can_open X p q size w cp cq :
  open_rdwr can_open p w = Some cp → open_rdwr can_open q w = Some cq →
  intact X size cp ∨ torn size cp → intact X size cq ∨ torn size cq →
  intact X size cp ∨ intact X size cq →
  ∃ b, X b ∧ length b = size ∧
    match read_first can_open p size w with
    | inl buf => buf = b
    | inr ret2 => (read_second can_open p q size ret2 w).1 = b
    end.
Proof.
  intros Ep Eq Hp Hq Hpq. destruct Hp as [(b & HX & <- & ->)|(b & k & Hb & Hk & ->)].
  - exists b. by rewrite (read_first_valid _ _ _ _ Ep).
  - assert (Hq' : intact X size cq).
    { destruct Hpq as [(b' & _ & Hb' & E)|]; [|done]. exfalso.
      apply (f_equal length) in E. rewrite length_take in E.
      rewrite !length_image_file in *. lia. }
    destruct Hq' as (b' & HX & <- & ->). exists b'.
    rewrite <- Hb. destruct (read_first_torn _ _ _ _ _ Ep Hk) as [r ->].
    rewrite Hb. by rewrite (read_second_valid _ _ _ _ _ _ Eq).
Qed.

Lemma ramDisk_Read_two_images can_open cfg h c X size w ci cb :
  part_cfg cfg h = Some c →
  can_open (image_path c) = true → can_open (imageBak_path c) = true →
  disk w !! image_path c = Some ci → disk w !! imageBak_path c = Some cb →
  intact X size ci ∨ torn size ci → intact X size cb ∨ torn size cb →
  intact X size ci ∨ intact X size cb →
  ∃ b, X b ∧ length b = size ∧ (ramDisk_Read can_open cfg h size w).1 = Some b.
Proof.
  intros Hc Oi Ob Di Db Hi Hb Hib. unfold ramDisk_Read. rewrite Hc.
  destruct (rand w) as [r w'] eqn:Er.
  assert (Dw : disk w' = disk w) by (unfold rand in Er; destruct (rands w); by simplify_eq).
  assert (Ei : open_rdwr can_open (image_path c) w' = Some ci)
    by (unfold open_rdwr; by rewrite Oi, Dw).
  assert (Eb : open_rdwr can_open (imageBak_path c) w' = Some cb)
    by (unfold open_rdwr; by rewrite Ob, Dw).
  destruct (Z.odd r).
  - destruct (read_two_images _ X _ _ size _ _ _ Ei Eb Hi Hb Hib) as (b & HX & HL & HR).
    exists b. split_and!; [done..|].
    destruct (read_first _ _ _ _); [by subst|]. destruct (read_second _ _ _ _ _ _); by subst.
  - destruct (read_two_images _ X _ _ size _ _ _ Eb Ei Hb Hi ltac:(tauto)) as (b & HX & HL & HR).
    exists b. split_and!; [done..|].
    destruct (read_first _ _ _ _); [by subst|]. destruct (read_second _ _ _ _ _ _); by subst.
Qed.

(** The two files after a write that the medium may cut short anywhere. *)
Lemma ramDisk_Write_disk can_open cfg h c buf w :
  part_cfg cfg h = Some c → image_path c ≠ imageBak_path c →
  can_open (image_path c) = true → can_open (imageBak_path c) = true →
  disk (ramDisk_Write can_open cfg h buf w).2 =
  match credit w with
  | O => disk w
  | S k =>
      let d := <[imageBak_path c := take k (image_file buf)]> (disk w) in
      match (credit w - S (length (image_file buf)))%nat with
      | O => d
      | S k' => <[image_path c := take k' (image_file buf)]> d
      end
  end.
Proof.
  intros Hc Hne Oi Ob. unfold ramDisk_Write. rewrite Hc.
  fold (image_header buf).
  destruct (write_image_disk can_open (imageBak_path c) (image_header buf) buf true w Ob)
    as (D1 & C1 & _).
  destruct (write_image can_open (imageBak_path c) (image_header buf) buf true w) as [ret w1].
  destruct (write_image_disk can_open (image_path c) (image_header buf) buf ret w1 Oi)
    as (D2 & C2 & _).
  cbn [snd] in *. fold (image_file buf) in *. rewrite D2, C1, D1.
  destruct (credit w); [done|]. done.
Qed.

(** C10. Power-loss safety. Both images of a partition hold [old]; [ramDisk_Write] of [new]
    is cut short after any number of elementary changes; whatever image the next
    [ramDisk_Read] tries first, it returns [old] or [new], never a mixture. *)
Theorem ramDisk_power_loss can_open cfg h c old new w n rs :
  part_cfg cfg h = Some c → image_path c ≠ imageBak_path c →
  can_open (image_path c) = true → can_open (imageBak_path c) = true →
  disk w !! image_path c = Some (image_file old) →
  disk w !! imageBak_path c = Some (image_file old) →
  length new = length old →
  let after := (ramDisk_Write can_open cfg h new w).2 in
  let reboot := World (disk after) n rs in
  (ramDisk_Read can_open cfg h (length old) reboot).1 = Some old
  ∨ (ramDisk_Read can_open cfg h (length old) reboot).1 = Some new.
Proof.
  intros Hc Hne Oi Ob Di Db HL after reboot.
  set (X := λ b, b = old ∨ b = new).
  assert (Io : intact X (length old) (image_file old)) by (exists old; split_and!; [by left|done|done]).
  assert (In : ∀ k, intact X (length old) (take k (image_file new)) ∨ torn (length old) (take k (image_file new))).
  { intros k. rewrite <- HL. apply take_image_file. by right. }
  enough (∃ b, X b ∧ length b = length old ∧ (ramDisk_Read can_open cfg h (length old) reboot).1 = Some b)
    as (b & [->| ->] & _ & ->) by auto.
  pose proof (ramDisk_Write_disk can_open cfg h c new w Hc Hne Oi Ob) as D.
  fold after in D. destruct (credit w) as [|k] eqn:Ek.
  { apply (ramDisk_Read_two_images _ _ _ c X _ _ (image_file old) (image_file old));
      cbn [reboot disk]; rewrite ?D; auto. }
  cbn zeta in D. destruct (S k - S (length (image_file new)))%nat as [|k'] eqn:Ek'.
  - apply (ramDisk_Read_two_images _ _ _ c X _ _ (image_file old) (take k (image_file new)));
      cbn [reboot disk]; rewrite ?D; auto.
    + by rewrite lookup_insert_ne by done.
    + apply lookup_insert_eq.
  - assert (Ib : intact X (length old) (image_file new))
      by (exists new; split_and!; [by right|done|done]).
    rewrite (take_ge (image_file new) k) in D by lia.
    apply (ramDisk_Read_two_images _ _ _ c X _ _ (take k' (image_file new)) (image_file new));
      cbn [reboot disk]; rewrite ?D; auto.
    + apply lookup_insert_eq.
    + rewrite lookup_insert_ne by done. apply lookup_insert_eq.
Qed.

(** With credit for both images the write is complete and reported as such. *)
Lemma ramDisk_Write_result can_open cfg h c buf w :
  part_cfg cfg h = Some c → image_path c ≠ imageBak_path c →
  can_open (image_path c) = true → can_open (imageBak_path c) = true →
  (2 * S (RAMNV_SECT_SIZE + length buf) <= credit w)%nat →
  let '(ret, w') := ramDisk_Write can_open cfg h buf w in
  ret = true
  ∧ disk w' = <[image_path c := image_file buf]> (<[imageBak_path c := image_file buf]> (disk w))
  ∧ (credit w - 2 * S (RAMNV_SECT_SIZE + length buf) <= credit w')%nat.
Proof.
  intros Hc Hne Oi Ob HC. unfold ramDisk_Write. rewrite Hc. fold (image_header buf).
  pose proof (length_image_file buf) as HL.
  assert (Hh : length (image_header buf) = RAMNV_SECT_SIZE) by apply length_header_bytes.
  pose proof (write_image_ret can_open (imageBak_path c) (image_header buf) buf true w Ob Hh) as R1.
  pose proof (write_image_disk can_open (imageBak_path c) (image_header buf) buf true w Ob)
    as (D1 & C1 & _).
  destruct (write_image can_open (imageBak_path c) (image_header buf) buf true w) as [ret w1].
  cbn [fst snd] in *. fold (image_file buf) in *. rewrite R1 by lia.
  pose proof (write_image_ret can_open (image_path c) (image_header buf) buf true w1 Oi Hh) as R2.
  pose proof (write_image_disk can_open (image_path c) (image_header buf) buf true w1 Oi)
    as (D2 & C2 & _).
  destruct (write_image can_open (image_path c) (image_header buf) buf true w1) as [ret2 w2].
  cbn [fst snd] in *. fold (image_file buf) in *.
  split_and!; [apply R2; lia| |lia]. rewrite D2, D1.
  destruct (credit w) as [|k]; [lia|]. destruct (credit w1) as [|k1]; [lia|].
  by rewrite !take_ge by lia.
Qed.

(** C36. Write/read round trip: with credit for both images [ramDisk_Write] reports success,
    leaves header and image in both files, and [ramDisk_Read] returns the image unchanged. *)
Theorem ramDisk_write_read can_open cfg h c buf w :
  part_cfg cfg h = Some c → image_path c ≠ imageBak_path c →
  can_open (image_path c) = true → can_open (imageBak_path c) = true →
  (2 * S (RAMNV_SECT_SIZE + length buf) <= credit w)%nat →
  let '(ret, w') := ramDisk_Write can_open cfg h buf w in
  ret = true
  ∧ disk w' = <[image_path c := image_file buf]> (<[imageBak_path c := image_file buf]> (disk w))
  ∧ (ramDisk_Read can_open cfg h (length buf) w').1 = Some buf.
Proof.
  intros Hc Hne Oi Ob HC.
  pose proof (ramDisk_Write_result can_open cfg h c buf w Hc Hne Oi Ob HC) as P.
  destruct (ramDisk_Write can_open cfg h buf w) as [ret w']. destruct P as (-> & D & _).
  split_and!; [done|done|].
  assert (I : intact (λ b, b = buf) (length buf) (image_file buf)) by by exists buf.
  destruct (ramDisk_Read_two_images can_open cfg h c (λ b, b = buf) (length buf) w'
    (image_file buf) (image_file buf)) as (b & -> & _ & ->); auto.
  - rewrite D. apply lookup_insert_eq.
  - rewrite D, lookup_insert_ne by done. apply lookup_insert_eq.
Qed.

(** Reading never reports failure: with neither image readable [ramDisk_Read] still
    returns 1, with a buffer of 0xFF bytes, and changes no file. *)
Theorem ramDisk_Read_unreadable can_open cfg h c size w :
  part_cfg cfg h = Some c → 0 < Z.of_nat size →
  open_rdwr can_open (image_path c) w = None →
  open_rdwr can_open (imageBak_path c) w = None →
  (ramDisk_Read can_open cfg h size w).1 = Some (replicate size 0xFF)
  ∧ disk (ramDisk_Read can_open cfg h size w).2 = disk w.
Proof.
  intros Hc Hs Ei Eb. unfold ramDisk_Read. rewrite Hc.
  destruct (rand w) as [r w'] eqn:Er.
  assert (Dw : disk w' = disk w) by (unfold rand in Er; destruct (rands w); by simplify_eq).
  unfold open_rdwr in *. rewrite <- Dw in Ei, Eb.
  destruct (Z.odd r); unfold read_first, read_second, open_rdwr;
    rewrite Ei, Eb; bdecide; done.
Qed.

Lemma blank_checksum n :
  (0 < n)%nat → Z.of_nat n <= 0x10000 → calc_checksum (replicate (2 * n) 0xFF) = 0.
Proof.
  intros. rewrite checksum_value.
  - rewrite replicate_ff_sum. unfold ones_residue. bcase; [lia|].
    Z.to_euclidean_division_equations. lia.
  - apply replicate_wf. unfold is_u8. lia.
  - rewrite length_replicate. lia.
Qed.

(** A blank image passes the check: when the first image has the right length but a bad
    checksum and the second cannot be opened, the length left over from the first read and
    the checksum 0 of the zeroed header make [ramDisk_Read] accept the 0xFF fill, and it
    overwrites the only copy on disk with a zero header and 0xFF bytes. *)
Theorem ramDisk_Read_blanks_only_copy can_open cfg h c header body n w r rs :
  part_cfg cfg h = Some c → image_path c ≠ imageBak_path c → can_open (image_path c) = true →
  (0 < n)%nat → Z.of_nat n <= 0x10000 → length header = RAMNV_SECT_SIZE → length body = (2 * n)%nat →
  disk w !! image_path c = Some (header ++ body) →
  _chkNVEcc body (header_checksum header) = false →
  open_rdwr can_open (imageBak_path c) w = None →
  rands w = r :: rs → Z.odd r = true → (S (RAMNV_SECT_SIZE + 2 * n) <= credit w)%nat →
  let '(res, w') := ramDisk_Read can_open cfg h (2 * n) w in
  res = Some (replicate (2 * n) 0xFF)
  ∧ disk w' !! image_path c
    = Some (replicate RAMNV_SECT_SIZE 0 ++ replicate (2 * n) 0xFF).
Proof.
  intros Hc Hne Oi Hn Hn' Hh Hb Di Hbad Eb Hr Ho HC.
  unfold ramDisk_Read. rewrite Hc. unfold rand. rewrite Hr, Ho.
  set (w1 := World (disk w) (credit w) rs).
  assert (Ei : open_rdwr can_open (image_path c) w1 = Some (header ++ body))
    by (unfold open_rdwr; by rewrite Oi).
  assert (Er : read_image (header ++ body) (2 * n)
    = (Z.of_nat RAMNV_SECT_SIZE, Z.of_nat (2 * n), header, body)).
  { unfold read_image. rewrite (take_app_length' _ _ _ (eq_sym Hh)), drop_app_length, <- Hb, firstn_all.
    by rewrite Hh, !Nat.sub_diag, !app_nil_r. }
  assert (E1 : read_first can_open (image_path c) (2 * n) w1 = inr (Z.of_nat (2 * n))).
  { unfold read_first. by rewrite Ei, Er, !Z.eqb_refl, Hbad. }
  rewrite E1. unfold read_second.
  change (open_rdwr can_open (imageBak_path c) w1) with (open_rdwr can_open (imageBak_path c) w).
  rewrite Eb, Z.eqb_refl. cbn [negb].
  assert (K : _chkNVEcc (replicate (2 * n) 255) (header_checksum (replicate RAMNV_SECT_SIZE 0)) = true).
  { unfold _chkNVEcc. by rewrite blank_checksum by done. }
  rewrite K. cbn [negb]. split; [done|].
  pose proof (write_image_disk can_open (image_path c) (replicate RAMNV_SECT_SIZE 0)
    (replicate (2 * n) 255) true w1 Oi) as (D & _ & _).
  unfold write_image in D. unfold repair_first.
  destruct (open_trunc can_open (image_path c) w1) as [w2|].
  - destruct (write _ _ w2) as [n1 w3]. destruct (write _ _ w3) as [n2 w4]. cbn [snd] in D.
    rewrite D. cbn [w1 credit]. destruct (credit w) as [|k]; [lia|].
    rewrite lookup_insert_eq, take_ge; [done|].
    rewrite length_app, !length_replicate. lia.
  - exfalso. cbn [snd w1 disk credit] in D. destruct (credit w) as [|k]; [lia|].
    apply (f_equal (.!! image_path c)) in D. rewrite lookup_insert_eq, Di in D.
    simplify_eq. rewrite take_ge in D by (rewrite length_app, !length_replicate; lia).
    apply app_inj_1 in D as [-> ->]; [|by rewrite Hh, length_replicate].
    congruence.
Qed.

(** [ramDisk_Write] answers success (1) when neither image file can be opened, although
    nothing is written. *)
Theorem ramDisk_Write_unopenable can_open cfg h c buf w :
  part_cfg cfg h = Some c →
  can_open (image_path c) = false → can_open (imageBak_path c) = false →
  ramDisk_Write can_open cfg h buf w = (true, w).
Proof.
  intros Hc Oi Ob. unfold ramDisk_Write. rewrite Hc.
  unfold write_image, open_trunc. by rewrite Oi, Ob.
Qed.

(** ** Witnesses: a two-file configuration with short images *)

Definition ex_paths : nv_paths := NvPaths "f1" "f2" "r1" "r2" 4 4.
Definition ex_cfg : list RAM_NV_CONFIG := ramDisk_Init ex_paths.
Definition ex_part : RAM_NV_CONFIG := NvConfig 1 "f1" "f2" 4.
Definition ex_old : bytes := [1; 2; 3; 4].
Definition ex_new : bytes := [9; 9; 9; 9].
Definition ex_world (n : nat) : world :=
  World {["f1"%string := image_file ex_old; "f2"%string := image_file ex_old]} n [1].
Definition ex_all : string → bool := λ _, true.

Lemma calc_checksum_ones_complement_witness :
  calc_checksum ex_old = 65535 - ones_residue (words_sum ex_old).
Proof.
  apply calc_checksum_ones_complement; [|vm_compute; discriminate].
  unfold ex_old. rewrite !wf_cons. unfold is_u8. repeat split; try lia. constructor.
Defined.

Lemma chkNVEcc_detects_corrupt_byte_witness :
  _chkNVEcc ([1; 2] ++ 7 :: [4]) (calc_checksum ([1; 2] ++ 3 :: [4])) = false.
Proof.
  apply chkNVEcc_detects_corrupt_byte.
  - simpl. rewrite !wf_cons. unfold is_u8. repeat split; try lia. constructor.
  - unfold is_u8. lia.
  - discriminate.
  - vm_compute. discriminate.
Defined.

Lemma ramDisk_power_loss_witness :
  (ramDisk_Read ex_all ex_cfg 1 4
     (World (disk (ramDisk_Write ex_all ex_cfg 1 ex_new (ex_world 600)).2) 2000 [0])).1 = Some ex_old
  ∨ (ramDisk_Read ex_all ex_cfg 1 4
     (World (disk (ramDisk_Write ex_all ex_cfg 1 ex_new (ex_world 600)).2) 2000 [0])).1 = Some ex_new.
Proof.
  apply (ramDisk_power_loss ex_all ex_cfg 1 ex_part ex_old ex_new (ex_world 600) 2000 [0]);
    try reflexivity. discriminate.
Defined.

Lemma ramDisk_write_read_witness :
  let '(ret, w') := ramDisk_Write ex_all ex_cfg 1 ex_new (ex_world 1100) in
  ret = true
  ∧ disk w' = <["f1"%string := image_file ex_new]>
      (<["f2"%string := image_file ex_new]> (disk (ex_world 1100)))
  ∧ (ramDisk_Read ex_all ex_cfg 1 4 w').1 = Some ex_new.
Proof.
  apply (ramDisk_write_read ex_all ex_cfg 1 ex_part ex_new (ex_world 1100)); try reflexivity.
  - discriminate.
  - vm_compute. lia.
Defined.

Lemma ramDisk_Read_unreadable_witness :
  (ramDisk_Read ex_all ex_cfg 1 4 (World ∅ 0 [])).1 = Some (replicate 4 0xFF)
  ∧ disk (ramDisk_Read ex_all ex_cfg 1 4 (World ∅ 0 [])).2 = ∅.
Proof.
  apply (ramDisk_Read_unreadable ex_all ex_cfg 1 ex_part); reflexivity.
Defined.

Lemma ramDisk_Read_blanks_only_copy_witness :
  let w := World {["f1"%string := image_header ex_old ++ [1; 2; 3; 5]]} 600 [1] in
  let '(res, w') := ramDisk_Read ex_all ex_cfg 1 4 w in
  res = Some (replicate 4 0xFF)
  ∧ disk w' !! "f1"%string = Some (replicate RAMNV_SECT_SIZE 0 ++ replicate 4 0xFF).
Proof.
  apply (ramDisk_Read_blanks_only_copy ex_all ex_cfg 1 ex_part (image_header ex_old) [1; 2; 3; 5] 2
           _ 1 []); try reflexivity; try discriminate; simpl; unfold RAMNV_SECT_SIZE; lia.
Defined.

Lemma ramDisk_Write_unopenable_witness :
  ramDisk_Write (λ _, false) ex_cfg 1 ex_new (ex_world 0) = (true, ex_world 0).
Proof. apply (ramDisk_Write_unopenable _ _ _ ex_part); reflexivity. Defined.
