(* ===== verification/NvBuf.v ===== *)
(** * Partition buffers of the NV daemon (ril/scx15/nvitemd/nvitem_buf.c)

    Every partition has three copies of its image, each with a dirty table of
    one bit per sector: [fromChannel] (written by the packets of a request),
    [backup] (the last complete request) and [toDisk] (what the save task
    writes).  Operations are functions on the control table; [None] is
    undefined behaviour (an access outside an array, a shift by 32). *)

From stdpp Require Import gmap strings.
From S2P Require Import Prelude NvFs.

Definition RAMNV_DIRTYTABLE_MAXSIZE : nat := 32.

Record _RAMNV_BUF_CTRL := BufCtrl { diskbuf : bytes; dirty : list Z }.

Record _RAMNV_PART_CTRL := PartCtrl {
  part_partId : Z;
  sctNum : Z;
  fromChannel : _RAMNV_BUF_CTRL;
  backup : _RAMNV_BUF_CTRL;
  toDisk : _RAMNV_BUF_CTRL;
  fdhandle : Z }.

Record _RAMNV_CTL := NvCtl { partNum : nat; part : list _RAMNV_PART_CTRL }.

Definition set_fromChannel (b : _RAMNV_BUF_CTRL) (p : _RAMNV_PART_CTRL) : _RAMNV_PART_CTRL :=
  PartCtrl (part_partId p) (sctNum p) b (backup p) (toDisk p) (fdhandle p).
Definition set_backup (b : _RAMNV_BUF_CTRL) (p : _RAMNV_PART_CTRL) : _RAMNV_PART_CTRL :=
  PartCtrl (part_partId p) (sctNum p) (fromChannel p) b (toDisk p) (fdhandle p).
Definition set_toDisk (b : _RAMNV_BUF_CTRL) (p : _RAMNV_PART_CTRL) : _RAMNV_PART_CTRL :=
  PartCtrl (part_partId p) (sctNum p) (fromChannel p) (backup p) b (fdhandle p).

(** [ramNvCtl.part[id]] updated in place. *)
Definition upd_part (id : Z) (f : _RAMNV_PART_CTRL → option _RAMNV_PART_CTRL) (c : _RAMNV_CTL)
  : option _RAMNV_CTL :=
  p ← part c !! Z.to_nat id;
  p' ← f p;
  Some (NvCtl (partNum c) (<[Z.to_nat id := p']> (part c))).

(** [memcpy (dst, src, n)] between two image buffers. *)
Definition memcpy_image (n : nat) (src dst : bytes) : option bytes :=
  s ← slice 0 n src; splice 0 s dst.

Definition image_bytes (p : _RAMNV_PART_CTRL) : nat :=
  Z.to_nat (u32 (Z.of_nat RAMNV_SECT_SIZE * sctNum p)).

Definition clean_table : list Z := replicate RAMNV_DIRTYTABLE_MAXSIZE 0.

(** ** [initBuf] *)

Definition part_reset (p : _RAMNV_PART_CTRL) : _RAMNV_PART_CTRL :=
  PartCtrl (part_partId p) 0
    (BufCtrl (diskbuf (fromChannel p)) clean_table)
    (BufCtrl (diskbuf (backup p)) clean_table)
    (BufCtrl (diskbuf (toDisk p)) clean_table) (fdhandle p).

Section nvbuf.
Context (can_open : string → bool).
(** The unspecified contents of a freshly allocated block. *)
Context (malloc : nat → bytes).

(** One turn of the [while (config->partId)] loop for slot [i]. *)
Definition init_part (cfg : list RAM_NV_CONFIG) (config : RAM_NV_CONFIG)
    (p : _RAMNV_PART_CTRL) (w : world) : option (bool * _RAMNV_PART_CTRL * world) :=
  let h := ramDisk_Open (partId config) in
  if 0 =? h then Some (false, p, w)
  else
    let n := Z.to_nat (image_size config) in
    let '(r, w) := ramDisk_Read can_open cfg h n w in
    match r with
    | None =>
        Some (false, PartCtrl (partId config) (image_size config / Z.of_nat RAMNV_SECT_SIZE)
                (BufCtrl [] (dirty (fromChannel p))) (BufCtrl [] (dirty (backup p)))
                (BufCtrl [] (dirty (toDisk p))) h, w)
    | Some image =>
        from ← splice 0 image (malloc (n + 4));
        Some (true, PartCtrl (partId config) (image_size config / Z.of_nat RAMNV_SECT_SIZE)
                (BufCtrl from (dirty (fromChannel p))) (BufCtrl from (dirty (backup p)))
                (BufCtrl from (dirty (toDisk p))) h, w)
    end.

(** The loop over the configuration entries, [i] being the next free slot. *)
Fixpoint init_loop (cfg todo : list RAM_NV_CONFIG) (i : nat) (c : _RAMNV_CTL) (w : world)
  : option (_RAMNV_CTL * world) :=
  match todo with
  | [] => None
  | config :: rest =>
      if partId config =? 0 then Some (c, w)
      else
        p ← part c !! i;
        '(ok, p', w') ← init_part cfg config p w;
        let c' := NvCtl (if (ok : bool) then S (partNum c) else partNum c) (<[i := p']> (part c)) in
        init_loop cfg rest (if ok then S i else i) c' w'
  end.

Definition initBuf (g : nv_paths) (c : _RAMNV_CTL) (w : world) : option (_RAMNV_CTL * world) :=
  let c := NvCtl 0 (part_reset <$> part c) in
  let cfg := ramDisk_Init g in
  init_loop cfg cfg 0 c w.

(** ** [uninitBuf] *)

Definition part_free (p : _RAMNV_PART_CTRL) : _RAMNV_PART_CTRL :=
  PartCtrl (part_partId p) 0 (BufCtrl [] (dirty (fromChannel p)))
    (BufCtrl [] (dirty (backup p))) (BufCtrl [] (dirty (toDisk p))) (fdhandle p).

Definition uninitBuf (c : _RAMNV_CTL) : _RAMNV_CTL :=
  NvCtl 0 ((part_free <$> take (partNum c) (part c)) ++ drop (partNum c) (part c)).

(** ** [getCtlId]; [None] is (uint32)-1. *)

Fixpoint getCtlId_from (i n : nat) (ps : list _RAMNV_PART_CTRL) (id : Z) : option nat :=
  match n, ps with
  | S n', p :: rest =>
      if id =? part_partId p then Some i else getCtlId_from (S i) n' rest id
  | _, _ => None
  end.

Definition getCtlId (c : _RAMNV_CTL) (id : Z) : option nat :=
  getCtlId_from 0 (partNum c) (part c) id.

(** ** [_markDirtyInfo] *)

Definition _U32MASK : Z := 2 ^ 32 - 1.

Fixpoint mark_loop (fuel : nat) (tab : list Z) (_bytes _bits scts : Z) : option (list Z) :=
  if u32 (32 - _bits) <? scts then
    match fuel with
    | O => None
    | S fuel' =>
        word ← tab !! Z.to_nat _bytes;
        mark_loop fuel'
          (<[Z.to_nat _bytes := Z.lor word (u32 (Z.shiftl _U32MASK _bits))]> tab)
          (_bytes + 1) 0 (u32 (scts - (32 - _bits)))
    end
  else if scts =? 0 then None
  else
    word ← tab !! Z.to_nat _bytes;
    Some (<[Z.to_nat _bytes :=
            Z.lor word (u32 (Z.shiftl (Z.shiftr _U32MASK (32 - scts)) _bits))]> tab).

(** The table has 32 words, so a 33rd turn would already be outside it. *)
Definition mark_table (tab : list Z) (start scts : Z) : option (list Z) :=
  let _bytes := Z.shiftr start 5 in
  let _bits := u32 (start - Z.shiftl _bytes 5) in
  mark_loop (S RAMNV_DIRTYTABLE_MAXSIZE) tab _bytes _bits scts.

Definition _markDirtyInfo (id start scts : Z) : _RAMNV_CTL → option _RAMNV_CTL :=
  upd_part id (λ p,
    tab ← mark_table (dirty (fromChannel p)) start scts;
    Some (set_fromChannel (BufCtrl (diskbuf (fromChannel p)) tab) p)).

Definition table_dirty (tab : list Z) : bool := existsb (λ d, negb (d =? 0)) tab.

Definition __ifHasDirty (id : Z) (c : _RAMNV_CTL) : option bool :=
  p ← part c !! Z.to_nat id; Some (table_dirty (dirty (backup p))).

(** ** [writeData]: [buf] is the [bytesLen] bytes copied. *)
Definition writeData (id start : Z) (buf : bytes) : _RAMNV_CTL → option _RAMNV_CTL :=
  match buf with
  | [] => Some
  | _ => upd_part id (λ p,
      d ← splice (Z.to_nat start) buf (diskbuf (fromChannel p));
      Some (set_fromChannel (BufCtrl d (dirty (fromChannel p))) p))
  end.

Definition or_table (t1 t2 : list Z) : list Z := zip_with Z.lor t1 t2.

(** The part of [backupData] under the mutex. *)
Definition backup_copy (id : Z) : _RAMNV_CTL → option _RAMNV_CTL :=
  upd_part id (λ p,
    d ← memcpy_image (image_bytes p) (diskbuf (fromChannel p)) (diskbuf (backup p));
    Some (set_backup (BufCtrl d (or_table (dirty (backup p)) (dirty (fromChannel p)))) p)).

Definition restoreData (id : Z) : _RAMNV_CTL → option _RAMNV_CTL :=
  upd_part id (λ p,
    d ← memcpy_image (image_bytes p) (diskbuf (backup p)) (diskbuf (fromChannel p));
    Some (set_fromChannel (BufCtrl d (dirty (backup p))) p)).

Definition __getData (id : Z) : _RAMNV_CTL → option _RAMNV_CTL :=
  upd_part id (λ p,
    d ← memcpy_image (image_bytes p) (diskbuf (backup p)) (diskbuf (toDisk p));
    Some (set_backup (BufCtrl (diskbuf (backup p)) clean_table)
           (set_toDisk (BufCtrl d (or_table (dirty (toDisk p)) (dirty (backup p)))) p))).

Definition clean_toDisk (id : Z) : _RAMNV_CTL → option _RAMNV_CTL :=
  upd_part id (λ p, Some (set_toDisk (BufCtrl (diskbuf (toDisk p)) clean_table) p)).

(** [ramDisk_Write] of the [toDisk] copy, and the cleaning of its table on success. *)
Definition write_part (cfg : list RAM_NV_CONFIG) (id : Z) (c : _RAMNV_CTL) (w : world)
  : option (_RAMNV_CTL * world) :=
  p ← part c !! Z.to_nat id;
  buf ← slice 0 (image_bytes p) (diskbuf (toDisk p));
  let '(ok, w') := ramDisk_Write can_open cfg (fdhandle p) buf w in
  if (ok : bool) then c' ← clean_toDisk id c; Some (c', w') else Some (c, w').

(** The body of the loop of [saveToDisk]. *)
Definition save_part (cfg : list RAM_NV_CONFIG) (id : Z) (c : _RAMNV_CTL) (w : world)
  : option (_RAMNV_CTL * world) :=
  d ← __ifHasDirty id c;
  if (d : bool) then c' ← __getData id c; write_part cfg id c' w else Some (c, w).

Fixpoint save_loop (cfg : list RAM_NV_CONFIG) (n : nat) (id : Z) (c : _RAMNV_CTL) (w : world)
  : option (_RAMNV_CTL * world) :=
  match n with
  | O => Some (c, w)
  | S n' => '(c', w') ← save_part cfg id c w; save_loop cfg n' (id + 1) c' w'
  end.

Definition saveToDisk (cfg : list RAM_NV_CONFIG) (c : _RAMNV_CTL) (w : world)
  : option (_RAMNV_CTL * world) :=
  save_loop cfg (partNum c) 0 c w.
End nvbuf.

(** ** The daemon's threads (nvitem_os.c, pSaveTask)

    The save task blocks in [waiteEvent], and once woken runs [saveToDisk].
    [giveEvent] is [pthread_cond_signal]: it wakes a task that waits and is
    otherwise without effect.  The steps of the task between two locks are
    separate, so that requests can run in between. *)

Inductive save_task :=
  | SvIdle                 (* not waiting: before [waiteEvent] *)
  | SvWait                 (* blocked in [waiteEvent] *)
  | SvScan (id : Z)        (* in [saveToDisk], before the test of partition [id] *)
  | SvWrite (id : Z).      (* after [__getData (id)], before [ramDisk_Write] *)

Record nv_state := NvState { ctl : _RAMNV_CTL; os : world; task : save_task }.

Definition giveEvent (s : nv_state) : nv_state :=
  match task s with
  | SvWait => NvState (ctl s) (os s) (SvScan 0)
  | _ => s
  end.

Section nvtask.
Context (can_open : string → bool) (cfg : list RAM_NV_CONFIG).

(** One step of [pSaveTask]; [SvWait] only moves by [giveEvent], which a spurious wake-up acts like. *)
Definition task_step (s : nv_state) : option nv_state :=
  match task s with
  | SvIdle => Some (NvState (ctl s) (os s) SvWait)
  | SvWait => Some s
  | SvScan id =>
      if id <? Z.of_nat (partNum (ctl s)) then
        d ← __ifHasDirty id (ctl s);
        if (d : bool) then c ← __getData id (ctl s); Some (NvState c (os s) (SvWrite id))
        else Some (NvState (ctl s) (os s) (SvScan (id + 1)))
      else Some (NvState (ctl s) (os s) SvIdle)
  | SvWrite id =>
      '(c, w) ← write_part can_open cfg id (ctl s) (os s);
      Some (NvState c w (SvScan (id + 1)))
  end.

(** [backupData]: in calibration mode the caller saves at once, else the task is woken. *)
Definition backupData (is_cali_mode : bool) (id : Z) (s : nv_state) : option (bool * nv_state) :=
  c ← backup_copy id (ctl s);
  if is_cali_mode then
    '(c', w') ← saveToDisk can_open cfg c (os s);
    Some (true, NvState c' w' (task s))
  else Some (true, giveEvent (NvState c (os s) (task s))).

Fixpoint task_steps (n : nat) (s : nv_state) : option nv_state :=
  match n with
  | O => Some s
  | S n' => s' ← task_step s; task_steps n' s'
  end.
End nvtask.

(** ** The dirty table *)

(** Bit [j] of a table: sector [j] is dirty. *)
Definition dirty_bit (tab : list Z) (j : Z) : bool :=
  Z.testbit (default 0 (tab !! Z.to_nat (j / 32))) (j mod 32).

Lemma testbit_u32 z i : 0 <= i < 32 → Z.testbit (u32 z) i = Z.testbit z i.
Proof. intros. unfold u32. apply Z.mod_pow2_bits_low. lia. Qed.

Lemma testbit_u32mask i : 0 <= i → Z.testbit _U32MASK i = (i <? 32).
Proof.
  intros. change _U32MASK with (Z.ones 32). rewrite Z.testbit_ones_nonneg by lia. done.
Qed.

Lemma mask_from_spec b i : 0 <= b → 0 <= i < 32 →
  Z.testbit (u32 (Z.shiftl _U32MASK b)) i = (b <=? i).
Proof.
  intros. rewrite testbit_u32 by done.
  destruct (Z.leb_spec b i).
  - rewrite Z.shiftl_spec_high, testbit_u32mask by lia. apply Z.ltb_lt. lia.
  - by rewrite Z.shiftl_spec_low by lia.
Qed.

Lemma mask_range_spec b s i : 0 <= b → 0 < s <= 32 → 0 <= i < 32 →
  Z.testbit (u32 (Z.shiftl (Z.shiftr _U32MASK (32 - s)) b)) i = (b <=? i) && (i <? b + s).
Proof.
  intros. rewrite testbit_u32 by done.
  destruct (Z.leb_spec b i); simpl.
  - rewrite Z.shiftl_spec_high, Z.shiftr_spec, testbit_u32mask by lia.
    apply eq_true_iff_eq. rewrite !Z.ltb_lt. lia.
  - by rewrite Z.shiftl_spec_low by lia.
Qed.

(** Or-ing a mask into one word changes exactly that word's bits. *)
Lemma dirty_bit_or tab b x mask j (sel : Z → bool) :
  tab !! Z.to_nat b = Some x → 0 <= b → 0 <= j →
  (∀ i, 0 <= i < 32 → Z.testbit mask i = sel (32 * b + i)) →
  dirty_bit (<[Z.to_nat b := Z.lor x mask]> tab) j
  = dirty_bit tab j || ((j / 32 =? b) && sel j).
Proof.
  intros E Hb Hj Hm. unfold dirty_bit. pose proof (Z.mod_pos_bound j 32 ltac:(lia)).
  destruct (Z.eqb_spec (j / 32) b) as [<-|Hne]; simpl.
  - rewrite list_lookup_insert_eq by (by eapply lookup_lt_Some). rewrite E. simpl.
    rewrite Z.lor_spec, Hm by done. f_equal. f_equal. pose proof (Z.div_mod j 32 ltac:(lia)). lia.
  - assert (0 <= j / 32) by (apply Z.div_pos; lia).
    rewrite list_lookup_insert_ne by lia. by rewrite orb_false_r.
Qed.

Definition marked (lo n j : Z) : bool := (lo <=? j) && (j <? lo + n).

Lemma mark_loop_spec fuel tab b bits n :
  length tab = RAMNV_DIRTYTABLE_MAXSIZE → 0 <= b → 0 <= bits < 32 → 0 <= n < 2 ^ 32 →
  32 < Z.of_nat fuel + b →
  if (0 <? n) && (32 * b + bits + n <=? 1024) then
    ∃ tab', mark_loop fuel tab b bits n = Some tab' ∧ length tab' = RAMNV_DIRTYTABLE_MAXSIZE
      ∧ ∀ j, 0 <= j → dirty_bit tab' j = dirty_bit tab j || marked (32 * b + bits) n j
  else mark_loop fuel tab b bits n = None.
Proof.
  unfold RAMNV_DIRTYTABLE_MAXSIZE.
  revert tab b bits n. induction fuel as [|fuel IH]; intros tab b bits n HT Hb Hbits Hn HF;
    cbn [mark_loop]; rewrite (u32_id (32 - bits)) by (unfold is_u32; lia).
  { destruct (tab !! Z.to_nat b) eqn:E; [apply lookup_lt_Some in E; lia|].
    simpl. destruct (Z.ltb_spec 0 n), (Z.leb_spec (32 * b + bits + n) 1024); simpl; try lia;
      repeat bcase; done. }
  destruct (Z.ltb_spec (32 - bits) n) as [Hlt|Hge].
  - destruct (tab !! Z.to_nat b) as [x|] eqn:E; cbn [mbind option_bind].
    + apply lookup_lt_Some in E as HL.
      specialize (IH (<[Z.to_nat b := Z.lor x (u32 (Z.shiftl _U32MASK bits))]> tab)
        (b + 1) 0 (n - (32 - bits))).
      rewrite (u32_id (n - (32 - bits))) by (unfold is_u32; lia).
      rewrite length_insert in IH. specialize (IH HT ltac:(lia) ltac:(lia) ltac:(lia) ltac:(lia)).
      replace (32 * (b + 1) + 0 + (n - (32 - bits))) with (32 * b + bits + n) in IH by lia.
      destruct (Z.ltb_spec 0 n), (Z.leb_spec (32 * b + bits + n) 1024); simpl; try lia;
        destruct (Z.ltb_spec 0 (n - (32 - bits))); simpl in IH; try lia; [|done].
      destruct IH as (tab' & -> & HL' & HS). exists tab'. split_and!; [done..|].
      intros j Hj. rewrite HS by done.
      rewrite (dirty_bit_or tab b x _ j (λ z, 32 * b + bits <=? z)); [|done..|].
      * rewrite <- orb_assoc. f_equal. unfold marked.
        apply eq_true_iff_eq. rewrite !orb_true_iff, !andb_true_iff, !Z.leb_le, !Z.ltb_lt, Z.eqb_eq.
        Z.to_euclidean_division_equations. lia.
      * intros i Hi. rewrite mask_from_spec by lia.
        apply eq_true_iff_eq. rewrite !Z.leb_le. lia.
    + apply lookup_ge_None in E.
      destruct (Z.ltb_spec 0 n), (Z.leb_spec (32 * b + bits + n) 1024); simpl; try lia; done.
  - destruct (Z.eqb_spec n 0) as [->|Hn0]; [done|].
    destruct (tab !! Z.to_nat b) as [x|] eqn:E; cbn [mbind option_bind].
    + apply lookup_lt_Some in E as HL.
      destruct (Z.ltb_spec 0 n), (Z.leb_spec (32 * b + bits + n) 1024); simpl; try lia.
      eexists. split_and!; [done|by rewrite length_insert|].
      intros j Hj. rewrite (dirty_bit_or tab b x _ j (marked (32 * b + bits) n)); [|done..|].
      * f_equal. unfold marked. apply eq_true_iff_eq.
        rewrite !andb_true_iff, !Z.leb_le, !Z.ltb_lt, Z.eqb_eq.
        Z.to_euclidean_division_equations. lia.
      * intros i Hi. rewrite mask_range_spec by lia. unfold marked. f_equal.
        -- apply eq_true_iff_eq. rewrite !Z.leb_le. lia.
        -- apply eq_true_iff_eq. rewrite !Z.ltb_lt. lia.
    + apply lookup_ge_None in E.
      destruct (Z.ltb_spec 0 n), (Z.leb_spec (32 * b + bits + n) 1024); simpl; try lia; done.
Qed.

(** The table update of [_markDirtyInfo]. *)
Lemma mark_table_spec tab start scts :
  length tab = RAMNV_DIRTYTABLE_MAXSIZE → is_u32 start → is_u32 scts →
  if (0 <? scts) && (start + scts <=? 1024) then
    ∃ tab', mark_table tab start scts = Some tab' ∧ length tab' = RAMNV_DIRTYTABLE_MAXSIZE
      ∧ ∀ j, 0 <= j → dirty_bit tab' j = dirty_bit tab j || marked start scts j
  else mark_table tab start scts = None.
Proof.
  unfold is_u32. intros HT Hs Hn.
  assert (E : start = 32 * Z.shiftr start 5 + u32 (start - Z.shiftl (Z.shiftr start 5) 5)
    ∧ 0 <= u32 (start - Z.shiftl (Z.shiftr start 5) 5) < 32 ∧ 0 <= Z.shiftr start 5).
  { rewrite Z.shiftl_mul_pow2, Z.shiftr_div_pow2 by lia. change (2 ^ 5) with 32.
    rewrite u32_id by (unfold is_u32; Z.to_euclidean_division_equations; lia).
    Z.to_euclidean_division_equations. lia. }
  destruct E as (E & Hb & Hq).
  pose proof (mark_loop_spec (S RAMNV_DIRTYTABLE_MAXSIZE) tab (Z.shiftr start 5)
    (u32 (start - Z.shiftl (Z.shiftr start 5) 5)) scts HT Hq Hb Hn) as P.
  rewrite <- E in P. apply P. unfold RAMNV_DIRTYTABLE_MAXSIZE. lia.
Qed.

(** ** Well-formed control tables *)

Record wf_buf (n : nat) (b : _RAMNV_BUF_CTRL) : Prop := {
  wf_disk : length (diskbuf b) = n;
  wf_dirty : length (dirty b) = RAMNV_DIRTYTABLE_MAXSIZE }.

Record wf_part (p : _RAMNV_PART_CTRL) (n : nat) : Prop := {
  wf_from : wf_buf n (fromChannel p);
  wf_back : wf_buf n (backup p);
  wf_to : wf_buf n (toDisk p);
  wf_size : (image_bytes p <= n)%nat }.

Definition wf_ctl (c : _RAMNV_CTL) : Prop :=
  (partNum c <= length (part c))%nat
  ∧ ∀ i p, (i < partNum c)%nat → part c !! i = Some p → ∃ n, wf_part p n.

(** The image a copy holds: the sectors of the partition. *)
Definition image (p : _RAMNV_PART_CTRL) (b : _RAMNV_BUF_CTRL) : bytes :=
  take (image_bytes p) (diskbuf b).

Lemma memcpy_image_ok n src dst :
  (n <= length src)%nat → (n <= length dst)%nat →
  memcpy_image n src dst = Some (take n src ++ drop n dst).
Proof.
  intros. unfold memcpy_image. rewrite slice_ok by lia. simpl. rewrite drop_0.
  rewrite splice_ok by (rewrite length_take; lia). simpl.
  by rewrite length_take, Nat.min_l by lia.
Qed.

Lemma memcpy_image_Some n src dst r :
  memcpy_image n src dst = Some r → r = take n src ++ drop n dst
    ∧ (n <= length src)%nat ∧ (n <= length dst)%nat.
Proof.
  unfold memcpy_image. intros H. binv H.
  apply slice_Some in E as [-> ?]. apply splice_Some in H as [-> H].
  rewrite drop_0, length_take in *. split_and!; [|lia|lia]. simpl. do 2 f_equal. lia.
Qed.

Lemma take_memcpy n (src dst : bytes) :
  (n <= length src)%nat → take n (take n src ++ drop n dst) = take n src.
Proof. intros. rewrite take_app_le by (rewrite length_take; lia). rewrite take_take. f_equal. lia. Qed.

Lemma length_memcpy n (src dst : bytes) :
  (n <= length src)%nat → (n <= length dst)%nat → length (take n src ++ drop n dst) = length dst.
Proof. intros. rewrite length_app, length_take, length_drop. lia. Qed.

Lemma length_or_table t1 t2 :
  length t1 = RAMNV_DIRTYTABLE_MAXSIZE → length t2 = RAMNV_DIRTYTABLE_MAXSIZE →
  length (or_table t1 t2) = RAMNV_DIRTYTABLE_MAXSIZE.
Proof. intros H1 H2. unfold or_table. rewrite length_zip_with. lia. Qed.

Lemma upd_part_Some id f c c' :
  upd_part id f c = Some c' →
  ∃ p p', part c !! Z.to_nat id = Some p ∧ f p = Some p'
    ∧ c' = NvCtl (partNum c) (<[Z.to_nat id := p']> (part c)).
Proof. unfold upd_part. intros H. binv H. simplify_eq. eauto. Qed.

Lemma upd_part_ok id f c p p' :
  part c !! Z.to_nat id = Some p → f p = Some p' →
  upd_part id f c = Some (NvCtl (partNum c) (<[Z.to_nat id := p']> (part c))).
Proof. unfold upd_part. intros -> Hf. simpl. by rewrite Hf. Qed.

(** A partition update frames the rest of the table. *)
Lemma upd_part_other id f c c' j :
  upd_part id f c = Some c' → j ≠ Z.to_nat id → part c' !! j = part c !! j.
Proof.
  intros (p & p' & _ & _ & ->)%upd_part_Some Hj. simpl. by rewrite list_lookup_insert_ne.
Qed.

Lemma upd_part_partNum id f c c' : upd_part id f c = Some c' → partNum c' = partNum c.
Proof. by intros (p & p' & _ & _ & ->)%upd_part_Some. Qed.

Lemma upd_part_wf id f c c' :
  (∀ p n p', wf_part p n → f p = Some p' → wf_part p' n) →
  wf_ctl c → upd_part id f c = Some c' → wf_ctl c'.
Proof.
  intros Hf [HN HW] (p & p' & Ep & Ef & ->)%upd_part_Some. split; simpl.
  { by rewrite length_insert. }
  intros i q Hi Hq. destruct (decide (i = Z.to_nat id)) as [->|Hne].
  - rewrite list_lookup_insert_eq in Hq by (by eapply lookup_lt_Some). simplify_eq.
    destruct (HW _ _ Hi Ep) as [n Hn]. exists n. eauto.
  - rewrite list_lookup_insert_ne in Hq by done. eauto.
Qed.

Ltac wf_part_tac :=
  repeat match goal with
  | H : wf_part _ _ |- _ => destruct H as [[] [] [] ?]
  | |- wf_part _ _ => constructor
  | |- wf_buf _ _ => constructor
  end; simpl in *; try done.

Lemma wf_backup_copy p n d :
  wf_part p n → memcpy_image (image_bytes p) (diskbuf (fromChannel p)) (diskbuf (backup p)) = Some d →
  wf_part (set_backup (BufCtrl d (or_table (dirty (backup p)) (dirty (fromChannel p)))) p) n.
Proof.
  intros H (-> & ? & ?)%memcpy_image_Some. wf_part_tac.
  - rewrite length_memcpy by done. done.
  - by apply length_or_table.
Qed.

Lemma wf_restore p n d :
  wf_part p n → memcpy_image (image_bytes p) (diskbuf (backup p)) (diskbuf (fromChannel p)) = Some d →
  wf_part (set_fromChannel (BufCtrl d (dirty (backup p))) p) n.
Proof.
  intros H (-> & ? & ?)%memcpy_image_Some. wf_part_tac. rewrite length_memcpy by done. done.
Qed.

Lemma wf_getData p n d :
  wf_part p n → memcpy_image (image_bytes p) (diskbuf (backup p)) (diskbuf (toDisk p)) = Some d →
  wf_part (set_backup (BufCtrl (diskbuf (backup p)) clean_table)
    (set_toDisk (BufCtrl d (or_table (dirty (toDisk p)) (dirty (backup p)))) p)) n.
Proof.
  intros H (-> & ? & ?)%memcpy_image_Some. wf_part_tac.
  - rewrite length_memcpy by done. done.
  - by apply length_or_table.
Qed.

Lemma backup_copy_wf id c c' : wf_ctl c → backup_copy id c = Some c' → wf_ctl c'.
Proof. apply upd_part_wf. intros p n p' H E. binv E. simplify_eq. eauto using wf_backup_copy. Qed.

Lemma restoreData_wf id c c' : wf_ctl c → restoreData id c = Some c' → wf_ctl c'.
Proof. apply upd_part_wf. intros p n p' H E. binv E. simplify_eq. eauto using wf_restore. Qed.

Lemma getData_wf id c c' : wf_ctl c → __getData id c = Some c' → wf_ctl c'.
Proof. apply upd_part_wf. intros p n p' H E. binv E. simplify_eq. eauto using wf_getData. Qed.

Lemma clean_toDisk_wf id c c' : wf_ctl c → clean_toDisk id c = Some c' → wf_ctl c'.
Proof. apply upd_part_wf. intros p n p' H E. simplify_eq. wf_part_tac. Qed.

Lemma writeData_wf id start buf c c' : wf_ctl c → writeData id start buf c = Some c' → wf_ctl c'.
Proof.
  unfold writeData. destruct buf; [by intros ? [= ->]|].
  apply upd_part_wf. intros p n p' H E. binv E. simplify_eq.
  apply splice_length in E0. wf_part_tac. congruence.
Qed.

Lemma mark_loop_length fuel tab b bits n tab' :
  mark_loop fuel tab b bits n = Some tab' → length tab' = length tab.
Proof.
  revert tab b bits n. induction fuel as [|fuel IH]; intros tab b bits n; cbn [mark_loop];
    repeat bcase; try done; intros H; binv H; simplify_eq;
    rewrite ?length_insert; auto.
  apply IH in H. by rewrite H, length_insert.
Qed.

Lemma markDirtyInfo_wf id start n c c' : wf_ctl c → _markDirtyInfo id start n c = Some c' → wf_ctl c'.
Proof.
  apply upd_part_wf. intros p m p' H E. binv E. simplify_eq.
  apply mark_loop_length in E0. wf_part_tac. congruence.
Qed.

Create HintDb nvbuf.
#[export] Hint Resolve backup_copy_wf restoreData_wf getData_wf clean_toDisk_wf writeData_wf
  markDirtyInfo_wf : nvbuf.

(** ** The copies under the mutex, as operations on images *)

Definition in_range (c : _RAMNV_CTL) (id : Z) : Prop := 0 <= id < Z.of_nat (partNum c).

Lemma in_range_part c id :
  wf_ctl c → in_range c id →
  ∃ p n, part c !! Z.to_nat id = Some p ∧ wf_part p n.
Proof.
  intros [HN HW] Hid. unfold in_range in Hid.
  destruct (lookup_lt_is_Some_2 (part c) (Z.to_nat id)) as [p Hp]; [lia|].
  destruct (HW (Z.to_nat id) p ltac:(lia) Hp) as [n Hn]. eauto.
Qed.

Lemma markDirtyInfo_ok c id start scts p :
  wf_ctl c → in_range c id → part c !! Z.to_nat id = Some p →
  is_u32 start → is_u32 scts → 0 < scts → start + scts <= 1024 →
  ∃ tab', _markDirtyInfo id start scts c = Some (NvCtl (partNum c)
      (<[Z.to_nat id := set_fromChannel (BufCtrl (diskbuf (fromChannel p)) tab') p]> (part c)))
    ∧ ∀ j, 0 <= j → dirty_bit tab' j = dirty_bit (dirty (fromChannel p)) j || marked start scts j.
Proof.
  intros W R Hp Hs Hn H0 Hb. destruct (in_range_part c id W R) as (q & n & Hq & [[_ Hd] _ _ _]).
  assert (q = p) as -> by congruence.
  pose proof (mark_table_spec (dirty (fromChannel p)) start scts Hd Hs Hn) as M.
  rewrite (proj2 (Z.ltb_lt _ _)), (proj2 (Z.leb_le _ _)) in M by done.
  destruct M as (tab' & E & _ & Hj). exists tab'. split; [|exact Hj].
  eapply upd_part_ok; [done|]. by rewrite E.
Qed.

(** [_markDirtyInfo] on a registered partition is defined exactly for a nonempty range of
    sectors inside the 1024-sector table, and then sets exactly the dirty bits of that range in
    the channel copy, leaving every image and every other partition alone; an empty range (shift
    by 32) or one past the table is undefined behaviour. *)
Theorem markDirtyInfo_spec c id start scts :
  wf_ctl c → in_range c id → is_u32 start → is_u32 scts →
  if (0 <? scts) && (start + scts <=? 1024) then
    ∃ p p' c', part c !! Z.to_nat id = Some p ∧ _markDirtyInfo id start scts c = Some c'
      ∧ part c' !! Z.to_nat id = Some p'
      ∧ (∀ j, 0 <= j → dirty_bit (dirty (fromChannel p')) j
                       = dirty_bit (dirty (fromChannel p)) j || marked start scts j)
      ∧ diskbuf (fromChannel p') = diskbuf (fromChannel p) ∧ backup p' = backup p
      ∧ toDisk p' = toDisk p ∧ (∀ j, j ≠ Z.to_nat id → part c' !! j = part c !! j)
  else _markDirtyInfo id start scts c = None.
Proof.
  intros W R Hs Hn. destruct (in_range_part c id W R) as (p & n & Hp & [[_ Hd] _ _ _]).
  destruct (_ && _) eqn:E; bsplit.
  - destruct (markDirtyInfo_ok c id start scts p) as (tab' & -> & Hb); try done.
    exists p, (set_fromChannel (BufCtrl (diskbuf (fromChannel p)) tab') p). eexists.
    split_and!; [done|done| |exact Hb|done..|].
    + cbn [part]. apply list_lookup_insert_eq. by eapply lookup_lt_Some.
    + intros j Hj. cbn [part]. by rewrite list_lookup_insert_ne.
  - pose proof (mark_table_spec (dirty (fromChannel p)) start scts Hd Hs Hn) as M. rewrite E in M.
    unfold _markDirtyInfo, upd_part. rewrite Hp. cbn [mbind option_bind]. by rewrite M.
Qed.

(** The partition after the copy of [backupData]. *)
Definition committed (p : _RAMNV_PART_CTRL) : _RAMNV_PART_CTRL :=
  set_backup (BufCtrl (take (image_bytes p) (diskbuf (fromChannel p))
                         ++ drop (image_bytes p) (diskbuf (backup p)))
                (or_table (dirty (backup p)) (dirty (fromChannel p)))) p.

Lemma backup_copy_ok c id p :
  wf_ctl c → in_range c id → part c !! Z.to_nat id = Some p →
  backup_copy id c = Some (NvCtl (partNum c) (<[Z.to_nat id := committed p]> (part c)))
  ∧ image (committed p) (backup (committed p)) = image p (fromChannel p).
Proof.
  intros W R Hp. destruct (in_range_part c id W R) as (q & n & Hq & [[Hf _] [Hb _] _ Hs]).
  assert (q = p) as -> by congruence. split.
  - eapply upd_part_ok; [done|]. by rewrite memcpy_image_ok by lia.
  - unfold image. cbn. change (image_bytes (committed p)) with (image_bytes p).
    apply take_memcpy. lia.
Qed.

(** C34. A request commits atomically: [backupData]'s copy is defined for every partition of a
    well-formed table, makes the backup image equal to the channel image, leaves the channel
    copy, the disk copy and every other partition alone, and adds the channel's dirty bits. *)
Theorem backup_copy_commits c id :
  wf_ctl c → in_range c id →
  ∃ p p' c', part c !! Z.to_nat id = Some p ∧ backup_copy id c = Some c' ∧ wf_ctl c'
    ∧ part c' !! Z.to_nat id = Some p'
    ∧ image p' (backup p') = image p (fromChannel p)
    ∧ fromChannel p' = fromChannel p ∧ toDisk p' = toDisk p
    ∧ dirty (backup p') = or_table (dirty (backup p)) (dirty (fromChannel p))
    ∧ (∀ j, j ≠ Z.to_nat id → part c' !! j = part c !! j).
Proof.
  intros W R. destruct (in_range_part c id W R) as (p & n & Hp & _).
  destruct (backup_copy_ok c id p W R Hp) as [E I]. exists p, (committed p). eexists.
  split_and!; [done|done|by eapply backup_copy_wf| |done|done|done|done|]; cbn [part].
  - apply list_lookup_insert_eq. by eapply lookup_lt_Some.
  - intros j Hj. by rewrite list_lookup_insert_ne.
Qed.

(** The partition after [restoreData]. *)
Definition rolled_back (p : _RAMNV_PART_CTRL) : _RAMNV_PART_CTRL :=
  set_fromChannel (BufCtrl (take (image_bytes p) (diskbuf (backup p))
                              ++ drop (image_bytes p) (diskbuf (fromChannel p)))
                     (dirty (backup p))) p.

Lemma restoreData_ok c id p :
  wf_ctl c → in_range c id → part c !! Z.to_nat id = Some p →
  restoreData id c = Some (NvCtl (partNum c) (<[Z.to_nat id := rolled_back p]> (part c)))
  ∧ image (rolled_back p) (fromChannel (rolled_back p)) = image p (backup p).
Proof.
  intros W R Hp. destruct (in_range_part c id W R) as (q & n & Hq & [[Hf _] [Hb _] _ Hs]).
  assert (q = p) as -> by congruence. split.
  - eapply upd_part_ok; [done|]. by rewrite memcpy_image_ok by lia.
  - unfold image. cbn. change (image_bytes (rolled_back p)) with (image_bytes p).
    apply take_memcpy. lia.
Qed.

(** C35. A failed request rolls back: [restoreData] makes the channel image and its dirty
    table those of the last committed request, and touches nothing else. *)
Theorem restoreData_rolls_back c id :
  wf_ctl c → in_range c id →
  ∃ p p' c', part c !! Z.to_nat id = Some p ∧ restoreData id c = Some c' ∧ wf_ctl c'
    ∧ part c' !! Z.to_nat id = Some p'
    ∧ image p' (fromChannel p') = image p (backup p)
    ∧ dirty (fromChannel p') = dirty (backup p)
    ∧ backup p' = backup p ∧ toDisk p' = toDisk p
    ∧ (∀ j, j ≠ Z.to_nat id → part c' !! j = part c !! j).
Proof.
  intros W R. destruct (in_range_part c id W R) as (p & n & Hp & _).
  destruct (restoreData_ok c id p W R Hp) as [E I]. exists p, (rolled_back p). eexists.
  split_and!; [done|done|by eapply restoreData_wf| |done|done|done|done|]; cbn [part].
  - apply list_lookup_insert_eq. by eapply lookup_lt_Some.
  - intros j Hj. by rewrite list_lookup_insert_ne.
Qed.

(** [__getData] moves the backup image to the disk copy and cleans the backup's table. *)
Lemma getData_image c id p n :
  wf_ctl c → part c !! Z.to_nat id = Some p → wf_part p n →
  ∃ p' c', __getData id c = Some c'
    ∧ part c' !! Z.to_nat id = Some p'
    ∧ image p' (toDisk p') = image p (backup p)
    ∧ fromChannel p' = fromChannel p ∧ diskbuf (backup p') = diskbuf (backup p)
    ∧ dirty (backup p') = clean_table
    ∧ sctNum p' = sctNum p ∧ fdhandle p' = fdhandle p.
Proof.
  intros W Hp [[Hf _] [Hb _] [Ht _] Hs].
  assert (E : memcpy_image (image_bytes p) (diskbuf (backup p)) (diskbuf (toDisk p))
    = Some (take (image_bytes p) (diskbuf (backup p)) ++ drop (image_bytes p) (diskbuf (toDisk p))))
    by (apply memcpy_image_ok; lia).
  eexists _, _. split_and!.
  - eapply upd_part_ok; [done|]. by rewrite E.
  - simpl. apply list_lookup_insert_eq. by eapply lookup_lt_Some.
  - unfold image. simpl. change (image_bytes (set_backup _ _)) with (image_bytes p).
    apply take_memcpy. lia.
  - done.
  - done.
  - done.
  - done.
  - done.
Qed.

(** ** [saveToDisk] *)

(** The files of a partition: its configuration entry. *)
Definition part_files (cfg : list RAM_NV_CONFIG) (p : _RAMNV_PART_CTRL) : option RAM_NV_CONFIG :=
  part_cfg cfg (fdhandle p).

(** The environment [saveToDisk] needs: every partition has two files of its own, which can
    be opened. *)
Definition files_ok (can_open : string → bool) (cfg : list RAM_NV_CONFIG) (c : _RAMNV_CTL) : Prop :=
  (∀ i p, (i < partNum c)%nat → part c !! i = Some p →
     ∃ f, part_files cfg p = Some f ∧ image_path f ≠ imageBak_path f
        ∧ can_open (image_path f) = true ∧ can_open (imageBak_path f) = true)
  ∧ (∀ i j p q f g, i ≠ j → (i < partNum c)%nat → (j < partNum c)%nat →
     part c !! i = Some p → part c !! j = Some q →
     part_files cfg p = Some f → part_files cfg q = Some g →
     image_path f ≠ image_path g ∧ image_path f ≠ imageBak_path g
     ∧ imageBak_path f ≠ image_path g ∧ imageBak_path f ≠ imageBak_path g).

(** Bytes of credit one save of a partition uses. *)
Definition save_cost (p : _RAMNV_PART_CTRL) : nat := 2 * S (RAMNV_SECT_SIZE + image_bytes p).

Lemma write_part_ok can_open cfg id c w p n f :
  part c !! Z.to_nat id = Some p → wf_part p n → part_files cfg p = Some f →
  image_path f ≠ imageBak_path f →
  can_open (image_path f) = true → can_open (imageBak_path f) = true →
  (save_cost p <= credit w)%nat →
  ∃ w' c', write_part can_open cfg id c w = Some (c', w') ∧ clean_toDisk id c = Some c'
    ∧ disk w' = <[image_path f := image_file (image p (toDisk p))]>
        (<[imageBak_path f := image_file (image p (toDisk p))]> (disk w))
    ∧ (credit w - save_cost p <= credit w')%nat.
Proof.
  intros Hp [_ _ [Ht _] Hs] Hf Hne Oi Ob HC. unfold write_part. rewrite Hp. simpl.
  rewrite slice_ok by lia. simpl. rewrite drop_0. fold (image p (toDisk p)).
  assert (HL : length (image p (toDisk p)) = image_bytes p)
    by (unfold image; rewrite length_take; lia).
  pose proof (ramDisk_Write_result can_open cfg (fdhandle p) f (image p (toDisk p)) w Hf Hne Oi Ob)
    as P. rewrite HL in P. specialize (P HC).
  destruct (ramDisk_Write can_open cfg (fdhandle p) (image p (toDisk p)) w) as [ret w'].
  destruct P as (-> & HD & HCr). unfold clean_toDisk, upd_part. rewrite Hp. simpl.
  eexists _, _. split_and!; [done|done|done|]. unfold save_cost. lia.
Qed.

(** What no operation after [initBuf] changes: identity, size and handle of the partitions. *)
Definition shape1 (p : _RAMNV_PART_CTRL) : Z * Z * Z := (part_partId p, sctNum p, fdhandle p).
Definition shape (c : _RAMNV_CTL) : nat * list (Z * Z * Z) := (partNum c, shape1 <$> part c).

Lemma upd_part_shape id f c c' :
  (∀ p p', f p = Some p' → shape1 p' = shape1 p) → upd_part id f c = Some c' → shape c' = shape c.
Proof.
  intros Hf (p & p' & Ep & Ef & ->)%upd_part_Some. unfold shape. simpl. f_equal.
  rewrite list_fmap_insert. apply list_insert_id.
  by rewrite list_lookup_fmap, Ep, (Hf _ _ Ef).
Qed.

Lemma backup_copy_shape id c c' : backup_copy id c = Some c' → shape c' = shape c.
Proof. apply upd_part_shape. intros p p' E. binv E. by simplify_eq. Qed.

Lemma restoreData_shape id c c' : restoreData id c = Some c' → shape c' = shape c.
Proof. apply upd_part_shape. intros p p' E. binv E. by simplify_eq. Qed.

Lemma getData_shape id c c' : __getData id c = Some c' → shape c' = shape c.
Proof. apply upd_part_shape. intros p p' E. binv E. by simplify_eq. Qed.

Lemma clean_toDisk_shape id c c' : clean_toDisk id c = Some c' → shape c' = shape c.
Proof. apply upd_part_shape. intros p p' E. by simplify_eq. Qed.

Lemma markDirtyInfo_shape id start n c c' : _markDirtyInfo id start n c = Some c' → shape c' = shape c.
Proof. apply upd_part_shape. intros p p' E. binv E. by simplify_eq. Qed.

Lemma writeData_shape id start buf c c' : writeData id start buf c = Some c' → shape c' = shape c.
Proof.
  unfold writeData. destruct buf; [by intros [= ->]|].
  apply upd_part_shape. intros p p' E. binv E. by simplify_eq.
Qed.

Lemma shape_partNum c c' : shape c' = shape c → partNum c' = partNum c.
Proof. by intros [= ? _]. Qed.

Lemma shape_lookup c c' i p' :
  shape c' = shape c → part c' !! i = Some p' →
  ∃ p, part c !! i = Some p ∧ shape1 p = shape1 p'.
Proof.
  intros [= _ E] Hp. apply (f_equal (.!! i)) in E. rewrite !list_lookup_fmap, Hp in E.
  destruct (part c !! i) as [p|]; simpl in E; [|done]. exists p. split; [done|congruence].
Qed.

Lemma shape_files cfg p q : shape1 p = shape1 q → part_files cfg p = part_files cfg q.
Proof. intros [= _ _ E]. unfold part_files. by rewrite E. Qed.

Lemma shape_cost p q : shape1 p = shape1 q → save_cost p = save_cost q.
Proof. intros [= _ E _]. unfold save_cost, image_bytes. by rewrite E. Qed.

Lemma files_ok_shape can_open cfg c c' :
  shape c' = shape c → files_ok can_open cfg c → files_ok can_open cfg c'.
Proof.
  intros E [H1 H2]. pose proof (shape_partNum _ _ E) as N.
  split; rewrite N.
  - intros i p' Hi Hp. destruct (shape_lookup _ _ _ _ E Hp) as (p & Hp' & Es).
    rewrite <- (shape_files cfg _ _ Es). eauto.
  - intros i j p' q' f g Hij Hi Hj Hp Hq Hf Hg.
    destruct (shape_lookup _ _ _ _ E Hp) as (p & Hp' & Esp).
    destruct (shape_lookup _ _ _ _ E Hq) as (q & Hq' & Esq).
    rewrite <- (shape_files cfg _ _ Esp) in Hf. rewrite <- (shape_files cfg _ _ Esq) in Hg.
    by apply (H2 i j p q).
Qed.

(** One partition is saved: if it was dirty both its files hold the committed image and its
    backup table is clean; nothing else changes. *)
Lemma save_part_spec can_open cfg id c w :
  wf_ctl c → in_range c id → files_ok can_open cfg c →
  ∃ p f, part c !! Z.to_nat id = Some p ∧ part_files cfg p = Some f ∧
  ((save_cost p <= credit w)%nat →
  ∃ p' c' w', save_part can_open cfg id c w = Some (c', w') ∧ wf_ctl c' ∧ shape c' = shape c
    ∧ part c' !! Z.to_nat id = Some p'
    ∧ diskbuf (backup p') = diskbuf (backup p) ∧ table_dirty (dirty (backup p')) = false
    ∧ (∀ j, j ≠ Z.to_nat id → part c' !! j = part c !! j)
    ∧ disk w' = (if table_dirty (dirty (backup p))
        then <[image_path f := image_file (image p (backup p))]>
               (<[imageBak_path f := image_file (image p (backup p))]> (disk w))
        else disk w)
    ∧ (credit w - save_cost p <= credit w')%nat).
Proof.
  intros W R [F1 _]. destruct (in_range_part c id W R) as (p & n & Hp & Hw).
  destruct (F1 (Z.to_nat id) p) as (f & Hf & Hne & Oi & Ob); [unfold in_range in R; lia|done|].
  exists p, f. split_and!; [done|done|]. intros HC.
  unfold save_part, __ifHasDirty. rewrite Hp. cbn [mbind option_bind].
  destruct (table_dirty (dirty (backup p))) eqn:Ed.
  - destruct (getData_image c id p n W Hp Hw) as (p1 & c1 & Hg & Hp1 & Hi & _ & Hb & Hd & Hs & Hh).
    rewrite Hg. cbn [mbind option_bind].
    pose proof (getData_wf id c c1 W Hg) as Wc1. pose proof Wc1 as [W1 W2].
    assert (N : partNum c1 = partNum c) by by eapply upd_part_partNum.
    destruct (W2 (Z.to_nat id) p1 ltac:(unfold in_range in R; lia) Hp1) as [n1 Hw1].
    assert (Hc1 : save_cost p1 = save_cost p) by (unfold save_cost, image_bytes; by rewrite Hs).
    destruct (write_part_ok can_open cfg id c1 w p1 n1 f Hp1 Hw1) as (w' & c' & Hwp & Hc & Hdk & Hcr);
      [unfold part_files; by rewrite Hh|done|done|done|lia|].
    rewrite Hwp. rewrite Hi in Hdk.
    exists (set_toDisk (BufCtrl (diskbuf (toDisk p1)) clean_table) p1), c', w'.
    assert (Hsh : shape c1 = shape c)
      by (by eapply getData_shape).
    assert (Hsh' : shape c' = shape c1)
      by (by eapply clean_toDisk_shape).
    split_and!; [done|by apply (clean_toDisk_wf id c1)|congruence| |done|simpl; by rewrite Hd| |done|lia].
    + unfold clean_toDisk, upd_part in Hc. rewrite Hp1 in Hc. cbn [mbind option_bind] in Hc.
      injection Hc as <-. cbn [part]. apply list_lookup_insert_eq. by eapply lookup_lt_Some.
    + intros j Hj. rewrite (upd_part_other _ _ _ _ _ Hc Hj). by eapply upd_part_other.
  - exists p, c, w. split_and!; auto; lia.
Qed.

(** Paths that belong to none of the partitions from [id] on. *)
Definition foreign_path (cfg : list RAM_NV_CONFIG) (c : _RAMNV_CTL) (id : Z) (x : string) : Prop :=
  ∀ i p f, (Z.to_nat id <= i)%nat → (i < partNum c)%nat → part c !! i = Some p →
    part_files cfg p = Some f → x ≠ image_path f ∧ x ≠ imageBak_path f.

(** The files and backup of partition [i] after the loop, in terms of those before it. *)
Definition saved (cfg : list RAM_NV_CONFIG) (c c' : _RAMNV_CTL) (d d' : gmap string bytes) (i : nat)
  : Prop :=
  ∃ p p' f, part c !! i = Some p ∧ part c' !! i = Some p' ∧ part_files cfg p = Some f
    ∧ diskbuf (backup p') = diskbuf (backup p) ∧ table_dirty (dirty (backup p')) = false
    ∧ if table_dirty (dirty (backup p)) then
        d' !! image_path f = Some (image_file (image p (backup p)))
        ∧ d' !! imageBak_path f = Some (image_file (image p (backup p)))
      else d' !! image_path f = d !! image_path f ∧ d' !! imageBak_path f = d !! imageBak_path f.

Lemma save_loop_spec can_open cfg K n id c w :
  wf_ctl c → files_ok can_open cfg c → 0 <= id → id + Z.of_nat n = Z.of_nat (partNum c) →
  (∀ i p, (i < partNum c)%nat → part c !! i = Some p → (save_cost p <= K)%nat) →
  (n * K <= credit w)%nat →
  ∃ c' w', save_loop can_open cfg n id c w = Some (c', w') ∧ wf_ctl c' ∧ shape c' = shape c
    ∧ (∀ j, (j < Z.to_nat id)%nat → part c' !! j = part c !! j)
    ∧ (∀ x, foreign_path cfg c id x → disk w' !! x = disk w !! x)
    ∧ (∀ i, (Z.to_nat id <= i < partNum c)%nat → saved cfg c c' (disk w) (disk w') i).
Proof.
  revert id c w. induction n as [|n IH]; intros id c w W F Hid Hn HK HC; simpl.
  { exists c, w. split_and!; auto. intros i Hi. lia. }
  assert (R : in_range c id) by (unfold in_range; lia).
  destruct (save_part_spec can_open cfg id c w W R F) as (p & f & Hp & Hf & HS).
  destruct HS as (p1 & c1 & w1 & E1 & W1 & S1 & Hp1 & Hb1 & Hd1 & Ho1 & D1 & C1).
  { specialize (HK (Z.to_nat id) p ltac:(lia) Hp). lia. }
  rewrite E1. simpl.
  pose proof (shape_partNum _ _ S1) as N.
  assert (K0 : (save_cost p <= K)%nat) by (apply (HK (Z.to_nat id) p); [lia|done]).
  destruct (IH (id + 1) c1 w1) as (c' & w' & E' & W' & S' & O' & P' & Q').
  { done. } { by eapply files_ok_shape. } { lia. } { lia. }
  { intros i q Hi Hq. destruct (shape_lookup _ _ _ _ S1 Hq) as (q0 & Hq0 & Eq0).
    rewrite <- (shape_cost _ _ Eq0). apply (HK i); [lia|done]. } { lia. }
  destruct F as [F1 F2].
  destruct (F1 (Z.to_nat id) p ltac:(lia) Hp) as (f' & Hf' & Hne & _ & _).
  assert (f' = f) as -> by congruence.
  (* the two files of [id] do not belong to later partitions *)
  assert (Fp : ∀ x, x = image_path f ∨ x = imageBak_path f → foreign_path cfg c1 (id + 1) x).
  { intros x Hx i q g Hi Hi' Hq Hg.
    destruct (shape_lookup _ _ _ _ S1 Hq) as (q0 & Hq0 & Eq0).
    rewrite <- (shape_files cfg _ _ Eq0) in Hg.
    destruct (F2 (Z.to_nat id) i p q0 f g) as (?&?&?&?); [lia|lia|lia|done..|].
    by destruct Hx as [->| ->]. }
  exists c', w'. split_and!; [done|done|congruence| | |].
  - intros j Hj. rewrite O' by lia. apply Ho1. lia.
  - intros x Hx. rewrite P'.
    + rewrite D1. destruct (Hx (Z.to_nat id) p f) as [N1 N2]; [lia|lia|done|done|].
      bcase; [|done]. by rewrite !lookup_insert_ne by done.
    + intros i q g Hi Hi' Hq Hg.
      destruct (shape_lookup _ _ _ _ S1 Hq) as (q0 & Hq0 & Eq0).
      rewrite <- (shape_files cfg _ _ Eq0) in Hg. apply (Hx i q0); [lia|lia|done|done].
  - intros i Hi. destruct (decide (i = Z.to_nat id)) as [->|Hni].
    + exists p, p1, f. split_and!; [done| |done|done|done|].
      { rewrite O' by lia. done. }
      rewrite !P' by (apply Fp; tauto). rewrite D1. bcase; [|done].
      rewrite lookup_insert_eq, lookup_insert_ne, lookup_insert_eq by done. done.
    + destruct (Q' i ltac:(lia)) as (q & q' & g & Hq & Hq' & Hg & Hbq & Hdq & HF).
      rewrite Ho1 in Hq by done.
      exists q, q', g. split_and!; [done..|].
      destruct (F2 (Z.to_nat id) i p q f g) as (?&?&?&?); [lia|lia|lia|done..|].
      rewrite D1 in HF. bcase; [done|].
      destruct HF as [-> ->]. bcase; [|done]. by rewrite !lookup_insert_ne by done.
Qed.

(** C28. [saveToDisk] with enough credit: every partition whose backup was dirty has both its
    image files equal to header and committed image, every clean partition's files are
    unchanged, no backup remains dirty and the backup images are kept. *)
Theorem saveToDisk_persists can_open cfg K c w :
  wf_ctl c → files_ok can_open cfg c →
  (∀ i p, (i < partNum c)%nat → part c !! i = Some p → (save_cost p <= K)%nat) →
  (partNum c * K <= credit w)%nat →
  ∃ c' w', saveToDisk can_open cfg c w = Some (c', w') ∧ wf_ctl c'
    ∧ ∀ i, (i < partNum c)%nat → saved cfg c c' (disk w) (disk w') i.
Proof.
  intros W F HK HC.
  destruct (save_loop_spec can_open cfg K (partNum c) 0 c w W F) as (c' & w' & E & W' & _ & _ & _ & Q);
    [lia|lia|done|done|].
  exists c', w'. split_and!; [done|done|]. intros i Hi. apply Q. lia.
Qed.

(** ** [initBuf] and [getCtlId] *)

Lemma getCtlId_from_spec i n ps id r :
  getCtlId_from i n ps id = Some r →
  ∃ k p, r = (i + k)%nat ∧ (k < n)%nat ∧ ps !! k = Some p ∧ part_partId p = id
    ∧ ∀ j q, (j < k)%nat → ps !! j = Some q → part_partId q ≠ id.
Proof.
  revert i ps. induction n as [|n IH]; intros i ps; [done|]. destruct ps as [|p ps]; [done|]. simpl.
  destruct (Z.eqb_spec id (part_partId p)) as [->|Hne].
  - intros [= <-]. exists 0%nat, p. split_and!; [lia|lia|done|done|]. intros j q Hj. lia.
  - intros (k & q & -> & Hk & Hq & <- & Hj)%IH. exists (S k), q. split_and!; [lia|lia|done|done|].
    intros [|j] q' Hj'; simpl; [intros [= <-]; congruence|]. apply Hj. lia.
Qed.

Lemma getCtlId_from_None i n ps id :
  getCtlId_from i n ps id = None →
  ∀ j q, (j < n)%nat → ps !! j = Some q → part_partId q ≠ id.
Proof.
  revert i ps. induction n as [|n IH]; intros i ps; [lia|]. destruct ps as [|p ps]; [done|]. simpl.
  destruct (Z.eqb_spec id (part_partId p)) as [->|Hne]; [done|].
  intros H [|j] q Hj; simpl; [intros [= <-]; congruence|]. apply (IH _ _ H). lia.
Qed.

Lemma getCtlId_lt c id i : getCtlId c id = Some i → (i < partNum c)%nat.
Proof. intros (k & p & -> & Hk & _)%getCtlId_from_spec. done. Qed.

(** [getCtlId] returns the first registered partition with the given id, an index the
    buffer operations are defined on, and -1 exactly when no partition has it. *)
Theorem getCtlId_spec c id :
  match getCtlId c id with
  | Some i => (i < partNum c)%nat ∧ (∃ p, part c !! i = Some p ∧ part_partId p = id)
      ∧ ∀ j q, (j < i)%nat → part c !! j = Some q → part_partId q ≠ id
  | None => ∀ j q, (j < partNum c)%nat → part c !! j = Some q → part_partId q ≠ id
  end.
Proof.
  unfold getCtlId. destruct (getCtlId_from _ _ _ _) as [i|] eqn:E.
  - apply getCtlId_from_spec in E as (k & p & -> & Hk & Hp & Hid & Hj). eauto.
  - intros j q. by eapply getCtlId_from_None.
Qed.

(** What [ramDisk_Read] hands to [initBuf] always has the size asked for. *)
Lemma read_image_buf_length content size ret1 ret2 h b :
  read_image content size = (ret1, ret2, h, b) → length b = size.
Proof.
  unfold read_image. intros [= _ _ _ <-].
  rewrite length_app, length_replicate, length_take. lia.
Qed.

Lemma ramDisk_Read_length can_open cfg h size w buf w' :
  ramDisk_Read can_open cfg h size w = (Some buf, w') → length buf = size.
Proof.
  unfold ramDisk_Read. destruct (part_cfg cfg h) as [c|]; [|done].
  destruct (rand w) as [r w1].
  assert (HS : ∀ p q ret2, length (read_second can_open p q size ret2 w1).1 = size).
  { intros p q ret2. unfold read_second. destruct (open_rdwr can_open q w1) as [content|].
    - destruct (read_image content size) as [[[r1 r2] hd] b] eqn:E.
      apply read_image_buf_length in E. repeat case_match; done.
    - repeat case_match; cbn [fst]; by rewrite length_replicate. }
  assert (HF : ∀ p b, read_first can_open p size w1 = inl b → length b = size).
  { intros p b. unfold read_first. destruct (open_rdwr can_open p w1) as [content|]; [|done].
    destruct (read_image content size) as [[[r1 r2] hd] b'] eqn:E.
    apply read_image_buf_length in E. repeat case_match; naive_solver. }
  intros H. destruct (if Z.odd r then _ else _) as [p q].
  destruct (read_first can_open p size w1) as [b|ret2] eqn:E1.
  - simplify_eq. eauto.
  - specialize (HS p q ret2). destruct (read_second _ _ _ _ _ _) as [b w2]. by simplify_eq.
Qed.

Lemma init_part_wf can_open malloc cfg config p w :
  (∀ n, length (malloc n) = n) → partId config ≠ 0 → part_cfg cfg (partId config) = Some config →
  0 <= image_size config < 2 ^ 32 →
  length (dirty (fromChannel p)) = RAMNV_DIRTYTABLE_MAXSIZE →
  length (dirty (backup p)) = RAMNV_DIRTYTABLE_MAXSIZE →
  length (dirty (toDisk p)) = RAMNV_DIRTYTABLE_MAXSIZE →
  ∃ p' w' image, init_part can_open malloc cfg config p w = Some (true, p', w')
    ∧ wf_part p' (Z.to_nat (image_size config) + 4) ∧ part_partId p' = partId config
    ∧ fdhandle p' = partId config
    ∧ ramDisk_Read can_open cfg (partId config) (Z.to_nat (image_size config)) w = (Some image, w')
    ∧ take (Z.to_nat (image_size config)) (diskbuf (fromChannel p')) = image
    ∧ diskbuf (backup p') = diskbuf (fromChannel p') ∧ diskbuf (toDisk p') = diskbuf (fromChannel p').
Proof.
  intros HM Hid Hc Hs H1 H2 H3. unfold init_part, ramDisk_Open.
  destruct (Z.eqb_spec 0 (partId config)); [congruence|].
  destruct (ramDisk_Read can_open cfg (partId config) (Z.to_nat (image_size config)) w)
    as [[im|] w1] eqn:Er.
  - pose proof (ramDisk_Read_length _ _ _ _ _ _ _ Er) as HL.
    rewrite splice_ok by (rewrite HM; lia). cbn [mbind option_bind].
    eexists _, w1, im. split_and!; [done| |done|done|done| |done|done].
    + set (m := malloc (Z.to_nat (image_size config) + 4)%nat).
      assert (HT : ∀ d : list Z, length d = RAMNV_DIRTYTABLE_MAXSIZE →
        wf_buf (Z.to_nat (image_size config) + 4) (BufCtrl (take 0 m ++ im ++ drop (length im) m) d)).
      { intros d Hd. constructor; [|done]. cbn [diskbuf].
        rewrite !length_app, length_take, length_drop. unfold m. rewrite HM. lia. }
      constructor; cbn [fromChannel backup toDisk]; auto.
      unfold image_bytes, RAMNV_SECT_SIZE. cbn [sctNum].
      rewrite u32_id by (unfold is_u32; Z.to_euclidean_division_equations; lia).
      Z.to_euclidean_division_equations. lia.
    + cbn [fromChannel diskbuf]. rewrite take_0. simpl. by rewrite take_app_length'.
  - exfalso. unfold ramDisk_Read in Er. rewrite Hc in Er.
    destruct (rand w). destruct (if Z.odd z then _ else _).
    destruct (read_first _ _ _ _); [done|]. by destruct (read_second _ _ _ _ _ _).
Qed.

(** The paths [main] computes always fit the 100-byte fields. *)
Definition paths_fit (g : nv_paths) : Prop :=
  (String.length (fixnv_ori_path g) <= 100)%nat ∧ (String.length (fixnv_bak_path g) <= 100)%nat
  ∧ (String.length (runnv_ori_path g) <= 100)%nat ∧ (String.length (runnv_bak_path g) <= 100)%nat.

Definition boot_cfg (g : nv_paths) : list RAM_NV_CONFIG :=
  [NvConfig 1 (fixnv_ori_path g) (fixnv_bak_path g) (fixnv_size g);
   NvConfig 2 (runnv_ori_path g) (runnv_bak_path g) (runnv_size g)] ++ replicate 14 cfg_zero.

Lemma ramDisk_Init_fit g : paths_fit g → ramDisk_Init g = boot_cfg g.
Proof. intros (?&?&?&?). unfold ramDisk_Init. by bdecide. Qed.

(** The image a partition starts with, in all three copies. *)
Definition boot_image (p : _RAMNV_PART_CTRL) (size : Z) (im : bytes) : Prop :=
  take (Z.to_nat size) (diskbuf (fromChannel p)) = im
  ∧ diskbuf (backup p) = diskbuf (fromChannel p) ∧ diskbuf (toDisk p) = diskbuf (fromChannel p).

(** [initBuf] loads both partitions, in all three copies, with what [ramDisk_Read] delivers. *)
Lemma initBuf_registers can_open malloc g c w :
  (∀ n, length (malloc n) = n) → paths_fit g → length (part c) = RAMNV_NUM →
  0 <= fixnv_size g < 2 ^ 32 → 0 <= runnv_size g < 2 ^ 32 →
  ∃ c' w1 w2 p1 p2 im1 im2,
    initBuf can_open malloc g c w = Some (c', w2) ∧ wf_ctl c' ∧ partNum c' = 2%nat
    ∧ part c' !! 0%nat = Some p1 ∧ part c' !! 1%nat = Some p2
    ∧ part_partId p1 = 1 ∧ part_partId p2 = 2 ∧ fdhandle p1 = 1 ∧ fdhandle p2 = 2
    ∧ ramDisk_Read can_open (boot_cfg g) 1 (Z.to_nat (fixnv_size g)) w = (Some im1, w1)
    ∧ ramDisk_Read can_open (boot_cfg g) 2 (Z.to_nat (runnv_size g)) w1 = (Some im2, w2)
    ∧ boot_image p1 (fixnv_size g) im1 ∧ boot_image p2 (runnv_size g) im2.
Proof.
  intros HM HP HL Hs1 Hs2. unfold initBuf. rewrite ramDisk_Init_fit by done.
  destruct c as [pn ps]. cbn [part] in *.
  do 2 (destruct ps as [|? ps]; [done|]). rename ps into ps'. cbn [fmap list_fmap].
  match goal with |- context [part_reset ?a :: part_reset ?b :: ?t] =>
    set (q1 := part_reset a); set (q2 := part_reset b); set (tl := t) end.
  set (f1 := NvConfig 1 (fixnv_ori_path g) (fixnv_bak_path g) (fixnv_size g)).
  set (f2 := NvConfig 2 (runnv_ori_path g) (runnv_bak_path g) (runnv_size g)).
  destruct (init_part_wf can_open malloc (boot_cfg g) f1 q1 w HM) as
    (p1 & w1 & im1 & E1 & W1 & I1 & F1 & R1 & A1 & B1 & C1); [done..|].
  destruct (init_part_wf can_open malloc (boot_cfg g) f2 q2 w1 HM) as
    (p2 & w2 & im2 & E2 & W2 & I2 & F2 & R2 & A2 & B2 & C2); [done..|].
  exists (NvCtl 2 (p1 :: p2 :: tl)), w1, w2, p1, p2, im1, im2.
  split_and!; try done.
  - unfold boot_cfg at 2. cbn [app init_loop]. fold f1 f2.
    change (partId f1 =? 0) with false. change (partId f2 =? 0) with false. cbn [part].
    change ((q1 :: q2 :: tl) !! 0%nat) with (Some q1). cbn [mbind option_bind].
    rewrite E1. cbn [mbind option_bind partNum part].
    change ((<[0%nat := p1]> (q1 :: q2 :: tl)) !! 1%nat) with (Some q2). cbn [mbind option_bind].
    rewrite E2. reflexivity.
  - split; [simpl; lia|]. intros [|[|i]] p Hi; simpl in Hi |- *; [..|lia]; intros [= <-]; eauto.
Qed.

(** ** The save task *)

Lemma task_steps_app can_open cfg m n s s' :
  task_steps can_open cfg m s = Some s' →
  task_steps can_open cfg (m + n) s = task_steps can_open cfg n s'.
Proof.
  revert s. induction m as [|m IH]; intros s; simpl; [by intros [= ->]|].
  intros H. binv H. rewrite E. simpl. by apply IH.
Qed.

Lemma task_step_scan can_open cfg c w id d :
  id < Z.of_nat (partNum c) → __ifHasDirty id c = Some d →
  task_step can_open cfg (NvState c w (SvScan id)) =
  if d then c' ← __getData id c; Some (NvState c' w (SvWrite id))
  else Some (NvState c w (SvScan (id + 1))).
Proof. intros Hid E. unfold task_step. cbn [task ctl os]. bdecide. by rewrite E. Qed.

Lemma task_save_part can_open cfg c w id c' w' :
  id < Z.of_nat (partNum c) → save_part can_open cfg id c w = Some (c', w') →
  ∃ n, (n <= 2)%nat ∧ partNum c' = partNum c ∧
  task_steps can_open cfg n (NvState c w (SvScan id)) = Some (NvState c' w' (SvScan (id + 1))).
Proof.
  intros Hid H. unfold save_part in H. binv H. destruct x.
  - binv H. rename x into c1. exists 2%nat.
    assert (N : partNum c1 = partNum c) by by eapply upd_part_partNum.
    split_and!; [lia| |].
    + rewrite <- N. unfold write_part in H. binv H.
      destruct (ramDisk_Write _ _ _ _ _) as [[] ?]; [|by simplify_eq].
      binv H. simplify_eq. by eapply upd_part_partNum.
    + cbn [task_steps]. rewrite (task_step_scan _ _ _ _ _ _ Hid E), E0. cbn [mbind option_bind].
      unfold task_step. cbn [task ctl os]. by rewrite H.
  - simplify_eq. exists 1%nat. split_and!; [lia|done|].
    cbn [task_steps]. by rewrite (task_step_scan _ _ _ _ _ _ Hid E).
Qed.

(** The save task implements [saveToDisk]: woken and not interrupted, it goes through at
    most two steps per partition plus one and ends idle with the same table and the same
    files as the function call of calibration mode. *)
Theorem save_task_refines can_open cfg c w c' w' :
  saveToDisk can_open cfg c w = Some (c', w') →
  ∃ n, (n <= 2 * partNum c + 1)%nat ∧
  task_steps can_open cfg n (giveEvent (NvState c w SvWait)) = Some (NvState c' w' SvIdle).
Proof.
  unfold saveToDisk, giveEvent. cbn [task ctl os].
  enough (G : ∀ k id c w, id + Z.of_nat k = Z.of_nat (partNum c) → 0 <= id →
    save_loop can_open cfg k id c w = Some (c', w') →
    ∃ n, (n <= 2 * k + 1)%nat ∧
      task_steps can_open cfg n (NvState c w (SvScan id)) = Some (NvState c' w' SvIdle)).
  { intros H. apply (G (partNum c) 0); [lia|lia|done]. }
  clear c w. induction k as [|k IH]; intros id c w Hk Hid H; simpl in H.
  - simplify_eq. exists 1%nat. split; [lia|]. simpl. unfold task_step. simpl. by bdecide.
  - binv H. destruct x as [c1 w1].
    destruct (task_save_part can_open cfg c w id c1 w1) as (n1 & L1 & N1 & T1); [lia|done|].
    destruct (IH (id + 1) c1 w1) as (n2 & L2 & T2); [lia|lia|done|].
    exists (n1 + n2)%nat. split; [lia|]. by rewrite (task_steps_app _ _ _ _ _ _ T1).
Qed.

(** A wake-up given while the save task is between [saveToDisk] and [waiteEvent] is lost:
    the request is committed and answered, but the task then blocks and, however often it is
    scheduled, writes nothing, while the partition stays dirty. *)
Theorem giveEvent_lost can_open cfg c w id p :
  wf_ctl c → in_range c id → part c !! Z.to_nat id = Some p →
  table_dirty (or_table (dirty (backup p)) (dirty (fromChannel p))) = true →
  ∃ c', backupData can_open cfg false id (NvState c w SvIdle) = Some (true, NvState c' w SvIdle)
    ∧ __ifHasDirty id c' = Some true
    ∧ ∀ n, task_steps can_open cfg (S n) (NvState c' w SvIdle) = Some (NvState c' w SvWait).
Proof.
  intros W R Hp Hd.
  destruct (backup_copy_ok c id p W R Hp) as [E _].
  unfold backupData. cbn [ctl os task]. rewrite E. cbn [mbind option_bind].
  eexists. split_and!; [done| |].
  - unfold __ifHasDirty. cbn [part]. rewrite list_lookup_insert_eq by (by eapply lookup_lt_Some).
    cbn [mbind option_bind backup committed set_backup dirty]. by rewrite Hd.
  - intros k. cbn [task_steps]. unfold task_step at 1. cbn [task ctl os mbind option_bind].
    induction k as [|k IH]; [done|]. exact IH.
Qed.

(** ** Witnesses: one partition of one sector *)

Definition ex_buf (v : Z) (d : Z) : _RAMNV_BUF_CTRL :=
  BufCtrl (replicate 516 v) (d :: replicate 31 0).
Definition ex_pc (from back to : _RAMNV_BUF_CTRL) : _RAMNV_PART_CTRL := PartCtrl 1 1 from back to 1.
Definition ex_ctl : _RAMNV_CTL :=
  NvCtl 1 [ex_pc (ex_buf 7 1) (ex_buf 5 0) (ex_buf 5 0)].
Definition ex_dirty_ctl : _RAMNV_CTL :=
  NvCtl 1 [ex_pc (ex_buf 7 1) (ex_buf 7 1) (ex_buf 5 0)].

Lemma ex_wf (c : _RAMNV_CTL) a b d :
  c = NvCtl 1 [ex_pc (ex_buf a 1) (ex_buf b d) (ex_buf 5 0)] → wf_ctl c.
Proof.
  intros ->. split; [simpl; lia|]. intros [|i] p Hi; [|simpl in Hi; lia]. intros [= <-].
  exists 516%nat. constructor; try by constructor. vm_compute. lia.
Qed.

Lemma markDirtyInfo_spec_witness :
  ∃ p p' c', part ex_ctl !! 0%nat = Some p ∧ _markDirtyInfo 0 30 5 ex_ctl = Some c'
    ∧ part c' !! 0%nat = Some p'
    ∧ (∀ j, 0 <= j → dirty_bit (dirty (fromChannel p')) j
                     = dirty_bit (dirty (fromChannel p)) j || marked 30 5 j)
    ∧ diskbuf (fromChannel p') = diskbuf (fromChannel p) ∧ backup p' = backup p
    ∧ toDisk p' = toDisk p ∧ (∀ j, j ≠ 0%nat → part c' !! j = part ex_ctl !! j).
Proof.
  apply (markDirtyInfo_spec ex_ctl 0 30 5); [by apply (ex_wf _ 7 5 0)|..]; done.
Defined.

Lemma backup_copy_commits_witness :
  ∃ p p' c', part ex_ctl !! 0%nat = Some p ∧ backup_copy 0 ex_ctl = Some c' ∧ wf_ctl c'
    ∧ part c' !! 0%nat = Some p' ∧ image p' (backup p') = image p (fromChannel p)
    ∧ fromChannel p' = fromChannel p ∧ toDisk p' = toDisk p
    ∧ dirty (backup p') = or_table (dirty (backup p)) (dirty (fromChannel p))
    ∧ (∀ j, j ≠ 0%nat → part c' !! j = part ex_ctl !! j).
Proof.
  apply (backup_copy_commits ex_ctl 0); [by apply (ex_wf _ 7 5 0)|unfold in_range; simpl; lia].
Defined.

Lemma restoreData_rolls_back_witness :
  ∃ p p' c', part ex_ctl !! 0%nat = Some p ∧ restoreData 0 ex_ctl = Some c' ∧ wf_ctl c'
    ∧ part c' !! 0%nat = Some p' ∧ image p' (fromChannel p') = image p (backup p)
    ∧ dirty (fromChannel p') = dirty (backup p)
    ∧ backup p' = backup p ∧ toDisk p' = toDisk p
    ∧ (∀ j, j ≠ 0%nat → part c' !! j = part ex_ctl !! j).
Proof.
  apply (restoreData_rolls_back ex_ctl 0); [by apply (ex_wf _ 7 5 0)|unfold in_range; simpl; lia].
Defined.

Lemma ex_files c a b d :
  c = NvCtl 1 [ex_pc (ex_buf a 1) (ex_buf b d) (ex_buf 5 0)] → files_ok ex_all ex_cfg c.
Proof.
  intros ->. split.
  - intros [|i] p Hi; [|simpl in Hi; lia]. intros [= <-]. exists ex_part. by split_and!.
  - intros i j p q f g Hij Hi Hj. simpl in Hi, Hj. lia.
Qed.

Lemma saveToDisk_persists_witness :
  ∃ c' w', saveToDisk ex_all ex_cfg ex_dirty_ctl (ex_world 3000) = Some (c', w') ∧ wf_ctl c'
    ∧ ∀ i, (i < 1)%nat → saved ex_cfg ex_dirty_ctl c' (disk (ex_world 3000)) (disk w') i.
Proof.
  apply (saveToDisk_persists ex_all ex_cfg 2050 ex_dirty_ctl (ex_world 3000)).
  - by apply (ex_wf _ 7 7 1).
  - by apply (ex_files _ 7 7 1).
  - intros [|i] p Hi; [|simpl in Hi; lia]. intros [= <-]. vm_compute. lia.
  - vm_compute. lia.
Defined.

Lemma save_task_refines_witness :
  ∃ n, (n <= 2 * 1 + 1)%nat ∧
  task_steps ex_all ex_cfg n (giveEvent (NvState ex_ctl (ex_world 0) SvWait))
  = Some (NvState ex_ctl (ex_world 0) SvIdle).
Proof. apply (save_task_refines ex_all ex_cfg ex_ctl (ex_world 0)). reflexivity. Defined.

Lemma giveEvent_lost_witness :
  ∃ c', backupData ex_all ex_cfg false 0 (NvState ex_ctl (ex_world 0) SvIdle)
      = Some (true, NvState c' (ex_world 0) SvIdle)
    ∧ __ifHasDirty 0 c' = Some true
    ∧ ∀ n, task_steps ex_all ex_cfg (S n) (NvState c' (ex_world 0) SvIdle)
           = Some (NvState c' (ex_world 0) SvWait).
Proof.
  apply (giveEvent_lost ex_all ex_cfg ex_ctl (ex_world 0) 0 (ex_pc (ex_buf 7 1) (ex_buf 5 0) (ex_buf 5 0))).
  - by apply (ex_wf _ 7 5 0).
  - unfold in_range. simpl. lia.
  - done.
  - reflexivity.
Defined.
