(* ===== verification/NvPacket.v ===== *)
(** * Packet layer of the NV daemon (ril/scx15/nvitemd/nvitem_packet.c,
    nvitem_channe_spipe.c)

    The modem sends fixed-size packets over a pipe: a 20-byte header (magic,
    ecc, group, sub index, payload size) and 1024 bytes.  A group starts with
    sub index 0 and continues with consecutive sub indices.  The result of each
    [read] on the pipe is an input of the model. *)

From stdpp Require Import list.
From S2P Require Import Prelude.

(** What [read (channel_fd, ...)] returns: -1, or the bytes of a datagram. *)
Inductive rd_result := RdErr | RdBytes (bs : bytes).

Definition _MAGICNUM : Z := 0x524d4e56.
Definition PACKETSIZE : nat := 1024.
Definition PACKET_HEAD_SIZE : nat := 20.
Definition PACKETRSP_SIZE : nat := 16.
Definition PACKET_TOTAL : nat := PACKET_HEAD_SIZE + PACKETSIZE.

Record PACKET_HEAD := PacketHead {
  MAGICNUM : Z; ecc : Z; idxGrp : Z; idxSub : Z; sizeOfPacket : Z }.

(** The statics of the file: the packet buffer and the current group and sub index. *)
Record packet_ctl := PacketCtl { packeBuf : bytes; _idxGrp : Z; _idxSub : Z }.

(** [channel_read (buf, size, &hasRead)]: the return value, the buffer, [hasRead]. *)
Definition channel_read (r : rd_result) (buf : bytes) (size : nat) : bool * bytes * Z :=
  match r with
  | RdErr => (negb (u32 (-1) <? Z.of_nat size), buf, u32 (-1))
  | RdBytes bs =>
      let got := take size bs in
      (negb (Z.of_nat (length got) <? Z.of_nat size),
       got ++ drop (length got) buf, Z.of_nat (length got))
  end.

(** [_packetHead], the view of the buffer as a header. *)
Definition packet_head (buf : bytes) : option PACKET_HEAD :=
  m ← get32 0 buf; e ← get32 4 buf; g ← get32 8 buf; s ← get32 12 buf; z ← get32 16 buf;
  Some (PacketHead m e g s z).

Definition __chkEcc : bool := true.

(** [_initPacket] resets the group; the packet buffer keeps its contents. *)
Definition _initPacket (p : packet_ctl) : packet_ctl := PacketCtl (packeBuf p) (u32 (-1)) 0.

(** The result code of [_getPacket] with, when a packet is accepted, the
    pointer [*buf] (the bytes from there to the end of the buffer) and [*size]. *)
Inductive packet :=
  | _PACKET_START (buf : bytes) (size : Z)
  | _PACKET_CONTINUE (buf : bytes) (size : Z)
  | _PACKET_SKIP
  | _PACKET_FAIL.

Definition _getPacket (r : rd_result) (p : packet_ctl) : option (packet * packet_ctl) :=
  let '(ok, buf, hasRead) := channel_read r (packeBuf p) PACKET_TOTAL in
  let p := PacketCtl buf (_idxGrp p) (_idxSub p) in
  if negb ok then Some (_PACKET_FAIL, p)
  else if hasRead <? Z.of_nat PACKET_HEAD_SIZE then Some (_PACKET_SKIP, p)
  else
    h ← packet_head buf;
    if negb (_MAGICNUM =? MAGICNUM h) then Some (_PACKET_SKIP, p)
    else if negb __chkEcc then Some (_PACKET_SKIP, p)
    else if hasRead <? u32 (Z.of_nat PACKET_HEAD_SIZE + sizeOfPacket h) then Some (_PACKET_SKIP, p)
    else
      let body := drop PACKET_HEAD_SIZE buf in
      if _idxGrp p =? idxGrp h then
        if u32 (_idxSub p + 1) =? idxSub h then
          Some (_PACKET_CONTINUE body (sizeOfPacket h),
                PacketCtl buf (_idxGrp p) (u32 (_idxSub p + 1)))
        else Some (_PACKET_SKIP, p)
      else if 0 =? idxSub h then
        Some (_PACKET_START body (sizeOfPacket h), PacketCtl buf (idxGrp h) 0)
      else Some (_PACKET_SKIP, p).

(** [__sendPacketRsp]: the bytes written to the channel for the packet in the buffer. *)
Definition __sendPacketRsp (p : packet_ctl) (rsp : Z) : bytes :=
  let h := take PACKET_HEAD_SIZE (packeBuf p) in
  (take 4 h ++ le32 0 ++ take 8 (drop 8 h) ++ le32 1)
    ++ u8 rsp :: replicate (PACKETRSP_SIZE - 1) 0.

(** ** Properties *)

(** The encoding of a packet, as the modem sends it. *)
Definition enc_packet (grp sub : Z) (payload : bytes) : bytes :=
  (le32 _MAGICNUM ++ le32 0 ++ le32 grp ++ le32 sub ++ le32 (Z.of_nat (length payload)))
    ++ payload ++ replicate (PACKETSIZE - length payload) 0.

Lemma length_enc_packet grp sub payload :
  (length payload <= PACKETSIZE)%nat → length (enc_packet grp sub payload) = PACKET_TOTAL.
Proof.
  intros. unfold enc_packet, PACKET_TOTAL, PACKET_HEAD_SIZE. rewrite !length_app, length_replicate.
  unfold le32. simpl. lia.
Qed.

Lemma enc_packet_bytes grp sub payload : wf_bytes payload → wf_bytes (enc_packet grp sub payload).
Proof.
  intros. unfold enc_packet. rewrite !wf_app. split_and!; try apply le32_bytes; [done|].
  apply Forall_replicate. unfold is_u8. lia.
Qed.

Lemma packet_head_words m e g s z rest :
  packet_head ((le32 m ++ le32 e ++ le32 g ++ le32 s ++ le32 z) ++ rest)
  = Some (PacketHead (u32 m) (u32 e) (u32 g) (u32 s) (u32 z)).
Proof.
  unfold packet_head, le32. cbn [app]. unfold get32.
  cbn [lookup list_lookup Nat.add mbind option_bind]. by rewrite !le32_value.
Qed.

Definition accepted (p : packet) : option (bytes * Z) :=
  match p with
  | _PACKET_START b n | _PACKET_CONTINUE b n => Some (b, n)
  | _ => None
  end.

(** A duplicated packet is accepted once: reading the same datagram again right after it
    was accepted skips it, whatever the counters (they wrap at 32 bits). *)
Theorem getPacket_duplicate_skipped bs p pk p' b n :
  _getPacket (RdBytes bs) p = Some (pk, p') → accepted pk = Some (b, n) →
  ∃ p'', _getPacket (RdBytes bs) p' = Some (_PACKET_SKIP, p'')
    ∧ _idxGrp p'' = _idxGrp p' ∧ _idxSub p'' = _idxSub p'.
Proof.
  intros H Ha. unfold _getPacket, channel_read in *.
  set (got := take PACKET_TOTAL bs) in *.
  destruct (negb (Z.of_nat (length got) <? Z.of_nat PACKET_TOTAL)) eqn:E1; cbn [negb] in *;
    [|by simplify_eq].
  apply negb_true_iff in E1. bsplit.
  assert (HL : length got = PACKET_TOTAL) by (unfold got in *; rewrite length_take in *; lia).
  destruct (_ <? _) eqn:E2 in H; [by simplify_eq|]. rewrite E2.
  set (buf := got ++ drop (length got) (packeBuf p)) in *.
  assert (Hbuf : ∀ q, packeBuf q = buf → got ++ drop (length got) (packeBuf q) = buf).
  { intros q ->. unfold buf. by rewrite drop_app_length. }
  binv H. rename x into h.
  destruct (negb (_MAGICNUM =? MAGICNUM h)) eqn:E3; [by simplify_eq|].
  cbn [negb __chkEcc] in *.
  destruct (_ <? u32 _) eqn:E4 in H; [by simplify_eq|].
  cbn [_idxGrp _idxSub] in H.
  assert (P : packeBuf p' = buf ∧ _idxGrp p' = idxGrp h ∧ _idxSub p' = idxSub h).
  { repeat bcase; simplify_eq; simpl in *; try done; split_and!; congruence. }
  destruct P as (Pb & Pg & Ps). rewrite (Hbuf p' Pb), E. cbn [mbind option_bind _idxGrp _idxSub].
  rewrite E3, E4, Pg, Ps, Z.eqb_refl.
  assert (u32 (idxSub h + 1) ≠ idxSub h).
  { unfold u32. Z.to_euclidean_division_equations. lia. }
  bdecide. eexists. split_and!; [done|done|done].
Qed.

(** The buffer of the module: 1044 bytes. *)
Definition wf_pkt (p : packet_ctl) : Prop :=
  length (packeBuf p) = PACKET_TOTAL ∧ wf_bytes (packeBuf p).

Definition wf_rd (r : rd_result) : Prop :=
  match r with RdErr => True | RdBytes bs => wf_bytes bs end.

Lemma channel_read_wf r buf :
  length buf = PACKET_TOTAL → wf_bytes buf → wf_rd r →
  let b := (channel_read r buf PACKET_TOTAL).1.2 in length b = PACKET_TOTAL ∧ wf_bytes b.
Proof.
  intros HL HW Hr. destruct r as [|bs]; [done|]. simpl. split.
  - rewrite length_app, length_drop, length_take. lia.
  - apply wf_app. split; [by apply Forall_take|by apply Forall_drop].
Qed.

Lemma packet_head_size_range buf h : wf_bytes buf → packet_head buf = Some h → is_u32 (sizeOfPacket h).
Proof. intros W H. unfold packet_head in H. binv H. simplify_eq. by eapply get32_range. Qed.

(** The buffer stays well formed, and an accepted size is an unsigned word. *)
Lemma getPacket_wf r p pk p' :
  wf_pkt p → wf_rd r → _getPacket r p = Some (pk, p') →
  wf_pkt p' ∧ ∀ b n, accepted pk = Some (b, n) → 0 <= n.
Proof.
  intros [HL HW] Hr H. unfold _getPacket in H.
  pose proof (channel_read_wf r (packeBuf p) HL HW Hr) as C.
  destruct (channel_read r (packeBuf p) PACKET_TOTAL) as [[ok buf] hasRead]. cbn in C.
  destruct (negb ok); [by simplify_eq|]. destruct (_ <? _) in H; [by simplify_eq|].
  binv H. pose proof (packet_head_size_range _ _ (proj2 C) E) as [Hz _].
  repeat bcase; simplify_eq; (split; [exact C|]); cbn; intros; by simplify_eq.
Qed.

(** Accepted sizes: an accepted packet's payload fits the 1024-byte buffer, except that the
    32-bit sum of the size check wraps for the 20 largest size values, which are accepted too. *)
Theorem getPacket_size_bound r p pk p' b n :
  wf_pkt p → wf_rd r →
  _getPacket r p = Some (pk, p') → accepted pk = Some (b, n) →
  r ≠ RdErr →
  length b = PACKETSIZE ∧ (0 <= n <= 1024 ∨ 2 ^ 32 - 20 <= n < 2 ^ 32).
Proof.
  intros [HL HW] Hr H Ha Hne. destruct r as [|bs]; [done|].
  pose proof (channel_read_wf _ _ HL HW Hr) as [HLb HWb].
  unfold _getPacket, channel_read in H, HLb, HWb. set (got := take PACKET_TOTAL bs) in *.
  set (buf := got ++ drop (length got) (packeBuf p)) in *. cbn [fst snd] in HLb, HWb. fold buf in HLb, HWb.
  assert (Hg : (length got <= PACKET_TOTAL)%nat) by (unfold got; rewrite length_take; lia).
  destruct (negb (negb _)); [by simplify_eq|].
  destruct (_ <? _) in H; [by simplify_eq|]. binv H. rename x into h.
  destruct (negb (_MAGICNUM =? _)); [by simplify_eq|]. cbn [negb __chkEcc] in H.
  destruct (_ <? u32 _) eqn:E4 in H; [by simplify_eq|]. bsplit.
  pose proof (packet_head_size_range _ _ HWb E) as Hz.
  assert (b = drop PACKET_HEAD_SIZE buf ∧ n = sizeOfPacket h) as [-> ->].
  { repeat bcase; simplify_eq; simpl in *; by simplify_eq. }
  split; [by rewrite length_drop, HLb|].
  unfold PACKET_TOTAL, PACKET_HEAD_SIZE, PACKETSIZE, is_u32, u32 in *.
  Z.to_euclidean_division_equations. lia.
Qed.

(** A failed read is not reported: when [read] returns -1 the unsigned comparison of
    [channel_read] takes it for a full packet, so [_getPacket] never answers FAIL for it and
    judges the previous contents of the buffer. *)
Theorem getPacket_read_error p :
  length (packeBuf p) = PACKET_TOTAL →
  ∃ pk p', _getPacket RdErr p = Some (pk, p') ∧ pk ≠ _PACKET_FAIL ∧ packeBuf p' = packeBuf p.
Proof.
  intros HL. unfold _getPacket, channel_read. change (u32 (-1)) with (2 ^ 32 - 1).
  change (negb (2 ^ 32 - 1 <? Z.of_nat PACKET_TOTAL)) with true. cbn [negb].
  change (2 ^ 32 - 1 <? Z.of_nat PACKET_HEAD_SIZE) with false.
  assert (is_Some (packet_head (packeBuf p))) as [h ->].
  { unfold packet_head. unfold PACKET_TOTAL, PACKET_HEAD_SIZE, PACKETSIZE in HL.
    destruct (get32_Some 0 (packeBuf p)) as [? ->]; [lia|].
    destruct (get32_Some 4 (packeBuf p)) as [? ->]; [lia|].
    destruct (get32_Some 8 (packeBuf p)) as [? ->]; [lia|].
    destruct (get32_Some 12 (packeBuf p)) as [? ->]; [lia|].
    destruct (get32_Some 16 (packeBuf p)) as [? ->]; [lia|]. simpl. eauto. }
  cbn [mbind option_bind]. repeat case_match; eexists _, _; split_and!; done.
Qed.

(** How the header of an encoded packet is read back. *)
Lemma getPacket_enc grp sub payload p :
  (length payload <= PACKETSIZE)%nat → is_u32 grp → is_u32 sub →
  length (packeBuf p) = PACKET_TOTAL →
  let bs := enc_packet grp sub payload in
  let body := payload ++ replicate (PACKETSIZE - length payload) 0 in
  let n := Z.of_nat (length payload) in
  _getPacket (RdBytes bs) p =
  if _idxGrp p =? grp then
    if u32 (_idxSub p + 1) =? sub then Some (_PACKET_CONTINUE body n, PacketCtl bs grp sub)
    else Some (_PACKET_SKIP, PacketCtl bs (_idxGrp p) (_idxSub p))
  else if 0 =? sub then Some (_PACKET_START body n, PacketCtl bs grp 0)
  else Some (_PACKET_SKIP, PacketCtl bs (_idxGrp p) (_idxSub p)).
Proof.
  intros HL Hg Hs HP bs body n. unfold _getPacket, channel_read.
  pose proof (length_enc_packet grp sub payload HL) as HB. fold bs in HB.
  rewrite take_ge by lia. rewrite HB, Z.ltb_irrefl. cbn [negb].
  rewrite drop_ge, app_nil_r by lia.
  change (Z.of_nat PACKET_TOTAL <? Z.of_nat PACKET_HEAD_SIZE) with false.
  pose proof (packet_head_words _MAGICNUM 0 grp sub (Z.of_nat (length payload))
    (payload ++ replicate (PACKETSIZE - length payload) 0)) as HH.
  fold (enc_packet grp sub payload) in HH. fold bs in HH. rewrite HH.
  cbn [mbind option_bind MAGICNUM sizeOfPacket idxGrp idxSub _idxGrp _idxSub].
  change (_MAGICNUM =? u32 _MAGICNUM) with true. cbn [negb __chkEcc].
  fold n. assert (Hn : 0 <= n <= 1024) by (unfold n, PACKETSIZE in *; lia).
  change (Z.of_nat PACKET_TOTAL) with 1044. change (Z.of_nat PACKET_HEAD_SIZE) with 20.
  rewrite (u32_id grp), (u32_id sub), (u32_id n) by (done || (unfold is_u32; lia)).
  rewrite (u32_id (20 + n)) by (unfold is_u32; lia).
  rewrite (proj2 (Z.ltb_ge _ _)) by lia.
  assert (HD : drop PACKET_HEAD_SIZE bs = body) by done. rewrite HD.
  destruct (Z.eqb_spec (_idxGrp p) grp) as [->|]; [|done].
  destruct (Z.eqb_spec (u32 (_idxSub p + 1)) sub) as [->|]; done.
Qed.

(** ** Witnesses: a packet of group 5 with two bytes of payload *)

Definition ex_enc : bytes := enc_packet 5 0 [1; 2].
Definition ex_ctl0 : packet_ctl := PacketCtl (replicate PACKET_TOTAL 0) (u32 (-1)) 0.

Lemma ex_ctl0_wf : wf_pkt ex_ctl0.
Proof. split; [done|]. apply Forall_replicate. unfold is_u8. lia. Qed.

Lemma ex_enc_read :
  _getPacket (RdBytes ex_enc) ex_ctl0
  = Some (_PACKET_START ([1; 2] ++ replicate 1022 0) 2, PacketCtl ex_enc 5 0).
Proof. vm_compute. reflexivity. Qed.

Lemma getPacket_duplicate_skipped_witness :
  ∃ p'', _getPacket (RdBytes ex_enc) (PacketCtl ex_enc 5 0) = Some (_PACKET_SKIP, p'')
    ∧ _idxGrp p'' = 5 ∧ _idxSub p'' = 0.
Proof.
  exact (getPacket_duplicate_skipped ex_enc ex_ctl0 (_PACKET_START ([1; 2] ++ replicate 1022 0) 2)
    (PacketCtl ex_enc 5 0) _ 2 ex_enc_read eq_refl).
Defined.

Lemma getPacket_size_bound_witness :
  length ([1; 2] ++ replicate 1022 0) = PACKETSIZE ∧ (0 <= 2 <= 1024 ∨ 2 ^ 32 - 20 <= 2 < 2 ^ 32).
Proof.
  apply (getPacket_size_bound (RdBytes ex_enc) ex_ctl0 (_PACKET_START ([1; 2] ++ replicate 1022 0) 2)
    (PacketCtl ex_enc 5 0) _ 2 ex_ctl0_wf);
    [|exact ex_enc_read|reflexivity|done].
  apply enc_packet_bytes. repeat constructor; lia.
Defined.

Lemma getPacket_read_error_witness :
  ∃ pk p', _getPacket RdErr ex_ctl0 = Some (pk, p') ∧ pk ≠ _PACKET_FAIL ∧ packeBuf p' = packeBuf ex_ctl0.
Proof. apply (getPacket_read_error ex_ctl0). reflexivity. Defined.
