(* ===== verification/NvSync.v ===== *)
(** * Request analyzer of the NV daemon (ril/scx15/nvitemd/nvitem_sync.c)

    A request is a stream of 20-byte tokens, HEAD, BODY or TAIL, each BODY
    followed by its data, carried by the packets of one group.  The analyzer
    is a state machine (0: head, 1: body or tail, 2: data) whose effect on the
    partition buffers is committed by TAIL and undone on every failure.
    [None] is undefined behaviour. *)

From stdpp Require Import gmap strings.
From S2P Require Import Prelude NvFs NvBuf NvPacket.

Definition SYNC_REQ_HEAD : Z := 0.
Definition SYNC_REQ_BODY : Z := 1.
Definition SYNC_REQ_TAIL : Z := 2.

(** [sizeof (SYNC_REQ)], the largest of the three structures. *)
Definition SYNC_REQ_SIZE : nat := 20.

(** [syncReqBuf] is declared as an array of [SYNC_REQ_SIZE] pointers of 4 bytes: 80 bytes,
    and the offset [_ofst] added to it counts pointers. *)
Definition PTR_SIZE : nat := 4.

Record SYNC_REQ := SyncReq { packet_type : Z; reqIdx : Z; req_partId : Z; start : Z; num : Z }.

Definition sync_req (buf : bytes) : option SYNC_REQ :=
  t ← get32 0 buf; r ← get32 4 buf; p ← get32 8 buf; s ← get32 12 buf; n ← get32 16 buf;
  Some (SyncReq t r p s n).

(** The statics of the file. *)
Record sync_ctl := SyncCtl {
  _syncState : Z; _syncBusy : bool; syncReqFrame : Z; syncReqBuf : bytes;
  _ofst : Z; _id : Z; _start : Z; _len : Z }.

Definition _syncInit (s : sync_ctl) : sync_ctl :=
  SyncCtl 0 false 0 (syncReqBuf s) 0 (u32 (-1)) 0 0.

(** The whole daemon: packet layer, analyzer, buffers and disk, and the replies sent. *)
Record daemon := Daemon { pkt : packet_ctl; sync : sync_ctl; nv : nv_state; sent : list bytes }.

Definition set_sync (s : sync_ctl) (d : daemon) : daemon := Daemon (pkt d) s (nv d) (sent d).
Definition set_pkt (p : packet_ctl) (d : daemon) : daemon := Daemon p (sync d) (nv d) (sent d).
Definition set_nv (v : nv_state) (d : daemon) : daemon := Daemon (pkt d) (sync d) v (sent d).

Definition _sendPacktRsp (rsp : Z) (d : daemon) : daemon :=
  Daemon (pkt d) (sync d) (nv d) (sent d ++ [__sendPacketRsp (pkt d) rsp]).

(** A buffer operation on the daemon's table. *)
Definition with_ctl (f : _RAMNV_CTL → option _RAMNV_CTL) (d : daemon) : option daemon :=
  c ← f (ctl (nv d)); Some (set_nv (NvState c (os (nv d)) (task (nv d))) d).

Definition set_syncState (z : Z) (s : sync_ctl) : sync_ctl :=
  SyncCtl z (_syncBusy s) (syncReqFrame s) (syncReqBuf s) (_ofst s) (_id s) (_start s) (_len s).
Definition set_busy (s : sync_ctl) : sync_ctl :=
  SyncCtl (_syncState s) true (syncReqFrame s) (syncReqBuf s) (_ofst s) (_id s) (_start s) (_len s).
Definition set_token (b : bytes) (s : sync_ctl) : sync_ctl :=
  SyncCtl (_syncState s) (_syncBusy s) (syncReqFrame s) b 0 (_id s) (_start s) (_len s).
Definition set_ofst (o : Z) (s : sync_ctl) : sync_ctl :=
  SyncCtl (_syncState s) (_syncBusy s) (syncReqFrame s) (syncReqBuf s) o (_id s) (_start s) (_len s).
Definition set_head (frame id : Z) (s : sync_ctl) : sync_ctl :=
  SyncCtl (_syncState s) (_syncBusy s) frame (syncReqBuf s) (_ofst s) id (_start s) (_len s).
Definition set_frame (frame : Z) (s : sync_ctl) : sync_ctl :=
  SyncCtl (_syncState s) (_syncBusy s) frame (syncReqBuf s) (_ofst s) (_id s) (_start s) (_len s).
Definition set_range (st ln : Z) (s : sync_ctl) : sync_ctl :=
  SyncCtl (_syncState s) (_syncBusy s) (syncReqFrame s) (syncReqBuf s) (_ofst s) (_id s) st ln.

Inductive sync_ret := SYNC_CONTINUE | SYNC_NEXT | SYNC_DONE | SYNC_FAIL.

#[export] Instance sync_ret_eq_dec : EqDecision sync_ret.
Proof. solve_decision. Defined.

(** A cursor in the packet: the bytes from [*buf] to the end of the packet buffer, and [*size]. *)
Abbreviation cursor := (bytes * Z)%type.

(** [__getToken (&buf, &size)]: whether a token is complete. *)
Definition __getToken (cur : cursor) (s : sync_ctl) : option (bool * cursor * sync_ctl) :=
  let '(buf, size) := cur in
  let missing := u32 (Z.of_nat SYNC_REQ_SIZE - _ofst s) in
  if size <? missing then
    if negb (size =? 0) then Some (false, cur, s)
    else Some (false, (buf, 0), set_ofst (u32 (_ofst s + size)) s)
  else if 0 =? missing then Some (true, cur, set_ofst 0 s)
  else
    d ← slice 0 (Z.to_nat missing) buf;
    b ← splice (PTR_SIZE * Z.to_nat (_ofst s)) d (syncReqBuf s);
    Some (true, (drop (Z.to_nat missing) buf, size - missing), set_token b s).

Definition _syncGetHead (cur : cursor) (d : daemon) : option (sync_ret * cursor * daemon) :=
  '(got, cur, s) ← __getToken cur (sync d);
  if negb got then Some (SYNC_CONTINUE, cur, set_sync s d)
  else
    head ← sync_req (syncReqBuf s);
    if negb (SYNC_REQ_HEAD =? packet_type head) then Some (SYNC_FAIL, cur, set_sync s d)
    else
      match getCtlId (ctl (nv d)) (req_partId head) with
      | None => Some (SYNC_FAIL, cur, set_sync (set_head (reqIdx head) (u32 (-1)) s) d)
      | Some i => Some (SYNC_NEXT, cur, set_sync (set_head (reqIdx head) (Z.of_nat i) s) d)
      end.

Definition _syncGetBody (cur : cursor) (d : daemon) : option (sync_ret * cursor * daemon) :=
  '(got, cur, s) ← __getToken cur (sync d);
  if negb got then Some (SYNC_CONTINUE, cur, set_sync s d)
  else
    req ← sync_req (syncReqBuf s);
    if SYNC_REQ_BODY =? packet_type req then
      if negb (u32 (syncReqFrame s + 1) =? reqIdx req) then Some (SYNC_FAIL, cur, set_sync s d)
      else
        let s := set_frame (u32 (syncReqFrame s + 1)) s in
        d ← with_ctl (_markDirtyInfo (_id s) (start req) (num req)) (set_sync s d);
        let sect := Z.of_nat RAMNV_SECT_SIZE in
        Some (SYNC_NEXT, cur, set_sync (set_range (u32 (start req * sect)) (u32 (num req * sect)) s) d)
    else if SYNC_REQ_TAIL =? packet_type req then
      if negb (u32 (syncReqFrame s + 1) =? reqIdx req) then Some (SYNC_FAIL, cur, set_sync s d)
      else Some (SYNC_DONE, cur, set_sync (set_frame (u32 (syncReqFrame s + 1)) s) d)
    else Some (SYNC_FAIL, cur, set_sync s d).

Definition _syncGetData (cur : cursor) (d : daemon) : option (sync_ret * cursor * daemon) :=
  let '(buf, size) := cur in
  let s := sync d in
  if _len s <=? size then
    data ← slice 0 (Z.to_nat (_len s)) buf;
    d ← with_ctl (writeData (_id s) (_start s) data) d;
    Some (SYNC_NEXT, (drop (Z.to_nat (_len s)) buf, size - _len s),
          set_sync (set_range (u32 (_start s + _len s)) 0 s) d)
  else
    data ← slice 0 (Z.to_nat size) buf;
    d ← with_ctl (writeData (_id s) (_start s) data) d;
    Some (SYNC_CONTINUE, (drop (Z.to_nat size) buf, 0),
          set_sync (set_range (u32 (_start s + size)) (_len s - size) s) d).

Section nvsync.
Context (can_open : string → bool) (cfg : list RAM_NV_CONFIG) (is_cali_mode : bool).

(** [_syncReset (SYNC_SUC_RESET)]. *)
Definition _syncReset_suc (d : daemon) : option (bool * daemon) :=
  '(ret, v) ← backupData can_open cfg is_cali_mode (_id (sync d)) (nv d);
  Some (ret, set_sync (_syncInit (sync d)) (set_nv v d)).

(** [_syncReset (SYNC_FAIL_RESET)]. *)
Definition _syncReset_fail (d : daemon) : option daemon :=
  d ← (if negb (_syncState (sync d) =? 0) then with_ctl (restoreData (_id (sync d))) d else Some d);
  Some (set_sync (_syncInit (sync d)) d).

(** Reset, answer 0 and leave the packet. *)
Definition reject (d : daemon) : option daemon :=
  d ← _syncReset_fail d; Some (_sendPacktRsp 0 d).

(** The [while (0 != size)] loop over the bytes of a packet. *)
Fixpoint analyze (fuel : nat) (cur : cursor) (d : daemon) : option daemon :=
  if cur.2 =? 0 then Some d
  else match fuel with
  | O => None
  | S fuel' =>
      if 0 =? _syncState (sync d) then
        '(r, cur, d) ← _syncGetHead cur d;
        match r with
        | SYNC_FAIL => reject d
        | SYNC_NEXT => analyze fuel' cur (set_sync (set_syncState 1 (sync d)) d)
        | SYNC_CONTINUE => Some (_sendPacktRsp 1 d)
        | SYNC_DONE => analyze fuel' cur d
        end
      else if 1 =? _syncState (sync d) then
        '(r, cur, d) ← _syncGetBody cur d;
        match r with
        | SYNC_FAIL => reject d
        | SYNC_NEXT => analyze fuel' cur (set_sync (set_syncState 2 (sync d)) d)
        | SYNC_CONTINUE => Some (_sendPacktRsp 1 d)
        | SYNC_DONE => '(ret, d) ← _syncReset_suc d; Some (_sendPacktRsp (if (ret : bool) then 1 else 0) d)
        end
      else
        '(r, cur, d) ← _syncGetData cur d;
        match r with
        | SYNC_CONTINUE => Some (_sendPacktRsp 1 d)
        | SYNC_NEXT => analyze fuel' cur (set_sync (set_syncState 1 (sync d)) d)
        | _ => analyze fuel' cur d
        end
  end.

(** Every two turns consume at least a token, so [2 * size + 3] turns are enough
    ([analyze_fuel] below). *)
Definition analyze_packet (buf : bytes) (size : Z) (d : daemon) : option daemon :=
  analyze (2 * Z.to_nat size + 3) (buf, size) (set_sync (set_busy (sync d)) d).

(** One turn of the loop of [syncAnalyzer] on one result of [read]; [inr] is [return]. *)
Definition sync_turn (r : rd_result) (d : daemon) : option (daemon + daemon) :=
  '(p, ps) ← _getPacket r (pkt d);
  let d := set_pkt ps d in
  match p with
  | _PACKET_FAIL => d ← _syncReset_fail d; Some (inr d)
  | _PACKET_START buf size =>
      d ← (if _syncBusy (sync d) then _syncReset_fail d else Some d);
      d ← analyze_packet buf size d; Some (inl d)
  | _PACKET_CONTINUE buf size =>
      if negb (_syncBusy (sync d)) then Some (inl (_sendPacktRsp 0 d))
      else d ← analyze_packet buf size d; Some (inl d)
  | _PACKET_SKIP => Some (inl d)
  end.

(** [syncAnalyzer] on the results of the successive reads; [true] when it returned. *)
Fixpoint syncAnalyzer (rs : list rd_result) (d : daemon) : option (daemon * bool) :=
  match rs with
  | [] => Some (d, false)
  | r :: rest =>
      x ← sync_turn r d;
      match x with
      | inr d => Some (d, true)
      | inl d => syncAnalyzer rest d
      end
  end.
End nvsync.

(** ** Invariant of the analyzer *)

Record wf_sync (c : _RAMNV_CTL) (s : sync_ctl) : Prop := {
  wfs_state : _syncState s = 0 ∨ _syncState s = 1 ∨ _syncState s = 2;
  wfs_busy : _syncBusy s = false → _syncState s = 0;
  wfs_id : _syncState s ≠ 0 → in_range c (_id s);
  wfs_ofst : _ofst s = 0;
  wfs_token : length (syncReqBuf s) = (PTR_SIZE * SYNC_REQ_SIZE)%nat;
  wfs_len : 0 <= _len s;
  wfs_idle : _syncBusy s = false → _len s = 0 }.

Record wf_daemon (d : daemon) : Prop := {
  wfd_ctl : wf_ctl (ctl (nv d));
  wfd_sync : wf_sync (ctl (nv d)) (sync d);
  wfd_pkt : wf_pkt (pkt d) }.

Lemma in_range_shape c c' id : shape c' = shape c → in_range c id → in_range c' id.
Proof. intros E. unfold in_range. by rewrite (shape_partNum _ _ E). Qed.

Lemma wf_sync_shape c c' s : shape c' = shape c → wf_sync c s → wf_sync c' s.
Proof. intros E []. constructor; eauto using in_range_shape. Qed.

(** A token is complete or the packet is left: with [_ofst = 0] nothing is ever stored of an
    incomplete token. *)
Lemma getToken_spec buf size s :
  _ofst s = 0 → length (syncReqBuf s) = (PTR_SIZE * SYNC_REQ_SIZE)%nat → 0 < size →
  __getToken (buf, size) s =
  if size <? 20 then Some (false, (buf, size), s)
  else d ← slice 0 20 buf;
       Some (true, (drop 20 buf, size - 20), set_token (d ++ drop 20 (syncReqBuf s)) s).
Proof.
  intros Ho HL Hs. unfold __getToken. rewrite Ho. change (u32 (Z.of_nat SYNC_REQ_SIZE - 0)) with 20.
  destruct (Z.ltb_spec size 20).
  - by bdecide.
  - bdecide. change (Z.to_nat 20) with 20%nat.
    destruct (slice 0 20 buf) as [d|] eqn:E; [|done]. cbn [mbind option_bind].
    apply slice_length in E. change (PTR_SIZE * Z.to_nat 0)%nat with 0%nat.
    unfold PTR_SIZE, SYNC_REQ_SIZE in HL.
    rewrite splice_ok by lia. by rewrite E.
Qed.

Lemma getToken_inv cur s got cur' s' :
  _ofst s = 0 → length (syncReqBuf s) = (PTR_SIZE * SYNC_REQ_SIZE)%nat → 0 < cur.2 →
  __getToken cur s = Some (got, cur', s') →
  ∃ b, s' = (if (got : bool) then set_token b s else s)
    ∧ length b = (PTR_SIZE * SYNC_REQ_SIZE)%nat
    ∧ cur'.2 = (if got then cur.2 - 20 else cur.2) ∧ (got = true → 20 <= cur.2).
Proof.
  destruct cur as [buf size]. cbn [snd]. intros Ho HL Hs. rewrite getToken_spec by done.
  destruct (Z.ltb_spec size 20).
  - intros [= <- <- <-]. by exists (syncReqBuf s).
  - intros H'. binv H'. simplify_eq. eexists. split_and!; [done| |done|done].
    apply slice_length in E. rewrite length_app, length_drop, HL, E.
    unfold PTR_SIZE, SYNC_REQ_SIZE. lia.
Qed.

Lemma with_ctl_inv f d d' :
  with_ctl f d = Some d' →
  ∃ c, f (ctl (nv d)) = Some c ∧ d' = set_nv (NvState c (os (nv d)) (task (nv d))) d.
Proof. unfold with_ctl. intros H. binv H. simplify_eq. eauto. Qed.

(** What a step of the analyzer keeps, whatever it does to the analyzer's own state. *)
Definition keeps (d d' : daemon) : Prop :=
  shape (ctl (nv d')) = shape (ctl (nv d)) ∧ wf_ctl (ctl (nv d')) ∧ pkt d' = pkt d.

Lemma keeps_sync d s : wf_ctl (ctl (nv d)) → keeps d (set_sync s d).
Proof. done. Qed.

Lemma keeps_trans d1 d2 d3 : keeps d1 d2 → keeps d2 d3 → keeps d1 d3.
Proof. unfold keeps. intros (?&?&?) (?&?&?). split_and!; congruence. Qed.

Lemma syncGetHead_inv cur d r cur' d' :
  wf_daemon d → 0 < cur.2 → _syncGetHead cur d = Some (r, cur', d') →
  nv d' = nv d ∧ pkt d' = pkt d ∧ sent d' = sent d
  ∧ _ofst (sync d') = 0 ∧ length (syncReqBuf (sync d')) = (PTR_SIZE * SYNC_REQ_SIZE)%nat
  ∧ _len (sync d') = _len (sync d) ∧ _syncBusy (sync d') = _syncBusy (sync d)
  ∧ _syncState (sync d') = _syncState (sync d)
  ∧ (r = SYNC_NEXT → in_range (ctl (nv d)) (_id (sync d')) ∧ cur'.2 = cur.2 - 20 ∧ 20 <= cur.2)
  ∧ r ≠ SYNC_DONE ∧ (r = SYNC_CONTINUE → d' = d).
Proof.
  intros [W [? ? ? Ho HT ? ?] HP] Hs H. unfold _syncGetHead in H. binv H.
  destruct x as [[got cur1] s1].
  destruct (getToken_inv _ _ _ _ _ Ho HT Hs E) as (b & -> & Hb & Hc & Hg).
  destruct got; cbn [negb] in H; simplify_eq; [|destruct d; split_and!; done].
  binv H. destruct (negb (SYNC_REQ_HEAD =? _)); simplify_eq; [split_and!; done|].
  pose proof (getCtlId_lt (ctl (nv d)) (req_partId x)) as G.
  destruct (getCtlId (ctl (nv d)) (req_partId x)) as [i|]; simplify_eq; [|split_and!; done].
  split_and!; try done. intros _. split_and!; [|done|auto].
  specialize (G i eq_refl). unfold in_range. cbn. lia.
Qed.

Lemma syncGetBody_inv cur d r cur' d' :
  wf_daemon d → 0 < cur.2 → _syncGetBody cur d = Some (r, cur', d') →
  keeps d d' ∧ sent d' = sent d ∧ os (nv d') = os (nv d) ∧ task (nv d') = task (nv d)
  ∧ _ofst (sync d') = 0 ∧ length (syncReqBuf (sync d')) = (PTR_SIZE * SYNC_REQ_SIZE)%nat
  ∧ 0 <= _len (sync d') ∧ _syncBusy (sync d') = _syncBusy (sync d)
  ∧ _syncState (sync d') = _syncState (sync d) ∧ _id (sync d') = _id (sync d)
  ∧ (r = SYNC_NEXT → cur'.2 = cur.2 - 20 ∧ 20 <= cur.2
      ∧ ∃ st n, _markDirtyInfo (_id (sync d)) st n (ctl (nv d)) = Some (ctl (nv d')))
  ∧ (r ≠ SYNC_NEXT → nv d' = nv d) ∧ (r = SYNC_CONTINUE → d' = d).
Proof.
  intros [W [? ? ? Ho HT ? ?] HP] Hs H. unfold _syncGetBody in H. binv H.
  destruct x as [[got cur1] s1].
  destruct (getToken_inv _ _ _ _ _ Ho HT Hs E) as (b & -> & Hb & Hc & Hg).
  destruct got; cbn [negb] in H; simplify_eq; [|destruct d; split_and!; done].
  binv H. destruct (SYNC_REQ_BODY =? _).
  - destruct (negb _); simplify_eq; [split_and!; done|].
    binv H. simplify_eq. apply with_ctl_inv in E1 as (c & Ec & ->). cbn in Ec.
    assert (shape c = shape (ctl (nv d))) by by eapply markDirtyInfo_shape.
    assert (wf_ctl c) by by eapply markDirtyInfo_wf.
    split_and!; try done.
    + cbn. apply u32_range.
    + intros _. split_and!; [done|auto|]. eauto.
  - destruct (SYNC_REQ_TAIL =? _); [destruct (negb _)|]; simplify_eq; split_and!; done.
Qed.

Lemma syncGetData_inv cur d r cur' d' :
  wf_daemon d → 0 < cur.2 → _syncGetData cur d = Some (r, cur', d') →
  keeps d d' ∧ sent d' = sent d ∧ os (nv d') = os (nv d) ∧ task (nv d') = task (nv d)
  ∧ _ofst (sync d') = 0 ∧ length (syncReqBuf (sync d')) = (PTR_SIZE * SYNC_REQ_SIZE)%nat
  ∧ 0 <= _len (sync d') ∧ _syncBusy (sync d') = _syncBusy (sync d)
  ∧ _syncState (sync d') = _syncState (sync d) ∧ _id (sync d') = _id (sync d)
  ∧ (∃ st data, writeData (_id (sync d)) st data (ctl (nv d)) = Some (ctl (nv d')))
  ∧ (r = SYNC_NEXT ∧ 0 <= cur'.2 <= cur.2 ∨ r = SYNC_CONTINUE).
Proof.
  intros [W [? ? ? Ho HT ? ?] HP] Hs H. destruct cur as [buf size]. cbn [snd] in *.
  unfold _syncGetData in H.
  destruct (Z.leb_spec (_len (sync d)) size); binv H; simplify_eq;
    apply with_ctl_inv in E0 as (c & Ec & ->).
  all: assert (shape c = shape (ctl (nv d))) by (by eapply writeData_shape).
  all: assert (wf_ctl c) by (by eapply writeData_wf).
  - split_and!; try done; [eauto|]. left. split; [done|]. cbn. lia.
  - split_and!; try done; [cbn; lia|eauto|]. by right.
Qed.

(** ** Transactions: the abstract specification of the partition buffers *)

(** A partition is its working image and its committed image. *)
Abbreviation txn_state := (list (bytes * bytes)).

Inductive txn_step : txn_state → txn_state → Prop :=
  | txn_write (i : nat) (w w' c : bytes) (l : txn_state) :
      l !! i = Some (w, c) → length w' = length w → txn_step l (<[i := (w', c)]> l)
  | txn_commit (i : nat) (w c : bytes) (l : txn_state) :
      l !! i = Some (w, c) → txn_step l (<[i := (w, w)]> l)
  | txn_abort (i : nat) (w c : bytes) (l : txn_state) :
      l !! i = Some (w, c) → txn_step l (<[i := (c, c)]> l).

Definition txn1 (p : _RAMNV_PART_CTRL) : bytes * bytes :=
  (image p (fromChannel p), image p (backup p)).
Definition txn (c : _RAMNV_CTL) : txn_state := txn1 <$> take (partNum c) (part c).

Lemma txn_upd id f c c' :
  in_range c id → upd_part id f c = Some c' →
  ∃ p p', part c !! Z.to_nat id = Some p ∧ f p = Some p' ∧ part c' !! Z.to_nat id = Some p'
    ∧ txn c !! Z.to_nat id = Some (txn1 p) ∧ txn c' = <[Z.to_nat id := txn1 p']> (txn c).
Proof.
  intros R (p & p' & Ep & Ef & ->)%upd_part_Some. exists p, p'.
  unfold in_range in R. unfold txn. cbn [part partNum]. split_and!; [done|done| | |].
  - apply list_lookup_insert_eq. by eapply lookup_lt_Some.
  - rewrite list_lookup_fmap, lookup_take_lt by lia. by rewrite Ep.
  - rewrite take_insert_lt by lia. by rewrite list_fmap_insert.
Qed.

Lemma txn_upd_same id f c c' :
  (∀ p p', f p = Some p' → txn1 p' = txn1 p) → upd_part id f c = Some c' → txn c' = txn c.
Proof.
  intros Hf H. pose proof (upd_part_Some _ _ _ _ H) as (p & p' & Ep & Ef & ->).
  unfold txn. cbn [part partNum]. apply list_eq. intros i. rewrite !list_lookup_fmap.
  destruct (decide (i < partNum c)%nat); [|by rewrite !lookup_take_ge by lia].
  rewrite !lookup_take_lt by lia.
  destruct (decide (i = Z.to_nat id)) as [->|].
  - rewrite list_lookup_insert_eq by (by eapply lookup_lt_Some). rewrite Ep. simpl. by rewrite (Hf _ _ Ef).
  - by rewrite list_lookup_insert_ne.
Qed.

Lemma txn_mark id st n c c' : _markDirtyInfo id st n c = Some c' → txn c' = txn c.
Proof. apply txn_upd_same. intros p p' H. binv H. by simplify_eq. Qed.

Lemma txn_getData id c c' : __getData id c = Some c' → txn c' = txn c.
Proof. apply txn_upd_same. intros p p' H. binv H. by simplify_eq. Qed.

Lemma txn_clean id c c' : clean_toDisk id c = Some c' → txn c' = txn c.
Proof. apply txn_upd_same. intros p p' H. by simplify_eq. Qed.

Lemma txn_writeData id st data c c' :
  in_range c id → writeData id st data c = Some c' → rtc txn_step (txn c) (txn c').
Proof.
  intros R. unfold writeData. destruct data as [|b data]; [by intros [= ->]|].
  intros H. destruct (txn_upd _ _ _ _ R H) as (p & p' & _ & Ef & _ & T1 & T2).
  binv Ef. simplify_eq. rewrite T2. apply rtc_once. eapply txn_write; [done|].
  unfold image. cbn. apply splice_length in E. by rewrite !length_take, E.
Qed.

Lemma txn_backup_copy id c c' :
  wf_ctl c → in_range c id → backup_copy id c = Some c' → txn_step (txn c) (txn c').
Proof.
  intros W R H. destruct (txn_upd _ _ _ _ R H) as (p & p' & Ep & Ef & _ & T1 & T2).
  destruct (in_range_part c id W R) as (q & n & Hq & Hw). assert (q = p) as -> by congruence.
  destruct Hw as [[Hf _] [Hb _] _ Hs]. rewrite memcpy_image_ok in Ef by lia. simplify_eq/=.
  rewrite T2. unfold txn1 at 1, image. cbn. change (image_bytes (set_backup _ p)) with (image_bytes p).
  rewrite take_memcpy by lia. by eapply txn_commit.
Qed.

Lemma txn_restoreData id c c' :
  wf_ctl c → in_range c id → restoreData id c = Some c' → txn_step (txn c) (txn c').
Proof.
  intros W R H. destruct (txn_upd _ _ _ _ R H) as (p & p' & Ep & Ef & _ & T1 & T2).
  destruct (in_range_part c id W R) as (q & n & Hq & Hw). assert (q = p) as -> by congruence.
  destruct Hw as [[Hf _] [Hb _] _ Hs]. rewrite memcpy_image_ok in Ef by lia. simplify_eq/=.
  rewrite T2. unfold txn1 at 1, image. cbn.
  change (image_bytes (set_fromChannel _ p)) with (image_bytes p).
  rewrite take_memcpy by lia. by eapply txn_abort.
Qed.

(** Saving to disk is invisible to the transactions and keeps the table well formed. *)
Lemma write_part_txn can_open cfg id c w c' w' :
  wf_ctl c → write_part can_open cfg id c w = Some (c', w') →
  txn c' = txn c ∧ wf_ctl c' ∧ shape c' = shape c.
Proof.
  intros W H. unfold write_part in H. binv H.
  destruct (ramDisk_Write _ _ _ _ _) as [[] w1]; [|by simplify_eq].
  binv H. simplify_eq.
  split_and!; [by eapply txn_clean|by eapply clean_toDisk_wf|by eapply clean_toDisk_shape].
Qed.

Lemma save_part_txn can_open cfg id c w c' w' :
  wf_ctl c → save_part can_open cfg id c w = Some (c', w') →
  txn c' = txn c ∧ wf_ctl c' ∧ shape c' = shape c.
Proof.
  intros W H. unfold save_part in H. binv H. destruct x; [|by simplify_eq].
  binv H. destruct (write_part_txn _ _ _ _ _ _ _ (getData_wf _ _ _ W E0) H) as (T & W' & S).
  rewrite T, S. split_and!; [by eapply txn_getData|done|by eapply getData_shape].
Qed.

Lemma saveToDisk_txn can_open cfg c w c' w' :
  wf_ctl c → saveToDisk can_open cfg c w = Some (c', w') →
  txn c' = txn c ∧ wf_ctl c' ∧ shape c' = shape c.
Proof.
  unfold saveToDisk. generalize (partNum c) as n, 0. intros n. revert c w.
  induction n as [|n IH]; intros c w id W H; simpl in H; [by simplify_eq|].
  binv H. destruct x as [c1 w1].
  destruct (save_part_txn _ _ _ _ _ _ _ W E) as (T1 & W1 & S1).
  destruct (IH _ _ _ W1 H) as (T2 & W2 & S2). rewrite T2, S2. auto.
Qed.

Lemma backupData_txn can_open cfg cali id s r s' :
  wf_ctl (ctl s) → in_range (ctl s) id → backupData can_open cfg cali id s = Some (r, s') →
  txn_step (txn (ctl s)) (txn (ctl s')) ∧ wf_ctl (ctl s') ∧ shape (ctl s') = shape (ctl s).
Proof.
  intros W R H. unfold backupData in H. binv H. rename x into c.
  pose proof (txn_backup_copy _ _ _ W R E) as T. pose proof (backup_copy_wf _ _ _ W E) as W1.
  destruct cali.
  - binv H. destruct x as [c' w']. simplify_eq. cbn [ctl].
    destruct (saveToDisk_txn _ _ _ _ _ _ W1 E0) as (-> & W2 & ->).
    eauto using backup_copy_shape.
  - simplify_eq. unfold giveEvent. cbn [task]. destruct (task s); eauto using backup_copy_shape.
Qed.

Lemma task_step_txn can_open cfg s s' :
  wf_ctl (ctl s) → task_step can_open cfg s = Some s' →
  txn (ctl s') = txn (ctl s) ∧ wf_ctl (ctl s') ∧ shape (ctl s') = shape (ctl s).
Proof.
  intros W H. unfold task_step in H. destruct (task s); simplify_eq; try done.
  - bcase; [|by simplify_eq]. binv H. destruct x; binv H; simplify_eq; [|done].
    split_and!; [by eapply txn_getData|by eapply getData_wf|by eapply getData_shape].
  - binv H. destruct x as [c w]. simplify_eq. by eapply write_part_txn.
Qed.

(** ** Every run of the analyzer is a run of the specification *)

(** [d'] is well formed and reached from [d] by transaction steps. *)
Definition good (d d' : daemon) : Prop :=
  wf_daemon d' ∧ rtc txn_step (txn (ctl (nv d))) (txn (ctl (nv d'))).

Lemma good_refl d : wf_daemon d → good d d.
Proof. by split. Qed.

Lemma good_trans d1 d2 d3 : good d1 d2 → good d2 d3 → good d1 d3.
Proof. intros [_ ?] [? ?]. split; [done|]. by etrans. Qed.

Lemma good_sent d d' rsp : good d d' → good d (_sendPacktRsp rsp d').
Proof. intros [[] ?]. by split. Qed.

Lemma wf_syncInit c s : length (syncReqBuf s) = (PTR_SIZE * SYNC_REQ_SIZE)%nat → wf_sync c (_syncInit s).
Proof. intros. constructor; cbn; auto; lia. Qed.

Lemma syncReset_fail_good d d' :
  wf_daemon d → _syncReset_fail d = Some d' → good d d' ∧ sync d' = _syncInit (sync d).
Proof.
  intros [W S P] H. unfold _syncReset_fail in H. binv H. simplify_eq.
  destruct (Z.eqb_spec (_syncState (sync d)) 0); cbn [negb] in E.
  - simplify_eq. split; [|done]. split; [|done]. constructor; [done| |done].
    apply wf_syncInit. apply S.
  - apply with_ctl_inv in E as (c & Ec & ->). destruct S as [_ _ Hid _ HT _ _].
    specialize (Hid ltac:(done)). split; [|done]. split.
    + constructor; [by eapply restoreData_wf|by apply wf_syncInit|done].
    + apply rtc_once. by apply (txn_restoreData (_id (sync d))).
Qed.

Lemma reject_good d d' : wf_daemon d → reject d = Some d' → good d d'.
Proof.
  intros W H. unfold reject in H. binv H. simplify_eq.
  destruct (syncReset_fail_good _ _ W E) as [G _]. by apply good_sent.
Qed.

Lemma wf_set_state d z :
  wf_daemon d → z = 1 ∨ z = 2 → _syncBusy (sync d) = true → in_range (ctl (nv d)) (_id (sync d)) →
  wf_daemon (set_sync (set_syncState z (sync d)) d).
Proof.
  intros [W [] P] Hz Hb Hid. constructor; [done| |done]. constructor; cbn; auto; try congruence; tauto.
Qed.

Section run.
Context (can_open : string → bool) (cfg : list RAM_NV_CONFIG) (cali : bool).

Lemma syncReset_suc_good d r d' :
  wf_daemon d → _syncState (sync d) ≠ 0 → _syncReset_suc can_open cfg cali d = Some (r, d') →
  good d d'.
Proof.
  intros [W S P] Hst H. unfold _syncReset_suc in H. binv H. destruct x as [ret v]. simplify_eq.
  destruct S as [_ _ Hid _ HT _ _].
  destruct (backupData_txn _ _ _ _ _ _ _ W (Hid Hst) E) as (T & W' & _).
  split; [|by apply rtc_once]. constructor; [done|by apply wf_syncInit|done].
Qed.

Lemma head_good cur d r cur' d' :
  wf_daemon d → 0 < cur.2 → _syncBusy (sync d) = true → _syncState (sync d) = 0 →
  _syncGetHead cur d = Some (r, cur', d') →
  good d d' ∧ _syncBusy (sync d') = true ∧ _syncState (sync d') = 0
  ∧ (r = SYNC_NEXT → in_range (ctl (nv d')) (_id (sync d')) ∧ 0 <= cur'.2 < cur.2) ∧ r ≠ SYNC_DONE.
Proof.
  intros W Hc Hb Hs H.
  destruct (syncGetHead_inv _ _ _ _ _ W Hc H) as (En & Ep & _ & Eo & ET & El & Eb & Es & Hn & Hd & _).
  destruct W as [W S P]. split_and!; try congruence.
  - split; [|by rewrite En]. constructor; rewrite ?En, ?Ep; auto.
    destruct S. constructor; try congruence; auto.
  - intros Hr. destruct (Hn Hr) as (?&->&?). rewrite En. split; [done|lia].
Qed.

Lemma body_good cur d r cur' d' :
  wf_daemon d → 0 < cur.2 → _syncBusy (sync d) = true → _syncState (sync d) = 1 →
  _syncGetBody cur d = Some (r, cur', d') →
  good d d' ∧ _syncBusy (sync d') = true ∧ _syncState (sync d') = 1
  ∧ in_range (ctl (nv d')) (_id (sync d')) ∧ (r = SYNC_NEXT → 0 <= cur'.2 < cur.2).
Proof.
  intros W Hc Hb Hs H.
  destruct (syncGetBody_inv _ _ _ _ _ W Hc H)
    as ((K1 & K2 & K3) & _ & _ & _ & Eo & ET & El & Eb & Es & Ei & Hn & Hnn & _).
  destruct W as [W S P].
  assert (Hid : in_range (ctl (nv d)) (_id (sync d))) by (apply S; lia).
  split_and!; try congruence.
  - split.
    + constructor; [done| |congruence].
      destruct S. constructor; try congruence; auto.
      intros _. rewrite Ei. by eapply in_range_shape.
    + destruct (decide (r = SYNC_NEXT)) as [->|Hr].
      * destruct (Hn eq_refl) as (_ & _ & st & n & M). by rewrite (txn_mark _ _ _ _ _ M).
      * by rewrite (Hnn Hr).
  - rewrite Ei. by eapply in_range_shape.
  - intros Hr. destruct (Hn Hr) as (->&?&_). lia.
Qed.

Lemma data_good cur d r cur' d' :
  wf_daemon d → 0 < cur.2 → _syncBusy (sync d) = true → _syncState (sync d) = 2 →
  _syncGetData cur d = Some (r, cur', d') →
  good d d' ∧ _syncBusy (sync d') = true ∧ in_range (ctl (nv d')) (_id (sync d'))
  ∧ (r = SYNC_NEXT ∧ 0 <= cur'.2 <= cur.2 ∨ r = SYNC_CONTINUE).
Proof.
  intros W Hc Hb Hs H.
  destruct (syncGetData_inv _ _ _ _ _ W Hc H)
    as ((K1 & K2 & K3) & _ & _ & _ & Eo & ET & El & Eb & Es & Ei & (st & data & Hw) & Hr).
  destruct W as [W S P].
  assert (Hid : in_range (ctl (nv d)) (_id (sync d))) by (apply S; lia).
  split_and!; try congruence; [|by rewrite Ei; eapply in_range_shape].
  split; [|by eapply txn_writeData].
  constructor; [done| |congruence].
  destruct S. constructor; try congruence; auto.
  intros _. rewrite Ei. by eapply in_range_shape.
Qed.

Lemma analyze_good fuel cur d d' :
  wf_daemon d → 0 <= cur.2 → _syncBusy (sync d) = true →
  analyze can_open cfg cali fuel cur d = Some d' → good d d'.
Proof.
  revert cur d. induction fuel as [|fuel IH]; intros cur d W Hc Hb; cbn [analyze];
    (destruct (Z.eqb_spec cur.2 0); [intros [= <-]; by apply good_refl|]); [done|].
  destruct (Z.eqb_spec 0 (_syncState (sync d))) as [E0|N0]; [|destruct (Z.eqb_spec 1 (_syncState (sync d))) as [E1|N1]].
  - intros H. binv H. destruct x as [[r cur1] d1].
    destruct (head_good cur d r cur1 d1) as (G & Hb1 & Hs1 & Hn & Hd); [done|lia|done|done|done|].
    pose proof G as [W1 _]. destruct r; try done.
    + simplify_eq. by apply good_sent.
    + destruct (Hn eq_refl) as [Hid Hcur]. eapply good_trans; [exact G|].
      eapply good_trans; [split; [by apply (wf_set_state d1 1); auto|done]|].
      apply (IH cur1); [by apply wf_set_state; auto|lia|done|done].
    + eapply good_trans; [exact G|by apply reject_good].
  - intros H. binv H. destruct x as [[r cur1] d1].
    destruct (body_good cur d r cur1 d1) as (G & Hb1 & Hs1 & Hid & Hn); [done|lia|done|done|done|].
    pose proof G as [W1 _]. destruct r.
    + simplify_eq. by apply good_sent.
    + eapply good_trans; [exact G|].
      eapply good_trans; [split; [by apply (wf_set_state d1 2); auto|done]|].
      apply (IH cur1); [by apply wf_set_state; auto|specialize (Hn eq_refl); lia|done|done].
    + binv H. destruct x as [ret d2]. simplify_eq. eapply good_trans; [exact G|].
      apply good_sent. eapply syncReset_suc_good; [done|lia|done].
    + eapply good_trans; [exact G|by apply reject_good].
  - intros H. binv H. destruct x as [[r cur1] d1].
    assert (Hs2 : _syncState (sync d) = 2) by (destruct W as [_ [] _]; lia).
    destruct (data_good cur d r cur1 d1) as (G & Hb1 & Hid & Hn); [done|lia|done|done|done|].
    pose proof G as [W1 _]. destruct Hn as [[-> Hcur]| ->].
    + eapply good_trans; [exact G|].
      eapply good_trans; [split; [by apply (wf_set_state d1 1); auto|done]|].
      apply (IH cur1); [by apply wf_set_state; auto|lia|done|done].
    + simplify_eq. by apply good_sent.
Qed.

Lemma wf_busy d : wf_daemon d → wf_daemon (set_sync (set_busy (sync d)) d).
Proof.
  intros [W [] P]. constructor; [done| |done]. constructor; cbn; auto; congruence.
Qed.

(** ** Termination of the loop over a packet *)

(** Decreases at every turn that goes on. *)
Definition measure (cur : cursor) (d : daemon) : Z :=
  2 * cur.2 + (if _syncState (sync d) =? 2 then 1 else 0).

Lemma analyze_fuel_eq f1 f2 cur d :
  wf_daemon d → 0 <= cur.2 → _syncBusy (sync d) = true →
  measure cur d < Z.of_nat f1 → measure cur d < Z.of_nat f2 →
  analyze can_open cfg cali f1 cur d = analyze can_open cfg cali f2 cur d.
Proof.
  revert f2 cur d. unfold measure.
  induction f1 as [|f1 IH]; intros [|f2] cur d W Hc Hb M1 M2; try (bcase; lia).
  cbn [analyze]. destruct (Z.eqb_spec cur.2 0); [done|].
  destruct (Z.eqb_spec 0 (_syncState (sync d))) as [E0|N0];
    [|destruct (Z.eqb_spec 1 (_syncState (sync d))) as [E1|N1]].
  - destruct (_syncGetHead cur d) as [[[r cur1] d1]|] eqn:E; [|done]. cbn [mbind option_bind].
    destruct (head_good cur d r cur1 d1) as ([W1 _] & Hb1 & Hs1 & Hn & Hd); [done|lia|done..|].
    destruct r; try done. destruct (Hn eq_refl) as [Hid Hcur].
    rewrite <- E0 in M1, M2. cbn in M1, M2. apply IH; cbn; [by apply wf_set_state; auto|lia|done|lia|lia].
  - destruct (_syncGetBody cur d) as [[[r cur1] d1]|] eqn:E; [|done]. cbn [mbind option_bind].
    destruct (body_good cur d r cur1 d1) as ([W1 _] & Hb1 & Hs1 & Hid & Hn); [done|lia|done..|].
    destruct r; try done. specialize (Hn eq_refl).
    rewrite <- E1 in M1, M2. cbn in M1, M2. apply IH; cbn; [by apply wf_set_state; auto|lia|done|lia|lia].
  - assert (Hs2 : _syncState (sync d) = 2) by (destruct W as [_ [] _]; lia).
    destruct (_syncGetData cur d) as [[[r cur1] d1]|] eqn:E; [|done]. cbn [mbind option_bind].
    destruct (data_good cur d r cur1 d1) as ([W1 _] & Hb1 & Hid & Hn); [done|lia|done..|].
    rewrite Hs2 in *. cbn in M1, M2.
    destruct Hn as [[-> Hcur]| ->]; [|done].
    apply IH; cbn; [by apply wf_set_state; auto|lia|done|lia|lia].
Qed.

(** The loop over the bytes of a packet terminates: from a well-formed state the fuel of
    [analyze_packet] is never the reason of its result, any larger amount gives the same. *)
Theorem analyze_packet_fuel buf size d fuel :
  wf_daemon d → 0 <= size → (2 * Z.to_nat size + 3 <= fuel)%nat →
  analyze can_open cfg cali fuel (buf, size) (set_sync (set_busy (sync d)) d)
  = analyze_packet can_open cfg cali buf size d.
Proof.
  intros W Hs Hf. apply analyze_fuel_eq; [by apply wf_busy|done|done| |];
    unfold measure; cbn [snd]; bcase; lia.
Qed.

Lemma analyze_packet_good buf size d d' :
  wf_daemon d → 0 <= size → analyze_packet can_open cfg cali buf size d = Some d' → good d d'.
Proof.
  intros W Hs H. apply (good_trans _ (set_sync (set_busy (sync d)) d)).
  - split; [by apply wf_busy|done].
  - eapply (analyze_good _ (buf, size)); [by apply wf_busy|exact Hs|done|exact H].
Qed.

Lemma sync_turn_good r d x :
  wf_daemon d → wf_rd r → sync_turn can_open cfg cali r d = Some x →
  match x with inl d' => good d d' | inr d' => good d d' ∧ _syncBusy (sync d') = false end.
Proof.
  intros W Hr H. unfold sync_turn in H. binv H. destruct x0 as [p ps].
  destruct (getPacket_wf _ _ _ _ (wfd_pkt _ W) Hr E) as [Wp Hsz].
  assert (G0 : good d (set_pkt ps d)) by (destruct W; by split).
  pose proof G0 as [W0 _].
  destruct p as [b n|b n| |]; cbn [accepted] in Hsz.
  - binv H. simplify_eq. eapply good_trans; [exact G0|].
    assert (G1 : good (set_pkt ps d) x0).
    { destruct (_syncBusy (sync (set_pkt ps d))); [by apply syncReset_fail_good|].
      simplify_eq. by apply good_refl. }
    eapply good_trans; [exact G1|]. destruct G1 as [W1 _].
    eapply analyze_packet_good; [done|by apply (Hsz b n)|done].
  - destruct (negb _) in H.
    + simplify_eq. by apply good_sent.
    + binv H. simplify_eq. eapply good_trans; [exact G0|].
      eapply analyze_packet_good; [done|by apply (Hsz b n)|done].
  - by simplify_eq.
  - binv H. simplify_eq. destruct (syncReset_fail_good _ _ W0 E0) as [G ->].
    split; [exact (good_trans _ _ _ G0 G)|done].
Qed.

(** Whatever is read from the channel, every run of the analyzer is a run of the transaction
    specification, and the analyzer is idle when it returns. *)
Lemma syncAnalyzer_refines rs d d' ret :
  wf_daemon d → Forall wf_rd rs → syncAnalyzer can_open cfg cali rs d = Some (d', ret) →
  wf_daemon d' ∧ rtc txn_step (txn (ctl (nv d))) (txn (ctl (nv d')))
  ∧ (ret = true → _syncBusy (sync d') = false).
Proof.
  intros W Hrs. revert d W. induction Hrs as [|r rs Hr Hrs IH]; intros d W H; simpl in H.
  - by simplify_eq.
  - binv H. pose proof (sync_turn_good _ _ _ W Hr E) as T. destruct x as [d1|d1].
    + destruct T as [W1 T1]. destruct (IH d1 W1 H) as (? & ? & ?). split_and!; [done|by etrans|done].
    + simplify_eq. destruct T as [[? ?] ?]. done.
Qed.
End run.

(** ** A complete request *)

(** A token on the wire; HEAD and TAIL tokens are padded to the common size. *)
Definition enc_token (t r p s n : Z) : bytes := le32 t ++ le32 r ++ le32 p ++ le32 s ++ le32 n.

Lemma sync_req_token t r p s n rest :
  sync_req (enc_token t r p s n ++ rest) = Some (SyncReq (u32 t) (u32 r) (u32 p) (u32 s) (u32 n)).
Proof.
  unfold sync_req, enc_token, le32. cbn [app]. unfold get32.
  cbn [lookup list_lookup Nat.add mbind option_bind]. by rewrite !le32_value.
Qed.

Lemma enc_token_wf t r p s n : wf_bytes (enc_token t r p s n).
Proof. unfold enc_token. rewrite !wf_app. split_and!; apply le32_bytes. Qed.

Lemma syncReqBuf_token b s : syncReqBuf (set_token b s) = b.
Proof. done. Qed.

Lemma getToken_enc tok rest size s :
  _ofst s = 0 → length (syncReqBuf s) = (PTR_SIZE * SYNC_REQ_SIZE)%nat →
  length tok = SYNC_REQ_SIZE → 20 <= size →
  __getToken (tok ++ rest, size) s
  = Some (true, (rest, size - 20), set_token (tok ++ drop 20 (syncReqBuf s)) s).
Proof.
  intros Ho HL HT Hs. rewrite getToken_spec by (done || lia). bdecide.
  unfold SYNC_REQ_SIZE in HT. rewrite slice_ok by (rewrite length_app; lia).
  cbn [mbind option_bind]. rewrite drop_0, take_app_le, take_ge by lia.
  by rewrite drop_app_le, drop_ge by lia.
Qed.

(** The daemon inside a request on partition [i]: [f] is the frame count, [B] the channel
    buffer, [m] the image size, and [L] bytes are still to be written at [pos]. *)
Record session (i : nat) (m : nat) (st f pos L : Z) (B : bytes) (d : daemon) : Prop := {
  ss_wf : wf_daemon d;
  ss_busy : _syncBusy (sync d) = true;
  ss_state : _syncState (sync d) = st;
  ss_id : _id (sync d) = Z.of_nat i;
  ss_range : (i < partNum (ctl (nv d)))%nat;
  ss_frame : syncReqFrame (sync d) = f;
  ss_start : _start (sync d) = pos;
  ss_len : _len (sync d) = L;
  ss_part : ∃ p, part (ctl (nv d)) !! i = Some p ∧ diskbuf (fromChannel p) = B ∧ image_bytes p = m }.

(** What a turn that answers nothing keeps. *)
Definition quiet (d d' : daemon) : Prop :=
  sent d' = sent d ∧ pkt d' = pkt d.

Section session_run.
Context (can_open : string → bool) (cfg : list RAM_NV_CONFIG).
Implicit Types (d : daemon).

Lemma head_turn fl r pid a b rest size d i p :
  wf_daemon d → _syncBusy (sync d) = true → _syncState (sync d) = 0 → 20 <= size →
  is_u32 pid → getCtlId (ctl (nv d)) pid = Some i → part (ctl (nv d)) !! i = Some p →
  ∃ d', analyze can_open cfg false (S fl) (enc_token SYNC_REQ_HEAD r pid a b ++ rest, size) d
      = analyze can_open cfg false fl (rest, size - 20) d'
    ∧ session i (image_bytes p) 1 (u32 r) (_start (sync d)) (_len (sync d)) (diskbuf (fromChannel p)) d'
    ∧ quiet d d' ∧ nv d' = nv d.
Proof.
  intros W Hb H0 Hs Hpid Hi Hp. cbn [analyze snd]. bdecide.
  unfold _syncGetHead. destruct W as [W [? ? ? Ho HT ? ?] P].
  rewrite getToken_enc by done. cbn [mbind option_bind negb]. rewrite syncReqBuf_token, sync_req_token. cbn [mbind option_bind packet_type req_partId reqIdx].
  change (SYNC_REQ_HEAD =? u32 SYNC_REQ_HEAD) with true. cbn [negb].
  rewrite (u32_id pid), Hi by done. eexists. split_and!; [done| |done|done].
  pose proof (getCtlId_lt _ _ _ Hi).
  constructor; try done; [|by eauto]. constructor; [done| |done].
  constructor; cbn; auto; try congruence.
  - intros _. unfold in_range. lia.
  - rewrite length_drop, HT. done.
Qed.

Lemma body_turn fl r pid sct n rest size d i m f pos L B :
  session i m 1 f pos L B d → 20 <= size → r = u32 (f + 1) →
  is_u32 sct → is_u32 n → 0 < n → sct + n <= 1024 →
  ∃ d', analyze can_open cfg false (S fl) (enc_token SYNC_REQ_BODY r pid sct n ++ rest, size) d
      = analyze can_open cfg false fl (rest, size - 20) d'
    ∧ session i m 2 (u32 (f + 1)) (512 * sct) (512 * n) B d' ∧ quiet d d'.
Proof.
  intros [W Hb H1 Hid Hr Hf Hst Hl (p & Hp & HB & Hm)] Hs -> Us Un Hn Hsn.
  cbn [analyze snd]. bdecide.
  unfold _syncGetBody. pose proof W as [Wc [? ? ? Ho HT ? ?] P].
  rewrite getToken_enc by done. cbn [mbind option_bind negb]. rewrite syncReqBuf_token, sync_req_token. cbn [mbind option_bind packet_type reqIdx start num syncReqFrame set_token].
  change (SYNC_REQ_BODY =? u32 SYNC_REQ_BODY) with true.
  rewrite Hf, (u32_id (u32 (f + 1))) by apply u32_range. rewrite Z.eqb_refl. cbn [negb].
  rewrite (u32_id sct), (u32_id n) by done.
  cbn [_id set_frame set_token]. rewrite Hid.
  assert (R : in_range (ctl (nv d)) (Z.of_nat i)) by (unfold in_range; lia).
  destruct (markDirtyInfo_ok (ctl (nv d)) (Z.of_nat i) sct n p) as (tab' & M & _);
    [done|done|by rewrite Nat2Z.id|done..|].
  unfold with_ctl. cbn [nv set_sync]. rewrite M. cbn [mbind option_bind].
  eexists. split_and!; [done| |done].
  constructor; cbn; auto.
  - constructor; [by eapply markDirtyInfo_wf| |done].
    constructor; cbn; auto; try congruence; [|rewrite length_drop, HT; done|apply u32_range].
    intros _. by rewrite Hid.
  - change (Z.of_nat RAMNV_SECT_SIZE) with 512. unfold is_u32 in *. rewrite u32_id by (unfold is_u32; lia). lia.
  - change (Z.of_nat RAMNV_SECT_SIZE) with 512. unfold is_u32 in *. rewrite u32_id by (unfold is_u32; lia). lia.
  - rewrite Nat2Z.id, list_lookup_insert_eq by (by eapply lookup_lt_Some). eauto.
Qed.

Lemma session_state i m st f pos L B st' d :
  session i m st f pos L B d → st' = 1 ∨ st' = 2 →
  session i m st' f pos L B (set_sync (set_syncState st' (sync d)) d).
Proof.
  intros [W Hb H1 Hid Hr Hf Hst Hl Hp] Hs. constructor; try done.
  apply wf_set_state; try done. rewrite Hid. unfold in_range. lia.
Qed.

Lemma session_range i m st f pos L B pos' L' d :
  session i m st f pos L B d → 0 <= L' →
  session i m st f pos' L' B (set_sync (set_range pos' L' (sync d)) d).
Proof.
  intros [[Wc [] P] Hb H1 Hid Hr Hf Hst Hl Hp] Hs. constructor; try done.
  constructor; [done| |done]. constructor; cbn; auto. congruence.
Qed.

(** The channel buffer after the write of [c] at [pos]. *)
Definition overwrite (pos : Z) (c B : bytes) : bytes :=
  take (Z.to_nat pos) B ++ c ++ drop (Z.to_nat pos + length c) B.

Lemma session_write i m st f pos L B c d :
  session i m st f pos L B d → st = 1 ∨ st = 2 → c ≠ [] → 0 <= pos →
  (Z.to_nat pos + length c <= length B)%nat →
  ∃ d1, with_ctl (writeData (_id (sync d)) (_start (sync d)) c) d = Some d1
    ∧ session i m st f pos L (overwrite pos c B) d1 ∧ quiet d d1 ∧ sync d1 = sync d.
Proof.
  intros [W Hb H1 Hid Hr Hf Hst Hl (p & Hp & HB & Hm)] Hst2 Hc Hpos HL.
  destruct c as [|b c']; [done|]. set (c := b :: c') in *.
  assert (E : writeData (_id (sync d)) (_start (sync d)) c (ctl (nv d)) = Some (NvCtl (partNum (ctl (nv d)))
    (<[i := set_fromChannel (BufCtrl (overwrite pos c B) (dirty (fromChannel p))) p]> (part (ctl (nv d)))))).
  { rewrite Hid, Hst. unfold writeData, c. rewrite <- (Nat2Z.id i) at 2.
    eapply upd_part_ok; [by rewrite Nat2Z.id|]. rewrite HB, splice_ok by done. done. }
  unfold with_ctl. rewrite E. cbn [mbind option_bind]. eexists. split_and!; [done| |done|done].
  pose proof (writeData_wf _ _ _ _ _ (wfd_ctl _ W) E) as W'.
  constructor; try done.
  - destruct W as [Wc WS P]. constructor; [done| |done].
    eapply wf_sync_shape; [|exact WS]. by eapply writeData_shape.
  - cbn. rewrite list_lookup_insert_eq by (by eapply lookup_lt_Some). eauto.
Qed.

(** A packet of data that leaves the range incomplete is written and answered. *)
Lemma data_partial fl c rest i m f pos L B d :
  session i m 2 f pos L B d → c ≠ [] → Z.of_nat (length c) < L → 0 <= pos → pos + L < 2 ^ 32 →
  (Z.to_nat pos + length c <= length B)%nat →
  ∃ d', analyze can_open cfg false (S fl) (c ++ rest, Z.of_nat (length c)) d = Some (_sendPacktRsp 1 d')
    ∧ session i m 2 f (pos + Z.of_nat (length c)) (L - Z.of_nat (length c)) (overwrite pos c B) d'
    ∧ quiet d d'.
Proof.
  intros S Hc HL Hpos Hw Hb. pose proof S as [W _ H2 _ _ _ Hst Hl _].
  assert (0 < length c)%nat by (destruct c; [done|simpl; lia]).
  cbn [analyze snd]. bdecide. unfold _syncGetData. bdecide.
  rewrite Nat2Z.id, slice_ok by (rewrite length_app; lia).
  rewrite drop_0, take_app_length. cbn [mbind option_bind].
  destruct (session_write _ _ _ _ _ _ _ c d S) as (d1 & -> & S1 & Q & Es); [by right|done..|].
  cbn [mbind option_bind]. eexists. split_and!; [done| |done].
  rewrite Hst, Hl, (u32_id (pos + _)), <- Es by (unfold is_u32; lia).
  eapply session_range; [done|lia].
Qed.

(** The bytes that complete the range are written and the analyzer goes on to the next token. *)
Lemma data_last fl c rest size i m f pos B d :
  session i m 2 f pos (Z.of_nat (length c)) B d → c ≠ [] → Z.of_nat (length c) <= size →
  0 <= pos → pos + Z.of_nat (length c) < 2 ^ 32 →
  (Z.to_nat pos + length c <= length B)%nat →
  ∃ d', analyze can_open cfg false (S fl) (c ++ rest, size) d
      = analyze can_open cfg false fl (rest, size - Z.of_nat (length c)) d'
    ∧ session i m 1 f (pos + Z.of_nat (length c)) 0 (overwrite pos c B) d' ∧ quiet d d'.
Proof.
  intros S Hc HL Hpos Hw Hb. pose proof S as [W _ H2 _ _ _ Hst Hl _].
  assert (0 < length c)%nat by (destruct c; [done|simpl; lia]).
  cbn [analyze snd]. bdecide. unfold _syncGetData. bdecide.
  rewrite Hl, Nat2Z.id, slice_ok by (rewrite length_app; lia).
  rewrite drop_0, take_app_length. cbn [mbind option_bind].
  destruct (session_write _ _ _ _ _ _ _ c d S) as (d1 & -> & S1 & Q & Es); [by right|done..|].
  cbn [mbind option_bind]. rewrite drop_app_length. eexists. split_and!; [done| |done].
  rewrite Hst, (u32_id (pos + _)), <- Es by (unfold is_u32; lia).
  apply (session_state _ _ 2); [|by left]. eapply session_range; [done|lia].
Qed.

(** TAIL commits the channel image, answers, and the analyzer is idle again. *)
Lemma tail_turn fl r pid a b rest size i m f pos L B d :
  session i m 1 f pos L B d → 20 <= size → r = u32 (f + 1) →
  ∃ d', analyze can_open cfg false (S fl) (enc_token SYNC_REQ_TAIL r pid a b ++ rest, size) d
      = Some (_sendPacktRsp 1 d')
    ∧ wf_daemon d' ∧ _syncBusy (sync d') = false ∧ quiet d d'
    ∧ ∃ p', part (ctl (nv d')) !! i = Some p'
        ∧ image p' (backup p') = take m B ∧ image p' (fromChannel p') = take m B.
Proof.
  intros [W Hb H1 Hid Hr Hf Hst Hl (p & Hp & HB & Hm)] Hs ->.
  cbn [analyze snd]. bdecide.
  unfold _syncGetBody. pose proof W as [Wc [? ? ? Ho HT ? ?] P].
  rewrite getToken_enc by done. cbn [mbind option_bind negb]. rewrite syncReqBuf_token, sync_req_token.
  cbn [mbind option_bind packet_type reqIdx syncReqFrame set_token].
  change (SYNC_REQ_BODY =? u32 SYNC_REQ_TAIL) with false.
  change (SYNC_REQ_TAIL =? u32 SYNC_REQ_TAIL) with true.
  rewrite Hf, (u32_id (u32 (f + 1))) by apply u32_range. rewrite Z.eqb_refl. cbn [negb mbind option_bind].
  assert (R : in_range (ctl (nv d)) (Z.of_nat i)) by (unfold in_range; lia).
  unfold _syncReset_suc, backupData. cbn [_id set_frame set_token set_sync sync nv]. rewrite Hid.
  destruct (backup_copy_ok (ctl (nv d)) (Z.of_nat i) p Wc R) as [E I]; [by rewrite Nat2Z.id|].
  rewrite E. cbn [mbind option_bind]. eexists. split_and!; [done| |done|done|].
  - pose proof (backup_copy_wf _ _ _ Wc E). constructor; [|apply wf_syncInit|done].
    + unfold giveEvent. cbn [task]. by destruct (task (nv d)).
    + cbn. rewrite length_drop, HT. done.
  - exists (committed p). rewrite <- Hm, <- HB. split_and!; [|exact I|done].
    unfold giveEvent. cbn. destruct (task (nv d)); cbn;
      by rewrite Nat2Z.id, list_lookup_insert_eq by (by eapply lookup_lt_Some).
Qed.

(** The request is over: partition [i] holds [img], in both its working and committed image. *)
Definition completed (i : nat) (img : bytes) (d : daemon) : Prop :=
  wf_daemon d ∧ _syncBusy (sync d) = false
  ∧ ∃ p, part (ctl (nv d)) !! i = Some p ∧ image p (backup p) = img ∧ image p (fromChannel p) = img.

Lemma completed_sent i img d : completed i img d → completed i img (_sendPacktRsp 1 d).
Proof. by intros [[] ?]. Qed.

Lemma data_end fl c r pid a b rest i m f pos B d :
  session i m 2 f pos (Z.of_nat (length c)) B d → c ≠ [] → 0 <= pos →
  pos + Z.of_nat (length c) < 2 ^ 32 → (Z.to_nat pos + length c <= length B)%nat → r = u32 (f + 1) →
  ∃ d', analyze can_open cfg false (S (S fl)) (c ++ enc_token SYNC_REQ_TAIL r pid a b ++ rest,
          Z.of_nat (length c) + 20) d = Some (_sendPacktRsp 1 d')
    ∧ completed i (take m (overwrite pos c B)) d' ∧ quiet d d'.
Proof.
  intros Se Hc Hpos Hw Hb Hr.
  destruct (data_last (S fl) c (enc_token SYNC_REQ_TAIL r pid a b ++ rest) (Z.of_nat (length c) + 20)
    i m f pos B d Se Hc) as (d1 & -> & S1 & Q1); [lia|done..|].
  destruct (tail_turn fl r pid a b rest (Z.of_nat (length c) + 20 - Z.of_nat (length c))
    i m f _ _ _ d1 S1) as (d2 & -> & W2 & I2 & Q2 & P2); [lia|done|].
  exists d2. split_and!; [done|by split_and!|]. destruct Q1, Q2. split; congruence.
Qed.

(** The payloads of a request whose data is cut into the chunks [c :: cs]. *)
Fixpoint payloads (hd c : bytes) (cs : list bytes) (tl : bytes) : list bytes :=
  match cs with
  | [] => [hd ++ c ++ tl]
  | c' :: cs' => (hd ++ c) :: payloads [] c' cs' tl
  end.

Fixpoint packets (grp sub : Z) (ps : list bytes) : list rd_result :=
  match ps with
  | [] => []
  | p :: ps' => RdBytes (enc_packet grp sub p) :: packets grp (u32 (sub + 1)) ps'
  end.

(** The positive answers to the packets of a request. *)
Fixpoint replies (grp sub : Z) (ps : list bytes) : list bytes :=
  match ps with
  | [] => []
  | p :: ps' => __sendPacketRsp (PacketCtl (enc_packet grp sub p) grp sub) 1 :: replies grp (u32 (sub + 1)) ps'
  end.

Definition after_packet (grp sub : Z) (payload : bytes) (d : daemon) : daemon :=
  set_pkt (PacketCtl (enc_packet grp sub payload) grp sub) d.

Lemma wf_enc_packet grp sub payload :
  (length payload <= PACKETSIZE)%nat → wf_bytes payload →
  wf_pkt (PacketCtl (enc_packet grp sub payload) grp sub).
Proof.
  intros HL HW. split; [by apply length_enc_packet|by apply enc_packet_bytes].
Qed.

Lemma packets_wf grp sub ps : Forall wf_bytes ps → Forall wf_rd (packets grp sub ps).
Proof.
  intros H. revert sub. induction H as [|p ps Hp _ IH]; intros sub; simpl; constructor; auto.
  by apply enc_packet_bytes.
Qed.

Lemma session_packet grp sub payload i m st f pos L B d :
  (length payload <= PACKETSIZE)%nat → wf_bytes payload →
  session i m st f pos L B d → session i m st f pos L B (after_packet grp sub payload d).
Proof.
  intros HL HW [[] ? ? ? ? ? ? ? ?]. constructor; try done. constructor; try done. by apply wf_enc_packet.
Qed.

Lemma turn_continue grp sub payload d :
  (length payload <= PACKETSIZE)%nat → is_u32 grp → is_u32 sub → wf_daemon d →
  _syncBusy (sync d) = true → _idxGrp (pkt d) = grp → u32 (_idxSub (pkt d) + 1) = sub →
  sync_turn can_open cfg false (RdBytes (enc_packet grp sub payload)) d
  = d' ← analyze_packet can_open cfg false (payload ++ replicate (PACKETSIZE - length payload) 0)
           (Z.of_nat (length payload)) (after_packet grp sub payload d);
    Some (inl d').
Proof.
  intros HL Ug Us [_ _ [HP _]] Hb Hg Hs. unfold sync_turn.
  rewrite getPacket_enc by done. rewrite Hg, Hs, !Z.eqb_refl. cbn [mbind option_bind].
  cbn [sync set_pkt]. by rewrite Hb.
Qed.

Lemma turn_start grp payload d :
  (length payload <= PACKETSIZE)%nat → is_u32 grp → wf_daemon d →
  _syncBusy (sync d) = false → _idxGrp (pkt d) ≠ grp →
  sync_turn can_open cfg false (RdBytes (enc_packet grp 0 payload)) d
  = d' ← analyze_packet can_open cfg false (payload ++ replicate (PACKETSIZE - length payload) 0)
           (Z.of_nat (length payload)) (after_packet grp 0 payload d);
    Some (inl d').
Proof.
  intros HL Ug [_ _ [HP _]] Hb Hg. unfold sync_turn.
  rewrite getPacket_enc by (done || unfold is_u32; lia). bdecide. cbn [mbind option_bind].
  cbn [sync set_pkt]. by rewrite Hb.
Qed.

Lemma session_busy_set i m st f pos L B d :
  session i m st f pos L B d → session i m st f pos L B (set_sync (set_busy (sync d)) d).
Proof. intros [W ? ? ? ? ? ? ? ?]. constructor; try done. by apply wf_busy. Qed.

Lemma session_sent i m st f pos L B rsp d :
  session i m st f pos L B d → session i m st f pos L B (_sendPacktRsp rsp d).
Proof. intros [[] ? ? ? ? ? ? ? ?]. done. Qed.

(** [d'] is [d] after a packet was answered positively. *)
Definition answered (grp sub : Z) (payload : bytes) (d d' : daemon) : Prop :=
  pkt d' = PacketCtl (enc_packet grp sub payload) grp sub
  ∧ sent d' = sent d ++ [__sendPacketRsp (PacketCtl (enc_packet grp sub payload) grp sub) 1].

Lemma answered_quiet grp sub payload d d' :
  quiet (set_sync (set_busy (sync (after_packet grp sub payload d))) (after_packet grp sub payload d)) d' →
  answered grp sub payload d (_sendPacktRsp 1 d').
Proof. intros [Hs Hp]. split; [done|]. cbn. by rewrite Hs, Hp. Qed.

Lemma packet_mid grp sub c i m f pos L B d :
  session i m 2 f pos L B d → is_u32 grp → is_u32 sub →
  _idxGrp (pkt d) = grp → u32 (_idxSub (pkt d) + 1) = sub →
  c ≠ [] → wf_bytes c → (length c <= PACKETSIZE)%nat →
  Z.of_nat (length c) < L → 0 <= pos → pos + L < 2 ^ 32 → pos + L <= Z.of_nat (length B) →
  ∃ d', sync_turn can_open cfg false (RdBytes (enc_packet grp sub c)) d = Some (inl d')
    ∧ session i m 2 f (pos + Z.of_nat (length c)) (L - Z.of_nat (length c)) (overwrite pos c B) d'
    ∧ answered grp sub c d d'.
Proof.
  intros Se Ug Us Hg Hs Hc Wc Hlen HL Hpos Hw Hb.
  rewrite turn_continue by (done || apply Se). unfold analyze_packet.
  rewrite Nat.add_comm. cbn [Nat.add].
  pose proof (session_busy_set _ _ _ _ _ _ _ _ (session_packet grp sub c _ _ _ _ _ _ _ d Hlen Wc Se)) as S1.
  destruct (data_partial (S (S (2 * Z.to_nat (Z.of_nat (length c))))) c
    (replicate (PACKETSIZE - length c) 0) _ _ _ _ _ _ _ S1) as (d' & -> & S2 & Q); [done|lia..|].
  cbn [mbind option_bind]. eexists. split_and!; [done|by apply session_sent|by apply answered_quiet].
Qed.

Lemma packet_end grp sub c r pid a b i m f pos B d :
  let payload := c ++ enc_token SYNC_REQ_TAIL r pid a b in
  session i m 2 f pos (Z.of_nat (length c)) B d → is_u32 grp → is_u32 sub →
  _idxGrp (pkt d) = grp → u32 (_idxSub (pkt d) + 1) = sub → r = u32 (f + 1) →
  c ≠ [] → wf_bytes c → (length payload <= PACKETSIZE)%nat →
  0 <= pos → pos + Z.of_nat (length c) < 2 ^ 32 → pos + Z.of_nat (length c) <= Z.of_nat (length B) →
  ∃ d', sync_turn can_open cfg false (RdBytes (enc_packet grp sub payload)) d = Some (inl d')
    ∧ completed i (take m (overwrite pos c B)) d' ∧ answered grp sub payload d d'.
Proof.
  intros payload Se Ug Us Hg Hs Hr Hc Wc Hlen Hpos Hw Hb.
  assert (Wp : wf_bytes payload) by (apply wf_app; split; [done|apply enc_token_wf]).
  rewrite turn_continue by (done || apply Se). unfold analyze_packet.
  rewrite Nat.add_comm. cbn [Nat.add].
  pose proof (session_busy_set _ _ _ _ _ _ _ _ (session_packet grp sub payload _ _ _ _ _ _ _ d Hlen Wp Se)) as S1.
  assert (HZ : Z.of_nat (length payload) = Z.of_nat (length c) + 20)
    by (unfold payload; rewrite length_app, Nat2Z.inj_add; done).
  assert (HE : ∀ z, payload ++ z = c ++ enc_token SYNC_REQ_TAIL r pid a b ++ z)
    by (intros; unfold payload; by rewrite <- app_assoc).
  rewrite HZ, HE.
  destruct (data_end (S (2 * Z.to_nat (Z.of_nat (length c) + 20))) c r pid a b
    (replicate (PACKETSIZE - length payload) 0) _ _ _ _ _ _ S1) as (d' & -> & S2 & Q);
    [done|lia|lia|lia|done|].
  cbn [mbind option_bind]. eexists. split_and!; [done|by apply completed_sent|by apply answered_quiet].
Qed.

Lemma overwrite_overwrite pos c c' B :
  0 <= pos → (Z.to_nat pos + length c <= length B)%nat →
  overwrite (pos + Z.of_nat (length c)) c' (overwrite pos c B) = overwrite pos (c ++ c') B.
Proof.
  intros Hp HL. unfold overwrite.
  replace (Z.to_nat (pos + Z.of_nat (length c))) with (Z.to_nat pos + length c)%nat by lia.
  set (n := Z.to_nat pos) in *. rewrite (app_assoc (take n B) c).
  rewrite take_app_length' by (rewrite length_app, length_take; lia).
  rewrite drop_app_ge by (rewrite length_app, length_take; lia).
  rewrite drop_drop, <- !app_assoc. do 4 f_equal. rewrite !length_app, length_take. lia.
Qed.

Lemma length_overwrite pos c B :
  (Z.to_nat pos + length c <= length B)%nat → length (overwrite pos c B) = length B.
Proof. intros. unfold overwrite. rewrite !length_app, length_take, length_drop. lia. Qed.

(** The packets that carry the data, from any point of the range on. *)
Lemma chunks_run r pid a b cs i m f : r = u32 (f + 1) → ∀ c grp sub pos L B d,
  session i m 2 f pos L B d → is_u32 grp → is_u32 sub →
  _idxGrp (pkt d) = grp → u32 (_idxSub (pkt d) + 1) = sub →
  let ps := payloads [] c cs (enc_token SYNC_REQ_TAIL r pid a b) in
  Forall (λ c, c ≠ [] ∧ wf_bytes c) (c :: cs) → Forall (λ p, (length p <= PACKETSIZE)%nat) ps →
  L = Z.of_nat (length (concat (c :: cs))) → 0 <= pos → pos + L < 2 ^ 32 →
  pos + L <= Z.of_nat (length B) →
  ∃ d', syncAnalyzer can_open cfg false (packets grp sub ps) d = Some (d', false)
    ∧ completed i (take m (overwrite pos (concat (c :: cs)) B)) d'
    ∧ sent d' = sent d ++ replies grp sub ps.
Proof.
  intros Hr. induction cs as [|c' cs IH];
    intros c grp sub pos L B d Se Ug Us Hg Hsub ps HF HP HL Hpos Hw Hb;
    inversion HF as [|? ? [Hc Wc] HF']; subst x l; inversion HP as [|? ? Hp HP']; subst x l;
    unfold ps in *; cbn [payloads packets replies syncAnalyzer app] in *.
  - cbn [concat] in *. rewrite app_nil_r in *. subst L.
    destruct (packet_end grp sub c r pid a b _ _ _ _ _ _ Se) as (d' & -> & C & A); try done.
    cbn [mbind option_bind]. exists d'. split_and!; [done|done|apply A].
  - assert (0 < length (concat (c' :: cs)))%nat.
    { inversion HF' as [|? ? [Hc' _] _]; subst x l. cbn. rewrite length_app.
      destruct c'; [done|simpl; lia]. }
    assert (HLc : length (concat (c :: c' :: cs)) = (length c + length (concat (c' :: cs)))%nat)
      by (cbn [concat]; by rewrite length_app).
    destruct (packet_mid grp sub c _ _ _ _ _ _ _ Se) as (d1 & -> & S1 & A1 & A2); try done; [lia|].
    cbn [mbind option_bind].
    destruct (IH c' grp (u32 (sub + 1)) _ _ _ d1 S1) as (d2 & -> & C2 & E2); rewrite ?A1; try done;
      try apply u32_range; try lia.
    { rewrite length_overwrite by lia. lia. }
    exists d2. split_and!; [done| |].
    + rewrite overwrite_overwrite in C2 by lia. done.
    + by rewrite E2, A2, <- app_assoc.
Qed.

Lemma opening fl r pid a b p0 sct n rest size d i p :
  wf_daemon d → _syncBusy (sync d) = true → _syncState (sync d) = 0 → 40 <= size →
  is_u32 pid → getCtlId (ctl (nv d)) pid = Some i → part (ctl (nv d)) !! i = Some p →
  is_u32 r → is_u32 sct → is_u32 n → 0 < n → sct + n <= 1024 →
  ∃ d', analyze can_open cfg false (S (S fl)) ((enc_token SYNC_REQ_HEAD r pid a b
          ++ enc_token SYNC_REQ_BODY (u32 (r + 1)) p0 sct n) ++ rest, size) d
      = analyze can_open cfg false fl (rest, size - 40) d'
    ∧ session i (image_bytes p) 2 (u32 (r + 1)) (512 * sct) (512 * n) (diskbuf (fromChannel p)) d'
    ∧ quiet d d'.
Proof.
  intros W Hb H0 Hs Up Hi Hp Ur Us Un Hn Hsn. rewrite <- app_assoc.
  destruct (head_turn (S fl) r pid a b (enc_token SYNC_REQ_BODY (u32 (r + 1)) p0 sct n ++ rest) size d i p)
    as (d1 & -> & S1 & Q1 & _); try done; [lia|].
  rewrite (u32_id r) in S1 by done.
  destruct (body_turn fl (u32 (r + 1)) p0 sct n rest (size - 20) d1 _ _ _ _ _ _ S1)
    as (d2 & -> & S2 & Q2); try done; [lia|].
  exists d2. replace (size - 20 - 20) with (size - 40) by lia.
  split_and!; [done|done|]. destruct Q1, Q2. split; congruence.
Qed.

(** A request for [n] sectors from [sct] on, on registered partition [i]. *)
Section request.
Context (r pid a b p0 p1 a1 b1 sct n grp : Z) (i : nat) (p : _RAMNV_PART_CTRL) (d : daemon).
Hypothesis (W : wf_daemon d) (Hidle : _syncBusy (sync d) = false) (Hgrp : _idxGrp (pkt d) ≠ grp).
Hypothesis (Ug : is_u32 grp) (Up : is_u32 pid) (Ur : is_u32 r) (Us : is_u32 sct) (Un : is_u32 n).
Hypothesis (Hn : 0 < n) (Hsn : sct + n <= 1024).
Hypothesis (Hi : getCtlId (ctl (nv d)) pid = Some i) (Hp : part (ctl (nv d)) !! i = Some p).
Hypothesis (HB : 512 * (sct + n) <= Z.of_nat (length (diskbuf (fromChannel p)))).

Definition req_head : bytes :=
  enc_token SYNC_REQ_HEAD r pid a b ++ enc_token SYNC_REQ_BODY (u32 (r + 1)) p0 sct n.
Definition req_tail : bytes := enc_token SYNC_REQ_TAIL (u32 (u32 (r + 1) + 1)) p1 a1 b1.
Definition req_payloads (c : bytes) (cs : list bytes) : list bytes := payloads req_head c cs req_tail.

Lemma req_head_length x : Z.of_nat (length (req_head ++ x)) = Z.of_nat (length x) + 40.
Proof. rewrite length_app, Nat2Z.inj_add. change (length req_head) with 40%nat. lia. Qed.

Lemma req_head_wf : wf_bytes req_head.
Proof. apply wf_app. split; apply enc_token_wf. Qed.

(** The two first tokens of the opening packet [req_head ++ rest]. *)
Lemma open_packet rest :
  (length (req_head ++ rest) <= PACKETSIZE)%nat → wf_bytes rest →
  ∃ fl d',
    sync_turn can_open cfg false (RdBytes (enc_packet grp 0 (req_head ++ rest))) d
    = (d2 ← analyze can_open cfg false (S (S fl))
             (rest ++ replicate (PACKETSIZE - length (req_head ++ rest)) 0, Z.of_nat (length rest)) d';
       Some (inl d2))
    ∧ session i (image_bytes p) 2 (u32 (r + 1)) (512 * sct) (512 * n) (diskbuf (fromChannel p)) d'
    ∧ ∀ d2, quiet d' d2 → answered grp 0 (req_head ++ rest) d (_sendPacktRsp 1 d2).
Proof.
  intros HL HW. set (payload := req_head ++ rest) in *.
  assert (Wp : wf_bytes payload) by (apply wf_app; split; [apply req_head_wf|done]).
  set (da := after_packet grp 0 payload d).
  assert (Wa : wf_daemon (set_sync (set_busy (sync da)) da)).
  { apply wf_busy. destruct W as [Wc Ws P]. constructor; [done|done|by apply wf_enc_packet]. }
  rewrite turn_start by done. fold da. unfold analyze_packet.
  assert (HZ : Z.of_nat (length payload) = Z.of_nat (length rest) + 40) by apply req_head_length.
  assert (HE : ∀ z, payload ++ z = req_head ++ rest ++ z) by (intros; unfold payload; by rewrite app_assoc).
  rewrite HE, HZ.
  replace (2 * Z.to_nat (Z.of_nat (length rest) + 40) + 3)%nat
    with (S (S (S (S (2 * length rest + 79)))))%nat by lia.
  destruct (opening (S (S (2 * length rest + 79))) r pid a b p0 sct n
    (rest ++ replicate (PACKETSIZE - length payload) 0) (Z.of_nat (length rest) + 40) _ i p Wa)
    as (d1 & E & S1 & Q1); try done; [by apply (wfs_busy _ _ (wfd_sync _ W))|lia|].
  unfold req_head. rewrite E. replace (Z.of_nat (length rest) + 40 - 40) with (Z.of_nat (length rest)) by lia.
  eexists _, d1. split_and!; [done|done|].
  intros d2 [Q2 Q3]. apply answered_quiet. fold da. destruct Q1. split; congruence.
Qed.

(** C15. A request commits: the data of one registered partition are cut into chunks, none of
    them empty; the HEAD and BODY tokens travel in front of the first chunk, in its packet, and
    the TAIL token behind the last one, in its packet, so that no token is cut.  The analyzer
    accepts every packet, answers each with 1 and ends idle; the working and the committed
    image of the partition are then the old working image with the data at its sectors.  (A token
    that is itself cut is lost, [analyze_split_token_dropped].) *)
Theorem syncAnalyzer_request_commits c cs :
  Forall (λ c, c ≠ [] ∧ wf_bytes c) (c :: cs) →
  Forall (λ p, (length p <= PACKETSIZE)%nat) (req_payloads c cs) →
  Z.of_nat (length (concat (c :: cs))) = 512 * n →
  ∃ d', syncAnalyzer can_open cfg false (packets grp 0 (req_payloads c cs)) d = Some (d', false)
    ∧ completed i (take (image_bytes p)
                     (overwrite (512 * sct) (concat (c :: cs)) (diskbuf (fromChannel p)))) d'
    ∧ sent d' = sent d ++ replies grp 0 (req_payloads c cs).
Proof.
  intros HF HP HL. unfold is_u32 in Us, Un.
  inversion HF as [|? ? [Hc Wc] HF']; subst x l. unfold req_payloads in *.
  destruct cs as [|c' cs]; cbn [payloads packets replies syncAnalyzer] in *;
    inversion HP as [|? ? Hl HP']; subst x l.
  - cbn [concat] in *. rewrite app_nil_r in *.
    destruct (open_packet (c ++ req_tail)) as (fl & d1 & -> & S1 & A); [done|apply wf_app; split; [done|apply enc_token_wf]|].
    rewrite <- HL in S1. rewrite <- app_assoc, (length_app c), Nat2Z.inj_add.
    destruct (data_end fl c (u32 (u32 (r + 1) + 1)) p1 a1 b1
      (replicate (PACKETSIZE - length (req_head ++ c ++ req_tail)) 0) _ _ _ _ _ _ S1)
      as (d2 & E & C & Q); [done|lia..|done|].
    setoid_rewrite E. cbn [mbind option_bind]. eexists. split_and!; [done|by apply completed_sent|by apply A].
  - assert (0 < length (concat (c' :: cs)))%nat.
    { inversion HF' as [|? ? [Hc' _] _]; subst x l. cbn. rewrite length_app.
      destruct c'; [done|simpl; lia]. }
    assert (HLc : length (concat (c :: c' :: cs)) = (length c + length (concat (c' :: cs)))%nat)
      by (cbn [concat]; by rewrite length_app).
    destruct (open_packet c) as (fl & d1 & -> & S1 & A); [done|done|].
    destruct (data_partial (S fl) c (replicate (PACKETSIZE - length (req_head ++ c)) 0) _ _ _ _ _ _ _ S1)
      as (d2 & -> & S2 & Q); [done|lia..|].
    destruct (A d2 Q) as [A1 A2]. cbn [mbind option_bind].
    destruct (chunks_run (u32 (u32 (r + 1) + 1)) p1 a1 b1 cs i (image_bytes p) (u32 (r + 1)) eq_refl
      c' grp 1 _ _ _ _ (session_sent _ _ _ _ _ _ _ 1 _ S2)) as (d3 & E & C3 & E3);
      rewrite ?A1; try done; try lia.
    { rewrite length_overwrite by lia. lia. }
    change (u32 (0 + 1)) with 1. setoid_rewrite E. exists d3. split_and!; [done| |].
    + rewrite overwrite_overwrite in C3 by lia. done.
    + unfold req_tail. by rewrite E3, A2, <- app_assoc.
Qed.
End request.

(** ** Requests that do not complete *)

(** C40. A bad token rolls the request back: inside a request, a token that is neither BODY nor
    TAIL, or whose index is not the successor of the last one, is answered with 0 and leaves the
    analyzer idle and the working image of the partition equal to its committed image. *)
Theorem analyze_bad_token_rolls_back fl t r pid sct n rest size i m f pos L B d p :
  session i m 1 f pos L B d → 20 <= size → is_u32 t → is_u32 r →
  (t ≠ SYNC_REQ_BODY ∧ t ≠ SYNC_REQ_TAIL ∨ r ≠ u32 (f + 1)) →
  part (ctl (nv d)) !! i = Some p →
  ∃ d', analyze can_open cfg false (S fl) (enc_token t r pid sct n ++ rest, size) d
      = Some (_sendPacktRsp 0 d')
    ∧ completed i (image p (backup p)) d' ∧ quiet d d'.
Proof.
  intros [W Hb H1 Hid Hr Hf _ _ _] Hs Ut Ur Hbad Hp. pose proof W as [Wc [? ? ? Ho HT ? ?] P].
  set (d1 := set_sync (set_token (enc_token t r pid sct n ++ drop 20 (syncReqBuf (sync d))) (sync d)) d).
  assert (E : _syncGetBody (enc_token t r pid sct n ++ rest, size) d = Some (SYNC_FAIL, (rest, size - 20), d1)).
  { unfold _syncGetBody. rewrite getToken_enc by done. cbn [mbind option_bind negb].
    rewrite syncReqBuf_token, sync_req_token. cbn [mbind option_bind packet_type reqIdx syncReqFrame set_token].
    rewrite Hf, (u32_id t), (u32_id r) by done.
    destruct (Z.eqb_spec SYNC_REQ_BODY t), (Z.eqb_spec SYNC_REQ_TAIL t), (Z.eqb_spec (u32 (f + 1)) r);
      try done; exfalso; destruct Hbad as [[]|]; congruence. }
  cbn [analyze snd]. bdecide. rewrite E. cbn [mbind option_bind].
  assert (R : in_range (ctl (nv d)) (Z.of_nat i)) by (unfold in_range; lia).
  destruct (restoreData_ok (ctl (nv d)) (Z.of_nat i) p Wc R) as [ER IR]; [by rewrite Nat2Z.id|].
  unfold reject, _syncReset_fail, d1. cbn [sync set_sync _syncState set_token _id]. rewrite H1, Hid.
  change (negb (1 =? 0)) with true. unfold with_ctl. cbn [nv set_sync]. rewrite ER. cbn [mbind option_bind].
  eexists. split_and!; [done| |done]. split_and!; [|done|].
  - constructor; [by eapply restoreData_wf|apply wf_syncInit|done]. cbn. rewrite length_drop, HT. done.
  - exists (rolled_back p). rewrite <- IR at 2. split_and!; [|done|done]. cbn.
    by rewrite Nat2Z.id, list_lookup_insert_eq by (by eapply lookup_lt_Some).
Qed.

(** A token split between two packets is lost: when fewer than 20 bytes of a packet are
    left where a token is expected, the analyzer answers 1 and drops them, storing nothing, so
    the rest of the token in the next packet is read as a token of its own. *)
Theorem analyze_split_token_dropped fl buf size d :
  wf_daemon d → 0 < size < 20 → _syncState (sync d) = 0 ∨ _syncState (sync d) = 1 →
  analyze can_open cfg false (S fl) (buf, size) d = Some (_sendPacktRsp 1 d).
Proof.
  intros W Hs Hst. pose proof W as [_ [? ? ? Ho HT ? ?] _].
  assert (ET : __getToken (buf, size) (sync d) = Some (false, (buf, size), sync d))
    by (rewrite getToken_spec by (done || lia); by bdecide).
  assert (ES : set_sync (sync d) d = d) by by destruct d.
  cbn [analyze snd]. bdecide.
  destruct Hst as [E|E]; bdecide; unfold _syncGetHead, _syncGetBody; rewrite ET;
    cbn [mbind option_bind negb]; by rewrite ES.
Qed.

(** The range of a BODY token is not checked: an empty range or one past sector 1024 is
    undefined behaviour of the daemon (a shift by 32 or a write outside the dirty table). *)
Theorem analyze_body_unchecked fl pid sct n rest size i m f pos L B d :
  session i m 1 f pos L B d → 20 <= size → is_u32 sct → is_u32 n →
  n = 0 ∨ 1024 < sct + n →
  analyze can_open cfg false (S fl) (enc_token SYNC_REQ_BODY (u32 (f + 1)) pid sct n ++ rest, size) d = None.
Proof.
  intros [W Hb H1 Hid Hr Hf _ _ _] Hs Us Un Hbad. pose proof W as [Wc [? ? ? Ho HT ? ?] P].
  cbn [analyze snd]. bdecide. unfold _syncGetBody.
  rewrite getToken_enc by done. cbn [mbind option_bind negb]. rewrite syncReqBuf_token, sync_req_token.
  cbn [mbind option_bind packet_type reqIdx start num syncReqFrame set_token].
  change (SYNC_REQ_BODY =? u32 SYNC_REQ_BODY) with true.
  rewrite Hf, (u32_id (u32 (f + 1))) by apply u32_range. rewrite Z.eqb_refl. cbn [negb].
  rewrite (u32_id sct), (u32_id n) by done. cbn [_id set_frame set_token]. rewrite Hid.
  assert (R : in_range (ctl (nv d)) (Z.of_nat i)) by (unfold in_range; lia).
  destruct (in_range_part _ _ Wc R) as (p & k & Hp & [[_ Hd] _ _ _]).
  pose proof (mark_table_spec (dirty (fromChannel p)) sct n Hd Us Un) as M.
  assert (Eb : (0 <? n) && (sct + n <=? 1024) = false)
    by (apply andb_false_iff; destruct Hbad; [left; apply Z.ltb_ge|right; apply Z.leb_gt]; lia).
  rewrite Eb in M. unfold with_ctl, _markDirtyInfo, upd_part. cbn [nv set_sync]. rewrite Hp.
  cbn [mbind option_bind]. by rewrite M.
Qed.
End session_run.

(** ** Witnesses *)

Definition ex_pkt : packet_ctl := PacketCtl (replicate PACKET_TOTAL 0) (2 ^ 32 - 1) 0.
Definition ex_sync (st f : Z) (busy : bool) : sync_ctl := SyncCtl st busy f (replicate 80 0) 0 0 0 0.
Definition ex_daemon (st f : Z) (busy : bool) : daemon :=
  Daemon ex_pkt (ex_sync st f busy) (NvState ex_ctl (ex_world 0) SvWait) [].

Lemma ex_daemon_wf st f busy :
  st = 0 ∨ st = 1 ∧ busy = true → wf_daemon (ex_daemon st f busy).
Proof.
  intros Hs. constructor.
  - by apply (ex_wf _ 7 5 0).
  - constructor; cbn; try done; unfold in_range; cbn; intros;
      destruct Hs as [|[? ?]]; solve [auto|congruence|lia].
  - split; [done|]. apply Forall_replicate. unfold is_u8. lia.
Qed.

Lemma ex_session : session 0 512 1 4 0 0 (replicate 516 7) (ex_daemon 1 4 true).
Proof.
  constructor; try done; [apply ex_daemon_wf; auto|cbn; lia|].
  eexists. split_and!; reflexivity.
Qed.

Lemma analyze_packet_fuel_witness :
  analyze ex_all ex_cfg false 50 (enc_token SYNC_REQ_HEAD 3 1 0 0, 20)
    (set_sync (set_busy (sync (ex_daemon 0 0 false))) (ex_daemon 0 0 false))
  = analyze_packet ex_all ex_cfg false (enc_token SYNC_REQ_HEAD 3 1 0 0) 20 (ex_daemon 0 0 false).
Proof.
  apply (analyze_packet_fuel ex_all ex_cfg false (enc_token SYNC_REQ_HEAD 3 1 0 0) 20 (ex_daemon 0 0 false) 50);
    [apply ex_daemon_wf; auto|lia|vm_compute; lia].
Defined.

Definition ex_request : list rd_result :=
  packets 5 0 (req_payloads 3 1 0 0 0 0 0 0 0 1 (replicate 300 9) [replicate 212 8]).

Definition ex_chunk : bytes := replicate 300 9.
Definition ex_chunks : list bytes := [replicate 212 8].
Definition ex_partition : _RAMNV_PART_CTRL := ex_pc (ex_buf 7 1) (ex_buf 5 0) (ex_buf 5 0).

Lemma ex_chunks_ok : Forall (λ c, c ≠ [] ∧ wf_bytes c) (ex_chunk :: ex_chunks).
Proof.
  apply list.Forall_cons; split; [|apply list.Forall_cons; split; [|by constructor]];
    (split; [done|apply Forall_replicate; unfold is_u8; lia]).
Qed.

Lemma ex_payloads_fit :
  Forall (λ p, (length p <= PACKETSIZE)%nat) (req_payloads 3 1 0 0 0 0 0 0 0 1 ex_chunk ex_chunks).
Proof.
  apply list.Forall_cons; split; [|apply list.Forall_cons; split; [|by constructor]];
    vm_compute; lia.
Qed.

Lemma syncAnalyzer_request_commits_witness :
  ∃ d', syncAnalyzer ex_all ex_cfg false ex_request (ex_daemon 0 0 false) = Some (d', false)
    ∧ completed 0 (take 512 (overwrite 0 (concat (ex_chunk :: ex_chunks)) (replicate 516 7))) d'
    ∧ sent d' = [] ++ replies 5 0 (req_payloads 3 1 0 0 0 0 0 0 0 1 ex_chunk ex_chunks).
Proof.
  assert (U : ∀ z, 0 <= z <= 10 → is_u32 z) by (intros; unfold is_u32; lia).
  apply (syncAnalyzer_request_commits ex_all ex_cfg 3 1 0 0 0 0 0 0 0 1 5 0 ex_partition (ex_daemon 0 0 false)
    (ex_daemon_wf 0 0 false (or_introl eq_refl)) eq_refl ltac:(by cbn) (U 5 ltac:(lia)) (U 1 ltac:(lia))
    (U 3 ltac:(lia)) (U 0 ltac:(lia)) (U 1 ltac:(lia)) ltac:(lia) ltac:(lia) eq_refl eq_refl
    ltac:(vm_compute; discriminate) ex_chunk ex_chunks ex_chunks_ok ex_payloads_fit).
  vm_compute. reflexivity.
Defined.

Lemma analyze_bad_token_rolls_back_witness :
  ∃ d', analyze ex_all ex_cfg false 1 (enc_token SYNC_REQ_BODY 9 1 0 1, 20) (ex_daemon 1 4 true)
      = Some (_sendPacktRsp 0 d')
    ∧ completed 0 (replicate 512 5) d' ∧ quiet (ex_daemon 1 4 true) d'.
Proof.
  apply (analyze_bad_token_rolls_back ex_all ex_cfg 0 SYNC_REQ_BODY 9 1 0 1 [] 20 0 512 4 0 0 (replicate 516 7)
    (ex_daemon 1 4 true) (ex_pc (ex_buf 7 1) (ex_buf 5 0) (ex_buf 5 0)) ex_session); try done.
  right. done.
Defined.

Lemma analyze_split_token_dropped_witness :
  analyze ex_all ex_cfg false 1 (replicate 19 0, 19) (ex_daemon 1 4 true)
  = Some (_sendPacktRsp 1 (ex_daemon 1 4 true)).
Proof.
  apply (analyze_split_token_dropped ex_all ex_cfg 0 (replicate 19 0) 19 (ex_daemon 1 4 true));
    [apply ex_daemon_wf; auto|lia|by right].
Defined.

Lemma analyze_body_unchecked_witness :
  analyze ex_all ex_cfg false 1 (enc_token SYNC_REQ_BODY 5 1 1000 25, 20) (ex_daemon 1 4 true) = None.
Proof.
  apply (analyze_body_unchecked ex_all ex_cfg 0 1 1000 25 [] 20 0 512 4 0 0 (replicate 516 7)
    (ex_daemon 1 4 true) ex_session); [done..|lia].
Defined.
