(* ===== verification/NvSafe.v ===== *)
(** * Definedness of the NV daemon's analyzer (ril/scx15/nvitemd/nvitem_sync.c, nvitem_buf.c)

    Two things take the analyzer out of the defined behaviour of C: a BODY token whose range the code does
    not check, and a packet whose size exceeds the packet buffer.  This file states both as a condition on
    what is read, and proves that without them every turn of the analyzer and of the save task is defined. *)

From stdpp Require Import gmap strings.
From S2P Require Import Prelude NvFs NvBuf NvPacket NvSync.

(** ** Lengths of the channel buffers *)

Definition chan_len (c : _RAMNV_CTL) (id : Z) : Z :=
  match part c !! Z.to_nat id with Some p => Z.of_nat (length (diskbuf (fromChannel p))) | None => 0 end.

(** What no operation on the table changes: the number of partitions and the lengths of the channel buffers. *)
Definition same_room (c c' : _RAMNV_CTL) : Prop :=
  partNum c' = partNum c ∧ ∀ id, chan_len c' id = chan_len c id.

Lemma same_room_refl c : same_room c c.
Proof. done. Qed.

Lemma same_room_trans c1 c2 c3 : same_room c1 c2 → same_room c2 c3 → same_room c1 c3.
Proof. intros [E1 F1] [E2 F2]. split; [congruence|]. intros id. by rewrite F2, F1. Qed.
#[local] Hint Resolve same_room_refl same_room_trans : core.

Lemma upd_part_room id f c c' :
  (∀ p p', f p = Some p' → length (diskbuf (fromChannel p')) = length (diskbuf (fromChannel p))) →
  upd_part id f c = Some c' → same_room c c'.
Proof.
  intros Hf (p & p' & Ep & Ef & ->)%upd_part_Some. split; [done|]. intros j. unfold chan_len. cbn [part].
  destruct (decide (Z.to_nat j = Z.to_nat id)) as [->|Hne]; [|by rewrite list_lookup_insert_ne by done].
  rewrite list_lookup_insert_eq by (by eapply lookup_lt_Some). by rewrite Ep, (Hf _ _ Ef).
Qed.

Lemma backup_copy_room id c c' : backup_copy id c = Some c' → same_room c c'.
Proof. apply upd_part_room. intros p p' E. binv E. by simplify_eq. Qed.

Lemma restoreData_room id c c' : restoreData id c = Some c' → same_room c c'.
Proof.
  apply upd_part_room. intros p p' E. binv E. simplify_eq. apply memcpy_image_Some in E0 as (-> & ? & ?).
  by apply length_memcpy.
Qed.

Lemma getData_room id c c' : __getData id c = Some c' → same_room c c'.
Proof. apply upd_part_room. intros p p' E. binv E. by simplify_eq. Qed.

Lemma clean_toDisk_room id c c' : clean_toDisk id c = Some c' → same_room c c'.
Proof. apply upd_part_room. intros p p' E. by simplify_eq. Qed.

Lemma markDirtyInfo_room id st n c c' : _markDirtyInfo id st n c = Some c' → same_room c c'.
Proof. apply upd_part_room. intros p p' E. binv E. by simplify_eq. Qed.

Lemma writeData_room id st data c c' : writeData id st data c = Some c' → same_room c c'.
Proof.
  unfold writeData. destruct data; [by intros [= ->]|]. apply upd_part_room. intros p p' E. binv E. simplify_eq.
  by apply splice_length in E0.
Qed.

(** ** Every operation on a registered partition is defined *)

Lemma restoreData_defined c id : wf_ctl c → in_range c id → ∃ c', restoreData id c = Some c'.
Proof.
  intros W R. destruct (in_range_part c id W R) as (p & n & Hp & _).
  destruct (restoreData_ok c id p W R Hp) as [E _]. by eexists.
Qed.

Lemma getData_defined c id : wf_ctl c → in_range c id → ∃ c', __getData id c = Some c'.
Proof.
  intros W R. destruct (in_range_part c id W R) as (p & n & Hp & Hw).
  destruct (getData_image c id p n W Hp Hw) as (p' & c' & E & _). by exists c'.
Qed.

Lemma ifHasDirty_defined c id : wf_ctl c → in_range c id → ∃ b, __ifHasDirty id c = Some b.
Proof.
  intros W R. destruct (in_range_part c id W R) as (p & n & Hp & _). unfold __ifHasDirty. rewrite Hp. by eexists.
Qed.

Lemma writeData_defined c id st data :
  wf_ctl c → in_range c id → 0 <= st → st + Z.of_nat (length data) <= chan_len c id →
  ∃ c', writeData id st data c = Some c'.
Proof.
  intros W R Hs HL. destruct (in_range_part c id W R) as (p & n & Hp & _). unfold chan_len in HL. rewrite Hp in HL.
  unfold writeData. destruct data as [|b l] eqn:Ed; [by eexists|]. rewrite <- Ed in *. eexists.
  eapply upd_part_ok; [done|]. by rewrite splice_ok by lia.
Qed.

Section safe.
Context (can_open : string → bool) (cfg : list RAM_NV_CONFIG) (cali : bool).

Lemma write_part_defined c id w :
  wf_ctl c → in_range c id → ∃ c' w', write_part can_open cfg id c w = Some (c', w') ∧ same_room c c'.
Proof.
  intros W R. destruct (in_range_part c id W R) as (p & n & Hp & Hw). unfold write_part. rewrite Hp.
  cbn [mbind option_bind]. rewrite slice_ok by (destruct Hw as [_ _ [Ht _] Hs]; lia). cbn [mbind option_bind].
  destruct (ramDisk_Write _ _ _ _ _) as [[] w'] eqn:Ew; [|by exists c, w'].
  unfold clean_toDisk, upd_part. rewrite Hp. cbn [mbind option_bind]. eexists _, w'. split; [done|].
  eapply (clean_toDisk_room id). unfold clean_toDisk, upd_part. by rewrite Hp.
Qed.

Lemma save_part_defined c id w :
  wf_ctl c → in_range c id → ∃ c' w', save_part can_open cfg id c w = Some (c', w') ∧ same_room c c'.
Proof.
  intros W R. unfold save_part. destruct (ifHasDirty_defined c id W R) as [b ->]. cbn [mbind option_bind].
  destruct b; [|by exists c, w]. destruct (getData_defined c id W R) as [c1 E]. rewrite E. cbn [mbind option_bind].
  pose proof (getData_room _ _ _ E) as S. destruct (write_part_defined c1 id w) as (c' & w' & E' & S').
  { by eapply getData_wf. }
  { unfold in_range. by rewrite (proj1 S). }
  exists c', w'. eauto.
Qed.

Lemma saveToDisk_defined c w :
  wf_ctl c → ∃ c' w', saveToDisk can_open cfg c w = Some (c', w') ∧ same_room c c'.
Proof.
  intros W. unfold saveToDisk.
  assert (H : ∀ n id c w, wf_ctl c → 0 <= id → id + Z.of_nat n <= Z.of_nat (partNum c) →
    ∃ c' w', save_loop can_open cfg n id c w = Some (c', w') ∧ same_room c c').
  { clear c w W. induction n as [|n IH]; intros id c w W Hi Hn; [by exists c, w|]. cbn [save_loop].
    destruct (save_part_defined c id w W) as (c1 & w1 & E & S); [unfold in_range; lia|].
    rewrite E. cbn [mbind option_bind].
    destruct (save_part_txn _ _ _ _ _ _ _ W E) as (_ & W1 & _).
    destruct (IH (id + 1) c1 w1 W1) as (c' & w' & E' & S'); [lia|rewrite (proj1 S); lia|]. exists c', w'. eauto. }
  apply H; [done|lia|lia].
Qed.

(** What a step leaves of the rest of the daemon: the table keeps its room, and the save task is where it was or
    woken. *)
Definition framed (v v' : nv_state) : Prop :=
  same_room (ctl v) (ctl v') ∧ (task v' = task v ∨ task v' = SvScan 0).

Lemma backupData_defined id v :
  wf_ctl (ctl v) → in_range (ctl v) id →
  ∃ r v', backupData can_open cfg cali id v = Some (r, v') ∧ framed v v'.
Proof.
  intros W R. destruct (in_range_part _ id W R) as (p & n & Hp & _).
  destruct (backup_copy_ok _ id p W R Hp) as [E _]. unfold backupData. rewrite E. cbn [mbind option_bind].
  pose proof (backup_copy_room _ _ _ E) as S. pose proof (backup_copy_wf _ _ _ W E) as W1.
  set (c1 := NvCtl _ _) in *. destruct cali.
  - destruct (saveToDisk_defined c1 (os v) W1) as (c' & w' & -> & S'). cbn [mbind option_bind].
    do 2 eexists. split; [done|]. split; [by eauto|by left].
  - do 2 eexists. split; [done|]. unfold framed, giveEvent. cbn [task]. destruct (task v); cbn; auto.
Qed.

(** ** One turn of the loop *)

(** A turn of the [while] loop of [analyze]: it leaves the packet, or goes on with what is left of it. *)
Definition analyze_turn (cur : cursor) (d : daemon) : option (daemon + cursor * daemon) :=
  if 0 =? _syncState (sync d) then
    '(r, cur, d) ← _syncGetHead cur d;
    match r with
    | SYNC_FAIL => d ← reject d; Some (inl d)
    | SYNC_NEXT => Some (inr (cur, set_sync (set_syncState 1 (sync d)) d))
    | SYNC_CONTINUE => Some (inl (_sendPacktRsp 1 d))
    | SYNC_DONE => Some (inr (cur, d))
    end
  else if 1 =? _syncState (sync d) then
    '(r, cur, d) ← _syncGetBody cur d;
    match r with
    | SYNC_FAIL => d ← reject d; Some (inl d)
    | SYNC_NEXT => Some (inr (cur, set_sync (set_syncState 2 (sync d)) d))
    | SYNC_CONTINUE => Some (inl (_sendPacktRsp 1 d))
    | SYNC_DONE =>
        '(ret, d) ← _syncReset_suc can_open cfg cali d;
        Some (inl (_sendPacktRsp (if (ret : bool) then 1 else 0) d))
    end
  else
    '(r, cur, d) ← _syncGetData cur d;
    match r with
    | SYNC_CONTINUE => Some (inl (_sendPacktRsp 1 d))
    | SYNC_NEXT => Some (inr (cur, set_sync (set_syncState 1 (sync d)) d))
    | _ => Some (inr (cur, d))
    end.

(** [analyze] is the iteration of its turns. *)
Lemma analyze_turns fuel cur d :
  cur.2 ≠ 0 →
  analyze can_open cfg cali (S fuel) cur d
  = x ← analyze_turn cur d;
    match x with inl d' => Some d' | inr (cur', d') => analyze can_open cfg cali fuel cur' d' end.
Proof.
  intros H. cbn [analyze]. rewrite (proj2 (Z.eqb_neq _ _) H). unfold analyze_turn.
  destruct (0 =? _); [|destruct (1 =? _)].
  - destruct (_syncGetHead cur d) as [[[[] ?] d1]|]; try done. cbn [mbind option_bind]. by destruct (reject d1).
  - destruct (_syncGetBody cur d) as [[[[] ?] d1]|]; try done; cbn [mbind option_bind].
    + by destruct (_syncReset_suc _ _ _ d1) as [[]|].
    + by destruct (reject d1).
  - by destruct (_syncGetData cur d) as [[[[] ?] d1]|].
Qed.

(** ** The condition on what is read *)

(** A range of [n] sectors from sector [st]: not empty, inside the dirty table, and inside the buffer. *)
Definition range_ok (st n len : Z) : bool :=
  (0 <=? st) && (0 <? n) && (st + n <=? 1024) && (512 * (st + n) <=? len).

(** The token at the cursor: when it is the BODY token that is due, its range is inside the partition. *)
Definition token_ok (cur : cursor) (d : daemon) : bool :=
  match __getToken cur (sync d) with
  | Some (true, _, s) =>
      match sync_req (syncReqBuf s) with
      | Some req =>
          if (1 =? _syncState (sync d)) && (SYNC_REQ_BODY =? packet_type req)
             && (u32 (syncReqFrame s + 1) =? reqIdx req)
          then range_ok (start req) (num req) (chan_len (ctl (nv d)) (_id (sync d))) else true
      | None => true
      end
  | _ => true
  end.

(** Every token the loop comes to in the packet. *)
Fixpoint tokens_ok (fuel : nat) (cur : cursor) (d : daemon) : bool :=
  if cur.2 =? 0 then true
  else match fuel with
  | O => true
  | S fuel' =>
      token_ok cur d
      && match analyze_turn cur d with Some (inr (cur', d')) => tokens_ok fuel' cur' d' | _ => true end
  end.

Definition packet_ok (buf : bytes) (size : Z) (d : daemon) : bool :=
  (size <=? Z.of_nat (length buf))
  && tokens_ok (2 * Z.to_nat size + 3) (buf, size) (set_sync (set_busy (sync d)) d).

(** What one [read] delivers in state [d]. *)
Definition read_ok (r : rd_result) (d : daemon) : bool :=
  match _getPacket r (pkt d) with
  | Some (_PACKET_START buf size, ps) =>
      match (if _syncBusy (sync d) then _syncReset_fail (set_pkt ps d) else Some (set_pkt ps d)) with
      | Some d' => packet_ok buf size d'
      | None => true
      end
  | Some (_PACKET_CONTINUE buf size, ps) =>
      if _syncBusy (sync d) then packet_ok buf size (set_pkt ps d) else true
  | _ => true
  end.

(** ** The invariant *)

(** The save task is between two partitions of the table, or at one. *)
Definition task_ok (v : nv_state) : Prop :=
  match task v with
  | SvScan id => 0 <= id
  | SvWrite id => in_range (ctl v) id
  | _ => True
  end.

(** In state 2 what is left of the range lies inside the channel buffer. *)
Record ready (d : daemon) : Prop := {
  rdy_wf : wf_daemon d;
  rdy_data : _syncState (sync d) = 2 →
    0 <= _start (sync d) ∧ _start (sync d) + _len (sync d) <= 2 ^ 19
    ∧ _start (sync d) + _len (sync d) <= chan_len (ctl (nv d)) (_id (sync d));
  rdy_task : task_ok (nv d) }.

Lemma framed_refl v : framed v v.
Proof. split; [done|by left]. Qed.

Lemma framed_task v v' : framed v v' → task_ok v → task_ok v'.
Proof.
  unfold task_ok. intros [[En _] [-> | ->]]; [|done]. destruct (task v); try done. unfold in_range. by rewrite En.
Qed.

(** A step that ends outside state 2 and frames the rest keeps the invariant. *)
Lemma ready_framed d d' :
  ready d → framed (nv d) (nv d') → wf_daemon d' → _syncState (sync d') ≠ 2 → ready d'.
Proof. intros [] F W N. constructor; [done|done|by eapply framed_task]. Qed.

Lemma ready_sent d rsp : ready d → ready (_sendPacktRsp rsp d).
Proof. intros [[] ? ?]. by constructor. Qed.

Lemma ready_busy d : ready d → ready (set_sync (set_busy (sync d)) d).
Proof. intros [W ? ?]. constructor; [by apply wf_busy|done|done]. Qed.

Lemma ready_pkt d ps : ready d → wf_pkt ps → ready (set_pkt ps d).
Proof. intros [[] ? ?] ?. by constructor. Qed.

(** What a turn gives: it leaves the packet, or goes on with less of it. *)
Definition turn_ready (cur : cursor) (d : daemon) (x : daemon + cursor * daemon) : Prop :=
  match x with
  | inl d' => ready d'
  | inr (cur', d') =>
      ready d' ∧ _syncBusy (sync d') = true ∧ 0 <= cur'.2 <= Z.of_nat (length cur'.1) ∧ measure cur' d' < measure cur d
  end.

Lemma sync_req_defined b : length b = (PTR_SIZE * SYNC_REQ_SIZE)%nat → ∃ req, sync_req b = Some req.
Proof.
  intros HL. unfold PTR_SIZE, SYNC_REQ_SIZE in HL. unfold sync_req.
  destruct (get32_Some 0 b) as [? ->]; [lia|]. destruct (get32_Some 4 b) as [? ->]; [lia|].
  destruct (get32_Some 8 b) as [? ->]; [lia|]. destruct (get32_Some 12 b) as [? ->]; [lia|].
  destruct (get32_Some 16 b) as [? ->]; [lia|]. by eexists.
Qed.

(** A token inside the packet is read, and less of the packet is left. *)
Lemma getToken_defined buf size s :
  _ofst s = 0 → length (syncReqBuf s) = (PTR_SIZE * SYNC_REQ_SIZE)%nat → 0 < size <= Z.of_nat (length buf) →
  __getToken (buf, size) s = Some (false, (buf, size), s)
  ∨ ∃ b req, __getToken (buf, size) s = Some (true, (drop 20 buf, size - 20), set_token b s)
      ∧ 20 <= size ∧ sync_req b = Some req.
Proof.
  intros Ho HT Hs. rewrite getToken_spec by (done || lia). destruct (Z.ltb_spec size 20); [by left|right].
  rewrite slice_ok by lia. cbn [mbind option_bind].
  edestruct sync_req_defined as [req E]; [|do 2 eexists; split; [reflexivity|split; [done|exact E]]].
  rewrite length_app, length_drop, HT, length_take, length_drop. unfold PTR_SIZE, SYNC_REQ_SIZE. lia.
Qed.

Lemma syncReset_fail_ready d :
  ready d → ∃ d', _syncReset_fail d = Some d' ∧ ready d' ∧ _syncBusy (sync d') = false.
Proof.
  intros R. pose proof (rdy_wf _ R) as W. pose proof W as [Wc Ws _].
  assert (H : ∃ d1, (if negb (_syncState (sync d) =? 0) then with_ctl (restoreData (_id (sync d))) d else Some d) = Some d1
                    ∧ framed (nv d) (nv d1)).
  { destruct (Z.eqb_spec (_syncState (sync d)) 0) as [E|E]; cbn [negb].
    - exists d. split; [done|apply framed_refl].
    - destruct (restoreData_defined (ctl (nv d)) (_id (sync d)) Wc) as [c Ec]; [by apply Ws|].
      unfold with_ctl. rewrite Ec. eexists. split; [done|]. split; [by eapply restoreData_room|by left]. }
  destruct H as (d1 & E & F). assert (E' : _syncReset_fail d = Some (set_sync (_syncInit (sync d1)) d1))
    by (unfold _syncReset_fail; by rewrite E).
  exists (set_sync (_syncInit (sync d1)) d1). split; [done|]. split; [|done].
  destruct (syncReset_fail_good _ _ W E') as [[W' _] _]. by apply (ready_framed d).
Qed.

Lemma reject_ready d : ready d → ∃ d', reject d = Some d' ∧ ready d'.
Proof.
  intros R. destruct (syncReset_fail_ready d R) as (d' & E & R' & _). unfold reject. rewrite E.
  eexists. split; [done|by apply ready_sent].
Qed.

Lemma reject_turn cur d d1 :
  ready d1 → ∃ x, (d ← reject d1; Some (inl d)) = Some x ∧ turn_ready cur d x.
Proof. intros R. destruct (reject_ready d1 R) as (d' & -> & R'). by exists (inl d'). Qed.

Lemma suc_turn cur d d1 :
  ready d1 → _syncState (sync d1) ≠ 0 →
  ∃ x, ('(ret, d) ← _syncReset_suc can_open cfg cali d1; Some (inl (_sendPacktRsp (if (ret : bool) then 1 else 0) d)))
       = Some x ∧ turn_ready cur d x.
Proof.
  intros R Hs. pose proof (rdy_wf _ R) as W. pose proof W as [Wc Ws _].
  destruct (backupData_defined (_id (sync d1)) (nv d1) Wc) as (r & v & E & F); [by apply Ws|].
  assert (E' : _syncReset_suc can_open cfg cali d1 = Some (r, set_sync (_syncInit (sync d1)) (set_nv v d1)))
    by (unfold _syncReset_suc; by rewrite E).
  rewrite E'. cbn [mbind option_bind]. eexists. split; [done|]. apply ready_sent.
  destruct (syncReset_suc_good _ _ _ _ _ _ W Hs E') as [W' _]. by apply (ready_framed d1).
Qed.

(** The invariant after the analyzer has changed its own state only. *)
Lemma ready_quiet d d' :
  ready d → wf_daemon d' → nv d' = nv d → _syncState (sync d') ≠ 2 → ready d'.
Proof. intros R W E N. apply (ready_framed d); [done|rewrite E; apply framed_refl|done|done]. Qed.

Lemma head_turn_ready cur d :
  ready d → _syncBusy (sync d) = true → 0 < cur.2 <= Z.of_nat (length cur.1) → _syncState (sync d) = 0 →
  ∃ x, analyze_turn cur d = Some x ∧ turn_ready cur d x.
Proof.
  intros R Hb Hc Hs. pose proof (rdy_wf _ R) as W. destruct cur as [buf size]. cbn [fst snd] in Hc.
  assert (H0 : 0 < (buf, size).2) by exact (proj1 Hc).
  assert (H : ∃ r cur' d', _syncGetHead (buf, size) d = Some (r, cur', d')
    ∧ (r = SYNC_NEXT → cur'.2 <= Z.of_nat (length cur'.1))).
  { unfold _syncGetHead. destruct W as [_ [? ? ? Ho HT ? ?] _].
    destruct (getToken_defined buf size (sync d) Ho HT Hc) as [-> |(b & req & -> & H20 & E)]; cbn [mbind option_bind negb].
    { by do 3 eexists. }
    rewrite syncReqBuf_token, E. cbn [mbind option_bind]. destruct (negb _); [by do 3 eexists|].
    destruct (getCtlId _ _); do 3 eexists; (split; [reflexivity|]); intros; cbn; rewrite ?length_drop; lia || done. }
  destruct H as (r & cur' & d1 & E & Hlen).
  destruct (head_good _ _ _ _ _ W H0 Hb Hs E) as ([W1 _] & Hb1 & Hs1 & Hn & Hd).
  destruct (syncGetHead_inv _ _ _ _ _ W H0 E) as (En & _).
  assert (R1 : ready d1) by (apply (ready_quiet d); done || lia).
  unfold analyze_turn. rewrite Hs, E. cbn [Z.eqb mbind option_bind]. destruct r; try done.
  - eexists. split; [done|]. by apply ready_sent.
  - destruct (Hn eq_refl) as [Hid Hcur]. eexists. split; [done|]. cbn [turn_ready].
    assert (W2 : wf_daemon (set_sync (set_syncState 1 (sync d1)) d1)) by (apply wf_set_state; auto).
    split_and!; [by apply (ready_quiet d1)|done|lia|by apply Hlen|]. unfold measure. rewrite Hs. cbn in *. lia.
  - by apply reject_turn.
Qed.

Lemma body_turn_ready cur d :
  ready d → _syncBusy (sync d) = true → 0 < cur.2 <= Z.of_nat (length cur.1) → _syncState (sync d) = 1 →
  token_ok cur d = true → ∃ x, analyze_turn cur d = Some x ∧ turn_ready cur d x.
Proof.
  intros R Hb Hc Hs Ht. pose proof (rdy_wf _ R) as W. destruct cur as [buf size]. cbn [fst snd] in Hc.
  assert (H0 : 0 < (buf, size).2) by exact (proj1 Hc).
  assert (Hid : in_range (ctl (nv d)) (_id (sync d))) by (destruct W as [_ [] _]; auto with lia).
  assert (H : ∃ r cur' d', _syncGetBody (buf, size) d = Some (r, cur', d') ∧ framed (nv d) (nv d')
    ∧ (r = SYNC_NEXT → cur'.2 <= Z.of_nat (length cur'.1)
         ∧ ∃ st n, range_ok st n (chan_len (ctl (nv d)) (_id (sync d))) = true
             ∧ _start (sync d') = 512 * st ∧ _len (sync d') = 512 * n)).
  { unfold _syncGetBody, token_ok in *. pose proof W as [Wc [? ? ? Ho HT ? ?] _].
    destruct (getToken_defined buf size (sync d) Ho HT Hc) as [T|(b & req & T & H20 & E)]; rewrite T in Ht |- *;
      cbn [mbind option_bind negb].
    { do 3 eexists. split; [done|]. split; [apply framed_refl|done]. }
    rewrite syncReqBuf_token, E in Ht |- *. cbn [mbind option_bind]. rewrite Hs in Ht.
    destruct (SYNC_REQ_BODY =? packet_type req).
    2:{ destruct (SYNC_REQ_TAIL =? _); [destruct (negb _)|]; do 3 eexists;
          (split; [reflexivity|split; [apply framed_refl|done]]). }
    destruct (u32 (syncReqFrame (set_token b (sync d)) + 1) =? reqIdx req); cbn [negb].
    2:{ do 3 eexists. split; [reflexivity|]. split; [apply framed_refl|done]. }
    change (range_ok (start req) (num req) (chan_len (ctl (nv d)) (_id (sync d))) = true) in Ht.
    pose proof Ht as Ht'. unfold range_ok in Ht'. rewrite !andb_true_iff, !Z.leb_le, Z.ltb_lt in Ht'.
    destruct (in_range_part _ _ Wc Hid) as (p & n & Hp & _).
    destruct (markDirtyInfo_ok (ctl (nv d)) (_id (sync d)) (start req) (num req) p) as (tab & M & _);
      [done|done|done|unfold is_u32; lia..|lia|lia|].
    unfold with_ctl. cbn [nv set_sync _id set_frame set_token sync]. rewrite M. cbn [mbind option_bind].
    do 3 eexists. split; [reflexivity|]. split; [split; [by eapply markDirtyInfo_room|by left]|].
    intros _. cbn [fst snd]. split; [rewrite length_drop; lia|]. exists (start req), (num req). split; [done|].
    cbn. change (Z.of_nat RAMNV_SECT_SIZE) with 512. rewrite !u32_id by (unfold is_u32; lia). lia. }
  destruct H as (r & cur' & d1 & E & F & Hn).
  destruct (body_good _ _ _ _ _ W H0 Hb Hs E) as ([W1 _] & Hb1 & Hs1 & Hid1 & Hcur).
  assert (R1 : ready d1) by (apply (ready_framed d); done || lia).
  assert (Ei : _id (sync d1) = _id (sync d))
    by (pose proof (syncGetBody_inv _ _ _ _ _ W H0 E); tauto).
  unfold analyze_turn. rewrite Hs, E. cbn [Z.eqb mbind option_bind]. change (1 =? 1) with true. cbv iota.
  destruct r.
  - eexists. split; [done|]. by apply ready_sent.
  - destruct (Hn eq_refl) as (HL & st & n & Hr & H1 & H2). eexists. split; [done|]. cbn [turn_ready].
    assert (W2 : wf_daemon (set_sync (set_syncState 2 (sync d1)) d1)) by (apply wf_set_state; auto).
    unfold range_ok in Hr. rewrite !andb_true_iff, !Z.leb_le, Z.ltb_lt in Hr. specialize (Hcur eq_refl).
    split_and!; [|done|lia|done|unfold measure; rewrite Hs; cbn in *; lia].
    constructor; [done| |apply R1]. intros _. cbn. rewrite H1, H2, Ei, (proj2 (proj1 F)). lia.
  - apply suc_turn; [done|lia].
  - by apply reject_turn.
Qed.

Lemma data_turn_ready cur d :
  ready d → _syncBusy (sync d) = true → 0 < cur.2 <= Z.of_nat (length cur.1) → _syncState (sync d) = 2 →
  ∃ x, analyze_turn cur d = Some x ∧ turn_ready cur d x.
Proof.
  intros R Hb Hc Hs. pose proof (rdy_wf _ R) as W. destruct cur as [buf size]. cbn [fst snd] in Hc.
  assert (H0 : 0 < (buf, size).2) by exact (proj1 Hc).
  destruct (rdy_data _ R Hs) as (D0 & D1 & D2). pose proof W as [Wc [_ _ Hid _ _ Hl _] _].
  specialize (Hid ltac:(lia)).
  assert (H : ∃ r cur' d', _syncGetData (buf, size) d = Some (r, cur', d') ∧ framed (nv d) (nv d')
    ∧ cur'.2 <= Z.of_nat (length cur'.1)
    ∧ (r = SYNC_CONTINUE → 0 <= _start (sync d') ∧ _start (sync d') + _len (sync d') = _start (sync d) + _len (sync d))).
  { unfold _syncGetData. destruct (Z.leb_spec (_len (sync d)) size) as [L|L].
    - rewrite slice_ok by lia. cbn [mbind option_bind]. unfold with_ctl.
      edestruct (writeData_defined (ctl (nv d)) (_id (sync d)) (_start (sync d))) as [c Ec]; [done|done|done| |].
      2:{ rewrite Ec. cbn [mbind option_bind]. do 3 eexists. split; [reflexivity|].
          split; [split; [by eapply writeData_room|by left]|]. split; [|done]. cbn. rewrite length_drop. lia. }
      rewrite length_take, length_drop. lia.
    - rewrite slice_ok by lia. cbn [mbind option_bind]. unfold with_ctl.
      edestruct (writeData_defined (ctl (nv d)) (_id (sync d)) (_start (sync d))) as [c Ec]; [done|done|done| |].
      2:{ rewrite Ec. cbn [mbind option_bind]. do 3 eexists. split; [reflexivity|].
          split; [split; [by eapply writeData_room|by left]|]. split; [cbn; lia|]. intros _. cbn.
          rewrite u32_id by (unfold is_u32; lia). lia. }
      rewrite length_take, length_drop. lia. }
  destruct H as (r & cur' & d1 & E & F & HL & Hr).
  destruct (data_good _ _ _ _ _ W H0 Hb Hs E) as ([W1 _] & Hb1 & Hid1 & Hcur).
  pose proof (syncGetData_inv _ _ _ _ _ W H0 E) as (_ & _ & _ & _ & _ & _ & _ & _ & Es & Ei & _).
  unfold analyze_turn. rewrite Hs, E. cbn [mbind option_bind]. change (0 =? 2) with false. change (1 =? 2) with false. cbv iota.
  destruct Hcur as [[-> Hcur]| ->].
  - eexists. split; [done|]. cbn [turn_ready].
    assert (W2 : wf_daemon (set_sync (set_syncState 1 (sync d1)) d1)) by (apply wf_set_state; auto).
    split_and!; [|done|lia|done|unfold measure; rewrite Hs; cbn in *; lia].
    constructor; [done|done|]. exact (framed_task _ _ F (rdy_task _ R)).
  - eexists. split; [done|]. apply ready_sent. destruct (Hr eq_refl) as [H1 H2].
    constructor; [done| |exact (framed_task _ _ F (rdy_task _ R))].
    intros _. rewrite H2, Ei, (proj2 (proj1 F)). lia.
Qed.

Lemma analyze_turn_ready cur d :
  ready d → _syncBusy (sync d) = true → 0 < cur.2 <= Z.of_nat (length cur.1) → token_ok cur d = true →
  ∃ x, analyze_turn cur d = Some x ∧ turn_ready cur d x.
Proof.
  intros R Hb Hc Ht. destruct (rdy_wf _ R) as [_ [[Hs|[Hs|Hs]] _ _ _ _ _ _] _].
  - by apply head_turn_ready.
  - by apply body_turn_ready.
  - by apply data_turn_ready.
Qed.

(** ** Packets, reads and the save task *)

Lemma analyze_ready fuel cur d :
  ready d → _syncBusy (sync d) = true → 0 <= cur.2 <= Z.of_nat (length cur.1) → measure cur d < Z.of_nat fuel →
  tokens_ok fuel cur d = true → ∃ d', analyze can_open cfg cali fuel cur d = Some d' ∧ ready d'.
Proof.
  revert cur d. induction fuel as [|fuel IH]; intros cur d R Hb Hc Hm Ht.
  { exfalso. revert Hm. unfold measure. destruct (_ =? 2); lia. }
  destruct (Z.eqb_spec cur.2 0) as [E0|N0].
  { exists d. cbn [analyze]. by rewrite E0. }
  cbn [tokens_ok] in Ht. rewrite (proj2 (Z.eqb_neq _ _) N0) in Ht. apply andb_true_iff in Ht as [Ht1 Ht2].
  destruct (analyze_turn_ready cur d R Hb ltac:(lia) Ht1) as (x & E & T).
  rewrite analyze_turns, E by done. cbn [mbind option_bind]. rewrite E in Ht2.
  destruct x as [d'|[cur' d']]; [by exists d'|]. destruct T as (R' & Hb' & Hc' & Hm'). apply IH; try done. lia.
Qed.

Lemma analyze_packet_ready buf size d :
  ready d → 0 <= size → packet_ok buf size d = true →
  ∃ d', analyze_packet can_open cfg cali buf size d = Some d' ∧ ready d'.
Proof.
  intros R H0 H. unfold packet_ok in H. apply andb_true_iff in H as [HL%Z.leb_le Ht].
  apply (analyze_ready _ (buf, size)); [by apply ready_busy|done|done| |done].
  unfold measure. cbn [snd]. destruct (_ =? 2); lia.
Qed.

Lemma getPacket_defined r p : wf_pkt p → wf_rd r → ∃ pk ps, _getPacket r p = Some (pk, ps).
Proof.
  intros [HL HW] Hr. pose proof (channel_read_wf r _ HL HW Hr) as [HLb _]. unfold _getPacket.
  destruct (channel_read r (packeBuf p) PACKET_TOTAL) as [[ok buf] n]. cbn [fst snd] in HLb.
  destruct (negb ok); [by do 2 eexists|]. destruct (_ <? _); [by do 2 eexists|].
  assert (is_Some (packet_head buf)) as [h ->].
  { unfold packet_head. unfold PACKET_TOTAL, PACKET_HEAD_SIZE, PACKETSIZE in HLb.
    destruct (get32_Some 0 buf) as [? ->]; [lia|]. destruct (get32_Some 4 buf) as [? ->]; [lia|].
    destruct (get32_Some 8 buf) as [? ->]; [lia|]. destruct (get32_Some 12 buf) as [? ->]; [lia|].
    destruct (get32_Some 16 buf) as [? ->]; [lia|]. by eexists. }
  cbn [mbind option_bind]. by repeat case_match; do 2 eexists.
Qed.

(** One turn of the analyzer on a read whose packet is in order is defined. *)
Lemma sync_turn_ready r d :
  ready d → wf_rd r → read_ok r d = true →
  ∃ x, sync_turn can_open cfg cali r d = Some x
    ∧ match x with inl d' => ready d' | inr d' => ready d' ∧ _syncBusy (sync d') = false end.
Proof.
  intros R Hr H. unfold sync_turn, read_ok in *.
  destruct (getPacket_defined r (pkt d) (wfd_pkt _ (rdy_wf _ R)) Hr) as (pk & ps & E). rewrite E in H |- *.
  cbn [mbind option_bind]. destruct (getPacket_wf _ _ _ _ (wfd_pkt _ (rdy_wf _ R)) Hr E) as [Wp Hsz].
  pose proof (ready_pkt d ps R Wp) as R0. destruct pk as [b n|b n| |]; cbn [accepted] in Hsz.
  - assert (S : ∃ d1, (if _syncBusy (sync (set_pkt ps d)) then _syncReset_fail (set_pkt ps d) else Some (set_pkt ps d))
                      = Some d1 ∧ ready d1).
    { destruct (_syncBusy _); [|by eexists]. destruct (syncReset_fail_ready _ R0) as (d1 & E1 & R1 & _). by exists d1. }
    destruct S as (d1 & E1 & R1). change (sync (set_pkt ps d)) with (sync d) in E1 |- *. rewrite E1 in H |- *.
    cbn [mbind option_bind]. destruct (analyze_packet_ready b n d1 R1) as (d' & E' & R'); [by eapply Hsz|done|].
    rewrite E'. by exists (inl d').
  - change (sync (set_pkt ps d)) with (sync d). destruct (_syncBusy (sync d)); cbn [negb].
    + destruct (analyze_packet_ready b n _ R0) as (d' & E' & R'); [by eapply Hsz|done|]. rewrite E'. by exists (inl d').
    + eexists. split; [done|]. by apply ready_sent.
  - by exists (inl (set_pkt ps d)).
  - destruct (syncReset_fail_ready _ R0) as (d1 & -> & R1 & B1). by exists (inr d1).
Qed.

(** A step of the save task is always defined. *)
Lemma task_step_ready v :
  wf_ctl (ctl v) → task_ok v → ∃ v', task_step can_open cfg v = Some v' ∧ same_room (ctl v) (ctl v') ∧ task_ok v'.
Proof.
  intros W T. unfold task_step, task_ok in *. destruct (task v) as [| |id|id] eqn:Et.
  - by eexists.
  - exists v. by rewrite Et.
  - destruct (Z.ltb_spec id (Z.of_nat (partNum (ctl v)))) as [L|L]; [|by eexists].
    assert (R : in_range (ctl v) id) by done.
    destruct (ifHasDirty_defined _ _ W R) as [b ->]. cbn [mbind option_bind]. destruct b.
    + destruct (getData_defined _ _ W R) as [c E]. rewrite E. cbn [mbind option_bind]. eexists. split; [done|].
      pose proof (getData_room _ _ _ E) as S. split; [done|]. cbn [task ctl]. unfold in_range. by rewrite (proj1 S).
    + eexists. split; [done|]. split; [done|]. cbn. lia.
  - destruct (write_part_defined (ctl v) id (os v) W T) as (c & w & -> & S). cbn [mbind option_bind].
    eexists. split; [done|]. split; [done|]. cbn. unfold in_range in T. lia.
Qed.

Lemma task_ready d :
  ready d → ∃ v, task_step can_open cfg (nv d) = Some v ∧ ready (set_nv v d).
Proof.
  intros [W D T]. destruct (task_step_ready (nv d) (wfd_ctl _ W) T) as (v & E & S & T'). exists v. split; [done|].
  destruct (task_step_txn _ _ _ _ (wfd_ctl _ W) E) as (_ & Wc & Sh).
  destruct W as [W Ws P]. constructor; [|cbn; by rewrite (proj2 S)|done].
  constructor; [done|by eapply wf_sync_shape|done].
Qed.
End safe.
