(* ===== verification/NvServer.v ===== *)
(** * The NV daemon (ril/scx15/nvitemd/nvitem_server.c, nvitem_channe_spipe.c)

    [main] reads the configuration from the system properties, loads the
    partitions, starts the save task and serves one connection of the channel
    after the other.  [property_get] is a parameter (libcutils). *)

From Stdlib Require Import Ascii.
From stdpp Require Import gmap strings list.
From S2P Require Import Prelude NvFs NvBuf NvPacket NvSync NvSafe.

Local Open Scope string_scope.
Local Open Scope Z_scope.

Definition PRODUCT_PARTITION_PATH : string := "ro.product.partitionpath".
Definition RO_MODEM_CHAR : string := "ro.modem.".
Definition RO_MODEM_FIXNVSIZE : string := ".fixnv_size".
Definition RO_MODEM_RUNNVSIZE : string := ".runnv_size".
Definition RO_MODEM_NV_PATH : string := ".nvp".
Definition NV_TAIL : string := ".nv".

Definition strlen (s : string) : Z := Z.of_nat (String.length s).

(** ** [strtol] and [atoi] of the C library, with a 32-bit [long] *)

Definition is_space (c : ascii) : bool :=
  let n := Z.of_nat (Ascii.nat_of_ascii c) in (n =? 32) || ((9 <=? n) && (n <=? 13)).

Definition digit (base : Z) (c : ascii) : option Z :=
  let n := Z.of_nat (Ascii.nat_of_ascii c) in
  let v := if (48 <=? n) && (n <=? 57) then n - 48
           else if (97 <=? n) && (n <=? 122) then n - 87
           else if (65 <=? n) && (n <=? 90) then n - 55 else base in
  if v <? base then Some v else None.

Fixpoint digits (base acc : Z) (s : string) : Z :=
  match s with
  | String c t => match digit base c with Some v => digits base (base * acc + v) t | None => acc end
  | EmptyString => acc
  end.

Fixpoint skip_spaces (s : string) : string :=
  match s with String c t => if is_space c then skip_spaces t else s | EmptyString => s end.

(** The optional [0x] of base 16. *)
Definition skip_0x (s : string) : string :=
  match s with
  | String "0" (String x (String c _ as t)) =>
      if (Ascii.eqb x "x" || Ascii.eqb x "X") && bool_decide (is_Some (digit 16 c)) then t else s
  | _ => s
  end.

Definition take_sign (s : string) : bool * string :=
  match s with
  | String c t => if Ascii.eqb c "-" then (true, t) else if Ascii.eqb c "+" then (false, t) else (false, s)
  | EmptyString => (false, s)
  end.

Definition strtol (base : Z) (s : string) : Z :=
  let s := skip_spaces s in
  let '(neg, s) := take_sign s in
  let v := digits base 0 (if base =? 16 then skip_0x s else s) in
  let v := if (neg : bool) then - v else v in
  Z.max (- 2 ^ 31) (Z.min (2 ^ 31 - 1) v).

Definition atoi : string → Z := strtol 10.

(** ** [main] up to the creation of the save task *)

Record nv_globals := NvGlobals { g_paths : nv_paths; channel_path : string; is_cali_mode : bool }.

Section nvserver.
(** [property_get (key, value, default)]: the property, or the default. *)
Context (property_get : string → string → string).

(** The configuration for the arguments [argv1] and [argv2]; [None] where the code measures an
    uninitialised buffer.  The path globals start empty. *)
Definition main_config (argv1 argv2 : string) : option nv_globals :=
  if strlen RO_MODEM_CHAR + strlen argv1 <? 20 then
    let system_prop := RO_MODEM_CHAR +:+ argv1 in
    let channel_path := property_get (system_prop +:+ NV_TAIL) "" in
    let fixnv := property_get (system_prop +:+ RO_MODEM_FIXNVSIZE) "" in
    let runnv := property_get (system_prop +:+ RO_MODEM_RUNNVSIZE) "" in
    let fixnv_size := u32 (strtol 16 fixnv) in
    let runnv_size := u32 (strtol 16 runnv) in
    let partition_path := property_get PRODUCT_PARTITION_PATH "" in
    let path_char := property_get (system_prop +:+ RO_MODEM_NV_PATH) "" in
    let '(fixnv_ori, fixnv_bak) :=
      if strlen partition_path + strlen path_char + strlen "FIXNV1" <? 100
      then (partition_path +:+ path_char +:+ "FIXNV1", partition_path +:+ path_char +:+ "FIXNV2")
      else ("", "") in
    let '(runnv_ori, runnv_bak) :=
      if strlen partition_path + strlen path_char + strlen "RUNTIMENV1" <? 100
      then (partition_path +:+ path_char +:+ "RUNTIMENV1", partition_path +:+ path_char +:+ "RUNTIMENV2")
      else ("", "") in
    Some (NvGlobals (NvPaths fixnv_ori fixnv_bak runnv_ori runnv_bak fixnv_size runnv_size)
            channel_path (negb (u8 (atoi argv2) =? 0)))
  else None.

(** The retry loop of [channel_open] on the results of successive [open] calls; [None] while
    every one failed. *)
Fixpoint channel_open (opens : list bool) : option (list bool) :=
  match opens with
  | [] => None
  | true :: rest => Some rest
  | false :: rest => channel_open rest
  end.

Context (can_open : string → bool) (malloc : nat → bytes).

(** The statics before [main] runs. *)
Record nv_statics := NvStatics { st_ctl : _RAMNV_CTL; st_pkt : packet_ctl; st_sync : sync_ctl }.

(** [main] up to its service loop: the event, the buffers and the save task. *)
Definition main_boot (g : nv_globals) (s : nv_statics) (w : world) : option daemon :=
  '(c, w') ← initBuf can_open malloc (g_paths g) (st_ctl s) w;
  Some (Daemon (st_pkt s) (st_sync s) (NvState c w' SvIdle) []).

(** What [main] does between [channel_open] and [syncAnalyzer]. *)
Definition session_init (d : daemon) : daemon :=
  set_sync (_syncInit (sync d)) (set_pkt (_initPacket (pkt d)) d).

(** The service loop, one element per connection: the results of [open], then of [read]. *)
Fixpoint main_loop (g : nv_globals) (ss : list (list bool * list rd_result)) (d : daemon)
  : option daemon :=
  match ss with
  | [] => Some d
  | (opens, rs) :: rest =>
      match channel_open opens with
      | None => Some d
      | Some _ =>
          '(d', closed) ← syncAnalyzer can_open (ramDisk_Init (g_paths g)) (is_cali_mode g) rs (session_init d);
          if (closed : bool) then main_loop g rest d' else Some d'
      end
  end.

(** The threads of the daemon interleaved: a result of [read] handled by the analyzer, with the channel
    reopened when it returns, a step of the save task between two of its locks, and a spurious wake-up of the
    task from [pthread_cond_wait], which acts as [giveEvent] does.  [None] is undefined behaviour. *)
Inductive sys_event := EvRead (r : rd_result) | EvTask | EvWake.

Definition sys_step (g : nv_globals) (e : sys_event) (d : daemon) : option daemon :=
  match e with
  | EvRead r =>
      x ← sync_turn can_open (ramDisk_Init (g_paths g)) (is_cali_mode g) r d;
      Some (match x with inl d' => d' | inr d' => session_init d' end)
  | EvTask => v ← task_step can_open (ramDisk_Init (g_paths g)) (nv d); Some (set_nv v d)
  | EvWake => Some (set_nv (giveEvent (nv d)) d)
  end.

Fixpoint sys_run (g : nv_globals) (es : list sys_event) (d : daemon) : option daemon :=
  match es with
  | [] => Some d
  | e :: es' => d' ← sys_step g e d; sys_run g es' d'
  end.

Definition wf_event (e : sys_event) : Prop := match e with EvRead r => wf_rd r | _ => True end.

(** A read that the code may take out of its arrays: the size of its packet exceeds the packet buffer, or a BODY token
    that is due in it gives a range that is empty, or not inside the 1024 sectors of the dirty table, or not
    inside the partition's buffer. *)
Definition unchecked_read (g : nv_globals) (r : rd_result) (d : daemon) : Prop :=
  read_ok can_open (ramDisk_Init (g_paths g)) (is_cali_mode g) r d = false.

(** ** Configuration *)

Lemma strlen_app s t : strlen (s +:+ t) = strlen s + strlen t.
Proof.
  unfold strlen. induction s as [|a s IH]; [done|].
  change (String a s +:+ t) with (String a (s +:+ t)). simpl String.length. lia.
Qed.

Lemma main_config_fit argv1 argv2 g : main_config argv1 argv2 = Some g → paths_fit (g_paths g).
Proof.
  unfold main_config. bcase; [|done].
  destruct (_ <? _) eqn:E1; destruct (_ <? _) eqn:E2 in |- *; bsplit; intros [= <-];
    unfold paths_fit; cbn [g_paths fixnv_ori_path fixnv_bak_path runnv_ori_path runnv_bak_path];
    repeat match goal with
    | |- context [String.length (?a +:+ ?b +:+ ?c)] =>
        let H := fresh in
        pose proof (strlen_app a (b +:+ c)) as H; rewrite (strlen_app b c) in H; revert H;
        generalize (a +:+ b +:+ c)
    end; unfold strlen in *; simpl String.length in *; intros; lia.
Qed.

(** ** Booting *)

(** The statics as the loader leaves them. *)
Definition statics_ok (s : nv_statics) : Prop :=
  length (part (st_ctl s)) = RAMNV_NUM ∧ wf_pkt (st_pkt s)
  ∧ length (syncReqBuf (st_sync s)) = (PTR_SIZE * SYNC_REQ_SIZE)%nat
  ∧ _syncState (st_sync s) = 0 ∧ _syncBusy (st_sync s) = false ∧ _ofst (st_sync s) = 0
  ∧ _len (st_sync s) = 0.

Lemma take_image (p : _RAMNV_PART_CTRL) size im b :
  boot_image p size im → image_bytes p = Z.to_nat size → diskbuf b = diskbuf (fromChannel p) →
  image p b = im.
Proof. intros (H & _ & _) E1 E2. unfold image. by rewrite E1, E2. Qed.

Lemma length_take_le_eq {A} n (l : list A) (m : nat) : length (take n l) = m → (m <= n)%nat.
Proof. rewrite length_take. lia. Qed.

Lemma main_boot_ok argv1 argv2 g s w :
  (∀ n, length (malloc n) = n) → statics_ok s → main_config argv1 argv2 = Some g →
  ∃ d, main_boot g s w = Some d ∧ wf_daemon d ∧ partNum (ctl (nv d)) = 2%nat.
Proof.
  intros HM (HL & HP & HT & H0 & Hb & Ho & Hln) Hg.
  assert (Hsz : 0 <= fixnv_size (g_paths g) < 2 ^ 32 ∧ 0 <= runnv_size (g_paths g) < 2 ^ 32).
  { revert Hg. unfold main_config. bcase; [|done].
    destruct (_ <? 100), (_ <? 100) in |- *; intros [= <-]; split; apply u32_range. }
  destruct (initBuf_registers can_open malloc (g_paths g) (st_ctl s) w HM)
    as (c & w1 & w2 & p1 & p2 & im1 & im2 & E & W & N & _); [by eapply main_config_fit|done|apply Hsz..|].
  unfold main_boot. rewrite E. cbn [mbind option_bind]. eexists. split_and!; [done| |done].
  constructor; [done| |done]. constructor; cbn; auto; [by intros []|lia].
Qed.

(** ** The running daemon *)

Lemma session_init_good d : wf_daemon d → _syncBusy (sync d) = false → good d (session_init d).
Proof.
  intros [Wc [] P] Hb. split; [|done]. constructor; [done| |done]. by apply wf_syncInit.
Qed.

Lemma sys_step_good g e d d' : wf_daemon d → wf_event e → sys_step g e d = Some d' → good d d'.
Proof.
  intros W We H. destruct e as [r| |]; cbn [sys_step wf_event] in *; binv H; simplify_eq.
  - pose proof (sync_turn_good _ _ _ _ _ _ W We E) as G. destruct x as [d1|d1]; [done|]. destruct G as [G Hb].
    eapply good_trans; [exact G|]. apply session_init_good; [apply G|done].
  - destruct (task_step_txn _ _ _ _ (wfd_ctl _ W) E) as (T & Wc & S).
    destruct W as [W Ws P]. split; [|cbn; by rewrite T].
    constructor; [done|by eapply wf_sync_shape|done].
  - destruct W. unfold giveEvent. by destruct (task (nv d)).
Qed.

Lemma sys_run_good g es d d' : wf_daemon d → Forall wf_event es → sys_run g es d = Some d' → good d d'.
Proof.
  intros W Hes. revert d W. induction Hes as [|e es He _ IH]; intros d W H; cbn [sys_run] in H.
  - simplify_eq. by apply good_refl.
  - binv H. pose proof (sys_step_good _ _ _ _ W He E) as G. eapply good_trans; [exact G|]. apply IH; [apply G|done].
Qed.

Lemma session_init_ready d : ready d → _syncBusy (sync d) = false → ready (session_init d).
Proof.
  intros R Hb. destruct (session_init_good d (rdy_wf _ R) Hb) as [W _]. constructor; [done|done|apply R].
Qed.

Lemma sys_step_ready g e d :
  ready d → wf_event e → match e with EvRead r => ¬ unchecked_read g r d | _ => True end →
  ∃ d', sys_step g e d = Some d' ∧ ready d'.
Proof.
  intros R We H. destruct e as [r| |]; cbn [sys_step wf_event] in *.
  - apply not_false_iff_true in H. destruct (sync_turn_ready _ _ _ r d R We H) as (x & -> & X).
    cbn [mbind option_bind]. eexists. split; [done|]. destruct x; [done|]. apply session_init_ready; apply X.
  - destruct (task_ready can_open (ramDisk_Init (g_paths g)) d R) as (v & -> & Rv). by eexists.
  - eexists. split; [done|]. destruct R as [[W S P] D T]. unfold giveEvent in *.
    destruct (task (nv d)) eqn:Et; constructor; try done; by constructor.
Qed.

(** A run leaves the defined behaviour by an unchecked read only. *)
Lemma sys_run_undefined g es d :
  ready d → Forall wf_event es → sys_run g es d = None →
  ∃ pre r post d1, es = (pre ++ EvRead r :: post)%list ∧ sys_run g pre d = Some d1 ∧ unchecked_read g r d1.
Proof.
  intros R Hes. revert d R. induction Hes as [|e es He _ IH]; intros d R H; [done|]. cbn [sys_run] in H.
  assert (D : (∃ r, e = EvRead r ∧ unchecked_read g r d)
              ∨ match e with EvRead r => ¬ unchecked_read g r d | _ => True end).
  { destruct e as [r| |]; [|right; exact I..]. unfold unchecked_read.
    destruct (read_ok _ _ _ r d) eqn:E; [right; congruence|left; by exists r]. }
  destruct D as [(r & -> & U)|D]; [by exists [], r, es, d|].
  destruct (sys_step_ready g e d R He D) as (d' & E & R'). rewrite E in H. cbn [mbind option_bind] in H.
  destruct (IH d' R' H) as (pre & r & post & d1 & -> & Hp & U). exists (e :: pre), r, post, d1.
  split; [done|]. split; [|done]. cbn [sys_run]. by rewrite E.
Qed.

(** C9. The daemon is safe against everything but the ranges and sizes it does not check.  It boots from any
    configuration and disk.  Then, for every sequence of reads from the channel, reopened connections, steps of the save task and
    spurious wake-ups of it: while the run is defined, the table is well formed, the analyzer's invariant holds, and the
    images of the two partitions come from those loaded at boot by writes to the working image, whole commits and
    whole roll-backs; and a run that leaves the defined behaviour of C has a read in it that is at fault, whose packet is
    larger than the packet buffer or has a BODY token with a range outside the partition. *)
Theorem nvitemd_safe argv1 argv2 g s w :
  (∀ n, length (malloc n) = n) → statics_ok s → main_config argv1 argv2 = Some g →
  ∃ d, main_boot g s w = Some d ∧ wf_daemon d ∧ partNum (ctl (nv d)) = 2%nat
    ∧ ∀ es, Forall wf_event es →
        match sys_run g es (session_init d) with
        | Some d' => wf_daemon d' ∧ rtc txn_step (txn (ctl (nv d))) (txn (ctl (nv d')))
        | None => ∃ pre r post d1, es = (pre ++ EvRead r :: post)%list
            ∧ sys_run g pre (session_init d) = Some d1 ∧ unchecked_read g r d1
        end.
Proof.
  intros HM Hs Hg. destruct (main_boot_ok argv1 argv2 g s w HM Hs Hg) as (d & E & W & N).
  exists d. split_and!; [done|done|done|]. unfold main_boot in E. binv E. destruct x. simplify_eq.
  destruct Hs as (_ & _ & _ & S0 & Sb & _). set (d := Daemon _ _ _ _) in *.
  destruct (session_init_good d W Sb) as [W0 T0].
  assert (R0 : ready (session_init d)) by (apply session_init_ready; [by constructor; [|cbn; rewrite S0|]|done]).
  intros es Hes. destruct (sys_run g es (session_init d)) as [d'|] eqn:Er.
  - destruct (sys_run_good _ _ _ _ W0 Hes Er) as [W' T']. split; [done|]. by etrans.
  - by apply sys_run_undefined.
Qed.

(** The service loop is safe too: every connection is a run of those steps. *)
Lemma main_loop_safe g ss d d' :
  wf_daemon d → _syncBusy (sync d) = false → Forall (λ s, Forall wf_rd s.2) ss →
  main_loop g ss d = Some d' →
  wf_daemon d' ∧ rtc txn_step (txn (ctl (nv d))) (txn (ctl (nv d'))).
Proof.
  intros W Hb Hss. revert d W Hb. induction Hss as [|[opens rs] ss Hs Hss IH]; intros d W Hb H; simpl in H.
  - by simplify_eq.
  - destruct (channel_open opens) as [o|]; [|by simplify_eq].
    binv H. destruct x as [d1 closed].
    destruct (session_init_good d W Hb) as [W0 T0].
    destruct (syncAnalyzer_refines _ _ _ _ _ _ _ W0 Hs E) as (W1 & T1 & B1). destruct closed.
    + destruct (IH _ W1 (B1 eq_refl) H) as [W2 T2]. split; [done|]. etrans; [|exact T2]. by etrans.
    + simplify_eq. split; [done|by etrans].
Qed.
End nvserver.

(** ** Numbers in the properties *)

Definition hex_digit (v : Z) : ascii := Ascii.ascii_of_nat (Z.to_nat (if v <? 10 then 48 + v else 87 + v)).
Definition hex_string (ds : list Z) : string := foldr (λ v s, String (hex_digit v) s) "" ds.
Definition hex_value (ds : list Z) : Z := foldl (λ acc v, 16 * acc + v) 0 ds.

Lemma digit_hex v : 0 <= v < 16 → digit 16 (hex_digit v) = Some v.
Proof.
  intros H. assert (E : v = 0 ∨ v = 1 ∨ v = 2 ∨ v = 3 ∨ v = 4 ∨ v = 5 ∨ v = 6 ∨ v = 7 ∨ v = 8 ∨ v = 9
    ∨ v = 10 ∨ v = 11 ∨ v = 12 ∨ v = 13 ∨ v = 14 ∨ v = 15) by lia.
  repeat destruct E as [->|E]; try reflexivity. subst. reflexivity.
Qed.

Lemma digits_hex ds acc : Forall (λ v, 0 <= v < 16) ds →
  digits 16 acc (hex_string ds) = foldl (λ acc v, 16 * acc + v) acc ds.
Proof.
  intros H. revert acc. induction H as [|v ds Hv _ IH]; intros acc; [done|].
  cbn [hex_string foldr digits]. rewrite digit_hex by done. apply IH.
Qed.

Lemma hex_digit_plain v : 0 <= v < 16 →
  is_space (hex_digit v) = false ∧ hex_digit v ≠ "-"%char ∧ hex_digit v ≠ "+"%char
  ∧ hex_digit v ≠ "x"%char ∧ hex_digit v ≠ "X"%char.
Proof.
  intros H. assert (E : v = 0 ∨ v = 1 ∨ v = 2 ∨ v = 3 ∨ v = 4 ∨ v = 5 ∨ v = 6 ∨ v = 7 ∨ v = 8 ∨ v = 9
    ∨ v = 10 ∨ v = 11 ∨ v = 12 ∨ v = 13 ∨ v = 14 ∨ v = 15) by lia.
  repeat destruct E as [->|E]; try (split_and!; done). subst. split_and!; done.
Qed.

Lemma skip_hex ds : Forall (λ v, 0 <= v < 16) ds →
  skip_spaces (hex_string ds) = hex_string ds ∧ skip_0x (hex_string ds) = hex_string ds.
Proof.
  intros H. destruct H as [|v ds Hv H]; [done|]. destruct (hex_digit_plain v Hv) as (S & _).
  split; [cbn; by rewrite S|].
  destruct H as [|v' ds Hv' H]; cbn [hex_string foldr]; unfold skip_0x.
  - by repeat case_match.
  - destruct (hex_digit_plain v' Hv') as (_ & _ & _ & X1 & X2).
    apply Ascii.eqb_neq in X1, X2. rewrite X1, X2. by repeat case_match.
Qed.

Lemma hex_value_nonneg ds acc : Forall (λ v, 0 <= v < 16) ds → 0 <= acc →
  0 <= foldl (λ acc v, 16 * acc + v) acc ds.
Proof. intros H. revert acc. induction H; intros acc Ha; simpl; [done|]. apply IHForall. lia. Qed.

(** The partition sizes of the configuration: a property that holds a hexadecimal number,
    with or without [0x], configures exactly that size below 2 GiB and 0x7fffffff from there
    on (the 32-bit [strtol] saturates). *)
Theorem strtol_hex_roundtrip v ds :
  Forall (λ v, 0 <= v < 16) (v :: ds) →
  strtol 16 (hex_string (v :: ds)) = Z.min (2 ^ 31 - 1) (hex_value (v :: ds))
  ∧ strtol 16 ("0x" +:+ hex_string (v :: ds)) = Z.min (2 ^ 31 - 1) (hex_value (v :: ds)).
Proof.
  intros H. pose proof (hex_value_nonneg _ 0 H ltac:(lia)) as Hn. fold (hex_value (v :: ds)) in Hn.
  destruct (skip_hex _ H) as [S1 S2]. inversion H as [|? ? Hv Hds]; subst x l.
  destruct (hex_digit_plain v Hv) as (_ & M & P & _).
  assert (D : digits 16 0 (hex_string (v :: ds)) = hex_value (v :: ds)) by by apply digits_hex.
  split; unfold strtol.
  - rewrite S1. cbn [hex_string foldr take_sign].
    apply Ascii.eqb_neq in M, P. rewrite M, P. change (16 =? 16) with true. cbv iota.
    change (String (hex_digit v) _) with (hex_string (v :: ds)). rewrite S2, D. lia.
  - change ("0x" +:+ hex_string (v :: ds)) with (String "0" (String "x" (hex_string (v :: ds)))).
    cbn [skip_spaces]. change (is_space "0") with false. cbv iota. cbn [take_sign].
    change (Ascii.eqb "0" "-") with false. change (Ascii.eqb "0" "+") with false.
    change (16 =? 16) with true. cbv iota.
    cbn [skip_0x hex_string foldr]. fold (hex_string ds). change ("x" =? "x")%char with true.
    rewrite digit_hex, bool_decide_true by (done || by eexists). cbn [andb orb].
    change (String (hex_digit v) (hex_string ds)) with (hex_string (v :: ds)). rewrite D. lia.
Qed.

(** ** Witnesses *)

Definition ex_props (key default : string) : string :=
  if String.eqb key "ro.modem.t.fixnv_size" then "0x200"
  else if String.eqb key "ro.modem.t.runnv_size" then "400"
  else if String.eqb key PRODUCT_PARTITION_PATH then "/dev/"
  else if String.eqb key "ro.modem.t.nvp" then "td_" else default.

Definition ex_statics : nv_statics :=
  NvStatics (NvCtl 0 (replicate 15 (ex_pc (ex_buf 0 0) (ex_buf 0 0) (ex_buf 0 0)))) ex_pkt (ex_sync 0 0 false).

Definition ex_globals : nv_globals :=
  NvGlobals (NvPaths "/dev/td_FIXNV1" "/dev/td_FIXNV2" "/dev/td_RUNTIMENV1" "/dev/td_RUNTIMENV2" 512 1024)
    "" true.

Lemma ex_config : main_config ex_props "t" "1" = Some ex_globals.
Proof. vm_compute. reflexivity. Qed.

Lemma nvitemd_safe_witness :
  ∃ d, main_boot ex_all (λ n, replicate n 0) ex_globals ex_statics (ex_world 0) = Some d
    ∧ wf_daemon d ∧ partNum (ctl (nv d)) = 2%nat
    ∧ ∀ es, Forall wf_event es →
        match sys_run ex_all ex_globals es (session_init d) with
        | Some d' => wf_daemon d' ∧ rtc txn_step (txn (ctl (nv d))) (txn (ctl (nv d')))
        | None => ∃ pre r post d1, es = (pre ++ EvRead r :: post)%list
            ∧ sys_run ex_all ex_globals pre (session_init d) = Some d1 ∧ unchecked_read ex_all ex_globals r d1
        end.
Proof.
  apply (nvitemd_safe ex_props ex_all (λ n, replicate n 0) "t" "1" ex_globals ex_statics (ex_world 0)).
  - intros n. apply length_replicate.
  - split_and!; try done. split; [done|]. apply Forall_replicate. unfold is_u8. lia.
  - exact ex_config.
Defined.

(** Both outcomes happen: a request for the first partition is served and committed, with the save task running in
    between, and the same request for sectors 1000 to 1024 leaves the defined behaviour at its first packet. *)
Definition ex_boot : option daemon := session_init <$> main_boot ex_all (λ n, replicate n 0) ex_globals ex_statics (ex_world 0).
Definition ex_events (sct n : Z) : list sys_event :=
  EvTask :: EvTask :: map EvRead (packets 5 0 (req_payloads 3 1 0 0 0 0 0 0 sct n ex_chunk ex_chunks)).

Example ex_served :
  (d ← ex_boot; d' ← sys_run ex_all ex_globals (ex_events 0 1) d; p ← part (ctl (nv d')) !! 0%nat; Some (image p (backup p)))
  = Some (concat (ex_chunk :: ex_chunks)).
Proof. vm_compute. reflexivity. Qed.

Example ex_out_of_range : (d ← ex_boot; sys_run ex_all ex_globals (ex_events 1000 25) d) = None.
Proof. vm_compute. reflexivity. Qed.

Lemma strtol_hex_roundtrip_witness :
  strtol 16 "20000" = Z.min (2 ^ 31 - 1) 0x20000 ∧ strtol 16 "0x20000" = Z.min (2 ^ 31 - 1) 0x20000.
Proof. apply (strtol_hex_roundtrip 2 [0; 0; 0; 0]). repeat constructor; lia. Defined.
