(* ===== verification/CmrMsg.v ===== *)
(** * The camera message queue (libcamera/sc8830/src/cmr_msg.c)

    A queue is a ring of [msg_count] cells with a count, a semaphore and a
    mutex.  A handle is [None] for 0, a message pointer [None] for NULL.  Each
    operation is given as the steps between its synchronisation points, then
    composed the way a thread that runs alone executes it, and interleaved with
    the operations of other threads by [sys_step]. *)

From stdpp Require Import list relations.
From S2P Require Import Prelude.

Definition CMR_MSG_MAGIC_CODE : Z := 0xEFFEA55A.
Definition CMR_MSG_POLLING_PERIOD : Z := 200000000.

Definition CMR_MSG_SUCCESS : Z := 0.
Definition CMR_MSG_PARAM_ERR : Z := 1.
Definition CMR_MSG_INVALID_HANDLE : Z := 2.
Definition CMR_MSG_NO_OTHER_MSG : Z := 3.
Definition CMR_MSG_NO_MEM : Z := 4.
Definition CMR_MSG_OVERFLOW : Z := 5.
Definition CMR_MSG_UNDERFLOW : Z := 6.

Record cmr_msg := CmrMsgRec { msg_type : Z; sub_msg_type : Z; data : Z; alloc_flag : Z }.
Definition msg_zero : cmr_msg := CmrMsgRec 0 0 0 0.

(** [msg_write] and [msg_read] are the indices of the pointers from [msg_head]; [mutex] tells
    whether the mutex is held. *)
Record cmr_msg_cxt := Cxt {
  mutex : bool; msg_sem : Z; msg_count : Z; msg_number : Z; msg_magic : Z;
  msg_head : list cmr_msg; msg_write : nat; msg_read : nat }.

Definition set_mutex (b : bool) (q : cmr_msg_cxt) : cmr_msg_cxt :=
  Cxt b (msg_sem q) (msg_count q) (msg_number q) (msg_magic q) (msg_head q) (msg_write q) (msg_read q).
Definition add_sem (k : Z) (q : cmr_msg_cxt) : cmr_msg_cxt :=
  Cxt (mutex q) (msg_sem q + k) (msg_count q) (msg_number q) (msg_magic q) (msg_head q) (msg_write q) (msg_read q).

(** [p++; if (p > msg_head + msg_count - 1) p = msg_head;] *)
Definition advance (q : cmr_msg_cxt) (p : nat) : nat :=
  if msg_count q - 1 <? Z.of_nat (S p) then O else S p.

(** [cmr_msg_queue_create]: the outcome of the two allocations, the second with the unspecified
    contents of the cells; the result code, and the new queue. *)
Definition cmr_msg_queue_create (count : Z) (cxt_ok : bool) (cells : option (list cmr_msg))
  : Z * option cmr_msg_cxt :=
  if 0 =? count then (- CMR_MSG_PARAM_ERR, None)
  else if negb cxt_ok then (- CMR_MSG_NO_MEM, None)
  else match cells with
       | None => (- CMR_MSG_NO_MEM, None)
       | Some cells => (CMR_MSG_SUCCESS, Some (Cxt false 0 count 0 CMR_MSG_MAGIC_CODE cells 0 0))
       end.

(** The checks on the arguments that open every operation: an error code, or go on. *)
Definition check_args (handle : option cmr_msg_cxt) (message : bool) : Z + cmr_msg_cxt :=
  match handle with
  | None => inl (- CMR_MSG_PARAM_ERR)
  | Some q =>
      if negb message then inl (- CMR_MSG_PARAM_ERR)
      else if negb (msg_magic q =? CMR_MSG_MAGIC_CODE) then inl CMR_MSG_INVALID_HANDLE
      else inr q
  end.

(** [cmr_msg_get] and [cmr_msg_timedget] from the lock to the unlock: the result code, the
    message stored through the pointer, and the queue; [None] is an access outside the ring. *)
Definition get_locked (q : cmr_msg_cxt) : option (Z * option cmr_msg * cmr_msg_cxt) :=
  if msg_number q =? 0 then Some (CMR_MSG_UNDERFLOW, None, q)
  else if negb (msg_read q =? msg_write q)%nat then
    m ← msg_head q !! msg_read q;
    cells ← store (msg_read q) msg_zero (msg_head q);
    Some (CMR_MSG_SUCCESS, Some m,
      Cxt (mutex q) (msg_sem q) (msg_count q) (u32 (msg_number q - 1)) (msg_magic q) cells
        (msg_write q) (advance q (msg_read q)))
  else
    Some (CMR_MSG_SUCCESS, None,
      Cxt (mutex q) (msg_sem q) (msg_count q) (u32 (msg_number q - 1)) (msg_magic q) (msg_head q)
        (msg_write q) (msg_read q)).

(** [cmr_msg_post] from the lock to the unlock; [ori_node] was read before the lock. *)
Definition post_locked (message : cmr_msg) (ori_node : nat) (q : cmr_msg_cxt)
  : option (Z * cmr_msg_cxt) :=
  if msg_count q <=? u32 (msg_number q + 1) then Some (CMR_MSG_OVERFLOW, q)
  else
    cells ← store (msg_write q) message (msg_head q);
    let w := advance q (msg_write q) in
    let w := if (w =? msg_read q)%nat then ori_node else w in
    Some (CMR_MSG_SUCCESS,
      Cxt (mutex q) (msg_sem q) (msg_count q) (u32 (msg_number q + 1)) (msg_magic q) cells w (msg_read q)).

(** [cmr_msg_peak] from the lock on; the branch without a message returns with the mutex held. *)
Definition peak_locked (q : cmr_msg_cxt) : option (Z * option cmr_msg * cmr_msg_cxt) :=
  let q := set_mutex true q in
  if negb (msg_read q =? msg_write q)%nat then
    m ← msg_head q !! msg_read q;
    Some (CMR_MSG_SUCCESS, Some m,
      Cxt false (msg_sem q) (msg_count q) (u32 (msg_number q - 1)) (msg_magic q) (msg_head q)
        (msg_write q) (advance q (msg_read q)))
  else Some (- CMR_MSG_NO_OTHER_MSG, None, q).

(** ** The operations of a thread that runs alone *)

Inductive outcome :=
  | Blocked
  | Done (ret : Z) (message : option cmr_msg) (q : option cmr_msg_cxt).

Definition cmr_msg_get (handle : option cmr_msg_cxt) (message : bool) : option outcome :=
  match check_args handle message with
  | inl r => Some (Done r None handle)
  | inr q =>
      if msg_sem q <=? 0 then Some Blocked
      else if mutex q then Some Blocked
      else '(r, m, q) ← get_locked (add_sem (-1) q); Some (Done r m (Some q))
  end.

(** The deadline of [cmr_msg_timedget] for the time it read; [None] is a parameter error. *)
Definition timed_deadline (tv_sec tv_nsec : Z) : option (Z * Z) :=
  if (tv_sec <? 0) || (tv_nsec <? 0) || (1000000000 <=? tv_nsec) then None
  else
    let tv_nsec := tv_nsec + CMR_MSG_POLLING_PERIOD in
    if 1000000000 <? tv_nsec then Some (tv_sec + 1, tv_nsec - 1000000000) else Some (tv_sec, tv_nsec).

(** [cmr_msg_timedget]: with no message and no other thread, [sem_timedwait] fails, at the
    deadline or at once when the deadline is not a valid time. *)
Definition cmr_msg_timedget (handle : option cmr_msg_cxt) (message : bool) (now : Z * Z) : option outcome :=
  match check_args handle message with
  | inl r => Some (Done r None handle)
  | inr q =>
      match timed_deadline now.1 now.2 with
      | None => Some (Done (- CMR_MSG_PARAM_ERR) None handle)
      | Some _ =>
          if msg_sem q <=? 0 then Some (Done CMR_MSG_NO_OTHER_MSG None handle)
          else if mutex q then Some Blocked
          else '(r, m, q) ← get_locked (add_sem (-1) q); Some (Done r m (Some q))
      end
  end.

Definition cmr_msg_post (handle : option cmr_msg_cxt) (message : option cmr_msg) : option outcome :=
  match check_args handle (bool_decide (is_Some message)), message with
  | inl r, _ => Some (Done r None handle)
  | inr q, Some m =>
      if mutex q then Some Blocked
      else
        '(r, q) ← post_locked m (msg_write q) q;
        Some (Done r None (Some (if r =? CMR_MSG_SUCCESS then add_sem 1 q else q)))
  | inr q, None => None
  end.

Definition cmr_msg_peak (handle : option cmr_msg_cxt) (message : bool) : option outcome :=
  match check_args handle message with
  | inl r => Some (Done r None handle)
  | inr q =>
      if msg_sem q <=? 0 then Some (Done (- CMR_MSG_NO_OTHER_MSG) None handle)
      else if mutex q then Some Blocked
      else '(r, m, q) ← peak_locked (add_sem (-1) q); Some (Done r m (Some q))
  end.

(** [cmr_msg_queue_destroy]: the memory is gone on success. *)
Definition cmr_msg_queue_destroy (handle : option cmr_msg_cxt) : outcome :=
  match check_args handle true with
  | inl r => Done r None handle
  | inr _ => Done CMR_MSG_SUCCESS None None
  end.

(** ** Threads *)

(** Where a thread is in an operation. *)
Inductive pc :=
  | Idle
  | GetWait                              (* before [sem_wait] / [sem_timedwait] *)
  | GetLock                              (* after it, before the lock *)
  | PeakLock
  | PostLock (m : cmr_msg) (ori : nat)   (* [ori_node] read, before the lock *)
  | PostSem.                             (* unlocked, before [sem_post] *)

#[export] Instance cmr_msg_eq_dec : EqDecision cmr_msg.
Proof. solve_decision. Defined.
#[export] Instance pc_eq_dec : EqDecision pc.
Proof. solve_decision. Defined.

Record system := System {
  queue : cmr_msg_cxt; threads : list pc; posted : list cmr_msg; received : list cmr_msg }.

Definition opt_list {A} (o : option A) : list A := match o with Some x => [x] | None => [] end.

Inductive sys_step : system → system → Prop :=
  | st_get i q ts ps rs :
      ts !! i = Some Idle → sys_step (System q ts ps rs) (System q (<[i := GetWait]> ts) ps rs)
  | st_sem i q ts ps rs :
      ts !! i = Some GetWait → 0 < msg_sem q →
      sys_step (System q ts ps rs) (System (add_sem (-1) q) (<[i := GetLock]> ts) ps rs)
  | st_timeout i q ts ps rs :
      ts !! i = Some GetWait → sys_step (System q ts ps rs) (System q (<[i := Idle]> ts) ps rs)
  | st_get_locked i q ts ps rs r m q' :
      ts !! i = Some GetLock → mutex q = false → get_locked q = Some (r, m, q') →
      sys_step (System q ts ps rs) (System q' (<[i := Idle]> ts) ps (rs ++ opt_list m))
  | st_post i q ts ps rs m :
      ts !! i = Some Idle →
      sys_step (System q ts ps rs) (System q (<[i := PostLock m (msg_write q)]> ts) ps rs)
  | st_post_locked i q ts ps rs m ori r q' :
      ts !! i = Some (PostLock m ori) → mutex q = false → post_locked m ori q = Some (r, q') →
      sys_step (System q ts ps rs)
        (if r =? CMR_MSG_SUCCESS then System q' (<[i := PostSem]> ts) (ps ++ [m]) rs
         else System q' (<[i := Idle]> ts) ps rs)
  | st_post_sem i q ts ps rs :
      ts !! i = Some PostSem → sys_step (System q ts ps rs) (System (add_sem 1 q) (<[i := Idle]> ts) ps rs)
  | st_peak i q ts ps rs :
      ts !! i = Some Idle → 0 < msg_sem q →
      sys_step (System q ts ps rs) (System (add_sem (-1) q) (<[i := PeakLock]> ts) ps rs)
  | st_peak_locked i q ts ps rs r m q' :
      ts !! i = Some PeakLock → mutex q = false → peak_locked q = Some (r, m, q') →
      sys_step (System q ts ps rs) (System q' (<[i := Idle]> ts) ps (rs ++ opt_list m)).

(** ** The ring as a FIFO *)

Definition ring_nth (q : cmr_msg_cxt) (k : nat) : cmr_msg :=
  default msg_zero (msg_head q !! ((msg_read q + k) mod Z.to_nat (msg_count q))%nat).

(** The messages in the queue, oldest first. *)
Definition contents (q : cmr_msg_cxt) : list cmr_msg := ring_nth q <$> seq 0 (Z.to_nat (msg_number q)).

Record wf_queue (q : cmr_msg_cxt) : Prop := {
  wq_count : 0 < msg_count q < 2 ^ 32;
  wq_cells : length (msg_head q) = Z.to_nat (msg_count q);
  wq_read : (msg_read q < Z.to_nat (msg_count q))%nat;
  wq_number : 0 <= msg_number q < msg_count q;
  wq_write : msg_write q = ((msg_read q + Z.to_nat (msg_number q)) mod Z.to_nat (msg_count q))%nat;
  wq_magic : msg_magic q = CMR_MSG_MAGIC_CODE;
  wq_mutex : mutex q = false }.

Lemma advance_mod q p : 0 < msg_count q → (p < Z.to_nat (msg_count q))%nat →
  advance q p = (S p mod Z.to_nat (msg_count q))%nat.
Proof.
  intros Hc Hp. unfold advance. destruct (Z.ltb_spec (msg_count q - 1) (Z.of_nat (S p))).
  - assert (S p = Z.to_nat (msg_count q)) as -> by lia. by rewrite Nat.Div0.mod_same.
  - rewrite Nat.mod_small by lia. done.
Qed.

(** Two offsets below the size of the ring name different cells. *)
Lemma ring_inj n r j k : (j < n)%nat → (k < n)%nat → ((r + j) mod n = (r + k) mod n)%nat → j = k.
Proof.
  intros Hj Hk E. assert (Hn : (n ≠ 0)%nat) by lia.
  pose proof (Nat.div_mod (r + j) n Hn) as E1. pose proof (Nat.div_mod (r + k) n Hn) as E2.
  rewrite E in E1. remember ((r + k) mod n)%nat as x. remember ((r + j) / n)%nat as a.
  remember ((r + k) / n)%nat as b. assert (a = b) by nia. lia.
Qed.

Lemma empty_iff q : wf_queue q → msg_read q = msg_write q ↔ msg_number q = 0.
Proof.
  intros [Hc _ Hr Hn Hw _ _]. rewrite Hw. split.
  - intros E. rewrite <- (Nat.mod_small (msg_read q) (Z.to_nat (msg_count q))) in E at 1 by done.
    rewrite <- (Nat.add_0_r (msg_read q)) in E at 1. apply ring_inj in E; lia.
  - intros ->. rewrite Nat.add_0_r. by rewrite Nat.mod_small.
Qed.

Lemma contents_length q : length (contents q) = Z.to_nat (msg_number q).
Proof. unfold contents. by rewrite length_fmap, length_seq. Qed.

(** Only the count matters to the ring, not the semaphore and the mutex. *)
Lemma contents_add_sem k q : contents (add_sem k q) = contents q.
Proof. done. Qed.

Lemma wf_add_sem k q : wf_queue q → wf_queue (add_sem k q).
Proof. by intros []. Qed.

Lemma ring_nth_shift q k :
  (msg_read q < Z.to_nat (msg_count q))%nat →
  default msg_zero (msg_head q !!
    (((S (msg_read q) mod Z.to_nat (msg_count q)) + k) mod Z.to_nat (msg_count q))%nat)
  = ring_nth q (S k).
Proof.
  intros H. unfold ring_nth. rewrite Nat.Div0.add_mod_idemp_l. do 3 f_equal. lia.
Qed.

Lemma wf_take q cells :
  wf_queue q → 0 < msg_number q → length cells = length (msg_head q) →
  wf_queue (Cxt false (msg_sem q) (msg_count q) (u32 (msg_number q - 1)) (msg_magic q) cells
              (msg_write q) (advance q (msg_read q))).
Proof.
  intros [Hc Hl Hr Hn Hw Hm _] H0 Hcl. rewrite u32_id by (unfold is_u32; lia).
  rewrite advance_mod by (done || lia).
  constructor; cbn; try done; [congruence|apply Nat.mod_upper_bound; lia|lia|].
  rewrite Hw, Nat.Div0.add_mod_idemp_l. f_equal. lia.
Qed.

(** The queue after its oldest message was taken, whatever was left in that cell. *)
Lemma contents_take q x :
  wf_queue q → 0 < msg_number q →
  contents (Cxt false (msg_sem q) (msg_count q) (u32 (msg_number q - 1)) (msg_magic q)
              (<[msg_read q := x]> (msg_head q)) (msg_write q) (advance q (msg_read q)))
  = tail (contents q).
Proof.
  intros [Hc Hl Hr Hn Hw Hm _] H0. unfold contents. cbn [msg_number].
  rewrite u32_id by (unfold is_u32; lia).
  destruct (Z.to_nat (msg_number q)) as [|n] eqn:En; [lia|].
  replace (Z.to_nat (msg_number q - 1)) with n by lia. cbn [seq fmap list_fmap tail].
  rewrite <- fmap_S_seq, <- list_fmap_compose. apply list_fmap_ext. intros _ k Hk%list_elem_of_lookup_2.
  rewrite elem_of_seq in Hk. unfold ring_nth at 1. cbn [msg_head msg_read msg_count].
  rewrite advance_mod by (done || lia). rewrite list_lookup_insert_ne; [by apply ring_nth_shift|].
  rewrite Nat.Div0.add_mod_idemp_l. intros E.
  rewrite <- (Nat.mod_small (msg_read q) (Z.to_nat (msg_count q))) in E at 1 by done.
  rewrite <- (Nat.add_0_r (msg_read q)) in E at 1.
  replace (S (msg_read q) + k)%nat with (msg_read q + S k)%nat in E by lia.
  apply ring_inj in E; lia.
Qed.

Lemma contents_head q :
  wf_queue q → 0 < msg_number q →
  ∃ m, msg_head q !! msg_read q = Some m ∧ contents q = m :: tail (contents q).
Proof.
  intros [Hc Hl Hr Hn Hw Hm _] H0.
  destruct (lookup_lt_is_Some_2 (msg_head q) (msg_read q)) as [m E]; [lia|]. exists m. split; [done|].
  unfold contents. destruct (Z.to_nat (msg_number q)) as [|n] eqn:En; [lia|].
  cbn. f_equal. unfold ring_nth. by rewrite Nat.add_0_r, Nat.mod_small, E by done.
Qed.

Lemma get_locked_ok q :
  wf_queue q → 0 < msg_number q →
  ∃ m q', get_locked q = Some (CMR_MSG_SUCCESS, Some m, q') ∧ wf_queue q'
    ∧ contents q = m :: contents q' ∧ msg_number q' = msg_number q - 1 ∧ msg_sem q' = msg_sem q
    ∧ msg_count q' = msg_count q.
Proof.
  intros W H0. destruct (contents_head q W H0) as (m & E & Ec).
  pose proof (empty_iff q W) as Hne. pose proof W as [Hc Hl Hr Hn Hw Hm Hmx].
  unfold get_locked. bdecide. rewrite (proj2 (Nat.eqb_neq _ _)) by (intros H; apply Hne in H; lia).
  cbn [negb]. rewrite E, store_ok by lia. cbn [mbind option_bind]. eexists m, _.
  split_and!; [done| | | |done|done].
  - rewrite Hmx. apply wf_take; [done|done|by rewrite length_insert].
  - rewrite Hmx, contents_take by done. done.
  - cbn. apply u32_id. unfold is_u32. lia.
Qed.

Lemma peak_locked_ok q :
  wf_queue q → 0 < msg_number q →
  ∃ m q', peak_locked q = Some (CMR_MSG_SUCCESS, Some m, q') ∧ wf_queue q'
    ∧ contents q = m :: contents q' ∧ msg_number q' = msg_number q - 1 ∧ msg_sem q' = msg_sem q
    ∧ msg_count q' = msg_count q.
Proof.
  intros W H0. destruct (contents_head q W H0) as (m & E & Ec).
  pose proof (empty_iff q W) as Hne. pose proof W as [Hc Hl Hr Hn Hw Hm Hmx].
  unfold peak_locked. change (advance (set_mutex true q)) with (advance q). cbn [set_mutex msg_read msg_write msg_head msg_sem msg_count msg_number msg_magic].
  rewrite (proj2 (Nat.eqb_neq _ _)) by (intros H; apply Hne in H; lia).
  cbn [negb]. rewrite E. cbn [mbind option_bind]. eexists m, _.
  split_and!; [done|by apply wf_take| | |done|done].
  - rewrite Ec at 1. f_equal. rewrite <- (list_insert_id (msg_head q) (msg_read q) m E).
    by rewrite <- (contents_take q m).
  - cbn. apply u32_id. unfold is_u32. lia.
Qed.

Lemma post_locked_ok m ori q :
  wf_queue q → msg_number q + 1 < msg_count q →
  ∃ q', post_locked m ori q = Some (CMR_MSG_SUCCESS, q') ∧ wf_queue q'
    ∧ contents q' = contents q ++ [m] ∧ msg_number q' = msg_number q + 1 ∧ msg_sem q' = msg_sem q
    ∧ msg_count q' = msg_count q.
Proof.
  intros W H1. pose proof W as [Hc Hl Hr Hn Hw Hm Hmx].
  assert (Hwr : (msg_write q < Z.to_nat (msg_count q))%nat) by (rewrite Hw; apply Nat.mod_upper_bound; lia).
  assert (Ha : advance q (msg_write q)
    = ((msg_read q + Z.to_nat (msg_number q + 1)) mod Z.to_nat (msg_count q))%nat).
  { rewrite advance_mod by (done || lia). rewrite Hw.
    change (S ?x) with (1 + x)%nat. rewrite Nat.Div0.add_mod_idemp_r. f_equal. lia. }
  assert (Hne : advance q (msg_write q) ≠ msg_read q).
  { rewrite Ha. intros E. rewrite <- (Nat.mod_small (msg_read q) (Z.to_nat (msg_count q))) in E at 2 by done.
    rewrite <- (Nat.add_0_r (msg_read q)) in E at 2. apply ring_inj in E; lia. }
  unfold post_locked. rewrite (u32_id (msg_number q + 1)) by (unfold is_u32; lia). bdecide.
  rewrite store_ok by lia. cbn [mbind option_bind]. rewrite (proj2 (Nat.eqb_neq _ _)) by done.
  eexists. split_and!; [done| | |done|done|done].
  - constructor; cbn; try done; [by rewrite length_insert|lia].
  - unfold contents. cbn [msg_number]. replace (Z.to_nat (msg_number q + 1)) with (S (Z.to_nat (msg_number q))) by lia.
    rewrite seq_S, fmap_app. f_equal.
    + apply list_fmap_ext. intros _ k Hk%list_elem_of_lookup_2. rewrite elem_of_seq in Hk.
      unfold ring_nth. cbn [msg_head msg_read msg_count]. rewrite list_lookup_insert_ne; [done|].
      rewrite Hw. intros E%ring_inj; lia.
    + cbn. unfold ring_nth. cbn [msg_head msg_read msg_count]. rewrite <- Hw.
      by rewrite list_lookup_insert_eq by lia.
Qed.

(** ** Invariant of the interleaved system *)

(** Whether a thread holds a unit that the semaphore has given or not yet received. *)
Definition in_flight (p : pc) : Z :=
  match p with GetLock | PeakLock | PostSem => 1 | _ => 0 end.

Definition flight (ts : list pc) : Z := foldr (λ p n, in_flight p + n) 0 ts.

Lemma flight_insert ts i p p' :
  ts !! i = Some p → flight (<[i := p']> ts) = flight ts - in_flight p + in_flight p'.
Proof.
  revert i. induction ts as [|x ts IH]; intros [|i] H; simpl in *; simplify_eq; [lia|].
  rewrite (IH _ H). lia.
Qed.

Lemma flight_nonneg ts : 0 <= flight ts.
Proof. induction ts as [|[] ts IH]; simpl; lia. Qed.

Lemma flight_pos ts i p : ts !! i = Some p → in_flight p <= flight ts.
Proof.
  revert i. induction ts as [|x ts IH]; intros [|i] H; simpl in *; simplify_eq.
  - pose proof (flight_nonneg ts). lia.
  - specialize (IH _ H). destruct x; simpl; lia.
Qed.

#[local] Arguments flight : simpl never.

Record sys_inv (count : Z) (s : system) : Prop := {
  si_wf : wf_queue (queue s);
  si_count : msg_count (queue s) = count;
  si_sem : 0 <= msg_sem (queue s);
  si_flight : msg_sem (queue s) + flight (threads s) = msg_number (queue s);
  si_fifo : posted s = received s ++ contents (queue s) }.

Lemma sys_inv_init count cells n q :
  cmr_msg_queue_create count true (Some cells) = (CMR_MSG_SUCCESS, Some q) →
  is_u32 count → length cells = Z.to_nat count → sys_inv count (System q (replicate n Idle) [] []).
Proof.
  unfold cmr_msg_queue_create, is_u32. destruct (Z.eqb_spec 0 count); [done|].
  intros [= <-] Hu Hl. constructor; cbn; [|done|lia| |done].
  - constructor; cbn; try done; try lia. rewrite Nat.Div0.mod_0_l. done.
  - unfold flight. induction n; simpl; lia.
Qed.

Lemma post_locked_full m ori q :
  wf_queue q → msg_count q <= msg_number q + 1 → post_locked m ori q = Some (CMR_MSG_OVERFLOW, q).
Proof. intros [] Hf. unfold post_locked. rewrite u32_id by (unfold is_u32; lia). by bdecide. Qed.

Lemma sys_step_inv count s s' : sys_inv count s → sys_step s s' → sys_inv count s'.
Proof.
  intros [W Hk Hs Hf Hp] St. revert W Hk Hs Hf Hp.
  destruct St; cbn [queue threads posted received]; intros W Hk Hs Hf Hp;
    pose proof (flight_pos _ _ _ H) as F; cbn in F.
  1-3,5,7-8: (constructor; cbn; rewrite ?(flight_insert _ _ _ _ H); cbn;
         [first [done|by apply wf_add_sem]|done|lia|lia|done]).
  - destruct (get_locked_ok q W) as (m1 & q1 & E & W1 & C & N & S & K); [lia|].
    rewrite E in H1. simplify_eq. constructor; cbn; [done|done|lia| |].
    + rewrite (flight_insert _ _ _ _ H). cbn. lia.
    + by rewrite <- app_assoc, C.
  - destruct (decide (msg_number q + 1 < msg_count q)).
    + destruct (post_locked_ok m ori q W) as (q1 & E & W1 & C & N & S & K); [done|].
      rewrite E in H1. simplify_eq. rewrite Z.eqb_refl. constructor; cbn; [done|done|lia| |].
      * rewrite (flight_insert _ _ _ _ H). cbn. lia.
      * by rewrite C, app_assoc.
    + rewrite post_locked_full in H1 by (done || lia). simplify_eq.
      constructor; cbn; [done|done|done| |done].
      rewrite (flight_insert _ _ _ _ H). cbn. lia.
  - destruct (peak_locked_ok q W) as (m1 & q1 & E & W1 & C & N & S & K); [lia|].
    rewrite E in H1. simplify_eq. constructor; cbn; [done|done|lia| |].
    + rewrite (flight_insert _ _ _ _ H). cbn. lia.
    + by rewrite <- app_assoc, C.
Qed.

Lemma sys_inv_reachable count s s' : sys_inv count s → rtc sys_step s s' → sys_inv count s'.
Proof. intros I H. induction H; eauto using sys_step_inv. Qed.

(** C14. The queue is a FIFO for any number of threads: from a created queue, in every state that
    posts, gets, timed gets and peaks of any threads reach in any interleaving, the messages
    received are, in order, the first of those posted and the ring holds exactly the rest; the
    mutex is free, and a thread that passed the semaphore gets a message: neither the underflow
    answer nor [cmr_msg_peak]'s return with the mutex held can happen. *)
Theorem queue_linearizable count cells n q s :
  cmr_msg_queue_create count true (Some cells) = (CMR_MSG_SUCCESS, Some q) →
  is_u32 count → length cells = Z.to_nat count →
  rtc sys_step (System q (replicate n Idle) [] []) s →
  posted s = received s ++ contents (queue s)
  ∧ (length (contents (queue s)) < Z.to_nat count)%nat
  ∧ mutex (queue s) = false
  ∧ ∀ i p, threads s !! i = Some p → p = GetLock ∨ p = PeakLock →
      ∃ m q', (if decide (p = GetLock) then get_locked (queue s) else peak_locked (queue s))
                = Some (CMR_MSG_SUCCESS, Some m, q')
        ∧ contents (queue s) = m :: contents q' ∧ mutex q' = false.
Proof.
  intros Hq Hu Hl R. pose proof (sys_inv_init _ _ n _ Hq Hu Hl) as I0.
  destruct (sys_inv_reachable _ _ _ I0 R) as [W Hk Hs Hf Hp].
  split_and!; [done| |by apply W|].
  - rewrite contents_length. destruct W. lia.
  - intros i p Hi Hpc. pose proof (flight_pos _ _ _ Hi) as F.
    assert (0 < msg_number (queue s)) by (destruct Hpc as [-> | ->]; cbn in F; lia).
    destruct Hpc as [-> | ->]; case_decide; try done.
    + destruct (get_locked_ok (queue s) W) as (m & q' & E & [] & C & _); [done|]. eauto.
    + destruct (peak_locked_ok (queue s) W) as (m & q' & E & [] & C & _); [done|]. eauto.
Qed.

(** A queue used by one thread, with the semaphore equal to the number of messages. *)
Definition quiescent (q : cmr_msg_cxt) : Prop := wf_queue q ∧ msg_sem q = msg_number q.

Lemma check_args_ok q : wf_queue q → check_args (Some q) true = inr q.
Proof. intros []. unfold check_args. by rewrite wq_magic0. Qed.

(** [cmr_msg_post] on a quiet queue appends the message while at least two cells are free
    and answers OVERFLOW otherwise, leaving the queue alone: a queue created for [count]
    messages holds [count - 1] (a queue of one accepts none). *)
Theorem cmr_msg_post_spec q m :
  quiescent q →
  if Z.of_nat (length (contents q)) <? msg_count q - 1 then
    ∃ q', cmr_msg_post (Some q) (Some m) = Some (Done CMR_MSG_SUCCESS None (Some q'))
      ∧ quiescent q' ∧ contents q' = contents q ++ [m] ∧ msg_count q' = msg_count q
  else cmr_msg_post (Some q) (Some m) = Some (Done CMR_MSG_OVERFLOW None (Some q)).
Proof.
  intros [W S]. pose proof W as [Hc _ _ Hn _ _ Hm]. rewrite contents_length, Z2Nat.id by lia.
  unfold cmr_msg_post. rewrite bool_decide_true by eauto. rewrite check_args_ok by done. rewrite Hm.
  destruct (Z.ltb_spec (msg_number q) (msg_count q - 1)).
  - destruct (post_locked_ok m (msg_write q) q W) as (q1 & -> & W1 & C & N & S1 & K); [lia|].
    cbn [mbind option_bind]. rewrite Z.eqb_refl. eexists. split_and!; [done| |exact C|done].
    split; [by apply wf_add_sem|]. cbn. lia.
  - by rewrite post_locked_full by (done || lia).
Qed.

(** [cmr_msg_get], [cmr_msg_timedget] and [cmr_msg_peak] on a quiet queue: the oldest
    message is taken out; on an empty queue the first blocks and the others answer NO_OTHER_MSG
    (positive from one, negated from the other) and change nothing. *)
Theorem cmr_msg_get_spec q now :
  quiescent q → is_Some (timed_deadline now.1 now.2) →
  match contents q with
  | [] => cmr_msg_get (Some q) true = Some Blocked
      ∧ cmr_msg_timedget (Some q) true now = Some (Done CMR_MSG_NO_OTHER_MSG None (Some q))
      ∧ cmr_msg_peak (Some q) true = Some (Done (- CMR_MSG_NO_OTHER_MSG) None (Some q))
  | m :: rest => ∃ q' q'',
      cmr_msg_get (Some q) true = Some (Done CMR_MSG_SUCCESS (Some m) (Some q'))
      ∧ cmr_msg_timedget (Some q) true now = Some (Done CMR_MSG_SUCCESS (Some m) (Some q'))
      ∧ cmr_msg_peak (Some q) true = Some (Done CMR_MSG_SUCCESS (Some m) (Some q''))
      ∧ quiescent q' ∧ contents q' = rest ∧ quiescent q'' ∧ contents q'' = rest
  end.
Proof.
  intros [W S] [t Ht]. pose proof (contents_length q) as HL. pose proof W as [Hc _ _ Hn _ _ Hm].
  unfold cmr_msg_get, cmr_msg_timedget, cmr_msg_peak. rewrite check_args_ok by done. rewrite Ht, Hm.
  destruct (Z.leb_spec (msg_sem q) 0).
  - destruct (contents q); [done|]. cbn in HL. lia.
  - pose proof (wf_add_sem (-1) q W) as W1.
    destruct (get_locked_ok _ W1) as (m & q' & -> & W2 & C & N & S2 & K); [cbn; lia|].
    destruct (peak_locked_ok _ W1) as (m' & q'' & -> & W3 & C' & N' & S3 & K'); [cbn; lia|].
    rewrite contents_add_sem in C, C'. rewrite C in C' |- *. injection C' as <- C'.
    exists q', q''. cbn in S2, S3, N, N'. split_and!; try done; split; try done; lia.
Qed.

(** The deadline of [cmr_msg_timedget] is 200 ms after the time read, as a valid time,
    except when the sum is exactly one second: it is then left with 1000000000 nanoseconds,
    which [sem_timedwait] refuses. *)
Theorem timed_deadline_spec sec nsec :
  0 <= sec → 0 <= nsec < 1000000000 →
  ∃ s n, timed_deadline sec nsec = Some (s, n)
    ∧ s * 1000000000 + n = sec * 1000000000 + nsec + 200000000
    ∧ (0 <= n < 1000000000 ↔ nsec ≠ 800000000).
Proof.
  intros Hs Hn. unfold timed_deadline, CMR_MSG_POLLING_PERIOD. bdecide. cbn [orb].
  destruct (Z.ltb_spec 1000000000 (nsec + 200000000)); eexists _, _; split_and!; [done|lia|lia|done|lia|lia].
Qed.

(** ** Witnesses *)

Definition ex_queue : cmr_msg_cxt := Cxt false 0 3 0 CMR_MSG_MAGIC_CODE (replicate 3 msg_zero) 0 0.

Lemma ex_queue_quiescent : quiescent ex_queue.
Proof. split; [|done]. constructor; cbn; done || lia. Qed.

Definition ex_msg : cmr_msg := CmrMsgRec 7 0 0 0.

Lemma queue_linearizable_witness :
  let s := System (Cxt false 0 3 1 CMR_MSG_MAGIC_CODE [ex_msg; msg_zero; msg_zero] 1 0)
             [PostSem; Idle] [ex_msg] [] in
  posted s = received s ++ contents (queue s)
  ∧ (length (contents (queue s)) < Z.to_nat 3)%nat ∧ mutex (queue s) = false
  ∧ ∀ i p, threads s !! i = Some p → p = GetLock ∨ p = PeakLock →
      ∃ m q', (if decide (p = GetLock) then get_locked (queue s) else peak_locked (queue s))
                = Some (CMR_MSG_SUCCESS, Some m, q')
        ∧ contents (queue s) = m :: contents q' ∧ mutex q' = false.
Proof.
  apply (queue_linearizable 3 (replicate 3 msg_zero) 2 ex_queue); [done|unfold is_u32; lia|done|].
  eapply rtc_l; [exact (st_post 0 ex_queue [Idle; Idle] [] [] ex_msg eq_refl)|]. apply rtc_once.
  exact (st_post_locked 0 ex_queue [PostLock ex_msg 0; Idle] [] [] ex_msg 0 _ _ eq_refl eq_refl eq_refl).
Defined.

Lemma cmr_msg_post_spec_witness :
  ∃ q', cmr_msg_post (Some ex_queue) (Some ex_msg) = Some (Done CMR_MSG_SUCCESS None (Some q'))
    ∧ quiescent q' ∧ contents q' = contents ex_queue ++ [ex_msg] ∧ msg_count q' = msg_count ex_queue.
Proof. apply (cmr_msg_post_spec ex_queue ex_msg ex_queue_quiescent). Defined.

Lemma cmr_msg_get_spec_witness :
  cmr_msg_get (Some ex_queue) true = Some Blocked
  ∧ cmr_msg_timedget (Some ex_queue) true (5, 0) = Some (Done CMR_MSG_NO_OTHER_MSG None (Some ex_queue))
  ∧ cmr_msg_peak (Some ex_queue) true = Some (Done (- CMR_MSG_NO_OTHER_MSG) None (Some ex_queue)).
Proof. apply (cmr_msg_get_spec ex_queue (5, 0) ex_queue_quiescent). by eexists. Defined.

Lemma timed_deadline_spec_witness :
  ∃ s n, timed_deadline 5 800000000 = Some (s, n)
    ∧ s * 1000000000 + n = 5 * 1000000000 + 800000000 + 200000000
    ∧ (0 <= n < 1000000000 ↔ 800000000 ≠ 800000000).
Proof. apply (timed_deadline_spec 5 800000000); lia. Defined.
