(* ===== verification/CmrMem.v ===== *)
(** * The camera's capture buffers (libcamera/sc8830/src/cmr_mem.c)

    [camera_capture_buf_size] chooses how much memory a capture needs from tables,
    [camera_arrange_capture_buf] lays the raw, YUV, JPEG, thumbnail and rotation buffers out in
    that memory and asks the HAL's allocator for what does not fit.  An address is a pair
    (physical, virtual); all sizes and addresses are 32-bit unsigned.  The plane [addr_v] and the
    fields [data_end] and [reserved] of a frame are never used here. *)
From S2P Require Import Prelude.

Declare Scope cmr_mem_scope.
Notation "a ⊕ b" := (u32 (a + b)) (at level 50, left associativity) : cmr_mem_scope.
Notation "a ⊖ b" := (u32 (a - b)) (at level 50, left associativity) : cmr_mem_scope.
Notation "a ⊗ b" := (u32 (a * b)) (at level 40, left associativity) : cmr_mem_scope.
Local Open Scope cmr_mem_scope.

(** ** Data *)

Definition ALIGN_PAGE_SIZE : Z := 2 ^ 12.
Definition MIN_GAP_LINES : Z := 0x80.
Definition JPEG_SMALL_SIZE : Z := 300 * 1024.
Definition JPEG_EXIF_SIZE : Z := 64 * 1024.
Definition CMR_SLICE_HEIGHT : Z := 256.
Definition ISP_YUV_TO_RAW_GAP : Z := CMR_SLICE_HEIGHT.
Definition RAWRGB_BIT_WIDTH : Z := 10.
Definition BACK_CAMERA_ID : Z := 0.
Definition FRONT_CAMERA_ID : Z := 1.
Definition SENSOR_IMAGE_FORMAT_RAW : Z := 2.

Definition IMG_DATA_TYPE_JPEG : Z := 0.
Definition IMG_DATA_TYPE_YUV420 : Z := 2.
Definition IMG_DATA_TYPE_RAW : Z := 5.

Record img_size := ImgSize { width : Z; height : Z }.
Record img_rect := ImgRect { start_x : Z; start_y : Z; rect_width : Z; rect_height : Z }.

Abbreviation loc := (Z * Z)%type.

Record img_frm := ImgFrm { fmt : Z; buf_size : Z; frm_size : img_size; addr_y : loc; addr_u : loc }.

Record cmr_cap_mem := CapMem {
  cap_raw : img_frm; cap_yuv : img_frm; target_yuv : img_frm; target_jpeg : img_frm; thum_yuv : img_frm;
  thum_jpeg : img_frm; jpeg_tmp : img_frm; scale_tmp : img_frm; cap_yuv_rot : img_frm; isp_tmp : img_frm }.

Definition frm_zero : img_frm := ImgFrm 0 0 (ImgSize 0 0) (0, 0) (0, 0).
Definition cap_mem_zero : cmr_cap_mem :=
  CapMem frm_zero frm_zero frm_zero frm_zero frm_zero frm_zero frm_zero frm_zero frm_zero frm_zero.

(** What the functions pass through [io_mem_res], [io_mem_end] and [io_channel_size]. *)
Record cursor := Cursor { mem_res : Z; mem_end : Z; channel_size : Z }.

(** The address [off] bytes past [l]. *)
Definition shift (l : loc) (off : Z) : loc := (l.1 ⊕ off, l.2 ⊕ off).

(** ** The HAL's allocator, behind the function pointer [alloc_mem] *)

Class Allocator (A : Type) := {
  alloc_mem : A → Z → option (loc * A);
  (** The blocks (physical address, length) in use. *)
  live : A → list (Z * Z) }.

Definition disjoint_blocks (b1 b2 : Z * Z) : Prop := b1.1 + b1.2 <= b2.1 ∨ b2.1 + b2.2 <= b1.1.

Class AllocatorSpec (A : Type) `{Allocator A} := {
  alloc_live a n l a' : alloc_mem a n = Some (l, a') → live a' = (l.1, n) :: live a;
  alloc_fresh a n l a' : alloc_mem a n = Some (l, a') → Forall (disjoint_blocks (l.1, n)) (live a);
  alloc_range a n l a' : alloc_mem a n = Some (l, a') → 0 <= l.1 ∧ l.1 + n < 2 ^ 32 }.

(** ** Sizes *)

Definition CAMERA_ALIGNED_16 (w : Z) : Z := u32 (Z.shiftl (Z.shiftr (w ⊕ 15) 4) 4).
Definition align16 (s : img_size) : img_size :=
  ImgSize (CAMERA_ALIGNED_16 (width s)) (CAMERA_ALIGNED_16 (height s)).
Definition area (s : img_size) : Z := width s ⊗ height s.

Definition ADDR_BY_WORD (a : Z) : Z := Z.land (a ⊕ 3) 0xfffffffc.

Definition get_jpeg_size (w h : Z) : Z :=
  ADDR_BY_WORD (if w ⊗ h <=? JPEG_SMALL_SIZE then w ⊗ h ⊕ JPEG_EXIF_SIZE else w ⊗ h).
Definition get_thum_yuv_size (thum_width thum_height : Z) : Z := thum_width ⊗ thum_height ⊗ 3 / 2.
Definition get_thum_jpeg_size (thum_width thum_height : Z) : Z := ADDR_BY_WORD (thum_width ⊗ thum_height).

(** The cells a table does not list are zero. *)
Abbreviation size_table := (list (Z * Z)).
Definition mega (l : list (Z * Z)) : size_table :=
  ((λ e, (e.1 * 2 ^ 20, e.2 * 2 ^ 20)) <$> l) ++ replicate (13 - length l) (0, 0).
(** The first entry is one and a half mega pixels, given in bytes. *)
Definition with_first (first_mem : Z) (l : list (Z * Z)) : size_table :=
  match mega ((1, first_mem) :: l) with _ :: t => (0x180000, first_mem * 2 ^ 20) :: t | [] => [] end.

Definition back_cam_mem_size_tab : size_table :=
  with_first 6 [(2, 8); (3, 13); (4, 14); (5, 20); (6, 18); (7, 21); (8, 22)].
Definition back_cam_raw_mem_size_tab : size_table :=
  with_first 5 [(2, 8); (3, 12); (4, 13); (5, 16); (6, 19); (7, 22); (8, 25); (9, 35); (10, 35); (11, 36);
                (12, 36); (13, 37)].
Definition front_cam_mem_size_tab : size_table :=
  with_first 7 [(2, 9); (3, 13); (4, 18); (5, 19); (6, 19); (7, 21); (8, 22)].
Definition front_cam_raw_mem_size_tab : size_table :=
  with_first 9 [(2, 9); (3, 13); (4, 18); (5, 19); (6, 19); (7, 21); (8, 22)].
Definition mem_size_tab : size_table :=
  with_first 4 [(2, 8); (3, 16); (4, 16); (5, 16); (6, 16); (7, 16); (8, 16)].

Definition select_table (camera_id sn_fmt : Z) : size_table :=
  if sn_fmt =? SENSOR_IMAGE_FORMAT_RAW then
    if camera_id =? BACK_CAMERA_ID then back_cam_raw_mem_size_tab
    else if camera_id =? FRONT_CAMERA_ID then front_cam_raw_mem_size_tab else mem_size_tab
  else
    if camera_id =? BACK_CAMERA_ID then back_cam_mem_size_tab
    else if camera_id =? FRONT_CAMERA_ID then front_cam_mem_size_tab else mem_size_tab.

Fixpoint first_match (size_pixel : Z) (t : size_table) : option Z :=
  match t with
  | [] => None
  | (pixel_num, mem_size) :: t' =>
      if size_pixel <=? pixel_num then Some mem_size else first_match size_pixel t'
  end.

(** [None] is the answer -1; [have_result] tells whether [mem_size] is not null. *)
Definition camera_capture_buf_size (camera_id sn_fmt : Z) (image_size : option img_size)
    (have_result : bool) : option Z :=
  s ← image_size;
  if have_result then first_match (area s) (select_table camera_id sn_fmt) else None.

(** ** The arrangement *)

Section arrange.
Context {A : Type} `{Allocator A}.
Implicit Types (m : cmr_cap_mem) (cur : cursor) (a : A).

(** [CMR_NO_MEM]. *)
Definition no_mem (need res : Z) : bool := res <? need.

(** The JPEG buffer, laid out after the capture block unless the image is rotated. *)
Definition place_jpeg (frm : img_frm) (need_rot : bool) (m : cmr_cap_mem) (res e : Z)
  : option (loc * Z * Z) :=
  if need_rot then Some (addr_y (target_jpeg m), res, e)
  else if no_mem (buf_size (target_jpeg m)) res then None
  else Some (shift (addr_y frm) e, res ⊖ buf_size (target_jpeg m), e ⊕ buf_size (target_jpeg m)).

Definition set_jpeg_addr (l : loc) (f : img_frm) : img_frm := ImgFrm (fmt f) (buf_size f) (frm_size f) l (addr_u f).

(** The gaps of the raw layout: [yy_to_y], [useless_raw] and [uv_size]. *)
Definition raw_gaps (sn_size : img_size) (sn_trim : img_rect) (image_size cap_size : img_size) : Z * Z * Z :=
  let im := align16 image_size in
  let sn := align16 sn_size in
  let gap := ISP_YUV_TO_RAW_GAP ⊗ width sn_size in
  let uv_size := Z.shiftr (area sn_size) 1 in
  if negb (width im =? width sn) || negb (height im =? height sn) then
    let '(yy_to_y, useless_raw) :=
      if area im >? area sn then
        let yy_to_y := area im ⊖ area sn in
        let yy_to_y := if yy_to_y <? gap then gap else yy_to_y in
        let useless_raw := area sn ⊗ RAWRGB_BIT_WIDTH / 8 in
        (yy_to_y, useless_raw ⊖ width sn ⊗ (height sn ⊖ ISP_YUV_TO_RAW_GAP))
      else (gap, gap ⊗ RAWRGB_BIT_WIDTH / 8) in
    (yy_to_y, useless_raw, uv_size ⊕ Z.shiftr yy_to_y 1)
  else if negb (start_y sn_trim =? 0) then
    let yy_to_y2 := area image_size ⊖ area cap_size in
    let yy_to_y2 := if yy_to_y2 <? gap then gap else yy_to_y2 in
    let tmp := height sn_size ⊖ rect_height sn_trim ⊖ start_y sn_trim in
    let yy_to_y := Z.max yy_to_y2 (tmp ⊗ width sn_size) in
    (yy_to_y, yy_to_y ⊗ RAWRGB_BIT_WIDTH / 8, uv_size ⊕ Z.shiftr yy_to_y 1)
  else (0, 0, uv_size).

Definition arrange_raw_buf (frm : img_frm) (sn_size : img_size) (sn_trim : img_rect) (image_size : img_size)
    (orig_fmt : Z) (cap_size : img_size) (need_rot : bool) m cur a : option (cmr_cap_mem * cursor * A) :=
  if negb (orig_fmt =? IMG_DATA_TYPE_RAW) then None
  else
    let im := align16 image_size in
    let channel := area sn_size in
    let raw_size := channel ⊗ RAWRGB_BIT_WIDTH / 8 in
    let y_to_raw := ISP_YUV_TO_RAW_GAP ⊗ width sn_size in
    let '(yy_to_y, useless_raw, uv_size) := raw_gaps sn_size sn_trim image_size cap_size in
    let target_y := addr_y frm in
    let cap_y := shift target_y yy_to_y in
    let raw_y := shift cap_y y_to_raw in
    let offset := raw_size ⊕ y_to_raw ⊕ yy_to_y ⊖ useless_raw in
    if no_mem offset (mem_res cur) then None
    else
      '(jpeg, res, e) ← place_jpeg frm need_rot m (mem_res cur ⊖ offset) (mem_end cur ⊕ offset);
      '(target_u, res, e, a) ←
        (if uv_size <? res then Some (shift (addr_y frm) e, res ⊖ uv_size, e ⊕ uv_size, a)
         else '(l, a) ← alloc_mem a uv_size; Some (l, res, e, a));
      let yuv_size := Z.shiftr (channel ⊗ 3) 1 in
      Some (CapMem
        (ImgFrm IMG_DATA_TYPE_RAW raw_size sn_size raw_y (addr_u (cap_raw m)))
        (ImgFrm IMG_DATA_TYPE_YUV420 yuv_size sn_size cap_y (shift target_u (Z.shiftr yy_to_y 1)))
        (ImgFrm IMG_DATA_TYPE_YUV420 yuv_size im target_y target_u)
        (set_jpeg_addr jpeg (target_jpeg m))
        (thum_yuv m) (thum_jpeg m) (jpeg_tmp m) (scale_tmp m) (cap_yuv_rot m) (isp_tmp m),
        Cursor res e channel, a).

Definition arrange_jpeg_buf (frm : img_frm) (sn_size : img_size) (sn_trim : img_rect) (image_size : img_size)
    (orig_fmt : Z) (cap_size : img_size) (need_rot : bool) m cur : option (cmr_cap_mem * cursor) :=
  if negb (orig_fmt =? IMG_DATA_TYPE_JPEG) then None
  else
    let im := align16 image_size in
    let channel := area im in
    let target_y := addr_y frm in
    let yy_to_y := (height sn_size ⊖ start_y sn_trim ⊖ rect_height sn_trim) ⊗ width sn_size in
    let tmp := height sn_size ⊗ width sn_size in
    let y_end := yy_to_y ⊕ Z.max channel tmp in
    let target_u := shift target_y y_end in
    let cap_y := shift target_u (- tmp) in
    let between := cap_y.1 ⊖ target_y.1 in
    let min_gap := MIN_GAP_LINES ⊗ width im in
    let gap_size :=
      if between <? min_gap then Z.land (min_gap ⊖ between ⊕ (ALIGN_PAGE_SIZE - 1)) (u32 (Z.lnot (ALIGN_PAGE_SIZE - 1)))
      else 0 in
    let cap_y := shift cap_y gap_size in
    let target_u := shift target_u gap_size in
    let cap_u := shift (shift (shift target_u y_end) (- tmp)) gap_size in
    let offset :=
      if need_rot then Z.shiftr (y_end ⊗ 3) 1 ⊕ 2 ⊗ gap_size else u32 (Z.shiftl y_end 1) ⊕ 2 ⊗ gap_size in
    if no_mem offset (mem_res cur) then None
    else
      '(jpeg, res, e) ← place_jpeg frm need_rot m (mem_res cur ⊖ offset) offset;
      let yuv_size := channel ⊗ 3 / 2 in
      Some (CapMem (cap_raw m)
        (ImgFrm IMG_DATA_TYPE_YUV420 yuv_size (align16 cap_size) cap_y cap_u)
        (ImgFrm IMG_DATA_TYPE_YUV420 yuv_size im target_y target_u)
        (set_jpeg_addr jpeg (target_jpeg m))
        (thum_yuv m) (thum_jpeg m) (jpeg_tmp m) (scale_tmp m) (cap_yuv_rot m) (isp_tmp m),
        Cursor res e channel).

Definition arrange_yuv_buf (frm : img_frm) (image_size : img_size)
    (orig_fmt : Z) (cap_size : img_size) (need_rot : bool) m cur : option (cmr_cap_mem * cursor) :=
  if (orig_fmt =? IMG_DATA_TYPE_JPEG) || (orig_fmt =? IMG_DATA_TYPE_RAW) then None
  else
    let im := align16 image_size in
    let tmp := area cap_size in
    let '(cap_y, cap_u, target_y, target_u, channel) :=
      if area im >? tmp then
        let target_u := shift (addr_y frm) (area im) in
        (shift target_u (- tmp), shift target_u (Z.shiftr (area im ⊖ tmp) 1), addr_y frm, target_u, area im)
      else
        (addr_y frm, shift (addr_y frm) tmp, addr_y frm, shift (addr_y frm) tmp, tmp) in
    let offset := Z.shiftr (channel ⊗ 3) 1 in
    if no_mem offset (mem_res cur) then None
    else
      '(jpeg, res, e) ← place_jpeg frm need_rot m (mem_res cur ⊖ offset) offset;
      let yuv_size := Z.shiftr (channel ⊗ 3) 1 in
      Some (CapMem (cap_raw m)
        (ImgFrm IMG_DATA_TYPE_YUV420 yuv_size (align16 cap_size) cap_y cap_u)
        (ImgFrm IMG_DATA_TYPE_YUV420 yuv_size im target_y target_u)
        (set_jpeg_addr jpeg (target_jpeg m))
        (thum_yuv m) (thum_jpeg m) (jpeg_tmp m) (scale_tmp m) (cap_yuv_rot m) (isp_tmp m),
        Cursor res e channel).

(** A block of [n] bytes with its second plane two thirds in. *)
Definition misc_frame (l : loc) (n : Z) : img_frm := ImgFrm 0 n (ImgSize 0 0) l (shift l (n ⊗ 2 / 3)).

(** The first loop of [arrange_misc_buf]: the buffers that fit, the sizes left, the cursor. *)
Fixpoint misc_in_frame (frm : img_frm) (sizes : list Z) (res e : Z) : list img_frm * list Z * Z * Z :=
  match sizes with
  | n :: rest =>
      if n <=? res then
        let '(fs, later, res', e') := misc_in_frame frm rest (res ⊖ n) (e ⊕ n) in
        (misc_frame (shift (addr_y frm) e) n :: fs, later, res', e')
      else ([], sizes, res, e)
  | [] => ([], [], res, e)
  end.

(** The second loop: the buffers allocated. *)
Fixpoint misc_alloc (sizes : list Z) a : option (list img_frm * A) :=
  match sizes with
  | n :: rest =>
      '(l, a) ← alloc_mem a n;
      '(fs, a) ← misc_alloc rest a;
      Some (misc_frame l n :: fs, a)
  | [] => Some ([], a)
  end.

Definition arrange_misc_buf (frm : img_frm) (thum_size : img_size) m cur a : option (cmr_cap_mem * cursor * A) :=
  let sizes := [get_thum_yuv_size (width thum_size) (height thum_size);
                get_thum_jpeg_size (width thum_size) (height thum_size)] in
  let '(fs, later, res, e) := misc_in_frame frm sizes (mem_res cur) (mem_end cur) in
  '(fs', a) ← misc_alloc later a;
  match fs ++ fs' with
  | [ty; tj] =>
      Some (CapMem (cap_raw m) (cap_yuv m) (target_yuv m) (target_jpeg m)
        (ImgFrm (fmt (thum_yuv m)) (buf_size ty) thum_size (addr_y ty) (addr_u ty))
        (ImgFrm (fmt (thum_jpeg m)) (buf_size tj) (frm_size (thum_jpeg m)) (addr_y tj) (addr_u (thum_jpeg m)))
        (ImgFrm (fmt (jpeg_tmp m)) (buf_size (cap_yuv m)) (frm_size (jpeg_tmp m)) (addr_u (cap_yuv m))
           (addr_u (jpeg_tmp m)))
        (scale_tmp m) (cap_yuv_rot m) (isp_tmp m),
        Cursor res e (channel_size cur), a)
  | _ => None
  end.

Definition arrange_rot_buf (frm : img_frm) (image_size : img_size) (orig_fmt : Z) m cur a
  : option (cmr_cap_mem * cursor * A) :=
  let im := align16 image_size in
  let channel := channel_size cur in
  let size_pixel :=
    if orig_fmt =? IMG_DATA_TYPE_JPEG then u32 (Z.shiftl channel 1) else Z.shiftr (channel ⊗ 3) 1 in
  '(rot_y, rot_u, res, e, a) ←
    (if mem_res cur >? size_pixel then
       let l := shift (addr_y frm) (mem_end cur) in
       Some (l, shift l channel, mem_res cur ⊖ size_pixel, mem_end cur ⊕ size_pixel, a)
     else
       '(l, a) ← alloc_mem a channel;
       '(l', a) ← alloc_mem a channel;
       Some (l, l', mem_res cur, mem_end cur, a));
  Some (CapMem (cap_raw m) (cap_yuv m) (target_yuv m) (set_jpeg_addr rot_y (target_jpeg m))
    (thum_yuv m) (thum_jpeg m) (set_jpeg_addr rot_u (jpeg_tmp m)) (scale_tmp m)
    (ImgFrm IMG_DATA_TYPE_YUV420 size_pixel (ImgSize (height im) (width im)) rot_y rot_u) (isp_tmp m),
    Cursor res e channel, a).

(** The layout of the first image; [None] is -1, after which the contents of [capture_mem] are of
    no use. *)
Definition arrange_first (frm : img_frm) (sn_size : img_size) (sn_trim : img_rect) (image_size : img_size)
    (orig_fmt : Z) (cap_size thum_size : img_size) (need_rot : bool) a : option (cmr_cap_mem * cursor * A) :=
  let im := align16 image_size in
  let cur := Cursor (buf_size frm) 0 (area im) in
  let m := CapMem frm_zero frm_zero frm_zero
             (ImgFrm 0 (get_jpeg_size (width im) (height im)) (ImgSize 0 0) (0, 0) (0, 0))
             frm_zero frm_zero frm_zero frm_zero frm_zero frm_zero in
  '(m, cur, a) ←
    (if orig_fmt =? IMG_DATA_TYPE_RAW then
       arrange_raw_buf frm sn_size sn_trim image_size orig_fmt cap_size need_rot m cur a
     else
       '(m, cur) ←
         (if orig_fmt =? IMG_DATA_TYPE_JPEG
          then arrange_jpeg_buf frm sn_size sn_trim image_size orig_fmt cap_size need_rot m cur
          else arrange_yuv_buf frm image_size orig_fmt cap_size need_rot m cur);
       Some (m, cur, a));
  '(m, cur, a) ← arrange_misc_buf frm thum_size m cur a;
  '(m, cur, a) ← (if need_rot then arrange_rot_buf frm image_size orig_fmt m cur a else Some (m, cur, a));
  let j := target_jpeg m in
  Some (CapMem (cap_raw m) (cap_yuv m) (target_yuv m)
          (ImgFrm (fmt j) (buf_size j ⊖ JPEG_EXIF_SIZE) (frm_size j) (shift (addr_y j) JPEG_EXIF_SIZE) (addr_u j))
          (thum_yuv m) (thum_jpeg m) (jpeg_tmp m) (scale_tmp m) (cap_yuv_rot m) (isp_tmp m), cur, a).

(** The whole: [capture_mem] is the array of the caller, [None] a null pointer.  The outer [None] is
    undefined behaviour ([cap_size] is not checked, the array may be too short), the inner one -1. *)
Definition camera_arrange_capture_buf (cap_2_frm : option img_frm) (sn_size : option img_size)
    (sn_trim : option img_rect) (image_size : option img_size) (orig_fmt : Z) (cap_size thum_size : option img_size)
    (capture_mem : option (list cmr_cap_mem)) (need_rot : bool) (image_cnt : nat) a
  : option (option (list cmr_cap_mem * A)) :=
  match cap_2_frm, image_size, thum_size, capture_mem, sn_size, sn_trim with
  | Some frm, Some image, Some thum, Some mems, Some sn, Some trim =>
      cap ← cap_size;
      if decide (length mems < Nat.max 1 image_cnt)%nat then None
      else match arrange_first frm sn trim image orig_fmt cap thum need_rot a with
           | None => Some None
           | Some (m, _, a) =>
               Some (Some (replicate (Nat.max 1 image_cnt) m ++ drop (Nat.max 1 image_cnt) mems, a))
           end
  | _, _, _, _, _, _ => Some None
  end.
End arrange.

(** ** The choice of the size *)

Lemma first_match_spec n t m :
  first_match n t = Some m →
  ∃ i p, t !! i = Some (p, m) ∧ n <= p ∧ ∀ j q k, (j < i)%nat → t !! j = Some (q, k) → q < n.
Proof.
  induction t as [|[p k] t IH]; intros H; simpl in H; [done|]. bcase.
  - injection H as <-. exists 0%nat, p. split_and!; [done|lia|intros; lia].
  - destruct (IH H) as (i & q & Hi & Hq & Hj). exists (S i), q. split_and!; [done|done|].
    intros [|j] q' k' Hlt; simpl; [intros [= <- <-]; lia|apply Hj; lia].
Qed.

Lemma first_match_none n t : first_match n t = None → ∀ i p m, t !! i = Some (p, m) → p < n.
Proof.
  induction t as [|[q k] t IH]; intros H [|i] p m E; simpl in *; try done; bcase; try done.
  - by injection E as <- <-.
  - by apply (IH H i p m).
Qed.

(** ** Blocks *)

Definition inside (b c : Z * Z) : Prop := c.1 <= b.1 ∧ b.1 + b.2 <= c.1 + c.2.

#[export] Instance inside_refl : Reflexive inside.
Proof. split; lia. Qed.

#[export] Instance disjoint_blocks_sym : Symmetric disjoint_blocks.
Proof. unfold disjoint_blocks. intros ??; lia. Qed.

Lemma inside_disjoint b c d : inside b c → disjoint_blocks c d → disjoint_blocks b d.
Proof. unfold inside, disjoint_blocks. lia. Qed.

Lemma pairwise_perm l l' : Permutation l l' → ForallOrdPairs disjoint_blocks l → ForallOrdPairs disjoint_blocks l'.
Proof.
  induction 1 as [|x l l' P IH|x y l|l1 l2 l3 _ IH1 _ IH2]; intros H; [done| | |auto].
  - inversion_clear H as [|? ? F O]. constructor; [by rewrite <- P|auto].
  - inversion_clear H as [|? ? F O]. inversion_clear O as [|? ? G Q]. apply list.Forall_cons in F as [D F].
    constructor; [|by constructor]. apply list.Forall_cons. split; [by symmetry|done].
Qed.

Section placement.
Context {A : Type} `{AllocatorSpec A}.
Implicit Types (m : cmr_cap_mem) (cur : cursor) (a : A) (frm : img_frm).

Definition frame_block (frm : img_frm) : Z * Z := ((addr_y frm).1, buf_size frm).

Definition wf_frame (frm : img_frm) : Prop :=
  0 <= (addr_y frm).1 ∧ 0 <= buf_size frm ∧ (addr_y frm).1 + buf_size frm < 2 ^ 32.

(** The blocks [I] are pairwise disjoint, each in the first [e] bytes of the frame or in a block of
    the allocator's outside the frame. *)
Record placed (frm : img_frm) (I : list (Z * Z)) (e : Z) (a : A) : Prop := {
  pl_disjoint : ForallOrdPairs disjoint_blocks I;
  pl_where : Forall (λ b, inside b ((addr_y frm).1, e)
                       ∨ ∃ c, c ∈ live a ∧ disjoint_blocks (frame_block frm) c ∧ inside b c) I;
  pl_frame : frame_block frm ∈ live a;
  pl_end : 0 <= e <= buf_size frm }.

Lemma placed_perm frm I I' e a : Permutation I I' → placed frm I e a → placed frm I' e a.
Proof. intros P [D W F E]. split; [by eapply pairwise_perm|by rewrite <- P|done|done]. Qed.

Lemma placed_nil frm a : wf_frame frm → frame_block frm ∈ live a → placed frm [] 0 a.
Proof. intros (B1 & B2 & B3) F. split; [constructor|constructor|done|lia]. Qed.

(** The next [n] bytes of the frame. *)
Lemma placed_frame frm I e a n :
  placed frm I e a → 0 <= n → e + n <= buf_size frm →
  placed frm (((addr_y frm).1 + e, n) :: I) (e + n) a.
Proof.
  intros [D W F E] Hn Hle. split; [|apply list.Forall_cons; split|done|lia].
  - constructor; [|done]. eapply list.Forall_impl; [exact W|]. cbv beta.
    intros b [J|(c & _ & Dc & J)]; unfold inside, disjoint_blocks, frame_block in *; simpl in *; lia.
  - left. unfold inside; simpl. lia.
  - eapply list.Forall_impl; [exact W|]. cbv beta. intros b [J|J]; [left|by right].
    unfold inside in *; simpl in *. lia.
Qed.

(** A block from the allocator. *)
Lemma placed_alloc frm I e a n l a' :
  placed frm I e a → alloc_mem a n = Some (l, a') → placed frm ((l.1, n) :: I) e a'.
Proof.
  intros [D W F E] Ha. pose proof (alloc_live a n l a' Ha) as L. pose proof (alloc_fresh a n l a' Ha) as R.
  rewrite list.Forall_forall in R.
  split; [|apply list.Forall_cons; split| |done].
  - constructor; [|done]. eapply list.Forall_impl; [exact W|]. cbv beta.
    intros b [J|(c & Hc & _ & J)]; symmetry; (eapply inside_disjoint; [exact J|]); symmetry.
    + specialize (R _ F). unfold disjoint_blocks, frame_block in *; simpl in *. lia.
    + by apply R.
  - right. exists (l.1, n). split_and!; [rewrite L; constructor|symmetry; by apply R|done].
  - eapply list.Forall_impl; [exact W|]. cbv beta. intros b [J|(c & Hc & Dc & J)]; [by left|right].
    exists c. split_and!; [rewrite L; by constructor|done|done].
  - rewrite L. by constructor.
Qed.

(** A part of a block, and two parts of it. *)
Lemma placed_part frm I e a b b' : inside b' b → placed frm (b :: I) e a → placed frm (b' :: I) e a.
Proof.
  intros J [D W F E]. inversion_clear D as [|? ? G Q]. apply list.Forall_cons in W as [Wb W].
  split; [constructor; [|done]|apply list.Forall_cons; split; [|done]|done|done].
  - eapply list.Forall_impl; [exact G|]. intros c. by apply inside_disjoint.
  - unfold inside in *. destruct Wb as [K|(c & Hc & Dc & K)]; [left|right; exists c; split_and!]; try done; lia.
Qed.

Lemma placed_split frm I e a b b1 b2 :
  inside b1 b → inside b2 b → disjoint_blocks b2 b1 → placed frm (b :: I) e a → placed frm (b2 :: b1 :: I) e a.
Proof.
  intros J1 J2 D P. pose proof (placed_part _ _ _ _ _ _ J2 P) as P2. apply (placed_part _ _ _ _ _ _ J1) in P.
  destruct P as [O W F E], P2 as [O2 W2 _ _]. inversion_clear O2 as [|? ? G2 Q2].
  apply list.Forall_cons in W2 as [W2 _].
  split; [constructor; [by apply list.Forall_cons|done]|by apply list.Forall_cons|done|done].
Qed.

(** *** The cursor *)

Definition cursor_ok (frm : img_frm) cur : Prop :=
  0 <= mem_end cur ∧ 0 <= mem_res cur ∧ mem_end cur + mem_res cur = buf_size frm.

Lemma shift_frame frm e : wf_frame frm → 0 <= e <= buf_size frm → (shift (addr_y frm) e).1 = (addr_y frm).1 + e.
Proof. intros (B1 & B2 & B3) He. unfold shift. simpl. apply u32_id. unfold is_u32. lia. Qed.

(** Taking [n] bytes from the frame. *)
Lemma take_frame frm I e res a n :
  wf_frame frm → placed frm I e a → 0 <= res → e + res = buf_size frm → 0 <= n <= res →
  placed frm (((shift (addr_y frm) e).1, n) :: I) (e + n) a
  ∧ u32 (e + n) = e + n ∧ u32 (res - n) = res - n.
Proof.
  intros Wf P Hr Hs Hn. pose proof (pl_end _ _ _ _ P). destruct (Wf) as (B1 & B2 & B3).
  rewrite shift_frame by (done || lia). rewrite !u32_id by (unfold is_u32; lia).
  split_and!; [|done|done]. by apply placed_frame; [|lia|lia].
Qed.

Definition jpeg_block m : Z * Z := ((addr_y (target_jpeg m)).1, buf_size (target_jpeg m)).
Definition jpeg_blocks (need_rot : bool) m : list (Z * Z) := if need_rot then [] else [jpeg_block m].

Lemma place_jpeg_ok frm rot m res e a I l res' e' :
  wf_frame frm → placed frm I e a → 0 <= res → e + res = buf_size frm → 0 <= buf_size (target_jpeg m) →
  place_jpeg frm rot m res e = Some (l, res', e') →
  placed frm ((if rot then [] else [(l.1, buf_size (target_jpeg m))]) ++ I) e' a ∧ 0 <= res' ∧ e' + res' = buf_size frm
  ∧ (rot = false → 0 <= l.1 ∧ l.1 + buf_size (target_jpeg m) < 2 ^ 32).
Proof.
  intros Wf P Hr Hs Hj Q. unfold place_jpeg in Q. destruct rot; [injection Q as <- <- <-; by split_and!|].
  unfold no_mem in Q. bcase; [done|]. injection Q as <- <- <-.
  destruct (take_frame frm I e res a (buf_size (target_jpeg m)) Wf P Hr Hs) as (R & -> & ->); [lia|].
  destruct (Wf) as (? & ? & ?). split_and!; [done|lia|lia|]. intros _. pose proof (pl_end _ _ _ _ P).
  rewrite shift_frame by (done || lia). lia.
Qed.

(** *** The misc and rotation buffers *)

Definition frm_block (f : img_frm) : Z * Z := ((addr_y f).1, buf_size f).

Lemma misc_in_frame_ok frm a sizes : ∀ res e I fs later res' e',
  wf_frame frm → placed frm I e a → 0 <= res → e + res = buf_size frm → Forall (Z.le 0) sizes →
  misc_in_frame frm sizes res e = (fs, later, res', e') →
  placed frm (reverse (frm_block <$> fs) ++ I) e' a ∧ 0 <= res' ∧ e' + res' = buf_size frm
  ∧ (buf_size <$> fs) ++ later = sizes.
Proof.
  induction sizes as [|n sizes IH]; intros res e I fs later res' e' Wf P Hr Hs F X; simpl in X.
  - by injection X as <- <- <- <-.
  - apply list.Forall_cons in F as [Hn F]. bcase.
    + destruct (misc_in_frame frm sizes _ _) as [[[fs1 later1] r1] e1] eqn:M. injection X as <- <- <- <-.
      destruct (take_frame frm I e res a n Wf P Hr Hs) as (Q & E1 & E2); [lia|]. rewrite E1, E2 in M.
      apply IH with (I := ((shift (addr_y frm) e).1, n) :: I) in M; [|done|done|lia|lia|done].
      destruct M as (P' & ? & ? & L). split_and!; try done; [|by rewrite fmap_cons, <- L].
      rewrite fmap_cons, reverse_cons, <- (assoc_L (++)). exact P'.
    + injection X as <- <- <- <-. by split_and!.
Qed.

Lemma misc_alloc_ok frm e sizes : ∀ a I fs a',
  placed frm I e a → misc_alloc sizes a = Some (fs, a') →
  placed frm (reverse (frm_block <$> fs) ++ I) e a' ∧ buf_size <$> fs = sizes.
Proof.
  induction sizes as [|n sizes IH]; intros a I fs a' P H'; simpl in H'.
  - by injection H' as <- <-.
  - apply bind_Some in H' as ([l a1] & E & H'). apply bind_Some in H' as ([fs1 a2] & E1 & H').
    injection H' as <- <-. pose proof (placed_alloc _ _ _ _ _ _ _ P E) as Q.
    destruct (IH _ _ _ _ Q E1) as [R L]. split; [|by rewrite fmap_cons, L].
    rewrite fmap_cons, reverse_cons, <- (assoc_L (++)). exact R.
Qed.

Lemma arrange_misc_ok frm thum m cur a I m' cur' a' :
  wf_frame frm → placed frm I (mem_end cur) a → cursor_ok frm cur →
  arrange_misc_buf frm thum m cur a = Some (m', cur', a') →
  placed frm (frm_block (thum_jpeg m') :: frm_block (thum_yuv m') :: I) (mem_end cur') a' ∧ cursor_ok frm cur'
  ∧ channel_size cur' = channel_size cur ∧ target_jpeg m' = target_jpeg m
  ∧ cap_yuv m' = cap_yuv m ∧ target_yuv m' = target_yuv m
  ∧ buf_size (thum_yuv m') = get_thum_yuv_size (width thum) (height thum)
  ∧ buf_size (thum_jpeg m') = get_thum_jpeg_size (width thum) (height thum).
Proof.
  intros Wf P (C1 & C2 & C3) X. unfold arrange_misc_buf in X.
  set (sizes := [_; _]) in X.
  destruct (misc_in_frame frm sizes _ _) as [[[fs later] res] e] eqn:M.
  assert (F : Forall (Z.le 0) sizes).
  { subst sizes. rewrite !list.Forall_cons. split_and!; [| |by apply list.Forall_nil_2].
    - unfold get_thum_yuv_size. apply Z.div_pos; [apply u32_range|lia].
    - unfold get_thum_jpeg_size, ADDR_BY_WORD. apply Z.land_nonneg. right. lia. }
  destruct (misc_in_frame_ok frm a sizes _ _ I _ _ _ _ Wf P C2 C3 F M) as (P1 & R1 & R2 & L1).
  apply bind_Some in X as ([fs' a1] & E & X).
  destruct (misc_alloc_ok frm e later a _ fs' a1 P1 E) as [P2 L2].
  rewrite (assoc_L (++)), <- reverse_app, <- fmap_app in P2.
  rewrite <- L2, <- fmap_app in L1.
  destruct (fs ++ fs') as [|ty [|tj [|]]] eqn:Efs; try done. injection X as <- <- <-.
  injection L1 as Ly Lj. cbn [fmap list_fmap reverse rev_append app] in P2.
  pose proof (pl_end _ _ _ _ P2). split_and!; try done. unfold cursor_ok. simpl. lia.
Qed.

(** *** Sizes without wrap-around *)

Definition small (s : img_size) : Prop := 0 <= width s <= 2 ^ 13 ∧ 0 <= height s <= 2 ^ 13.

Lemma align16_value w : 0 <= w <= 2 ^ 13 → CAMERA_ALIGNED_16 w = 16 * ((w + 15) / 16).
Proof.
  intros Hw. unfold CAMERA_ALIGNED_16. rewrite (u32_id (w + 15)) by (unfold is_u32; lia).
  rewrite Z.shiftl_mul_pow2, Z.shiftr_div_pow2 by lia. change (2 ^ 4) with 16. rewrite u32_id; [lia|].
  unfold is_u32. pose proof (Z.div_pos (w + 15) 16). pose proof (Z.mul_div_le (w + 15) 16). lia.
Qed.

Lemma align16_bounds w : 0 <= w <= 2 ^ 13 → w <= CAMERA_ALIGNED_16 w <= 2 ^ 13 ∧ CAMERA_ALIGNED_16 w < w + 16.
Proof. intros Hw. rewrite align16_value by done. Z.to_euclidean_division_equations. lia. Qed.

Lemma small_align s : small s → small (align16 s).
Proof.
  intros [Hw Hh]. unfold small, align16; simpl.
  pose proof (align16_bounds _ Hw). pose proof (align16_bounds _ Hh). lia.
Qed.

Lemma area_value s : small s → area s = width s * height s ∧ 0 <= area s <= 2 ^ 26.
Proof.
  intros [Hw Hh]. unfold area. assert (0 <= width s * height s <= 2 ^ 13 * 2 ^ 13) by nia.
  rewrite u32_id by (unfold is_u32; lia). lia.
Qed.

Lemma area_align s : small s → area s <= area (align16 s).
Proof.
  intros S. destruct (area_value s S) as [-> _]. destruct (area_value _ (small_align s S)) as [-> _].
  destruct S as [Hw Hh]. simpl. pose proof (align16_bounds _ Hw). pose proof (align16_bounds _ Hh). nia.
Qed.

(** *** The capture block *)

Definition plane (l : loc) (n : Z) : Z * Z := (l.1, n).

(** The target image and the image captured, each as a block of [y] and one of [u]: [im] and [cap] are the
    numbers of pixels. *)
Definition planes_inside (im cap : Z) m (y u : Z * Z) : Prop :=
  inside (plane (addr_y (target_yuv m)) im) y ∧ inside (plane (addr_y (cap_yuv m)) cap) y
  ∧ inside (plane (addr_u (target_yuv m)) (im / 2)) u ∧ inside (plane (addr_u (cap_yuv m)) (cap / 2)) u.

Definition captured (frm : img_frm) (rot : bool) (im cap : Z) m cur a : Prop :=
  ∃ y u, placed frm (jpeg_blocks rot m ++ [u; y]) (mem_end cur) a ∧ cursor_ok frm cur ∧ planes_inside im cap m y u
  ∧ (rot = false → 0 <= (jpeg_block m).1 ∧ (jpeg_block m).1 + (jpeg_block m).2 < 2 ^ 32).

Lemma shr1 x : Z.shiftr x 1 = x / 2.
Proof. by rewrite Z.shiftr_div_pow2. Qed.

(** A capture block of [off] bytes in two halves, then the JPEG buffer. *)
Lemma capture_halves frm rot m off mid a l res e :
  wf_frame frm → frame_block frm ∈ live a → 0 <= mid <= off → off <= buf_size frm → 0 <= buf_size (target_jpeg m) →
  place_jpeg frm rot m (u32 (buf_size frm - off)) off = Some (l, res, e) →
  placed frm ((if rot then [] else [(l.1, buf_size (target_jpeg m))])
              ++ [((addr_y frm).1 + mid, off - mid); ((addr_y frm).1, mid)]) e a
  ∧ 0 <= res ∧ e + res = buf_size frm ∧ (rot = false → 0 <= l.1 ∧ l.1 + buf_size (target_jpeg m) < 2 ^ 32).
Proof.
  intros Wf F Hm Ho Hj X. destruct (Wf) as (B1 & B2 & B3).
  rewrite u32_id in X by (unfold is_u32; lia).
  apply (place_jpeg_ok frm rot m _ _ a [((addr_y frm).1 + mid, off - mid); ((addr_y frm).1, mid)]) in X;
    [done|done| |lia|lia|done].
  apply (placed_split _ _ _ _ ((addr_y frm).1 + 0, off)).
  1-3: unfold inside, disjoint_blocks; simpl; lia.
  rewrite <- (Z.add_0_l off) at 2. apply placed_frame; [|lia|lia]. by apply placed_nil.
Qed.

(** Removes the wrap-around where the bounds in the context show that there is none. *)
Ltac nowrap :=
  rewrite ?shr1;
  repeat match goal with
  | |- context [u32 ?x] => rewrite (u32_id x) by (unfold is_u32; Z.to_euclidean_division_equations; lia)
  end.

Ltac planes :=
  unfold planes_inside, plane, inside, shift; cbn [addr_y addr_u target_yuv cap_yuv fst snd];
  nowrap; Z.to_euclidean_division_equations; lia.

Lemma arrange_yuv_ok frm image fmt cap rot m a m' cur' :
  wf_frame frm → frame_block frm ∈ live a → small image → small cap → 0 <= buf_size (target_jpeg m) →
  arrange_yuv_buf frm image fmt cap rot m (Cursor (buf_size frm) 0 (area (align16 image))) = Some (m', cur') →
  captured frm rot (area (align16 image)) (area cap) m' cur' a
  ∧ buf_size (target_jpeg m') = buf_size (target_jpeg m)
  ∧ channel_size cur' = Z.max (area (align16 image)) (area cap).
Proof.
  intros Wf F Si Sc Hj X. unfold arrange_yuv_buf in X. bcase; [done|].
  destruct (area_value _ (small_align _ Si)) as [_ Ai]. destruct (area_value _ Sc) as [_ Ac].
  set (im := area (align16 image)) in *. set (tmp := area cap) in *.
  destruct (Wf) as (B1 & B2 & B3). cbn [mem_res] in X.
  destruct (im >? tmp) eqn:G; rewrite Z.gtb_ltb in G; bsplit.
  - unfold no_mem in X. bcase; [done|]. apply bind_Some in X as ([[l res] e] & E1 & X). injection X as <- <-.
    rewrite shr1, (u32_id (im * 3)) in E1, E0 by (unfold is_u32; lia).
    apply (capture_halves _ _ _ _ im a) in E1; try done; [|Z.to_euclidean_division_equations; lia..].
    destruct E1 as (P & R1 & R2 & R3). split_and!; [|done|simpl; lia].
    eexists _, _. split_and!; [exact P| |planes|exact R3]. pose proof (pl_end _ _ _ _ P). split_and!; simpl; lia.
  - unfold no_mem in X. bcase; [done|]. apply bind_Some in X as ([[l res] e] & E1 & X). injection X as <- <-.
    rewrite shr1, (u32_id (tmp * 3)) in E1, E0 by (unfold is_u32; lia).
    apply (capture_halves _ _ _ _ tmp a) in E1; try done; [|Z.to_euclidean_division_equations; lia..].
    destruct E1 as (P & R1 & R2 & R3). split_and!; [|done|simpl; lia].
    eexists _, _. split_and!; [exact P| |planes|exact R3]. pose proof (pl_end _ _ _ _ P). split_and!; simpl; lia.
Qed.

Lemma u32_sub_l (x y : Z) : u32 (u32 x - y) = u32 (x - y).
Proof. apply Zminus_mod_idemp_l. Qed.

Lemma u32_add_l (x y : Z) : u32 (u32 x + y) = u32 (x + y).
Proof. apply Zplus_mod_idemp_l. Qed.

(** Clearing the low [k] bits of a word. *)
Lemma land_high k y : 0 <= k <= 32 → is_u32 y → Z.land y (Z.shiftl (Z.ones (32 - k)) k) = 2 ^ k * (y / 2 ^ k).
Proof.
  intros Hk Hy.
  assert (E : Z.land y (Z.shiftl (Z.ones (32 - k)) k) = Z.shiftl (Z.land (Z.shiftr y k) (Z.ones (32 - k))) k).
  { apply Z.bits_inj'. intros n Hn. rewrite Z.land_spec. destruct (Z.lt_ge_cases n k).
    - rewrite !Z.shiftl_spec_low by lia. by rewrite andb_false_r.
    - rewrite !Z.shiftl_spec, Z.land_spec, Z.shiftr_spec by lia. by replace (n - k + k) with n by lia. }
  unfold is_u32 in Hy. pose proof (Z.pow_pos_nonneg 2 k).
  rewrite E, Z.land_ones, Z.shiftl_mul_pow2, Z.shiftr_div_pow2 by lia.
  rewrite Z.mod_small; [lia|]. split; [apply Z.div_pos; lia|].
  apply Z.div_lt_upper_bound; [lia|]. rewrite <- Z.pow_add_r by lia. replace (k + (32 - k)) with 32 by lia. lia.
Qed.

Lemma gap_rounded x : 0 <= x <= 2 ^ 21 →
  Z.land (x + (ALIGN_PAGE_SIZE - 1)) (u32 (Z.lnot (ALIGN_PAGE_SIZE - 1))) = 4096 * ((x + 4095) / 4096).
Proof.
  intros Hx. change (u32 (Z.lnot (ALIGN_PAGE_SIZE - 1))) with (Z.shiftl (Z.ones (32 - 12)) 12).
  change (ALIGN_PAGE_SIZE - 1) with 4095. rewrite land_high; [done|lia|unfold is_u32; lia].
Qed.

Lemma ADDR_BY_WORD_value x : 0 <= x < 2 ^ 31 → ADDR_BY_WORD x = 4 * ((x + 3) / 4).
Proof.
  intros Hx. unfold ADDR_BY_WORD. rewrite u32_id by (unfold is_u32; lia).
  change 0xfffffffc with (Z.shiftl (Z.ones (32 - 2)) 2). rewrite land_high; [done|lia|unfold is_u32; lia].
Qed.

(** The JPEG buffer has room for the EXIF header, and for as many bytes as the image has pixels. *)
Lemma get_jpeg_size_bounds s : small s →
  JPEG_EXIF_SIZE <= get_jpeg_size (width s) (height s) ∧ area s <= get_jpeg_size (width s) (height s) <= area s + 65540.
Proof.
  intros S. destruct (area_value _ S) as [_ As]. unfold get_jpeg_size. fold (area s).
  bcase; rewrite ?(u32_id (area s + _)) by (unfold is_u32, JPEG_EXIF_SIZE; lia);
    rewrite ADDR_BY_WORD_value by (unfold JPEG_EXIF_SIZE; lia); unfold JPEG_EXIF_SIZE, JPEG_SMALL_SIZE in *;
    Z.to_euclidean_division_equations; lia.
Qed.

(** The trim lies in the sensor's image. *)
Definition trimmed (sn_size : img_size) (t : img_rect) : Prop :=
  0 <= start_y t ∧ 0 <= rect_height t ∧ start_y t + rect_height t <= height sn_size.

Lemma arrange_jpeg_ok frm sn trim image fmt cap m a m' cur' :
  wf_frame frm → frame_block frm ∈ live a → small image → small cap → small sn → trimmed sn trim →
  0 <= buf_size (target_jpeg m) →
  arrange_jpeg_buf frm sn trim image fmt cap false m (Cursor (buf_size frm) 0 (area (align16 image))) = Some (m', cur') →
  captured frm false (area (align16 image)) (area sn) m' cur' a
  ∧ buf_size (target_jpeg m') = buf_size (target_jpeg m).
Proof.
  intros Wf F Si Sc Ss (T1 & T2 & T3) Hj X. unfold arrange_jpeg_buf in X. bcase; [done|].
  destruct (area_value _ (small_align _ Si)) as [_ Ai]. destruct (area_value _ Ss) as [As As'].
  destruct (small_align _ Si) as [Wi _]. destruct (Ss) as [Ws Hs].
  destruct (Wf) as (B1 & B2 & B3). cbn [mem_res] in X.
  set (im := area (align16 image)) in *. set (wi := width (align16 image)) in *.
  assert (Ey : (height sn ⊖ start_y trim ⊖ rect_height trim) ⊗ width sn
             = (height sn - start_y trim - rect_height trim) * width sn).
  { rewrite (u32_id (height sn - start_y trim)) by (unfold is_u32; lia).
    rewrite (u32_id (height sn - start_y trim - rect_height trim)) by (unfold is_u32; lia).
    apply u32_id. unfold is_u32. nia. }
  assert (Et : height sn ⊗ width sn = area sn) by (rewrite As; unfold is_u32; rewrite u32_id by (unfold is_u32; nia); lia).
  rewrite Ey, Et in X. set (yy := (height sn - start_y trim - rect_height trim) * width sn) in *.
  assert (Yy : 0 <= yy <= 2 ^ 26) by (subst yy; nia).
  set (tmp := area sn) in *. set (y_end := yy + Z.max im tmp).
  rewrite (u32_id (yy + _)) in X by (unfold is_u32; lia). fold y_end in X.
  set (between := _ ⊖ (addr_y frm).1) in X.
  assert (Eb : between = y_end - tmp).
  { subst between. unfold shift; cbn [fst snd]. rewrite u32_sub_l.
    replace ((addr_y frm).1 ⊕ y_end + - tmp - (addr_y frm).1)
      with ((addr_y frm).1 ⊕ y_end - (tmp + (addr_y frm).1)) by lia.
    rewrite u32_sub_l, u32_id by (unfold is_u32; lia). lia. }
  assert (Em : MIN_GAP_LINES ⊗ wi = 128 * wi) by (apply u32_id; unfold is_u32, MIN_GAP_LINES; lia).
  rewrite Em in X. set (gap := if _ <? _ then _ else 0) in X.
  assert (Eg : 0 <= gap <= 2 ^ 21).
  { subst gap. bcase; [|lia]. rewrite (u32_id (128 * wi - between)) by (unfold is_u32; lia).
    rewrite (u32_id (128 * wi - between + _)) by (unfold is_u32, ALIGN_PAGE_SIZE; lia).
    rewrite gap_rounded by lia. Z.to_euclidean_division_equations. lia. }
  clearbody gap. unfold no_mem in X. bcase; [done|].
  apply bind_Some in X as ([[l res] e] & E1 & X). injection X as <- <-.
  assert (Eo : u32 (Z.shiftl y_end 1) ⊕ 2 ⊗ gap = 2 * (y_end + gap)).
  { rewrite Z.shiftl_mul_pow2 by lia. change (2 ^ 1) with 2. rewrite !u32_id by (unfold is_u32; rewrite ?u32_id; unfold is_u32; lia). lia. }
  rewrite Eo in E0, E1.
  apply (capture_halves _ _ _ _ (y_end + gap) a) in E1; try done; try lia.
  destruct E1 as (P & R1 & R2 & R3). split; [|done].
  eexists _, _. split_and!; [exact P| |planes|exact R3]. pose proof (pl_end _ _ _ _ P). split_and!; simpl; lia.
Qed.

Lemma area_even s : small s → area (align16 s) mod 2 = 0.
Proof.
  intros S. destruct (area_value _ (small_align s S)) as [-> _]. destruct S as [Hw Hh]. simpl.
  rewrite !align16_value by done.
  replace (16 * ((width s + 15) / 16) * (16 * ((height s + 15) / 16)))
    with (128 * ((width s + 15) / 16 * ((height s + 15) / 16)) * 2) by lia.
  apply Z_mod_mult.
Qed.

(** A sensor whose sides are multiples of 16, at least 256 lines high. *)
Definition raw_sensor (sn_size : img_size) : Prop :=
  small sn_size ∧ align16 sn_size = sn_size ∧ 256 <= height sn_size.

(** Without a trim the gaps leave room for the image captured behind the target image. *)
Lemma raw_gaps_ok sn trim image cap :
  raw_sensor sn → small image → start_y trim = 0 →
  ∃ yy useless, raw_gaps sn trim image cap = (yy, useless, area sn / 2 + yy / 2)
    ∧ 0 <= yy <= 2 ^ 26 ∧ 0 <= useless <= 2 ^ 27
    ∧ area sn + yy <= area sn * 10 / 8 + 256 * width sn + yy - useless <= 2 ^ 28
    ∧ area (align16 image) <= area sn + yy.
Proof.
  intros (Ss & Al & Hh) Si T. unfold raw_gaps. rewrite Al, T.
  destruct (area_value _ (small_align _ Si)) as [_ Ai]. destruct (area_value _ Ss) as [As As'].
  destruct (Ss) as [Ws Hs].
  assert (G : ISP_YUV_TO_RAW_GAP ⊗ width sn = 256 * width sn) by (apply u32_id; unfold is_u32, ISP_YUV_TO_RAW_GAP, CMR_SLICE_HEIGHT; lia).
  rewrite G. set (im := area (align16 image)) in *. set (a := area sn) in *.
  assert (R : a ⊗ RAWRGB_BIT_WIDTH = a * 10) by (apply u32_id; unfold is_u32, RAWRGB_BIT_WIDTH; lia).
  assert (R2 : 256 * width sn ⊗ RAWRGB_BIT_WIDTH = 256 * width sn * 10) by (apply u32_id; unfold is_u32, RAWRGB_BIT_WIDTH; lia).
  assert (Hw : 256 * width sn <= a) by (rewrite As; nia).
  assert (U : a * 10 / 8 - width sn * (height sn - 256) = a * 10 / 8 - a + 256 * width sn) by (rewrite As; lia).
  rewrite R, shr1. change (negb (0 =? 0)) with false. cbv iota.
  bcase; [bcase|].
  - rewrite Z.gtb_ltb in E0. bsplit. rewrite (u32_id (im - a)) by (unfold is_u32; lia).
    set (yy := if _ <? _ then _ else _).
    assert (Y : 0 <= yy <= 2 ^ 26 ∧ im - a <= yy) by (subst yy; bcase; lia). clearbody yy.
    eexists yy, _. rewrite (u32_id (height sn - _)) by (unfold is_u32, ISP_YUV_TO_RAW_GAP, CMR_SLICE_HEIGHT; lia).
    change ISP_YUV_TO_RAW_GAP with 256. rewrite (u32_id (width sn * _)) by (unfold is_u32; nia).
    rewrite U, !u32_id by (unfold is_u32; rewrite ?shr1; Z.to_euclidean_division_equations; lia).
    rewrite shr1. split_and!; try done; Z.to_euclidean_division_equations; lia.
  - rewrite Z.gtb_ltb in E0. bsplit. eexists (256 * width sn), _.
    rewrite R2, !u32_id by (unfold is_u32; rewrite ?shr1; Z.to_euclidean_division_equations; lia).
    rewrite shr1. assert (64 * width sn * 4 <= a) by (rewrite As; nia).
    split_and!; try done; Z.to_euclidean_division_equations; lia.
  - apply orb_false_iff in E as [E1 E2]. apply negb_false_iff, Z.eqb_eq in E1, E2.
    exists 0, 0. rewrite Z.div_0_l, Z.add_0_r by done. split_and!; try done; try lia.
    all: subst im a; unfold area in *; rewrite ?E1, ?E2; Z.to_euclidean_division_equations; lia.
Qed.

Lemma arrange_raw_ok frm sn trim image fmt cap rot m a m' cur' a' :
  wf_frame frm → frame_block frm ∈ live a → small image → raw_sensor sn → start_y trim = 0 →
  0 <= buf_size (target_jpeg m) →
  arrange_raw_buf frm sn trim image fmt cap rot m (Cursor (buf_size frm) 0 (area (align16 image))) a = Some (m', cur', a') →
  captured frm rot (area (align16 image)) (area sn) m' cur' a'
  ∧ buf_size (target_jpeg m') = buf_size (target_jpeg m) ∧ channel_size cur' = area sn.
Proof.
  intros Wf F Si Ss T Hj X. unfold arrange_raw_buf in X. bcase; [done|].
  destruct (raw_gaps_ok sn trim image cap Ss Si T) as (yy & useless & Eg & Y1 & Y2 & Y3 & Y4). rewrite Eg in X.
  destruct Ss as (Ss & Al & Hh). destruct (area_value _ Ss) as [_ As].
  destruct (area_value _ (small_align _ Si)) as [_ Ai]. pose proof (area_even _ Ss) as Ev. rewrite Al in Ev.
  pose proof (area_even _ Si) as Ev'.
  destruct (Ss) as [Ws Hs]. destruct (Wf) as (B1 & B2 & B3). cbn [mem_res mem_end] in X.
  set (im := area (align16 image)) in *. set (ar := area sn) in *.
  assert (G : ISP_YUV_TO_RAW_GAP ⊗ width sn = 256 * width sn) by (apply u32_id; unfold is_u32, ISP_YUV_TO_RAW_GAP, CMR_SLICE_HEIGHT; lia).
  rewrite G, (u32_id (ar * _)) in X by (unfold is_u32, RAWRGB_BIT_WIDTH; lia).
  change RAWRGB_BIT_WIDTH with 10 in X.
  assert (Eo : ar * 10 / 8 ⊕ 256 * width sn ⊕ yy ⊖ useless = ar * 10 / 8 + 256 * width sn + yy - useless).
  { rewrite u32_sub_l. rewrite (u32_id (ar * 10 / 8 + _)) by (unfold is_u32; Z.to_euclidean_division_equations; lia).
    apply u32_id. unfold is_u32. lia. }
  rewrite Eo in X. set (off := ar * 10 / 8 + 256 * width sn + yy - useless) in *.
  unfold no_mem in X. bcase; [done|].
  apply bind_Some in X as ([[jpeg res] e] & E1 & X).
  rewrite (u32_id (0 + off)), Z.add_0_l in E1 by (unfold is_u32; lia).
  apply (place_jpeg_ok frm rot m _ _ a [((addr_y frm).1 + 0, off)]) in E1; [|done| | | |done].
  2: { rewrite <- (Z.add_0_l off) at 2. apply placed_frame; [|lia|lia]. by apply placed_nil. }
  2-3: rewrite u32_id by (unfold is_u32; lia); lia.
  destruct E1 as (P & R1 & R2 & R3). pose proof (pl_end _ _ _ _ P) as Pe. rewrite Z.add_0_r in P.
  set (uv := ar / 2 + yy / 2) in *. assert (Uv : 0 <= uv <= 2 ^ 26) by (subst uv; Z.to_euclidean_division_equations; lia).
  destruct (uv <? res) eqn:Eu; bsplit.
  - injection X as <- <- <-.
    destruct (take_frame _ _ _ _ _ uv Wf P R1 R2) as (P2 & -> & ->); [lia|].
    split_and!; [|done|done]. rewrite shift_frame in P2 by (done || lia).
    eexists (_, off), (_, uv). split_and!.
    + eapply placed_perm; [|exact P2]. unfold jpeg_blocks. destruct rot; simpl; [reflexivity|apply perm_swap].
    + split_and!; simpl; lia.
    + planes.
    + exact R3.
  - apply bind_Some in X as ([[[target_u res'] e'] a1] & E2 & X). injection X as <- <- <-.
    apply bind_Some in E2 as ([l a2] & E3 & E4). injection E4 as <- <- <- <-.
    pose proof (alloc_range _ _ _ _ E3). pose proof (placed_alloc _ _ _ _ _ _ _ P E3) as P2.
    split_and!; [|done|done]. eexists (_, off), (_, uv). split_and!.
    + eapply placed_perm; [|exact P2]. unfold jpeg_blocks. destruct rot; simpl; [reflexivity|apply perm_swap].
    + split_and!; simpl; lia.
    + planes.
    + exact R3.
Qed.

Definition rot_blocks (c : Z) m : list (Z * Z) :=
  [plane (addr_u (cap_yuv_rot m)) (c / 2); plane (addr_y (cap_yuv_rot m)) c].

Lemma arrange_rot_ok frm image fmt m cur a I m' cur' a' :
  wf_frame frm → placed frm I (mem_end cur) a → cursor_ok frm cur → 0 <= channel_size cur <= 2 ^ 26 →
  arrange_rot_buf frm image fmt m cur a = Some (m', cur', a') →
  placed frm (rot_blocks (channel_size cur) m' ++ I) (mem_end cur') a' ∧ cursor_ok frm cur'
  ∧ target_jpeg m' = set_jpeg_addr (addr_y (cap_yuv_rot m')) (target_jpeg m) ∧ cap_yuv m' = cap_yuv m
  ∧ target_yuv m' = target_yuv m ∧ thum_yuv m' = thum_yuv m ∧ thum_jpeg m' = thum_jpeg m.
Proof.
  intros Wf P (C1 & C2 & C3) Hc X. unfold arrange_rot_buf in X.
  set (c := channel_size cur) in *. set (size_pixel := if _ =? _ then _ else _) in X.
  assert (Sz : c + c / 2 <= size_pixel <= 2 ^ 27).
  { subst size_pixel. bcase; rewrite ?Z.shiftl_mul_pow2, ?shr1 by lia; rewrite u32_id by (unfold is_u32; lia);
      Z.to_euclidean_division_equations; lia. }
  clearbody size_pixel.
  apply bind_Some in X as ([[[[ry ru] res] e] a1] & E & X). injection X as <- <- <-.
  destruct (mem_res cur >? size_pixel) eqn:G; rewrite Z.gtb_ltb in G; bsplit.
  - injection E as <- <- <- <- <-. destruct (Wf) as (B1 & B2 & B3).
    destruct (take_frame _ _ _ _ _ size_pixel Wf P C2 C3) as (Q & -> & ->); [Z.to_euclidean_division_equations; lia|].
    rewrite shift_frame in Q by (done || lia).
    split_and!; try done; [|split_and!; simpl; Z.to_euclidean_division_equations; lia].
    eapply placed_split; [..|exact Q];
      unfold inside, disjoint_blocks, plane, shift; cbn [addr_y addr_u cap_yuv_rot fst snd]; nowrap;
      Z.to_euclidean_division_equations; lia.
  - apply bind_Some in E as ([l a2] & E1 & E). apply bind_Some in E as ([l' a3] & E2 & E). injection E as <- <- <- <- <-.
    pose proof (placed_alloc _ _ _ _ _ _ _ P E1) as Q1. pose proof (placed_alloc _ _ _ _ _ _ _ Q1 E2) as Q2.
    split_and!; try done. eapply placed_part; [|exact Q2]. unfold inside, plane; simpl.
    Z.to_euclidean_division_equations; lia.
Qed.

(** *** The whole arrangement *)

(** The pixels of the image captured, and those the rotation works on. *)
Definition captured_pixels (fmt : Z) (sn_size cap_size : img_size) : Z :=
  if fmt =? IMG_DATA_TYPE_RAW then area sn_size else if fmt =? IMG_DATA_TYPE_JPEG then area sn_size else area cap_size.
Definition rotated_pixels (fmt : Z) (sn_size image_size cap_size : img_size) : Z :=
  if fmt =? IMG_DATA_TYPE_RAW then area sn_size else Z.max (area (align16 image_size)) (area cap_size).

(** What the arrangement expects: sizes up to 8192 pixels a side, the trim inside the sensor's image; a raw
    sensor has sides that are multiples of 16 and is not trimmed; a JPEG sensor's image is not rotated. *)
Definition regular (fmt : Z) (sn_size : img_size) (trim : img_rect) (image_size cap_size : img_size) (rot : bool) : Prop :=
  small sn_size ∧ small image_size ∧ small cap_size ∧ trimmed sn_size trim
  ∧ (fmt = IMG_DATA_TYPE_RAW → raw_sensor sn_size ∧ start_y trim = 0)
  ∧ (fmt = IMG_DATA_TYPE_JPEG → rot = false).

(** The buffers of a capture, after the last adjustment of the JPEG buffer's start. *)
Definition buffers (rot : bool) (rotated : Z) m (y u : Z * Z) : list (Z * Z) :=
  (if rot then rot_blocks rotated m
   else [((addr_y (target_jpeg m)).1 - JPEG_EXIF_SIZE, buf_size (target_jpeg m) + JPEG_EXIF_SIZE)])
  ++ [frm_block (thum_jpeg m); frm_block (thum_yuv m); u; y].

(** The capture step, whatever the format. *)
Lemma capture_step_ok frm sn trim image fmt cap rot a m cur a' :
  wf_frame frm → frame_block frm ∈ live a → regular fmt sn trim image cap rot →
  (if fmt =? IMG_DATA_TYPE_RAW then
     arrange_raw_buf frm sn trim image fmt cap rot
       (CapMem frm_zero frm_zero frm_zero
          (ImgFrm 0 (get_jpeg_size (width (align16 image)) (height (align16 image))) (ImgSize 0 0) (0, 0) (0, 0))
          frm_zero frm_zero frm_zero frm_zero frm_zero frm_zero)
       (Cursor (buf_size frm) 0 (area (align16 image))) a
   else
     '(m, cur) ←
       (if fmt =? IMG_DATA_TYPE_JPEG
        then arrange_jpeg_buf frm sn trim image fmt cap rot
               (CapMem frm_zero frm_zero frm_zero
                  (ImgFrm 0 (get_jpeg_size (width (align16 image)) (height (align16 image))) (ImgSize 0 0) (0, 0) (0, 0))
                  frm_zero frm_zero frm_zero frm_zero frm_zero frm_zero)
               (Cursor (buf_size frm) 0 (area (align16 image)))
        else arrange_yuv_buf frm image fmt cap rot
               (CapMem frm_zero frm_zero frm_zero
                  (ImgFrm 0 (get_jpeg_size (width (align16 image)) (height (align16 image))) (ImgSize 0 0) (0, 0) (0, 0))
                  frm_zero frm_zero frm_zero frm_zero frm_zero frm_zero)
               (Cursor (buf_size frm) 0 (area (align16 image))));
     Some (m, cur, a)) = Some (m, cur, a') →
  captured frm rot (area (align16 image)) (captured_pixels fmt sn cap) m cur a'
  ∧ buf_size (target_jpeg m) = get_jpeg_size (width (align16 image)) (height (align16 image))
  ∧ (rot = true → channel_size cur = rotated_pixels fmt sn image cap).
Proof.
  intros Wf F (Ss & Si & Sc & T & Hraw & Hjpeg) X. unfold captured_pixels, rotated_pixels.
  destruct (get_jpeg_size_bounds _ (small_align _ Si)) as [J _].
  assert (J0 : 0 <= get_jpeg_size (width (align16 image)) (height (align16 image))) by (unfold JPEG_EXIF_SIZE in J; lia).
  bcase.
  - destruct (Hraw E) as [Rs T0].
    by apply arrange_raw_ok in X as (C & Ej & Ec).
  - apply bind_Some in X as ([m1 cur1] & E1 & X). injection X as <- <- <-.
    bcase.
    + rewrite (Hjpeg E0) in *. by apply (arrange_jpeg_ok frm sn trim image fmt cap _ a) in E1 as (C & Ej).
    + by apply (arrange_yuv_ok frm image fmt cap rot _ a) in E1 as (C & Ej & Ec).
Qed.

(** C29. The output buffers of a regular capture do not overlap.  Regular: sides of at most 8192 pixels and a trim inside the
    sensor's image; from a raw sensor, sides that are multiples of 16, at least 256 lines and no trim; from a JPEG
    sensor, no rotation ([jpeg_rotated_chroma_overlaps] shows the overlap there).  When
    [camera_arrange_capture_buf] lays such a capture out, the luma and the chroma block of the image, its two
    thumbnails, and its JPEG buffer or (rotated) the two rotation buffers are pairwise disjoint and each lies in the
    frame's memory or in a block the allocator gave; the target image and the image captured, which share their memory
    by intention, are inside the luma and chroma blocks, and the JPEG buffer with the room for the EXIF header takes a byte
    per pixel.  The sensor's raw data ([cap_raw]), which the image overwrites while it is converted, are not one of
    these buffers. *)
Theorem capture_buffers_disjoint frm sn trim image fmt cap thum rot a m cur a' :
  wf_frame frm → frame_block frm ∈ live a → regular fmt sn trim image cap rot →
  arrange_first frm sn trim image fmt cap thum rot a = Some (m, cur, a') →
  ∃ y u, let bs := buffers rot (rotated_pixels fmt sn image cap) m y u in
    ForallOrdPairs disjoint_blocks bs
    ∧ Forall (λ b, inside b (frame_block frm) ∨ ∃ c, c ∈ live a' ∧ disjoint_blocks (frame_block frm) c ∧ inside b c) bs
    ∧ planes_inside (area (align16 image)) (captured_pixels fmt sn cap) m y u
    ∧ area (align16 image) <= buf_size (target_jpeg m) + JPEG_EXIF_SIZE.
Proof.
  intros Wf F R X. destruct (R) as (Ss & Si & Sc & _). unfold arrange_first in X.
  apply bind_Some in X as ([[m1 cur1] a1] & E1 & X). apply bind_Some in X as ([[m2 cur2] a2] & E2 & X).
  apply bind_Some in X as ([[m3 cur3] a3] & E3 & X). injection X as <- <- <-.
  destruct (capture_step_ok frm sn trim image fmt cap rot a m1 cur1 a1 Wf F R E1)
    as ((y & u & P & C & Pl & Jr) & Ej & Ec). clear E1.
  destruct (arrange_misc_ok _ _ _ _ _ _ _ _ _ Wf P C E2) as (P2 & C2 & Ec2 & Ej2 & Ecy & Ety & _ & _).
  destruct (get_jpeg_size_bounds _ (small_align _ Si)) as (J1 & J2 & J3).
  destruct (area_value _ (small_align _ Si)) as [_ Ai]. rewrite <- Ej in J1, J2, J3.
  assert (Er : 0 <= rotated_pixels fmt sn image cap <= 2 ^ 26).
  { unfold rotated_pixels. destruct (area_value _ Ss), (area_value _ Sc). bcase; lia. }
  exists y, u. cbv zeta. destruct rot.
  - rewrite <- Ec, <- Ec2 in Er |- * by done.
    destruct (arrange_rot_ok _ _ _ _ _ _ _ _ _ _ Wf P2 C2 Er E3) as (P3 & C3 & Ejr & Ecr & Etr & Tyr & Tjr).
    unfold buffers, planes_inside. cbn [cap_yuv_rot target_jpeg thum_jpeg thum_yuv target_yuv cap_yuv buf_size].
    rewrite Tyr, Tjr, Ecr, Etr, Ecy, Ety, Ejr, Ej2. destruct P3 as [D W _ L]. split; [done|]. split; [|split; [done|]].
    + eapply list.Forall_impl; [exact W|]. cbv beta. intros b [I|I]; [left|by right].
      unfold inside, frame_block in *; simpl in *. lia.
    + cbn [set_jpeg_addr buf_size]. rewrite u32_id by (unfold is_u32; unfold JPEG_EXIF_SIZE in *; lia). lia.
  - injection E3 as <- <- <-. unfold buffers, planes_inside. cbn [target_jpeg thum_jpeg thum_yuv target_yuv cap_yuv buf_size addr_y].
    rewrite Ecy, Ety, Ej2. unfold jpeg_blocks, jpeg_block in *. simpl in Jr. specialize (Jr eq_refl).
    unfold shift; cbn [fst]. unfold JPEG_EXIF_SIZE in *. rewrite !u32_id by (unfold is_u32; lia).
    replace ((addr_y (target_jpeg m1)).1 + 64 * 1024 - 64 * 1024) with (addr_y (target_jpeg m1)).1 by lia.
    replace (buf_size (target_jpeg m1) - 64 * 1024 + 64 * 1024) with (buf_size (target_jpeg m1)) by lia.
    assert (P3 : placed frm ([((addr_y (target_jpeg m1)).1, buf_size (target_jpeg m1))]
                  ++ [frm_block (thum_jpeg m2); frm_block (thum_yuv m2); u; y]) (mem_end cur2) a2).
    { eapply placed_perm; [|exact P2]. simpl.
      eapply Permutation_trans; [apply perm_skip, perm_swap|apply perm_swap]. }
    destruct P3 as [D W _ L]. split; [done|]. split; [|split; [done|lia]].
    eapply list.Forall_impl; [exact W|]. cbv beta. intros b [I|I]; [left|by right].
    unfold inside, frame_block in *; simpl in *. lia.
Qed.

(** ** The tables are large enough *)

Context (alloc_total : ∀ a n, is_Some (alloc_mem a n)).

Lemma table_room camera sfmt s n :
  camera = BACK_CAMERA_ID ∨ camera = FRONT_CAMERA_ID → small s →
  camera_capture_buf_size camera sfmt (Some s) true = Some n → 5 * area s + 2 * 65540 <= 2 * n <= 2 ^ 30.
Proof.
  intros C S X. destruct (area_value _ S) as [_ As]. unfold camera_capture_buf_size in X. simpl in X.
  unfold select_table in X. destruct C as [-> | ->]; simpl in X; bcase;
    (match type of X with first_match _ ?t = _ => let t' := eval vm_compute in t in change t with t' in X end);
    cbn [first_match] in X; repeat (bcase; [injection X as <-; lia|]); done.
Qed.

Lemma place_jpeg_succeeds frm rot m res e :
  buf_size (target_jpeg m) <= res → is_Some (place_jpeg frm rot m res e).
Proof. intros Hj. unfold place_jpeg, no_mem. destruct rot; [done|]. bdecide. done. Qed.

Lemma arrange_yuv_succeeds frm image fmt cap rot m cur :
  fmt ≠ IMG_DATA_TYPE_JPEG → fmt ≠ IMG_DATA_TYPE_RAW → small image → area cap <= area (align16 image) →
  is_u32 (mem_res cur) → 0 <= buf_size (target_jpeg m) →
  3 * area (align16 image) + 2 * buf_size (target_jpeg m) <= 2 * mem_res cur →
  0 <= area cap → is_Some (arrange_yuv_buf frm image fmt cap rot m cur).
Proof.
  intros F1 F2 Si Hc Hr Hj Room Hc0. unfold arrange_yuv_buf.
  rewrite (proj2 (Z.eqb_neq fmt _) F1), (proj2 (Z.eqb_neq fmt _) F2). simpl orb. cbv iota.
  destruct (area_value _ (small_align _ Si)) as [_ Ai]. set (im := area (align16 image)) in *.
  unfold is_u32 in Hr.
  assert (G : ∀ c, 0 <= c <= im → Z.shiftr (c ⊗ 3) 1 <= mem_res cur - buf_size (target_jpeg m)
                ∧ 0 <= Z.shiftr (c ⊗ 3) 1).
  { intros c Hc'. rewrite shr1, u32_id by (unfold is_u32; lia). Z.to_euclidean_division_equations. lia. }
  destruct (im >? area cap);
    [destruct (G im) as [G1 G2]; [lia|]|destruct (G (area cap)) as [G1 G2]; [lia|]];
    unfold no_mem; bdecide;
    (match goal with |- context [place_jpeg ?f ?r ?m ?res ?e] =>
       destruct (place_jpeg_succeeds f r m res e) as [[[l res'] e'] ->];
       [rewrite u32_id by (unfold is_u32; lia); lia|] end); eauto.
Qed.

Lemma arrange_raw_succeeds frm sn trim fmt cap rot m cur a :
  fmt = IMG_DATA_TYPE_RAW → raw_sensor sn → start_y trim = 0 → is_u32 (mem_res cur) → 0 <= buf_size (target_jpeg m) →
  5 * area sn + 4 * 256 * width sn + 4 * buf_size (target_jpeg m) <= 4 * mem_res cur →
  is_Some (arrange_raw_buf frm sn trim sn fmt cap rot m cur a).
Proof.
  intros -> (Ss & Al & Hh) T Hr Hj Room. unfold arrange_raw_buf, raw_gaps.
  rewrite Al, !Z.eqb_refl, T. change (negb (0 =? 0)) with false. cbn [negb orb]. cbv iota beta.
  destruct (area_value _ Ss) as [_ As]. destruct (Ss) as [Ws Hs]. unfold is_u32 in Hr.
  set (off := _ ⊖ 0).
  assert (Eo : off = area sn * 10 / 8 + 256 * width sn).
  { subst off. unfold ISP_YUV_TO_RAW_GAP, CMR_SLICE_HEIGHT, RAWRGB_BIT_WIDTH.
    rewrite (u32_id (256 * _)), (u32_id (area sn * 10)) by (unfold is_u32; lia).
    rewrite Z.add_0_r, Z.sub_0_r. unfold u32. rewrite !Z.mod_mod by lia. apply u32_id. unfold is_u32.
    Z.to_euclidean_division_equations. lia. }
  assert (Ho : 0 <= off <= mem_res cur - buf_size (target_jpeg m)).
  { rewrite Eo. Z.to_euclidean_division_equations. lia. }
  unfold no_mem. bdecide.
  destruct (place_jpeg_succeeds frm rot m (mem_res cur ⊖ off) (mem_end cur ⊕ off)) as [[[l res'] e'] ->];
    [rewrite u32_id by (unfold is_u32; lia); lia|].
  cbn [mbind option_bind]. bcase; [simpl; eauto|].
  match goal with |- context [alloc_mem a ?n] => destruct (alloc_total a n) as [[l' a'] ->] end. simpl; eauto.
Qed.

Lemma misc_alloc_succeeds sizes : ∀ a, ∃ fs a', misc_alloc sizes a = Some (fs, a') ∧ length fs = length sizes.
Proof.
  induction sizes as [|n sizes IH]; intros a; simpl; [by eexists _, _|].
  destruct (alloc_total a n) as [[l a1] ->]. simpl. destruct (IH a1) as (fs & a2 & -> & L). simpl.
  eexists _, _. split; [done|]. simpl. by rewrite L.
Qed.

Lemma misc_in_frame_length frm sizes : ∀ res e fs later res' e',
  misc_in_frame frm sizes res e = (fs, later, res', e') → (length fs + length later = length sizes)%nat.
Proof.
  induction sizes as [|n sizes IH]; intros res e fs later res' e' X; simpl in X; [by injection X as <- <- <- <-|].
  bcase; [|by injection X as <- <- <- <-].
  destruct (misc_in_frame frm sizes _ _) as [[[fs1 later1] r1] e1] eqn:M. injection X as <- <- <- <-.
  apply IH in M. simpl. lia.
Qed.

Lemma arrange_misc_succeeds frm thum m cur a : is_Some (arrange_misc_buf frm thum m cur a).
Proof.
  unfold arrange_misc_buf.
  destruct (misc_in_frame frm _ _ _) as [[[fs later] res] e] eqn:M. apply misc_in_frame_length in M.
  destruct (misc_alloc_succeeds later a) as (fs' & a' & -> & L). simpl.
  assert (E : length (fs ++ fs') = 2%nat) by (rewrite length_app; simpl in M; lia).
  destruct (fs ++ fs') as [|ty [|tj [|]]]; done.
Qed.

Lemma arrange_rot_succeeds frm image fmt m cur a : is_Some (arrange_rot_buf frm image fmt m cur a).
Proof.
  unfold arrange_rot_buf. set (size_pixel := if fmt =? _ then _ else _). clearbody size_pixel.
  destruct (mem_res cur >? size_pixel); [simpl; eauto|].
  destruct (alloc_total a (channel_size cur)) as [[l a1] ->]. simpl.
  destruct (alloc_total a1 (channel_size cur)) as [[l' a2] ->]. simpl. eauto.
Qed.

(** C30. The size [camera_capture_buf_size] answers is enough for the arrangement of common captures, of the back and
    the front camera: when the frame has that size and the allocator never fails, an image of up to 8192 pixels a
    side with sides that are multiples of 16 is laid out, from a YUV sensor when it is not captured larger than
    it is saved, and from an untrimmed raw sensor of at least 1024 lines that is saved at its own size.  For JPEG
    sensors it is not enough, as [jpeg_size_too_small] shows. *)
Theorem capture_size_suffices camera sfmt frm sn trim image fmt cap thum rot a mems n :
  camera = BACK_CAMERA_ID ∨ camera = FRONT_CAMERA_ID →
  camera_capture_buf_size camera sfmt (Some image) true = Some (buf_size frm) →
  small image → align16 image = image → area cap <= area image → 0 <= area cap → fmt ≠ IMG_DATA_TYPE_JPEG →
  (fmt = IMG_DATA_TYPE_RAW → sn = image ∧ raw_sensor sn ∧ start_y trim = 0 ∧ 1024 <= height sn) →
  (1 <= n <= length mems)%nat →
  ∃ m a', camera_arrange_capture_buf (Some frm) (Some sn) (Some trim) (Some image) fmt (Some cap) (Some thum)
            (Some mems) rot n a = Some (Some (replicate n m ++ drop n mems, a')).
Proof.
  intros C Sz Si Al Hc Hc0 F1 Hraw Hn. pose proof (table_room _ _ _ _ C Si Sz) as Room.
  destruct (get_jpeg_size_bounds _ Si) as (J1 & J2 & J3). unfold JPEG_EXIF_SIZE in J1.
  unfold camera_arrange_capture_buf. simpl. rewrite decide_False by lia.
  replace (Nat.max 1 n) with n by lia.
  enough (X : is_Some (arrange_first frm sn trim image fmt cap thum rot a)) by (destruct X as [[[m cur] a'] ->]; eauto).
  destruct (area_value _ Si) as [_ Ai]. unfold arrange_first. rewrite Al.
  set (m0 := CapMem _ _ _ _ _ _ _ _ _ _). set (cur0 := Cursor _ _ _).
  assert (X : is_Some (if fmt =? IMG_DATA_TYPE_RAW then arrange_raw_buf frm sn trim image fmt cap rot m0 cur0 a
    else '(m, cur) ← (if fmt =? IMG_DATA_TYPE_JPEG then arrange_jpeg_buf frm sn trim image fmt cap rot m0 cur0
                      else arrange_yuv_buf frm image fmt cap rot m0 cur0); Some (m, cur, a))).
  { bcase.
    - destruct (Hraw E) as (-> & Rs & T & Hh). apply arrange_raw_succeeds; try done; simpl; try lia;
        [unfold is_u32; lia|]. destruct (area_value _ Si) as [Av _]. destruct Si as [Ws Hs]. nia.
    - rewrite (proj2 (Z.eqb_neq fmt _) F1).
      destruct (arrange_yuv_succeeds frm image fmt cap rot m0 cur0) as [[m1 c1] ->]; simpl; rewrite ?Al; unfold is_u32; try done; lia. }
  destruct X as [[[m1 cur1] a1] ->]. simpl.
  destruct (arrange_misc_succeeds frm thum m1 cur1 a1) as [[[m2 cur2] a2] ->]. simpl.
  destruct rot; [|simpl; eauto]. destruct (arrange_rot_succeeds frm image fmt m2 cur2 a2) as [[[m3 cur3] a3] ->].
  simpl. eauto.
Qed.
End placement.

(** ** Two allocators *)

#[export] Instance disjoint_blocks_dec b c : Decision (disjoint_blocks b c).
Proof. unfold disjoint_blocks. apply _. Defined.

(** An allocator that hands out one block after the other. *)
Record bump := Bump { next : Z; used : list (Z * Z) }.

#[export] Instance bump_allocator : Allocator bump := {
  alloc_mem a n :=
    if decide (0 <= next a ∧ 0 <= n ∧ next a + n < 2 ^ 32 ∧ Forall (disjoint_blocks (next a, n)) (used a))
    then Some ((next a, next a), Bump (next a + n) ((next a, n) :: used a)) else None;
  live := used }.

#[export] Instance bump_spec : AllocatorSpec bump.
Proof.
  split; intros a n l a'; simpl; (case_decide as D; [|done]); intros [= <- <-]; destruct D as (? & ? & ? & ?); simpl;
    [done|done|lia].
Qed.

(** One that never fails, for the question whether the frame is large enough. *)
#[export] Instance unit_allocator : Allocator unit := { alloc_mem a n := Some ((0, 0), a); live _ := [] }.

Definition ex_frame : img_frm := ImgFrm 0 (8 * 2 ^ 20) (ImgSize 0 0) (0x90000000, 0x40000000) (0, 0).
Definition ex_bump : bump := Bump 0xa0000000 [frame_block ex_frame].
Definition ex_image : img_size := ImgSize 1600 1200.
Definition ex_cap : img_size := ImgSize 1280 960.
Definition ex_thumb : img_size := ImgSize 320 240.
Definition ex_trim : img_rect := ImgRect 0 0 1280 960.

Lemma capture_buffers_disjoint_witness :
  match arrange_first ex_frame ex_cap ex_trim ex_image IMG_DATA_TYPE_YUV420 ex_cap ex_thumb true ex_bump with
  | Some (m, _, a') =>
      ∃ y u, let bs := buffers true (1600 * 1200) m y u in
        ForallOrdPairs disjoint_blocks bs
        ∧ Forall (λ b, inside b (frame_block ex_frame)
                       ∨ ∃ c, c ∈ live a' ∧ disjoint_blocks (frame_block ex_frame) c ∧ inside b c) bs
        ∧ planes_inside (1600 * 1200) (1280 * 960) m y u
        ∧ 1600 * 1200 <= buf_size (target_jpeg m) + JPEG_EXIF_SIZE
  | None => False
  end.
Proof.
  destruct (arrange_first _ _ _ _ _ _ _ _ _) as [[[m cur] a']|] eqn:E; [|by vm_compute in E].
  apply (capture_buffers_disjoint ex_frame ex_cap ex_trim ex_image IMG_DATA_TYPE_YUV420 ex_cap ex_thumb true ex_bump
           m cur a'); [| | |exact E].
  - split_and!; vm_compute; congruence.
  - by left.
  - split_and!; try (vm_compute; congruence); done.
Defined.

Lemma capture_size_suffices_witness :
  camera_capture_buf_size BACK_CAMERA_ID 0 (Some ex_image) true = Some (8 * 2 ^ 20)
  ∧ ∃ m a', camera_arrange_capture_buf (Some ex_frame) (Some ex_cap) (Some ex_trim) (Some ex_image)
              IMG_DATA_TYPE_YUV420 (Some ex_cap) (Some ex_thumb) (Some [cap_mem_zero]) false 1 tt
            = Some (Some (replicate 1 m ++ drop 1 [cap_mem_zero], a')).
Proof.
  split; [reflexivity|].
  apply (capture_size_suffices (λ _ _, ltac:(by eexists)) BACK_CAMERA_ID 0); try done. by left.
Defined.

(** The restriction to other sensors than JPEG is needed: for an image of 3264 x 2448 pixels the tables give 22 MB, less
    than the three planes that [arrange_jpeg_buf] wants. *)
Lemma jpeg_size_too_small :
  let image := ImgSize 3264 2448 in
  camera_capture_buf_size BACK_CAMERA_ID 0 (Some image) true = Some (22 * 2 ^ 20)
  ∧ arrange_first (ImgFrm 0 (22 * 2 ^ 20) (ImgSize 0 0) (0x90000000, 0x40000000) (0, 0)) image
      (ImgRect 0 0 3264 2448) image IMG_DATA_TYPE_JPEG image ex_thumb false tt = None.
Proof. vm_compute. split; reflexivity. Qed.

(** The restriction to unrotated JPEG captures is needed: [arrange_jpeg_buf] reserves one and a half planes
    for what it spreads over two when the capture is rotated, so an image of 640 x 480 pixels saved as 1280 x
    960 has the 4:2:0 chroma of the image captured inside the rotation buffer. *)
Lemma jpeg_rotated_chroma_overlaps :
  ∃ m cur a', arrange_first ex_frame (ImgSize 640 480) (ImgRect 0 0 640 480) ex_cap IMG_DATA_TYPE_JPEG
                (ImgSize 640 480) ex_thumb true ex_bump = Some (m, cur, a')
    ∧ frm_size (cap_yuv m) = ImgSize 640 480
    ∧ inside (plane (addr_u (cap_yuv m)) (640 * 480 / 2)) (plane (addr_y (cap_yuv_rot m)) (1280 * 960)).
Proof.
  eexists _, _, _. split; [vm_compute; reflexivity|]. split; [done|]. vm_compute. split; congruence.
Qed.
