(* ===== verification/Crc16.v ===== *)
(** * CRC-16 of the engineering mode (engmode/crc16.c)

    The table-driven checksum, its equivalence with the bit-by-bit definition of
    the polynomial 0x8005 (reflected: 0xA001), and what it detects. *)

From stdpp Require Import list numbers.
From S2P Require Import Prelude.

Definition crc16_table : list Z :=
  [0x0000; 0xC0C1; 0xC181; 0x0140; 0xC301; 0x03C0; 0x0280; 0xC241;
   0xC601; 0x06C0; 0x0780; 0xC741; 0x0500; 0xC5C1; 0xC481; 0x0440;
   0xCC01; 0x0CC0; 0x0D80; 0xCD41; 0x0F00; 0xCFC1; 0xCE81; 0x0E40;
   0x0A00; 0xCAC1; 0xCB81; 0x0B40; 0xC901; 0x09C0; 0x0880; 0xC841;
   0xD801; 0x18C0; 0x1980; 0xD941; 0x1B00; 0xDBC1; 0xDA81; 0x1A40;
   0x1E00; 0xDEC1; 0xDF81; 0x1F40; 0xDD01; 0x1DC0; 0x1C80; 0xDC41;
   0x1400; 0xD4C1; 0xD581; 0x1540; 0xD701; 0x17C0; 0x1680; 0xD641;
   0xD201; 0x12C0; 0x1380; 0xD341; 0x1100; 0xD1C1; 0xD081; 0x1040;
   0xF001; 0x30C0; 0x3180; 0xF141; 0x3300; 0xF3C1; 0xF281; 0x3240;
   0x3600; 0xF6C1; 0xF781; 0x3740; 0xF501; 0x35C0; 0x3480; 0xF441;
   0x3C00; 0xFCC1; 0xFD81; 0x3D40; 0xFF01; 0x3FC0; 0x3E80; 0xFE41;
   0xFA01; 0x3AC0; 0x3B80; 0xFB41; 0x3900; 0xF9C1; 0xF881; 0x3840;
   0x2800; 0xE8C1; 0xE981; 0x2940; 0xEB01; 0x2BC0; 0x2A80; 0xEA41;
   0xEE01; 0x2EC0; 0x2F80; 0xEF41; 0x2D00; 0xEDC1; 0xEC81; 0x2C40;
   0xE401; 0x24C0; 0x2580; 0xE541; 0x2700; 0xE7C1; 0xE681; 0x2640;
   0x2200; 0xE2C1; 0xE381; 0x2340; 0xE101; 0x21C0; 0x2080; 0xE041;
   0xA001; 0x60C0; 0x6180; 0xA141; 0x6300; 0xA3C1; 0xA281; 0x6240;
   0x6600; 0xA6C1; 0xA781; 0x6740; 0xA501; 0x65C0; 0x6480; 0xA441;
   0x6C00; 0xACC1; 0xAD81; 0x6D40; 0xAF01; 0x6FC0; 0x6E80; 0xAE41;
   0xAA01; 0x6AC0; 0x6B80; 0xAB41; 0x6900; 0xA9C1; 0xA881; 0x6840;
   0x7800; 0xB8C1; 0xB981; 0x7940; 0xBB01; 0x7BC0; 0x7A80; 0xBA41;
   0xBE01; 0x7EC0; 0x7F80; 0xBF41; 0x7D00; 0xBDC1; 0xBC81; 0x7C40;
   0xB401; 0x74C0; 0x7580; 0xB541; 0x7700; 0xB7C1; 0xB681; 0x7640;
   0x7200; 0xB2C1; 0xB381; 0x7340; 0xB101; 0x71C0; 0x7080; 0xB041;
   0x5000; 0x90C1; 0x9181; 0x5140; 0x9301; 0x53C0; 0x5280; 0x9241;
   0x9601; 0x56C0; 0x5780; 0x9741; 0x5500; 0x95C1; 0x9481; 0x5440;
   0x9C01; 0x5CC0; 0x5D80; 0x9D41; 0x5F00; 0x9FC1; 0x9E81; 0x5E40;
   0x5A00; 0x9AC1; 0x9B81; 0x5B40; 0x9901; 0x59C0; 0x5880; 0x9841;
   0x8801; 0x48C0; 0x4980; 0x8941; 0x4B00; 0x8BC1; 0x8A81; 0x4A40;
   0x4E00; 0x8EC1; 0x8F81; 0x4F40; 0x8D01; 0x4DC0; 0x4C80; 0x8C41;
   0x4400; 0x84C1; 0x8581; 0x4540; 0x8701; 0x47C0; 0x4680; 0x8641;
   0x8201; 0x42C0; 0x4380; 0x8341; 0x4100; 0x81C1; 0x8081; 0x4040].

(** The body of the loop: [crc = (crc >> 8) ^ crc16_table[(crc ^ *buffer++) & 0xff]]. *)
Definition crc16_step (crc b : Z) : Z :=
  u16 (Z.lxor (Z.shiftr crc 8)
         (default 0 (crc16_table !! Z.to_nat (Z.land (Z.lxor crc b) 0xff)))).

(** [crc16 (crc, buffer, len)]; the buffer is the [len] bytes read. *)
Fixpoint crc16 (crc : Z) (buffer : bytes) : Z :=
  match buffer with
  | [] => crc
  | b :: rest => crc16 (crc16_step crc b) rest
  end.

(** ** Reference: one bit at a time *)

Definition crc_bit (c : Z) : Z :=
  if Z.odd c then Z.lxor (Z.shiftr c 1) 0xA001 else Z.shiftr c 1.

Definition crc_byte (c : Z) : Z :=
  crc_bit (crc_bit (crc_bit (crc_bit (crc_bit (crc_bit (crc_bit (crc_bit c))))))).

Fixpoint crc_ref (crc : Z) (buffer : bytes) : Z :=
  match buffer with [] => crc | b :: rest => crc_ref (crc_byte (Z.lxor crc b)) rest end.

(** The inverse of a bit step. *)
Definition crc_unbit (c : Z) : Z :=
  if Z.testbit c 15 then Z.lor (Z.shiftl (Z.lxor c 0xA001) 1) 1 else Z.shiftl c 1.

Definition crc_unbyte (c : Z) : Z :=
  crc_unbit (crc_unbit (crc_unbit (crc_unbit (crc_unbit (crc_unbit (crc_unbit (crc_unbit c))))))).

(** Decides a property of all 16-bit values. *)
Fixpoint all_below (n : nat) (base : Z) (f : Z → bool) : bool :=
  match n with
  | O => f base
  | S n' => all_below n' base f && all_below n' (base + 2 ^ Z.of_nat n') f
  end.

Lemma all_below_spec n base f z :
  all_below n base f = true → base <= z < base + 2 ^ Z.of_nat n → f z = true.
Proof.
  revert base. induction n as [|n IH]; intros base H Hz.
  - assert (z = base) as -> by lia. done.
  - simpl in H. apply andb_true_iff in H as [H1 H2].
    rewrite Nat2Z.inj_succ, Z.pow_succ_r in Hz by lia.
    destruct (Z.lt_ge_cases z (base + 2 ^ Z.of_nat n)).
    + apply (IH _ H1). lia.
    + apply (IH _ H2). lia.
Qed.

(** What one byte step does to a 16-bit value, checked on all of them. *)
Definition byte_check (x : Z) : bool :=
  (Z.lxor (Z.shiftr x 8) (default 0 (crc16_table !! Z.to_nat (Z.land x 0xff))) =? crc_byte x)
  && (crc_unbyte (crc_byte x) =? x) && (0 <=? crc_byte x) && (crc_byte x <? 65536).

Lemma byte_check_all x : is_u16 x → byte_check x = true.
Proof. apply (all_below_spec 16 0). vm_compute. reflexivity. Qed.

Lemma crc_byte_ok x : is_u16 x →
  Z.lxor (Z.shiftr x 8) (default 0 (crc16_table !! Z.to_nat (Z.land x 0xff))) = crc_byte x
  ∧ crc_unbyte (crc_byte x) = x ∧ is_u16 (crc_byte x).
Proof.
  intros H. pose proof (byte_check_all x H) as C. unfold byte_check in C. bsplit.
  unfold is_u16. split_and!; try done; lia.
Qed.

Lemma lxor_range n x y : 0 <= n → 0 <= x < 2 ^ n → 0 <= y < 2 ^ n → 0 <= Z.lxor x y < 2 ^ n.
Proof.
  intros Hn Hx Hy. rewrite <- (Z.mod_small x (2 ^ n)), <- (Z.mod_small y (2 ^ n)) by done.
  assert (E : Z.lxor (x mod 2 ^ n) (y mod 2 ^ n) = Z.lxor x y mod 2 ^ n).
  { apply Z.bits_inj'. intros i Hi. rewrite Z.lxor_spec.
    destruct (Z.lt_ge_cases i n).
    - by rewrite !Z.mod_pow2_bits_low, Z.lxor_spec by lia.
    - by rewrite !Z.mod_pow2_bits_high by lia. }
  rewrite E. apply Z.mod_pos_bound. lia.
Qed.

Lemma crc16_step_byte crc b : is_u16 crc → is_u8 b → crc16_step crc b = crc_byte (Z.lxor crc b).
Proof.
  intros Hc Hb. assert (Hx : is_u16 (Z.lxor crc b)).
  { unfold is_u16, is_u8 in *. apply lxor_range; lia. }
  destruct (crc_byte_ok _ Hx) as (E & _ & R). unfold crc16_step. rewrite <- E in R |- *.
  rewrite Z.shiftr_lxor in R |- *. replace (Z.shiftr b 8) with 0 in R |- *.
  - rewrite Z.lxor_0_r in R |- *. by apply u16_id.
  - rewrite Z.shiftr_div_pow2 by lia. symmetry. apply Z.div_small. unfold is_u8 in Hb. lia.
Qed.

Lemma crc_byte_inj x y : is_u16 x → is_u16 y → crc_byte x = crc_byte y → x = y.
Proof.
  intros Hx Hy E. destruct (crc_byte_ok x Hx) as (_ & <- & _), (crc_byte_ok y Hy) as (_ & <- & _).
  by rewrite E.
Qed.

Lemma crc16_step_range crc b : is_u16 (crc16_step crc b).
Proof. apply u16_range. Qed.

Lemma crc16_range crc buf : is_u16 crc → is_u16 (crc16 crc buf).
Proof.
  revert crc. induction buf as [|b buf IH]; intros crc H; [done|]. apply IH, crc16_step_range.
Qed.

Lemma crc16_app crc l1 l2 : crc16 crc (l1 ++ l2) = crc16 (crc16 crc l1) l2.
Proof. revert crc. induction l1 as [|b l1 IH]; intros crc; [done|]. apply IH. Qed.

(** C38. The table-driven checksum is the bit-by-bit one: [crc16] computes, for every buffer and
    every 16-bit start value, the remainder for the reflected polynomial 0xA001. *)
Theorem crc16_bitwise crc buf : is_u16 crc → wf_bytes buf → crc16 crc buf = crc_ref crc buf.
Proof.
  revert crc. induction buf as [|b buf IH]; intros crc Hc Hw; [done|].
  apply wf_cons in Hw as [Hb Hw]. cbn [crc16 crc_ref]. rewrite <- crc16_step_byte by done.
  apply IH; [apply crc16_step_range|done].
Qed.

Lemma crc16_inj buf c1 c2 :
  is_u16 c1 → is_u16 c2 → wf_bytes buf → crc16 c1 buf = crc16 c2 buf → c1 = c2.
Proof.
  revert c1 c2. induction buf as [|b buf IH]; intros c1 c2 H1 H2 Hw E; [done|].
  apply wf_cons in Hw as [Hb Hw].
  assert (Es : crc16_step c1 b = crc16_step c2 b) by (apply IH; auto using crc16_step_range).
  rewrite !crc16_step_byte in Es by done.
  assert (R : ∀ c, is_u16 c → is_u16 (Z.lxor c b)) by (intros; unfold is_u16, is_u8 in *; apply lxor_range; lia).
  apply crc_byte_inj in Es; [|auto..].
  apply (f_equal (λ z, Z.lxor z b)) in Es.
  by rewrite !Z.lxor_assoc, Z.lxor_nilpotent, !Z.lxor_0_r in Es.
Qed.

(** The checksum detects errors: a buffer with one byte changed has another checksum. *)
Theorem crc16_detects_byte crc pre b b' post :
  is_u16 crc → wf_bytes (pre ++ b :: post) → is_u8 b' → b ≠ b' →
  crc16 crc (pre ++ b :: post) ≠ crc16 crc (pre ++ b' :: post).
Proof.
  intros Hc [Hp [Hb Ho]%wf_cons]%wf_app Hb' Hne. rewrite !crc16_app. cbn [crc16]. intros E.
  apply crc16_inj in E; [|apply crc16_step_range..|done].
  pose proof (crc16_range crc pre Hc) as R. rewrite !crc16_step_byte in E by done.
  assert (X : ∀ c, is_u8 c → is_u16 (Z.lxor (crc16 crc pre) c))
    by (intros; unfold is_u16, is_u8 in *; apply lxor_range; lia).
  apply crc_byte_inj in E; [|auto..]. apply Hne.
  apply (f_equal (Z.lxor (crc16 crc pre))) in E.
  by rewrite <- !Z.lxor_assoc, Z.lxor_nilpotent, !Z.lxor_0_l in E.
Qed.

Definition residue_check (c : Z) : bool := crc16 c [Z.land c 0xff; Z.shiftr c 8] =? 0.

(** A message followed by its checksum, low byte first, has checksum 0. *)
Theorem crc16_residue crc buf :
  is_u16 crc →
  crc16 crc (buf ++ [Z.land (crc16 crc buf) 0xff; Z.shiftr (crc16 crc buf) 8]) = 0.
Proof.
  intros Hc. rewrite crc16_app. apply Z.eqb_eq. change (residue_check (crc16 crc buf) = true).
  apply (all_below_spec 16 0); [vm_compute; reflexivity|]. by apply crc16_range.
Qed.

(** ** Witnesses *)

Lemma crc16_bitwise_witness : crc16 0 [0x31; 0x32; 0x33] = crc_ref 0 [0x31; 0x32; 0x33].
Proof.
  apply crc16_bitwise; [unfold is_u16; lia|]. rewrite !wf_cons. unfold is_u8.
  split_and!; try lia. constructor.
Defined.

Lemma crc16_detects_byte_witness : crc16 0 ([0x31] ++ 0x32 :: [0x33]) ≠ crc16 0 ([0x31] ++ 0x36 :: [0x33]).
Proof.
  apply crc16_detects_byte; [unfold is_u16; lia| |unfold is_u8; lia|discriminate].
  cbn [app]. rewrite !wf_cons. unfold is_u8. split_and!; try lia. constructor.
Defined.

Lemma crc16_residue_witness :
  crc16 0 ([0x31; 0x32] ++ [Z.land (crc16 0 [0x31; 0x32]) 0xff; Z.shiftr (crc16 0 [0x31; 0x32]) 8]) = 0.
Proof. apply crc16_residue. unfold is_u16. lia. Defined.
