(* ===== verification/RefNotify.v ===== *)
(** * The time and sleep notification daemon (ril/scx15/refnotify/refnotify.c)

    Commands from the modem are reassembled from the reads of a pipe into a
    128-byte buffer and executed; another thread notifies the modem of sleep and
    wake-up.  The results of [read] are inputs; the RTC is a state; [mktime] and
    the kernel's acceptance of a new RTC time are parameters.  [None] is undefined
    behaviour. *)

From stdpp Require Import list.
From S2P Require Import Prelude.

Definition REF_PSFREQ_CMD : Z := 0.
Definition REF_SETTIME_CMD : Z := 1.
Definition REF_SETDATE_CMD : Z := 2.
Definition REF_GETTIME_CMD : Z := 3.
Definition REF_GETDATE_CMD : Z := 4.
Definition REF_AUTODLOADER_CMD : Z := 5.
Definition REF_SLEEP_CMD : Z := 6.
Definition REF_WAKE_CMD : Z := 7.
Definition REF_RESET_CMD : Z := 8.

(** [sizeof]: the header is two words; a date is 5 bytes and one of padding, a time 3 bytes. *)
Definition CMD_SIZE : nat := 8.
Definition BUF_SIZE : nat := 128.
Definition DATE_SIZE : nat := 6.
Definition TIME_SIZE : nat := 3.

Record ref_date := RefDate { mday : Z; mon : Z; year : Z; wday : Z }.
Record ref_time := RefTime { sec : Z; min : Z; hour : Z }.

Record tm := Tm {
  tm_sec : Z; tm_min : Z; tm_hour : Z; tm_mday : Z; tm_mon : Z; tm_year : Z; tm_wday : Z;
  tm_yday : Z; tm_isdst : Z }.
Definition tm_zero : tm := Tm 0 0 0 0 0 0 0 0 0.

(** What the daemon acts on: the RTC ([None] when the device cannot be opened), whether its
    [RTC_RD_TIME] works, the last time set, the bytes written to the modem and the reboot reason. *)
Inductive reason := Autodloader | Normal.
Record device := Device {
  rtc : option tm; rtc_reads : bool; clock : option Z; written : list bytes; rebooted : option reason }.

Section refnotify.
Context (mktime : tm → Z).
(** Whether [RTC_SET_TIME] takes a time and whether [settimeofday] does. *)
Context (rtc_accepts : tm → bool) (settimeofday : Z → bool).
(** The padding byte of the date reply, which [malloc] leaves unspecified. *)
Context (pad : Z).

Definition RefNotify_DoAutodloader (d : device) : device :=
  Device (rtc d) (rtc_reads d) (clock d) (written d) (Some Autodloader).
Definition RefNotify_DoReset (d : device) : device :=
  Device (rtc d) (rtc_reads d) (clock d) (written d) (Some Normal).

(** [None] is -1. *)
Definition RefNotify_rtc_readtm (d : device) : option tm :=
  match rtc d with
  | None => None
  | Some t => Some (if rtc_reads d then t else tm_zero)
  end.

Definition RefNotify_rtc_writetm (t : tm) (d : device) : option device :=
  match rtc d with
  | None => None
  | Some _ =>
      Some (if rtc_accepts t then Device (Some t) (rtc_reads d) (clock d) (written d) (rebooted d) else d)
  end.

Definition write_fd (bs : bytes) (d : device) : device :=
  Device (rtc d) (rtc_reads d) (clock d) (written d ++ [bs]) (rebooted d).

Definition enc_time (t : ref_time) : bytes := [sec t; min t; hour t].
Definition enc_date (t : ref_date) : bytes := [mday t; mon t] ++ le16 (year t) ++ [wday t; pad].

(** The view of the command buffer past its header. *)
Definition get_time (buf : bytes) : option ref_time :=
  s ← buf !! 8%nat; m ← buf !! 9%nat; h ← buf !! 10%nat; Some (RefTime s m h).
Definition get_date (buf : bytes) : option ref_date :=
  d ← buf !! 8%nat; m ← buf !! 9%nat; y0 ← buf !! 10%nat; y1 ← buf !! 11%nat; w ← buf !! 12%nat;
  Some (RefDate d m (y0 + 2 ^ 8 * y1) w).

Definition RefNotify_DoGetTime (d : device) : device :=
  match RefNotify_rtc_readtm d with
  | None => d
  | Some t =>
      write_fd (le32 REF_GETTIME_CMD ++ le32 (Z.of_nat (CMD_SIZE + TIME_SIZE))
        ++ enc_time (RefTime (u8 (tm_sec t)) (u8 (tm_min t)) (u8 (tm_hour t)))) d
  end.

Definition RefNotify_DoGetDate (d : device) : device :=
  match RefNotify_rtc_readtm d with
  | None => d
  | Some t =>
      write_fd (le32 REF_GETDATE_CMD ++ le32 (Z.of_nat (CMD_SIZE + DATE_SIZE))
        ++ enc_date (RefDate (u8 (tm_mday t)) (u8 (tm_mon t + 1)) (u16 (tm_year t + 1900)) (u8 (tm_wday t)))) d
  end.

(** The end shared by both setters: the RTC, then the system clock. *)
Definition set_clock (t : tm) (d : device) : bool * device :=
  match RefNotify_rtc_writetm t d with
  | None => (false, d)
  | Some d =>
      let timer := mktime t in
      if settimeofday timer
      then (true, Device (rtc d) (rtc_reads d) (Some timer) (written d) (rebooted d)) else (false, d)
  end.

Definition RefNotify_DoSetTime (buf : bytes) (d : device) : option (bool * device) :=
  match RefNotify_rtc_readtm d with
  | None => Some (false, d)
  | Some t =>
      p ← get_time buf;
      Some (set_clock (Tm (sec p) (min p) (hour p) (tm_mday t) (tm_mon t) (tm_year t) (tm_wday t)
                         (tm_yday t) (tm_isdst t)) d)
  end.

Definition RefNotify_DoSetDate (buf : bytes) (d : device) : option (bool * device) :=
  match RefNotify_rtc_readtm d with
  | None => Some (false, d)
  | Some t =>
      p ← get_date buf;
      Some (set_clock (Tm (tm_sec t) (tm_min t) (tm_hour t) (mday p) (mon p - 1) (year p - 1900) (wday p)
                         (tm_yday t) (tm_isdst t)) d)
  end.

Definition RefNotify_DoCmd (buf : bytes) (d : device) : option device :=
  cmd_type ← get32 0 buf;
  if cmd_type =? REF_PSFREQ_CMD then Some d
  else if cmd_type =? REF_SETTIME_CMD then '(_, d) ← RefNotify_DoSetTime buf d; Some d
  else if cmd_type =? REF_SETDATE_CMD then '(_, d) ← RefNotify_DoSetDate buf d; Some d
  else if cmd_type =? REF_GETTIME_CMD then Some (RefNotify_DoGetTime d)
  else if cmd_type =? REF_GETDATE_CMD then Some (RefNotify_DoGetDate d)
  else if cmd_type =? REF_AUTODLOADER_CMD then Some (RefNotify_DoAutodloader d)
  else if cmd_type =? REF_RESET_CMD then Some (RefNotify_DoReset d)
  else Some d.

(** ** The read loop *)

(** What [read] returns: interrupted, another error, or the bytes available. *)
Inductive rd := RdIntr | RdFail | RdData (bs : bytes).

(** Where a loop is when its inputs end, or its end. *)
Inductive progress :=
  | Waiting (buf : bytes) (numRead : Z)
  | Exited
  | Complete (buf : bytes) (numRead : Z) (rest : list rd).

(** The loop [readheader]: up to 8 bytes each time, until 8 have come. *)
Fixpoint readheader (rs : list rd) (buf : bytes) (numRead : Z) : option progress :=
  match rs with
  | [] => Some (Waiting buf numRead)
  | RdIntr :: rs => readheader rs buf numRead
  | RdFail :: _ => Some Exited
  | RdData bs :: rs =>
      let got := take CMD_SIZE bs in
      buf ← splice (Z.to_nat numRead) got buf;
      let numRead := u32 (numRead + Z.of_nat (length got)) in
      if numRead <? Z.of_nat CMD_SIZE then readheader rs buf numRead
      else Some (Complete buf numRead rs)
  end.

(** The loop [readcontent]: the rest of [pcmd->length] bytes, read again from the buffer. *)
Fixpoint readcontent (rs : list rd) (buf : bytes) (numRead : Z) : option progress :=
  match rs with
  | [] => Some (Waiting buf numRead)
  | RdIntr :: rs => readcontent rs buf numRead
  | RdFail :: _ => Some Exited
  | RdData bs :: rs =>
      len ← get32 4 buf;
      let got := take (Z.to_nat (u32 (len - numRead))) bs in
      buf ← splice (Z.to_nat numRead) got buf;
      let numRead := u32 (numRead + Z.of_nat (length got)) in
      len ← get32 4 buf;
      if numRead <? len then readcontent rs buf numRead else Some (Complete buf numRead rs)
  end.

(** One turn of [for (;;)] up to the command. *)
Definition read_cmd (rs : list rd) : option progress :=
  h ← readheader rs (replicate BUF_SIZE 0) 0;
  match h with
  | Complete buf numRead rest =>
      len ← get32 4 buf;
      if numRead <? len then readcontent rest buf numRead else Some h
  | _ => Some h
  end.

(** [main]'s service loop; [fuel] bounds the commands, each of which takes a read. *)
Fixpoint serve (fuel : nat) (rs : list rd) (d : device) : option device :=
  match fuel with
  | O => Some d
  | S fuel' =>
      p ← read_cmd rs;
      match p with
      | Complete buf _ rest => d ← RefNotify_DoCmd buf d; serve fuel' rest d
      | _ => Some d
      end
  end.

(** ** [sleep_monitor] *)

(** The results of one turn: [open] and [read] of the sleep file, then of the wake file. *)
Record monitor_io := MonitorIo { open_s : bool; read_s : bool; open_w : bool; read_w : bool }.

Definition notice (cmd : Z) : bytes := le32 cmd ++ le32 (Z.of_nat CMD_SIZE).

(** The commands written by one turn of its [while (1)]. *)
Definition monitor_turn (io : monitor_io) : list Z :=
  if open_s io && negb (read_s io) then []
  else
    (if open_s io then [REF_SLEEP_CMD] else []) ++
    (if open_w io then (if read_w io then [REF_WAKE_CMD] else []) else []).

Definition sleep_monitor (ios : list monitor_io) (d : device) : device :=
  foldl (λ d cmd, write_fd (notice cmd) d) d (ios ≫= monitor_turn).

(** ** Properties of the read loop *)

(** A command of [8 + n] bytes. *)
Definition enc_cmd (cmd : Z) (content : bytes) : bytes :=
  le32 cmd ++ le32 (Z.of_nat (CMD_SIZE + length content)) ++ content.

(** The reads that deliver the pieces [ps], each after a number of interruptions. *)
Definition reads (ps : list (nat * bytes)) : list rd :=
  ps ≫= λ p, replicate p.1 RdIntr ++ [RdData p.2].
Definition pieces (ps : list (nat * bytes)) : bytes := ps ≫= snd.

Lemma reads_cons k b ps rest :
  reads ((k, b) :: ps) ++ rest = replicate k RdIntr ++ RdData b :: reads ps ++ rest.
Proof. unfold reads. cbn. by rewrite <- !app_assoc. Qed.

Lemma pieces_cons k b ps : pieces ((k, b) :: ps) = b ++ pieces ps.
Proof. done. Qed.

Lemma pieces_nil : pieces [] = [].
Proof. done. Qed.

Lemma readheader_intr k rs buf n : readheader (replicate k RdIntr ++ rs) buf n = readheader rs buf n.
Proof. induction k; [done|]. simpl. auto. Qed.

Lemma readcontent_intr k rs buf n : readcontent (replicate k RdIntr ++ rs) buf n = readcontent rs buf n.
Proof. induction k; [done|]. simpl. auto. Qed.

Lemma pieces_nonempty p ps : Forall (λ p : nat * bytes, p.2 ≠ []) (p :: ps) → (0 < length (pieces (p :: ps)))%nat.
Proof.
  inversion 1 as [|? ? Hp _]; subst. destruct p as [k b]. rewrite pieces_cons, length_app.
  destruct b; [done|simpl; lia].
Qed.

(** A first splice at [n] followed by one at its end is one splice. *)
Lemma splice_twice n (a b buf : bytes) :
  (n + length a + length b <= length buf)%nat →
  take (n + length a) (take n buf ++ a ++ drop (n + length a) buf) ++ b
    ++ drop (n + length a + length b) (take n buf ++ a ++ drop (n + length a) buf)
  = take n buf ++ (a ++ b) ++ drop (n + (length a + length b)) buf.
Proof.
  intros H. rewrite (app_assoc (take n buf) a).
  rewrite take_app_length' by (rewrite length_app, length_take; lia).
  rewrite drop_app_ge by (rewrite length_app, length_take; lia).
  rewrite drop_drop, <- !app_assoc. do 4 f_equal. rewrite length_app, length_take. lia.
Qed.

Lemma readheader_run ps rest : ∀ (buf : bytes) (n : nat),
  ps ≠ [] → Forall (λ p, (length p.2 <= CMD_SIZE)%nat) ps →
  (n + length (pieces (removelast ps)) < CMD_SIZE)%nat → (CMD_SIZE <= n + length (pieces ps))%nat →
  (n + length (pieces ps) <= length buf)%nat → length buf = BUF_SIZE →
  readheader (reads ps ++ rest) buf (Z.of_nat n)
  = Some (Complete (take n buf ++ pieces ps ++ drop (n + length (pieces ps)) buf)
            (Z.of_nat (n + length (pieces ps))) rest).
Proof.
  induction ps as [|[k b] ps IH]; intros buf n Hne HF Hlt Hge Hfit HB; [done|].
  inversion HF as [|? ? Hb HF']; subst x l. cbn [snd] in Hb.
  rewrite reads_cons, readheader_intr. cbn [readheader]. rewrite !pieces_cons in *. rewrite Nat2Z.id, (take_ge b) by done. rewrite !length_app in *.
  unfold BUF_SIZE, CMD_SIZE in *. rewrite splice_ok by lia. cbn [mbind option_bind].
  rewrite <- Nat2Z.inj_add, u32_id by (unfold is_u32; lia).
  destruct ps as [|p ps].
  - rewrite pieces_nil in *. cbn [length] in *. rewrite app_nil_r, Nat.add_0_r in *. by bdecide.
  - change (removelast ((k, b) :: p :: ps)) with ((k, b) :: removelast (p :: ps)) in Hlt.
    rewrite pieces_cons, length_app in Hlt.
    bdecide. rewrite IH; [|done|done|lia|lia| |].
    + rewrite splice_twice by lia. by rewrite Nat.add_assoc.
    + rewrite !length_app, length_take, length_drop. lia.
    + rewrite !length_app, length_take, length_drop. lia.
Qed.

Lemma get32_splice (buf a : bytes) n :
  (8 <= n)%nat → (n + length a <= length buf)%nat →
  get32 4 (take n buf ++ a ++ drop (n + length a) buf) = get32 4 buf.
Proof.
  intros Hn HL. unfold get32.
  assert (E : ∀ j, (j < 8)%nat → (take n buf ++ a ++ drop (n + length a) buf) !! j = buf !! j).
  { intros j Hj. rewrite lookup_app_l by (rewrite length_take; lia). by rewrite lookup_take_lt by lia. }
  by rewrite !E by lia.
Qed.

Lemma readcontent_run ps rest len : ∀ (buf : bytes) (n : nat),
  ps ≠ [] → Forall (λ p, p.2 ≠ []) ps → (8 <= n)%nat → (n + length (pieces ps) = len)%nat →
  get32 4 buf = Some (Z.of_nat len) → (len <= length buf)%nat → length buf = BUF_SIZE →
  readcontent (reads ps ++ rest) buf (Z.of_nat n)
  = Some (Complete (take n buf ++ pieces ps ++ drop (n + length (pieces ps)) buf) (Z.of_nat len) rest).
Proof.
  induction ps as [|[k b] ps IH]; intros buf n Hne HF Hn Hlen Hget Hfit HB; [done|].
  inversion HF as [|? ? Hb HF']; subst x l. cbn [snd] in Hb.
  rewrite reads_cons, readcontent_intr. cbn [readcontent]. rewrite !pieces_cons in *. rewrite Hget. cbn [mbind option_bind]. rewrite !length_app in *.
  unfold BUF_SIZE in *. rewrite (u32_id (Z.of_nat len - Z.of_nat n)) by (unfold is_u32; lia).
  rewrite Nat2Z.id, (take_ge b) by lia. rewrite splice_ok by lia. cbn [mbind option_bind].
  rewrite get32_splice, Hget by lia. cbn [mbind option_bind].
  rewrite <- Nat2Z.inj_add, u32_id by (unfold is_u32; lia).
  destruct ps as [|p ps].
  - rewrite pieces_nil in *. cbn [length] in *. rewrite app_nil_r, !Nat.add_0_r in *. rewrite Hlen.
    by bdecide.
  - pose proof (pieces_nonempty _ _ HF') as Hp.
    bdecide. rewrite IH; [|done|done|lia|lia| | |].
    + rewrite splice_twice by lia. by rewrite Nat.add_assoc.
    + rewrite get32_splice by lia. done.
    + rewrite !length_app, length_take, length_drop. lia.
    + rewrite !length_app, length_take, length_drop. lia.
Qed.

Lemma get32_enc_cmd cmd (content rest : bytes) :
  (CMD_SIZE + length content <= BUF_SIZE)%nat →
  get32 4 (enc_cmd cmd content ++ rest) = Some (Z.of_nat (CMD_SIZE + length content)).
Proof.
  intros H. unfold enc_cmd. rewrite <- !app_assoc. change 4%nat with (length (le32 cmd)) at 1.
  rewrite get32_le32. f_equal. apply u32_id. unfold is_u32, CMD_SIZE, BUF_SIZE in *. lia.
Qed.

(** C39. Commands are reassembled: a command of at most 128 bytes that arrives in any pieces,
    with any interruptions between them, is in the buffer complete and followed by zeros when
    it is executed, as long as no read of the header runs past its end; the reads after it are
    left for the next command. *)
Theorem read_cmd_reassembles cmd (content : bytes) hs cs rest :
  (CMD_SIZE + length content <= BUF_SIZE)%nat →
  pieces hs ++ pieces cs = enc_cmd cmd content →
  hs ≠ [] → Forall (λ p, (length p.2 <= CMD_SIZE)%nat) hs →
  (length (pieces (removelast hs)) < CMD_SIZE <= length (pieces hs))%nat →
  Forall (λ p, p.2 ≠ []) cs →
  read_cmd (reads hs ++ reads cs ++ rest)
  = Some (Complete (enc_cmd cmd content ++ replicate (BUF_SIZE - (CMD_SIZE + length content)) 0)
            (Z.of_nat (CMD_SIZE + length content)) rest).
Proof.
  intros HL HE Hne HF [Hlt Hge] HC.
  assert (Hlen : (length (pieces hs) + length (pieces cs) = CMD_SIZE + length content)%nat)
    by (rewrite <- length_app, HE; reflexivity).
  unfold read_cmd. change 0 with (Z.of_nat 0) at 2.
  rewrite (readheader_run hs); rewrite ?length_replicate; try done; try lia.
  cbn [mbind option_bind]. rewrite take_0, drop_replicate, !Nat.add_0_l. cbn [app].
  set (buf := pieces hs ++ replicate (BUF_SIZE - length (pieces hs)) 0).
  assert (HB : length buf = BUF_SIZE) by (unfold buf; rewrite length_app, length_replicate; lia).
  assert (Hg : get32 4 buf = Some (Z.of_nat (CMD_SIZE + length content))).
  { rewrite <- (get32_enc_cmd cmd content [] HL), <- HE, app_nil_r. unfold buf, get32, CMD_SIZE in *.
    by rewrite !(lookup_app_l (pieces hs)) by lia. }
  rewrite Hg. cbn [mbind option_bind]. destruct cs as [|p cs].
  - cbn [pieces mbind list_bind length] in Hlen. rewrite Nat.add_0_r in Hlen. rewrite Hlen. bdecide.
    unfold buf. rewrite Hlen. rewrite <- HE. cbn. by rewrite app_nil_r.
  - pose proof (pieces_nonempty _ _ HC) as Hp.
    bdecide. rewrite (readcontent_run _ _ (CMD_SIZE + length content)); try done; try lia.
    assert (HX : ∀ l, take (length (pieces hs)) buf ++ pieces (p :: cs) ++ l = enc_cmd cmd content ++ l)
      by (intros; unfold buf; by rewrite take_app_length, app_assoc, HE).
    rewrite HX. do 3 f_equal. unfold buf. rewrite drop_app_ge, drop_replicate by lia. f_equal. lia.
Qed.
(** The length field is not checked against the buffer: when a command claims more than 128
    bytes, the read that goes past the 128th writes outside the buffer. *)
Theorem read_cmd_overflow h bs len rest :
  length h = CMD_SIZE → get32 4 (h ++ replicate (BUF_SIZE - CMD_SIZE) 0) = Some len →
  is_u32 len → Z.of_nat BUF_SIZE < len → (BUF_SIZE - CMD_SIZE < length bs)%nat →
  read_cmd (RdData h :: RdData bs :: rest) = None.
Proof.
  intros Hh Hl Hu Hb Hbs. unfold read_cmd, readheader. unfold CMD_SIZE, BUF_SIZE in *.
  rewrite take_ge by lia. rewrite splice_ok by (rewrite length_replicate, Hh; simpl; lia).
  cbn [mbind option_bind]. change (Z.to_nat 0) with 0%nat. rewrite take_0, drop_replicate, Hh.
  cbn [app Nat.add]. rewrite u32_id by (unfold is_u32; lia). bdecide.
  cbn [mbind option_bind]. rewrite Hl. cbn [mbind option_bind]. bdecide. cbn [readcontent]. rewrite Hl. cbn [mbind option_bind].
  change (0 + Z.of_nat 8) with 8. unfold is_u32 in Hu. rewrite (u32_id (len - 8)) by (unfold is_u32; lia).
  unfold splice. rewrite decide_False; [done|].
  rewrite length_take, length_app, length_replicate, Hh. change (Z.to_nat 8) with 8%nat. lia.
Qed.

(** A header that arrives in two reads swallows the start of the next command: the second
    read asks for eight bytes again, and the bytes it takes beyond the header are not given to
    the command that follows. *)
Theorem read_cmd_header_overrun k (h x : bytes) rest :
  length h = CMD_SIZE → get32 4 h = Some (Z.of_nat CMD_SIZE) → (0 < k < CMD_SIZE)%nat →
  length x = k →
  read_cmd (RdData (take k h) :: RdData (drop k h ++ x) :: rest)
  = Some (Complete (h ++ x ++ replicate (BUF_SIZE - (CMD_SIZE + k)) 0) (Z.of_nat (CMD_SIZE + k)) rest).
Proof.
  intros Hh Hg Hk Hx. unfold read_cmd. change 0 with (Z.of_nat 0) at 2.
  assert (HP : pieces [(0, take k h); (0, drop k h ++ x)]%nat = h ++ x)
    by (cbn; by rewrite app_nil_r, app_assoc, take_drop).
  change (RdData (take k h) :: RdData (drop k h ++ x) :: rest)
    with (reads [(0, take k h); (0, drop k h ++ x)]%nat ++ rest).
  unfold CMD_SIZE in *.
  rewrite readheader_run; rewrite ?HP, ?length_app, ?Hh, ?Hx, ?length_replicate; unfold BUF_SIZE, CMD_SIZE;
    try done; try lia.
  - cbn [mbind option_bind]. rewrite take_0, drop_replicate. cbn [app Nat.add]. rewrite <- app_assoc.
    assert (E : ∀ l, get32 4 (h ++ l) = Some (Z.of_nat 8)).
    { intros l. rewrite <- Hg. unfold get32. by rewrite !lookup_app_l by lia. }
    rewrite E. cbn [mbind option_bind]. by bdecide.
  - rewrite !list.Forall_cons. cbn [snd]. rewrite ?length_app, ?length_take, ?length_drop.
    split_and!; [lia|lia|apply Forall_nil_2].
  - cbn. rewrite app_nil_r, length_take. lia.
Qed.

(** The end of the pipe is not noticed: however often [read] returns 0, the daemon asks
    again and never exits. *)
Theorem read_cmd_spins_at_eof n :
  read_cmd (replicate n (RdData [])) = Some (Waiting (replicate BUF_SIZE 0) 0).
Proof.
  unfold read_cmd. assert (E : readheader (replicate n (RdData [])) (replicate BUF_SIZE 0) 0
    = Some (Waiting (replicate BUF_SIZE 0) 0)).
  { induction n as [|n IH]; [done|]. exact IH. }
  by rewrite E.
Qed.

(** ** Properties of the commands *)

(** A broken-down time whose fields the wire format holds. *)
Definition wire_tm (t : tm) : Prop :=
  is_u8 (tm_sec t) ∧ is_u8 (tm_min t) ∧ is_u8 (tm_hour t) ∧ is_u8 (tm_mday t)
  ∧ 0 <= tm_mon t < 255 ∧ is_u8 (tm_wday t) ∧ -1900 <= tm_year t < 63636.

Lemma le16_value z : is_u16 z → u8 z + 2 ^ 8 * u8 (Z.shiftr z 8) = z.
Proof.
  unfold is_u16, u8. intros. rewrite Z.shiftr_div_pow2 by lia.
  Z.to_euclidean_division_equations. lia.
Qed.

Lemma get_date_enc t (pre post : bytes) :
  is_u16 (year t) → length pre = 8%nat → get_date (pre ++ enc_date t ++ post) = Some t.
Proof.
  intros Hy Hp. do 8 (destruct pre as [|? pre]; [done|]). destruct pre; [|done].
  unfold get_date, enc_date, le16. cbn. rewrite le16_value by done. by destruct t.
Qed.

(** What arrives of a broken-down time, through both replies. *)
Lemma wire_fields t t2 : wire_tm t →
  Tm (u8 (tm_sec t)) (u8 (tm_min t)) (u8 (tm_hour t)) (u8 (tm_mday t)) (u8 (tm_mon t + 1) - 1)
    (u16 (tm_year t + 1900) - 1900) (u8 (tm_wday t)) (tm_yday t2) (tm_isdst t2)
  = Tm (tm_sec t) (tm_min t) (tm_hour t) (tm_mday t) (tm_mon t) (tm_year t) (tm_wday t)
      (tm_yday t2) (tm_isdst t2).
Proof.
  unfold wire_tm, is_u8. intros. rewrite !u8_id by (unfold is_u8; lia).
  rewrite u16_id by (unfold is_u16; lia). f_equal; lia.
Qed.

(** Dates and times round trip: feeding the answers to the get commands of a device back as
    set commands gives another device with a working clock that date and time, and sets its
    system clock to the [mktime] of the result. *)
Theorem get_set_roundtrip d1 d2 t1 t2 post :
  rtc d1 = Some t1 → rtc_reads d1 = true → wire_tm t1 →
  rtc d2 = Some t2 → rtc_reads d2 = true → (∀ t, rtc_accepts t = true) → (∀ z, settimeofday z = true) →
  ∃ reply_t reply_d d3 d4,
    written (RefNotify_DoGetTime d1) = written d1 ++ [reply_t]
    ∧ written (RefNotify_DoGetDate d1) = written d1 ++ [reply_d]
    ∧ RefNotify_DoSetTime (reply_t ++ post) d2 = Some (true, d3)
    ∧ RefNotify_DoSetDate (reply_d ++ post) d3 = Some (true, d4)
    ∧ let t := Tm (tm_sec t1) (tm_min t1) (tm_hour t1) (tm_mday t1) (tm_mon t1) (tm_year t1) (tm_wday t1)
                 (tm_yday t2) (tm_isdst t2) in
      rtc d4 = Some t ∧ clock d4 = Some (mktime t).
Proof.
  intros R1 O1 S R2 O2 HA HT.
  eexists _, _, _, _.
  assert (E1 : RefNotify_rtc_readtm d1 = Some t1) by (unfold RefNotify_rtc_readtm; by rewrite R1, O1).
  assert (E2 : RefNotify_rtc_readtm d2 = Some t2) by (unfold RefNotify_rtc_readtm; by rewrite R2, O2).
  split_and!.
  - unfold RefNotify_DoGetTime. by rewrite E1.
  - unfold RefNotify_DoGetDate. by rewrite E1.
  - unfold RefNotify_DoSetTime. rewrite E2. cbn [get_time app le32 lookup list_lookup mbind option_bind enc_time].
    unfold set_clock, RefNotify_rtc_writetm. rewrite R2, HA, HT. reflexivity.
  - unfold RefNotify_DoSetDate, RefNotify_rtc_readtm. cbn [rtc rtc_reads]. rewrite O2.
    rewrite (app_assoc (le32 REF_GETDATE_CMD)), <- app_assoc.
    rewrite get_date_enc by (apply u16_range || done). cbn [mbind option_bind].
    unfold set_clock, RefNotify_rtc_writetm. cbn [rtc]. rewrite HA, HT. reflexivity.
  - cbn. by rewrite wire_fields.
Qed.
End refnotify.

(** ** Witnesses *)

Definition ex_tm : tm := Tm 5 30 12 24 11 113 2 357 0.
Definition ex_device : device := Device (Some ex_tm) true None [] None.

Lemma read_cmd_reassembles_witness :
  read_cmd (reads [(1%nat, take 5 (le32 1 ++ le32 11)); (0%nat, drop 5 (le32 1 ++ le32 11))]
            ++ reads [(2%nat, [7]); (0%nat, [8; 9])] ++ [RdIntr])
  = Some (Complete (enc_cmd 1 [7; 8; 9] ++ replicate (BUF_SIZE - (CMD_SIZE + 3)) 0) 11 [RdIntr]).
Proof.
  apply (read_cmd_reassembles 1 [7; 8; 9]); try done.
  - unfold CMD_SIZE, BUF_SIZE. simpl. lia.
  - rewrite !list.Forall_cons. split_and!; [unfold CMD_SIZE; simpl; lia..|apply Forall_nil_2].
  - unfold CMD_SIZE. simpl. lia.
  - rewrite !list.Forall_cons. split_and!; [done..|apply Forall_nil_2].
Defined.

Lemma read_cmd_overflow_witness :
  read_cmd [RdData (le32 1 ++ le32 200); RdData (replicate 192 1)] = None.
Proof.
  apply (read_cmd_overflow (le32 1 ++ le32 200) (replicate 192 1) 200);
    unfold is_u32, BUF_SIZE, CMD_SIZE; rewrite ?length_replicate; try reflexivity; lia.
Defined.

Lemma read_cmd_header_overrun_witness :
  read_cmd [RdData (take 3 (le32 3 ++ le32 8)); RdData (drop 3 (le32 3 ++ le32 8) ++ [4; 0; 0])]
  = Some (Complete ((le32 3 ++ le32 8) ++ [4; 0; 0] ++ replicate (BUF_SIZE - (CMD_SIZE + 3)) 0) 11 []).
Proof.
  apply (read_cmd_header_overrun 3 (le32 3 ++ le32 8) [4; 0; 0]); try reflexivity. unfold CMD_SIZE. lia.
Defined.

Lemma get_set_roundtrip_witness :
  ∃ reply_t reply_d d3 d4,
    written (RefNotify_DoGetTime ex_device) = [] ++ [reply_t]
    ∧ written (RefNotify_DoGetDate 0 ex_device) = [] ++ [reply_d]
    ∧ RefNotify_DoSetTime (λ _, 7) (λ _, true) (λ _, true) (reply_t ++ []) (Device (Some tm_zero) true None [] None)
      = Some (true, d3)
    ∧ RefNotify_DoSetDate (λ _, 7) (λ _, true) (λ _, true) (reply_d ++ []) d3 = Some (true, d4)
    ∧ let t := Tm 5 30 12 24 11 113 2 0 0 in rtc d4 = Some t ∧ clock d4 = Some 7.
Proof.
  apply (get_set_roundtrip (λ _, 7) (λ _, true) (λ _, true) 0 ex_device (Device (Some tm_zero) true None [] None)
    ex_tm tm_zero []); try reflexivity; done.
Defined.
