(* ===== verification/JpegTables.v ===== *)
(** * Tables of the JPEG codec (libcamera/jpeg/jpeg_fw_8830/src/jpegcodec_table.c)

    The data of the file, cell by cell, and what the code relies on: the fixed
    point reciprocals of the quantisation tables, the Huffman codes of the
    hardware encoder and the zigzag order. *)

From stdpp Require Import list numbers.
From S2P Require Import Prelude.

Definition jpeg_fw_lum_quant_tbl_default : list (list Z) :=
  [ [10; 7; 6; 10; 14; 24; 31; 37; 7; 7; 8; 11; 16; 35; 36; 33;
   8; 8; 10; 14; 24; 34; 41; 34; 8; 10; 13; 17; 31; 52; 48; 37;
   11; 13; 22; 34; 41; 65; 62; 46; 14; 21; 33; 38; 49; 62; 68; 55;
   29; 38; 47; 52; 62; 73; 72; 61; 43; 55; 57; 59; 67; 60; 62; 59];
  [6; 4; 4; 6; 10; 16; 20; 24; 5; 5; 6; 8; 10; 23; 24; 22;
   6; 5; 6; 10; 16; 23; 28; 22; 6; 7; 9; 12; 20; 35; 32; 25;
   7; 9; 15; 22; 27; 44; 41; 31; 10; 14; 22; 26; 32; 42; 45; 37;
   20; 26; 31; 35; 41; 48; 48; 40; 29; 37; 38; 39; 45; 40; 41; 40];
  [5; 3; 3; 5; 7; 12; 15; 18; 4; 4; 4; 6; 8; 17; 18; 17;
   4; 4; 5; 7; 12; 17; 18; 17; 4; 5; 7; 9; 15; 26; 24; 19;
   5; 7; 11; 17; 20; 33; 31; 23; 7; 11; 17; 19; 24; 31; 34; 28;
   15; 19; 23; 26; 31; 36; 36; 30; 22; 28; 29; 29; 34; 30; 31; 30];
  [3; 2; 2; 3; 5; 8; 10; 12; 2; 2; 3; 4; 5; 12; 12; 11;
   3; 3; 3; 5; 8; 11; 14; 11; 3; 3; 4; 6; 10; 17; 16; 12;
   4; 4; 7; 11; 14; 22; 21; 15; 5; 7; 11; 13; 16; 21; 23; 18;
   10; 13; 16; 17; 21; 24; 24; 20; 14; 18; 19; 20; 22; 20; 21; 20];
  [2; 1; 1; 2; 2; 4; 5; 6; 1; 1; 1; 2; 3; 6; 6; 6;
   1; 1; 2; 2; 4; 6; 7; 6; 1; 2; 2; 3; 5; 9; 8; 6;
   2; 2; 4; 6; 7; 11; 10; 8; 2; 4; 6; 6; 8; 10; 11; 9;
   5; 6; 8; 9; 10; 12; 12; 10; 7; 9; 10; 10; 11; 10; 10; 10] ].

Definition jpeg_fw_chr_quant_tbl_default : list (list Z) :=
  [ [10; 7; 6; 10; 14; 24; 31; 37; 7; 7; 8; 11; 16; 35; 36; 33;
   8; 8; 10; 14; 24; 34; 41; 34; 8; 10; 13; 17; 31; 52; 48; 37;
   11; 13; 22; 34; 41; 65; 62; 46; 14; 21; 33; 38; 49; 62; 68; 55;
   29; 38; 47; 52; 62; 73; 72; 61; 43; 55; 57; 59; 67; 60; 62; 59];
  [6; 4; 4; 6; 10; 16; 20; 24; 5; 5; 6; 8; 10; 23; 24; 22;
   6; 5; 6; 10; 16; 23; 28; 22; 6; 7; 9; 12; 20; 35; 32; 25;
   7; 9; 15; 22; 27; 44; 41; 31; 10; 14; 22; 26; 32; 42; 45; 37;
   20; 26; 31; 35; 41; 48; 48; 40; 29; 37; 38; 39; 45; 40; 41; 40];
  [5; 3; 3; 5; 7; 12; 15; 18; 4; 4; 4; 6; 8; 17; 18; 17;
   4; 4; 5; 7; 12; 17; 18; 17; 4; 5; 7; 9; 15; 26; 24; 19;
   5; 7; 11; 17; 20; 33; 31; 23; 7; 11; 17; 19; 24; 31; 34; 28;
   15; 19; 23; 26; 31; 36; 36; 30; 22; 28; 29; 29; 34; 30; 31; 30];
  [3; 2; 2; 3; 5; 8; 10; 12; 2; 2; 3; 4; 5; 12; 12; 11;
   3; 3; 3; 5; 8; 11; 14; 11; 3; 3; 4; 6; 10; 17; 16; 12;
   4; 4; 7; 11; 14; 22; 21; 15; 5; 7; 11; 13; 16; 21; 23; 18;
   10; 13; 16; 17; 21; 24; 24; 20; 14; 18; 19; 20; 22; 20; 21; 20];
  [2; 1; 1; 2; 2; 4; 5; 6; 1; 1; 1; 2; 3; 6; 6; 6;
   1; 1; 2; 2; 4; 6; 7; 6; 1; 2; 2; 3; 5; 9; 8; 6;
   2; 2; 4; 6; 7; 11; 10; 8; 2; 4; 6; 6; 8; 10; 11; 9;
   5; 6; 8; 9; 10; 12; 12; 10; 7; 9; 10; 10; 11; 10; 10; 10] ].

Definition jpeg_fw_lum_dc_bits_default : list Z :=
  [0; 0; 1; 5; 1; 1; 1; 1; 1; 1; 0; 0; 0; 0; 0; 0;
   0].

Definition jpeg_fw_lum_dc_huffvalue_default : list Z :=
  [0; 1; 2; 3; 4; 5; 6; 7; 8; 9; 10; 11].

Definition jpeg_fw_lum_ac_bits_default : list Z :=
  [0; 0; 2; 1; 3; 3; 2; 4; 3; 5; 5; 4; 4; 0; 0; 1;
   125].

Definition jpeg_fw_lum_ac_huffvalue_default : list Z :=
  [0x1; 0x2; 0x3; 0x0; 0x4; 0x11; 0x5; 0x12; 0x21; 0x31; 0x41; 0x6; 0x13; 0x51; 0x61; 0x7;
   0x22; 0x71; 0x14; 0x32; 0x81; 0x91; 0xA1; 0x8; 0x23; 0x42; 0xB1; 0xC1; 0x15; 0x52; 0xD1; 0xF0;
   0x24; 0x33; 0x62; 0x72; 0x82; 0x9; 0xA; 0x16; 0x17; 0x18; 0x19; 0x1A; 0x25; 0x26; 0x27; 0x28;
   0x29; 0x2A; 0x34; 0x35; 0x36; 0x37; 0x38; 0x39; 0x3A; 0x43; 0x44; 0x45; 0x46; 0x47; 0x48; 0x49;
   0x4A; 0x53; 0x54; 0x55; 0x56; 0x57; 0x58; 0x59; 0x5A; 0x63; 0x64; 0x65; 0x66; 0x67; 0x68; 0x69;
   0x6A; 0x73; 0x74; 0x75; 0x76; 0x77; 0x78; 0x79; 0x7A; 0x83; 0x84; 0x85; 0x86; 0x87; 0x88; 0x89;
   0x8A; 0x92; 0x93; 0x94; 0x95; 0x96; 0x97; 0x98; 0x99; 0x9A; 0xA2; 0xA3; 0xA4; 0xA5; 0xA6; 0xA7;
   0xA8; 0xA9; 0xAA; 0xB2; 0xB3; 0xB4; 0xB5; 0xB6; 0xB7; 0xB8; 0xB9; 0xBA; 0xC2; 0xC3; 0xC4; 0xC5;
   0xC6; 0xC7; 0xC8; 0xC9; 0xCA; 0xD2; 0xD3; 0xD4; 0xD5; 0xD6; 0xD7; 0xD8; 0xD9; 0xDA; 0xE1; 0xE2;
   0xE3; 0xE4; 0xE5; 0xE6; 0xE7; 0xE8; 0xE9; 0xEA; 0xF1; 0xF2; 0xF3; 0xF4; 0xF5; 0xF6; 0xF7; 0xF8;
   0xF9; 0xFA; 0x0; 0x0; 0x0; 0x0; 0x0; 0x0; 0x0; 0x0; 0x0; 0x0; 0x0; 0x0; 0x0; 0x0;
   0x0; 0x0; 0x0; 0x0; 0x0; 0x0; 0x0; 0x0; 0x0; 0x0; 0x0; 0x0; 0x0; 0x0; 0x0; 0x0;
   0x0; 0x0; 0x0; 0x0; 0x0; 0x0; 0x0; 0x0; 0x0; 0x0; 0x0; 0x0; 0x0; 0x0; 0x0; 0x0;
   0x0; 0x0; 0x0; 0x0; 0x0; 0x0; 0x0; 0x0; 0x0; 0x0; 0x0; 0x0; 0x0; 0x0; 0x0; 0x0;
   0x0; 0x0; 0x0; 0x0; 0x0; 0x0; 0x0; 0x0; 0x0; 0x0; 0x0; 0x0; 0x0; 0x0; 0x0; 0x0;
   0x0; 0x0; 0x0; 0x0; 0x0; 0x0; 0x0; 0x0; 0x0; 0x0; 0x0; 0x0; 0x0; 0x0; 0x0; 0x0].

Definition jpeg_fw_chr_dc_bits_default : list Z :=
  [0; 0; 3; 1; 1; 1; 1; 1; 1; 1; 1; 1; 0; 0; 0; 0;
   0].

Definition jpeg_fw_chr_dc_huffvalue_default : list Z :=
  [0; 1; 2; 3; 4; 5; 6; 7; 8; 9; 10; 11].

Definition jpeg_fw_chr_ac_bits_default : list Z :=
  [0; 0; 2; 1; 2; 4; 4; 3; 4; 7; 5; 4; 4; 0; 1; 2;
   119].

Definition jpeg_fw_chr_ac_huffvalue_default : list Z :=
  [0x0; 0x1; 0x2; 0x3; 0x11; 0x4; 0x5; 0x21; 0x31; 0x6; 0x12; 0x41; 0x51; 0x7; 0x61; 0x71;
   0x13; 0x22; 0x32; 0x81; 0x8; 0x14; 0x42; 0x91; 0xA1; 0xB1; 0xC1; 0x9; 0x23; 0x33; 0x52; 0xF0;
   0x15; 0x62; 0x72; 0xD1; 0xA; 0x16; 0x24; 0x34; 0xE1; 0x25; 0xF1; 0x17; 0x18; 0x19; 0x1A; 0x26;
   0x27; 0x28; 0x29; 0x2A; 0x35; 0x36; 0x37; 0x38; 0x39; 0x3A; 0x43; 0x44; 0x45; 0x46; 0x47; 0x48;
   0x49; 0x4A; 0x53; 0x54; 0x55; 0x56; 0x57; 0x58; 0x59; 0x5A; 0x63; 0x64; 0x65; 0x66; 0x67; 0x68;
   0x69; 0x6A; 0x73; 0x74; 0x75; 0x76; 0x77; 0x78; 0x79; 0x7A; 0x82; 0x83; 0x84; 0x85; 0x86; 0x87;
   0x88; 0x89; 0x8A; 0x92; 0x93; 0x94; 0x95; 0x96; 0x97; 0x98; 0x99; 0x9A; 0xA2; 0xA3; 0xA4; 0xA5;
   0xA6; 0xA7; 0xA8; 0xA9; 0xAA; 0xB2; 0xB3; 0xB4; 0xB5; 0xB6; 0xB7; 0xB8; 0xB9; 0xBA; 0xC2; 0xC3;
   0xC4; 0xC5; 0xC6; 0xC7; 0xC8; 0xC9; 0xCA; 0xD2; 0xD3; 0xD4; 0xD5; 0xD6; 0xD7; 0xD8; 0xD9; 0xDA;
   0xE2; 0xE3; 0xE4; 0xE5; 0xE6; 0xE7; 0xE8; 0xE9; 0xEA; 0xF2; 0xF3; 0xF4; 0xF5; 0xF6; 0xF7; 0xF8;
   0xF9; 0xFA; 0x0; 0x0; 0x0; 0x0; 0x0; 0x0; 0x0; 0x0; 0x0; 0x0; 0x0; 0x0; 0x0; 0x0;
   0x0; 0x0; 0x0; 0x0; 0x0; 0x0; 0x0; 0x0; 0x0; 0x0; 0x0; 0x0; 0x0; 0x0; 0x0; 0x0;
   0x0; 0x0; 0x0; 0x0; 0x0; 0x0; 0x0; 0x0; 0x0; 0x0; 0x0; 0x0; 0x0; 0x0; 0x0; 0x0;
   0x0; 0x0; 0x0; 0x0; 0x0; 0x0; 0x0; 0x0; 0x0; 0x0; 0x0; 0x0; 0x0; 0x0; 0x0; 0x0;
   0x0; 0x0; 0x0; 0x0; 0x0; 0x0; 0x0; 0x0; 0x0; 0x0; 0x0; 0x0; 0x0; 0x0; 0x0; 0x0;
   0x0; 0x0; 0x0; 0x0; 0x0; 0x0; 0x0; 0x0; 0x0; 0x0; 0x0; 0x0; 0x0; 0x0; 0x0; 0x0].

Definition jpeg_fw_zigzag_order : list Z :=
  [0; 1; 8; 16; 9; 2; 3; 10; 17; 24; 32; 25; 18; 11; 4; 5;
   12; 19; 26; 33; 40; 48; 41; 34; 27; 20; 13; 6; 7; 14; 21; 28;
   35; 42; 49; 56; 57; 50; 43; 36; 29; 22; 15; 23; 30; 37; 44; 51;
   58; 59; 52; 45; 38; 31; 39; 46; 53; 60; 61; 54; 47; 55; 62; 63;
   63; 63; 63; 63; 63; 63; 63; 63; 63; 63; 63; 63; 63; 63; 63; 63].

Definition jpeg_fw_hufftab_dcLuma : list Z :=
  [0x2; 0x20003; 0x30003; 0x40003; 0x50003; 0x60003; 0xE0004; 0x1E0005;
   0x3E0006; 0x7E0007; 0xFE0008; 0x1FE0009].

Definition jpeg_fw_hufftab_dcChroam : list Z :=
  [0x2; 0x10002; 0x20002; 0x60003; 0xE0004; 0x1E0005; 0x3E0006; 0x7E0007;
   0xFE0008; 0x1FE0009; 0x3FE000A; 0x7FE000B].

Definition jpeg_fw_new_lum_quant_tbl_default : list (list Z) :=
  [ [3277; 2341; 2731; 3277; 2341; 2731; 2114; 3542; 2341; 2341; 2048; 2979; 2048; 3745; 3641; 3972;
   2048; 2048; 3277; 2341; 2731; 3855; 3197; 3855; 2048; 3277; 2521; 3855; 2114; 2521; 2731; 3542;
   2979; 2521; 2979; 3855; 3197; 4033; 2114; 2849; 2341; 3121; 3972; 3449; 2675; 2114; 3855; 2383;
   2260; 3449; 2789; 2521; 2114; 3591; 3641; 2149; 3048; 2383; 2300; 2222; 3913; 2185; 2114; 2222];
  [2731; 2048; 2048; 2731; 3277; 2048; 3277; 2731; 3277; 3277; 2731; 2048; 3277; 2849; 2731; 2979;
   2731; 3277; 2731; 3277; 2048; 2849; 2341; 2979; 2731; 2341; 3641; 2731; 3277; 3745; 2048; 2621;
   2341; 3641; 2185; 2979; 2427; 2979; 3197; 2114; 3277; 2341; 2979; 2521; 2048; 1560; 2913; 3542;
   3277; 2521; 2114; 3745; 3197; 2731; 2731; 3277; 2260; 3542; 3449; 1680; 2913; 3277; 3197; 3277];
  [3277; 2731; 2731; 3277; 2341; 2731; 2185; 3641; 2048; 2048; 2048; 2731; 2048; 3855; 3641; 3855;
   2048; 2048; 3277; 2341; 2731; 3855; 3641; 3855; 2048; 3277; 2341; 3641; 2185; 2521; 2731; 3449;
   3277; 2341; 2979; 3855; 3277; 3972; 2114; 2849; 2341; 2979; 3855; 3449; 2731; 2114; 3855; 2341;
   2185; 3449; 2849; 2521; 2114; 3641; 3641; 2185; 2979; 2341; 2260; 2260; 3855; 2185; 2114; 2185];
  [2731; 2048; 2048; 2731; 3277; 2048; 3277; 2731; 2048; 2048; 2731; 2048; 3277; 2731; 2731; 2979;
   2731; 2731; 2731; 3277; 2048; 2979; 2341; 2979; 2731; 2731; 2048; 2731; 3277; 3855; 2048; 2731;
   2048; 2048; 2341; 2979; 2341; 2979; 3121; 2185; 3277; 2341; 2979; 2521; 2048; 3121; 2849; 3641;
   3277; 2521; 2048; 3855; 3121; 2731; 2731; 3277; 2341; 3641; 3449; 3277; 2979; 3277; 3121; 3277];
  [2048; 2048; 2048; 2048; 2048; 2048; 3277; 2731; 2048; 2048; 2048; 2048; 2731; 2731; 2731; 2731;
   2048; 2048; 2048; 2048; 2048; 2731; 2341; 2731; 2048; 2048; 2048; 2731; 3277; 3641; 2048; 2731;
   2048; 2048; 2048; 2731; 2341; 2979; 3277; 2048; 2048; 2048; 2731; 2731; 2048; 3277; 2979; 3641;
   3277; 2731; 2048; 3641; 3277; 2731; 2731; 3277; 2341; 3641; 3277; 3277; 2979; 3277; 3277; 3277] ].

Definition jpeg_fw_new_lum_quant_tbl_default_shift : list (list Z) :=
  [ [15; 14; 14; 15; 15; 16; 16; 17; 14; 14; 14; 15; 15; 17; 17; 17;
   14; 14; 15; 15; 16; 17; 17; 17; 14; 15; 15; 16; 16; 17; 17; 17;
   15; 15; 16; 17; 17; 18; 17; 17; 15; 16; 17; 17; 17; 17; 18; 17;
   16; 17; 17; 17; 17; 18; 18; 17; 17; 17; 17; 17; 18; 17; 17; 17];
  [14; 13; 13; 14; 15; 15; 16; 16; 14; 14; 14; 14; 15; 16; 16; 16;
   14; 14; 14; 15; 15; 16; 16; 16; 14; 14; 15; 15; 16; 17; 16; 16;
   14; 15; 15; 16; 16; 17; 17; 16; 15; 15; 16; 16; 16; 16; 17; 17;
   16; 16; 16; 17; 17; 17; 17; 17; 16; 17; 17; 16; 17; 17; 17; 17];
  [14; 13; 13; 14; 14; 15; 15; 16; 13; 13; 13; 14; 14; 16; 16; 16;
   13; 13; 14; 14; 15; 16; 16; 16; 13; 14; 14; 15; 15; 16; 16; 16;
   14; 14; 15; 16; 16; 17; 16; 16; 14; 15; 16; 16; 16; 16; 17; 16;
   15; 16; 16; 16; 16; 17; 17; 16; 16; 16; 16; 16; 17; 16; 16; 16];
  [13; 12; 12; 13; 14; 14; 15; 15; 12; 12; 13; 13; 14; 15; 15; 15;
   13; 13; 13; 14; 14; 15; 15; 15; 13; 13; 13; 14; 15; 16; 15; 15;
   13; 13; 14; 15; 15; 16; 16; 15; 14; 14; 15; 15; 15; 16; 16; 16;
   15; 15; 15; 16; 16; 16; 16; 16; 15; 16; 16; 16; 16; 16; 16; 16];
  [12; 11; 11; 12; 12; 13; 14; 14; 11; 11; 11; 12; 13; 14; 14; 14;
   11; 11; 12; 12; 13; 14; 14; 14; 11; 12; 12; 13; 14; 15; 14; 14;
   12; 12; 13; 14; 14; 15; 15; 14; 12; 13; 14; 14; 14; 15; 15; 15;
   14; 14; 14; 15; 15; 15; 15; 15; 14; 15; 15; 15; 15; 15; 15; 15] ].

Definition jpeg_fw_new_chr_quant_tbl_default : list (list Z) :=
  [ [3277; 2341; 2731; 3277; 2341; 2731; 2114; 3542; 2341; 2341; 2048; 2979; 2048; 3745; 3641; 3972;
   2048; 2048; 3277; 2341; 2731; 3855; 3197; 3855; 2048; 3277; 2521; 3855; 2114; 2521; 2731; 3542;
   2979; 2521; 2979; 3855; 3197; 4033; 2114; 2849; 2341; 3121; 3972; 3449; 2675; 2114; 3855; 2383;
   2260; 3449; 2789; 2521; 2114; 3591; 3641; 2149; 3048; 2383; 2300; 2222; 3913; 2185; 2114; 2222];
  [2731; 2048; 2048; 2731; 3277; 2048; 3277; 2731; 3277; 3277; 2731; 2048; 3277; 2849; 2731; 2979;
   2731; 3277; 2731; 3277; 2048; 2849; 2341; 2979; 2731; 2341; 3641; 2731; 3277; 3745; 2048; 2621;
   2341; 3641; 2185; 2979; 2427; 2979; 3197; 2114; 3277; 2341; 2979; 2521; 2048; 1560; 2913; 3542;
   3277; 2521; 2114; 3745; 3197; 2731; 2731; 3277; 2260; 3542; 3449; 1680; 2913; 3277; 3197; 3277];
  [3277; 2731; 2731; 3277; 2341; 2731; 2185; 3641; 2048; 2048; 2048; 2731; 2048; 3855; 3641; 3855;
   2048; 2048; 3277; 2341; 2731; 3855; 3641; 3855; 2048; 3277; 2341; 3641; 2185; 2521; 2731; 3449;
   3277; 2341; 2979; 3855; 3277; 3972; 2114; 2849; 2341; 2979; 3855; 3449; 2731; 2114; 3855; 2341;
   2185; 3449; 2849; 2521; 2114; 3641; 3641; 2185; 2979; 2341; 2260; 2260; 3855; 2185; 2114; 2185];
  [2731; 2048; 2048; 2731; 3277; 2048; 3277; 2731; 2048; 2048; 2731; 2048; 3277; 2731; 2731; 2979;
   2731; 2731; 2731; 3277; 2048; 2979; 2341; 2979; 2731; 2731; 2048; 2731; 3277; 3855; 2048; 2731;
   2048; 2048; 2341; 2979; 2341; 2979; 3121; 2185; 3277; 2341; 2979; 2521; 2048; 3121; 2849; 3641;
   3277; 2521; 2048; 3855; 3121; 2731; 2731; 3277; 2341; 3641; 3449; 3277; 2979; 3277; 3121; 3277];
  [2048; 2048; 2048; 2048; 2048; 2048; 3277; 2731; 2048; 2048; 2048; 2048; 2731; 2731; 2731; 2731;
   2048; 2048; 2048; 2048; 2048; 2731; 2341; 2731; 2048; 2048; 2048; 2731; 3277; 3641; 2048; 2731;
   2048; 2048; 2048; 2731; 2341; 2979; 3277; 2048; 2048; 2048; 2731; 2731; 2048; 3277; 2979; 3641;
   3277; 2731; 2048; 3641; 3277; 2731; 2731; 3277; 2341; 3641; 3277; 3277; 2979; 3277; 3277; 3277] ].

Definition jpeg_fw_new_chr_quant_tbl_default_shift : list (list Z) :=
  [ [15; 14; 14; 15; 15; 16; 16; 17; 14; 14; 14; 15; 15; 17; 17; 17;
   14; 14; 15; 15; 16; 17; 17; 17; 14; 15; 15; 16; 16; 17; 17; 17;
   15; 15; 16; 17; 17; 18; 17; 17; 15; 16; 17; 17; 17; 17; 18; 17;
   16; 17; 17; 17; 17; 18; 18; 17; 17; 17; 17; 17; 18; 17; 17; 17];
  [14; 13; 13; 14; 15; 15; 16; 16; 14; 14; 14; 14; 15; 16; 16; 16;
   14; 14; 14; 15; 15; 16; 16; 16; 14; 14; 15; 15; 16; 17; 16; 16;
   14; 15; 15; 16; 16; 17; 17; 16; 15; 15; 16; 16; 16; 16; 17; 17;
   16; 16; 16; 17; 17; 17; 17; 17; 16; 17; 17; 16; 17; 17; 17; 17];
  [14; 13; 13; 14; 14; 15; 15; 16; 13; 13; 13; 14; 14; 16; 16; 16;
   13; 13; 14; 14; 15; 16; 16; 16; 13; 14; 14; 15; 15; 16; 16; 16;
   14; 14; 15; 16; 16; 17; 16; 16; 14; 15; 16; 16; 16; 16; 17; 16;
   15; 16; 16; 16; 16; 17; 17; 16; 16; 16; 16; 16; 17; 16; 16; 16];
  [13; 12; 12; 13; 14; 14; 15; 15; 12; 12; 13; 13; 14; 15; 15; 15;
   13; 13; 13; 14; 14; 15; 15; 15; 13; 13; 13; 14; 15; 16; 15; 15;
   13; 13; 14; 15; 15; 16; 16; 15; 14; 14; 15; 15; 15; 16; 16; 16;
   15; 15; 15; 16; 16; 16; 16; 16; 15; 16; 16; 16; 16; 16; 16; 16];
  [12; 11; 11; 12; 12; 13; 14; 14; 11; 11; 11; 12; 13; 14; 14; 14;
   11; 11; 12; 12; 13; 14; 14; 14; 11; 12; 12; 13; 14; 15; 14; 14;
   12; 12; 13; 14; 14; 15; 15; 14; 12; 13; 14; 14; 14; 15; 15; 15;
   14; 14; 14; 15; 15; 15; 15; 15; 14; 15; 15; 15; 15; 15; 15; 15] ].

Definition jpeg_fw_ASIC_DCT_Matrix : list Z :=
  [0; 32; 16; 48; 8; 40; 24; 56; 4; 36; 20; 52; 12; 44; 28; 60;
   2; 34; 18; 50; 10; 42; 26; 58; 6; 38; 22; 54; 14; 46; 30; 62;
   1; 33; 17; 49; 9; 41; 25; 57; 5; 37; 21; 53; 13; 45; 29; 61;
   3; 35; 19; 51; 11; 43; 27; 59; 7; 39; 23; 55; 15; 47; 31; 63].

Definition jpeg_fw_vld_default_max_code : list Z :=
  [0x7F807FE0; 0x7FF37FF7; 0x0; 0x0; 0x6; 0xE; 0x1E; 0x3E;
   0x7E; 0xFE; 0x1FE; 0x3FE; 0x7FC; 0xFF8; 0x1FF0; 0x3FE0;
   0x7FC0; 0xFF80; 0x0; 0x2; 0x6; 0xE; 0x1E; 0x3E;
   0x7E; 0xFE; 0x1FE; 0x3FE; 0x7FE; 0xFFE; 0x1FFC; 0x3FF8;
   0x7FF0; 0xFFE0; 0x0; 0x100; 0x402; 0xC03; 0x1C06; 0x3B09;
   0x7B0B; 0xFA0F; 0x1FA12; 0x3FA17; 0x7F91C; 0xFF720; 0x1FF000; 0x3FE000;
   0x7FC024; 0xFFFE25; 0x0; 0x100; 0x402; 0xB03; 0x1B05; 0x3B09;
   0x7A0D; 0xF910; 0x1FA14; 0x3FA1B; 0x7F920; 0xFF724; 0x1FF000; 0x3FE028;
   0x7FC329; 0xFFFE2B].

Definition jpeg_fw_vld_default_huffTab : list Z :=
  [0x1; 0x102; 0x203; 0x1000300; 0x2001104; 0x411; 0x3010505; 0x22112;
   0x33121; 0x40631; 0x51241; 0x4106; 0x5113; 0x751; 0x4066161; 0x7107;
   0x1322; 0x2271; 0x3214; 0x8132; 0x881; 0x1491; 0x42A1; 0x9108;
   0xA123; 0xB142; 0x507C1B1; 0x9C1; 0x2315; 0x3352; 0x52D1; 0xF0F0;
   0x1524; 0x6233; 0x7262; 0xD172; 0xA82; 0x1609; 0x608240A; 0x3416;
   0xE117; 0x2518; 0xF119; 0x171A; 0x1825; 0x1926; 0x1A27; 0x2628;
   0x2729; 0x282A; 0x7092934; 0x2A35; 0x3536; 0x3637; 0x3738; 0x3839;
   0x393A; 0x3A43; 0x4344; 0x4445; 0x4546; 0x4647; 0x80A4748; 0x4849;
   0x494A; 0x4A53; 0x5354; 0x5455; 0x5556; 0x5657; 0x5758; 0x5859;
   0x595A; 0x5A63; 0x90B6364; 0x6465; 0x6566; 0x6667; 0x6768; 0x6869;
   0x696A; 0x6A73; 0x7374; 0x7475; 0x7576; 0x7677; 0xA007778; 0x7879;
   0x797A; 0x7A83; 0x8284; 0x8385; 0x8486; 0x8587; 0x8688; 0x8789;
   0x888A; 0x8992; 0xB008A93; 0x9294; 0x9395; 0x9496; 0x9597; 0x9698;
   0x9799; 0x989A; 0x99A2; 0x9AA3; 0xA2A4; 0xA3A5; 0xA4A6; 0xA5A7;
   0xA6A8; 0xA7A9; 0xA8AA; 0xA9B2; 0xAAB3; 0xB2B4; 0xB3B5; 0xB4B6;
   0xB5B7; 0xB6B8; 0xB7B9; 0xB8BA; 0xB9C2; 0xBAC3; 0xC2C4; 0xC3C5;
   0xC4C6; 0xC5C7; 0xC6C8; 0xC7C9; 0xC8CA; 0xC9D2; 0xCAD3; 0xD2D4;
   0xD3D5; 0xD4D6; 0xD5D7; 0xD6D8; 0xD7D9; 0xD8DA; 0xD9E1; 0xDAE2;
   0xE2E3; 0xE3E4; 0xE4E5; 0xE5E6; 0xE6E7; 0xE7E8; 0xE8E9; 0xE9EA;
   0xEAF1; 0xF2F2; 0xF3F3; 0xF4F4; 0xF5F5; 0xF6F6; 0xF7F7; 0xF8F8;
   0xF9F9; 0xFAFA].

Definition g_huffTab : list Z :=
  [0x1; 0x102; 0x203; 0x1000300; 0x2001104; 0x411; 0x3010505; 0x22112;
   0x33121; 0x40631; 0x51241; 0x4106; 0x5113; 0x751; 0x4066161; 0x7107;
   0x1322; 0x2271; 0x3214; 0x8132; 0x881; 0x1491; 0x42A1; 0x9108;
   0xA123; 0xB142; 0x507C1B1; 0x9C1; 0x2315; 0x3352; 0x52D1; 0xF0F0;
   0x1524; 0x6233; 0x7262; 0xD172; 0xA82; 0x1609; 0x608240A; 0x3416;
   0xE117; 0x2518; 0xF119; 0x171A; 0x1825; 0x1926; 0x1A27; 0x2628;
   0x2729; 0x282A; 0x7092934; 0x2A35; 0x3536; 0x3637; 0x3738; 0x3839;
   0x393A; 0x3A43; 0x4344; 0x4445; 0x4546; 0x4647; 0x80A4748; 0x4849;
   0x494A; 0x4A53; 0x5354; 0x5455; 0x5556; 0x5657; 0x5758; 0x5859;
   0x595A; 0x5A63; 0x90B6364; 0x6465; 0x6566; 0x6667; 0x6768; 0x6869;
   0x696A; 0x6A73; 0x7374; 0x7475; 0x7576; 0x7677; 0xA007778; 0x7879;
   0x797A; 0x7A83; 0x8284; 0x8385; 0x8486; 0x8587; 0x8688; 0x8789;
   0x888A; 0x8992; 0xB008A93; 0x9294; 0x9395; 0x9496; 0x9597; 0x9698;
   0x9799; 0x989A; 0x99A2; 0x9AA3; 0xA2A4; 0xA3A5; 0xA4A6; 0xA5A7;
   0xA6A8; 0xA7A9; 0xA8AA; 0xA9B2; 0xAAB3; 0xB2B4; 0xB3B5; 0xB4B6;
   0xB5B7; 0xB6B8; 0xB7B9; 0xB8BA; 0xB9C2; 0xBAC3; 0xC2C4; 0xC3C5;
   0xC4C6; 0xC5C7; 0xC6C8; 0xC7C9; 0xC8CA; 0xC9D2; 0xCAD3; 0xD2D4;
   0xD3D5; 0xD4D6; 0xD5D7; 0xD6D8; 0xD7D9; 0xD8DA; 0xD9E1; 0xDAE2;
   0xE2E3; 0xE3E4; 0xE4E5; 0xE5E6; 0xE6E7; 0xE7E8; 0xE8E9; 0xE9EA;
   0xEAF1; 0xF2F2; 0xF3F3; 0xF4F4; 0xF5F5; 0xF6F6; 0xF7F7; 0xF8F8;
   0xF9F9; 0xFAFA].

Definition g_huff_tab_enc : list Z :=
  [0x40000000; 0x80004000; 0xA0008000; 0xC000B000; 0xC800D000; 0xE000F000; 0xF000F800; 0xFA00FD80;
   0xFD80FF82; 0xFF40FF83; 0xB000C000; 0xE400D800; 0xF600F200; 0xFA80FB00; 0xFEC0FEC0; 0xFF50FF84;
   0xFF88FF85; 0xFF89FF86; 0xFF8AFF87; 0xFF8BFF88; 0xD000E000; 0xF700F900; 0xFDC0FDC0; 0xFF60FF40;
   0xFF84FF89; 0xFF8CFF8A; 0xFF8DFF8B; 0xFF8EFF8C; 0xFF8FFF8D; 0xFF90FF8E; 0xD800E800; 0xF800FB80;
   0xFE00FF50; 0xFF70FF8F; 0xFF91FF90; 0xFF92FF91; 0xFF93FF92; 0xFF94FF93; 0xFF95FF94; 0xFF96FF95;
   0xE800EC00; 0xFB00FE00; 0xFF97FF96; 0xFF98FF97; 0xFF99FF98; 0xFF9AFF99; 0xFF9BFF9A; 0xFF9CFF9B;
   0xFF9DFF9C; 0xFF9EFF9D; 0xEC00F400; 0xFE40FEE0; 0xFF9FFF9E; 0xFFA0FF9F; 0xFFA1FFA0; 0xFFA2FFA1;
   0xFFA3FFA2; 0xFFA4FFA3; 0xFFA5FFA4; 0xFFA6FFA5; 0xF200F600; 0xFEE0FF60; 0xFFA7FFA6; 0xFFA8FFA7;
   0xFFA9FFA8; 0xFFAAFFA9; 0xFFABFFAA; 0xFFACFFAB; 0xFFADFFAC; 0xFFAEFFAD; 0xF400FA00; 0xFF00FF70;
   0xFFAFFFAE; 0xFFB0FFAF; 0xFFB1FFB0; 0xFFB2FFB1; 0xFFB3FFB2; 0xFFB4FFB3; 0xFFB5FFB4; 0xFFB6FFB5;
   0xF900FC00; 0xFFB7FF80; 0xFFB8FFB6; 0xFFB9FFB7; 0xFFBAFFB8; 0xFFBBFFB9; 0xFFBCFFBA; 0xFFBDFFBB;
   0xFFBEFFBC; 0xFFBFFFBD; 0xFB80FC80; 0xFFC0FFBE; 0xFFC1FFBF; 0xFFC2FFC0; 0xFFC3FFC1; 0xFFC4FFC2;
   0xFFC5FFC3; 0xFFC6FFC4; 0xFFC7FFC5; 0xFFC8FFC6; 0xFC00FD00; 0xFFC9FFC7; 0xFFCAFFC8; 0xFFCBFFC9;
   0xFFCCFFCA; 0xFFCDFFCB; 0xFFCEFFCC; 0xFFCFFFCD; 0xFFD0FFCE; 0xFFD1FFCF; 0xFC80FE40; 0xFFD2FFD0;
   0xFFD3FFD1; 0xFFD4FFD2; 0xFFD5FFD3; 0xFFD6FFD4; 0xFFD7FFD5; 0xFFD8FFD6; 0xFFD9FFD7; 0xFFDAFFD8;
   0xFD00FE80; 0xFFDBFFD9; 0xFFDCFFDA; 0xFFDDFFDB; 0xFFDEFFDC; 0xFFDFFFDD; 0xFFE0FFDE; 0xFFE1FFDF;
   0xFFE2FFE0; 0xFFE3FFE1; 0xFF20FF00; 0xFFE4FFE2; 0xFFE5FFE3; 0xFFE6FFE4; 0xFFE7FFE5; 0xFFE8FFE6;
   0xFFE9FFE7; 0xFFEAFFE8; 0xFFEBFFE9; 0xFFECFFEA; 0xFF80FFEB; 0xFFEDFFEC; 0xFFEEFFED; 0xFFEFFFEE;
   0xFFF0FFEF; 0xFFF1FFF0; 0xFFF2FFF1; 0xFFF3FFF2; 0xFFF4FFF3; 0xFFF5FFF4; 0xFF86FFF5; 0xFFF6FFF6;
   0xFFF7FFF7; 0xFFF8FFF8; 0xFFF9FFF9; 0xFFFAFFFA; 0xFFFBFFFB; 0xFFFCFFFC; 0xFFFDFFFD; 0xFFFEFFFE;
   0x0; 0x0].

(** ** Canonical Huffman codes

    The codes of a table given by the number of codes of each length and the
    symbols in order of code length: the specification of the tables above. *)

(** [count] codes of length [len] from [code] on, paired with the first symbols of [vals]. *)
Fixpoint assign (count : nat) (len code : Z) (vals : list Z) : list (Z * (Z * Z)) :=
  match count, vals with
  | S n, v :: vs => (v, (code, len)) :: assign n len (code + 1) vs
  | _, _ => []
  end.

Fixpoint canonical_from (len code : Z) (bits vals : list Z) : list (Z * (Z * Z)) :=
  match bits with
  | [] => []
  | n :: rest =>
      assign (Z.to_nat n) len code vals
      ++ canonical_from (len + 1) (2 * (code + n)) rest (drop (Z.to_nat n) vals)
  end.

(** [bits] counts from length 1, its cell 0 is unused. *)
Definition canonical (bits vals : list Z) : list (Z * (Z * Z)) := canonical_from 1 0 (tail bits) vals.

(** The code and length of a symbol. *)
Definition code_of (bits vals : list Z) (sym : Z) : option (Z * Z) :=
  match list_find (λ p, p.1 = sym) (canonical bits vals) with
  | Some (_, (_, cl)) => Some cl
  | None => None
  end.

(** A code of [len] bits is a prefix of another. *)
Definition is_prefix (c1 c2 : Z * Z) : bool :=
  (c1.2 <=? c2.2) && (Z.shiftr c2.1 (c2.2 - c1.2) =? c1.1).

Definition prefix_free (cs : list (Z * Z)) : bool :=
  forallb (λ i, forallb (λ j, (i =? j)%nat || negb
    match cs !! i, cs !! j with Some a, Some b => is_prefix a b | _, _ => false end)
    (seq 0 (length cs))) (seq 0 (length cs)).

(** The four default tables: bits and symbols. *)
Definition default_tables : list (list Z * list Z) :=
  [(jpeg_fw_lum_dc_bits_default, jpeg_fw_lum_dc_huffvalue_default);
   (jpeg_fw_lum_ac_bits_default, jpeg_fw_lum_ac_huffvalue_default);
   (jpeg_fw_chr_dc_bits_default, jpeg_fw_chr_dc_huffvalue_default);
   (jpeg_fw_chr_ac_bits_default, jpeg_fw_chr_ac_huffvalue_default)].

Definition table_symbols (t : list Z * list Z) : nat := Z.to_nat (foldr Z.add 0 t.1).

Definition table_ok (t : list Z * list Z) : bool :=
  (length t.1 =? 17)%nat && (table_symbols t <=? length t.2)%nat
  && (length (canonical t.1 t.2) =? table_symbols t)%nat
  && prefix_free (snd <$> canonical t.1 t.2)
  && forallb (λ p, (p.2.2 <=? 16) && (p.2.1 <? 2 ^ p.2.2 - 1)) (canonical t.1 t.2)
  && bool_decide (NoDup (take (table_symbols t) t.2)).

(** The default Huffman tables are proper: each of the four gives every one of its
    symbols one code, no symbol twice, no code a prefix of another, none longer than 16 bits
    and none of all ones. *)
Theorem default_tables_proper t : t ∈ default_tables → table_ok t = true.
Proof.
  intros H. repeat (apply list_elem_of_In in H as [<- | H%list_elem_of_In]; [vm_compute; reflexivity|]).
  by apply not_elem_of_nil in H.
Qed.

(** A code moved to the top of a 16-bit field, as the hardware encoder wants it. *)
Definition left_aligned (cl : Z * Z) : Z := Z.shiftl cl.1 (16 - cl.2).

Definition ac_entry_ok (run size : Z) : bool :=
  match code_of jpeg_fw_lum_ac_bits_default jpeg_fw_lum_ac_huffvalue_default (16 * run + size),
        code_of jpeg_fw_chr_ac_bits_default jpeg_fw_chr_ac_huffvalue_default (16 * run + size),
        g_huff_tab_enc !! Z.to_nat (10 * run + size - 1) with
  | Some l, Some c, Some e => e =? Z.lor (Z.shiftl (left_aligned c) 16) (left_aligned l)
  | _, _, _ => false
  end.

Definition dc_entry_ok (bits vals tab : list Z) (size : Z) : bool :=
  match code_of bits vals size, tab !! Z.to_nat size with
  | Some l, Some e => e =? Z.lor (Z.shiftl l.1 16) l.2
  | _, _ => false
  end.

Lemma dc_entry_spec bits vals tab size : dc_entry_ok bits vals tab size = true →
  ∃ l, code_of bits vals size = Some l ∧ tab !! Z.to_nat size = Some (Z.lor (Z.shiftl l.1 16) l.2).
Proof.
  unfold dc_entry_ok. destruct (code_of bits vals size) as [l|]; [|done].
  destruct (tab !! _) as [e|]; [|done]. intros ->%Z.eqb_eq. eauto.
Qed.

(** The hardware encoder's AC table is the default Huffman code: for every run below 16 and
    size from 1 to 10, entry [10 * run + size - 1] of [g_huff_tab_enc] packs the left-aligned
    chroma and luma codes of the symbol (run, size). *)
Theorem g_huff_tab_enc_canonical run size :
  0 <= run < 16 → 1 <= size <= 10 →
  ∃ l c, code_of jpeg_fw_lum_ac_bits_default jpeg_fw_lum_ac_huffvalue_default (16 * run + size) = Some l
    ∧ code_of jpeg_fw_chr_ac_bits_default jpeg_fw_chr_ac_huffvalue_default (16 * run + size) = Some c
    ∧ g_huff_tab_enc !! Z.to_nat (10 * run + size - 1)
      = Some (Z.lor (Z.shiftl (left_aligned c) 16) (left_aligned l)).
Proof.
  intros Hr Hs.
  assert (E : forallb (λ r, forallb (ac_entry_ok r) (seqZ 1 10)) (seqZ 0 16) = true) by (vm_compute; reflexivity).
  apply (forallb_seqZ _ 0 16 run) in E; [|lia]. apply (forallb_seqZ _ 1 10 size) in E; [|lia].
  unfold ac_entry_ok in E. destruct (code_of _ _ _) as [l|]; [|done].
  destruct (code_of jpeg_fw_chr_ac_bits_default _ _) as [c|]; [|done].
  destruct (g_huff_tab_enc !! _) as [e|]; [|done]. apply Z.eqb_eq in E as ->. eauto.
Qed.

(** So are its DC tables: entry [size] is the code of that size, shifted past its length. *)
Theorem dc_tables_canonical size :
  0 <= size < 12 →
  (∃ l, code_of jpeg_fw_lum_dc_bits_default jpeg_fw_lum_dc_huffvalue_default size = Some l
    ∧ jpeg_fw_hufftab_dcLuma !! Z.to_nat size = Some (Z.lor (Z.shiftl l.1 16) l.2))
  ∧ (∃ c, code_of jpeg_fw_chr_dc_bits_default jpeg_fw_chr_dc_huffvalue_default size = Some c
    ∧ jpeg_fw_hufftab_dcChroam !! Z.to_nat size = Some (Z.lor (Z.shiftl c.1 16) c.2)).
Proof.
  intros Hs. split; apply dc_entry_spec.
  - apply (forallb_seqZ _ 0 12); [vm_compute; reflexivity|lia].
  - apply (forallb_seqZ _ 0 12); [vm_compute; reflexivity|lia].
Qed.

(** ** Quantisation *)

(** Cell [k] of the table of a quality level. *)
Definition cell (t : list (list Z)) (level k : nat) : option Z := r ← t !! level; r !! k.

Definition reciprocal_ok (q new sh : Z) : bool :=
  (1 <=? q) && (q <=? 255) && (11 <=? sh) && (new <? 2 ^ 12) && (new =? (2 ^ sh + q / 2) / q).

Definition level_ok (q new sh : list Z) : bool :=
  (length q =? 64)%nat && (length new =? 64)%nat && (length sh =? 64)%nat
  && forallb (λ p, reciprocal_ok p.1 p.2.1 p.2.2) (zip q (zip new sh)).

Definition levels_ok (q new sh : list (list Z)) : bool :=
  (length q =? 5)%nat && (length new =? 5)%nat && (length sh =? 5)%nat
  && forallb (λ p, level_ok p.1 p.2.1 p.2.2) (zip q (zip new sh)).

Lemma zip3_lookup {A} (q new sh : list A) i x y z :
  q !! i = Some x → new !! i = Some y → sh !! i = Some z → zip q (zip new sh) !! i = Some (x, (y, z)).
Proof.
  intros H1 H2 H3. apply lookup_zip_with_Some. exists x, (y, z). split_and!; [done|done|].
  apply lookup_zip_with_Some. by exists y, z.
Qed.

Lemma levels_spec q new sh level k :
  levels_ok q new sh = true → (level < 5)%nat → (k < 64)%nat →
  ∃ x y z, cell q level k = Some x ∧ cell new level k = Some y ∧ cell sh level k = Some z
    ∧ reciprocal_ok x y z = true.
Proof.
  intros H Hl Hk. unfold levels_ok in H. rewrite !andb_true_iff, !Nat.eqb_eq in H.
  destruct H as [[[H1 H2] H3] H4].
  destruct (lookup_lt_is_Some_2 q level) as [lq Eq]; [lia|].
  destruct (lookup_lt_is_Some_2 new level) as [ln En]; [lia|].
  destruct (lookup_lt_is_Some_2 sh level) as [ls Es]; [lia|].
  pose proof (zip3_lookup _ _ _ _ _ _ _ Eq En Es) as Z1.
  rewrite forallb_forall in H4. apply list_elem_of_lookup_2, list_elem_of_In, H4 in Z1. cbn in Z1.
  unfold level_ok in Z1. rewrite !andb_true_iff, !Nat.eqb_eq in Z1. destruct Z1 as [[[L1 L2] L3] L4].
  destruct (lookup_lt_is_Some_2 lq k) as [x Ex]; [lia|].
  destruct (lookup_lt_is_Some_2 ln k) as [y Ey]; [lia|].
  destruct (lookup_lt_is_Some_2 ls k) as [z Ez]; [lia|].
  pose proof (zip3_lookup _ _ _ _ _ _ _ Ex Ey Ez) as Z2.
  rewrite forallb_forall in L4. apply list_elem_of_lookup_2, list_elem_of_In, L4 in Z2. cbn in Z2.
  exists x, y, z. unfold cell. rewrite Eq, En, Es. split_and!; done.
Qed.

(** A rounded reciprocal divides by [d] up to one, for operands of twelve bits. *)
Lemma reciprocal_close d r D x :
  0 < d → 2 ^ 11 <= D → r = (D + d / 2) / d → 0 <= x < 2 ^ 12 → Z.abs (x * r / D - x / d) <= 1.
Proof.
  intros Hd HD Hr Hx.
  assert (R : 2 * D - d <= 2 * (d * r) <= 2 * D + d) by (subst r; Z.to_euclidean_division_equations; nia).
  pose proof (Z.div_mod x d ltac:(lia)) as E. pose proof (Z.mod_pos_bound x d Hd) as M.
  set (B := x / d) in *.
  assert (0 <= B) by (apply Z.div_pos; lia).
  assert (x * r < D * (B + 2)).
  { apply (Z.mul_lt_mono_pos_l (2 * d)); [lia|].
    assert (2 * d * (x * r) <= x * (2 * D + d)) by nia. nia. }
  assert (D * (B - 1) <= x * r).
  { apply (Z.mul_le_mono_pos_l _ _ (2 * d)); [lia|].
    assert (x * (2 * D - d) <= 2 * d * (x * r)) by nia. nia. }
  assert (x * r / D < B + 2) by (apply Z.div_lt_upper_bound; lia).
  assert (B - 1 <= x * r / D) by (apply Z.div_le_lower_bound; lia). lia.
Qed.

(** The tables of one component: quantisers, reciprocals and shifts. *)
Definition quantisers : list (list (list Z) * (list (list Z) * list (list Z))) :=
  [(jpeg_fw_lum_quant_tbl_default,
     (jpeg_fw_new_lum_quant_tbl_default, jpeg_fw_new_lum_quant_tbl_default_shift));
   (jpeg_fw_chr_quant_tbl_default,
     (jpeg_fw_new_chr_quant_tbl_default, jpeg_fw_new_chr_quant_tbl_default_shift))].

(** The hardware quantises with the right divisors: at every quality level, component and
    position the reciprocal is the nearest 12-bit integer to [2 ^ shift] over the quantiser,
    so that multiplying by it and shifting differs from dividing by at most [x / 2 ^ 12] + 1. *)
Theorem quant_reciprocals q new sh level k x :
  (q, (new, sh)) ∈ quantisers → (level < 5)%nat → (k < 64)%nat → 0 <= x < 2 ^ 12 →
  ∃ d r s, cell q level k = Some d ∧ cell new level k = Some r ∧ cell sh level k = Some s
    ∧ 1 <= d <= 255 ∧ r < 2 ^ 12 ∧ r = (2 ^ s + d / 2) / d
    ∧ Z.abs (Z.shiftr (x * r) s - x / d) <= 1.
Proof.
  intros Hin Hl Hk Hx.
  assert (L : levels_ok q new sh = true).
  { unfold quantisers in Hin. rewrite !elem_of_cons in Hin.
    destruct Hin as [[= -> -> ->]|[[= -> -> ->]|Hin%not_elem_of_nil]];
      [vm_compute; reflexivity|vm_compute; reflexivity|done]. }
  destruct (levels_spec q new sh level k L Hl Hk) as (d & r & s & Ed & Er & Es & R).
  exists d, r, s. unfold reciprocal_ok in R. bsplit. split_and!; try done; try lia.
  rewrite Z.shiftr_div_pow2 by lia. apply reciprocal_close; [lia| |done|done].
  apply Z.pow_le_mono_r; lia.
Qed.

(** ** Orders *)

(** [jpeg_fw_zigzag_order] names every coefficient of a block once in its first 64 cells and
    the last one after them, and [jpeg_fw_ASIC_DCT_Matrix] is a permutation too. *)
Theorem orders_permute k :
  0 <= k < 64 →
  k ∈ take 64 jpeg_fw_zigzag_order ∧ k ∈ jpeg_fw_ASIC_DCT_Matrix
  ∧ NoDup (take 64 jpeg_fw_zigzag_order) ∧ NoDup jpeg_fw_ASIC_DCT_Matrix
  ∧ drop 64 jpeg_fw_zigzag_order = replicate 16 63.
Proof.
  intros Hk.
  assert (E : ∀ l : list Z, forallb (λ k, bool_decide (k ∈ l)) (seqZ 0 64) = true → k ∈ l).
  { intros l H. apply (forallb_seqZ _ _ _ k) in H; [|lia]. by apply bool_decide_eq_true in H. }
  split_and!; [apply E; vm_compute; reflexivity|apply E; vm_compute; reflexivity|..];
    try (apply (bool_decide_unpack _); vm_compute; exact I); reflexivity.
Qed.

(** ** Witnesses *)

Lemma default_tables_proper_witness :
  table_ok (jpeg_fw_lum_dc_bits_default, jpeg_fw_lum_dc_huffvalue_default) = true.
Proof. apply default_tables_proper. unfold default_tables. apply list_elem_of_here. Defined.

Lemma g_huff_tab_enc_canonical_witness :
  ∃ l c, code_of jpeg_fw_lum_ac_bits_default jpeg_fw_lum_ac_huffvalue_default (16 * 2 + 1) = Some l
    ∧ code_of jpeg_fw_chr_ac_bits_default jpeg_fw_chr_ac_huffvalue_default (16 * 2 + 1) = Some c
    ∧ g_huff_tab_enc !! Z.to_nat (10 * 2 + 1 - 1)
      = Some (Z.lor (Z.shiftl (left_aligned c) 16) (left_aligned l)).
Proof. apply (g_huff_tab_enc_canonical 2 1); lia. Defined.

Lemma dc_tables_canonical_witness :
  (∃ l, code_of jpeg_fw_lum_dc_bits_default jpeg_fw_lum_dc_huffvalue_default 6 = Some l
    ∧ jpeg_fw_hufftab_dcLuma !! Z.to_nat 6 = Some (Z.lor (Z.shiftl l.1 16) l.2))
  ∧ (∃ c, code_of jpeg_fw_chr_dc_bits_default jpeg_fw_chr_dc_huffvalue_default 6 = Some c
    ∧ jpeg_fw_hufftab_dcChroam !! Z.to_nat 6 = Some (Z.lor (Z.shiftl c.1 16) c.2)).
Proof. apply (dc_tables_canonical 6). lia. Defined.

Lemma quant_reciprocals_witness :
  ∃ d r s, cell jpeg_fw_lum_quant_tbl_default 1 9 = Some d
    ∧ cell jpeg_fw_new_lum_quant_tbl_default 1 9 = Some r
    ∧ cell jpeg_fw_new_lum_quant_tbl_default_shift 1 9 = Some s
    ∧ 1 <= d <= 255 ∧ r < 2 ^ 12 ∧ r = (2 ^ s + d / 2) / d
    ∧ Z.abs (Z.shiftr (1000 * r) s - 1000 / d) <= 1.
Proof.
  apply (quant_reciprocals _ _ _ 1 9 1000); [|lia|lia|lia]. unfold quantisers. apply list_elem_of_here.
Defined.

Lemma orders_permute_witness :
  5 ∈ take 64 jpeg_fw_zigzag_order ∧ 5 ∈ jpeg_fw_ASIC_DCT_Matrix
  ∧ NoDup (take 64 jpeg_fw_zigzag_order) ∧ NoDup jpeg_fw_ASIC_DCT_Matrix
  ∧ drop 64 jpeg_fw_zigzag_order = replicate 16 63.
Proof. apply (orders_permute 5). lia. Defined.
