(* ===== verification/JpegHuff.v ===== *)
(** * Huffman tables for the hardware decoder (libcamera/jpeg/jpeg_fw_8830/src/jpegdec_vld.c)

    From the bits and symbols of a DHT segment the firmware derives, per code
    length, the largest code and the index of its first symbol, programs them into
    the registers of the decoder and fills its symbol memory.  Registers are the
    list of (offset, value) writes; [None] is undefined behaviour. *)

From stdpp Require Import list numbers.
From S2P Require Import Prelude JpegTables.

Definition DC_VALID_OFFSET : Z := 0x84.
Definition AC_VALID_OFFSET : Z := 0x88.
Definition Luma_DC_LUT_OFFSET : Z := 0x8C.
Definition Chroma_DC_LUT_OFFSET : Z := 0xCC.
Definition Luma_AC_LUT_OFFSET : Z := 0x10C.
Definition Chroma_AC_LUT_OFFSET : Z := 0x14C.

Definition AC_SYMBOL_NUM : nat := 256.

Definition g_DC_offset : list Z :=
  [0; 0; 2; 6; 14; 26; 38; 50; 62; 74; 86; 98; 110; 122; 134; 146; 158].

Record HUFF_TBL_T := HuffTbl { bits : list Z; huffval : list Z }.

(** Which tables a component uses. *)
Record TBL_MAP_T := TblMap { dc_huff_tbl_id : Z; ac_huff_tbl_id : Z; quant_tbl_id : Z }.

(** ** [JPEGFW_FixHuffTbl] *)

(** The code length of each symbol, [bs] being the counts from length [l] on. *)
Fixpoint huffsize (l : Z) (bs : list Z) : list Z :=
  match bs with
  | [] => []
  | n :: rest => replicate (Z.to_nat n) l ++ huffsize (l + 1) rest
  end.

(** The inner loop of the code generation: the codes of the symbols of length [si], what is left
    of the lengths, and the next code. *)
Fixpoint code_run (sizes : list Z) (si code : Z) : list Z * list Z * Z :=
  match sizes with
  | s :: rest =>
      if s =? si then let '(cs, r, c) := code_run rest si (u16 (code + 1)) in (code :: cs, r, c)
      else ([], sizes, code)
  | [] => ([], [], code)
  end.

(** The outer loop [while (huffsize[p])]. *)
Fixpoint code_gen (fuel : nat) (sizes : list Z) (si code : Z) : option (list Z) :=
  match sizes, fuel with
  | [], _ => Some []
  | _, O => None
  | _, S fuel' =>
      let '(cs, rest, c) := code_run sizes si code in
      more ← code_gen fuel' rest (u16 (si + 1)) (u16 (Z.shiftl c 1)); Some (cs ++ more)
  end.

(** [valptr] and [maxcode] for each length. *)
Fixpoint decoding_tables (p : Z) (bs codes : list Z) : option (list (Z * Z)) :=
  match bs with
  | [] => Some []
  | n :: rest =>
      if n =? 0 then more ← decoding_tables p rest codes; Some ((0, -1) :: more)
      else
        c ← codes !! Z.to_nat (p + n - 1);
        more ← decoding_tables (p + n) rest codes; Some ((u8 p, c) :: more)
  end.

(** The words of [active_base_max]; [prev] is the last [maxcode] and word, none for length 1. *)
Fixpoint active_words (prev : option (Z * Z)) (tabs : list (Z * Z)) : list Z :=
  match tabs with
  | [] => []
  | (base, mx) :: rest =>
      let word :=
        if negb (mx =? -1) then Z.lor (Z.lor (Z.shiftl 1 31) (Z.shiftl base 16)) mx
        else match prev with
             | None => 0
             | Some (pm, pw) => u32 (if negb (pm =? -1) then (pm + 1) * 2 else Z.land pw 0xffff * 2)
             end in
      word :: active_words (Some (mx, word)) rest
  end.

(** The table of words 1 to 16; the size array has room for 256 symbols and their end. *)
Definition JPEGFW_FixHuffTbl (htbl : HUFF_TBL_T) : option (list Z) :=
  let bs := tail (bits htbl) in
  let sizes := huffsize 1 bs in
  if decide (AC_SYMBOL_NUM < length sizes)%nat then None
  else
    codes ← code_gen 17 sizes (default 0 (head sizes)) 0;
    tabs ← decoding_tables 0 bs codes;
    Some (active_words None tabs).

(** ** The decoder's state and the operations on it *)

Record vld_state := VldState {
  dc_huff_tbl : list HUFF_TBL_T; ac_huff_tbl : list HUFF_TBL_T; num_components : Z;
  using_default_huff_tab : bool;
  s_active_base_max : list (list Z); g_huffTab_mem : list Z; regs : list (Z * Z) }.

Definition set_words (k : nat) (row : list Z) (s : vld_state) : vld_state :=
  VldState (dc_huff_tbl s) (ac_huff_tbl s) (num_components s) (using_default_huff_tab s)
    (<[k := 0 :: row]> (s_active_base_max s)) (g_huffTab_mem s) (regs s).
Definition set_mem (m : list Z) (s : vld_state) : vld_state :=
  VldState (dc_huff_tbl s) (ac_huff_tbl s) (num_components s) (using_default_huff_tab s)
    (s_active_base_max s) m (regs s).
Definition write_regs (ws : list (Z * Z)) (s : vld_state) : vld_state :=
  VldState (dc_huff_tbl s) (ac_huff_tbl s) (num_components s) (using_default_huff_tab s)
    (s_active_base_max s) (g_huffTab_mem s) (regs s ++ ws).

Definition fix_table (k : nat) (t : option HUFF_TBL_T) (s : vld_state) : option vld_state :=
  t ← t; row ← JPEGFW_FixHuffTbl t; Some (set_words k row s).

Definition JPEGFW_InitHuffTbl (s : vld_state) : option vld_state :=
  s ← fix_table 0 (dc_huff_tbl s !! 0%nat) s;
  s ← fix_table 1 (ac_huff_tbl s !! 0%nat) s;
  if negb (num_components s =? 1) then
    s ← fix_table 2 (dc_huff_tbl s !! 1%nat) s;
    fix_table 3 (ac_huff_tbl s !! 1%nat) s
  else Some s.

Definition collect_valid_bits (row : list Z) : Z :=
  foldl (λ valid i, Z.lor valid (Z.shiftl (Z.shiftr (default 0 (row !! Z.to_nat (i + 1))) 31) (15 - i)))
    0 (seqZ 0 16).

Definition configure_maxReg_DC (row : list Z) (beChroma : bool) : list (Z * Z) :=
  (λ i, ((if beChroma then Chroma_DC_LUT_OFFSET else Luma_DC_LUT_OFFSET) + i * 4,
         Z.land (default 0 (row !! Z.to_nat (i + 1))) 0xffff)) <$> seqZ 0 16.

Definition configure_maxReg_AC (row : list Z) (beChroma : bool) : list (Z * Z) :=
  (λ i, let w := default 0 (row !! Z.to_nat (i + 1)) in
        ((if beChroma then Chroma_AC_LUT_OFFSET else Luma_AC_LUT_OFFSET) + i * 4,
         Z.lor (Z.shiftl (Z.land w 0xffff) 8) (Z.land (Z.shiftr w 16) 0xff))) <$> seqZ 0 16.

Definition JPEGFW_configure_validReg (t : list (list Z)) : option (list (Z * Z)) :=
  r0 ← t !! 0%nat; r1 ← t !! 1%nat; r2 ← t !! 2%nat; r3 ← t !! 3%nat;
  Some [(DC_VALID_OFFSET, Z.lor (Z.shiftl (collect_valid_bits r0) 16) (collect_valid_bits r2));
        (AC_VALID_OFFSET, Z.lor (Z.shiftl (collect_valid_bits r1) 16) (collect_valid_bits r3))].

Definition JPEGFW_configure_vld_reg_jpegDec (s : vld_state) : option vld_state :=
  if negb (using_default_huff_tab s) then
    valid ← JPEGFW_configure_validReg (s_active_base_max s);
    r0 ← s_active_base_max s !! 0%nat; r1 ← s_active_base_max s !! 1%nat;
    r2 ← s_active_base_max s !! 2%nat; r3 ← s_active_base_max s !! 3%nat;
    Some (write_regs (valid ++ configure_maxReg_DC r0 false ++ configure_maxReg_DC r2 true
                        ++ configure_maxReg_AC r1 false ++ configure_maxReg_AC r3 true) s)
  else
    let pMaxCode := jpeg_fw_vld_default_max_code in
    Some (set_mem jpeg_fw_vld_default_huffTab
            (write_regs ([(DC_VALID_OFFSET, default 0 (pMaxCode !! 0%nat));
                          (AC_VALID_OFFSET, default 0 (pMaxCode !! 1%nat))]
               ++ ((λ i, (DC_VALID_OFFSET + i * 4, default 0 (pMaxCode !! Z.to_nat i))) <$> seqZ 2 64)) s)).

(** The symbols [vals] or-ed into the memory from [addr] on. *)
Fixpoint or_symbols (mem : list Z) (addr : nat) (vals : list Z) (shift_bit : Z) : option (list Z) :=
  match vals with
  | [] => Some mem
  | v :: vs =>
      w ← mem !! addr;
      or_symbols (<[addr := Z.lor (u32 (Z.shiftl v shift_bit)) w]> mem) (S addr) vs shift_bit
  end.

(** The loop over the lengths of [build_hufftab_DC]. *)
Fixpoint dc_lengths (mem : list Z) (bs offs vals : list Z) (shift_bit : Z) : option (list Z) :=
  match bs, offs with
  | n :: bs', o :: offs' =>
      d ← slice 0 (Z.to_nat n) vals;
      mem ← or_symbols mem (Z.to_nat o) d shift_bit;
      dc_lengths mem bs' offs' (drop (Z.to_nat n) vals) shift_bit
  | _, _ => Some mem
  end.

Definition build_hufftab_DC (mem : list Z) (t : HUFF_TBL_T) (beChroma : bool) : option (list Z) :=
  dc_lengths mem (tail (bits t)) (tail g_DC_offset) (huffval t) (if beChroma then 24 else 16).

Definition build_hufftab_AC (mem : list Z) (t : HUFF_TBL_T) (beChroma : bool) : option (list Z) :=
  vals ← slice 0 162 (huffval t); or_symbols mem 0 vals (if beChroma then 8 else 0).

Definition JPEGFW_build_hufftab_jpegDec (s : vld_state) : option vld_state :=
  let mem := replicate 162 0 in
  dl ← dc_huff_tbl s !! 0%nat; mem ← build_hufftab_DC mem dl false;
  al ← ac_huff_tbl s !! 0%nat; mem ← build_hufftab_AC mem al false;
  if negb (num_components s =? 1) then
    dc ← dc_huff_tbl s !! 1%nat; mem ← build_hufftab_DC mem dc true;
    ac ← ac_huff_tbl s !! 1%nat; mem ← build_hufftab_AC mem ac true;
    Some (set_mem mem s)
  else Some (set_mem mem s).

(** ** [JPEGFW_FixHuffTbl] computes the canonical code *)

(** The counts from length [l] on, the first code of that length being [c], leave the code of
    all ones free. *)
Fixpoint kraft (l c : Z) (bs : list Z) : Prop :=
  match bs with
  | [] => True
  | n :: rest => 0 <= n ∧ c + n < 2 ^ l ∧ kraft (l + 1) (2 * (c + n)) rest
  end.

(** The canonical codes, and the words they ask for: an active length holds the index of its first
    symbol and its last code, another the code the next length starts from. *)
Fixpoint canonical_codes (c : Z) (bs : list Z) : list Z :=
  match bs with
  | [] => []
  | n :: rest => seqZ c n ++ canonical_codes (2 * (c + n)) rest
  end.

Fixpoint canonical_words (p c : Z) (bs : list Z) : list Z :=
  match bs with
  | [] => []
  | n :: rest =>
      (if n =? 0 then c else 2 ^ 31 + 2 ^ 16 * u8 p + (c + n - 1))
      :: canonical_words (p + n) (2 * (c + n)) rest
  end.

Lemma code_run_spec n si c rest :
  0 <= c → c + Z.of_nat n < 2 ^ 16 → (∀ s, head rest = Some s → s ≠ si) →
  code_run (replicate n si ++ rest) si c = (seqZ c (Z.of_nat n), rest, c + Z.of_nat n).
Proof.
  revert c. induction n as [|n IH]; intros c Hc Hn Hr.
  - cbn [replicate app]. change (seqZ c (Z.of_nat 0)) with (@nil Z). rewrite Z.add_0_r.
    destruct rest as [|s rest]; [done|]. cbn [code_run].
    specialize (Hr s eq_refl). by rewrite (proj2 (Z.eqb_neq _ _)).
  - cbn [replicate app code_run]. rewrite Z.eqb_refl, u16_id by (unfold is_u16; lia).
    rewrite IH by (done || lia). rewrite (seqZ_cons c (Z.of_nat (S n))) by lia.
    replace (Z.pred (Z.of_nat (S n))) with (Z.of_nat n) by lia.
    replace (Z.succ c) with (c + 1) by lia. replace (c + Z.of_nat (S n)) with (c + 1 + Z.of_nat n) by lia. done.
Qed.

Lemma huffsize_head l bs s : head (huffsize l bs) = Some s → l <= s.
Proof.
  revert l. induction bs as [|n bs IH]; intros l H; [done|]. cbn in H.
  destruct (Z.to_nat n); cbn in H; [apply IH in H; lia|simplify_eq; lia].
Qed.

Lemma kraft_small l c bs : kraft l c bs → 0 <= c → huffsize l bs = [] → canonical_codes c bs = [].
Proof.
  revert l c. induction bs as [|n bs IH]; intros l c K Hc H; [done|]. destruct K as (Hn & _ & K).
  cbn in H |- *. apply app_eq_nil in H as [H1 H2].
  assert (n = 0) as -> by (destruct (decide (n = 0)); [done|]; destruct (Z.to_nat n) eqn:?; [lia|done]).
  rewrite (IH (l + 1)) by (done || lia). done.
Qed.

Lemma code_gen_spec bs : ∀ fuel l c,
  (length bs <= fuel)%nat → 1 <= l → l + Z.of_nat (length bs) <= 17 → 0 <= c → kraft l c bs →
  code_gen fuel (huffsize l bs) l c = Some (canonical_codes c bs).
Proof.
  induction bs as [|n bs IH]; intros fuel l c Hf Hl Hlen Hc K; [by destruct fuel|].
  pose proof K as (Hn & Hb & K').
  destruct fuel as [|fuel]; [simpl in Hf; lia|]. cbn [length] in Hf, Hlen.
  destruct (huffsize l (n :: bs)) as [|s t] eqn:E; [cbn [code_gen]; by rewrite (kraft_small l)|].
  cbn [code_gen]. rewrite <- E. cbn [huffsize].
  assert (2 ^ l <= 2 ^ 16) by (apply Z.pow_le_mono_r; lia).
  rewrite code_run_spec; [|done|lia|intros s' Hs%huffsize_head; lia].
  rewrite Z2Nat.id, Z.shiftl_mul_pow2 by lia. rewrite (u16_id (l + 1)) by (unfold is_u16; lia).
  destruct bs as [|n' bs].
  - by destruct fuel.
  - assert (l < 16) by (cbn [length] in Hlen; lia).
    assert (2 ^ l <= 2 ^ 15) by (apply Z.pow_le_mono_r; lia).
    rewrite u16_id by (unfold is_u16; lia). replace ((c + n) * 2 ^ 1) with (2 * (c + n)) by lia.
    rewrite IH by (done || lia). done.
Qed.

Lemma canonical_codes_length l c bs : kraft l c bs → length (canonical_codes c bs) = length (huffsize l bs).
Proof.
  revert l c. induction bs as [|n bs IH]; intros l c K; [done|]. destruct K as (Hn & _ & K).
  cbn. rewrite !length_app, length_replicate, length_seqZ. by rewrite (IH _ _ K).
Qed.

(** The reference for [decoding_tables]. *)
Fixpoint canonical_tables (p c : Z) (bs : list Z) : list (Z * Z) :=
  match bs with
  | [] => []
  | n :: rest =>
      (if n =? 0 then (0, -1) else (u8 p, c + n - 1)) :: canonical_tables (p + n) (2 * (c + n)) rest
  end.

Lemma decoding_tables_spec bs : ∀ l c pre,
  0 <= c → kraft l c bs →
  decoding_tables (Z.of_nat (length pre)) bs (pre ++ canonical_codes c bs)
  = Some (canonical_tables (Z.of_nat (length pre)) c bs).
Proof.
  induction bs as [|n bs IH]; intros l c pre Hc K; [done|]. destruct K as (Hn & Hb & K).
  cbn [decoding_tables canonical_codes canonical_tables]. destruct (Z.eqb_spec n 0) as [->|Hn0].
  - change (seqZ c 0) with (@nil Z). rewrite !Z.add_0_r in *. cbn [app].
    rewrite (IH (l + 1)) by (done || lia). done.
  - rewrite lookup_app_r by lia.
    replace (Z.to_nat (Z.of_nat (length pre) + n - 1) - length pre)%nat with (Z.to_nat (n - 1)) by lia.
    rewrite lookup_app_l by (rewrite length_seqZ; lia). rewrite lookup_seqZ_lt by lia.
    cbn [mbind option_bind]. rewrite (app_assoc pre).
    replace (Z.of_nat (length pre) + n) with (Z.of_nat (length (pre ++ seqZ c n)))
      by (rewrite length_app, length_seqZ; lia).
    rewrite (IH (l + 1)) by (done || lia). cbn [mbind option_bind]. do 3 f_equal. lia.
Qed.

Lemma active_word base mx : 0 <= base < 2 ^ 8 → 0 <= mx < 2 ^ 16 →
  Z.lor (Z.lor (Z.shiftl 1 31) (Z.shiftl base 16)) mx = 2 ^ 31 + 2 ^ 16 * base + mx.
Proof.
  intros Hb Hm. change (Z.shiftl 1 31) with (Z.shiftl (2 ^ 15) 16).
  rewrite <- Z.shiftl_lor. rewrite (Z.lor_comm (2 ^ 15) base).
  change (2 ^ 15) with (Z.shiftl (2 ^ 7) 8). rewrite lor_low_shiftl by lia.
  rewrite lor_shiftl_low by lia. lia.
Qed.

Lemma active_words_spec bs : ∀ l p c prev,
  1 <= l → l + Z.of_nat (length bs) <= 17 → 0 <= c → kraft l c bs →
  (match prev with
   | None => c = 0
   | Some (pm, pw) => if pm =? -1 then Z.land pw 0xffff * 2 = c else (pm + 1) * 2 = c
   end) →
  active_words prev (canonical_tables p c bs) = canonical_words p c bs.
Proof.
  induction bs as [|n bs IH]; intros l p c prev Hl Hlen Hc K Hp; [done|]. destruct K as (Hn & Hb & K).
  cbn [length] in Hlen. assert (2 ^ l <= 2 ^ 16) by (apply Z.pow_le_mono_r; lia).
  cbn [canonical_tables canonical_words]. destruct (Z.eqb_spec n 0) as [->|Hn0]; cbn [active_words].
  - rewrite Z.add_0_r in Hb, K. change (-1 =? -1) with true. cbn [negb].
    assert (E : match prev with
      | None => 0 | Some (pm, pw) => u32 (if negb (pm =? -1) then (pm + 1) * 2 else Z.land pw 0xffff * 2) end = c).
    { destruct prev as [[pm pw]|]; [|done]. destruct (pm =? -1); cbn [negb]; rewrite Hp; apply u32_id;
        unfold is_u32; lia. }
    rewrite E. f_equal. rewrite !Z.add_0_r. apply (IH (l + 1)); try done; try lia.
    change (Z.land c 0xffff * 2 = 2 * c). rewrite land_ffff, Z.mod_small by lia. lia.
  - rewrite (proj2 (Z.eqb_neq (c + n - 1) (-1))) by lia. cbn [negb].
    rewrite active_word by (apply u8_range || lia). f_equal.
    apply (IH (l + 1)); try done; try lia. rewrite (proj2 (Z.eqb_neq _ _)) by lia. lia.
Qed.

(** The generation starts at the first length in use; the code is still 0 there. *)
Lemma code_gen_start bs : ∀ l, 1 <= l → l + Z.of_nat (length bs) <= 17 → kraft l 0 bs →
  code_gen 17 (huffsize l bs) (default 0 (head (huffsize l bs))) 0 = Some (canonical_codes 0 bs).
Proof.
  induction bs as [|n bs IH]; intros l Hl Hlen K; [done|]. cbn [length] in Hlen.
  destruct (decide (n = 0)) as [->|Hn0].
  - destruct K as (_ & _ & K). apply (IH (l + 1)); try done; lia.
  - assert (H : head (huffsize l (n :: bs)) = Some l).
    { destruct K as (Hn & _). cbn. destruct (Z.to_nat n) eqn:?; [lia|done]. }
    rewrite H. cbn [default]. apply code_gen_spec; try done; cbn [length]; lia.
Qed.

(** C25. For any bits that leave the code of all ones free and at most 256 symbols,
    [JPEGFW_FixHuffTbl] terminates without leaving its buffers and its words are those of the
    canonical Huffman code: an active length has the index of its first symbol and its largest
    code, an inactive one the code the next length would start from. *)
Theorem FixHuffTbl_canonical b0 bs vals :
  length bs = 16%nat → kraft 1 0 bs → (length (huffsize 1 bs) <= AC_SYMBOL_NUM)%nat →
  JPEGFW_FixHuffTbl (HuffTbl (b0 :: bs) vals) = Some (canonical_words 0 0 bs).
Proof.
  intros HL K Hn. unfold JPEGFW_FixHuffTbl. cbn [bits tail]. rewrite decide_False by lia.
  rewrite code_gen_start by (done || lia). cbn [mbind option_bind].
  pose proof (decoding_tables_spec bs 1 0 [] ltac:(lia) K) as D.
  change (Z.of_nat (length (@nil Z))) with 0 in D. cbn [app] in D. rewrite D.
  cbn [mbind option_bind]. f_equal. apply (active_words_spec bs 1); try done; lia.
Qed.

(** ** The default tables *)

(** The decoder's state after a file whose tables are the default ones: the symbol buffers have
    257 cells, of which only those in use are determined. *)
Definition default_state (dl al dc ac : list Z) (s : vld_state) : Prop :=
  dc_huff_tbl s !! 0%nat = Some (HuffTbl jpeg_fw_lum_dc_bits_default (jpeg_fw_lum_dc_huffvalue_default ++ dl))
  ∧ ac_huff_tbl s !! 0%nat
    = Some (HuffTbl jpeg_fw_lum_ac_bits_default (take 162 jpeg_fw_lum_ac_huffvalue_default ++ al))
  ∧ dc_huff_tbl s !! 1%nat = Some (HuffTbl jpeg_fw_chr_dc_bits_default (jpeg_fw_chr_dc_huffvalue_default ++ dc))
  ∧ ac_huff_tbl s !! 1%nat
    = Some (HuffTbl jpeg_fw_chr_ac_bits_default (take 162 jpeg_fw_chr_ac_huffvalue_default ++ ac))
  ∧ num_components s = 3 ∧ length (s_active_base_max s) = 4%nat.

Definition set_default (b : bool) (s : vld_state) : vld_state :=
  VldState (dc_huff_tbl s) (ac_huff_tbl s) (num_components s) b (s_active_base_max s) (g_huffTab_mem s) (regs s).

(** The general path: derive the tables, fill the memory and program the registers. *)
Definition general_setup (s : vld_state) : option vld_state :=
  s ← JPEGFW_InitHuffTbl s; s ← JPEGFW_build_hufftab_jpegDec s; JPEGFW_configure_vld_reg_jpegDec s.

(** C27. The precomputed defaults are the computed ones: for a file with the default Huffman
    tables, deriving the tables and programming the decoder from them writes the same values to
    the same registers, in the same order, and leaves the same symbol memory as the shortcut
    that copies [jpeg_fw_vld_default_max_code] and [jpeg_fw_vld_default_huffTab]. *)
Theorem default_setup_equivalent dl al dc ac s :
  default_state dl al dc ac s →
  ∃ s1 s2, general_setup (set_default false s) = Some s1
    ∧ JPEGFW_configure_vld_reg_jpegDec (set_default true s) = Some s2
    ∧ regs s1 = regs s2 ∧ g_huffTab_mem s1 = g_huffTab_mem s2.
Proof.
  intros (Hdl & Hal & Hdc & Hac & Hn & Hl). destruct s as [dcs acs n b rows mem rg].
  cbn [dc_huff_tbl ac_huff_tbl num_components s_active_base_max] in *. subst n.
  do 2 (destruct dcs as [|? dcs]; [done|]). do 2 (destruct acs as [|? acs]; [done|]).
  do 4 (destruct rows as [|? rows]; [done|]).
  injection Hdl as ->. injection Hal as ->. injection Hdc as ->. injection Hac as ->.
  eexists _, _. split_and!; [vm_compute; reflexivity|vm_compute; reflexivity|reflexivity|reflexivity].
Qed.

(** ** Witnesses *)

Lemma FixHuffTbl_canonical_witness :
  JPEGFW_FixHuffTbl (HuffTbl jpeg_fw_lum_ac_bits_default [])
  = Some (canonical_words 0 0 (tail jpeg_fw_lum_ac_bits_default)).
Proof.
  apply (FixHuffTbl_canonical 0); [reflexivity| |vm_compute; lia].
  cbn. repeat split; lia.
Defined.

Definition ex_vld : vld_state :=
  VldState
    [HuffTbl jpeg_fw_lum_dc_bits_default (jpeg_fw_lum_dc_huffvalue_default ++ []);
     HuffTbl jpeg_fw_chr_dc_bits_default (jpeg_fw_chr_dc_huffvalue_default ++ [])]
    [HuffTbl jpeg_fw_lum_ac_bits_default (take 162 jpeg_fw_lum_ac_huffvalue_default ++ []);
     HuffTbl jpeg_fw_chr_ac_bits_default (take 162 jpeg_fw_chr_ac_huffvalue_default ++ [])]
    3 false (replicate 4 (replicate 17 0)) (replicate 162 0) [].

Lemma default_setup_equivalent_witness :
  ∃ s1 s2, general_setup (set_default false ex_vld) = Some s1
    ∧ JPEGFW_configure_vld_reg_jpegDec (set_default true ex_vld) = Some s2
    ∧ regs s1 = regs s2 ∧ g_huffTab_mem s1 = g_huffTab_mem s2.
Proof. apply (default_setup_equivalent [] [] [] [] ex_vld). split_and!; reflexivity. Defined.
