(* ===== verification/JpegBits.v ===== *)
(** * Byte input of the JPEG decoder (libcamera/jpeg/jpeg_fw_8830/src/jpegdec_bitstream.c)

    The decoder reads its header byte by byte from a buffer that a callback of
    the caller refills.  [bytes_of] is the file such a stream stands for: how it
    comes in chunks is invisible to [get_char] and the functions above it. *)

From stdpp Require Import list.
From S2P Require Import Prelude.

(** ** The stream *)

(** [inter_buf] is what lies between [s_inter_buf_ptr] and the end of the filled part
    ([s_jremain_byte_num] bytes), [behind] what lies before the pointer in the same buffer, nearest
    first; [header_len] and [file_offset] are [s_header_len] and [s_file_offset]; [reads] is what the
    [read] callback will deliver, call by call, [None] without a callback. *)
Record stream := Stream {
  behind : bytes; inter_buf : bytes; header_len : Z; file_offset : Z; reads : option (list bytes) }.

(** One call of the callback; no chunk left means it returns no bytes. *)
Definition refill (rs : list bytes) : bytes * list bytes :=
  match rs with c :: rest => (c, rest) | [] => ([], []) end.

(** [JpegDec_InitBitream] on a buffer given, or on a callback whose first chunk it reads. *)
Definition JpegDec_InitBitream (bitstream : bytes) (read_bitstream : option (list bytes)) : stream :=
  match read_bitstream with
  | None => Stream [] bitstream 0 0 None
  | Some rs => let '(c, rest) := refill rs in Stream [] c 0 (u32 (Z.of_nat (length c))) (Some rest)
  end.

(** The refill at the start of [get_char]. *)
Definition fetch (s : stream) : stream :=
  match inter_buf s, reads s with
  | [], Some rs =>
      let '(c, rest) := refill rs in
      Stream [] c (header_len s) (u32 (file_offset s + Z.of_nat (length c))) (Some rest)
  | _, _ => s
  end.

Definition get_char (s : stream) : option Z * stream :=
  let s := fetch s in
  match inter_buf s with
  | b :: rest => (Some b, Stream (b :: behind s) rest (u32 (header_len s + 1)) (file_offset s) (reads s))
  | [] => (None, s)
  end.

Definition get_short_word (s : stream) : option Z * stream :=
  match get_char s with
  | (Some value0, s) =>
      match get_char s with
      | (Some value1, s) => (Some (Z.lor (Z.shiftl value0 8) value1), s)
      | (None, s) => (None, s)
      end
  | (None, s) => (None, s)
  end.

Definition get_word (s : stream) : option Z * stream :=
  match get_short_word s with
  | (Some value0, s) =>
      match get_short_word s with
      | (Some value1, s) => (Some (Z.lor (Z.shiftl value0 16) value1), s)
      | (None, s) => (None, s)
      end
  | (None, s) => (None, s)
  end.

(** [skip_n_byte] neither refills the buffer nor counts the bytes as header. *)
Definition skip_n_byte (n : nat) (s : stream) : bool * stream :=
  if decide (n <= length (inter_buf s))%nat
  then (true, Stream (rev (take n (inter_buf s)) ++ behind s) (drop n (inter_buf s))
                (header_len s) (file_offset s) (reads s))
  else (false, s).

(** [s_inter_buf_ptr[i]] without a length check: past the filled part there are the zeros of the
    decoder's own fresh buffer when there is a callback, and nothing known ([None]) when there is not. *)
Definition peek (i : nat) (s : stream) : option Z :=
  match inter_buf s !! i with
  | Some b => Some b
  | None => match reads s with Some _ => Some 0 | None => None end
  end.

(** The four comparisons stop at the first that fails. *)
Definition is_res_jpg_file (s : stream) : option bool :=
  b0 ← peek 0 s;
  if negb (b0 =? 0x53) then Some false
  else b1 ← peek 1 s;
  if negb (b1 =? 0x4A) then Some false
  else b2 ← peek 2 s;
  if negb (b2 =? 0x50) then Some false
  else b3 ← peek 3 s; Some (b3 =? 0x47).

(** The loop of [get_header_len] over the bytes [l] before the pointer, [next] the byte at it. *)
Fixpoint unstuffed (l : bytes) (next : option Z) (len : Z) : option Z :=
  match l with
  | [] => Some len
  | b :: rest =>
      if b =? 0xff
      then c ← match rest with c :: _ => Some c | [] => next end;
           unstuffed rest next (if c =? 0 then u32 (len - 1) else len)
      else unstuffed rest next len
  end.

(** [get_header_len] looks back at the bytes after the last word boundary; [None] when they are not
    in the buffer any more. *)
Definition get_header_len (s : stream) : option Z :=
  let wordAlign_len := Z.shiftl (Z.shiftr (header_len s) 2) 2 in
  let unligned_byte := header_len s - wordAlign_len in
  if unligned_byte >? 1
  then win ← slice 0 (Z.to_nat unligned_byte) (behind s);
       unstuffed (rev win) (head (inter_buf s)) (header_len s)
  else Some (header_len s).

(** ** What is still to be read *)

(** The file behind the stream: the buffer and the chunks up to an empty one. *)
Fixpoint chunks (rs : list bytes) : bytes :=
  match rs with
  | [] => []
  | [] :: _ => []
  | c :: rest => c ++ chunks rest
  end.

Definition bytes_of (s : stream) : bytes :=
  inter_buf s ++ match reads s with Some rs => chunks rs | None => [] end.

(** Every byte that can ever be read, also after a call that delivered nothing: the measure of the
    loops that read. *)
Definition remaining (s : stream) : nat :=
  length (inter_buf s) + match reads s with Some rs => length (concat rs) | None => 0 end.

Lemma chunks_length rs : (length (chunks rs) <= length (concat rs))%nat.
Proof. induction rs as [|[|x c] rs IH]; simpl; rewrite ?length_app; lia. Qed.

Lemma remaining_bytes s : (length (bytes_of s) <= remaining s)%nat.
Proof.
  unfold remaining, bytes_of. rewrite length_app. destruct (reads s) as [rs|]; simpl; [|lia].
  pose proof (chunks_length rs). lia.
Qed.

Lemma fetch_remaining s : remaining (fetch s) = remaining s.
Proof.
  destruct s as [bh [|x buf] hl fo [[|c rs]|]]; unfold remaining; cbn; try done.
  rewrite length_app. lia.
Qed.

(** A byte read is one byte less to come; nothing read, nothing lost. *)
Lemma get_char_remaining s r s' :
  get_char s = (r, s') → (remaining s' + (if r is Some _ then 1 else 0) = remaining s)%nat.
Proof.
  unfold get_char. rewrite <- (fetch_remaining s).
  destruct (fetch s) as [bh [|x buf] hl fo rs]; cbn; intros ?; simplify_eq/=; unfold remaining; cbn; lia.
Qed.

(** [get_char] reads the file, whatever the chunks. *)
Lemma get_char_cons s b l :
  bytes_of s = b :: l →
  ∃ s', get_char s = (Some b, s') ∧ bytes_of s' = l ∧ header_len s' = u32 (header_len s + 1).
Proof.
  unfold bytes_of, get_char. destruct s as [bh [|x buf] hl fo [rs|]]; cbn; intros H; try done.
  - destruct rs as [|[|x c] rs]; cbn in H |- *; try done. injection H as <- <-. by eexists.
  - injection H as <- <-. by eexists.
  - injection H as <- <-. by eexists.
Qed.

Lemma get_char_nil s : bytes_of s = [] → ∃ s', get_char s = (None, s').
Proof.
  unfold bytes_of, get_char. destruct s as [bh [|x buf] hl fo [rs|]]; cbn; intros H; try done; [|by eexists].
  destruct rs as [|[|x c] rs]; cbn in H |- *; try done; by eexists.
Qed.

Lemma u32_succ h n : u32 (u32 h + n) = u32 (h + n).
Proof. unfold u32. apply Zplus_mod_idemp_l. Qed.

(** What is read of a file depends on the file alone: two streams of the same bytes, cut into chunks
    differently, give the same results from then on. *)
Lemma get_char_same_file s1 s2 r s1' s2' r2 :
  bytes_of s1 = bytes_of s2 → get_char s1 = (r, s1') → get_char s2 = (r2, s2') →
  r = r2 ∧ (r ≠ None → bytes_of s1' = bytes_of s2').
Proof.
  intros E H1 H2. destruct (bytes_of s1) as [|b l] eqn:E1.
  - destruct (get_char_nil s1 E1) as (t1 & T1). destruct (get_char_nil s2 (eq_sym E)) as (t2 & T2).
    rewrite T1 in H1. rewrite T2 in H2. by simplify_eq.
  - destruct (get_char_cons s1 b l E1) as (t1 & T1 & B1 & _).
    destruct (get_char_cons s2 b l (eq_sym E)) as (t2 & T2 & B2 & _).
    rewrite T1 in H1. rewrite T2 in H2. simplify_eq. by rewrite B2.
Qed.
