(* ===== verification/JpegEnc.v ===== *)
(** * Setup of the JPEG encoder (jpegenc_init.c, jpegenc_interface.c, jpegcodec_global.c)

    The encoder's codec structure, its initialisation from the caller's
    parameters, and the registers the setup programs, as the list of
    (address, value) writes in order.  Values read from registers are arguments:
    they belong to the hardware.  [None] is undefined behaviour. *)

From stdpp Require Import list numbers.
From S2P Require Import Prelude JpegTables JpegHuff.

(** ** Registers *)

Definition JPG_CTRL_BASE : Z := 0x60b00000.
Definition JPG_GLB_REG_BASE : Z := JPG_CTRL_BASE.
Definition JPG_MBIO_REG_BASE : Z := JPG_CTRL_BASE + 0x4000.
Definition JPG_BSM_REG_BASE : Z := JPG_CTRL_BASE + 0x4400.
Definition JPG_VLC_REG_BASE : Z := JPG_CTRL_BASE + 0x4c00.
Definition JPG_DCT_REG_BASE : Z := JPG_CTRL_BASE + 0x5000.
Definition JPG_MEMO0_ADDR : Z := JPG_CTRL_BASE + 0x0300.
Definition HUFFMAN_TBL_ADDR : Z := JPG_CTRL_BASE + 0x2000.

Definition GLB_CTRL : Z := JPG_GLB_REG_BASE.
Definition MB_CFG : Z := JPG_GLB_REG_BASE + 0x04.
Definition GLB_PITCH : Z := JPG_GLB_REG_BASE + 0x0C.
Definition GLB_INT_EN : Z := JPG_GLB_REG_BASE + 0x24.
Definition GLB_FRM_ADDR (n : Z) : Z := JPG_GLB_REG_BASE + 0x40 + 4 * n.
Definition BUS_GAP : Z := JPG_GLB_REG_BASE + 0x60.
Definition BSM_CFG0 : Z := JPG_BSM_REG_BASE.
Definition VLC_TOTAL_MCU : Z := JPG_VLC_REG_BASE.
Definition DCT_CFG : Z := JPG_DCT_REG_BASE.
Definition DCT_CFG_DONE : Z := JPG_DCT_REG_BASE + 0x40.
Definition MBIO_CFG : Z := JPG_MBIO_REG_BASE.
Definition MCU_NUM : Z := JPG_MBIO_REG_BASE + 0x0C.
Definition BUF_STS : Z := JPG_MBIO_REG_BASE + 0x10.
Definition MBIO_CTRL : Z := JPG_MBIO_REG_BASE + 0x18.

Abbreviation writes := (list (Z * Z)).

(** ** The caller's parameters and the codec *)

Definition JPEG_FW_YUV420 : Z := 0.
Definition JPEG_FW_YUV422 : Z := 3.
Definition JPEG_QUALITY_MAX : Z := 5.
Definition M_RST0 : Z := 0xd0.
Definition ALONE_MODE : Z := 0.

(** The addresses of the three planes and the format. *)
Record YUV_FORMAT_T := Yuv { y_data_ptr : Z; u_data_ptr : Z; v_data_ptr : Z; yuv_mcu_info : Z }.

Record buf_flags := BufFlags {
  mbio_bfr0_valid : bool; mbio_bfr1_valid : bool; bsm_buf0_valid : bool; bsm_buf1_valid : bool }.

Record enc_input := EncInput {
  in_width : Z; in_height : Z; in_stream_buf0 : Z; in_stream_buf1 : Z; bitstream_buf_len : Z;
  yuv_0_info : YUV_FORMAT_T; yuv_1_info : YUV_FORMAT_T; in_quant_level : Z; in_work_mode : Z;
  in_flags : buf_flags; in_first_slice : bool; in_last_slice : bool; in_restart_interval : Z }.

Record geometry := Geometry {
  width : Z; height : Z; c_width : Z; c_height : Z;
  mcu_num_x : Z; mcu_num_y : Z; mcu_width : Z; mcu_height : Z }.

(** Sampling ratios per component, table selectors and tables; the quantisers of luma and chroma. *)
Record enc_tables := EncTables {
  ratio : list (Z * Z); tbl_map : list TBL_MAP_T;
  dc_huff_tbl : list HUFF_TBL_T; ac_huff_tbl : list HUFF_TBL_T;
  quant_tbl : list (list Z); quant_tbl_new : list (list Z); quant_tbl_shift : list (list Z) }.

Record buffers := Buffers {
  YUV_Info_0 : YUV_FORMAT_T; YUV_Info_1 : YUV_FORMAT_T; uv_interleaved : bool;
  stream_0 : Z; stream_1 : Z; pingpang_buf_len : Z; g_stream_buf_ptr : Z; flags : buf_flags }.

Record enc_codec := EncCodec {
  geo : geometry; etab : enc_tables; ebuf : buffers; input_mcu_info : Z; compress_level : Z;
  RST_Count : Z; work_mode : Z; is_first_slice : bool; is_last_slice : bool; restart_interval : Z;
  encoded_stream_len : Z }.

Definition set_geo (g : geometry) (c : enc_codec) : enc_codec :=
  EncCodec g (etab c) (ebuf c) (input_mcu_info c) (compress_level c) (RST_Count c) (work_mode c)
    (is_first_slice c) (is_last_slice c) (restart_interval c) (encoded_stream_len c).
Definition set_etab (t : enc_tables) (c : enc_codec) : enc_codec :=
  EncCodec (geo c) t (ebuf c) (input_mcu_info c) (compress_level c) (RST_Count c) (work_mode c)
    (is_first_slice c) (is_last_slice c) (restart_interval c) (encoded_stream_len c).
Definition set_ebuf (b : buffers) (c : enc_codec) : enc_codec :=
  EncCodec (geo c) (etab c) b (input_mcu_info c) (compress_level c) (RST_Count c) (work_mode c)
    (is_first_slice c) (is_last_slice c) (restart_interval c) (encoded_stream_len c).
Definition set_slices (first last : bool) (c : enc_codec) : enc_codec :=
  EncCodec (geo c) (etab c) (ebuf c) (input_mcu_info c) (compress_level c) (RST_Count c) (work_mode c)
    first last (restart_interval c) (encoded_stream_len c).

(** ** [JpegEnc_InitParam] *)

Definition default_dc_tables : list HUFF_TBL_T :=
  [HuffTbl jpeg_fw_lum_dc_bits_default jpeg_fw_lum_dc_huffvalue_default;
   HuffTbl jpeg_fw_chr_dc_bits_default jpeg_fw_chr_dc_huffvalue_default].

Definition default_ac_tables : list HUFF_TBL_T :=
  [HuffTbl jpeg_fw_lum_ac_bits_default jpeg_fw_lum_ac_huffvalue_default;
   HuffTbl jpeg_fw_chr_ac_bits_default jpeg_fw_chr_ac_huffvalue_default].

Definition zero_tbl_map : list TBL_MAP_T := replicate 3 (TblMap 0 0 0).

(** The codec once cleared and loaded with the parameters, up to the sampling switch. *)
Definition loaded_codec (i : enc_input) : enc_codec :=
  EncCodec (Geometry (u16 (in_width i)) (u16 (in_height i)) 0 0 0 0 0 0)
    (EncTables (replicate 3 (0, 0)) zero_tbl_map default_dc_tables default_ac_tables [] [] [])
    (Buffers (yuv_0_info i) (yuv_1_info i) false (in_stream_buf0 i) (in_stream_buf1 i)
       (i32 (bitstream_buf_len i)) 0 (BufFlags true false false false))
    (u8 (yuv_mcu_info (yuv_0_info i))) (in_quant_level i) M_RST0 (u8 (in_work_mode i))
    (in_first_slice i) (in_last_slice i) (in_restart_interval i) 0.

(** The (h, v) ratios of the three components. *)
Definition sample_ratio (mcu_info : Z) : option (list (Z * Z)) :=
  if mcu_info =? JPEG_FW_YUV420 then Some [(2, 2); (1, 1); (1, 1)]
  else if mcu_info =? JPEG_FW_YUV422 then Some [(2, 1); (1, 1); (1, 1)]
  else None.

(** The MCU grid of an image of [w] by [h] pixels. *)
Definition mcu_grid (w h : Z) (r : list (Z * Z)) : geometry :=
  let mw := 8 * foldr Z.max 0 r.*1 in
  let mh := 8 * foldr Z.max 0 r.*2 in
  let nx := u16 ((w + mw - 1) / mw) in
  let ny := u16 ((h + mh - 1) / mh) in
  Geometry w h (u16 (nx * mw)) (u16 (ny * mh)) nx ny mw mh.

Definition set_ratio (r : list (Z * Z)) (t : enc_tables) : enc_tables :=
  EncTables r (tbl_map t) (dc_huff_tbl t) (ac_huff_tbl t) (quant_tbl t) (quant_tbl_new t) (quant_tbl_shift t).

(** The guard on the quality looks at the codec as it was, not at the parameters. *)
Definition JpegEnc_InitParam (i : enc_input) (c : enc_codec) : bool * enc_codec :=
  let m0 := yuv_mcu_info (yuv_0_info i) in
  let m1 := yuv_mcu_info (yuv_1_info i) in
  if negb (m0 =? JPEG_FW_YUV422) && negb (m0 =? JPEG_FW_YUV420)
     && negb (m1 =? JPEG_FW_YUV422) && negb (m1 =? JPEG_FW_YUV420) then (false, c)
  else if compress_level c >? JPEG_QUALITY_MAX then (false, c)
  else if (in_width i <? 1) || (in_height i <? 1) then (false, c)
  else
    let c := loaded_codec i in
    match sample_ratio (input_mcu_info c) with
    | None => (false, c)
    | Some r => (true, set_geo (mcu_grid (width (geo c)) (height (geo c)) r) (set_etab (set_ratio r (etab c)) c))
    end.

(** ** Table and register setup *)

Definition set_tbl_map (m : list TBL_MAP_T) (t : enc_tables) : enc_tables :=
  EncTables (ratio t) m (dc_huff_tbl t) (ac_huff_tbl t) (quant_tbl t) (quant_tbl_new t) (quant_tbl_shift t).

(** Luma uses the tables 0, chroma the tables 1. *)
Definition JPEGFW_InitHuffTblWithDefaultValue (c : enc_codec) : enc_codec :=
  let m := imap (λ k t, let id := if decide (k = 0%nat) then 0 else 1 in TblMap id id (quant_tbl_id t))
             (tbl_map (etab c)) in
  set_etab (set_tbl_map m (etab c)) c.

Definition open_jpg_iram (glb_ctrl : Z) : writes := [(GLB_CTRL, Z.lor glb_ctrl (Z.shiftl 1 2))].
Definition close_jpg_iram (glb_ctrl : Z) : writes := [(GLB_CTRL, Z.land glb_ctrl (2 ^ 32 - 1 - 4))].

(** [glb] is what the successive reads of [GLB_CTRL] return. *)
Definition configure_huff_tab (pHuff_tab : list Z) (n : nat) (glb : nat → Z) : option writes :=
  vals ← slice 0 n pHuff_tab;
  Some (open_jpg_iram (glb 0%nat)
        ++ imap (λ i v, (HUFFMAN_TBL_ADDR + Z.of_nat i * 4, v)) vals
        ++ close_jpg_iram (glb 1%nat)).

(** One half of a quantiser word: multiplier and shift of a coefficient. *)
Definition qtable_half (new shift : list Z) (index : Z) : option Z :=
  q ← new !! Z.to_nat index; sh ← shift !! Z.to_nat index;
  Some (u16 (Z.lor (Z.shiftl q 4) (u16 (sh - 11)))).

(** The loop over the coefficients, two by two, in the order of the matrix. *)
Fixpoint qtable_words (matrix new shift : list Z) (addr : Z) : option writes :=
  match matrix with
  | i1 :: i2 :: rest =>
      tmp1 ← qtable_half new shift i1;
      tmp2 ← qtable_half new shift i2;
      more ← qtable_words rest new shift (addr + 4);
      Some ((addr, Z.lor (u32 (Z.shiftl tmp2 16)) (Z.land tmp1 0xffff)) :: more)
  | _ => Some []
  end.

Definition JpegEnc_QTableCfg (c : enc_codec) (glb : nat → Z) : option (enc_codec * writes) :=
  let t := etab c in
  let m := imap (λ k t, TblMap (dc_huff_tbl_id t) (ac_huff_tbl_id t) (if decide (k = 0%nat) then 0 else 1))
             (tbl_map t) in
  let level := Z.to_nat (compress_level c) in
  q0 ← jpeg_fw_lum_quant_tbl_default !! level; q1 ← jpeg_fw_chr_quant_tbl_default !! level;
  n0 ← jpeg_fw_new_lum_quant_tbl_default !! level; n1 ← jpeg_fw_new_chr_quant_tbl_default !! level;
  s0 ← jpeg_fw_new_lum_quant_tbl_default_shift !! level;
  s1 ← jpeg_fw_new_chr_quant_tbl_default_shift !! level;
  w0 ← qtable_words jpeg_fw_ASIC_DCT_Matrix n0 s0 JPG_MEMO0_ADDR;
  w1 ← qtable_words jpeg_fw_ASIC_DCT_Matrix n1 s1 (JPG_MEMO0_ADDR + 4 * 32);
  Some (set_etab (EncTables (ratio t) m (dc_huff_tbl t) (ac_huff_tbl t) [q0; q1] [n0; n1] [s0; s1]) c,
        open_jpg_iram (glb 0%nat) ++ w0 ++ w1 ++ close_jpg_iram (glb 1%nat)).

Definition set_interleaved (b : bool) (f : buffers) : buffers :=
  Buffers (YUV_Info_0 f) (YUV_Info_1 f) b (stream_0 f) (stream_1 f) (pingpang_buf_len f)
    (g_stream_buf_ptr f) (flags f).

(** [int_en] is the interrupt mask read before the reset. *)
Definition JpegEnc_HwTopRegCfg (c : enc_codec) (int_en : Z) : enc_codec * writes :=
  let b := ebuf c in
  let uv := v_data_ptr (YUV_Info_0 b) =? 0 in
  let int_mask := Z.lor int_en (Z.lor (Z.lor (Z.shiftl 1 3) (Z.shiftl 1 1)) (Z.shiftl 1 0)) in
  let ctrl := Z.lor (Z.lor (Z.lor (Z.lor (Z.shiftl 1 6) (Z.shiftl 0 4)) (Z.shiftl 1 2)) (Z.shiftl 1 1))
                (Z.shiftl 1 0) in
  let mb := Z.lor (Z.lor (Z.lor (Z.shiftl (Z.b2z (negb uv)) 27) (Z.shiftl (input_mcu_info c) 24))
              (Z.shiftl (Z.land (mcu_num_y (geo c)) 0x3ff) 12)) (Z.land (mcu_num_x (geo c)) 0x3ff) in
  (set_ebuf (set_interleaved uv b) c,
   [(GLB_PITCH, Z.land (c_width (geo c)) 0x1fff);
    (GLB_INT_EN, int_mask);
    (GLB_FRM_ADDR 0, y_data_ptr (YUV_Info_0 b));
    (GLB_FRM_ADDR 1, u_data_ptr (YUV_Info_0 b));
    (GLB_FRM_ADDR 6, v_data_ptr (YUV_Info_0 b));
    (GLB_FRM_ADDR 0, y_data_ptr (YUV_Info_1 b));
    (GLB_FRM_ADDR 1, u_data_ptr (YUV_Info_1 b));
    (GLB_FRM_ADDR 6, v_data_ptr (YUV_Info_1 b));
    (GLB_FRM_ADDR 4, stream_0 b);
    (GLB_FRM_ADDR 5, stream_1 b);
    (GLB_CTRL, ctrl);
    (MB_CFG, mb);
    (BUS_GAP, 0)]).

(** [v_phy_addr] is not used. *)
Definition JpegEnc_HwTopUpdateYUVAddr (y_phy_addr u_phy_addr v_phy_addr : Z) (c : enc_codec) :
    enc_codec * writes :=
  let b := ebuf c in
  let upd f := Yuv y_phy_addr u_phy_addr (v_data_ptr f) (yuv_mcu_info f) in
  let f0 := upd (YUV_Info_0 b) in
  let f1 := upd (YUV_Info_1 b) in
  (set_ebuf (Buffers f0 f1 (uv_interleaved b) (stream_0 b) (stream_1 b) (pingpang_buf_len b)
               (g_stream_buf_ptr b) (flags b)) c,
   [(GLB_FRM_ADDR 0, y_data_ptr f0); (GLB_FRM_ADDR 1, u_data_ptr f0); (GLB_FRM_ADDR 6, v_data_ptr f0);
    (GLB_FRM_ADDR 2, y_data_ptr f1); (GLB_FRM_ADDR 3, u_data_ptr f1); (GLB_FRM_ADDR 7, v_data_ptr f1)]).

Definition JpegEnc_HwSubModuleCfg (c : enc_codec) : writes :=
  let cmd := Z.shiftr (pingpang_buf_len (ebuf c) + 3) 2 in
  [(BSM_CFG0, if cmd >? 0x1fffff then 0x1fffff else cmd);
   (VLC_TOTAL_MCU, Z.land (mcu_num_y (geo c) * mcu_num_x (geo c)) 0xfffff);
   (DCT_CFG, Z.lor (Z.lor (Z.shiftl 1 8) (Z.shiftl 1 1)) 1);
   (DCT_CFG_DONE, 1);
   (MBIO_CFG, 2)].

Definition set_flags (f : buf_flags) (stream_buf : Z) (b : buffers) : buffers :=
  Buffers (YUV_Info_0 b) (YUV_Info_1 b) (uv_interleaved b) (stream_0 b) (stream_1 b)
    (pingpang_buf_len b) stream_buf f.

(** [JPEG_HWEncInit]; [int_en] and [glb] are the register values read. *)
Definition JPEG_HWEncInit (i : enc_input) (c : enc_codec) (int_en : Z) (glb : nat → Z) :
    option (bool * enc_codec * writes) :=
  let c := set_slices (in_first_slice i) (in_last_slice i) c in
  let '(ok, c) := if in_first_slice i then JpegEnc_InitParam i c else (true, c) in
  if negb ok then Some (false, c, [])
  else
    let c := set_ebuf (set_flags (in_flags i) (in_stream_buf1 i) (ebuf c)) c in
    let '(c, top) := JpegEnc_HwTopRegCfg c int_en in
    let sub := JpegEnc_HwSubModuleCfg c in
    let c := JPEGFW_InitHuffTblWithDefaultValue c in
    huff ← configure_huff_tab g_huff_tab_enc 162 glb;
    '(c, q) ← JpegEnc_QTableCfg c (λ k, glb (k + 2)%nat);
    Some (true, c, top ++ sub ++ huff ++ q).

(** ** Starting the encoder *)

Definition START_HW_ENCODE (total_mcu_num : Z) (c : enc_codec) : writes :=
  [(VLC_TOTAL_MCU,
     if work_mode c =? ALONE_MODE then Z.land (mcu_num_y (geo c) * mcu_num_x (geo c)) 0xfffff
     else Z.land total_mcu_num 0xfffff);
   (MCU_NUM, Z.land total_mcu_num 0xfffff);
   (BUF_STS, 1);
   (MBIO_CTRL, 1)].

(** A division by a zero MCU size is undefined. *)
Definition JPEG_HWEncStart (raw_width raw_height : Z) (c : enc_codec) : option (bool * writes) :=
  if (Z.land raw_width 0xf =? 0) && (Z.land raw_height 0x7 =? 0) then
    if (mcu_height (geo c) =? 0) || (mcu_width (geo c) =? 0) then None
    else
      let total := u16 (u32 ((raw_height / mcu_height (geo c)) * (raw_width / mcu_width (geo c)))) in
      Some (true, START_HW_ENCODE total c)
  else Some (false, []).

(** ** The MCU grid *)

Lemma blocks_cover x m :
  0 < m → 1 <= x → 1 <= (x + m - 1) / m ∧ x <= (x + m - 1) / m * m < x + m.
Proof. intros Hm Hx. pose proof (Z.div_mod (x + m - 1) m). pose proof (Z.mod_pos_bound (x + m - 1) m). nia. Qed.

(** One dimension of the grid keeps within 16 bits up to 65520 pixels. *)
Lemma grid_dim x m :
  m = 8 ∨ m = 16 → 1 <= x <= 65520 →
  let n := u16 ((x + m - 1) / m) in u16 (n * m) = n * m ∧ 1 <= n ∧ x <= n * m < x + m.
Proof.
  intros Hm Hx. pose proof (blocks_cover x m ltac:(lia) ltac:(lia)) as [Hn Hc].
  set (q := (x + m - 1) / m) in *. cbv zeta.
  rewrite (u16_id q) by (unfold is_u16; destruct Hm as [-> | ->]; lia).
  split; [|done]. apply u16_id. unfold is_u16. destruct Hm as [-> | ->]; lia.
Qed.

Definition covers (g : geometry) : Prop :=
  c_width g = mcu_num_x g * mcu_width g ∧ c_height g = mcu_num_y g * mcu_height g
  ∧ width g <= c_width g < width g + mcu_width g
  ∧ height g <= c_height g < height g + mcu_height g.

Lemma mcu_grid_covers w h r m :
  sample_ratio m = Some r → 1 <= w <= 65520 → 1 <= h <= 65520 → covers (mcu_grid w h r).
Proof.
  unfold sample_ratio, covers, mcu_grid. intros R Hw Hh.
  destruct (m =? JPEG_FW_YUV420); [|destruct (m =? JPEG_FW_YUV422); [|done]]; injection R as <-; simpl;
    change (8 * Z.max 2 (Z.max 1 (Z.max 1 0))) with 16; change (8 * Z.max 1 (Z.max 1 (Z.max 1 0))) with 8.
  - destruct (grid_dim w 16) as (-> & ? & ?); [lia|lia|]. destruct (grid_dim h 16) as (-> & ? & ?); [lia|lia|]. lia.
  - destruct (grid_dim w 16) as (-> & ? & ?); [lia|lia|]. destruct (grid_dim h 8) as (-> & ? & ?); [lia|lia|]. lia.
Qed.

(** [JpegEnc_InitParam] accepts a 4:2:0 or 4:2:2 image of up to 65520 pixels a side; the MCU grid it
    lays covers the image, with less than one MCU to spare in each direction, and the padded size is the
    grid's size: nothing wraps in its 16 bits. *)
Theorem InitParam_grid_covers (i : enc_input) (c : enc_codec) :
  compress_level c <= JPEG_QUALITY_MAX →
  yuv_mcu_info (yuv_0_info i) = JPEG_FW_YUV420 ∨ yuv_mcu_info (yuv_0_info i) = JPEG_FW_YUV422 →
  1 <= in_width i <= 65520 → 1 <= in_height i <= 65520 →
  ∃ c', JpegEnc_InitParam i c = (true, c') ∧ covers (geo c')
    ∧ width (geo c') = in_width i ∧ height (geo c') = in_height i.
Proof.
  intros Q M Hw Hh. unfold JpegEnc_InitParam.
  assert (Ew : u16 (in_width i) = in_width i) by (apply u16_id; unfold is_u16; lia).
  assert (Eh : u16 (in_height i) = in_height i) by (apply u16_id; unfold is_u16; lia).
  destruct (Z.gtb_spec (compress_level c) JPEG_QUALITY_MAX); [lia|].
  bdecide. simpl. rewrite Ew, Eh.
  destruct M as [M | M]; rewrite M; simpl; rewrite ?andb_false_r; simpl;
    (eexists; split; [reflexivity|]); simpl; (split; [|done]);
    first [by apply (mcu_grid_covers _ _ _ JPEG_FW_YUV420) | by apply (mcu_grid_covers _ _ _ JPEG_FW_YUV422)].
Qed.

Definition ex_yuv : YUV_FORMAT_T := Yuv 0x1000 0x2000 0 JPEG_FW_YUV420.
Definition ex_input : enc_input :=
  EncInput 640 481 0x100000 0x200000 0x80000 ex_yuv ex_yuv 4 0 (BufFlags true false true true) true true 0.
Definition zero_codec : enc_codec :=
  EncCodec (Geometry 0 0 0 0 0 0 0 0) (EncTables [] [] [] [] [] [] [])
    (Buffers (Yuv 0 0 0 0) (Yuv 0 0 0 0) false 0 0 0 0 (BufFlags false false false false))
    0 0 0 0 false false 0 0.

Lemma InitParam_grid_covers_witness :
  ∃ c', JpegEnc_InitParam ex_input zero_codec = (true, c') ∧ covers (geo c')
    ∧ width (geo c') = 640 ∧ height (geo c') = 481.
Proof. apply (InitParam_grid_covers ex_input zero_codec); [done|by left|done|done]. Defined.

(** ** The quantiser memory *)

(** The multiplier and shift that the half-word of coefficient [k] of table [t] holds. *)
Definition programmed (ws : writes) (t k : nat) : option (Z * Z) :=
  let addr := JPG_MEMO0_ADDR + 4 * (32 * Z.of_nat t + Z.of_nat k / 2) in
  w ← head (filter (λ w, w.1 = addr) ws);
  let half := Z.land (Z.shiftr w.2 (if Nat.even k then 0 else 16)) 0xffff in
  Some (Z.shiftr half 4, Z.land half 15 + 11).

Definition coefficient_ok (c : enc_codec) (ws : writes) (t k : nat) : bool :=
  match jpeg_fw_ASIC_DCT_Matrix !! k, programmed ws t k with
  | Some index, Some (new, shift) =>
      match cell (quant_tbl (etab c)) t (Z.to_nat index) with
      | Some q => reciprocal_ok q new shift
      | None => false
      end
  | _, _ => false
  end.

Definition qtable_ok (level : Z) : bool :=
  match JpegEnc_QTableCfg (EncCodec (geo zero_codec) (etab zero_codec) (ebuf zero_codec) 0 level 0 0 false false 0 0)
          (λ _, 0) with
  | Some (c, ws) =>
      forallb (λ t, forallb (coefficient_ok c ws t) (seq 0 64)) (seq 0 2)
  | None => false
  end.

Example qtables_ok : Forall (λ level, qtable_ok level = true) [0; 1; 2; 3; 4].
Proof. rewrite !list.Forall_cons. split_and!; [vm_compute; reflexivity..|apply Forall_nil_2]. Qed.

Lemma qtable_level level :
  0 <= level <= 4 → qtable_ok level = true.
Proof.
  intros H. pose proof (proj1 (list.Forall_forall _ _) qtables_ok level) as F. apply F.
  assert (level = 0 ∨ level = 1 ∨ level = 2 ∨ level = 3 ∨ level = 4) as [-> | [-> | [-> | [-> | ->]]]] by lia;
    apply list_elem_of_In; simpl; tauto.
Qed.

(** What [JpegEnc_QTableCfg] writes and stores depends on the codec's level only. *)
Lemma QTableCfg_level c glb c0 glb0 c1 ws :
  compress_level c = compress_level c0 → JpegEnc_QTableCfg c0 glb0 = Some (c1, ws) →
  ∃ c' q, JpegEnc_QTableCfg c glb = Some (c', open_jpg_iram (glb 0%nat) ++ q ++ close_jpg_iram (glb 1%nat))
    ∧ ws = open_jpg_iram (glb0 0%nat) ++ q ++ close_jpg_iram (glb0 1%nat)
    ∧ quant_tbl (etab c') = quant_tbl (etab c1).
Proof.
  intros L H. unfold JpegEnc_QTableCfg in *. rewrite L. binv H.
  repeat (match goal with E : ?o = Some _ |- context [?o ≫= _] => rewrite E end; cbn [mbind option_bind]).
  simplify_eq.
  eexists _, (x5 ++ x6). rewrite <- !(app_assoc x5). split_and!; reflexivity.
Qed.

Lemma programmed_iram g0 g1 h0 h1 q t k :
  programmed (open_jpg_iram g0 ++ q ++ close_jpg_iram g1) t k
  = programmed (open_jpg_iram h0 ++ q ++ close_jpg_iram h1) t k.
Proof.
  unfold programmed, open_jpg_iram, close_jpg_iram.
  assert (N : JPG_MEMO0_ADDR + 4 * (32 * Z.of_nat t + Z.of_nat k / 2) ≠ GLB_CTRL)
    by (unfold JPG_MEMO0_ADDR, GLB_CTRL, JPG_GLB_REG_BASE; pose proof (Z.div_pos (Z.of_nat k) 2); lia).
  cbn [app]. rewrite !filter_cons_False by (simpl; congruence).
  rewrite !list_basics.list.filter_app, !filter_cons_False by (simpl; congruence). done.
Qed.

(** At every quality level [JpegEnc_QTableCfg] programs the quantiser memory so that each
    coefficient of both tables, in the order the hardware takes them, gets the 12-bit reciprocal and
    the shift of the very quantiser that the codec will write into the DQT segments. *)
Theorem QTableCfg_programs_reciprocals (c : enc_codec) (glb : nat → Z) :
  0 <= compress_level c <= 4 →
  ∃ c' ws, JpegEnc_QTableCfg c glb = Some (c', ws)
    ∧ ∀ t k, (t < 2)%nat → (k < 64)%nat → coefficient_ok c' ws t k = true.
Proof.
  intros L. pose proof (qtable_level _ L) as Q. unfold qtable_ok in Q. case_match eqn:E; [|done].
  destruct p as [c1 ws]. edestruct (QTableCfg_level c glb) as (c' & q & Hc & Hw & Ht); [|exact E|]; [done|].
  eexists c', _. split; [exact Hc|]. intros t k Hlt Hk.
  rewrite forallb_forall in Q. specialize (Q t). rewrite in_seq, forallb_forall in Q.
  specialize (Q ltac:(lia) k). rewrite in_seq in Q. specialize (Q ltac:(lia)).
  unfold coefficient_ok in *. rewrite Ht. by erewrite programmed_iram, <- Hw.
Qed.

Lemma QTableCfg_programs_reciprocals_witness :
  ∃ c' ws, JpegEnc_QTableCfg (loaded_codec ex_input) (λ _, 0x47) = Some (c', ws)
    ∧ ∀ t k, (t < 2)%nat → (k < 64)%nat → coefficient_ok c' ws t k = true.
Proof. apply QTableCfg_programs_reciprocals. done. Defined.

(** ** What the guards and registers miss *)

(** The quality guard of [JpegEnc_InitParam] reads the codec before the parameters are loaded: a
    level out of range passes it on a fresh codec, and the table setup then indexes outside the
    quantiser tables. *)
Theorem InitParam_quality_unchecked (i : enc_input) (c : enc_codec) (int_en : Z) (glb : nat → Z) :
  in_first_slice i = true → compress_level c = 0 → 5 <= in_quant_level i →
  yuv_mcu_info (yuv_0_info i) = JPEG_FW_YUV420 → 1 <= in_width i → 1 <= in_height i →
  (JpegEnc_InitParam i c).1 = true ∧ JPEG_HWEncInit i c int_en glb = None.
Proof.
  intros F L Q M Hw Hh.
  assert (P : ∀ c, compress_level c = 0 → ∃ g t, JpegEnc_InitParam i c = (true, set_geo g (set_etab t (loaded_codec i)))).
  { intros c' L'. unfold JpegEnc_InitParam. rewrite L', M. bdecide. simpl. rewrite M. by eexists _, _. }
  split; [destruct (P c L) as (? & ? & ->); done|].
  unfold JPEG_HWEncInit. rewrite F.
  destruct (P (set_slices true (in_last_slice i) c) L) as (g & t & ->).
  cbn [negb]. unfold JpegEnc_HwTopRegCfg. destruct (configure_huff_tab _ _ _); [|done]. cbn [mbind option_bind].
  enough (E : jpeg_fw_lum_quant_tbl_default !! Z.to_nat (in_quant_level i) = None)
    by (unfold JpegEnc_QTableCfg; cbn [compress_level JPEGFW_InitHuffTblWithDefaultValue set_etab set_ebuf set_geo loaded_codec];
        rewrite E; done).
  apply lookup_ge_None_2. change (length jpeg_fw_lum_quant_tbl_default) with 5%nat. lia.
Qed.

Definition ex_bad_quality : enc_input :=
  EncInput 640 480 0 0 0x80000 ex_yuv ex_yuv 5 0 (BufFlags true false true true) true true 0.

Lemma InitParam_quality_unchecked_witness :
  (JpegEnc_InitParam ex_bad_quality zero_codec).1 = true
  ∧ JPEG_HWEncInit ex_bad_quality zero_codec 0 (λ _, 0) = None.
Proof. apply InitParam_quality_unchecked; done. Defined.

(** The last value written to a register. *)
Definition last_write (a : Z) (ws : writes) : option Z :=
  '(_, v) ← list_basics.list.last (filter (λ w, w.1 = a) ws); Some v.

(** Slices of up to [2 ^ 16 - 1] MCUs start the scan of their own grid; a whole image of more (a
    4096 x 4096 image in 4:2:0 has 65536) starts the variable-length coder on all of them but
    the memory engine on none: the count is cut to 16 bits on one side only. *)
Theorem HWEncStart_mcu_totals (c : enc_codec) :
  work_mode c = ALONE_MODE → covers (geo c) →
  mcu_width (geo c) = 16 → mcu_height (geo c) = 8 ∨ mcu_height (geo c) = 16 →
  0 < mcu_num_x (geo c) <= 4095 → 0 < mcu_num_y (geo c) ≤ 8190 →
  let area := mcu_num_y (geo c) * mcu_num_x (geo c) in
  area < 2 ^ 20 →
  ∃ ws, JPEG_HWEncStart (c_width (geo c)) (c_height (geo c)) c = Some (true, ws)
    ∧ last_write VLC_TOTAL_MCU ws = Some area ∧ last_write MCU_NUM ws = Some (area mod 2 ^ 16).
Proof.
  intros W (Cw & Ch & _) Mw Mh Nx Ny area A. unfold JPEG_HWEncStart, START_HW_ENCODE. rewrite Cw, Ch, Mw, W.
  assert (Ex : Z.land (mcu_num_x (geo c) * 16) 0xf = 0).
  { change 0xf with (Z.ones 4). rewrite Z.land_ones by lia. apply Z.mod_mul. lia. }
  assert (Ey : Z.land (mcu_num_y (geo c) * mcu_height (geo c)) 0x7 = 0).
  { change 0x7 with (Z.ones 3). rewrite Z.land_ones by lia.
    destruct Mh as [-> | ->]; [apply Z.mod_mul; lia|].
    replace (mcu_num_y (geo c) * 16) with (mcu_num_y (geo c) * 2 * 2 ^ 3) by lia. apply Z.mod_mul. lia. }
  rewrite Ex, Ey. simpl. rewrite (proj2 (Z.eqb_neq (mcu_height (geo c)) 0)) by lia. simpl.
  rewrite !Z.div_mul by lia. fold area.
  eexists. split; [reflexivity|]. unfold last_write. cbn [filter list_filter].
  assert (E20 : Z.land area 0xfffff = area).
  { change 0xfffff with (Z.ones 20). rewrite Z.land_ones by lia. apply Z.mod_small. subst area. nia. }
  assert (E16 : Z.land (u16 (u32 area)) 0xfffff = area mod 2 ^ 16).
  { rewrite u32_id by (unfold is_u32; subst area; nia). unfold u16.
    change 0xfffff with (Z.ones 20). rewrite Z.land_ones by lia.
    apply Z.mod_small. pose proof (Z.mod_pos_bound area (2 ^ 16)). lia. }
  rewrite E20, E16. done.
Qed.

(** A 4096 x 4096 image in 4:2:0. *)
Definition ex_large : enc_codec :=
  set_geo (mcu_grid 4096 4096 [(2, 2); (1, 1); (1, 1)]) zero_codec.

Lemma HWEncStart_mcu_totals_witness :
  ∃ ws, JPEG_HWEncStart 4096 4096 ex_large = Some (true, ws)
    ∧ last_write VLC_TOTAL_MCU ws = Some 65536 ∧ last_write MCU_NUM ws = Some 0.
Proof.
  apply (HWEncStart_mcu_totals ex_large); try done.
  by right.
Defined.

(** The setup leaves the first frame's registers with the addresses of the second frame and never
    writes the second frame's own; the later address update writes those, but keeps the old third plane. *)
Theorem second_frame_registers (c : enc_codec) (int_en y u v : Z) :
  let ws := (JpegEnc_HwTopRegCfg c int_en).2 in
  let us := (JpegEnc_HwTopUpdateYUVAddr y u v c).2 in
  last_write (GLB_FRM_ADDR 0) ws = Some (y_data_ptr (YUV_Info_1 (ebuf c)))
  ∧ last_write (GLB_FRM_ADDR 2) ws = None
  ∧ last_write (GLB_FRM_ADDR 2) us = Some y
  ∧ last_write (GLB_FRM_ADDR 7) us = Some (v_data_ptr (YUV_Info_1 (ebuf c))).
Proof. done. Qed.
