(* ===== verification/JpegHeader.v ===== *)
(** * Header output of the JPEG encoder (jpegenc_bitstream.c, jpegenc_header.c, jpegenc_interface.c)

    Every byte of a header goes through the bit-stream manager of the hardware:
    the driver polls its ready register, writes the number of bits and then the
    value.  An [emitter] is such a routine: from the number of polls made so far and
    the register writes done, it gives JPEG_SUCCESS or not and the new state, or
    [None] where C is undefined.  [rdy] is what the ready register reads, poll by
    poll. *)

From stdpp Require Import list numbers.
From S2P Require Import Prelude JpegTables JpegHuff JpegEnc.

Definition BSM_CFG2 : Z := JPG_BSM_REG_BASE + 0x08.
Definition BSM_WDATA : Z := JPG_BSM_REG_BASE + 0x0c.
Definition VLC_CTRL : Z := JPG_VLC_REG_BASE + 0x04.
Definition TIME_OUT_CLK : positive := 0xfffffff.

Definition M_SOF0 := 0xc0.
Definition M_DHT := 0xc4.
Definition M_RST7 := 0xd7.
Definition M_SOI := 0xd8.
Definition M_EOI := 0xd9.
Definition M_SOS := 0xda.
Definition M_DQT := 0xdb.
Definition M_DRI := 0xdd.
Definition M_APP0 := 0xe0.

(** ** The bounded poll *)

(** [p] rounds of a loop body, which goes on with a state or ends with a result. *)
Fixpoint rounds {T R} (p : positive) (f : T → T + R) (x : T) : T + R :=
  match p with
  | xH => f x
  | xO q => match rounds q f x with inl x => rounds q f x | inr r => inr r end
  | xI q => match f x with
            | inl x => match rounds q f x with inl x => rounds q f x | inr r => inr r end
            | inr r => inr r
            end
  end.

Fixpoint rounds_nat {T R} (n : nat) (f : T → T + R) (x : T) : T + R :=
  match n with
  | O => inl x
  | S n' => match f x with inl x => rounds_nat n' f x | inr r => inr r end
  end.

Lemma rounds_nat_add {T R} n m (f : T → T + R) x :
  rounds_nat (n + m) f x = match rounds_nat n f x with inl x => rounds_nat m f x | inr r => inr r end.
Proof. revert x. induction n as [|n IH]; intros x; simpl; [done|]. destruct (f x); [apply IH|done]. Qed.

Lemma rounds_spec {T R} p (f : T → T + R) x : rounds p f x = rounds_nat (Pos.to_nat p) f x.
Proof.
  revert x. induction p as [p IH|p IH|]; intros x; cbn [rounds].
  - replace (Pos.to_nat p~1) with (S (Pos.to_nat p + Pos.to_nat p)) by lia.
    cbn [rounds_nat]. destruct (f x) as [y|r]; [|done].
    rewrite rounds_nat_add, <- IH. destruct (rounds p f y); auto.
  - replace (Pos.to_nat p~0) with (Pos.to_nat p + Pos.to_nat p)%nat by lia.
    rewrite rounds_nat_add, <- IH. destruct (rounds p f x); auto.
  - change (Pos.to_nat 1) with 1%nat. simpl. by destruct (f x).
Qed.

(** ** The header as items

    What the routines below send, as (bits, value) pairs. *)

Definition put8 (v : Z) : Z * Z := (8, u8 v).
Definition put16 (v : Z) : Z * Z := (16, u16 v).

Definition marker_items (m : Z) : writes := [put8 0xff; put8 m].

Definition app0_items : writes :=
  marker_items M_APP0 ++ [put16 16; put8 0x4a; put8 0x46; put8 0x49; put8 0x46; put8 0; put8 1; put8 1; put8 0;
    put16 1; put16 1; put8 0; put8 0].

(** The quantisers in zigzag order. *)
Definition zigzagged (q : list Z) : list Z :=
  take 64 jpeg_fw_zigzag_order ≫= λ z, option_list (q !! Z.to_nat z).

Definition dqt_items (i : nat) (q : list Z) : writes :=
  marker_items M_DQT ++ [put16 67; put8 (Z.of_nat i)] ++ (put8 <$> zigzagged q).

Definition sof0_items (c : enc_codec) : writes :=
  marker_items M_SOF0 ++ [put16 17; put8 8; put16 (height (geo c)); put16 (width (geo c)); put8 3]
  ++ concat (imap (λ i '(r, t),
       [put8 (Z.of_nat i + 1); put8 (Z.lor (Z.shiftl r.1 4) r.2); put8 (quant_tbl_id t)])
       (zip (ratio (etab c)) (tbl_map (etab c)))).

Definition symbol_count (t : HUFF_TBL_T) : Z := foldr Z.add 0 (tail (bits t)).

Definition dht_items (index : Z) (t : HUFF_TBL_T) : writes :=
  marker_items M_DHT ++ [put16 (19 + symbol_count t); put8 index]
  ++ (put8 <$> tail (bits t)) ++ (put8 <$> take (Z.to_nat (symbol_count t)) (huffval t)).

Definition dri_items (c : enc_codec) : writes :=
  if restart_interval c =? 0 then []
  else marker_items M_DRI ++ [put16 4; put16 (restart_interval c)].

Definition sos_items (c : enc_codec) : writes :=
  marker_items M_SOS ++ [put16 12; put8 3]
  ++ concat (imap (λ i t, [put8 (Z.of_nat i + 1); put8 (Z.lor (Z.shiftl (dc_huff_tbl_id t) 4) (ac_huff_tbl_id t))])
       (tbl_map (etab c)))
  ++ [put8 0; put8 63; put8 0].

Definition dht_all_items (c : enc_codec) : writes :=
  match dc_huff_tbl (etab c), ac_huff_tbl (etab c) with
  | [dl; dc], [al; ac] => dht_items 0x00 dl ++ dht_items 0x10 al ++ dht_items 0x01 dc ++ dht_items 0x11 ac
  | _, _ => []
  end.

Definition dqt_all_items (c : enc_codec) : writes := concat (imap dqt_items (quant_tbl (etab c))).

Definition header_items (c : enc_codec) : writes :=
  marker_items M_SOI ++ app0_items ++ dqt_all_items c ++ sof0_items c ++ dht_all_items c
  ++ dri_items c ++ sos_items c.

(** What the encoder's tables are once set up. *)
Definition wf_huff (t : HUFF_TBL_T) : Prop :=
  length (bits t) = 17%nat ∧ wf_bytes (bits t) ∧ wf_bytes (huffval t)
  ∧ 0 <= symbol_count t <= 256 ∧ symbol_count t <= Z.of_nat (length (huffval t)).

Definition wf_quant (q : list Z) : Prop := length q = 64%nat ∧ wf_bytes q.

Definition wf_enc (c : enc_codec) : Prop :=
  length (ratio (etab c)) = 3%nat ∧ length (tbl_map (etab c)) = 3%nat
  ∧ length (quant_tbl (etab c)) = 2%nat ∧ Forall wf_quant (quant_tbl (etab c))
  ∧ length (dc_huff_tbl (etab c)) = 2%nat ∧ Forall wf_huff (dc_huff_tbl (etab c))
  ∧ length (ac_huff_tbl (etab c)) = 2%nat ∧ Forall wf_huff (ac_huff_tbl (etab c)).

Section device.
Variable rdy : nat → Z.

(** One round of the polling loop: the reads so far and the count. *)
Definition poll_round (msk exp_value time : Z) (st : nat * Z) : nat * Z + bool * nat :=
  let '(k, vsp_time_out_cnt) := st in
  if Z.land (rdy k) msk =? exp_value then inr (false, S k)
  else if vsp_time_out_cnt >? time then inr (true, S k)
  else inl (S k, vsp_time_out_cnt + 1).

(** The result 1 (a time-out) is [true]; [time + 2] rounds always end it. *)
Definition jpg_read_reg_poll (msk exp_value : Z) (time : positive) (k : nat) : bool * nat :=
  match rounds (time + 2) (poll_round msk exp_value (Zpos time)) (k, 0) with
  | inr r => r
  | inl (k, _) => (true, k)
  end.

(** ** Emitters *)

Record bsm := Bsm { polls : nat; regs : writes }.

Definition emitter : Type := bsm → option (bool * bsm).

Definition emit_done : emitter := λ e, Some (true, e).
Definition emit_undef : emitter := λ e, None.

Definition emit_seq (p q : emitter) : emitter := λ e,
  '(ok, e) ← p e; if ok : bool then q e else Some (false, e).

Declare Scope emit_scope.
Infix ">>>" := emit_seq (at level 58, right associativity) : emit_scope.
Local Open Scope emit_scope.

(** A poll whose time-out makes the caller fail. *)
Definition ready_poll : emitter := λ e,
  let '(timeout, k) := jpg_read_reg_poll 1 1 TIME_OUT_CLK (polls e) in Some (negb timeout, Bsm k (regs e)).

(** A poll whose result is not looked at. *)
Definition ready_wait : emitter := λ e,
  let '(_, k) := jpg_read_reg_poll 1 1 TIME_OUT_CLK (polls e) in Some (true, Bsm k (regs e)).

Definition JPG_WRITE_REG (addr v : Z) : emitter := λ e, Some (true, Bsm (polls e) (regs e ++ [(addr, v)])).

Definition for_each {A} (f : A → emitter) (l : list A) : emitter :=
  foldr (λ x p, f x >>> p) emit_done l.

(** An array element, undefined outside the array. *)
Definition with_cell {A} (o : option A) (f : A → emitter) : emitter :=
  match o with Some x => f x | None => emit_undef end.

(** ** jpegenc_bitstream.c *)

Definition JPEGFW_PutBits (v nbits : Z) : emitter :=
  ready_wait >>> JPG_WRITE_REG BSM_CFG2 (u32 (Z.shiftl nbits 24)) >>> JPG_WRITE_REG BSM_WDATA v.

Definition JPEGFW_PutC (ch : Z) : emitter :=
  ready_wait >>> JPG_WRITE_REG BSM_CFG2 (Z.shiftl 8 24) >>> JPG_WRITE_REG BSM_WDATA (u8 ch).

Definition JPEGFW_PutW (w : Z) : emitter :=
  ready_wait >>> JPG_WRITE_REG BSM_CFG2 (Z.shiftl 16 24) >>> JPG_WRITE_REG BSM_WDATA (u16 w).

Definition swap16 (w : Z) : Z :=
  Z.lor (Z.shiftl (Z.land w 0xff) 8) (Z.land (Z.shiftr w 8) 0xff).

Definition JPEGFW_PutW_II (w : Z) : emitter := JPEGFW_PutW (swap16 w).

Definition swap32 (v : Z) : Z :=
  Z.lor (Z.lor (Z.lor (Z.shiftl (Z.land v 0xff) 24) (Z.shiftl (Z.land (Z.shiftr v 8) 0xff) 16))
    (Z.shiftl (Z.land (Z.shiftr v 16) 0xff) 8)) (Z.land (Z.shiftr v 24) 0xff).

Definition JPEGFW_PutBits32_II (v nbits : Z) : emitter := JPEGFW_PutBits (swap32 v) 32.

(** ** jpegenc_header.c *)

Definition PutMarker (mark : Z) : emitter := JPEGFW_PutC 0xff >>> JPEGFW_PutC mark.

(** The restart marker and the counter after it; its first poll is not looked at. *)
Definition OutPutRstMarker (c : enc_codec) : emitter * enc_codec :=
  let r := if RST_Count c >? M_RST7 then M_RST0 else RST_Count c in
  (ready_wait >>> JPEGFW_PutC 0xff >>> JPEGFW_PutC r,
   EncCodec (geo c) (etab c) (ebuf c) (input_mcu_info c) (compress_level c) (u8 (r + 1)) (work_mode c)
     (is_first_slice c) (is_last_slice c) (restart_interval c) (encoded_stream_len c)).

Definition PutAPP0 : emitter :=
  ready_poll >>>
  PutMarker M_APP0 >>>
  JPEGFW_PutW (2 + 4 + 1 + 2 + 1 + 2 + 2 + 1 + 1) >>>
  JPEGFW_PutC 0x4a >>> JPEGFW_PutC 0x46 >>> JPEGFW_PutC 0x49 >>> JPEGFW_PutC 0x46 >>>
  JPEGFW_PutC 0 >>>
  JPEGFW_PutC 1 >>> JPEGFW_PutC 1 >>>
  JPEGFW_PutC 0 >>>
  JPEGFW_PutW 1 >>> JPEGFW_PutW 1 >>>
  JPEGFW_PutC 0 >>> JPEGFW_PutC 0.

Definition PutSOF0 (c : enc_codec) : emitter :=
  ready_poll >>>
  PutMarker M_SOF0 >>>
  JPEGFW_PutW (3 * 3 + 2 + 5 + 1) >>>
  JPEGFW_PutC 8 >>>
  JPEGFW_PutW (height (geo c)) >>>
  JPEGFW_PutW (width (geo c)) >>>
  JPEGFW_PutC 3 >>>
  for_each (λ i : nat,
    with_cell (ratio (etab c) !! i) (λ r, with_cell (tbl_map (etab c) !! i) (λ t,
      JPEGFW_PutC (Z.of_nat i + 1) >>>
      JPEGFW_PutC (Z.lor (Z.shiftl r.1 4) r.2) >>>
      JPEGFW_PutC (quant_tbl_id t)))) (seq 0 3).

Definition PutSOS (c : enc_codec) : emitter :=
  ready_poll >>>
  PutMarker M_SOS >>>
  JPEGFW_PutW (2 * 3 + 2 + 1 + 3) >>>
  JPEGFW_PutC 3 >>>
  for_each (λ i : nat,
    with_cell (tbl_map (etab c) !! i) (λ t,
      JPEGFW_PutC (Z.of_nat i + 1) >>>
      JPEGFW_PutC (Z.lor (Z.shiftl (dc_huff_tbl_id t) 4) (ac_huff_tbl_id t)))) (seq 0 3) >>>
  JPEGFW_PutC 0 >>> JPEGFW_PutC 63 >>> JPEGFW_PutC 0.

(** The cells [k, k + n) of the zigzag order. *)
Definition put_quant_run (quant : list Z) (k n : nat) : emitter :=
  for_each (λ k : nat,
    with_cell (jpeg_fw_zigzag_order !! k) (λ z,
      with_cell (quant !! Z.to_nat z) (λ q, JPEGFW_PutC q))) (seq k n).

Definition PutQuantTbl (c : enc_codec) : emitter :=
  for_each (λ i : nat,
    ready_poll >>>
    PutMarker M_DQT >>>
    JPEGFW_PutW (64 + 1 + 2) >>>
    JPEGFW_PutC (Z.of_nat i) >>>
    with_cell (quant_tbl (etab c) !! i) (λ quant,
      ready_poll >>> put_quant_run quant 0 32 >>> ready_poll >>> put_quant_run quant 32 32)) (seq 0 2).

(** The symbols [i, i + n). *)
Definition put_huffval (vals : list Z) (i n : nat) : emitter :=
  for_each (λ i : nat, with_cell (vals !! i) JPEGFW_PutC) (seq i n).

(** [k] runs of 32 symbols from [i] on, each after a poll. *)
Fixpoint put_huff_runs (vals : list Z) (i k : nat) : emitter :=
  match k with
  | O => emit_done
  | S k' => ready_poll >>> put_huffval vals i 32 >>> put_huff_runs vals (i + 32) k'
  end.

(** [bits] has the cells 0 to 16; the table's size in symbols is 16 bits. *)
Definition PutOneHuffTbl (index : Z) (t : HUFF_TBL_T) : emitter :=
  if decide (17 <= length (bits t))%nat then
    let count := foldl (λ n b, u16 (n + b)) 0 (take 16 (tail (bits t))) in
    let length := u16 (2 + 1 + 16 + count) in
    ready_poll >>>
    PutMarker M_DHT >>>
    JPEGFW_PutW length >>>
    JPEGFW_PutC index >>>
    for_each JPEGFW_PutC (take 16 (tail (bits t))) >>>
    put_huff_runs (huffval t) 0 (Z.to_nat (count / 32)) >>>
    ready_poll >>>
    put_huffval (huffval t) (32 * Z.to_nat (count / 32)) (Z.to_nat (count mod 32))
  else emit_undef.

Definition PutHuffTbl (c : enc_codec) : emitter :=
  with_cell (dc_huff_tbl (etab c) !! 0%nat) (PutOneHuffTbl 0x00) >>>
  with_cell (ac_huff_tbl (etab c) !! 0%nat) (PutOneHuffTbl 0x10) >>>
  with_cell (dc_huff_tbl (etab c) !! 1%nat) (PutOneHuffTbl 0x01) >>>
  with_cell (ac_huff_tbl (etab c) !! 1%nat) (PutOneHuffTbl 0x11).

Definition WriteDRI (c : enc_codec) : emitter :=
  ready_poll >>>
  if negb (restart_interval c =? 0)
  then PutMarker M_DRI >>> JPEGFW_PutW 4 >>> JPEGFW_PutW (restart_interval c)
  else emit_done.

(** [JPEG_HWWriteHead] and [JPEG_HWWriteHeadForThumbnail] write the same header. *)
Definition JPEG_HWWriteHead (c : enc_codec) : emitter :=
  ready_poll >>>
  PutMarker M_SOI >>>
  PutAPP0 >>>
  PutQuantTbl c >>>
  PutSOF0 c >>>
  PutHuffTbl c >>>
  WriteDRI c >>>
  PutSOS c.

Definition JPEG_HWWriteHeadForThumbnail (c : enc_codec) : emitter :=
  ready_poll >>>
  PutMarker M_SOI >>>
  PutAPP0 >>>
  PutQuantTbl c >>>
  PutSOF0 c >>>
  PutHuffTbl c >>>
  WriteDRI c >>>
  PutSOS c.

Definition JPEG_HWWriteTailForThumbnail : emitter := ready_poll >>> PutMarker M_EOI.

(** The words of the thumbnail, then the bytes left; [l] is its memory, a word little-endian. *)
Definition WriteThumbnailData (l : bytes) (thumbnail_len : nat) : emitter :=
  for_each (λ i : nat, with_cell (get32 (4 * i) l) (λ w, JPEGFW_PutBits32_II w 32))
    (seq 0 (thumbnail_len / 4)) >>>
  for_each (λ j : nat, with_cell (l !! j) JPEGFW_PutC)
    (seq (4 * (thumbnail_len / 4)) (thumbnail_len - 4 * (thumbnail_len / 4))).

(** The active [PutAPP1] polls and checks that the stream buffer has room, and writes nothing. *)
Definition MAX_APP1_SIZE : Z := 64 * 1024.
Inductive app1_result := App1_success | App1_failed | App1_memory_not_enough.
Definition PutAPP1 (thumbnail_len stream_buf_len : Z) (e : bsm) : app1_result * bsm :=
  let '(timeout, k) := jpg_read_reg_poll 1 1 TIME_OUT_CLK (polls e) in
  let e := Bsm k (regs e) in
  if timeout then (App1_failed, e)
  else if u32 (u32 (MAX_APP1_SIZE + thumbnail_len) + thumbnail_len) >? stream_buf_len
       then (App1_memory_not_enough, e) else (App1_success, e).

(** [JPEG_HWWriteTail]: the time-out of its poll is only traced, and [ended] stands for the wait for the end of
    the hardware. *)
Definition JPEG_HWWriteTail (ended : bool) : emitter :=
  JPG_WRITE_REG VLC_CTRL 1 >>>
  ready_wait >>>
  JPG_WRITE_REG BSM_CFG2 (Z.shiftl 16 24) >>>
  JPG_WRITE_REG BSM_WDATA 0xffd9 >>>
  (λ e, Some (ended, e)).

(** ** The poll ends *)

Definition ready_at (msk exp_value : Z) (k : nat) : Prop := Z.land (rdy k) msk = exp_value.

(** The first ready read among the [n] from [k] ends the poll; none of them, a time-out. *)
Definition poll_result (msk exp_value : Z) (n k : nat) (r : bool * nat) : Prop :=
  (∃ i, (i < n)%nat ∧ ready_at msk exp_value (k + i)
        ∧ (∀ j, (j < i)%nat → ¬ ready_at msk exp_value (k + j)) ∧ r = (false, (k + i + 1)%nat))
  ∨ ((∀ j, (j < n)%nat → ¬ ready_at msk exp_value (k + j)) ∧ r = (true, (k + n)%nat)).

Lemma poll_result_now msk e n k : (0 < n)%nat → ready_at msk e k → poll_result msk e n k (false, S k).
Proof. intros H R. left. exists 0%nat. rewrite Nat.add_0_r. split_and!; [lia|done|lia|f_equal; lia]. Qed.

Lemma poll_result_later msk e n k r :
  ¬ ready_at msk e k → poll_result msk e n (S k) r → poll_result msk e (S n) k r.
Proof.
  intros N [(i & Hi & R & F & ->) | [F ->]].
  - left. exists (S i). rewrite <- !Nat.add_succ_comm in *. split_and!; [lia|done| |f_equal; lia].
    intros [|j] Hj; [by rewrite Nat.add_0_r|]. rewrite <- Nat.add_succ_comm. apply F. lia.
  - right. split; [|f_equal; lia]. intros [|j] Hj; [by rewrite Nat.add_0_r|].
    rewrite <- Nat.add_succ_comm. apply F. lia.
Qed.

Lemma poll_rounds msk e time n : ∀ k cnt,
  Z.of_nat (S n) + cnt = time + 2 → 0 <= cnt →
  ∃ r, rounds_nat (S n) (poll_round msk e time) (k, cnt) = inr r ∧ poll_result msk e (S n) k r.
Proof.
  induction n as [|n IH]; intros k cnt E C; cbn [rounds_nat poll_round];
    (destruct (Z.eqb_spec (Z.land (rdy k) msk) e) as [R | R];
      [eexists; split; [done|apply poll_result_now; [lia|done]]|]).
  - destruct (Z.gtb_spec cnt time); [|lia]. eexists. split; [done|]. right.
    split; [|f_equal; lia]. intros j Hj. replace (k + j)%nat with k by lia. done.
  - destruct (Z.gtb_spec cnt time); [lia|]. destruct (IH (S k) (cnt + 1)) as (r & Er & Pr); [lia|lia|].
    exists r. split; [done|by apply poll_result_later].
Qed.

Lemma poll_spec msk e time k :
  poll_result msk e (Pos.to_nat time + 2) k (jpg_read_reg_poll msk e time k).
Proof.
  unfold jpg_read_reg_poll. rewrite rounds_spec.
  destruct (poll_rounds msk e (Z.pos time) (Pos.to_nat time + 1) k 0) as (r & E & P); [lia|lia|].
  replace (Pos.to_nat (time + 2)) with (S (Pos.to_nat time + 1)) by lia. rewrite E.
  by replace (Pos.to_nat time + 2)%nat with (S (Pos.to_nat time + 1)) by lia.
Qed.

(** [jpg_read_reg_poll] always returns, after at most [time + 2] reads: 0 with the first read that shows
    the expected value, 1 when none of them does. *)
Theorem jpg_read_reg_poll_spec (msk exp_value : Z) (time : positive) (k : nat) :
  poll_result msk exp_value (Pos.to_nat time + 2) k (jpg_read_reg_poll msk exp_value time k).
Proof. apply poll_spec. Qed.

Definition always_ready : Prop := ∀ k, ready_at 1 1 k.

Lemma ready_no_timeout k : always_ready → (jpg_read_reg_poll 1 1 TIME_OUT_CLK k).1 = false.
Proof.
  intros A. destruct (poll_spec 1 1 TIME_OUT_CLK k) as [(i & _ & _ & _ & ->) | [F _]]; [done|].
  exfalso. apply (F 0%nat); [lia|]. rewrite Nat.add_0_r. apply A.
Qed.

(** ** What an emitter emits *)

(** Items (bits, value) as the register writes that send them. *)
Definition put_regs (items : writes) : writes :=
  items ≫= (λ it, [(BSM_CFG2, Z.shiftl it.1 24); (BSM_WDATA, it.2)]).

Lemma put_regs_app l1 l2 : put_regs (l1 ++ l2) = put_regs l1 ++ put_regs l2.
Proof. apply bind_app. Qed.

(** Whatever the polls answer, an emitter of [items] is defined and sends a prefix of them: all of them
    when it succeeds, and it succeeds when the device is always ready. *)
Definition emits (p : emitter) (items : writes) : Prop :=
  ∀ e, ∃ ok e' sent, p e = Some (ok, e') ∧ regs e' = regs e ++ put_regs sent ∧ sent `prefix_of` items
    ∧ (ok = true → sent = items) ∧ (always_ready → ok = true).

Lemma emits_done : emits emit_done [].
Proof. intros e. exists true, e, []. split_and!; try done. by rewrite app_nil_r. Qed.

Lemma emits_seq p q l1 l2 : emits p l1 → emits q l2 → emits (p >>> q) (l1 ++ l2).
Proof.
  intros P Q e. destruct (P e) as (ok & e1 & s1 & E1 & R1 & [r1 F1] & T1 & A1). unfold emit_seq. rewrite E1. simpl.
  destruct ok.
  - rewrite <- (T1 eq_refl). destruct (Q e1) as (ok & e2 & s2 & E2 & R2 & F2 & T2 & A2).
    exists ok, e2, (s1 ++ s2). split_and!; [done| | |intros ->; f_equal; auto|done].
    + by rewrite R2, R1, put_regs_app, app_assoc.
    + by apply prefix_app.
  - exists false, e1, s1. split_and!; [done|done| |done|intros A; by apply A1].
    exists (r1 ++ l2). by rewrite F1, app_assoc.
Qed.

Lemma emits_ready : emits ready_poll [].
Proof.
  intros e. unfold ready_poll. pose proof (ready_no_timeout (polls e)) as R.
  destruct (jpg_read_reg_poll 1 1 TIME_OUT_CLK (polls e)) as [t k].
  exists (negb t), (Bsm k (regs e)), []. split_and!; try done; [by rewrite app_nil_r|].
  intros A. simpl in R. by rewrite (R A).
Qed.

Lemma emits_guard q l : emits q l → emits (ready_poll >>> q) l.
Proof. intros Q. apply (emits_seq _ _ [] l emits_ready Q). Qed.

Lemma emits_cons p q it l : emits p [it] → emits q l → emits (p >>> q) (it :: l).
Proof. apply (emits_seq p q [it] l). Qed.

Lemma emits_put n v :
  emits (ready_wait >>> JPG_WRITE_REG BSM_CFG2 (Z.shiftl n 24) >>> JPG_WRITE_REG BSM_WDATA v) [(n, v)].
Proof.
  intros e. unfold ready_wait, JPG_WRITE_REG, emit_seq.
  destruct (jpg_read_reg_poll 1 1 TIME_OUT_CLK (polls e)) as [t k]. simpl.
  eexists true, _, [(n, v)]. split_and!; try done. simpl. by rewrite <- app_assoc.
Qed.

Lemma emits_C ch : emits (JPEGFW_PutC ch) [(8, u8 ch)].
Proof. apply emits_put. Qed.

Lemma emits_W w : emits (JPEGFW_PutW w) [(16, u16 w)].
Proof. apply emits_put. Qed.

Lemma emits_marker m : emits (PutMarker m) [(8, 255); (8, u8 m)].
Proof. apply emits_cons; apply emits_C. Qed.

Lemma emits_for {A} (f : A → emitter) g l :
  (∀ x, x ∈ l → emits (f x) (g x)) → emits (for_each f l) (l ≫= g).
Proof.
  induction l as [|x l IH]; intros H; [apply emits_done|].
  apply emits_seq; [apply H; by left|]. apply IH. intros y Hy. apply H. by right.
Qed.

Lemma emits_eq p l l' : emits p l → l = l' → emits p l'.
Proof. by intros ? <-. Qed.

Lemma emits_put8 v : emits (JPEGFW_PutC v) [put8 v].
Proof. apply emits_C. Qed.

(** Cells in a row. *)
Lemma bind_cells {A B} (f : A → B) l i n :
  (i + n <= length l)%nat → seq i n ≫= (λ k, f <$> option_list (l !! k)) = f <$> take n (drop i l).
Proof.
  revert i. induction n as [|n IH]; intros i H; [done|]. cbn [seq]. rewrite bind_cons, IH by lia.
  destruct (lookup_lt_is_Some_2 l i) as [x E]; [lia|]. rewrite E. simpl.
  by rewrite (drop_S l x i E).
Qed.

Lemma emits_cells (l : list Z) i n :
  (i + n <= length l)%nat → emits (put_huffval l i n) (put8 <$> take n (drop i l)).
Proof.
  intros H. rewrite <- bind_cells by done. apply emits_for. intros k Hk%elem_of_seq.
  destruct (lookup_lt_is_Some_2 l k) as [x E]; [lia|]. rewrite E. simpl. apply emits_put8.
Qed.

Lemma emits_huff_runs l k : ∀ i,
  (i + 32 * k <= length l)%nat → emits (put_huff_runs l i k) (put8 <$> take (32 * k) (drop i l)).
Proof.
  induction k as [|k IH]; intros i H.
  - replace (32 * 0)%nat with 0%nat by lia. simpl. apply emits_done.
  - cbn [put_huff_runs]. apply emits_guard.
    replace (32 * S k)%nat with (32 + 32 * k)%nat by lia.
    rewrite <- take_take_drop, fmap_app, drop_drop. apply emits_seq; [apply emits_cells; lia|apply IH; lia].
Qed.

Lemma count_sum l : ∀ a, is_u16 a → foldl (λ n b, u16 (n + b)) a l = u16 (a + foldr Z.add 0 l).
Proof.
  induction l as [|x l IH]; intros a H; simpl; [by rewrite Z.add_0_r, u16_id|].
  rewrite IH by apply u16_range. unfold u16. rewrite Zplus_mod_idemp_l. f_equal. lia.
Qed.

Lemma emits_dht index t : wf_huff t → emits (PutOneHuffTbl index t) (dht_items index t).
Proof.
  intros (L & _ & _ & C & B). unfold PutOneHuffTbl, dht_items. rewrite decide_True by lia.
  assert (T : take 16 (tail (bits t)) = tail (bits t)).
  { apply take_ge. destruct (bits t); simpl in *; lia. }
  rewrite T, count_sum by (unfold is_u16; lia). fold (symbol_count t).
  set (n := symbol_count t) in *. rewrite Z.add_0_l, (u16_id n) by (unfold is_u16; lia).
  apply emits_guard. apply emits_seq; [apply emits_marker|]. apply emits_cons.
  { eapply emits_eq; [apply emits_W|]. unfold put16. f_equal. f_equal.
    rewrite (u16_id (2 + 1 + 16 + n)); [done|]. unfold is_u16. lia. }
  apply emits_cons; [apply emits_put8|].
  apply emits_seq.
  { eapply emits_eq; [apply emits_for; intros; apply emits_put8|]. by induction (tail (bits t)); simpl; [|f_equal]. }
  set (k := Z.to_nat (n / 32)). set (r := Z.to_nat (n mod 32)).
  assert (E : Z.to_nat n = (32 * k + r)%nat) by (subst k r; pose proof (Z.div_mod n 32);
    pose proof (Z.mod_pos_bound n 32); pose proof (Z.div_pos n 32); lia).
  eapply emits_eq; [|by rewrite E, <- take_take_drop, fmap_app, <- (drop_0 (huffval t)) at 1].
  apply emits_seq; [apply emits_huff_runs; lia|]. apply emits_guard, emits_cells. lia.
Qed.

Lemma emits_quant_run q n : ∀ k,
  wf_quant q → (k + n <= 64)%nat →
  emits (put_quant_run q k n)
    (put8 <$> (take n (drop k jpeg_fw_zigzag_order) ≫= λ z, option_list (q !! Z.to_nat z))).
Proof.
  induction n as [|n IH]; intros k [L W] H; [apply emits_done|].
  destruct (lookup_lt_is_Some_2 jpeg_fw_zigzag_order k) as [z Ez];
    [change (length jpeg_fw_zigzag_order) with 80%nat; lia|].
  assert (0 <= z < 64).
  { pose proof (eq_refl : forallb (λ z, (0 <=? z) && (z <? 64)) jpeg_fw_zigzag_order = true) as F.
    rewrite forallb_forall in F. apply list_elem_of_lookup_2, list_elem_of_In, F in Ez. bsplit. lia. }
  destruct (lookup_lt_is_Some_2 q (Z.to_nat z)) as [v Ev]; [lia|].
  unfold put_quant_run. cbn [seq for_each foldr]. rewrite Ez, (drop_S _ z k Ez). cbn [take with_cell].
  rewrite bind_cons, Ev, fmap_app. change (put8 <$> option_list (Some v)) with [put8 v]. cbn [with_cell].
  apply emits_cons; [apply emits_put8|]. apply IH; [done|lia].
Qed.

Lemma emits_dqt i q :
  wf_quant q →
  emits (ready_poll >>> PutMarker M_DQT >>> JPEGFW_PutW (64 + 1 + 2) >>> JPEGFW_PutC (Z.of_nat i) >>>
         (ready_poll >>> put_quant_run q 0 32 >>> ready_poll >>> put_quant_run q 32 32)) (dqt_items i q).
Proof.
  intros W. apply emits_guard, emits_seq; [apply emits_marker|].
  apply emits_cons; [apply emits_W|]. apply emits_cons; [apply emits_put8|]. apply emits_guard.
  eapply emits_eq; [apply emits_seq; [apply emits_quant_run; [done|lia]|]|].
  { apply emits_guard, emits_quant_run; [done|lia]. }
  by rewrite <- fmap_app, <- bind_app.
Qed.

(** The list of three or two cells. *)
Lemma length_3 {A} (l : list A) : length l = 3%nat → ∃ x y z, l = [x; y; z].
Proof. destruct l as [|x [|y [|z [|]]]]; simpl; try done. eauto. Qed.

Lemma length_2 {A} (l : list A) : length l = 2%nat → ∃ x y, l = [x; y].
Proof. destruct l as [|x [|y [|]]]; simpl; try done. eauto. Qed.

Ltac emit := repeat first [apply emits_marker | apply emits_put8 | apply emits_W | apply emits_done
  | apply emits_guard | apply emits_cons | apply emits_seq].

Lemma emits_app0 : emits PutAPP0 app0_items.
Proof. unfold PutAPP0. apply emits_guard, emits_seq; [apply emits_marker|]. emit. Qed.

Lemma emits_sof0 c : wf_enc c → emits (PutSOF0 c) (sof0_items c).
Proof.
  intros (Lr & Lt & _). unfold PutSOF0, sof0_items.
  destruct (length_3 _ Lr) as (r0 & r1 & r2 & ->), (length_3 _ Lt) as (t0 & t1 & t2 & ->).
  apply emits_guard, emits_seq; [apply emits_marker|]. cbn.
  do 5 (apply emits_cons; [emit|]).
  apply (emits_seq _ _ [_; _; _]); [emit|]. apply (emits_seq _ _ [_; _; _]); [emit|].
  apply (emits_seq _ _ [_; _; _]); emit.
Qed.

Lemma emits_sos c : wf_enc c → emits (PutSOS c) (sos_items c).
Proof.
  intros (_ & Lt & _). unfold PutSOS, sos_items. destruct (length_3 _ Lt) as (t0 & t1 & t2 & ->).
  apply emits_guard, emits_seq; [apply emits_marker|]. cbn.
  do 2 (apply emits_cons; [emit|]). apply (emits_seq _ _ [_; _; _; _; _; _]); [|emit].
  apply (emits_seq _ _ [_; _]); [emit|]. apply (emits_seq _ _ [_; _]); [emit|].
  apply (emits_seq _ _ [_; _]); emit.
Qed.

Lemma emits_dri c : emits (WriteDRI c) (dri_items c).
Proof.
  unfold WriteDRI, dri_items. apply emits_guard. destruct (restart_interval c =? 0); [apply emits_done|].
  apply emits_seq; [apply emits_marker|]. emit.
Qed.

Lemma emits_all_dqt c : wf_enc c → emits (PutQuantTbl c) (dqt_all_items c).
Proof.
  intros (_ & _ & L & W & _). unfold PutQuantTbl, dqt_all_items.
  destruct (length_2 _ L) as (q0 & q1 & E). rewrite E in *. rewrite !list.Forall_cons in W. destruct W as (W0 & W1 & _).
  cbn [seq for_each foldr]. apply emits_seq; [by apply emits_dqt|].
  apply emits_seq; [by apply emits_dqt|apply emits_done].
Qed.

Lemma emits_all_dht c : wf_enc c → emits (PutHuffTbl c) (dht_all_items c).
Proof.
  intros (_ & _ & _ & _ & Ld & Wd & La & Wa). unfold PutHuffTbl, dht_all_items.
  destruct (length_2 _ Ld) as (dl & dc & E). rewrite E in *. destruct (length_2 _ La) as (al & ac & E'). rewrite E' in *.
  rewrite !list.Forall_cons in Wd, Wa. destruct Wd as (? & ? & _), Wa as (? & ? & _).
  do 3 (apply emits_seq; [by apply emits_dht|]). by apply emits_dht.
Qed.

Lemma emits_head c : wf_enc c → emits (JPEG_HWWriteHead c) (header_items c).
Proof.
  intros W. apply emits_guard, emits_seq; [apply emits_marker|].
  apply emits_seq; [apply emits_app0|]. apply emits_seq; [by apply emits_all_dqt|].
  apply emits_seq; [by apply emits_sof0|]. apply emits_seq; [by apply emits_all_dht|].
  apply emits_seq; [apply emits_dri|by apply emits_sos].
Qed.
End device.

(** ** The bytes in the stream *)

(** The low [n] bits of a value, most significant byte first. *)
Definition be (n v : Z) : bytes :=
  if n =? 8 then [u8 v] else if n =? 16 then [u8 (Z.shiftr v 8); u8 v]
  else [u8 (Z.shiftr v 24); u8 (Z.shiftr v 16); u8 (Z.shiftr v 8); u8 v].

Definition item_bytes (items : writes) : bytes := items ≫= λ it, be it.1 it.2.

Definition header_bytes (c : enc_codec) : bytes := item_bytes (header_items c).

Lemma item_bytes_app l1 l2 : item_bytes (l1 ++ l2) = item_bytes l1 ++ item_bytes l2.
Proof. apply bind_app. Qed.

(** Items the bit-stream manager is sent here have 8, 16 or 32 bits. *)
Definition whole_bytes (it : Z * Z) : Prop := it.1 = 8 ∨ it.1 = 16 ∨ it.1 = 32.

Lemma put8_whole v : whole_bytes (put8 v).
Proof. by left. Qed.
Lemma put16_whole v : whole_bytes (put16 v).
Proof. by right; left. Qed.

Lemma put8s_whole l : Forall whole_bytes (put8 <$> l).
Proof. apply Forall_fmap, list.Forall_true. intros v. apply put8_whole. Qed.

Ltac whole := repeat first [apply list.Forall_nil_2 | apply list.Forall_cons; split; [first [apply put8_whole | apply put16_whole]|]
  | apply put8s_whole | apply Forall_app; split].

Lemma concat_imap_whole {A} (f : nat → A → writes) l :
  (∀ i x, Forall whole_bytes (f i x)) → Forall whole_bytes (concat (imap f l)).
Proof.
  intros H. revert f H. induction l as [|x l IH]; intros f H; simpl; [constructor|].
  apply Forall_app. split; [apply H|]. apply IH. intros i y. apply H.
Qed.

Lemma header_whole c : Forall whole_bytes (header_items c).
Proof.
  unfold header_items, marker_items, app0_items, dqt_all_items, sof0_items, dht_all_items, dri_items, sos_items.
  whole.
  - apply concat_imap_whole. intros i q. unfold dqt_items. whole.
  - apply concat_imap_whole. intros i [r t]. whole.
  - destruct (dc_huff_tbl (etab c)) as [|dl [|dc [|]]]; [whole..| |whole].
    destruct (ac_huff_tbl (etab c)) as [|al [|ac [|]]]; unfold dht_items; whole.
  - destruct (_ =? 0); whole.
  - apply concat_imap_whole. intros i t. whole.
Qed.

Section bitstream.
(** The bit-stream manager: the bytes it has output after a sequence of register writes.  A number of
    bits in [CFG2] and a value in [WDATA] append that many bits of the value. *)
Context (bitstream : writes → bytes).
Hypothesis bitstream_put : ∀ ws n v, whole_bytes (n, v) →
  bitstream (ws ++ [(BSM_CFG2, Z.shiftl n 24); (BSM_WDATA, v)]) = bitstream ws ++ be n v.

Lemma bitstream_items ws items :
  Forall whole_bytes items → bitstream (ws ++ put_regs items) = bitstream ws ++ item_bytes items.
Proof.
  intros W. revert ws. induction W as [|[n v] items Hw W IH]; intros ws; [by rewrite !app_nil_r|].
  unfold put_regs, item_bytes. rewrite !bind_cons, !app_assoc. fold (put_regs items) (item_bytes items).
  by rewrite IH, bitstream_put.
Qed.

(** C5. Whatever the ready polls answer, [JPEG_HWWriteHead] puts into the stream a prefix of the
    header of the codec, all of it exactly when it reports success, and it does succeed on a device
    that is always ready. *)
Theorem JPEG_HWWriteHead_bytes (rdy : nat → Z) (c : enc_codec) (e : bsm) :
  wf_enc c →
  ∃ ok e' sent, JPEG_HWWriteHead rdy c e = Some (ok, e')
    ∧ bitstream (regs e') = bitstream (regs e) ++ sent ∧ sent `prefix_of` header_bytes c
    ∧ (ok = true → sent = header_bytes c) ∧ (always_ready rdy → ok = true).
Proof.
  intros W. destruct (emits_head rdy c W e) as (ok & e' & items & E & R & [rest P] & T & A).
  pose proof (header_whole c) as F. rewrite P in F. apply Forall_app in F as [F _].
  exists ok, e', (item_bytes items). split_and!; [done| | | |done].
  - by rewrite R, bitstream_items.
  - exists (item_bytes rest). unfold header_bytes. by rewrite P, item_bytes_app.
  - intros O. by rewrite (T O).
Qed.
End bitstream.

(** A bit-stream manager: the last number of bits configured, and the output. *)
Definition bsm_step (st : Z * bytes) (w : Z * Z) : Z * bytes :=
  if w.1 =? BSM_CFG2 then (Z.shiftr w.2 24, st.2)
  else if w.1 =? BSM_WDATA then (st.1, st.2 ++ be st.1 w.2) else st.

Definition bsm_stream (ws : writes) : bytes := (foldl bsm_step (0, []) ws).2.

Lemma bsm_stream_put ws n v : whole_bytes (n, v) →
  bsm_stream (ws ++ [(BSM_CFG2, Z.shiftl n 24); (BSM_WDATA, v)]) = bsm_stream ws ++ be n v.
Proof.
  intros W. unfold bsm_stream. rewrite foldl_app. destruct (foldl bsm_step (0, []) ws) as [k out]. simpl.
  unfold bsm_step. simpl. f_equal. f_equal. destruct W as [E | [E | E]]; simpl in E; by subst n.
Qed.

(** The codec set up for an image of 640 by 481 in 4:2:0. *)
Definition ex_encoder : option enc_codec :=
  '(ok, c, _) ← JPEG_HWEncInit ex_input zero_codec 0 (λ _, 0); if ok : bool then Some c else None.

Definition wf_huffb (t : HUFF_TBL_T) : bool :=
  (length (bits t) =? 17)%nat && forallb (λ b, (0 <=? b) && (b <? 256)) (bits t)
  && forallb (λ b, (0 <=? b) && (b <? 256)) (huffval t)
  && (0 <=? symbol_count t) && (symbol_count t <=? 256)
  && (symbol_count t <=? Z.of_nat (length (huffval t))).

Definition wf_encb (c : enc_codec) : bool :=
  (length (ratio (etab c)) =? 3)%nat && (length (tbl_map (etab c)) =? 3)%nat
  && (length (quant_tbl (etab c)) =? 2)%nat
  && forallb (λ q, (length q =? 64)%nat && forallb (λ b, (0 <=? b) && (b <? 256)) q) (quant_tbl (etab c))
  && (length (dc_huff_tbl (etab c)) =? 2)%nat && forallb wf_huffb (dc_huff_tbl (etab c))
  && (length (ac_huff_tbl (etab c)) =? 2)%nat && forallb wf_huffb (ac_huff_tbl (etab c)).

Ltac nsplit := repeat match goal with H : (_ =? _)%nat = true |- _ => apply Nat.eqb_eq in H end.

Lemma bytes_ok l : forallb (λ b, (0 <=? b) && (b <? 256)) l = true → wf_bytes l.
Proof.
  intros H. apply list.Forall_forall. intros b Hb. rewrite forallb_forall in H.
  apply list_elem_of_In, H in Hb. bsplit. unfold is_u8. lia.
Qed.

Lemma wf_huff_ok t : wf_huffb t = true → wf_huff t.
Proof.
  unfold wf_huffb, wf_huff. intros H. bsplit; nsplit.
  split_and!; auto using bytes_ok.
Qed.

Lemma forallb_Forall {A} (f : A → bool) (P : A → Prop) l :
  (∀ x, f x = true → P x) → forallb f l = true → Forall P l.
Proof.
  intros H F. apply list.Forall_forall. intros x Hx. rewrite forallb_forall in F.
  apply H, F. by apply list_elem_of_In.
Qed.

Lemma wf_enc_ok c : wf_encb c = true → wf_enc c.
Proof.
  unfold wf_encb, wf_enc. intros H. bsplit; nsplit.
  split_and!; try done; (eapply forallb_Forall; [|done]); try apply wf_huff_ok.
  intros q Hq. cbv beta in Hq. bsplit; nsplit. split; auto using bytes_ok.
Qed.

Lemma JPEG_HWWriteHead_bytes_witness :
  ∃ c, ex_encoder = Some c ∧
  ∃ ok e' sent, JPEG_HWWriteHead (λ _, 1) c (Bsm 0 []) = Some (ok, e')
    ∧ bsm_stream (regs e') = [] ++ sent ∧ sent `prefix_of` header_bytes c
    ∧ (ok = true → sent = header_bytes c) ∧ (always_ready (λ _, 1) → ok = true).
Proof.
  destruct ex_encoder as [c|] eqn:E; [|by vm_compute in E].
  exists c. split; [done|].
  apply (JPEG_HWWriteHead_bytes bsm_stream bsm_stream_put (λ _, 1) c (Bsm 0 [])).
  apply wf_enc_ok.
  enough (H : match ex_encoder with Some c => wf_encb c | None => false end = true) by (by rewrite E in H).
  vm_compute. reflexivity.
Defined.

(** ** The thumbnail *)

Lemma lor_pack a b k : 0 <= k → 0 <= b < 2 ^ k → Z.lor (2 ^ k * a) b = 2 ^ k * a + b.
Proof. intros Hk Hb. rewrite <- (lor_shiftl_low b a k) by done. by rewrite Z.shiftl_mul_pow2, Z.mul_comm by done. Qed.

Ltac word_div :=
  rewrite ?Z.shiftr_div_pow2 by lia;
  change (2 ^ 8) with 256 in *; change (2 ^ 16) with 65536 in *; change (2 ^ 24) with 16777216 in *;
  Z.to_euclidean_division_equations; lia.

Lemma swap32_value b0 b1 b2 b3 :
  is_u8 b0 → is_u8 b1 → is_u8 b2 → is_u8 b3 →
  swap32 (b0 + 2 ^ 8 * b1 + 2 ^ 16 * b2 + 2 ^ 24 * b3) = 2 ^ 24 * b0 + 2 ^ 16 * b1 + 2 ^ 8 * b2 + b3.
Proof.
  unfold is_u8. intros H0 H1 H2 H3.
  assert (E0 : Z.land (b0 + 2 ^ 8 * b1 + 2 ^ 16 * b2 + 2 ^ 24 * b3) 0xff = b0) by (rewrite land_ff; word_div).
  assert (E1 : Z.land (Z.shiftr (b0 + 2 ^ 8 * b1 + 2 ^ 16 * b2 + 2 ^ 24 * b3) 8) 0xff = b1) by (rewrite land_ff; word_div).
  assert (E2 : Z.land (Z.shiftr (b0 + 2 ^ 8 * b1 + 2 ^ 16 * b2 + 2 ^ 24 * b3) 16) 0xff = b2) by (rewrite land_ff; word_div).
  assert (E3 : Z.land (Z.shiftr (b0 + 2 ^ 8 * b1 + 2 ^ 16 * b2 + 2 ^ 24 * b3) 24) 0xff = b3) by (rewrite land_ff; word_div).
  unfold swap32. rewrite E0, E1, E2, E3, !Z.shiftl_mul_pow2 by lia.
  rewrite (Z.mul_comm b0), (Z.mul_comm b1), (Z.mul_comm b2).
  rewrite (lor_pack b0 (2 ^ 16 * b1) 24) by lia.
  replace (2 ^ 24 * b0 + 2 ^ 16 * b1) with (2 ^ 16 * (2 ^ 8 * b0 + b1)) by lia.
  rewrite (lor_pack _ (2 ^ 8 * b2) 16) by lia.
  replace (2 ^ 16 * (2 ^ 8 * b0 + b1) + 2 ^ 8 * b2) with (2 ^ 8 * (2 ^ 16 * b0 + 2 ^ 8 * b1 + b2)) by lia.
  rewrite lor_pack by lia. lia.
Qed.

(** A word read from memory and byte-swapped goes out in the order of the memory. *)
Lemma be_swap32 l off w :
  wf_bytes l → get32 off l = Some w → slice off 4 l = Some (be 32 (swap32 w)).
Proof.
  intros W H. unfold get32 in H. binv H. injection H as <-.
  assert (B : ∀ i b, l !! i = Some b → is_u8 b) by (intros i b; unfold wf_bytes in W; rewrite Forall_lookup in W; apply W).
  rewrite swap32_value by eauto.
  pose proof (B _ _ E) as Bx. pose proof (B _ _ E0) as Bx0. pose proof (B _ _ E1) as Bx1. pose proof (B _ _ E2) as Bx2.
  unfold is_u8 in Bx, Bx0, Bx1, Bx2.
  pose proof (lookup_lt_Some _ _ _ E2). rewrite slice_ok by lia. f_equal.
  rewrite (drop_S _ _ _ E). replace (off + 1)%nat with (S off) in E0 by lia. rewrite (drop_S _ _ _ E0).
  replace (off + 2)%nat with (S (S off)) in E1 by lia. rewrite (drop_S _ _ _ E1).
  replace (off + 3)%nat with (S (S (S off))) in E2 by lia. rewrite (drop_S _ _ _ E2).
  cbn [take be Z.eqb Pos.eqb]. unfold u8.
  repeat f_equal; word_div.
Qed.

Section thumbnail.
Context (rdy : nat → Z) (l : bytes).

Lemma emits_words n : ∀ i,
  wf_bytes l → (4 * (i + n) <= length l)%nat →
  ∃ items, emits rdy (for_each (λ i : nat, with_cell (get32 (4 * i) l) (λ w, JPEGFW_PutBits32_II rdy w 32)) (seq i n)) items
    ∧ Forall whole_bytes items ∧ item_bytes items = take (4 * n) (drop (4 * i) l).
Proof.
  induction n as [|n IH]; intros i W H.
  - exists []. split_and!; [apply emits_done|constructor|done].
  - destruct (IH (S i)) as (items & E & F & B); [done|lia|].
    destruct (get32_Some (4 * i) l) as [w Hw]; [lia|].
    exists ((32, swap32 w) :: items). split_and!.
    + cbn [seq for_each foldr]. rewrite Hw. apply emits_cons; [|exact E]. apply emits_put.
    + apply list.Forall_cons. split; [by right; right|done].
    + change (item_bytes ((32, swap32 w) :: items)) with (be 32 (swap32 w) ++ item_bytes items).
      pose proof (be_swap32 l (4 * i) w W Hw) as S4. rewrite slice_ok in S4 by lia. injection S4 as S4.
      rewrite <- S4, B. replace (4 * S n)%nat with (4 + 4 * n)%nat by lia.
      rewrite <- take_take_drop, drop_drop. do 3 f_equal. lia.
Qed.

(** [WriteThumbnailData] sends the thumbnail byte for byte, although it reads whole words of a
    little-endian memory and the stream wants the high byte first: the words are swapped and
    the odd bytes follow. *)
Theorem WriteThumbnailData_bytes (n : nat) :
  wf_bytes l → (n <= length l)%nat →
  ∃ items, emits rdy (WriteThumbnailData rdy l n) items ∧ Forall whole_bytes items ∧ item_bytes items = take n l.
Proof.
  intros W H. destruct (emits_words (n / 4) 0 W) as (ws & E & F & B); [pose proof (Nat.div_mod_eq n 4); lia|].
  set (k := (4 * (n / 4))%nat) in *. assert (Hk : (k <= n)%nat) by (subst k; pose proof (Nat.div_mod_eq n 4); lia).
  exists (ws ++ (put8 <$> take (n - k) (drop k l))). split_and!.
  - apply emits_seq; [exact E|]. apply (emits_cells rdy l k (n - k)). lia.
  - apply Forall_app. split; [done|apply put8s_whole].
  - rewrite item_bytes_app, B, drop_0. assert (U : ∀ m, wf_bytes m → item_bytes (put8 <$> m) = m).
    { induction m as [|b m IH]; intros Wm; [done|]. apply wf_cons in Wm as [Hb Wm]. rewrite fmap_cons.
      change (item_bytes (put8 b :: (put8 <$> m))) with ([u8 (u8 b)] ++ item_bytes (put8 <$> m)).
      rewrite IH by done. by rewrite !(u8_id b). }
    rewrite U by (apply Forall_take, Forall_drop, W). rewrite take_take_drop. f_equal. lia.
Qed.
End thumbnail.

Lemma WriteThumbnailData_bytes_witness :
  ∃ items, emits (λ _, 1) (WriteThumbnailData (λ _, 1) [1; 2; 3; 4; 5; 6] 6) items
    ∧ Forall whole_bytes items ∧ item_bytes items = [1; 2; 3; 4; 5; 6].
Proof.
  apply (WriteThumbnailData_bytes (λ _, 1) [1; 2; 3; 4; 5; 6] 6); [|done]. apply bytes_ok. reflexivity.
Defined.
