(* ===== verification/JpegParse.v ===== *)
(** * Header parser of the JPEG decoder (libcamera/jpeg/jpeg_fw_8830/src/jpegdec_parse.c)

    The marker loop and the segment handlers, over the byte stream of JpegBits and
    the fields of [JPEG_CODEC_T] and [JPEG_DEC_INPUT_PARA_T] they set, the memory
    pool of jpegdec_malloc.c and the entry [JPEG_FWParseHead] of
    jpegdec_interface.c.  A handler is a [parser]: it succeeds with a value
    ([JPEG_SUCCESS]), fails ([JPEG_FAILED]) or leaves the defined behaviour of C
    ([Undef]: a write or read outside an array, a null table, a block outside the
    pool).  The reading loops run on the number of bytes left, which is shown to
    be enough. *)

From stdpp Require Import list numbers.
From S2P Require Import Prelude JpegTables JpegHuff JpegBits.

(** ** The state *)

Record jpeg_component_info := Comp {
  component_id : Z; component_index : Z; h_samp_factor : Z; v_samp_factor : Z;
  MCU_width : Z; MCU_height : Z }.

(** What a frame header sets: fields of the decoder's input parameters and of the codec. *)
Record frame := Frame {
  input_width : Z; input_height : Z; input_mcu_info : Z; progressive_mode : bool;
  num_components : Z; comp_info : list jpeg_component_info }.

Record scan := Scan {
  comps_in_scan : Z; comp_id_map : list Z; Ss : Z; Se : Z; Ah : Z; Al : Z; input_scan_number : Z }.

Record restart := Restart { restart_interval : Z; restart_to_go : Z; next_restart_num : Z }.

(** The tables; [None] is a null pointer. *)
Record tables := Tables {
  tbl_map : list TBL_MAP_T; quant_tbl : list (option bytes);
  dc_huff_tbl : list (option HUFF_TBL_T); ac_huff_tbl : list (option HUFF_TBL_T);
  using_default_huff_tab : bool; using_default_quant_tab : bool; g_huff_tbl_malloced : bool }.

(** The pool of jpegdec_malloc.c: the bytes handed out and its size. *)
Record pool := Pool { s_used_extra_mem : Z; s_extra_mem_size : Z }.

Record codec := Codec {
  frm : frame; scn : scan; rst : restart; tbl : tables; mem : pool;
  is_res_file : bool; quant_level : Z }.

(** ** The parser monad *)

Inductive res (A : Type) : Type :=
  | Ok (a : A) (s : stream) (c : codec)
  | Failed (s : stream) (c : codec)
  | Undef
  | OutOfFuel.
Arguments Ok {_} _ _ _.
Arguments Failed {_} _ _.
Arguments Undef {_}.
Arguments OutOfFuel {_}.

Definition parser (A : Type) : Type := stream → codec → res A.

#[export] Instance parser_ret : MRet parser := λ A a s c, Ok a s c.

Definition res_bind {A B} (f : A → parser B) (r : res A) : res B :=
  match r with
  | Ok a s c => f a s c
  | Failed s c => Failed s c
  | Undef => Undef
  | OutOfFuel => OutOfFuel
  end.

#[export] Instance parser_bind : MBind parser := λ A B f p s c, res_bind f (p s c).

Definition failed {A} : parser A := λ s c, Failed s c.
Definition undef {A} : parser A := λ s c, Undef.
Definition check (b : bool) : parser unit := if b then mret tt else failed.
Definition gets : parser codec := λ s c, Ok c s c.
Definition modify (f : codec → codec) : parser unit := λ s c, Ok tt s (f c).

(** An access: undefined where it is [None]. *)
Definition access {A} (o : option A) : parser A := match o with Some a => mret a | None => undef end.

(** A read of the stream: the value, or the failure of the function that reads. *)
Definition reading {A} (r : stream → option A * stream) : parser A := λ s c,
  match r s with (Some a, s) => Ok a s c | (None, s) => Failed s c end.

Definition char : parser Z := reading get_char.
Definition short_word : parser Z := reading get_short_word.

Definition set_frm (f : frame → frame) : parser unit :=
  modify (λ c, Codec (f (frm c)) (scn c) (rst c) (tbl c) (mem c) (is_res_file c) (quant_level c)).
Definition set_scn (f : scan → scan) : parser unit :=
  modify (λ c, Codec (frm c) (f (scn c)) (rst c) (tbl c) (mem c) (is_res_file c) (quant_level c)).
Definition set_rst (f : restart → restart) : parser unit :=
  modify (λ c, Codec (frm c) (scn c) (f (rst c)) (tbl c) (mem c) (is_res_file c) (quant_level c)).
Definition set_tbl (f : tables → tables) : parser unit :=
  modify (λ c, Codec (frm c) (scn c) (rst c) (f (tbl c)) (mem c) (is_res_file c) (quant_level c)).
Definition set_mem (f : pool → pool) : parser unit :=
  modify (λ c, Codec (frm c) (scn c) (rst c) (tbl c) (f (mem c)) (is_res_file c) (quant_level c)).
Definition set_quant_level (q : Z) : parser unit :=
  modify (λ c, Codec (frm c) (scn c) (rst c) (tbl c) (mem c) (is_res_file c) q).

(** ** Markers and formats *)

Definition M_SOF0 := 0xc0.
Definition M_SOF1 := 0xc1.
Definition M_SOF2 := 0xc2.
Definition M_DHT := 0xc4.
Definition M_RST0 := 0xd0.
Definition M_RST7 := 0xd7.
Definition M_SOI := 0xd8.
Definition M_EOI := 0xd9.
Definition M_SOS := 0xda.
Definition M_DQT := 0xdb.
Definition M_DRI := 0xdd.
Definition M_APP0 := 0xe0.

(** SOF3, SOF5-7, JPG, SOF9-11, SOF13-15, DAC, RST0-7 and TEM. *)
Definition unexpected_markers : list Z :=
  [0xc3; 0xc5; 0xc6; 0xc7; 0xc8; 0xc9; 0xca; 0xcb; 0xcd; 0xce; 0xcf; 0xcc;
   0xd0; 0xd1; 0xd2; 0xd3; 0xd4; 0xd5; 0xd6; 0xd7; 0x01].

Definition JPEG_FW_YUV420 := 0.
Definition JPEG_FW_YUV411 := 1.
Definition JPEG_FW_YUV444 := 2.
Definition JPEG_FW_YUV422 := 3.
Definition JPEG_FW_YUV400 := 4.
Definition JPEG_FW_YUV422_R := 5.
Definition JPEG_FW_YUV411_R := 6.

Definition NUM_HUFF_TBLS : nat := 4.
Definition MAX_BITS_SIZE : nat := 16.
Definition sizeof_component_info : Z := 16.

(** ** The handlers *)

(** [JpegDec_ExtraMemAlloc]: the device build compiles its assertion out, so a block the pool has
    no room for is handed out all the same, outside the pool: undefined. *)
Definition JpegDec_ExtraMemAlloc (size : Z) : parser unit :=
  c ← gets;
  let mem_size := Z.land (u32 (size + 3)) (2 ^ 32 - 4) in
  if mem_size >? u32 (s_extra_mem_size (mem c) - s_used_extra_mem (mem c)) then undef
  else set_mem (λ m, Pool (u32 (s_used_extra_mem m + mem_size)) (s_extra_mem_size m)).

(** The two inner loops of [GetNextMarker] as one: [ff] tells whether the last byte was FF. *)
Fixpoint next_marker (fuel : nat) (ff : bool) : parser Z :=
  match fuel with
  | O => λ s c, OutOfFuel
  | S fuel' =>
      c ← char;
      if c =? 0xff then next_marker fuel' true
      else if negb ff then next_marker fuel' false
      else if c =? 0 then next_marker fuel' false
      else mret c
  end.

Definition GetNextMarker : parser Z := λ s c, next_marker (S (remaining s)) false s c.

Definition zero_comp : jpeg_component_info := Comp 0 0 0 0 0 0.

Definition set_comp (ci : nat) (f : jpeg_component_info → jpeg_component_info) : parser unit :=
  set_frm (λ m, Frame (input_width m) (input_height m) (input_mcu_info m) (progressive_mode m)
                  (num_components m) (alter f ci (comp_info m))).

Definition set_tbl_map (i : nat) (f : TBL_MAP_T → TBL_MAP_T) : parser unit :=
  set_tbl (λ t, Tables (alter f i (tbl_map t)) (quant_tbl t) (dc_huff_tbl t) (ac_huff_tbl t)
                  (using_default_huff_tab t) (using_default_quant_tab t) (g_huff_tbl_malloced t)).

Definition i8 (z : Z) : Z := let r := u8 z in if r <? 2 ^ 7 then r else r - 2 ^ 8.

(** The component loop of [GetSOF] from component [ci], [n] to go. *)
Fixpoint sof_components (n ci : nat) : parser unit :=
  match n with
  | O => mret tt
  | S n' =>
      c ← char;
      let yuv_id := i8 c in
      set_comp ci (λ k, Comp (u8 yuv_id) (Z.of_nat ci) (h_samp_factor k) (v_samp_factor k)
                          (MCU_width k) (MCU_height k));;
      let yuv_id := i8 (yuv_id - 1) in
      check (negb ((yuv_id <? 0) || (yuv_id >? 2))%bool);;
      c ← char;
      let h := Z.land (Z.shiftr c 4) 0x0f in
      let v := Z.land c 0x0f in
      set_comp ci (λ k, Comp (component_id k) (component_index k) h v
                          (if decide (ci = 0%nat) then h else 1) (if decide (ci = 0%nat) then v else 1));;
      c ← char;
      check (negb (c >? 2));;
      set_tbl_map (Z.to_nat yuv_id) (λ t, TblMap (dc_huff_tbl_id t) (ac_huff_tbl_id t) c);;
      sof_components n' (S ci)
  end.

(** The sampling factors of component [ci] in one byte. *)
Definition samp_ratio (ci : nat) : parser Z :=
  c ← gets; k ← access (comp_info (frm c) !! ci);
  mret (Z.lor (Z.shiftl (h_samp_factor k) 4) (v_samp_factor k)).

Definition set_mcu_info (i : Z) : parser unit :=
  set_frm (λ m, Frame (input_width m) (input_height m) i (progressive_mode m)
                  (num_components m) (comp_info m)).

(** The format for the luma ratio. *)
Definition mcu_format (c : Z) : option Z :=
  if c =? 0x11 then Some JPEG_FW_YUV444
  else if c =? 0x21 then Some JPEG_FW_YUV422
  else if c =? 0x41 then Some JPEG_FW_YUV411
  else if c =? 0x14 then Some JPEG_FW_YUV411_R
  else if c =? 0x22 then Some JPEG_FW_YUV420
  else if c =? 0x12 then Some JPEG_FW_YUV422_R
  else None.

Definition GetSOF (isProgressive : bool) : parser unit :=
  set_frm (λ m, Frame (input_width m) (input_height m) (input_mcu_info m) isProgressive
                  (num_components m) (comp_info m));;
  length ← short_word;
  check (negb (length <? 8));;
  c ← char;
  check (c =? 8);;
  height ← short_word;
  width ← short_word;
  set_frm (λ m, Frame width height (input_mcu_info m) (progressive_mode m)
                  (num_components m) (comp_info m));;
  component_num ← char;
  check (length =? component_num * 3 + 8);;
  set_frm (λ m, Frame (input_width m) (input_height m) (input_mcu_info m) (progressive_mode m)
                  component_num (comp_info m));;
  JpegDec_ExtraMemAlloc (component_num * sizeof_component_info);;
  set_frm (λ m, Frame (input_width m) (input_height m) (input_mcu_info m) (progressive_mode m)
                  (num_components m) (replicate (Z.to_nat component_num) zero_comp));;
  sof_components (Z.to_nat component_num) 0;;
  c ← samp_ratio 0;
  if component_num =? 1 then set_mcu_info JPEG_FW_YUV400
  else match mcu_format c with
       | None => failed
       | Some i =>
           set_mcu_info i;;
           c ← samp_ratio 1;
           check (c =? 0x11);;
           if component_num >? 2 then c ← samp_ratio 2; check (c =? 0x11) else mret tt
       end.

(** The component loop of [GetSOS] from component [i], [n] to go. *)
Fixpoint sos_components (n i : nat) : parser unit :=
  match n with
  | O => mret tt
  | S n' =>
      cc ← char;
      c ← char;
      check (cc =? u8 (Z.of_nat i + 1));;
      d ← gets;
      access (tbl_map (tbl d) !! i);;
      set_tbl_map i (λ t, TblMap (Z.land (Z.shiftr c 4) 0x0f) (Z.land c 0x0f) (quant_tbl_id t));;
      (if existsb (λ k, component_id k =? cc) (comp_info (frm d))
       then ids ← access (store i cc (comp_id_map (scn d)));
            set_scn (λ m, Scan (comps_in_scan m) ids (Ss m) (Se m) (Ah m) (Al m) (input_scan_number m))
       else mret tt);;
      sos_components n' (S i)
  end.

Definition GetSOS : parser unit :=
  length ← short_word;
  check (negb (length <? 3));;
  n ← char;
  check (length - 3 =? n * 2 + 3);;
  set_scn (λ m, Scan n (comp_id_map m) (Ss m) (Se m) (Ah m) (Al m) (input_scan_number m));;
  sos_components (Z.to_nat n) 0;;
  c ← char;
  cc ← char;
  set_scn (λ m, Scan (comps_in_scan m) (comp_id_map m) c cc (Ah m) (Al m) (input_scan_number m));;
  c ← char;
  set_scn (λ m, Scan (comps_in_scan m) (comp_id_map m) (Ss m) (Se m)
                  (Z.land (Z.shiftr c 4) 15) (Z.land c 15) (u8 (input_scan_number m + 1)));;
  set_rst (λ r, Restart (restart_interval r) (restart_to_go r) 0).

Fixpoint skip (n : nat) : parser unit :=
  match n with O => mret tt | S n' => char;; skip n' end.

Definition SkipVariable : parser unit :=
  length ← short_word;
  check (negb (length <? 2));;
  skip (Z.to_nat (length - 2)).

Definition GetDRI : parser unit :=
  length ← short_word;
  check (4 =? length);;
  interval ← short_word;
  set_rst (λ r, Restart interval interval 0).

Definition JFIF_LEN : Z := 14.

Definition GetAPP0 : parser unit :=
  length ← short_word;
  check (negb (length <? 2));;
  let length := length - 2 in
  if length >=? JFIF_LEN
  then skip (Z.to_nat JFIF_LEN);; skip (Z.to_nat (length - JFIF_LEN))
  else mret tt.

(** One pass of the allocation loop of [GetHuffTbl] per table pair. *)
Fixpoint alloc_huff_tables (n : nat) : parser unit :=
  match n with
  | O => mret tt
  | S n' =>
      JpegDec_ExtraMemAlloc (Z.of_nat MAX_BITS_SIZE + 1);;
      JpegDec_ExtraMemAlloc (Z.of_nat AC_SYMBOL_NUM + 1);;
      JpegDec_ExtraMemAlloc (Z.of_nat MAX_BITS_SIZE + 1);;
      JpegDec_ExtraMemAlloc (Z.of_nat AC_SYMBOL_NUM + 1);;
      alloc_huff_tables n'
  end.

Definition zero_huff_tbl : HUFF_TBL_T := HuffTbl (replicate 17 0) (replicate 257 0).

Definition default_bits (ac : bool) (index : nat) : list Z :=
  match ac, index with
  | true, O => jpeg_fw_lum_ac_bits_default
  | true, _ => jpeg_fw_chr_ac_bits_default
  | false, O => jpeg_fw_lum_dc_bits_default
  | false, _ => jpeg_fw_chr_dc_bits_default
  end.

Definition default_huffval (ac : bool) (index : nat) : list Z :=
  match ac, index with
  | true, O => jpeg_fw_lum_ac_huffvalue_default
  | true, _ => jpeg_fw_chr_ac_huffvalue_default
  | false, O => jpeg_fw_lum_dc_huffvalue_default
  | false, _ => jpeg_fw_chr_dc_huffvalue_default
  end.

(** Changes the table a DHT segment addresses; the compared default clears the flag. *)
Definition set_huff (ac : bool) (index : nat) (f : HUFF_TBL_T → HUFF_TBL_T) (same : bool) : parser unit :=
  set_tbl (λ t, Tables (tbl_map t) (quant_tbl t)
    (if ac then dc_huff_tbl t else alter (fmap f) index (dc_huff_tbl t))
    (if ac then alter (fmap f) index (ac_huff_tbl t) else ac_huff_tbl t)
    (using_default_huff_tab t && same)%bool (using_default_quant_tab t) (g_huff_tbl_malloced t)).

(** The loop over [bits], returning [count]. *)
Fixpoint huff_bits (n i : nat) (ac : bool) (index : nat) (count : Z) : parser Z :=
  match n with
  | O => mret count
  | S n' =>
      c ← char;
      d ← access (default_bits ac index !! i);
      set_huff ac index (λ t, HuffTbl (<[i := c]> (bits t)) (huffval t)) (c =? d);;
      huff_bits n' (S i) ac index (u16 (count + c))
  end.

Fixpoint huff_vals (n i : nat) (ac : bool) (index : nat) : parser unit :=
  match n with
  | O => mret tt
  | S n' =>
      c ← char;
      d ← access (default_huffval ac index !! i);
      set_huff ac index (λ t, HuffTbl (bits t) (<[i := c]> (huffval t))) (c =? d);;
      huff_vals n' (S i) ac index
  end.

(** One table of a DHT segment; returns the length left. *)
Definition get_one_huff (length : Z) : parser Z :=
  c ← char;
  let index := Z.land c 0x13 in
  let ac := negb (Z.land index 0x10 =? 0) in
  let index := Z.to_nat (if ac then index - 0x10 else index) in
  set_huff ac index (λ t, HuffTbl (<[0%nat := 0]> (bits t)) (huffval t)) true;;
  count ← huff_bits 16 1 ac index 0;
  check (negb (count >? 256));;
  huff_vals (Z.to_nat count) 0 ac index;;
  check (negb (length <? 1 + 16 + count));;
  mret (length - (1 + 16 + count)).

(** [while (length > 0)]; a table takes at least 17 bytes of the length. *)
Fixpoint huff_loop (fuel : nat) (length : Z) : parser unit :=
  if length >? 0
  then match fuel with
       | O => λ s c, OutOfFuel
       | S fuel' => length ← get_one_huff length; huff_loop fuel' length
       end
  else mret tt.

(** The part of [GetHuffTbl] after the allocation. *)
Definition read_huff_tables : parser unit :=
  length ← short_word;
  check (negb (length <? 2));;
  huff_loop (Z.to_nat length) (length - 2).

Definition GetHuffTbl : parser unit :=
  d ← gets;
  (if negb (g_huff_tbl_malloced (tbl d))
   then alloc_huff_tables NUM_HUFF_TBLS;;
        set_tbl (λ t, Tables (tbl_map t) (quant_tbl t)
          (replicate NUM_HUFF_TBLS (Some zero_huff_tbl)) (replicate NUM_HUFF_TBLS (Some zero_huff_tbl))
          (using_default_huff_tab t) (using_default_quant_tab t) true)
   else mret tt);;
  read_huff_tables.

Definition set_quant (n : nat) (q : bytes) : parser unit :=
  set_tbl (λ t, Tables (tbl_map t) (<[n := Some q]> (quant_tbl t)) (dc_huff_tbl t) (ac_huff_tbl t)
                  (using_default_huff_tab t) (using_default_quant_tab t) (g_huff_tbl_malloced t)).

(** The 64 values of a table, each to its place in zigzag order; 16-bit values lose their high byte. *)
Fixpoint quant_values (zigzag : list Z) (prec : Z) (n : nat) : parser unit :=
  match zigzag with
  | [] => mret tt
  | z :: rest =>
      c ← (if prec =? 0 then char else short_word);
      d ← gets;
      q ← access (mjoin (quant_tbl (tbl d) !! n));
      set_quant n (<[Z.to_nat z := u8 c]> q);;
      quant_values rest prec n
  end.

(** One table of a DQT segment; returns the length left and whether the table is the third. *)
Definition get_one_quant (length : Z) : parser (Z * bool) :=
  n ← char;
  let prec := u8 (Z.shiftr n 4) in
  let n := Z.land n 0x0f in
  check (negb (n >? 2));;
  JpegDec_ExtraMemAlloc 64;;
  set_quant (Z.to_nat n) (replicate 64 0);;
  quant_values (take 64 jpeg_fw_zigzag_order) prec (Z.to_nat n);;
  check (negb (length <? 64 + 1 + 64 * prec));;
  mret (length - (64 + 1 + 64 * prec), n >? 1).

(** [while (length > 0)]; returns [has_two_chroma_quant_tbl]. *)
Fixpoint quant_loop (fuel : nat) (length : Z) (two : bool) : parser bool :=
  if length >? 0
  then match fuel with
       | O => λ s c, OutOfFuel
       | S fuel' => r ← get_one_quant length; quant_loop fuel' r.1 (two || r.2)%bool
       end
  else mret two.

Definition GetQuantTbl : parser unit :=
  set_tbl (λ t, Tables (tbl_map t) (quant_tbl t) (dc_huff_tbl t) (ac_huff_tbl t)
                  (using_default_huff_tab t) false (g_huff_tbl_malloced t));;
  length ← short_word;
  check (negb (length <? 2));;
  two ← quant_loop (Z.to_nat length) (length - 2) false;
  if two : bool
  then d ← gets;
       u ← access (mjoin (quant_tbl (tbl d) !! 1%nat));
       v ← access (mjoin (quant_tbl (tbl d) !! 2%nat));
       check (bool_decide (u = v))
  else mret tt.

(** ** The marker loop *)

(** What the switch of [ProcessTables] does with a marker that does not end the loop. *)
Definition dispatch (c : Z) : parser unit :=
  if (c =? M_SOF0) || (c =? M_SOF1) then GetSOF false
  else if c =? M_SOF2 then GetSOF true
  else if c =? M_DHT then GetHuffTbl
  else if c =? M_DQT then GetQuantTbl
  else if c =? M_APP0 then GetAPP0
  else if c =? M_DRI then GetDRI
  else if existsb (Z.eqb c) unexpected_markers then failed
  else SkipVariable.

(** [M_ERROR] is the failure of the parser. *)
Fixpoint process_tables (fuel : nat) : parser Z :=
  match fuel with
  | O => λ s c, OutOfFuel
  | S fuel' =>
      c ← GetNextMarker;
      if (c =? M_SOI) || (c =? M_EOI) || (c =? M_SOS) then mret c
      else dispatch c;; process_tables fuel'
  end.

Definition ProcessTables : parser Z := λ s c, process_tables (S (remaining s)) s c.

(** The loop of [ParseHead] up to the first SOI. *)
Fixpoint find_soi (fuel : nat) : parser unit :=
  match fuel with
  | O => λ s c, OutOfFuel
  | S fuel' =>
      c ← GetNextMarker;
      if c =? M_EOI then failed
      else if c =? M_SOI then mret tt
      else find_soi fuel'
  end.

Definition ParseHead : parser unit := λ s c,
  (find_soi (S (remaining s));;
   c ← ProcessTables;
   if c =? M_SOS then GetSOS else failed) s c.

(** The header of the resource format. *)
Definition ParseHead_Res : parser unit :=
  (λ s c, let '(ok, s) := skip_n_byte 4 s in (check ok : parser unit) s c);;
  h ← short_word;
  w ← short_word;
  set_frm (λ m, Frame w h (input_mcu_info m) (progressive_mode m) 3 (comp_info m));;
  format ← short_word;
  (if format =? 0 then set_mcu_info JPEG_FW_YUV420
   else if format =? 1 then set_mcu_info JPEG_FW_YUV411
   else if format =? 2 then set_mcu_info JPEG_FW_YUV444
   else if format =? 3 then set_mcu_info JPEG_FW_YUV422
   else if format =? 4 then
     set_frm (λ m, Frame (input_width m) (input_height m) JPEG_FW_YUV400 (progressive_mode m) 1 (comp_info m))
   else failed);;
  quant_level ← short_word;
  if quant_level <=? 4 then set_quant_level quant_level else failed.

(** ** [JPEG_FWParseHead] *)

(** [JpegDec_InitMem] on the buffer at [addr]: the pool starts at the next word boundary, empty and
    zeroed.  A null or tiny buffer leaves the old pool. *)
Definition JpegDec_InitMem (addr buf_size : Z) (m : pool) : pool :=
  if (addr =? 0) || (buf_size <? 4) then m
  else Pool 0 (u32 (buf_size - (u32 (Z.shiftl (Z.shiftr (u32 (addr + 3)) 2) 2) - addr))).

Definition JpegDec_FreeNBytes (mem_size : Z) (m : pool) : pool :=
  Pool (u32 (s_used_extra_mem m - mem_size)) (s_extra_mem_size m).

Definition JpegDec_FreeMem (m : pool) : pool := Pool 0 (s_extra_mem_size m).

(** The caller's side of [JPEG_DEC_INPUT_PARA_T]. *)
Record dec_input := DecInput {
  bitstream_ptr : bytes; read_bitstream : option (list bytes); dec_buf_addr : Z; dec_buf_size : Z;
  in_progressive : bool; in_width : Z; in_height : Z; in_mcu_info : Z; in_quant_level : Z }.

(** The codec after [SCI_MEMSET] and the defaults set before the parse; the fields of the input
    parameters keep the caller's values until the parse sets them. *)
Definition cleared_codec (i : dec_input) (m : pool) : codec :=
  Codec (Frame (in_width i) (in_height i) (in_mcu_info i) (in_progressive i) 0 [])
    (Scan 0 [0; 0; 0] 0 0 0 0 0) (Restart 0x3ffff 0x3ffff 0)
    (Tables (replicate 3 (TblMap 0 0 0)) (replicate 3 None)
       (replicate NUM_HUFF_TBLS None) (replicate NUM_HUFF_TBLS None) true true false)
    m false (in_quant_level i).

Definition set_res_file (b : bool) (c : codec) : codec :=
  Codec (frm c) (scn c) (rst c) (tbl c) (mem c) b (quant_level c).

(** With a callback the stream buffer is the first block of the pool. *)
Definition alloc_stream_buf (i : dec_input) : parser unit :=
  match read_bitstream i with Some _ => JpegDec_ExtraMemAlloc (3 * 1024) | None => mret tt end.

(** The parse: success, the [header_len] stored, the stream and the codec.  A buffer that
    [JpegDec_InitMem] refuses leaves the pool of an earlier parse, whose contents are not known. *)
Definition JPEG_FWParseHead (i : dec_input) (m : pool) : option (bool * Z * stream * codec) :=
  if (dec_buf_addr i =? 0) || (dec_buf_size i <? 4) then None
  else
    match alloc_stream_buf i (JpegDec_InitBitream (bitstream_ptr i) (read_bitstream i))
            (cleared_codec i (JpegDec_InitMem (dec_buf_addr i) (dec_buf_size i) m)) with
    | Ok _ s c =>
        is_res ← is_res_jpg_file s;
        match (if is_res : bool then ParseHead_Res else ParseHead) s (set_res_file is_res c) with
        | Ok _ s c => len ← (if is_res : bool then Some 12 else get_header_len s); Some (true, len, s, c)
        | Failed s c => len ← (if is_res : bool then Some 12 else get_header_len s); Some (false, len, s, c)
        | _ => None
        end
    | _ => None
    end.

(** ** The parse is a function of the file

    Two streams of the same bytes, whatever their chunks, give the same outcome;
    and every loop ends within the bytes left. *)

Definition same_file (s1 s2 : stream) : Prop :=
  bytes_of s1 = bytes_of s2 ∧ header_len s1 = header_len s2.

(** Outcomes that agree, at least [k] bytes having been read on success. *)
Definition agree {A} (k : nat) (s1 s2 : stream) (r1 r2 : res A) : Prop :=
  match r1, r2 with
  | Ok a1 t1 c1, Ok a2 t2 c2 =>
      a1 = a2 ∧ c1 = c2 ∧ same_file t1 t2
      ∧ (remaining t1 + k <= remaining s1)%nat ∧ (remaining t2 + k <= remaining s2)%nat
  | Failed _ c1, Failed _ c2 => c1 = c2
  | Undef, Undef => True
  | _, _ => False
  end.

Definition regular {A} (k : nat) (p : parser A) : Prop :=
  ∀ s1 s2 c, same_file s1 s2 → agree k s1 s2 (p s1 c) (p s2 c).

Lemma agree_bind {A B} k1 k2 s1 s2 (r1 r2 : res A) (f1 f2 : A → parser B) :
  agree k1 s1 s2 r1 r2 →
  (∀ a t1 t2 c, r1 = Ok a t1 c → same_file t1 t2 → (remaining t1 + k1 <= remaining s1)%nat →
     (remaining t2 + k1 <= remaining s2)%nat → agree k2 t1 t2 (f1 a t1 c) (f2 a t2 c)) →
  agree (k1 + k2) s1 s2 (res_bind f1 r1) (res_bind f2 r2).
Proof.
  destruct r1 as [a1 t1 c1| | |], r2 as [a2 t2 c2| | |]; simpl; try done.
  intros (-> & -> & F & L1 & L2) H. specialize (H a2 t1 t2 c2 eq_refl F L1 L2).
  destruct (f1 a2 t1 c2), (f2 a2 t2 c2); simpl in *; try done. destruct H as (-> & -> & ? & ? & ?).
  repeat split; try apply H; lia.
Qed.

Lemma agree_weaken {A} k k' s1 s2 (r1 r2 : res A) :
  agree k s1 s2 r1 r2 → (k' <= k)%nat → agree k' s1 s2 r1 r2.
Proof. destruct r1, r2; simpl; try done. intros (-> & -> & F & ? & ?) ?. repeat split; try lia; apply F. Qed.

Lemma regular_weaken {A} k k' (p : parser A) : regular k p → (k' <= k)%nat → regular k' p.
Proof. intros R L s1 s2 c F. eauto using agree_weaken. Qed.

(** The values a parser can return. *)
Definition returns {A} (P : A → Prop) (p : parser A) : Prop :=
  ∀ s c a s' c', p s c = Ok a s' c' → P a.

Lemma regular_bind_returns {A B} k P (p : parser A) (f : A → parser B) :
  returns P p → regular k p → (∀ a, P a → regular 0 (f a)) → regular k (p ≫= f).
Proof.
  intros Pp Rp Rf s1 s2 c F. apply agree_weaken with (k + 0)%nat; [|lia].
  apply agree_bind; [by apply Rp|]. intros a t1 t2 c' E F' _ _. apply Rf; [by eapply Pp|done].
Qed.

Lemma regular_bind {A B} k (p : parser A) (f : A → parser B) :
  regular k p → (∀ a, regular 0 (f a)) → regular k (p ≫= f).
Proof. intros Rp Rf. by apply (regular_bind_returns k (λ _, True)). Qed.

Lemma returns_bind {A B} P (p : parser A) (f : A → parser B) :
  (∀ a, returns P (f a)) → returns P (p ≫= f).
Proof.
  intros H s c b s' c' E. unfold mbind, parser_bind, res_bind in E. case_match; try done. by eapply H.
Qed.

Lemma returns_check {A} (P : A → Prop) b (f : unit → parser A) :
  (b = true → returns P (f tt)) → returns P (check b ≫= f).
Proof. intros H s c a s' c' E. destruct b; [exact (H eq_refl _ _ _ _ _ E)|done]. Qed.

Lemma returns_ret {A} (P : A → Prop) a : P a → returns P (mret a).
Proof. intros H s c a' s' c' E. by injection E as <- _ _. Qed.

Lemma regular_ret {A} (a : A) : regular 0 (mret a).
Proof. intros s1 s2 c F. repeat split; try apply F; lia. Qed.

Lemma regular_failed {A} : regular 0 (failed : parser A).
Proof. done. Qed.

Lemma regular_gets : regular 0 gets.
Proof. intros s1 s2 c F. repeat split; try apply F; lia. Qed.

Lemma regular_modify f : regular 0 (modify f).
Proof. intros s1 s2 c F. repeat split; try apply F; lia. Qed.

Lemma regular_access {A} (o : option A) : regular 0 (access o).
Proof. destruct o; [apply regular_ret|done]. Qed.

Lemma regular_check b : regular 0 (check b).
Proof. destruct b; [apply regular_ret|apply regular_failed]. Qed.

Lemma regular_char : regular 1 char.
Proof.
  intros s1 s2 c [E L]. unfold char, reading. destruct (bytes_of s1) as [|b l] eqn:E1.
  - destruct (get_char_nil s1 E1) as (t1 & ->). destruct (get_char_nil s2 (eq_sym E)) as (t2 & ->). done.
  - destruct (get_char_cons s1 b l E1) as (t1 & T1 & B1 & L1). apply get_char_remaining in T1 as R1.
    destruct (get_char_cons s2 b l (eq_sym E)) as (t2 & T2 & B2 & L2). apply get_char_remaining in T2 as R2.
    rewrite T1, T2. repeat split; try congruence; lia.
Qed.

(** A word is two characters. *)
Lemma short_word_char s c :
  short_word s c = (value0 ← char; value1 ← char; mret (Z.lor (Z.shiftl value0 8) value1)) s c.
Proof.
  unfold short_word, char, reading, get_short_word, mbind, parser_bind, mret, parser_ret.
  destruct (get_char s) as [[v0|] s1]; simpl; [|done]. by destruct (get_char s1) as [[v1|] s2].
Qed.

Lemma regular_ext {A} k (p q : parser A) : (∀ s c, p s c = q s c) → regular k q → regular k p.
Proof. intros E R s1 s2 c F. rewrite !E. by apply R. Qed.

Create HintDb parser.
#[export] Hint Resolve regular_ret regular_failed regular_gets regular_modify regular_access
  regular_check : parser.

Lemma regular_char0 : regular 0 char.
Proof. apply (regular_weaken 1); [apply regular_char|lia]. Qed.
#[export] Hint Resolve regular_char0 : parser.

(** Follows the binds and cases of a handler. *)
Ltac regular :=
  repeat first
    [ solve [eauto with parser]
    | apply regular_bind; [|intros]
    | match goal with |- regular _ (if ?b then _ else _) => destruct b end
    | match goal with |- regular _ (match ?o with Some _ => _ | None => _ end) => destruct o end ].

Lemma regular_short_word : regular 0 short_word.
Proof. eapply regular_ext; [apply short_word_char|]. regular. Qed.
#[export] Hint Resolve regular_short_word : parser.

(** The loops on the bytes left do not depend on the fuel. *)
Lemma next_marker_agree f1 : ∀ f2 ff s1 s2 c,
  same_file s1 s2 → (remaining s1 < f1)%nat → (remaining s2 < f2)%nat →
  agree 1 s1 s2 (next_marker f1 ff s1 c) (next_marker f2 ff s2 c).
Proof.
  induction f1 as [|f1 IH]; intros [|f2] ff s1 s2 c F L1 L2; try lia.
  cbn [next_marker]. unfold mbind, parser_bind. eapply agree_weaken; [eapply agree_bind|].
  - by apply regular_char.
  - intros a t1 t2 c' _ F' M1 M2. instantiate (1 := 0%nat).
    assert (∀ b, agree 0 t1 t2 (next_marker f1 b t1 c') (next_marker f2 b t2 c'))
      by (intros b; eapply agree_weaken; [apply IH; [done|lia|lia]|lia]).
    destruct (a =? 0xff); [done|]. destruct ff; simpl; [|done]. destruct (a =? 0); [done|].
    by apply regular_ret.
  - lia.
Qed.

Lemma regular_GetNextMarker : regular 1 GetNextMarker.
Proof. intros s1 s2 c F. apply next_marker_agree; [done|lia|lia]. Qed.

Lemma regular_undef {A} : regular 0 (undef : parser A).
Proof. done. Qed.
#[export] Hint Resolve regular_undef : parser.
#[export] Hint Unfold set_frm set_scn set_rst set_tbl set_mem set_quant_level set_comp set_tbl_map
  set_mcu_info set_huff set_quant : parser.

Lemma regular_alloc n : regular 0 (JpegDec_ExtraMemAlloc n).
Proof. unfold JpegDec_ExtraMemAlloc. regular. Qed.

Lemma regular_skip n : regular 0 (skip n).
Proof. induction n; simpl; regular. Qed.
#[export] Hint Resolve regular_alloc regular_skip : parser.

Lemma regular_sof n ci : regular 0 (sof_components n ci).
Proof. revert ci. induction n as [|n IH]; intros ci; simpl; regular. Qed.

Lemma regular_samp ci : regular 0 (samp_ratio ci).
Proof. unfold samp_ratio. regular. Qed.
#[export] Hint Resolve regular_sof regular_samp : parser.

Lemma regular_GetSOF b : regular 0 (GetSOF b).
Proof. unfold GetSOF. regular. Qed.

Lemma regular_sos n i : regular 0 (sos_components n i).
Proof. revert i. induction n as [|n IH]; intros i; simpl; regular. Qed.
#[export] Hint Resolve regular_sos : parser.

Lemma regular_GetSOS : regular 0 GetSOS.
Proof. unfold GetSOS. regular. Qed.

Lemma regular_GetAPP0 : regular 0 GetAPP0.
Proof. unfold GetAPP0. regular. Qed.

Lemma regular_GetDRI : regular 0 GetDRI.
Proof. unfold GetDRI. regular. Qed.

Lemma regular_SkipVariable : regular 0 SkipVariable.
Proof. unfold SkipVariable. regular. Qed.

Lemma regular_alloc_huff n : regular 0 (alloc_huff_tables n).
Proof. induction n; simpl; regular. Qed.

Lemma regular_huff_bits n i ac x k : regular 0 (huff_bits n i ac x k).
Proof. revert i k. induction n as [|n IH]; intros i k; simpl; regular. Qed.

Lemma regular_huff_vals n i ac x : regular 0 (huff_vals n i ac x).
Proof. revert i. induction n as [|n IH]; intros i; simpl; regular. Qed.
#[export] Hint Resolve regular_alloc_huff regular_huff_bits regular_huff_vals : parser.

Lemma regular_quant_values z prec n : regular 0 (quant_values z prec n).
Proof. induction z; simpl; regular. Qed.
#[export] Hint Resolve regular_quant_values : parser.

(** A table of a segment makes its length shorter. *)
Lemma get_one_huff_length l : returns (λ l', l' < l) (get_one_huff l).
Proof.
  unfold get_one_huff. apply returns_bind. intros x. apply returns_bind. intros [].
  set (ac := negb _). set (ix := Z.to_nat _). intros s c l' s' c' E.
  unfold mbind, parser_bind, res_bind in E.
  destruct (huff_bits 16 1 ac ix 0 s c) as [k s1 c1| | |] eqn:K; try done.
  assert (0 <= k).
  { enough (H : ∀ n i m, 0 <= m → returns (λ k, 0 <= k) (huff_bits n i ac ix m))
      by exact (H 16%nat 1%nat 0 ltac:(lia) _ _ _ _ _ K).
    induction n as [|n IH]; intros i m Hm; cbn [huff_bits]; [by apply returns_ret|].
    do 3 (apply returns_bind; intros ?). apply IH, u16_range. }
  revert E. apply (λ H, H s1 c1 l' s' c'). apply returns_check. intros _.
  apply returns_bind. intros []. apply returns_check. intros _. apply returns_ret. lia.
Qed.

Lemma get_one_quant_length l : returns (λ r, r.1 < l) (get_one_quant l).
Proof.
  unfold get_one_quant. apply returns_bind. intros x. apply returns_check. intros _.
  do 3 (apply returns_bind; intros []). apply returns_check. intros _. apply returns_ret.
  simpl. pose proof (u8_range (Z.shiftr x 4)) as []. lia.
Qed.

Lemma regular_one_huff l : regular 0 (get_one_huff l).
Proof. unfold get_one_huff. regular. Qed.

Lemma regular_one_quant l : regular 0 (get_one_quant l).
Proof. unfold get_one_quant. regular. Qed.

Lemma regular_huff_loop f : ∀ l, l <= Z.of_nat f → regular 0 (huff_loop f l).
Proof.
  induction f as [|f IH]; intros l L; cbn [huff_loop]; (destruct (Z.gtb_spec l 0); [|apply regular_ret]); [lia|].
  eapply regular_bind_returns; [apply get_one_huff_length|apply regular_one_huff|].
  intros l' H'. apply IH. simpl in H'. lia.
Qed.

Lemma regular_quant_loop f : ∀ l b, l <= Z.of_nat f → regular 0 (quant_loop f l b).
Proof.
  induction f as [|f IH]; intros l b L; cbn [quant_loop]; (destruct (Z.gtb_spec l 0); [|apply regular_ret]); [lia|].
  eapply regular_bind_returns; [apply get_one_quant_length|apply regular_one_quant|].
  intros r H'. apply IH. simpl in H'. lia.
Qed.
#[export] Hint Extern 1 (regular 0 (huff_loop _ _)) => apply regular_huff_loop; lia : parser.
#[export] Hint Extern 1 (regular 0 (quant_loop _ _ _)) => apply regular_quant_loop; lia : parser.

Lemma regular_GetHuffTbl : regular 0 GetHuffTbl.
Proof. unfold GetHuffTbl, read_huff_tables. regular. Qed.

Lemma regular_GetQuantTbl : regular 0 GetQuantTbl.
Proof. unfold GetQuantTbl. regular. Qed.
#[export] Hint Resolve regular_GetSOF regular_GetSOS regular_GetAPP0 regular_GetDRI
  regular_SkipVariable regular_GetHuffTbl regular_GetQuantTbl : parser.

Lemma regular_dispatch m : regular 0 (dispatch m).
Proof. unfold dispatch. regular. Qed.

(** The marker loops: a marker read is a byte less. *)
Lemma process_tables_agree f1 : ∀ f2 s1 s2 c,
  same_file s1 s2 → (remaining s1 < f1)%nat → (remaining s2 < f2)%nat →
  agree 0 s1 s2 (process_tables f1 s1 c) (process_tables f2 s2 c).
Proof.
  induction f1 as [|f1 IH]; intros [|f2] s1 s2 c F L1 L2; try lia.
  cbn [process_tables]. unfold mbind, parser_bind. eapply agree_weaken; [eapply agree_bind|].
  - by apply regular_GetNextMarker.
  - intros m t1 t2 c1 _ F1 M1 M2. instantiate (1 := 0%nat). destruct (_ || _)%bool; [by apply regular_ret|].
    apply (agree_bind 0 0); [by apply regular_dispatch|].
    intros [] u1 u2 c2 _ F2 N1 N2. apply IH; [done|lia|lia].
  - lia.
Qed.

Lemma find_soi_agree f1 : ∀ f2 s1 s2 c,
  same_file s1 s2 → (remaining s1 < f1)%nat → (remaining s2 < f2)%nat →
  agree 0 s1 s2 (find_soi f1 s1 c) (find_soi f2 s2 c).
Proof.
  induction f1 as [|f1 IH]; intros [|f2] s1 s2 c F L1 L2; try lia.
  cbn [find_soi]. unfold mbind, parser_bind. eapply agree_weaken; [eapply agree_bind|].
  - by apply regular_GetNextMarker.
  - intros m t1 t2 c1 _ F1 M1 M2. instantiate (1 := 0%nat).
    destruct (m =? M_EOI); [done|]. destruct (m =? M_SOI); [by apply regular_ret|].
    apply IH; [done|lia|lia].
  - lia.
Qed.

Lemma regular_ProcessTables : regular 0 ProcessTables.
Proof. intros s1 s2 c F. apply process_tables_agree; [done|lia|lia]. Qed.
#[export] Hint Resolve regular_ProcessTables : parser.

Lemma regular_ParseHead : regular 0 ParseHead.
Proof.
  intros s1 s2 c F. unfold ParseHead. unfold mbind, parser_bind at 1 3.
  apply (agree_bind 0 0); [apply find_soi_agree; [done|lia|lia]|].
  intros [] t1 t2 c1 _ F1 _ _. revert t1 t2 c1 F1. change (regular 0 (ProcessTables ≫= λ c, if c =? M_SOS then GetSOS else failed)).
  regular.
Qed.

(** ** Claims *)

(** C16. [ParseHead] sees the file, not the way it arrives: on two streams of the same bytes, cut into
    chunks by the read callback in any two ways, it succeeds with the same codec and the same bytes left,
    or fails with the same codec, or is undefined on both. *)
Theorem ParseHead_same_file (s1 s2 : stream) (c : codec) :
  bytes_of s1 = bytes_of s2 → header_len s1 = header_len s2 →
  match ParseHead s1 c, ParseHead s2 c with
  | Ok _ t1 c1, Ok _ t2 c2 => c1 = c2 ∧ bytes_of t1 = bytes_of t2 ∧ header_len t1 = header_len t2
  | Failed _ c1, Failed _ c2 => c1 = c2
  | Undef, Undef => True
  | _, _ => False
  end.
Proof.
  intros B L. pose proof (regular_ParseHead s1 s2 c (conj B L)) as H.
  destruct (ParseHead s1 c), (ParseHead s2 c); simpl in H; try done. destruct H as (_ & ? & [? ?] & _). done.
Qed.

(** C22. The nested loops of [ParseHead] end on every input: the bytes left are fuel enough for the search for
    markers, the marker loop and the loops over the tables of a segment. *)
Theorem ParseHead_terminates (s : stream) (c : codec) : ParseHead s c ≠ OutOfFuel.
Proof. pose proof (regular_ParseHead s s c (conj eq_refl eq_refl)) as H. by destruct (ParseHead s c). Qed.

Definition ex_dec_input : dec_input := DecInput [] None 0x1000 0x10000 false 0 0 0 0.
Definition ex_codec : codec := cleared_codec ex_dec_input (Pool 0 0x10000).

(** A header in two chunkings: SOI, a comment, an end of image. *)
Definition ex_chunks1 : stream := Stream [] [0xff; 0xd8; 0xff; 0xfe; 0; 4; 1; 2; 0xff; 0xd9] 0 0 None.
Definition ex_chunks2 : stream := Stream [] [0xff] 0 1 (Some [[0xd8; 0xff]; [0xfe; 0]; [4; 1]; [2; 0xff; 0xd9]]).

Lemma ParseHead_same_file_witness :
  match ParseHead ex_chunks1 ex_codec, ParseHead ex_chunks2 ex_codec with
  | Ok _ t1 c1, Ok _ t2 c2 => c1 = c2 ∧ bytes_of t1 = bytes_of t2 ∧ header_len t1 = header_len t2
  | Failed _ c1, Failed _ c2 => c1 = c2
  | Undef, Undef => True
  | _, _ => False
  end.
Proof. apply (ParseHead_same_file ex_chunks1 ex_chunks2 ex_codec); reflexivity. Defined.

(** A buffer with a whole file. *)
Definition file (l : bytes) : stream := JpegDec_InitBitream l None.

(** Three headers: a scan of four components, a DC table of 13 symbols, a third quantiser alone. *)
Definition scan_of_four : bytes :=
  [0xff; 0xd8; 0xff; 0xda; 0; 14; 4; 1; 0; 2; 0; 3; 0; 4; 0; 0; 63; 0].
Definition dc_of_thirteen : bytes :=
  [0xff; 0xd8; 0xff; 0xc4; 0; 32; 0x00; 0; 0; 0; 0; 0; 13; 0; 0; 0; 0; 0; 0; 0; 0; 0; 0]
  ++ [0; 1; 2; 3; 4; 5; 6; 7; 8; 9; 10; 11; 12].
Definition third_quantiser : bytes := [0xff; 0xd8; 0xff; 0xdb; 0; 67; 2] ++ replicate 64 1.

(** The parser trusts counts the file gives it: a scan header of four components writes past the three
    cells of [tbl_map], a DC table of more than twelve symbols is compared past the end of the
    default symbols, and a third quantiser without a second is compared through a null pointer. *)
Theorem ParseHead_unchecked_counts :
  ParseHead (file scan_of_four) ex_codec = Undef
  ∧ ParseHead (file dc_of_thirteen) ex_codec = Undef
  ∧ ParseHead (file third_quantiser) ex_codec = Undef.
Proof. split_and!; vm_compute; reflexivity. Qed.
