(* ===== verification/JpegRound.v ===== *)
(** * The encoder's header, read back by the decoder

    A header written by JpegHeader for a codec set up by JpegEnc is parsed by
    JpegParse to the same picture: size, sampling, quantisers, Huffman tables, scan
    and restart interval, with the length of the header as the place where
    the entropy-coded data starts. *)

From stdpp Require Import list numbers.
From S2P Require Import Prelude JpegTables JpegHuff JpegBits JpegEnc JpegHeader JpegParse.

(** ** Parsing a given prefix of the file *)

(** On any stream that starts with [l], the parser succeeds with [a], having read [l]; in a single
    buffer [l] is then what lies behind the pointer. *)
Definition parses {A} (p : parser A) (l : bytes) (c : codec) (a : A) (c' : codec) : Prop :=
  ∀ s l', bytes_of s = l ++ l' → is_u32 (header_len s) →
  ∃ s', p s c = Ok a s' c' ∧ bytes_of s' = l'
    ∧ header_len s' = u32 (header_len s + Z.of_nat (length l))
    ∧ (reads s = None → reads s' = None ∧ behind s' = rev l ++ behind s).

Lemma parses_here {A} (p : parser A) c a c' : (∀ s, p s c = Ok a s c') → parses p [] c a c'.
Proof.
  intros E s l' H U. exists s. rewrite E. split_and!; [done|done| |done].
  rewrite Z.add_0_r. by rewrite u32_id.
Qed.

Lemma parses_ret {A} (a : A) c : parses (mret a) [] c a c.
Proof. by apply parses_here. Qed.

Lemma parses_bind {A B} (p : parser A) (f : A → parser B) l1 l2 c a c1 b c2 :
  parses p l1 c a c1 → parses (f a) l2 c1 b c2 → parses (p ≫= f) (l1 ++ l2) c b c2.
Proof.
  intros P F s l' H U. rewrite <- app_assoc in H. destruct (P s _ H U) as (s1 & E1 & B1 & L1 & N1).
  assert (U1 : is_u32 (header_len s1)) by (rewrite L1; apply u32_range).
  destruct (F s1 l' B1 U1) as (s2 & E2 & B2 & L2 & N2). exists s2. unfold mbind, parser_bind. rewrite E1. simpl.
  split_and!; [done|done| |].
  - rewrite L2, L1, u32_succ, length_app. f_equal. lia.
  - intros N. destruct (N1 N) as [N1' E]. destruct (N2 N1') as [E3 E4]. split; [done|].
    by rewrite E4, E, rev_app_distr, app_assoc.
Qed.

Lemma parses_char b c : parses char [b] c b c.
Proof.
  intros s l' H U. destruct (get_char_cons s b l' H) as (s' & E & B & L). unfold char, reading. rewrite E.
  exists s'. split_and!; [done|done|done|].
  intros N. destruct s as [bh [|x buf] hl fo rs]; unfold get_char, fetch in E; simpl in N; subst rs; [by simpl in E|].
  simpl in E. injection E as -> <-. split; [done|reflexivity].
Qed.

Lemma parses_ext {A} (p q : parser A) l c a c' :
  (∀ s c, p s c = q s c) → parses q l c a c' → parses p l c a c'.
Proof. intros E Q s l' H U. rewrite E. by apply Q. Qed.

Lemma parses_char_bind {B} (f : Z → parser B) b l c r c' :
  parses (f b) l c r c' → parses (char ≫= f) (b :: l) c r c'.
Proof. apply (parses_bind char f [b]), parses_char. Qed.

Lemma parses_word_bind {B} (f : Z → parser B) hi lo l c r c' :
  parses (f (Z.lor (Z.shiftl hi 8) lo)) l c r c' → parses (short_word ≫= f) (hi :: lo :: l) c r c'.
Proof.
  apply (parses_bind short_word f [hi; lo]). eapply parses_ext; [apply short_word_char|].
  apply parses_char_bind, parses_char_bind, parses_ret.
Qed.

(** A step that reads nothing. *)
Lemma parses_step {A B} (p : parser A) (f : A → parser B) a l c c1 r c' :
  (∀ s, p s c = Ok a s c1) → parses (f a) l c1 r c' → parses (p ≫= f) l c r c'.
Proof. intros E. apply (parses_bind p f []), parses_here, E. Qed.

Lemma parses_check {B} b (f : unit → parser B) l c r c' :
  b = true → parses (f tt) l c r c' → parses (check b ≫= f) l c r c'.
Proof. intros ->. by apply parses_step. Qed.

Lemma parses_modify {B} g (f : unit → parser B) l c r c' :
  parses (f tt) l (g c) r c' → parses (modify g ≫= f) l c r c'.
Proof. by apply parses_step. Qed.

Lemma parses_modify_last g c : parses (modify g) [] c tt (g c).
Proof. by apply parses_here. Qed.

Lemma parses_gets {B} (f : codec → parser B) l c r c' :
  parses (f c) l c r c' → parses (gets ≫= f) l c r c'.
Proof. by apply parses_step. Qed.

Lemma parses_access {A B} (o : option A) x (f : A → parser B) l c r c' :
  o = Some x → parses (f x) l c r c' → parses (access o ≫= f) l c r c'.
Proof. intros ->. by apply parses_step. Qed.

Lemma parses_eq {A} (p : parser A) l c a c1 c2 : parses p l c a c1 → c1 = c2 → parses p l c a c2.
Proof. by intros ? <-. Qed.

Lemma parses_skip l c : parses (skip (length l)) l c tt c.
Proof. induction l as [|b l IH]; simpl; [apply parses_ret|by apply parses_char_bind]. Qed.

(** A loop whose fuel is the number of bytes left needs no more rounds than bytes. *)
Lemma parses_fuel {A} (p : nat → parser A) n l c a c' :
  (∀ f, (n <= f)%nat → parses (p f) l c a c') → (n <= S (length l))%nat →
  parses (λ s c, p (S (remaining s)) s c) l c a c'.
Proof.
  intros P N s l' H U. apply (P (S (remaining s))); [|done|done].
  pose proof (remaining_bytes s). rewrite H, length_app in H0. lia.
Qed.

(** [GetNextMarker] at a marker. *)
Lemma parses_marker m c : m ≠ 0xff → m ≠ 0 → parses GetNextMarker [0xff; m] c m c.
Proof.
  intros M1 M2. apply (parses_fuel (λ f, next_marker f false) 2); [|simpl; lia].
  intros [|[|f]] H; [lia|lia|]. cbn [next_marker]. apply parses_char_bind. simpl. apply parses_char_bind.
  rewrite (proj2 (Z.eqb_neq m 0xff)), (proj2 (Z.eqb_neq m 0)) by done. apply parses_ret.
Qed.

(** One segment of the marker loop, and its end. *)
Lemma parses_segment m seg l2 c c1 a c2 n :
  m ≠ 0xff → m ≠ 0 → ((m =? M_SOI) || (m =? M_EOI) || (m =? M_SOS))%bool = false →
  parses (dispatch m) seg c tt c1 →
  (∀ f, (n <= f)%nat → parses (process_tables f) l2 c1 a c2) →
  ∀ f, (S n <= f)%nat → parses (process_tables f) ([0xff; m] ++ seg ++ l2) c a c2.
Proof.
  intros M1 M2 M3 D R [|f] H; [lia|]. cbn [process_tables].
  eapply parses_bind; [by apply parses_marker|]. rewrite M3. eapply parses_bind; [done|]. apply R. lia.
Qed.

Lemma parses_sos_marker c f : (1 <= f)%nat → parses (process_tables f) [0xff; M_SOS] c M_SOS c.
Proof.
  intros H. destruct f as [|f]; [lia|]. cbn [process_tables].
  apply (parses_bind _ _ [0xff; M_SOS] []) with M_SOS c; [by apply parses_marker|]. apply parses_ret.
Qed.

(** A 16-bit word as the encoder puts it and the decoder gets it. *)
Lemma word_back v : Z.lor (Z.shiftl (u8 (Z.shiftr (u16 v) 8)) 8) (u8 (u16 v)) = u16 v.
Proof.
  pose proof (u16_range v) as R. unfold is_u16 in R. set (w := u16 v) in *.
  rewrite lor_shiftl_low by (pose proof (u8_range w); unfold is_u8 in *; lia).
  unfold u8. rewrite Z.shiftr_div_pow2 by lia. Z.to_euclidean_division_equations. lia.
Qed.

(** ** The segments *)

Lemma parses_app0 c : parses GetAPP0 [0; 16; 0x4a; 0x46; 0x49; 0x46; 0; 1; 1; 0; 0; 1; 0; 1; 0; 0] c tt c.
Proof.
  unfold GetAPP0. apply parses_word_bind. apply parses_check; [done|].
  apply (parses_bind (skip 14) (λ _, skip 0) [_; _; _; _; _; _; _; _; _; _; _; _; _; _] []) with tt c;
    [apply (parses_skip [_; _; _; _; _; _; _; _; _; _; _; _; _; _])|apply parses_ret].
Qed.

Lemma parses_dri v c :
  parses GetDRI (item_bytes [put16 4; put16 v]) c tt
    (Codec (frm c) (scn c) (Restart (u16 v) (u16 v) 0) (tbl c) (mem c) (is_res_file c) (quant_level c)).
Proof.
  unfold GetDRI. apply parses_word_bind. apply parses_check; [done|]. apply parses_word_bind.
  cbn [put16 snd]. rewrite word_back. apply parses_modify_last.
Qed.

(** An allocation that fits. *)
Lemma parses_alloc {B} n m (f : unit → parser B) l c u sz r c' :
  mem c = Pool u sz → Z.land (u32 (n + 3)) (2 ^ 32 - 4) = m → 0 <= m → 0 <= u → u + m <= sz < 2 ^ 32 →
  parses (f tt) l (Codec (frm c) (scn c) (rst c) (tbl c) (Pool (u + m) sz) (is_res_file c) (quant_level c)) r c' →
  parses (JpegDec_ExtraMemAlloc n ≫= f) l c r c'.
Proof.
  intros M E Hm Hu Hs. apply parses_step. intros s.
  unfold JpegDec_ExtraMemAlloc, gets, mbind, parser_bind. simpl. rewrite M, E. simpl.
  rewrite (u32_id (sz - u)) by (unfold is_u32; lia). destruct (Z.gtb_spec m (sz - u)); [lia|].
  unfold set_mem, modify. rewrite M. simpl. rewrite u32_id by (unfold is_u32; lia). done.
Qed.

(** *** Quantisers *)

(** The stores of [quant_values]. *)
Fixpoint fill (zs : list Z) (q r : list Z) : list Z :=
  match zs with [] => r | z :: zs => fill zs q (<[Z.to_nat z := q !!! Z.to_nat z]> r) end.

Lemma fill_lookup zs q r i :
  (i < length r)%nat →
  fill zs q r !! i = if decide (i ∈ (Z.to_nat <$> zs)) then Some (q !!! i) else r !! i.
Proof.
  revert r. induction zs as [|z zs IH]; intros r H; [done|]. cbn [fill]. rewrite IH by (by rewrite length_insert).
  rewrite fmap_cons. destruct (decide (i ∈ Z.to_nat <$> zs)) as [I | I].
  - rewrite decide_True; [done|]. apply elem_of_cons. by right.
  - destruct (decide (i = Z.to_nat z)) as [-> | N].
    + rewrite decide_True by (apply elem_of_cons; by left). by rewrite list_lookup_insert_eq.
    + rewrite list_lookup_insert_ne by done. rewrite decide_False; [done|]. rewrite elem_of_cons. tauto.
Qed.

Lemma fill_length zs q r : length (fill zs q r) = length r.
Proof. revert r. induction zs as [|z zs IH]; intros r; [done|]. cbn [fill]. by rewrite IH, length_insert. Qed.

(** The zigzag order visits every cell. *)
Lemma zigzag_all i : (i < 64)%nat → i ∈ (Z.to_nat <$> take 64 jpeg_fw_zigzag_order).
Proof.
  intros H. pose proof (eq_refl : forallb (λ i, bool_decide (i ∈ Z.to_nat <$> take 64 jpeg_fw_zigzag_order)) (seq 0 64) = true) as F.
  rewrite forallb_forall in F. specialize (F i). rewrite in_seq in F. specialize (F ltac:(lia)). by apply bool_decide_eq_true in F.
Qed.

Lemma zigzag_range : Forall (λ z, 0 <= z < 64) (take 64 jpeg_fw_zigzag_order).
Proof.
  apply (forallb_Forall (λ z, (0 <=? z) && (z <? 64))); [intros z H; bsplit; lia|reflexivity].
Qed.

Lemma fill_zigzag q r :
  length q = 64%nat → length r = 64%nat → fill (take 64 jpeg_fw_zigzag_order) q r = q.
Proof.
  intros Lq Lr. apply list_eq. intros i. destruct (decide (i < 64)%nat).
  - rewrite fill_lookup by lia. rewrite decide_True by (by apply zigzag_all).
    destruct (lookup_lt_is_Some_2 q i) as [x E]; [lia|]. by rewrite E, (list_lookup_total_correct _ _ _ E).
  - rewrite !lookup_ge_None_2; [done|lia|]. rewrite fill_length. lia.
Qed.

Definition put_tables (f : tables → tables) (c : codec) : codec :=
  Codec (frm c) (scn c) (rst c) (f (tbl c)) (mem c) (is_res_file c) (quant_level c).

Definition put_quant (n : nat) (q : bytes) : codec → codec := put_tables (λ t,
  Tables (tbl_map t) (<[n := Some q]> (quant_tbl t)) (dc_huff_tbl t) (ac_huff_tbl t)
    (using_default_huff_tab t) (using_default_quant_tab t) (g_huff_tbl_malloced t)).

Lemma put_quant_twice n q1 q2 c : put_quant n q1 (put_quant n q2 c) = put_quant n q1 c.
Proof. unfold put_quant, put_tables. simpl. by rewrite list_insert_insert_eq. Qed.

Lemma parses_quant_values q n zs : ∀ r c,
  wf_quant q → Forall (λ z, 0 <= z < 64) zs → (n < length (quant_tbl (tbl c)))%nat →
  parses (quant_values zs 0 n) (u8 <$> (zs ≫= λ z, option_list (q !! Z.to_nat z))) (put_quant n r c) tt
    (put_quant n (fill zs q r) c).
Proof.
  induction zs as [|z zs IH]; intros r c W F L; [apply parses_ret|].
  apply list.Forall_cons in F as [Hz F]. destruct W as [Lq Wq].
  destruct (lookup_lt_is_Some_2 q (Z.to_nat z)) as [v Ev]; [lia|].
  rewrite bind_cons, Ev, fmap_app. change (u8 <$> option_list (Some v)) with [u8 v].
  cbn [app quant_values fill Z.eqb].
  assert (U : u8 v = v) by (unfold wf_bytes in Wq; rewrite Forall_lookup in Wq; apply u8_id; eauto).
  rewrite U. apply parses_char_bind, parses_gets.
  eapply parses_access. { unfold put_quant, put_tables. simpl. by rewrite list_lookup_insert_eq. }
  rewrite U, (list_lookup_total_correct _ _ _ Ev). apply parses_modify.
  change (parses (quant_values zs 0 n) (u8 <$> (zs ≫= λ z, option_list (q !! Z.to_nat z)))
    (put_quant n (<[Z.to_nat z := v]> r) (put_quant n r c)) tt (put_quant n (fill zs q (<[Z.to_nat z := v]> r)) c)).
  rewrite put_quant_twice. by apply IH.
Qed.

Lemma zigzagged_length q : length q = 64%nat → length (zigzagged q) = 64%nat.
Proof.
  intros L. unfold zigzagged. pose proof zigzag_range as F.
  change 64%nat with (length (take 64 jpeg_fw_zigzag_order)) at 2. revert F.
  generalize (take 64 jpeg_fw_zigzag_order). induction l as [|z l IH]; intros F; [done|].
  apply list.Forall_cons in F as [Hz F]. rewrite bind_cons.
  destruct (lookup_lt_is_Some_2 q (Z.to_nat z)) as [v ->]; [lia|]. simpl. f_equal. by apply IH.
Qed.

Lemma item_bytes_8 l : item_bytes (put8 <$> l) = u8 <$> l.
Proof.
  induction l as [|v l IH]; [done|]. rewrite !fmap_cons. unfold item_bytes in *. rewrite bind_cons, IH.
  cbn [be put8 fst snd Z.eqb Pos.eqb app]. by rewrite (u8_id (u8 v)) by apply u8_range.
Qed.

Definition set_pool (u : Z) (c : codec) : codec :=
  Codec (frm c) (scn c) (rst c) (tbl c) (Pool u (s_extra_mem_size (mem c))) (is_res_file c) (quant_level c).

Definition clear_default_quant : codec → codec := put_tables (λ t,
  Tables (tbl_map t) (quant_tbl t) (dc_huff_tbl t) (ac_huff_tbl t)
    (using_default_huff_tab t) false (g_huff_tbl_malloced t)).

(** A DQT segment stores its table. *)
Lemma parses_dqt i q c u sz :
  wf_quant q → (i < 2)%nat → length (quant_tbl (tbl c)) = 3%nat → mem c = Pool u sz →
  0 <= u → u + 64 <= sz < 2 ^ 32 →
  parses GetQuantTbl (item_bytes ([put16 67; put8 (Z.of_nat i)] ++ (put8 <$> zigzagged q))) c tt
    (put_quant i q (set_pool (u + 64) (clear_default_quant c))).
Proof.
  intros W Hi L M Hu Hs. destruct c as [F S R T ? rf ql]. simpl in L, M. subst.
  rewrite item_bytes_app, item_bytes_8.
  assert (Ei : be 8 (u8 (Z.of_nat i)) = [Z.of_nat i]) by (destruct i as [|[|]]; [done|done|lia]).
  change (item_bytes [put16 67; put8 (Z.of_nat i)]) with ([0; 67] ++ be 8 (u8 (Z.of_nat i)) ++ []). rewrite Ei.
  unfold GetQuantTbl. apply parses_modify. cbn [app]. apply parses_word_bind. apply parses_check; [done|].
  rewrite <- (app_nil_r (u8 <$> _)), app_comm_cons.
  eapply (parses_bind _ _ _ _ _ false); [|apply parses_ret].
  change (quant_loop _ _ false) with (r ← get_one_quant 65; quant_loop 66 r.1 (false || r.2)%bool).
  rewrite <- (app_nil_r (Z.of_nat i :: _)).
  eapply (parses_bind _ _ _ _ _ (0, false)); [|apply parses_ret].
  unfold get_one_quant. apply parses_char_bind.
  assert (P : u8 (Z.shiftr (Z.of_nat i) 4) = 0 ∧ Z.land (Z.of_nat i) 0x0f = Z.of_nat i
    ∧ (Z.of_nat i >? 2) = false ∧ (Z.of_nat i >? 1) = false) by (destruct i as [|[|]]; [done|done|lia]).
  destruct P as (-> & -> & P1 & P2). rewrite P1, P2. apply parses_check; [done|].
  eapply (parses_alloc 64 64); [reflexivity|done|lia|lia|lia|]. apply parses_modify.
  rewrite <- (app_nil_r (u8 <$> _)). eapply parses_bind.
  - rewrite Nat2Z.id. eapply (parses_quant_values q i _ (replicate 64 0)); [done|apply zigzag_range|simpl; lia].
  - apply parses_check; [done|]. rewrite fill_zigzag by (destruct W; done).
    apply parses_ret.
Qed.

(** *** Frame and scan headers *)

Lemma parses_assoc {A B C} (p : parser A) (q : A → parser B) (f : B → parser C) l c r c' :
  parses (p ≫= λ a, q a ≫= f) l c r c' → parses ((p ≫= q) ≫= f) l c r c'.
Proof.
  apply parses_ext. intros s c0. unfold mbind, parser_bind.
  by destruct (p s c0).
Qed.

#[local] Opaque parses parser_bind.

Lemma parses_modify_eq {B} g (f : unit → parser B) l c c1 r c' :
  g c = c1 → parses (f tt) l c1 r c' → parses (modify g ≫= f) l c r c'.
Proof. intros <-. apply parses_modify. Qed.

Lemma parses_modify_end g c c1 : g c = c1 → parses (modify g) [] c tt c1.
Proof. intros <-. apply parses_modify_last. Qed.

Lemma parses_samp {B} ci k (f : Z → parser B) l c r c' :
  comp_info (frm c) !! ci = Some k →
  parses (f (Z.lor (Z.shiftl (h_samp_factor k) 4) (v_samp_factor k))) l c r c' →
  parses (samp_ratio ci ≫= f) l c r c'.
Proof.
  intros E. apply parses_step. intros s.
  change (samp_ratio ci s c) with ((access (comp_info (frm c) !! ci) ≫= λ k, mret (Z.lor (Z.shiftl (h_samp_factor k) 4) (v_samp_factor k))) s c).
  by rewrite E.
Qed.

Lemma parses_check_end b c : b = true → parses (check b) [] c tt c.
Proof. intros ->. apply parses_ret. Qed.

(** Evaluates the condition or the option the parser branches on. *)
Ltac pbranch :=
  match goal with
  | |- parses ((if ?b then _ else _) ≫= _) _ _ _ _ => let v := eval lazy in b in change b with v; cbn iota
  | |- parses ((_ ≫= _) ≫= _) _ _ _ _ => apply parses_assoc
  | |- parses (if ?b then _ else _) _ _ _ _ => let v := eval lazy in b in change b with v; cbn iota
  | |- parses (match ?o with Some _ => _ | None => _ end) _ _ _ _ =>
      let v := eval lazy in o in change o with v; cbn iota
  end.

(** One step of a handler on concrete bytes and a concrete state. *)
Ltac pstep := first
  [ pbranch | eapply parses_samp; [reflexivity|] | apply parses_check_end; reflexivity
  | apply parses_char_bind | apply parses_word_bind
  | apply parses_check; [reflexivity|]
  | apply parses_gets
  | eapply parses_access; [reflexivity|]
  | eapply parses_modify_eq; [lazy; reflexivity|]
  | eapply parses_modify_end; lazy; reflexivity
  | apply parses_ret ].

(** The table selectors of the encoder. *)
Definition std_tbl_map : list TBL_MAP_T := [TblMap 0 0 0; TblMap 1 1 1; TblMap 1 1 1].

(** The components of a frame whose luma has the sampling factors 2 and [v]. *)
Definition std_components (v : Z) : list jpeg_component_info :=
  [Comp 1 0 2 v 2 v; Comp 2 1 1 1 1 1; Comp 3 2 1 1 1 1].

Definition std_format (v : Z) : Z := if v =? 2 then JpegParse.JPEG_FW_YUV420 else JpegParse.JPEG_FW_YUV422.

Definition set_map (m : list TBL_MAP_T) : codec → codec := put_tables (λ t,
  Tables m (quant_tbl t) (dc_huff_tbl t) (ac_huff_tbl t)
    (using_default_huff_tab t) (using_default_quant_tab t) (g_huff_tbl_malloced t)).

Lemma word_bind_back {B} (f : Z → parser B) w l c r c' :
  parses (f (u16 w)) l c r c' → parses (short_word ≫= f) (u8 (Z.shiftr (u16 w) 8) :: u8 (u16 w) :: l) c r c'.
Proof. intros H. apply parses_word_bind. by rewrite word_back. Qed.

Lemma parses_sof_components v w h i S R m0 m1 m2 qt dt at_ b1 b2 b3 M rf ql :
  v = 1 ∨ v = 2 →
  parses (sof_components 3 0) [1; Z.lor (Z.shiftl 2 4) v; 0; 2; 0x11; 1; 3; 0x11; 1]
    (Codec (Frame w h i false 3 (replicate 3 zero_comp)) S R (Tables [m0; m1; m2] qt dt at_ b1 b2 b3) M rf ql) tt
    (Codec (Frame w h i false 3 (std_components v)) S R
       (Tables [TblMap (dc_huff_tbl_id m0) (ac_huff_tbl_id m0) 0; TblMap (dc_huff_tbl_id m1) (ac_huff_tbl_id m1) 1;
                TblMap (dc_huff_tbl_id m2) (ac_huff_tbl_id m2) 1] qt dt at_ b1 b2 b3) M rf ql).
Proof.
  intros [-> | ->]; cbn [sof_components]; repeat pstep.
Qed.

Lemma parses_sof0 v h w c u sz m0 m1 m2 :
  v = 1 ∨ v = 2 → tbl_map (tbl c) = [m0; m1; m2] → mem c = Pool u sz → 0 <= u → u + 48 <= sz < 2 ^ 32 →
  parses (GetSOF false)
    (item_bytes ([put16 17; put8 8; put16 h; put16 w; put8 3]
       ++ [put8 1; put8 (Z.lor (Z.shiftl 2 4) v); put8 0; put8 2; put8 0x11; put8 1; put8 3; put8 0x11; put8 1])) c tt
    (Codec (Frame (u16 w) (u16 h) (std_format v) false 3 (std_components v)) (scn c) (rst c)
       (tbl (set_map [TblMap (dc_huff_tbl_id m0) (ac_huff_tbl_id m0) 0;
                      TblMap (dc_huff_tbl_id m1) (ac_huff_tbl_id m1) 1;
                      TblMap (dc_huff_tbl_id m2) (ac_huff_tbl_id m2) 1] c))
       (Pool (u + 48) sz) (is_res_file c) (quant_level c)).
Proof.
  intros V Tm M Hu Hs. destruct c as [F S R T ? rf ql]. destruct T as [tm qt dt at_ b1 b2 b3]. simpl in Tm, M. subst.
  unfold GetSOF. cbn [item_bytes]. do 5 pstep.
  apply word_bind_back, word_bind_back. generalize (u16 h) (u16 w). intros H W. do 4 pstep.
  eapply (parses_alloc _ 48); [reflexivity|reflexivity|lia|lia|lia|]. pstep.
  destruct V as [-> | ->]; (eapply (parses_bind _ _ [1; _; 0; 2; 0x11; 1; 3; 0x11; 1] []);
    [first [apply (parses_sof_components 1); by left | apply (parses_sof_components 2); by right]
    |repeat pstep]).
Qed.

Lemma parses_sos v c m0 m1 m2 i0 i1 i2 :
  v = 1 ∨ v = 2 → comp_info (frm c) = std_components v → tbl_map (tbl c) = [m0; m1; m2] →
  comp_id_map (scn c) = [i0; i1; i2] →
  parses GetSOS [0; 12; 3; 1; 0x00; 2; 0x11; 3; 0x11; 0; 63; 0] c tt
    (Codec (frm c) (Scan 3 [1; 2; 3] 0 63 0 0 (u8 (input_scan_number (scn c) + 1)))
       (Restart (restart_interval (rst c)) (restart_to_go (rst c)) 0)
       (tbl (set_map [TblMap 0 0 (quant_tbl_id m0); TblMap 1 1 (quant_tbl_id m1); TblMap 1 1 (quant_tbl_id m2)] c))
       (mem c) (is_res_file c) (quant_level c)).
Proof.
  intros V Ci Tm Im. destruct c as [[fw fh fm fp fn fc] [sn si s1 s2 s3 s4 s5] [r1 r2 r3] [tm qt dt at_ b1 b2 b3] M rf ql].
  simpl in *. subst. unfold GetSOS. do 4 pstep. pstep.
  destruct V as [-> | ->]; (eapply (parses_bind _ _ [1; 0x00; 2; 0x11; 3; 0x11] [0; 63; 0]);
    [cbn [sos_components]|]; repeat pstep).
Qed.

(** *** Huffman tables *)

(** The stores of a loop over consecutive cells. *)
Fixpoint write_from (i : nat) (bs old : list Z) : list Z :=
  match bs with [] => old | b :: bs => write_from (S i) bs (<[i := b]> old) end.

Lemma write_from_spec bs : ∀ i old,
  (i + length bs <= length old)%nat → write_from i bs old = take i old ++ bs ++ drop (i + length bs) old.
Proof.
  induction bs as [|b bs IH]; intros i old H; simpl in *.
  - by rewrite Nat.add_0_r, take_drop.
  - rewrite IH by (rewrite length_insert; lia).
    rewrite drop_insert_lt by lia. rewrite (take_S_r _ _ b) by (apply list_lookup_insert_eq; lia).
    rewrite take_insert_ge, <- app_assoc by lia. simpl. by replace (i + S (length bs))%nat with (S i + length bs)%nat by lia.
Qed.

Definition huff_table (ac : bool) (ix : nat) (c : codec) : option (option HUFF_TBL_T) :=
  (if ac then ac_huff_tbl (tbl c) else dc_huff_tbl (tbl c)) !! ix.

(** The codec with a table changed; no default flag is cleared. *)
Definition put_huff (ac : bool) (ix : nat) (t : HUFF_TBL_T) : codec → codec := put_tables (λ T,
  Tables (tbl_map T) (quant_tbl T)
    (if ac then dc_huff_tbl T else <[ix := Some t]> (dc_huff_tbl T))
    (if ac then <[ix := Some t]> (ac_huff_tbl T) else ac_huff_tbl T)
    (using_default_huff_tab T) (using_default_quant_tab T) (g_huff_tbl_malloced T)).

Lemma put_huff_get ac ix t c : huff_table ac ix c = Some (Some t) → put_huff ac ix t c = c.
Proof.
  destruct c as [F S R [tm qt dt at_ b1 b2 b3] M rf ql]. unfold huff_table, put_huff, put_tables. simpl.
  destruct ac; intros E; simpl; by rewrite list_insert_id.
Qed.

Lemma alter_inserted {A} (f : A → A) ix t (l : list (option A)) :
  alter (fmap f) ix (<[ix := Some t]> l) = <[ix := Some (f t)]> l.
Proof. revert ix. induction l as [|x l IH]; intros [|ix]; simpl; try done. f_equal. apply IH. Qed.

Lemma parses_set_huff {B} ac ix g same t (f : unit → parser B) l c r c' :
  same = true → parses (f tt) l (put_huff ac ix (g t) c) r c' →
  parses (set_huff ac ix g same ≫= f) l (put_huff ac ix t c) r c'.
Proof.
  intros ->. apply parses_modify_eq. destruct c as [F S R [tm qt dt at_ b1 b2 b3] M rf ql].
  unfold put_huff, put_tables. simpl. f_equal. by destruct ac; simpl; rewrite alter_inserted, andb_true_r.
Qed.

Lemma parses_huff_bits ac ix bs : ∀ i k t c,
  (∀ j b, bs !! j = Some b → default_bits ac ix !! (i + j)%nat = Some b) →
  parses (huff_bits (length bs) i ac ix k) bs (put_huff ac ix t c)
    (foldl (λ n b, u16 (n + b)) k bs) (put_huff ac ix (HuffTbl (write_from i bs (bits t)) (huffval t)) c).
Proof.
  induction bs as [|b bs IH]; intros i k t c H; cbn [length huff_bits write_from foldl].
  - destruct t. apply parses_ret.
  - apply parses_char_bind. eapply parses_access; [rewrite <- (H 0%nat b eq_refl); f_equal; lia|].
    apply parses_set_huff; [apply Z.eqb_refl|].
    apply (IH (S i) (u16 (k + b)) (HuffTbl (<[i := b]> (bits t)) (huffval t))).
    intros j x E. rewrite <- (H (S j) x E). f_equal. lia.
Qed.

Lemma parses_huff_vals ac ix vs : ∀ i t c,
  (∀ j b, vs !! j = Some b → default_huffval ac ix !! (i + j)%nat = Some b) →
  parses (huff_vals (length vs) i ac ix) vs (put_huff ac ix t c) tt
    (put_huff ac ix (HuffTbl (bits t) (write_from i vs (huffval t))) c).
Proof.
  induction vs as [|b vs IH]; intros i t c H; cbn [length huff_vals write_from].
  - destruct t. apply parses_ret.
  - apply parses_char_bind. eapply parses_access; [rewrite <- (H 0%nat b eq_refl); f_equal; lia|].
    apply parses_set_huff; [apply Z.eqb_refl|].
    apply (IH (S i) (HuffTbl (bits t) (<[i := b]> (huffval t)))).
    intros j x E. rewrite <- (H (S j) x E). f_equal. lia.
Qed.

(** The default table of a class and index, as the encoder declares it and as the decoder stores it. *)
Definition default_table (ac : bool) (ix : nat) : HUFF_TBL_T :=
  HuffTbl (default_bits ac ix) (default_huffval ac ix).

Definition default_symbols (ac : bool) (ix : nat) : list Z :=
  take (Z.to_nat (symbol_count (default_table ac ix))) (default_huffval ac ix).

Definition stored_table (ac : bool) (ix : nat) : HUFF_TBL_T :=
  HuffTbl (default_bits ac ix)
    (default_symbols ac ix ++ replicate (257 - length (default_symbols ac ix)) 0).

Lemma default_wf ac ix : wf_huff (default_table ac ix).
Proof. apply wf_huff_ok. by destruct ac, ix; vm_compute. Qed.

Lemma default_symbols_count ac ix :
  symbol_count (default_table ac ix) = Z.of_nat (length (default_symbols ac ix)).
Proof. destruct ac, ix; reflexivity. Qed.

(** The table byte of a DHT segment. *)
Definition table_byte (ac : bool) (ix : nat) : Z := (if ac then 0x10 else 0) + Z.of_nat ix.

Lemma parses_one_huff ac ix l c :
  (ix < 2)%nat → huff_table ac ix c = Some (Some zero_huff_tbl) →
  17 + symbol_count (default_table ac ix) <= l →
  parses (get_one_huff l) (table_byte ac ix :: tail (default_bits ac ix) ++ default_symbols ac ix) c
    (l - (17 + symbol_count (default_table ac ix))) (put_huff ac ix (stored_table ac ix) c).
Proof.
  intros Hix G Hl. unfold get_one_huff. rewrite <- (put_huff_get _ _ _ _ G) at 1. apply parses_char_bind.
  assert (X : Z.land (table_byte ac ix) 0x13 = table_byte ac ix
    ∧ negb (Z.land (table_byte ac ix) 0x10 =? 0) = ac
    ∧ Z.to_nat (if ac then table_byte ac ix - 0x10 else table_byte ac ix) = ix)
    by (destruct ac, ix as [|[|]]; repeat split; lia).
  destruct X as (-> & -> & ->). apply parses_set_huff; [done|].
  set (n := symbol_count (default_table ac ix)) in *.
  assert (Lb : length (tail (default_bits ac ix)) = 16%nat) by (destruct ac, ix; done).
  eapply parses_bind.
  { rewrite <- Lb. apply parses_huff_bits. intros j b E.
    replace (default_bits ac ix) with (0 :: tail (default_bits ac ix)) by (destruct ac, ix; done). done. }
  rewrite count_sum by (unfold is_u16; lia). change (foldr Z.add 0 (tail (default_bits ac ix))) with n.
  assert (Hn : 0 <= n <= 256) by apply (default_wf ac ix).
  rewrite Z.add_0_l, u16_id by (unfold is_u16; lia).
  apply parses_check. { destruct (Z.gtb_spec n 256); [lia|done]. }
  rewrite <- (app_nil_r (default_symbols ac ix)).
  eapply parses_bind.
  { replace (Z.to_nat n) with (length (default_symbols ac ix))
      by (pose proof (default_symbols_count ac ix) as E; fold n in E; lia).
    apply parses_huff_vals. intros j b E. unfold default_symbols in E.
    apply lookup_take_Some in E. tauto. }
  apply parses_check. { destruct (Z.ltb_spec l (1 + 16 + n)); [lia|done]. }
  replace (put_huff ac ix (stored_table ac ix) c) with
    (put_huff ac ix (HuffTbl (write_from 1 (tail (default_bits ac ix)) (<[0%nat := 0]> (bits zero_huff_tbl)))
                       (write_from 0 (default_symbols ac ix) (huffval zero_huff_tbl))) c); [apply parses_ret|].
  f_equal. unfold stored_table. destruct ac, ix; vm_compute; reflexivity.
Qed.

Lemma parses_alloc_huff n : ∀ c u sz,
  mem c = Pool u sz → 0 <= u → u + 560 * Z.of_nat n <= sz < 2 ^ 32 →
  parses (alloc_huff_tables n) [] c tt (set_pool (u + 560 * Z.of_nat n) c).
Proof.
  induction n as [|n IH]; intros [F S R T M rf ql] u sz E Hu Hs; simpl in E; subst M; cbn [alloc_huff_tables].
  - eapply parses_eq; [apply parses_ret|]. unfold set_pool. simpl. do 2 f_equal. lia.
  - eapply (parses_alloc _ 20); [done|done|lia|lia|lia|]. simpl.
    eapply (parses_alloc _ 260); [done|done|lia|lia|lia|]. simpl.
    eapply (parses_alloc _ 20); [done|done|lia|lia|lia|]. simpl.
    eapply (parses_alloc _ 260); [done|done|lia|lia|lia|]. simpl.
    eapply parses_eq; [apply (IH _ (u + 20 + 260 + 20 + 260) sz); [done|lia|lia]|].
    unfold set_pool. simpl. do 2 f_equal. lia.
Qed.

(** The Huffman tables of the codec before the first DHT segment. *)
Definition fresh_tables : codec → codec := put_tables (λ t,
  Tables (tbl_map t) (quant_tbl t)
    (replicate NUM_HUFF_TBLS (Some zero_huff_tbl)) (replicate NUM_HUFF_TBLS (Some zero_huff_tbl))
    (using_default_huff_tab t) (using_default_quant_tab t) true).

(** The body of a DHT segment with the default table, and its parse. *)
Definition dht_body (ac : bool) (ix : nat) : writes :=
  [put16 (19 + symbol_count (default_table ac ix)); put8 (table_byte ac ix)]
  ++ (put8 <$> tail (default_bits ac ix)) ++ (put8 <$> default_symbols ac ix).

Lemma dht_body_bytes ac ix :
  (ix < 2)%nat →
  item_bytes (dht_body ac ix) =
  [Z.shiftr (19 + symbol_count (default_table ac ix)) 8; u8 (19 + symbol_count (default_table ac ix))]
  ++ table_byte ac ix :: tail (default_bits ac ix) ++ default_symbols ac ix.
Proof. intros H. destruct ac, ix as [|[|]]; [reflexivity..|lia|reflexivity|reflexivity|lia]. Qed.

Lemma parses_dht_tables ac ix c :
  (ix < 2)%nat → huff_table ac ix c = Some (Some zero_huff_tbl) →
  parses read_huff_tables (item_bytes (dht_body ac ix)) c tt (put_huff ac ix (stored_table ac ix) c).
Proof.
  intros Hix G. rewrite dht_body_bytes by done. apply parses_word_bind.
  set (n := symbol_count (default_table ac ix)).
  assert (N : 0 <= n <= 256) by apply (default_wf ac ix).
  replace (Z.lor (Z.shiftl (Z.shiftr (19 + n) 8) 8) (u8 (19 + n))) with (19 + n).
  2:{ rewrite lor_shiftl_low by (pose proof (u8_range (19 + n)); unfold is_u8 in *; lia).
      unfold u8. rewrite Z.shiftr_div_pow2 by lia. pose proof (Z.div_mod (19 + n) (2 ^ 8)). lia. }
  apply parses_check. { destruct (Z.ltb_spec (19 + n) 8), (Z.ltb_spec (19 + n) 2); try lia; done. }
  replace (Z.to_nat (19 + n)) with (S (Z.to_nat (18 + n))) by lia. cbn [huff_loop].
  destruct (Z.gtb_spec (19 + n - 2) 0); [|lia].
  rewrite <- (app_nil_r (table_byte ac ix :: _)). eapply parses_bind; [apply parses_one_huff; [done|done|fold n; lia]|].
  fold n. replace (19 + n - 2 - (17 + n)) with 0 by lia.
  destruct (Z.to_nat (18 + n)); apply parses_ret.
Qed.

(** A DHT segment; the first one also allocates the tables. *)
Lemma parses_dht ac ix c :
  (ix < 2)%nat → huff_table ac ix c = Some (Some zero_huff_tbl) → g_huff_tbl_malloced (tbl c) = true →
  parses GetHuffTbl (item_bytes (dht_body ac ix)) c tt (put_huff ac ix (stored_table ac ix) c).
Proof.
  intros Hix G A. unfold GetHuffTbl. apply parses_gets. rewrite A.
  apply (parses_step _ _ tt _ _ c); [done|]. by apply parses_dht_tables.
Qed.

Lemma parses_dht_first ac ix c u sz :
  (ix < 2)%nat → g_huff_tbl_malloced (tbl c) = false →
  mem c = Pool u sz → 0 <= u → u + 2240 <= sz < 2 ^ 32 →
  parses GetHuffTbl (item_bytes (dht_body ac ix)) c tt
    (put_huff ac ix (stored_table ac ix) (fresh_tables (set_pool (u + 2240) c))).
Proof.
  intros Hix A M Hu Hs. unfold GetHuffTbl. apply parses_gets. rewrite A. simpl negb. cbn iota.
  apply parses_assoc. apply (parses_bind _ _ [] _ _ tt (set_pool (u + 2240) c)).
  { by apply (parses_alloc_huff 4 c u sz). }
  apply parses_modify. apply (parses_dht_tables ac ix (fresh_tables (set_pool (u + 2240) c))); [done|].
  by destruct ac, ix as [|[|]]; try lia.
Qed.

(** ** The whole header *)

(** What the encoder's setup leaves: 4:2:0 ([v] = 2) or 4:2:2, two quantisers, the default Huffman
    tables. *)
Record standard (v : Z) (q0 q1 : list Z) (e : enc_codec) : Prop := {
  std_v : v = 1 ∨ v = 2;
  std_ratio : ratio (etab e) = [(2, v); (1, 1); (1, 1)];
  std_map : JpegEnc.tbl_map (etab e) = std_tbl_map;
  std_quant : JpegEnc.quant_tbl (etab e) = [q0; q1];
  std_q0 : wf_quant q0;
  std_q1 : wf_quant q1;
  std_dc : JpegEnc.dc_huff_tbl (etab e) = default_dc_tables;
  std_ac : JpegEnc.ac_huff_tbl (etab e) = default_ac_tables }.

(** The codec the decoder ends with, from a cleared one whose pool is used up to [u]. *)
Definition decoded (v : Z) (q0 q1 : list Z) (e : enc_codec) (u sz level : Z) : codec :=
  Codec (Frame (u16 (width (geo e))) (u16 (height (geo e))) (std_format v) false 3 (std_components v))
    (Scan 3 [1; 2; 3] 0 63 0 0 1)
    (let ri := if JpegEnc.restart_interval e =? 0 then 0x3ffff else u16 (JpegEnc.restart_interval e) in
     Restart ri ri 0)
    (Tables std_tbl_map [Some q0; Some q1; None]
       [Some (stored_table false 0); Some (stored_table false 1); Some zero_huff_tbl; Some zero_huff_tbl]
       [Some (stored_table true 0); Some (stored_table true 1); Some zero_huff_tbl; Some zero_huff_tbl]
       true false true)
    (Pool (u + 64 + 64 + 48 + 2240) sz) false level.

Definition dqt_body (i : nat) (q : list Z) : writes :=
  [put16 67; put8 (Z.of_nat i)] ++ (put8 <$> zigzagged q).

Definition sof0_body (e : enc_codec) (v : Z) : writes :=
  [put16 17; put8 8; put16 (height (geo e)); put16 (width (geo e)); put8 3]
  ++ [put8 1; put8 (Z.lor (Z.shiftl 2 4) v); put8 0; put8 2; put8 0x11; put8 1; put8 3; put8 0x11; put8 1].

Definition app0_body : bytes := [0; 16; 0x4a; 0x46; 0x49; 0x46; 0; 1; 1; 0; 0; 1; 0; 1; 0; 0].
Definition sos_body : bytes := [0; 12; 3; 1; 0x00; 2; 0x11; 3; 0x11; 0; 63; 0].

Definition dri_segment (e : enc_codec) (rest : bytes) : bytes :=
  if JpegEnc.restart_interval e =? 0 then rest
  else [0xff; JpegParse.M_DRI] ++ item_bytes [put16 4; put16 (JpegEnc.restart_interval e)] ++ rest.

(** The header after the SOI marker, segment by segment. *)
Definition header_segments (e : enc_codec) (v : Z) (q0 q1 : list Z) : bytes :=
  [0xff; JpegParse.M_APP0] ++ app0_body
  ++ [0xff; JpegParse.M_DQT] ++ item_bytes (dqt_body 0 q0)
  ++ [0xff; JpegParse.M_DQT] ++ item_bytes (dqt_body 1 q1)
  ++ [0xff; JpegParse.M_SOF0] ++ item_bytes (sof0_body e v)
  ++ [0xff; JpegParse.M_DHT] ++ item_bytes (dht_body false 0)
  ++ [0xff; JpegParse.M_DHT] ++ item_bytes (dht_body true 0)
  ++ [0xff; JpegParse.M_DHT] ++ item_bytes (dht_body false 1)
  ++ [0xff; JpegParse.M_DHT] ++ item_bytes (dht_body true 1)
  ++ dri_segment e [0xff; JpegParse.M_SOS].

Lemma marker_bytes m l : item_bytes (JpegHeader.marker_items m ++ l) = [0xff; u8 (u8 m)] ++ item_bytes l.
Proof. by rewrite item_bytes_app. Qed.

Lemma standard_header_bytes v q0 q1 e :
  standard v q0 q1 e →
  header_bytes e = [0xff; JpegParse.M_SOI] ++ header_segments e v q0 q1 ++ sos_body.
Proof.
  intros [V R M Q _ _ D A]. unfold header_bytes, header_items.
  assert (E1 : dqt_all_items e = JpegHeader.marker_items JpegHeader.M_DQT ++ dqt_body 0 q0
                 ++ JpegHeader.marker_items JpegHeader.M_DQT ++ dqt_body 1 q1)
    by (unfold dqt_all_items; rewrite Q; simpl; by rewrite app_nil_r).
  assert (E2 : sof0_items e = JpegHeader.marker_items JpegHeader.M_SOF0 ++ sof0_body e v)
    by (unfold sof0_items; by rewrite R, M).
  assert (E3 : dht_all_items e = JpegHeader.marker_items JpegHeader.M_DHT ++ dht_body false 0
                 ++ JpegHeader.marker_items JpegHeader.M_DHT ++ dht_body true 0
                 ++ JpegHeader.marker_items JpegHeader.M_DHT ++ dht_body false 1
                 ++ JpegHeader.marker_items JpegHeader.M_DHT ++ dht_body true 1).
  { unfold dht_all_items. rewrite D, A. cbn [default_dc_tables default_ac_tables].
    unfold dht_items, dht_body. by rewrite <- !app_assoc. }
  assert (E4 : item_bytes (sos_items e) = [0xff; JpegParse.M_SOS] ++ sos_body)
    by (unfold sos_items; by rewrite M).
  rewrite E1, E2, E3, !item_bytes_app, E4, <- !app_assoc.
  unfold header_segments, dri_segment, dri_items. rewrite <- !app_assoc.
  destruct (JpegEnc.restart_interval e =? 0); [reflexivity|].
  by rewrite marker_bytes, <- !app_assoc.
Qed.

(** The decoder before the parse, and after the tables but before the restart interval. *)
Definition start_codec (i : dec_input) (u sz : Z) : codec := cleared_codec i (Pool u sz).

Definition with_restart (ri : Z) (c : codec) : codec :=
  Codec (frm c) (scn c) (Restart ri ri 0) (tbl c) (mem c) (is_res_file c) (quant_level c).

Definition tables_read (v : Z) (q0 q1 : list Z) (e : enc_codec) (i : dec_input) (u sz : Z) : codec :=
  Codec (Frame (u16 (width (geo e))) (u16 (height (geo e))) (std_format v) false 3 (std_components v))
    (Scan 0 [0; 0; 0] 0 0 0 0 0) (Restart 0x3ffff 0x3ffff 0)
    (Tables [TblMap 0 0 0; TblMap 0 0 1; TblMap 0 0 1] [Some q0; Some q1; None]
       [Some (stored_table false 0); Some (stored_table false 1); Some zero_huff_tbl; Some zero_huff_tbl]
       [Some (stored_table true 0); Some (stored_table true 1); Some zero_huff_tbl; Some zero_huff_tbl]
       true false true)
    (Pool (u + 64 + 64 + 48 + 2240) sz) false (in_quant_level i).

Lemma parses_dri_segment e c f :
  rst c = Restart 0x3ffff 0x3ffff 0 → (2 <= f)%nat →
  parses (process_tables f) (dri_segment e [0xff; JpegParse.M_SOS]) c JpegParse.M_SOS
    (with_restart (if JpegEnc.restart_interval e =? 0 then 0x3ffff else u16 (JpegEnc.restart_interval e)) c).
Proof.
  intros R Hf. unfold dri_segment. destruct (JpegEnc.restart_interval e =? 0).
  - eapply parses_eq; [apply parses_sos_marker; lia|]. unfold with_restart. rewrite <- R. by destruct c.
  - apply (parses_segment _ _ _ _ (with_restart (u16 (JpegEnc.restart_interval e)) c) _ _ 1); [done|done|done|apply parses_dri| |lia].
    intros f' Hf'. apply parses_sos_marker. lia.
Qed.

Lemma parses_tables v q0 q1 e i u sz :
  standard v q0 q1 e → 0 <= u → u + 2416 <= sz < 2 ^ 32 →
  ∀ f, (10 <= f)%nat →
  parses (process_tables f) (header_segments e v q0 q1) (start_codec i u sz) JpegParse.M_SOS
    (with_restart (if JpegEnc.restart_interval e =? 0 then 0x3ffff else u16 (JpegEnc.restart_interval e))
       (tables_read v q0 q1 e i u sz)).
Proof.
  intros [V _ _ _ W0 W1 _ _] Hu Hs. unfold header_segments.
  eapply parses_segment; [done|done|done|apply parses_app0|].
  eapply parses_segment; [done|done|done|apply (parses_dqt 0 q0 _ u sz); [done|lia|done|done|lia|lia]|].
  eapply parses_segment; [done|done|done|apply (parses_dqt 1 q1 _ (u + 64) sz); [done|lia|done|done|lia|lia]|].
  eapply parses_segment; [done|done|done|eapply (parses_sof0 v _ _ _ (u + 64 + 64) sz); [done|done|done|lia|lia]|].
  eapply parses_segment; [done|done|done|
    apply (parses_dht_first false 0 _ (u + 64 + 64 + 48) sz); [lia|done|done|lia|lia]|].
  eapply parses_segment; [done|done|done|apply (parses_dht true 0); [lia|done|done]|].
  eapply parses_segment; [done|done|done|apply (parses_dht false 1); [lia|done|done]|].
  eapply parses_segment; [done|done|done|apply (parses_dht true 1); [lia|done|done]|].
  intros f Hf. exact (parses_dri_segment e (tables_read v q0 q1 e i u sz) f eq_refl Hf).
Qed.

(** Segments that the marker loop passes over. *)
Definition skipped (pre : bytes) : Prop := ∀ rest c a c' n,
  (∀ f, (n <= f)%nat → parses (process_tables f) rest c a c') →
  ∀ f, (S n <= f)%nat → parses (process_tables f) (pre ++ rest) c a c'.

Lemma skipped_nil : skipped [].
Proof. intros rest c a c' n H f Hf. apply H. lia. Qed.

Lemma parses_head v q0 q1 e i u sz pre :
  standard v q0 q1 e → 0 <= u → u + 2416 <= sz < 2 ^ 32 → skipped pre →
  parses ParseHead (([0xff; JpegParse.M_SOI] ++ (pre ++ header_segments e v q0 q1)) ++ sos_body) (start_codec i u sz) tt
    (decoded v q0 q1 e u sz (in_quant_level i)).
Proof.
  intros St Hu Hs Hp.
  apply (parses_fuel (λ f, find_soi f;; c ← ProcessTables; if c =? JpegParse.M_SOS then GetSOS else failed) 1);
    [|simpl; lia].
  intros [|f] Hf; [lia|]. rewrite <- app_assoc. apply (parses_bind _ _ [0xff; JpegParse.M_SOI] _ _ tt (start_codec i u sz)).
  { cbn [find_soi]. apply (parses_bind _ _ [0xff; JpegParse.M_SOI] [] _ JpegParse.M_SOI (start_codec i u sz));
      [by apply parses_marker|]. apply parses_ret. }
  eapply parses_bind.
  { eapply (parses_fuel process_tables 11); [by apply Hp, parses_tables|].
    unfold header_segments. rewrite !length_app. simpl. lia. }
  simpl. destruct (St) as [V _ _ _ _ _ _ _]. eapply parses_eq; [eapply (parses_sos v); [done|reflexivity..]|].
  reflexivity.
Qed.

(** The bytes behind the pointer at the end of the header are not FF. *)
Lemma unstuffed_clean l next len : Forall (λ b, b ≠ 0xff) l → unstuffed l next len = Some len.
Proof.
  induction 1 as [|b l Hb H IH]; cbn [unstuffed]; [done|]. by rewrite (proj2 (Z.eqb_neq b 0xff)).
Qed.

Lemma header_len_clean s n b1 b2 b3 bh :
  header_len s = n → 0 <= n → behind s = b1 :: b2 :: b3 :: bh → b1 ≠ 0xff → b2 ≠ 0xff → b3 ≠ 0xff →
  get_header_len s = Some n.
Proof.
  intros L N B N1 N2 N3. unfold get_header_len. rewrite L, B.
  rewrite Z.shiftr_div_pow2, Z.shiftl_mul_pow2 by lia. change (2 ^ 2) with 4.
  assert (M : 0 <= n - n / 4 * 4 < 4) by (pose proof (Z.mod_pos_bound n 4); pose proof (Z.div_mod n 4); lia).
  set (k := n - _) in *. clearbody k. destruct (Z.gtb_spec k 1); [|done].
  rewrite slice_ok by (simpl; lia). rewrite drop_0. cbn [mbind option_bind]. apply unstuffed_clean.
  assert (k = 2 ∨ k = 3) as [-> | ->] by lia;
    [change (rev _) with [b2; b1] | change (rev _) with [b3; b2; b1]];
    rewrite !list.Forall_cons; split_and!; try done;
    apply list.Forall_nil_2.
Qed.

Lemma header_length v q0 q1 e :
  standard v q0 q1 e → (length (header_bytes e) <= 1000)%nat.
Proof.
  intros St. rewrite (standard_header_bytes _ _ _ _ St). destruct St as [_ _ _ _ [L0 _] [L1 _] _ _].
  assert (Lq : ∀ k q, length q = 64%nat → length (item_bytes (dqt_body k q)) = 67%nat).
  { intros k q L. unfold dqt_body. by rewrite item_bytes_app, item_bytes_8, length_app, length_fmap, zigzagged_length. }
  unfold header_segments. rewrite !length_app, !Lq by done.
  assert (Ld : ∀ ac ix, (length (item_bytes (dht_body ac ix)) <= 184)%nat).
  { intros ac ix. unfold dht_body. rewrite !item_bytes_app, !item_bytes_8, !length_app, !length_fmap.
    destruct ac, ix; vm_compute; lia. }
  pose proof (Ld false 0%nat). pose proof (Ld true 0%nat). pose proof (Ld false 1%nat). pose proof (Ld true 1%nat).
  assert (length (dri_segment e [0xff%Z; JpegParse.M_SOS]) <= 8)%nat
    by (unfold dri_segment; destruct (_ =? 0); simpl; lia).
  change (length (item_bytes (sof0_body e v))) with 17%nat. simpl length. lia.
Qed.

(** The encoder's header with the segments [pre] after its SOI marker. *)
Definition header_with (pre : bytes) (e : enc_codec) : bytes := [0xff; JpegParse.M_SOI] ++ pre ++ drop 2 (header_bytes e).

Lemma header_with_nil v q0 q1 e : standard v q0 q1 e → header_with [] e = header_bytes e.
Proof. intros St. unfold header_with. by rewrite (standard_header_bytes _ _ _ _ St). Qed.

(** It lies in a buffer, followed by any scan data. *)
Lemma FWParseHead_roundtrip v q0 q1 e d m pre scan :
  standard v q0 q1 e → read_bitstream d = None → bitstream_ptr d = header_with pre e ++ scan →
  0 < dec_buf_addr d < 2 ^ 32 - 3 → dec_buf_addr d mod 4 = 0 → 4096 <= dec_buf_size d < 2 ^ 32 →
  skipped pre → Z.of_nat (length pre) <= 2 ^ 24 →
  ∃ s, JPEG_FWParseHead d m =
         Some (true, Z.of_nat (length (header_with pre e)), s, decoded v q0 q1 e 0 (dec_buf_size d) (in_quant_level d))
       ∧ bytes_of s = scan.
Proof.
  intros St R B A1 A2 Z1 Hp Lp. unfold JPEG_FWParseHead, alloc_stream_buf. rewrite R, B.
  rewrite (proj2 (Z.eqb_neq _ 0)), (proj2 (Z.ltb_ge _ 4)) by lia. cbn [orb JpegDec_InitBitream mret parser_ret].
  assert (P : JpegDec_InitMem (dec_buf_addr d) (dec_buf_size d) m = Pool 0 (dec_buf_size d)).
  { unfold JpegDec_InitMem. rewrite (proj2 (Z.eqb_neq _ 0)), (proj2 (Z.ltb_ge _ 4)) by lia. cbn [orb]. f_equal.
    rewrite (u32_id (dec_buf_addr d + 3)) by (unfold is_u32; lia).
    rewrite Z.shiftr_div_pow2, Z.shiftl_mul_pow2 by lia.
    replace ((dec_buf_addr d + 3) / 2 ^ 2 * 2 ^ 2) with (dec_buf_addr d)
      by (Z.to_euclidean_division_equations; lia).
    rewrite (u32_id (dec_buf_addr d)) by (unfold is_u32; lia). rewrite u32_id; [lia|unfold is_u32; lia]. }
  rewrite P. pose proof (header_length v q0 q1 e St) as Len.
  assert (E0 : header_with pre e = ([0xff; JpegParse.M_SOI] ++ (pre ++ header_segments e v q0 q1)) ++ sos_body).
  { unfold header_with. rewrite (standard_header_bytes _ _ _ _ St), <- !app_assoc. reflexivity. }
  assert (Len' : Z.of_nat (length (header_with pre e)) <= 2 ^ 24 + 1002).
  { unfold header_with. rewrite !length_app, length_drop. cbn [length]. lia. }
  set (s := Stream [] (header_with pre e ++ scan) 0 0 None).
  assert (N : is_res_jpg_file s = Some false) by done.
  rewrite N. cbn [mbind option_bind].
  destruct (parses_head v q0 q1 e d 0 (dec_buf_size d) pre St ltac:(lia) ltac:(lia) Hp s scan) as (s' & E & B' & L & H);
    [rewrite <- E0; unfold bytes_of, s; cbn [inter_buf reads]; by rewrite app_nil_r|unfold is_u32, s; simpl; lia|].
  rewrite <- E0 in L, H.
  change (set_res_file false (cleared_codec d (Pool 0 (dec_buf_size d)))) with (start_codec d 0 (dec_buf_size d)).
  rewrite E. destruct (H eq_refl) as [_ Hb]. exists s'. split; [|done].
  rewrite (header_len_clean s' (Z.of_nat (length (header_with pre e))) 0 63 0
    (rev [0; 12; 3; 1; 0x00; 2; 0x11; 3; 0x11] ++ rev ([0xff; JpegParse.M_SOI] ++ (pre ++ header_segments e v q0 q1))));
    [done| |lia| |lia|lia|lia].
  - rewrite L. change (header_len s) with 0. rewrite Z.add_0_l. apply u32_id. unfold is_u32. lia.
  - rewrite Hb. change (behind s) with (@nil Z). rewrite app_nil_r, E0, rev_app_distr. reflexivity.
Qed.

(** ** From the caller's parameters to the decoder's codec *)

Lemma InitParam_true i c c1 :
  JpegEnc_InitParam i c = (true, c1) →
  ∃ r, sample_ratio (u8 (yuv_mcu_info (yuv_0_info i))) = Some r
    ∧ c1 = set_geo (mcu_grid (u16 (JpegEnc.in_width i)) (u16 (JpegEnc.in_height i)) r)
             (set_etab (set_ratio r (etab (loaded_codec i))) (loaded_codec i)).
Proof.
  unfold JpegEnc_InitParam. intros H.
  repeat match type of H with (if ?b then (false, _) else _) = _ => destruct b; [done|] end.
  cbv zeta in H. destruct (sample_ratio _) as [r|] eqn:R in H; [|done]. injection H as <-. by exists r.
Qed.

(** The default quantisers have 64 cells of a byte each. *)
Lemma default_quant_wf level q :
  jpeg_fw_lum_quant_tbl_default !! level = Some q ∨ jpeg_fw_chr_quant_tbl_default !! level = Some q → wf_quant q.
Proof.
  assert (F : Forall wf_quant (jpeg_fw_lum_quant_tbl_default ++ jpeg_fw_chr_quant_tbl_default)).
  { apply (forallb_Forall (λ q, (length q =? 64)%nat && forallb (λ b, (0 <=? b) && (b <? 256)) q)).
    - intros x. cbv beta. intros H. bsplit; nsplit. split; auto using bytes_ok.
    - vm_compute. reflexivity. }
  rewrite list.Forall_forall in F. intros [E | E]; apply F, elem_of_app; [left | right];
    by apply list_elem_of_lookup_2 in E.
Qed.

(** What [JPEG_HWEncInit] sets up for a first slice. *)
Lemma HWEncInit_standard i c int_en glb e ws :
  in_first_slice i = true → JPEG_HWEncInit i c int_en glb = Some (true, e, ws) →
  ∃ v q0 q1, standard v q0 q1 e ∧ std_format v = u8 (yuv_mcu_info (yuv_0_info i))
    ∧ width (geo e) = u16 (JpegEnc.in_width i) ∧ height (geo e) = u16 (JpegEnc.in_height i)
    ∧ jpeg_fw_lum_quant_tbl_default !! Z.to_nat (JpegEnc.in_quant_level i) = Some q0
    ∧ jpeg_fw_chr_quant_tbl_default !! Z.to_nat (JpegEnc.in_quant_level i) = Some q1
    ∧ JpegEnc.restart_interval e = in_restart_interval i.
Proof.
  intros F H. unfold JPEG_HWEncInit in H. rewrite F in H.
  destruct (JpegEnc_InitParam i _) as [ok c1] eqn:P. destruct ok; [|done]. cbn [negb] in H.
  apply InitParam_true in P as (r & R & ->). unfold JpegEnc_HwTopRegCfg in H. apply bind_Some in H as (hw & _ & H).
  apply bind_Some in H as ([e' q] & Q & H). injection H as -> _. unfold JpegEnc_QTableCfg in Q. binv Q.
  injection Q as <- _. cbn in E, E0.
  assert (V : ∃ v, (v = 1 ∨ v = 2) ∧ r = [(2, v); (1, 1); (1, 1)] ∧ std_format v = u8 (yuv_mcu_info (yuv_0_info i))).
  { unfold sample_ratio in R. destruct (Z.eqb_spec (u8 (yuv_mcu_info (yuv_0_info i))) JpegEnc.JPEG_FW_YUV420) as [X | X].
    - injection R as <-. exists 2. by rewrite X; auto.
    - destruct (Z.eqb_spec (u8 (yuv_mcu_info (yuv_0_info i))) JpegEnc.JPEG_FW_YUV422) as [Y | Y]; [|done].
      injection R as <-. exists 1. by rewrite Y; auto. }
  destruct V as (v & V & -> & S). exists v, x, x0. split_and!; try done.
  split; try done; eapply default_quant_wf; eauto.
Qed.

Section roundtrip.
(** The bit-stream manager, as in JpegHeader, starting empty. *)
Context (bitstream : writes → bytes).
Hypothesis bitstream_start : bitstream [] = [].
Hypothesis bitstream_put : ∀ ws n v, whole_bytes (n, v) →
  bitstream (ws ++ [(BSM_CFG2, Z.shiftl n 24); (BSM_WDATA, v)]) = bitstream ws ++ be n v.

(** What the encoder has written when [JPEG_HWWriteHead] reports success. *)
Lemma encoded_header i c e int_en glb rdy ws b :
  in_first_slice i = true → JPEG_HWEncInit i c int_en glb = Some (true, e, ws) →
  JPEG_HWWriteHead rdy e (Bsm 0 []) = Some (true, b) → bitstream (regs b) = header_bytes e.
Proof.
  intros F H W.
  destruct (HWEncInit_standard i c int_en glb e ws F H) as (v & q0 & q1 & St & _).
  assert (Wf : wf_enc e).
  { destruct St as [_ Rr Rm Rq ? ? Rd Ra]. unfold wf_enc. rewrite Rr, Rm, Rq, Rd, Ra.
    unfold default_dc_tables, default_ac_tables. split_and!; try done; rewrite !list.Forall_cons; split_and!; try apply list.Forall_nil_2; try done;
      first [apply (default_wf false 0) | apply (default_wf false 1) | apply (default_wf true 0) | apply (default_wf true 1)]. }
  destruct (emits_head rdy e Wf (Bsm 0 [])) as (ok & e' & items & E & Rg & _ & T & _).
  rewrite W in E. injection E as <- <-. specialize (T eq_refl). subst items.
  rewrite Rg. rewrite (bitstream_items bitstream bitstream_put) by apply header_whole.
  change (regs (Bsm 0 [])) with (@nil (Z * Z)). by rewrite bitstream_start.
Qed.

(** C4. A JPEG header survives the trip through the hardware's bit stream: when the encoder is set up for a first
    slice and [JPEG_HWWriteHead] reports success, the decoder's [JPEG_FWParseHead] accepts the bytes
    written, whatever scan data follows them, leaves the pointer and the header length exactly at the scan
    data, and has found the picture the encoder was set up for: its size, its sampling, its
    quantisers, the default Huffman tables (recognised as such) and its restart interval. *)
Theorem header_roundtrip (i : enc_input) (c e : enc_codec) (int_en : Z) (glb rdy : nat → Z) (ws : writes)
    (b : bsm) (d : dec_input) (m : pool) (scan : bytes) :
  in_first_slice i = true → JPEG_HWEncInit i c int_en glb = Some (true, e, ws) →
  JPEG_HWWriteHead rdy e (Bsm 0 []) = Some (true, b) →
  read_bitstream d = None → bitstream_ptr d = bitstream (regs b) ++ scan →
  0 < dec_buf_addr d < 2 ^ 32 - 3 → dec_buf_addr d mod 4 = 0 → 4096 <= dec_buf_size d < 2 ^ 32 →
  ∃ s k, JPEG_FWParseHead d m = Some (true, Z.of_nat (length (bitstream (regs b))), s, k) ∧ bytes_of s = scan
    ∧ input_width (frm k) = u16 (JpegEnc.in_width i) ∧ input_height (frm k) = u16 (JpegEnc.in_height i)
    ∧ input_mcu_info (frm k) = u8 (yuv_mcu_info (yuv_0_info i)) ∧ progressive_mode (frm k) = false
    ∧ tbl_map (tbl k) = std_tbl_map
    ∧ quant_tbl (tbl k) =
        [jpeg_fw_lum_quant_tbl_default !! Z.to_nat (JpegEnc.in_quant_level i);
         jpeg_fw_chr_quant_tbl_default !! Z.to_nat (JpegEnc.in_quant_level i); None]
    ∧ using_default_huff_tab (tbl k) = true
    ∧ dc_huff_tbl (tbl k) !! 1%nat = Some (Some (stored_table false 1))
    ∧ restart_interval (rst k) =
        (if in_restart_interval i =? 0 then 0x3ffff else u16 (in_restart_interval i)).
Proof.
  intros F H W R B A1 A2 Z1. rewrite (encoded_header i c e int_en glb rdy ws b F H W) in *.
  destruct (HWEncInit_standard i c int_en glb e ws F H) as (v & q0 & q1 & St & Sv & Ew & Eh & -> & -> & Er).
  rewrite <- (header_with_nil v q0 q1 e St) in *.
  destruct (FWParseHead_roundtrip v q0 q1 e d m [] scan) as (s & P & Bs); try done; [apply skipped_nil|].
  eexists s, _. split; [exact P|]. unfold decoded. simpl. rewrite Ew, Eh, Er.
  split_and!; try done; apply u16_id, u16_range.
Qed.
End roundtrip.

Definition ex_enc : bool * enc_codec * writes :=
  default (false, zero_codec, []) (JPEG_HWEncInit ex_input zero_codec 0 (λ _, 0)).

Definition ex_head : bsm := match JPEG_HWWriteHead (λ _, 1) ex_enc.1.2 (Bsm 0 []) with Some (_, b) => b | None => Bsm 0 [] end.

Definition ex_dec : dec_input :=
  DecInput (bsm_stream (regs ex_head) ++ [0x12; 0x34]) None 0x10000 0x10000 false 0 0 0 0.

Lemma header_roundtrip_witness :
  ∃ s k, JPEG_FWParseHead ex_dec (Pool 0 0) = Some (true, Z.of_nat (length (bsm_stream (regs ex_head))), s, k)
    ∧ bytes_of s = [0x12; 0x34]
    ∧ input_width (frm k) = 640 ∧ input_height (frm k) = 481
    ∧ input_mcu_info (frm k) = 0 ∧ progressive_mode (frm k) = false
    ∧ tbl_map (tbl k) = std_tbl_map
    ∧ quant_tbl (tbl k) =
        [jpeg_fw_lum_quant_tbl_default !! 4%nat; jpeg_fw_chr_quant_tbl_default !! 4%nat; None]
    ∧ using_default_huff_tab (tbl k) = true
    ∧ dc_huff_tbl (tbl k) !! 1%nat = Some (Some (stored_table false 1))
    ∧ restart_interval (rst k) = 0x3ffff.
Proof.
  apply (header_roundtrip bsm_stream eq_refl bsm_stream_put ex_input zero_codec ex_enc.1.2 0 (λ _, 0) (λ _, 1) ex_enc.2
           ex_head ex_dec (Pool 0 0) [0x12; 0x34]); vm_compute; repeat split; congruence.
Defined.

(** ** A pool without an end check *)

#[local] Transparent parses parser_bind.

(** [n] DQT segments for the table 0. *)
Fixpoint dqt_segments (n : nat) (q : list Z) : bytes :=
  match n with
  | O => []
  | S n' => [0xff; JpegParse.M_DQT] ++ item_bytes (dqt_body 0 q) ++ dqt_segments n' q
  end.

(** The parser leaves the defined behaviour on every stream that starts with [l]. *)
Definition undefines {A} (p : parser A) (l : bytes) (c : codec) : Prop :=
  ∀ s l', bytes_of s = l ++ l' → is_u32 (header_len s) → p s c = Undef.

Lemma undefines_bind {A B} (p : parser A) (f : A → parser B) l1 l2 c a c1 :
  parses p l1 c a c1 → undefines (f a) l2 c1 → undefines (p ≫= f) (l1 ++ l2) c.
Proof.
  intros P F s l' H U. rewrite <- app_assoc in H. destruct (P s _ H U) as (s1 & E & B1 & L & _).
  unfold mbind, parser_bind. rewrite E. simpl. apply (F s1 l'); [done|]. rewrite L. apply u32_range.
Qed.

Lemma undefines_first {A B} (p : parser A) (f : A → parser B) l c :
  undefines p l c → undefines (p ≫= f) l c.
Proof. intros P s l' H U. unfold mbind, parser_bind. by rewrite (P s l' H U). Qed.

Lemma undefines_app {A} (p : parser A) l1 l2 c : undefines p l1 c → undefines p (l1 ++ l2) c.
Proof. intros P s l' H U. rewrite <- app_assoc in H. by apply (P s _ H). Qed.

(** A block that does not fit the pool. *)
Lemma alloc_no_room c u sz l :
  mem c = Pool u sz → 0 <= u <= sz → sz < 2 ^ 32 → sz - u < 64 → undefines (JpegDec_ExtraMemAlloc 64) l c.
Proof.
  intros M Hu Hs Hr s l' _ _. unfold JpegDec_ExtraMemAlloc, gets, mbind, parser_bind. cbn [res_bind]. rewrite M.
  change (Z.land (u32 (64 + 3)) (2 ^ 32 - 4)) with 64. cbn [s_extra_mem_size s_used_extra_mem].
  rewrite u32_id by (unfold is_u32; lia). by destruct (Z.gtb_spec 64 (sz - u)); [|lia].
Qed.

#[local] Opaque parses parser_bind.

Lemma dqt_no_room q c u sz :
  mem c = Pool u sz → 0 <= u <= sz → sz < 2 ^ 32 → sz - u < 64 →
  undefines GetQuantTbl ([0; 67; 0] ++ item_bytes (put8 <$> zigzagged q)) c.
Proof.
  intros M Hu Hs Hr. unfold GetQuantTbl.
  apply (undefines_bind _ _ [] _ _ tt (clear_default_quant c)); [apply parses_modify_last|].
  apply (undefines_bind _ _ [0; 67] _ _ 67 (clear_default_quant c));
    [apply (parses_ext _ _ _ _ _ _ short_word_char), parses_char_bind, parses_char_bind, parses_ret|].
  apply (undefines_bind _ _ [] _ _ tt (clear_default_quant c)); [apply parses_ret|]. apply undefines_first.
  change (quant_loop _ _ false) with (r ← get_one_quant 65; quant_loop 66 r.1 (false || r.2)%bool).
  apply undefines_first. unfold get_one_quant.
  apply (undefines_bind _ _ [0] _ _ 0 (clear_default_quant c)); [apply parses_char|].
  apply (undefines_bind _ _ [] _ _ tt (clear_default_quant c)); [apply parses_ret|].
  apply undefines_first. by apply (alloc_no_room _ u sz).
Qed.

Lemma dqt_overflow q sz n : ∀ c u f,
  wf_quant q → mem c = Pool u sz → length (quant_tbl (tbl c)) = 3%nat → 0 <= u <= sz → sz < 2 ^ 32 →
  sz - u < 64 * (Z.of_nat n + 1) → (n < f)%nat →
  undefines (process_tables f) (dqt_segments (S n) q) c.
Proof.
  induction n as [|n IH]; intros c u [|f] W M L Hu Hs Hr Hf; try lia; cbn [process_tables dqt_segments].
  - apply (undefines_bind _ _ [0xff; JpegParse.M_DQT] _ _ JpegParse.M_DQT c); [by apply parses_marker|].
    cbn. rewrite app_nil_r. apply undefines_first. apply (dqt_no_room q c u sz); try done; lia.
  - apply (undefines_bind _ _ [0xff; JpegParse.M_DQT] _ _ JpegParse.M_DQT c); [by apply parses_marker|].
    destruct (Z.lt_ge_cases (sz - u) 64).
    + change (undefines (GetQuantTbl;; process_tables f) (item_bytes (dqt_body 0 q) ++ dqt_segments (S n) q) c).
      apply undefines_first, undefines_app. by apply (dqt_no_room q c u sz).
    + eapply undefines_bind; [apply (parses_dqt 0 q c u sz); [done|lia|done|done|lia|lia]|].
      apply (IH _ (u + 64)); try done; try lia.
      * cbn. by rewrite M.
      * etransitivity; [apply length_insert|done].
Qed.

(** The decoder's pool is never checked against its size (the assertion is compiled out), and a table
    read again is allocated again: enough DQT segments, one for each 64 bytes of the pool and one more,
    make the parse of a header write outside it. *)
Theorem ParseHead_pool_overflow (i : dec_input) (sz : Z) (q : list Z) (n : nat) (s : stream) :
  0 <= sz < 2 ^ 32 → wf_quant q → sz < 64 * (Z.of_nat n + 1) →
  bytes_of s = [0xff; JpegParse.M_SOI] ++ dqt_segments (S n) q → is_u32 (header_len s) →
  ParseHead s (start_codec i 0 sz) = Undef.
Proof.
  intros Hs W Hn B U.
  assert (P : undefines (find_soi (S (remaining s));; c ← (λ s0 c0, process_tables (S (remaining s0)) s0 c0 : res Z);
     if c =? JpegParse.M_SOS then GetSOS else failed) (bytes_of s) (start_codec i 0 sz)); [|by apply (P s []); rewrite ?app_nil_r].
  rewrite B. eapply undefines_bind.
  { cbn [find_soi]. apply (parses_bind _ _ [0xff; JpegParse.M_SOI] [] _ JpegParse.M_SOI (start_codec i 0 sz));
      [by apply parses_marker|]. apply parses_ret. }
  apply undefines_first. intros s1 l' B1 U1. apply (dqt_overflow q sz n (start_codec i 0 sz) 0) with l'; try done; try lia.
  pose proof (remaining_bytes s1) as R. rewrite B1, length_app in R.
  assert (Ln : (n <= length (dqt_segments n q))%nat).
  { clear. induction n as [|n IH]; cbn [dqt_segments]; [done|]. rewrite !length_app. simpl. lia. }
  cbn [dqt_segments] in R. rewrite !length_app in R. simpl length in R. lia.
Qed.

Lemma ParseHead_pool_overflow_witness :
  ∃ q, wf_quant q
  ∧ ParseHead (JpegDec_InitBitream ([0xff; JpegParse.M_SOI] ++ dqt_segments 3 q) None) (start_codec ex_dec_input 0 128) = Undef.
Proof.
  exists (replicate 64 1).
  assert (W : wf_quant (replicate 64 1)).
  { split; [done|]. apply bytes_ok. reflexivity. }
  split; [exact W|]. apply (ParseHead_pool_overflow ex_dec_input 128 (replicate 64 1) 2); [lia|exact W|lia| |].
  - unfold bytes_of. simpl inter_buf. simpl reads. cbv iota. by rewrite app_nil_r.
  - unfold is_u32. simpl. lia.
Defined.
