(* ===== verification/ExifStream.v ===== *)
(** * Byte output of the EXIF writer (libcamera/jpeg/jpeg_fw_8830/src/jpeg_stream.c)

    A write context is a buffer with a position, and optionally a callback that
    takes the buffer's content when it is full.  A function of the writer is a
    state transformer; [None] is undefined behaviour.  Addresses are relative to
    [write_buf]: a buffer does not wrap around the address space.  [agree] and
    [holds_on] are the framing used for everything written through a context. *)
From S2P Require Import Prelude.

(** ** Contexts *)

(** [JINF_WRITE_FILE_FUNC]: from the (offset, data) it has been given before, the data and the file
    offset, whether it succeeds and how many bytes it has written. *)
Definition file_fn : Type := list (Z * bytes) → bytes → Z → bool * Z.

(** [write_buf_size] is the length of [write_buf]; [written] is what the callback has been given. *)
Record wctx := Wctx {
  write_buf : bytes; write_ptr : option Z; write_file_func : option file_fn; write_file_size : Z;
  written : list (Z * bytes) }.

Definition write_buf_size (c : wctx) : Z := Z.of_nat (length (write_buf c)).

Definition W (A : Type) : Type := wctx → option (A * wctx).
#[export] Instance W_ret : MRet W := λ A a c, Some (a, c).
#[export] Instance W_bind : MBind W := λ A B f m c, '(a, c') ← m c; f a c'.

Definition undef {A} : W A := λ _, None.
Definition access {A} (o : option A) : W A := λ c, a ← o; Some (a, c).

(** [JPEG_WRITE_DATA]. *)
Definition JPEG_WRITE_DATA {A} (write : W bool) (error : A) (k : W A) : W A :=
  ok ← write; if ok : bool then k else mret error.

(** ** Operations *)

Definition Jpeg_WriteStreamToFile : W bool := λ c,
  match write_file_func c with
  | None => Some (false, c)
  | Some f =>
      let write_size := match write_ptr c with Some p => p | None => 0 end in
      data ← slice 0 (Z.to_nat write_size) (write_buf c);
      let '(_, actual) := f (written c) data (write_file_size c) in
      Some (actual =? write_size,
            Wctx (write_buf c) (Some 0) (Some f) (u32 (write_file_size c + actual))
              (written c ++ [(write_file_size c, data)]))
  end.

Definition set_write_ptr (p : Z) (c : wctx) : wctx :=
  Wctx (write_buf c) (Some p) (write_file_func c) (write_file_size c) (written c).

Definition Jpeg_SetWritePos (offset : Z) : W bool := λ c,
  match write_file_func c with
  | Some _ =>
      if (offset <? write_file_size c) || (offset >=? u32 (write_file_size c + write_buf_size c)) then
        '(ok, c) ← Jpeg_WriteStreamToFile c;
        if ok : bool
        then Some (true, Wctx (write_buf c) (Some 0) (write_file_func c) offset (written c))
        else Some (false, c)
      else Some (true, set_write_ptr (offset - write_file_size c) c)
  | None =>
      if offset >? write_buf_size c then Some (false, c) else Some (true, set_write_ptr offset c)
  end.

Definition Jpeg_GetWritePos : W Z := λ c,
  let write_pos := match write_ptr c with
    | Some p => if (0 <=? p) && (p <=? write_buf_size c) then p else 0 | None => 0 end in
  Some (match write_file_func c with
        | Some _ => u32 (write_pos + write_file_size c) | None => write_pos end, c).

(** [*context_ptr->write_ptr++ = c]. *)
Definition put_byte (b : Z) : W unit := λ c,
  p ← write_ptr c;
  buf ← (if 0 <=? p then store (Z.to_nat p) (u8 b) (write_buf c) else None);
  Some (tt, Wctx buf (Some (p + 1)) (write_file_func c) (write_file_size c) (written c)).

(** The local [write_ptr] is read before the flush. *)
Definition Jpeg_WriteC (b : Z) : W bool := λ c,
  let c := match write_ptr c with None => set_write_ptr 0 c | Some _ => c end in
  write_ptr ← write_ptr c;
  '(ok, c) ← (if write_ptr >=? write_buf_size c then Jpeg_WriteStreamToFile c else Some (true, c));
  if negb ok then Some (false, c)
  else if write_ptr + 1 >? write_buf_size c then Some (false, c)
  else '(_, c) ← put_byte b c; Some (true, c).

Definition Jpeg_WriteW (w : Z) : W bool :=
  ok ← Jpeg_WriteC (u8 (Z.shiftr w 8));
  if ok : bool then Jpeg_WriteC (u8 w) else mret false.

Definition Jpeg_WriteL (l : Z) : W bool := λ c,
  match write_ptr c with
  | None => Some (false, c)
  | Some p =>
      if p + 4 >? write_buf_size c then Some (false, c)
      else (put_byte (Z.shiftr l 24);; put_byte (Z.shiftr l 16);; put_byte (Z.shiftr l 8);; put_byte l;;
            mret true) c
  end.

(** The loop of [Jpeg_WriteBlock] over the block. *)
Fixpoint write_block_loop (n : nat) (block : bytes) : W bool :=
  match n with
  | O => mret true
  | S n' =>
      match block with
      | [] => undef
      | b :: block => ok ← Jpeg_WriteC b; if ok : bool then write_block_loop n' block else mret false
      end
  end.

Definition Jpeg_WriteBlock (block : option bytes) (block_size : Z) : W bool := λ c,
  match write_ptr c, block with
  | Some _, Some block => write_block_loop (Z.to_nat block_size) block c
  | _, _ => Some (false, c)
  end.

(** ** Memory contents *)

(** The byte at position [p]. *)
Definition byte_at (m : bytes) (p : Z) : option Z := if 0 <=? p then m !! Z.to_nat p else None.

(** [bs] lies in [m] from position [p] on. *)
Definition has (m : bytes) (p : Z) (bs : bytes) : Prop :=
  ∀ k b, bs !! k = Some b → byte_at m (p + Z.of_nat k) = Some b.

(** Two memories agree on the positions in [P]. *)
Definition agree (P : Z → Prop) (m m' : bytes) : Prop := ∀ i, P i → byte_at m' i = byte_at m i.

(** [Q] holds of [m] and depends only on the positions in [P]. *)
Definition holds_on (P : Z → Prop) (Q : bytes → Prop) (m : bytes) : Prop := ∀ m', agree P m m' → Q m'.

Definition within (lo hi i : Z) : Prop := lo <= i < hi.

(** [m'] is [m] with [bs] written at [p]. *)
Definition wrote (p : Z) (bs m m' : bytes) : Prop :=
  length m' = length m ∧ has m' p bs ∧ agree (λ i, ¬ within p (p + Z.of_nat (length bs)) i) m m'.

(** The context of a writer without a callback. *)
Definition at_pos (m : bytes) (p : Z) : wctx := Wctx m (Some p) None 0 [].

(** [act] appends [bs] wherever there is room for it. *)
Definition writes (act : W bool) (bs : bytes) : Prop :=
  ∀ m p, 0 <= p → p + Z.of_nat (length bs) <= Z.of_nat (length m) →
  ∃ m', act (at_pos m p) = Some (true, at_pos m' (p + Z.of_nat (length bs))) ∧ wrote p bs m m'.

Definition be16 (z : Z) : bytes := [u8 (Z.shiftr z 8); u8 z].
Definition be32 (z : Z) : bytes := [u8 (Z.shiftr z 24); u8 (Z.shiftr z 16); u8 (Z.shiftr z 8); u8 z].

(** ** Framing *)

Lemma agree_refl P m : agree P m m.
Proof. by intros i _. Qed.

Lemma agree_trans P m1 m2 m3 : agree P m1 m2 → agree P m2 m3 → agree P m1 m3.
Proof. intros A B i Hi. rewrite (B i Hi). auto. Qed.

Lemma agree_sub (P Q : Z → Prop) m m' : (∀ i, Q i → P i) → agree P m m' → agree Q m m'.
Proof. intros I A i Hi. auto. Qed.

Lemma has_agree m m' p bs :
  agree (within p (p + Z.of_nat (length bs))) m m' → has m p bs → has m' p bs.
Proof.
  intros A H k b Hk. rewrite A; [by apply H|]. apply lookup_lt_Some in Hk. unfold within. lia.
Qed.

Lemma has_app m p a b : has m p (a ++ b) ↔ has m p a ∧ has m (p + Z.of_nat (length a)) b.
Proof.
  split.
  - intros H. split; intros k x Hk.
    + apply H. by apply lookup_app_l_Some.
    + rewrite <- Z.add_assoc, <- Nat2Z.inj_add. apply H. rewrite lookup_app_r by lia.
      by replace (length a + k - length a)%nat with k by lia.
  - intros [Ha Hb] k x Hk. apply lookup_app_Some in Hk as [Hk|[Hl Hk]]; [by apply Ha|].
    apply Hb in Hk. rewrite <- Hk. f_equal. lia.
Qed.

Lemma has_cons m p b bs : has m p (b :: bs) ↔ byte_at m p = Some b ∧ has m (p + 1) bs.
Proof.
  rewrite (has_app m p [b] bs). split; intros [H T]; split; try done.
  - specialize (H 0%nat b eq_refl). by rewrite Z.add_0_r in H.
  - intros [|k] x E; [|done]. injection E as <-. by rewrite Z.add_0_r.
Qed.

Lemma has_nil m p : has m p [].
Proof. intros k b E. by rewrite lookup_nil in E. Qed.

Lemma has_holds m p bs : has m p bs → holds_on (within p (p + Z.of_nat (length bs))) (λ m, has m p bs) m.
Proof. intros H m' A. by apply (has_agree m). Qed.

Lemma holds_here P Q m : holds_on P Q m → Q m.
Proof. intros H. apply H, agree_refl. Qed.

Lemma holds_agree P Q m m' : agree P m m' → holds_on P Q m → holds_on P Q m'.
Proof. intros A H m'' A'. by apply H, agree_trans with m'. Qed.

Lemma holds_weaken (P P' : Z → Prop) Q m : (∀ i, P i → P' i) → holds_on P Q m → holds_on P' Q m.
Proof. intros I H m' A. apply H. by apply agree_sub with P'. Qed.

(** A later change elsewhere keeps what holds. *)
Lemma holds_after (P K : Z → Prop) Q m m' :
  (∀ i, P i → K i) → agree K m m' → holds_on P Q m → holds_on P Q m'.
Proof. intros I A. apply holds_agree. by apply agree_sub with K. Qed.

Lemma byte_at_Some m p b : byte_at m p = Some b → 0 <= p < Z.of_nat (length m).
Proof.
  unfold byte_at. destruct (0 <=? p) eqn:E; [|done]. bsplit. intros ?%lookup_lt_Some. lia.
Qed.

(** ** The operations write what they should *)

Lemma W_bind_eq {A B} (x : W A) (k : A → W B) c a c' : x c = Some (a, c') → (x ≫= k) c = k a c'.
Proof. unfold mbind, W_bind. by intros ->. Qed.

Lemma wrote_nil p m : wrote p [] m m.
Proof. split; [done|]. split; [apply has_nil|apply agree_refl]. Qed.

Lemma wrote_app p a b m m1 m2 :
  wrote p a m m1 → wrote (p + Z.of_nat (length a)) b m1 m2 → wrote p (a ++ b) m m2.
Proof.
  intros (L1 & H1 & A1) (L2 & H2 & A2). split; [congruence|]. split.
  - apply has_app. split; [|done]. apply (has_agree m1); [|done].
    eapply agree_sub; [|done]. unfold within. lia.
  - rewrite length_app. apply agree_trans with m1; (eapply agree_sub; [|done]); unfold within; lia.
Qed.

Lemma put_byte_at m p b :
  0 <= p < Z.of_nat (length m) →
  ∃ m', put_byte b (at_pos m p) = Some (tt, at_pos m' (p + 1)) ∧ wrote p [u8 b] m m'.
Proof.
  intros Hp. unfold put_byte, at_pos. cbn [write_ptr mbind option_bind write_buf].
  rewrite (proj2 (Z.leb_le 0 p)) by lia. rewrite store_ok by lia. eexists. split; [done|].
  split; [apply length_insert|]. split.
  - apply has_cons. split; [|apply has_nil]. unfold byte_at. bdecide.
    apply list_lookup_insert_eq. lia.
  - intros i Hi. unfold within in Hi. cbn [length] in Hi. unfold byte_at. destruct (0 <=? i) eqn:E; [|done].
    bsplit. rewrite list_lookup_insert_ne by lia. done.
Qed.

Lemma writes_seq (a : W bool) (k : W bool) bs cs :
  writes a bs → writes k cs → writes (ok ← a; if ok : bool then k else mret false) (bs ++ cs).
Proof.
  intros Ha Hk m p Hp Hl. rewrite length_app in Hl. destruct (Ha m p) as (m1 & E1 & W1); [lia..|].
  destruct (Hk m1 (p + Z.of_nat (length bs))) as (m2 & E2 & W2); [lia|destruct W1; lia|].
  exists m2. split; [|by apply wrote_app with m1].
  unfold mbind, W_bind. rewrite E1. cbn [mbind option_bind]. rewrite E2. rewrite length_app. do 3 f_equal. lia.
Qed.

Lemma WriteC_writes b : writes (Jpeg_WriteC b) [u8 b].
Proof.
  intros m p Hp Hl. cbn [length] in *. destruct (put_byte_at m p b) as (m' & E & Wm); [lia|].
  exists m'. split; [|done]. unfold Jpeg_WriteC. cbn [write_ptr at_pos mbind option_bind].
  assert (size : write_buf_size (at_pos m p) = Z.of_nat (length m)) by done.
  rewrite size, Z.geb_leb. bdecide. cbn [negb mbind option_bind].
  rewrite size, Z.gtb_ltb. bdecide. by rewrite E.
Qed.

Lemma u8_u8 z : u8 (u8 z) = u8 z.
Proof. apply u8_id, u8_range. Qed.

Lemma WriteW_writes w : writes (Jpeg_WriteW w) (be16 w).
Proof.
  pose proof (writes_seq _ _ _ _ (WriteC_writes (u8 (Z.shiftr w 8))) (WriteC_writes (u8 w))) as H.
  rewrite !u8_u8 in H. exact H.
Qed.

Lemma put_byte_then b (k : W bool) bs :
  writes k bs → writes (put_byte b;; k) (u8 b :: bs).
Proof.
  intros Hk m p Hp Hl. cbn [length] in Hl. destruct (put_byte_at m p b) as (m1 & E1 & W1); [lia|].
  destruct (Hk m1 (p + 1)) as (m2 & E2 & W2); [lia|destruct W1; lia|].
  exists m2. split; [|by apply (wrote_app p [u8 b] bs m m1)].
  unfold mbind, W_bind. rewrite E1. cbn [mbind option_bind length]. rewrite E2. do 3 f_equal. lia.
Qed.

Lemma mret_writes : writes (mret true) [].
Proof. intros m p _ _. exists m. rewrite Z.add_0_r. split; [done|apply wrote_nil]. Qed.

Lemma WriteL_writes l : writes (Jpeg_WriteL l) (be32 l).
Proof.
  intros m p Hp Hl.
  destruct (put_byte_then (Z.shiftr l 24) _ _ (put_byte_then (Z.shiftr l 16) _ _
    (put_byte_then (Z.shiftr l 8) _ _ (put_byte_then l _ _ mret_writes))) m p Hp Hl) as (m' & E & H).
  exists m'. split; [|done]. unfold Jpeg_WriteL. cbn [write_ptr at_pos].
  change (write_buf_size _) with (Z.of_nat (length m)). rewrite Z.gtb_ltb. cbn [length be32] in Hl. bdecide. exact E.
Qed.

Lemma write_block_loop_writes n block :
  (n <= length block)%nat → wf_bytes block → writes (write_block_loop n block) (take n block).
Proof.
  revert block. induction n as [|n IH]; intros [|b block] Hn Wf; simpl in Hn; try lia; try apply mret_writes.
  apply wf_cons in Wf as [Hb Wf]. simpl. rewrite <- (u8_id b Hb) at 2.
  apply (writes_seq _ _ [u8 b]); [apply WriteC_writes|]. apply IH; [lia|done].
Qed.
