(* ===== verification/ExifTypes.v ===== *)
(** * Data of the EXIF writer (jpeg_exif_header.h, jpeg_exif_type.h)

    The structures the caller fills, member by member, a bit field being a boolean
    and a pointer that may be null an option, and what a member is in memory:
    the bytes from a pointer to it to its end, on a little-endian machine. *)
From S2P Require Import Prelude.

(** ** Types of a value *)

Definition IFD_BYTE : Z := 1.
Definition IFD_ASCII : Z := 2.
Definition IFD_SHORT : Z := 3.
Definition IFD_LONG : Z := 4.
Definition IFD_RATIONAL : Z := 5.
Definition IFD_UNDEFINED : Z := 7.
Definition IFD_SLONG : Z := 9.
Definition IFD_SRATIONAL : Z := 10.

(** ** Tags *)

Definition IFD_GPSVERSIONID : Z := 0x00.
Definition IFD_GPSLATITUDEREF : Z := 0x01.
Definition IFD_GPSLATITUDE : Z := 0x02.
Definition IFD_GPSLONGITUDEREF : Z := 0x03.
Definition IFD_GPSLONGITUDE : Z := 0x04.
Definition IFD_GPSALTITUDEREF : Z := 0x05.
Definition IFD_GPSALTITUDE : Z := 0x06.
Definition IFD_GPSTIMESTAMP : Z := 0x07.
Definition IFD_GPSSATELLITES : Z := 0x08.
Definition IFD_GPSSTATUS : Z := 0x09.
Definition IFD_GPSMEASUREMODE : Z := 0x0a.
Definition IFD_GPSDOP : Z := 0x0b.
Definition IFD_GPSSPEEDREF : Z := 0x0c.
Definition IFD_GPSSPEED : Z := 0x0d.
Definition IFD_GPSTRACKREF : Z := 0x0e.
Definition IFD_GPSTRACK : Z := 0x0f.
Definition IFD_GPSIMGDIRECTIONREF : Z := 0x10.
Definition IFD_GPSIMGDIRECTION : Z := 0x11.
Definition IFD_GPSMAPDATUM : Z := 0x12.
Definition IFD_GPSDESTLATITUDEREF : Z := 0x13.
Definition IFD_GPSDESTLATITUDE : Z := 0x14.
Definition IFD_GPSDESTLONGITUDEREF : Z := 0x15.
Definition IFD_GPSDESTLONGITUDE : Z := 0x16.
Definition IFD_GPSDESTBEARINGREF : Z := 0x17.
Definition IFD_GPSDESTBEARING : Z := 0x18.
Definition IFD_GPSDESTDISTANCEREF : Z := 0x19.
Definition IFD_GPSDESTDISTANCE : Z := 0x1a.
Definition IFD_GPSPROCESSINGMETHOD : Z := 0x1b.
Definition IFD_GPSAREAINFORMATION : Z := 0x1c.
Definition IFD_GPSDATESTAMP : Z := 0x1d.
Definition IFD_GPSDIFFERENTIAL : Z := 0x1e.
Definition IFD_IMAGEWIDTH : Z := 0x100.
Definition IFD_IMAGELENGTH : Z := 0x101.
Definition IFD_COMPRESSION : Z := 0x103.
Definition IFD_IMAGEDESCRIPTION : Z := 0x10e.
Definition IFD_MAKE : Z := 0x10f.
Definition IFD_MODEL : Z := 0x110.
Definition IFD_ORIENTATION : Z := 0x112.
Definition IFD_XRESOLUTION : Z := 0x11A.
Definition IFD_YRESOLUTION : Z := 0x11B.
Definition IFD_RESOLUTIONUNIT : Z := 0x128.
Definition IFD_TRANSFERFUNCTION : Z := 0x12D.
Definition IFD_SOFTWARE : Z := 0x131.
Definition IFD_DATETIME : Z := 0x132.
Definition IFD_ARTIST : Z := 0x13B.
Definition IFD_WHITEPOINT : Z := 0x13E.
Definition IFD_PRIMARYCHROMATICITIES : Z := 0x13F.
Definition IFD_JPEGINTERCHANGEFORMAT : Z := 0x201.
Definition IFD_JPEGINTERCHANGEFORMATLENGTH : Z := 0x202.
Definition IFD_YCBCRCOEFFICIENTS : Z := 0x211.
Definition IFD_YCBCRPOSITION : Z := 0x213.
Definition IFD_REFERENCEBLACKWHITE : Z := 0x214.
Definition IFD_COPYRIGHT : Z := 0x8298.
Definition IFD_EXIFIFDPOINTER : Z := 0x8769.
Definition IFD_GPSIFDPOINTER : Z := 0x8825.
Definition IFD_EXPOSURETIME : Z := 0x829A.
Definition IFD_FNUMBER : Z := 0x829D.
Definition IFD_EXPOSUREPROGRAM : Z := 0x8822.
Definition IFD_SPECTRALSENSITIVITY : Z := 0x8824.
Definition IFD_ISOSPEEDRATINGS : Z := 0x8827.
Definition IFD_OECF : Z := 0x8828.
Definition IFD_EXIFVERSION : Z := 0x9000.
Definition IFD_DATETIMEORIGINAL : Z := 0x9003.
Definition IFD_DATETIMEDIGITILIZED : Z := 0x9004.
Definition IFD_COMPONENTSCONFIGURATION : Z := 0x9101.
Definition IFD_COMPRESSEDBITSPERPIXEL : Z := 0x9102.
Definition IFD_SHUTTERSPEEDVALUE : Z := 0x9201.
Definition IFD_APERTUREVALUE : Z := 0x9202.
Definition IFD_BRIGHTNESSVALUE : Z := 0x9203.
Definition IFD_EXPOSUREBIASVALUE : Z := 0x9204.
Definition IFD_MAXAPERTUREVALUE : Z := 0x9205.
Definition IFD_SUBJECTDISTANCE : Z := 0x9206.
Definition IFD_METERINGMODE : Z := 0x9207.
Definition IFD_LIGHTSOURCE : Z := 0x9208.
Definition IFD_FLASH : Z := 0x9209.
Definition IFD_FOCALLENGTH : Z := 0x920A.
Definition IFD_SUBJECTAREA : Z := 0x9214.
Definition IFD_MAKERNOTE : Z := 0x927C.
Definition IFD_USERCOMMENT : Z := 0x9286.
Definition IFD_SUBSECTIME : Z := 0x9290.
Definition IFD_SUBSECTIMEORIGINAL : Z := 0x9291.
Definition IFD_SUBSECTIMEDIGITILIZED : Z := 0x9292.
Definition IFD_FLASHPIXVERSION : Z := 0xA000.
Definition IFD_COLORSPACE : Z := 0xA001.
Definition IFD_PIXELXDIMENSION : Z := 0xA002.
Definition IFD_PIXELYDIMENSION : Z := 0xA003.
Definition IFD_RELATEDSOUNDFILE : Z := 0xA004.
Definition IFD_INTEROPERABILITYIFDPOINTER : Z := 0xA005.
Definition IFD_FLASHENERGY : Z := 0xA20B.
Definition IFD_SPATIALFREQUENCYRESPONSE : Z := 0xA20C.
Definition IFD_FOCALPLANEXRESOLUTION : Z := 0xA20E.
Definition IFD_FOCALPLANEYRESOLUTION : Z := 0xA20F.
Definition IFD_FOCALPLANERESOLUTIONUNIT : Z := 0xA210.
Definition IFD_SUBJECTLOCATION : Z := 0xA214.
Definition IFD_EXPOSUREINDEX : Z := 0xA215.
Definition IFD_SENSINGMETHOD : Z := 0xA217.
Definition IFD_FILESOURCE : Z := 0xA300.
Definition IFD_SCENETYPE : Z := 0xA301.
Definition IFD_CFAPATTERN : Z := 0xA302.
Definition IFD_CUSTOMRENDERED : Z := 0xA401.
Definition IFD_EXPOSUREMODE : Z := 0xA402.
Definition IFD_WHITEBALANCE : Z := 0xA403.
Definition IFD_DIGITALZOOMRATIO : Z := 0xA404.
Definition IFD_FOCALLENGTHIN35MMFILM : Z := 0xA405.
Definition IFD_SCENECAPTURETYPE : Z := 0xA406.
Definition IFD_GAINCONTROL : Z := 0xA407.
Definition IFD_CONTRAST : Z := 0xA408.
Definition IFD_SATURATION : Z := 0xA409.
Definition IFD_SHARPNESS : Z := 0xA40A.
Definition IFD_DEVICESETTINGDESCRIPTION : Z := 0xA40B.
Definition IFD_SUBJECTDISTANCERANGE : Z := 0xA40C.
Definition IFD_IMAGEUNIQUEID : Z := 0xa420.
Definition IFD_INTEROPERABILITYINDEX : Z := 0x0001.
Definition IFD_INTEROPERABILITYVERSION : Z := 0x0002.

Definition EXIF_BIG_ENDIAN : Z := 0x4d4d.
Definition EXIF_IFH_FIX_VALUE : Z := 0x2a.
Definition IFD_HEAD_LENGTH : Z := 12.
Definition MAX_ASCII_STR_SIZE : nat := 256.

(** ** Members in memory *)

(** Also [EXIF_SRATIONAL_T], whose members are signed. *)
Record EXIF_RATIONAL_T := Rational { numerator : Z; denominator : Z }.
Record EXIF_CUSTOM_T := Custom { custom_type : Z; custom_ptr : bytes; custom_count : Z; custom_size : Z }.

Definition mem_byte (b : Z) : bytes := [u8 b].
Definition mem_short : Z → bytes := le16.
Definition mem_long : Z → bytes := le32.
Definition mem_rational (r : EXIF_RATIONAL_T) : bytes := le32 (numerator r) ++ le32 (denominator r).
Definition mem_shorts (l : list Z) : bytes := flat_map mem_short l.
Definition mem_rationals (l : list EXIF_RATIONAL_T) : bytes := flat_map mem_rational l.

(** ** Structures *)

Record EXIF_PRI_BASIC_T := Pri_basic {
  YCbCrPositioning : Z; XResolution : EXIF_RATIONAL_T; YResolution : EXIF_RATIONAL_T; ResolutionUnit : Z;
  ImageWidth : Z; ImageLength : Z }.

Record EXIF_PRI_DATA_STRUCT_VALID_T := Pri_data_struct_valid {
  valid_Orientation : bool; valid_Reserved : bool }.

Record EXIF_PRI_DATA_STRUCT_T := Pri_data_struct {
  data_struct_valid : EXIF_PRI_DATA_STRUCT_VALID_T; Orientation : Z; Reserved : Z }.

Record EXIF_PRI_DATA_CHAR_VALID_T := Pri_data_char_valid {
  valid_TransferFunction : bool; valid_WhitePoint : bool; valid_PrimaryChromaticities : bool;
  valid_YCbCrCoefficients : bool; valid_ReferenceBlackWhite : bool }.

Record EXIF_PRI_DATA_CHAR_T := Pri_data_char {
  data_char_valid : EXIF_PRI_DATA_CHAR_VALID_T; TransferFunction : list Z; WhitePoint : list EXIF_RATIONAL_T;
  PrimaryChromaticities : list EXIF_RATIONAL_T; YCbCrCoefficients : list EXIF_RATIONAL_T;
  ReferenceBlackWhite : list EXIF_RATIONAL_T }.

Record EXIF_PRI_DESC_VALID_T := Pri_desc_valid {
  valid_DateTime : bool; valid_ImageDescription : bool; valid_Make : bool; valid_Model : bool;
  valid_Software : bool; valid_Artist : bool; valid_Copyright : bool }.

Record EXIF_PRI_DESC_T := Pri_desc {
  desc_valid : EXIF_PRI_DESC_VALID_T; DateTime : bytes; ImageDescription : bytes; Make : bytes;
  Model : bytes; Software : bytes; Artist : bytes; Copyright : bytes }.

Record EXIF_PRIMARY_INFO_T := Primary_info {
  basic : EXIF_PRI_BASIC_T; data_struct_ptr : option EXIF_PRI_DATA_STRUCT_T;
  data_char_ptr : option EXIF_PRI_DATA_CHAR_T; img_desc_ptr : option EXIF_PRI_DESC_T; primary_reserved : Z }.

Record EXIF_SPEC_BASIC_T := Spec_basic {
  ColorSpace : Z; ComponentsConfiguration : bytes; PixelXDimension : Z; PixelYDimension : Z }.

Record EXIF_SPEC_VERSION_T := Spec_version {
  ExifVersion : bytes; FlashpixVersion : bytes }.

Record EXIF_SPEC_IMG_CONFIG_VALID_T := Spec_img_config_valid {
  valid_CompressedBitsPerPixel : bool }.

Record EXIF_SPEC_IMG_CONFIG_T := Spec_img_config {
  img_config_valid : EXIF_SPEC_IMG_CONFIG_VALID_T; CompressedBitsPerPixel : EXIF_RATIONAL_T }.

Record EXIF_SPEC_USER_VALID_T := Spec_user_valid {
  valid_MakerNote : bool; valid_UserComment : bool }.

Record EXIF_SPEC_USER_T := Spec_user {
  user_valid : EXIF_SPEC_USER_VALID_T; MakerNote : EXIF_CUSTOM_T; UserComment : EXIF_CUSTOM_T }.

Record EXIF_SPEC_RELATED_FILE_VALID_T := Spec_related_file_valid {
  valid_RelatedSoundFile : bool }.

Record EXIF_SPEC_RELATED_FILE_T := Spec_related_file {
  related_file_valid : EXIF_SPEC_RELATED_FILE_VALID_T; RelatedSoundFile : bytes }.

Record EXIF_SPEC_DATE_TIME_VALID_T := Spec_date_time_valid {
  valid_DateTimeOriginal : bool; valid_DateTimeDigitized : bool; valid_SubSecTime : bool;
  valid_SubSecTimeOriginal : bool; valid_SubSecTimeDigitized : bool }.

Record EXIF_SPEC_DATE_TIME_T := Spec_date_time {
  date_time_valid : EXIF_SPEC_DATE_TIME_VALID_T; DateTimeOriginal : bytes; DateTimeDigitized : bytes;
  SubSecTime : bytes; SubSecTimeOriginal : bytes; SubSecTimeDigitized : bytes }.

Record EXIF_SPEC_PIC_TAKING_COND_VALID_T := Spec_pic_taking_cond_valid {
  valid_ExposureTime : bool; valid_FNumber : bool; valid_ExposureProgram : bool;
  valid_SpectralSensitivity : bool; valid_ISOSpeedRatings : bool; valid_OECF : bool;
  valid_ShutterSpeedValue : bool; valid_ApertureValue : bool; valid_BrightnessValue : bool;
  valid_ExposureBiasValue : bool; valid_MaxApertureValue : bool; valid_SubjectDistance : bool;
  valid_MeteringMode : bool; valid_LightSource : bool; valid_Flash : bool; valid_FocalLength : bool;
  valid_SubjectArea : bool; valid_FlashEnergy : bool; valid_SpatialFrequencyResponse : bool;
  valid_FocalPlaneXResolution : bool; valid_FocalPlaneYResolution : bool;
  valid_FocalPlaneResolutionUnit : bool; valid_SubjectLocation : bool; valid_ExposureIndex : bool;
  valid_SensingMethod : bool; valid_FileSource : bool; valid_SceneType : bool; valid_CFAPattern : bool;
  valid_CustomRendered : bool; valid_ExposureMode : bool; valid_WhiteBalance : bool;
  valid_DigitalZoomRatio : bool; valid_FocalLengthIn35mmFilm : bool; valid_SceneCaptureType : bool;
  valid_GainControl : bool; valid_Contrast : bool; valid_Saturation : bool; valid_Sharpness : bool;
  valid_DeviceSettingDescription : bool; valid_SubjectDistanceRange : bool }.

Record EXIF_SPEC_PIC_TAKING_COND_T := Spec_pic_taking_cond {
  pic_valid : EXIF_SPEC_PIC_TAKING_COND_VALID_T; ExposureTime : EXIF_RATIONAL_T; FNumber : EXIF_RATIONAL_T;
  ExposureProgram : Z; SpectralSensitivity : bytes; ISOSpeedRatings : EXIF_CUSTOM_T; OECF : EXIF_CUSTOM_T;
  ShutterSpeedValue : EXIF_RATIONAL_T; ApertureValue : EXIF_RATIONAL_T; BrightnessValue : EXIF_RATIONAL_T;
  ExposureBiasValue : EXIF_RATIONAL_T; MaxApertureValue : EXIF_RATIONAL_T; SubjectDistance : EXIF_RATIONAL_T;
  MeteringMode : Z; LightSource : Z; Flash : Z; FocalLength : EXIF_RATIONAL_T; SubjectArea : EXIF_CUSTOM_T;
  FlashEnergy : EXIF_RATIONAL_T; SpatialFrequencyResponse : EXIF_CUSTOM_T;
  FocalPlaneXResolution : EXIF_RATIONAL_T; FocalPlaneYResolution : EXIF_RATIONAL_T;
  FocalPlaneResolutionUnit : Z; SubjectLocation : list Z; ExposureIndex : EXIF_RATIONAL_T; SensingMethod : Z;
  FileSource : Z; SceneType : Z; CFAPattern : EXIF_CUSTOM_T; CustomRendered : Z; ExposureMode : Z;
  WhiteBalance : Z; DigitalZoomRatio : EXIF_RATIONAL_T; FocalLengthIn35mmFilm : Z; SceneCaptureType : Z;
  GainControl : Z; Contrast : Z; Saturation : Z; Sharpness : Z; DeviceSettingDescription : EXIF_CUSTOM_T;
  SubjectDistanceRange : Z }.

Record EXIF_SPEC_OTHER_VALID_T := Spec_other_valid {
  valid_ImageUniqueID : bool }.

Record EXIF_SPEC_OTHER_T := Spec_other {
  other_valid : EXIF_SPEC_OTHER_VALID_T; ImageUniqueID : bytes }.

Record EXIF_SPECIFIC_INFO_T := Specific_info {
  spec_basic : EXIF_SPEC_BASIC_T; version_ptr : option EXIF_SPEC_VERSION_T;
  img_config_ptr : option EXIF_SPEC_IMG_CONFIG_T; user_ptr : option EXIF_SPEC_USER_T;
  related_file_ptr : option EXIF_SPEC_RELATED_FILE_T; date_time_ptr : option EXIF_SPEC_DATE_TIME_T;
  pic_taking_cond_ptr : option EXIF_SPEC_PIC_TAKING_COND_T; other_ptr : option EXIF_SPEC_OTHER_T }.

Record EXIF_GPS_VALID_T := Gps_valid {
  valid_GPSVersionID : bool; valid_GPSLatitudeRef : bool; valid_GPSLatitude : bool;
  valid_GPSLongitudeRef : bool; valid_GPSLongitude : bool; valid_GPSAltitudeRef : bool;
  valid_GPSAltitude : bool; valid_GPSTimeStamp : bool; valid_GPSSatellites : bool; valid_GPSStatus : bool;
  valid_GPSMeasureMode : bool; valid_GPSDOP : bool; valid_GPSSpeedRef : bool; valid_GPSSpeed : bool;
  valid_GPSTrackRef : bool; valid_GPSTrack : bool; valid_GPSImgDirectionRef : bool;
  valid_GPSImgDirection : bool; valid_GPSMapDatum : bool; valid_GPSDestLatitudeRef : bool;
  valid_GPSDestLatitude : bool; valid_GPSDestLongitudeRef : bool; valid_GPSDestLongitude : bool;
  valid_GPSDestBearingRef : bool; valid_GPSDestBearing : bool; valid_GPSDestDistanceRef : bool;
  valid_GPSDestDistance : bool; valid_GPSProcessingMethod : bool; valid_GPSAreaInformation : bool;
  valid_GPSDateStamp : bool; valid_GPSDifferential : bool }.

Record EXIF_GPS_INFO_T := Gps_info {
  gps_valid : EXIF_GPS_VALID_T; GPSVersionID : bytes; GPSLatitudeRef : bytes;
  GPSLatitude : list EXIF_RATIONAL_T; GPSLongitudeRef : bytes; GPSLongitude : list EXIF_RATIONAL_T;
  GPSAltitudeRef : Z; GPSAltitude : EXIF_RATIONAL_T; GPSTimeStamp : list EXIF_RATIONAL_T;
  GPSSatellites : bytes; GPSStatus : bytes; GPSMeasureMode : bytes; GPSDOP : EXIF_RATIONAL_T;
  GPSSpeedRef : bytes; GPSSpeed : EXIF_RATIONAL_T; GPSTrackRef : bytes; GPSTrack : EXIF_RATIONAL_T;
  GPSImgDirectionRef : bytes; GPSImgDirection : EXIF_RATIONAL_T; GPSMapDatum : bytes;
  GPSDestLatitudeRef : bytes; GPSDestLatitude : list EXIF_RATIONAL_T; GPSDestLongitudeRef : bytes;
  GPSDestLongitude : list EXIF_RATIONAL_T; GPSDestBearingRef : bytes; GPSDestBearing : EXIF_RATIONAL_T;
  GPSDestDistanceRef : bytes; GPSDestDistance : EXIF_RATIONAL_T; GPSProcessingMethod : EXIF_CUSTOM_T;
  GPSAreaInformation : EXIF_CUSTOM_T; GPSDateStamp : bytes; GPSDifferential : Z }.

Record EXIF_INTEROPERABILITY_VALID_T := Interoperability_valid {
  valid_InteroperabilityIndex : bool }.

Record EXIF_INTEROPERABILITY_INFO_T := Interoperability_info {
  inter_valid : EXIF_INTEROPERABILITY_VALID_T; InteroperabilityIndex : EXIF_CUSTOM_T }.

Record JINF_EXIF_INFO_T := Exif_info {
  primary : EXIF_PRIMARY_INFO_T; spec_ptr : option EXIF_SPECIFIC_INFO_T; gps_ptr : option EXIF_GPS_INFO_T;
  inter_ptr : option EXIF_INTEROPERABILITY_INFO_T }.
