(* ===== verification/ExifWriter.v ===== *)
(** * The EXIF writer (libcamera/jpeg/jpeg_fw_8830/src/exif_writer.c)

    An APP1 segment is an image file header (IFH), IFD0 with its EXIF, GPS and
    interoperability sub-IFDs, and IFD1 with the thumbnail.  An IFD is the
    number of its entries, the entries, and after the room for the largest number of
    them the values that do not fit into an entry.  The blocks of the code that
    write one entry each, all of the same form, are tables of [field]s which
    [write_fields] executes in order. *)
From S2P Require Import Prelude ExifStream ExifTypes.

(** ** One entry *)

(** [BOOLEAN] is an unsigned char, and a function that should answer a [BOOLEAN] may answer [JPEG_FAILED]. *)
Definition FALSE : Z := 0.
Definition TRUE : Z := 1.
Definition JPEG_FAILED : Z := 0xff.
Definition JPEG_MEMORY_NOT_ENOUGH : Z := 2.
Definition JPEGE_INVALID_ARGUMENT : Z := -3.

Definition JPEG_ALIGN_4 (input : Z) : Z := u32 (Z.shiftl (Z.shiftr (u32 (input + 3)) 2) 2).

(** Up to the terminating null character; [None] when the array has none. *)
Fixpoint _GetAsciiStringSize (string : bytes) : option Z :=
  match string with
  | [] => None
  | c :: string => if c =? 0 then Some 0 else n ← _GetAsciiStringSize string; Some (u32 (n + 1))
  end.

(** [value_offset] is the union as its four bytes; [value_bytes] is never read. *)
Record IFD_INFO_T := Ifd_info {
  tag : Z; type : Z; count : Z; value_offset : bytes; value_ptr : option bytes }.

Definition byte_value (i : nat) (v : bytes) : Z := v !!! i.
Definition short_value (i : nat) (v : bytes) : Z := v !!! (2 * i)%nat + 2 ^ 8 * v !!! (2 * i + 1)%nat.
Definition long_value (v : bytes) : Z :=
  v !!! 0%nat + 2 ^ 8 * v !!! 1%nat + 2 ^ 16 * v !!! 2%nat + 2 ^ 24 * v !!! 3%nat.

Definition set_value_offset (v : bytes) (i : IFD_INFO_T) : IFD_INFO_T :=
  Ifd_info (tag i) (type i) (count i) v (value_ptr i).

(** The value an entry carries, without regard to the byte order of the machine. *)
Definition entry_value (i : IFD_INFO_T) : Z :=
  let v := value_offset i in
  if (type i =? IFD_BYTE) || (type i =? IFD_ASCII) || (type i =? IFD_UNDEFINED) then
    if count i <=? 4
    then u32 (Z.lor (Z.lor (Z.lor (Z.shiftl (byte_value 0 v) 24) (Z.shiftl (byte_value 1 v) 16))
                (Z.shiftl (byte_value 2 v) 8)) (byte_value 3 v))
    else long_value v
  else if type i =? IFD_SHORT then
    if count i <=? 2 then u32 (Z.lor (Z.shiftl (short_value 0 v) 16) (short_value 1 v)) else long_value v
  else long_value v.

Definition Jpeg_WriteIFD (i : IFD_INFO_T) : W Z :=
  JPEG_WRITE_DATA (Jpeg_WriteW (tag i)) FALSE (
  JPEG_WRITE_DATA (Jpeg_WriteW (type i)) FALSE (
  JPEG_WRITE_DATA (Jpeg_WriteL (count i)) FALSE (
  JPEG_WRITE_DATA (Jpeg_WriteL (entry_value i)) FALSE (
  mret TRUE)))).

(** What the writers of an entry answer: a [BOOLEAN], [*ifd_offset_ptr] and [*value_offset_ptr]. *)
Definition answer : Type := Z * Z * Z.

(** The entry at [io] ([*ifd_offset_ptr]), then [k] with the position after it. *)
Definition with_entry (i : IFD_INFO_T) (io vo : Z) (k : Z → W answer) : W answer :=
  ok ← Jpeg_SetWritePos io;
  if negb ok then mret (FALSE, io, vo) else
  r ← Jpeg_WriteIFD i;
  if r =? FALSE then mret (FALSE, io, vo) else
  Jpeg_GetWritePos ≫= k.

(** The values at [vo] ([*value_offset_ptr]); [error] is what the function answers when one cannot be written. *)
Definition with_values (error : Z) (values : W bool) (io vo io' : Z) : W answer :=
  ok ← Jpeg_SetWritePos vo;
  if negb ok then mret (FALSE, io, vo) else
  JPEG_WRITE_DATA values (error, io, vo) (
  pos ← Jpeg_GetWritePos;
  mret (TRUE, io', JPEG_ALIGN_4 pos)).

(** Reads through a pointer of the value's type. *)
Definition read_byte (p : bytes) : option (Z * bytes) :=
  match p with b :: p => Some (b, p) | [] => None end.
Definition read_short (p : bytes) : option (Z * bytes) :=
  match p with b0 :: b1 :: p => Some (b0 + 2 ^ 8 * b1, p) | _ => None end.
Definition read_long (p : bytes) : option (Z * bytes) :=
  match p with
  | b0 :: b1 :: b2 :: b3 :: p => Some (b0 + 2 ^ 8 * b1 + 2 ^ 16 * b2 + 2 ^ 24 * b3, p)
  | _ => None
  end.

(** [for (i=0; i<n; i++) { JPEG_WRITE_DATA(put, context_ptr, *ptr, return error); ptr++; }] *)
Fixpoint write_values (read : bytes → option (Z * bytes)) (put : Z → W bool) (n : nat) (ptr : bytes)
    : W bool :=
  match n with
  | O => mret true
  | S n' =>
      '(v, ptr) ← access (read ptr);
      ok ← put v;
      if ok : bool then write_values read put n' ptr else mret false
  end.

(** A rational is its numerator and its denominator. *)
Definition Jpeg_WriteRationalIFD (i : IFD_INFO_T) (io vo : Z) : W answer :=
  match value_ptr i with
  | None => mret (FALSE, io, vo)
  | Some ptr =>
      with_entry i io vo (λ io',
        with_values FALSE (write_values read_long Jpeg_WriteL (2 * Z.to_nat (count i)) ptr)
          io vo io')
  end.

Definition Jpeg_WriteLongIFD (i : IFD_INFO_T) (io vo : Z) : W answer :=
  match value_ptr i with
  | None => mret (FALSE, io, vo)
  | Some ptr =>
      i ← (if count i <=? 1
           then '(v, _) ← access (read_long ptr); mret (set_value_offset (le32 v) i) else mret i);
      with_entry i io vo (λ io',
        if count i >? 1
        then with_values FALSE (write_values read_long Jpeg_WriteL (Z.to_nat (count i)) ptr)
               io vo io'
        else mret (TRUE, io', vo))
  end.

Definition Jpeg_WriteShortIFD (i : IFD_INFO_T) (io vo : Z) : W answer :=
  match value_ptr i with
  | None => mret (FALSE, io, vo)
  | Some ptr =>
      i ← (if count i <=? 2 then
             '(v0, rest) ← access (read_short ptr);
             v1 ← (if count i =? 2 then '(v1, _) ← access (read_short rest); mret v1 else mret 0);
             mret (set_value_offset (le16 v0 ++ le16 v1) i)
           else mret i);
      with_entry i io vo (λ io',
        if count i >? 2
        then with_values JPEG_FAILED (write_values read_short Jpeg_WriteW (Z.to_nat (count i)) ptr)
               io vo io'
        else mret (TRUE, io', vo))
  end.

Definition Jpeg_WriteByteIFD (i : IFD_INFO_T) (io vo : Z) : W answer :=
  match value_ptr i with
  | None => mret (FALSE, io, vo)
  | Some ptr =>
      i ← (if count i <=? 4 then
             let old := value_offset i in
             copied ← access (slice 0 (Z.to_nat (count i)) ptr);
             mret (set_value_offset (copied ++ drop (length copied) old) i)
           else mret i);
      with_entry i io vo (λ io',
        if count i >? 4
        then with_values JPEG_FAILED (write_values read_byte Jpeg_WriteC (Z.to_nat (count i)) ptr)
               io vo io'
        else mret (TRUE, io', vo))
  end.

(** ** Blocks *)

Inductive ifd_kind := RationalIFD | LongIFD | ShortIFD | ByteIFD.

Definition Jpeg_WriteKind (k : ifd_kind) : IFD_INFO_T → Z → Z → W answer :=
  match k with
  | RationalIFD => Jpeg_WriteRationalIFD
  | LongIFD => Jpeg_WriteLongIFD
  | ShortIFD => Jpeg_WriteShortIFD
  | ByteIFD => Jpeg_WriteByteIFD
  end.

(** What the block stores into [value_offset] before it calls the writer: the offset of the values, or
    a short. *)
Inductive value_init := OffsetInit | ShortInit (s : Z).

(** A block: its condition, what it stores into [ifd_info], and the writer it calls. *)
Record field := Field {
  f_guard : bool; f_tag : Z; f_type : Z; f_count : option Z; f_init : value_init; f_value : bytes;
  f_kind : ifd_kind }.

Definition absent : field := Field false 0 0 (Some 0) OffsetInit [] ByteIFD.

(** A block whose condition starts with [PNULL != p]. *)
Definition when {A} (p : option A) (f : A → field) : field :=
  match p with Some a => f a | None => absent end.

(** [_GetAsciiStringSize(s) + 1]. *)
Definition ascii_count (s : bytes) : option Z := n ← _GetAsciiStringSize s; Some (u32 (n + 1)).

(** The variables of an IFD in progress. *)
Record ifd_state := Ifd_state { ifd_offset : Z; ifd_value_offset : Z; entries : Z }.

Definition block_info (ifh_offset : Z) (f : field) (count : Z) (s : ifd_state) : IFD_INFO_T :=
  Ifd_info (f_tag f) (f_type f) count
    (match f_init f with
     | OffsetInit => le32 (u32 (ifd_value_offset s - ifh_offset))
     | ShortInit v => le16 v ++ [0; 0]
     end) (Some (f_value f)).

(** [None] in the result is [return JPEG_FAILED]. *)
Definition write_field (ifh_offset : Z) (f : field) (s : ifd_state) : W (option ifd_state) :=
  if negb (f_guard f) then mret (Some s) else
  count ← access (f_count f);
  '(r, io, vo) ← Jpeg_WriteKind (f_kind f) (block_info ifh_offset f count s) (ifd_offset s) (ifd_value_offset s);
  if r =? FALSE then mret None else mret (Some (Ifd_state io vo (u16 (entries s + 1)))).

Fixpoint write_fields (ifh_offset : Z) (fs : list field) (s : ifd_state) : W (option ifd_state) :=
  match fs with
  | [] => mret (Some s)
  | f :: fs =>
      r ← write_field ifh_offset f s;
      match r with Some s => write_fields ifh_offset fs s | None => mret None end
  end.

(** ** Tables *)

Definition exif_version : bytes := [0x30; 0x32; 0x32; 0x30].
Definition flashpix_version : bytes := [0x30; 0x31; 0x30; 0x30].

(** The entries of the EXIF IFD from EXPOSURETIME to DATETIMEDIGITILIZED. *)
Definition spec_fields_before_1 (spec : EXIF_SPECIFIC_INFO_T) : list field :=
  [ when (pic_taking_cond_ptr spec) (λ p, Field (valid_ExposureTime (pic_valid p))
        IFD_EXPOSURETIME IFD_RATIONAL (Some 1) OffsetInit (mem_rational (ExposureTime p)) RationalIFD);
    when (pic_taking_cond_ptr spec) (λ p, Field (valid_FNumber (pic_valid p))
        IFD_FNUMBER IFD_RATIONAL (Some 1) OffsetInit (mem_rational (FNumber p)) RationalIFD);
    when (pic_taking_cond_ptr spec) (λ p, Field (valid_ExposureProgram (pic_valid p))
        IFD_EXPOSUREPROGRAM IFD_SHORT (Some 1) OffsetInit (mem_short (ExposureProgram p)) ShortIFD);
    when (pic_taking_cond_ptr spec) (λ p, Field (valid_SpectralSensitivity (pic_valid p))
        IFD_SPECTRALSENSITIVITY IFD_ASCII (ascii_count (SpectralSensitivity p))
        OffsetInit (SpectralSensitivity p) ByteIFD);
    when (pic_taking_cond_ptr spec) (λ p, Field (valid_ISOSpeedRatings (pic_valid p)
        && (0 <? custom_count (ISOSpeedRatings p)))
        IFD_ISOSPEEDRATINGS IFD_SHORT (Some (custom_count (ISOSpeedRatings p)))
        OffsetInit (custom_ptr (ISOSpeedRatings p)) ShortIFD);
    when (pic_taking_cond_ptr spec) (λ p, Field (valid_OECF (pic_valid p) && (0 <? custom_count (OECF p)))
        IFD_OECF IFD_UNDEFINED (Some (custom_count (OECF p))) OffsetInit (custom_ptr (OECF p)) ByteIFD);
    Field true IFD_EXIFVERSION IFD_UNDEFINED (Some 4) OffsetInit exif_version ByteIFD;
    when (date_time_ptr spec) (λ p, Field (valid_DateTimeOriginal (date_time_valid p))
        IFD_DATETIMEORIGINAL IFD_ASCII (Some 20) OffsetInit (DateTimeOriginal p) ByteIFD);
    when (date_time_ptr spec) (λ p, Field (valid_DateTimeDigitized (date_time_valid p))
        IFD_DATETIMEDIGITILIZED IFD_ASCII (Some 20) OffsetInit (DateTimeDigitized p) ByteIFD) ].

(** The entries of the EXIF IFD from COMPONENTSCONFIGURATION to METERINGMODE. *)
Definition spec_fields_before_2 (spec : EXIF_SPECIFIC_INFO_T) : list field :=
  [ Field true
        IFD_COMPONENTSCONFIGURATION IFD_UNDEFINED (Some 4)
        OffsetInit (ComponentsConfiguration (spec_basic spec)) ByteIFD;
    when (img_config_ptr spec) (λ p, Field (valid_CompressedBitsPerPixel (img_config_valid p))
        IFD_COMPRESSEDBITSPERPIXEL IFD_RATIONAL (Some 1)
        OffsetInit (mem_rational (CompressedBitsPerPixel p)) RationalIFD);
    when (pic_taking_cond_ptr spec) (λ p, Field (valid_ShutterSpeedValue (pic_valid p))
        IFD_SHUTTERSPEEDVALUE IFD_SRATIONAL (Some 1)
        OffsetInit (mem_rational (ShutterSpeedValue p)) RationalIFD);
    when (pic_taking_cond_ptr spec) (λ p, Field (valid_ApertureValue (pic_valid p))
        IFD_APERTUREVALUE IFD_RATIONAL (Some 1) OffsetInit (mem_rational (ApertureValue p)) RationalIFD);
    when (pic_taking_cond_ptr spec) (λ p, Field (valid_BrightnessValue (pic_valid p))
        IFD_BRIGHTNESSVALUE IFD_SRATIONAL (Some 1) OffsetInit (mem_rational (BrightnessValue p)) RationalIFD);
    when (pic_taking_cond_ptr spec) (λ p, Field (valid_ExposureBiasValue (pic_valid p))
        IFD_EXPOSUREBIASVALUE IFD_SRATIONAL (Some 1)
        OffsetInit (mem_rational (ExposureBiasValue p)) RationalIFD);
    when (pic_taking_cond_ptr spec) (λ p, Field (valid_MaxApertureValue (pic_valid p))
        IFD_MAXAPERTUREVALUE IFD_RATIONAL (Some 1)
        OffsetInit (mem_rational (MaxApertureValue p)) RationalIFD);
    when (pic_taking_cond_ptr spec) (λ p, Field (valid_SubjectDistance (pic_valid p))
        IFD_SUBJECTDISTANCE IFD_RATIONAL (Some 1) OffsetInit (mem_rational (SubjectDistance p)) RationalIFD);
    when (pic_taking_cond_ptr spec) (λ p, Field (valid_MeteringMode (pic_valid p))
        IFD_METERINGMODE IFD_SHORT (Some 1) OffsetInit (mem_short (MeteringMode p)) ShortIFD) ].

(** The entries of the EXIF IFD from LIGHTSOURCE to SUBSECTIMEDIGITILIZED. *)
Definition spec_fields_before_3 (spec : EXIF_SPECIFIC_INFO_T) : list field :=
  [ when (pic_taking_cond_ptr spec) (λ p, Field (valid_LightSource (pic_valid p))
        IFD_LIGHTSOURCE IFD_SHORT (Some 1) OffsetInit (mem_short (LightSource p)) ShortIFD);
    when (pic_taking_cond_ptr spec) (λ p, Field (valid_Flash (pic_valid p))
        IFD_FLASH IFD_SHORT (Some 1) OffsetInit (mem_short (Flash p)) ShortIFD);
    when (pic_taking_cond_ptr spec) (λ p, Field (valid_FocalLength (pic_valid p))
        IFD_FOCALLENGTH IFD_RATIONAL (Some 1) OffsetInit (mem_rational (FocalLength p)) RationalIFD);
    when (pic_taking_cond_ptr spec) (λ p, Field (valid_SubjectArea (pic_valid p)
        && (0 <? custom_count (SubjectArea p)))
        IFD_SUBJECTAREA IFD_SHORT (Some (custom_count (SubjectArea p)))
        OffsetInit (custom_ptr (SubjectArea p)) RationalIFD);
    when (user_ptr spec) (λ p, Field (0 <? custom_count (MakerNote p))
        IFD_MAKERNOTE IFD_UNDEFINED (Some (custom_count (MakerNote p)))
        OffsetInit (custom_ptr (MakerNote p)) ByteIFD);
    when (user_ptr spec) (λ p, Field (0 <? custom_count (UserComment p))
        IFD_USERCOMMENT IFD_UNDEFINED (Some (custom_count (UserComment p)))
        OffsetInit (custom_ptr (UserComment p)) ByteIFD);
    when (date_time_ptr spec) (λ p, Field (valid_SubSecTime (date_time_valid p))
        IFD_SUBSECTIME IFD_ASCII (ascii_count (SubSecTime p)) OffsetInit (SubSecTime p) ByteIFD);
    when (date_time_ptr spec) (λ p, Field (valid_SubSecTimeOriginal (date_time_valid p))
        IFD_SUBSECTIMEORIGINAL IFD_ASCII (ascii_count (SubSecTimeOriginal p))
        OffsetInit (SubSecTimeOriginal p) ByteIFD);
    when (date_time_ptr spec) (λ p, Field (valid_SubSecTimeDigitized (date_time_valid p))
        IFD_SUBSECTIMEDIGITILIZED IFD_ASCII (ascii_count (SubSecTimeDigitized p))
        OffsetInit (SubSecTimeDigitized p) ByteIFD) ].

(** The entries of the EXIF IFD from FLASHPIXVERSION to RELATEDSOUNDFILE. *)
Definition spec_fields_before_4 (spec : EXIF_SPECIFIC_INFO_T) : list field :=
  [ Field true IFD_FLASHPIXVERSION IFD_UNDEFINED (Some 4) OffsetInit flashpix_version ByteIFD;
    Field true
        IFD_COLORSPACE IFD_SHORT (Some 1) OffsetInit (mem_short (ColorSpace (spec_basic spec))) ShortIFD;
    Field true
        IFD_PIXELXDIMENSION IFD_LONG (Some 1)
        OffsetInit (mem_long (PixelXDimension (spec_basic spec))) LongIFD;
    Field true
        IFD_PIXELYDIMENSION IFD_LONG (Some 1)
        OffsetInit (mem_long (PixelYDimension (spec_basic spec))) LongIFD;
    when (related_file_ptr spec) (λ p, Field (valid_RelatedSoundFile (related_file_valid p))
        IFD_RELATEDSOUNDFILE IFD_ASCII (Some 13) OffsetInit (RelatedSoundFile p) ByteIFD) ].

Definition spec_fields_before (spec : EXIF_SPECIFIC_INFO_T) : list field :=
  spec_fields_before_1 spec ++ spec_fields_before_2 spec ++ spec_fields_before_3 spec ++ spec_fields_before_4 spec.

(** The entries of the EXIF IFD from FLASHENERGY to FILESOURCE. *)
Definition spec_fields_after_1 (spec : EXIF_SPECIFIC_INFO_T) : list field :=
  [ when (pic_taking_cond_ptr spec) (λ p, Field (valid_FlashEnergy (pic_valid p))
        IFD_FLASHENERGY IFD_RATIONAL (Some 1) OffsetInit (mem_rational (FlashEnergy p)) RationalIFD);
    when (pic_taking_cond_ptr spec) (λ p, Field (valid_SpatialFrequencyResponse (pic_valid p)
        && (0 <? custom_count (SpatialFrequencyResponse p)))
        IFD_SPATIALFREQUENCYRESPONSE IFD_UNDEFINED (Some (custom_count (SpatialFrequencyResponse p)))
        OffsetInit (custom_ptr (SpatialFrequencyResponse p)) ByteIFD);
    when (pic_taking_cond_ptr spec) (λ p, Field (valid_FocalPlaneXResolution (pic_valid p))
        IFD_FOCALPLANEXRESOLUTION IFD_RATIONAL (Some 1)
        OffsetInit (mem_rational (FocalPlaneXResolution p)) RationalIFD);
    when (pic_taking_cond_ptr spec) (λ p, Field (valid_FocalPlaneYResolution (pic_valid p))
        IFD_FOCALPLANEYRESOLUTION IFD_RATIONAL (Some 1)
        OffsetInit (mem_rational (FocalPlaneYResolution p)) RationalIFD);
    when (pic_taking_cond_ptr spec) (λ p, Field (valid_FocalPlaneResolutionUnit (pic_valid p))
        IFD_FOCALPLANERESOLUTIONUNIT IFD_SHORT (Some 1)
        OffsetInit (mem_short (FocalPlaneResolutionUnit p)) ShortIFD);
    when (pic_taking_cond_ptr spec) (λ p, Field (valid_SubjectLocation (pic_valid p))
        IFD_SUBJECTLOCATION IFD_SHORT (Some 2) OffsetInit (mem_shorts (SubjectLocation p)) ShortIFD);
    when (pic_taking_cond_ptr spec) (λ p, Field (valid_ExposureIndex (pic_valid p))
        IFD_EXPOSUREINDEX IFD_RATIONAL (Some 1) OffsetInit (mem_rational (ExposureIndex p)) RationalIFD);
    when (pic_taking_cond_ptr spec) (λ p, Field (valid_SensingMethod (pic_valid p))
        IFD_SENSINGMETHOD IFD_SHORT (Some 1) OffsetInit (mem_short (SensingMethod p)) ShortIFD);
    when (pic_taking_cond_ptr spec) (λ p, Field (valid_FileSource (pic_valid p))
        IFD_FILESOURCE IFD_UNDEFINED (Some 1) OffsetInit (mem_byte (FileSource p)) ByteIFD) ].

(** The entries of the EXIF IFD from SCENETYPE to GAINCONTROL. *)
Definition spec_fields_after_2 (spec : EXIF_SPECIFIC_INFO_T) : list field :=
  [ when (pic_taking_cond_ptr spec) (λ p, Field (valid_SceneType (pic_valid p))
        IFD_SCENETYPE IFD_UNDEFINED (Some 1) OffsetInit (mem_byte (SceneType p)) ByteIFD);
    when (pic_taking_cond_ptr spec) (λ p, Field (valid_CFAPattern (pic_valid p)
        && (0 <? custom_count (CFAPattern p)))
        IFD_CFAPATTERN IFD_UNDEFINED (Some (custom_count (CFAPattern p)))
        OffsetInit (custom_ptr (CFAPattern p)) ByteIFD);
    when (pic_taking_cond_ptr spec) (λ p, Field (valid_CustomRendered (pic_valid p))
        IFD_CUSTOMRENDERED IFD_SHORT (Some 1) OffsetInit (mem_short (CustomRendered p)) ShortIFD);
    when (pic_taking_cond_ptr spec) (λ p, Field (valid_ExposureMode (pic_valid p))
        IFD_EXPOSUREMODE IFD_SHORT (Some 1) OffsetInit (mem_short (ExposureMode p)) ShortIFD);
    when (pic_taking_cond_ptr spec) (λ p, Field (valid_WhiteBalance (pic_valid p))
        IFD_WHITEBALANCE IFD_SHORT (Some 1) OffsetInit (mem_short (WhiteBalance p)) ShortIFD);
    when (pic_taking_cond_ptr spec) (λ p, Field (valid_DigitalZoomRatio (pic_valid p))
        IFD_DIGITALZOOMRATIO IFD_RATIONAL (Some 1)
        OffsetInit (mem_rational (DigitalZoomRatio p)) RationalIFD);
    when (pic_taking_cond_ptr spec) (λ p, Field (valid_FocalLengthIn35mmFilm (pic_valid p))
        IFD_FOCALLENGTHIN35MMFILM IFD_SHORT (Some 1)
        OffsetInit (mem_short (FocalLengthIn35mmFilm p)) ShortIFD);
    when (pic_taking_cond_ptr spec) (λ p, Field (valid_SceneCaptureType (pic_valid p))
        IFD_SCENECAPTURETYPE IFD_SHORT (Some 1) OffsetInit (mem_short (SceneCaptureType p)) ShortIFD);
    when (pic_taking_cond_ptr spec) (λ p, Field (valid_GainControl (pic_valid p))
        IFD_GAINCONTROL IFD_SHORT (Some 1) OffsetInit (mem_short (GainControl p)) ShortIFD) ].

(** The entries of the EXIF IFD from CONTRAST to IMAGEUNIQUEID. *)
Definition spec_fields_after_3 (spec : EXIF_SPECIFIC_INFO_T) : list field :=
  [ when (pic_taking_cond_ptr spec) (λ p, Field (valid_Contrast (pic_valid p))
        IFD_CONTRAST IFD_SHORT (Some 1) OffsetInit (mem_short (Contrast p)) ShortIFD);
    when (pic_taking_cond_ptr spec) (λ p, Field (valid_Saturation (pic_valid p))
        IFD_SATURATION IFD_SHORT (Some 1) OffsetInit (mem_short (Saturation p)) ShortIFD);
    when (pic_taking_cond_ptr spec) (λ p, Field (valid_Sharpness (pic_valid p))
        IFD_SHARPNESS IFD_SHORT (Some 1) OffsetInit (mem_short (Sharpness p)) ShortIFD);
    when (pic_taking_cond_ptr spec) (λ p, Field (valid_DeviceSettingDescription (pic_valid p)
        && (0 <? custom_count (DeviceSettingDescription p)))
        IFD_DEVICESETTINGDESCRIPTION IFD_UNDEFINED (Some (custom_count (DeviceSettingDescription p)))
        OffsetInit (custom_ptr (DeviceSettingDescription p)) ByteIFD);
    when (pic_taking_cond_ptr spec) (λ p, Field (valid_SubjectDistanceRange (pic_valid p))
        IFD_SUBJECTDISTANCERANGE IFD_SHORT (Some 1) OffsetInit (mem_short (SubjectDistanceRange p)) ShortIFD);
    when (other_ptr spec) (λ p, Field (valid_ImageUniqueID (other_valid p))
        IFD_IMAGEUNIQUEID IFD_ASCII (Some 33) OffsetInit (ImageUniqueID p) ByteIFD) ].

Definition spec_fields_after (spec : EXIF_SPECIFIC_INFO_T) : list field :=
  spec_fields_after_1 spec ++ spec_fields_after_2 spec ++ spec_fields_after_3 spec.

(** The entries of the GPS IFD from GPSVERSIONID to GPSSATELLITES. *)
Definition gps_fields_1 (gps : EXIF_GPS_INFO_T) : list field :=
  [ Field (valid_GPSVersionID (gps_valid gps))
        IFD_GPSVERSIONID IFD_BYTE (Some 4) OffsetInit (GPSVersionID gps) ByteIFD;
    Field (valid_GPSLatitudeRef (gps_valid gps))
        IFD_GPSLATITUDEREF IFD_ASCII (Some 2) OffsetInit (GPSLatitudeRef gps) ByteIFD;
    Field (valid_GPSLatitude (gps_valid gps))
        IFD_GPSLATITUDE IFD_RATIONAL (Some 3) OffsetInit (mem_rationals (GPSLatitude gps)) RationalIFD;
    Field (valid_GPSLongitudeRef (gps_valid gps))
        IFD_GPSLONGITUDEREF IFD_ASCII (Some 2) OffsetInit (GPSLongitudeRef gps) ByteIFD;
    Field (valid_GPSLongitude (gps_valid gps))
        IFD_GPSLONGITUDE IFD_RATIONAL (Some 3) OffsetInit (mem_rationals (GPSLongitude gps)) RationalIFD;
    Field (valid_GPSAltitudeRef (gps_valid gps))
        IFD_GPSALTITUDEREF IFD_BYTE (Some 1) OffsetInit (mem_byte (GPSAltitudeRef gps)) ByteIFD;
    Field (valid_GPSAltitude (gps_valid gps))
        IFD_GPSALTITUDE IFD_RATIONAL (Some 1) OffsetInit (mem_rational (GPSAltitude gps)) RationalIFD;
    Field (valid_GPSTimeStamp (gps_valid gps))
        IFD_GPSTIMESTAMP IFD_RATIONAL (Some 3) OffsetInit (mem_rationals (GPSTimeStamp gps)) RationalIFD;
    Field (valid_GPSSatellites (gps_valid gps))
        IFD_GPSSATELLITES IFD_ASCII (ascii_count (GPSSatellites gps)) OffsetInit (GPSSatellites gps) ByteIFD ].

(** The entries of the GPS IFD from GPSSTATUS to GPSIMGDIRECTION. *)
Definition gps_fields_2 (gps : EXIF_GPS_INFO_T) : list field :=
  [ Field (valid_GPSStatus (gps_valid gps))
        IFD_GPSSTATUS IFD_ASCII (Some 2) OffsetInit (GPSStatus gps) ByteIFD;
    Field (valid_GPSMeasureMode (gps_valid gps))
        IFD_GPSMEASUREMODE IFD_ASCII (Some 2) OffsetInit (GPSMeasureMode gps) ByteIFD;
    Field (valid_GPSDOP (gps_valid gps))
        IFD_GPSDOP IFD_RATIONAL (Some 1) OffsetInit (mem_rational (GPSDOP gps)) RationalIFD;
    Field (valid_GPSSpeedRef (gps_valid gps))
        IFD_GPSSPEEDREF IFD_ASCII (Some 2) OffsetInit (GPSSpeedRef gps) ByteIFD;
    Field (valid_GPSSpeed (gps_valid gps))
        IFD_GPSSPEED IFD_RATIONAL (Some 1) OffsetInit (mem_rational (GPSSpeed gps)) RationalIFD;
    Field (valid_GPSTrackRef (gps_valid gps))
        IFD_GPSTRACKREF IFD_ASCII (Some 2) OffsetInit (GPSTrackRef gps) ByteIFD;
    Field (valid_GPSTrack (gps_valid gps))
        IFD_GPSTRACK IFD_RATIONAL (Some 1) OffsetInit (mem_rational (GPSTrack gps)) RationalIFD;
    Field (valid_GPSImgDirectionRef (gps_valid gps))
        IFD_GPSIMGDIRECTIONREF IFD_ASCII (Some 2) OffsetInit (GPSImgDirectionRef gps) ByteIFD;
    Field (valid_GPSImgDirection (gps_valid gps))
        IFD_GPSIMGDIRECTION IFD_RATIONAL (Some 1) OffsetInit (mem_rational (GPSImgDirection gps)) RationalIFD ].

(** The entries of the GPS IFD from GPSMAPDATUM to GPSDESTDISTANCE. *)
Definition gps_fields_3 (gps : EXIF_GPS_INFO_T) : list field :=
  [ Field (valid_GPSMapDatum (gps_valid gps))
        IFD_GPSMAPDATUM IFD_ASCII (ascii_count (GPSMapDatum gps)) OffsetInit (GPSMapDatum gps) ByteIFD;
    Field (valid_GPSDestLatitudeRef (gps_valid gps))
        IFD_GPSDESTLATITUDEREF IFD_ASCII (Some 2) OffsetInit (GPSDestLatitudeRef gps) ByteIFD;
    Field (valid_GPSDestLatitude (gps_valid gps))
        IFD_GPSDESTLATITUDE IFD_RATIONAL (Some 3)
        OffsetInit (mem_rationals (GPSDestLatitude gps)) RationalIFD;
    Field (valid_GPSDestLongitudeRef (gps_valid gps))
        IFD_GPSDESTLONGITUDEREF IFD_ASCII (Some 2) OffsetInit (GPSDestLongitudeRef gps) ByteIFD;
    Field (valid_GPSDestLatitude (gps_valid gps))
        IFD_GPSDESTLONGITUDE IFD_RATIONAL (Some 3)
        OffsetInit (mem_rationals (GPSDestLongitude gps)) RationalIFD;
    Field (valid_GPSDestBearingRef (gps_valid gps))
        IFD_GPSDESTBEARINGREF IFD_ASCII (Some 2) OffsetInit (GPSDestBearingRef gps) ByteIFD;
    Field (valid_GPSDestBearing (gps_valid gps))
        IFD_GPSDESTBEARING IFD_RATIONAL (Some 1) OffsetInit (mem_rational (GPSDestBearing gps)) RationalIFD;
    Field (valid_GPSDestDistanceRef (gps_valid gps))
        IFD_GPSDESTDISTANCEREF IFD_ASCII (Some 2) OffsetInit (GPSDestDistanceRef gps) ByteIFD;
    Field (valid_GPSDestDistance (gps_valid gps))
        IFD_GPSDESTDISTANCE IFD_RATIONAL (Some 1) OffsetInit (mem_rational (GPSDestDistance gps)) RationalIFD ].

(** The entries of the GPS IFD from GPSPROCESSINGMETHOD to GPSDIFFERENTIAL. *)
Definition gps_fields_4 (gps : EXIF_GPS_INFO_T) : list field :=
  [ Field (valid_GPSProcessingMethod (gps_valid gps) && (0 <? custom_count (GPSProcessingMethod gps)))
        IFD_GPSPROCESSINGMETHOD IFD_UNDEFINED (Some (custom_count (GPSProcessingMethod gps)))
        OffsetInit (custom_ptr (GPSProcessingMethod gps)) ByteIFD;
    Field (valid_GPSAreaInformation (gps_valid gps) && (0 <? custom_count (GPSAreaInformation gps)))
        IFD_GPSAREAINFORMATION IFD_UNDEFINED (Some (custom_count (GPSAreaInformation gps)))
        OffsetInit (custom_ptr (GPSAreaInformation gps)) ByteIFD;
    Field (valid_GPSDateStamp (gps_valid gps))
        IFD_GPSDATESTAMP IFD_ASCII (Some 11) OffsetInit (GPSDateStamp gps) ByteIFD;
    Field (valid_GPSDifferential (gps_valid gps))
        IFD_GPSDIFFERENTIAL IFD_SHORT (Some 1) OffsetInit (mem_short (GPSDifferential gps)) ShortIFD ].

Definition gps_fields (gps : EXIF_GPS_INFO_T) : list field :=
  gps_fields_1 gps ++ gps_fields_2 gps ++ gps_fields_3 gps ++ gps_fields_4 gps.

(** The entries of a primary IFD from COMPRESSION to RESOLUTIONUNIT. *)
Definition primary_fields_before_1 (primary : EXIF_PRIMARY_INFO_T) : list field :=
  [ when (data_struct_ptr primary) (λ p, Field (valid_Reserved (data_struct_valid p))
        IFD_COMPRESSION IFD_SHORT (Some 1) (ShortInit (Reserved p)) (mem_short (Reserved p)) ShortIFD);
    when (img_desc_ptr primary) (λ p, Field (valid_ImageDescription (desc_valid p))
        IFD_IMAGEDESCRIPTION IFD_ASCII (ascii_count (ImageDescription p))
        OffsetInit (ImageDescription p) ByteIFD);
    when (img_desc_ptr primary) (λ p, Field (valid_Make (desc_valid p))
        IFD_MAKE IFD_ASCII (ascii_count (Make p)) OffsetInit (Make p) ByteIFD);
    when (img_desc_ptr primary) (λ p, Field (valid_Model (desc_valid p))
        IFD_MODEL IFD_ASCII (ascii_count (Model p)) OffsetInit (Model p) ByteIFD);
    when (data_struct_ptr primary) (λ p, Field (valid_Orientation (data_struct_valid p))
        IFD_ORIENTATION IFD_SHORT (Some 1) (ShortInit (Orientation p)) (mem_short (Orientation p)) ShortIFD);
    Field true
        IFD_XRESOLUTION IFD_RATIONAL (Some 1)
        OffsetInit (mem_rational (XResolution (basic primary))) RationalIFD;
    Field true
        IFD_YRESOLUTION IFD_RATIONAL (Some 1)
        OffsetInit (mem_rational (YResolution (basic primary))) RationalIFD;
    Field true
        IFD_RESOLUTIONUNIT IFD_SHORT (Some 1)
        (ShortInit (ResolutionUnit (basic primary))) (mem_short (ResolutionUnit (basic primary))) ShortIFD ].

(** The entries of a primary IFD from TRANSFERFUNCTION to PRIMARYCHROMATICITIES. *)
Definition primary_fields_before_2 (primary : EXIF_PRIMARY_INFO_T) : list field :=
  [ when (data_char_ptr primary) (λ p, Field (valid_TransferFunction (data_char_valid p))
        IFD_TRANSFERFUNCTION IFD_SHORT (Some 768) OffsetInit (mem_shorts (TransferFunction p)) ShortIFD);
    when (img_desc_ptr primary) (λ p, Field (valid_Software (desc_valid p))
        IFD_SOFTWARE IFD_ASCII (ascii_count (Software p)) OffsetInit (Software p) ByteIFD);
    when (img_desc_ptr primary) (λ p, Field (valid_DateTime (desc_valid p))
        IFD_DATETIME IFD_ASCII (Some 20) OffsetInit (DateTime p) ByteIFD);
    when (img_desc_ptr primary) (λ p, Field (valid_Artist (desc_valid p))
        IFD_ARTIST IFD_ASCII (ascii_count (Artist p)) OffsetInit (Artist p) ByteIFD);
    when (data_char_ptr primary) (λ p, Field (valid_WhitePoint (data_char_valid p))
        IFD_WHITEPOINT IFD_RATIONAL (Some 2) OffsetInit (mem_rationals (WhitePoint p)) RationalIFD);
    when (data_char_ptr primary) (λ p, Field (valid_PrimaryChromaticities (data_char_valid p))
        IFD_PRIMARYCHROMATICITIES IFD_RATIONAL (Some 6)
        OffsetInit (mem_rationals (PrimaryChromaticities p)) RationalIFD) ].

Definition primary_fields_before (primary : EXIF_PRIMARY_INFO_T) : list field :=
  primary_fields_before_1 primary ++ primary_fields_before_2 primary.

(** The entries of a primary IFD from YCBCRCOEFFICIENTS to COPYRIGHT. *)
Definition primary_fields_after_1 (primary : EXIF_PRIMARY_INFO_T) : list field :=
  [ when (data_char_ptr primary) (λ p, Field (valid_YCbCrCoefficients (data_char_valid p))
        IFD_YCBCRCOEFFICIENTS IFD_RATIONAL (Some 3)
        OffsetInit (mem_rationals (YCbCrCoefficients p)) RationalIFD);
    Field true
        IFD_YCBCRPOSITION IFD_SHORT (Some 1)
        OffsetInit (mem_short (YCbCrPositioning (basic primary))) ShortIFD;
    Field true IFD_IMAGEWIDTH IFD_LONG (Some 1) OffsetInit (mem_long (ImageWidth (basic primary))) ShortIFD;
    Field true IFD_IMAGELENGTH IFD_LONG (Some 1) OffsetInit (mem_long (ImageLength (basic primary))) ShortIFD;
    when (data_char_ptr primary) (λ p, Field (valid_ReferenceBlackWhite (data_char_valid p))
        IFD_REFERENCEBLACKWHITE IFD_RATIONAL (Some 6)
        OffsetInit (mem_rationals (ReferenceBlackWhite p)) RationalIFD);
    when (img_desc_ptr primary) (λ p, Field (valid_Copyright (desc_valid p))
        IFD_COPYRIGHT IFD_ASCII (ascii_count (Copyright p)) OffsetInit (Copyright p) ByteIFD) ].

Definition primary_fields_after (primary : EXIF_PRIMARY_INFO_T) : list field :=
  primary_fields_after_1 primary.

(** ** IFDs *)

(** [JPEG_RET_E], with [*end_offset_ptr] when it is [JPEG_SUCCESS]. *)
Inductive outcome := Success (end_offset : Z) | Error (ret : Z).

(** The head of an IFD: the largest number of its entries for now, then [k] with the first positions. *)
Definition begin_ifd (max_entries begin_offset : Z) (k : ifd_state → W outcome) : W outcome :=
  Jpeg_SetWritePos begin_offset;;
  JPEG_WRITE_DATA (Jpeg_WriteW max_entries) (Error JPEG_FAILED) (
  pos ← Jpeg_GetWritePos;
  k (Ifd_state pos (JPEG_ALIGN_4 (u32 (pos + max_entries * IFD_HEAD_LENGTH + 4))) 0)).

(** The end of an IFD: the offset of the next one and the number of entries written. *)
Definition end_ifd (begin_offset next_ifd : Z) (s : ifd_state) : W outcome :=
  Jpeg_SetWritePos (ifd_offset s);;
  JPEG_WRITE_DATA (Jpeg_WriteL next_ifd) (Error JPEG_FAILED) (
  Jpeg_SetWritePos begin_offset;;
  JPEG_WRITE_DATA (Jpeg_WriteW (entries s)) (Error JPEG_FAILED) (
  mret (Success (ifd_value_offset s)))).

Definition and_fields (ifh_offset : Z) (fs : list field) (s : ifd_state) (k : ifd_state → W outcome)
    : W outcome :=
  r ← write_fields ifh_offset fs s;
  match r with Some s => k s | None => mret (Error JPEG_FAILED) end.

(** The block of a pointer to an IFD that starts at [ifd_value_offset]. *)
Definition pointer_field (t offset : Z) : field :=
  Field true t IFD_LONG (Some 1) OffsetInit (mem_long offset) LongIFD.

Definition align_value_offset (s : ifd_state) : ifd_state :=
  Ifd_state (ifd_offset s) (JPEG_ALIGN_4 (ifd_value_offset s)) (entries s).

(** A sub-IFD, if [p] is not null: its pointer and [write] at [ifd_value_offset], then [k]. *)
Definition and_sub_ifd {A} (p : option A) (t ifh_offset : Z) (write : A → Z → W outcome) (s : ifd_state)
    (k : ifd_state → W outcome) : W outcome :=
  match p with
  | None => k s
  | Some a =>
      let s := align_value_offset s in
      let f := pointer_field t (u32 (ifd_value_offset s - ifh_offset)) in
      '(r, io, vo) ← Jpeg_WriteLongIFD (block_info ifh_offset f 1 s) (ifd_offset s) (ifd_value_offset s);
      if r =? FALSE then mret (Error JPEG_FAILED) else
      r ← write a vo;
      match r with
      | Error e => mret (Error e)
      | Success end_offset => k (Ifd_state io end_offset (u16 (entries s + 1)))
      end
  end.

Definition interoperability_fields (inter : EXIF_INTEROPERABILITY_INFO_T) : list field :=
  [ Field (valid_InteroperabilityIndex (inter_valid inter)
           && (0 <? custom_count (InteroperabilityIndex inter))) IFD_INTEROPERABILITYINDEX IFD_ASCII
      (Some (custom_count (InteroperabilityIndex inter))) OffsetInit
      (custom_ptr (InteroperabilityIndex inter)) ByteIFD ].

Definition Jpeg_WriteExifInteroperabilityInfo (inter : EXIF_INTEROPERABILITY_INFO_T)
    (ifh_offset begin_offset : Z) : W outcome :=
  begin_ifd 1 begin_offset (λ s,
  and_fields ifh_offset (interoperability_fields inter) s (λ s,
  end_ifd begin_offset 0 s)).

Definition Jpeg_WriteExifSpecInfo (spec : EXIF_SPECIFIC_INFO_T) (inter : option EXIF_INTEROPERABILITY_INFO_T)
    (ifh_offset begin_offset : Z) : W outcome :=
  begin_ifd 57 begin_offset (λ s,
  and_fields ifh_offset (spec_fields_before spec) s (λ s,
  and_sub_ifd inter IFD_INTEROPERABILITYIFDPOINTER ifh_offset
    (λ inter, Jpeg_WriteExifInteroperabilityInfo inter ifh_offset) s (λ s,
  and_fields ifh_offset (spec_fields_after spec) s (λ s,
  end_ifd begin_offset 0 s)))).

Definition Jpeg_WriteExifGPSInfo (gps : EXIF_GPS_INFO_T) (ifh_offset begin_offset : Z) : W outcome :=
  begin_ifd 31 begin_offset (λ s,
  and_fields ifh_offset (gps_fields gps) s (λ s,
  end_ifd begin_offset 0 s)).

(** The members of [EXIF_THUMBNAIL_INFO_T] that are used. *)
Record EXIF_THUMBNAIL_INFO_T := Thumbnail { stream_buf_ptr : option bytes; stream_buf_size : Z }.

(** [PNULL != thumbnail_ptr && PNULL != thumbnail_ptr->stream_buf_ptr && ... > 0]. *)
Definition has_thumbnail (thumbnail : option EXIF_THUMBNAIL_INFO_T) : bool :=
  match thumbnail with
  | Some (Thumbnail (Some _) n) => 0 <? n
  | _ => false
  end.

Definition thumbnail_size (thumbnail : option EXIF_THUMBNAIL_INFO_T) : Z :=
  match thumbnail with Some t => stream_buf_size t | None => 0 end.

(** The two entries of a thumbnail, its offset not yet known. *)
Definition thumbnail_fields (thumbnail : option EXIF_THUMBNAIL_INFO_T) : list field :=
  [ Field (has_thumbnail thumbnail) IFD_JPEGINTERCHANGEFORMAT IFD_LONG (Some 1) OffsetInit (mem_long 0) LongIFD;
    Field (has_thumbnail thumbnail) IFD_JPEGINTERCHANGEFORMATLENGTH IFD_LONG (Some 1) OffsetInit
      (mem_long (thumbnail_size thumbnail)) LongIFD ].

(** The thumbnail itself, and its entry at [thumbnail_ifd_offset] again, now with its offset. *)
Definition and_thumbnail (thumbnail : option EXIF_THUMBNAIL_INFO_T) (thumbnail_ifd_offset ifh_offset : Z)
    (s : ifd_state) (k : ifd_state → W outcome) : W outcome :=
  match thumbnail with
  | Some (Thumbnail (Some buf) n) =>
      if 0 <? n then
        let thumbnail_offset := u32 (ifd_value_offset s - ifh_offset) in
        Jpeg_SetWritePos (ifd_value_offset s);;
        JPEG_WRITE_DATA (Jpeg_WriteBlock (Some buf) n) (Error JPEG_FAILED) (
        pos ← Jpeg_GetWritePos;
        Jpeg_SetWritePos thumbnail_ifd_offset;;
        '(r, _, vo) ← Jpeg_WriteLongIFD
          (Ifd_info IFD_JPEGINTERCHANGEFORMAT IFD_LONG 1 (le32 thumbnail_offset)
            (Some (mem_long thumbnail_offset)))
          thumbnail_ifd_offset pos;
        if r =? FALSE then mret (Error JPEG_FAILED) else k (Ifd_state (ifd_offset s) vo (entries s)))
      else k s
  | _ => k s
  end.

Definition Jpeg_WriteExifIFD (primary : EXIF_PRIMARY_INFO_T) (spec : option EXIF_SPECIFIC_INFO_T)
    (gps : option EXIF_GPS_INFO_T) (inter : option EXIF_INTEROPERABILITY_INFO_T)
    (thumbnail : option EXIF_THUMBNAIL_INFO_T) (is_next_ifd_exist : bool) (ifh_offset begin_offset : Z)
    : W outcome :=
  begin_ifd 24 begin_offset (λ s,
  and_fields ifh_offset (primary_fields_before primary) s (λ s,
  let thumbnail_ifd_offset := ifd_offset s in
  and_fields ifh_offset (thumbnail_fields thumbnail) s (λ s,
  and_fields ifh_offset (primary_fields_after primary) s (λ s,
  and_sub_ifd spec IFD_EXIFIFDPOINTER ifh_offset
    (λ spec, Jpeg_WriteExifSpecInfo spec inter ifh_offset) s (λ s,
  and_sub_ifd gps IFD_GPSIFDPOINTER ifh_offset (λ gps, Jpeg_WriteExifGPSInfo gps ifh_offset) s (λ s,
  and_thumbnail thumbnail thumbnail_ifd_offset ifh_offset s (λ s,
  end_ifd begin_offset (if is_next_ifd_exist then u32 (ifd_value_offset s - ifh_offset) else 0) s))))))).

(** ** APP1 *)

Definition M_MARKER : Z := 0xff.
Definition M_SOI : Z := 0xd8.
Definition M_APP1 : Z := 0xe1.

Definition Jpeg_WriteIFH (begin_offset : Z) : W outcome :=
  Jpeg_SetWritePos begin_offset;;
  JPEG_WRITE_DATA (Jpeg_WriteW EXIF_BIG_ENDIAN) (Error JPEG_FAILED) (
  JPEG_WRITE_DATA (Jpeg_WriteW EXIF_IFH_FIX_VALUE) (Error JPEG_FAILED) (
  JPEG_WRITE_DATA (Jpeg_WriteL 8) (Error JPEG_FAILED) (
  pos ← Jpeg_GetWritePos;
  mret (Success pos)))).

Definition Jpeg_WriteSOIMarker (begin_offset : Z) : W outcome :=
  Jpeg_SetWritePos begin_offset;;
  JPEG_WRITE_DATA (Jpeg_WriteC M_MARKER) (Error JPEG_FAILED) (
  JPEG_WRITE_DATA (Jpeg_WriteC M_SOI) (Error JPEG_FAILED) (
  pos ← Jpeg_GetWritePos;
  mret (Success pos))).

Definition exif_id : bytes := [0x45; 0x78; 0x69; 0x66; 0; 0].

Definition Jpeg_WriteAPP1Header (begin_offset app1_length : Z) : W outcome :=
  Jpeg_SetWritePos begin_offset;;
  JPEG_WRITE_DATA (Jpeg_WriteC M_MARKER) (Error JPEG_FAILED) (
  JPEG_WRITE_DATA (Jpeg_WriteC M_APP1) (Error JPEG_FAILED) (
  JPEG_WRITE_DATA (Jpeg_WriteW app1_length) (Error JPEG_FAILED) (
  JPEG_WRITE_DATA (write_values read_byte Jpeg_WriteC 6 exif_id) (Error JPEG_FAILED) (
  pos ← Jpeg_GetWritePos;
  mret (Success pos))))).

(** The description of the thumbnail, as [Jpeg_WriteAPP1] fills it in. *)
Definition ifd1_primary : EXIF_PRIMARY_INFO_T :=
  Primary_info (Pri_basic 1 (Rational 72 1) (Rational 72 1) 2 0 0)
    (Some (Pri_data_struct (Pri_data_struct_valid true true) 1 6)) None None 0.

(** The body of [Jpeg_WriteAPP1]; its result is the end of the segment before [app1_length] is cut to 16
    bits. *)
Definition write_ifds (exif_info : JINF_EXIF_INFO_T) (thumbnail_buf : option bytes) (thumbnail_size : Z)
    : W outcome :=
  r ← Jpeg_WriteIFH 10;
  match r with
  | Error e => mret (Error e)
  | Success begin_offset =>
      let is_ifd1_exist := match thumbnail_buf with Some _ => 0 <? thumbnail_size | None => false end in
      r ← Jpeg_WriteExifIFD (primary exif_info) (spec_ptr exif_info) (gps_ptr exif_info) (inter_ptr exif_info)
            None is_ifd1_exist 10 begin_offset;
      match r with
      | Error e => mret (Error e)
      | Success begin_offset =>
          if is_ifd1_exist
          then Jpeg_WriteExifIFD ifd1_primary None None None (Some (Thumbnail thumbnail_buf thumbnail_size)) false 10
                 begin_offset
          else mret (Success begin_offset)
      end
  end.

(** The answer is [JPEG_SUCCESS] with [*app1_size_ptr], or an error. *)
Definition app1_body (exif_info : JINF_EXIF_INFO_T) (thumbnail_buf : option bytes) (thumbnail_size : Z)
    : W outcome :=
  r ← write_ifds exif_info thumbnail_buf thumbnail_size;
  match r with
  | Error e => mret (Error e)
  | Success end_offset =>
      let app1_length := u16 (u16 end_offset - 2) in
      r ← Jpeg_WriteAPP1Header 0 app1_length;
      match r with
      | Error e => mret (Error e)
      | Success _ => mret (Success (app1_length + 2))
      end
  end.

(** From the target buffer, [target_buf_size] bytes of memory, to the answer and the buffer. *)
Definition Jpeg_WriteAPP1 (target_buf : bytes) (exif_info : option JINF_EXIF_INFO_T)
    (thumbnail_buf : option bytes) (thumbnail_size : Z) : option (outcome * bytes) :=
  match exif_info with
  | None => Some (Error JPEGE_INVALID_ARGUMENT, target_buf)
  | Some exif_info =>
      if Z.of_nat (length target_buf) <? 10 then Some (Error JPEG_MEMORY_NOT_ENOUGH, target_buf) else
      '(r, c) ← app1_body exif_info thumbnail_buf thumbnail_size (Wctx target_buf (Some 0) None 0 []);
      Some (r, write_buf c)
  end.

(** ** Adding APP1 to a picture *)

Definition JINF_SUCCESS : Z := 0.
Definition JINF_MEMORY_NOT_ENOUGH : Z := 3.
Definition JINF_FAILED : Z := 0xff.

(** [JINF_WEXIF_IN_PARAM_T].  The addresses [src_jpeg_buf_ptr] and [target_buf_ptr] point into the memory
    given apart; 0 is null.  The [temp_buf_size] bytes of [temp_buf_ptr] and the thumbnail lie elsewhere. *)
Record JINF_WEXIF_IN_PARAM_T := Wexif_in {
  exif_info_ptr : option JINF_EXIF_INFO_T; src_jpeg_buf_ptr : Z; src_jpeg_size : Z;
  thumbnail_buf_ptr : option bytes; thumbnail_buf_size : Z; temp_buf_ptr : option bytes;
  wrtie_file_func : option file_fn; target_buf_ptr : Z }.

Record JINF_WEXIF_OUT_PARAM_T := Wexif_out { output_buf_ptr : Z; output_size : Z }.

(** [Jpeg_WriteAPP1] when the temporary buffer may be null. *)
Definition write_temp_app1 (p : JINF_WEXIF_IN_PARAM_T) : option (outcome * bytes) :=
  match exif_info_ptr p, temp_buf_ptr p with
  | None, _ => Some (Error JPEGE_INVALID_ARGUMENT, [])
  | Some _, None => Some (Error JPEG_MEMORY_NOT_ENOUGH, [])
  | Some _, Some buf => Jpeg_WriteAPP1 buf (exif_info_ptr p) (thumbnail_buf_ptr p) (thumbnail_buf_size p)
  end.

(** [mem] is the memory from [target_buf_ptr] on, up to the end of the source picture. *)
Definition JPEG_AddExifToMemory (p : JINF_WEXIF_IN_PARAM_T) (mem : bytes)
    : option (Z * option JINF_WEXIF_OUT_PARAM_T * bytes) :=
  '(r, temp) ← write_temp_app1 p;
  match r with
  | Error e => Some (e, None, mem)
  | Success app1_size =>
      let free_buf_size := u32 (src_jpeg_buf_ptr p - target_buf_ptr p) in
      if free_buf_size <? app1_size then Some (JPEG_MEMORY_NOT_ENOUGH, None, mem) else
      let target := src_jpeg_buf_ptr p - app1_size in
      let off := Z.to_nat (target - target_buf_ptr p) in
      mem ← splice off [M_MARKER; M_SOI] mem;
      app1 ← slice 0 (Z.to_nat app1_size) temp;
      mem ← splice (off + 2) app1 mem;
      Some (0, Some (Wexif_out target (u32 (app1_size + src_jpeg_size p))), mem)
  end.

(** A call of the callback: what it has been given so far, and whether it wrote all of it. *)
Definition write_all (f : file_fn) (log : list (Z * bytes)) (data : bytes) (offset : Z)
    : bool * Z * list (Z * bytes) :=
  let '(ok, actual) := f log data offset in
  ((ok && (Z.of_nat (length data) =? actual))%bool, actual, log ++ [(offset, data)]).

(** [mem] is the source picture; the answer comes with the calls of the callback. *)
Definition JPEG_AddExifToFile (p : JINF_WEXIF_IN_PARAM_T) (f : file_fn) (mem : bytes)
    : option (Z * list (Z * bytes)) :=
  '(r, temp) ← write_temp_app1 p;
  match r with
  | Error e => Some (e, [])
  | Success app1_size =>
      let '(ok, actual, log) := write_all f [] [M_MARKER; M_SOI] 0 in
      if negb ok then Some (JPEG_FAILED, log) else
      let write_offset := actual in
      app1 ← slice 0 (Z.to_nat app1_size) temp;
      let '(ok, actual, log) := write_all f log app1 write_offset in
      if negb ok then Some (JPEG_FAILED, log) else
      let write_offset := u32 (write_offset + actual) in
      picture ← slice 2 (Z.to_nat (u32 (src_jpeg_size p - 2))) mem;
      let '(ok, actual, log) := write_all f log picture write_offset in
      if negb ok then Some (JPEG_FAILED, log) else Some (0, log)
  end.

(** What a call leaves behind: its answer, the output parameters if it set them, the memory and the calls
    of the callback. *)
Record wexif_result := Wexif_result {
  wexif_ret : Z; wexif_out : option JINF_WEXIF_OUT_PARAM_T; wexif_mem : bytes; wexif_log : list (Z * bytes) }.

(** [mem] is the memory from [target_buf_ptr] on with the source picture in it. *)
Definition IMGJPEG_WriteExif (p : JINF_WEXIF_IN_PARAM_T) (mem : bytes) : option wexif_result :=
  if (match exif_info_ptr p with None => true | Some _ => false end && (src_jpeg_buf_ptr p =? 0)
      && match temp_buf_ptr p with None => true | Some _ => false end)%bool
  then Some (Wexif_result JPEGE_INVALID_ARGUMENT None mem [])
  else match wrtie_file_func p with
  | Some f =>
      '(ret, log) ← JPEG_AddExifToFile p f (drop (Z.to_nat (src_jpeg_buf_ptr p - target_buf_ptr p)) mem);
      Some (Wexif_result (if ret =? 0 then JINF_SUCCESS else JINF_FAILED) None mem log)
  | None =>
      if target_buf_ptr p =? 0 then Some (Wexif_result JPEGE_INVALID_ARGUMENT None mem [])
      else if src_jpeg_buf_ptr p <=? target_buf_ptr p
      then Some (Wexif_result JINF_MEMORY_NOT_ENOUGH None mem [])
      else
        '(ret, out, mem) ← JPEG_AddExifToMemory p mem;
        Some (Wexif_result (if ret =? 0 then JINF_SUCCESS else JINF_FAILED) out mem [])
  end.

(** [_jpeg_enc_wexif] of jpeg_codec.c: a temporary buffer of 21 KB and the thumbnail's size for the whole.
    [malloc] is the allocator's answer to a size. *)
Definition JPEG_CODEC_NO_MEM : Z := 3.
Record jpeg_enc_exif_param := Enc_exif_param {
  exif_ptr : option JINF_EXIF_INFO_T; src_jpeg_addr_virt : Z; param_src_jpeg_size : Z;
  thumbnail_addr_virt : option bytes; param_thumbnail_size : Z; target_addr_virt : Z }.

Definition _jpeg_enc_wexif (malloc : Z → option bytes) (p : jpeg_enc_exif_param) (mem : bytes)
    : option wexif_result :=
  match malloc (u32 (param_thumbnail_size p + 21 * 1024)) with
  | None => Some (Wexif_result JPEG_CODEC_NO_MEM None mem [])
  | Some temp =>
      IMGJPEG_WriteExif (Wexif_in (exif_ptr p) (src_jpeg_addr_virt p) (param_src_jpeg_size p)
        (thumbnail_addr_virt p) (param_thumbnail_size p) (Some temp) None (target_addr_virt p)) mem
  end.

(** ** Dates *)

Record JINF_DATE_T := Date { year : Z; month : Z; day : Z }.
Record JINF_TIME_T := Time { hour : Z; minute : Z; second : Z }.

(** [%d] of a value below 10 ^ [fuel]. *)
Fixpoint digits (fuel : nat) (n : Z) : bytes :=
  match fuel with
  | O => []
  | S fuel' => (if n <? 10 then [] else digits fuel' (n / 10)) ++ [0x30 + n mod 10]
  end.

(** [%0<width>d] of a 16-bit value, which has 5 digits at most. *)
Definition zero_padded (width : nat) (n : Z) : bytes :=
  replicate (width - length (digits 5 n)) 0x30 ++ digits 5 n.

(** ["%04d:%02d:%02d %02d:%02d:%02d"]. *)
Definition date_time_string (d : JINF_DATE_T) (t : JINF_TIME_T) : bytes :=
  zero_padded 4 (year d) ++ [0x3a] ++ zero_padded 2 (month d) ++ [0x3a] ++ zero_padded 2 (day d) ++ [0x20] ++
  zero_padded 2 (hour t) ++ [0x3a] ++ zero_padded 2 (minute t) ++ [0x3a] ++ zero_padded 2 (second t).

Definition IMGJPEG_FormatDateTime (d : JINF_DATE_T) (t : JINF_TIME_T) (date_time : bytes) (date_time_size : Z)
    : option (Z * bytes) :=
  if date_time_size <? 20 then Some (JINF_MEMORY_NOT_ENOUGH, date_time) else
  date_time ← splice 0 (date_time_string d t ++ [0]) date_time;
  Some (JINF_SUCCESS, date_time).
