(* ===== verification/ExifRead.v ===== *)
(** * What an image file directory means

    A reader of the TIFF structure that an EXIF segment has, and the proof that
    an entry written by the four writers of ExifWriter is read back: [kind_ok]. *)
From S2P Require Import Prelude ExifStream ExifTypes ExifWriter.

(** ** A reader *)

Fixpoint get_bytes (m : bytes) (p : Z) (n : nat) : option bytes :=
  match n with
  | O => Some []
  | S n' => b ← byte_at m p; bs ← get_bytes m (p + 1) n'; Some (b :: bs)
  end.

(** The big-endian number a byte string is. *)
Definition be_value (bs : bytes) : Z := foldl (λ a b, 2 ^ 8 * a + b) 0 bs.
Definition get_be (m : bytes) (p : Z) (n : nat) : option Z := bs ← get_bytes m p n; Some (be_value bs).

Record entry := Entry { e_tag : Z; e_type : Z; e_count : Z; e_data : bytes }.

Definition type_size (t : Z) : option Z :=
  if (t =? IFD_BYTE) || (t =? IFD_ASCII) || (t =? IFD_UNDEFINED) then Some 1
  else if t =? IFD_SHORT then Some 2
  else if (t =? IFD_LONG) || (t =? IFD_SLONG) then Some 4
  else if (t =? IFD_RATIONAL) || (t =? IFD_SRATIONAL) then Some 8 else None.

(** The entry at [p]: its value is in it when it has at most four bytes, else at an offset from [ifh]. *)
Definition read_entry (ifh p : Z) (m : bytes) : option entry :=
  t ← get_be m p 2; ty ← get_be m (p + 2) 2; n ← get_be m (p + 4) 4;
  sz ← type_size ty;
  data ← (if n * sz <=? 4 then get_bytes m (p + 8) (Z.to_nat (n * sz))
          else off ← get_be m (p + 8) 4; get_bytes m (ifh + off) (Z.to_nat (n * sz)));
  Some (Entry t ty n data).

Fixpoint read_entries (ifh p : Z) (n : nat) (m : bytes) : option (list entry) :=
  match n with
  | O => Some []
  | S n' => e ← read_entry ifh p m; es ← read_entries ifh (p + 12) n' m; Some (e :: es)
  end.

(** The entries of the directory at [p], and the offset of the next one. *)
Definition read_ifd (ifh p : Z) (m : bytes) : option (list entry * Z) :=
  n ← get_be m p 2;
  es ← read_entries ifh (p + 2) (Z.to_nat n) m;
  next ← get_be m (p + 2 + 12 * n) 4;
  Some (es, next).

(** ** Numbers *)

Lemma has_get m p bs : has m p bs → get_bytes m p (length bs) = Some bs.
Proof.
  revert p. induction bs as [|b bs IH]; intros p H; [done|]. apply has_cons in H as [Hb H]. simpl.
  by rewrite Hb, (IH _ H).
Qed.

Lemma has_get_n m p bs n : has m p bs → length bs = n → get_bytes m p n = Some bs.
Proof. intros H <-. by apply has_get. Qed.

Lemma be_value_be16 z : be_value (be16 z) = u16 z.
Proof.
  unfold be_value, be16, u8, u16. cbn [foldl]. rewrite !Z.shiftr_div_pow2 by lia.
  Z.to_euclidean_division_equations. lia.
Qed.

Lemma be_value_be32 z : be_value (be32 z) = u32 z.
Proof.
  rewrite <- le32_value. unfold be_value, be32. cbn [foldl]. lia.
Qed.

Lemma get_be16 m p z : has m p (be16 z) → get_be m p 2 = Some (u16 z).
Proof. intros H. unfold get_be. by rewrite (has_get_n _ _ _ _ H), <- be_value_be16. Qed.

Lemma get_be32 m p z : has m p (be32 z) → get_be m p 4 = Some (u32 z).
Proof. intros H. unfold get_be. by rewrite (has_get_n _ _ _ _ H), <- be_value_be32. Qed.

Lemma long_value_le32 z rest : long_value (le32 z ++ rest) = u32 z.
Proof. apply le32_value. Qed.

Lemma read_long_le32 z rest : read_long (le32 z ++ rest) = Some (u32 z, rest).
Proof. cbn [app le32 read_long]. by rewrite <- le32_value. Qed.

Lemma le16_number z : u8 z + 2 ^ 8 * u8 (Z.shiftr z 8) = u16 z.
Proof. unfold u8, u16. rewrite Z.shiftr_div_pow2 by lia. Z.to_euclidean_division_equations. lia. Qed.

Lemma read_short_le16 z rest : read_short (le16 z ++ rest) = Some (u16 z, rest).
Proof. cbn [app le16 read_short]. by rewrite <- le16_number. Qed.

(** Four bytes packed by shifts, written big-endian. *)
Lemma pack_bytes b0 b1 b2 b3 : is_u8 b0 → is_u8 b1 → is_u8 b2 → is_u8 b3 →
  Z.lor (Z.lor (Z.lor (Z.shiftl b0 24) (Z.shiftl b1 16)) (Z.shiftl b2 8)) b3
  = 2 ^ 24 * b0 + 2 ^ 16 * b1 + 2 ^ 8 * b2 + b3.
Proof.
  unfold is_u8. intros.
  assert (E1 : Z.lor (Z.shiftl b0 24) (Z.shiftl b1 16) = Z.shiftl (2 ^ 8 * b0 + b1) 16).
  { replace (Z.shiftl b0 24) with (Z.shiftl (Z.shiftl b0 8) 16) by (by rewrite Z.shiftl_shiftl by lia).
    rewrite <- Z.shiftl_lor. by rewrite lor_shiftl_low by lia. }
  rewrite E1. replace (Z.shiftl (2 ^ 8 * b0 + b1) 16) with (Z.shiftl (Z.shiftl (2 ^ 8 * b0 + b1) 8) 8)
    by (by rewrite Z.shiftl_shiftl by lia).
  rewrite <- Z.shiftl_lor, (lor_shiftl_low b2) by lia. rewrite lor_shiftl_low by lia. lia.
Qed.

Lemma be32_bytes b0 b1 b2 b3 : is_u8 b0 → is_u8 b1 → is_u8 b2 → is_u8 b3 →
  be32 (2 ^ 24 * b0 + 2 ^ 16 * b1 + 2 ^ 8 * b2 + b3) = [b0; b1; b2; b3].
Proof.
  unfold is_u8, be32, u8. intros. rewrite !Z.shiftr_div_pow2 by lia.
  repeat f_equal; Z.to_euclidean_division_equations; lia.
Qed.

Lemma be16_bytes b0 b1 : is_u8 b0 → is_u8 b1 → be16 (2 ^ 8 * b0 + b1) = [b0; b1].
Proof.
  unfold is_u8, be16, u8. intros. rewrite !Z.shiftr_div_pow2 by lia.
  repeat f_equal; Z.to_euclidean_division_equations; lia.
Qed.

Lemma u16_split z : is_u16 z → ∃ b0 b1, z = 2 ^ 8 * b0 + b1 ∧ is_u8 b0 ∧ is_u8 b1.
Proof.
  unfold is_u16, is_u8. intros. exists (z / 2 ^ 8), (z mod 2 ^ 8).
  Z.to_euclidean_division_equations. lia.
Qed.

Lemma be32_shorts a b : is_u16 a → is_u16 b → be32 (u32 (Z.lor (Z.shiftl a 16) b)) = be16 a ++ be16 b.
Proof.
  intros Ha Hb. pose proof Ha as Ra. pose proof Hb as Rb. unfold is_u16 in Ra, Rb.
  rewrite lor_shiftl_low by lia. rewrite u32_id by (unfold is_u32; lia).
  destruct (u16_split a Ha) as (a0 & a1 & -> & ? & ?), (u16_split b Hb) as (b0 & b1 & -> & ? & ?).
  rewrite !be16_bytes by done. cbn [app]. rewrite <- (be32_bytes a0 a1 b0 b1) by done. f_equal. lia.
Qed.

Lemma u8_shiftr_u32 z k : 0 <= k <= 24 → u8 (Z.shiftr (u32 z) k) = u8 (Z.shiftr z k).
Proof.
  intros. unfold u8, u32. apply Z.bits_inj'. intros i Hi.
  destruct (Z.lt_ge_cases i 8); [|by rewrite !Z.mod_pow2_bits_high by lia].
  rewrite !Z.mod_pow2_bits_low, !Z.shiftr_spec by lia. by rewrite Z.mod_pow2_bits_low by lia.
Qed.

Lemma be32_u32 z : be32 (u32 z) = be32 z.
Proof.
  pose proof (u8_shiftr_u32 z 0) as E. rewrite !Z.shiftr_0_r in E.
  unfold be32. by rewrite !u8_shiftr_u32, E by lia.
Qed.

(** ** What a field stands for *)

(** The [n] values [read] finds through [ptr], each encoded. *)
Fixpoint converted (read : bytes → option (Z * bytes)) (enc : Z → bytes) (n : nat) (ptr : bytes) : option bytes :=
  match n with
  | O => Some []
  | S n' => '(v, ptr) ← read ptr; bs ← converted read enc n' ptr; Some (enc v ++ bs)
  end.

(** The value of a field with [c] components, big-endian.  A long written as a short is its low half. *)
Definition field_bytes (f : field) (c : Z) : option bytes :=
  match f_kind f with
  | RationalIFD => converted read_long be32 (2 * Z.to_nat c) (f_value f)
  | LongIFD => converted read_long be32 (Z.to_nat c) (f_value f)
  | ShortIFD =>
      bs ← converted read_short be16 (Z.to_nat c) (f_value f);
      Some (if f_type f =? IFD_LONG then [0; 0] ++ bs else bs)
  | ByteIFD => converted read_byte (λ b, [u8 b]) (Z.to_nat c) (f_value f)
  end.

Definition field_entry (f : field) : option entry :=
  c ← f_count f; data ← field_bytes f c; Some (Entry (f_tag f) (f_type f) c data).

(** The writer suits the type. *)
Definition kind_fits (k : ifd_kind) (ty c : Z) : bool :=
  match k with
  | RationalIFD => (ty =? IFD_RATIONAL) || (ty =? IFD_SRATIONAL)
  | LongIFD => (ty =? IFD_LONG) || (ty =? IFD_SLONG)
  | ShortIFD => (ty =? IFD_SHORT) || ((ty =? IFD_LONG) && (c =? 1))
  | ByteIFD => (ty =? IFD_BYTE) || (ty =? IFD_ASCII) || (ty =? IFD_UNDEFINED)
  end.

(** A field that gives the entry [e]: its value is there, and its writer suits its type. *)
Record gives (f : field) (e : entry) : Prop := {
  gives_count : f_count f = Some (e_count e);
  gives_tag : f_tag f = e_tag e;
  gives_type : f_type f = e_type e;
  gives_bytes : field_bytes f (e_count e) = Some (e_data e);
  gives_fits : kind_fits (f_kind f) (f_type f) (e_count e) = true;
  gives_tag_range : is_u16 (e_tag e);
  gives_count_range : 0 < e_count e < 2 ^ 32;
  gives_wf : wf_bytes (f_value f);
  gives_init : match f_init f with OffsetInit => True | ShortInit _ => f_kind f = ShortIFD ∧ e_count e <= 2 end }.

Definition data_size (e : entry) : Z := Z.of_nat (length (e_data e)).
Definition inline (e : entry) : bool := data_size e <=? 4.

Definition align4 (x : Z) : Z := 4 * ((x + 3) / 4).

(** Where the value of [e] ends when values are placed from [vo] on, and where the next one is placed. *)
Definition value_end (e : entry) (vo : Z) : Z := if inline e then vo else vo + data_size e.
Definition next_value (e : entry) (vo : Z) : Z := if inline e then vo else align4 (vo + data_size e).

Lemma align4_bounds x : x <= align4 x < x + 4.
Proof. unfold align4. Z.to_euclidean_division_equations. lia. Qed.

Lemma JPEG_ALIGN_4_eq x : 0 <= x → x + 3 < 2 ^ 32 → JPEG_ALIGN_4 x = align4 x.
Proof.
  intros. unfold JPEG_ALIGN_4. rewrite (u32_id (x + 3)) by (split; lia).
  rewrite Z.shiftl_mul_pow2, Z.shiftr_div_pow2 by lia. change (2 ^ 2) with 4. rewrite Z.mul_comm.
  pose proof (align4_bounds x). unfold align4 in *. apply u32_id. split; [|lia].
  apply Z.mul_nonneg_nonneg; [lia|]. apply Z.div_pos; lia.
Qed.

Lemma align4_idemp x : align4 (align4 x) = align4 x.
Proof. unfold align4. Z.to_euclidean_division_equations. lia. Qed.

Lemma converted_length read enc k n ptr bs :
  (∀ v, length (enc v) = k) → converted read enc n ptr = Some bs → length bs = (n * k)%nat.
Proof.
  intros He. revert ptr bs. induction n as [|n IH]; intros ptr bs E; simpl in E; [by simplify_eq|].
  apply bind_Some in E as ([v p] & _ & E). apply bind_Some in E as (r & E & R). simplify_eq.
  rewrite length_app, He, (IH _ _ E). done.
Qed.

Lemma gives_size f e : gives f e → ∃ sz, type_size (e_type e) = Some sz ∧ data_size e = e_count e * sz.
Proof.
  intros []. unfold field_bytes, kind_fits, data_size in *. rewrite gives_type0 in *.
  assert (N : Z.of_nat (Z.to_nat (e_count e)) = e_count e) by lia.
  destruct (f_kind f).
  - exists 8. split; [apply orb_prop in gives_fits0 as [->%Z.eqb_eq| ->%Z.eqb_eq]; done|].
    apply (converted_length _ _ 4) in gives_bytes0 as ->; [|done]. lia.
  - exists 4. split; [apply orb_prop in gives_fits0 as [->%Z.eqb_eq| ->%Z.eqb_eq]; done|].
    apply (converted_length _ _ 4) in gives_bytes0 as ->; [|done]. lia.
  - apply bind_Some in gives_bytes0 as (bs & E & R). apply (converted_length _ _ 2) in E; [|done].
    apply orb_prop in gives_fits0 as [H|H]; bsplit; rewrite H in R |- *.
    + change (IFD_SHORT =? IFD_LONG) with false in R. injection R as <-. exists 2. split; [done|]. lia.
    + change (IFD_LONG =? IFD_LONG) with true in R. injection R as <-. exists 4. split; [done|].
      cbn [length app]. lia.
  - exists 1. split; [unfold type_size; by rewrite gives_fits0|]. apply (converted_length _ _ 1) in gives_bytes0 as ->; [|done]. lia.
Qed.

(** ** The writers of an entry *)

Definition entry_bytes (i : IFD_INFO_T) : bytes :=
  be16 (tag i) ++ be16 (type i) ++ be32 (count i) ++ be32 (entry_value i).

Lemma SetWritePos_at m p off :
  off <= Z.of_nat (length m) → Jpeg_SetWritePos off (at_pos m p) = Some (true, at_pos m off).
Proof.
  intros H. unfold Jpeg_SetWritePos. cbn [write_file_func at_pos].
  change (write_buf_size _) with (Z.of_nat (length m)). rewrite Z.gtb_ltb. by bdecide.
Qed.

Lemma GetWritePos_at m p :
  0 <= p <= Z.of_nat (length m) → Jpeg_GetWritePos (at_pos m p) = Some (p, at_pos m p).
Proof.
  intros H. unfold Jpeg_GetWritePos. cbn [write_ptr write_file_func at_pos].
  change (write_buf_size _) with (Z.of_nat (length m)). by bdecide.
Qed.

(** A write in a sequence of writes that fail with [error]. *)
Lemma WRITE_DATA_at {A} act bs (error : A) k m p :
  writes act bs → 0 <= p → p + Z.of_nat (length bs) <= Z.of_nat (length m) →
  ∃ m', JPEG_WRITE_DATA act error k (at_pos m p) = k (at_pos m' (p + Z.of_nat (length bs))) ∧ wrote p bs m m'.
Proof.
  intros Wr Hp Hl. destruct (Wr m p Hp Hl) as (m' & E & Wm). exists m'. split; [|done].
  unfold JPEG_WRITE_DATA, mbind, W_bind. by rewrite E.
Qed.

Create HintDb writes.
#[export] Hint Resolve WriteC_writes WriteW_writes WriteL_writes : writes.

Ltac write_step :=
  match goal with
  | |- context [JPEG_WRITE_DATA ?act ?e ?k (at_pos ?m ?p)] =>
      let m' := fresh "m" in let E := fresh "E" in let Wr := fresh "Wr" in
      let bs := lazymatch act with
        | Jpeg_WriteC ?b => constr:([u8 b]) | Jpeg_WriteW ?w => constr:(be16 w) | Jpeg_WriteL ?l => constr:(be32 l)
        end in
      destruct (WRITE_DATA_at act bs e k m p) as (m' & E & Wr);
        [auto with writes|cbn [length be16 be32] in *; lia|
         repeat match goal with H : wrote _ _ _ _ |- _ => apply proj1 in H end; cbn [length be16 be32] in *; lia|];
      rewrite E; clear E; cbn [length be16 be32] in *
  end.

Lemma WriteIFD_at i m p :
  0 <= p → p + 12 <= Z.of_nat (length m) →
  ∃ m', Jpeg_WriteIFD i (at_pos m p) = Some (TRUE, at_pos m' (p + 12)) ∧ wrote p (entry_bytes i) m m'.
Proof.
  intros Hp Hl. unfold Jpeg_WriteIFD. do 4 write_step. eexists.
  split; [unfold mret, W_ret; do 3 f_equal; lia|].
  unfold entry_bytes. eapply wrote_app; [eassumption|]. eapply wrote_app; [eassumption|].
  by eapply wrote_app; [eassumption|].
Qed.

Lemma with_entry_at i io vo k m p :
  0 <= io → io + 12 <= Z.of_nat (length m) →
  ∃ m', with_entry i io vo k (at_pos m p) = k (io + 12) (at_pos m' (io + 12)) ∧ wrote io (entry_bytes i) m m'.
Proof.
  intros Hp Hl. destruct (WriteIFD_at i m io) as (m' & E & Wm); [done..|]. exists m'. split; [|done].
  unfold with_entry. unfold mbind at 1, W_bind at 1. rewrite SetWritePos_at by lia. cbn [mbind option_bind negb].
  unfold mbind at 1, W_bind at 1. rewrite E. cbn [mbind option_bind]. change (TRUE =? FALSE) with false. cbn iota.
  unfold mbind, W_bind. rewrite GetWritePos_at; [done|]. destruct Wm. lia.
Qed.

Lemma with_values_at error act bs io vo io' m p :
  writes act bs → 0 <= vo → vo + Z.of_nat (length bs) <= Z.of_nat (length m) → Z.of_nat (length m) + 3 < 2 ^ 32 →
  ∃ m', with_values error act io vo io' (at_pos m p)
        = Some ((TRUE, io', align4 (vo + Z.of_nat (length bs))), at_pos m' (vo + Z.of_nat (length bs)))
    ∧ wrote vo bs m m'.
Proof.
  intros Wr Hv Hl Hm. edestruct (WRITE_DATA_at act bs (error, io, vo)) as (m' & E & Wm); [done..|].
  exists m'. split; [|done]. unfold with_values. unfold mbind at 1, W_bind at 1.
  rewrite SetWritePos_at by lia. cbn [mbind option_bind negb]. rewrite E.
  unfold mbind, W_bind. rewrite GetWritePos_at by (destruct Wm; lia). cbn [mbind option_bind].
  rewrite JPEG_ALIGN_4_eq by lia. done.
Qed.

Lemma write_values_writes read put enc n ptr bs :
  (∀ v, writes (put v) (enc v)) → converted read enc n ptr = Some bs → writes (write_values read put n ptr) bs.
Proof.
  intros He. revert ptr bs. induction n as [|n IH]; intros ptr bs E; simpl in E.
  - injection E as <-. apply mret_writes.
  - apply bind_Some in E as ([v q] & Er & E). apply bind_Some in E as (r & E & R). injection R as <-.
    intros m p Hp Hl. destruct (writes_seq _ _ _ _ (He v) (IH _ _ E) m p Hp Hl) as (m' & Ew & Wm).
    exists m'. split; [|done]. cbn [write_values]. unfold mbind at 1, W_bind at 1. unfold access.
    rewrite Er. exact Ew.
Qed.

(** ** An entry is read back *)

Lemma type_size_range t sz : type_size t = Some sz → is_u16 t.
Proof.
  unfold type_size, is_u16, IFD_BYTE, IFD_ASCII, IFD_UNDEFINED, IFD_SHORT, IFD_LONG, IFD_SLONG, IFD_RATIONAL,
    IFD_SRATIONAL.
  repeat (bcase; [lia|]). done.
Qed.

(** What is read at [io] once an entry for [e] is there. *)
Lemma read_entry_has f e ifh io v m :
  gives f e → has m io (be16 (e_tag e) ++ be16 (e_type e) ++ be32 (e_count e) ++ be32 v) →
  (if inline e then ∃ rest, be32 v = e_data e ++ rest else has m (ifh + u32 v) (e_data e)) →
  read_entry ifh io m = Some e.
Proof.
  intros G H D. destruct (gives_size _ _ G) as (sz & Es & Sz). unfold inline, data_size in *.
  rewrite !has_app in H. cbn [length be16 be32] in H.
  change (Z.of_nat 2) with 2 in H. change (Z.of_nat 4) with 4 in H. destruct H as (Ht & Hy & Hc & Hv).
  replace (io + 2 + 2) with (io + 4) in * by lia. replace (io + 4 + 4) with (io + 8) in * by lia.
  unfold read_entry. rewrite (get_be16 _ _ _ Ht), (get_be16 _ _ _ Hy), (get_be32 _ _ _ Hc). cbn [mbind option_bind].
  rewrite (u16_id (e_tag e)) by apply G. rewrite (u16_id (e_type e)) by (by eapply type_size_range).
  rewrite (u32_id (e_count e)) by (pose proof (gives_count_range _ _ G); split; lia).
  rewrite Es. cbn [mbind option_bind]. rewrite <- Sz, Nat2Z.id. destruct (_ <=? 4).
  - destruct D as [rest D]. rewrite D in Hv. apply has_app in Hv as [Hv _]. rewrite (has_get _ _ _ Hv).
    by destruct e.
  - rewrite (get_be32 _ _ _ Hv). cbn [mbind option_bind]. rewrite (has_get _ _ _ D). by destruct e.
Qed.

(** [m'] is [m] with the entry [e] at [io], its value at [vo] if it is not in the entry. *)
Definition entry_written (ifh io vo : Z) (e : entry) (m m' : bytes) : Prop :=
  length m' = length m
  ∧ agree (λ i, ¬ within io (io + 12) i ∧ ¬ within vo (value_end e vo) i) m m'
  ∧ holds_on (λ i, within io (io + 12) i ∨ within vo (value_end e vo) i) (λ m, read_entry ifh io m = Some e) m'.

(** The entry as it is when the writer gets to it. *)
Definition entry_info (i : IFD_INFO_T) (e : entry) : Prop :=
  tag i = e_tag e ∧ type i = e_type e ∧ count i = e_count e.

Lemma entry_bytes_info i e : entry_info i e →
  entry_bytes i = be16 (e_tag e) ++ be16 (e_type e) ++ be32 (e_count e) ++ be32 (entry_value i).
Proof. by intros (<- & <- & <-). Qed.

Lemma entry_written_inline f e ifh io vo i m m' rest :
  gives f e → entry_info i e → inline e = true → be32 (entry_value i) = e_data e ++ rest →
  wrote io (entry_bytes i) m m' → entry_written ifh io vo e m m'.
Proof.
  intros G I In V (L & H & A). unfold entry_written, value_end. rewrite In. split; [done|].
  assert (N : length (entry_bytes i) = 12%nat) by done. rewrite N in A. split.
  - eapply agree_sub; [|exact A]. intros j [? _]. done.
  - intros m'' A'. eapply (read_entry_has f e ifh io (entry_value i)); [done| |rewrite In; eauto].
    rewrite <- entry_bytes_info by done. eapply has_agree; [|exact H]. rewrite N.
    eapply agree_sub; [|exact A']. intros j ?. by left.
Qed.

Lemma entry_written_outside f e ifh io vo i m m1 m' :
  gives f e → entry_info i e → inline e = false → 0 <= ifh <= vo → vo < 2 ^ 32 → io + 12 <= vo →
  entry_value i = vo - ifh →
  wrote io (entry_bytes i) m m1 → wrote vo (e_data e) m1 m' → entry_written ifh io vo e m m'.
Proof.
  intros G I In Hi Hv Ho V (L & H & A) (L' & H' & A'). unfold entry_written, value_end. rewrite In.
  assert (N : length (entry_bytes i) = 12%nat) by done. rewrite N in A.
  split; [congruence|]. fold (data_size e) in A'. split.
  - apply agree_trans with m1; (eapply agree_sub; [|done]); intros j [? ?]; done.
  - intros m'' A''. eapply (read_entry_has f e ifh io (entry_value i)); [done| |rewrite In].
    + rewrite <- entry_bytes_info by done. eapply has_agree with m'; [|apply (has_agree m1); [|exact H]].
      * eapply agree_sub; [|exact A'']. intros j ?. left. by rewrite N in *.
      * eapply agree_sub; [|exact A']. intros j. rewrite N. unfold within. lia.
    + rewrite V, u32_id by (split; lia). replace (ifh + (vo - ifh)) with vo by lia.
      eapply has_agree; [|exact H']. eapply agree_sub; [|exact A'']. intros j ?. by right.
Qed.

(** The value field when the writer leaves the offset in it. *)
Lemma entry_value_offset i e v : entry_info i e → inline e = false → is_u32 v → value_offset i = le32 v →
  (∀ sz, type_size (e_type e) = Some sz → data_size e = e_count e * sz) → is_Some (type_size (e_type e)) →
  entry_value i = v.
Proof.
  intros (_ & Ty & C) In R V Sz [sz Es]. unfold entry_value, inline in *. rewrite Ty, C, V. bsplit.
  specialize (Sz sz Es). unfold type_size in Es.
  assert (L : long_value (le32 v) = v) by (rewrite <- (app_nil_r (le32 v)), long_value_le32; by apply u32_id).
  destruct ((e_type e =? IFD_BYTE) || (e_type e =? IFD_ASCII) || (e_type e =? IFD_UNDEFINED)).
  - injection Es as <-. by bdecide.
  - destruct (e_type e =? IFD_SHORT); [|done]. injection Es as <-. by bdecide.
Qed.

Lemma converted_one read enc ptr bs : converted read enc 1 ptr = Some bs →
  ∃ v q, read ptr = Some (v, q) ∧ bs = enc v.
Proof.
  cbn [converted]. intros ([v q] & Er & E)%bind_Some. cbn [mbind option_bind] in E. apply (inj Some) in E.
  rewrite app_nil_r in E. eauto.
Qed.

Lemma converted_two read enc ptr bs : converted read enc 2 ptr = Some bs →
  ∃ v q v' q', read ptr = Some (v, q) ∧ read q = Some (v', q') ∧ bs = enc v ++ enc v'.
Proof.
  intros ([v q] & Er & E)%bind_Some. apply bind_Some in E as (r & (v' & q' & E' & ->)%converted_one & E).
  apply (inj Some) in E. naive_solver.
Qed.

Lemma read_short_range ptr v q : wf_bytes ptr → read_short ptr = Some (v, q) → is_u16 v ∧ wf_bytes q.
Proof.
  intros Wf E. destruct ptr as [|b0 [|b1 ptr]]; try done. injection E as <- <-.
  apply wf_cons in Wf as [H0 Wf]. apply wf_cons in Wf as [H1 Wf]. unfold is_u8, is_u16 in *. split; [lia|done].
Qed.

Lemma short_values a b : is_u16 a → is_u16 b →
  short_value 0 (le16 a ++ le16 b) = a ∧ short_value 1 (le16 a ++ le16 b) = b
  ∧ long_value (le16 a ++ le16 b) = a + 2 ^ 16 * b.
Proof.
  intros Ha Hb. pose proof (le16_number a) as A. pose proof (le16_number b) as B.
  rewrite u16_id in A, B by done. unfold short_value, long_value. cbn. lia.
Qed.

Lemma be32_low z : is_u16 z → be32 z = [0; 0] ++ be16 z.
Proof.
  intros H. rewrite <- (be32_u32 z). replace (u32 z) with (u32 (Z.lor (Z.shiftl 0 16) z)) by done.
  rewrite be32_shorts by (try done; unfold is_u16; lia). done.
Qed.

Lemma converted_bytes n ptr bs : wf_bytes ptr → converted read_byte (λ b, [u8 b]) n ptr = Some bs →
  slice 0 n ptr = Some bs.
Proof.
  intros Wf. revert ptr bs Wf. induction n as [|n IH]; intros ptr bs Wf E; cbn [converted] in E.
  - apply (inj Some) in E as <-. by rewrite slice_ok by lia.
  - apply bind_Some in E as ([v q] & Er & E). apply bind_Some in E as (r & E & R). apply (inj Some) in R as <-.
    destruct ptr as [|b ptr]; [done|]. injection Er as <- <-. apply wf_cons in Wf as [Hb Wf].
    apply IH in E; [|done]. apply slice_Some in E as [-> Hl]. rewrite slice_ok by (simpl; lia).
    simpl. by rewrite u8_id.
Qed.

Lemma u8_list4 (l : bytes) : length l = 4%nat → wf_bytes l → ∃ b0 b1 b2 b3, l = [b0; b1; b2; b3]
  ∧ is_u8 b0 ∧ is_u8 b1 ∧ is_u8 b2 ∧ is_u8 b3.
Proof.
  intros H Wf. destruct l as [|b0 [|b1 [|b2 [|b3 [|]]]]]; try done.
  do 4 apply wf_cons in Wf as [? Wf]. by exists b0, b1, b2, b3.
Qed.

Section one_entry.
Context (f : field) (e : entry) (ifh io vo : Z) (m : bytes).
Hypothesis (G : gives f e) (Hio : 0 <= io) (Hifh : 0 <= ifh <= vo) (Hvo : io + 12 <= vo).
Hypothesis (Hend : value_end e vo <= Z.of_nat (length m)) (Hm : Z.of_nat (length m) + 3 < 2 ^ 32).

Lemma vo_fits : vo <= Z.of_nat (length m).
Proof. revert Hend. unfold value_end, data_size. bcase; lia. Qed.

(** A value outside the entry. *)
Lemma outside_ok i error act p :
  entry_info i e → inline e = false → value_offset i = le32 (u32 (vo - ifh)) → writes act (e_data e) →
  ∃ m' p', with_entry i io vo (λ io', with_values error act io vo io') (at_pos m p)
           = Some ((TRUE, io + 12, next_value e vo), at_pos m' p') ∧ entry_written ifh io vo e m m'.
Proof using G Hio Hifh Hvo Hend Hm.
  intros I In V Wr. pose proof vo_fits.
  destruct (with_entry_at i io vo (λ io', with_values error act io vo io') m p) as (m1 & -> & W1); [lia..|].
  destruct W1 as (L1 & W1). unfold value_end in Hend. rewrite In in Hend.
  destruct (with_values_at error act (e_data e) io vo (io + 12) m1 (io + 12)) as (m2 & -> & W2);
    [done|lia|fold (data_size e); lia|lia|].
  exists m2. eexists. split; [unfold next_value; by rewrite In|].
  eapply entry_written_outside; [done|done|done|lia|lia|lia| |split; [exact L1|exact W1]|done].
  rewrite u32_id in V by (split; lia). destruct (gives_size _ _ G) as (sz & Es & Sz).
  eapply entry_value_offset; [done|done| |done| |by eexists]; [split; lia|congruence].
Qed.

(** A value in the entry. *)
Lemma inline_ok i rest p :
  entry_info i e → inline e = true → be32 (entry_value i) = e_data e ++ rest →
  ∃ m' p', with_entry i io vo (λ io', mret (TRUE, io', vo)) (at_pos m p)
           = Some ((TRUE, io + 12, next_value e vo), at_pos m' p') ∧ entry_written ifh io vo e m m'.
Proof using G Hio Hifh Hvo Hend Hm.
  intros I In V. pose proof vo_fits.
  destruct (with_entry_at i io vo (λ io', mret (TRUE, io', vo)) m p) as (m1 & -> & W1); [lia..|].
  exists m1. eexists. split; [unfold next_value; by rewrite In|]. by eapply entry_written_inline.
Qed.

(** The entry after the writer has stored a short value into it. *)
Lemma set_value_info s v : entry_info (set_value_offset v (block_info ifh f (e_count e) s)) e.
Proof using G. destruct G. by split. Qed.

Lemma block_info_info s : entry_info (block_info ifh f (e_count e) s) e.
Proof using G. destruct G. by split. Qed.

Lemma entry_value_long i : entry_info i e → (e_type e =? IFD_LONG) || (e_type e =? IFD_SLONG) = true →
  entry_value i = long_value (value_offset i).
Proof using.
  intros (_ & Ty & _) H. unfold entry_value. rewrite Ty.
  apply orb_prop in H as [->%Z.eqb_eq| ->%Z.eqb_eq]; done.
Qed.

Definition written_ok (act : W answer) (p : Z) : Prop :=
  ∃ m' p', act (at_pos m p) = Some ((TRUE, io + 12, next_value e vo), at_pos m' p') ∧ entry_written ifh io vo e m m'.

Lemma RationalIFD_ok s p : ifd_offset s = io → ifd_value_offset s = vo → f_kind f = RationalIFD →
  written_ok (Jpeg_WriteRationalIFD (block_info ifh f (e_count e) s) io vo) p.
Proof using G Hio Hifh Hvo Hend Hm.
  intros Eio Evo K. destruct (gives_size _ _ G) as (sz & Es & Sz). destruct (G) as [_ _ Ty By Fi _ Rc _ In].
  unfold field_bytes in By. unfold kind_fits in Fi. rewrite K, Ty in *.
  assert (sz = 8) as -> by (apply orb_prop in Fi as [H|H]; bsplit; rewrite H in Es; injection Es; auto).
  apply outside_ok; [apply block_info_info|unfold inline; bdecide; done| |].
  - unfold block_info. destruct (f_init f); [by rewrite Evo|by destruct In].
  - eapply write_values_writes; [apply WriteL_writes|exact By].
Qed.

Lemma LongIFD_ok s p : ifd_offset s = io → ifd_value_offset s = vo → f_kind f = LongIFD →
  written_ok (Jpeg_WriteLongIFD (block_info ifh f (e_count e) s) io vo) p.
Proof using G Hio Hifh Hvo Hend Hm.
  intros Eio Evo K. destruct (gives_size _ _ G) as (sz & Es & Sz). destruct (G) as [_ _ Ty By Fi _ Rc _ In].
  unfold field_bytes in By. unfold kind_fits in Fi. rewrite K, Ty in *.
  assert (sz = 4) as -> by (apply orb_prop in Fi as [H|H]; bsplit; rewrite H in Es; injection Es; auto).
  unfold written_ok, Jpeg_WriteLongIFD. cbn [value_ptr block_info count].
  destruct (e_count e <=? 1) eqn:C; bsplit.
  - assert (C1 : e_count e = 1) by lia. rewrite C1 in By. apply converted_one in By as (v & q & Er & By).
    erewrite W_bind_eq; [|unfold access, mbind, W_bind; rewrite Er; done].
    change (count _) with (e_count e). rewrite Z.gtb_ltb. bdecide.
    eapply (inline_ok (set_value_offset (le32 v) (block_info ifh f (e_count e) s)) []).
    + apply set_value_info.
    + unfold inline. bdecide. done.
    + rewrite app_nil_r, entry_value_long by (try apply set_value_info; done). cbn [value_offset set_value_offset].
      by rewrite <- (app_nil_r (le32 v)), long_value_le32, be32_u32, By.
  - erewrite W_bind_eq by done. change (count _) with (e_count e).
    rewrite Z.gtb_ltb. bdecide. apply outside_ok; [apply block_info_info|unfold inline; bdecide; done| |].
    + unfold block_info. destruct (f_init f); [by rewrite Evo|by destruct In].
    + eapply write_values_writes; [apply WriteL_writes|exact By].
Qed.

(** One or two shorts, or the low half of a long. *)
Lemma ShortIFD_inline v0 v1 i : is_u16 v0 → is_u16 v1 → entry_info i e → value_offset i = le16 v0 ++ le16 v1 →
  (e_type e = IFD_SHORT → e_count e <= 2 → be32 (entry_value i) = be16 v0 ++ be16 v1)
  ∧ (e_type e = IFD_LONG → v1 = 0 → be32 (entry_value i) = [0; 0] ++ be16 v0).
Proof using.
  intros H0 H1 I V. destruct (short_values v0 v1 H0 H1) as (E0 & E1 & E2). split; intros Ty H.
  - destruct I as (_ & Ti & Ci). unfold entry_value. rewrite Ti, Ty, Ci, V, E0, E1.
    change (_ || _ || _)%bool with false. change (IFD_SHORT =? IFD_SHORT) with true.
    rewrite (proj2 (Z.leb_le _ _) H). by apply be32_shorts.
  - rewrite entry_value_long by (try done; by rewrite Ty). rewrite V, E2, H, <- be32_low by done.
    clear. f_equal. lia.
Qed.

Lemma ShortIFD_ok s p : ifd_offset s = io → ifd_value_offset s = vo → f_kind f = ShortIFD →
  written_ok (Jpeg_WriteShortIFD (block_info ifh f (e_count e) s) io vo) p.
Proof using G Hio Hifh Hvo Hend Hm.
  intros Eio Evo K. destruct (gives_size _ _ G) as (sz & Es & Sz). destruct (G) as [_ _ Ty By Fi _ Rc Wf In].
  unfold field_bytes in By. unfold kind_fits in Fi. rewrite K, Ty in *.
  apply bind_Some in By as (bs & By & D). apply (inj Some) in D.
  unfold written_ok, Jpeg_WriteShortIFD. cbn [value_ptr block_info count].
  destruct (e_count e <=? 2) eqn:C; bsplit.
  - assert (e_count e = 1 ∨ e_count e = 2) as [C1|C2] by lia.
    + rewrite C1 in By. apply converted_one in By as (v & q & Er & ->).
      destruct (read_short_range _ _ _ Wf Er) as [Rv _].
      rewrite (W_bind_eq _ _ _ (set_value_offset (le16 v ++ le16 0) (block_info ifh f (e_count e) s)) (at_pos m p))
        by (unfold access, mbind, W_bind; rewrite Er, C1; done).
      change (count _) with (e_count e). rewrite Z.gtb_ltb. bdecide.
      destruct (ShortIFD_inline v 0 (set_value_offset (le16 v ++ le16 0) (block_info ifh f (e_count e) s)))
        as [Sh Lo]; [done|by split|apply set_value_info|done|].
      apply orb_prop in Fi as [H|H]; bsplit; rewrite H in *.
      * apply (inline_ok _ (be16 0)); [apply set_value_info| |].
        { unfold inline, data_size. rewrite <- D. done. }
        { rewrite Sh by (try done; lia). by rewrite <- D. }
      * apply (inline_ok _ []); [apply set_value_info| |].
        { unfold inline, data_size. rewrite <- D. done. }
        { rewrite Lo by done. by rewrite <- D, app_nil_r. }
    + rewrite C2 in By. apply converted_two in By as (v & q & v' & q' & Er & Er' & ->).
      destruct (read_short_range _ _ _ Wf Er) as [Rv Wq]. destruct (read_short_range _ _ _ Wq Er') as [Rv' _].
      rewrite (W_bind_eq _ _ _ (set_value_offset (le16 v ++ le16 v') (block_info ifh f (e_count e) s)) (at_pos m p))
        by (unfold access, mbind, W_bind; rewrite Er, C2; cbn; rewrite Er'; done).
      change (count _) with (e_count e). rewrite Z.gtb_ltb. bdecide.
      destruct (ShortIFD_inline v v' (set_value_offset (le16 v ++ le16 v') (block_info ifh f (e_count e) s)))
        as [Sh _]; [done|done|apply set_value_info|done|].
      apply orb_prop in Fi as [H|H]; bsplit; [|lia]. rewrite H in *.
      apply (inline_ok _ []); [apply set_value_info| |].
      { unfold inline, data_size. rewrite <- D. done. }
      { rewrite Sh by (try done; lia). by rewrite <- D, app_nil_r. }
  - erewrite W_bind_eq by done. change (count _) with (e_count e).
    rewrite Z.gtb_ltb. bdecide. apply orb_prop in Fi as [H|H]; bsplit; [|lia]. rewrite H in *. injection Es as <-.
    apply outside_ok; [apply block_info_info|unfold inline; bdecide; done| |].
    + unfold block_info. destruct (f_init f); [by rewrite Evo|destruct In; lia].
    + rewrite <- D. eapply write_values_writes; [apply WriteW_writes|exact By].
Qed.

Lemma ByteIFD_ok s p : ifd_offset s = io → ifd_value_offset s = vo → f_kind f = ByteIFD →
  written_ok (Jpeg_WriteByteIFD (block_info ifh f (e_count e) s) io vo) p.
Proof using G Hio Hifh Hvo Hend Hm.
  intros Eio Evo K. destruct (gives_size _ _ G) as (sz & Es & Sz). destruct (G) as [_ _ Ty By Fi _ Rc Wf In].
  unfold field_bytes in By. unfold kind_fits in Fi. rewrite K, Ty in *.
  assert (sz = 1) as -> by (unfold type_size in Es; rewrite Fi in Es; by injection Es).
  unfold written_ok, Jpeg_WriteByteIFD. cbn [value_ptr block_info count].
  destruct (e_count e <=? 4) eqn:C; bsplit.
  - pose proof (converted_bytes _ _ _ Wf By) as Cp. pose proof (slice_Forall _ _ _ _ _ Cp Wf) as Wd.
    pose proof (slice_length _ _ _ _ Cp) as Ld. unfold data_size in Sz.
    erewrite W_bind_eq; [|unfold access, mbind, W_bind; rewrite Cp; done].
    change (count _) with (e_count e). rewrite Z.gtb_ltb. bdecide.
    set (old := value_offset (block_info ifh f (e_count e) s)).
    assert (length old = 4%nat ∧ wf_bytes old) as [Lo Wo].
    { unfold old, block_info. cbn [value_offset]. destruct (f_init f); [|by destruct In].
      split; [done|apply le32_bytes]. }
    destruct (u8_list4 (e_data e ++ drop (length (e_data e)) old)) as (b0 & b1 & b2 & b3 & El & ? & ? & ? & ?).
    { rewrite length_app, length_drop. lia. }
    { apply wf_app. split; [done|]. by apply Forall_drop. }
    eapply (inline_ok _ (drop (length (e_data e)) old)); [apply set_value_info| |].
    + unfold inline, data_size. bdecide. done.
    + pose proof (set_value_info s (e_data e ++ drop (length (e_data e)) old)) as (_ & Ti & Ci).
      unfold entry_value. rewrite Ti, Ci, Fi. bdecide. cbn [value_offset set_value_offset].
      unfold byte_value. rewrite El. cbn. rewrite pack_bytes by done. rewrite be32_u32. by apply be32_bytes.
  - erewrite W_bind_eq by done. change (count _) with (e_count e).
    rewrite Z.gtb_ltb. bdecide. apply outside_ok; [apply block_info_info|unfold inline; bdecide; done| |].
    + unfold block_info. destruct (f_init f); [by rewrite Evo|by destruct In].
    + eapply write_values_writes; [apply WriteC_writes|exact By].
Qed.

(** The four writers. *)
Lemma kind_ok s p : ifd_offset s = io → ifd_value_offset s = vo →
  written_ok (Jpeg_WriteKind (f_kind f) (block_info ifh f (e_count e) s) io vo) p.
Proof using G Hio Hifh Hvo Hend Hm.
  intros Eio Evo. destruct (f_kind f) eqn:K; cbn [Jpeg_WriteKind];
    auto using RationalIFD_ok, LongIFD_ok, ShortIFD_ok, ByteIFD_ok.
Qed.
End one_entry.
