(* ===== verification/ExifRound.v ===== *)
(** * The EXIF segment, read back

    What [Jpeg_WriteAPP1] writes is an EXIF segment: the reader of ExifRead finds
    in it the entries of every directory, the sub-directories their pointers lead
    to, and the thumbnail.  [progress] is the invariant of a directory in the making. *)
From S2P Require Import Prelude ExifStream ExifTypes ExifWriter ExifRead.

(** ** A directory in the making *)

(** The entries of the fields whose condition holds. *)
Definition entries_of (fs : list field) : list entry :=
  omap (λ f, if f_guard f then field_entry f else None) fs.

(** Every field that is written has its value. *)
Definition proper (f : field) : Prop := f_guard f = true → ∃ e, gives f e.

Definition next_values (es : list entry) (vo : Z) : Z := foldl (λ vo e, next_value e vo) vo es.

Definition after (es : list entry) (s : ifd_state) : ifd_state :=
  Ifd_state (ifd_offset s + 12 * Z.of_nat (length es)) (next_values es (ifd_value_offset s))
    (entries s + Z.of_nat (length es)).

(** There is room for [n] entries before the values, and the counter does not overflow. *)
Definition room (ifh : Z) (s : ifd_state) (n : nat) : Prop :=
  0 <= ifd_offset s ∧ 0 <= ifh <= ifd_value_offset s ∧ ifd_offset s + 12 * Z.of_nat n <= ifd_value_offset s
  ∧ 0 <= entries s ∧ entries s + Z.of_nat n < 2 ^ 16.

(** From [s] to [s'] the entries [es] have been written into [m], which is now [m']. *)
Definition progress (ifh : Z) (s s' : ifd_state) (es : list entry) (Q : bytes → Prop) (m m' : bytes) : Prop :=
  length m' = length m
  ∧ agree (λ i, ¬ within (ifd_offset s) (ifd_offset s') i ∧ ¬ within (ifd_value_offset s) (ifd_value_offset s') i) m m'
  ∧ holds_on (λ i, within (ifd_offset s) (ifd_offset s') i ∨ within (ifd_value_offset s) (ifd_value_offset s') i)
      (λ m, read_entries ifh (ifd_offset s) (length es) m = Some es ∧ Q m) m'
  ∧ ifd_offset s' = ifd_offset s + 12 * Z.of_nat (length es)
  ∧ ifd_value_offset s <= ifd_value_offset s'
  ∧ entries s' = entries s + Z.of_nat (length es).

Lemma read_entries_app ifh io es1 es2 m :
  read_entries ifh io (length es1) m = Some es1 →
  read_entries ifh (io + 12 * Z.of_nat (length es1)) (length es2) m = Some es2 →
  read_entries ifh io (length (es1 ++ es2)) m = Some (es1 ++ es2).
Proof.
  revert io. induction es1 as [|e es1 IH]; intros io H1 H2; simpl in *.
  - by rewrite Z.add_0_r in H2.
  - apply bind_Some in H1 as (e' & Ee & H1). apply bind_Some in H1 as (es' & Ees & H1).
    apply (inj Some) in H1. injection H1 as -> ->. rewrite Ee. cbn [mbind option_bind].
    rewrite IH; [done|done|]. by replace (io + 12 + 12 * Z.of_nat (length es1))
      with (io + 12 * Z.of_nat (S (length es1))) by lia.
Qed.

Lemma progress_refl ifh s m : progress ifh s s [] (λ _, True) m m.
Proof.
  split; [done|]. split; [apply agree_refl|]. split; [by intros m' _|]. simpl. lia.
Qed.

Lemma progress_trans ifh s s1 s2 es1 es2 Q1 Q2 m m1 m2 :
  ifd_offset s2 <= ifd_value_offset s →
  progress ifh s s1 es1 Q1 m m1 → progress ifh s1 s2 es2 Q2 m1 m2 →
  progress ifh s s2 (es1 ++ es2) (λ m, Q1 m ∧ Q2 m) m m2.
Proof.
  intros R (L1 & A1 & H1 & I1 & V1 & N1) (L2 & A2 & H2 & I2 & V2 & N2). split; [congruence|]. split; [|split].
  - apply agree_trans with m1; (eapply agree_sub; [|done]); unfold within; lia.
  - intros m' A. rewrite I1 in H2. edestruct (H2 m') as [E2 Q2m].
    { eapply agree_sub; [|exact A]. unfold within. lia. }
    edestruct (H1 m') as [E1 Q1m].
    { apply agree_trans with m2; (eapply agree_sub; [|done]); unfold within; lia. }
    split; [|done]. by apply read_entries_app.
  - rewrite length_app. lia.
Qed.

Lemma progress_imp ifh s s' es (Q Q' : bytes → Prop) m m' :
  (∀ m, Q m → Q' m) → progress ifh s s' es Q m m' → progress ifh s s' es Q' m m'.
Proof.
  intros I (L & A & H & R). split; [done|]. split; [done|]. split; [|done].
  intros m'' A'. destruct (H m'' A'). auto.
Qed.

Lemma next_value_le e vo : vo <= next_value e vo ∧ value_end e vo <= next_value e vo.
Proof.
  unfold next_value, value_end. pose proof (align4_bounds (vo + data_size e)). unfold data_size in *. bcase; lia.
Qed.

Lemma next_values_le es vo : vo <= next_values es vo.
Proof.
  unfold next_values. revert vo. induction es as [|e es IH]; intros vo; simpl; [lia|].
  pose proof (next_value_le e vo). specialize (IH (next_value e vo)). lia.
Qed.

(** ** Fields *)

Lemma gives_entry f e : gives f e → field_entry f = Some e.
Proof.
  intros [Ec Et Ey Eb _ _ _ _ _]. unfold field_entry. rewrite Ec. cbn [mbind option_bind]. rewrite Eb.
  cbn [mbind option_bind]. rewrite Et, Ey. by destruct e.
Qed.

Lemma entries_of_cons f e fs : f_guard f = true → gives f e → entries_of (f :: fs) = e :: entries_of fs.
Proof. intros Hg G. unfold entries_of. simpl. by rewrite Hg, (gives_entry _ _ G). Qed.

(** An entry written is progress. *)
Lemma entry_progress ifh s e m m' :
  entry_written ifh (ifd_offset s) (ifd_value_offset s) e m m' → progress ifh s (after [e] s) [e] (λ _, True) m m'.
Proof.
  intros (L & A & H). pose proof (next_value_le e (ifd_value_offset s)).
  split; [done|]. split; [|split].
  - eapply agree_sub; [|exact A]. unfold within. simpl. lia.
  - intros m'' A'. split; [|done]. simpl. rewrite (H m''); [done|].
    eapply agree_sub; [|exact A']. unfold within. simpl. lia.
  - simpl. lia.
Qed.

Lemma write_field_ok ifh f e s m p :
  f_guard f = true → gives f e → room ifh s 1 → next_value e (ifd_value_offset s) <= Z.of_nat (length m) →
  Z.of_nat (length m) + 3 < 2 ^ 32 →
  ∃ m' p', write_field ifh f s (at_pos m p) = Some (Some (after [e] s), at_pos m' p')
    ∧ progress ifh s (after [e] s) [e] (λ _, True) m m'.
Proof.
  intros Hg G (Hio & Hifh & Hvo & He0 & He1) Hm Hb. pose proof (next_value_le e (ifd_value_offset s)) as Hn.
  edestruct (kind_ok f e ifh (ifd_offset s) (ifd_value_offset s) m G) as (m' & p' & E & Wr); [lia..|done|done|].
  exists m', p'. split; [|by apply entry_progress].
  unfold write_field. rewrite Hg. cbn [negb]. rewrite (gives_count _ _ G).
  erewrite W_bind_eq by done. erewrite W_bind_eq by exact E. change (TRUE =? FALSE) with false. cbn iota.
  unfold mret, W_ret. rewrite (u16_id (entries s + 1)) by (split; lia). done.
Qed.

Lemma write_fields_ok ifh fs s m p (es := entries_of fs) :
  Forall proper fs → room ifh s (length es) → next_values es (ifd_value_offset s) <= Z.of_nat (length m) →
  Z.of_nat (length m) + 3 < 2 ^ 32 →
  ∃ m' p', write_fields ifh fs s (at_pos m p) = Some (Some (after es s), at_pos m' p')
    ∧ progress ifh s (after es s) es (λ _, True) m m'.
Proof.
  intros Hf. subst es. revert s m p. induction Hf as [|f fs Hp Hf IH]; intros s m p R V Hb.
  - exists m, p. assert (after (entries_of []) s = s) as ->
      by (destruct s; unfold after; simpl; f_equal; lia). split; [done|apply progress_refl].
  - destruct (f_guard f) eqn:Hg.
    + destruct (Hp Hg) as [e G].
      rewrite (entries_of_cons _ _ fs Hg G) in *. unfold next_values in V. simpl in V. fold (next_values (entries_of fs)) in V.
      pose proof (next_values_le (entries_of fs) (next_value e (ifd_value_offset s))) as Hn.
      pose proof (next_value_le e (ifd_value_offset s)) as Hn'.
      destruct R as (R1 & R2 & R3 & R4 & R5). simpl in R3, R5.
      destruct (write_field_ok ifh f e s m p Hg G) as (m1 & p1 & E1 & P1);
        [split_and!; simpl; lia|unfold next_values in *; lia|done|].
      destruct (IH (after [e] s) m1 p1) as (m2 & p2 & E2 & P2).
      { unfold room, after. simpl. split_and!; lia. }
      { unfold after. simpl. destruct P1 as (-> & _). done. }
      { destruct P1 as (-> & _). done. }
      exists m2, p2. assert (Ea : after (e :: entries_of fs) s = after (entries_of fs) (after [e] s)).
      { unfold after. simpl. f_equal; lia. }
      split.
      * cbn [write_fields]. erewrite W_bind_eq by exact E1. cbn iota. by rewrite E2, Ea.
      * rewrite Ea. eapply progress_imp; [|eapply (progress_trans _ _ _ _ [e] (entries_of fs)); [|exact P1|exact P2]].
        { by intros. }
        { unfold after. simpl. lia. }
    + assert (E : entries_of (f :: fs) = entries_of fs) by (unfold entries_of; simpl; by rewrite Hg).
      rewrite E in *. destruct (IH s m p R V Hb) as (m' & p' & E' & P'). exists m', p'. split; [|done].
      cbn [write_fields]. rewrite (W_bind_eq _ _ _ (Some s) (at_pos m p)); [exact E'|].
      unfold write_field. by rewrite Hg.
Qed.

(** ** Directories *)

(** [body], the part of a directory's writer between two states, makes progress. *)
Definition advances (ifh : Z) (body : (ifd_state → W outcome) → W outcome) (s s' : ifd_state) (es : list entry)
    (Q : bytes → Prop) : Prop :=
  ∀ k m p, ifd_value_offset s' <= Z.of_nat (length m) → Z.of_nat (length m) + 3 < 2 ^ 32 →
  ∃ m' p', body k (at_pos m p) = k s' (at_pos m' p') ∧ progress ifh s s' es Q m m'.

(** [act] writes something between [lo] and [hi] of which [Q] holds. *)
Definition produces (act : W outcome) (lo hi : Z) (Q : bytes → Prop) : Prop :=
  ∀ m p, hi <= Z.of_nat (length m) → Z.of_nat (length m) + 3 < 2 ^ 32 →
  ∃ m' p', act (at_pos m p) = Some (Success hi, at_pos m' p') ∧ length m' = length m
    ∧ agree (λ i, ¬ within lo hi i) m m' ∧ holds_on (within lo hi) Q m'.

Lemma advances_trans ifh b1 (b2 : ifd_state → (ifd_state → W outcome) → W outcome) s s1 s2 es1 es2 Q1 Q2 :
  ifd_offset s2 <= ifd_value_offset s → ifd_value_offset s1 <= ifd_value_offset s2 →
  advances ifh b1 s s1 es1 Q1 → advances ifh (b2 s1) s1 s2 es2 Q2 →
  advances ifh (λ k, b1 (λ s, b2 s k)) s s2 (es1 ++ es2) (λ m, Q1 m ∧ Q2 m).
Proof.
  intros R V A1 A2 k m p Hl Hb. destruct (A1 (λ s, b2 s k) m p) as (m1 & p1 & E1 & P1); [lia|done|].
  destruct (A2 k m1 p1) as (m2 & p2 & E2 & P2); [destruct P1 as (-> & _); lia|destruct P1 as (-> & _); lia|].
  exists m2, p2. split; [by rewrite E1|]. by eapply progress_trans.
Qed.

Lemma advances_imp ifh b s s' es es' (Q Q' : bytes → Prop) :
  es = es' → (∀ m, Q m → Q' m) → advances ifh b s s' es Q → advances ifh b s s' es' Q'.
Proof.
  intros <- I A k m p Hl Hb. destruct (A k m p Hl Hb) as (m' & p' & E & P). exists m', p'.
  split; [done|]. by eapply progress_imp.
Qed.

Lemma and_fields_advances ifh fs s :
  Forall proper fs → room ifh s (length (entries_of fs)) →
  advances ifh (and_fields ifh fs s) s (after (entries_of fs) s) (entries_of fs) (λ _, True).
Proof.
  intros Hf R k m p Hl Hb. destruct (write_fields_ok ifh fs s m p Hf R Hl Hb) as (m' & p' & E & P).
  exists m', p'. split; [|done]. unfold and_fields. by erewrite W_bind_eq by exact E.
Qed.

(** The same, with the states given by equations. *)
Lemma and_fields_to ifh fs s s' es vo :
  entries_of fs = es → ifd_value_offset s = vo → ifd_offset s' = ifd_offset s + 12 * Z.of_nat (length es) →
  ifd_value_offset s' = next_values es vo → entries s' = entries s + Z.of_nat (length es) →
  Forall proper fs → room ifh s (length es) →
  advances ifh (and_fields ifh fs s) s s' es (λ _, True).
Proof.
  intros Ees Evo I V N Hf R. subst es. assert (s' = after (entries_of fs) s) as ->
    by (destruct s'; unfold after; cbn in *; congruence).
  by apply and_fields_advances.
Qed.

(** The entry of a pointer to a directory at offset [off]. *)
Definition pointer_entry (t off : Z) : entry := Entry t IFD_LONG 1 (be32 off).

Lemma long_field_gives g t v : is_u16 t →
  gives (Field g t IFD_LONG (Some 1) OffsetInit (mem_long v) LongIFD) (pointer_entry t v).
Proof.
  intros Ht. split; try done; [|apply le32_bytes].
  unfold field_bytes. cbn [f_kind f_value e_count e_data pointer_entry].
  change (Z.to_nat 1) with 1%nat. cbn [converted]. unfold mem_long. rewrite <- (app_nil_r (le32 v)), read_long_le32.
  cbn [mbind option_bind]. by rewrite be32_u32, app_nil_r.
Qed.

Lemma and_sub_ifd_advances {A} ifh t (write : A → Z → W outcome) a s hi Q (v := align4 (ifd_value_offset s)) :
  is_u16 t → room ifh s 1 → v <= hi → produces (write a v) v hi Q →
  advances ifh (and_sub_ifd (Some a) t ifh write s) s (Ifd_state (ifd_offset s + 12) hi (entries s + 1))
    [pointer_entry t (v - ifh)] Q.
Proof.
  intros Ht (Hio & Hifh & Hvo & He0 & He1) Hhi Pr k m p Hl Hb. cbn [ifd_value_offset] in Hl.
  pose proof (align4_bounds (ifd_value_offset s)) as Ba. fold v in Ba.
  unfold and_sub_ifd, align_value_offset. cbn [ifd_offset ifd_value_offset entries].
  rewrite JPEG_ALIGN_4_eq by lia. fold v. rewrite (u32_id (v - ifh)) by (split; lia).
  pose proof (long_field_gives true t (v - ifh) Ht) as G. fold (pointer_field t (v - ifh)) in G.
  assert (Ev : value_end (pointer_entry t (v - ifh)) v = v) by done.
  destruct (kind_ok (pointer_field t (v - ifh)) _ ifh (ifd_offset s) v m G) with
    (s := Ifd_state (ifd_offset s) v (entries s)) (p := p) as (m1 & p1 & E1 & W1); [lia..|done|done|done|].
  destruct (entry_progress ifh (Ifd_state (ifd_offset s) v (entries s)) _ _ _ W1) as (L1 & A1 & H1 & _).
  destruct (Pr m1 p1) as (m2 & p2 & E2 & L2 & A2 & H2); [lia..|].
  exists m2, p2. split.
  - erewrite W_bind_eq by exact E1. cbn beta iota. change (TRUE =? FALSE) with false. cbn iota.
    change (next_value _ v) with v. erewrite W_bind_eq by exact E2. cbn iota.
    by rewrite (u16_id (entries s + 1)) by (split; lia).
  - cbn [ifd_offset ifd_value_offset after length] in *. change (next_values _ v) with v in *.
    split; [congruence|]. cbn [ifd_offset ifd_value_offset entries length]. split; [|split; [|lia]].
    + apply agree_trans with m1; (eapply agree_sub; [|done]); unfold within; lia.
    + intros m' A'. split.
      * apply (H1 m'). apply agree_trans with m2; (eapply agree_sub; [|done]); unfold within; lia.
      * apply H2. eapply agree_sub; [|exact A']. unfold within. lia.
Qed.

Lemma and_sub_ifd_none {A} ifh t (write : A → Z → W outcome) s :
  advances ifh (and_sub_ifd None t ifh write s) s s [] (λ _, True).
Proof. intros k m p _ _. exists m, p. split; [done|apply progress_refl]. Qed.

(** The first state of a directory at [b] with room for [n] entries. *)
Definition first_state (b n : Z) : ifd_state := Ifd_state (b + 2) (align4 (b + 2 + n * 12 + 4)) 0.

Lemma begin_ifd_at n b k m p :
  0 <= b → 0 <= n → ifd_value_offset (first_state b n) <= Z.of_nat (length m) → Z.of_nat (length m) + 3 < 2 ^ 32 →
  ∃ m', begin_ifd n b k (at_pos m p) = k (first_state b n) (at_pos m' (b + 2)) ∧ wrote b (be16 n) m m'.
Proof.
  intros Hb Hn Hl Hm. cbn [first_state ifd_value_offset] in Hl. pose proof (align4_bounds (b + 2 + n * 12 + 4)).
  unfold begin_ifd. rewrite (W_bind_eq _ _ _ true (at_pos m b)) by (apply SetWritePos_at; lia). write_step.
  change (Z.of_nat 2) with 2. eexists. split; [|done].
  rewrite (W_bind_eq _ _ _ (b + 2) (at_pos m0 (b + 2))); [|apply GetWritePos_at; destruct Wr; lia].
  unfold IFD_HEAD_LENGTH. rewrite u32_id by (split; lia). by rewrite JPEG_ALIGN_4_eq by lia.
Qed.

Lemma end_ifd_at b next s m p :
  0 <= b → b + 2 <= ifd_offset s → ifd_offset s + 4 <= Z.of_nat (length m) →
  ∃ m' m'' p', end_ifd b next s (at_pos m p) = Some (Success (ifd_value_offset s), at_pos m'' p')
    ∧ wrote (ifd_offset s) (be32 next) m m' ∧ wrote b (be16 (entries s)) m' m''.
Proof.
  intros Hb Ho Hl. unfold end_ifd.
  rewrite (W_bind_eq _ _ _ true (at_pos m (ifd_offset s))) by (apply SetWritePos_at; lia). write_step.
  rewrite (W_bind_eq _ _ _ true (at_pos m0 b)) by (apply SetWritePos_at; destruct Wr; lia). write_step.
  exists m0, m1. eexists. split; [done|]. done.
Qed.

(** A directory whose body makes progress is read back from its place. *)
Lemma ifd_produces ifh n b (body : ifd_state → (ifd_state → W outcome) → W outcome) (next : ifd_state → Z)
    s' es Q (s := first_state b n) :
  0 <= b → 0 <= n < 2 ^ 16 → Z.of_nat (length es) <= n → ifd_value_offset s <= ifd_value_offset s' →
  advances ifh (body s) s s' es Q →
  produces (begin_ifd n b (λ s, body s (λ s, end_ifd b (next s) s))) b (ifd_value_offset s')
    (λ m, read_ifd ifh b m = Some (es, u32 (next s')) ∧ Q m).
Proof.
  intros Hb Hn Hes V A m p Hl Hm. unfold s in V. pose proof (align4_bounds (b + 2 + n * 12 + 4)) as Ba.
  destruct (begin_ifd_at n b (λ s, body s (λ s, end_ifd b (next s) s)) m p) as (m1 & -> & W1); [lia..|].
  destruct (A (λ s, end_ifd b (next s) s) m1 (b + 2)) as (m2 & p2 & E2 & L2 & A2 & H2 & I2 & V2 & N2);
    [destruct W1; lia|destruct W1; lia|]. fold s. rewrite E2. clear E2.
  assert (Eo : ifd_offset s = b + 2) by done. assert (Ev : ifd_value_offset s = align4 (b + 2 + n * 12 + 4)) by done.
  assert (En : entries s = 0) by done. destruct W1 as (L1 & _ & A1).
  destruct (end_ifd_at b (next s') s' m2 p2) as (m3 & m4 & p4 & E & W3 & W4); [lia..|].
  exists m4, p4. split; [exact E|]. destruct W3 as (L3 & H3 & A3), W4 as (L4 & H4 & A4).
  cbn [length be16 be32] in *. split; [congruence|]. split.
  - apply agree_trans with m3; [apply agree_trans with m2; [apply agree_trans with m1|]|];
      (eapply agree_sub; [|done]); unfold within; lia.
  - intros m' A'. destruct (H2 m') as [Er Qm].
    { apply agree_trans with m4; [apply agree_trans with m3|]; (eapply agree_sub; [|done]); unfold within; lia. }
    split; [|done]. unfold read_ifd. rewrite (get_be16 m' b (entries s')).
    2: { eapply has_agree; [|exact H4]. eapply agree_sub; [|exact A']. cbn [length be16]. unfold within. lia. }
    cbn [mbind option_bind]. rewrite N2, En, u16_id by (split; lia). rewrite Z.add_0_l, Nat2Z.id.
    rewrite <- Eo, Er. cbn [mbind option_bind]. rewrite <- I2, (get_be32 m' (ifd_offset s') (next s')); [done|].
    eapply has_agree; [|apply (has_agree m3); [|exact H3]].
    + eapply agree_sub; [|exact A']. cbn [length be32]. unfold within. lia.
    + eapply agree_sub; [|exact A4]. cbn [length be32]. unfold within. lia.
Qed.

(** ** The thumbnail *)

Lemma and_fields_app ifh fs1 fs2 s k c :
  and_fields ifh (fs1 ++ fs2) s k c = and_fields ifh fs1 s (λ s, and_fields ifh fs2 s k) c.
Proof.
  unfold and_fields, mbind, W_bind. revert s c. induction fs1 as [|f fs1 IH]; intros s c; [done|].
  cbn [app write_fields]. unfold mbind, W_bind. destruct (write_field ifh f s c) as [[[s'|] c']|]; [|done|done].
  cbn [mbind option_bind]. apply IH.
Qed.

Lemma and_fields_ext ifh fs s k k' c : (∀ s c, k s c = k' s c) → and_fields ifh fs s k c = and_fields ifh fs s k' c.
Proof.
  intros E. unfold and_fields, mbind, W_bind. by destruct (write_fields ifh fs s c) as [[[s'|] c']|]; simpl.
Qed.

(** The first entry of the thumbnail, with its offset. *)
Definition jif_entry (off : Z) : entry := pointer_entry IFD_JPEGINTERCHANGEFORMAT off.
Definition jif_length (n : Z) : entry := pointer_entry IFD_JPEGINTERCHANGEFORMATLENGTH n.

Lemma and_thumbnail_at buf n t ifh s k m p (vo := ifd_value_offset s) :
  0 < n → n <= Z.of_nat (length buf) → wf_bytes buf → 0 <= t → t + 12 <= vo → 0 <= ifh <= vo →
  vo + n <= Z.of_nat (length m) → Z.of_nat (length m) + 3 < 2 ^ 32 →
  ∃ m1 m' p', and_thumbnail (Some (Thumbnail (Some buf) n)) t ifh s k (at_pos m p)
      = k (Ifd_state (ifd_offset s) (vo + n) (entries s)) (at_pos m' p')
    ∧ wrote vo (take (Z.to_nat n) buf) m m1 ∧ entry_written ifh t (vo + n) (jif_entry (vo - ifh)) m1 m'.
Proof.
  intros Hn Hl Wf Ht Hto Hifh Hm Hb. assert (Lt : length (take (Z.to_nat n) buf) = Z.to_nat n)
    by (rewrite length_take; lia).
  destruct (write_block_loop_writes (Z.to_nat n) buf ltac:(lia) Wf m vo) as (m1 & E1 & W1); [lia|rewrite Lt; lia|].
  rewrite Lt, Z2Nat.id in E1 by lia. pose proof W1 as (L1 & _).
  pose proof (long_field_gives true IFD_JPEGINTERCHANGEFORMAT (vo - ifh) ltac:(done)) as G.
  fold (jif_entry (vo - ifh)) in G. fold (pointer_field IFD_JPEGINTERCHANGEFORMAT (vo - ifh)) in G.
  assert (Ev : value_end (jif_entry (vo - ifh)) (vo + n) = vo + n) by done.
  destruct (kind_ok (pointer_field IFD_JPEGINTERCHANGEFORMAT (vo - ifh)) _ ifh t (vo + n) m1 G) with
    (s := Ifd_state t (vo + n) 0) (p := t) as (m2 & p2 & E2 & W2); [lia..|done|done|].
  exists m1, m2, p2. split; [|done]. unfold and_thumbnail. rewrite (proj2 (Z.ltb_lt _ _) Hn). fold vo.
  rewrite (W_bind_eq _ _ _ true (at_pos m vo)) by (apply SetWritePos_at; lia).
  unfold JPEG_WRITE_DATA. rewrite (W_bind_eq _ _ _ true (at_pos m1 (vo + n))) by exact E1. cbn iota.
  rewrite (W_bind_eq _ _ _ (vo + n) (at_pos m1 (vo + n))) by (apply GetWritePos_at; lia).
  rewrite (W_bind_eq _ _ _ true (at_pos m1 t)) by (apply SetWritePos_at; lia).
  rewrite (u32_id (vo - ifh)) by (split; lia).
  rewrite (W_bind_eq _ _ _ (TRUE, t + 12, vo + n) (at_pos m2 p2)) by exact E2.
  change (TRUE =? FALSE) with false. done.
Qed.

(** An entry rewritten, and the thumbnail it points to placed after the values. *)
Lemma thumbnail_progress ifh s s1 s2 e0 e es data Q0 Q m m1 m2 m3 m4 (vo := ifd_value_offset s2)
    (s' := Ifd_state (ifd_offset s2) (vo + Z.of_nat (length data)) (entries s2)) :
  ifd_offset s2 <= ifd_value_offset s → ifd_value_offset s1 = ifd_value_offset s →
  progress ifh s s1 [e0] Q0 m m1 → progress ifh s1 s2 es Q m1 m2 →
  wrote vo data m2 m3 → entry_written ifh (ifd_offset s) (vo + Z.of_nat (length data)) e m3 m4 →
  inline e = true → progress ifh s s' (e :: es) (λ m, has m vo data) m m4.
Proof.
  intros R V1 (L1 & A1 & _ & I1 & _ & N1) (L2 & A2 & H2 & I2 & V2 & N2) (L3 & H3 & A3) (L4 & A4 & H4) In.
  subst vo s'. unfold value_end in *. rewrite In in *. rewrite V1 in *. cbn [length] in *.
  split; [congruence|]. cbn [ifd_offset ifd_value_offset entries length]. split; [|split; [|lia]].
  - apply agree_trans with m3; [apply agree_trans with m2; [apply agree_trans with m1|]|];
      (eapply agree_sub; [|done]); unfold within; lia.
  - intros m' A'. split; [cbn [read_entries]; rewrite (H4 m')|].
    + cbn [mbind option_bind]. replace (ifd_offset s + 12) with (ifd_offset s1) by lia.
      destruct (H2 m') as [-> _]; [|done].
      apply agree_trans with m4; [apply agree_trans with m3|]; (eapply agree_sub; [|done]); unfold within; lia.
    + eapply agree_sub; [|exact A']. unfold within. lia.
    + eapply (has_agree m3); [|exact H3].
      apply agree_trans with m4; (eapply agree_sub; [|done]); unfold within; lia.
Qed.

(** The entries of a thumbnail, those after them and the thumbnail itself. *)
Definition thumbnail_body (ifh : Z) (thumbnail : option EXIF_THUMBNAIL_INFO_T) (fs : list field) (s : ifd_state)
    (k : ifd_state → W outcome) : W outcome :=
  and_fields ifh (thumbnail_fields thumbnail) s (λ s', and_fields ifh fs s' (λ s'',
  and_thumbnail thumbnail (ifd_offset s) ifh s'' k)).

Lemma thumbnail_body_advances ifh buf n fs s (th := Some (Thumbnail (Some buf) n)) (es := entries_of fs)
    (vo := next_values es (ifd_value_offset s)) :
  0 < n → n <= Z.of_nat (length buf) → wf_bytes buf → Forall proper fs → room ifh s (2 + length es) →
  advances ifh (thumbnail_body ifh th fs s) s
    (Ifd_state (ifd_offset s + 24 + 12 * Z.of_nat (length es)) (vo + n) (entries s + 2 + Z.of_nat (length es)))
    (jif_entry (vo - ifh) :: jif_length n :: es) (λ m, has m vo (take (Z.to_nat n) buf)).
Proof.
  intros Hn Hl Wf Hf (R1 & R2 & R3 & R4 & R5) k m p Hm Hb. cbn [ifd_value_offset] in Hm.
  pose proof (next_values_le es (ifd_value_offset s)) as Hv. fold vo in Hv.
  assert (Hg : has_thumbnail th = true) by (apply Z.ltb_lt; lia).
  set (f1 := Field (has_thumbnail th) IFD_JPEGINTERCHANGEFORMAT IFD_LONG (Some 1) OffsetInit (mem_long 0) LongIFD).
  set (f2 := Field (has_thumbnail th) IFD_JPEGINTERCHANGEFORMATLENGTH IFD_LONG (Some 1) OffsetInit (mem_long n) LongIFD).
  assert (G1 : gives f1 (jif_entry 0)) by (apply long_field_gives; done).
  assert (G2 : gives f2 (jif_length n)) by (apply long_field_gives; done).
  set (s1 := Ifd_state (ifd_offset s + 12) (ifd_value_offset s) (entries s + 1)).
  set (s2 := Ifd_state (ifd_offset s + 24 + 12 * Z.of_nat (length es)) vo (entries s + 2 + Z.of_nat (length es))).
  destruct (and_fields_advances ifh [f1] s ltac:(constructor; [by intros _; eexists|constructor]))
    with (k := λ s', and_fields ifh (f2 :: fs) s' (λ s'', and_thumbnail th (ifd_offset s) ifh s'' k)) (m := m) (p := p)
    as (m1 & p1 & X1 & P1);
    rewrite ?(entries_of_cons f1 _ [] Hg G1) in *; change (after _ s) with s1 in *; [split_and!; simpl; lia|simpl; lia|done|].
  pose proof P1 as (L1 & _).
  destruct (and_fields_advances ifh (f2 :: fs) s1 ltac:(constructor; [by intros _; eexists|done]))
    with (k := λ s'', and_thumbnail th (ifd_offset s) ifh s'' k) (m := m1) (p := p1) as (m2 & p2 & X2 & P2);
    rewrite ?(entries_of_cons f2 _ fs Hg G2) in *.
  { fold es. split_and!; simpl; lia. }
  { change (vo <= Z.of_nat (length m1)). lia. }
  { lia. }
  fold es in X2, P2.
  assert (S2 : after (jif_length n :: es) s1 = s2) by (unfold after, s1, s2; simpl; f_equal; lia).
  rewrite S2 in X2, P2. pose proof P2 as (L2 & _).
  destruct (and_thumbnail_at buf n (ifd_offset s) ifh s2 k m2 p2) as (m3 & m4 & p4 & X3 & W3 & W4);
    cbn [s2 ifd_value_offset]; try done; try lia.
  exists m4, p4. split.
  - unfold thumbnail_body. change (thumbnail_fields th) with ([f1] ++ [f2]). rewrite and_fields_app.
    transitivity (and_fields ifh (f2 :: fs) s1 (λ s'', and_thumbnail th (ifd_offset s) ifh s'' k) (at_pos m1 p1)).
    + rewrite <- X1. apply and_fields_ext. intros s' c. symmetry. apply (and_fields_app ifh [f2] fs).
    + rewrite X2. exact X3.
  - assert (Ld : Z.of_nat (length (take (Z.to_nat n) buf)) = n) by (rewrite length_take; lia).
    rewrite <- Ld in W4 |- * at 1. 
    eapply (thumbnail_progress ifh s s1 s2 _ _ _ _ _ _ m m1 m2 m3 m4); try done; cbn; lia.
Qed.

(** ** The directories of an EXIF segment *)

(** Where a directory at [b] with room for [n] entries ends when its values are those of [es]. *)
Definition values_start (n b : Z) : Z := align4 (b + 2 + n * 12 + 4).

Definition inter_entries (inter : EXIF_INTEROPERABILITY_INFO_T) : list entry :=
  entries_of (interoperability_fields inter).
Definition inter_end (inter : EXIF_INTEROPERABILITY_INFO_T) (b : Z) : Z :=
  next_values (inter_entries inter) (values_start 1 b).

Definition gps_entries (gps : EXIF_GPS_INFO_T) : list entry := entries_of (gps_fields gps).
Definition gps_end (gps : EXIF_GPS_INFO_T) (b : Z) : Z := next_values (gps_entries gps) (values_start 31 b).

(** A sub-directory that may be absent: its pointer and its end, when [vo] is where it would be. *)
Definition sub_entries {A} (p : option A) (t ifh vo : Z) : list entry :=
  match p with None => [] | Some _ => [pointer_entry t (align4 vo - ifh)] end.
Definition sub_end {A} (p : option A) (e : A → Z → Z) (vo : Z) : Z :=
  match p with None => vo | Some a => e a (align4 vo) end.
Definition sub_holds {A} (p : option A) (q : A → Z → bytes → Prop) (vo : Z) (m : bytes) : Prop :=
  match p with None => True | Some a => q a (align4 vo) m end.

Lemma and_sub_ifd_ok {A} ifh t (p : option A) write s s' es vo (e : A → Z → Z) q :
  sub_entries p t ifh vo = es → ifd_value_offset s = vo →
  ifd_offset s' = ifd_offset s + 12 * Z.of_nat (length es) → ifd_value_offset s' = sub_end p e vo →
  entries s' = entries s + Z.of_nat (length es) → is_u16 t → room ifh s (length es) →
  (∀ a, p = Some a → align4 vo <= e a (align4 vo)
        ∧ produces (write a (align4 vo)) (align4 vo) (e a (align4 vo)) (q a (align4 vo))) →
  advances ifh (and_sub_ifd p t ifh write s) s s' es (sub_holds p q vo).
Proof.
  intros <- <- I V N Ht R Pr. destruct p as [a|]; cbn [sub_entries sub_end sub_holds length] in *.
  - destruct (Pr a eq_refl) as (He & P). replace s' with (Ifd_state (ifd_offset s + 12)
      (e a (align4 (ifd_value_offset s))) (entries s + 1)) by (destruct s'; cbn in *; f_equal; lia).
    by apply and_sub_ifd_advances.
  - replace s' with s by (destruct s, s'; cbn in *; f_equal; lia). apply and_sub_ifd_none.
Qed.

Lemma entries_of_length fs : (length (entries_of fs) <= length fs)%nat.
Proof.
  unfold entries_of. induction fs as [|f fs IH]; [done|]. cbn in *. destruct (if f_guard f then _ else _); cbn; lia.
Qed.

(** A directory of fields alone. *)
Lemma plain_ifd_produces ifh n b fs :
  0 <= ifh <= b → 0 <= n < 2 ^ 16 → Z.of_nat (length fs) <= n → Forall proper fs →
  produces (begin_ifd n b (λ s, and_fields ifh fs s (λ s, end_ifd b 0 s))) b
    (next_values (entries_of fs) (values_start n b)) (λ m, read_ifd ifh b m = Some (entries_of fs, 0) ∧ True).
Proof.
  intros Hifh Hn Hl Hf. pose proof (align4_bounds (b + 2 + n * 12 + 4)).
  pose proof (entries_of_length fs) as Le.
  apply (ifd_produces ifh n b (λ s, and_fields ifh fs s) (λ _, 0) (after (entries_of fs) (first_state b n)));
    [lia|lia|lia|apply next_values_le|].
  apply and_fields_advances; [done|]. unfold room, first_state. simpl. lia.
Qed.

Lemma inter_produces ifh b inter : 0 <= ifh <= b → Forall proper (interoperability_fields inter) →
  produces (Jpeg_WriteExifInteroperabilityInfo inter ifh b) b (inter_end inter b)
    (λ m, read_ifd ifh b m = Some (inter_entries inter, 0) ∧ True).
Proof. intros Hb Hf. apply plain_ifd_produces; [done|lia|done|done]. Qed.

Lemma gps_produces ifh b gps : 0 <= ifh <= b → Forall proper (gps_fields gps) →
  produces (Jpeg_WriteExifGPSInfo gps ifh b) b (gps_end gps b)
    (λ m, read_ifd ifh b m = Some (gps_entries gps, 0) ∧ True).
Proof. intros Hb Hf. apply plain_ifd_produces; [done|lia|by vm_compute|done]. Qed.

Lemma values_start_le n b : 0 <= n → b + 2 + 12 * n + 4 <= values_start n b.
Proof. intros. unfold values_start. pose proof (align4_bounds (b + 2 + n * 12 + 4)). lia. Qed.

#[local] Opaque entries_of next_values align4.

(** The EXIF directory at [b]. *)
Section spec.
Context (ifh b : Z) (spec : EXIF_SPECIFIC_INFO_T) (inter : option EXIF_INTEROPERABILITY_INFO_T).
Definition spec_values : Z := next_values (entries_of (spec_fields_before spec)) (values_start 57 b).
Definition spec_entries : list entry :=
  entries_of (spec_fields_before spec) ++ sub_entries inter IFD_INTEROPERABILITYIFDPOINTER ifh spec_values
  ++ entries_of (spec_fields_after spec).
Definition spec_end : Z := next_values (entries_of (spec_fields_after spec)) (sub_end inter inter_end spec_values).
Definition inter_holds (b' : Z) (m : bytes) (i : EXIF_INTEROPERABILITY_INFO_T) : Prop :=
  read_ifd ifh b' m = Some (inter_entries i, 0) ∧ True.

Lemma spec_fields_count : (length (spec_fields_before spec) + length (spec_fields_after spec) = 56)%nat.
Proof. done. Qed.

Lemma sub_end_le {A} (p : option A) (e : A → Z → Z) vo : (∀ a v, v <= e a v) → vo <= sub_end p e vo.
Proof.
  intros H. unfold sub_end. destruct p as [a|]; [|lia]. pose proof (align4_bounds vo). specialize (H a (align4 vo)). lia.
Qed.

Lemma sub_entries_length {A} (p : option A) t vo : (length (sub_entries p t ifh vo) <= 1)%nat.
Proof. destruct p; simpl; lia. Qed.

Lemma inter_end_le i v : v <= inter_end i v.
Proof.
  unfold inter_end. pose proof (next_values_le (inter_entries i) (values_start 1 v)).
  pose proof (values_start_le 1 v). lia.
Qed.

Lemma spec_produces : 0 <= ifh <= b →
  Forall proper (spec_fields_before spec) → Forall proper (spec_fields_after spec) →
  (∀ i, inter = Some i → Forall proper (interoperability_fields i)) →
  produces (Jpeg_WriteExifSpecInfo spec inter ifh b) b spec_end
    (λ m, read_ifd ifh b m = Some (spec_entries, 0) ∧ sub_holds inter (λ i b' m, inter_holds b' m i) spec_values m).
Proof.
  intros Hifh Hb Ha Hi. pose proof (values_start_le 57 b ltac:(lia)) as V0.
  pose proof (next_values_le (entries_of (spec_fields_before spec)) (values_start 57 b)) as V1. fold spec_values in V1.
  pose proof (sub_end_le inter inter_end spec_values inter_end_le) as V2.
  pose proof (next_values_le (entries_of (spec_fields_after spec)) (sub_end inter inter_end spec_values)) as V3.
  fold spec_end in V3. pose proof (align4_bounds spec_values) as Ba.
  pose proof (entries_of_length (spec_fields_before spec)) as L1.
  pose proof (entries_of_length (spec_fields_after spec)) as L3. pose proof spec_fields_count as L.
  set (es1 := entries_of (spec_fields_before spec)) in *. set (es3 := entries_of (spec_fields_after spec)) in *.
  set (es2 := sub_entries inter IFD_INTEROPERABILITYIFDPOINTER ifh spec_values) in *.
  pose proof (sub_entries_length inter IFD_INTEROPERABILITYIFDPOINTER spec_values) as L2. fold es2 in L2.
  set (n1 := Z.of_nat (length es1)) in *. set (n2 := Z.of_nat (length es2)) in *. set (n3 := Z.of_nat (length es3)) in *.
  set (s0 := first_state b 57). set (s1 := after es1 s0).
  set (s2 := Ifd_state (ifd_offset s1 + 12 * n2) (sub_end inter inter_end spec_values) (entries s1 + n2)).
  set (s3 := after es3 s2).
  apply (ifd_produces ifh 57 b (λ s k, and_fields ifh (spec_fields_before spec) s (λ s,
    and_sub_ifd inter IFD_INTEROPERABILITYIFDPOINTER ifh
      (λ i, Jpeg_WriteExifInteroperabilityInfo i ifh) s (λ s,
    and_fields ifh (spec_fields_after spec) s k))) (λ _, 0) s3); try lia.
  { unfold spec_entries. fold es1 es2 es3. rewrite !length_app. lia. }
  { change (values_start 57 b <= spec_end). lia. }
  fold s0. assert (I0 : ifd_offset s0 = b + 2) by reflexivity.
  assert (W0 : ifd_value_offset s0 = values_start 57 b) by reflexivity.
  assert (N0 : entries s0 = 0) by reflexivity. assert (I1 : ifd_offset s1 = b + 2 + 12 * n1) by reflexivity.
  assert (W1 : ifd_value_offset s1 = spec_values) by reflexivity. assert (N1 : entries s1 = n1) by reflexivity.
  assert (I2 : ifd_offset s2 = b + 2 + 12 * n1 + 12 * n2) by reflexivity.
  assert (W2 : ifd_value_offset s2 = sub_end inter inter_end spec_values) by reflexivity.
  assert (N2 : entries s2 = n1 + n2) by reflexivity.
  assert (I3 : ifd_offset s3 = b + 2 + 12 * n1 + 12 * n2 + 12 * n3) by reflexivity.
  assert (W3 : ifd_value_offset s3 = spec_end) by reflexivity. assert (N3 : entries s3 = n1 + n2 + n3) by reflexivity.
  clearbody s0 s1 s2 s3.
  eapply advances_imp; [reflexivity| |eapply (advances_trans _ _ (λ s k, and_sub_ifd inter
      IFD_INTEROPERABILITYIFDPOINTER ifh (λ i, Jpeg_WriteExifInteroperabilityInfo i ifh) s
      (λ s, and_fields ifh (spec_fields_after spec) s k)) s0 s1);
    [| |eapply (and_fields_to _ _ s0 s1 es1 (values_start 57 b))
       |eapply (advances_trans _ _ (λ s k, and_fields ifh (spec_fields_after spec) s k) s1 s2);
         [| |eapply (and_sub_ifd_ok _ _ inter _ s1 s2 es2 spec_values inter_end (λ i b' m, inter_holds b' m i))
            |eapply (and_fields_to _ _ s2 s3 es3 (sub_end inter inter_end spec_values))]]];
    unfold room; try lia; try exact eq_refl.
  - intros m (_ & H & _). exact H.
  - exact W1.
  - exact Hb.
  - by vm_compute.
  - intros i Ei. split; [apply inter_end_le|]. apply inter_produces; [lia|by apply Hi].
  - exact W3.
  - exact Ha.
Qed.
End spec.

(** IFD0 at [b], which has no thumbnail. *)
Section ifd0.
Context (ifh b : Z) (primary : EXIF_PRIMARY_INFO_T) (spec : option EXIF_SPECIFIC_INFO_T)
  (gps : option EXIF_GPS_INFO_T) (inter : option EXIF_INTEROPERABILITY_INFO_T) (is_next : bool).
Definition ifd0_fields : list field := primary_fields_before primary ++ primary_fields_after primary.
Definition ifd0_values : Z := next_values (entries_of ifd0_fields) (values_start 24 b).
Definition ifd0_gps_values : Z := sub_end spec (λ s b, spec_end b s inter) ifd0_values.
Definition ifd0_entries : list entry :=
  entries_of ifd0_fields ++ sub_entries spec IFD_EXIFIFDPOINTER ifh ifd0_values
  ++ sub_entries gps IFD_GPSIFDPOINTER ifh ifd0_gps_values.
Definition ifd0_end : Z := sub_end gps gps_end ifd0_gps_values.

(** What is at the sub-directories' places. *)
Definition spec_holds (s : EXIF_SPECIFIC_INFO_T) (b : Z) (m : bytes) : Prop :=
  read_ifd ifh b m = Some (spec_entries ifh b s inter, 0)
  ∧ sub_holds inter (λ i b' m, inter_holds ifh b' m i) (spec_values b s) m.
Definition gps_holds (g : EXIF_GPS_INFO_T) (b : Z) (m : bytes) : Prop :=
  read_ifd ifh b m = Some (gps_entries g, 0) ∧ True.

Lemma spec_end_le s v : v <= spec_end v s inter.
Proof.
  unfold spec_end. etransitivity; [|apply next_values_le]. etransitivity; [|apply sub_end_le, inter_end_le].
  unfold spec_values. etransitivity; [|apply next_values_le]. pose proof (values_start_le 57 v). lia.
Qed.

Lemma gps_end_le g v : v <= gps_end g v.
Proof.
  unfold gps_end. etransitivity; [|apply next_values_le]. pose proof (values_start_le 31 v). lia.
Qed.

Lemma ifd0_fields_count : length ifd0_fields = 20%nat.
Proof. done. Qed.

(** Without a thumbnail its blocks do nothing. *)
Lemma WriteExifIFD_no_thumbnail c :
  Jpeg_WriteExifIFD primary spec gps inter None is_next ifh b c
  = begin_ifd 24 b (λ s, and_fields ifh ifd0_fields s (λ s,
      and_sub_ifd spec IFD_EXIFIFDPOINTER ifh (λ s, Jpeg_WriteExifSpecInfo s inter ifh) s (λ s,
      and_sub_ifd gps IFD_GPSIFDPOINTER ifh (λ g, Jpeg_WriteExifGPSInfo g ifh) s (λ s,
      end_ifd b (if is_next then u32 (ifd_value_offset s - ifh) else 0) s)))) c.
Proof.
  unfold Jpeg_WriteExifIFD, begin_ifd, JPEG_WRITE_DATA, mbind, W_bind.
  destruct (Jpeg_SetWritePos b c) as [[? c1]|]; [|done]. cbn [mbind option_bind].
  destruct (Jpeg_WriteW 24 c1) as [[[] c2]|]; [|done|done]. cbn [mbind option_bind].
  destruct (Jpeg_GetWritePos c2) as [[pos c3]|]; [|done]. cbn [mbind option_bind].
  unfold ifd0_fields. by rewrite and_fields_app.
Qed.

Lemma ifd0_produces : 0 <= ifh <= b → Forall proper ifd0_fields →
  (∀ s, spec = Some s → Forall proper (spec_fields_before s) ∧ Forall proper (spec_fields_after s)) →
  (∀ g, gps = Some g → Forall proper (gps_fields g)) →
  (∀ i, inter = Some i → Forall proper (interoperability_fields i)) →
  produces (Jpeg_WriteExifIFD primary spec gps inter None is_next ifh b) b ifd0_end
    (λ m, read_ifd ifh b m = Some (ifd0_entries, u32 (if is_next then u32 (ifd0_end - ifh) else 0))
          ∧ sub_holds spec spec_holds ifd0_values m ∧ sub_holds gps gps_holds ifd0_gps_values m).
Proof.
  intros Hifh Hp Hs Hg Hi. pose proof (values_start_le 24 b ltac:(lia)) as V0.
  pose proof (next_values_le (entries_of ifd0_fields) (values_start 24 b)) as V1. fold ifd0_values in V1.
  pose proof (sub_end_le spec (λ s b, spec_end b s inter) ifd0_values spec_end_le) as V2. fold ifd0_gps_values in V2.
  pose proof (sub_end_le gps gps_end ifd0_gps_values gps_end_le) as V3. fold ifd0_end in V3.
  pose proof (align4_bounds ifd0_values) as B1. pose proof (align4_bounds ifd0_gps_values) as B2.
  pose proof (entries_of_length ifd0_fields) as L1. rewrite ifd0_fields_count in L1.
  set (es1 := entries_of ifd0_fields) in *.
  pose proof (sub_entries_length ifh spec IFD_EXIFIFDPOINTER ifd0_values) as L2.
  pose proof (sub_entries_length ifh gps IFD_GPSIFDPOINTER ifd0_gps_values) as L3.
  set (es2 := sub_entries spec IFD_EXIFIFDPOINTER ifh ifd0_values) in *.
  set (es3 := sub_entries gps IFD_GPSIFDPOINTER ifh ifd0_gps_values) in *.
  set (n1 := Z.of_nat (length es1)) in *. set (n2 := Z.of_nat (length es2)) in *. set (n3 := Z.of_nat (length es3)) in *.
  set (s0 := first_state b 24). set (s1 := after es1 s0).
  set (s2 := Ifd_state (ifd_offset s1 + 12 * n2) ifd0_gps_values (entries s1 + n2)).
  set (s3 := Ifd_state (ifd_offset s2 + 12 * n3) ifd0_end (entries s2 + n3)).
  set (sub_spec := λ s k, and_sub_ifd spec IFD_EXIFIFDPOINTER ifh (λ s, Jpeg_WriteExifSpecInfo s inter ifh) s k).
  set (sub_gps := λ s k, and_sub_ifd gps IFD_GPSIFDPOINTER ifh (λ g, Jpeg_WriteExifGPSInfo g ifh) s k).
  intros m p. rewrite WriteExifIFD_no_thumbnail. revert m p.
  apply (ifd_produces ifh 24 b (λ s k, and_fields ifh ifd0_fields s (λ s, sub_spec s (λ s, sub_gps s k)))
    (λ s, if is_next then u32 (ifd_value_offset s - ifh) else 0) s3); try lia.
  { unfold ifd0_entries. fold es1 es2 es3. rewrite !length_app. lia. }
  { change (values_start 24 b <= ifd0_end). lia. }
  fold s0. assert (I0 : ifd_offset s0 = b + 2) by reflexivity.
  assert (W0 : ifd_value_offset s0 = values_start 24 b) by reflexivity.
  assert (N0 : entries s0 = 0) by reflexivity. assert (I1 : ifd_offset s1 = b + 2 + 12 * n1) by reflexivity.
  assert (W1 : ifd_value_offset s1 = ifd0_values) by reflexivity. assert (N1 : entries s1 = n1) by reflexivity.
  assert (I2 : ifd_offset s2 = b + 2 + 12 * n1 + 12 * n2) by reflexivity. assert (N2 : entries s2 = n1 + n2) by reflexivity.
  assert (I3 : ifd_offset s3 = b + 2 + 12 * n1 + 12 * n2 + 12 * n3) by reflexivity.
  assert (W2 : ifd_value_offset s2 = ifd0_gps_values) by reflexivity. assert (W3 : ifd_value_offset s3 = ifd0_end) by reflexivity.
  assert (N3 : entries s3 = n1 + n2 + n3) by reflexivity.
  clearbody s0 s1 s2 s3.
  eapply advances_imp; [reflexivity| |eapply (advances_trans _ _ (λ s k, sub_spec s (λ s, sub_gps s k)) s0 s1);
    [| |eapply (and_fields_to _ _ s0 s1 es1 (values_start 24 b))|eapply (advances_trans _ _ sub_gps s1 s2);
      [| |eapply (and_sub_ifd_ok _ _ spec _ s1 s2 es2 ifd0_values (λ s b, spec_end b s inter) spec_holds)
         |eapply (and_sub_ifd_ok _ _ gps _ s2 s3 es3 ifd0_gps_values gps_end gps_holds)]]];
    unfold room; try lia; try exact eq_refl.
  - intros m (_ & H). exact H.
  - exact W1.
  - exact Hp.
  - exact W2.
  - by vm_compute.
  - intros s Es. destruct (Hs s Es). split; [apply spec_end_le|]. apply spec_produces; [lia|assumption..].
  - exact W3.
  - by vm_compute.
  - intros g Eg. split; [apply gps_end_le|]. apply gps_produces; [lia|by apply Hg].
Qed.
End ifd0.

(** IFD1 at [b], the directory of the thumbnail. *)
Section ifd1.
Context (ifh b : Z) (primary : EXIF_PRIMARY_INFO_T) (buf : bytes) (n : Z).
Definition ifd1_values : Z := next_values (entries_of (primary_fields_before primary)) (values_start 24 b).
Definition ifd1_thumbnail : Z := next_values (entries_of (primary_fields_after primary)) ifd1_values.
Definition ifd1_entries : list entry :=
  entries_of (primary_fields_before primary)
  ++ jif_entry (ifd1_thumbnail - ifh) :: jif_length n :: entries_of (primary_fields_after primary).

Lemma ifd1_produces : 0 <= ifh <= b → 0 < n → n <= Z.of_nat (length buf) → wf_bytes buf →
  Forall proper (primary_fields_before primary) → Forall proper (primary_fields_after primary) →
  produces (Jpeg_WriteExifIFD primary None None None (Some (Thumbnail (Some buf) n)) false ifh b) b
    (ifd1_thumbnail + n)
    (λ m, read_ifd ifh b m = Some (ifd1_entries, 0) ∧ has m ifd1_thumbnail (take (Z.to_nat n) buf)).
Proof.
  intros Hifh Hn Hl Wf Hb Ha. pose proof (values_start_le 24 b ltac:(lia)) as V0.
  pose proof (next_values_le (entries_of (primary_fields_before primary)) (values_start 24 b)) as V1. fold ifd1_values in V1.
  pose proof (next_values_le (entries_of (primary_fields_after primary)) ifd1_values) as V2. fold ifd1_thumbnail in V2.
  pose proof (entries_of_length (primary_fields_before primary)) as L1.
  pose proof (entries_of_length (primary_fields_after primary)) as L3.
  pose proof (ifd0_fields_count primary) as L. unfold ifd0_fields in L. rewrite length_app in L.
  set (es1 := entries_of (primary_fields_before primary)) in *. set (es3 := entries_of (primary_fields_after primary)) in *.
  set (n1 := Z.of_nat (length es1)) in *. set (n3 := Z.of_nat (length es3)) in *.
  set (th := Some (Thumbnail (Some buf) n)). set (s0 := first_state b 24). set (s1 := after es1 s0).
  set (s3 := Ifd_state (ifd_offset s1 + 24 + 12 * n3) (ifd1_thumbnail + n) (entries s1 + 2 + n3)).
  apply (ifd_produces ifh 24 b (λ s k, and_fields ifh (primary_fields_before primary) s (λ s,
    thumbnail_body ifh th (primary_fields_after primary) s k)) (λ _, 0) s3); try lia.
  { unfold ifd1_entries. fold es1 es3. rewrite !length_app. cbn [length]. lia. }
  { change (values_start 24 b <= ifd1_thumbnail + n). lia. }
  fold s0. assert (I0 : ifd_offset s0 = b + 2) by reflexivity.
  assert (W0 : ifd_value_offset s0 = values_start 24 b) by reflexivity.
  assert (N0 : entries s0 = 0) by reflexivity. assert (I1 : ifd_offset s1 = b + 2 + 12 * n1) by reflexivity.
  assert (W1 : ifd_value_offset s1 = ifd1_values) by reflexivity. assert (N1 : entries s1 = n1) by reflexivity.
  assert (I3 : ifd_offset s3 = ifd_offset s1 + 24 + 12 * n3) by reflexivity.
  assert (W3 : ifd_value_offset s3 = ifd1_thumbnail + n) by reflexivity.
  pose proof (thumbnail_body_advances ifh buf n (primary_fields_after primary) s1 Hn Hl Wf Ha) as A.
  fold es3 in A. rewrite W1 in A. change (next_values es3 ifd1_values) with ifd1_thumbnail in A. fold n3 th s3 in A.
  clearbody s0 s1 s3.
  eapply advances_imp; [reflexivity| |eapply (advances_trans _ _ (λ s k,
    thumbnail_body ifh th (primary_fields_after primary) s k) s0 s1); [| |eapply (and_fields_to _ _ s0 s1 es1 (values_start 24 b))
    |apply A]]; unfold room; try lia; try exact eq_refl.
  - intros m (_ & H). exact H.
  - exact W1.
  - exact Hb.
Qed.
End ifd1.
