(* ===== verification/ExifFields.v ===== *)
(** * The structures a caller fills in

    [wf_exif] is what the types of jpeg_exif_header.h and their use as C strings and
    arrays promise of a caller's structures.  Then every field the writer's tables
    select has a value ([fits]), and each directory has a largest size. *)
From S2P Require Import Prelude ExifStream ExifTypes ExifWriter ExifRead ExifRound.

(** ** Well-formed structures *)

Definition is_u8b (b : Z) : bool := (0 <=? b) && (b <? 2 ^ 8).
Definition wf_array (n : nat) (s : bytes) : bool := (length s =? n)%nat && forallb is_u8b s.

(** A string in an array of [MAX_ASCII_STR_SIZE], which ends if it is used. *)
Definition wf_string (valid : bool) (s : bytes) : bool :=
  wf_array MAX_ASCII_STR_SIZE s && (negb valid || existsb (Z.eqb 0) s).

(** An array of components of [n] bytes in the 256 bytes of an [EXIF_CUSTOM_T]. *)
Definition wf_custom (n : Z) (c : EXIF_CUSTOM_T) : bool :=
  wf_array 256 (custom_ptr c) && (0 <=? custom_count c) && (n * custom_count c <=? 256).

Definition if_some {A} (p : A → bool) (o : option A) : bool := match o with Some a => p a | None => true end.

Definition wf_desc (d : EXIF_PRI_DESC_T) : bool :=
  wf_array 20 (DateTime d) && wf_string (valid_ImageDescription (desc_valid d)) (ImageDescription d)
  && wf_string (valid_Make (desc_valid d)) (Make d) && wf_string (valid_Model (desc_valid d)) (Model d)
  && wf_string (valid_Software (desc_valid d)) (Software d) && wf_string (valid_Artist (desc_valid d)) (Artist d)
  && wf_string (valid_Copyright (desc_valid d)) (Copyright d).

Definition wf_char (c : EXIF_PRI_DATA_CHAR_T) : bool :=
  (length (TransferFunction c) =? 768)%nat && (length (WhitePoint c) =? 2)%nat
  && (length (PrimaryChromaticities c) =? 6)%nat && (length (YCbCrCoefficients c) =? 3)%nat
  && (length (ReferenceBlackWhite c) =? 6)%nat.

Definition wf_primary (p : EXIF_PRIMARY_INFO_T) : bool :=
  if_some wf_desc (img_desc_ptr p) && if_some wf_char (data_char_ptr p).

(** [SubjectArea] has no value the writer could write: see [subject_area_short]. *)
Definition wf_pic (p : EXIF_SPEC_PIC_TAKING_COND_T) : bool :=
  wf_string (valid_SpectralSensitivity (pic_valid p)) (SpectralSensitivity p)
  && wf_custom 2 (ISOSpeedRatings p) && wf_custom 1 (OECF p)
  && negb (valid_SubjectArea (pic_valid p) && (0 <? custom_count (SubjectArea p)))
  && wf_custom 1 (SpatialFrequencyResponse p) && (length (SubjectLocation p) =? 2)%nat
  && wf_custom 1 (CFAPattern p) && wf_custom 1 (DeviceSettingDescription p).

Definition wf_dates (d : EXIF_SPEC_DATE_TIME_T) : bool :=
  wf_array 20 (DateTimeOriginal d) && wf_array 20 (DateTimeDigitized d)
  && wf_string (valid_SubSecTime (date_time_valid d)) (SubSecTime d)
  && wf_string (valid_SubSecTimeOriginal (date_time_valid d)) (SubSecTimeOriginal d)
  && wf_string (valid_SubSecTimeDigitized (date_time_valid d)) (SubSecTimeDigitized d).

Definition wf_spec (s : EXIF_SPECIFIC_INFO_T) : bool :=
  wf_array 4 (ComponentsConfiguration (spec_basic s))
  && if_some (λ u, wf_custom 1 (MakerNote u) && wf_custom 1 (UserComment u)) (user_ptr s)
  && if_some (λ f, wf_array 13 (RelatedSoundFile f)) (related_file_ptr s)
  && if_some wf_dates (date_time_ptr s) && if_some wf_pic (pic_taking_cond_ptr s)
  && if_some (λ o, wf_array 33 (ImageUniqueID o)) (other_ptr s).

Definition wf_gps (g : EXIF_GPS_INFO_T) : bool :=
  wf_array 4 (GPSVersionID g) && wf_array 2 (GPSLatitudeRef g) && (length (GPSLatitude g) =? 3)%nat
  && wf_array 2 (GPSLongitudeRef g) && (length (GPSLongitude g) =? 3)%nat && (length (GPSTimeStamp g) =? 3)%nat
  && wf_string (valid_GPSSatellites (gps_valid g)) (GPSSatellites g) && wf_array 2 (GPSStatus g)
  && wf_array 2 (GPSMeasureMode g) && wf_array 2 (GPSSpeedRef g) && wf_array 2 (GPSTrackRef g)
  && wf_array 2 (GPSImgDirectionRef g) && wf_string (valid_GPSMapDatum (gps_valid g)) (GPSMapDatum g)
  && wf_array 2 (GPSDestLatitudeRef g) && (length (GPSDestLatitude g) =? 3)%nat
  && wf_array 2 (GPSDestLongitudeRef g) && (length (GPSDestLongitude g) =? 3)%nat
  && wf_array 2 (GPSDestBearingRef g) && wf_array 2 (GPSDestDistanceRef g)
  && wf_custom 1 (GPSProcessingMethod g) && wf_custom 1 (GPSAreaInformation g) && wf_array 11 (GPSDateStamp g).

Definition wf_exif (x : JINF_EXIF_INFO_T) : bool :=
  wf_primary (primary x) && if_some wf_spec (spec_ptr x) && if_some wf_gps (gps_ptr x)
  && if_some (λ i, wf_custom 1 (InteroperabilityIndex i)) (inter_ptr x).

(** ** Values *)

(** A field that is written has a value, of at most [cap] bytes after alignment. *)
Definition fits (cap : Z) (f : field) : Prop :=
  f_guard f = true → ∃ e, gives f e ∧ align4 (data_size e) <= cap.

Lemma is_u8b_ok b : is_u8b b = true → is_u8 b.
Proof. unfold is_u8b, is_u8. intros. bsplit. lia. Qed.

Lemma wf_array_ok n s : wf_array n s = true → length s = n ∧ wf_bytes s.
Proof.
  unfold wf_array. intros [H1 H2]%andb_prop. apply Nat.eqb_eq in H1. split; [done|].
  apply Forall_forall. intros b Hb. apply is_u8b_ok. rewrite forallb_forall in H2. by apply H2.
Qed.

Lemma converted_byte n s : (n <= length s)%nat → wf_bytes s →
  converted read_byte (λ b, [u8 b]) n s = Some (take n s).
Proof.
  revert s. induction n as [|n IH]; intros [|b s] H W; simpl in H; try lia; [done..|].
  apply wf_cons in W as [Hb W]. cbn [converted read_byte mbind option_bind]. rewrite IH by (done || lia).
  cbn [mbind option_bind app take]. by rewrite u8_id.
Qed.

Lemma converted_app read enc mem l rest :
  (∀ v rest, ∃ w, read (mem v ++ rest) = Some (w, rest) ∧ enc w = enc v) →
  converted read enc (length l) (flat_map mem l ++ rest) = Some (flat_map enc l).
Proof.
  intros H. induction l as [|v l IH]; [done|]. cbn [flat_map length converted]. rewrite <- app_assoc.
  destruct (H v (flat_map mem l ++ rest)) as (w & -> & E). cbn [mbind option_bind]. rewrite IH. by rewrite E.
Qed.

Lemma u8_shiftr_u16 z k : 0 <= k <= 8 → u8 (Z.shiftr (u16 z) k) = u8 (Z.shiftr z k).
Proof.
  intros. unfold u8, u16. apply Z.bits_inj'. intros i Hi.
  destruct (Z.lt_ge_cases i 8); [|by rewrite !Z.mod_pow2_bits_high by lia].
  rewrite !Z.mod_pow2_bits_low, !Z.shiftr_spec by lia. by rewrite Z.mod_pow2_bits_low by lia.
Qed.

Lemma be16_u16 z : be16 (u16 z) = be16 z.
Proof.
  pose proof (u8_shiftr_u16 z 0) as E. rewrite !Z.shiftr_0_r in E. unfold be16. by rewrite u8_shiftr_u16, E by lia.
Qed.

Lemma converted_shorts l : converted read_short be16 (length l) (mem_shorts l) = Some (flat_map be16 l).
Proof.
  rewrite <- (app_nil_r (mem_shorts l)). apply converted_app. intros v rest. exists (u16 v).
  split; [apply read_short_le16|apply be16_u16].
Qed.

Lemma converted_longs l : converted read_long be32 (length l) (flat_map le32 l) = Some (flat_map be32 l).
Proof.
  rewrite <- (app_nil_r (flat_map le32 l)). apply converted_app. intros v rest. exists (u32 v).
  split; [apply read_long_le32|apply be32_u32].
Qed.

(** The two longs of each rational. *)
Definition longs_of (l : list EXIF_RATIONAL_T) : list Z := flat_map (λ r, [numerator r; denominator r]) l.

Lemma mem_rationals_longs l : mem_rationals l = flat_map le32 (longs_of l).
Proof.
  induction l as [|r l IH]; [done|]. change (mem_rationals (r :: l)) with (mem_rational r ++ mem_rationals l).
  by rewrite IH.
Qed.

Lemma longs_of_length l : length (longs_of l) = (2 * length l)%nat.
Proof.
  induction l as [|r l IH]; [done|]. change (longs_of (r :: l)) with (numerator r :: denominator r :: longs_of l).
  cbn [length]. lia.
Qed.

Lemma flat_map_length_le {A} (f : A → bytes) k l : (∀ a, length (f a) = k) → length (flat_map f l) = (length l * k)%nat.
Proof. intros H. induction l as [|a l IH]; [done|]. cbn [flat_map length]. rewrite length_app, IH, H. lia. Qed.

Lemma flat_map_wf {A} (f : A → bytes) l : (∀ a, wf_bytes (f a)) → wf_bytes (flat_map f l).
Proof. intros H. induction l as [|a l IH]; [constructor|]. cbn [flat_map]. by apply wf_app. Qed.

Lemma le16_bytes z : wf_bytes (le16 z).
Proof. repeat constructor; apply u8_range. Qed.

Lemma take_size n (s : bytes) : (n <= length s)%nat → Z.of_nat (length (take n s)) = Z.of_nat n.
Proof. rewrite length_take. lia. Qed.

Lemma align4_le a b : a <= b → align4 a <= align4 b.
Proof. unfold align4. Z.to_euclidean_division_equations. lia. Qed.

(** ** Fields of each shape *)

(** A tag is a constant. *)
Definition is_tag (t : Z) : bool := (0 <=? t) && (t <? 2 ^ 16).

Lemma is_tag_ok t : is_tag t = true → is_u16 t.
Proof. unfold is_tag, is_u16. intros. bsplit. lia. Qed.

Section shapes.
Context (g : bool) (t : Z) (Ht : is_tag t = true).
Local Hint Resolve is_tag_ok : core.

(** The value of a field, and what remains to be shown for it to fit. *)
Lemma fits_intro cap f e :
  f_count f = Some (e_count e) → f_tag f = e_tag e → f_type f = e_type e →
  field_bytes f (e_count e) = Some (e_data e) → kind_fits (f_kind f) (f_type f) (e_count e) = true →
  is_tag (e_tag e) = true → 0 < e_count e < 2 ^ 32 → wf_bytes (f_value f) →
  match f_init f with OffsetInit => True | ShortInit _ => f_kind f = ShortIFD ∧ e_count e <= 2 end →
  align4 (data_size e) <= cap → fits cap f.
Proof using Type. intros. intros _. exists e. split; [|done]. split; auto. Qed.

Lemma fits_rationals ty l n c : (ty =? IFD_RATIONAL) || (ty =? IFD_SRATIONAL) = true →
  (length l =? n)%nat = true → c = Z.of_nat n → (0 <? c) && (c <? 2 ^ 28) = true →
  fits (8 * c) (Field g t ty (Some c) OffsetInit (mem_rationals l) RationalIFD).
Proof using Ht.
  intros Ty Hl -> Hn. bsplit. apply Nat.eqb_eq in Hl. subst n. rewrite mem_rationals_longs.
  eapply (fits_intro _ _ (Entry t ty (Z.of_nat (length l)) (flat_map be32 (longs_of l)))); try done; cbn -[Z.mul].
  - rewrite Nat2Z.id, Nat.add_0_r. replace (length l + length l)%nat with (length (longs_of l))
      by (rewrite longs_of_length; lia). apply converted_longs.
  - lia.
  - apply flat_map_wf, le32_bytes.
  - unfold data_size. cbn [e_data]. rewrite (flat_map_length_le _ 4) by done. rewrite longs_of_length.
    unfold align4. Z.to_euclidean_division_equations. lia.
Qed.

Lemma fits_rational ty r : (ty =? IFD_RATIONAL) || (ty =? IFD_SRATIONAL) = true →
  fits 8 (Field g t ty (Some 1) OffsetInit (mem_rational r) RationalIFD).
Proof using Ht. intros Ty. pose proof (fits_rationals ty [r] 1 1 Ty eq_refl eq_refl eq_refl) as H.
  unfold mem_rationals in H. cbn [flat_map] in H. by rewrite app_nil_r in H. Qed.

Lemma fits_shorts l n c : (length l =? n)%nat = true → c = Z.of_nat n → (0 <? c) && (c <? 2 ^ 28) = true →
  fits (align4 (2 * c)) (Field g t IFD_SHORT (Some c) OffsetInit (mem_shorts l) ShortIFD).
Proof using Ht.
  intros Hl -> Hn. bsplit. apply Nat.eqb_eq in Hl. subst n.
  eapply (fits_intro _ _ (Entry t IFD_SHORT (Z.of_nat (length l)) (flat_map be16 l))); try done; cbn -[Z.mul].
  - by rewrite Nat2Z.id, converted_shorts.
  - lia.
  - apply flat_map_wf, le16_bytes.
  - apply align4_le. unfold data_size. cbn [e_data]. rewrite (flat_map_length_le _ 2) by done. lia.
Qed.

Lemma fits_short i v : fits 4 (Field g t IFD_SHORT (Some 1) i (mem_short v) ShortIFD).
Proof using Ht.
  eapply (fits_intro _ _ (Entry t IFD_SHORT 1 (be16 v))); try done; cbn -[Z.mul].
  - pose proof (converted_shorts [v]) as E. unfold mem_shorts in E. cbn [flat_map length] in E.
    rewrite !app_nil_r in E. change (Z.to_nat 1) with 1%nat. by rewrite E.
  - apply le16_bytes.
  - by destruct i.
Qed.

Lemma fits_long v : fits 4 (Field g t IFD_LONG (Some 1) OffsetInit (mem_long v) LongIFD).
Proof using Ht. intros _. exists (pointer_entry t v). split; [by apply long_field_gives, is_tag_ok|done]. Qed.

(** A LONG entry written by [Jpeg_WriteShortIFD] has the low half of its value. *)
Lemma long_as_short_gives v :
  gives (Field g t IFD_LONG (Some 1) OffsetInit (mem_long v) ShortIFD) (pointer_entry t (u16 v)).
Proof using Ht.
  split; try done; cbn -[Z.mul]; [|by apply is_tag_ok|apply le32_bytes].
  unfold field_bytes. cbn [f_kind f_value e_count e_data pointer_entry f_type]. change (Z.to_nat 1) with 1%nat.
  cbn [converted mem_long le32 read_short mbind option_bind]. rewrite le16_number. f_equal.
  unfold be32, be16. cbn [app]. pose proof (u16_range v) as R. unfold is_u16 in R.
  rewrite !Z.shiftr_div_pow2 by lia. rewrite (Z.div_small (u16 v) (2 ^ 24)), (Z.div_small (u16 v) (2 ^ 16)) by lia.
  done.
Qed.

Lemma fits_long_as_short v : fits 4 (Field g t IFD_LONG (Some 1) OffsetInit (mem_long v) ShortIFD).
Proof using Ht. intros _. eexists. split; [apply long_as_short_gives|done]. Qed.

(** The first [c] bytes of [s]. *)
Lemma fits_bytes ty s c cap : (ty =? IFD_BYTE) || (ty =? IFD_ASCII) || (ty =? IFD_UNDEFINED) = true →
  wf_bytes s → 0 < c <= Z.of_nat (length s) → c < 2 ^ 32 → align4 c <= cap →
  fits cap (Field g t ty (Some c) OffsetInit s ByteIFD).
Proof using Ht.
  intros Ty W Hc Hc' Cap. assert (L : Z.of_nat (length (take (Z.to_nat c) s)) = c) by (rewrite take_size by lia; lia).
  eapply (fits_intro _ _ (Entry t ty c (take (Z.to_nat c) s))); try done; cbn -[Z.mul].
  - apply converted_byte; [lia|done].
  - lia.
  - unfold data_size. cbn [e_data]. by rewrite L.
Qed.

Lemma fits_array ty n s c cap : (ty =? IFD_BYTE) || (ty =? IFD_ASCII) || (ty =? IFD_UNDEFINED) = true →
  wf_array n s = true → c = Z.of_nat n → (0 <? c) && (c <? 2 ^ 28) && (align4 c <=? cap) = true →
  fits cap (Field g t ty (Some c) OffsetInit s ByteIFD).
Proof using Ht. intros Ty [L W]%wf_array_ok -> Hn. bsplit. subst n. apply fits_bytes; try done; lia. Qed.

Lemma fits_four ty s : (ty =? IFD_BYTE) || (ty =? IFD_ASCII) || (ty =? IFD_UNDEFINED) = true →
  wf_array 4 s = true → fits 4 (Field g t ty (Some 4) OffsetInit s ByteIFD).
Proof using Ht. intros Ty W. by apply (fits_array ty 4). Qed.

Lemma fits_byte v : fits 4 (Field g t IFD_BYTE (Some 1) OffsetInit (mem_byte v) ByteIFD).
Proof using Ht. apply fits_bytes; try done. repeat constructor; apply u8_range. Qed.

Lemma fits_undefined v : fits 4 (Field g t IFD_UNDEFINED (Some 1) OffsetInit (mem_byte v) ByteIFD).
Proof using Ht. apply fits_bytes; try done. repeat constructor; apply u8_range. Qed.
End shapes.

(** A string that ends has a size below its array's. *)
Lemma string_size s : existsb (Z.eqb 0) s = true → Z.of_nat (length s) < 2 ^ 16 →
  ∃ n, _GetAsciiStringSize s = Some n ∧ 0 <= n < Z.of_nat (length s).
Proof.
  induction s as [|c s IH]; intros H L; [done|]. cbn [existsb _GetAsciiStringSize length] in *.
  destruct (c =? 0) eqn:E; [exists 0; split; [done|lia]|].
  rewrite Z.eqb_sym, E in H. destruct IH as (n & -> & Hn); [done|lia|].
  cbn [mbind option_bind]. exists (n + 1). rewrite u32_id by (unfold is_u32; lia). split; [done|lia].
Qed.

Lemma fits_string g t s : is_tag t = true → wf_string g s = true →
  fits 256 (Field g t IFD_ASCII (ascii_count s) OffsetInit s ByteIFD).
Proof.
  intros Ht [Wa Z]%andb_prop. destruct (wf_array_ok _ _ Wa) as [L W]. intros Hg. cbn [f_guard] in Hg. subst g.
  cbn [negb orb] in Z. destruct (string_size s Z) as (n & E & Hn); [by rewrite L|].
  unfold ascii_count. rewrite E. cbn [mbind option_bind]. assert (N : Z.of_nat (length s) = 256) by (by rewrite L).
  rewrite u32_id by (unfold is_u32; lia). apply (fits_bytes true t Ht IFD_ASCII s (n + 1) 256); try done; try lia.
  etransitivity; [apply (align4_le _ 256)|]; [lia|done].
Qed.

(** A guard that also requires a component. *)
Lemma fits_custom_if g t ty c : is_tag t = true → (ty =? IFD_BYTE) || (ty =? IFD_ASCII) || (ty =? IFD_UNDEFINED) = true →
  wf_custom 1 c = true → (g = true → (0 <? custom_count c) = true) →
  fits 256 (Field g t ty (Some (custom_count c)) OffsetInit (custom_ptr c) ByteIFD).
Proof.
  intros Ht Ty [[Wa H0]%andb_prop H1]%andb_prop Hg. destruct (wf_array_ok _ _ Wa) as [L W].
  destruct g; [|by intros ?]. specialize (Hg eq_refl). bsplit.
  assert (N : Z.of_nat (length (custom_ptr c)) = 256) by (by rewrite L).
  apply fits_bytes; try done; try lia. etransitivity; [apply (align4_le _ 256)|]; [lia|done].
Qed.

Lemma fits_custom g t ty c : is_tag t = true → (ty =? IFD_BYTE) || (ty =? IFD_ASCII) || (ty =? IFD_UNDEFINED) = true →
  wf_custom 1 c = true →
  fits 256 (Field (g && (0 <? custom_count c)) t ty (Some (custom_count c)) OffsetInit (custom_ptr c) ByteIFD).
Proof. intros Ht Ty W. apply fits_custom_if; try done. by intros [_ ?]%andb_prop. Qed.

Lemma fits_custom_only t ty c : is_tag t = true → (ty =? IFD_BYTE) || (ty =? IFD_ASCII) || (ty =? IFD_UNDEFINED) = true →
  wf_custom 1 c = true →
  fits 256 (Field (0 <? custom_count c) t ty (Some (custom_count c)) OffsetInit (custom_ptr c) ByteIFD).
Proof. intros Ht Ty W. by apply fits_custom_if. Qed.

(** The shorts of a custom array, whatever its bytes are. *)
Lemma converted_shorts_bytes n s : (2 * n <= length s)%nat → wf_bytes s →
  ∃ bs, converted read_short be16 n s = Some bs ∧ length bs = (2 * n)%nat.
Proof.
  revert s. induction n as [|n IH]; intros s H W; [by exists []|].
  destruct s as [|b0 [|b1 s]]; simpl in H; try lia. apply wf_cons in W as [H0 W]. apply wf_cons in W as [H1 W].
  destruct (IH s) as (bs & E & L); [lia|done|]. cbn [converted read_short mbind option_bind]. rewrite E.
  eexists. split; [done|]. rewrite length_app, L. simpl. lia.
Qed.

Lemma fits_custom_shorts g t c : is_tag t = true → wf_custom 2 c = true →
  fits 256 (Field (g && (0 <? custom_count c)) t IFD_SHORT (Some (custom_count c)) OffsetInit (custom_ptr c) ShortIFD).
Proof.
  intros Ht [[Wa H0]%andb_prop H1]%andb_prop. destruct (wf_array_ok _ _ Wa) as [L W].
  destruct (g && _) eqn:Hg; [|by intros ?]. bsplit.
  assert (N : Z.of_nat (length (custom_ptr c)) = 256) by (by rewrite L).
  destruct (converted_shorts_bytes (Z.to_nat (custom_count c)) (custom_ptr c)) as (bs & E & Lb); [lia|done|].
  eapply (fits_intro _ _ (Entry t IFD_SHORT (custom_count c) bs)); try done; cbn -[Z.mul].
  - by rewrite E.
  - lia.
  - unfold data_size. cbn [e_data]. rewrite Lb. etransitivity; [apply (align4_le _ 256)|]; [lia|done].
Qed.

Lemma fits_off cap f : f_guard f = false → fits cap f.
Proof. intros H H'. congruence. Qed.

Lemma fits_weaken cap cap' f : fits cap f → cap <= cap' → fits cap' f.
Proof. intros F L Hg. destruct (F Hg) as (e & G & S). exists e. split; [done|lia]. Qed.

Lemma fits_proper cap f : fits cap f → proper f.
Proof. intros F Hg. destruct (F Hg) as (e & G & _). eauto. Qed.

(** ** The tables *)

(** The wf function of a part gives the facts its fields need. *)
Ltac wf_split := repeat match goal with
  | H : (_ && _) = true |- _ => apply andb_prop in H; destruct H
  end.

Ltac fit := first
  [ apply fits_rational; reflexivity | apply fits_short; reflexivity | apply fits_long; reflexivity
  | apply fits_long_as_short; reflexivity | apply fits_byte; reflexivity | apply fits_undefined; reflexivity
  | apply fits_string; [reflexivity|assumption]
  | apply fits_custom; [reflexivity|reflexivity|assumption]
  | apply fits_custom_only; [reflexivity|reflexivity|assumption]
  | apply fits_custom_shorts; [reflexivity|assumption]
  | eapply fits_rationals; [reflexivity|reflexivity|eassumption|reflexivity|reflexivity]
  | eapply fits_array; [reflexivity|reflexivity|eassumption|reflexivity|reflexivity]
  | apply fits_four; reflexivity
  | eapply fits_shorts; [reflexivity|eassumption|reflexivity|reflexivity] ].

(** One field after the other. *)
Ltac fit_table := wf_split; repeat constructor; try (by apply fits_off); fit.

(** The bytes each field may take. *)
Definition primary_caps_before : list Z := [4; 256; 256; 256; 4; 8; 8; 4] ++ [1536; 256; 20; 256; 16; 48].
Definition primary_caps_after : list Z := [24; 4; 4; 4; 48; 256].
Definition spec_caps_before : list Z :=
  [8; 8; 4; 256; 256; 256; 4; 20; 20] ++ [4; 8; 8; 8; 8; 8; 8; 8; 4] ++ [4; 4; 8; 0; 256; 256; 256; 256; 256]
  ++ [4; 4; 4; 4; 16].
Definition spec_caps_after : list Z :=
  [8; 256; 8; 8; 4; 4; 8; 4; 4] ++ [4; 256; 4; 4; 4; 8; 4; 4; 4] ++ [4; 4; 4; 256; 4; 36].
Definition gps_caps : list Z :=
  [4; 4; 24; 4; 24; 4; 8; 24; 256] ++ [4; 4; 8; 4; 8; 4; 8; 4; 8] ++ [256; 4; 24; 4; 24; 4; 8; 4; 8] ++ [256; 256; 12; 4].

Lemma primary_fits p : wf_primary p = true →
  Forall2 fits primary_caps_before (primary_fields_before p) ∧ Forall2 fits primary_caps_after (primary_fields_after p).
Proof.
  destruct p as [basic [ds|] [dc|] [d|] r]; unfold wf_primary, wf_desc, wf_char; cbn [if_some data_char_ptr img_desc_ptr];
    intros; split; repeat apply Forall2_app; unfold primary_fields_before_1, primary_fields_before_2,
    primary_fields_after, primary_fields_after_1; cbn [data_struct_ptr data_char_ptr img_desc_ptr when]; fit_table.
Qed.

Lemma fits_when {A} cap (p : option A) f : (∀ a, p = Some a → fits cap (f a)) → fits cap (when p f).
Proof. destruct p; intros H; [by apply H|by apply fits_off]. Qed.

Lemma subject_area_off c : negb (valid_SubjectArea (pic_valid c) && (0 <? custom_count (SubjectArea c))) = true →
  ∀ cap t ty n i v k, fits cap (Field (valid_SubjectArea (pic_valid c) && (0 <? custom_count (SubjectArea c))) t ty n i v k).
Proof. intros H cap t ty n i v k. apply fits_off. by apply negb_true_iff in H. Qed.

(** The same when the parts of a structure are optional. *)
Ltac fit_when := apply fits_when; let a := fresh "a" in let E := fresh "E" in intros a E;
  repeat match goal with H : if_some _ ?p = true |- _ =>
    first [rewrite E in H; cbn [if_some] in H; unfold wf_pic, wf_dates in H | clear H] end; wf_split.
Ltac fit_table_when := wf_split; repeat constructor; try fit_when; first [fit|apply subject_area_off; assumption].

Lemma spec_before_fits s : wf_spec s = true → Forall2 fits spec_caps_before (spec_fields_before s).
Proof.
  unfold wf_spec. intros W. unfold spec_fields_before. repeat apply Forall2_app.
  - unfold spec_fields_before_1. fit_table_when.
  - unfold spec_fields_before_2. fit_table_when.
  - unfold spec_fields_before_3. fit_table_when.
  - unfold spec_fields_before_4. fit_table_when.
Qed.

Lemma spec_after_fits s : wf_spec s = true → Forall2 fits spec_caps_after (spec_fields_after s).
Proof.
  unfold wf_spec. intros W. unfold spec_fields_after. repeat apply Forall2_app.
  - unfold spec_fields_after_1. fit_table_when.
  - unfold spec_fields_after_2. fit_table_when.
  - unfold spec_fields_after_3. fit_table_when.
Qed.

Lemma gps_fits g : wf_gps g = true → Forall2 fits gps_caps (gps_fields g).
Proof.
  unfold wf_gps. intros W. wf_split. repeat apply Forall2_app.
  - unfold gps_fields_1. fit_table.
  - unfold gps_fields_2. fit_table.
  - unfold gps_fields_3. fit_table.
  - unfold gps_fields_4. fit_table.
Qed.

Lemma inter_fits i : wf_custom 1 (InteroperabilityIndex i) = true → Forall2 fits [256] (interoperability_fields i).
Proof. unfold interoperability_fields. intros W. repeat constructor. fit. Qed.

Lemma fits_propers caps fs : Forall2 fits caps fs → Forall proper fs.
Proof. induction 1; constructor; [by eapply fits_proper|done]. Qed.

(** ** Sizes *)

Definition total (caps : list Z) : Z := foldr Z.add 0 caps.

Lemma next_value_cap e vo cap : align4 vo = vo → align4 (data_size e) <= cap → 0 <= cap →
  align4 (next_value e vo) = next_value e vo ∧ next_value e vo <= vo + cap.
Proof.
  intros A C P. unfold next_value. destruct (inline e); [split; [done|lia]|]. split; [apply align4_idemp|].
  unfold align4 in *. Z.to_euclidean_division_equations. lia.
Qed.

(** The values of a table take at most the sum of its caps. *)
Lemma next_values_caps caps fs vo : Forall2 fits caps fs → Forall (λ c, 0 <= c) caps → align4 vo = vo →
  align4 (next_values (entries_of fs) vo) = next_values (entries_of fs) vo
  ∧ next_values (entries_of fs) vo <= vo + total caps.
Proof.
  intros F. revert vo. induction F as [|cap f caps fs Hf F IH]; intros vo P A; [simpl; split; [done|lia]|].
  apply list.Forall_cons in P as [P0 P]. cbn [total foldr]. fold (total caps).
  destruct (f_guard f) eqn:Hg.
  - destruct (Hf Hg) as (e & G & S). rewrite (entries_of_cons _ _ _ Hg G). unfold next_values. cbn [foldl].
    fold (next_values (entries_of fs) (next_value e vo)).
    destruct (next_value_cap e vo cap A S P0) as [A' L]. destruct (IH _ P A') as [? ?]. split; [done|lia].
  - assert (entries_of (f :: fs) = entries_of fs) as -> by (unfold entries_of; simpl; by rewrite Hg).
    destruct (IH _ P A) as [? ?]. split; [done|lia].
Qed.

Definition aligned (v : Z) : Prop := align4 v = v.

(** The largest sizes of the directories, from their first byte to the end of their values. *)
Definition ifd_room (n : Z) (caps : list Z) : Z := 2 + n * 12 + 4 + 3 + total caps.
Definition inter_room : Z := ifd_room 1 [256].
Definition spec_room : Z := ifd_room 57 (spec_caps_before ++ spec_caps_after) + inter_room.
Definition gps_room : Z := ifd_room 31 gps_caps.
Definition ifd0_room : Z := ifd_room 24 (primary_caps_before ++ primary_caps_after).
Definition exif_room : Z := ifd0_room + spec_room + gps_room.

Lemma total_app c1 c2 : total (c1 ++ c2) = total c1 + total c2.
Proof. induction c1 as [|c c1 IH]; [done|]. cbn [app total foldr] in *. unfold total in *. lia. Qed.

(** A directory with one table of values. *)
Lemma table_end n caps fs b : Forall2 fits caps fs → Forall (λ c, 0 <= c) caps →
  aligned (next_values (entries_of fs) (values_start n b))
  ∧ next_values (entries_of fs) (values_start n b) <= b + ifd_room n caps.
Proof.
  intros F P. destruct (next_values_caps caps fs (values_start n b) F P) as [A L]; [apply align4_idemp|].
  split; [done|]. unfold ifd_room, values_start in *. pose proof (align4_bounds (b + 2 + n * 12 + 4)). lia.
Qed.

Lemma sub_end_room {A} (p : option A) e n vo : 0 <= n → aligned vo →
  (∀ a v, p = Some a → aligned v → aligned (e a v) ∧ e a v <= v + n) →
  aligned (sub_end p e vo) ∧ sub_end p e vo <= vo + n.
Proof.
  intros N Al H. destruct p as [a|]; cbn [sub_end]; [|split; [done|lia]]. rewrite Al. by apply H.
Qed.

Ltac caps_nonneg := repeat constructor; vm_compute; congruence.

Lemma inter_end_room i v : wf_custom 1 (InteroperabilityIndex i) = true →
  aligned (inter_end i v) ∧ inter_end i v <= v + inter_room.
Proof. intros W. apply (table_end 1 [256]); [by apply inter_fits|caps_nonneg]. Qed.

Lemma gps_end_room g v : wf_gps g = true → aligned (gps_end g v) ∧ gps_end g v <= v + gps_room.
Proof. intros W. apply (table_end 31 gps_caps); [by apply gps_fits|caps_nonneg]. Qed.

Lemma spec_end_room s inter v : wf_spec s = true →
  if_some (λ i, wf_custom 1 (InteroperabilityIndex i)) inter = true →
  aligned (spec_end v s inter) ∧ spec_end v s inter <= v + spec_room.
Proof.
  intros W Wi.
  destruct (table_end 57 spec_caps_before (spec_fields_before s) v) as [A1 L1]; [by apply spec_before_fits|caps_nonneg|].
  fold (spec_values v s) in A1, L1.
  destruct (sub_end_room inter inter_end inter_room (spec_values v s)) as [A2 L2]; [by vm_compute|done| |].
  { intros i w -> _. by apply inter_end_room. }
  destruct (next_values_caps spec_caps_after (spec_fields_after s) (sub_end inter inter_end (spec_values v s)))
    as [A3 L3]; [by apply spec_after_fits|caps_nonneg|done|].
  split; [exact A3|]. unfold spec_room, ifd_room in *. rewrite total_app. unfold spec_end. lia.
Qed.

Lemma ifd0_end_room x (b := 18) : wf_exif x = true →
  aligned (ifd0_end b (primary x) (spec_ptr x) (gps_ptr x) (inter_ptr x))
  ∧ ifd0_end b (primary x) (spec_ptr x) (gps_ptr x) (inter_ptr x) <= b + exif_room.
Proof.
  unfold wf_exif. intros W. wf_split.
  destruct (table_end 24 (primary_caps_before ++ primary_caps_after) (ifd0_fields (primary x)) b) as [A1 L1].
  { apply Forall2_app; by apply primary_fits. }
  { caps_nonneg. }
  fold (ifd0_values b (primary x)) in A1, L1.
  destruct (sub_end_room (spec_ptr x) (λ s b, spec_end b s (inter_ptr x)) spec_room (ifd0_values b (primary x)))
    as [A2 L2]; [by vm_compute|done| |].
  { intros s v E _. apply spec_end_room; [by rewrite E in *|done]. }
  fold (ifd0_gps_values b (primary x) (spec_ptr x) (inter_ptr x)) in A2, L2.
  destruct (sub_end_room (gps_ptr x) gps_end gps_room (ifd0_gps_values b (primary x) (spec_ptr x) (inter_ptr x)))
    as [A3 L3]; [by vm_compute|done| |].
  { intros g v E _. apply gps_end_room. by rewrite E in *. }
  split; [exact A3|]. unfold exif_room, ifd0_end. fold ifd0_room in L1. lia.
Qed.
