(* ===== verification/ExifSegment.v ===== *)
(** * The EXIF segment as a whole

    [read_app1] reads an APP1 segment with everything its pointers lead to;
    [segment_of] is what it should find for the structures a caller passes.
    The theorems: [Jpeg_WriteAPP1] writes that segment, the temporary buffer of
    [_jpeg_enc_wexif] is large enough for every caller, and the picture that
    [IMGJPEG_WriteExif] puts together is the source picture with the segment after
    its SOI marker. *)
From S2P Require Import Prelude ExifStream ExifTypes ExifWriter ExifRead ExifRound ExifFields.

(** ** A reader of the segment *)

Definition find_entry (t : Z) (es : list entry) : option entry := find (λ e, e_tag e =? t) es.

(** The number a LONG entry holds. *)
Definition long_of (t : Z) (es : list entry) : option Z := e ← find_entry t es; Some (be_value (e_data e)).

(** The directory an entry points to, if the entry is there. *)
Definition read_sub (ifh t : Z) (es : list entry) (m : bytes) : option (option (list entry)) :=
  match long_of t es with
  | None => Some None
  | Some off => '(es, _) ← read_ifd ifh (ifh + off) m; Some (Some es)
  end.

Record segment := Segment {
  x_length : Z; x_ifd0 : list entry; x_exif : option (list entry); x_inter : option (list entry);
  x_gps : option (list entry); x_ifd1 : option (list entry * bytes) }.

(** IFD1 at [ifh + next] with its thumbnail, unless [next] is 0. *)
Definition read_ifd1 (ifh next : Z) (m : bytes) : option (option (list entry * bytes)) :=
  if next =? 0 then Some None else
  '(es, _) ← read_ifd ifh (ifh + next) m;
  off ← long_of IFD_JPEGINTERCHANGEFORMAT es;
  n ← long_of IFD_JPEGINTERCHANGEFORMATLENGTH es;
  data ← get_bytes m (ifh + off) (Z.to_nat n);
  Some (Some (es, data)).

Definition read_app1 (m : bytes) : option segment :=
  marker ← get_be m 0 2; len ← get_be m 2 2; id ← get_bytes m 4 6;
  order ← get_be m 10 2; magic ← get_be m 12 2; off ← get_be m 14 4;
  if negb ((marker =? 0xffe1) && bool_decide (id = exif_id) && (order =? EXIF_BIG_ENDIAN)
           && (magic =? EXIF_IFH_FIX_VALUE)) then None else
  '(ifd0, next) ← read_ifd 10 (10 + off) m;
  exif ← read_sub 10 IFD_EXIFIFDPOINTER ifd0 m;
  inter ← match exif with Some es => read_sub 10 IFD_INTEROPERABILITYIFDPOINTER es m | None => Some None end;
  gps ← read_sub 10 IFD_GPSIFDPOINTER ifd0 m;
  ifd1 ← read_ifd1 10 next m;
  Some (Segment len ifd0 exif inter gps ifd1).

(** ** What it should find *)

(** The fields of every structure have their values. *)
Definition proper_info (x : JINF_EXIF_INFO_T) : Prop :=
  Forall proper (ifd0_fields (primary x))
  ∧ (∀ s, spec_ptr x = Some s → Forall proper (spec_fields_before s) ∧ Forall proper (spec_fields_after s))
  ∧ (∀ g, gps_ptr x = Some g → Forall proper (gps_fields g))
  ∧ (∀ i, inter_ptr x = Some i → Forall proper (interoperability_fields i)).

(** The thumbnail a caller passes: its bytes, when there are any. *)
Definition thumbnail_of (buf : option bytes) (n : Z) : option bytes :=
  match buf with Some b => if 0 <? n then Some (take (Z.to_nat n) b) else None | None => None end.

Definition wf_thumbnail (buf : option bytes) (n : Z) : Prop :=
  match buf with Some b => n <= Z.of_nat (length b) ∧ wf_bytes b | None => True end.

Definition end0 (x : JINF_EXIF_INFO_T) : Z := ifd0_end 18 (primary x) (spec_ptr x) (gps_ptr x) (inter_ptr x).

(** Where the segment ends. *)
Definition app1_end (x : JINF_EXIF_INFO_T) (thumbnail : option bytes) : Z :=
  match thumbnail with
  | None => end0 x
  | Some t => ifd1_thumbnail (end0 x) ifd1_primary + Z.of_nat (length t)
  end.

Definition segment_of (x : JINF_EXIF_INFO_T) (thumbnail : option bytes) : segment :=
  Segment (app1_end x thumbnail - 2)
    (ifd0_entries 10 18 (primary x) (spec_ptr x) (gps_ptr x) (inter_ptr x))
    (s ← spec_ptr x; Some (spec_entries 10 (align4 (ifd0_values 18 (primary x))) s (inter_ptr x)))
    (s ← spec_ptr x; i ← inter_ptr x; Some (inter_entries i))
    (g ← gps_ptr x; Some (gps_entries g))
    (t ← thumbnail; Some (ifd1_entries 10 (end0 x) ifd1_primary (Z.of_nat (length t)), t)).

(** ** Finding the pointers *)

Definition lacks (t : Z) (fs : list field) : Prop := forallb (λ f, negb (f_tag f =? t)) fs = true.

Lemma find_entries_of t fs es : lacks t fs → find_entry t (entries_of fs ++ es) = find_entry t es.
Proof.
  unfold lacks, find_entry, entries_of. induction fs as [|f fs IH]; intros H; [done|].
  cbn [forallb] in H. apply andb_prop in H as [Ht H]. cbn [omap list_omap].
  destruct (f_guard f); [|by apply IH].
  destruct (field_entry f) as [e|] eqn:E; [|by apply IH]. cbn [app find].
  unfold field_entry in E. apply bind_Some in E as (c & _ & E). apply bind_Some in E as (d & _ & E).
  apply (inj Some) in E as <-. cbn [e_tag]. apply negb_true_iff in Ht. rewrite Ht. by apply IH.
Qed.

Lemma long_of_entries t fs es : lacks t fs → long_of t (entries_of fs ++ es) = long_of t es.
Proof. intros H. unfold long_of. by rewrite find_entries_of. Qed.

Lemma ifd0_lacks primary :
  lacks IFD_EXIFIFDPOINTER (ifd0_fields primary) ∧ lacks IFD_GPSIFDPOINTER (ifd0_fields primary)
  ∧ lacks IFD_JPEGINTERCHANGEFORMAT (primary_fields_before primary)
  ∧ lacks IFD_JPEGINTERCHANGEFORMATLENGTH (primary_fields_before primary).
Proof. destruct primary as [basic [] [] [] ?]; repeat split; reflexivity. Qed.

Lemma spec_lacks spec :
  lacks IFD_INTEROPERABILITYIFDPOINTER (spec_fields_before spec)
  ∧ lacks IFD_INTEROPERABILITYIFDPOINTER (spec_fields_after spec).
Proof. destruct spec as [basic ? [] [] [] [] [] []]; split; reflexivity. Qed.

Lemma find_lacks t fs : lacks t fs → find_entry t (entries_of fs) = None.
Proof. intros H. rewrite <- (app_nil_r (entries_of fs)). by rewrite find_entries_of. Qed.

Lemma find_skip t e es : e_tag e ≠ t → find_entry t (e :: es) = find_entry t es.
Proof. intros H. unfold find_entry. simpl. by rewrite (proj2 (Z.eqb_neq _ _) H). Qed.

Lemma long_of_pointer t off es : is_u32 off → long_of t (pointer_entry t off :: es) = Some off.
Proof.
  intros H. unfold long_of, find_entry. cbn [find e_tag pointer_entry]. rewrite Z.eqb_refl.
  cbn [mbind option_bind e_data pointer_entry]. by rewrite be_value_be32, u32_id.
Qed.

(** The place of a sub-directory, as its pointer gives it. *)
Definition sub_place {A} (p : option A) (ifh vo : Z) : option Z :=
  match p with Some _ => Some (align4 vo - ifh) | None => None end.

Lemma long_of_sub {A} (p : option A) t ifh vo es :
  is_u32 (align4 vo - ifh) → find_entry t es = None → long_of t (sub_entries p t ifh vo ++ es) = sub_place p ifh vo.
Proof.
  intros H F. destruct p; [by apply long_of_pointer|]. unfold long_of. simpl. by rewrite F.
Qed.

Lemma find_other_sub {A} (p : option A) t t' ifh vo es :
  t' ≠ t → find_entry t (sub_entries p t' ifh vo ++ es) = find_entry t es.
Proof. intros H. destruct p; [by apply find_skip|done]. Qed.

Lemma read_sub_place {A} (p : option A) ifh vo (f : A → list entry) t es m :
  long_of t es = sub_place p ifh vo →
  sub_holds p (λ a b m, ∃ n, read_ifd ifh b m = Some (f a, n)) vo m →
  read_sub ifh t es m = Some (f <$> p).
Proof.
  intros E H. unfold read_sub. rewrite E. destruct p as [a|]; [|done]. cbn [sub_place sub_holds] in *.
  replace (ifh + (align4 vo - ifh)) with (align4 vo) by lia. by destruct H as [n ->].
Qed.

Lemma sub_holds_imp {A} (p : option A) (q q' : A → Z → bytes → Prop) vo m :
  (∀ a, p = Some a → q a (align4 vo) m → q' a (align4 vo) m) → sub_holds p q vo m → sub_holds p q' vo m.
Proof. destruct p; simpl; auto. Qed.

(** ** Reading what has been written *)

Section reading.
Context (x : JINF_EXIF_INFO_T) (th : option bytes) (m : bytes).
Definition values0 : Z := ifd0_values 18 (primary x).
Definition gps_values0 : Z := ifd0_gps_values 18 (primary x) (spec_ptr x) (inter_ptr x).

(** IFD0 and its sub-directories are there. *)
Definition ifd0_there : Prop :=
  read_ifd 10 18 m = Some (ifd0_entries 10 18 (primary x) (spec_ptr x) (gps_ptr x) (inter_ptr x),
    u32 (if match th with Some _ => true | None => false end then u32 (end0 x - 10) else 0))
  ∧ sub_holds (spec_ptr x) (spec_holds 10 (inter_ptr x)) values0 m
  ∧ sub_holds (gps_ptr x) (gps_holds 10) gps_values0 m.

(** IFD1 and the thumbnail are there. *)
Definition ifd1_there : Prop :=
  match th with
  | None => True
  | Some t => read_ifd 10 (end0 x) m = Some (ifd1_entries 10 (end0 x) ifd1_primary (Z.of_nat (length t)), 0)
              ∧ has m (ifd1_thumbnail (end0 x) ifd1_primary) t
  end.

Definition app1_header (len : Z) : bytes := [M_MARKER; M_APP1] ++ be16 len ++ exif_id.
Definition ifh_bytes : bytes := be16 EXIF_BIG_ENDIAN ++ be16 EXIF_IFH_FIX_VALUE ++ be32 8.

Lemma values0_le : 18 <= values0.
Proof.
  unfold values0, ifd0_values. pose proof (values_start_le 24 18).
  pose proof (next_values_le (entries_of (ifd0_fields (primary x))) (values_start 24 18)). lia.
Qed.

Lemma gps_values0_le : values0 <= gps_values0.
Proof. apply sub_end_le. intros s v. apply spec_end_le. Qed.

Lemma gps_values0_end0 : gps_values0 <= end0 x.
Proof. apply sub_end_le, gps_end_le. Qed.

Lemma ifd1_thumbnail_le b p : b <= ifd1_thumbnail b p.
Proof.
  unfold ifd1_thumbnail. etransitivity; [|apply next_values_le]. unfold ifd1_values.
  etransitivity; [|apply next_values_le]. pose proof (values_start_le 24 b). lia.
Qed.

Lemma end0_le : end0 x + Z.of_nat (length (default [] th)) <= app1_end x th.
Proof.
  unfold app1_end. destruct th as [t|]; simpl; [|lia]. unfold id.
  pose proof (ifd1_thumbnail_le (end0 x) ifd1_primary). lia.
Qed.

Hypothesis (Hend : app1_end x th <= 65537).

Lemma place_range v : 18 <= v → v <= app1_end x th → is_u32 (align4 v - 10).
Proof using Hend. intros. pose proof (align4_bounds v). unfold is_u32. lia. Qed.

Lemma read_exif_ok : ifd0_there →
  read_sub 10 IFD_EXIFIFDPOINTER (ifd0_entries 10 18 (primary x) (spec_ptr x) (gps_ptr x) (inter_ptr x)) m
  = Some (s ← spec_ptr x; Some (spec_entries 10 (align4 values0) s (inter_ptr x))).
Proof using Hend.
  intros (_ & Hs & _). pose proof values0_le. pose proof gps_values0_le. pose proof gps_values0_end0.
  pose proof end0_le. destruct (ifd0_lacks (primary x)) as (L & _).
  rewrite (read_sub_place (spec_ptr x) 10 values0 (λ s, spec_entries 10 (align4 values0) s (inter_ptr x))).
  - by destruct (spec_ptr x).
  - unfold ifd0_entries. rewrite long_of_entries by done. apply long_of_sub; [apply place_range; lia|].
    rewrite <- (app_nil_r (sub_entries _ _ _ _)). by rewrite find_other_sub.
  - eapply sub_holds_imp; [|exact Hs]. intros s _ [Hr _]. eauto.
Qed.

Lemma read_gps_ok : ifd0_there →
  read_sub 10 IFD_GPSIFDPOINTER (ifd0_entries 10 18 (primary x) (spec_ptr x) (gps_ptr x) (inter_ptr x)) m
  = Some (g ← gps_ptr x; Some (gps_entries g)).
Proof using Hend.
  intros (_ & _ & Hg). pose proof values0_le. pose proof gps_values0_le. pose proof gps_values0_end0.
  pose proof end0_le. destruct (ifd0_lacks (primary x)) as (_ & L & _).
  rewrite (read_sub_place (gps_ptr x) 10 gps_values0 gps_entries).
  - by destruct (gps_ptr x).
  - unfold ifd0_entries. rewrite long_of_entries by done. unfold long_of at 1. rewrite find_other_sub by done.
    fold (long_of IFD_GPSIFDPOINTER). rewrite <- (app_nil_r (sub_entries (gps_ptr x) _ _ _)).
    apply (long_of_sub (gps_ptr x)); [apply place_range; lia|done].
  - eapply sub_holds_imp; [|exact Hg]. intros g _ [Hr _]. eauto.
Qed.

Lemma read_inter_ok s : spec_ptr x = Some s → ifd0_there →
  read_sub 10 IFD_INTEROPERABILITYIFDPOINTER (spec_entries 10 (align4 values0) s (inter_ptr x)) m
  = Some (i ← inter_ptr x; Some (inter_entries i)).
Proof using Hend.
  intros Es (_ & Hs & _). rewrite Es in Hs. destruct Hs as [_ Hi]. pose proof values0_le. pose proof gps_values0_le.
  pose proof gps_values0_end0. pose proof end0_le. destruct (spec_lacks s) as (L1 & L2).
  rewrite (read_sub_place (inter_ptr x) 10 (spec_values (align4 values0) s) inter_entries).
  - by destruct (inter_ptr x).
  - unfold spec_entries. rewrite long_of_entries by done. apply long_of_sub; [|by apply find_lacks].
    assert (B : align4 values0 <= spec_values (align4 values0) s).
    { unfold spec_values. pose proof (values_start_le 57 (align4 values0)).
      pose proof (next_values_le (entries_of (spec_fields_before s)) (values_start 57 (align4 values0))). lia. }
    pose proof (align4_bounds values0). apply place_range; [lia|].
    transitivity gps_values0; [|lia].
    unfold gps_values0, ifd0_gps_values. rewrite Es. cbn [sub_end]. fold values0. unfold spec_end.
    etransitivity; [|apply next_values_le]. apply sub_end_le, inter_end_le.
  - eapply sub_holds_imp; [|exact Hi]. intros i _ [Hr _]. eauto.
Qed.

Lemma read_ifd1_ok : ifd1_there → Z.of_nat (length (default [] th)) < 2 ^ 32 →
  read_ifd1 10 (u32 (if match th with Some _ => true | None => false end then u32 (end0 x - 10) else 0)) m
  = Some (t ← th; Some (ifd1_entries 10 (end0 x) ifd1_primary (Z.of_nat (length t)), t)).
Proof using Hend.
  pose proof values0_le. pose proof gps_values0_le. pose proof gps_values0_end0. pose proof end0_le.
  unfold ifd1_there. destruct th as [t|] eqn:Eth; [|done]. intros [R Ht] Hl. simpl in Hl.
  assert (U : is_u32 (end0 x - 10)) by (unfold is_u32; lia). rewrite !u32_id by (rewrite ?u32_id; done).
  unfold read_ifd1. bdecide. replace (10 + (end0 x - 10)) with (end0 x) by lia. rewrite R. cbn [mbind option_bind].
  destruct (ifd0_lacks ifd1_primary) as (_ & _ & L1 & L2).
  pose proof (ifd1_thumbnail_le (end0 x) ifd1_primary) as B.
  assert (Hb : ifd1_thumbnail (end0 x) ifd1_primary <= 65537) by (unfold app1_end in Hend; lia).
  assert (E1 : long_of IFD_JPEGINTERCHANGEFORMAT (ifd1_entries 10 (end0 x) ifd1_primary (Z.of_nat (length t)))
               = Some (ifd1_thumbnail (end0 x) ifd1_primary - 10)).
  { unfold ifd1_entries. rewrite long_of_entries by done. apply long_of_pointer. unfold is_u32. lia. }
  assert (E2 : long_of IFD_JPEGINTERCHANGEFORMATLENGTH (ifd1_entries 10 (end0 x) ifd1_primary (Z.of_nat (length t)))
               = Some (Z.of_nat (length t))).
  { unfold ifd1_entries. rewrite long_of_entries by done. unfold long_of. rewrite find_skip by done.
    apply (long_of_pointer _ _ (entries_of (primary_fields_after ifd1_primary))). unfold is_u32. lia. }
  rewrite E1, E2.
  cbn [mbind option_bind]. replace (10 + (ifd1_thumbnail (end0 x) ifd1_primary - 10))
    with (ifd1_thumbnail (end0 x) ifd1_primary) by lia. rewrite Nat2Z.id, (has_get _ _ _ Ht). done.
Qed.

(** A memory with all the parts is read as the segment. *)
Lemma read_app1_ok : has m 0 (app1_header (app1_end x th - 2)) → has m 10 ifh_bytes → ifd0_there → ifd1_there →
  Z.of_nat (length (default [] th)) < 2 ^ 32 → read_app1 m = Some (segment_of x th).
Proof using Hend.
  intros Hh Hi H0 H1 Hl. pose proof values0_le. pose proof gps_values0_le. pose proof gps_values0_end0. pose proof end0_le.
  unfold app1_header, ifh_bytes in *. change [M_MARKER; M_APP1] with (be16 0xffe1) in Hh. rewrite !has_app in Hh, Hi.
  destruct Hh as (Hm & Hlen & Hid), Hi as (Ho & Hx & Hoff).
  change (has m 2 (be16 (app1_end x th - 2))) in Hlen. change (has m 4 exif_id) in Hid.
  change (has m 12 (be16 EXIF_IFH_FIX_VALUE)) in Hx. change (has m 14 (be32 8)) in Hoff.
  unfold read_app1. rewrite (get_be16 _ _ _ Hm), (get_be16 _ _ _ Hlen), (has_get _ _ _ Hid : get_bytes m 4 6 = _).
  rewrite (get_be16 _ _ _ Ho), (get_be16 _ _ _ Hx), (get_be32 _ _ _ Hoff).
  cbn [mbind option_bind]. rewrite (u16_id (app1_end x th - 2)) by (unfold is_u16; lia).
  rewrite bool_decide_true by done. change (negb _) with false. cbn iota. change (10 + u32 8) with 18.
  destruct (H0) as (R0 & _). rewrite R0. cbn [mbind option_bind]. rewrite read_exif_ok by done. cbn [mbind option_bind].
  assert (Ei : match (s ← spec_ptr x; Some (spec_entries 10 (align4 values0) s (inter_ptr x))) with
               | Some es => read_sub 10 IFD_INTEROPERABILITYIFDPOINTER es m | None => Some None end
             = Some (s ← spec_ptr x; i ← inter_ptr x; Some (inter_entries i))).
  { destruct (spec_ptr x) as [s|] eqn:Es; [|done]. cbn [mbind option_bind]. by apply read_inter_ok. }
  rewrite Ei. cbn [mbind option_bind]. rewrite read_gps_ok by done. cbn [mbind option_bind].
  rewrite read_ifd1_ok by done. done.
Qed.
End reading.

(** ** Writing it *)

Lemma WriteIFH_produces : produces (Jpeg_WriteIFH 10) 10 18 (λ m, has m 10 ifh_bytes).
Proof.
  intros m p Hl Hb. unfold Jpeg_WriteIFH.
  rewrite (W_bind_eq _ _ _ true (at_pos m 10)) by (apply SetWritePos_at; lia). do 3 write_step.
  assert (Wh : wrote 10 ifh_bytes m m2).
  { eapply wrote_app; [eassumption|]. by eapply wrote_app. }
  exists m2. eexists. destruct Wh as (L & H & A). split; [|split; [done|split; [exact A|]]].
  - by erewrite W_bind_eq by (apply GetWritePos_at; lia).
  - by apply (has_holds m2 10 ifh_bytes).
Qed.

Lemma exif_id_writes : writes (write_values read_byte Jpeg_WriteC 6 exif_id) exif_id.
Proof. by apply (write_values_writes read_byte Jpeg_WriteC (λ b, [u8 b])); [apply WriteC_writes|]. Qed.

Lemma WriteAPP1Header_produces len :
  produces (Jpeg_WriteAPP1Header 0 len) 0 10 (λ m, has m 0 (app1_header len)).
Proof.
  intros m p Hl Hb. unfold Jpeg_WriteAPP1Header.
  rewrite (W_bind_eq _ _ _ true (at_pos m 0)) by (apply SetWritePos_at; lia). do 3 write_step.
  match goal with |- context [JPEG_WRITE_DATA ?act ?e ?k (at_pos ?m ?p)] =>
    destruct (WRITE_DATA_at act exif_id e k m p) as (m' & E & Wi) end.
  { exact exif_id_writes. }
  { lia. }
  { repeat match goal with H : wrote _ _ _ _ |- _ => apply proj1 in H end. cbn [length exif_id be16] in *. lia. }
  rewrite E. clear E.
  assert (Wh : wrote 0 (app1_header len) m m').
  { eapply (wrote_app 0 [_]); [eassumption|]. eapply (wrote_app _ [_]); [eassumption|]. by eapply wrote_app. }
  exists m'. eexists. destruct Wh as (L & H & A). split; [|split; [done|split; [exact A|]]].
  - by erewrite W_bind_eq by (apply GetWritePos_at; cbn [length exif_id]; lia).
  - by apply (has_holds m' 0 (app1_header len)).
Qed.

(** One part after the other. *)
Lemma produces_then act k lo mid hi (Q1 Q2 : bytes → Prop) :
  lo <= mid → mid <= hi → produces act lo mid Q1 → produces (k mid) mid hi Q2 →
  produces (r ← act; match r with Error e => mret (Error e) | Success o => k o end) lo hi (λ m, Q1 m ∧ Q2 m).
Proof.
  intros O1 O2 P1 P2 m p Hl Hb. destruct (P1 m p) as (m1 & p1 & E1 & L1 & A1 & H1); [lia..|].
  destruct (P2 m1 p1) as (m2 & p2 & E2 & L2 & A2 & H2); [lia..|]. exists m2, p2.
  split; [by erewrite W_bind_eq by exact E1|]. split; [congruence|]. split.
  - apply agree_trans with m1; (eapply agree_sub; [|done]); unfold within; lia.
  - intros m' A. split.
    + apply H1. apply agree_trans with m2; (eapply agree_sub; [|done]); unfold within; lia.
    + apply H2. eapply agree_sub; [|exact A]. unfold within. lia.
Qed.

Lemma produces_imp act lo hi hi' (Q Q' : bytes → Prop) :
  hi = hi' → (∀ m, Q m → Q' m) → produces act lo hi Q → produces act lo hi' Q'.
Proof.
  intros <- I P m p Hl Hb. destruct (P m p Hl Hb) as (m' & p' & E & L & A & H). exists m', p'.
  split_and!; try done. intros m'' A'. apply I, H, A'.
Qed.

Lemma ifd1_primary_proper :
  Forall proper (primary_fields_before ifd1_primary) ∧ Forall proper (primary_fields_after ifd1_primary).
Proof. destruct (primary_fits ifd1_primary eq_refl). split; by eapply fits_propers. Qed.

Lemma write_ifds_produces x buf n (th := thumbnail_of buf n) : proper_info x → wf_thumbnail buf n →
  produces (write_ifds x buf n) 10 (app1_end x th) (λ m, has m 10 ifh_bytes ∧ ifd0_there x th m ∧ ifd1_there x th m).
Proof.
  intros (P0 & Ps & Pg & Pi) Wt. pose proof (values0_le x) as V1. pose proof (gps_values0_le x) as V2.
  pose proof (gps_values0_end0 x) as V3. pose proof (end0_le x th) as V4.
  assert (Next : match buf with Some _ => 0 <? n | None => false end
                 = match th with Some _ => true | None => false end).
  { subst th. unfold thumbnail_of. destruct buf; [|done]. by destruct (0 <? n). }
  apply (produces_then _ _ 10 18); [lia|lia|apply WriteIFH_produces|]. rewrite Next.
  apply (produces_then _ _ 18 (end0 x)); [lia|lia| |].
  - apply ifd0_produces; (lia || done).
  - unfold ifd1_there, app1_end. clear Next. subst th. unfold thumbnail_of in *. destruct buf as [b|].
    2: { intros m p _ _. exists m, p. split_and!; try apply agree_refl; done. }
    destruct (0 <? n) eqn:Hn.
    2: { intros m p _ _. exists m, p. split_and!; try apply agree_refl; done. }
    bsplit. destruct Wt as [Hl Wf], ifd1_primary_proper as [Q1 Q2].
    rewrite length_take, Nat.min_l, Z2Nat.id by lia.
    apply (ifd1_produces 10 (end0 x) ifd1_primary b n); (lia || done).
Qed.

Lemma app1_length_id e : 2 <= e <= 65537 → u16 (u16 e - 2) = e - 2.
Proof.
  intros He. destruct (Z.lt_ge_cases e (2 ^ 16)); [by rewrite (u16_id e), u16_id by (unfold is_u16; lia)|].
  assert (e = 65536 ∨ e = 65537) as [-> | ->] by lia; done.
Qed.

(** The segment is written when there is room for it, whatever it is as a 16-bit length. *)
Lemma Jpeg_WriteAPP1_parts x buf n target (th := thumbnail_of buf n) :
  proper_info x → wf_thumbnail buf n → app1_end x th <= Z.of_nat (length target) →
  Z.of_nat (length target) + 3 < 2 ^ 32 →
  ∃ m', Jpeg_WriteAPP1 target (Some x) buf n = Some (Success (u16 (u16 (app1_end x th) - 2) + 2), m')
    ∧ length m' = length target
    ∧ agree (λ i, app1_end x th <= i) target m'
    ∧ (app1_end x th <= 65537 →
       holds_on (within 0 (app1_end x th)) (λ m, has m 0 (app1_header (app1_end x th - 2))
         ∧ read_app1 m = Some (segment_of x th)) m').
Proof.
  intros P Wt Hl Hb. pose proof (values0_le x) as V1. pose proof (gps_values0_le x) as V2.
  pose proof (gps_values0_end0 x) as V3. pose proof (end0_le x th) as V4. set (E := app1_end x th) in *.
  destruct (write_ifds_produces x buf n P Wt target 0) as (m1 & p1 & E1 & L1 & A1 & H1); [fold th E; lia|done|].
  fold th E in E1, A1, H1. set (len := u16 (u16 E - 2)).
  destruct (WriteAPP1Header_produces len m1 p1) as (m2 & p2 & E2 & L2 & A2 & H2); [lia..|].
  exists m2. split; [|split; [congruence|split]].
  - unfold Jpeg_WriteAPP1. rewrite (proj2 (Z.ltb_ge _ _)) by lia. unfold app1_body.
    change (Wctx target (Some 0) None 0 []) with (at_pos target 0).
    rewrite (W_bind_eq _ _ _ _ _ E1). cbn iota zeta. fold len. by rewrite (W_bind_eq _ _ _ _ _ E2).
  - apply agree_trans with m1; (eapply agree_sub; [|done]); unfold within; lia.
  - intros H16 m' A'. destruct (H1 m') as (Hi & H0 & Ht).
    { apply agree_trans with m2; (eapply agree_sub; [|done]); unfold within; lia. }
    assert (Hh : has m' 0 (app1_header (E - 2))).
    { rewrite <- (app1_length_id E) by lia. apply H2. eapply agree_sub; [|exact A']. unfold within. lia. }
    split; [done|]. apply read_app1_ok; try done. fold th E. lia.
Qed.

(** ** For every caller *)

Lemma wf_exif_proper x : wf_exif x = true → proper_info x.
Proof.
  unfold wf_exif. intros W. wf_split. destruct (primary_fits (primary x)) as [F1 F2]; [done|]. split_and!.
  - apply Forall_app. split; by eapply fits_propers.
  - intros s E. rewrite E in *. split; eapply fits_propers; [by apply spec_before_fits|by apply spec_after_fits].
  - intros g E. rewrite E in *. eapply fits_propers. by apply gps_fits.
  - intros i E. rewrite E in *. eapply fits_propers. by apply inter_fits.
Qed.

(** The room for the segment of any caller, less its thumbnail. *)
Definition segment_room : Z := 18 + exif_room + ifd_room 24 (primary_caps_before ++ primary_caps_after).

Lemma app1_end_room x th : wf_exif x = true →
  18 <= app1_end x th <= segment_room + Z.of_nat (length (default [] th)).
Proof.
  intros W. destruct (ifd0_end_room x W) as [_ L0]. fold (end0 x) in L0.
  pose proof (values0_le x). pose proof (gps_values0_le x). pose proof (gps_values0_end0 x). pose proof (end0_le x th).
  split; [lia|]. unfold segment_room. set (caps := primary_caps_before ++ primary_caps_after) in *.
  assert (Nn : 0 <= ifd_room 24 caps) by (by vm_compute). unfold app1_end.
  destruct th as [t|]; [|simpl; lia]. simpl. unfold id.
  destruct (table_end 24 primary_caps_before (primary_fields_before ifd1_primary) (end0 x)) as [A1 L1];
    [by apply primary_fits|caps_nonneg|]. fold (ifd1_values (end0 x) ifd1_primary) in A1, L1.
  destruct (next_values_caps primary_caps_after (primary_fields_after ifd1_primary) (ifd1_values (end0 x) ifd1_primary))
    as [A2 L2]; [by apply primary_fits|caps_nonneg|done|]. fold (ifd1_thumbnail (end0 x) ifd1_primary) in A2, L2.
  unfold caps, ifd_room in *. rewrite total_app in *. lia.
Qed.
