(* ===== verification/ExifPicture.v ===== *)
(** * Adding EXIF data to a picture

    What [Jpeg_WriteAPP1], [IMGJPEG_WriteExif] and [_jpeg_enc_wexif] do for the
    structures [wf_exif] describes: the temporary buffer of the codec is large enough
    for every caller, the answer is the source picture with the segment after its SOI
    marker, and the segment is read back.  Then the cases that go wrong: a segment of
    more than 64 KB, and a temporary buffer of another size. *)
From S2P Require Import Prelude ExifStream ExifTypes ExifWriter ExifRead ExifRound ExifFields ExifSegment.

(** [m] starts with the segment of [x] and the thumbnail [th]. *)
Definition holds_segment (x : JINF_EXIF_INFO_T) (th : option bytes) (m : bytes) : Prop :=
  read_app1 m = Some (segment_of x th).

Lemma app1_written x buf n target (th := thumbnail_of buf n) :
  wf_exif x = true → wf_thumbnail buf n →
  segment_room + Z.of_nat (length (default [] th)) <= Z.of_nat (length target) → Z.of_nat (length target) + 3 < 2 ^ 32 →
  segment_room + Z.of_nat (length (default [] th)) <= 65537 →
  ∃ m', Jpeg_WriteAPP1 target (Some x) buf n = Some (Success (app1_end x th), m') ∧ length m' = length target
    ∧ holds_on (within 0 (app1_end x th)) (λ m, has m 0 (app1_header (app1_end x th - 2))
         ∧ read_app1 m = Some (segment_of x th)) m'.
Proof.
  intros W Wt Hl Hb H16. pose proof (app1_end_room x th W) as R.
  destruct (Jpeg_WriteAPP1_parts x buf n target) as (m' & E & L & _ & H); [by apply wf_exif_proper|done|fold th; lia|done|].
  fold th in E, H. rewrite app1_length_id in E by lia. exists m'. split; [|split; [done|apply H; lia]].
  rewrite E. do 3 f_equal. lia.
Qed.

(** The first [n] bytes of a memory agree with it. *)
Lemma agree_take n (m : bytes) : agree (within 0 (Z.of_nat n)) m (take n m).
Proof.
  intros i [Hi Hn]. unfold byte_at. rewrite (proj2 (Z.leb_le _ _) Hi). apply lookup_take_lt. lia.
Qed.

(** ** The picture *)

(** The SOI marker, as it is at the start of a picture. *)
Definition soi : bytes := [M_MARKER; M_SOI].

(** [IMGJPEG_WriteExif] with a target buffer before the picture. *)
Section memory.
Context (x : JINF_EXIF_INFO_T) (buf : option bytes) (n src target size : Z) (temp mem : bytes).
Definition in_param : JINF_WEXIF_IN_PARAM_T := Wexif_in (Some x) src size buf n (Some temp) None target.
Local Abbreviation th := (thumbnail_of buf n).
Local Abbreviation E := (app1_end x th).

Context (Wx : wf_exif x = true) (Wt : wf_thumbnail buf n)
  (Htemp : segment_room + Z.of_nat (length (default [] th)) <= Z.of_nat (length temp))
  (Htemp32 : Z.of_nat (length temp) + 3 < 2 ^ 32)
  (H16 : segment_room + Z.of_nat (length (default [] th)) <= 65537)
  (Htarget : 0 < target < src) (Hsrc : src < 2 ^ 32) (Hsize : 2 <= size)
  (Hmem : Z.of_nat (length mem) = src - target + size).

Lemma write_temp_ok : ∃ m', write_temp_app1 in_param = Some (Success E, m') ∧ length m' = length temp
  ∧ holds_on (within 0 E) (λ m, has m 0 (app1_header (E - 2)) ∧ read_app1 m = Some (segment_of x th)) m'.
Proof using Wx Wt Htemp Htemp32 H16. by apply app1_written. Qed.

Lemma E_room : 18 <= E <= segment_room + Z.of_nat (length (default [] th)).
Proof using Wx. by apply app1_end_room. Qed.

Lemma IMGJPEG_WriteExif_checks :
  IMGJPEG_WriteExif in_param mem =
  '(ret, out, mem) ← JPEG_AddExifToMemory in_param mem;
  Some (Wexif_result (if ret =? 0 then JINF_SUCCESS else JINF_FAILED) out mem []).
Proof using Htarget.
  unfold IMGJPEG_WriteExif. cbn [exif_info_ptr in_param andb wrtie_file_func target_buf_ptr src_jpeg_buf_ptr].
  by bdecide.
Qed.

Lemma WriteExif_ok : E <= src - target → E + size < 2 ^ 32 →
  ∃ app1, IMGJPEG_WriteExif in_param mem = Some (Wexif_result JINF_SUCCESS (Some (Wexif_out (src - E) (E + size)))
      (take (Z.to_nat (src - target - E)) mem ++ soi ++ app1 ++ drop (Z.to_nat (src - target + 2)) mem) [])
    ∧ Z.of_nat (length app1) = E ∧ has app1 0 (app1_header (E - 2)) ∧ read_app1 app1 = Some (segment_of x th).
Proof using Wx Wt Htemp Htemp32 H16 Htarget Hsrc Hsize Hmem.
  intros Hfree Hout. destruct write_temp_ok as (m' & Ew & L & R). pose proof E_room as HE.
  set (app1 := take (Z.to_nat E) m'). assert (La : length app1 = Z.to_nat E) by (unfold app1; rewrite length_take; lia).
  exists app1. split; [|split; [lia|]].
  2: { apply R. unfold app1. replace E with (Z.of_nat (Z.to_nat E)) at 1 by lia. apply agree_take. }
  rewrite IMGJPEG_WriteExif_checks. unfold JPEG_AddExifToMemory. rewrite Ew. cbn [mbind option_bind].
  cbn [src_jpeg_buf_ptr target_buf_ptr in_param src_jpeg_size]. rewrite u32_id by (unfold is_u32; lia).
  rewrite (proj2 (Z.ltb_ge _ _)) by lia. set (off := Z.to_nat (src - E - target)).
  rewrite splice_ok by (cbn [length]; lia). cbn [mbind option_bind].
  rewrite slice_ok by lia. rewrite drop_0. fold app1. cbn [mbind option_bind length].
  assert (Lo : length (take off mem ++ soi) = (off + 2)%nat) by (rewrite length_app, length_take; cbn [length soi]; lia).
  rewrite splice_ok.
  2: { rewrite La, !length_app, length_take, length_drop. cbn [length]. lia. }
  cbn [mbind option_bind]. rewrite u32_id by (unfold is_u32; lia).
  change [M_MARKER; M_SOI] with soi. rewrite !(app_assoc (take off mem) soi), take_app_le, take_ge by lia.
  rewrite drop_app_ge, drop_drop, <- (app_assoc (take off mem)) by lia. cbn [Z.eqb].
  replace (Z.to_nat (src - target - E)) with off by lia. rewrite Lo, La.
  replace (off + 2 + (off + 2 + Z.to_nat E - (off + 2)))%nat with (Z.to_nat (src - target + 2)) by (subst off; lia).
  done.
Qed.

Lemma WriteExif_no_room : src - target < E →
  IMGJPEG_WriteExif in_param mem = Some (Wexif_result JINF_FAILED None mem []).
Proof using Wx Wt Htemp Htemp32 H16 Htarget Hsrc.
  intros Hfree. destruct write_temp_ok as (m' & Ew & _). pose proof E_room as HE.
  rewrite IMGJPEG_WriteExif_checks. unfold JPEG_AddExifToMemory. rewrite Ew. cbn [mbind option_bind].
  cbn [src_jpeg_buf_ptr target_buf_ptr in_param]. rewrite u32_id by (unfold is_u32; lia). by bdecide.
Qed.
End memory.

(** ** What the functions promise *)

(** C3. The EXIF segment is written and read back: for the structures of any caller, in a buffer with room for the
    largest segment, [Jpeg_WriteAPP1] succeeds with the segment's exact length, and a TIFF reader
    that follows the offsets finds in it every entry of IFD0, of the EXIF, GPS and
    interoperability directories, of IFD1, and the thumbnail. *)
Theorem app1_read_back (x : JINF_EXIF_INFO_T) (buf : option bytes) (n : Z) (target : bytes)
    (th := thumbnail_of buf n) :
  wf_exif x = true → wf_thumbnail buf n →
  segment_room + Z.of_nat (length (default [] th)) <= Z.of_nat (length target) → Z.of_nat (length target) + 3 < 2 ^ 32 →
  segment_room + Z.of_nat (length (default [] th)) <= 65537 →
  ∃ m', Jpeg_WriteAPP1 target (Some x) buf n = Some (Success (app1_end x th), m')
    ∧ holds_segment x th m'.
Proof.
  intros W Wt Hl Hb H16. destruct (app1_written x buf n target) as (m' & E & L & H); [done..|].
  exists m'. split; [done|]. apply (holds_here _ _ _ H).
Qed.

Lemma thumbnail_of_length buf n : 0 <= n → Z.of_nat (length (default [] (thumbnail_of buf n))) <= n.
Proof.
  intros Hn. unfold thumbnail_of. destruct buf as [b|]; [|simpl; lia]. destruct (0 <? n); simpl; [|lia].
  unfold id. rewrite length_take. lia.
Qed.

Section codec.
Context (malloc : Z → option bytes).
Hypothesis malloc_size : ∀ n b, malloc n = Some b → Z.of_nat (length b) = n.

(** A request as jpeg_codec.c makes it: addresses of 32 bits, the target buffer before the picture, both in [mem]. *)
Definition wf_request (p : jpeg_enc_exif_param) (mem : bytes) : Prop :=
  (∃ x, exif_ptr p = Some x ∧ wf_exif x = true)
  ∧ wf_thumbnail (thumbnail_addr_virt p) (param_thumbnail_size p)
  ∧ 0 <= param_thumbnail_size p <= 48 * 1024
  ∧ 0 < target_addr_virt p < src_jpeg_addr_virt p ∧ src_jpeg_addr_virt p + param_src_jpeg_size p < 2 ^ 32
  ∧ 2 <= param_src_jpeg_size p < 2 ^ 31
  ∧ Z.of_nat (length mem) = src_jpeg_addr_virt p - target_addr_virt p + param_src_jpeg_size p.

Definition request_thumbnail (p : jpeg_enc_exif_param) : option bytes :=
  thumbnail_of (thumbnail_addr_virt p) (param_thumbnail_size p).

(** C2. Every request is served: the 21 KB and the thumbnail's size that [_jpeg_enc_wexif] allocates hold the
    segment of any caller, and when the target buffer has room before the picture, the output is the source
    picture with the segment between its SOI marker and the rest; nothing before it
    changes, and the segment reads back as the caller's structures.  Without that room
    the answer is a failure and the memory is as it was. *)
Theorem jpeg_enc_wexif_picture (p : jpeg_enc_exif_param) (mem : bytes) (x : JINF_EXIF_INFO_T)
    (e := app1_end x (request_thumbnail p)) (free := src_jpeg_addr_virt p - target_addr_virt p) :
  wf_request p mem → exif_ptr p = Some x → is_Some (malloc (param_thumbnail_size p + 21 * 1024)) →
  if e <=? free
  then ∃ app1, _jpeg_enc_wexif malloc p mem
         = Some (Wexif_result JINF_SUCCESS
             (Some (Wexif_out (src_jpeg_addr_virt p - e) (e + param_src_jpeg_size p)))
             (take (Z.to_nat (free - e)) mem ++ soi ++ app1 ++ drop (Z.to_nat (free + 2)) mem) [])
       ∧ Z.of_nat (length app1) = e ∧ has app1 0 (app1_header (e - 2))
       ∧ read_app1 app1 = Some (segment_of x (request_thumbnail p))
  else _jpeg_enc_wexif malloc p mem = Some (Wexif_result JINF_FAILED None mem []).
Proof using malloc_size.
  intros ((x' & Ex' & Wx) & Wt & Hn & Ht & Hs & Hz & Hm) Ex [temp Et]. assert (x' = x) as -> by congruence.
  pose proof (malloc_size _ _ Et) as Lt. pose proof (thumbnail_of_length (thumbnail_addr_virt p) _ (proj1 Hn)) as Lth.
  pose proof (app1_end_room x (request_thumbnail p) Wx) as R. unfold request_thumbnail in R.
  assert (S : segment_room <= 13 * 1024) by (by vm_compute).
  unfold _jpeg_enc_wexif. rewrite u32_id by (unfold is_u32; lia). rewrite Et, Ex.
  destruct (e <=? free) eqn:F; bsplit; unfold e, free, request_thumbnail in *.
  - apply WriteExif_ok; (lia || done).
  - apply WriteExif_no_room; (lia || done).
Qed.
End codec.

(** ** What goes wrong *)

(** A size of at most 64 KB that differs from [e] by a multiple of 64 KB. *)
Definition cut_off (e size : Z) : Prop := size <= 65537 ∧ (e - size) mod 2 ^ 16 = 0.

(** A segment of more than 64 KB is reported as a shorter one: [app1_length] is 16 bits, so with a large thumbnail
    [Jpeg_WriteAPP1] succeeds with a size that leaves out the end of what it wrote. *)
Theorem app1_length_wraps (x : JINF_EXIF_INFO_T) (buf : option bytes) (n : Z) (target : bytes)
    (e := app1_end x (thumbnail_of buf n)) :
  wf_exif x = true → wf_thumbnail buf n → 65537 < e → e <= Z.of_nat (length target) →
  Z.of_nat (length target) + 3 < 2 ^ 32 →
  ∃ size m', Jpeg_WriteAPP1 target (Some x) buf n = Some (Success size, m') ∧ cut_off e size.
Proof.
  intros W Wt He Hl Hb. destruct (Jpeg_WriteAPP1_parts x buf n target) as (m' & E & _); [by apply wf_exif_proper|done..|].
  fold e in E. eexists _, _. split; [exact E|]. pose proof (u16_range (u16 e - 2)) as R. unfold is_u16 in R.
  split; [lia|]. unfold u16. rewrite (Z.mod_eq e (2 ^ 16)) by lia. set (q := e / 2 ^ 16).
  rewrite (Z.mod_eq (e - 2 ^ 16 * q - 2) (2 ^ 16)) by lia. set (r := (e - 2 ^ 16 * q - 2) / 2 ^ 16).
  replace (e - (e - 2 ^ 16 * q - 2 - 2 ^ 16 * r + 2)) with ((q + r) * 2 ^ 16) by lia. apply Z_mod_mult.
Qed.

(** An array of [MAX_ASCII_STR_SIZE] with a string. *)
Definition c_string (s : bytes) : bytes := s ++ replicate (MAX_ASCII_STR_SIZE - length s) 0.

Definition plain_basic : EXIF_PRI_BASIC_T := Pri_basic 1 (Rational 72 1) (Rational 72 1) 2 2592 1944.

(** A copyright notice only. *)
Definition copyright_info : JINF_EXIF_INFO_T :=
  Exif_info (Primary_info plain_basic None None
    (Some (Pri_desc (Pri_desc_valid false false false false false false true) (replicate 20 0) (c_string [])
      (c_string []) (c_string []) (c_string []) (c_string []) (c_string [65; 66; 67; 68]))) 0) None None None.

(** A temporary buffer that is too small by a few bytes is not always refused: a failure of [Jpeg_WriteByteIFD]
    is [JPEG_FAILED], which its caller takes for true, and the last value's end is rounded up
    past the buffer.  With 333 bytes for a segment of 336 the answer is success with
    [app1_size] 336, and the copy of the segment reads behind the buffer; with 328 bytes the copyright is
    lost, and the segment that is reported does not read back. *)
Theorem app1_size_beyond_buffer :
  wf_exif copyright_info = true ∧ app1_end copyright_info None = 336
  ∧ (∃ m', Jpeg_WriteAPP1 (replicate 333 0) (Some copyright_info) None 0 = Some (Success 336, m') ∧ length m' = 333%nat)
  ∧ (∀ mem, Z.of_nat (length mem) = 900 →
      IMGJPEG_WriteExif (Wexif_in (Some copyright_info) 1400 500 None 0 (Some (replicate 333 0)) None 1000) mem = None)
  ∧ (∃ m', Jpeg_WriteAPP1 (replicate 328 0) (Some copyright_info) None 0 = Some (Success 328, m') ∧ read_app1 m' = None).
Proof.
  split; [by vm_compute|]. split; [by vm_compute|]. split; [eexists; split; vm_compute; reflexivity|]. split.
  - intros mem Hm. unfold IMGJPEG_WriteExif. cbn [exif_info_ptr andb wrtie_file_func target_buf_ptr src_jpeg_buf_ptr].
    change (1000 =? 0) with false. change (1400 <=? 1000) with false. cbn iota.
    unfold JPEG_AddExifToMemory.
    assert (Ew : ∃ m', write_temp_app1 (Wexif_in (Some copyright_info) 1400 500 None 0 (Some (replicate 333 0)) None 1000)
      = Some (Success 336, m') ∧ length m' = 333%nat) by (eexists; split; vm_compute; reflexivity).
    destruct Ew as (m' & -> & L). cbn [mbind option_bind src_jpeg_buf_ptr target_buf_ptr]. change (u32 _ <? 336) with false.
    cbn iota. rewrite splice_ok by (cbn [length]; lia). cbn [mbind option_bind].
    unfold slice. rewrite decide_False by (rewrite L; lia). done.
  - eexists; split; vm_compute; reflexivity.
Qed.

(** A picture taken, with a subject area of two shorts, 100 and 200. *)
Definition area : EXIF_CUSTOM_T := Custom IFD_SHORT ([100; 0; 200; 0] ++ replicate 252 0) 2 4.

(** A subject area is written with the writer of rationals: a list of 16-bit coordinates leaves the entry with
    an offset where the reader expects the coordinates themselves. *)
Theorem subject_area_short :
  ∃ vo i c', write_field 10 (Field true IFD_SUBJECTAREA IFD_SHORT (Some (custom_count area)) OffsetInit (custom_ptr area)
      RationalIFD) (Ifd_state 0 100 0) (at_pos (replicate 200 0) 0) = Some (Some (Ifd_state 12 vo i), c')
    ∧ read_entry 10 0 (write_buf c') ≠ Some (Entry IFD_SUBJECTAREA IFD_SHORT 2 (be16 100 ++ be16 200)).
Proof. eexists _, _, _. split; [vm_compute; reflexivity|by vm_compute]. Qed.

(** ** Examples *)

(** A photograph: description, exposure, position and a thumbnail. *)
Definition photo_desc : EXIF_PRI_DESC_T :=
  Pri_desc (Pri_desc_valid true true true true false false true)
    ([0x32; 0x30; 0x31; 0x33; 0x3a; 0x30; 0x38; 0x3a; 0x31; 0x35; 0x20] ++ [0x31; 0x32; 0x3a; 0x30; 0x30; 0x3a; 0x30; 0x30; 0])
    (c_string [0x68; 0x69]) (c_string [0x53; 0x50; 0x52; 0x44]) (c_string [0x38; 0x38; 0x33; 0x30]) (c_string [])
    (c_string []) (c_string [0x43]).

Definition photo_gps : EXIF_GPS_INFO_T :=
  let text := replicate 2 0 in let r := Rational 0 1 in
  let none := Custom IFD_UNDEFINED (replicate 256 0) 0 0 in
  Gps_info (Gps_valid true true true true true true true true false false false false false false false false false false
      false false false false false false false false false false false true false)
    [2; 2; 0; 0] [0x4e; 0] [Rational 31 1; Rational 12 1; Rational 345 10] [0x45; 0] [Rational 121 1; Rational 35 1; Rational 8 1]
    0 (Rational 15 1) [Rational 12 1; Rational 0 1; Rational 0 1] (c_string []) text text r text r text r text r
    (c_string []) text [r; r; r] text [r; r; r] text r text r none none
    [0x32; 0x30; 0x31; 0x33; 0x3a; 0x30; 0x38; 0x3a; 0x31; 0x35; 0] 0.

Definition photo_spec : EXIF_SPECIFIC_INFO_T :=
  Specific_info (Spec_basic 1 [1; 2; 3; 0] 2592 1944) None None
    (Some (Spec_user (Spec_user_valid false false) (Custom IFD_UNDEFINED (replicate 256 7) 6 6)
      (Custom IFD_UNDEFINED (replicate 256 0) 0 0)))
    None None None None.

Definition photo : JINF_EXIF_INFO_T :=
  Exif_info (Primary_info plain_basic (Some (Pri_data_struct (Pri_data_struct_valid true false) 6 0)) None (Some photo_desc) 0)
    (Some photo_spec) (Some photo_gps) None.

Definition photo_thumbnail : bytes := [0xff; 0xd8; 1; 2; 3; 0xff; 0xd9].

Lemma photo_thumbnail_wf : wf_thumbnail (Some photo_thumbnail) 7.
Proof. split; [by vm_compute|]. by repeat constructor. Qed.

Lemma length_replicate_Z {A} n (a : A) : 0 <= n → Z.of_nat (length (replicate (Z.to_nat n) a)) = n.
Proof. rewrite length_replicate. lia. Qed.

Lemma zeros_wf n : wf_bytes (replicate n 0).
Proof. apply Forall_replicate. by vm_compute. Qed.

Lemma app1_read_back_witness :
  ∃ m', Jpeg_WriteAPP1 (replicate (Z.to_nat 16384) 0) (Some photo) (Some photo_thumbnail) 7
    = Some (Success (app1_end photo (thumbnail_of (Some photo_thumbnail) 7)), m')
    ∧ holds_segment photo (thumbnail_of (Some photo_thumbnail) 7) m'.
Proof.
  assert (R : segment_room <= 13 * 1024) by (by vm_compute). pose proof photo_thumbnail_wf.
  assert (L : Z.of_nat (length (default [] (thumbnail_of (Some photo_thumbnail) 7))) = 7) by done.
  apply app1_read_back; rewrite ?length_replicate_Z, ?L by lia; (lia || done || by vm_compute).
Defined.

Definition photo_request : jpeg_enc_exif_param :=
  Enc_exif_param (Some photo) 8192 10 (Some photo_thumbnail) 7 4096.
Definition photo_memory : bytes := replicate (Z.to_nat 4096) 0 ++ soi ++ [0xff; 0xdb; 0; 2; 1; 2; 3; 4].
Definition example_malloc (n : Z) : option bytes := if n <? 0 then None else Some (replicate (Z.to_nat n) 0).

Lemma example_malloc_size n b : example_malloc n = Some b → Z.of_nat (length b) = n.
Proof. unfold example_malloc. bcase; [done|]. intros [= <-]. rewrite length_replicate. lia. Qed.

Lemma photo_request_wf : wf_request photo_request photo_memory.
Proof.
  split; [exists photo; split; [done|by vm_compute]|]. split; [apply photo_thumbnail_wf|].
  split_and!; vm_compute; congruence.
Qed.

Lemma jpeg_enc_wexif_picture_witness :
  ∃ app1, _jpeg_enc_wexif example_malloc photo_request photo_memory
    = Some (Wexif_result JINF_SUCCESS (Some (Wexif_out (8192 - Z.of_nat (length app1)) (Z.of_nat (length app1) + 10)))
        (take (Z.to_nat (4096 - Z.of_nat (length app1))) photo_memory ++ soi ++ app1 ++ [0xff; 0xdb; 0; 2; 1; 2; 3; 4]) [])
    ∧ read_app1 app1 = Some (segment_of photo (Some photo_thumbnail)).
Proof.
  pose proof (jpeg_enc_wexif_picture example_malloc example_malloc_size photo_request photo_memory photo photo_request_wf
    eq_refl ltac:(eexists; reflexivity)) as H.
  assert (F : (app1_end photo (request_thumbnail photo_request) <=? 8192 - 4096) = true) by (by vm_compute).
  change (src_jpeg_addr_virt photo_request) with 8192 in H. change (target_addr_virt photo_request) with 4096 in H.
  change (param_src_jpeg_size photo_request) with 10 in H.
  cbv zeta in H. rewrite F in H. destruct H as (app1 & E & L & _ & R). exists app1. split; [|exact R].
  rewrite E, L. do 6 f_equal.
Defined.

Lemma app1_length_wraps_witness :
  ∃ size m', Jpeg_WriteAPP1 (replicate (Z.to_nat 100000) 0) (Some photo) (Some (replicate (Z.to_nat 70000) 0)) 70000
    = Some (Success size, m')
    ∧ cut_off (app1_end photo (thumbnail_of (Some (replicate (Z.to_nat 70000) 0)) 70000)) size.
Proof.
  assert (Lb : Z.of_nat (length (replicate (Z.to_nat 70000) 0)) = 70000) by (apply length_replicate_Z; lia).
  pose proof (zeros_wf (Z.to_nat 70000)) as Fb.
  generalize dependent (replicate (Z.to_nat 70000) 0). intros b Lb Fb.
  assert (W : wf_exif photo = true) by (by vm_compute).
  assert (R : segment_room <= 13 * 1024) by (by vm_compute).
  pose proof (app1_end_room photo (thumbnail_of (Some b) 70000) W) as Hr.
  pose proof (end0_le photo (thumbnail_of (Some b) 70000)) as He.
  assert (Lt : Z.of_nat (length (default [] (thumbnail_of (Some b) 70000))) = 70000).
  { unfold thumbnail_of. change (0 <? 70000) with true. simpl. unfold id. rewrite length_take. lia. }
  assert (H0 : 0 <= end0 photo) by (by vm_compute). rewrite Lt in *.
  assert (Wt : wf_thumbnail (Some b) 70000).
  { split; [lia|exact Fb]. }
  assert (Lm : Z.of_nat (length (replicate (Z.to_nat 100000) 0)) = 100000) by (apply length_replicate_Z; lia).
  generalize dependent (replicate (Z.to_nat 100000) 0). intros target Lm.
  exact (app1_length_wraps photo (Some b) 70000 target W Wt ltac:(lia) ltac:(lia) ltac:(lia)).
Defined.
