(* ===== verification/ExifDecode.v ===== *)
(** * A decoder's view of a picture with EXIF data

    The marker loop of JpegParse skips the APP1 segment: what it finds in the picture
    [_jpeg_enc_wexif] puts together is what it finds in the source picture. *)
From stdpp Require Import list numbers.
From S2P Require Import Prelude JpegTables JpegHuff JpegBits JpegEnc JpegHeader JpegParse JpegRound.
From S2P Require Import ExifStream ExifTypes ExifWriter ExifRead ExifRound ExifFields ExifSegment ExifPicture.

(** The outcome of a parse, up to how the bytes left are held. *)
Definition same_outcome (r1 r2 : res unit) : Prop :=
  match r1, r2 with
  | Ok _ t1 c1, Ok _ t2 c2 => c1 = c2 ∧ bytes_of t1 = bytes_of t2 ∧ header_len t1 = header_len t2
  | Failed _ c1, Failed _ c2 => c1 = c2
  | Undef, Undef => True
  | _, _ => False
  end.

Lemma parses_soi c : parses (λ s c, find_soi (S (remaining s)) s c) soi c tt c.
Proof.
  apply (parses_fuel (λ f, find_soi f) 1); [|simpl; lia]. intros [|f] H; [lia|]. cbn [find_soi].
  apply (parses_bind GetNextMarker _ [0xff; 0xd8] []) with 0xd8 c; [by apply parses_marker|]. apply parses_ret.
Qed.

(** A segment with a length of two bytes is skipped. *)
Lemma parses_skip_variable len body c : 2 <= len < 2 ^ 16 → Z.of_nat (length body) = len - 2 →
  parses SkipVariable (be16 len ++ body) c tt c.
Proof.
  intros Hl Hb. unfold SkipVariable, be16. cbn [app]. apply parses_word_bind.
  pose proof (word_back len) as E. rewrite (u16_id len) in E by (unfold is_u16; lia). rewrite E.
  apply parses_check; [apply negb_true_iff, Z.ltb_ge; lia|]. replace (Z.to_nat (len - 2)) with (length body) by lia.
  apply parses_skip.
Qed.

Lemma ParseHead_skips_app1 s0 s1 c len body rest :
  2 <= len < 2 ^ 16 → Z.of_nat (length body) = len - 2 → is_u32 (header_len s1) → is_u32 (header_len s0) →
  bytes_of s0 = soi ++ rest → bytes_of s1 = soi ++ ([M_MARKER; M_APP1] ++ be16 len ++ body) ++ rest →
  header_len s0 = u32 (header_len s1 + 2 + len) → same_outcome (ParseHead s0 c) (ParseHead s1 c).
Proof.
  intros Hl Hb U1 U0 B0 B1 Hh.
  destruct (parses_soi c s0 _ B0 U0) as (t0 & E0 & T0 & L0 & _).
  destruct (parses_soi c s1 _ B1 U1) as (t1 & E1 & T1 & L1 & _).
  assert (V1 : is_u32 (header_len t1)) by (rewrite L1; apply u32_range).
  rewrite <- app_assoc in T1.
  destruct (parses_marker M_APP1 c ltac:(done) ltac:(done) t1 _ T1 V1) as (t2 & E2 & T2 & L2 & _).
  assert (V2 : is_u32 (header_len t2)) by (rewrite L2; apply u32_range).
  destruct (parses_skip_variable len body c Hl Hb t2 rest T2 V2) as (t3 & E3 & T3 & L3 & _).
  assert (F : same_file t0 t3).
  { split; [congruence|]. rewrite L1, u32_succ in L2. rewrite L2, u32_succ in L3.
    rewrite L0, L3, Hh, u32_succ, length_app. f_equal. cbn [length be16 soi]. lia. }
  pose proof (regular_GetNextMarker t1 t1 c (conj eq_refl eq_refl)) as R1. rewrite E2 in R1.
  pose proof (regular_SkipVariable t2 t2 c (conj eq_refl eq_refl)) as R2. rewrite E3 in R2.
  cbn [JpegParse.agree] in R1, R2. destruct R1 as (_ & _ & _ & R1 & _), R2 as (_ & _ & _ & R2 & _).
  assert (A : JpegParse.agree 0 t0 t3 (process_tables (S (remaining t0)) t0 c) (process_tables (remaining t1) t3 c)).
  { apply process_tables_agree; [done|lia|lia]. }
  assert (P1 : ProcessTables t1 c = process_tables (remaining t1) t3 c).
  { unfold ProcessTables. cbn [process_tables]. unfold mbind, parser_bind. rewrite E2. cbn [res_bind].
    change ((M_APP1 =? JpegParse.M_SOI) || _ || _)%bool with false. cbn iota.
    cbn beta. change (dispatch M_APP1 t2 c) with (SkipVariable t2 c). by rewrite E3. }
  assert (K : JpegParse.agree 0 t0 t3 (res_bind (λ c, if c =? M_SOS then GetSOS else failed) (ProcessTables t0 c))
                (res_bind (λ c, if c =? M_SOS then GetSOS else failed) (ProcessTables t1 c))).
  { rewrite P1. apply (agree_bind 0 0); [exact A|]. intros a u1 u2 c' _ F' _ _.
    destruct (a =? M_SOS); [by apply regular_GetSOS|done]. }
  unfold ParseHead, mbind, parser_bind. rewrite E0, E1. cbn [res_bind]. unfold same_outcome.
  destruct (res_bind _ (ProcessTables t0 c)), (res_bind _ (ProcessTables t1 c)); simpl in K; try done.
  destruct K as (_ & ? & [? ?] & _). done.
Qed.

(** ** From the encoder to the decoder *)

Lemma has_prefix m bs : has m 0 bs → ∃ rest, m = bs ++ rest.
Proof.
  intros H. exists (drop (length bs) m). rewrite <- (take_drop (length bs) m) at 1. f_equal.
  apply list_eq. intros i. destruct (decide (i < length bs)%nat) as [L|L].
  - rewrite lookup_take_lt by done. destruct (lookup_lt_is_Some_2 bs i L) as [b E]. rewrite E.
    specialize (H i b E). unfold byte_at in H. rewrite (proj2 (Z.leb_le 0 _)) in H by lia.
    by rewrite Z.add_0_l, Nat2Z.id in H.
  - rewrite (lookup_ge_None_2 bs i) by lia. apply lookup_take_ge. lia.
Qed.

(** An APP1 segment of its own length is one. *)
Lemma skipped_app1 app1 len : 10 <= len + 2 < 2 ^ 16 + 2 → Z.of_nat (length app1) = len + 2 →
  has app1 0 (app1_header len) → skipped app1.
Proof.
  intros Hl La H. destruct (has_prefix _ _ H) as [body ->]. intros rest c a c' n Hr f Hf.
  replace ((app1_header len ++ body) ++ rest) with ([0xff; M_APP1] ++ (be16 len ++ exif_id ++ body) ++ rest)
    by (unfold app1_header; by rewrite <- !app_assoc).
  eapply parses_segment; [done|done|done| |exact Hr|exact Hf].
  change (parses SkipVariable (be16 len ++ exif_id ++ body) c tt c). apply parses_skip_variable; [lia|].
  revert La. unfold app1_header. rewrite !length_app. cbn [length be16 exif_id]. lia.
Qed.

(** What the encoder was set up for, and what the decoder finds. *)
Definition finds (i : enc_input) (k : codec) : Prop :=
  input_width (frm k) = u16 (JpegEnc.in_width i) ∧ input_height (frm k) = u16 (JpegEnc.in_height i)
  ∧ input_mcu_info (frm k) = u8 (yuv_mcu_info (yuv_0_info i)) ∧ progressive_mode (frm k) = false
  ∧ quant_tbl (tbl k) =
      [jpeg_fw_lum_quant_tbl_default !! Z.to_nat (JpegEnc.in_quant_level i);
       jpeg_fw_chr_quant_tbl_default !! Z.to_nat (JpegEnc.in_quant_level i); None]
  ∧ restart_interval (rst k) = (if in_restart_interval i =? 0 then 0x3ffff else u16 (in_restart_interval i)).

Section capture.
Context (bitstream : JpegEnc.writes → bytes).
Hypothesis bitstream_start : bitstream [] = [].
Hypothesis bitstream_put : ∀ ws n v, whole_bytes (n, v) →
  bitstream (ws ++ [(BSM_CFG2, Z.shiftl n 24); (BSM_WDATA, v)]) = bitstream ws ++ be n v.
Context (malloc : Z → option bytes).
Hypothesis malloc_size : ∀ n b, malloc n = Some b → Z.of_nat (length b) = n.

(** C1. A capture with EXIF data, end to end: the header the hardware encoder wrote and any scan data after it lie in
    the picture buffer, [_jpeg_enc_wexif] adds the EXIF segment, and from the address and the
    size it reports the decoder's [JPEG_FWParseHead] accepts the picture, finds the size,
    sampling, quantisers and restart interval the encoder was set up for and stops at the
    scan data, while the bytes after SOI are the caller's EXIF structures and thumbnail. *)
Theorem exif_capture_roundtrip (i : enc_input) (c e : enc_codec) (int_en : Z) (glb rdy : nat → Z) (ws : JpegEnc.writes)
    (b : bsm) (scan mem : bytes) (p : jpeg_enc_exif_param) (x : JINF_EXIF_INFO_T)
    (n := app1_end x (request_thumbnail p)) (free := src_jpeg_addr_virt p - target_addr_virt p) :
  in_first_slice i = true → JPEG_HWEncInit i c int_en glb = Some (true, e, ws) →
  JPEG_HWWriteHead rdy e (Bsm 0 []) = Some (true, b) →
  wf_request p mem → drop (Z.to_nat free) mem = bitstream (regs b) ++ scan →
  exif_ptr p = Some x → is_Some (malloc (param_thumbnail_size p + 21 * 1024)) → n <= free →
  ∃ r out picture,
    _jpeg_enc_wexif malloc p mem = Some r ∧ wexif_ret r = JINF_SUCCESS ∧ wexif_out r = Some out
    ∧ drop (Z.to_nat (output_buf_ptr out - target_addr_virt p)) (wexif_mem r) = picture
    ∧ output_size out = Z.of_nat (length picture)
    ∧ read_app1 (take (Z.to_nat n) (drop 2 picture)) = Some (segment_of x (request_thumbnail p))
    ∧ ∀ d m, read_bitstream d = None → bitstream_ptr d = picture →
        0 < dec_buf_addr d < 2 ^ 32 - 3 → dec_buf_addr d mod 4 = 0 → 4096 <= dec_buf_size d < 2 ^ 32 →
        ∃ s k, JPEG_FWParseHead d m = Some (true, n + Z.of_nat (length (bitstream (regs b))), s, k)
          ∧ bytes_of s = scan ∧ finds i k.
Proof using All.
  intros F H W Q Hm Ex Hmal Hfree.
  rewrite (encoded_header bitstream bitstream_start bitstream_put i c e int_en glb rdy ws b F H W) in *.
  destruct (HWEncInit_standard i c int_en glb e ws F H) as (v & q0 & q1 & St & Sv & Ew & Eh & Eq0 & Eq1 & Er).
  pose proof (jpeg_enc_wexif_picture malloc malloc_size p mem x Q Ex Hmal) as P. cbv zeta in P. fold n free in P.
  rewrite (proj2 (Z.leb_le n free) Hfree) in P. destruct P as (app1 & E & La & Ha & R).
  destruct Q as ((x' & Ex' & Wx) & _ & Hn & Ht & _ & Hz & Lm). assert (x' = x) as -> by congruence.
  pose proof (app1_end_room x (request_thumbnail p) Wx) as Rn. fold n in Rn.
  pose proof (thumbnail_of_length (thumbnail_addr_virt p) _ (proj1 Hn)) as Lth. fold (request_thumbnail p) in Lth.
  assert (Sr : segment_room <= 13 * 1024) by (by vm_compute).
  assert (Pic : soi ++ app1 ++ drop (Z.to_nat (free + 2)) mem = header_with app1 e ++ scan).
  { replace (Z.to_nat (free + 2)) with (Z.to_nat free + 2)%nat by lia. rewrite <- drop_drop, Hm. unfold header_with.
    rewrite (standard_header_bytes _ _ _ _ St). unfold soi. cbn [app drop]. by rewrite !drop_0, <- !app_assoc. }
  eexists _, _, _. split; [exact E|]. split; [done|]. split; [done|]. split; [done|].
  cbn [output_buf_ptr output_size wexif_mem].
  assert (D : drop (Z.to_nat (src_jpeg_addr_virt p - n - target_addr_virt p))
      (take (Z.to_nat (free - n)) mem ++ soi ++ app1 ++ drop (Z.to_nat (free + 2)) mem)
    = soi ++ app1 ++ drop (Z.to_nat (free + 2)) mem).
  { replace (src_jpeg_addr_virt p - n - target_addr_virt p) with (free - n) by (unfold free; lia).
    apply drop_app_length'. rewrite length_take. lia. }
  rewrite D. split_and!.
  - rewrite !length_app, length_drop. cbn [length soi]. lia.
  - change (drop 2 (soi ++ ?l)) with l. rewrite take_app_le, take_ge by lia. exact R.
  - intros d m Hr Hd A1 A2 Z1. rewrite Pic in Hd.
    destruct (FWParseHead_roundtrip v q0 q1 e d m app1 scan St Hr Hd A1 A2 Z1) as (s & Es & Bs).
    { apply (skipped_app1 app1 (n - 2)); [lia|lia|done]. }
    { lia. }
    eexists s, _. split; [rewrite Es|].
    + do 4 f_equal. unfold header_with. rewrite !length_app, length_drop, (standard_header_bytes _ _ _ _ St).
      cbn [length app]. lia.
    + split; [done|]. unfold finds, decoded. simpl. rewrite Ew, Eh, Er, Eq0, Eq1.
      split_and!; try done; apply u16_id, u16_range.
Qed.
End capture.

(** The header of the example encoder and a scan of two bytes, with the photograph's EXIF data. *)
Definition ex_picture : bytes := bsm_stream (regs ex_head) ++ [0x12; 0x34].
Definition ex_request : jpeg_enc_exif_param :=
  Enc_exif_param (Some photo) 8192 (Z.of_nat (length ex_picture)) (Some photo_thumbnail) 7 4096.
Definition ex_memory : bytes := replicate (Z.to_nat 4096) 0 ++ ex_picture.

Lemma ex_request_wf : wf_request ex_request ex_memory.
Proof.
  split; [exists photo; split; [done|by vm_compute]|]. split; [apply photo_thumbnail_wf|].
  assert (L : Z.of_nat (length ex_picture) <= 2 ^ 16 ∧ 2 <= Z.of_nat (length ex_picture)) by (split; by vm_compute).
  cbn [param_thumbnail_size target_addr_virt src_jpeg_addr_virt param_src_jpeg_size ex_request].
  unfold ex_memory. rewrite length_app, Nat2Z.inj_add, length_replicate_Z by lia.
  split_and!; lia.
Qed.

Lemma exif_capture_roundtrip_witness :
  ∃ r out picture, _jpeg_enc_wexif example_malloc ex_request ex_memory = Some r ∧ wexif_ret r = JINF_SUCCESS
    ∧ wexif_out r = Some out ∧ drop (Z.to_nat (output_buf_ptr out - 4096)) (wexif_mem r) = picture
    ∧ output_size out = Z.of_nat (length picture)
    ∧ read_app1 (take (Z.to_nat (app1_end photo (Some photo_thumbnail))) (drop 2 picture))
      = Some (segment_of photo (Some photo_thumbnail))
    ∧ ∀ d m, read_bitstream d = None → bitstream_ptr d = picture →
        0 < dec_buf_addr d < 2 ^ 32 - 3 → dec_buf_addr d mod 4 = 0 → 4096 <= dec_buf_size d < 2 ^ 32 →
        ∃ s k, JPEG_FWParseHead d m
            = Some (true, app1_end photo (Some photo_thumbnail) + Z.of_nat (length (bsm_stream (regs ex_head))), s, k)
          ∧ bytes_of s = [0x12; 0x34] ∧ finds ex_input k.
Proof.
  assert (Fit : (app1_end photo (request_thumbnail ex_request) <=? 4096) = true) by (by vm_compute).
  apply (exif_capture_roundtrip bsm_stream eq_refl bsm_stream_put example_malloc example_malloc_size ex_input zero_codec
    ex_enc.1.2 0 (λ _, 0) (λ _, 1) ex_enc.2 ex_head [0x12; 0x34] ex_memory ex_request photo).
  - by vm_compute.
  - vm_compute. reflexivity.
  - vm_compute. reflexivity.
  - exact ex_request_wf.
  - change (src_jpeg_addr_virt ex_request - target_addr_virt ex_request) with 4096. unfold ex_memory.
    apply drop_app_length'. symmetry. apply length_replicate.
  - reflexivity.
  - eexists. reflexivity.
  - by apply Z.leb_le.
Defined.
