(* ===== verification/ExifDate.v ===== *)
(** * Dates, and the order of entries

    The date and time strings of [IMGJPEG_FormatDateTime] are read back, and fit the
    20 bytes of an EXIF date exactly when the fields are in range.  The entries of the
    EXIF and GPS directories come in ascending order of their tags. *)
From stdpp Require Import list sorting.
From S2P Require Import Prelude ExifStream ExifTypes ExifWriter ExifRead ExifRound ExifFields ExifSegment.

(** ** A reader of dates *)

Definition digit_value (b : Z) : option Z := if (0x30 <=? b) && (b <=? 0x39) then Some (b - 0x30) else None.

(** The number the digits [s] write after [acc]. *)
Fixpoint read_digits (acc : Z) (s : bytes) : option Z :=
  match s with
  | [] => Some acc
  | b :: s => v ← digit_value b; read_digits (10 * acc + v) s
  end.

Definition number (off n : nat) (s : bytes) : option Z := ds ← slice off n s; read_digits 0 ds.

(** "YYYY:MM:DD hh:mm:ss". *)
Definition read_date_time (s : bytes) : option (JINF_DATE_T * JINF_TIME_T) :=
  y ← number 0 4 s; mo ← number 5 2 s; da ← number 8 2 s; h ← number 11 2 s; mi ← number 14 2 s; se ← number 17 2 s;
  if bool_decide ((λ i, s !! i) <$> [4; 7; 10; 13; 16]%nat = Some <$> [0x3a; 0x3a; 0x20; 0x3a; 0x3a])
  then Some (Date y mo da, Time h mi se) else None.

(** ** Numbers of fixed width *)

Lemma zero_padded_2 n : 0 <= n < 100 → zero_padded 2 n = [0x30 + n / 10; 0x30 + n mod 10].
Proof.
  intros Hn. unfold zero_padded. cbn [digits]. destruct (Z.ltb_spec n 10).
  - cbn [app length Nat.sub replicate]. by rewrite Z.div_small by lia.
  - rewrite (proj2 (Z.ltb_lt (n / 10) 10)) by (Z.to_euclidean_division_equations; lia).
    cbn [app length Nat.sub replicate]. rewrite (Z.mod_small (n / 10)) by (Z.to_euclidean_division_equations; lia). done.
Qed.

(** The digits of a number below 10000, padded. *)
Lemma zero_padded_4 n : 0 <= n < 10000 →
  zero_padded 4 n = [0x30 + n / 10 / 10 / 10; 0x30 + n / 10 / 10 mod 10; 0x30 + n / 10 mod 10; 0x30 + n mod 10].
Proof.
  intros Hn. unfold zero_padded. cbn [digits].
  assert (B1 : 0 <= n / 10 < 1000) by (Z.to_euclidean_division_equations; lia).
  assert (B2 : 0 <= n / 10 / 10 < 100) by (Z.to_euclidean_division_equations; lia).
  assert (B3 : 0 <= n / 10 / 10 / 10 < 10) by (Z.to_euclidean_division_equations; lia).
  destruct (Z.ltb_spec n 10); [|destruct (Z.ltb_spec (n / 10) 10); [|destruct (Z.ltb_spec (n / 10 / 10) 10)]].
  - cbn [app length Nat.sub replicate]. rewrite (Z.div_small n 10) by lia. done.
  - cbn [app length Nat.sub replicate]. rewrite (Z.div_small (n / 10) 10) by lia. done.
  - cbn [app length Nat.sub replicate]. rewrite (Z.div_small (n / 10 / 10) 10) by lia. done.
  - rewrite (proj2 (Z.ltb_lt (n / 10 / 10 / 10) 10)) by lia. cbn [app length Nat.sub replicate].
    rewrite (Z.mod_small (n / 10 / 10 / 10)) by lia. done.
Qed.

Lemma digits_length_ge k fuel n : (k < fuel)%nat → 10 ^ Z.of_nat k <= n → (k < length (digits fuel n))%nat.
Proof.
  revert k n. induction fuel as [|fuel IH]; intros k n Hk Hn; [lia|]. cbn [digits]. rewrite length_app. cbn [length].
  destruct k as [|k]; [destruct (n <? 10); simpl; lia|].
  assert (10 ^ Z.of_nat k <= n / 10).
  { apply Z.div_le_lower_bound; [lia|]. rewrite Nat2Z.inj_succ, Z.pow_succ_r in Hn by lia. lia. }
  assert (0 < 10 ^ Z.of_nat k) by (apply Z.pow_pos_nonneg; lia).
  rewrite (proj2 (Z.ltb_ge n 10)) by (Z.to_euclidean_division_equations; lia).
  specialize (IH k (n / 10) ltac:(lia) ltac:(lia)). lia.
Qed.

Lemma zero_padded_length_ge w n : (w <= length (zero_padded w n))%nat.
Proof. unfold zero_padded. rewrite length_app, length_replicate. lia. Qed.

Lemma zero_padded_long w n : (w < 5)%nat → 10 ^ Z.of_nat w <= n → (w < length (zero_padded w n))%nat.
Proof.
  intros Hw Hn. pose proof (digits_length_ge w 5 n Hw Hn). unfold zero_padded. rewrite length_app. lia.
Qed.

Lemma digit_value_ok d : 0 <= d < 10 → digit_value (0x30 + d) = Some d.
Proof. intros Hd. unfold digit_value. bdecide. f_equal. lia. Qed.

Lemma read_digits_2 n : 0 <= n < 100 → read_digits 0 [0x30 + n / 10; 0x30 + n mod 10] = Some n.
Proof.
  intros Hn. cbn [read_digits].
  rewrite !digit_value_ok by (Z.to_euclidean_division_equations; lia). cbn [mbind option_bind].
  f_equal. Z.to_euclidean_division_equations. lia.
Qed.

Lemma read_digits_4 n : 0 <= n < 10000 →
  read_digits 0 [0x30 + n / 10 / 10 / 10; 0x30 + n / 10 / 10 mod 10; 0x30 + n / 10 mod 10; 0x30 + n mod 10] = Some n.
Proof.
  intros Hn. cbn [read_digits].
  rewrite !digit_value_ok by (Z.to_euclidean_division_equations; lia). cbn [mbind option_bind].
  f_equal. Z.to_euclidean_division_equations. lia.
Qed.

(** ** Dates *)

Definition date_in_range (d : JINF_DATE_T) (t : JINF_TIME_T) : Prop :=
  0 <= year d < 10000 ∧ 0 <= month d < 100 ∧ 0 <= day d < 100
  ∧ 0 <= hour t < 100 ∧ 0 <= minute t < 100 ∧ 0 <= second t < 100.

(** A date is read back from the string [IMGJPEG_FormatDateTime] makes of it: 19 characters and the end of the
    string in the first 20 bytes of the buffer, the rest of which is as it was. *)
Theorem FormatDateTime_roundtrip (d : JINF_DATE_T) (t : JINF_TIME_T) (buf : bytes) (size : Z) :
  date_in_range d t → 20 <= size <= Z.of_nat (length buf) →
  ∃ s, IMGJPEG_FormatDateTime d t buf size = Some (JINF_SUCCESS, s ++ [0] ++ drop 20 buf)
    ∧ length s = 19%nat ∧ read_date_time s = Some (d, t).
Proof.
  intros (Hy & Hmo & Hd & Hh & Hmi & Hs) Hsize. exists (date_time_string d t).
  assert (E : date_time_string d t = [0x30 + year d / 10 / 10 / 10; 0x30 + year d / 10 / 10 mod 10; 0x30 + year d / 10 mod 10;
    0x30 + year d mod 10; 0x3a; 0x30 + month d / 10; 0x30 + month d mod 10; 0x3a; 0x30 + day d / 10; 0x30 + day d mod 10; 0x20;
    0x30 + hour t / 10; 0x30 + hour t mod 10; 0x3a; 0x30 + minute t / 10; 0x30 + minute t mod 10; 0x3a;
    0x30 + second t / 10; 0x30 + second t mod 10]).
  { unfold date_time_string. by rewrite zero_padded_4, !zero_padded_2 by lia. }
  rewrite E. split_and!.
  - unfold IMGJPEG_FormatDateTime. rewrite (proj2 (Z.ltb_ge _ _)) by lia. rewrite E.
    rewrite splice_ok by (cbn [length app]; lia). reflexivity.
  - reflexivity.
  - unfold read_date_time, number. rewrite !slice_ok by (cbn [length]; lia). cbn [drop take mbind option_bind].
    rewrite read_digits_4 by lia. cbn [mbind option_bind]. do 5 (rewrite read_digits_2 by lia; cbn [mbind option_bind]).
    rewrite bool_decide_true by reflexivity. by destruct d, t.
Qed.

(** The 20 bytes of an EXIF date hold the string exactly when the fields are in range: the check of
    [date_time_size] does not keep a year of five digits, or a field of three, from being
    written past them. *)
Theorem FormatDateTime_fits_iff (d : JINF_DATE_T) (t : JINF_TIME_T) (buf : bytes) :
  0 <= year d → 0 <= month d → 0 <= day d → 0 <= hour t → 0 <= minute t → 0 <= second t → length buf = 20%nat →
  IMGJPEG_FormatDateTime d t buf 20 = None ↔ ¬ date_in_range d t.
Proof.
  intros Hy Hmo Hd Hh Hmi Hs Hb. split.
  - intros E R. destruct (FormatDateTime_roundtrip d t buf 20 R) as (s & E' & _); [lia|congruence].
  - intros R. unfold IMGJPEG_FormatDateTime. change (20 <? 20) with false. cbn iota. unfold splice.
    rewrite decide_False; [done|]. unfold date_time_string. rewrite !length_app, Hb. cbn [length].
    pose proof (zero_padded_length_ge 4 (year d)). pose proof (zero_padded_length_ge 2 (month d)).
    pose proof (zero_padded_length_ge 2 (day d)). pose proof (zero_padded_length_ge 2 (hour t)).
    pose proof (zero_padded_length_ge 2 (minute t)). pose proof (zero_padded_length_ge 2 (second t)).
    intros L. apply R. unfold date_in_range.
    assert (G : ∀ w n, (w < 5)%nat → length (zero_padded w n) = w → n < 10 ^ Z.of_nat w).
    { intros w n Hw Hl. destruct (Z.lt_ge_cases n (10 ^ Z.of_nat w)); [done|].
      pose proof (zero_padded_long w n Hw ltac:(lia)). lia. }
    pose proof (G 4%nat (year d) ltac:(lia) ltac:(lia)). pose proof (G 2%nat (month d) ltac:(lia) ltac:(lia)).
    pose proof (G 2%nat (day d) ltac:(lia) ltac:(lia)). pose proof (G 2%nat (hour t) ltac:(lia) ltac:(lia)).
    pose proof (G 2%nat (minute t) ltac:(lia) ltac:(lia)). pose proof (G 2%nat (second t) ltac:(lia) ltac:(lia)).
    change (10 ^ Z.of_nat 4) with 10000 in *. change (10 ^ Z.of_nat 2) with 100 in *. lia.
Qed.

Lemma FormatDateTime_roundtrip_witness :
  ∃ s, IMGJPEG_FormatDateTime (Date 2013 8 15) (Time 23 59 7) (replicate 24 0xff) 20
       = Some (JINF_SUCCESS, s ++ [0] ++ replicate 4 0xff)
    ∧ length s = 19%nat ∧ read_date_time s = Some (Date 2013 8 15, Time 23 59 7).
Proof. apply (FormatDateTime_roundtrip (Date 2013 8 15) (Time 23 59 7) (replicate 24 0xff) 20); vm_compute; intuition congruence. Defined.

Lemma FormatDateTime_fits_iff_witness :
  IMGJPEG_FormatDateTime (Date 10000 1 1) (Time 0 0 0) (replicate 20 0) 20 = None
  ↔ ¬ date_in_range (Date 10000 1 1) (Time 0 0 0).
Proof. apply (FormatDateTime_fits_iff (Date 10000 1 1) (Time 0 0 0) (replicate 20 0)); vm_compute; congruence. Defined.

(** ** The order of entries *)

(** The fields of a table have the tags [ts] when they are written. *)
Definition tagged (ts : list Z) (fs : list field) : Prop := Forall2 (λ t f, f_guard f = true → f_tag f = t) ts fs.

Lemma tagged_when {A} t (p : option A) f : (∀ a, p = Some a → f_guard (f a) = true → f_tag (f a) = t) →
  f_guard (when p f) = true → f_tag (when p f) = t.
Proof. destruct p; intros H; [by apply H|done]. Qed.

Ltac tag_table := repeat apply Forall2_app; repeat (constructor; [first [by intros|apply tagged_when; by intros]|]); constructor.

Lemma tagged_entries ts fs : tagged ts fs → (e_tag <$> entries_of fs) `sublist_of` ts.
Proof.
  induction 1 as [|t f ts fs Ht F IH]; [constructor|]. unfold entries_of. cbn [omap list_omap].
  destruct (f_guard f) eqn:Hg; [|by constructor].
  destruct (field_entry f) as [e|] eqn:E; [|by constructor].
  unfold field_entry in E. apply bind_Some in E as (c & _ & E). apply bind_Some in E as (b & _ & E).
  injection E as <-. cbn [fmap list_fmap e_tag]. rewrite Ht by done. by constructor.
Qed.

Lemma sublist_sorted (l k : list Z) : l `sublist_of` k → StronglySorted Z.lt k → StronglySorted Z.lt l.
Proof.
  induction 1 as [|a l k S IH|a l k S IH]; intros H; [constructor| |].
  - apply StronglySorted_inv in H as [H F]. constructor; [auto|].
    rewrite list.Forall_forall in *. intros b Hb. apply F. by eapply elem_of_sublist.
  - apply StronglySorted_inv in H as [H _]. auto.
Qed.

Definition gps_tags : list Z := seqZ 0 31.
Definition spec_tags_before : list Z :=
  [IFD_EXPOSURETIME; IFD_FNUMBER; IFD_EXPOSUREPROGRAM; IFD_SPECTRALSENSITIVITY; IFD_ISOSPEEDRATINGS; IFD_OECF;
   IFD_EXIFVERSION; IFD_DATETIMEORIGINAL; IFD_DATETIMEDIGITILIZED]
  ++ [IFD_COMPONENTSCONFIGURATION; IFD_COMPRESSEDBITSPERPIXEL; IFD_SHUTTERSPEEDVALUE; IFD_APERTUREVALUE; IFD_BRIGHTNESSVALUE;
      IFD_EXPOSUREBIASVALUE; IFD_MAXAPERTUREVALUE; IFD_SUBJECTDISTANCE; IFD_METERINGMODE]
  ++ [IFD_LIGHTSOURCE; IFD_FLASH; IFD_FOCALLENGTH; IFD_SUBJECTAREA; IFD_MAKERNOTE; IFD_USERCOMMENT; IFD_SUBSECTIME;
      IFD_SUBSECTIMEORIGINAL; IFD_SUBSECTIMEDIGITILIZED]
  ++ [IFD_FLASHPIXVERSION; IFD_COLORSPACE; IFD_PIXELXDIMENSION; IFD_PIXELYDIMENSION; IFD_RELATEDSOUNDFILE].
Definition spec_tags_after : list Z :=
  [IFD_FLASHENERGY; IFD_SPATIALFREQUENCYRESPONSE; IFD_FOCALPLANEXRESOLUTION; IFD_FOCALPLANEYRESOLUTION;
   IFD_FOCALPLANERESOLUTIONUNIT; IFD_SUBJECTLOCATION; IFD_EXPOSUREINDEX; IFD_SENSINGMETHOD; IFD_FILESOURCE]
  ++ [IFD_SCENETYPE; IFD_CFAPATTERN; IFD_CUSTOMRENDERED; IFD_EXPOSUREMODE; IFD_WHITEBALANCE; IFD_DIGITALZOOMRATIO;
      IFD_FOCALLENGTHIN35MMFILM; IFD_SCENECAPTURETYPE; IFD_GAINCONTROL]
  ++ [IFD_CONTRAST; IFD_SATURATION; IFD_SHARPNESS; IFD_DEVICESETTINGDESCRIPTION; IFD_SUBJECTDISTANCERANGE; IFD_IMAGEUNIQUEID].

Lemma gps_tagged g : tagged gps_tags (gps_fields g).
Proof. change gps_tags with (seqZ 0 9 ++ seqZ 9 9 ++ seqZ 18 9 ++ seqZ 27 4). unfold tagged, gps_fields. tag_table. Qed.

Lemma spec_before_tagged s : tagged spec_tags_before (spec_fields_before s).
Proof. unfold tagged, spec_fields_before, spec_tags_before. tag_table. Qed.

Lemma spec_after_tagged s : tagged spec_tags_after (spec_fields_after s).
Proof. unfold tagged, spec_fields_after, spec_tags_after. tag_table. Qed.

Lemma sorted_compute (l : list Z) : forallb (λ p, (p.1 <? p.2)%Z) (zip l (tail l)) = true → StronglySorted Z.lt l.
Proof.
  intros H. apply Sorted_StronglySorted; [intros x y z; lia|]. induction l as [|a [|b l] IH]; [repeat constructor..|].
  cbn [zip zip_with tail forallb] in H. apply andb_prop in H as [Hab H]. constructor; [by apply IH|].
  constructor. by apply Z.ltb_lt.
Qed.

(** In ascending order of the tags, none twice. *)
Definition ascending (es : list entry) : Prop := StronglySorted Z.lt (e_tag <$> es).

(** As TIFF requires, the entries of the EXIF and the GPS directory have ascending tags, whichever fields the
    caller fills in and with or without an interoperability directory. *)
Theorem exif_gps_entries_sorted (spec : EXIF_SPECIFIC_INFO_T) (inter : option EXIF_INTEROPERABILITY_INFO_T)
    (gps : EXIF_GPS_INFO_T) (ifh b : Z) :
  ascending (spec_entries ifh b spec inter) ∧ ascending (gps_entries gps).
Proof.
  unfold ascending. split.
  - apply (sublist_sorted _ (spec_tags_before ++ [IFD_INTEROPERABILITYIFDPOINTER] ++ spec_tags_after));
      [|by apply sorted_compute; vm_compute].
    unfold spec_entries. rewrite !fmap_app. apply sublist_app; [apply tagged_entries, spec_before_tagged|].
    apply sublist_app; [|apply tagged_entries, spec_after_tagged].
    destruct inter; [done|apply sublist_nil_l].
  - apply (sublist_sorted _ gps_tags); [apply tagged_entries, gps_tagged|by apply sorted_compute; vm_compute].
Qed.

(** The entries of IFD0 do not: the width and the height come after the resolution. *)
Lemma ifd0_entries_unsorted :
  ¬ ascending (ifd0_entries 10 18
      (Primary_info (Pri_basic 1 (Rational 72 1) (Rational 72 1) 2 640 480) None None None 0) None None None).
Proof.
  unfold ascending. intros H. set (l := _ <$> _) in H. assert (E : l = [282; 283; 296; 531; 256; 257]) by (by vm_compute).
  rewrite E in H. do 3 apply StronglySorted_inv in H as [H _]. apply StronglySorted_inv in H as [_ F].
  inversion F. lia.
Qed.
