(* ===== verification/DiagFrame.v ===== *)
(** * The diagnostic frames of the engineering mode (engmode/adc_calibration.c, eng_diag.c)

    A frame is a message between two bytes 0x7e, with 0x7d and 0x7e escaped.
    [translate_packet] builds one for the PC, [untranslate_packet_header] and
    [eng_diag_decode7d7e] take one apart, the latter in place in the buffer of
    the port; [eng_diag_encode7d7e] escapes in place.  Also the hexadecimal
    texts of the audio commands ([bin2ascii], [ascii2bin]) and [MSG_HEAD_T].
    [None] is an access outside an array.  The overlapping [memcpy] of the
    decoder is given the result of an ascending copy. *)

From stdpp Require Import list.
From S2P Require Import Prelude.

(** ** The header of a message *)

(** [seq_num], [len], [type] and [subtype], packed: 8 bytes. *)
Record MSG_HEAD_T := MsgHead { seq_num : Z; len : Z; type : Z; subtype : Z }.
Definition MSG_HEAD_SIZE : nat := 8.

Definition enc_head (h : MSG_HEAD_T) : bytes :=
  le32 (seq_num h) ++ le16 (len h) ++ [u8 (type h); u8 (subtype h)].

Definition get16 (off : nat) (l : bytes) : option Z :=
  b0 ← l !! off; b1 ← l !! (off + 1)%nat; Some (b0 + 2 ^ 8 * b1).

(** [*(MSG_HEAD_T* )(buf + off)]. *)
Definition get_head (off : nat) (buf : bytes) : option MSG_HEAD_T :=
  s ← get32 off buf; n ← get16 (off + 4) buf; t ← buf !! (off + 6)%nat; u ← buf !! (off + 7)%nat;
  Some (MsgHead s n t u).

(** ** Building a frame *)

(** One turn of the loop of [translate_packet]. *)
Definition escape_byte (b : Z) : bytes :=
  if b =? 0x7E then [0x7D; 0x5E] else if b =? 0x7D then [0x7D; 0x5D] else [b].

Definition escape (src : bytes) : bytes := src ≫= escape_byte.

Definition frame_of (src : bytes) : bytes := 0x7E :: escape src ++ [0x7E].

(** The frame is written to [dest]; the result is its length. *)
Definition translate_packet (dest src : bytes) (size : nat) : option (bytes * nat) :=
  p ← slice 0 size src;
  dest' ← splice 0 (frame_of p) dest;
  Some (dest', length (frame_of p)).

(** ** Taking a frame apart into another buffer *)

(** The bytes of [src] from the state ([status], [flag]) on.  [dest] is the part of the buffer
    filled so far; [unpackSize] is -1 for no limit.  The result is what [dest] holds at the return. *)
Fixpoint untranslate_loop (unpackSize : Z) (status : Z) (flag : bool) (dest src : bytes) : bytes :=
  match src with
  | [] => dest
  | b :: rest =>
      if status =? 0 then
        untranslate_loop unpackSize (if b =? 0x7e then 1 else 0) flag dest rest
      else if status =? 1 then
        if b =? 0x7e then untranslate_loop unpackSize 1 flag dest rest
        else untranslate_loop unpackSize 2 flag (dest ++ [b]) rest
      else if b =? 0x7E then dest
      else
        let '(flag', dest') :=
          if (default 0 (list.last dest) =? 0x7D) && negb flag then
            (true,
              if b =? 0x5E then removelast dest ++ [0x7E]
              else if b =? 0x5D then removelast dest ++ [0x7D] else dest)
          else (false, dest ++ [b]) in
        if (unpackSize + 1 <=? Z.of_nat (length dest')) && negb (unpackSize =? -1) then dest'
        else untranslate_loop unpackSize 2 flag' dest' rest
  end.

Definition untranslate_packet_header (src : bytes) (size : nat) (unpackSize : Z) : option bytes :=
  p ← slice 0 size src; Some (untranslate_loop unpackSize 0 false [] p).

(** ** Unescaping and escaping in place *)

(** [n] is [len - i]. *)
Fixpoint decode_loop (n i : nat) (buf : bytes) : option bytes :=
  match n with
  | O => Some buf
  | S n' =>
      b ← buf !! i;
      if (b =? 0x7d) || (b =? 0x7e) then
        c ← buf !! (i + 1)%nat;
        buf1 ← store i (Z.lxor c 0x20) buf;
        tail ← slice (i + 2) n' buf1;
        buf2 ← splice (i + 1) tail buf1;
        match n' with
        | O => Some buf2
        | S n'' => decode_loop n'' (i + 1) buf2
        end
      else decode_loop n' (i + 1) buf
  end.

(** [eng_diag_decode7d7e (buf + off, len)], where [buf] is the whole array. *)
Definition eng_diag_decode7d7e (off len : nat) (buf : bytes) : option bytes :=
  decode_loop len off buf.

(** [n] bounds the turns; the result is the array, the new length and what [*extra_len] grew by. *)
Fixpoint encode_loop (n i len : nat) (extra_len : Z) (buf : bytes) : option (bytes * nat * Z) :=
  if (len <=? i)%nat then Some (buf, len, extra_len)
  else
    match n with
    | O => None
    | S n' =>
        b ← buf !! i;
        if (b =? 0x7d) || (b =? 0x7e) then
          buf1 ← store i 0x7d buf;
          tail ← slice (i + 1) (len - (i + 1)) buf1;
          buf2 ← splice (i + 2) tail buf1;
          buf3 ← store (i + 1) (Z.lxor b 0x20) buf2;
          encode_loop n' (i + 1) (len + 1) (extra_len + 1) buf3
        else encode_loop n' (i + 1) len extra_len buf
    end.

Definition eng_diag_encode7d7e (buf : bytes) (len : nat) (extra_len : Z) : option (bytes * nat * Z) :=
  encode_loop (2 * len) 0 len extra_len buf.

(** ** Hexadecimal texts *)

Definition hex_digit (semi_octet : Z) : Z :=
  if semi_octet <=? 9 then u8 (semi_octet + 0x30) else u8 (semi_octet + 0x41 - 10).

(** [bin2ascii] of [size] bytes: the text written to [dst]. *)
Definition bin2ascii (src : bytes) (size : nat) : option bytes :=
  p ← slice 0 size src;
  Some (p ≫= λ b, [hex_digit (Z.shiftr (Z.land b 0xf0) 4); hex_digit (Z.land b 0x0f)]).

Definition digit_value (c : Z) : Z :=
  if (0x30 <=? c) && (c <=? 0x39) then u8 (c - 0x30) else u8 (c - 0x41 + 10).

(** [n] is [size - count], rounded up to pairs by the loop. *)
Fixpoint ascii2bin (src : bytes) (n : nat) {struct n} : option bytes :=
  match n with
  | O => Some []
  | S n' =>
      match src with
      | c :: d :: rest =>
          out ← ascii2bin rest (Nat.pred n');
          Some (u8 (Z.lor (Z.shiftl (digit_value c) 4) (digit_value d)) :: out)
      | _ => None
      end
  end.

(** ** Escaping *)

Lemma escape_cons b p : escape (b :: p) = escape_byte b ++ escape p.
Proof. done. Qed.

Lemma escape_app p q : escape (p ++ q) = escape p ++ escape q.
Proof. apply bind_app. Qed.

(** The three cases of a byte. *)
Lemma escape_byte_cases b :
  (b = 0x7E ∧ escape_byte b = [0x7D; 0x5E]) ∨ (b = 0x7D ∧ escape_byte b = [0x7D; 0x5D])
  ∨ (b ≠ 0x7E ∧ b ≠ 0x7D ∧ escape_byte b = [b]).
Proof. unfold escape_byte. repeat bcase; subst; auto. Qed.

Lemma escape_length p : (length p <= length (escape p) <= 2 * length p)%nat.
Proof.
  induction p as [|b p IH]; [done|]. rewrite escape_cons, length_app.
  destruct (escape_byte_cases b) as [[_ ->]|[[_ ->]|[_ [_ ->]]]]; simpl; lia.
Qed.

(** No delimiter inside a frame. *)
Lemma escape_no_flag p : Forall (λ b, b ≠ 0x7E) (escape p).
Proof.
  induction p as [|b p IH]; [constructor|]. rewrite escape_cons, Forall_app. split; [|done].
  destruct (escape_byte_cases b) as [[_ ->]|[[_ ->]|[? [_ ->]]]]; repeat constructor; lia.
Qed.

Lemma escape_bytes p : wf_bytes p → wf_bytes (escape p).
Proof.
  induction p as [|b p IH]; [done|]. intros [Hb Hp]%wf_cons. rewrite escape_cons. apply wf_app.
  split; [|auto].
  destruct (escape_byte_cases b) as [[_ ->]|[[_ ->]|[_ [_ ->]]]];
    rewrite !wf_cons; unfold is_u8 in *; split_and!; try lia; apply wf_nil.
Qed.

Lemma frame_length p : length (frame_of p) = (length (escape p) + 2)%nat.
Proof. unfold frame_of. simpl. rewrite length_app. simpl. lia. Qed.

(** ** The frame of a message *)

(** [translate_packet] writes the frame and nothing else, whenever the frame fits in [dest]. *)
Lemma translate_packet_spec dest p rest :
  (length (frame_of p) <= length dest)%nat →
  translate_packet dest (p ++ rest) (length p)
  = Some (frame_of p ++ drop (length (frame_of p)) dest, length (frame_of p)).
Proof.
  intros Hd. unfold translate_packet. rewrite slice_front by done. simpl.
  by rewrite splice_ok by done.
Qed.

(** Twice the message and the delimiters are always enough, the message and the delimiters only
    when nothing is escaped. *)
Theorem translate_packet_room dest p :
  is_Some (translate_packet dest p (length p)) ↔ (length (escape p) + 2 <= length dest)%nat.
Proof.
  unfold translate_packet. rewrite slice_ok by lia. rewrite drop_0, firstn_all. simpl.
  rewrite <- frame_length. split.
  - intros [? H]. binv H. by apply splice_Some in E as [_ ?].
  - intros. rewrite splice_ok by done. by eexists.
Qed.

(** ** Unescaping into another buffer *)

Lemma untranslate_skip unpackSize flag dest junk rest :
  Forall (λ b, b ≠ 0x7E) junk →
  untranslate_loop unpackSize 0 flag dest (junk ++ rest)
  = untranslate_loop unpackSize 0 flag dest rest.
Proof. induction 1 as [|b junk Hb _ IH]; [done|]. simpl. by bdecide. Qed.

Lemma last_snoc_default (d : bytes) x : default 0 (list.last (d ++ [x])) = x.
Proof. by rewrite last_snoc. Qed.

(** In the body the loop appends the message, whatever the state of the escape was; the last byte
    before is no pending escape. *)
Lemma untranslate_body p rest flag dest :
  (flag = true ∨ default 0 (list.last dest) ≠ 0x7D) →
  untranslate_loop (-1) 2 flag dest (escape p ++ 0x7E :: rest) = dest ++ p.
Proof.
  revert flag dest. induction p as [|b p IH]; intros flag dest Hf.
  { simpl. by rewrite app_nil_r. }
  assert (Hc : (default 0 (list.last dest) =? 0x7D) && negb flag = false).
  { destruct Hf as [->|Hd]; [apply andb_false_r|]. by rewrite (proj2 (Z.eqb_neq _ _) Hd). }
  rewrite escape_cons.
  destruct (escape_byte_cases b) as [[-> ->]|[[-> ->]|(N1 & N2 & ->)]].
  - cbn -[list.last removelast]. rewrite Hc. cbn -[list.last removelast].
    rewrite andb_false_r, last_snoc_default. cbn -[list.last removelast].
    rewrite andb_false_r, removelast_last, IH by auto. by rewrite <- app_assoc.
  - cbn -[list.last removelast]. rewrite Hc. cbn -[list.last removelast].
    rewrite andb_false_r, last_snoc_default. cbn -[list.last removelast].
    rewrite andb_false_r, removelast_last, IH by auto. by rewrite <- app_assoc.
  - cbn -[list.last removelast]. bdecide. rewrite Hc. cbn -[list.last removelast].
    rewrite andb_false_r, IH; [by rewrite <- app_assoc|].
    right. by rewrite last_snoc_default.
Qed.

Lemma untranslate_frame junk p rest :
  Forall (λ b, b ≠ 0x7E) junk → p ≠ [] →
  untranslate_loop (-1) 0 false [] (junk ++ frame_of p ++ rest) = p.
Proof.
  intros Hj Hp. rewrite untranslate_skip by done. destruct p as [|b p]; [done|].
  unfold frame_of. rewrite escape_cons.
  destruct (escape_byte_cases b) as [[-> ->]|[[-> ->]|(N1 & N2 & ->)]].
  - cbn -[list.last removelast]. rewrite <- app_assoc. cbn. by rewrite untranslate_body by auto.
  - cbn -[list.last removelast]. rewrite <- app_assoc. cbn. by rewrite untranslate_body by auto.
  - cbn -[list.last removelast]. bdecide. rewrite <- app_assoc.
    cbn [app]. rewrite untranslate_body; [done|]. right. done.
Qed.

(** C32. A non-empty message survives the line: unpacking what was packed, with noise before the frame
    and anything behind it, gives the message back. *)
Theorem translate_packet_roundtrip dest dest' n p junk rest :
  p ≠ [] → Forall (λ b, b ≠ 0x7E) junk →
  translate_packet dest p (length p) = Some (dest', n) →
  untranslate_packet_header (junk ++ take n dest' ++ rest) (length junk + n + length rest) (-1)
  = Some p.
Proof.
  intros Hp Hj T.
  assert (Hr : (length (escape p) + 2 <= length dest)%nat)
    by (apply translate_packet_room; by eexists).
  rewrite <- (app_nil_r p) in T at 1. rewrite translate_packet_spec in T by (rewrite frame_length; lia).
  apply (inj Some), pair_equal_spec in T as [<- <-]. rewrite take_app_length.
  unfold untranslate_packet_header.
  rewrite slice_ok, drop_0, take_ge by (rewrite !length_app; lia).
  cbn [mbind option_bind]. by rewrite untranslate_frame.
Qed.

(** ** Unescaping in place *)

Lemma lookup_next {A} (pre : list A) x y rest : (pre ++ x :: y :: rest) !! (length pre + 1)%nat = Some y.
Proof. rewrite (cons_middle x), app_assoc. apply lookup_mid. by rewrite length_app. Qed.

(** One turn of the loop on an escape: the two cells become one and the rest of the frame moves up,
    together with one cell [r0] behind it. *)
Lemma decode_loop_turn pre b c body r0 rest :
  b = 0x7D ∨ b = 0x7E →
  decode_loop (S (S (length body))) (length pre) (pre ++ [b; c] ++ body ++ r0 :: rest)
  = decode_loop (length body) (length pre + 1) ((pre ++ [Z.lxor c 0x20]) ++ body ++ r0 :: r0 :: rest).
Proof.
  intros Hb. set (n := length body). cbn [decode_loop app].
  rewrite (lookup_mid (length pre)) by done. cbn [mbind option_bind].
  replace ((b =? 0x7d) || (b =? 0x7e)) with true by (destruct Hb as [-> | ->]; done).
  cbv iota. rewrite lookup_next. cbn [mbind option_bind]. rewrite (store_mid (length pre)) by done.
  cbn [mbind option_bind].
  set (y := Z.lxor c 0x20).
  replace (pre ++ y :: c :: body ++ r0 :: rest) with ((pre ++ [y; c]) ++ (body ++ [r0]) ++ rest)
    by (rewrite <- !app_assoc; done).
  rewrite slice_mid by (rewrite !length_app; simpl; lia).
  cbn [mbind option_bind].
  replace ((pre ++ [y; c]) ++ (body ++ [r0]) ++ rest) with ((pre ++ [y]) ++ (c :: body) ++ r0 :: rest)
    by (rewrite <- !app_assoc; done).
  rewrite splice_mid by (rewrite !length_app; simpl; lia). cbn [mbind option_bind].
  by rewrite <- (app_assoc body).
Qed.

Lemma decode_loop_plain pre b n rest :
  b ≠ 0x7D → b ≠ 0x7E →
  decode_loop (S n) (length pre) (pre ++ b :: rest) = decode_loop n (length pre + 1) ((pre ++ [b]) ++ rest).
Proof.
  intros N1 N2. cbn [decode_loop]. rewrite (lookup_mid (length pre)) by done. cbn [mbind option_bind]. bdecide.
  by rewrite <- app_assoc.
Qed.

(** The delimiter that closes the frame is the last cell: it is taken for an escape too. *)
Lemma decode_loop_end pre r0 rest :
  decode_loop 1 (length pre) (pre ++ 0x7E :: r0 :: rest) = Some (pre ++ Z.lxor r0 0x20 :: r0 :: rest).
Proof.
  cbn [decode_loop]. rewrite (lookup_mid (length pre)) by done. cbn [mbind option_bind orb Z.eqb Pos.eqb].
  rewrite lookup_next. cbn [mbind option_bind]. rewrite (store_mid (length pre)) by done.
  cbn [mbind option_bind].
  rewrite slice_ok by (rewrite !length_app; simpl; lia). rewrite take_0. cbn [mbind option_bind].
  rewrite splice_ok by (rewrite !length_app; simpl; lia). cbn [length app mbind option_bind].
  by rewrite Nat.add_0_r, take_drop.
Qed.

(** The loop over the escaped bytes [p] of a frame, with [body] of it behind them: [k] cells of what
    follows have been pulled in already. *)
Lemma decode_loop_front pre p body k r0 rest :
  decode_loop (length (escape p) + length body) (length pre)
    (pre ++ escape p ++ body ++ replicate (S k) r0 ++ rest)
  = decode_loop (length body) (length (pre ++ p))
      ((pre ++ p) ++ body ++ replicate (S k + (length (escape p) - length p)) r0 ++ rest).
Proof.
  revert pre k. induction p as [|b p IH]; intros pre k.
  { change (escape []) with (@nil Z). cbn [app length Nat.add Nat.sub]. by rewrite Nat.add_0_r, app_nil_r. }
  pose proof (escape_length p) as L.
  assert (Step : ∀ c : Z, escape_byte b = [0x7D; c] → Z.lxor c 0x20 = b →
    decode_loop (length (escape (b :: p)) + length body) (length pre)
      (pre ++ escape (b :: p) ++ body ++ replicate (S k) r0 ++ rest)
    = decode_loop (length (escape p) + length body) (length (pre ++ [b]))
      ((pre ++ [b]) ++ escape p ++ body ++ replicate (S (S k)) r0 ++ rest)).
  { intros c Ec Ex. rewrite escape_cons, Ec.
    pose proof (decode_loop_turn pre 0x7D c (escape p ++ body) r0 (replicate k r0 ++ rest)
      (or_introl eq_refl)) as T.
    rewrite Ex in T. rewrite !length_app in *. cbn [length app Nat.add replicate] in *.
    rewrite <- !app_assoc in T. rewrite <- !app_assoc. exact T. }
  destruct (escape_byte_cases b) as [[-> E]|[[-> E]|(N1 & N2 & E)]].
  1, 2: rewrite (Step _ E eq_refl), IH, escape_cons, E, <- (app_assoc pre); cbn [length app];
    by replace (S k + (S (S (length (escape p))) - S (length p)))%nat
      with (S (S k) + (length (escape p) - length p))%nat by lia.
  rewrite escape_cons, E. cbn [app length Nat.add]. rewrite decode_loop_plain by done.
  replace (length pre + 1)%nat with (length (pre ++ [b])) by (rewrite length_app; done).
  rewrite IH, <- (app_assoc pre). done.
Qed.

(** The rest of a frame with its end, and without it. *)
Lemma decode_loop_escaped pre p k r0 rest :
  decode_loop (length (escape p) + 1) (length pre)
    (pre ++ escape p ++ 0x7E :: replicate (S k) r0 ++ rest)
  = Some (pre ++ p ++ Z.lxor r0 0x20
            :: replicate (S k + (length (escape p) - length p)) r0 ++ rest).
Proof.
  pose proof (decode_loop_front pre p [0x7E] k r0 rest) as F. cbn [length app Nat.add replicate] in *.
  rewrite F, decode_loop_end. by rewrite <- app_assoc.
Qed.

Lemma decode_loop_open pre p r0 rest :
  decode_loop (length (escape p)) (length pre) (pre ++ escape p ++ r0 :: rest)
  = Some (pre ++ p ++ replicate (S (length (escape p) - length p)) r0 ++ rest).
Proof.
  pose proof (decode_loop_front pre p [] 0 r0 rest) as F. cbn [length app replicate Nat.add] in F.
  rewrite Nat.add_0_r in F. rewrite F. by rewrite <- app_assoc.
Qed.

(** Unescaping a frame in the buffer of the port (the byte after the opening delimiter on, the
    closing delimiter included): the message comes first and the cells behind the frame are
    untouched; but the closing delimiter is taken for an escape of the cell [r0] behind the frame
    and replaced by [r0 ^ 0x20], and the freed cells are filled with [r0]. *)
Theorem decode7d7e_frame p r0 rest :
  eng_diag_decode7d7e 1 (length (escape p) + 1) (frame_of p ++ r0 :: rest)
  = Some (0x7E :: p ++ Z.lxor r0 0x20 :: replicate (length (escape p) - length p) r0 ++ r0 :: rest).
Proof.
  unfold eng_diag_decode7d7e, frame_of.
  pose proof (decode_loop_escaped [0x7E] p 0 r0 rest) as D.
  cbn [app replicate length Nat.add] in D. rewrite <- app_comm_cons, <- app_assoc. cbn [app].
  rewrite D. do 3 f_equal. f_equal.
  change (r0 :: replicate (length (escape p) - length p) r0 ++ rest)
    with (replicate (S (length (escape p) - length p)) r0 ++ rest).
  rewrite replicate_S_end, <- app_assoc. done.
Qed.

(** On any bytes the decoder stays inside the array as long as one cell follows the range, *)
Lemma decode_loop_safe n i buf :
  (i + n < length buf)%nat → ∃ buf', decode_loop n i buf = Some buf' ∧ length buf' = length buf.
Proof.
  revert i buf. induction n as [n IH] using lt_wf_ind. intros i buf Hn. destruct n as [|n']; [by eexists|].
  cbn [decode_loop]. destruct (lookup_lt_is_Some_2 buf i) as [b ->]; [lia|]. cbn [mbind option_bind].
  destruct (_ || _).
  - destruct (lookup_lt_is_Some_2 buf (i + 1)) as [c ->]; [lia|]. cbn [mbind option_bind].
    rewrite store_ok by lia. cbn [mbind option_bind].
    rewrite slice_ok by (rewrite length_insert; lia). cbn [mbind option_bind].
    set (tl := take n' _). assert (Ht : length tl = n').
    { unfold tl. rewrite length_take, length_drop, length_insert. lia. }
    destruct (splice (i + 1) tl _) as [buf2|] eqn:S.
    + pose proof (splice_length _ _ _ _ S) as L. rewrite length_insert in L. cbn [mbind option_bind].
      destruct n' as [|n'']; [by eexists|].
      destruct (IH n'' ltac:(lia) (i + 1)%nat buf2) as (b' & -> & E); [lia|]. exists b'. split; [done|lia].
    + exfalso. rewrite splice_ok in S by (rewrite length_insert; lia). done.
  - apply IH; lia.
Qed.

(** and leaves it when none does and there is something to unescape. *)
Lemma decode_loop_overrun n i buf :
  (i + n = length buf)%nat → Exists (λ b, b = 0x7D ∨ b = 0x7E) (drop i buf) →
  decode_loop n i buf = None.
Proof.
  revert i. induction n as [|n IH]; intros i Hn He.
  { rewrite drop_ge in He by lia. by apply Exists_nil in He. }
  cbn [decode_loop]. destruct (lookup_lt_is_Some_2 buf i) as [b Eb]; [lia|].
  rewrite (drop_S _ _ _ Eb) in He. rewrite Eb. cbn [mbind option_bind].
  destruct ((b =? 0x7d) || (b =? 0x7e)) eqn:D.
  - destruct (buf !! (i + 1)%nat); [|done]. cbn [mbind option_bind].
    rewrite store_ok by lia. cbn [mbind option_bind]. unfold slice.
    rewrite decide_False by (rewrite length_insert; lia). done.
  - apply IH; [lia|]. rewrite Nat.add_1_r. apply Exists_cons in He as [[->| ->]|He]; done.
Qed.

(** ** Escaping in place *)

(** A turn on a plain byte, and on one to escape. *)
Lemma encode_loop_plain n pre b rest len extra :
  b ≠ 0x7D → b ≠ 0x7E → (length pre < len)%nat →
  encode_loop (S n) (length pre) len extra (pre ++ b :: rest)
  = encode_loop n (length (pre ++ [b])) len extra ((pre ++ [b]) ++ rest).
Proof.
  intros N1 N2 Hl. cbn [encode_loop]. rewrite (proj2 (Nat.leb_gt _ _)) by done.
  rewrite (lookup_mid (length pre)) by done. cbn [mbind option_bind]. bdecide.
  by rewrite length_app, <- app_assoc.
Qed.

Lemma encode_loop_escape n pre b p x pad extra :
  b = 0x7D ∨ b = 0x7E →
  encode_loop (S n) (length pre) (length pre + S (length p)) extra (pre ++ b :: p ++ x :: pad)
  = encode_loop n (length (pre ++ [0x7D])) (length pre + S (length p) + 1) (extra + 1)
      ((pre ++ [0x7D]) ++ Z.lxor b 0x20 :: p ++ pad).
Proof.
  intros Hb. cbn [encode_loop]. rewrite (proj2 (Nat.leb_gt _ _)) by lia.
  rewrite (lookup_mid (length pre)) by done. cbn [mbind option_bind].
  replace ((b =? 0x7d) || (b =? 0x7e)) with true by (destruct Hb as [-> | ->]; done).
  cbv iota. rewrite (store_mid (length pre)) by done. cbn [mbind option_bind].
  rewrite (cons_middle 0x7d), app_assoc.
  rewrite slice_mid by (rewrite ?length_app; simpl; lia). cbn [mbind option_bind].
  assert (Hs : splice (length pre + 2) p ((pre ++ [0x7d]) ++ p ++ x :: pad)
    = Some ((pre ++ [0x7d]) ++ hd x (p ++ [x]) :: p ++ pad)).
  { destruct p as [|y p].
    - rewrite splice_ok by (rewrite !length_app; simpl; lia). cbn [length app hd].
      by rewrite Nat.add_0_r, take_drop.
    - cbn [hd app].
      replace ((pre ++ [0x7d]) ++ y :: p ++ x :: pad) with ((pre ++ [0x7d; y]) ++ (p ++ [x]) ++ pad)
        by (rewrite <- !app_assoc; done).
      rewrite splice_mid by (rewrite !length_app; simpl; lia). by rewrite <- !app_assoc. }
  rewrite Hs. cbn [mbind option_bind].
  rewrite store_mid by (rewrite length_app; simpl; lia). cbn [mbind option_bind].
  by rewrite length_app.
Qed.

Lemma encode_loop_spec n pre p pad extra :
  (length (escape p) <= n)%nat → (length (escape p) - length p <= length pad)%nat →
  encode_loop n (length pre) (length pre + length p) extra (pre ++ p ++ pad)
  = Some (pre ++ escape p ++ drop (length (escape p) - length p) pad,
          (length pre + length (escape p))%nat,
          extra + Z.of_nat (length (escape p) - length p)).
Proof.
  revert n pre pad extra. induction p as [|b p IH]; intros n pre pad extra Hn Hp.
  { change (escape []) with (@nil Z). cbn [length app Nat.sub].
    destruct n; cbn [encode_loop]; rewrite Nat.add_0_r, Nat.leb_refl, Z.add_0_r; done. }
  pose proof (escape_length p) as L. rewrite escape_cons in *.
  assert (Esc : ∀ c : Z, b = 0x7D ∨ b = 0x7E → escape_byte b = [0x7D; c] → Z.lxor b 0x20 = c →
    c ≠ 0x7D → c ≠ 0x7E →
    encode_loop n (length pre) (length pre + length (b :: p)) extra (pre ++ (b :: p) ++ pad)
    = Some (pre ++ ([0x7D; c] ++ escape p)
              ++ drop (length ([0x7D; c] ++ escape p) - length (b :: p)) pad,
            (length pre + length ([0x7D; c]%Z ++ escape p))%nat,
            extra + Z.of_nat (length ([0x7D; c] ++ escape p) - length (b :: p)))).
  { intros c Hb Ec Ex N1 N2. rewrite Ec in Hn, Hp. cbn [app length] in Hn, Hp |- *.
    destruct n as [|[|n]]; [lia..|]. destruct pad as [|x pad]; [simpl in Hp; lia|].
    rewrite encode_loop_escape, Ex by done.
    rewrite encode_loop_plain by (rewrite ?length_app; simpl; lia || done).
    pose proof (IH n ((pre ++ [0x7D]) ++ [c]) pad (extra + 1)) as I.
    rewrite !length_app in I |- *. cbn [length] in I, Hp |- *.
    replace (length pre + S (length p) + 1)%nat with (length pre + 1 + 1 + length p)%nat by lia.
    rewrite I by lia.
    replace (S (S (length (escape p))) - S (length p))%nat with (S (length (escape p) - length p))%nat by lia.
    rewrite <- !app_assoc. cbn [app drop]. do 2 f_equal; [f_equal; lia|lia]. }
  destruct (escape_byte_cases b) as [[-> E]|[[-> E]|(N1 & N2 & E)]]; rewrite E in *.
  1, 2: apply Esc; auto; done.
  cbn [app length] in Hn, Hp |- *. destruct n as [|n]; [lia|].
  rewrite encode_loop_plain by (done || lia).
  replace (length pre + S (length p))%nat with (length (pre ++ [b]) + length p)%nat
    by (rewrite length_app; simpl; lia).
  rewrite IH by lia. rewrite length_app, <- app_assoc. cbn [length app Nat.sub]. do 2 f_equal. f_equal; lia.
Qed.

(** Escaping in place is escaping, if the buffer has room; the result is the new length and
    [*extra_len] grows by the bytes added. *)
Theorem encode7d7e_spec p pad extra :
  (length (escape p) - length p <= length pad)%nat →
  eng_diag_encode7d7e (p ++ pad) (length p) extra
  = Some (escape p ++ drop (length (escape p) - length p) pad, length (escape p),
          extra + Z.of_nat (length (escape p) - length p)).
Proof.
  intros Hp. unfold eng_diag_encode7d7e. pose proof (escape_length p).
  apply (encode_loop_spec _ [] p pad extra); [lia|done].
Qed.

(** ** Hexadecimal texts *)

Lemma digit_value_hex n : 0 <= n < 16 → digit_value (hex_digit n) = n.
Proof.
  intros H. apply Z.eqb_eq.
  apply (forallb_seqZ (λ n, digit_value (hex_digit n) =? n) 0 16); [by vm_compute|lia].
Qed.

(** What [bin2ascii] prints, [ascii2bin] reads back, also from the front of a longer text. *)
Theorem bin2ascii_roundtrip p rest :
  wf_bytes p →
  (t ← bin2ascii p (length p); ascii2bin (t ++ rest) (2 * length p)) = Some p.
Proof.
  intros Hp. unfold bin2ascii. rewrite slice_ok by lia. rewrite drop_0, firstn_all.
  cbn [mbind option_bind]. induction p as [|b p IH]; [done|]. apply wf_cons in Hp as [Hb Hp].
  specialize (IH Hp). cbn [length]. replace (2 * S (length p))%nat with (S (S (2 * length p))) by lia.
  cbn [mbind list_bind app ascii2bin Nat.pred]. rewrite IH. cbn [mbind option_bind].
  assert (Hh : 0 <= Z.shiftr (Z.land b 0xf0) 4 < 16 ∧ 0 <= Z.land b 0x0f < 16
    ∧ u8 (Z.lor (Z.shiftl (Z.shiftr (Z.land b 0xf0) 4) 4) (Z.land b 0x0f)) = b).
  { cut (forallb (λ b, (0 <=? Z.shiftr (Z.land b 0xf0) 4) && (Z.shiftr (Z.land b 0xf0) 4 <? 16)
      && (0 <=? Z.land b 0x0f) && (Z.land b 0x0f <? 16)
      && (u8 (Z.lor (Z.shiftl (Z.shiftr (Z.land b 0xf0) 4) 4) (Z.land b 0x0f)) =? b)) (seqZ 0 256) = true);
      [|by vm_compute].
    intros A. pose proof (forallb_seqZ _ _ _ b A) as B. cbv beta in B.
    unfold is_u8 in Hb. specialize (B ltac:(lia)). bsplit. lia. }
  destruct Hh as (H1 & H2 & H3). rewrite !digit_value_hex by done. by rewrite H3.
Qed.

(** Only upper-case digits are read: a lower-case low digit also sets bit 5. *)
Example ascii2bin_lower_case : ascii2bin [0x31; 0x61] 2 = Some [0x3A] ∧ ascii2bin [0x31; 0x41] 2 = Some [0x1A].
Proof. done. Qed.

(** ** The header *)

Definition wf_head (h : MSG_HEAD_T) : Prop :=
  is_u32 (seq_num h) ∧ is_u16 (len h) ∧ is_u8 (type h) ∧ is_u8 (subtype h).

Lemma enc_head_length h : length (enc_head h) = MSG_HEAD_SIZE.
Proof. done. Qed.

Lemma enc_head_bytes h : wf_bytes (enc_head h).
Proof. unfold wf_bytes, enc_head, le32, le16. repeat constructor; apply u8_range. Qed.

Lemma get16_le16 pre z post : is_u16 z → get16 (length pre) (pre ++ le16 z ++ post) = Some z.
Proof.
  intros Hz. unfold get16, le16. cbn [app]. rewrite lookup_next, lookup_mid by done.
  cbn [mbind option_bind]. f_equal. unfold u8. rewrite Z.shiftr_div_pow2 by lia.
  unfold is_u16 in Hz. Z.to_euclidean_division_equations. lia.
Qed.

(** Reading the header that was written. *)
Lemma get_head_enc pre h post :
  wf_head h → get_head (length pre) (pre ++ enc_head h ++ post) = Some h.
Proof.
  intros (H1 & H2 & H3 & H4). unfold get_head, enc_head. rewrite <- !app_assoc.
  rewrite get32_le32, u32_id by done. cbn [mbind option_bind].
  set (s := le32 (seq_num h)).
  replace (pre ++ s ++ le16 (len h) ++ [u8 (type h); u8 (subtype h)] ++ post)
    with ((pre ++ s) ++ le16 (len h) ++ [u8 (type h); u8 (subtype h)] ++ post) by by rewrite <- app_assoc.
  replace (length pre + 4)%nat with (length (pre ++ s)) by by rewrite length_app.
  rewrite get16_le16 by done. cbn [mbind option_bind].
  rewrite app_assoc. cbn [app].
  replace (length pre + 7)%nat with (length ((pre ++ s) ++ le16 (len h)) + 1)%nat
    by (rewrite !length_app; simpl; lia).
  rewrite lookup_next, lookup_mid by (rewrite !length_app; simpl; lia). cbn [mbind option_bind].
  rewrite !u8_id by done. by destruct h.
Qed.

(** ** Witnesses *)

Lemma translate_packet_roundtrip_witness :
  untranslate_packet_header ([1] ++ take 7 [0x7E; 0x7D; 0x5E; 2; 0x7D; 0x5D; 0x7E; 0; 0] ++ [9]) 9 (-1)
  = Some [0x7E; 2; 0x7D].
Proof.
  apply (translate_packet_roundtrip (replicate 9 0) [0x7E; 0x7D; 0x5E; 2; 0x7D; 0x5D; 0x7E; 0; 0] 7
    [0x7E; 2; 0x7D] [1] [9]); [done|repeat constructor; lia|reflexivity].
Defined.

Lemma encode7d7e_spec_witness :
  eng_diag_encode7d7e ([0x7E; 5; 0x7D] ++ [0; 0; 8]) 3 1
  = Some ([0x7D; 0x5E; 5; 0x7D; 0x5D] ++ [8], 5%nat, 3).
Proof. apply (encode7d7e_spec [0x7E; 5; 0x7D] [0; 0; 8] 1). cbn. lia. Defined.

Lemma bin2ascii_roundtrip_witness :
  (t ← bin2ascii [0x1F; 0xA0] 2; ascii2bin (t ++ [0]) 4) = Some [0x1F; 0xA0].
Proof.
  apply (bin2ascii_roundtrip [0x1F; 0xA0] [0]). rewrite !wf_cons. unfold is_u8.
  split_and!; try lia. apply wf_nil.
Defined.
