(* ===== verification/DiagPort.v ===== *)
(** * The diagnostic port of the engineering mode (engmode/vdiag.c, vlog.c)

    [eng_vdiag_wthread] reads the PC's bytes from the serial line, cuts them
    into frames, lets the application processor handle a frame and passes the
    rest on to the modem; [eng_vdiag_rthread] and [eng_vlog_thread] carry the
    modem's bytes to the PC.  The results of [read] and [write] are inputs.  What
    the port needs of the commands is the interface [DiagHandler].  [None] is an
    access outside an array. *)

From stdpp Require Import list.
From S2P Require Import Prelude DiagFrame.

Definition DATA_BUF_SIZE : nat := Z.to_nat (4096 * 4).
Definition DATA_EXT_DIAG_SIZE : nat := Z.to_nat (4096 * 4).
Definition CMD_COMMON : Z := -1.

(** [eng_diag_parse] and [eng_diag] on a buffer of [len] bytes: both may write to it.  The state of
    the commands is [A]; [eng_diag] answers 1 when the frame is dealt with. *)
Class DiagHandler (A : Type) := {
  eng_diag_parse : A → bytes → nat → option (A * bytes * Z);
  eng_diag : A → bytes → nat → option (A * bytes * Z) }.

Inductive eng_diag_state := ENG_DIAG_RECV_TO_AP | ENG_DIAG_RECV_TO_CP.
#[export] Instance eng_diag_state_eq_dec : EqDecision eng_diag_state.
Proof. solve_decision. Defined.

(** The globals of vdiag.c. *)
Record port := Port {
  ext_data_buf : bytes; ext_buf_len : nat;
  backup_data_buf : bytes; backup_data_len : nat;
  g_diag_status : eng_diag_state; g_ass_start : bool }.

Definition set_ext (e : bytes) (n : nat) (p : port) : port :=
  Port e n (backup_data_buf p) (backup_data_len p) (g_diag_status p) (g_ass_start p).
Definition set_status (st : eng_diag_state) (p : port) : port :=
  Port (ext_data_buf p) (ext_buf_len p) (backup_data_buf p) (backup_data_len p) st (g_ass_start p).

Definition init_user_diag_buf (p : port) : port := set_ext (replicate DATA_EXT_DIAG_SIZE 0) 0 p.

(** The statics are zero when the thread starts. *)
Definition port_start : port :=
  Port (replicate DATA_EXT_DIAG_SIZE 0) 0 (replicate DATA_EXT_DIAG_SIZE 0) 0 ENG_DIAG_RECV_TO_AP false.

(** [memcpy (backup_data_buf, src, n); backup_data_len = n]. *)
Definition backup (src : bytes) (n : nat) (p : port) : option port :=
  d ← slice 0 n src; b ← splice 0 d (backup_data_buf p);
  Some (Port (ext_data_buf p) (ext_buf_len p) b n (g_diag_status p) (g_ass_start p)).

(** The loop over the bytes read; the result is the buffer, its length and [is_find]. *)
Fixpoint get_user_diag_buf (buf ext : bytes) (n : nat) : option (bytes * nat * bool) :=
  match buf with
  | [] => Some (ext, n, false)
  | b :: rest =>
      if (b =? 0x7e) && (n =? 0)%nat then
        e ← store n b ext; get_user_diag_buf rest e (S n)
      else if (0 <? n)%nat && (n <? DATA_EXT_DIAG_SIZE)%nat then
        e ← store n b ext;
        if b =? 0x7e then Some (e, S n, true) else get_user_diag_buf rest e (S n)
      else get_user_diag_buf rest ext n
  end.

(** ** Reading the serial line *)

(** One or two calls of [read]: their results, [None] for -1.  The bytes are those up to [r_cnt] of
    [log_data], which is zero before. *)
Definition serial_read (r1 r2 : option bytes) : option bytes :=
  match r1 with
  | None => None
  | Some l =>
      if (length l =? DATA_BUF_SIZE / 2)%nat then
        match r2 with
        | None => Some (take (length l - 1) l)
        | Some l2 => Some (l ++ l2)
        end
      else Some l
  end.

Section wthread.
Context {A : Type} `{!DiagHandler A}.

(** The body of the loop from the [switch] to [continue], on the bytes [log_data] read; the
    result has [has_processed]. *)
Definition wthread_switch (log_data : bytes) (ap : A) (p : port) : option (A * port * bool) :=
  match g_diag_status p with
  | ENG_DIAG_RECV_TO_CP =>
      p1 ← backup log_data (length log_data) p;
      Some (ap,
        set_status (if decide (list.last log_data = Some 0x7E) then ENG_DIAG_RECV_TO_AP
                    else ENG_DIAG_RECV_TO_CP) p1, false)
  | ENG_DIAG_RECV_TO_AP =>
      g ← get_user_diag_buf log_data (ext_data_buf p) (ext_buf_len p);
      let '(e, n, is_find) := g in
      let p1 := set_ext e n p in
      if is_find : bool then
        p2 ← backup e n p1;
        h ← eng_diag ap e n;
        let '(ap', _, done) := h in
        Some (ap', init_user_diag_buf p2, done =? 1)
      else if (n =? 0)%nat then
        p2 ← backup log_data (length log_data) p1;
        Some (ap, p2, false)
      else if (DATA_EXT_DIAG_SIZE / 2 <=? n)%nat then
        h ← eng_diag_parse ap e n;
        let '(ap', e', type) := h in
        if type =? CMD_COMMON then
          p2 ← backup e' n (set_ext e' n p1);
          Some (ap', set_status ENG_DIAG_RECV_TO_CP (init_user_diag_buf p2), false)
        else Some (ap', set_ext e' n p1, true)
      else Some (ap, p1, true)
  end.

(** One turn of the loop after a successful read: the bytes to write to the modem, if any.  The loop of [write]
    takes [backup_data_len] down to 0 ([modem_write] below). *)
Definition wthread_turn (log_data : bytes) (ap : A) (p : port) : option (A * port * option bytes) :=
  s ← wthread_switch log_data ap p;
  let '(ap', p1, has_processed) := s in
  if has_processed : bool then
    Some (ap', Port (ext_data_buf p1) (ext_buf_len p1) (backup_data_buf p1) 0
                 (g_diag_status p1) (g_ass_start p1), None)
  else
    let dump := (length log_data =? 2)%nat && bool_decide (log_data !! 1%nat = Some 0xa) in
    d ← slice 0 (backup_data_len p1) (backup_data_buf p1);
    Some (ap', Port (ext_data_buf p1) (ext_buf_len p1) (backup_data_buf p1) 0
                 (g_diag_status p1) (g_ass_start p1 || dump), Some d).

(** Puts what one turn sends before what the next ones send. *)
Definition emit (out : option bytes) (u : A * port * list bytes) : A * port * list bytes :=
  let '(ap, p, outs) := u in (ap, p, match out with Some o => o :: outs | None => outs end).

(** The turns of the loop on the reads of a session, with what goes to the modem; a read of
    nothing reopens the line and changes nothing else. *)
Fixpoint wthread_run (reads : list bytes) (ap : A) (p : port) : option (A * port * list bytes) :=
  match reads with
  | [] => Some (ap, p, [])
  | r :: rest =>
      if (length r =? 0)%nat then wthread_run rest ap p
      else
        t ← wthread_turn r ap p;
        let '(ap1, p1, out) := t in
        emit out <$> wthread_run rest ap1 p1
  end.
End wthread.

(** ** Writing to the modem *)

(** The loop of [write]: [ws] are its results.  The bytes accepted, what is left of
    [backup_data_len] and whether the loop is over. *)
Fixpoint modem_write (ws : list Z) (d : bytes) : bytes * bool :=
  match ws with
  | [] => ([], false)
  | w :: rest =>
      if w <? 0 then
        if (0 <? length d)%nat then modem_write rest d else ([], true)
      else
        let sent := take (Z.to_nat w) d in
        let left := drop (Z.to_nat w) d in
        if (0 <? length left)%nat then let '(s, e) := modem_write rest left in (sent ++ s, e)
        else (sent, true)
  end.

(** ** The way back (vlog.c) *)

Definition MAX_OPEN_TIMES : nat := 10.

(** A [write] to the serial line: accepted, busy, or failed with so many failed attempts to
    reopen the line behind it. *)
Inductive ser_write := SerOk (w_cnt : nat) | SerBusy | SerFail (reopens : nat).

Inductive relay_end := Relayed | Stopped | Writing.
#[export] Instance relay_end_eq_dec : EqDecision relay_end.
Proof. solve_decision. Defined.

(** The sizes asked for, the bytes accepted and how the loop ended. *)
Fixpoint relay_loop (split_flag : bool) (ws : list ser_write) (d : bytes)
    : list nat * bytes * relay_end :=
  match ws with
  | [] => ([], [], Writing)
  | w :: rest =>
      let ask := if split_flag then (length d - 32)%nat else length d in
      let again split d' sent :=
        if (0 <? length d')%nat then
          let '(qs, s, e) := relay_loop split rest d' in (ask :: qs, sent ++ s, e)
        else ([ask], sent, Relayed) in
      match w with
      | SerBusy => again split_flag d []
      | SerFail k => if (MAX_OPEN_TIMES <? k)%nat then ([ask], [], Stopped) else again split_flag d []
      | SerOk n => again false (drop n d) (take n d)
      end
  end.

(** [dump_mem_len_print]: the end of a memory dump is 12 bytes whose third word is the exclusive or
    of the first two.  The state is [g_ass_start] and [*dumplen]. *)
Definition dump_mem_len_print (log_data : bytes) (s : bool * Z) : option (bool * Z) :=
  s1 ← (if (length log_data =? 12)%nat then
          head ← get32 0 log_data; n ← get32 4 log_data; tail ← get32 8 log_data;
          Some (if tail =? Z.lxor n head then (false, 0) else s)
        else Some s);
  let '(ass, dumplen) := s1 in
  Some (ass, if ass : bool then i32 (dumplen + Z.of_nat (length log_data)) else dumplen).

(** One turn of the loop on the bytes read from the modem. *)
Definition rthread_turn (cali_flag usb : bool) (log_data : bytes) (ws : list ser_write) (s : bool * Z)
    : option (bool * Z * (list nat * bytes * relay_end)) :=
  s1 ← dump_mem_len_print log_data s;
  let split_flag := (length log_data `mod` 64 =? 0)%nat && cali_flag && usb in
  Some (s1, relay_loop split_flag ws log_data).

(** ** The buffer of the frame *)

(** The array with [c] in its first cells and zeros behind. *)
Definition filled (c : bytes) : bytes := c ++ replicate (DATA_EXT_DIAG_SIZE - length c) 0.

Lemma size_value : DATA_EXT_DIAG_SIZE = Z.to_nat 16384.
Proof. done. Qed.

Lemma half_value : (DATA_EXT_DIAG_SIZE / 2)%nat = Z.to_nat 8192.
Proof. by vm_compute. Qed.

#[global] Opaque DATA_EXT_DIAG_SIZE.

Lemma filled_length c : (length c <= DATA_EXT_DIAG_SIZE)%nat → length (filled c) = DATA_EXT_DIAG_SIZE.
Proof. intros. unfold filled. rewrite length_app, length_replicate. lia. Qed.

Lemma filled_nil : filled [] = replicate DATA_EXT_DIAG_SIZE 0.
Proof. unfold filled. simpl. by rewrite Nat.sub_0_r. Qed.

Lemma slice_filled c : slice 0 (length c) (filled c) = Some c.
Proof. unfold filled. by apply slice_front. Qed.

Lemma store_filled c b :
  (length c < DATA_EXT_DIAG_SIZE)%nat → store (length c) b (filled c) = Some (filled (c ++ [b])).
Proof.
  intros H. unfold filled.
  replace (DATA_EXT_DIAG_SIZE - length c)%nat with (S (DATA_EXT_DIAG_SIZE - length (c ++ [b])))
    by (rewrite length_app; simpl; lia).
  cbn [replicate]. rewrite store_mid by done. by rewrite <- app_assoc.
Qed.

(** A frame: two delimiters and no other. *)
Definition is_frame (f : bytes) : Prop :=
  ∃ body, f = 0x7e :: body ++ [0x7e] ∧ Forall (λ b, b ≠ 0x7e) body.

Lemma frame_of_is_frame p : is_frame (frame_of p).
Proof. exists (escape p). split; [done|apply escape_no_flag]. Qed.

(** Scanning the piece [r] of a frame of which [c] is in the buffer already and [s] is missing. *)
Lemma get_user_diag_buf_piece f c r s :
  is_frame f → (length f <= DATA_EXT_DIAG_SIZE)%nat → c ++ r ++ s = f → r ++ s ≠ [] →
  get_user_diag_buf r (filled c) (length c)
  = Some (filled (c ++ r), length (c ++ r), bool_decide (s = [])).
Proof.
  intros (body & Ef & Hb) Hl E Hn. revert c E Hn. induction r as [|b r IH]; intros c E Hn.
  { cbn [get_user_diag_buf app] in *. rewrite app_nil_r. by rewrite bool_decide_eq_false_2. }
  assert (Hc : (length c < DATA_EXT_DIAG_SIZE)%nat).
  { rewrite <- E, !length_app in Hl. simpl in Hl. lia. }
  assert (E' : (c ++ [b]) ++ r ++ s = f) by (rewrite <- app_assoc; exact E).
  cbn [get_user_diag_buf]. rewrite store_filled by done. cbn [mbind option_bind].
  replace (S (length c)) with (length (c ++ [b])) by (rewrite length_app; simpl; lia).
  replace (c ++ b :: r) with ((c ++ [b]) ++ r) by by rewrite <- app_assoc.
  rewrite Ef in E. destruct c as [|c0 c].
  - cbn [app] in E. injection E as -> E. cbn [length Nat.eqb andb Z.eqb Pos.eqb].
    apply IH; [exact E'|]. rewrite E. by destruct body.
  - cbn [app] in E. injection E as -> E. cbn [length Nat.eqb].
    rewrite andb_false_r, (proj2 (Nat.ltb_lt _ _)) by lia.
    rewrite (proj2 (Nat.ltb_lt _ _)) by (simpl in Hc; lia). cbn [andb].
    destruct (r ++ s) as [|x t] eqn:T.
    + apply app_nil in T as [-> ->]. change (b :: [] ++ []) with [b] in E.
      apply app_inj_tail in E as [-> ->]. cbn [Z.eqb Pos.eqb].
      rewrite app_nil_r. by rewrite bool_decide_eq_true_2.
    + assert (Hbn : b ≠ 0x7e).
      { destruct (exists_last (l := x :: t)) as (t' & y & Et); [done|].
        rewrite Et in E. rewrite (app_comm_cons t' [y] b), app_assoc in E.
        apply app_inj_tail in E as [<- _].
        apply Forall_app in Hb as [_ Hb]. by inversion Hb. }
      rewrite (proj2 (Z.eqb_neq _ _)) by done. by apply IH.
Qed.

(** Behind the end of a frame nothing is looked at. *)
Lemma get_user_diag_buf_rest r ext n e m rest :
  get_user_diag_buf r ext n = Some (e, m, true) →
  get_user_diag_buf (r ++ rest) ext n = Some (e, m, true).
Proof.
  revert ext n. induction r as [|b r IH]; intros ext n H; [done|].
  cbn [get_user_diag_buf app] in *. destruct (_ && _).
  - binv H. rewrite E. cbn [mbind option_bind]. by apply IH.
  - destruct (_ && _); [|by apply IH]. binv H. rewrite E. cbn [mbind option_bind].
    destruct (b =? 0x7e); [done|]. by apply IH.
Qed.

(** ** Frames reach the application processor *)

Section served.
Context {A : Type} `{!DiagHandler A}.

(** The port between two reads, with the first bytes [c] of a frame in its buffer. *)
Definition at_frame (c : bytes) (p : port) : Prop :=
  ext_data_buf p = filled c ∧ ext_buf_len p = length c ∧ g_diag_status p = ENG_DIAG_RECV_TO_AP
  ∧ length (backup_data_buf p) = DATA_EXT_DIAG_SIZE.

(** What a frame should do: the handler gets it whole, and if the handler does not deal with it the
    modem gets it as it came. *)
Definition serve_frame (ap : A) (f : bytes) : option (A * option bytes) :=
  h ← eng_diag ap (filled f) (length f);
  let '(ap', _, ret) := h in
  Some (ap', if ret =? 1 then None else Some f).

Fixpoint serve_frames (ap : A) (fs : list bytes) : option (A * list bytes) :=
  match fs with
  | [] => Some (ap, [])
  | f :: fs =>
      s ← serve_frame ap f; let '(ap1, out) := s in
      t ← serve_frames ap1 fs; let '(ap2, outs) := t in
      Some (ap2, match out with Some o => o :: outs | None => outs end)
  end.

Lemma backup_filled c p :
  length (backup_data_buf p) = DATA_EXT_DIAG_SIZE → (length c <= DATA_EXT_DIAG_SIZE)%nat →
  ∃ b, backup (filled c) (length c) p
       = Some (Port (ext_data_buf p) (ext_buf_len p) b (length c) (g_diag_status p) (g_ass_start p))
       ∧ length b = DATA_EXT_DIAG_SIZE ∧ slice 0 (length c) b = Some c.
Proof.
  intros Hb Hc. unfold backup. rewrite slice_filled. cbn [mbind option_bind].
  rewrite splice_ok by lia. cbn [mbind option_bind]. eexists. split; [done|].
  rewrite take_0, Nat.add_0_l. cbn [app]. split.
  - rewrite length_app, length_drop. lia.
  - by apply slice_front.
Qed.

(** A read that does not complete the frame is kept. *)
Lemma turn_more f c r s ap p :
  is_frame f → (length f <= DATA_EXT_DIAG_SIZE / 2)%nat → c ++ r ++ s = f → r ≠ [] → s ≠ [] →
  at_frame c p → ∃ p', wthread_turn r ap p = Some (ap, p', None) ∧ at_frame (c ++ r) p'.
Proof.
  intros Hf Hl E Hr Hs (Ee & En & Est & Eb).
  assert (Hh : (DATA_EXT_DIAG_SIZE / 2 <= DATA_EXT_DIAG_SIZE)%nat)
    by (rewrite half_value, size_value; lia).
  assert (Hn : r ++ s ≠ []) by (by destruct r).
  unfold wthread_turn, wthread_switch. rewrite Est, Ee, En.
  rewrite (get_user_diag_buf_piece f c r s Hf ltac:(lia) E Hn). cbn [mbind option_bind].
  rewrite (bool_decide_eq_false_2 (s = [])) by done.
  assert (L : (0 < length (c ++ r) < DATA_EXT_DIAG_SIZE / 2)%nat).
  { rewrite <- E, app_assoc, length_app in Hl. destruct s; [done|]. simpl in Hl.
    rewrite length_app in *. destruct r; [done|]. simpl in *. lia. }
  destruct (Nat.eqb_spec (length (c ++ r)) 0) as [?|_]; [lia|].
  rewrite (proj2 (Nat.leb_gt _ _)) by lia. cbn [mbind option_bind]. eexists. split; [done|].
  done.
Qed.

(** The read that completes it serves the frame. *)
Lemma turn_last f c r ap p ap' out :
  is_frame f → (length f <= DATA_EXT_DIAG_SIZE / 2)%nat → c ++ r = f → r ≠ [] →
  at_frame c p → serve_frame ap f = Some (ap', out) →
  ∃ p', wthread_turn r ap p = Some (ap', p', out) ∧ at_frame [] p'.
Proof.
  intros Hf Hl E Hr (Ee & En & Est & Eb) Hs.
  assert (Hh : (DATA_EXT_DIAG_SIZE / 2 <= DATA_EXT_DIAG_SIZE)%nat)
    by (rewrite half_value, size_value; lia).
  assert (E' : c ++ r ++ [] = f) by (by rewrite app_nil_r).
  unfold wthread_turn, wthread_switch. rewrite Est, Ee, En.
  rewrite (get_user_diag_buf_piece f c r [] Hf ltac:(lia) E') by (by destruct r).
  cbn [mbind option_bind]. rewrite (bool_decide_eq_true_2 (@nil Z = [])) by done. rewrite E.
  destruct (backup_filled f (set_ext (filled f) (length f) p)) as (b & Hbk & Lb & Sb); [done|lia|].
  rewrite Hbk. cbn [mbind option_bind].
  unfold serve_frame in Hs. destruct (eng_diag _ _ _) as [[[ap1 e1] ret]|]; [|done].
  cbn [mbind option_bind] in Hs |- *. injection Hs as <- <-. destruct (ret =? 1).
  - eexists. split; [done|]. unfold at_frame. rewrite filled_nil. done.
  - cbn [backup_data_len backup_data_buf init_user_diag_buf set_ext]. rewrite Sb.
    cbn [mbind option_bind]. eexists. split; [done|]. unfold at_frame. by rewrite filled_nil.
Qed.

Lemma run_nothing cs rest ap p :
  concat cs = [] → wthread_run (cs ++ rest) ap p = wthread_run rest ap p.
Proof.
  induction cs as [|c cs IH]; [done|]. intros E. cbn [concat] in E.
  apply app_nil in E as [-> E]. cbn. by apply IH.
Qed.

(** A frame cut into reads in any way. *)
Lemma run_frame f cs c ap p ap' out :
  is_frame f → (length f <= DATA_EXT_DIAG_SIZE / 2)%nat → c ++ concat cs = f → c ≠ f →
  at_frame c p → serve_frame ap f = Some (ap', out) →
  ∃ p', at_frame [] p' ∧ ∀ rest, wthread_run (cs ++ rest) ap p = emit out <$> wthread_run rest ap' p'.
Proof.
  intros Hf Hl. revert c p. induction cs as [|r cs IH]; intros c p E Hc Hp Hs.
  { cbn in E. by rewrite app_nil_r in E. }
  cbn [concat] in E. destruct r as [|x r].
  { destruct (IH c p E Hc Hp Hs) as (p' & Hp' & R). by exists p'. }
  destruct (decide (concat cs = [])) as [N|N].
  - rewrite N, app_nil_r in E.
    destruct (turn_last f c (x :: r) ap p ap' out) as (p' & T & Hp'); [done..|].
    exists p'. split; [done|]. intros rest. cbn [app wthread_run length Nat.eqb]. rewrite T.
    cbn [mbind option_bind]. by rewrite run_nothing.
  - destruct (turn_more f c (x :: r) (concat cs) ap p) as (p1 & T & Hp1); [done..|].
    destruct (IH (c ++ x :: r) p1) as (p' & Hp' & R).
    + by rewrite <- app_assoc.
    + intros X. rewrite <- E, app_assoc in X. rewrite <- (app_nil_r (c ++ x :: r)) in X at 1.
      by apply app_inv_head in X.
    + done.
    + done.
    + exists p'. split; [done|]. intros rest. cbn [app wthread_run length Nat.eqb]. rewrite T.
      cbn [mbind option_bind]. rewrite R. by destruct (wthread_run rest ap' p') as [[[??]?]|].
Qed.

(** C17. Chunking does not matter: a session of frames of at most half the buffer, each of them cut into
    reads in any way, serves the frames one after the other, for every handler; between the frames
    the port is as at the start. *)
Theorem wthread_serves_frames fs css ap p ap' outs :
  Forall (λ f, is_frame f ∧ (length f <= DATA_EXT_DIAG_SIZE / 2)%nat) fs →
  Forall2 (λ f cs, concat cs = f) fs css →
  at_frame [] p → serve_frames ap fs = Some (ap', outs) →
  ∃ p', wthread_run (concat css) ap p = Some (ap', p', outs) ∧ at_frame [] p'.
Proof.
  intros Hf Hc. revert ap p ap' outs. induction Hc as [|f cs fs css E _ IH]; intros ap p ap' outs Hp Hs.
  { cbn in *. injection Hs as <- <-. by exists p. }
  inversion Hf as [|? ? [Hf1 Hl] Hf2]; subst. cbn [serve_frames] in Hs.
  destruct (serve_frame ap (concat cs)) as [[ap1 out]|] eqn:S1; [|done]. cbn [mbind option_bind] in Hs.
  destruct (serve_frames ap1 fs) as [[ap2 outs2]|] eqn:S2; [|done]. cbn [mbind option_bind] in Hs.
  injection Hs as <- <-.
  destruct (run_frame (concat cs) cs [] ap p ap1 out) as (p1 & Hp1 & R); [done..| |done|done|].
  { intros X. destruct Hf1 as (body & E & _). by rewrite <- X in E. }
  destruct (IH Hf2 ap1 p1 ap2 outs2) as (p2 & R2 & Hp2); [done..|].
  exists p2. cbn [concat]. rewrite R, R2. by destruct out.
Qed.

(** What comes behind the end of a frame in the same read is lost: it is neither scanned nor passed
    on nor kept for the next turn, whatever it is. *)
Theorem bytes_behind_frame_lost f c r rest ap p ap' out :
  is_frame f → (length f <= DATA_EXT_DIAG_SIZE / 2)%nat → c ++ r = f → r ≠ [] →
  at_frame c p → serve_frame ap f = Some (ap', out) →
  ∃ p', wthread_turn (r ++ rest) ap p = Some (ap', p', out) ∧ at_frame [] p'.
Proof.
  intros Hf Hl E Hr (Ee & En & Est & Eb) Hs.
  assert (Hh : (DATA_EXT_DIAG_SIZE / 2 <= DATA_EXT_DIAG_SIZE)%nat)
    by (rewrite half_value, size_value; lia).
  assert (E' : c ++ r ++ [] = f) by (by rewrite app_nil_r).
  unfold wthread_turn, wthread_switch. rewrite Est, Ee, En.
  pose proof (get_user_diag_buf_piece f c r [] Hf ltac:(lia) E') as G.
  rewrite (bool_decide_eq_true_2 (@nil Z = [])) in G by done.
  rewrite (get_user_diag_buf_rest _ _ _ _ _ rest (G ltac:(by destruct r))).
  cbn [mbind option_bind]. rewrite E.
  destruct (backup_filled f (set_ext (filled f) (length f) p)) as (b & Hbk & Lb & Sb); [done|lia|].
  rewrite Hbk. cbn [mbind option_bind].
  unfold serve_frame in Hs. destruct (eng_diag _ _ _) as [[[ap1 e1] ret]|]; [|done].
  cbn [mbind option_bind] in Hs |- *. injection Hs as <- <-. destruct (ret =? 1).
  - eexists. split; [done|]. unfold at_frame. rewrite filled_nil. done.
  - cbn [backup_data_len backup_data_buf init_user_diag_buf set_ext]. rewrite Sb.
    cbn [mbind option_bind]. eexists. split; [done|]. unfold at_frame. by rewrite filled_nil.
Qed.

Lemma get_user_diag_buf_noise r ext :
  Forall (λ b, b ≠ 0x7e) r → get_user_diag_buf r ext 0 = Some (ext, 0%nat, false).
Proof.
  induction 1 as [|b r Hb _ IH]; [done|]. cbn [get_user_diag_buf].
  by rewrite (proj2 (Z.eqb_neq _ _)) by done.
Qed.

Lemma backup_all r p :
  length (backup_data_buf p) = DATA_EXT_DIAG_SIZE → (length r <= DATA_EXT_DIAG_SIZE)%nat →
  ∃ b, backup r (length r) p
       = Some (Port (ext_data_buf p) (ext_buf_len p) b (length r) (g_diag_status p) (g_ass_start p))
       ∧ length b = DATA_EXT_DIAG_SIZE ∧ slice 0 (length r) b = Some r.
Proof.
  intros Hb Hr. unfold backup.
  rewrite slice_whole. cbn [mbind option_bind]. rewrite splice_ok by lia. cbn [mbind option_bind]. eexists.
  split; [done|]. rewrite take_0, Nat.add_0_l. cbn [app]. split.
  - rewrite length_app, length_drop. lia.
  - by apply slice_front.
Qed.

(** Between frames, bytes without a delimiter go to the modem unchanged. *)
Theorem plain_bytes_forwarded r ap p :
  Forall (λ b, b ≠ 0x7e) r → (0 < length r <= DATA_BUF_SIZE)%nat → at_frame [] p →
  ∃ p', wthread_turn r ap p = Some (ap, p', Some r) ∧ at_frame [] p'.
Proof.
  intros Hr Hl (Ee & En & Est & Eb). unfold wthread_turn, wthread_switch. rewrite Est, En.
  cbn [length]. rewrite get_user_diag_buf_noise by done. cbn [mbind option_bind Nat.eqb].
  destruct (backup_all r (set_ext (ext_data_buf p) 0 p)) as (b & Hbk & Lb & Sb); [done| |].
  { change DATA_BUF_SIZE with (Z.to_nat 16384) in Hl. rewrite size_value. lia. }
  rewrite Hbk. cbn [mbind option_bind backup_data_len backup_data_buf]. rewrite Sb.
  cbn [mbind option_bind]. eexists. by split.
Qed.

(** ** Frames too large for the application processor *)

(** The frame that was started before leaves for the modem and the rest of it follows. *)
Definition to_modem (p : port) : Prop :=
  ext_data_buf p = filled [] ∧ ext_buf_len p = 0%nat ∧ g_diag_status p = ENG_DIAG_RECV_TO_CP
  ∧ length (backup_data_buf p) = DATA_EXT_DIAG_SIZE.

(** When half the buffer is full without an end of the frame, the handler classifies what is there;
    if it is not its own, the modem gets the buffer as the classification has left it. *)
Lemma turn_large f c r s ap p ap' e :
  is_frame f → (length f <= DATA_EXT_DIAG_SIZE)%nat → c ++ r ++ s = f → s ≠ [] →
  (DATA_EXT_DIAG_SIZE / 2 <= length (c ++ r))%nat → at_frame c p →
  eng_diag_parse ap (filled (c ++ r)) (length (c ++ r)) = Some (ap', e, CMD_COMMON) →
  length e = DATA_EXT_DIAG_SIZE →
  ∃ p', wthread_turn r ap p = Some (ap', p', Some (take (length (c ++ r)) e)) ∧ to_modem p'.
Proof.
  intros Hf Hl E Hs Hh (Ee & En & Est & Eb) Hp He.
  assert (Hcr : (length (c ++ r) <= DATA_EXT_DIAG_SIZE)%nat)
    by (rewrite <- E, app_assoc, length_app in Hl; lia).
  unfold wthread_turn, wthread_switch. rewrite Est, Ee, En.
  rewrite (get_user_diag_buf_piece f c r s Hf Hl E) by (by destruct r, s).
  cbn [mbind option_bind]. rewrite (bool_decide_eq_false_2 (s = [])) by done.
  destruct (Nat.eqb_spec (length (c ++ r)) 0) as [Z0|_].
  { rewrite Z0, half_value in Hh. lia. }
  rewrite (proj2 (Nat.leb_le _ _)) by done. rewrite Hp. cbn [mbind option_bind]. rewrite Z.eqb_refl.
  unfold backup. rewrite slice_ok, drop_0 by lia. cbn [mbind option_bind].
  set (d := take (length (c ++ r)) e).
  assert (Ld : length d = length (c ++ r)) by (unfold d; rewrite length_take; lia).
  rewrite splice_ok by (simpl; lia).
  cbn [mbind option_bind set_status init_user_diag_buf set_ext backup_data_buf backup_data_len].
  rewrite take_0, Nat.add_0_l. cbn [app].
  rewrite slice_front by done.
  cbn [mbind option_bind]. eexists. split; [done|].
  unfold to_modem. rewrite filled_nil. split_and!; [done..|]. cbn [backup_data_buf set_status init_user_diag_buf set_ext].
  rewrite length_app, length_drop. lia.
Qed.

(** Then every read goes to the modem unchanged up to and including the first that ends with a
    delimiter. *)
Lemma turn_to_modem r ap p :
  (0 < length r <= DATA_BUF_SIZE)%nat → to_modem p →
  ∃ p', wthread_turn r ap p = Some (ap, p', Some r)
        ∧ if decide (list.last r = Some 0x7E) then at_frame [] p' else to_modem p'.
Proof.
  intros Hl (Ee & En & Est & Eb). unfold wthread_turn, wthread_switch. rewrite Est.
  destruct (backup_all r p) as (b & Hbk & Lb & Sb); [done| |].
  { change DATA_BUF_SIZE with (Z.to_nat 16384) in Hl. rewrite size_value. lia. }
  rewrite Hbk. cbn [mbind option_bind set_status backup_data_buf backup_data_len]. rewrite Sb.
  cbn [mbind option_bind]. eexists. split; [done|]. by case_decide.
Qed.

Lemma run_to_modem rs ap p :
  Forall (λ r, (0 < length r <= DATA_BUF_SIZE)%nat ∧ list.last r ≠ Some 0x7E) rs → to_modem p →
  ∃ p', wthread_run rs ap p = Some (ap, p', rs) ∧ to_modem p'.
Proof.
  intros Hr. revert p. induction Hr as [|r rs [Hl He] _ IH]; intros p Hp; [by exists p|].
  destruct (turn_to_modem r ap p Hl Hp) as (p1 & T & H1). rewrite decide_False in H1 by done.
  destruct (IH p1 H1) as (p2 & R & H2). exists p2. split; [|done].
  cbn [wthread_run]. destruct (Nat.eqb_spec (length r) 0); [lia|]. rewrite T.
  cbn [mbind option_bind]. by rewrite R.
Qed.

(** The pieces of a frame between its first and its last bytes hold no delimiter. *)
Lemma frame_inner f c m r : is_frame f → c ++ m ++ r = f → c ≠ [] → r ≠ [] → Forall (λ b, b ≠ 0x7e) m.
Proof.
  intros (body & -> & Hb) E Hc Hr. destruct c as [|x c]; [done|].
  destruct (exists_last Hr) as (r' & y & ->). injection E as -> E.
  rewrite !app_assoc in E. apply app_inj_tail in E as [<- _].
  by apply Forall_app in Hb as [[_ ?]%Forall_app _].
Qed.

Lemma last_inner (m : bytes) : Forall (λ b, b ≠ 0x7e) m → list.last m ≠ Some 0x7E.
Proof. intros H E. apply list.last_Some in E as (l & ->). apply Forall_app in H as [_ H]. by inversion H. Qed.

Lemma frame_last f c r : is_frame f → c ++ r = f → r ≠ [] → list.last r = Some 0x7E.
Proof.
  intros (body & -> & _) E Hr. destruct (exists_last Hr) as (r' & y & ->).
  rewrite app_assoc, app_comm_cons in E. apply app_inj_tail in E as [_ ->]. apply last_snoc.
Qed.

Lemma run_app rs rs' ap p :
  wthread_run (rs ++ rs') ap p
  = (u ← wthread_run rs ap p; let '(ap1, p1, o1) := u in
     t ← wthread_run rs' ap1 p1; let '(ap2, p2, o2) := t in Some (ap2, p2, o1 ++ o2)).
Proof.
  revert ap p. induction rs as [|r rs IH]; intros ap p.
  { cbn. by destruct (wthread_run rs' ap p) as [[[??]?]|]. }
  cbn [app wthread_run]. destruct (_ =? _)%nat; [apply IH|].
  destruct (wthread_turn r ap p) as [[[ap1 p1] o]|]; [|done]. cbn [mbind option_bind]. rewrite IH.
  destruct (wthread_run rs ap1 p1) as [[[ap2 p2] os]|]; [|done].
  cbn [fmap option_fmap option_map mbind option_bind emit].
  destruct (wthread_run rs' ap2 p2) as [[[ap3 p3] os']|]; [|done].
  cbn [fmap option_fmap option_map mbind option_bind emit]. by destruct o.
Qed.

(** A frame that fills half the buffer and is the modem's: the first part arrives as the
    classification has left it in the buffer, the rest byte for byte; then the port is as at the
    start. *)
Theorem large_frame_forwarded f c r rs r2 ap p ap' e :
  is_frame f → c ++ r ++ concat rs ++ r2 = f → r2 ≠ [] →
  (DATA_EXT_DIAG_SIZE / 2 <= length (c ++ r) <= DATA_EXT_DIAG_SIZE)%nat →
  Forall (λ r, (0 < length r <= DATA_BUF_SIZE)%nat) (r :: rs ++ [r2]) → at_frame c p →
  (length f <= DATA_EXT_DIAG_SIZE)%nat →
  eng_diag_parse ap (filled (c ++ r)) (length (c ++ r)) = Some (ap', e, CMD_COMMON) →
  length e = DATA_EXT_DIAG_SIZE →
  ∃ p', wthread_run (r :: rs ++ [r2]) ap p = Some (ap', p', take (length (c ++ r)) e :: rs ++ [r2])
        ∧ at_frame [] p'.
Proof.
  intros Hf E H2 Hh Hr Hp Hl Hpa He. apply Forall_cons_iff in Hr as [Hr0 Hr].
  apply Forall_app in Hr as [Hrs Hr2]. apply Forall_cons_iff in Hr2 as [Hr2 _].
  destruct (turn_large f c r (concat rs ++ r2) ap p ap' e) as (p1 & T1 & H1); try done; [|lia|].
  { by destruct (concat rs), r2. }
  assert (Hn : c ++ r ≠ []).
  { intros X. rewrite X, half_value in Hh. simpl in Hh. lia. }
  assert (Hi : Forall (λ r, (0 < length r <= DATA_BUF_SIZE)%nat ∧ list.last r ≠ Some 0x7E) rs).
  { rewrite app_assoc in E. pose proof (frame_inner f (c ++ r) (concat rs) r2 Hf E Hn H2) as I.
    clear - I Hrs. induction Hrs as [|x rs Hx _ IH]; constructor.
    - split; [done|]. apply last_inner. by apply Forall_app in I as [? _].
    - apply IH. by apply Forall_app in I as [_ ?]. }
  destruct (run_to_modem rs ap' p1 Hi H1) as (p2 & R2 & Hp2).
  destruct (turn_to_modem r2 ap' p2 Hr2 Hp2) as (p3 & T3 & H3).
  rewrite decide_True in H3.
  2: { eapply (frame_last f (c ++ r ++ concat rs)); [done| |done]. by rewrite <- !app_assoc. }
  exists p3. split; [|done]. cbn [wthread_run]. destruct (Nat.eqb_spec (length r) 0); [lia|].
  rewrite T1. cbn [mbind option_bind]. rewrite run_app, R2. cbn [mbind option_bind wthread_run].
  destruct (Nat.eqb_spec (length r2) 0); [lia|]. rewrite T3. done.
Qed.

(** ** No access outside the buffers *)

Definition port_wf (p : port) : Prop :=
  length (ext_data_buf p) = DATA_EXT_DIAG_SIZE ∧ length (backup_data_buf p) = DATA_EXT_DIAG_SIZE
  ∧ (ext_buf_len p <= DATA_EXT_DIAG_SIZE)%nat ∧ (backup_data_len p <= DATA_EXT_DIAG_SIZE)%nat.

Lemma get_user_diag_buf_safe r ext n :
  length ext = DATA_EXT_DIAG_SIZE → (n <= DATA_EXT_DIAG_SIZE)%nat →
  ∃ e m found, get_user_diag_buf r ext n = Some (e, m, found) ∧ length e = DATA_EXT_DIAG_SIZE
    ∧ (n <= m <= n + length r)%nat ∧ (m <= DATA_EXT_DIAG_SIZE)%nat.
Proof.
  revert ext n. induction r as [|b r IH]; intros ext n He Hn.
  { exists ext, n, false. simpl. split_and!; auto; lia. }
  assert (Hs : (0 < DATA_EXT_DIAG_SIZE)%nat) by (rewrite size_value; lia).
  assert (St : ∀ ext', length ext' = DATA_EXT_DIAG_SIZE → (n < DATA_EXT_DIAG_SIZE)%nat →
    ∃ e m found, get_user_diag_buf r ext' (S n) = Some (e, m, found) ∧ length e = DATA_EXT_DIAG_SIZE
      ∧ (n <= m <= n + length (b :: r))%nat ∧ (m <= DATA_EXT_DIAG_SIZE)%nat).
  { intros ext' He' Hn'. destruct (IH ext' (S n) He' ltac:(lia)) as (e & m & fd & G & L & B & C).
    exists e, m, fd. simpl. split_and!; auto; lia. }
  cbn [get_user_diag_buf]. destruct (_ && _) eqn:B1.
  - apply andb_prop in B1 as [_ B1%Nat.eqb_eq]. rewrite store_ok by lia. cbn [mbind option_bind].
    apply St; [by rewrite length_insert|lia].
  - destruct ((0 <? n)%nat && _) eqn:B2.
    + apply andb_prop in B2 as [_ B2%Nat.ltb_lt]. rewrite store_ok by lia. cbn [mbind option_bind].
      destruct (b =? 0x7e); [|apply St; [by rewrite length_insert|lia]].
      exists (<[n:=b]> ext), (S n), true. rewrite length_insert. simpl. split_and!; auto; lia.
    + destruct (IH ext n He Hn) as (e & m & fd & G & L & B & C).
      exists e, m, fd. simpl. split_and!; auto; lia.
Qed.

Lemma backup_safe src n p :
  length (backup_data_buf p) = DATA_EXT_DIAG_SIZE → (n <= length src)%nat → (n <= DATA_EXT_DIAG_SIZE)%nat →
  ∃ b, backup src n p = Some (Port (ext_data_buf p) (ext_buf_len p) b n (g_diag_status p) (g_ass_start p))
       ∧ length b = DATA_EXT_DIAG_SIZE.
Proof.
  intros Hb Hs Hn. unfold backup. rewrite slice_ok by lia. cbn [mbind option_bind].
  destruct (splice 0 _ _) as [b|] eqn:S.
  - cbn [mbind option_bind]. exists b. split; [done|]. rewrite <- Hb. by eapply splice_length.
  - rewrite splice_ok in S; [done|]. rewrite length_take, length_drop. lia.
Qed.

(** The handlers are given at most [lim] bytes of the array and stay inside it. *)
Definition handler_safe (lim : nat) : Prop :=
  ∀ ap buf n, length buf = DATA_EXT_DIAG_SIZE → (n <= lim)%nat →
    (∃ ap' e ty, eng_diag_parse ap buf n = Some (ap', e, ty) ∧ length e = DATA_EXT_DIAG_SIZE)
    ∧ is_Some (eng_diag ap buf n).

(** The loop itself leaves no buffer, whatever the line delivers, on what the handlers are safe for.  The commands of
    the application processor are not safe for every frame ([DiagCmd.address_message_short],
    [DiagCmd.sadm_without_index]). *)
Lemma wthread_turn_safe lim r ap p :
  handler_safe lim → port_wf p → (0 < length r <= DATA_BUF_SIZE)%nat →
  (ext_buf_len p + length r <= lim ∨ DATA_EXT_DIAG_SIZE <= lim)%nat →
  ∃ ap' p' out, wthread_turn r ap p = Some (ap', p', out) ∧ port_wf p'.
Proof.
  intros Hh (We & Wb & Wn & Wl) Hr Hlim.
  assert (Hr' : (length r <= DATA_EXT_DIAG_SIZE)%nat)
    by (change DATA_BUF_SIZE with (Z.to_nat 16384) in Hr; rewrite size_value; lia).
  assert (K : ∃ ap' p1 hp, wthread_switch r ap p = Some (ap', p1, hp) ∧ port_wf p1).
  { unfold wthread_switch. destruct (g_diag_status p).
    2: { destruct (backup_safe r (length r) p Wb) as (b & -> & Lb); [lia..|].
         cbn [mbind option_bind]. do 3 eexists. by split. }
    destruct (get_user_diag_buf_safe r (ext_data_buf p) (ext_buf_len p) We Wn)
      as (e & m & fd & -> & Le & Bm & Cm).
    cbn [mbind option_bind].
    destruct (Hh ap e m Le ltac:(lia)) as [(ap1 & e1 & ty & -> & Le1) ([[ap2 e2] ret] & ->)].
    destruct fd.
    - destruct (backup_safe e m (set_ext e m p) Wb) as (b & -> & Lb); [lia..|].
      cbn [mbind option_bind]. do 3 eexists. split; [done|]. unfold port_wf.
      cbn -[DATA_EXT_DIAG_SIZE]. rewrite length_replicate. split_and!; try done; lia.
    - destruct (m =? 0)%nat.
      + destruct (backup_safe r (length r) (set_ext e m p) Wb) as (b & -> & Lb); [lia..|].
        cbn [mbind option_bind]. do 3 eexists. by split.
      + destruct (_ <=? m)%nat; [|do 3 eexists; by split]. cbn [mbind option_bind].
        destruct (ty =? CMD_COMMON); [|do 3 eexists; by split].
        destruct (backup_safe e1 m (set_ext e1 m (set_ext e m p)) Wb) as (b & -> & Lb); [lia..|].
        cbn [mbind option_bind]. do 3 eexists. split; [done|]. unfold port_wf.
        cbn -[DATA_EXT_DIAG_SIZE]. rewrite length_replicate. split_and!; try done; lia. }
  destruct K as (ap' & p1 & hp & K & W1 & W2 & W3 & W4). unfold wthread_turn. rewrite K.
  cbn [mbind option_bind]. destruct hp.
  - do 3 eexists. split; [done|]. unfold port_wf. cbn. split_and!; try done; lia.
  - rewrite slice_ok by lia. cbn [mbind option_bind]. do 3 eexists. split; [done|]. unfold port_wf. cbn.
    split_and!; try done; lia.
Qed.

(** Once the buffer is full and the frame is the application processor's, the port is deaf: no read
    is handled, forwarded or kept any more. *)
Lemma get_user_diag_buf_full r ext : get_user_diag_buf r ext DATA_EXT_DIAG_SIZE = Some (ext, DATA_EXT_DIAG_SIZE, false).
Proof.
  induction r as [|b r IH]; [done|]. cbn [get_user_diag_buf].
  destruct (Nat.eqb_spec DATA_EXT_DIAG_SIZE 0) as [E|_]; [rewrite size_value in E; lia|].
  by rewrite Nat.ltb_irrefl, !andb_false_r.
Qed.

Theorem full_port_deaf rs ap p :
  (∀ ap e, ∃ ap' e' ty, eng_diag_parse ap e DATA_EXT_DIAG_SIZE = Some (ap', e', ty) ∧ ty ≠ CMD_COMMON) →
  g_diag_status p = ENG_DIAG_RECV_TO_AP → ext_buf_len p = DATA_EXT_DIAG_SIZE →
  ∃ ap' p', wthread_run rs ap p = Some (ap', p', [])
            ∧ g_diag_status p' = ENG_DIAG_RECV_TO_AP ∧ ext_buf_len p' = DATA_EXT_DIAG_SIZE.
Proof.
  intros Hp. revert ap p. induction rs as [|r rs IH]; intros ap p Hs Hn; [by do 2 eexists|].
  cbn [wthread_run]. destruct (length r =? 0)%nat; [by apply IH|].
  unfold wthread_turn, wthread_switch. rewrite Hs, Hn, get_user_diag_buf_full.
  cbn [mbind option_bind].
  destruct (Nat.eqb_spec DATA_EXT_DIAG_SIZE 0) as [E|_]; [rewrite size_value in E; lia|].
  rewrite (proj2 (Nat.leb_le _ _)) by (rewrite half_value, size_value; lia).
  destruct (Hp ap (ext_data_buf p)) as (ap1 & e1 & ty & -> & Hty). cbn [mbind option_bind].
  rewrite (proj2 (Z.eqb_neq _ _)) by done. cbn [mbind option_bind].
  edestruct (IH ap1) as (ap' & p' & R & S' & N'); [| |exists ap', p'; rewrite R]; done.
Qed.
End served.

(** ** Writing *)

(** What the modem accepts is a prefix, and the loop is over only when it is everything. *)
Lemma modem_write_prefix ws d :
  ∃ k, fst (modem_write ws d) = take k d ∧ (snd (modem_write ws d) = true → fst (modem_write ws d) = d).
Proof.
  revert d. induction ws as [|w ws IH]; intros d; [by exists 0%nat|]. cbn [modem_write].
  destruct (w <? 0).
  - destruct (Nat.ltb_spec 0 (length d)) as [_|L]; [apply IH|]. exists 0%nat. by destruct d; [|simpl in L; lia].
  - destruct (Nat.ltb_spec 0 (length (drop (Z.to_nat w) d))) as [_|L].
    + destruct (IH (drop (Z.to_nat w) d)) as (k & E & F).
      destruct (modem_write ws _) as [s e]. cbn [fst snd] in *. exists (Z.to_nat w + k)%nat.
      rewrite E, take_take_drop. split; [done|]. intros ->. rewrite <- take_take_drop, <- E, F by done.
      apply take_drop.
    + rewrite length_drop in L. exists (Z.to_nat w). split; [done|]. intros _. apply take_ge. lia.
Qed.

(** As many successful writes as there are bytes end the loop, whatever errors come between. *)
Lemma modem_write_ends ws d :
  (length d <= length (filter (λ w, 0 < w)%Z ws))%nat → ws ≠ [] → d ≠ [] → snd (modem_write ws d) = true.
Proof.
  revert d. induction ws as [|w ws IH]; intros d Hl Hw Hd; [done|].
  assert (Hd0 : (0 < length d)%nat) by (destruct d; [done|simpl; lia]).
  cbn [modem_write]. destruct (w <? 0) eqn:E; bsplit.
  - rewrite (proj2 (Nat.ltb_lt _ _)) by done. rewrite filter_cons_False in Hl by (simpl; lia).
    apply IH; [done| |done]. intros ->. simpl in Hl. lia.
  - destruct (Nat.ltb_spec 0 (length (drop (Z.to_nat w) d))) as [L|_]; [|done].
    rewrite length_drop in L. rewrite filter_cons in Hl.
    specialize (IH (drop (Z.to_nat w) d)). destruct (modem_write ws _) as [s e]. cbn [snd] in *.
    apply IH; [|intros ->|intros X; apply (f_equal length) in X; rewrite length_drop in X; simpl in X; lia].
    + rewrite length_drop. case_decide; simpl in Hl; lia.
    + case_decide; simpl in Hl; lia.
Qed.

(** ** The way back *)

(** The PC gets a prefix of what the modem sent, and all of it when the loop ends normally. *)
Theorem relay_loop_prefix split_flag ws d qs s e :
  relay_loop split_flag ws d = (qs, s, e) → (∃ k, s = take k d) ∧ (e = Relayed → d ≠ [] → s = d).
Proof.
  revert split_flag d qs s e. induction ws as [|w ws IH]; intros f d qs s e H.
  { cbn in H. simplify_eq. split; [by exists 0%nat|done]. }
  assert (Again : ∀ f' n, (if (0 <? length (drop n d))%nat then
      let '(qs, s, e) := relay_loop f' ws (drop n d) in
      ((if f then length d - 32 else length d)%nat :: qs, take n d ++ s, e)
      else ([(if f then length d - 32 else length d)%nat], take n d, Relayed)) = (qs, s, e) →
    (∃ k, s = take k d) ∧ (e = Relayed → d ≠ [] → s = d)).
  { intros f' n Ha. destruct (Nat.ltb_spec 0 (length (drop n d))) as [L|L].
    - destruct (relay_loop f' ws (drop n d)) as [[qs1 s1] e1] eqn:R.
      apply IH in R as [[k ->] R2]. simplify_eq. split.
      + exists (n + k)%nat. by rewrite take_take_drop.
      + intros -> _. rewrite R2; [apply take_drop|done|]. by destruct (drop n d); [simpl in L; lia|].
    - simplify_eq. rewrite length_drop in L. split; [by exists n|]. intros _ _. apply take_ge. lia. }
  cbn [relay_loop] in H. destruct w as [n| |k].
  - by apply (Again false n).
  - apply (Again f 0%nat). by rewrite drop_0, take_0.
  - destruct (_ <? _)%nat.
    + simplify_eq. split; [by exists 0%nat|done].
    + apply (Again f 0%nat). by rewrite drop_0, take_0.
Qed.

(** A write that is repeated: the line was busy or could be reopened. *)
Definition retried (w : ser_write) : bool :=
  match w with SerOk _ => false | SerBusy => true | SerFail k => (k <=? MAX_OPEN_TIMES)%nat end.

Lemma relay_loop_retry f es ws d :
  Forall retried es → d ≠ [] →
  relay_loop f (es ++ ws) d
  = let '(qs, s, e) := relay_loop f ws d in
    (replicate (length es) (if f then length d - 32 else length d)%nat ++ qs, s, e).
Proof.
  intros He Hd. assert (Hl : (0 < length d)%nat) by (destruct d; [done|simpl; lia]).
  induction He as [|w es Hw _ IH]; [cbn; by destruct (relay_loop f ws d) as [[??]?]|].
  cbn [app relay_loop length replicate].
  destruct w as [n| |k]; [done| |].
  - rewrite (proj2 (Nat.ltb_lt _ _)) by done. rewrite IH. by destruct (relay_loop f ws d) as [[??]?].
  - cbn [retried] in Hw. apply Is_true_true in Hw. apply Nat.leb_le in Hw.
    rewrite (proj2 (Nat.ltb_ge _ _)) by done.
    rewrite (proj2 (Nat.ltb_lt 0 _)) by done. rewrite IH. by destruct (relay_loop f ws d) as [[??]?].
Qed.

(** In calibration mode over USB a read of a multiple of 64 bytes goes out in two writes and none of
    the requests, repeated ones included, is a multiple of the packet size of the bus, so that the PC
    never waits for an empty packet; nothing is lost or reordered. *)
Theorem relay_splits_packets es1 es2 d :
  (length d mod 64 = 0)%nat → d ≠ [] → Forall retried es1 → Forall retried es2 →
  relay_loop true (es1 ++ SerOk (length d - 32) :: es2 ++ [SerOk 32]) d
  = (replicate (S (length es1)) (length d - 32)%nat ++ replicate (S (length es2)) 32%nat, d, Relayed)
  ∧ ((length d - 32) mod 64 = 32)%nat.
Proof.
  intros Hm Hd H1 H2.
  assert (Hl : (0 < length d)%nat) by (destruct d; [done|simpl; lia]).
  pose proof (Nat.div_mod_eq (length d) 64) as Q. rewrite Hm in Q.
  set (q := (length d / 64)%nat) in Q. assert (L : (1 <= q)%nat) by lia.
  set (n := (length d - 32)%nat). assert (Hn : (n + 32)%nat = length d) by (unfold n; lia).
  split.
  2: { replace n with (32 + (q - 1) * 64)%nat by lia. by rewrite Nat.Div0.mod_add. }
  rewrite relay_loop_retry by done. fold n. cbn [relay_loop].
  assert (Ln : length (drop n d) = 32%nat) by (rewrite length_drop; lia).
  rewrite (proj2 (Nat.ltb_lt 0 _)) by lia.
  rewrite relay_loop_retry; [|done|intros X; by rewrite X in Ln].
  cbn [relay_loop]. rewrite Ln, (drop_ge (drop n d)) by lia. cbn [length Nat.ltb Nat.leb].
  rewrite (take_ge (drop n d)), take_drop by lia. fold n.
  by rewrite !replicate_S_end, <- !app_assoc.
Qed.

(** ** Witnesses *)

(** A handler that deals with the frames that start with 1 and leaves the rest to the modem; its
    state counts the frames. *)
#[local] Instance odd_handler : DiagHandler nat := {
  eng_diag_parse ap buf _ := Some (ap, buf, if decide (buf !! 1%nat = Some 1) then 8 else CMD_COMMON);
  eng_diag ap buf _ := Some (S ap, buf, if decide (buf !! 1%nat = Some 1) then 1 else 0) }.

Lemma port_start_at : at_frame [] port_start.
Proof. unfold at_frame. rewrite filled_nil. split_and!; done || apply length_replicate. Qed.

Lemma is_frame_1 x : x ≠ 0x7e → is_frame [0x7e; x; 0x7e].
Proof. exists [x]. split; [done|]. by repeat constructor. Qed.

Lemma small_half n : (n <= 8192)%Z → (Z.to_nat n <= DATA_EXT_DIAG_SIZE / 2)%nat.
Proof. rewrite half_value. lia. Qed.

Lemma wthread_serves_frames_witness :
  ∃ p', wthread_run (concat [[[0x7e]; [1; 0x7e]]; [[]; [0x7e; 2]; [0x7e]]]) 0%nat port_start
        = Some (2%nat, p', [[0x7e; 2; 0x7e]]) ∧ at_frame [] p'.
Proof.
  apply (wthread_serves_frames [[0x7e; 1; 0x7e]; [0x7e; 2; 0x7e]]).
  - assert (S : ∀ x, x ≠ 0x7e → is_frame [0x7e; x; 0x7e] ∧ (3 <= DATA_EXT_DIAG_SIZE / 2)%nat).
    { intros x Hx. split; [by apply is_frame_1|]. apply (small_half 3). lia. }
    apply Forall_cons. { by apply S. } apply Forall_cons. { by apply S. } apply Forall_nil.
  - repeat constructor.
  - apply port_start_at.
  - reflexivity.
Defined.

Lemma bytes_behind_frame_lost_witness :
  ∃ p', wthread_turn ([1; 0x7e] ++ [0x7e; 2; 0x7e]) 0%nat (set_ext (filled [0x7e]) 1 port_start)
        = Some (1%nat, p', None) ∧ at_frame [] p'.
Proof.
  apply (bytes_behind_frame_lost [0x7e; 1; 0x7e] [0x7e]); [by apply is_frame_1| |done|done| |done].
  - apply (small_half 3). lia.
  - split_and!; done || apply length_replicate.
Defined.

Lemma plain_bytes_forwarded_witness :
  ∃ p', wthread_turn [0x41; 0xa] 0%nat port_start = Some (0%nat, p', Some [0x41; 0xa]) ∧ at_frame [] p'.
Proof.
  apply plain_bytes_forwarded; [repeat constructor; lia| |apply port_start_at].
  change DATA_BUF_SIZE with (Z.to_nat 16384). simpl. lia.
Defined.

Lemma relay_loop_prefix_witness : (∃ k, [1; 2; 3] = take k [1; 2; 3]) ∧ (Relayed = Relayed → [1; 2; 3] ≠ [] → [1; 2; 3] = [1; 2; 3]).
Proof. apply (relay_loop_prefix false [SerOk 1; SerBusy; SerFail 10; SerOk 2] [1; 2; 3] [3; 2; 2; 2]%nat). reflexivity. Defined.

Lemma relay_splits_packets_witness :
  relay_loop true ([SerBusy] ++ SerOk 32 :: [] ++ [SerOk 32]) (replicate 64 7)
  = ([32; 32; 32]%nat, replicate 64 7, Relayed) ∧ ((64 - 32) mod 64 = 32)%nat.
Proof. apply (relay_splits_packets [SerBusy] [] (replicate 64 7)); [done..|repeat constructor|constructor]. Defined.

Lemma wthread_turn_safe_witness :
  ∃ ap' p' out, wthread_turn (replicate (Z.to_nat 16384) 0x7e) 0%nat port_start = Some (ap', p', out) ∧ port_wf p'.
Proof.
  apply (wthread_turn_safe DATA_EXT_DIAG_SIZE).
  - intros ap buf n Hb _. split; [do 3 eexists; by split|by eexists].
  - split_and!; [apply length_replicate..| |]; simpl; lia.
  - rewrite length_replicate. change DATA_BUF_SIZE with (Z.to_nat 16384). lia.
  - by right.
Defined.

Lemma full_port_deaf_witness :
  let H : DiagHandler nat := Build_DiagHandler nat (λ ap e _, Some (ap, e, 9)) (λ ap e _, Some (ap, e, 1)) in
  ∃ ap' p', @wthread_run _ H [[0x7e]; [0x41]; [0x7e; 1; 0x7e]] 0%nat (set_ext (filled (replicate DATA_EXT_DIAG_SIZE 1)) DATA_EXT_DIAG_SIZE port_start)
            = Some (ap', p', [])
            ∧ g_diag_status p' = ENG_DIAG_RECV_TO_AP ∧ ext_buf_len p' = DATA_EXT_DIAG_SIZE.
Proof. intros H. apply (@full_port_deaf _ H); [|done|done]. intros ap e. by do 3 eexists. Defined.
