(* ===== verification/AtTok.v ===== *)
(** * The AT tokenizer of the engineering mode (engmode/eng_attok.c)

    A response line is taken apart in place: [strsep] writes a terminator behind
    each token.  The memory is an array of characters, [*p_cur] a position in it
    or [NULL]; the string functions of the C library are written out.  [long] has
    32 bits.  [None] is a read past the end of the array. *)

From stdpp Require Import list.
From S2P Require Import Prelude.

Definition LONG_MAX : Z := 2 ^ 31 - 1.
Definition LONG_MIN : Z := - 2 ^ 31.
Definition ULONG_MAX : Z := 2 ^ 32 - 1.

(** ** Strings in memory *)

(** The first index from [i] on with the terminator or a character that [stop]s. *)
Fixpoint scan (stop : Z → bool) (i : nat) (l : bytes) : option nat :=
  match l with
  | [] => None
  | c :: l => if (c =? 0) || stop c then Some i else scan stop (S i) l
  end.

Definition scan_from (stop : Z → bool) (m : bytes) (i : nat) : option nat := scan stop i (drop i m).

(** The string at [i]. *)
Definition cstr (m : bytes) (i : nat) : option bytes :=
  j ← scan_from (λ _, false) m i; slice i (j - i) m.

(** [strchr (p, c)]: [Some None] is [NULL]. *)
Definition strchr (m : bytes) (i : nat) (c : Z) : option (option nat) :=
  j ← scan_from (λ b, b =? c) m i; b ← m !! j; Some (if b =? c then Some j else None).

Definition isspace (c : Z) : bool := (c =? 0x20) || ((9 <=? c) && (c <=? 13)).

(** [strsep (&p, c)]: the memory, the new [p] and the token. *)
Definition strsep (m : bytes) (cur : option nat) (c : Z) : option (bytes * option nat * option nat) :=
  match cur with
  | None => Some (m, None, None)
  | Some i =>
      j ← scan_from (λ b, b =? c) m i; b ← m !! j;
      if b =? c then m' ← store j 0 m; Some (m', Some (S j), Some i)
      else Some (m, None, Some i)
  end.

(** ** Numbers: [strtol] and [strtoul] *)

(** The value of a digit in [base], letters of either case. *)
Definition digit_in (base c : Z) : option Z :=
  let v := if (0x30 <=? c) && (c <=? 0x39) then c - 0x30
           else if (0x41 <=? c) && (c <=? 0x5A) then c - 0x41 + 10
           else if (0x61 <=? c) && (c <=? 0x7A) then c - 0x61 + 10 else 36 in
  if v <? base then Some v else None.

(** The number the digits at the front of [s] write after [acc], and whether there is one. *)
Fixpoint read_number (base acc : Z) (s : bytes) : Z :=
  match s with
  | [] => acc
  | c :: s => match digit_in base c with Some v => read_number base (base * acc + v) s | None => acc end
  end.

Definition starts_with_digit (base : Z) (s : bytes) : bool :=
  match s with c :: _ => if digit_in base c is Some _ then true else false | [] => false end.

Fixpoint skip_space (s : bytes) : bytes :=
  match s with c :: s' => if isspace c then skip_space s' else s | [] => [] end.

Definition skip_sign (s : bytes) : bool * bytes :=
  match s with
  | c :: s' => if c =? 0x2D then (true, s') else if c =? 0x2B then (false, s') else (false, s)
  | [] => (false, [])
  end.

(** "0x" is skipped in base 16 when a digit follows. *)
Definition skip_prefix (base : Z) (s : bytes) : bytes :=
  match s with
  | a :: x :: s' =>
      if (base =? 16) && (a =? 0x30) && ((x =? 0x78) || (x =? 0x58)) && starts_with_digit 16 s'
      then s' else s
  | _ => s
  end.

(** The sign and the magnitude of the number at the front of [s]; [None] when there is none
    ([end == str]). *)
Definition strto (base : Z) (s : bytes) : option (bool * Z) :=
  let '(neg, s1) := skip_sign (skip_space s) in
  let s2 := skip_prefix base s1 in
  if starts_with_digit base s2 then Some (neg, read_number base 0 s2) else None.

(** The result, and whether a number was there. *)
Definition strtol (base : Z) (s : bytes) : Z * bool :=
  match strto base s with
  | None => (0, false)
  | Some (neg, n) =>
      (if neg : bool then Z.max LONG_MIN (- n) else Z.min LONG_MAX n, true)
  end.

Definition strtoul (base : Z) (s : bytes) : Z * bool :=
  match strto base s with
  | None => (0, false)
  | Some (neg, n) =>
      (if ULONG_MAX <? n then ULONG_MAX else if neg : bool then u32 (- n) else n, true)
  end.

(** ** The tokenizer *)

(** The result is the value of [*p_cur] and the return value. *)
Definition at_tok_start (m : bytes) (cur : option nat) : option (option nat * Z) :=
  match cur with
  | None => Some (None, -1)
  | Some i =>
      r ← strchr m i 0x3A;
      Some (match r with None => (None, -1) | Some j => (Some (S j), 0) end)
  end.

Definition skipWhiteSpace (m : bytes) (cur : option nat) : option (option nat) :=
  match cur with
  | None => Some None
  | Some i => j ← scan_from (λ b, negb (isspace b)) m i; Some (Some j)
  end.

Definition skipNextComma (m : bytes) (cur : option nat) : option (option nat) :=
  match cur with
  | None => Some None
  | Some i =>
      j ← scan_from (λ b, b =? 0x2C) m i; b ← m !! j;
      Some (Some (if b =? 0x2C then S j else j))
  end.

(** The memory, [*p_cur] and the token. *)
Definition nextTok (m : bytes) (cur : option nat) : option (bytes * option nat * option nat) :=
  c ← skipWhiteSpace m cur;
  match c with
  | None => Some (m, None, None)
  | Some i =>
      b ← m !! i;
      if b =? 0x22 then
        r ← strsep m (Some (S i)) 0x22; let '(m1, c1, ret) := r in
        c2 ← skipNextComma m1 c1;
        Some (m1, c2, ret)
      else strsep m (Some i) 0x2C
  end.

(** What a call leaves: the memory, [*p_cur], [*p_out] when it was assigned, the return value. *)
Record tok_result (A : Type) := Tok { t_mem : bytes; t_cur : option nat; t_out : option A; t_ret : Z }.
Arguments Tok {A}.
Arguments t_mem {A}.
Arguments t_cur {A}.
Arguments t_out {A}.
Arguments t_ret {A}.

Definition at_tok_nextint_base (base : Z) (uns : bool) (m : bytes) (cur : option nat) : option (tok_result Z) :=
  match cur with
  | None => Some (Tok m None None (-1))
  | Some _ =>
      r ← nextTok m cur; let '(m1, c1, ret) := r in
      match ret with
      | None => Some (Tok m1 c1 None (-1))
      | Some t =>
          s ← cstr m1 t;
          let '(l, ok) := if uns then strtoul base s else strtol base s in
          Some (Tok m1 c1 (Some (i32 l)) (if ok : bool then 0 else -1))
      end
  end.

Definition at_tok_nextint : bytes → option nat → option (tok_result Z) := at_tok_nextint_base 10 false.
Definition at_tok_nexthexint : bytes → option nat → option (tok_result Z) := at_tok_nextint_base 16 true.

(** [p_out] is not [NULL]. *)
Definition at_tok_nextbool (m : bytes) (cur : option nat) : option (tok_result Z) :=
  r ← at_tok_nextint m cur;
  if t_ret r <? 0 then Some (Tok (t_mem r) (t_cur r) None (-1))
  else
    let result := default 0 (t_out r) in
    if (result =? 0) || (result =? 1) then Some (Tok (t_mem r) (t_cur r) (Some result) (t_ret r))
    else Some (Tok (t_mem r) (t_cur r) None (-1)).

(** [*p_out] is a position or [NULL]. *)
Definition at_tok_nextstr (m : bytes) (cur : option nat) : option (tok_result (option nat)) :=
  match cur with
  | None => Some (Tok m None None (-1))
  | Some _ => r ← nextTok m cur; let '(m1, c1, ret) := r in Some (Tok m1 c1 (Some ret) 0)
  end.

Definition at_tok_hasmore (m : bytes) (cur : option nat) : option bool :=
  match cur with None => Some false | Some i => b ← m !! i; Some (negb (b =? 0)) end.

(** [at_tok_equel_start] (eng_diag.c): the same as [at_tok_start] for the command side. *)
Definition at_tok_equel_start (m : bytes) (cur : option nat) : option (option nat * Z) :=
  match cur with
  | None => Some (None, -1)
  | Some i =>
      r ← strchr m i 0x3D;
      Some (match r with None => (None, -1) | Some j => (Some (S j), 0) end)
  end.

(** ** Scanning *)

Lemma scan_stop stop i s c rest :
  Forall (λ b, b ≠ 0 ∧ stop b = false) s → c = 0 ∨ stop c = true →
  scan stop i (s ++ c :: rest) = Some (i + length s)%nat.
Proof.
  intros Hs Hc. revert i. induction Hs as [|b s [Hb1 Hb2] _ IH]; intros i.
  - cbn. destruct Hc as [-> | ->]; [|rewrite orb_true_r]; by rewrite Nat.add_0_r.
  - cbn [app scan]. rewrite (proj2 (Z.eqb_neq _ _) Hb1), Hb2. cbn [orb].
    rewrite IH. f_equal. simpl. lia.
Qed.

Lemma scan_from_stop stop pre s c rest :
  Forall (λ b, b ≠ 0 ∧ stop b = false) s → c = 0 ∨ stop c = true →
  scan_from stop (pre ++ s ++ c :: rest) (length pre) = Some (length pre + length s)%nat.
Proof. intros. unfold scan_from. rewrite drop_app_length. by apply scan_stop. Qed.

Lemma lookup_behind (pre s : bytes) c rest :
  (pre ++ s ++ c :: rest) !! (length pre + length s)%nat = Some c.
Proof. rewrite app_assoc. apply lookup_mid. by rewrite length_app. Qed.

Lemma store_behind (pre s : bytes) c x rest :
  store (length pre + length s) x (pre ++ s ++ c :: rest) = Some (pre ++ s ++ x :: rest).
Proof. rewrite !app_assoc. apply store_mid. by rewrite length_app. Qed.

(** A string is read up to its terminator. *)
Lemma cstr_at pre s rest :
  Forall (λ b, b ≠ 0) s → cstr (pre ++ s ++ 0 :: rest) (length pre) = Some s.
Proof.
  intros Hs. unfold cstr. rewrite scan_from_stop; [|eapply list.Forall_impl; [exact Hs|done]|by left].
  cbn [mbind option_bind]. apply slice_mid; [done|lia].
Qed.

Lemma strsep_found pre s c rest :
  c ≠ 0 → Forall (λ b, b ≠ 0 ∧ b ≠ c) s →
  strsep (pre ++ s ++ c :: rest) (Some (length pre)) c
  = Some (pre ++ s ++ 0 :: rest, Some (S (length pre + length s)), Some (length pre)).
Proof.
  intros Hc Hs. unfold strsep. rewrite scan_from_stop.
  - cbn [mbind option_bind]. rewrite lookup_behind. cbn [mbind option_bind]. rewrite Z.eqb_refl.
    by rewrite store_behind.
  - eapply list.Forall_impl; [exact Hs|]. intros b [? ?]. split; [done|]. by apply Z.eqb_neq.
  - right. apply Z.eqb_refl.
Qed.

Lemma strsep_last pre s c rest :
  c ≠ 0 → Forall (λ b, b ≠ 0 ∧ b ≠ c) s →
  strsep (pre ++ s ++ 0 :: rest) (Some (length pre)) c
  = Some (pre ++ s ++ 0 :: rest, None, Some (length pre)).
Proof.
  intros Hc Hs. unfold strsep. rewrite scan_from_stop; [| |by left].
  - cbn [mbind option_bind]. rewrite lookup_behind. cbn [mbind option_bind].
    by rewrite (proj2 (Z.eqb_neq 0 c)) by done.
  - eapply list.Forall_impl; [exact Hs|]. intros b [? ?]. split; [done|]. by apply Z.eqb_neq.
Qed.

(** ** One token *)

(** White space before a token is skipped. *)
Lemma skipWhiteSpace_at pre sp c rest :
  Forall (λ b, isspace b = true) sp → isspace c = false →
  skipWhiteSpace (pre ++ sp ++ c :: rest) (Some (length pre)) = Some (Some (length pre + length sp)%nat).
Proof.
  intros Hs Hc. unfold skipWhiteSpace. rewrite scan_from_stop; [done| |].
  - eapply list.Forall_impl; [exact Hs|]. intros b Hb. rewrite Hb. split; [|done]. intros ->. done.
  - right. by rewrite Hc.
Qed.

(** A word: what can stand between two commas without quotes. *)
Definition word (w : bytes) : Prop :=
  ∃ c w', w = c :: w' ∧ isspace c = false ∧ c ≠ 0x22 ∧ Forall (λ b, b ≠ 0 ∧ b ≠ 0x2C) w.

Lemma nextTok_word pre sp w c rest :
  Forall (λ b, isspace b = true) sp → word w → c = 0 ∨ c = 0x2C →
  nextTok (pre ++ sp ++ w ++ c :: rest) (Some (length pre))
  = Some (pre ++ sp ++ w ++ 0 :: rest,
          if c =? 0x2C then Some (S (length pre + length sp + length w)) else None,
          Some (length pre + length sp)%nat).
Proof.
  intros Hs (a & w' & -> & Ha & Hq & Hw) Hc. unfold nextTok. cbn [app].
  rewrite skipWhiteSpace_at by done. cbn [mbind option_bind].
  rewrite lookup_behind. cbn [mbind option_bind]. rewrite (proj2 (Z.eqb_neq _ _) Hq).
  pose proof (strsep_found (pre ++ sp) (a :: w') 0x2C rest ltac:(done) Hw) as F.
  pose proof (strsep_last (pre ++ sp) (a :: w') 0x2C rest ltac:(done) Hw) as L.
  rewrite length_app in F, L. rewrite <- !app_assoc in F. rewrite <- !app_assoc in L.
  cbn [app] in F, L.
  destruct Hc as [-> | ->]; [exact L|exact F].
Qed.

(** A quoted token. *)
Lemma nextTok_quoted pre sp s c rest :
  Forall (λ b, isspace b = true) sp → Forall (λ b, b ≠ 0 ∧ b ≠ 0x22) s → c = 0 ∨ c = 0x2C →
  nextTok (pre ++ sp ++ 0x22 :: s ++ 0x22 :: c :: rest) (Some (length pre))
  = Some (pre ++ sp ++ 0x22 :: s ++ 0 :: c :: rest,
          Some (length pre + length sp + length s + (if (c =? 0x2C)%Z then 3 else 2))%nat,
          Some (S (length pre + length sp))).
Proof.
  intros Hs Hq Hc. unfold nextTok.
  rewrite skipWhiteSpace_at by done. cbn [mbind option_bind].
  rewrite lookup_behind. cbn [mbind option_bind]. rewrite Z.eqb_refl.
  pose proof (strsep_found (pre ++ sp ++ [0x22]) s 0x22 (c :: rest) ltac:(done) Hq) as F.
  rewrite !length_app, <- !app_assoc in F. cbn [app length] in F.
  replace (length pre + (length sp + 1))%nat with (S (length pre + length sp)) in F by lia.
  rewrite F. cbn [mbind option_bind]. unfold skipNextComma.
  pose proof (scan_from_stop (λ b, b =? 0x2C) (pre ++ sp ++ 0x22 :: s ++ [0]) [] c rest) as K.
  rewrite <- !app_assoc in K. cbn [app] in K. rewrite <- app_assoc in K. cbn [app] in K.
  rewrite !length_app in K. cbn [length] in K. rewrite length_app in K. cbn [length] in K.
  replace (length pre + (length sp + S (length s + 1)))%nat
    with (S (S (length pre + length sp) + length s)) in K by lia.
  rewrite K; [|constructor|destruct Hc as [-> | ->]; [by left|by right]].
  cbn [mbind option_bind]. rewrite Nat.add_0_r.
  assert (Lc : (pre ++ sp ++ 0x22 :: s ++ 0 :: c :: rest) !! S (S (length pre + length sp) + length s) = Some c).
  { replace (pre ++ sp ++ 0x22 :: s ++ 0 :: c :: rest) with ((pre ++ sp ++ 0x22 :: s ++ [0]) ++ c :: rest).
    - apply lookup_mid. rewrite !length_app. simpl. rewrite length_app. simpl. lia.
    - rewrite <- !app_assoc. cbn [app]. by rewrite <- app_assoc. }
  rewrite Lc. cbn [mbind option_bind]. do 3 f_equal; [|lia..]. f_equal. f_equal.
  destruct (c =? 0x2C); lia.
Qed.

(** ** Printed numbers *)

(** The digits of [n], as [%d] and [%X] print them. *)
Definition digit_char (v : Z) : Z := if v <? 10 then 0x30 + v else 0x41 + v - 10.

Fixpoint print_digits (base : Z) (fuel : nat) (n : Z) : bytes :=
  match fuel with
  | O => []
  | S fuel' => (if n <? base then [] else print_digits base fuel' (n / base)) ++ [digit_char (n mod base)]
  end.

Definition print_dec (z : Z) : bytes :=
  if z <? 0 then 0x2D :: print_digits 10 32 (- z) else print_digits 10 32 z.
Definition print_hex (z : Z) : bytes := print_digits 16 32 z.

Lemma digit_in_char base v : 0 <= v < base → base <= 16 → digit_in base (digit_char v) = Some v.
Proof.
  intros Hv Hb. unfold digit_in, digit_char. destruct (Z.ltb_spec v 10).
  - replace ((0x30 <=? 0x30 + v) && (0x30 + v <=? 0x39)) with true by (symmetry; apply andb_true_iff; lia).
    replace (0x30 + v - 0x30) with v by lia. by bdecide.
  - replace ((0x30 <=? 0x41 + v - 10) && (0x41 + v - 10 <=? 0x39)) with false
      by (symmetry; apply andb_false_iff; lia).
    replace ((0x41 <=? 0x41 + v - 10) && (0x41 + v - 10 <=? 0x5A)) with true
      by (symmetry; apply andb_true_iff; lia).
    replace (0x41 + v - 10 - 0x41 + 10) with v by lia. by bdecide.
Qed.

Lemma read_number_app base acc s t :
  Forall (λ c, digit_in base c ≠ None) s →
  read_number base acc (s ++ t) = read_number base (read_number base acc s) t.
Proof.
  intros Hs. revert acc. induction Hs as [|c s Hc _ IH]; intros acc; [done|]. cbn [app read_number].
  by destruct (digit_in base c).
Qed.

Lemma print_digits_ok base fuel n :
  2 <= base <= 16 → 0 <= n < base ^ Z.of_nat fuel →
  read_number base 0 (print_digits base fuel n) = n
  ∧ Forall (λ c, digit_in base c ≠ None) (print_digits base fuel n).
Proof.
  intros Hb. revert n. induction fuel as [|fuel IH]; intros n Hn; [cbn in *; split; [lia|constructor]|].
  assert (Hm : 0 <= n mod base < base) by (apply Z.mod_pos_bound; lia).
  assert (Hd : digit_in base (digit_char (n mod base)) = Some (n mod base)) by (apply digit_in_char; lia).
  cbn [print_digits]. destruct (Z.ltb_spec n base) as [L|L].
  - cbn [app read_number]. rewrite Hd. rewrite Z.mod_small in * by lia. split; [lia|].
    repeat constructor. by rewrite Hd.
  - destruct (IH (n / base)) as [E F].
    { rewrite Nat2Z.inj_succ, Z.pow_succ_r in Hn by lia. split; [apply Z.div_pos; lia|].
      apply Z.div_lt_upper_bound; lia. }
    rewrite read_number_app, E by done. cbn [read_number]. rewrite Hd. split.
    + rewrite (Z.div_mod n base) at 3 by lia. lia.
    + apply Forall_app. split; [done|]. repeat constructor. by rewrite Hd.
Qed.

Lemma print_digits_cons base fuel n : ∃ c s, print_digits base (S fuel) n = c :: s.
Proof. cbn [print_digits]. destruct (if n <? base then [] else _); by do 2 eexists. Qed.

(** A digit is no space, sign, quote, separator or terminator. *)
Lemma digit_in_plain base c :
  base <= 16 → digit_in base c ≠ None →
  isspace c = false ∧ c ≠ 0x22 ∧ c ≠ 0 ∧ c ≠ 0x2C ∧ c ≠ 0x2D ∧ c ≠ 0x2B ∧ c ≠ 0x78 ∧ c ≠ 0x58.
Proof.
  intros Hb Hd. assert (R : 0x30 <= c <= 0x39 ∨ 0x41 <= c <= 0x46 ∨ 0x61 <= c <= 0x66).
  { unfold digit_in in Hd. repeat bcase; try done; try lia. }
  unfold isspace. split; [|lia]. apply orb_false_iff. split; [lia|]. apply andb_false_iff. lia.
Qed.

Lemma digit_in_mono c : digit_in 10 c ≠ None → digit_in 16 c ≠ None.
Proof. unfold digit_in. intros H. case_match eqn:E; [|done]. bsplit. by bdecide. Qed.

Lemma print_digits_word base fuel n :
  2 <= base <= 16 → 0 <= n < base ^ Z.of_nat (S fuel) → word (print_digits base (S fuel) n).
Proof.
  intros Hb Hn. destruct (print_digits_ok base (S fuel) n Hb Hn) as [_ F].
  destruct (print_digits_cons base fuel n) as (c & s & E). rewrite E in *. exists c, s.
  assert (K : Forall (λ c, isspace c = false ∧ c ≠ 0x22 ∧ c ≠ 0 ∧ c ≠ 0x2C) (c :: s)).
  { eapply list.Forall_impl; [exact F|]. intros x Hx. apply (digit_in_plain base) in Hx; [|lia]. tauto. }
  pose proof (proj1 (list.Forall_cons _ _ _) K) as [K0 _].
  split_and!; [done|tauto|tauto|]. eapply list.Forall_impl; [exact K|]. tauto.
Qed.

(** Reading a printed number. *)
Lemma strto_digits base fuel n :
  base = 10 ∨ base = 16 → 0 <= n < base ^ Z.of_nat (S fuel) →
  strto base (print_digits base (S fuel) n) = Some (false, n).
Proof.
  intros Hb Hn. assert (Hb2 : 2 <= base <= 16) by lia.
  destruct (print_digits_ok base (S fuel) n Hb2 Hn) as [V F].
  destruct (print_digits_cons base fuel n) as (c & s & E). rewrite E in *.
  assert (Hc : digit_in base c ≠ None) by (by inversion F).
  destruct (digit_in_plain base c ltac:(lia) Hc) as (P1 & P2 & P3 & P4 & P5 & P6 & _).
  unfold strto. cbn [skip_space]. rewrite P1. cbn [skip_sign].
  rewrite (proj2 (Z.eqb_neq _ _) P5), (proj2 (Z.eqb_neq _ _) P6).
  assert (Hp : skip_prefix base (c :: s) = c :: s).
  { destruct s as [|x s]; [done|]. cbn [skip_prefix].
    assert (Hx : digit_in base x ≠ None) by (inversion F as [|? ? ? F2]; by inversion F2).
    destruct (digit_in_plain base x ltac:(lia) Hx) as (_ & _ & _ & _ & _ & _ & X1 & X2).
    rewrite (proj2 (Z.eqb_neq _ _) X1), (proj2 (Z.eqb_neq _ _) X2). by rewrite andb_false_r. }
  rewrite Hp. cbn [starts_with_digit]. destruct (digit_in base c); [|done]. by rewrite V.
Qed.

Lemma strto_minus base s n :
  skip_space s = s → skip_sign s = (false, s) → strto base s = Some (false, n) →
  strto base (0x2D :: s) = Some (true, n).
Proof.
  unfold strto. intros Hs Hg. rewrite Hs, Hg.
  change (skip_space (0x2D :: s)) with (0x2D :: s). change (skip_sign (0x2D :: s)) with (true, s).
  cbv beta iota zeta. destruct (starts_with_digit _ _); [|done]. congruence.
Qed.

Lemma strtol_print_dec z : LONG_MIN <= z <= LONG_MAX → strtol 10 (print_dec z) = (z, true).
Proof.
  intros Hz. unfold LONG_MIN, LONG_MAX in Hz. unfold strtol, print_dec.
  destruct (Z.ltb_spec z 0) as [L|L].
  - assert (B : 0 <= - z < 10 ^ Z.of_nat 32) by lia.
    pose proof (strto_digits 10 31 (- z) ltac:(by left) B) as S.
    destruct (print_digits_cons 10 31 (- z)) as (c & s & E).
    destruct (print_digits_ok 10 32 (- z) ltac:(lia) B) as [_ F]. rewrite E in F, S |- *.
    apply list.Forall_cons in F as [F _].
    destruct (digit_in_plain 10 c ltac:(lia) F) as (P1 & _ & _ & _ & P5 & P6 & _).
    rewrite (strto_minus 10 (c :: s) (- z)); [f_equal; unfold LONG_MIN; lia| | |done].
    + cbn [skip_space]. by rewrite P1.
    + cbn [skip_sign]. by rewrite (proj2 (Z.eqb_neq _ _) P5), (proj2 (Z.eqb_neq _ _) P6).
  - rewrite (strto_digits 10 31 z) by (first [by left|lia]). f_equal. unfold LONG_MAX. lia.
Qed.

Lemma strtoul_print_hex z : is_u32 z → strtoul 16 (print_hex z) = (z, true).
Proof.
  intros Hz. unfold is_u32 in Hz. unfold strtoul, print_hex.
  rewrite (strto_digits 16 31 z) by (first [by right|lia]). unfold ULONG_MAX. by bdecide.
Qed.

Lemma print_dec_word z : LONG_MIN <= z <= LONG_MAX → word (print_dec z).
Proof.
  intros Hz. unfold LONG_MIN, LONG_MAX in Hz. unfold print_dec. destruct (Z.ltb_spec z 0).
  - destruct (print_digits_word 10 31 (- z)) as (c & s & E & _ & _ & F); [lia..|]. rewrite E in F |- *.
    exists 0x2D, (c :: s). split_and!; try done. by constructor.
  - apply print_digits_word; lia.
Qed.

(** ** Lines *)

(** The fields of a response, the way a caller asks for them, and as they are printed. *)
Inductive at_field := AtInt (z : Z) | AtHex (z : Z) | AtBool (b : bool) | AtStr (s : bytes).

Definition print_field (f : at_field) : bytes :=
  match f with
  | AtInt z => print_dec z
  | AtHex z => print_hex z
  | AtBool b => [if b then 0x31 else 0x30]
  | AtStr s => 0x22 :: s ++ [0x22]
  end.

Definition field_ok (f : at_field) : Prop :=
  match f with
  | AtInt z => LONG_MIN <= z <= LONG_MAX
  | AtHex z => is_u32 z
  | AtBool _ => True
  | AtStr s => Forall (λ b, b ≠ 0 ∧ b ≠ 0x22) s
  end.

(** What the caller gets: a hexadecimal number comes back as an [int]. *)
Definition field_value (f : at_field) : at_field :=
  match f with AtHex z => AtHex (i32 z) | _ => f end.

(** The call for a field of the kind of [f], when it succeeds. *)
Definition next_field (f : at_field) (m : bytes) (cur : option nat) : option (bytes * option nat * at_field) :=
  match f with
  | AtInt _ =>
      r ← at_tok_nextint m cur; v ← t_out r;
      if t_ret r =? 0 then Some (t_mem r, t_cur r, AtInt v) else None
  | AtHex _ =>
      r ← at_tok_nexthexint m cur; v ← t_out r;
      if t_ret r =? 0 then Some (t_mem r, t_cur r, AtHex v) else None
  | AtBool _ =>
      r ← at_tok_nextbool m cur; v ← t_out r;
      if t_ret r =? 0 then Some (t_mem r, t_cur r, AtBool (v =? 1)) else None
  | AtStr _ =>
      r ← at_tok_nextstr m cur; o ← t_out r; t ← o; s ← cstr (t_mem r) t;
      if t_ret r =? 0 then Some (t_mem r, t_cur r, AtStr s) else None
  end.

(** The fields one after the other; before each of them there is more to read. *)
Fixpoint next_fields (fs : list at_field) (m : bytes) (cur : option nat)
    : option (bytes * option nat * list at_field) :=
  match fs with
  | [] => Some (m, cur, [])
  | f :: fs =>
      more ← at_tok_hasmore m cur;
      if more : bool then
        r ← next_field f m cur; let '(m1, c1, v) := r in
        t ← next_fields fs m1 c1; let '(m2, c2, vs) := t in
        Some (m2, c2, v :: vs)
      else None
  end.

(** The text of fields with white space before each of them. *)
Fixpoint print_fields (fs : list (bytes * at_field)) : bytes :=
  match fs with
  | [] => []
  | [(sp, f)] => sp ++ print_field f
  | (sp, f) :: fs => sp ++ print_field f ++ 0x2C :: print_fields fs
  end.

Lemma word_next pre sp w c rest :
  Forall (λ b, isspace b = true) sp → word w → c = 0 ∨ c = 0x2C →
  ∃ r, nextTok (pre ++ sp ++ w ++ c :: rest) (Some (length pre)) = Some r
  ∧ r = (pre ++ (sp ++ w ++ [0]) ++ rest,
         if c =? 0x2C then Some (length pre + length (sp ++ w ++ [0]%Z))%nat else None,
         Some (length pre + length sp)%nat)
  ∧ cstr (pre ++ (sp ++ w ++ [0]) ++ rest) (length pre + length sp) = Some w.
Proof.
  intros Hs Hw Hc. rewrite nextTok_word by done. eexists. split; [done|]. split.
  - rewrite !length_app, <- !app_assoc. cbn [app length]. do 2 f_equal.
    destruct (c =? 0x2C); [|done]. f_equal. lia.
  - rewrite <- !app_assoc. cbn [app]. rewrite (app_assoc pre), <- length_app. apply cstr_at.
    destruct Hw as (? & ? & _ & _ & _ & F). eapply list.Forall_impl; [exact F|]. tauto.
Qed.

Lemma quoted_next pre sp s c rest :
  Forall (λ b, isspace b = true) sp → Forall (λ b, b ≠ 0 ∧ b ≠ 0x22) s → c = 0 ∨ c = 0x2C →
  nextTok (pre ++ sp ++ (0x22 :: s ++ [0x22]) ++ c :: rest) (Some (length pre))
  = Some (pre ++ (sp ++ 0x22 :: s ++ [0; c]) ++ rest,
          Some (length pre + length sp + length s + (if (c =? 0x2C)%Z then 3 else 2))%nat,
          Some (S (length pre + length sp)))
  ∧ cstr (pre ++ (sp ++ 0x22 :: s ++ [0; c]) ++ rest) (S (length pre + length sp)) = Some s.
Proof.
  intros Hs Hq Hc. cbn [app]. rewrite <- app_assoc. cbn [app]. rewrite nextTok_quoted by done.
  rewrite <- !app_assoc. cbn [app]. rewrite <- app_assoc. cbn [app]. split; [done|].
  pose proof (cstr_at (pre ++ sp ++ [0x22]) s (c :: rest)) as C.
  rewrite !length_app, <- !app_assoc in C. cbn [app length] in C.
  replace (S (length pre + length sp)) with (length pre + (length sp + 1))%nat by lia.
  apply C. eapply list.Forall_impl; [exact Hq|]. tauto.
Qed.

Lemma nextint_word base uns pre sp w c rest z :
  Forall (λ b, isspace b = true) sp → word w → c = 0 ∨ c = 0x2C →
  (if uns : bool then strtoul base w else strtol base w) = (z, true) →
  at_tok_nextint_base base uns (pre ++ sp ++ w ++ c :: rest) (Some (length pre))
  = Some (Tok (pre ++ (sp ++ w ++ [0]) ++ rest)
            (if c =? 0x2C then Some (length pre + length (sp ++ w ++ [0]%Z))%nat else None)
            (Some (i32 z)) 0).
Proof.
  intros Hs Hw Hc Hz. unfold at_tok_nextint_base.
  destruct (word_next pre sp w c rest Hs Hw Hc) as (r & -> & -> & C). cbn [mbind option_bind].
  rewrite C. cbn [mbind option_bind]. destruct uns; by rewrite Hz.
Qed.

Lemma i32_long z : LONG_MIN <= z <= LONG_MAX → i32 z = z.
Proof.
  unfold LONG_MIN, LONG_MAX, i32, u32. intros H. destruct (Z.ltb_spec (z mod 2 ^ 32) (2 ^ 31));
    Z.to_euclidean_division_equations; lia.
Qed.

Lemma bit_word b : word [if b : bool then 0x31 else 0x30].
Proof. destruct b; eexists _, []; (split_and!; [done|done|done|]); by repeat constructor. Qed.

(** A field is read whole, with its separator, and its bytes are only changed among themselves. *)
Lemma next_field_read pre sp f c rest :
  Forall (λ b, isspace b = true) sp → field_ok f → c = 0 ∨ c = 0x2C →
  ∃ t cur, length t = S (length sp + length (print_field f))
  ∧ next_field f (pre ++ sp ++ print_field f ++ c :: rest) (Some (length pre))
    = Some (pre ++ t ++ rest, cur, field_value f)
  ∧ (c = 0x2C → cur = Some (length pre + length t)%nat)
  ∧ (c = 0 → at_tok_hasmore (pre ++ t ++ rest) cur = Some false).
Proof.
  intros Hs Hf Hc.
  assert (Word : ∀ w cur, cur = (if c =? 0x2C then Some (length pre + length (sp ++ w ++ [0]%Z))%nat else None) →
    length (sp ++ w ++ [0]) = S (length sp + length w)
    ∧ (c = 0x2C → cur = Some (length pre + length (sp ++ w ++ [0]%Z))%nat)
    ∧ (c = 0 → at_tok_hasmore (pre ++ (sp ++ w ++ [0]) ++ rest) cur = Some false)).
  { intros w cur ->. split; [rewrite !length_app; simpl; lia|]. split; by intros ->. }
  destruct f as [z|z|b|s]; cbn [print_field field_value next_field field_ok] in *.
  - unfold at_tok_nextint.
    rewrite (nextint_word 10 false _ _ _ _ _ z Hs (print_dec_word z Hf) Hc (strtol_print_dec z Hf)).
    destruct (Word (print_dec z) _ eq_refl) as (L & E1 & E0). rewrite i32_long by done. by eauto 6.
  - unfold at_tok_nexthexint.
    assert (Hw : word (print_hex z)) by (apply print_digits_word; unfold is_u32 in Hf; lia).
    rewrite (nextint_word 16 true _ _ _ _ _ z Hs Hw Hc (strtoul_print_hex z Hf)).
    destruct (Word (print_hex z) _ eq_refl) as (L & E1 & E0). by eauto 6.
  - unfold at_tok_nextbool, at_tok_nextint.
    rewrite (nextint_word 10 false _ _ _ _ _ (if b then 1 else 0) Hs (bit_word b) Hc) by by destruct b.
    destruct (Word [if b then 0x31 else 0x30] _ eq_refl) as (L & E1 & E0). destruct b; by eauto 6.
  - unfold at_tok_nextstr. destruct (quoted_next pre sp s c rest Hs Hf Hc) as [-> C].
    cbn [mbind option_bind t_out t_ret t_mem t_cur]. rewrite C. cbn [mbind option_bind Z.eqb].
    do 2 eexists. split; [|split; [done|split; intros ->]].
    + rewrite !length_app. cbn [length]. rewrite !length_app. simpl. lia.
    + f_equal. rewrite !length_app. cbn [length]. rewrite length_app. simpl. lia.
    + unfold at_tok_hasmore. cbn [Z.eqb Pos.eqb].
      replace (pre ++ (sp ++ 0x22 :: s ++ [0; 0]) ++ rest) with ((pre ++ sp ++ 0x22 :: s ++ [0]) ++ 0 :: rest)
        by (rewrite <- !app_assoc; cbn [app]; rewrite <- !app_assoc; done).
      rewrite lookup_mid; [done|]. rewrite !length_app. cbn [length]. rewrite length_app. simpl. lia.
Qed.

Lemma field_first f : field_ok f → ∃ c s, print_field f = c :: s ∧ c ≠ 0.
Proof.
  intros Hf.
  assert (W : ∀ w, word w → ∃ c s, w = c :: s ∧ c ≠ 0).
  { intros w (c & s & -> & _ & _ & F). exists c, s. apply list.Forall_cons in F as [F _]. tauto. }
  destruct f as [z|z|b|s]; cbn [print_field field_ok] in *.
  - by apply W, print_dec_word.
  - apply W. apply print_digits_word; [lia|]. unfold is_u32 in Hf. lia.
  - apply W, bit_word.
  - by exists 0x22, (s ++ [0x22]).
Qed.

Lemma hasmore_field pre sp f rest :
  Forall (λ b, isspace b = true) sp → field_ok f →
  at_tok_hasmore (pre ++ sp ++ print_field f ++ rest) (Some (length pre)) = Some true.
Proof.
  intros Hs Hf. unfold at_tok_hasmore. destruct Hs as [|a sp Ha _].
  - destruct (field_first f Hf) as (c & s & -> & Hc). cbn [app]. rewrite lookup_mid by done.
    cbn [mbind option_bind]. by rewrite (proj2 (Z.eqb_neq c 0) Hc).
  - cbn [app]. rewrite lookup_mid by done. cbn [mbind option_bind].
    destruct (Z.eqb_spec a 0) as [-> |_]; done.
Qed.

Definition spaced (x : bytes * at_field) : Prop :=
  Forall (λ b, isspace b = true) (fst x) ∧ field_ok (snd x).

Lemma next_fields_read pre fs rest :
  fs ≠ [] → Forall spaced fs →
  ∃ t cur, length t = S (length (print_fields fs))
  ∧ next_fields (map snd fs) (pre ++ print_fields fs ++ 0 :: rest) (Some (length pre))
    = Some (pre ++ t ++ rest, cur, map (λ x, field_value (snd x)) fs)
  ∧ at_tok_hasmore (pre ++ t ++ rest) cur = Some false.
Proof.
  intros Hn Hf. revert pre. induction Hf as [|[sp f] fs [Hs Ho] Hf IH]; intros pre; [done|].
  cbn [fst snd] in *. cbn [map next_fields snd].
  destruct fs as [|x fs].
  - cbn [print_fields map next_fields]. rewrite <- app_assoc, hasmore_field by done. cbn [mbind option_bind].
    destruct (next_field_read pre sp f 0 rest Hs Ho (or_introl eq_refl)) as (t & cur & L & -> & _ & E0).
    cbn [mbind option_bind]. exists t, cur. rewrite L, length_app. eauto.
  - set (pf := print_fields (x :: fs)) in *.
    change (print_fields ((sp, f) :: x :: fs)) with (sp ++ print_field f ++ 0x2C :: pf).
    replace (pre ++ (sp ++ print_field f ++ 0x2C :: pf) ++ 0 :: rest)
      with (pre ++ sp ++ print_field f ++ 0x2C :: (pf ++ 0 :: rest))
      by (rewrite <- !app_assoc; cbn [app]; rewrite ?app_assoc; done).
    rewrite hasmore_field by done. cbn [mbind option_bind].
    destruct (next_field_read pre sp f 0x2C (pf ++ 0 :: rest) Hs Ho (or_intror eq_refl))
      as (t & cur & L & -> & E1 & _).
    cbn [mbind option_bind]. rewrite (E1 eq_refl), <- length_app.
    destruct (IH ltac:(done) (pre ++ t)) as (t' & cur' & L' & R & E0).
    rewrite <- (app_assoc pre t) in R. rewrite R. cbn [mbind option_bind].
    exists (t ++ t'), cur'. rewrite <- !app_assoc in *. split_and!; [|done|done].
    rewrite !length_app, L, L'. cbn [length]. lia.
Qed.

(** C19. Whatever a response carries is what its reader gets: a line of a name, a colon and any number of
    integers, hexadecimal numbers, booleans and quoted strings, printed with commas between them
    and white space before them, is read back field by field with the calls for their kinds; there is
    more to read before every field and nothing behind the last; the memory around the line stays
    as it is. *)
Theorem at_line_roundtrip pre name fs rest :
  Forall (λ b, b ≠ 0 ∧ b ≠ 0x3A) name → fs ≠ [] → Forall spaced fs →
  ∃ t cur, length t = length (name ++ 0x3A :: print_fields fs ++ [0])
  ∧ (s ← at_tok_start (pre ++ name ++ 0x3A :: print_fields fs ++ 0 :: rest) (Some (length pre));
     let '(c, ret) := s in
     if ret =? 0 then next_fields (map snd fs) (pre ++ name ++ 0x3A :: print_fields fs ++ 0 :: rest) c
     else None)
    = Some (pre ++ t ++ rest, cur, map (λ x, field_value (snd x)) fs)
  ∧ at_tok_hasmore (pre ++ t ++ rest) cur = Some false.
Proof.
  intros Hn Hfs Hf. unfold at_tok_start, strchr.
  rewrite scan_from_stop; [| |by right].
  2: { eapply list.Forall_impl; [exact Hn|]. intros b [? ?]. split; [done|]. by apply Z.eqb_neq. }
  cbn [mbind option_bind]. rewrite lookup_behind. cbn [mbind option_bind Z.eqb Pos.eqb].
  destruct (next_fields_read (pre ++ name ++ [0x3A]) fs rest Hfs Hf) as (t & cur & L & R & E0).
  rewrite !length_app in R. cbn [length] in R.
  replace (length pre + (length name + 1))%nat with (S (length pre + length name)) in R by lia.
  replace ((pre ++ name ++ [0x3A]) ++ print_fields fs ++ 0 :: rest)
    with (pre ++ name ++ 0x3A :: print_fields fs ++ 0 :: rest) in R
    by (rewrite <- !app_assoc; done).
  rewrite R. exists (name ++ 0x3A :: t), cur. rewrite <- !app_assoc in *. cbn [app] in *.
  split_and!; [|done|done]. rewrite !length_app. cbn [length]. rewrite L, length_app. simpl. lia.
Qed.

(** A missing or malformed number: [*p_out] is set to 0 all the same, and the token is gone. *)
Lemma nextint_not_a_number pre w c rest :
  word w → c = 0 ∨ c = 0x2C → strto 10 w = None →
  ∃ cur, at_tok_nextint (pre ++ w ++ c :: rest) (Some (length pre))
         = Some (Tok (pre ++ w ++ 0 :: rest) cur (Some 0) (-1)).
Proof.
  intros Hw Hc Hz. unfold at_tok_nextint, at_tok_nextint_base.
  pose proof (nextTok_word pre [] w c rest ltac:(constructor) Hw Hc) as T. cbn [app length] in T.
  rewrite T. cbn [mbind option_bind]. rewrite Nat.add_0_r, cstr_at.
  - cbn [mbind option_bind]. unfold strtol. rewrite Hz. by eexists.
  - destruct Hw as (? & ? & _ & _ & _ & F). eapply list.Forall_impl; [exact F|]. tauto.
Qed.

(** Numbers beyond 32 bits are clamped, without an error. *)
Example nextint_clamped :
  at_tok_nextint [0x39; 0x39; 0x39; 0x39; 0x39; 0x39; 0x39; 0x39; 0x39; 0x39; 0] (Some 0%nat)
  = Some (Tok ([0x39; 0x39; 0x39; 0x39; 0x39; 0x39; 0x39; 0x39; 0x39; 0x39] ++ [0]) None (Some LONG_MAX) 0).
Proof. by vm_compute. Qed.

Lemma at_line_roundtrip_witness :
  ∃ t cur, length t = 15%nat
  ∧ (s ← at_tok_start ([7] ++ [0x2B; 0x43] ++ 0x3A :: print_fields
          [([0x20], AtInt (-15)); ([], AtStr [0x61; 0x2C]); ([], AtBool true)] ++ 0 :: [0x61]) (Some 1%nat);
     let '(c, ret) := s in
     if ret =? 0 then
       next_fields [AtInt (-15); AtStr [0x61; 0x2C]; AtBool true]
         ([7] ++ [0x2B; 0x43] ++ 0x3A :: print_fields
            [([0x20], AtInt (-15)); ([], AtStr [0x61; 0x2C]); ([], AtBool true)] ++ 0 :: [0x61]) c
     else None)
    = Some ([7] ++ t ++ [0x61], cur, [AtInt (-15); AtStr [0x61; 0x2C]; AtBool true])
  ∧ at_tok_hasmore ([7] ++ t ++ [0x61]) cur = Some false.
Proof.
  apply (at_line_roundtrip [7] [0x2B; 0x43] [([0x20], AtInt (-15)); ([], AtStr [0x61; 0x2C]); ([], AtBool true)] [0x61]).
  - repeat constructor; lia.
  - done.
  - repeat constructor; cbn; unfold LONG_MIN, LONG_MAX; try lia; try done.
Defined.
