(* ===== verification/DiagCmd.v ===== *)
(** * Classification of the diagnostic commands (engmode/eng_diag.c, eng_cmd4linuxhdlr.c)

    [eng_diag_parse] unescapes the frame in the buffer and decides who deals with
    it: the modem ([CMD_COMMON]) or one of the commands of the application
    processor; AT commands are looked at with the tokenizer, which writes
    terminators into the same buffer, and the address commands only pass with
    the right checksum.  [eng_diag] runs the command.  The number of audio modes
    of the device is a parameter.  [None] is an access outside an array or
    through a null pointer. *)

From stdpp Require Import list strings.
From Stdlib Require Import Ascii.
From S2P Require Import Prelude Crc16 DiagFrame DiagPort AtTok.

Open Scope Z_scope.

(** The characters of a literal. *)
Fixpoint chars (s : string) : bytes :=
  match s with EmptyString => [] | String c s => Z.of_N (N_of_ascii c) :: chars s end.

(** ** Constants (eng_diag.h, eng_audio.h) *)

Definition DIAG_CMD_VER : Z := 0x00.
Definition DIAG_CMD_IMEIBTWIFI : Z := 0x5E.
Definition DIAG_CMD_GETVOLTAGE : Z := 0x1E.
Definition DIAG_CMD_APCALI : Z := 0x62.
Definition DIAG_CMD_FACTORYMODE : Z := 0x0D.
Definition DIAG_CMD_ADC_F : Z := 0x0F.
Definition DIAG_CMD_AT : Z := 0x68.
Definition DIAG_CMD_CHANGEMODE : Z := 12.
Definition DIAG_CMD_DIRECT_PHSCHK : Z := 0x5F.
Definition DIAG_CMD_BTBIT : Z := 0x04.
Definition DIAG_CMD_WIFIBIT : Z := 0x40.
Definition DIAG_CMD_AUTOTEST : Z := 0x38.
Definition DIAG_CMD_CURRENT_TEST : Z := 0x11.
Definition DIAG_CMD_ASSERT : Z := 0x5.
Definition DIAG_SUB_MMICIT_READ : Z := 0x1A.
Definition RESET_MODE : Z := 8.
Definition RW_MASK : Z := 0x80.
Definition WRITE_MODE : Z := 0.
Definition RM_VALID_CMD_MASK : Z := 0x7f.
Definition DIAG_AP_CMD_FILE_OPER : Z := 3.

(** [DIAG_CMD_TYPE]; [CMD_COMMON] is in DiagPort. *)
Definition CMD_USER_VER : Z := 0.
Definition CMD_USER_BTWIFI : Z := 1.
Definition CMD_USER_FACTORYMODE : Z := 2.
Definition CMD_USER_AUDIO : Z := 3.
Definition CMD_USER_RESET : Z := 4.
Definition CMD_USER_GETVOLTAGE : Z := 5.
Definition CMD_USER_APCALI : Z := 6.
Definition CMD_USER_APCMD : Z := 7.
Definition CMD_USER_ADC : Z := 8.
Definition CMD_USER_PRODUCT_CTRL : Z := 9.
Definition CMD_USER_DIRECT_PHSCHK : Z := 10.
Definition CMD_USER_MMICIT_READ : Z := 11.
Definition CMD_USER_DEEP_SLEEP : Z := 12.
Definition CMD_USER_FILE_OPER : Z := 13.
Definition CMD_USER_SHUT_DOWN : Z := 14.
Definition CMD_USER_AUTOTEST : Z := 15.
Definition CMD_USER_AUTOTEST_PATH_CONFIRM : Z := 0x1c.

Definition GET_ARM_VOLUME_MODE_COUNT : Z := 7.
Definition GET_AUDIO_ENHA_MODE_COUNT : Z := 0.
Definition SET_AUDIO_ENHA_DATA_TO_MEMORY : Z := 2.

(** ** The AT commands of the application processor (eng_cmd4linuxhdlr.c) *)

Inductive eng_cmd_type := CMD_INVALID_TYPE | CMD_TO_AP | CMD_TO_APCP.
#[export] Instance eng_cmd_type_eq_dec : EqDecision eng_cmd_type.
Proof. solve_decision. Defined.

(** The types and names of the table, in its order. *)
Definition eng_linuxcmd : list (eng_cmd_type * bytes) :=
  (λ '(t, s), (t, chars s)) <$>
  [(CMD_TO_AP, "AT+SENDKEY"); (CMD_TO_AP, "AT+GETICH?"); (CMD_TO_AP, "AT+ETSRESET");
   (CMD_TO_AP, "AT+RPOWERON"); (CMD_TO_AP, "AT+GETVBAT"); (CMD_TO_AP, "AT+STOPCHG");
   (CMD_TO_AP, "AT+TESTMMI"); (CMD_TO_AP, "AT+BTTESTMODE"); (CMD_TO_AP, "AT+GETBTADDR");
   (CMD_TO_AP, "AT+SETBTADDR"); (CMD_TO_AP, "AT+GSNR"); (CMD_TO_AP, "AT+GSNW");
   (CMD_TO_AP, "AT+GETWIFIADDR"); (CMD_TO_AP, "AT+SETWIFIADDR"); (CMD_TO_AP, "AT+ETSCHECKRESET");
   (CMD_TO_AP, "AT+SIMCHK"); (CMD_TO_AP, "AT+FACTORYMODE"); (CMD_TO_APCP, "AT+SYSSLEEP");
   (CMD_TO_AP, "AT+CHARGERTEST"); (CMD_TO_AP, "AT+SPBTTEST"); (CMD_TO_AP, "AT+SPWIFITEST");
   (CMD_TO_AP, "AT+SPGPSTEST"); (CMD_TO_AP, "+SPBTWIFICALI"); (CMD_TO_AP, "AT+BATTTEST");
   (CMD_TO_AP, "AT+TEMPTEST"); (CMD_TO_AP, "AT+RTCCTEST")]%string.

Definition tolower (c : Z) : Z := if (0x41 <=? c) && (c <=? 0x5A) then c + 0x20 else c.

Fixpoint case_prefix (needle s : bytes) : bool :=
  match needle, s with
  | [], _ => true
  | _, [] => false
  | a :: needle, b :: s => (tolower a =? tolower b) && case_prefix needle s
  end.

(** [strcasestr (s, needle) != NULL]. *)
Fixpoint strcasestr (s needle : bytes) : bool :=
  case_prefix needle s || match s with [] => false | _ :: s => strcasestr s needle end.

Definition temptest_exceptions : list bytes :=
  chars <$> ["AT+TEMPTEST=1,0,1"; "AT+TEMPTEST=1,1,1"; "AT+TEMPTEST=1,0,4"; "AT+TEMPTEST=1,1,4"]%string.

(** The index in the table, or -1. *)
Fixpoint find_linuxcmd (i : Z) (table : list (eng_cmd_type * bytes)) (s : bytes) : Z :=
  match table with
  | [] => -1
  | (_, name) :: table =>
      if strcasestr s name then
        if strcasestr s (chars "AT+TEMPTEST") && existsb (strcasestr s) temptest_exceptions then -1 else i
      else find_linuxcmd (i + 1) table s
  end.

Definition eng_at2linux (s : bytes) : Z := find_linuxcmd 0 eng_linuxcmd s.

(** The comparison is unsigned and includes the number of elements. *)
Definition eng_cmd_get_type (cmd : Z) : option eng_cmd_type :=
  if (0 <=? cmd) && (cmd <=? Z.of_nat (length eng_linuxcmd)) then
    fst <$> eng_linuxcmd !! Z.to_nat cmd
  else Some CMD_INVALID_TYPE.

(** ** The globals of eng_diag.c *)

Record eng_globals := EngGlobals {
  cmd_type : Z; eq_or_tun_type : Z; g_index : Z; eq_mode_sel_type : Z; g_is_data : Z;
  s_cmd_index : Z; s_cp_ap_proc : Z; g_assert_cmd : Z }.

Definition globals_start : eng_globals := EngGlobals 0 0 0 0 0 (-1) 0 0.

Definition set_cmd_type (v : option Z) (g : eng_globals) : eng_globals :=
  EngGlobals (default (cmd_type g) v) (eq_or_tun_type g) (g_index g) (eq_mode_sel_type g) (g_is_data g)
    (s_cmd_index g) (s_cp_ap_proc g) (g_assert_cmd g).
Definition set_eq_or_tun (v : option Z) (g : eng_globals) : eng_globals :=
  EngGlobals (cmd_type g) (default (eq_or_tun_type g) v) (g_index g) (eq_mode_sel_type g) (g_is_data g)
    (s_cmd_index g) (s_cp_ap_proc g) (g_assert_cmd g).
Definition set_g_index (v : option Z) (g : eng_globals) : eng_globals :=
  EngGlobals (cmd_type g) (eq_or_tun_type g) (default (g_index g) v) (eq_mode_sel_type g) (g_is_data g)
    (s_cmd_index g) (s_cp_ap_proc g) (g_assert_cmd g).
Definition set_eq_mode (v : Z) (g : eng_globals) : eng_globals :=
  EngGlobals (cmd_type g) (eq_or_tun_type g) (g_index g) v (g_is_data g)
    (s_cmd_index g) (s_cp_ap_proc g) (g_assert_cmd g).
Definition set_cmd_index (v : Z) (g : eng_globals) : eng_globals :=
  EngGlobals (cmd_type g) (eq_or_tun_type g) (g_index g) (eq_mode_sel_type g) (g_is_data g)
    v (s_cp_ap_proc g) (g_assert_cmd g).
Definition set_cp_ap (v : Z) (g : eng_globals) : eng_globals :=
  EngGlobals (cmd_type g) (eq_or_tun_type g) (g_index g) (eq_mode_sel_type g) (g_is_data g)
    (s_cmd_index g) v (g_assert_cmd g).
Definition set_assert (v : Z) (g : eng_globals) : eng_globals :=
  EngGlobals (cmd_type g) (eq_or_tun_type g) (g_index g) (eq_mode_sel_type g) (g_is_data g)
    (s_cmd_index g) (s_cp_ap_proc g) v.

(** ** Looking at an AT command *)

(** [strncmp (ptr, lit, strlen (lit)) == 0]. *)
Fixpoint starts_with (m : bytes) (i : nat) (lit : bytes) : option bool :=
  match lit with
  | [] => Some true
  | c :: lit => b ← m !! i; if b =? c then starts_with m (S i) lit else Some false
  end.

Definition at_sadm : bytes := chars "AT+SADM4AP".
Definition at_spenha : bytes := chars "AT+SPENHA".
Definition at_calibr : bytes := chars "AT+CALIBR".
Definition at_phoneinfo : bytes := chars "AT+PEINFO".

Definition at_sadm_cmd_to_handle : list Z := [7; 8; 9; 10; 11; 12; -1].
Definition at_spenha_cmd_to_handle : list Z := [0; 1; 2; 3; 4; -1].

(** The search of the loops over these lists, which end with -1: whether [cmd] is found. *)
Fixpoint to_handle (l : list Z) (cmd : Z) : bool :=
  match l with
  | [] => false
  | x :: l => if x =? -1 then false else (x =? cmd) || to_handle l cmd
  end.

Definition isdigit (c : Z) : bool := (0x30 <=? c) && (c <=? 0x39).
Definition isupper (c : Z) : bool := (0x41 <=? c) && (c <=? 0x5A).

Section audio.
(** [adev_get_audiomodenum4eng ()], from the device's configuration. *)
Context (audio_modes : Z).

(** [AT+SADM4AP=<cmd>[,<index>]]. *)
Definition sadm_to_handle (m : bytes) (ptr : nat) (g : eng_globals) : option (eng_globals * bytes * Z) :=
  e ← at_tok_equel_start m (Some ptr);
  r ← at_tok_nextint m (fst e);
  let g1 := set_cmd_type (t_out r) g in
  if to_handle at_sadm_cmd_to_handle (cmd_type g1) then
    if cmd_type g1 =? GET_ARM_VOLUME_MODE_COUNT then Some (g1, t_mem r, 1)
    else
      p ← t_cur r; s ← cstr (t_mem r) p;
      let g2 := set_g_index (Some (i32 (fst (strtol 10 s)))) g1 in
      Some (g2, t_mem r, if audio_modes <=? g_index g2 then 0 else 1)
  else Some (g1, t_mem r, 0).

(** [AT+SPENHA=<eq or tun>,<cmd>[,<index>[,<mode>]]]. *)
Definition spenha_to_handle (m : bytes) (ptr : nat) (g : eng_globals) : option (eng_globals * bytes * Z) :=
  e ← at_tok_equel_start m (Some ptr);
  r1 ← at_tok_nextint m (fst e);
  r2 ← at_tok_nextint (t_mem r1) (t_cur r1);
  let g1 := set_cmd_type (t_out r2) (set_eq_or_tun (t_out r1) g) in
  if to_handle at_spenha_cmd_to_handle (cmd_type g1) then
    if cmd_type g1 =? GET_AUDIO_ENHA_MODE_COUNT then Some (g1, t_mem r2, 1)
    else
      r3 ← at_tok_nextint (t_mem r2) (t_cur r2);
      let g2 := set_g_index (t_out r3) g1 in
      if (audio_modes <? g_index g2) || (g_index g2 <=? 0) then Some (g2, t_mem r3, 0)
      else
        let g3 := set_g_index (Some (g_index g2 - 1)) g2 in
        if cmd_type g3 =? SET_AUDIO_ENHA_DATA_TO_MEMORY then
          p ← t_cur r3; c ← t_mem r3 !! p;
          Some (set_eq_mode (c - 0x30) g3, t_mem r3, 1)
        else Some (g3, t_mem r3, 1)
  else Some (g1, t_mem r2, 0).

(** The command text is at [buf + 1 + sizeof (MSG_HEAD_T)]; the result has the globals, the memory
    and the return value. *)
Definition is_audio_at_cmd_need_to_handle (m : bytes) (g : eng_globals) : option (eng_globals * bytes * Z) :=
  let ptr := (1 + MSG_HEAD_SIZE)%nat in
  c ← m !! ptr;
  at_ ← starts_with m ptr (chars "AT");
  if negb (g_is_data g =? 0) && negb at_ && (isdigit c || isupper c) then Some (g, m, 1)
  else
    sadm ← starts_with m ptr at_sadm;
    if sadm : bool then sadm_to_handle m ptr g
    else
      spenha ← starts_with m ptr at_spenha;
      if spenha : bool then spenha_to_handle m ptr g
      else
        calibr ← starts_with m ptr at_calibr;
        if calibr : bool then
          e ← at_tok_equel_start m (Some ptr);
          r ← at_tok_nextint m (fst e);
          Some (set_cmd_type (t_out r) g, t_mem r, 1)
        else
          info ← starts_with m ptr at_phoneinfo;
          Some (g, m, if info : bool then 1 else 0).

Definition is_ap_at_cmd_need_to_handle (m : bytes) (g : eng_globals) : option (eng_globals * Z) :=
  s ← cstr m (1 + MSG_HEAD_SIZE);
  let i := eng_at2linux s in
  Some (set_cmd_index i g, if i =? -1 then 0 else 1).

(** ** Bluetooth and WiFi addresses *)

(** The checksum of the message: its last two bytes, low byte first, against the CRC of
    what lies between the header and them.  The length is taken from the message; for one below 10
    the length of the CRC is that of an unsigned wrap-around. *)
Definition msg_crc (m : bytes) (h : MSG_HEAD_T) : option (Z * Z) :=
  if len h <? 10 then None
  else
    recv_crc ← get16 (Z.to_nat (len h) - 2 + 1) m;
    d ← slice (1 + MSG_HEAD_SIZE) (Z.to_nat (len h) - 10) m;
    Some (recv_crc, crc16 0 d).

Definition is_btwifi_addr_need_to_handle (m : bytes) : option Z :=
  h ← get_head 1 m;
  c ← msg_crc m h;
  let '(recv_crc, crc) := c in
  Some (
    if negb (recv_crc =? crc) then 0
    else if (Z.land (subtype h) RW_MASK =? WRITE_MODE) && (Z.land (subtype h) RM_VALID_CMD_MASK =? 0) then 0
    else
      let cmd_mask := Z.land (subtype h) 0x7f in
      if negb (Z.land cmd_mask (Z.lor DIAG_CMD_BTBIT DIAG_CMD_WIFIBIT) =? 0) then
        if negb (Z.ldiff cmd_mask (Z.lor DIAG_CMD_BTBIT DIAG_CMD_WIFIBIT) =? 0) then 2 else 1
      else 0).

Definition eng_diag_ap_req (m : bytes) : option Z :=
  c ← get16 (1 + MSG_HEAD_SIZE) m;
  Some (if c =? DIAG_AP_CMD_FILE_OPER then CMD_USER_FILE_OPER else CMD_USER_APCALI).

(** ** [eng_diag_parse] *)

(** The switch on the type of the message, in the unescaped buffer. *)
Definition parse_switch (m : bytes) (h : MSG_HEAD_T) (g : eng_globals) : option (eng_globals * bytes * Z) :=
  let ty := type h in
  let sub := subtype h in
  if ty =? DIAG_CMD_CHANGEMODE then
    Some (g, m, if sub =? RESET_MODE then CMD_USER_RESET else CMD_COMMON)
  else if ty =? DIAG_CMD_FACTORYMODE then
    Some (g, m,
      if sub =? 0x07 then CMD_USER_FACTORYMODE
      else if (0x2 <=? sub) && (sub <=? 0x4) then CMD_USER_PRODUCT_CTRL
      else if sub =? DIAG_SUB_MMICIT_READ then CMD_USER_MMICIT_READ
      else CMD_COMMON)
  else if ty =? DIAG_CMD_DIRECT_PHSCHK then Some (g, m, CMD_USER_DIRECT_PHSCHK)
  else if ty =? DIAG_CMD_ADC_F then Some (g, m, CMD_USER_ADC)
  else if ty =? DIAG_CMD_AT then
    a ← is_audio_at_cmd_need_to_handle m g;
    let '(g1, m1, audio) := a in
    if negb (audio =? 0) then Some (g1, m1, CMD_USER_AUDIO)
    else
      b ← is_ap_at_cmd_need_to_handle m1 g1;
      let '(g2, ap) := b in
      if negb (ap =? 0) then
        t ← eng_cmd_get_type (s_cmd_index g2);
        Some (if decide (t = CMD_TO_APCP) then set_cp_ap 1 g2 else g2, m1, CMD_USER_APCMD)
      else Some (g2, m1, CMD_COMMON)
  else if ty =? DIAG_CMD_GETVOLTAGE then Some (g, m, CMD_USER_GETVOLTAGE)
  else if ty =? DIAG_CMD_APCALI then r ← eng_diag_ap_req m; Some (g, m, r)
  else if ty =? DIAG_CMD_AUTOTEST then
    Some (g, m, if sub =? 0x1c then CMD_USER_AUTOTEST_PATH_CONFIRM else CMD_USER_AUTOTEST)
  else if ty =? DIAG_CMD_VER then Some (g, m, if sub =? 0x2 then CMD_USER_VER else CMD_COMMON)
  else if ty =? DIAG_CMD_IMEIBTWIFI then
    r ← is_btwifi_addr_need_to_handle m;
    Some (if r =? 2 then set_cp_ap 1 g else g, m,
          if negb (r =? 0) then CMD_USER_BTWIFI else CMD_COMMON)
  else if ty =? DIAG_CMD_CURRENT_TEST then
    Some (g, m,
      if sub =? 0x2 then CMD_USER_DEEP_SLEEP
      else if sub =? 0xe then CMD_USER_SHUT_DOWN else CMD_COMMON)
  else if ty =? DIAG_CMD_ASSERT then
    Some (if sub =? 0x4 then set_assert 1 g else g, m, CMD_COMMON)
  else Some (g, m, CMD_COMMON).

(** [buf] is the whole array, of which the frame is the first [n] bytes. *)
Definition eng_diag_parse (g : eng_globals) (buf : bytes) (n : nat) : option (eng_globals * bytes * Z) :=
  m ← eng_diag_decode7d7e 1 (n - 1) buf;
  h ← get_head 1 m;
  parse_switch m h g.
End audio.

(** [eng_diag_apcmd_hdlr] looks for the closing delimiter of the frame, from the text on: the
    position before it, where the terminator goes. *)
Definition apcmd_text_end (m : bytes) : option nat :=
  let ptr := (1 + MSG_HEAD_SIZE)%nat in
  match list_find (λ b, b = 0x7e) (drop ptr m) with
  | Some (i, _) => Some (ptr + i - 1)%nat
  | None => None
  end.

(** ** A frame in the buffer *)

(** The array behind [eng_diag_decode7d7e] on the frame of [p]. *)
Definition unescaped (p : bytes) : bytes := 0x7E :: p ++ 0x20 :: replicate (DATA_EXT_DIAG_SIZE - length p - 2) 0.

Lemma unescaped_length p :
  (length p + 2 <= DATA_EXT_DIAG_SIZE)%nat → length (unescaped p) = DATA_EXT_DIAG_SIZE.
Proof. intros. unfold unescaped. simpl. rewrite length_app. simpl. rewrite length_replicate. lia. Qed.

(** The array of the port with the frame of a message in it holds the message after the opening
    delimiter, then a space in the place of the closing one and zeros. *)
Lemma decode_filled p :
  (length (frame_of p) < DATA_EXT_DIAG_SIZE)%nat →
  eng_diag_decode7d7e 1 (length (frame_of p) - 1) (filled (frame_of p)) = Some (unescaped p).
Proof.
  intros Hl. rewrite frame_length in *. unfold filled.
  pose proof (escape_length p) as L.
  set (r := (DATA_EXT_DIAG_SIZE - length (frame_of p) - 1)%nat).
  replace (DATA_EXT_DIAG_SIZE - length (frame_of p))%nat with (S r)
    by (unfold r; rewrite frame_length; lia).
  cbn [replicate].
  replace (length (escape p) + 2 - 1)%nat with (length (escape p) + 1)%nat by lia.
  rewrite decode7d7e_frame. unfold unescaped. do 4 f_equal.
  change (0 :: replicate r 0) with (replicate (S r) 0). rewrite <- replicate_add. f_equal.
  unfold r. rewrite frame_length. lia.
Qed.

(** A message: its header and what follows. *)
Definition message (h : MSG_HEAD_T) (payload : bytes) : bytes := enc_head h ++ payload.

Lemma message_head h payload : wf_head h → get_head 1 (unescaped (message h payload)) = Some h.
Proof.
  intros Hh. unfold unescaped, message. rewrite <- app_assoc.
  by apply (get_head_enc [0x7E] h).
Qed.

(** What the PC sent is what is classified: on the frame of a message the parser takes the switch
    with the header of the message, on the array that holds the message without escapes. *)
Theorem parse_message modes g h payload :
  wf_head h → (length (frame_of (message h payload)) < DATA_EXT_DIAG_SIZE)%nat →
  eng_diag_parse modes g (filled (frame_of (message h payload))) (length (frame_of (message h payload)))
  = parse_switch modes (unescaped (message h payload)) h g.
Proof.
  intros Hh Hl. unfold eng_diag_parse. rewrite decode_filled by done. cbn [mbind option_bind].
  rewrite message_head by done. done.
Qed.

Lemma unescaped_payload h payload :
  unescaped (message h payload)
  = (0x7E :: enc_head h) ++ payload ++ 0x20
      :: replicate (DATA_EXT_DIAG_SIZE - length (message h payload) - 2) 0.
Proof. unfold unescaped, message. cbn [app]. by rewrite <- app_assoc. Qed.

(** The text of an AT command has the former delimiter, now a space, behind it. *)
Lemma at_text h payload :
  Forall (λ b, b ≠ 0) payload → (length (message h payload) + 2 < DATA_EXT_DIAG_SIZE)%nat →
  cstr (unescaped (message h payload)) (1 + MSG_HEAD_SIZE) = Some (payload ++ [0x20]).
Proof.
  intros Hp Hl. rewrite unescaped_payload.
  replace (DATA_EXT_DIAG_SIZE - length (message h payload) - 2)%nat
    with (S (DATA_EXT_DIAG_SIZE - length (message h payload) - 3)) by lia.
  cbn [replicate]. rewrite (cons_middle 0x20), (app_assoc payload).
  apply (cstr_at (0x7E :: enc_head h)). apply Forall_app. split; [done|]. by repeat constructor.
Qed.

(** The delimiter [eng_diag_apcmd_hdlr] looks for is gone: unless the text itself has a 0x7e, the
    search leaves the array. *)
Theorem apcmd_delimiter_gone h payload :
  Forall (λ b, b ≠ 0x7e) payload → apcmd_text_end (unescaped (message h payload)) = None.
Proof.
  intros Hp. unfold apcmd_text_end. rewrite unescaped_payload.
  change (1 + MSG_HEAD_SIZE)%nat with (length (0x7E :: enc_head h)). rewrite drop_app_length.
  rewrite (proj2 (list_find_None _ _)); [done|].
  apply Forall_app. split; [done|]. constructor; [done|]. by apply Forall_replicate.
Qed.

(** ** Frames larger than half the buffer *)

(** The part of a frame, cut between two escapes, as the parser leaves it in the array: unescaped,
    with zeros in the freed cells. *)
Lemma decode_partial q :
  (length (escape q) + 1 < DATA_EXT_DIAG_SIZE)%nat →
  eng_diag_decode7d7e 1 (length (escape q)) (filled (0x7E :: escape q)) = Some (filled (0x7E :: q)).
Proof.
  intros Hl. pose proof (escape_length q) as L. unfold filled, eng_diag_decode7d7e.
  set (r := (DATA_EXT_DIAG_SIZE - length (0x7E%Z :: escape q) - 1)%nat).
  replace (DATA_EXT_DIAG_SIZE - length (0x7E%Z :: escape q))%nat with (S r) by (unfold r; simpl; lia).
  pose proof (decode_loop_open [0x7E] q 0 (replicate r 0)) as D. cbn [app length] in D.
  cbn [app replicate]. rewrite D. do 3 f_equal. rewrite <- replicate_add. f_equal.
  unfold r. simpl. lia.
Qed.

(** The types of message that are never left to the modem without a look at the subtype or the text. *)
Definition ap_types : list Z :=
  [DIAG_CMD_CHANGEMODE; DIAG_CMD_FACTORYMODE; DIAG_CMD_DIRECT_PHSCHK; DIAG_CMD_ADC_F; DIAG_CMD_AT;
   DIAG_CMD_GETVOLTAGE; DIAG_CMD_APCALI; DIAG_CMD_AUTOTEST; DIAG_CMD_VER; DIAG_CMD_IMEIBTWIFI;
   DIAG_CMD_CURRENT_TEST; DIAG_CMD_ASSERT].

Lemma parse_switch_common modes m h g :
  type h ∉ ap_types → parse_switch modes m h g = Some (g, m, CMD_COMMON).
Proof.
  unfold ap_types. rewrite !not_elem_of_cons. intros Hn. destruct_and! Hn. unfold parse_switch.
  by repeat match goal with H : type h ≠ _ |- _ => rewrite (proj2 (Z.eqb_neq _ _) H); clear H end.
Qed.

(** The parser as the classification of the port, whatever the commands do. *)
Definition parse_handler (modes : Z) (E : eng_globals → bytes → nat → option (eng_globals * bytes * Z))
  : DiagHandler eng_globals := Build_DiagHandler eng_globals (eng_diag_parse modes) E.

(** A frame of the modem that is larger than half the buffer does not arrive as it was sent: the
    part [0x7E :: escape q] that was in the buffer when half of it was full arrives without its
    escapes, with as many zeros at its end; only the rest, read later, keeps its escapes. *)
Theorem large_frame_mangled modes E h d q2 c r rs r2 g p :
  let q := message h d in
  let f := frame_of (q ++ q2) in
  wf_head h → type h ∉ ap_types →
  (length f <= DATA_EXT_DIAG_SIZE)%nat →
  c ++ r = 0x7E :: escape q → concat rs ++ r2 = escape q2 ++ [0x7E] → r2 ≠ [] →
  (DATA_EXT_DIAG_SIZE / 2 <= length (c ++ r))%nat →
  Forall (λ r, (0 < length r <= DATA_BUF_SIZE)%nat) (r :: rs ++ [r2]) → at_frame c p →
  ∃ p', @wthread_run _ (parse_handler modes E) (r :: rs ++ [r2]) g p
        = Some (g, p', (0x7E :: q ++ replicate (length (escape q) - length q) 0) :: rs ++ [r2])
        ∧ at_frame [] p'.
Proof.
  intros q f Hh Ht Hl Ec E2 H2 Hs Hr Hp. pose proof (escape_length q) as L.
  assert (Lf : (length (escape q) + 1 < DATA_EXT_DIAG_SIZE)%nat).
  { unfold f in Hl. rewrite frame_length, escape_app, length_app in Hl. lia. }
  assert (Lc : length (c ++ r) = S (length (escape q))) by (rewrite Ec; done).
  assert (P : eng_diag_parse modes g (filled (c ++ r)) (length (c ++ r))
    = Some (g, filled (0x7E :: q), CMD_COMMON)).
  { unfold eng_diag_parse. rewrite Lc, Ec. cbn [Nat.sub]. rewrite Nat.sub_0_r, decode_partial by done.
    cbn [mbind option_bind].
    assert (G : get_head 1 (filled (0x7E :: q)) = Some h).
    { unfold filled, q, message. cbn [app]. rewrite <- app_assoc. by apply (get_head_enc [0x7E] h). }
    rewrite G. cbn [mbind option_bind]. by apply parse_switch_common. }
  assert (T : take (length (c ++ r)) (filled (0x7E :: q))
    = 0x7E :: q ++ replicate (length (escape q) - length q) 0).
  { rewrite Lc. unfold filled. cbn [app take]. f_equal. rewrite take_app_ge by lia. f_equal.
    rewrite take_replicate. f_equal. cbn [length]. lia. }
  rewrite <- T. eapply (@large_frame_forwarded _ (parse_handler modes E) f); try done.
  - apply frame_of_is_frame.
  - rewrite app_assoc, Ec, E2. unfold f, frame_of. rewrite escape_app. cbn [app]. by rewrite <- app_assoc.
  - split; [done|lia].
  - apply filled_length. cbn [length]. lia.
Qed.

(** ** The address commands *)

(** The message with the data [d], its checksum and whatever else the PC sent in the frame. *)
Definition address_message (h : MSG_HEAD_T) (d : bytes) (lo hi : Z) (rest : bytes) : bytes :=
  message h (d ++ lo :: hi :: rest).

Definition address_room (h : MSG_HEAD_T) (d rest : bytes) : Prop :=
  len h = 10 + Z.of_nat (length d) ∧ (length d + length rest + 12 < DATA_EXT_DIAG_SIZE)%nat.

Lemma address_crc h d lo hi rest :
  address_room h d rest →
  msg_crc (unescaped (address_message h d lo hi rest)) h = Some (lo + 2 ^ 8 * hi, crc16 0 d).
Proof.
  intros [Hl _]. unfold msg_crc, address_message. rewrite unescaped_payload, Hl.
  destruct (Z.ltb_spec (10 + Z.of_nat (length d)) 10); [lia|].
  set (tl := 0x20 :: replicate _ 0). set (hd := 0x7E :: enc_head h).
  assert (Lh : length hd = 9%nat) by done. clearbody hd.
  rewrite <- app_assoc. cbn [app].
  replace (Z.to_nat (10 + Z.of_nat (length d)) - 2 + 1)%nat with (length (hd ++ d))
    by (rewrite length_app; lia).
  replace (hd ++ d ++ lo :: hi :: rest ++ tl) with ((hd ++ d) ++ lo :: hi :: rest ++ tl)
    by by rewrite <- app_assoc.
  unfold get16. rewrite lookup_next, lookup_mid by done. cbn [mbind option_bind].
  rewrite <- app_assoc. rewrite slice_mid; [done| |lia]. by rewrite Lh.
Qed.

(** What the subtype asks for: nothing, only addresses, addresses and something of the modem's. *)
Definition address_request (sub : Z) : Z :=
  if Z.land sub 0x44 =? 0 then 0 else if Z.ldiff (Z.land sub 0x7f) 0x44 =? 0 then 1 else 2.

Lemma address_request_ok sub : is_u8 sub →
  (if (Z.land sub RW_MASK =? WRITE_MODE) && (Z.land sub RM_VALID_CMD_MASK =? 0) then 0
   else
     let cmd_mask := Z.land sub 0x7f in
     if negb (Z.land cmd_mask (Z.lor DIAG_CMD_BTBIT DIAG_CMD_WIFIBIT) =? 0) then
       if negb (Z.ldiff cmd_mask (Z.lor DIAG_CMD_BTBIT DIAG_CMD_WIFIBIT) =? 0) then 2 else 1
     else 0) = address_request sub.
Proof.
  intros H. apply Z.eqb_eq.
  apply (forallb_seqZ (λ sub, (if (Z.land sub RW_MASK =? WRITE_MODE) && (Z.land sub RM_VALID_CMD_MASK =? 0) then 0
   else
     let cmd_mask := Z.land sub 0x7f in
     if negb (Z.land cmd_mask (Z.lor DIAG_CMD_BTBIT DIAG_CMD_WIFIBIT) =? 0) then
       if negb (Z.ldiff cmd_mask (Z.lor DIAG_CMD_BTBIT DIAG_CMD_WIFIBIT) =? 0) then 2 else 1
     else 0) =? address_request sub) 0 256); [by vm_compute|unfold is_u8 in H; lia].
Qed.

Lemma is_btwifi_spec h d lo hi rest :
  wf_head h → address_room h d rest →
  is_btwifi_addr_need_to_handle (unescaped (address_message h d lo hi rest))
  = Some (if lo + 2 ^ 8 * hi =? crc16 0 d then address_request (subtype h) else 0).
Proof.
  intros Hh Hr. unfold is_btwifi_addr_need_to_handle.
  rewrite (message_head h (d ++ lo :: hi :: rest) Hh : get_head 1 (unescaped (address_message h d lo hi rest)) = Some h).
  cbn [mbind option_bind].
  rewrite (address_crc h d lo hi rest Hr). cbn [mbind option_bind].
  rewrite <- (address_request_ok (subtype h)) by apply Hh.
  by destruct (_ =? crc16 0 d).
Qed.

(** C31. The address commands are only believed with the right checksum: with it the subtype decides who
    deals with the message, and [s_cp_ap_proc] is set when the modem has to see it as well; a message
    of which one data byte was changed on the way is left to the modem and changes nothing. *)
Theorem address_message_checked modes g h d1 b d2 b' rest :
  let d := d1 ++ b :: d2 in
  let m b := address_message h (d1 ++ b :: d2) (Z.land (crc16 0 d) 0xff) (Z.shiftr (crc16 0 d) 8) rest in
  wf_head h → type h = DIAG_CMD_IMEIBTWIFI → wf_bytes d → is_u8 b' → b' ≠ b →
  address_room h d rest →
  parse_switch modes (unescaped (m b)) h g
  = Some (if address_request (subtype h) =? 2 then set_cp_ap 1 g else g, unescaped (m b),
          if address_request (subtype h) =? 0 then CMD_COMMON else CMD_USER_BTWIFI)
  ∧ parse_switch modes (unescaped (m b')) h g = Some (g, unescaped (m b'), CMD_COMMON).
Proof.
  intros d m Hh Ht Hw Hb' Hne Hr.
  assert (Hc : Z.land (crc16 0 d) 0xff + 2 ^ 8 * Z.shiftr (crc16 0 d) 8 = crc16 0 d).
  { assert (H0 : is_u16 0) by (unfold is_u16; lia).
    pose proof (crc16_range 0 d H0) as R. unfold is_u16 in R.
    rewrite land_ff, Z.shiftr_div_pow2 by lia. Z.to_euclidean_division_equations. lia. }
  assert (S : ∀ x, address_room h (d1 ++ x :: d2) rest →
    parse_switch modes (unescaped (m x)) h g
    = Some (if (if crc16 0 d =? crc16 0 (d1 ++ x :: d2) then address_request (subtype h) else 0) =? 2
            then set_cp_ap 1 g else g, unescaped (m x),
            if negb ((if crc16 0 d =? crc16 0 (d1 ++ x :: d2) then address_request (subtype h) else 0) =? 0)
            then CMD_USER_BTWIFI else CMD_COMMON)).
  { intros x Hx. unfold parse_switch. rewrite Ht. cbn -[is_btwifi_addr_need_to_handle unescaped crc16 m].
    unfold m. rewrite (is_btwifi_spec h (d1 ++ x :: d2) _ _ rest Hh Hx), Hc. done. }
  split.
  - rewrite S by done. rewrite Z.eqb_refl. by destruct (address_request (subtype h) =? 0).
  - rewrite S.
    + rewrite (proj2 (Z.eqb_neq (crc16 0 d) (crc16 0 (d1 ++ b' :: d2)))); [done|]. unfold d in Hw |- *.
      apply crc16_detects_byte; [unfold is_u16; lia|done|done|congruence].
    + destruct Hr as [R1 R2]. split; unfold d in *; rewrite length_app in *; simpl in *; lia.
Qed.

(** A length below the header and a checksum makes the length of the CRC wrap around. *)
Lemma address_message_short modes g h p :
  wf_head h → type h = DIAG_CMD_IMEIBTWIFI → len h < 10 →
  parse_switch modes (unescaped (message h p)) h g = None.
Proof.
  intros Hh Ht Hl. unfold parse_switch. rewrite Ht.
  cbn -[is_btwifi_addr_need_to_handle unescaped message].
  unfold is_btwifi_addr_need_to_handle. rewrite message_head by done. cbn [mbind option_bind].
  unfold msg_crc. by rewrite (proj2 (Z.ltb_lt _ _)) by done.
Qed.

(** ** The AT commands *)

Lemma find_linuxcmd_range i table s :
  0 <= i → -1 <= find_linuxcmd i table s < i + Z.of_nat (length table) ∨ find_linuxcmd i table s = -1.
Proof.
  revert i. induction table as [|[t name] table IH]; intros i Hi; [by right|]. cbn [find_linuxcmd length].
  destruct (strcasestr s name).
  - destruct (_ && _); [by right|left; lia].
  - destruct (IH (i + 1) ltac:(lia)) as [?| ->]; [left; lia|by right].
Qed.

(** The commands found are inside the table, so that the off-by-one of [eng_cmd_get_type] does not
    show: only the number of elements itself is looked up outside. *)
Lemma eng_at2linux_type s :
  eng_at2linux s ≠ -1 → ∃ t, eng_cmd_get_type (eng_at2linux s) = Some t ∧ t ≠ CMD_INVALID_TYPE.
Proof.
  intros Hn. assert (R : 0 <= eng_at2linux s < 26).
  { unfold eng_at2linux in *. destruct (find_linuxcmd_range 0 eng_linuxcmd s ltac:(lia)) as [R|R]; [|done].
    change (Z.of_nat (length eng_linuxcmd)) with 26 in R. lia. }
  unfold eng_cmd_get_type. change (Z.of_nat (length eng_linuxcmd)) with 26.
  rewrite (proj2 (Z.leb_le _ _)), (proj2 (Z.leb_le _ _)) by lia. cbn [andb].
  assert (F : Forall (λ x, fst x ≠ CMD_INVALID_TYPE) eng_linuxcmd) by (repeat constructor; done).
  destruct (lookup_lt_is_Some_2 eng_linuxcmd (Z.to_nat (eng_at2linux s))) as [[t n] E].
  { change (length eng_linuxcmd) with (Z.to_nat 26). lia. }
  exists t. rewrite E. split; [done|]. rewrite Forall_lookup in F. by apply (F _ _ E).
Qed.

Lemma eng_cmd_get_type_overrun : eng_cmd_get_type 26 = None.
Proof. by vm_compute. Qed.

(** The array with an AT command, for examples. *)
Definition at_message (s : string) : bytes := unescaped (message (MsgHead 0 0 DIAG_CMD_AT 0) (chars s)).

(** An audio command without its index goes on with a null pointer. *)
Lemma sadm_without_index : is_audio_at_cmd_need_to_handle 4 (at_message "AT+SADM4AP=8") globals_start = None.
Proof. by vm_compute. Qed.

(** A negative index passes: only the upper bound is checked. *)
Lemma sadm_negative_index :
  ∃ m, is_audio_at_cmd_need_to_handle 4 (at_message "AT+SADM4AP=8,-1") globals_start
       = Some (set_g_index (Some (-1)) (set_cmd_type (Some 8) globals_start), m, 1).
Proof. eexists. vm_compute. reflexivity. Qed.

(** Words in the place of the numbers count as 0, the request for the number of modes. *)
Lemma spenha_malformed :
  ∃ m, is_audio_at_cmd_need_to_handle 4 (at_message "AT+SPENHA=x,y") globals_start
       = Some (set_cmd_type (Some 0) globals_start, m, 1).
Proof. eexists. vm_compute. reflexivity. Qed.

(** ** Witnesses *)

Lemma address_message_checked_witness :
  let h := MsgHead 0 16 DIAG_CMD_IMEIBTWIFI DIAG_CMD_BTBIT in
  let m b := address_message h ([0x10; 0x20] ++ b :: [1; 2; 3])
    (Z.land (crc16 0 ([0x10; 0x20] ++ 0x30 :: [1; 2; 3])) 0xff)
    (Z.shiftr (crc16 0 ([0x10; 0x20] ++ 0x30 :: [1; 2; 3])) 8) [] in
  parse_switch 4 (unescaped (m 0x30)) h globals_start
  = Some (globals_start, unescaped (m 0x30), CMD_USER_BTWIFI)
  ∧ parse_switch 4 (unescaped (m 0x31)) h globals_start = Some (globals_start, unescaped (m 0x31), CMD_COMMON).
Proof.
  apply (address_message_checked 4 globals_start (MsgHead 0 16 DIAG_CMD_IMEIBTWIFI DIAG_CMD_BTBIT)
           [0x10; 0x20] 0x30 [1; 2; 3] 0x31 []); try done.
  - unfold wf_bytes, is_u8. cbn [app]. repeat (apply list.Forall_cons; split; [lia|]). constructor.
  - split; [done|]. rewrite size_value. cbn [length app]. lia.
Defined.

Lemma apcmd_delimiter_gone_witness :
  apcmd_text_end (unescaped (message (MsgHead 0 13 DIAG_CMD_APCALI 0) (chars "AT+X="))) = None.
Proof. apply apcmd_delimiter_gone. simpl. repeat constructor; done. Defined.

Lemma parse_message_witness :
  eng_diag_parse 4 globals_start (filled (frame_of (message (MsgHead 0 8 DIAG_CMD_VER 0) [])))
    (length (frame_of (message (MsgHead 0 8 DIAG_CMD_VER 0) [])))
  = parse_switch 4 (unescaped (message (MsgHead 0 8 DIAG_CMD_VER 0) [])) (MsgHead 0 8 DIAG_CMD_VER 0) globals_start.
Proof. apply parse_message; [done|]. rewrite size_value. change (length _) with 10%nat. lia. Defined.

Lemma large_frame_mangled_witness :
  let d := 0x7d :: replicate (Z.to_nat 8192) 1 in
  let q := message (MsgHead 0 8200 0x40 0) d in
  ∃ p', @wthread_run _ (parse_handler 4 (λ g b _, Some (g, b, 0))) [0x7E :: escape q; escape [2; 3]; [0x7E]]
          globals_start port_start
        = Some (globals_start, p',
            [0x7E :: q ++ replicate (length (escape q) - length q) 0; escape [2; 3]; [0x7E]])
        ∧ at_frame [] p'.
Proof.
  intros d q.
  assert (Lq : length (escape q) = Z.to_nat 8202) by (vm_compute; reflexivity).
  apply (large_frame_mangled 4 (λ g b _, Some (g, b, 0)) (MsgHead 0 8200 0x40 0) d [2; 3]
           [] (0x7E :: escape q) [escape [2; 3]] [0x7E]).
  - unfold wf_head, is_u32, is_u16, is_u8. cbn [seq_num len type subtype]. lia.
  - by apply (bool_decide_unpack _).
  - fold q. rewrite frame_length, escape_app, length_app, Lq, size_value. cbn. lia.
  - reflexivity.
  - reflexivity.
  - discriminate.
  - rewrite half_value. cbn [app length]. rewrite Lq. lia.
  - change DATA_BUF_SIZE with (Z.to_nat 16384). cbn [app].
    constructor; [cbn [length]; rewrite Lq; lia|]. repeat (constructor; [cbn; lia|]). constructor.
  - apply port_start_at.
Defined.
