(* ===== verification/DiagServe.v ===== *)
(** * Commands of the diagnostic port (engmode/eng_diag.c, eng_productdata.c)

    [eng_diag] with the commands for the product data: [eng_diag_product_ctrl]
    and [eng_diag_direct_phschk] over the partition and its copy, the version and
    the reset, and the answers to the PC.  The remaining commands are a parameter.
    The line to the PC takes what is written; [CONFIG_NAND] is off; the contents
    of fresh memory are a parameter.  [None] is an access outside an array. *)

From stdpp Require Import list.
From S2P Require Import Prelude Crc16 DiagFrame DiagPort AtTok DiagCmd.

Open Scope Z_scope.

Definition ENG_DIAG_SIZE : nat := Z.to_nat 4096.
Definition MSG_NACK : Z := 0.
Definition MSG_ACK : Z := 1.
Definition NVERR_NONE : Z := 0.
Definition IMEI_ERR_NONE : Z := 0.
Definition IMEI_CRC_ERR : Z := 1.
Definition IMEI_CMD_ERR : Z := 2.
Definition IMEI_SAVE_ERR : Z := 3.
(** [sizeof (TEST_DATA_INFO_T)]. *)
Definition TEST_DATA_INFO_SIZE : nat := 256.

(** ** The product data (eng_productdata.c) *)

(** The partition and its copy, [None] when they cannot be opened.  The partition has a fixed size. *)
Record product := Product { miscdata : option bytes; productinfo : option bytes }.

(** [eng_read_productnvdata (databuf, data_len)]: the buffer and the result. *)
Definition eng_read_productnvdata (st : product) (databuf : bytes) (data_len : nat) : option (bytes * Z) :=
  match miscdata st with
  | None => Some (databuf, 1)
  | Some c =>
      let d := take data_len c in
      b ← splice 0 d databuf; Some (b, if (length d =? 0)%nat then 1 else 0)
  end.

(** A write of [d] from the start of a partition and of a file. *)
Definition write_partition (d c : bytes) : bytes := take (length c) d ++ drop (length d) c.
Definition write_file (d c : bytes) : bytes := d ++ drop (length d) c.

Definition eng_write_productnvdata (st : product) (databuf : bytes) (data_len : nat) : option (product * Z) :=
  match miscdata st with
  | None => Some (st, 1)
  | Some c =>
      d ← slice 0 data_len databuf;
      if (Nat.min (length d) (length c) =? 0)%nat then Some (st, 1)
      else Some (Product (Some (write_partition d c)) (write_file d <$> productinfo st), 0)
  end.

Section commands.
(** Fresh memory of a size. *)
Context (malloc : nat → bytes).

Definition put_head (h : MSG_HEAD_T) (off : nat) (m : bytes) : option bytes := splice off (enc_head h) m.
Definition set_len (n : Z) (h : MSG_HEAD_T) : MSG_HEAD_T := MsgHead (seq_num h) (u16 n) (type h) (subtype h).
Definition set_subtype (s : Z) (h : MSG_HEAD_T) : MSG_HEAD_T := MsgHead (seq_num h) (len h) (type h) (u8 s).

(** The result of a command: the product data, the array of the frame, the answer buffer and the
    length of the answer. *)
Definition answer : Type := product * bytes * bytes * nat.

(** [eng_diag_product_ctrl (buf, len, rsp, rsplen)]. *)
Definition eng_diag_product_ctrl (st : product) (buf rsp : bytes) : option answer :=
  let rsplen := length rsp in
  let head_len := 12%nat in
  msg_head ← get_head 1 buf;
  offset ← get16 9 buf; dl ← get16 11 buf;
  let data_len := Z.to_nat dl in
  if (rsplen <? head_len + data_len + 2)%nat then Some (st, buf, rsp, 0%nat)
  else if subtype msg_head =? 2 then
    hd ← slice 1 head_len buf;
    nv1 ← splice 0 hd (malloc (data_len + head_len));
    r ← eng_read_productnvdata st (drop head_len nv1) data_len;
    let '(data, nverr) := r in
    let data_len := if nverr =? NVERR_NONE then data_len else 0%nat in
    nv3 ← put_head (set_subtype nverr (set_len (Z.of_nat (head_len + data_len)) msg_head)) 0
            (take head_len nv1 ++ data);
    t ← translate_packet rsp nv3 (head_len + data_len);
    let '(rsp', rsp_len) := t in Some (st, buf, rsp', rsp_len)
  else if subtype msg_head =? 3 then
    r ← eng_read_productnvdata st (malloc rsplen) data_len;
    let '(nvdata, nverr) := r in
    w ← (if nverr =? NVERR_NONE then
           d ← slice (1 + head_len) data_len buf;
           nv ← splice (Z.to_nat offset) d nvdata;
           eng_write_productnvdata st nv data_len
         else Some (st, nverr));
    let '(st', nverr) := w in
    buf' ← put_head (set_len (Z.of_nat MSG_HEAD_SIZE) (set_subtype nverr msg_head)) 1 buf;
    t ← translate_packet rsp (drop 1 buf') MSG_HEAD_SIZE;
    let '(rsp', rsp_len) := t in Some (st', buf', rsp', rsp_len)
  else Some (st, buf, rsp, 0%nat).

(** The answer of a write of [eng_diag_direct_phschk]: acknowledged, or refused with [error]. *)
Definition phschk_acknowledge (error : option Z) (h : MSG_HEAD_T) (buf : bytes) : option bytes :=
  match error with
  | None =>
      b ← put_head (set_subtype MSG_ACK (set_len 10 h)) 1 buf; splice 9 (le16 0) b
  | Some e =>
      b ← put_head (set_len 12 (set_subtype MSG_NACK h)) 1 buf; splice 9 (le16 e ++ le16 0) b
  end.

Definition eng_diag_direct_phschk (st : product) (buf rsp : bytes) : option answer :=
  let rsplen := length rsp in
  h ← get_head 1 buf;
  c ← msg_crc buf h; let '(recv_crc, crc) := c in
  if negb (recv_crc =? crc) then
    b ← put_head (set_len 12 h) 1 buf; b' ← splice 9 (le16 IMEI_CRC_ERR) b;
    Some (st, b', rsp, 0%nat)
  else if Z.land (subtype h) RW_MASK =? WRITE_MODE then
    w ← (if negb (Z.land (subtype h) RM_VALID_CMD_MASK =? 0) then
           r ← eng_write_productnvdata st (drop 9 buf) (Z.to_nat (len h) - 10);
           let '(st', nverr) := r in
           Some (st', if nverr =? NVERR_NONE then None else Some IMEI_SAVE_ERR)
         else Some (st, Some IMEI_CMD_ERR));
    let '(st', error) := w in
    b ← phschk_acknowledge error h buf; h' ← get_head 1 b;
    t ← translate_packet rsp (drop 1 b) (Z.to_nat (len h'));
    let '(rsp', rsp_len) := t in Some (st', b, rsp', rsp_len)
  else
    nv ← splice 0 (enc_head h) (malloc (rsplen + 10));
    r ← eng_read_productnvdata st (drop 8 nv) rsplen;
    let '(data, nverr) := r in
    if negb (nverr =? NVERR_NONE) then
      b ← put_head (set_subtype MSG_NACK (set_len 10 h)) 1 buf; b' ← splice 9 (le16 0) b;
      t ← translate_packet rsp (drop 1 b') 10;
      let '(rsp', rsp_len) := t in Some (st, b', rsp', rsp_len)
    else
      d ← slice 0 TEST_DATA_INFO_SIZE data;
      nv2 ← splice TEST_DATA_INFO_SIZE (le16 (crc16 0 d)) data;
      let h' := set_subtype MSG_ACK (set_len (Z.of_nat (8 + TEST_DATA_INFO_SIZE + 2)) h) in
      t ← translate_packet rsp (enc_head h' ++ nv2) (8 + TEST_DATA_INFO_SIZE + 2);
      let '(rsp', rsp_len) := t in Some (st, buf, rsp', rsp_len).
End commands.

(** ** [eng_diag] *)

(** The state of the commands: the globals, the product data, the answer buffer [eng_diag_buf], the
    version of the system, [g_reset] and what the PC was sent. *)
Record ap_state := Ap {
  ap_globals : eng_globals; ap_product : product; eng_diag_buf : bytes; ap_version : bytes;
  g_reset : Z; to_pc : list bytes }.

Definition with_globals (g : eng_globals) (s : ap_state) : ap_state :=
  Ap g (ap_product s) (eng_diag_buf s) (ap_version s) (g_reset s) (to_pc s).
Definition with_reset (s : ap_state) : ap_state :=
  Ap (ap_globals s) (ap_product s) (eng_diag_buf s) (ap_version s) 1 (to_pc s).

(** [eng_diag_write2pc (eng_diag_buf, n)]. *)
Definition eng_diag_write2pc (n : nat) (s : ap_state) : option ap_state :=
  d ← slice 0 n (eng_diag_buf s);
  Some (Ap (ap_globals s) (ap_product s) (eng_diag_buf s) (ap_version s) (g_reset s) (to_pc s ++ [d])).

Definition with_answer (p : product) (b : bytes) (s : ap_state) : ap_state :=
  Ap (ap_globals s) p b (ap_version s) (g_reset s) (to_pc s).

(** [eng_diag_getver] and [eng_diag_bootreset]: [rsp], of 512 bytes, and its length. *)
Definition rsp_of (text : bytes) : option bytes := splice 0 (text ++ [0]) (replicate 512 0).

Definition eng_diag_getver (s : ap_state) : option (bytes * nat) :=
  r ← rsp_of (ap_version s);
  if (248 <? length (ap_version s))%nat then r' ← store 248 0 r; Some (r', 248%nat)
  else Some (r, length (ap_version s)).

Definition eng_diag_bootreset : option (bytes * nat) := r ← rsp_of [0x4F; 0x4B]; Some (r, 2%nat).

(** The end of [eng_diag_user_handle] for a command that leaves [rlen] bytes in [rsp]: the header
    of the request with the length of the answer, [rsp], and the delimiters. *)
Definition send_rsp (buf rsp : bytes) (rlen : nat) (s : ap_state) : option ap_state :=
  h ← get_head 1 buf;
  let h' := set_len (Z.of_nat (MSG_HEAD_SIZE + rlen)) h in
  b1 ← store 0 0x7e (eng_diag_buf s);
  b2 ← put_head h' 1 b1;
  b3 ← splice 9 rsp b2;
  b4 ← store (Z.to_nat (len h') + 1) 0x7e b3;
  eng_diag_write2pc (Z.to_nat (len h') + 2) (with_answer (ap_product s) b4 s).

Section diag.
Context (malloc : nat → bytes).
(** The commands that are not modelled: the state, the array of the frame and the result of
    [eng_diag_user_handle]. *)
Context (other : Z → ap_state → bytes → nat → option (ap_state * bytes * Z)).

Definition eng_diag_user_handle (ty : Z) (s : ap_state) (buf : bytes) (n : nat)
    : option (ap_state * bytes * Z) :=
  if ty =? CMD_USER_VER then
    r ← eng_diag_getver s; let '(rsp, rlen) := r in
    s' ← send_rsp buf rsp rlen s; Some (s', buf, 0)
  else if ty =? CMD_USER_RESET then
    r ← eng_diag_bootreset; let '(rsp, rlen) := r in
    s' ← send_rsp buf rsp rlen (with_reset s); Some (s', buf, 0)
  else if ty =? CMD_USER_PRODUCT_CTRL then
    a ← eng_diag_product_ctrl malloc (ap_product s) buf (replicate (length (eng_diag_buf s)) 0);
    let '(p, buf', rsp, k) := a in
    s' ← eng_diag_write2pc k (with_answer p rsp s); Some (s', buf', 0)
  else if ty =? CMD_USER_DIRECT_PHSCHK then
    a ← eng_diag_direct_phschk malloc (ap_product s) buf (replicate (length (eng_diag_buf s)) 0);
    let '(p, buf', rsp, k) := a in
    s' ← eng_diag_write2pc k (with_answer p rsp s); Some (s', buf', 0)
  else other ty s buf n.

(** The frame "OK" behind an answer. *)
Definition ok_frame : bytes :=
  0x7e :: enc_head (MsgHead 0 14 0x9c 0) ++ [0x0D; 0x0A; 0x4F; 0x4B; 0x0D; 0x0A] ++ [0x7e].

Definition send_ok (s : ap_state) : option ap_state :=
  b ← splice 0 ok_frame (eng_diag_buf s);
  eng_diag_write2pc (length ok_frame) (with_answer (ap_product s) b s).

(** The parser of the port: the state of the commands has the globals it uses. *)
Definition ap_parse (modes : Z) (s : ap_state) (buf : bytes) (n : nat) : option (ap_state * bytes * Z) :=
  r ← eng_diag_parse modes (ap_globals s) buf n;
  let '(g, buf', ty) := r in Some (with_globals g s, buf', ty).

(** The result is 1 when the modem need not see the frame. *)
Definition eng_diag_ (modes : Z) (s : ap_state) (buf : bytes) (n : nat) : option (ap_state * bytes * Z) :=
  r ← ap_parse modes s buf n;
  let '(s1, buf1, ty) := r in
  if ty =? CMD_COMMON then Some (s1, buf1, 0)
  else
    u ← eng_diag_user_handle ty s1 buf1 n;
    let '(s2, buf2, ret_val) := u in
    s3 ← (if ret_val =? 0 then Some s2 else send_ok s2);
    if negb (s_cp_ap_proc (ap_globals s3) =? 0) then
      Some (with_globals (set_cp_ap 0 (ap_globals s3)) s3, buf2, 0)
    else Some (s3, buf2, 1).

#[global] Instance ap_handler (modes : Z) : DiagHandler ap_state :=
  { eng_diag_parse := ap_parse modes; eng_diag := eng_diag_ modes }.
End diag.

(** ** The message in the array *)

Lemma put_head_message h' h payload :
  put_head h' 1 (unescaped (message h payload))
  = Some ((0x7E :: enc_head h') ++ payload ++ 0x20
            :: replicate (DATA_EXT_DIAG_SIZE - length (message h payload) - 2) 0).
Proof.
  rewrite unescaped_payload. unfold put_head. cbn [app].
  by apply (splice_mid 1 [0x7E] (enc_head h) (enc_head h')).
Qed.

Lemma set_len_wf n h : wf_head h → wf_head (set_len n h).
Proof. intros (? & ? & ? & ?). split_and!; try done. apply u16_range. Qed.

Lemma set_subtype_wf n h : wf_head h → wf_head (set_subtype n h).
Proof. intros (? & ? & ? & ?). split_and!; try done. apply u8_range. Qed.
#[local] Hint Resolve set_len_wf set_subtype_wf : core.

(** A message that fits twice fits escaped. *)
Lemma translate_packet_fits dest p rest :
  (2 * length p + 2 <= length dest)%nat →
  ∃ dest' n, translate_packet dest (p ++ rest) (length p) = Some (dest', n) ∧ length dest' = length dest
             ∧ slice 0 n dest' = Some (frame_of p).
Proof.
  intros H. pose proof (escape_length p).
  assert (L : (length (frame_of p) <= length dest)%nat) by (rewrite frame_length; lia).
  rewrite translate_packet_spec by done. do 2 eexists. split; [done|]. split.
  - rewrite length_app, length_drop. lia.
  - by apply slice_front.
Qed.

(** ** The phase check *)

(** A write with the right checksum goes to the partition and its copy and is acknowledged. *)
Lemma phschk_write malloc st c h d rest rsp :
  let crc := crc16 0 d in
  let buf := unescaped (address_message h d (Z.land crc 0xff) (Z.shiftr crc 8) rest) in
  wf_head h → Z.land (subtype h) 0x80 = 0 → Z.land (subtype h) 0x7f ≠ 0 →
  address_room h d rest → d ≠ [] → miscdata st = Some c → c ≠ [] → (22 <= length rsp)%nat →
  ∃ buf' rsp' n, eng_diag_direct_phschk malloc st buf rsp
    = Some (Product (Some (write_partition d c)) (write_file d <$> productinfo st), buf', rsp', n)
  ∧ length rsp' = length rsp
  ∧ slice 0 n rsp' = Some (frame_of (message (set_subtype MSG_ACK (set_len 10 h)) (le16 0))).
Proof.
  intros crc buf Hh H80 H7f Hr Hd Hm Hc Hrsp. unfold eng_diag_direct_phschk, buf.
  set (lo := Z.land crc 0xff). set (hi := Z.shiftr crc 8).
  rewrite (message_head h (d ++ lo :: hi :: rest) Hh : get_head 1 (unescaped (address_message h d lo hi rest)) = _).
  cbn [mbind option_bind]. rewrite (address_crc h d lo hi rest Hr). cbn [mbind option_bind].
  assert (Hcrc : lo + 2 ^ 8 * hi = crc16 0 d).
  { pose proof (crc16_range 0 d ltac:(unfold is_u16; lia)) as R. unfold is_u16 in R.
    unfold lo, hi, crc. rewrite land_ff, Z.shiftr_div_pow2 by lia. Z.to_euclidean_division_equations. lia. }
  rewrite Hcrc, Z.eqb_refl. cbn [negb]. unfold RW_MASK, WRITE_MODE, RM_VALID_CMD_MASK.
  rewrite H80, Z.eqb_refl, (proj2 (Z.eqb_neq _ _) H7f). cbn [negb].
  destruct Hr as [Hl Hroom]. rewrite Hl.
  replace (Z.to_nat (10 + Z.of_nat (length d)) - 10)%nat with (length d) by lia.
  unfold eng_write_productnvdata. rewrite Hm.
  set (tl := 0x20 :: replicate (DATA_EXT_DIAG_SIZE - length (message h (d ++ lo :: hi :: rest)) - 2) 0).
  assert (Ed : drop 9 (unescaped (address_message h d lo hi rest)) = d ++ lo :: hi :: rest ++ tl).
  { unfold address_message. rewrite unescaped_payload.
    change 9%nat with (length (0x7E :: enc_head h)). rewrite drop_app_length. by rewrite <- app_assoc. }
  rewrite Ed, slice_front by done. cbn [mbind option_bind].
  destruct (Nat.eqb_spec (Nat.min (length d) (length c)) 0) as [E|_].
  { destruct d, c; simpl in E; done || lia. }
  cbn [mbind option_bind]. change (0 =? NVERR_NONE) with true. cbv iota.
  unfold phschk_acknowledge, address_message. rewrite put_head_message. cbn [mbind option_bind].
  set (h' := set_subtype MSG_ACK (set_len 10 h)).
  change (0x20 :: replicate (DATA_EXT_DIAG_SIZE - length (message h (d ++ lo :: hi :: rest)) - 2) 0) with tl.
  assert (Hx : ∃ x y z, (d ++ lo :: hi :: rest) ++ tl = [x; y] ++ z).
  { destruct d as [|x [|y d]]; [done|..]; rewrite <- !app_assoc; cbn [app]; by do 3 eexists. }
  destruct Hx as (x & y & z & ->).
  rewrite (splice_mid 9 (0x7E :: enc_head h') [x; y] (le16 0) z) by done. cbn [mbind option_bind].
  assert (Hh' : wf_head h') by (unfold h'; auto).
  rewrite (get_head_enc [0x7E] h' (le16 0 ++ z) Hh' : get_head 1 ((0x7E :: enc_head h') ++ le16 0 ++ z) = _).
  cbn [mbind option_bind].
  destruct (translate_packet_fits rsp (message h' (le16 0)) z) as (rsp' & n & T & L & S); [simpl; lia|].
  unfold message in T. rewrite <- app_assoc in T.
  change (drop 1 ((0x7E :: enc_head h') ++ le16 0 ++ z)) with (enc_head h' ++ le16 0 ++ z).
  change (Z.to_nat (len h')) with (length (enc_head h' ++ le16 0)). rewrite T.
  cbn [mbind option_bind]. do 3 eexists. split; [done|]. by split.
Qed.

(** A read answers the first 256 bytes of the partition with their checksum. *)
Lemma phschk_read malloc st c h rest rsp :
  (∀ n, length (malloc n) = n) →
  wf_head h → Z.land (subtype h) 0x80 ≠ 0 → address_room h [] rest →
  miscdata st = Some c → (TEST_DATA_INFO_SIZE <= length c)%nat → (534 <= length rsp)%nat →
  let d := take TEST_DATA_INFO_SIZE c in
  ∃ rsp' n, eng_diag_direct_phschk malloc st (unescaped (address_message h [] 0 0 rest)) rsp
    = Some (st, unescaped (address_message h [] 0 0 rest), rsp', n)
  ∧ length rsp' = length rsp
  ∧ slice 0 n rsp' = Some (frame_of (message (set_subtype MSG_ACK (set_len 266 h)) (d ++ le16 (crc16 0 d)))).
Proof.
  intros Hmal Hh H80 Hr Hm Hc Hrsp d. unfold eng_diag_direct_phschk.
  rewrite (message_head h ([] ++ 0 :: 0 :: rest) Hh : get_head 1 (unescaped (address_message h [] 0 0 rest)) = _).
  cbn [mbind option_bind]. rewrite (address_crc h [] 0 0 rest Hr).
  cbn [mbind option_bind crc16]. change (negb (0 + 2 ^ 8 * 0 =? 0)) with false. cbv iota.
  unfold RW_MASK, WRITE_MODE.
  rewrite (proj2 (Z.eqb_neq _ _) H80).
  destruct (splice 0 (enc_head h) (malloc (length rsp + 10)%nat)) as [nv|] eqn:Env.
  2: { rewrite splice_ok in Env by (rewrite Hmal, enc_head_length; unfold MSG_HEAD_SIZE; lia). done. }
  pose proof (splice_length _ _ _ _ Env) as Lnv. rewrite Hmal in Lnv. cbn [mbind option_bind].
  unfold eng_read_productnvdata. rewrite Hm.
  set (got := take (length rsp) c). assert (Lg : (TEST_DATA_INFO_SIZE <= length got <= length rsp)%nat).
  { unfold got. rewrite length_take. unfold TEST_DATA_INFO_SIZE in *. lia. }
  rewrite splice_ok by (rewrite length_drop; lia). rewrite take_0, Nat.add_0_l. cbn [app mbind option_bind].
  set (tl := drop (length got) (drop 8 nv)).
  assert (Lt : (2 <= length tl)%nat) by (unfold tl; rewrite !length_drop; lia).
  destruct (Nat.eqb_spec (length got) 0) as [E|_]; [unfold TEST_DATA_INFO_SIZE in Lg; lia|].
  change (0 =? NVERR_NONE) with true. cbn [negb].
  assert (Ed : got = d ++ drop TEST_DATA_INFO_SIZE got).
  { rewrite <- (take_drop TEST_DATA_INFO_SIZE got) at 1. f_equal. unfold got, d. rewrite take_take.
    f_equal. unfold TEST_DATA_INFO_SIZE in *. lia. }
  assert (Ld : length d = TEST_DATA_INFO_SIZE) by (unfold d; rewrite length_take; lia).
  set (g2 := drop TEST_DATA_INFO_SIZE got) in Ed. rewrite Ed, <- app_assoc.
  rewrite slice_front by done. cbn [mbind option_bind].
  destruct (g2 ++ tl) as [|x [|y z]] eqn:Et.
  1, 2: apply (f_equal length) in Et; rewrite length_app in Et; simpl in Et; lia.
  change (x :: y :: z) with ([x; y] ++ z).
  rewrite (splice_mid TEST_DATA_INFO_SIZE d [x; y] (le16 (crc16 0 d)) z) by done.
  cbn [mbind option_bind].
  set (h' := set_subtype MSG_ACK (set_len 266 h)).
  change (set_subtype MSG_ACK (set_len (Z.of_nat (8 + TEST_DATA_INFO_SIZE + 2)) h)) with h'.
  pose proof (translate_packet_fits rsp (message h' (d ++ le16 (crc16 0 d))) z) as T.
  unfold message in T at 1 2 3. rewrite <- !app_assoc in T.
  assert (Lm : length (enc_head h' ++ d ++ le16 (crc16 0 d)) = (8 + TEST_DATA_INFO_SIZE + 2)%nat).
  { rewrite !length_app, Ld. done. }
  rewrite Lm in T. destruct T as (rsp' & n & T & L & S).
  { unfold TEST_DATA_INFO_SIZE. lia. }
  rewrite T. cbn [mbind option_bind]. do 2 eexists. split; [done|]. by split.
Qed.

(** ** Product data at an offset *)

(** The request of [eng_diag_product_ctrl]: the offset and the length before the data. *)
Definition product_message (h : MSG_HEAD_T) (off : nat) (d rest : bytes) : bytes :=
  message h (le16 (Z.of_nat off) ++ le16 (Z.of_nat (length d)) ++ d ++ rest).

Lemma product_buffer h off d rest :
  is_u16 (Z.of_nat off) → is_u16 (Z.of_nat (length d)) → wf_head h →
  let m := unescaped (product_message h off d rest) in
  get_head 1 m = Some h ∧ get16 9 m = Some (Z.of_nat off) ∧ get16 11 m = Some (Z.of_nat (length d))
  ∧ slice 13 (length d) m = Some d
  ∧ ∀ h', ∃ tl, put_head h' 1 m = Some (0x7E :: enc_head h' ++ tl).
Proof.
  intros Ho Hd Hh m. unfold m, product_message. split; [by apply message_head|].
  rewrite unescaped_payload, <- !app_assoc. set (tl := rest ++ _).
  split; [by apply (get16_le16 (0x7E :: enc_head h))|].
  set (hd := (0x7E :: enc_head h) ++ le16 (Z.of_nat off)).
  replace ((0x7E :: enc_head h) ++ le16 (Z.of_nat off) ++ le16 (Z.of_nat (length d)) ++ d ++ tl)
    with (hd ++ le16 (Z.of_nat (length d)) ++ d ++ tl) by (unfold hd; by rewrite <- app_assoc).
  split; [by apply (get16_le16 hd)|]. split.
  - rewrite app_assoc. by apply slice_mid.
  - intros h'. eexists. unfold put_head, hd. rewrite <- app_assoc. cbn [app].
    by apply (splice_mid 1 [0x7E] (enc_head h) (enc_head h')).
Qed.

(** A write at an offset is acknowledged, but of the bytes meant for the partition only as many as
    the data are long, counted from the start of the partition, are written back: the data arrive
    whole at the offset 0 only, and not at all at an offset behind their own length. *)
Theorem product_write_truncated malloc st c h off d rest rsp :
  (∀ n, length (malloc n) = n) →
  wf_head h → subtype h = 3 → is_u16 (Z.of_nat off) → is_u16 (Z.of_nat (length d)) → d ≠ [] →
  (length d + 14 <= length rsp)%nat → (off + length d <= length rsp)%nat → (18 <= length rsp)%nat →
  miscdata st = Some c → (length d <= length c)%nat →
  ∃ st' buf' rsp' n,
    eng_diag_product_ctrl malloc st (unescaped (product_message h off d rest)) rsp = Some (st', buf', rsp', n)
  ∧ miscdata st' = Some (take (length d) (take off c ++ d) ++ drop (length d) c)
  ∧ ((length d <= off)%nat → miscdata st' = miscdata st)
  ∧ slice 0 n rsp' = Some (frame_of (enc_head (set_len 8 (set_subtype 0 h)))).
Proof.
  intros Hmal Hh Hs Ho Hd Hd0 H1 H2 H3 Hm Hc.
  destruct (product_buffer h off d rest Ho Hd Hh) as (B1 & B2 & B3 & B4 & B5).
  assert (Ld : (0 < length d)%nat) by (destruct d; [done|simpl; lia]).
  unfold eng_diag_product_ctrl. rewrite B1. cbn [mbind option_bind]. rewrite B2. cbn [mbind option_bind].
  rewrite B3. cbn [mbind option_bind]. rewrite !Nat2Z.id.
  destruct (Nat.ltb_spec (length rsp) (12 + length d + 2)) as [?|_]; [lia|].
  rewrite Hs. cbn [Z.eqb Pos.eqb]. unfold eng_read_productnvdata. rewrite Hm.
  assert (Lt : length (take (length d) c) = length d) by (rewrite length_take; lia).
  rewrite splice_ok by (rewrite Lt, Hmal; lia). rewrite Lt, take_0. cbn [mbind option_bind app].
  destruct (Nat.eqb_spec (length d) 0) as [?|_]; [lia|]. change (0 =? NVERR_NONE) with true. cbv iota.
  change (1 + 12)%nat with 13%nat. rewrite B4. cbn [mbind option_bind]. rewrite Nat.add_0_l.
  set (nv := take (length d) c ++ drop (length d) (malloc (length rsp))).
  assert (Lnv : length nv = length rsp) by (unfold nv; rewrite length_app, Lt, length_drop, Hmal; lia).
  rewrite splice_ok by (rewrite Lnv; lia). cbn [mbind option_bind].
  unfold eng_write_productnvdata. rewrite Hm.
  rewrite slice_ok by (rewrite !length_app, length_take, length_drop, Lnv; lia). cbn [mbind option_bind].
  set (w := take (length d) (drop 0 _)).
  assert (Ew : w = take (length d) (take off c ++ d)).
  { unfold w. rewrite drop_0. destruct (Nat.le_gt_cases off (length d)) as [L|L].
    - rewrite app_assoc, take_app_le by (rewrite length_app, length_take, Lnv; lia).
      do 2 f_equal. unfold nv. rewrite take_app_le by lia. by rewrite take_take, Nat.min_l by lia.
    - rewrite !take_app_le by (rewrite length_take; lia).
      rewrite !take_take, !Nat.min_l by lia. unfold nv. by rewrite take_app_le, take_take, Nat.min_id by lia. }
  assert (Lw : length w = length d).
  { rewrite Ew, length_take, length_app, length_take. lia. }
  destruct (Nat.eqb_spec (Nat.min (length w) (length c)) 0) as [?|_]; [lia|]. cbn [mbind option_bind].
  destruct (B5 (set_len (Z.of_nat MSG_HEAD_SIZE) (set_subtype 0 h))) as (tl & ->). cbn [mbind option_bind drop].
  destruct (translate_packet_fits rsp (enc_head (set_len 8 (set_subtype 0 h))) tl) as (rsp' & n & T & _ & S).
  { rewrite enc_head_length. unfold MSG_HEAD_SIZE. lia. }
  rewrite enc_head_length in T. change (set_len (Z.of_nat MSG_HEAD_SIZE) (set_subtype 0 h)) with (set_len 8 (set_subtype 0 h)).
  rewrite drop_0, T. cbn [mbind option_bind].
  assert (W : write_partition w c = take (length d) (take off c ++ d) ++ drop (length d) c).
  { unfold write_partition. rewrite Lw, take_ge by lia. by rewrite Ew. }
  do 4 eexists. split; [done|]. cbn [miscdata]. rewrite W. split; [done|]. split; [|done].
  intros L. f_equal. rewrite take_app_le by (rewrite length_take; lia).
  by rewrite take_take, Nat.min_l, take_drop by lia.
Qed.

(** ** [eng_diag] on these frames *)

(** The array and the state before a command. *)
Definition ready (s : ap_state) : Prop :=
  length (eng_diag_buf s) = Z.to_nat (2 * 4096) ∧ s_cp_ap_proc (ap_globals s) = 0.

Definition sent (f : bytes) (p : product) (b : bytes) (s : ap_state) : ap_state :=
  Ap (ap_globals s) p b (ap_version s) (g_reset s) (to_pc s ++ [f]).

(** A frame of the phase check is answered and the modem does not see it. *)
Lemma eng_diag_phschk malloc other modes s h payload p' buf' rsp' n f :
  ready s → wf_head h → type h = DIAG_CMD_DIRECT_PHSCHK →
  (length (frame_of (message h payload)) < DATA_EXT_DIAG_SIZE)%nat →
  eng_diag_direct_phschk malloc (ap_product s) (unescaped (message h payload))
    (replicate (length (eng_diag_buf s)) 0) = Some (p', buf', rsp', n) →
  slice 0 n rsp' = Some f →
  eng_diag_ malloc other modes s (filled (frame_of (message h payload)))
    (length (frame_of (message h payload))) = Some (sent f p' rsp' s, buf', 1).
Proof.
  intros [_ Hs] Hh Ht Hl Hp Hf. unfold eng_diag_, ap_parse. rewrite parse_message by done.
  assert (Sw : parse_switch modes (unescaped (message h payload)) h (ap_globals s)
    = Some (ap_globals s, unescaped (message h payload), CMD_USER_DIRECT_PHSCHK))
    by (unfold parse_switch; by rewrite Ht).
  rewrite Sw. cbn [mbind option_bind]. change (CMD_USER_DIRECT_PHSCHK =? CMD_COMMON) with false. cbv iota.
  unfold eng_diag_user_handle.
  change (CMD_USER_DIRECT_PHSCHK =? CMD_USER_VER) with false.
  change (CMD_USER_DIRECT_PHSCHK =? CMD_USER_RESET) with false.
  change (CMD_USER_DIRECT_PHSCHK =? CMD_USER_PRODUCT_CTRL) with false.
  change (CMD_USER_DIRECT_PHSCHK =? CMD_USER_DIRECT_PHSCHK) with true. cbv iota.
  cbn [ap_product with_globals eng_diag_buf]. rewrite Hp. cbn [mbind option_bind].
  unfold eng_diag_write2pc. cbn [eng_diag_buf with_answer]. rewrite Hf.
  cbn [mbind option_bind Z.eqb ap_globals with_answer with_globals]. rewrite Hs. cbn [Z.eqb negb].
  by destruct s.
Qed.

(** ** From the line to the partition and back *)

(** The frames of the PC's tool: a write of the phase-check data and a read. *)
Definition write_frame (h : MSG_HEAD_T) (d : bytes) : bytes :=
  frame_of (address_message h d (Z.land (crc16 0 d) 0xff) (Z.shiftr (crc16 0 d) 8) []).
Definition read_frame (h : MSG_HEAD_T) : bytes := frame_of (address_message h [] 0 0 []).

Lemma address_frame_length h d lo hi :
  length (frame_of (address_message h d lo hi [])) = (length (escape (address_message h d lo hi [])) + 2)%nat
  ∧ (length (escape (address_message h d lo hi [])) <= 2 * (length d + 10))%nat.
Proof.
  split; [apply frame_length|].
  pose proof (escape_length (address_message h d lo hi [])) as [_ L].
  assert (E : length (address_message h d lo hi []) = (length d + 10)%nat).
  { unfold address_message, message. rewrite !length_app, enc_head_length. unfold MSG_HEAD_SIZE. simpl. lia. }
  rewrite E in L. exact L.
Qed.

Lemma serve_write malloc other modes s h d c :
  ready s → wf_head h → type h = DIAG_CMD_DIRECT_PHSCHK →
  Z.land (subtype h) 0x80 = 0 → Z.land (subtype h) 0x7f ≠ 0 → len h = 266 →
  length d = TEST_DATA_INFO_SIZE → miscdata (ap_product s) = Some c → c ≠ [] →
  ∃ b, @serve_frame _ (ap_handler malloc other modes) s (write_frame h d)
       = Some (sent (frame_of (message (set_subtype MSG_ACK (set_len 10 h)) (le16 0)))
                 (Product (Some (write_partition d c)) (write_file d <$> productinfo (ap_product s))) b s, None)
       ∧ length b = length (eng_diag_buf s).
Proof.
  intros Hr Hh Ht H80 H7f Hl Hd Hm Hc. unfold TEST_DATA_INFO_SIZE in Hd.
  assert (Room : address_room h d []).
  { unfold address_room. rewrite Hd, Hl, size_value. simpl. lia. }
  destruct (phschk_write malloc (ap_product s) c h d [] (replicate (length (eng_diag_buf s)) 0))
    as (buf' & rsp' & n & P & L & S); try done.
  { by destruct d. }
  { rewrite length_replicate, (proj1 Hr). lia. }
  exists rsp'. rewrite L, length_replicate. split; [|done].
  unfold serve_frame, write_frame, address_message. cbn [eng_diag ap_handler].
  erewrite eng_diag_phschk; [done|done..| |exact P|exact S].
  destruct (address_frame_length h d (Z.land (crc16 0 d) 0xff) (Z.shiftr (crc16 0 d) 8)) as [E1 E2].
  unfold address_message in E1, E2. rewrite E1, size_value. lia.
Qed.

Lemma serve_read malloc other modes s h c :
  (∀ n, length (malloc n) = n) →
  ready s → wf_head h → type h = DIAG_CMD_DIRECT_PHSCHK → Z.land (subtype h) 0x80 ≠ 0 → len h = 10 →
  miscdata (ap_product s) = Some c → (TEST_DATA_INFO_SIZE <= length c)%nat →
  let d := take TEST_DATA_INFO_SIZE c in
  ∃ b, @serve_frame _ (ap_handler malloc other modes) s (read_frame h)
       = Some (sent (frame_of (message (set_subtype MSG_ACK (set_len 266 h)) (d ++ le16 (crc16 0 d))))
                 (ap_product s) b s, None)
       ∧ length b = length (eng_diag_buf s).
Proof.
  intros Hmal Hr Hh Ht H80 Hl Hm Hc d.
  assert (Room : address_room h [] []).
  { unfold address_room. rewrite Hl, size_value. simpl. lia. }
  destruct (phschk_read malloc (ap_product s) c h [] (replicate (length (eng_diag_buf s)) 0))
    as (rsp' & n & P & L & S); try done.
  { rewrite length_replicate, (proj1 Hr). lia. }
  exists rsp'. rewrite L, length_replicate. split; [|done].
  unfold serve_frame, read_frame, address_message. cbn [eng_diag ap_handler].
  erewrite eng_diag_phschk; [done|done..| |exact P|exact S].
  destruct (address_frame_length h [] 0 0) as [E1 E2].
  unfold address_message in E1, E2. rewrite E1, size_value. cbn [length] in E2. lia.
Qed.

(** A frame on its own unpacks to its message. *)
Lemma frame_of_unpacks m :
  m ≠ [] → untranslate_packet_header (frame_of m) (length (frame_of m)) (-1) = Some m.
Proof.
  intros Hm. unfold untranslate_packet_header. rewrite slice_whole. cbn [mbind option_bind]. f_equal.
  rewrite <- (app_nil_r (frame_of m)). by apply (untranslate_frame [] m []); [constructor|].
Qed.

(** C6. The phase-check data make the round trip: the PC's write and read request, cut into reads of the
    serial line in any way, leave the data at the start of the partition and in the copy, and send the
    PC exactly two frames: one that unpacks to the header of the write with [MSG_ACK] as its subtype and
    a zero behind it, and one that unpacks to the header of the read with [MSG_ACK], the data written
    and their checksum; the modem sees nothing of it and the port is as at the start. *)
Theorem phase_check_session malloc other modes s p h1 h2 d c css1 css2 :
  (∀ n, length (malloc n) = n) →
  at_frame [] p → ready s →
  wf_head h1 → type h1 = DIAG_CMD_DIRECT_PHSCHK → len h1 = 266 →
  Z.land (subtype h1) 0x80 = 0 → Z.land (subtype h1) 0x7f ≠ 0 →
  wf_head h2 → type h2 = DIAG_CMD_DIRECT_PHSCHK → len h2 = 10 → Z.land (subtype h2) 0x80 ≠ 0 →
  length d = TEST_DATA_INFO_SIZE → miscdata (ap_product s) = Some c → (TEST_DATA_INFO_SIZE <= length c)%nat →
  concat css1 = write_frame h1 d → concat css2 = read_frame h2 →
  ∃ s' p' ack ans, @wthread_run _ (ap_handler malloc other modes) (css1 ++ css2) s p = Some (s', p', [])
  ∧ at_frame [] p'
  ∧ ap_product s' = Product (Some (d ++ drop TEST_DATA_INFO_SIZE c)) (write_file d <$> productinfo (ap_product s))
  ∧ to_pc s' = to_pc s ++ [ack; ans]
  ∧ untranslate_packet_header ack (length ack) (-1)
    = Some (message (set_subtype MSG_ACK (set_len 10 h1)) (le16 0))
  ∧ untranslate_packet_header ans (length ans) (-1)
    = Some (message (set_subtype MSG_ACK (set_len 266 h2)) (d ++ le16 (crc16 0 d))).
Proof.
  intros Hmal Hp Hr Hh1 Ht1 Hl1 H80 H7f Hh2 Ht2 Hl2 H82 Hd Hm Hc E1 E2.
  assert (Hc0 : c ≠ []) by (intros ->; unfold TEST_DATA_INFO_SIZE in Hc; simpl in Hc; lia).
  destruct (serve_write malloc other modes s h1 d c) as (b1 & S1 & L1); [done..|].
  set (k := message _ (le16 0)) in S1 |- *. set (ack := frame_of k) in S1. set (st1 := Product _ _) in S1.
  assert (W : write_partition d c = d ++ drop TEST_DATA_INFO_SIZE c).
  { unfold write_partition. rewrite take_ge by lia. by rewrite Hd. }
  destruct (serve_read malloc other modes (sent ack st1 b1 s) h2 (write_partition d c)) as (b2 & S2 & L2);
    try done.
  { split; [cbn [eng_diag_buf sent]; by rewrite L1, (proj1 Hr)|apply Hr]. }
  { rewrite W, length_app. lia. }
  assert (Td : take TEST_DATA_INFO_SIZE (write_partition d c) = d)
    by (rewrite W, <- Hd; apply take_app_length).
  rewrite Td in S2. set (m := message (set_subtype _ _) (d ++ _)) in S2 |- *.
  assert (S : @serve_frames _ (ap_handler malloc other modes) s [write_frame h1 d; read_frame h2]
    = Some (sent (frame_of m) st1 b2 (sent ack st1 b1 s), [])).
  { cbn [serve_frames]. rewrite S1. cbn [mbind option_bind]. rewrite S2. done. }
  destruct (@wthread_serves_frames _ (ap_handler malloc other modes)
      [write_frame h1 d; read_frame h2] [css1; css2] s p
      (sent (frame_of m) st1 b2 (sent ack st1 b1 s)) []) as (p' & R & Hp');
    [| |exact Hp|exact S|].
  - unfold TEST_DATA_INFO_SIZE in Hd. unfold write_frame, read_frame.
    constructor; [|constructor; [|constructor]]; (split; [apply frame_of_is_frame|]); rewrite half_value.
    + destruct (address_frame_length h1 d (Z.land (crc16 0 d) 0xff) (Z.shiftr (crc16 0 d) 8)) as [-> ?]. lia.
    + destruct (address_frame_length h2 [] 0 0) as [-> B]. cbn [length] in B. lia.
  - by repeat constructor.
  - cbn [concat] in R. rewrite app_nil_r in R.
    exists (sent (frame_of m) st1 b2 (sent ack st1 b1 s)), p', ack, (frame_of m).
    split_and!; [done|done| | |by apply frame_of_unpacks|by apply frame_of_unpacks].
    + cbn [ap_product sent]. unfold st1. by rewrite W.
    + cbn [to_pc sent]. by rewrite <- app_assoc.
Qed.

(** ** Witness *)

(** The service before the first command, on an empty partition of 1 KB. *)
Definition fresh_ap : ap_state :=
  Ap globals_start (Product (Some (replicate (Z.to_nat 1024) 0)) None) (replicate (Z.to_nat (2 * 4096)) 0)
    [0x34; 0x2e; 0x34] 0 [].

Lemma phase_check_session_witness :
  let d := replicate TEST_DATA_INFO_SIZE 0x7e in
  let w := write_frame (MsgHead 1 266 DIAG_CMD_DIRECT_PHSCHK 1) d in
  let r := read_frame (MsgHead 2 10 DIAG_CMD_DIRECT_PHSCHK 0x81) in
  ∃ s' p' ack ans, @wthread_run _ (ap_handler (λ n, replicate n 0) (λ _ _ _ _, None) 4)
      ([take 100 w; drop 100 w] ++ [r]) fresh_ap port_start = Some (s', p', [])
  ∧ at_frame [] p'
  ∧ ap_product s' = Product (Some (d ++ drop TEST_DATA_INFO_SIZE (replicate (Z.to_nat 1024) 0))) None
  ∧ to_pc s' = [] ++ [ack; ans]
  ∧ untranslate_packet_header ack (length ack) (-1)
    = Some (message (set_subtype MSG_ACK (set_len 10 (MsgHead 1 266 DIAG_CMD_DIRECT_PHSCHK 1))) (le16 0))
  ∧ untranslate_packet_header ans (length ans) (-1)
    = Some (message (set_subtype MSG_ACK (set_len 266 (MsgHead 2 10 DIAG_CMD_DIRECT_PHSCHK 0x81)))
              (d ++ le16 (crc16 0 d))).
Proof.
  intros d w r.
  apply (phase_check_session (λ n, replicate n 0) (λ _ _ _ _, None) 4 fresh_ap port_start
    (MsgHead 1 266 DIAG_CMD_DIRECT_PHSCHK 1) (MsgHead 2 10 DIAG_CMD_DIRECT_PHSCHK 0x81) d
    (replicate (Z.to_nat 1024) 0) [take 100 w; drop 100 w] [r]).
  - intros n. apply length_replicate.
  - apply port_start_at.
  - split; [apply length_replicate|reflexivity].
  - by vm_compute.
  - reflexivity.
  - reflexivity.
  - reflexivity.
  - discriminate.
  - by vm_compute.
  - reflexivity.
  - reflexivity.
  - discriminate.
  - apply length_replicate.
  - reflexivity.
  - rewrite length_replicate. unfold TEST_DATA_INFO_SIZE. lia.
  - cbn [concat]. by rewrite app_nil_r, take_drop.
  - cbn [concat]. by rewrite app_nil_r.
Defined.

Lemma product_write_truncated_witness :
  ∃ st' buf' rsp' n,
    eng_diag_product_ctrl (λ n, replicate n 0) (ap_product fresh_ap)
      (unescaped (product_message (MsgHead 3 20 DIAG_CMD_DIRECT_PHSCHK 3) 4 [1; 2; 3; 4] [])) (replicate 100 0)
    = Some (st', buf', rsp', n)
  ∧ miscdata st' = Some (take 4 (take 4 (replicate (Z.to_nat 1024) 0) ++ [1; 2; 3; 4]) ++ drop 4 (replicate (Z.to_nat 1024) 0))
  ∧ ((4 <= 4)%nat → miscdata st' = miscdata (ap_product fresh_ap))
  ∧ slice 0 n rsp' = Some (frame_of (enc_head (set_len 8 (set_subtype 0 (MsgHead 3 20 DIAG_CMD_DIRECT_PHSCHK 3))))).
Proof.
  apply (product_write_truncated (λ n, replicate n 0) (ap_product fresh_ap) (replicate (Z.to_nat 1024) 0)
    (MsgHead 3 20 DIAG_CMD_DIRECT_PHSCHK 3) 4 [1; 2; 3; 4] [] (replicate 100 0)); try done.
  - intros n. apply length_replicate.
  - rewrite length_replicate. cbn [length]. lia.
  - rewrite length_replicate. cbn [length]. lia.
  - rewrite length_replicate. lia.
  - rewrite length_replicate. cbn [length]. lia.
Defined.
