(* ===== verification/CArith.v ===== *)
(** * Integer expressions of C

    Expressions over [int] (32 bits) and 64-bit integers as partial values: an operation whose result is
    outside its type, a division by zero and an index outside an array have no value.  A left shift
    multiplies and a right shift rounds down for negative operands too, as the compilers of the
    platform have it. *)

From stdpp Require Import list.
From S2P Require Import Prelude.

Open Scope Z_scope.

Definition in_int (z : Z) : bool := (- 2 ^ 31 <=? z) && (z <? 2 ^ 31).
Definition in_long (z : Z) : bool := (- 2 ^ 63 <=? z) && (z <? 2 ^ 63).

(** An expression: its value, if it has one. *)
Definition cexp : Type := option Z.
Definition lit (z : Z) : cexp := Some z.
Coercion lit : Z >-> cexp.

Section ops.
Context (rng : Z → bool).

Definition checked (z : Z) : cexp := if rng z then Some z else None.
Definition binop (f : Z → Z → Z) (x y : cexp) : cexp :=
  match x, y with Some a, Some b => checked (f a b) | _, _ => None end.
Definition divide (x y : cexp) : cexp :=
  match x, y with
  | Some a, Some b => if b =? 0 then None else checked (Z.quot a b)
  | _, _ => None
  end.
Definition unop (f : Z → Z) (x : cexp) : cexp := match x with Some a => checked (f a) | None => None end.
End ops.

(** Conversions: to 16 bits as the compilers have it, to 32 bits of a 64-bit value. *)
Definition i16 (z : Z) : Z := (z + 2 ^ 15) mod 2 ^ 16 - 2 ^ 15.
Definition is_i16 (z : Z) : Prop := - 2 ^ 15 <= z < 2 ^ 15.
Definition to_i32 (x : cexp) : cexp := match x with Some a => Some (i32 a) | None => None end.

(** [table[x]]. *)
Definition entry (table : list Z) (x : cexp) : cexp :=
  match x with Some i => if i <? 0 then None else table !! Z.to_nat i | None => None end.

Declare Scope int_scope.
Delimit Scope int_scope with int_expr.
Notation "x + y" := (binop in_int Z.add x y) : int_scope.
Notation "x - y" := (binop in_int Z.sub x y) : int_scope.
Notation "x * y" := (binop in_int Z.mul x y) : int_scope.
Notation "x / y" := (divide in_int x y) : int_scope.
Notation "- x" := (unop in_int Z.opp x) : int_scope.
Notation "x << n" := (unop in_int (λ a, a * 2 ^ n%Z) x) (at level 45, left associativity) : int_scope.
Notation "x >> n" := (unop in_int (λ a, Z.shiftr a n%Z) x) (at level 45, left associativity) : int_scope.

Declare Scope long_scope.
Delimit Scope long_scope with long_expr.
Notation "x + y" := (binop in_long Z.add x y) : long_scope.
Notation "x - y" := (binop in_long Z.sub x y) : long_scope.
Notation "x * y" := (binop in_long Z.mul x y) : long_scope.
Notation "x / y" := (divide in_long x y) : long_scope.
Notation "- x" := (unop in_long Z.opp x) : long_scope.
Notation "x << n" := (unop in_long (λ a, a * 2 ^ n%Z) x) (at level 45, left associativity) : long_scope.
Notation "x >> n" := (unop in_long (λ a, Z.shiftr a n%Z) x) (at level 45, left associativity) : long_scope.

(** ** Declarations *)

(** [x] is the value of [e] in [k]; the names are those of the types in C, [short] and [int] for
    [int16_t] and [int32_t], whose conversions are applied, and [long] for [int64_t]. *)
Definition with_value {A} (e : cexp) (k : Z → option A) : option A :=
  match e with Some v => k v | None => None end.
Notation "'short' x := e ; k" := (with_value e%int_expr (λ v, let x := i16 v in k))
  (at level 10, x name, e at level 100, k at level 200).
Notation "'int' x := e ; k" := (with_value e%int_expr (λ x, k))
  (at level 10, x name, e at level 100, k at level 200).
Notation "'long' x := e ; k" := (with_value e%long_expr (λ x, k))
  (at level 10, x name, e at level 100, k at level 200).

Lemma with_value_lit {A} v (k : Z → option A) : with_value (lit v) k = k v.
Proof. done. Qed.

(** Goes on with the value of a declaration. *)
Ltac value := rewrite with_value_lit; cbv beta zeta.

(** ** Values *)

Lemma binop_int f a b v : f a b = v → - 2 ^ 31 <= v < 2 ^ 31 → binop in_int f (lit a) (lit b) = lit v.
Proof.
  intros <- H. unfold binop, checked, in_int, lit.
  by rewrite (proj2 (Z.leb_le _ _)), (proj2 (Z.ltb_lt _ _)) by lia.
Qed.

Lemma unop_int f a v : f a = v → - 2 ^ 31 <= v < 2 ^ 31 → unop in_int f (lit a) = lit v.
Proof.
  intros <- H. unfold unop, checked, in_int, lit.
  by rewrite (proj2 (Z.leb_le _ _)), (proj2 (Z.ltb_lt _ _)) by lia.
Qed.

Lemma divide_int a b v :
  b ≠ 0 → Z.quot a b = v → - 2 ^ 31 <= v < 2 ^ 31 → divide in_int (lit a) (lit b) = lit v.
Proof.
  intros Hb <- H. unfold divide, checked, in_int, lit. rewrite (proj2 (Z.eqb_neq _ _)) by done.
  by rewrite (proj2 (Z.leb_le _ _)), (proj2 (Z.ltb_lt _ _)) by lia.
Qed.

Lemma binop_long f a b v : f a b = v → - 2 ^ 63 <= v < 2 ^ 63 → binop in_long f (lit a) (lit b) = lit v.
Proof.
  intros <- H. unfold binop, checked, in_long, lit.
  by rewrite (proj2 (Z.leb_le _ _)), (proj2 (Z.ltb_lt _ _)) by lia.
Qed.

Lemma unop_long f a v : f a = v → - 2 ^ 63 <= v < 2 ^ 63 → unop in_long f (lit a) = lit v.
Proof.
  intros <- H. unfold unop, checked, in_long, lit.
  by rewrite (proj2 (Z.leb_le _ _)), (proj2 (Z.ltb_lt _ _)) by lia.
Qed.

Lemma divide_long a b v :
  b ≠ 0 → Z.quot a b = v → - 2 ^ 63 <= v < 2 ^ 63 → divide in_long (lit a) (lit b) = lit v.
Proof.
  intros Hb <- H. unfold divide, checked, in_long, lit. rewrite (proj2 (Z.eqb_neq _ _)) by done.
  by rewrite (proj2 (Z.leb_le _ _)), (proj2 (Z.ltb_lt _ _)) by lia.
Qed.

Lemma entry_ok table i : 0 <= i → entry table (lit i) = table !! Z.to_nat i.
Proof. intros H. unfold entry, lit. by rewrite (proj2 (Z.ltb_ge _ _)). Qed.

Lemma i16_id z : is_i16 z → i16 z = z.
Proof. intros H. unfold i16, is_i16 in *. rewrite Z.mod_small; lia. Qed.

Lemma i16_range z : is_i16 (i16 z).
Proof. unfold i16, is_i16. pose proof (Z.mod_pos_bound (z + 2 ^ 15) (2 ^ 16)). lia. Qed.

Lemma i32_id z : - 2 ^ 31 <= z < 2 ^ 31 → i32 z = z.
Proof.
  intros H. unfold i32, u32. destruct (Z.ltb_spec (z mod 2 ^ 32) (2 ^ 31)); Z.to_euclidean_division_equations; lia.
Qed.

(** Quotients of non-negative numbers and of opposites. *)
Lemma quot_neg a b : Z.quot (- a) b = - Z.quot a b.
Proof. destruct (Z.eq_dec b 0) as [->|H]; [by destruct a|]. by apply Z.quot_opp_l. Qed.

Lemma quot_bounds a b : 0 <= a → 0 < b → b * Z.quot a b <= a < b * Z.quot a b + b ∧ 0 <= Z.quot a b.
Proof. intros Ha Hb. rewrite Z.quot_div_nonneg by lia. Z.to_euclidean_division_equations. nia. Qed.
