(* ===== verification/EqReal.v ===== *)
(** * What the tables of the equaliser hold, over the reals (audio/sc8830/vb_effect/v2/filter_calc.c)

    Every entry of a table is the real value it stands for, rounded down.  The real values are enclosed
    between integers, times 2^60, that are computed from an enclosure of the 800th root of 10 and
    of the cosine and sine of pi/4096; each table is compared with them by evaluation. *)

From Stdlib Require Import Reals Lra.
From stdpp Require Import list.
From S2P Require Import Prelude EqTables.

Open Scope Z_scope.

(** ** Enclosures *)

Definition scale : Z := 2 ^ 60.
(** The product of two enclosed numbers, rounded down and up. *)
Definition mul_down (a b : Z) : Z := Z.shiftr (a * b) 60.
Definition mul_up (a b : Z) : Z := - Z.shiftr (- (a * b)) 60.

Definition encl (x y : Z) (r : R) : Prop := (IZR x <= r * IZR scale <= IZR y)%R.

Lemma scale_pos : (0 < IZR scale)%R.
Proof. apply IZR_lt. reflexivity. Qed.

Lemma div_down z : (IZR (Z.shiftr z 60) * IZR scale <= IZR z)%R.
Proof.
  rewrite <- mult_IZR. apply IZR_le. rewrite Z.shiftr_div_pow2 by done.
  pose proof (Z.mul_div_le z scale). unfold scale in *. lia.
Qed.

Lemma div_up z : (IZR z <= IZR (- Z.shiftr (- z) 60) * IZR scale)%R.
Proof.
  pose proof (div_down (- z)) as H. rewrite opp_IZR in H. rewrite opp_IZR. lra.
Qed.

(** Lower and upper bounds of products of non-negative numbers. *)
Lemma Rmult_down a x p q : (a <= x → 0 <= x → 0 <= p <= q → a * p <= x * q)%R.
Proof. intros. destruct (Rle_dec 0 a); nra. Qed.

Lemma Rmult_up b x p q : (x <= b → 0 <= x → 0 <= q <= p → x * q <= b * p)%R.
Proof. intros. nra. Qed.

Lemma mul_down_le a p u w :
  (IZR a <= u * IZR scale → 0 <= u → 0 <= IZR p <= w * IZR scale →
   IZR (mul_down a p) <= u * w * IZR scale)%R.
Proof.
  intros Ha Hu Hp. pose proof scale_pos as Hs. apply (Rmult_le_reg_r (IZR scale)); [done|].
  etrans; [apply div_down|]. rewrite mult_IZR.
  replace (u * w * IZR scale * IZR scale)%R with ((u * IZR scale) * (w * IZR scale))%R by ring.
  apply Rmult_down; [done|nra|done].
Qed.

Lemma mul_up_ge b p u w :
  (u * IZR scale <= IZR b → 0 <= u → 0 <= w → w * IZR scale <= IZR p →
   u * w * IZR scale <= IZR (mul_up b p))%R.
Proof.
  intros Hb Hu Hw Hp. pose proof scale_pos as Hs. apply (Rmult_le_reg_r (IZR scale)); [done|].
  etrans; [|apply div_up]. rewrite mult_IZR.
  replace (u * w * IZR scale * IZR scale)%R with ((u * IZR scale) * (w * IZR scale))%R by ring.
  apply Rmult_up; [done|nra|]. split; nra.
Qed.

(** ** Powers *)

(** Enclosures of [t], [t * r], [t * r^2], ... *)
Fixpoint powers (lo hi : Z) (n : nat) (x y : Z) : list (Z * Z) :=
  match n with
  | O => []
  | S n => (x, y) :: powers lo hi n (mul_down x lo) (mul_up y hi)
  end.

Lemma powers_spec lo hi r n x y t i a b :
  0 <= lo → encl lo hi r → (0 <= t)%R → encl x y t →
  powers lo hi n x y !! i = Some (a, b) → encl a b (t * r ^ i).
Proof.
  intros Hlo [R1 R2]. pose proof scale_pos as Hs. apply IZR_le in Hlo.
  assert (Hr : (0 <= r)%R) by nra.
  revert x y t i. induction n as [|n IH]; intros x y t i Ht [T1 T2] E; [done|]. destruct i as [|i].
  - injection E as <- <-. rewrite pow_O, Rmult_1_r. by split.
  - cbn [pow]. rewrite <- Rmult_assoc. apply (IH (mul_down x lo) (mul_up y hi) (t * r)%R i); [nra| |done].
    split; [by apply mul_down_le|by apply mul_up_ge].
Qed.

(** ** The 800th root of ten *)

Definition root_lo : Z := 1156244659554478471.
Definition root_hi : Z := 1156244659554482471.
Definition root : R := Rpower 10 (/ 800).

Lemma root_pow (n : nat) : (root ^ n)%R = Rpower 10 (INR n / 800).
Proof.
  unfold root. rewrite <- Rpower_pow by apply exp_pos. rewrite Rpower_mult. f_equal. field.
Qed.

Lemma encl_exact z : encl z z (IZR z / IZR scale).
Proof. pose proof scale_pos. unfold encl. split; right; field; lra. Qed.

Lemma encl_one : encl scale scale 1.
Proof. unfold encl. lra. Qed.

(** Whether the 800th powers of the bounds enclose ten, strictly. *)
Lemma root_check :
  match powers root_lo root_lo 801 scale scale !! 800%nat, powers root_hi root_hi 801 scale scale !! 800%nat with
  | Some (_, y), Some (x, _) => (y <? 10 * scale) && (10 * scale <? x)
  | _, _ => false
  end = true.
Proof. vm_compute. reflexivity. Qed.

Lemma root_encl : encl root_lo root_hi root.
Proof.
  pose proof root_check as H. pose proof scale_pos as Hs.
  destruct (powers root_lo root_lo 801 scale scale !! 800%nat) as [[a b]|] eqn:E1; [|done].
  destruct (powers root_hi root_hi 801 scale scale !! 800%nat) as [[c d]|] eqn:E2; [|done].
  apply andb_prop in H as [H1%Z.ltb_lt H2%Z.ltb_lt]. apply IZR_lt in H1, H2. rewrite mult_IZR in H1, H2.
  apply (powers_spec root_lo root_lo _ _ _ _ 1 _ _ _ ltac:(done) (encl_exact root_lo) ltac:(lra) encl_one) in E1 as [_ E1].
  apply (powers_spec root_hi root_hi _ _ _ _ 1 _ _ _ ltac:(done) (encl_exact root_hi) ltac:(lra) encl_one) in E2 as [E2 _].
  rewrite Rmult_1_l in E1, E2.
  assert (R10 : (root ^ 800)%R = 10%R).
  { rewrite root_pow. replace (INR 800 / 800)%R with 1%R by (rewrite INR_IZR_INZ; simpl Z.of_nat; field).
    apply Rpower_1. lra. }
  assert (Hr : (0 < root)%R) by apply exp_pos.
  assert (Hl : (0 <= IZR root_lo / IZR scale)%R) by (apply Rle_mult_inv_pos; [apply IZR_le|]; done).
  assert (Hh : (0 <= IZR root_hi / IZR scale)%R) by (apply Rle_mult_inv_pos; [apply IZR_le|]; done).
  assert (Dl : (IZR root_lo / IZR scale * IZR scale = IZR root_lo)%R) by (field; lra).
  assert (Dh : (IZR root_hi / IZR scale * IZR scale = IZR root_hi)%R) by (field; lra).
  split.
  - destruct (Rle_dec (IZR root_lo / IZR scale) root) as [L|L]; [nra|].
    pose proof (pow_incr root (IZR root_lo / IZR scale) 800). nra.
  - destruct (Rle_dec root (IZR root_hi / IZR scale)) as [L|L]; [nra|].
    pose proof (pow_incr (IZR root_hi / IZR scale) root 800). nra.
Qed.

(** ** The tables of gains *)

(** Enclosures of the powers of the root, up to 4.5 powers of ten. *)
Definition gain_powers : list (Z * Z) := powers root_lo root_hi (Z.to_nat 3601) scale scale.

Lemma gain_powers_encl i a b : gain_powers !! i = Some (a, b) → encl a b (root ^ i).
Proof.
  intros E. apply (powers_spec root_lo root_hi root _ _ _ 1) in E; [by rewrite Rmult_1_l in E|done| | |].
  - apply root_encl.
  - lra.
  - apply encl_one.
Qed.

(** The comparison for the entry [v], a gain of [s] where the power is the one enclosed by [z]; only
    there ([top]) the gain can be exact. *)
Definition gain_entry_ok (z : Z * Z) (s : Z) (top : bool) (p : Z * Z) (v : Z) : bool :=
  let '(zl, zh) := z in let '(il, ih) := p in
  (0 <=? v) && ((v * zh <=? s * il) || ((v =? s) && top)) && (s * ih <? (v + 1) * zl).

(** The entries from [i] on against every [m]th power of [P]; [k] is the index of the gain [s]. *)
Fixpoint gains_ok (z : Z * Z) (m k : nat) (s : Z) (i : nat) (P : list (Z * Z)) (table : list Z) : bool :=
  match table, P with
  | [], _ => true
  | v :: table, p :: _ => gain_entry_ok z s (i =? k)%nat p v && gains_ok z m k s (S i) (drop m P) table
  | _, [] => false
  end.

Lemma gains_ok_lookup P z m k s j table i v :
  gains_ok z m k s j (drop (m * j) P) table = true → table !! i = Some v →
  ∃ p, P !! (m * (j + i))%nat = Some p ∧ gain_entry_ok z s (j + i =? k)%nat p v = true.
Proof.
  revert j i. induction table as [|w table IH]; intros j i H E; [done|].
  cbn [gains_ok] in H. destruct (drop (m * j) P) as [|p P'] eqn:D; [done|]. rewrite <- D in H.
  apply andb_prop in H as [H1 H2]. destruct i as [|i].
  - injection E as ->. rewrite Nat.add_0_r. exists p. split; [|done].
    pose proof (lookup_drop P (m * j) 0) as L. rewrite D, Nat.add_0_r in L. by rewrite <- L.
  - rewrite <- Nat.add_succ_comm. apply IH; [|done]. rewrite drop_drop in H2.
    by replace (m * S j)%nat with (m * j + m)%nat by lia.
Qed.

(** A table against the powers of the root. *)
Definition table_ok (m k : nat) (s : Z) (table : list Z) : bool :=
  match gain_powers !! (m * k)%nat with
  | Some z => gains_ok z m k s 0 gain_powers table
  | None => false
  end.

(** The entry is the gain, rounded down. *)
Definition is_floor (v : Z) (x : R) : Prop := (IZR v <= x < IZR v + 1)%R.

Lemma gain_entry_floor m z s i v k zp ip :
  (0 < s) → (INR m / 800 = / k)%R →
  gain_powers !! (m * z)%nat = Some zp → gain_powers !! (m * i)%nat = Some ip →
  gain_entry_ok zp s (i =? z)%nat ip v = true →
  is_floor v (IZR s * Rpower 10 ((INR i - INR z) / k)).
Proof.
  destruct zp as [zl zh], ip as [il ih]. intros Hs Hk Ez Ei H.
  apply gain_powers_encl in Ez as [Z1 Z2]. apply gain_powers_encl in Ei as [I1 I2].
  apply andb_prop in H as [[H0%Z.leb_le H1]%andb_prop H2%Z.ltb_lt].
  apply IZR_le in H0. apply IZR_lt in H2, Hs. rewrite !mult_IZR in H2. rewrite plus_IZR in H2.
  assert (Hp : ∀ j, (0 < root ^ j)%R) by (intros j; apply pow_lt, exp_pos).
  assert (E : Rpower 10 ((INR i - INR z) / k) = (root ^ (m * i) / root ^ (m * z))%R).
  { rewrite !root_pow. unfold Rdiv at 2. rewrite <- Rpower_Ropp, <- Rpower_plus. f_equal.
    rewrite !mult_INR. unfold Rdiv at 1. rewrite <- Hk. field. }
  pose proof scale_pos as Hsc. pose proof (Hp (m * z)%nat) as Pz. pose proof (Hp (m * i)%nat) as Pi.
  rewrite E. unfold is_floor. set (g := (root ^ (m * i) / root ^ (m * z))%R).
  assert (G : (g * root ^ (m * z) = root ^ (m * i))%R) by (unfold g; field; lra).
  clearbody g. split.
  - apply orb_prop in H1 as [H1%Z.leb_le|[->%Z.eqb_eq ->%Nat.eqb_eq]%andb_prop]; [|nra].
    apply IZR_le in H1. rewrite !mult_IZR in H1.
    apply (Rmult_le_reg_r (root ^ (m * z) * IZR scale)); [nra|].
    replace (IZR s * g * (root ^ (m * z) * IZR scale))%R with (IZR s * ((g * root ^ (m * z)) * IZR scale))%R by ring.
    rewrite G. nra.
  - apply (Rmult_lt_reg_r (root ^ (m * z) * IZR scale)); [nra|].
    replace (IZR s * g * (root ^ (m * z) * IZR scale))%R with (IZR s * ((g * root ^ (m * z)) * IZR scale))%R by ring.
    rewrite G. nra.
Qed.

Lemma gain_table_floor m z s table k i v :
  (0 < s) → (INR m / 800 = / k)%R → table_ok m z s table = true →
  table !! i = Some v → is_floor v (IZR s * Rpower 10 ((INR i - INR z) / k)).
Proof.
  intros Hs Hk H E. unfold table_ok in H. destruct (gain_powers !! (m * z)%nat) as [zp|] eqn:Ez; [|done].
  destruct (gains_ok_lookup gain_powers zp m z s 0 table i v) as (p & Ep & Hp); [|done|].
  { rewrite Nat.mul_0_r. exact H. }
  by apply (gain_entry_floor m z s i v k zp p).
Qed.

Lemma Linear_gain_Table_ok : table_ok 2 (Z.to_nat 1440) 4096 Linear_gain_Table = true.
Proof. vm_compute. reflexivity. Qed.
Lemma GTable_ok : table_ok 4 (Z.to_nat 720) 4096 GTable = true.
Proof. vm_compute. reflexivity. Qed.
Lemma GextractByTwoTable_ok : table_ok 2 (Z.to_nat 720) 4096 GextractByTwoTable = true.
Proof. vm_compute. reflexivity. Qed.
Lemma GextractByFourTable_ok : table_ok 1 (Z.to_nat 720) 4096 GextractByFourTable = true.
Proof. vm_compute. reflexivity. Qed.
Lemma BaseGTable_ok : table_ok 4 (Z.to_nat 900) 32768 (take (Z.to_nat 900) BaseGTable) = true.
Proof. vm_compute. reflexivity. Qed.

(** C26. The tables of gains are exact: with the gain [10 ^ (dB / 20)] of the level an index stands for,
    every entry is that gain (or its square or fourth root) in fixed point, rounded down; the one
    exception is the gain 1 in [BaseGTable], which does not fit into 16 bits. *)
Theorem gain_tables_exact i v :
  (Linear_gain_Table !! i = Some v → is_floor v (4096 * Rpower 10 ((INR i - 1440) / 400)))
  ∧ (GTable !! i = Some v → is_floor v (4096 * Rpower 10 ((INR i - 720) / 200)))
  ∧ (GextractByTwoTable !! i = Some v → is_floor v (4096 * Rpower 10 ((INR i - 720) / 400)))
  ∧ (GextractByFourTable !! i = Some v → is_floor v (4096 * Rpower 10 ((INR i - 720) / 800)))
  ∧ (BaseGTable !! i = Some v →
     is_floor v (32768 * Rpower 10 ((INR i - 900) / 200)) ∨ i = Z.to_nat 900 ∧ v = 32767).
Proof.
  assert (I : ∀ z, 0 <= z → INR (Z.to_nat z) = IZR z) by (intros z Hz; by rewrite INR_IZR_INZ, Z2Nat.id).
  assert (I1 : (INR 1 / 800 = / 800)%R) by (change (INR 1) with 1%R; field).
  assert (I2 : (INR 2 / 800 = / 400)%R) by (change (INR 2) with (1 + 1)%R; field).
  assert (I4 : (INR 4 / 800 = / 200)%R) by (change (INR 4) with (1 + 1 + 1 + 1)%R; field).
  assert (F : ∀ m z s table k, 0 <= z → 0 < s → (INR m / 800 = / k)%R →
    table_ok m (Z.to_nat z) s table = true → table !! i = Some v →
    is_floor v (IZR s * Rpower 10 ((INR i - IZR z) / k))).
  { intros m z s table k Hz Hs Hk H E. rewrite <- (I z Hz). by eapply gain_table_floor. }
  split_and!; intros E.
  - apply (F 2%nat 1440 4096 _ _ ltac:(done) ltac:(done) I2 Linear_gain_Table_ok E).
  - apply (F 4%nat 720 4096 _ _ ltac:(done) ltac:(done) I4 GTable_ok E).
  - apply (F 2%nat 720 4096 _ _ ltac:(done) ltac:(done) I2 GextractByTwoTable_ok E).
  - apply (F 1%nat 720 4096 _ _ ltac:(done) ltac:(done) I1 GextractByFourTable_ok E).
  - destruct (decide (i < Z.to_nat 900)%nat) as [L|L].
    + left. assert (E' : take (Z.to_nat 900) BaseGTable !! i = Some v) by (by rewrite lookup_take_lt).
      apply (F 4%nat 900 32768 _ _ ltac:(done) ltac:(done) I4 BaseGTable_ok E').
    + right. pose proof (lookup_lt_Some _ _ _ E) as B. rewrite BaseGTable_length in B.
      assert (i = Z.to_nat 900) as -> by lia. split; [done|]. vm_compute in E. by injection E.
Qed.

(** ** The table of cosines *)

(** Enclosures of the cosines of pi/4, pi/8, ..., pi/4096, from halving the angle. *)
Definition half_cosines : list (Z * Z) :=
  (λ lo, (lo, lo + 3)) <$>
  [815238614083298888; 1065160580698383124; 1130768441178740757; 1147369872436662990; 1151532760162549489;
   1152574266204915293; 1152834691737939371; 1152899801185339686; 1152916078738702569; 1152920148139012899;
   1152921165489838583].

(** From the enclosure of a cosine and those of the halves of its angle to the last of them and of
    its double. *)
Fixpoint halves_ok (x y : Z) (l : list (Z * Z)) : bool :=
  match l with
  | [] => true
  | (a, b) :: l =>
      (0 <=? a) && (0 <=? b) && (2 * (a * a) <=? scale * (scale + x)) && (scale * (scale + y) <=? 2 * (b * b)) && halves_ok a b l
  end.

Lemma half_cosine x y a b t :
  (0 <= t <= PI)%R → encl x y (cos t) → 0 <= a → 0 <= b →
  2 * (a * a) <= scale * (scale + x) → scale * (scale + y) <= 2 * (b * b) → encl a b (cos (t / 2)).
Proof.
  intros Ht [X Y] Ha Hb A B. pose proof scale_pos as Hs. pose proof PI_RGT_0.
  assert (E : (cos t = 2 * (cos (t / 2) * cos (t / 2)) - 1)%R).
  { replace t with (2 * (t / 2))%R at 1 by field. rewrite cos_2a_cos. ring. }
  assert (P : (0 <= cos (t / 2))%R) by (apply cos_ge_0; lra).
  set (c := cos (t / 2)) in *. clearbody c. rewrite E in X, Y.
  apply IZR_le in A, B, Ha, Hb. rewrite !mult_IZR, plus_IZR in A, B.
  split.
  - apply (Rmult_le_compat_l (IZR scale)) in X; [|lra]. assert (A' : (IZR a * IZR a <= (c * IZR scale) * (c * IZR scale))%R) by nra.
    apply Rsqr_incr_0_var; [exact A'|nra].
  - apply (Rmult_le_compat_l (IZR scale)) in Y; [|lra]. assert (B' : ((c * IZR scale) * (c * IZR scale) <= IZR b * IZR b)%R) by nra.
    apply Rsqr_incr_0_var; [exact B'|done].
Qed.

Lemma half_sine x y a b t :
  (0 <= t <= PI)%R → encl x y (cos t) → 0 <= a → 0 <= b →
  2 * (a * a) <= scale * (scale - y) → scale * (scale - x) <= 2 * (b * b) → encl a b (sin (t / 2)).
Proof.
  intros Ht [X Y] Ha Hb A B. pose proof scale_pos as Hs. pose proof PI_RGT_0.
  assert (E : (cos t = 1 - 2 * (sin (t / 2) * sin (t / 2)))%R).
  { replace t with (2 * (t / 2))%R at 1 by field. rewrite cos_2a_sin. ring. }
  assert (P : (0 <= sin (t / 2))%R) by (apply sin_ge_0; lra).
  set (c := sin (t / 2)) in *. clearbody c. rewrite E in X, Y.
  apply IZR_le in A, B, Ha, Hb. rewrite !mult_IZR, minus_IZR in A, B. split.
  - apply (Rmult_le_compat_l (IZR scale)) in Y; [|lra]. assert (A' : (IZR a * IZR a <= (c * IZR scale) * (c * IZR scale))%R) by nra.
    apply Rsqr_incr_0_var; [exact A'|nra].
  - apply (Rmult_le_compat_l (IZR scale)) in X; [|lra]. assert (B' : ((c * IZR scale) * (c * IZR scale) <= IZR b * IZR b)%R) by nra.
    apply Rsqr_incr_0_var; [exact B'|done].
Qed.

Lemma halves_spec x y l t i a b :
  (0 <= t <= PI)%R → encl x y (cos t) → halves_ok x y l = true →
  l !! i = Some (a, b) → encl a b (cos (t / 2 ^ S i)).
Proof.
  revert x y t i. induction l as [|[c d] l IH]; intros x y t i Ht E H L; [done|].
  cbn [halves_ok] in H. rewrite !andb_true_iff, !Z.leb_le in H. destruct H as ((((H0 & H1) & H2) & H3) & H).
  pose proof (half_cosine x y c d t Ht E H0 H1 H2 H3) as Ec. destruct i as [|i].
  - injection L as -> ->. by rewrite pow_1.
  - replace (t / 2 ^ S (S i))%R with (t / 2 / 2 ^ S i)%R
      by (cbn [pow]; field; apply pow_nonzero; lra).
    apply (IH c d); [lra|done..].
Qed.

(** The step of the table. *)
Definition step : R := (PI / 4096)%R.
Definition cos_lo : Z := 1152921165489838583.
Definition cos_hi : Z := cos_lo + 3.
Definition sin_lo : Z := 884279632302866.
Definition sin_hi : Z := 884279632303845.

Lemma step_encl : encl cos_lo cos_hi (cos step) ∧ encl sin_lo sin_hi (sin step).
Proof.
  pose proof PI_RGT_0.
  assert (E0 : encl 0 0 (cos (PI / 2))) by (rewrite cos_PI2; unfold encl; lra).
  assert (B : (0 <= PI / 2 <= PI)%R) by lra.
  assert (Hk : halves_ok 0 0 half_cosines = true) by (vm_compute; reflexivity).
  pose proof (λ i a b, halves_spec 0 0 half_cosines (PI / 2) i a b B E0 Hk) as F. split.
  - replace step with (PI / 2 / 2 ^ 11)%R by (unfold step; simpl; field). by apply F.
  - pose proof (F 9%nat 1152920148139012899 1152920148139012902 eq_refl) as E.
    replace step with (PI / 2 / 2 ^ 10 / 2)%R by (unfold step; simpl; field).
    eapply half_sine; [| exact E | done..]. simpl. lra.
Qed.

(** Enclosures of the cosine and sine of the multiples of the step, turned one step at a time. *)
Definition turn (q : Z * Z * (Z * Z)) : Z * Z * (Z * Z) :=
  let '((a, b), (c, d)) := q in
  ((mul_down a cos_lo - mul_up d sin_hi, mul_up b cos_hi - mul_down c sin_lo),
   (mul_down c cos_lo + mul_down a sin_lo, mul_up d cos_hi + mul_up b sin_hi)).

Definition encl_turn (q : Z * Z * (Z * Z)) (t : R) : Prop :=
  let '((a, b), (c, d)) := q in encl a b (cos t) ∧ encl c d (sin t).

Lemma turn_spec q t :
  (0 <= t <= PI / 2)%R → encl_turn q t → encl_turn (turn q) (t + step).
Proof.
  destruct q as [[a b] [c d]]. intros Ht [[A B] [C D]]. pose proof step_encl as [[P Q] [U V]].
  pose proof PI_RGT_0. pose proof scale_pos as Hs.
  assert (Hc : (0 <= cos t)%R) by (apply cos_ge_0; lra).
  assert (Hsn : (0 <= sin t)%R) by (apply sin_ge_0; lra).
  assert (Hp : (0 <= cos step)%R) by (apply cos_ge_0; unfold step; lra).
  assert (Hu : (0 <= sin step)%R) by (apply sin_ge_0; unfold step; lra).
  assert (L1 : (0 <= IZR cos_lo)%R) by (apply IZR_le; done).
  assert (L2 : (0 <= IZR sin_lo)%R) by (apply IZR_le; done).
  unfold encl_turn, turn, encl. rewrite cos_plus, sin_plus, !plus_IZR, !minus_IZR.
  pose proof (mul_down_le a cos_lo (cos t) (cos step) A Hc ltac:(lra)).
  pose proof (mul_down_le c sin_lo (sin t) (sin step) C Hsn ltac:(lra)).
  pose proof (mul_down_le c cos_lo (sin t) (cos step) C Hsn ltac:(lra)).
  pose proof (mul_down_le a sin_lo (cos t) (sin step) A Hc ltac:(lra)).
  pose proof (mul_up_ge d sin_hi (sin t) (sin step) D Hsn Hu V).
  pose proof (mul_up_ge b cos_hi (cos t) (cos step) B Hc Hp Q).
  pose proof (mul_up_ge d cos_hi (sin t) (cos step) D Hsn Hp Q).
  pose proof (mul_up_ge b sin_hi (cos t) (sin step) B Hc Hu V).
  repeat split; lra.
Qed.

Definition cos_entry_ok (q : Z * Z * (Z * Z)) (v : Z) : bool :=
  let '((a, b), _) := q in
  ((v =? 0) || (v * scale <=? 16384 * a)) && (16384 * b <? (v + 1) * scale).

Fixpoint cosines_ok (q : Z * Z * (Z * Z)) (table : list Z) : bool :=
  match table with
  | [] => true
  | v :: table => cos_entry_ok q v && cosines_ok (turn q) table
  end.

Lemma cosines_ok_lookup q j table i v :
  (j + length table <= Z.to_nat 2049)%nat →
  encl_turn q (INR j * step) → cosines_ok q table = true → table !! i = Some v →
  is_floor v (16384 * cos (INR (j + i) * step)).
Proof.
  revert q j i. induction table as [|w table IH]; intros q j i Hj Hq H E; [done|].
  cbn [cosines_ok] in H. apply andb_prop in H as [H1 H2]. cbn [length] in Hj.
  assert (Ht : (0 <= INR j * step <= PI / 2)%R).
  { pose proof PI_RGT_0. assert (J : (INR j <= 2048)%R).
    { rewrite INR_IZR_INZ. apply IZR_le. lia. }
    pose proof (pos_INR j). unfold step. split; [nra|].
    replace (PI / 2)%R with (2048 * (PI / 4096))%R by field. apply Rmult_le_compat_r; lra. }
  destruct i as [|i].
  - injection E as ->. rewrite Nat.add_0_r. destruct q as [[a b] [c d]]. destruct Hq as [[A B] _].
    cbn [cos_entry_ok] in H1. apply andb_prop in H1 as [H1 H3%Z.ltb_lt]. pose proof scale_pos as Hs.
    apply IZR_lt in H3. rewrite !mult_IZR, plus_IZR in H3.
    assert (Hc : (0 <= cos (INR j * step))%R) by (apply cos_ge_0; pose proof PI_RGT_0; lra).
    set (x := cos _) in *. clearbody x. split.
    + apply orb_prop in H1 as [->%Z.eqb_eq|H1%Z.leb_le]; [lra|]. apply IZR_le in H1. rewrite !mult_IZR in H1.
      apply (Rmult_le_reg_r (IZR scale)); nra.
    + apply (Rmult_lt_reg_r (IZR scale)); nra.
  - rewrite <- Nat.add_succ_comm. apply (IH (turn q)); [lia| |done..].
    rewrite S_INR, Rmult_plus_distr_r, Rmult_1_l. by apply turn_spec.
Qed.

Lemma cos_Table_ok : cosines_ok (scale, scale, (0, 0)) cos_Table = true.
Proof. vm_compute. reflexivity. Qed.

(** C24. The table of cosines is exact: its entries are the cosines of the multiples of pi/4096 up to a
    quarter turn, times 16384, rounded down. *)
Theorem cos_Table_exact i v : cos_Table !! i = Some v → is_floor v (16384 * cos (INR i * (PI / 4096))).
Proof.
  intros E. apply (cosines_ok_lookup (scale, scale, (0, 0)) 0 cos_Table i v); [| |apply cos_Table_ok|done].
  - rewrite cos_Table_length. lia.
  - unfold encl_turn, encl. simpl INR. rewrite Rmult_0_l, cos_0, sin_0. lra.
Qed.

(** The entry of an eighth of a turn. *)
Theorem cos_Table_exact_witness :
  cos_Table !! 1024%nat = Some 11585 ∧ is_floor 11585 (16384 * cos (INR 1024 * (PI / 4096))).
Proof. split; [reflexivity|]. exact (cos_Table_exact 1024 11585 eq_refl). Defined.
