(* ===== verification/EqCalc.v ===== *)
(** * Filter coefficients of the equaliser (audio/sc8830/vb_effect/v2/filter_calc.c)

    The functions that turn the settings of a filter into the fixed-point coefficients of a biquad, with
    every intermediate result in its C type.  The results are [None] where the C code leaves its
    defined behaviour, otherwise the return value and the coefficients and the gain, which the caller has in memory. *)

From stdpp Require Import list.
From S2P Require Import Prelude CArith EqTables.

Open Scope Z_scope.

(** ** Data *)

Record IIR_FILTER_PARA_T := IIR { B0 : Z; B1 : Z; B2 : Z; A0 : Z; A1 : Z; A2 : Z }.

Definition FILTER_EQPARA_NORMAL_EQ : Z := 0.
Definition FILTER_EQPARA_LOW_SHELVE : Z := 1.
Definition FILTER_EQPARA_HIGH_SHELVE : Z := 2.
Definition FILTER_LCFPARA_F1F1 : Z := 0.
Definition FILTER_LCFPARA_BUTTERWORTH : Z := 1.

(** [unEqPara] is the union of [q], [fo_next] and [fo_last]. *)
Record FILTER_EQ_CALC_PARA_T := EqPara {
  isFilterOn : bool; eEqParaType : Z; fo : Z; unEqPara : Z; boostdB : Z; basegaindB : Z }.

Record FILTER_LCF_F1F1_PARAM_T := F1F1 { f1_g0 : Z; f1_g1 : Z; f1_fp : Z; f2_g0 : Z; f2_g1 : Z; f2_fp : Z }.

(** [fp] overlays [f1_g0] in the union. *)
Record FILTER_LCF_CALC_PARA_T := LcfPara { lcf_isFilterOn : bool; eLcfParaType : Z; lcfPara : FILTER_LCF_F1F1_PARAM_T }.
Definition fp (p : FILTER_LCF_CALC_PARA_T) : Z := f1_g0 (lcfPara p).

(** Assigning the 16-bit fields. *)
Definition store_paras (b0 b1 b2 a0 a1 a2 : Z) : IIR_FILTER_PARA_T :=
  IIR (i16 b0) (i16 b1) (i16 b2) (i16 a0) (i16 a1) (i16 a2).
Definition all_pass : IIR_FILTER_PARA_T := IIR 16384 0 0 16384 0 0.

(** The return value, the coefficients and the gain. *)
Definition calc_result : Type := option (bool * IIR_FILTER_PARA_T * Z).

(** [if (x > 32767) x = 32767; if (x < -32767) x = -32767;] *)
Definition clamp16 (x : Z) : Z := if 32767 <? x then 32767 else if x <? -32767 then -32767 else x.

(** [abso (x)]. *)
Definition abso (x : Z) : cexp := if 0 <? x then lit x else (- x)%int_expr.

(** [ENODATA] for a division by zero, 0 otherwise: the division is commented out. *)
Definition ENODATA : Z := 61.
Definition do_sprddiv64 (dividend divisor : Z) : Z := if divisor =? 0 then ENODATA else 0.

(** ** Scaling the numerator into 16 bits *)

(** [while (m > 32767) { m = m / 2; n_bit = n_bit + 1; }]; [fuel] bounds the turns. *)
Fixpoint overflow_bits (fuel : nat) (m n_bit : Z) : Z :=
  match fuel with
  | O => n_bit
  | S fuel => if 32767 <? m then overflow_bits fuel (Z.quot m 2) (n_bit + 1) else n_bit
  end.

(** "prevent B overflow" and "calc S and adjust B": the numerator and the gain. *)
Definition prevent_overflow (b0 b1 b2 gain : Z) : option (Z * Z * Z * Z) :=
  int m0 := abso b0;
  int m1 := abso b1;
  int m2 := abso b2;
  let m := Z.max (Z.max m0 m1) m2 in
  let n_bit := overflow_bits 32 m 0 in
  if n_bit =? 0 then Some (b0, b1, b2, gain)
  else
    int s := gain << n_bit;
    Some (Z.shiftr b0 n_bit, Z.shiftr b1 n_bit, Z.shiftr b2 n_bit, if 32767 <? s then 32767 else s).

(** ** The peaking filters *)

(** What [Filter_CalcEqCoeffs] and [Filter_CalcEQ] share up to the gain: [Qfo], [Qk], [Qgama] and
    [base_gain], or [Some None] when they return [FALSE]. *)
Definition eq_common (fo q boostdB basegaindB fs : Z) : option (option (Z * Z * Z * Z)) :=
  if Z.shiftr fs 1 <=? fo then Some None
  else if fo <=? 0 then Some None
  else
    short qMin := 1113 * fo / fs + 1;
    let q := if q <? qMin then qMin else q in
    short df := (fo << 9) / q;
    short Qdf := (df << 13) / fs;
    short Qfo := (fo << 13) / fs;
    if (boostdB <? -720) || (180 <? boostdB) then Some None
    else
      short qkdB := boostdB * 5;
      short qkTableIndex := (qkdB + 7200) / 5;
      int Qk := entry Linear_gain_Table qkTableIndex;
      if 2048 <=? Z.quot Qdf 2 then Some None
      else
        short Qgama := (entry cos_Table (2048 - Qdf / 2) << 12) / entry cos_Table (Qdf / 2);
        if (basegaindB <? -720) || (180 <? basegaindB) then Some None
        else
          short basegain_Index := (basegaindB * 10 + 7200) / 5;
          int base_gain := entry Linear_gain_Table basegain_Index;
          Some (Some (Qfo, Qk, Qgama, base_gain)).

Definition Filter_CalcEqCoeffs (fo q boostdB basegaindB fs : Z) (filterPara : IIR_FILTER_PARA_T)
    : option (bool * IIR_FILTER_PARA_T) :=
  match eq_common fo q boostdB basegaindB fs with
  | None => None
  | Some None => Some (false, filterPara)
  | Some (Some (Qfo, Qk, Qgama, base_gain)) =>
      int df_temp := - (8192 * Qk + (Qgama * ((Qk * Qk) >> 11))) / (Qk + Qgama);
      int df_temp := (df_temp * base_gain) >> 12;
      let b0 := clamp16 df_temp in
      if 4096 <? Qfo then
        Some (false, IIR (i16 b0) (B1 filterPara) (B2 filterPara) (-8192) (A1 filterPara) (A2 filterPara))
      else
        int a1 := (if Qfo <=? 2048 then entry cos_Table Qfo * Qk / (Qk + Qgama)
                   else - entry cos_Table (4096 - Qfo) * Qk / (Qk + Qgama));
        int df_temp := (a1 * base_gain) >> 12;
        let b1 := clamp16 df_temp in
        int df_temp := - (8192 * Qk - (Qgama * ((Qk * Qk) >> 11))) / (Qk + Qgama);
        int df_temp := (df_temp * base_gain) >> 12;
        let b2 := clamp16 df_temp in
        int a2 := - ((Qk - Qgama) << 13) / (Qgama + Qk);
        Some (true, store_paras b0 b1 b2 (-8192) a1 a2)
  end.

Definition Filter_CalcEQ (p : FILTER_EQ_CALC_PARA_T) (fs : Z) (filterPara : IIR_FILTER_PARA_T) (sGain : Z)
    : calc_result :=
  if isFilterOn p then
    if eEqParaType p =? FILTER_EQPARA_NORMAL_EQ then
      match eq_common (fo p) (unEqPara p) (boostdB p) (basegaindB p) fs with
      | None => None
      | Some None => Some (false, filterPara, sGain)
      | Some (Some (Qfo, Qk, Qgama, base_gain)) =>
          int b := 16384 * Qk / (Qk + Qgama);
          int x := ((Qgama * Qk) / (Qk + Qgama) * Qk) >> 10;
          int b0 := b + x;
          if 2048 <=? Z.quot Qfo 2 then Some (false, filterPara, sGain)
          else
            int b1 := (if Qfo <=? 2048 then - ((entry cos_Table Qfo * Qk) << 1) / (Qk + Qgama)
                       else ((entry cos_Table (4096 - Qfo) * Qk) << 1) / (Qk + Qgama));
            int b2 := b - x;
            int a2 := ((Qk - Qgama) << 14) / (Qgama + Qk);
            match prevent_overflow b0 b1 b2 base_gain with
            | None => None
            | Some (b0, b1', b2, s) => Some (true, store_paras b0 b1' b2 16384 b1 a2, i16 s)
            end
      end
    else Some (false, filterPara, sGain)
  else Some (true, all_pass, 4096).

(** The interface of the tools. *)
Definition Filter_CalcEQ_Para (band_filter_on : bool) (band_fo band_q band_boostdB band_basegaindB fs : Z)
    : IIR_FILTER_PARA_T → Z → calc_result :=
  Filter_CalcEQ (EqPara band_filter_on FILTER_EQPARA_NORMAL_EQ band_fo band_q band_boostdB band_basegaindB) fs.

(** ** The low-cut filters *)

(** The entry of [Linear_gain_Table] for a gain in dB / 10. *)
Definition gain_of (dB : Z) : cexp :=
  short gain_index := (dB * 10 + 7200) / 5;
  entry Linear_gain_Table gain_index.

(** [Qfp] for the frequency [fp], and the tangent of half its angle, times 4096. *)
Definition q_freq (fp fs : Z) : cexp := short Qfp := (fp << 13) / fs; lit Qfp.
Definition q_tan (Qfp : Z) : cexp :=
  ((entry cos_Table (2048 - Qfp / 2) << 12) / entry cos_Table (Qfp / 2))%int_expr.

Definition Filter_CalcF1f1Coeffs (f : FILTER_LCF_F1F1_PARAM_T) (fs : Z) (filterPara : IIR_FILTER_PARA_T)
    : option (bool * IIR_FILTER_PARA_T) :=
  if fs <=? 0 then Some (false, filterPara)
  else
    int Qf1fp := q_freq (f1_fp f) fs;
    if 2048 <=? Z.quot Qf1fp 2 then Some (false, filterPara)
    else
      int Qf2fp := q_freq (f2_fp f) fs;
      if 2048 <=? Z.quot Qf2fp 2 then Some (false, filterPara)
      else
        short F1_wp_Q := q_tan Qf1fp;
        short F2_wp_Q := q_tan Qf2fp;
        int F1_G0_Q := gain_of (f1_g0 f);
        int F1_G1_Q := gain_of (f1_g1 f);
        int F2_G0_Q := gain_of (f2_g0 f);
        int F2_G1_Q := gain_of (f2_g1 f);
        int hsb_b0 := F1_G1_Q * F2_G1_Q;
        int hsb_b1 := (((F1_G0_Q * F1_wp_Q) >> 12) * F2_G1_Q) + (((F2_G0_Q * F2_wp_Q) >> 12) * F1_G1_Q);
        int hsb_b2 := ((F1_G0_Q * F1_wp_Q) >> 12) * ((F2_G0_Q * F2_wp_Q) >> 12);
        let hsa_a0 := 2 ^ 24 in
        int hsa_a1 := (F1_wp_Q + F2_wp_Q) << 12;
        int hsa_a2 := F1_wp_Q * F2_wp_Q;
        int dividor := (hsa_a0 + hsa_a1 + hsa_a2) >> 12;
        int b0 := (hsb_b0 + hsb_b1 + hsb_b2) / dividor;
        int b1 := ((hsb_b2 - hsb_b0) << 1) / dividor;
        int b2 := (hsb_b0 - hsb_b1 + hsb_b2) / dividor;
        int a1 := ((hsa_a2 - hsa_a0) << 1) / dividor;
        int a2 := (hsa_a0 - hsa_a1 + hsa_a2) / dividor;
        Some (true, store_paras (clamp16 b0) (clamp16 b1) (clamp16 b2) 4096 a1 a2).

Definition out_of_dB (dB : Z) : bool := (dB <? -720) || (180 <? dB).

(** The quotients of [Filter_CalcLCF] for a pair of sections: [b0], [b1], [b2], [a1] and [a2]. *)
Definition lcf_pair (F1_wp_Q F2_wp_Q F1_G0_Q F1_G1_Q F2_G0_Q F2_G1_Q : Z) : option (Z * Z * Z * Z * Z) :=
  long hsb_b0 := F1_G1_Q * F2_G1_Q;
  long hsb_b1 := (((F1_G0_Q * F1_wp_Q) >> 12) * F2_G1_Q) + (((F2_G0_Q * F2_wp_Q) >> 12) * F1_G1_Q);
  long hsb_b2 := ((F1_G0_Q * F1_wp_Q) >> 12) * ((F2_G0_Q * F2_wp_Q) >> 12);
  let hsa_a0 := 2 ^ 24 in
  long hsa_a1 := (F1_wp_Q + F2_wp_Q) << 12;
  long hsa_a2 := F1_wp_Q * F2_wp_Q;
  long dividor := (hsa_a0 + hsa_a1 + hsa_a2) >> 12;
  long b0 := to_i32 (((hsb_b0 + hsb_b1 + hsb_b2) << 2) / dividor);
  long b1 := to_i32 (((hsb_b2 - hsb_b0) << 3) / dividor);
  long b2 := to_i32 (((hsb_b0 - hsb_b1 + hsb_b2) << 2) / dividor);
  long a1 := to_i32 ((((hsa_a2 - hsa_a0) << 1) / dividor) << 2);
  long a2 := to_i32 (((hsa_a0 - hsa_a1 + hsa_a2) / dividor) << 2);
  Some (b0, b1, b2, a1, a2).

(** The branches of [Filter_CalcLCF]: the coefficients, or [Some None] where it returns with the all-pass
    filter. *)
Definition lcf_f1f1 (f : FILTER_LCF_F1F1_PARAM_T) (fs : Z) : option (option (Z * Z * Z * Z * Z)) :=
  if out_of_dB (f1_g0 f) then Some None
  else if out_of_dB (f1_g1 f) then Some None
  else if out_of_dB (f2_g0 f) then Some None
  else if out_of_dB (f2_g1 f) then Some None
  else
    int Qf1fp := q_freq (f1_fp f) fs;
    if 2048 <=? Z.quot Qf1fp 2 then Some None
    else
      int Qf2fp := q_freq (f2_fp f) fs;
      if 2048 <=? Z.quot Qf2fp 2 then Some None
      else
        int F1_wp_Q := q_tan Qf1fp;
        int F2_wp_Q := q_tan Qf2fp;
        int F1_G0_Q := gain_of (f1_g0 f);
        int F1_G1_Q := gain_of (f1_g1 f);
        int F2_G0_Q := gain_of (f2_g0 f);
        int F2_G1_Q := gain_of (f2_g1 f);
        option_map Some (lcf_pair F1_wp_Q F2_wp_Q F1_G0_Q F1_G1_Q F2_G0_Q F2_G1_Q).

Definition lcf_butterworth (LCF_Fp lcf_gain fs : Z) : option (option (Z * Z * Z * Z * Z)) :=
  int Qlcffp := q_freq LCF_Fp fs;
  if Z.quot Qlcffp 2 =? 0 then Some None
  else
    int K := (entry cos_Table (Qlcffp / 2) << 14) / entry cos_Table (2048 - Qlcffp / 2);
    int Qk2dk := 2 ^ 28 / K;
    long d0 := lcf_gain * K;
    long d1 := (Qk2dk - K) << 15;
    long d2 := (K - 23170 + Qk2dk) << 14;
    int dividor := K + 23170 + Qk2dk;
    long BUT_GAIN := to_i32 (- d0 / dividor);
    let BUT_GAIN := if BUT_GAIN =? 0 then -1 else BUT_GAIN in
    int b1 := - BUT_GAIN << 1;
    long a1 := to_i32 (d1 / dividor);
    long a2 := to_i32 (d2 / dividor);
    Some (Some (BUT_GAIN, b1, BUT_GAIN, a1, a2)).

(** The coefficients and the gain start as those of the all-pass filter. *)
Definition Filter_CalcLCF (p : FILTER_LCF_CALC_PARA_T) (lcf_gain fs : Z) : calc_result :=
  if fs <=? 0 then Some (false, all_pass, 4096)
  else if lcf_isFilterOn p then
    match (if eLcfParaType p =? FILTER_LCFPARA_F1F1 then lcf_f1f1 (lcfPara p) fs
           else if eLcfParaType p =? FILTER_LCFPARA_BUTTERWORTH then lcf_butterworth (fp p) lcf_gain fs
           else Some None) with
    | None => None
    | Some None => Some (true, all_pass, 4096)
    | Some (Some (b0, b1, b2, a1, a2)) =>
        match prevent_overflow b0 b1 b2 4096 with
        | None => None
        | Some (b0, b1, b2, s) => Some (true, store_paras b0 b1 b2 16384 a1 a2, i16 s)
        end
    end
  else Some (true, all_pass, 4096).

(** The interface of the tools. *)
Definition Filter_CalcLCF_Para (p : FILTER_LCF_CALC_PARA_T) (fs : Z) : calc_result := Filter_CalcLCF p 16384 fs.

(** ** The extended calculation *)

(** The base gain alone: the coefficients and the gain before the boost is looked at. *)
Definition ex_base (basegaindB : Z) : option (IIR_FILTER_PARA_T * Z) :=
  if basegaindB <=? 0 then
    int g := entry BaseGTable (basegaindB + 900);
    Some (all_pass, g)
  else
    int B_G_fix := entry GTable (basegaindB + 720);
    if 8192 <=? B_G_fix then Some (IIR 32767 0 0 16384 0 0, 32767)
    else
      int b0 := (16384 * B_G_fix) >> 12;
      int b1 := (0 * B_G_fix) >> 12;
      Some (IIR (i16 b0) (i16 b1) (i16 b1) 16384 0 0, 32767).

(** The numbers the three kinds of filter leave for the end of the function, or [Some None] where it returns. *)
Record ex_terms := Ex {
  b_dividor : Z; a_dividor : Z; b0_d : Z; b1_d : Z; a0_d : Z; a1_d : Z; EQ_B_GAIN : Z }.

(** The low shelf, for [fo <= 0]. *)
Definition ex_low (df G0_Index Fs : Z) : option (option ex_terms) :=
  int G0_fix := entry GTable G0_Index;
  int G0_ExTwo_fix := entry GextractByTwoTable G0_Index;
  int G0_ExFour_fix := entry GextractByFourTable G0_Index;
  int Qeqfp := q_freq df Fs;
  if 2048 <=? Z.quot Qeqfp 2 then Some None
  else
    long WP_d := 2 ^ 26 * entry cos_Table (2048 - Qeqfp / 2)%int_expr;
    long WP := to_i32 (WP_d / (G0_ExFour_fix * entry cos_Table (Qeqfp / 2))%int_expr);
    let WP := if WP =? 0 then 1 else WP in
    int Qk2dwp := 2 ^ 28 / WP;
    int w := (G0_ExTwo_fix * 23170) >> 12;
    long g := (WP * G0_fix) >> 12;
    int b_dividor := Qk2dwp + w + to_i32 g;
    int a_dividor := Qk2dwp + 23170 + WP;
    long b0_d := ((WP * G0_fix) << 3) - (Qk2dwp << 15);
    long b1_d := (Qk2dwp - w + g) << 14;
    long a0_d := (WP - Qk2dwp) << 15;
    long a1_d := (Qk2dwp - 23170 + WP) << 14;
    long EQ_B_GAIN := to_i32 ((b_dividor << 12) / a_dividor);
    Some (Some (Ex b_dividor a_dividor b0_d b1_d a0_d a1_d EQ_B_GAIN)).

(** The high shelf, for [fo >= 22050]. *)
Definition ex_high (df G0_Index Fs : Z) : option (option ex_terms) :=
  int G0_fix := entry GTable G0_Index;
  int G0_ExTwo_fix := entry GextractByTwoTable G0_Index;
  int G0_ExFour_fix := entry GextractByFourTable G0_Index;
  int Qeqfp := q_freq df Fs;
  if 2048 <=? Z.quot Qeqfp 2 then Some None
  else
    long WP_d := (G0_ExFour_fix * entry cos_Table (2048 - Qeqfp / 2))%int_expr << 14;
    long WP := to_i32 (WP_d / (entry cos_Table (Qeqfp / 2) << 12)%int_expr);
    let WP := if WP =? 0 then 1 else WP in
    int Qk2dwp := 2 ^ 28 / WP;
    int w := (G0_ExTwo_fix * 23170) >> 12;
    long g := (Qk2dwp * G0_fix) >> 12;
    long b_dividor := to_i32 (g + w + WP);
    int a_dividor := Qk2dwp + 23170 + WP;
    long b0_d := (WP - g) << 15;
    long b1_d := (g - w + WP) << 14;
    long a0_d := (WP - Qk2dwp) << 15;
    long a1_d := (Qk2dwp - 23170 + WP) << 14;
    long EQ_B_GAIN := to_i32 ((b_dividor << 12) / a_dividor);
    Some (Some (Ex b_dividor a_dividor b0_d b1_d a0_d a1_d EQ_B_GAIN)).

(** The peaking filter. *)
Definition ex_peak (fo df G0_Index Fs : Z) : option (option ex_terms) :=
  int QK := entry GextractByTwoTable G0_Index;
  int Qeqbw := q_freq df Fs;
  if 2048 <=? Z.quot Qeqbw 2 then Some None
  else
    int GAMA := 16384 * entry cos_Table (2048 - Qeqbw / 2) / entry cos_Table (Qeqbw / 2);
    int Qeqfo := q_freq fo Fs;
    if 2048 <=? Z.quot Qeqfo 2 then Some None
    else
      short COSW0 := (if Qeqfo <=? 2048 then entry cos_Table Qeqfo else - entry cos_Table (4096 - Qeqfo));
      long b_gain_dividor := to_i32 (16384 + (GAMA << 12) / QK);
      long b_dividor := to_i32 (4096 + ((GAMA * QK) >> 14));
      int a_dividor := (QK << 2) + GAMA;
      long b0_d := - COSW0 << 13;
      long b1_d := 2 ^ 26 - GAMA * QK;
      long a0_d := - (COSW0 * QK) << 3;
      long a1_d := ((4 * QK)%int_expr - GAMA) << 14;
      long EQ_B_GAIN := to_i32 ((b_dividor << 14) / b_gain_dividor);
      Some (Some (Ex b_dividor a_dividor b0_d b1_d a0_d a1_d EQ_B_GAIN)).

Definition Filter_CalcEqCoeffs_Ex (fo df boostdB basegaindB Fs : Z) : calc_result :=
  if Fs <=? 0 then Some (false, all_pass, 32767)
  else if (basegaindB <? -900) || (180 <? basegaindB) then Some (true, all_pass, 32767)
  else
    match ex_base basegaindB with
    | None => None
    | Some (filterPara, sGain) =>
        if out_of_dB boostdB || (boostdB =? 0) then Some (true, filterPara, sGain)
        else
          let G0_Index := boostdB + 720 in
          match (if fo <=? 0 then ex_low df G0_Index Fs
                 else if 22050 <=? fo then ex_high df G0_Index Fs
                 else ex_peak fo df G0_Index Fs) with
          | None => None
          | Some None => Some (true, filterPara, sGain)
          | Some (Some t) =>
              int b0 := EQ_B_GAIN t << 2;
              long b1 := to_i32 (((b0_d t / b_dividor t) * EQ_B_GAIN t) >> 12);
              long b2 := to_i32 (((b1_d t / b_dividor t) * EQ_B_GAIN t) >> 12);
              long a1 := to_i32 (a0_d t / a_dividor t);
              long a2 := to_i32 (a1_d t / a_dividor t);
              int G1 := (if basegaindB <=? 0 then 4096 else entry GTable (basegaindB + 720));
              int b0 := (if basegaindB <=? 0 then lit b0 else (b0 * G1) >> 12);
              int b1 := (if basegaindB <=? 0 then lit b1 else (b1 * G1) >> 12);
              int b2 := (if basegaindB <=? 0 then lit b2 else (b2 * G1) >> 12);
              match prevent_overflow b0 b1 b2 sGain with
              | None => None
              | Some (b0, b1, b2, s) => Some (true, store_paras b0 b1 b2 16384 a1 a2, i16 s)
              end
          end
    end.
