(* ===== verification/EqRange.v ===== *)
(** * What the coefficients of the equaliser guarantee (audio/sc8830/vb_effect/v2/filter_calc.c)

    The 32-bit arithmetic of [Filter_CalcEQ] never overflows up to the sample rate its limit on [q] is made
    for, its results fit into the 16-bit fields, and the filters are stable.  The other functions leave
    the defined behaviour for settings they do not check. *)

From stdpp Require Import list.
From S2P Require Import Prelude CArith EqTables EqCalc.

Open Scope Z_scope.

(** ** The entries used *)

Definition cosine (i : Z) : Z := default 0 (cos_Table !! Z.to_nat i).
Definition linear_gain (i : Z) : Z := default 0 (Linear_gain_Table !! Z.to_nat i).

Lemma entry_default table n i :
  length table = Z.to_nat n → 0 <= i < n → entry table (lit i) = lit (default 0 (table !! Z.to_nat i)).
Proof.
  intros L H. rewrite entry_ok by lia.
  destruct (lookup_lt_is_Some_2 table (Z.to_nat i)) as [x E]; [lia|]. by rewrite E.
Qed.

Lemma entry_cos i : 0 <= i <= 2048 → entry cos_Table (lit i) = lit (cosine i).
Proof. intros H. apply (entry_default _ 2049); [apply cos_Table_length|lia]. Qed.

Lemma entry_gain i : 0 <= i <= 1800 → entry Linear_gain_Table (lit i) = lit (linear_gain i).
Proof. intros H. apply (entry_default _ 1801); [apply Linear_gain_Table_length|lia]. Qed.

Lemma cosine_bounds i :
  0 <= i <= 2048 → 0 <= cosine i <= 16384 ∧ (i ≠ 0 → cosine i <= 16383) ∧ (i ≠ 2048 → 12 <= cosine i).
Proof.
  intros H.
  assert (F : forallb (λ i, (0 <=? cosine i) && (cosine i <=? 16384) && ((i =? 0) || (cosine i <=? 16383))
                            && ((i =? 2048) || (12 <=? cosine i))) (seqZ 0 2049) = true)
    by (vm_compute; reflexivity).
  apply (forallb_seqZ _ 0 2049 i) in F; [|lia]. cbv beta in F. lia.
Qed.

Lemma linear_gain_bounds i :
  0 <= i <= 1800 → 1 <= linear_gain i <= 32535 ∧ (i <= 1620 → linear_gain i <= 11544).
Proof.
  intros H.
  assert (F : forallb (λ i, (1 <=? linear_gain i) && (linear_gain i <=? 32535)
                            && ((1620 <? i) || (linear_gain i <=? 11544))) (seqZ 0 1801) = true)
    by (vm_compute; reflexivity).
  apply (forallb_seqZ _ 0 1801 i) in F; [|lia]. cbv beta in F. lia.
Qed.

(** The tangent of half an angle, times 4096. *)
Definition tangent (h : Z) : Z := Z.quot (cosine (2048 - h) * 2 ^ 12) (cosine h).

(** Up to 1884, what the limit on [q] allows, it fits into 16 bits. *)
Lemma tangent_bounds h : 0 <= h <= 1884 → 0 <= tangent h <= 32397 ∧ (h ≠ 0 → 3 <= tangent h).
Proof.
  intros H.
  assert (F : forallb (λ h, (0 <=? tangent h) && (tangent h <=? 32397) && ((h =? 0) || (3 <=? tangent h)))
                (seqZ 0 1885) = true) by (vm_compute; reflexivity).
  apply (forallb_seqZ _ 0 1885 h) in F; [|lia]. cbv beta in F. lia.
Qed.

(** ** The arithmetic steps *)

Lemma mul_int a b : - 2 ^ 31 <= a * b < 2 ^ 31 → binop in_int Z.mul (lit a) (lit b) = lit (a * b).
Proof. by apply binop_int. Qed.
Lemma add_int a b : - 2 ^ 31 <= a + b < 2 ^ 31 → binop in_int Z.add (lit a) (lit b) = lit (a + b).
Proof. by apply binop_int. Qed.
Lemma sub_int a b : - 2 ^ 31 <= a - b < 2 ^ 31 → binop in_int Z.sub (lit a) (lit b) = lit (a - b).
Proof. by apply binop_int. Qed.
Lemma shl_int a n : - 2 ^ 31 <= a * 2 ^ n < 2 ^ 31 → unop in_int (λ a, a * 2 ^ n) (lit a) = lit (a * 2 ^ n).
Proof. by apply unop_int. Qed.
Lemma shr_int a n : 0 <= n → - 2 ^ 31 <= a < 2 ^ 31 → unop in_int (λ a, Z.shiftr a n) (lit a) = lit (Z.shiftr a n).
Proof.
  intros Hn H. apply unop_int; [done|]. rewrite Z.shiftr_div_pow2 by done.
  pose proof (Z.pow_pos_nonneg 2 n ltac:(lia) ltac:(lia)) as P.
  split; [apply Z.div_le_lower_bound|apply Z.div_lt_upper_bound]; nia.
Qed.
Lemma neg_int a : - 2 ^ 31 <= - a < 2 ^ 31 → unop in_int Z.opp (lit a) = lit (- a).
Proof. by apply unop_int. Qed.
Lemma quot_int a b :
  - 2 ^ 31 < a < 2 ^ 31 → b ≠ 0 → divide in_int (lit a) (lit b) = lit (Z.quot a b).
Proof.
  intros Ha Hb. apply divide_int; [done..|]. pose proof (Z.quot_abs a b Hb) as E.
  pose proof (Z.quot_pos (Z.abs a) (Z.abs b) ltac:(lia) ltac:(lia)).
  pose proof (Z.quot_le_upper_bound (Z.abs a) (Z.abs b) (Z.abs a) ltac:(lia)).
  assert (Z.abs a <= Z.abs b * Z.abs a) by nia. lia.
Qed.

(** ** The peaking filter *)

(** The frequency in steps of the table, the limited [q], the bandwidth and half its angle. *)
Definition eq_Qfo (fo fs : Z) : Z := Z.quot (fo * 2 ^ 13) fs.
Definition eq_q (fo q fs : Z) : Z := Z.max q (Z.quot (1113 * fo) fs + 1).
Definition eq_df (fo q fs : Z) : Z := Z.quot (fo * 2 ^ 9) (eq_q fo q fs).
Definition eq_half (fo q fs : Z) : Z := Z.quot (Z.quot (eq_df fo q fs * 2 ^ 13) fs) 2.

(** The sample rates for which the bandwidth fits into 16 bits. *)
Definition fs_limit : Z := 71232.

(** The limit on [q] keeps the bandwidth in 16 bits and its half angle in the range where the tangent
    does. *)
Lemma eq_limits fo q fs :
  0 < fo → 2 * fo + 2 <= fs <= fs_limit →
  1 <= eq_q fo q fs ∧ 0 <= eq_df fo q fs < 2 ^ 15 ∧ 0 <= Z.quot (eq_df fo q fs * 2 ^ 13) fs <= 3768
  ∧ 0 <= eq_half fo q fs <= 1884 ∧ 0 <= eq_Qfo fo fs <= 4095 ∧ 0 <= Z.quot (1113 * fo) fs <= 556.
Proof.
  intros Hfo Hfs. unfold fs_limit in Hfs.
  pose proof (quot_bounds (1113 * fo) fs ltac:(lia) ltac:(lia)) as [[Q1 Q2] Q0].
  set (m := Z.quot (1113 * fo) fs) in *.
  assert (Hm : m <= 556) by nia.
  assert (Hq : 1 <= m + 1 <= eq_q fo q fs) by (unfold eq_q; fold m; lia).
  pose proof (quot_bounds (fo * 2 ^ 9) (eq_q fo q fs) ltac:(lia) ltac:(lia)) as [[D1 D2] D0].
  unfold eq_half. fold (eq_df fo q fs) in D0, D1, D2. set (df := eq_df fo q fs) in *.
  set (q' := eq_q fo q fs) in *. clearbody df q' m.
  assert (K : df * 1113 < 512 * fs).
  { assert (K1 : df * (m + 1) <= 512 * fo) by nia.
    apply (Z.mul_le_mono_nonneg_l _ _ fs) in K1; [|lia].
    destruct (Z.eq_dec df 0) as [->|Hdf]; [lia|].
    assert (K2 : df * (1113 * fo) < df * (fs * (m + 1))) by (apply Z.mul_lt_mono_pos_l; lia).
    apply (Z.mul_lt_mono_pos_r fo); lia. }
  pose proof (quot_bounds (df * 2 ^ 13) fs ltac:(lia) ltac:(lia)) as [[E1 E2] E0].
  set (Qdf := Z.quot (df * 2 ^ 13) fs) in *. clearbody Qdf.
  assert (HQ : Qdf <= 3768) by nia.
  pose proof (quot_bounds Qdf 2 ltac:(lia) ltac:(lia)) as [[H1 H2] H0].
  pose proof (quot_bounds (fo * 2 ^ 13) fs ltac:(lia) ltac:(lia)) as [[F1 F2] F0].
  fold (eq_Qfo fo fs) in F0, F1, F2. assert (eq_Qfo fo fs <= 4095) by nia.
  repeat split; lia.
Qed.

Definition eq_refused (fo boostdB basegaindB fs : Z) : bool :=
  (Z.shiftr fs 1 <=? fo) || (fo <=? 0) || out_of_dB boostdB || out_of_dB basegaindB.

(** The indices into the table of gains. *)
Lemma boost_index b : -720 <= b → Z.quot (b * 5 + 7200) 5 = b + 1440.
Proof. intros H. rewrite Z.quot_div_nonneg by lia. Z.to_euclidean_division_equations. lia. Qed.
Lemma gain_index b : -720 <= b → Z.quot (b * 10 + 7200) 5 = 2 * b + 1440.
Proof. intros H. rewrite Z.quot_div_nonneg by lia. Z.to_euclidean_division_equations. lia. Qed.
Lemma out_of_dB_false b : out_of_dB b = false → -720 <= b <= 180.
Proof. unfold out_of_dB. lia. Qed.

Lemma eq_common_spec fo q boostdB basegaindB fs :
  is_i16 fo → is_i16 q → is_i16 boostdB → is_i16 basegaindB → fs <= fs_limit →
  eq_common fo q boostdB basegaindB fs
  = Some (if eq_refused fo boostdB basegaindB fs then None
          else Some (eq_Qfo fo fs, linear_gain (boostdB + 1440), tangent (eq_half fo q fs),
                     linear_gain (2 * basegaindB + 1440))).
Proof.
  intros Hfo Hq Hb Hg Hfs. unfold is_i16 in *. unfold eq_common, eq_refused.
  destruct (Z.leb_spec (Z.shiftr fs 1) fo) as [?|S1]; [done|].
  destruct (Z.leb_spec fo 0) as [?|S2]; [done|]. cbn [orb].
  rewrite Z.shiftr_div_pow2 in S1 by lia.
  assert (S3 : 2 * fo + 2 <= fs) by (clear -S1; Z.to_euclidean_division_equations; lia).
  pose proof (eq_limits fo q fs S2 ltac:(lia)) as (L1 & L2 & L3 & L4 & L5 & L6).
  rewrite mul_int by lia. rewrite quot_int by lia. rewrite add_int by lia. value.
  rewrite (i16_id (Z.quot (1113 * fo) fs + 1)) by (unfold is_i16; lia).
  replace (if q <? Z.quot (1113 * fo) fs + 1 then Z.quot (1113 * fo) fs + 1 else q) with (eq_q fo q fs)
    by (unfold eq_q; destruct (Z.ltb_spec q (Z.quot (1113 * fo) fs + 1)); lia).
  rewrite shl_int by lia. rewrite quot_int by lia. value. fold (eq_df fo q fs).
  rewrite (i16_id (eq_df fo q fs)) by (unfold is_i16; lia).
  rewrite shl_int by lia. rewrite quot_int by lia. value.
  rewrite (i16_id (Z.quot (eq_df fo q fs * 2 ^ 13) fs)) by (unfold is_i16; lia).
  rewrite shl_int by lia. rewrite quot_int by lia. value. fold (eq_Qfo fo fs).
  rewrite (i16_id (eq_Qfo fo fs)) by (unfold is_i16; lia).
  fold (out_of_dB boostdB). destruct (out_of_dB boostdB) eqn:Ob; [done|]. cbn [orb].
  apply out_of_dB_false in Ob.
  rewrite mul_int by lia. value. rewrite (i16_id (boostdB * 5)) by (unfold is_i16; lia).
  rewrite add_int by lia. rewrite quot_int by lia. value.
  rewrite boost_index by lia.
  rewrite i16_id by (unfold is_i16; lia). rewrite entry_gain by lia. value.
  fold (eq_half fo q fs). destruct (Z.leb_spec 2048 (eq_half fo q fs)) as [?|_]; [lia|].
  rewrite quot_int by lia. fold (eq_half fo q fs). rewrite sub_int by lia.
  rewrite !entry_cos by lia. pose proof (cosine_bounds (eq_half fo q fs)) as C1.
  pose proof (cosine_bounds (2048 - eq_half fo q fs)) as C2.
  rewrite shl_int by lia. rewrite quot_int by lia. value. fold (tangent (eq_half fo q fs)).
  pose proof (tangent_bounds (eq_half fo q fs) L4) as [T _].
  rewrite (i16_id (tangent _)) by (unfold is_i16; lia).
  fold (out_of_dB basegaindB). destruct (out_of_dB basegaindB) eqn:Og; [done|]. apply out_of_dB_false in Og.
  rewrite mul_int by lia. rewrite add_int by lia. rewrite quot_int by lia. value.
  rewrite gain_index by lia.
  rewrite i16_id by (unfold is_i16; lia). rewrite entry_gain by lia. done.
Qed.

(** ** Scaling *)

Lemma overflow_bits_from fuel m n : overflow_bits fuel m n = n + overflow_bits fuel m 0.
Proof.
  revert m n. induction fuel as [|fuel IH]; intros m n; cbn [overflow_bits]; [lia|].
  destruct (32767 <? m); [|lia]. rewrite (IH _ (n + 1)), (IH _ (0 + 1)). lia.
Qed.

(** The number of bits is the least one that brings the numbers into range. *)
Lemma overflow_bits_spec fuel m :
  0 <= m < 2 ^ (15 + Z.of_nat fuel) →
  let n := overflow_bits fuel m 0 in
  0 <= n <= Z.of_nat fuel ∧ m < 2 ^ 15 * 2 ^ n ∧ (0 < n → 2 ^ 15 * 2 ^ (n - 1) <= m).
Proof.
  revert m. induction fuel as [|fuel IH]; intros m H; cbn [overflow_bits].
  { rewrite Z.add_0_r in H. change (2 ^ 0) with 1. lia. }
  destruct (Z.ltb_spec 32767 m) as [Hm|Hm]; [|change (2 ^ 0) with 1; lia].
  rewrite overflow_bits_from. rewrite Z.quot_div_nonneg by lia.
  assert (E : 15 + Z.of_nat (S fuel) = Z.succ (15 + Z.of_nat fuel)) by lia.
  rewrite E, Z.pow_succ_r in H by lia.
  pose proof (Z.div_mod m 2 ltac:(lia)) as D. pose proof (Z.mod_pos_bound m 2 ltac:(lia)) as R.
  destruct (IH (m / 2) ltac:(lia)) as (I1 & I2 & I3). set (n := overflow_bits fuel (m / 2) 0) in *.
  replace (0 + 1 + n) with (Z.succ n) by lia. rewrite Z.pow_succ_r by lia.
  replace (Z.succ n - 1) with n by lia. repeat split; [lia..|]. intros _.
  destruct (Z.eq_dec n 0) as [->|Hn]; [change (2 ^ 0) with 1; lia|].
  specialize (I3 ltac:(lia)). replace n with (Z.succ (n - 1)) at 1 by lia. rewrite Z.pow_succ_r by lia. lia.
Qed.

(** The bits by which [prevent_overflow] scales. *)
Definition bits (b0 b1 b2 : Z) : Z := overflow_bits 32 (Z.max (Z.max (Z.abs b0) (Z.abs b1)) (Z.abs b2)) 0.

Lemma abso_abs b : - 2 ^ 31 < b < 2 ^ 31 → abso b = lit (Z.abs b).
Proof.
  intros H. unfold abso. destruct (Z.ltb_spec 0 b); [f_equal; lia|]. rewrite neg_int by lia. f_equal; lia.
Qed.

Lemma shiftr_range b n : 0 <= n → Z.abs b < 2 ^ 15 * 2 ^ n → is_i16 (Z.shiftr b n).
Proof.
  intros Hn H. unfold is_i16. rewrite Z.shiftr_div_pow2 by done.
  split; [apply Z.div_le_lower_bound|apply Z.div_lt_upper_bound]; lia.
Qed.

(** The scaled numerator fits into 16 bits, and the gain makes up for it as far as 16 bits go. *)
Lemma prevent_overflow_spec b0 b1 b2 gain :
  Z.abs b0 < 2 ^ 31 → Z.abs b1 < 2 ^ 31 → Z.abs b2 < 2 ^ 31 → 0 <= gain < 2 ^ 15 →
  let n := bits b0 b1 b2 in
  prevent_overflow b0 b1 b2 gain
  = Some (Z.shiftr b0 n, Z.shiftr b1 n, Z.shiftr b2 n, Z.min 32767 (gain * 2 ^ n))
  ∧ 0 <= n <= 16 ∧ is_i16 (Z.shiftr b0 n) ∧ is_i16 (Z.shiftr b1 n) ∧ is_i16 (Z.shiftr b2 n).
Proof.
  intros H0 H1 H2 Hg n. unfold prevent_overflow. rewrite !abso_abs by lia. value. value. value.
  fold (bits b0 b1 b2). fold n.
  assert (N : 0 <= n <= 16
    ∧ Z.max (Z.max (Z.abs b0) (Z.abs b1)) (Z.abs b2) < 2 ^ 15 * 2 ^ n).
  { subst n. unfold bits. pose proof (overflow_bits_spec 32 (Z.max (Z.max (Z.abs b0) (Z.abs b1)) (Z.abs b2))) as S.
    cbv zeta in S. set (n := overflow_bits _ _ _) in *.
    destruct S as (S1 & S2 & S3); [change (15 + Z.of_nat 32) with 47; lia|].
    repeat split; [lia| |lia]. destruct (Z.le_gt_cases n 16) as [?|Hn]; [done|].
    specialize (S3 ltac:(lia)). pose proof (Z.pow_le_mono_r 2 16 (n - 1) ltac:(lia) ltac:(lia)). lia. }
  destruct N as [N1 N2]. pose proof (Z.pow_pos_nonneg 2 n ltac:(lia) ltac:(lia)) as P.
  split; [|split; [done|]; repeat split; apply shiftr_range; lia].
  destruct (Z.eqb_spec n 0) as [->|Hn].
  { rewrite !Z.shiftr_0_r. change (2 ^ 0) with 1. repeat f_equal. lia. }
  pose proof (Z.pow_le_mono_r 2 n 16 ltac:(lia) ltac:(lia)) as P2.
  rewrite shl_int by nia. value. repeat f_equal. destruct (Z.ltb_spec 32767 (gain * 2 ^ n)); lia.
Qed.

(** ** The peaking filter: the coefficients *)

Section peak.
Variables (Qfo Qk G : Z).

Definition peak_b : Z := Z.quot (16384 * Qk) (Qk + G).
Definition harmonic : Z := Z.quot (G * Qk) (Qk + G).
Definition peak_x : Z := Z.shiftr (harmonic * Qk) 10.
Definition centre : Z := if Qfo <=? 2048 then cosine Qfo else - cosine (4096 - Qfo).
Definition peak_a1 : Z := Z.quot (- (2 * centre * Qk)) (Qk + G).
Definition peak_a2 : Z := Z.quot ((Qk - G) * 2 ^ 14) (Qk + G).

Hypothesis HQ : 1 <= Qk <= 11544.
Hypothesis HG : 0 <= G <= 32397.
Hypothesis Hfo : 0 <= Qfo <= 4095.

Lemma peak_b_bounds : (Qk + G) * peak_b <= 16384 * Qk < (Qk + G) * peak_b + (Qk + G) ∧ 0 <= peak_b <= 16384.
Proof.
  pose proof (quot_bounds (16384 * Qk) (Qk + G) ltac:(lia) ltac:(lia)) as [[E1 E2] E0].
  unfold peak_b. set (b := Z.quot _ _) in *. nia.
Qed.

Lemma harmonic_bounds :
  (Qk + G) * harmonic <= G * Qk < (Qk + G) * harmonic + (Qk + G) ∧ 0 <= harmonic <= 11544 ∧ harmonic <= Qk.
Proof.
  pose proof (quot_bounds (G * Qk) (Qk + G) ltac:(nia) ltac:(lia)) as [[E1 E2] E0].
  unfold harmonic. set (h := Z.quot _ _) in *. nia.
Qed.

Lemma peak_x_bounds :
  1024 * peak_x <= harmonic * Qk < 1024 * peak_x + 1024 ∧ 0 <= peak_x <= 131071.
Proof.
  pose proof harmonic_bounds as (_ & H1 & H2). unfold peak_x.
  rewrite Z.shiftr_div_pow2 by lia. change (2 ^ 10) with 1024.
  assert (0 <= harmonic * Qk <= 11544 * 11544) by nia.
  pose proof (Z.div_mod (harmonic * Qk) 1024 ltac:(lia)). pose proof (Z.mod_pos_bound (harmonic * Qk) 1024 ltac:(lia)).
  lia.
Qed.

(** At [Qfo = 0] the cosine is one, nowhere else. *)
Lemma centre_bounds : Z.abs centre <= 16384 ∧ (Qfo ≠ 0 → Z.abs centre <= 16383) ∧ -16383 <= centre.
Proof.
  unfold centre. destruct (Z.leb_spec Qfo 2048).
  - pose proof (cosine_bounds Qfo ltac:(lia)). lia.
  - pose proof (cosine_bounds (4096 - Qfo) ltac:(lia)). lia.
Qed.

(** [A1] is the largest multiple below in absolute value, [A2] the quotient towards zero. *)
Lemma peak_a1_abs : (Qk + G) * Z.abs peak_a1 <= 2 * Z.abs centre * Qk ∧ Z.abs peak_a1 <= 32768.
Proof.
  pose proof centre_bounds as [C _]. unfold peak_a1. rewrite quot_neg, Z.abs_opp.
  rewrite <- Z.quot_abs by lia. rewrite !Z.abs_mul, (Z.abs_eq 2), (Z.abs_eq Qk), (Z.abs_eq (Qk + G)) by lia.
  pose proof (quot_bounds (2 * Z.abs centre * Qk) (Qk + G) ltac:(nia) ltac:(lia)) as [[E1 E2] E0].
  set (a := Z.quot _ _) in *. clearbody a. split; [lia|]. nia.
Qed.

Lemma peak_a1_range : -32768 <= peak_a1 <= 32767.
Proof.
  pose proof peak_a1_abs as [A A']. pose proof centre_bounds as (C1 & C2 & C3).
  destruct (Z.le_gt_cases peak_a1 0); [lia|].
  assert (centre < 0 ∨ 0 <= centre) as [Hc|Hc] by lia.
  - assert (Z.abs centre <= 16383) by lia. nia.
  - assert (peak_a1 <= 0); [|lia]. unfold peak_a1. rewrite quot_neg.
    pose proof (Z.quot_pos (2 * centre * Qk) (Qk + G) ltac:(nia) ltac:(lia)). lia.
Qed.

(** The branch of the code that has [A1]. *)
Lemma peak_a1_value :
  (if Qfo <=? 2048 then (- ((entry cos_Table Qfo * Qk) << 1) / (Qk + G))%int_expr
   else (((entry cos_Table (4096 - Qfo) * Qk) << 1) / (Qk + G))%int_expr) = lit peak_a1.
Proof.
  unfold peak_a1, centre. rewrite add_int by lia. destruct (Z.leb_spec Qfo 2048) as [H|H].
  - rewrite entry_cos by lia. pose proof (cosine_bounds Qfo ltac:(lia)) as (C & _ & _).
    set (c := cosine Qfo) in *. clearbody c. assert (0 <= c * Qk <= 16384 * 11544) by nia.
    rewrite mul_int by lia. rewrite shl_int by lia. rewrite neg_int by lia. rewrite quot_int by lia.
    do 2 f_equal. lia.
  - rewrite sub_int by lia. rewrite entry_cos by lia.
    pose proof (cosine_bounds (4096 - Qfo) ltac:(lia)) as (C & _ & _).
    set (c := cosine (4096 - Qfo)) in *. clearbody c. assert (0 <= c * Qk <= 16384 * 11544) by nia.
    rewrite mul_int by lia. rewrite shl_int by lia. rewrite quot_int by lia. do 2 f_equal. lia.
Qed.

(** [16384 + A2] is twice [16384 * Qk] by [Qk + G], rounded down from [Qk >= G] on and up below. *)
Lemma peak_a2_bounds :
  let y := 16384 + peak_a2 in
  (if Qk <? G then (Qk + G) * y - (Qk + G) < 32768 * Qk <= (Qk + G) * y
   else (Qk + G) * y <= 32768 * Qk < (Qk + G) * y + (Qk + G))
  ∧ 0 < y <= 32768 ∧ (G ≠ 0 → y < 32768).
Proof.
  intros y. subst y. unfold peak_a2. destruct (Z.ltb_spec Qk G) as [H|H].
  - replace ((Qk - G) * 2 ^ 14) with (- ((G - Qk) * 2 ^ 14)) by lia. rewrite quot_neg.
    pose proof (quot_bounds ((G - Qk) * 2 ^ 14) (Qk + G) ltac:(lia) ltac:(lia)) as [[E1 E2] E0].
    set (a := Z.quot _ _) in *. clearbody a. repeat split; nia.
  - pose proof (quot_bounds ((Qk - G) * 2 ^ 14) (Qk + G) ltac:(lia) ltac:(lia)) as [[E1 E2] E0].
    set (a := Z.quot _ _) in *. clearbody a. repeat split; nia.
Qed.

(** The triangle of stability. *)
Lemma peak_triangle : Z.abs peak_a1 <= 16384 + peak_a2 ∧ (Qfo ≠ 0 → Z.abs peak_a1 < 16384 + peak_a2).
Proof.
  pose proof peak_a1_abs as [A _]. pose proof centre_bounds as (C1 & C2 & _).
  pose proof peak_a2_bounds as [Y _]. cbv zeta in Y. set (y := 16384 + peak_a2) in *.
  set (a := Z.abs peak_a1) in *. set (c := Z.abs centre) in *. clearbody y a c.
  assert (C3 : 2 * c * Qk <= 32768 * Qk) by nia.
  assert (C4 : Qfo ≠ 0 → 2 * c * Qk <= 32768 * Qk - 2 * Qk) by nia.
  clear C1 C2. set (D := Qk + G) in *. assert (0 < D) by lia.
  destruct (Z.ltb_spec Qk G); split; [|intros Hn; specialize (C4 Hn)|apply Z.lt_succ_r|intros Hn; specialize (C4 Hn)];
    apply (Z.mul_le_mono_pos_l _ _ D) || apply (Z.mul_lt_mono_pos_l D); lia.
Qed.

(** At zero frequency and at half the sample rate the sum of the numerator is that of the denominator up
    to rounding. *)
Lemma peak_edges : -2 <= 2 * peak_b - (16384 + peak_a2) <= 0.
Proof.
  pose proof peak_b_bounds as [B _]. pose proof peak_a2_bounds as [Y _]. cbv zeta in Y.
  set (y := 16384 + peak_a2) in *. clearbody y.
  destruct (Z.ltb_spec Qk G); nia.
Qed.

(** At the centre the numerator is [(Qk / 4096) ^ 2] times the denominator up to rounding. *)
Lemma peak_top : Z.abs (2 ^ 25 * peak_x - Qk ^ 2 * (16384 - peak_a2)) <= 2 ^ 15 * (1024 + 2 * Qk) + Qk ^ 2.
Proof.
  pose proof harmonic_bounds as (H & _ & _). pose proof peak_x_bounds as [X _].
  pose proof peak_a2_bounds as [Y _]. cbv zeta in Y.
  assert (Y' : Z.abs ((Qk + G) * (16384 - peak_a2) - 32768 * G) < Qk + G) by (destruct (Qk <? G); lia).
  clear Y. set (y := 16384 - peak_a2) in *. set (h := harmonic) in *. set (x := peak_x) in *. clearbody x h y.
  assert (T1 : (Qk + G) * (h * Qk) <= G * Qk * Qk < (Qk + G) * (h * Qk) + (Qk + G) * Qk) by nia.
  assert (T2 : Z.abs ((Qk + G) * (Qk ^ 2 * y) - 32768 * (G * Qk * Qk)) < (Qk + G) * Qk ^ 2).
  { replace ((Qk + G) * (Qk ^ 2 * y) - 32768 * (G * Qk * Qk)) with (Qk ^ 2 * ((Qk + G) * y - 32768 * G)) by ring.
    rewrite Z.abs_mul, (Z.abs_eq (Qk ^ 2)) by nia. nia. }
  assert (T3 : (Qk + G) * (1024 * x) <= (Qk + G) * (h * Qk) < (Qk + G) * (1024 * x) + 1024 * (Qk + G)) by nia.
  assert (P : 0 < Qk + G) by lia. clear H X Y' HQ HG Hfo.
  set (s := Qk + G) in *. set (u := Qk ^ 2) in *. set (w := G * Qk * Qk) in *. clearbody s u w.
  apply (Z.mul_le_mono_pos_l _ _ s); [done|].
  replace (s * Z.abs (2 ^ 25 * x - u * y)) with (Z.abs (2 ^ 15 * (s * (1024 * x)) - s * (u * y)))
    by (rewrite <- (Z.abs_eq s) at 3 by lia; rewrite <- Z.abs_mul; f_equal; ring).
  replace (s * (2 ^ 15 * (1024 + 2 * Qk) + u)) with (2 ^ 15 * (1024 * s + 2 * (s * Qk)) + s * u) by ring.
  assert (0 <= s * Qk) by lia. lia.
Qed.

End peak.

(** ** The peaking filter: the function *)

(** What the settings are turned into. *)
Definition eq_gain (p : FILTER_EQ_CALC_PARA_T) : Z := linear_gain (boostdB p + 1440).
Definition eq_tangent (p : FILTER_EQ_CALC_PARA_T) (fs : Z) : Z := tangent (eq_half (fo p) (unEqPara p) fs).
Definition eq_centre (p : FILTER_EQ_CALC_PARA_T) (fs : Z) : Z := eq_Qfo (fo p) fs.
Definition eq_base (p : FILTER_EQ_CALC_PARA_T) : Z := linear_gain (2 * basegaindB p + 1440).

(** A band that is switched on, with settings in their 16-bit fields. *)
Definition peaking (p : FILTER_EQ_CALC_PARA_T) : Prop :=
  isFilterOn p = true ∧ eEqParaType p = FILTER_EQPARA_NORMAL_EQ ∧
  is_i16 (fo p) ∧ is_i16 (unEqPara p) ∧ is_i16 (boostdB p) ∧ is_i16 (basegaindB p).

Definition refused (p : FILTER_EQ_CALC_PARA_T) (fs : Z) : bool :=
  eq_refused (fo p) (boostdB p) (basegaindB p) fs.

Lemma not_refused p fs :
  fs <= fs_limit → refused p fs = false →
  0 < fo p ∧ 2 * fo p + 2 <= fs ∧ -720 <= boostdB p <= 180 ∧ -720 <= basegaindB p <= 180.
Proof.
  unfold refused, eq_refused. intros _ H. rewrite !orb_false_iff in H. destruct H as [[[H1 H2] H3] H4].
  apply out_of_dB_false in H3, H4. rewrite Z.shiftr_div_pow2 in H1 by lia. clear -H1 H2 H3 H4.
  change (2 ^ 1) with 2 in H1. Z.to_euclidean_division_equations. lia.
Qed.

(** The ranges of the three numbers. *)
Lemma eq_ranges p fs :
  fs <= fs_limit → refused p fs = false →
  1 <= eq_gain p <= 11544 ∧ 0 <= eq_tangent p fs <= 32397 ∧ 0 <= eq_centre p fs <= 4095
  ∧ 0 <= eq_base p < 2 ^ 15.
Proof.
  intros Hf H. destruct (not_refused p fs Hf H) as (F1 & F2 & F3 & F4).
  pose proof (eq_limits (fo p) (unEqPara p) fs F1 ltac:(lia)) as (_ & _ & _ & L4 & L5 & _).
  pose proof (linear_gain_bounds (boostdB p + 1440) ltac:(lia)).
  pose proof (linear_gain_bounds (2 * basegaindB p + 1440) ltac:(lia)).
  pose proof (tangent_bounds _ L4) as [T _]. unfold eq_gain, eq_tangent, eq_centre, eq_base. lia.
Qed.

Section coefficients.
Variables (p : FILTER_EQ_CALC_PARA_T) (fs : Z).

(** The numerator before it is scaled, and the bits it is scaled by. *)
Definition raw_b0 : Z := peak_b (eq_gain p) (eq_tangent p fs) + peak_x (eq_gain p) (eq_tangent p fs).
Definition raw_b2 : Z := peak_b (eq_gain p) (eq_tangent p fs) - peak_x (eq_gain p) (eq_tangent p fs).
Definition raw_a1 : Z := peak_a1 (eq_centre p fs) (eq_gain p) (eq_tangent p fs).
Definition raw_a2 : Z := peak_a2 (eq_gain p) (eq_tangent p fs).
Definition raw_bits : Z := bits raw_b0 raw_a1 raw_b2.

Lemma raw_ranges :
  fs <= fs_limit → refused p fs = false →
  Z.abs raw_b0 < 2 ^ 18 ∧ Z.abs raw_b2 < 2 ^ 18 ∧ -32768 <= raw_a1 <= 32767 ∧ -16384 < raw_a2 <= 16384.
Proof.
  intros Hf H. destruct (eq_ranges p fs Hf H) as (R1 & R2 & R3 & _).
  pose proof (peak_b_bounds _ _ R1 R2) as [_ B]. pose proof (peak_x_bounds _ _ R1 R2) as [_ X].
  pose proof (peak_a1_range _ _ _ R1 R2 R3) as A1. pose proof (peak_a2_bounds _ _ R1 R2) as (_ & A2 & _).
  unfold raw_b0, raw_b2, raw_a1, raw_a2. lia.
Qed.

Definition eq_coefficients : IIR_FILTER_PARA_T :=
  IIR (Z.shiftr raw_b0 raw_bits) (Z.shiftr raw_a1 raw_bits) (Z.shiftr raw_b2 raw_bits) 16384 raw_a1 raw_a2.
Definition eq_scaled_gain : Z := Z.min 32767 (eq_base p * 2 ^ raw_bits).

Lemma Filter_CalcEQ_spec filterPara sGain :
  peaking p → fs <= fs_limit →
  Filter_CalcEQ p fs filterPara sGain
  = Some (if refused p fs then (false, filterPara, sGain) else (true, eq_coefficients, eq_scaled_gain)).
Proof.
  intros (On & Ty & I1 & I2 & I3 & I4) Hf. unfold Filter_CalcEQ. rewrite On, Ty. cbn [Z.eqb FILTER_EQPARA_NORMAL_EQ].
  rewrite eq_common_spec by done. fold (refused p fs). destruct (refused p fs) eqn:Hr; [done|].
  fold (eq_centre p fs) (eq_tangent p fs) (eq_gain p) (eq_base p).
  destruct (eq_ranges p fs Hf Hr) as (R1 & R2 & R3 & R4).
  pose proof raw_ranges Hf Hr as (W0 & W2 & W1 & WA).
  pose proof (peak_b_bounds _ _ R1 R2) as [_ B]. pose proof (peak_x_bounds _ _ R1 R2) as [_ X].
  pose proof (harmonic_bounds _ _ R1 R2) as (_ & H1 & _). pose proof (centre_bounds _ R3) as (C & _ & _).
  assert (Hmul : 0 <= eq_tangent p fs * eq_gain p <= 32397 * 11544) by nia.
  assert (Hx : 0 <= harmonic (eq_gain p) (eq_tangent p fs) * eq_gain p <= 11544 * 11544) by nia.
  rewrite (mul_int 16384) by lia. rewrite add_int by lia. rewrite quot_int by lia. value.
  rewrite mul_int by lia. rewrite quot_int by lia.
  fold (harmonic (eq_gain p) (eq_tangent p fs)). rewrite mul_int by lia.
  rewrite shr_int by lia. value. fold (peak_x (eq_gain p) (eq_tangent p fs)) (peak_b (eq_gain p) (eq_tangent p fs)).
  rewrite add_int by lia. value. destruct (Z.leb_spec 2048 (Z.quot (eq_centre p fs) 2)) as [Hq|_].
  { pose proof (quot_bounds (eq_centre p fs) 2 ltac:(lia) ltac:(lia)). lia. }
  pose proof (peak_a1_value (eq_centre p fs) (eq_gain p) (eq_tangent p fs) R1 R2 R3) as A1.
  rewrite (add_int (eq_gain p)) in A1 by lia. rewrite A1. value.
  rewrite sub_int by lia. value.
  rewrite sub_int by lia. rewrite shl_int by lia. rewrite add_int by lia. rewrite quot_int by lia. value.
  rewrite (Z.add_comm (eq_tangent p fs)).
  fold (peak_a2 (eq_gain p) (eq_tangent p fs)). fold raw_a1 raw_a2 raw_b0 raw_b2.
  destruct (prevent_overflow_spec raw_b0 raw_a1 raw_b2 (eq_base p)) as (E & N & N0 & N1 & N2); [lia..|].
  unfold eq_coefficients, eq_scaled_gain, raw_bits, store_paras. rewrite E. clear E.
  set (n := bits raw_b0 raw_a1 raw_b2) in *. clearbody n. pose proof (Z.pow_nonneg 2 n ltac:(lia)).
  rewrite (i16_id (Z.min _ _)) by (unfold is_i16; nia).
  rewrite (i16_id raw_a1), (i16_id raw_a2) by (unfold is_i16; lia). by rewrite !i16_id by done.
Qed.
End coefficients.

(** ** What the function guarantees *)

Definition fits (c : IIR_FILTER_PARA_T) : Prop :=
  is_i16 (B0 c) ∧ is_i16 (B1 c) ∧ is_i16 (B2 c) ∧ is_i16 (A0 c) ∧ is_i16 (A1 c) ∧ is_i16 (A2 c).

(** C12. For a peaking band with 16-bit settings and sample rates up to 71232, [Filter_CalcEQ] stays within
    the defined arithmetic of C.  It refuses the band exactly when the centre is not between 0 and half the
    sample rate, or a gain is out of range; otherwise the coefficients are those of the formulas, without a
    conversion that loses bits, and the gain is the base gain scaled like the numerator, as far as 16 bits go. *)
Theorem Filter_CalcEQ_total p fs filterPara sGain :
  peaking p → fs <= fs_limit →
  Filter_CalcEQ p fs filterPara sGain
  = Some (if refused p fs then (false, filterPara, sGain) else (true, eq_coefficients p fs, eq_scaled_gain p fs))
  ∧ (refused p fs = false → fits (eq_coefficients p fs) ∧ eq_base p <= eq_scaled_gain p fs <= 32767).
Proof.
  intros Hp Hf. split; [by apply Filter_CalcEQ_spec|]. intros Hr.
  destruct (raw_ranges p fs Hf Hr) as (W0 & W2 & W1 & WA). destruct (eq_ranges p fs Hf Hr) as (_ & _ & _ & R4).
  destruct (prevent_overflow_spec (raw_b0 p fs) (raw_a1 p fs) (raw_b2 p fs) (eq_base p))
    as (_ & N & N0 & N1 & N2); [lia..|].
  unfold fits, eq_coefficients, eq_scaled_gain, raw_bits. cbn [B0 B1 B2 A0 A1 A2].
  set (n := bits _ _ _) in *. clearbody n. pose proof (Z.pow_pos_nonneg 2 n ltac:(lia) ltac:(lia)).
  split; [|nia]. unfold is_i16 in *. lia.
Qed.

Definition voice_band : FILTER_EQ_CALC_PARA_T := EqPara true FILTER_EQPARA_NORMAL_EQ 1000 512 60 0.

Theorem Filter_CalcEQ_total_witness :
  peaking voice_band ∧ refused voice_band 44100 = false ∧
  Filter_CalcEQ voice_band 44100 all_pass 0
  = Some (true, eq_coefficients voice_band 44100, eq_scaled_gain voice_band 44100).
Proof.
  assert (P : peaking voice_band) by (repeat split; reflexivity || discriminate).
  split; [done|]. split; [vm_compute; reflexivity|].
  exact (proj1 (Filter_CalcEQ_total voice_band 44100 all_pass 0 P ltac:(unfold fs_limit; lia))).
Defined.

(** One more hertz, and the bandwidth wraps around: a narrow band at 64 Hz indexes [cos_Table] below its
    start. *)
Lemma fs_limit_sharp :
  peaking (EqPara true FILTER_EQPARA_NORMAL_EQ 64 1 60 0)
  ∧ Filter_CalcEQ (EqPara true FILTER_EQPARA_NORMAL_EQ 64 1 60 0) (fs_limit + 1) all_pass 0 = None.
Proof. split; [repeat split; reflexivity || discriminate|vm_compute; reflexivity]. Qed.
