(* ===== verification/EqStable.v ===== *)
(** * Stability and gains of the equaliser's filters (audio/sc8830/vb_effect/v2/filter_calc.c)

    The poles of the filters that [Filter_CalcEQ] and the low-cut calculation make, and what the filters do at
    the edges and in the middle of their band, from the facts of EqRange. *)

From Stdlib Require Import Reals Lra Psatz.
From stdpp Require Import list.
From S2P Require Import Prelude CArith EqTables EqCalc EqRange.

Open Scope Z_scope.

(** ** Poles *)

(** [x + y * i] is a root of [a0 * z ^ 2 + a1 * z + a2]. *)
Definition is_root (a0 a1 a2 x y : R) : Prop :=
  (a0 * (x * x - y * y) + a1 * x + a2 = 0 ∧ 2 * a0 * x * y + a1 * y = 0)%R.

(** The poles of a biquad. *)
Definition pole (c : IIR_FILTER_PARA_T) (x y : R) : Prop := is_root (IZR (A0 c)) (IZR (A1 c)) (IZR (A2 c)) x y.

Lemma root_pair a0 a1 a2 x y :
  (0 < a0)%R → is_root a0 a1 a2 x y → y ≠ 0%R → (a0 * (x * x + y * y) = a2)%R.
Proof.
  intros Ha [E1 E2] Hy.
  assert (E : (2 * a0 * x + a1 = 0)%R) by (apply (Rmult_eq_reg_r y); [lra|done]). nra.
Qed.

(** No real root outside on the right; the left is the mirror image. *)
Lemma right_of_one a0 a1 a2 x :
  (0 < a0)%R → (a2 <= a0)%R → (- a1 <= a0 + a2)%R → (1 < x)%R → (0 < a0 * (x * x) + a1 * x + a2)%R.
Proof.
  intros Ha Hs Ht Hx. apply (Rlt_le_trans _ ((x - 1) * (a0 * x - a2))); [apply Rmult_lt_0_compat; nra|nra].
Qed.

Lemma at_one a0 a1 a2 x :
  (0 < a0)%R → (a2 <= a0)%R → (- a1 < a0 + a2)%R → (1 <= x)%R → (0 < a0 * (x * x) + a1 * x + a2)%R.
Proof.
  intros Ha Hs Ht [Hx| <-]; [apply right_of_one; lra|lra].
Qed.

Lemma abs_between a b : (Rabs a <= b → - a <= b ∧ a <= b)%R.
Proof. unfold Rabs. destruct (Rcase_abs a); lra. Qed.
Lemma abs_below a b : (Rabs a < b → - a < b ∧ a < b)%R.
Proof. unfold Rabs. destruct (Rcase_abs a); lra. Qed.

Lemma outside x : (1 < x * x + 0 * 0 → 1 < x ∨ 1 < - x)%R.
Proof. intros H. destruct (Rle_lt_dec 0 x); [left|right]; nra. Qed.
Lemma not_inside x : (1 <= x * x + 0 * 0 → 1 <= x ∨ 1 <= - x)%R.
Proof. intros H. destruct (Rle_lt_dec 0 x); [left|right]; nra. Qed.

(** The triangle of the coefficients: with its border the roots are in the closed unit disc, without it in the
    open one. *)
Lemma triangle_closed a0 a1 a2 x y :
  (0 < a0)%R → (Rabs a1 <= a0 + a2)%R → (a2 <= a0)%R → is_root a0 a1 a2 x y → (x * x + y * y <= 1)%R.
Proof.
  intros Ha Ht Hs Hr. destruct (Req_dec y 0) as [->|Hy].
  - destruct Hr as [E _]. apply abs_between in Ht as [T1 T2]. apply Rnot_lt_le. intros [Hx|Hx]%outside.
    + pose proof (right_of_one a0 a1 a2 x Ha Hs T1 Hx). lra.
    + pose proof (right_of_one a0 (- a1) a2 (- x) Ha Hs ltac:(lra) Hx). lra.
  - pose proof (root_pair _ _ _ _ _ Ha Hr Hy). nra.
Qed.

Lemma triangle_open a0 a1 a2 x y :
  (0 < a0)%R → (Rabs a1 < a0 + a2)%R → (a2 < a0)%R → is_root a0 a1 a2 x y → (x * x + y * y < 1)%R.
Proof.
  intros Ha Ht Hs Hr. destruct (Req_dec y 0) as [->|Hy].
  - destruct Hr as [E _]. apply abs_below in Ht as [T1 T2]. apply Rnot_le_lt. intros [Hx|Hx]%not_inside.
    + pose proof (at_one a0 a1 a2 x Ha ltac:(lra) T1 Hx). lra.
    + pose proof (at_one a0 (- a1) a2 (- x) Ha ltac:(lra) ltac:(lra) Hx). lra.
  - pose proof (root_pair _ _ _ _ _ Ha Hr Hy). nra.
Qed.

(** The same for the integers of a biquad. *)
Lemma biquad_closed c x y :
  0 < A0 c → Z.abs (A1 c) <= A0 c + A2 c → A2 c <= A0 c → pole c x y → (x * x + y * y <= 1)%R.
Proof.
  intros H0 H1 H2. apply triangle_closed; [by apply IZR_lt| |by apply IZR_le].
  rewrite <- abs_IZR, <- plus_IZR. by apply IZR_le.
Qed.

Lemma biquad_open c x y :
  0 < A0 c → Z.abs (A1 c) < A0 c + A2 c → A2 c < A0 c → pole c x y → (x * x + y * y < 1)%R.
Proof.
  intros H0 H1 H2. apply triangle_open; [by apply IZR_lt| |by apply IZR_lt].
  rewrite <- abs_IZR, <- plus_IZR. by apply IZR_lt.
Qed.

(** ** The peaking filter *)

(** C11. The filter of every band that [Filter_CalcEQ] accepts has its poles in the closed unit disc; they are
    in the open one, so that the filter is stable, when the centre is at least one step of the table of
    cosines and the bandwidth two. *)
Theorem Filter_CalcEQ_stable p fs filterPara sGain c g x y :
  peaking p → fs <= fs_limit → Filter_CalcEQ p fs filterPara sGain = Some (true, c, g) → pole c x y →
  (x * x + y * y <= 1)%R
  ∧ (fs <= 8192 * fo p → 1 <= eq_half (fo p) (unEqPara p) fs → (x * x + y * y < 1)%R).
Proof.
  intros Hp Hf Hc Hz. rewrite Filter_CalcEQ_spec in Hc by done. destruct (refused p fs) eqn:Hr; [done|].
  injection Hc as <- _. destruct (eq_ranges p fs Hf Hr) as (R1 & R2 & R3 & _).
  pose proof (peak_triangle _ _ _ R1 R2 R3) as [T1 T2]. pose proof (peak_a2_bounds _ _ R1 R2) as (_ & Y1 & Y2).
  split; [apply (biquad_closed (eq_coefficients p fs)); try done; cbn; fold (raw_a1 p fs) (raw_a2 p fs);
          unfold raw_a1, raw_a2; lia|].
  intros Hs Hh. destruct (not_refused p fs Hf Hr) as (F1 & F2 & _).
  pose proof (eq_limits (fo p) (unEqPara p) fs F1 ltac:(lia)) as (_ & _ & _ & L4 & _).
  pose proof (tangent_bounds _ L4) as [_ T]. fold (eq_tangent p fs) in T.
  assert (HQ : eq_centre p fs ≠ 0).
  { pose proof (quot_bounds (fo p * 2 ^ 13) fs ltac:(lia) ltac:(lia)). unfold eq_centre, eq_Qfo. nia. }
  apply (biquad_open (eq_coefficients p fs)); try done; cbn; unfold raw_a1, raw_a2; lia.
Qed.

Theorem Filter_CalcEQ_stable_witness :
  fs_limit >= 44100 ∧ 1 <= eq_half (fo voice_band) (unEqPara voice_band) 44100 ∧
  ∀ x y, pole (eq_coefficients voice_band 44100) x y → (x * x + y * y < 1)%R.
Proof.
  split; [vm_compute; discriminate|]. split; [vm_compute; discriminate|]. intros x y Hz.
  assert (P : peaking voice_band) by (repeat split; reflexivity || discriminate).
  apply (Filter_CalcEQ_stable voice_band 44100 all_pass 0 (eq_coefficients voice_band 44100)
           (eq_scaled_gain voice_band 44100) x y P);
    [unfold fs_limit; lia|vm_compute; reflexivity|done|cbn; lia|vm_compute; discriminate].
Defined.

(** The numerator [b0 + sign * A1 + b2] less the denominator, at [1] or [-1]. *)
Definition edge_error (c : IIR_FILTER_PARA_T) (b0 b2 sign : Z) : Z :=
  (b0 + sign * A1 c + b2) - (A0 c + sign * A1 c + A2 c).

(** C18. What a band does to the signal: before the scaling by [n] bits, the numerator has, up to
    rounding, the sum of the denominator, with both signs of the middle term, so the
    gain is one at zero frequency and at half the sample rate; at the centre, where both are [(B0 - B2)] and
    [(A0 - A2)] times the same number, their ratio is the square of the gain read from the table,
    up to a bound. *)
Theorem Filter_CalcEQ_gains p fs filterPara sGain c g :
  peaking p → fs <= fs_limit → Filter_CalcEQ p fs filterPara sGain = Some (true, c, g) →
  ∃ n b0 b2, 0 <= n ∧ B0 c = Z.shiftr b0 n ∧ B1 c = Z.shiftr (A1 c) n ∧ B2 c = Z.shiftr b2 n
    ∧ g = Z.min 32767 (eq_base p * 2 ^ n)
    ∧ -2 <= edge_error c b0 b2 1 <= 0 ∧ -2 <= edge_error c b0 b2 (-1) <= 0
    ∧ Z.abs (2 ^ 24 * (b0 - b2) - eq_gain p ^ 2 * (A0 c - A2 c))
      <= 2 ^ 15 * (1024 + 2 * eq_gain p) + eq_gain p ^ 2.
Proof.
  intros Hp Hf Hc. rewrite Filter_CalcEQ_spec in Hc by done. destruct (refused p fs) eqn:Hr; [done|].
  injection Hc as <- <-. destruct (eq_ranges p fs Hf Hr) as (R1 & R2 & R3 & R4).
  exists (raw_bits p fs), (raw_b0 p fs), (raw_b2 p fs).
  destruct (raw_ranges p fs Hf Hr) as (W0 & W2 & W1 & _).
  destruct (prevent_overflow_spec (raw_b0 p fs) (raw_a1 p fs) (raw_b2 p fs) (eq_base p)) as (_ & [N _] & _); [lia..|].
  pose proof (peak_edges _ _ R1 R2) as E. pose proof (peak_top _ _ R1 R2) as T.
  unfold edge_error. cbn [eq_coefficients B0 B1 B2 A0 A1 A2]. unfold raw_a2, raw_b0, raw_b2.
  split; [exact N|]. do 4 (split; [reflexivity|]). split; [lia|]. split; [lia|].
  replace (peak_b (eq_gain p) (eq_tangent p fs) + peak_x (eq_gain p) (eq_tangent p fs)
           - (peak_b (eq_gain p) (eq_tangent p fs) - peak_x (eq_gain p) (eq_tangent p fs)))
    with (2 * peak_x (eq_gain p) (eq_tangent p fs)) by lia.
  lia.
Qed.

Theorem Filter_CalcEQ_gains_witness :
  ∃ n b0 b2, 0 <= n ∧ B0 (eq_coefficients voice_band 44100) = Z.shiftr b0 n
    ∧ B2 (eq_coefficients voice_band 44100) = Z.shiftr b2 n
    ∧ eq_scaled_gain voice_band 44100 = Z.min 32767 (eq_base voice_band * 2 ^ n).
Proof.
  assert (P : peaking voice_band) by (repeat split; reflexivity || discriminate).
  destruct (Filter_CalcEQ_gains voice_band 44100 all_pass 0 (eq_coefficients voice_band 44100)
           (eq_scaled_gain voice_band 44100) P) as (n & b0 & b2 & H1 & H2 & _ & H3 & H4 & _);
    [unfold fs_limit; lia|vm_compute; reflexivity|]. exists n, b0, b2. exact (conj H1 (conj H2 (conj H3 H4))).
Defined.
