(* ===== verification/EqLow.v ===== *)
(** * The low-cut filters of the equaliser (audio/sc8830/vb_effect/v2/filter_calc.c)

    [Filter_CalcLCF]: the Butterworth high-pass and the pair of first-order sections stay within the
    defined arithmetic of C for the frequencies below half the sample rate, which the code does not check, and the
    Butterworth filter is stable and has no gain at zero frequency. *)

From Stdlib Require Import Reals.
From stdpp Require Import list.
From S2P Require Import Prelude CArith EqTables EqCalc EqRange EqStable.

Open Scope Z_scope.

(** ** 64-bit steps *)

Lemma mul_long a b : Z.abs (a * b) < 2 ^ 62 → binop in_long Z.mul (lit a) (lit b) = lit (a * b).
Proof. intros H. apply binop_long; [done|lia]. Qed.
Lemma add_long a b : Z.abs (a + b) < 2 ^ 62 → binop in_long Z.add (lit a) (lit b) = lit (a + b).
Proof. intros H. apply binop_long; [done|lia]. Qed.
Lemma sub_long a b : Z.abs (a - b) < 2 ^ 62 → binop in_long Z.sub (lit a) (lit b) = lit (a - b).
Proof. intros H. apply binop_long; [done|lia]. Qed.
Lemma neg_long a : Z.abs a < 2 ^ 62 → unop in_long Z.opp (lit a) = lit (- a).
Proof. intros H. apply unop_long; [done|lia]. Qed.
Lemma shl_long a n : Z.abs (a * 2 ^ n) < 2 ^ 62 → unop in_long (λ a, a * 2 ^ n) (lit a) = lit (a * 2 ^ n).
Proof. intros H. apply unop_long; [done|lia]. Qed.
Lemma shr_long a n :
  0 <= n → Z.abs a < 2 ^ 62 → unop in_long (λ a, Z.shiftr a n) (lit a) = lit (Z.shiftr a n).
Proof.
  intros Hn H. apply unop_long; [done|]. rewrite Z.shiftr_div_pow2 by done.
  pose proof (Z.pow_pos_nonneg 2 n ltac:(lia) ltac:(lia)) as P.
  split; [apply Z.div_le_lower_bound|apply Z.div_lt_upper_bound]; nia.
Qed.

(** The quotient is not larger than the dividend. *)
Lemma quot_abs_le a b : b ≠ 0 → Z.abs (Z.quot a b) <= Z.abs a.
Proof.
  intros Hb. rewrite <- Z.quot_abs by done. pose proof (Z.abs_pos b) as P.
  apply Z.quot_le_upper_bound; nia.
Qed.
Lemma quot_long a b : b ≠ 0 → Z.abs a < 2 ^ 62 → divide in_long (lit a) (lit b) = lit (Z.quot a b).
Proof. intros Hb H. apply divide_long; [done..|]. pose proof (quot_abs_le a b Hb). lia. Qed.
Lemma narrow a : - 2 ^ 31 <= a < 2 ^ 31 → to_i32 (lit a) = lit a.
Proof. intros H. unfold to_i32, lit. by rewrite i32_id. Qed.

(** ** The Butterworth filter *)

Section butterworth.
Variable h : Z.

(** For the half angle [h]: [K] and its inverse, times 16384, the divisor and the coefficients. *)
Definition but_K : Z := Z.quot (cosine h * 2 ^ 14) (cosine (2048 - h)).
Definition but_inv : Z := Z.quot (2 ^ 28) but_K.
Definition but_div : Z := but_K + 23170 + but_inv.
Definition but_a1 : Z := Z.quot ((but_inv - but_K) * 2 ^ 15) but_div.
Definition but_a2 : Z := Z.quot ((but_K - 23170 + but_inv) * 2 ^ 14) but_div.
Definition but_gain (gain : Z) : Z := Z.quot (- (gain * but_K)) but_div.
Definition but_b (gain : Z) : Z := if but_gain gain =? 0 then -1 else but_gain gain.
End butterworth.

(** Over all 2047 half angles: the ranges, the closed triangle, and the open one but for the three lowest
    and the three highest. *)
Lemma but_facts h :
  1 <= h <= 2047 →
  12 <= but_K h < 2 ^ 25 ∧ 0 <= but_inv h < 2 ^ 25 ∧ Z.abs (but_a1 h) <= 16384 + but_a2 h ∧ Z.abs (but_a2 h) < 16384
  ∧ (4 <= h <= 2044 → Z.abs (but_a1 h) < 16384 + but_a2 h).
Proof.
  intros H.
  assert (F : forallb (λ h,
    let K := but_K h in let I := Z.quot (2 ^ 28) K in let D := K + 23170 + I in
    let a1 := Z.quot ((I - K) * 2 ^ 15) D in let a2 := Z.quot ((K - 23170 + I) * 2 ^ 14) D in
    (12 <=? K) && (K <? 2 ^ 25) && (0 <=? I) && (I <? 2 ^ 25)
    && (Z.abs a1 <=? 16384 + a2) && (Z.abs a2 <? 16384)
    && ((h <? 4) || (2044 <? h) || (Z.abs a1 <? 16384 + a2))) (seqZ 1 2047) = true)
    by (vm_compute; reflexivity).
  apply (forallb_seqZ _ 1 2047 h) in F; [|lia]. cbv beta zeta in F.
  fold (but_inv h) in F. fold (but_div h) in F. fold (but_a1 h) (but_a2 h) in F. lia.
Qed.

Lemma but_b_range h gain :
  1 <= h <= 2047 → 0 <= gain <= 16384 → -16384 <= but_gain h gain <= 0 ∧ -16384 <= but_b h gain < 0.
Proof.
  intros H Hg. destruct (but_facts h H) as (F1 & F2 & _).
  assert (P : -16384 <= but_gain h gain <= 0).
  { unfold but_gain. rewrite quot_neg. unfold but_div.
    pose proof (quot_bounds (gain * but_K h) (but_K h + 23170 + but_inv h) ltac:(nia) ltac:(lia)) as [[E1 E2] E0].
    set (q := Z.quot _ _) in *. clearbody q. nia. }
  split; [done|]. unfold but_b. destruct (Z.eqb_spec (but_gain h gain) 0); lia.
Qed.

(** Half the angle of a frequency, in steps of the table. *)
Definition half_angle (fp fs : Z) : Z := Z.quot (Z.quot (fp * 2 ^ 13) fs) 2.

Lemma half_angle_bounds fp fs :
  0 <= fp < 2 ^ 15 → 2 * fp < fs → 0 <= Z.quot (fp * 2 ^ 13) fs <= 4095 ∧ 0 <= half_angle fp fs <= 2047.
Proof.
  intros Hp Hf. pose proof (quot_bounds (fp * 2 ^ 13) fs ltac:(lia) ltac:(lia)) as [[E1 E2] E0].
  unfold half_angle. set (q := Z.quot (fp * 2 ^ 13) fs) in *.
  assert (q <= 4095) by (clearbody q; nia). pose proof (quot_bounds q 2 ltac:(lia) ltac:(lia)). lia.
Qed.

Lemma q_freq_ok fp fs :
  0 <= fp < 2 ^ 15 → 2 * fp < fs → q_freq fp fs = lit (Z.quot (fp * 2 ^ 13) fs).
Proof.
  intros Hp Hf. destruct (half_angle_bounds fp fs Hp Hf) as [Q _]. unfold q_freq.
  rewrite shl_int by lia. rewrite quot_int by lia. value. by rewrite i16_id by (unfold is_i16; lia).
Qed.

Lemma lcf_butterworth_spec fp gain fs :
  0 <= fp < 2 ^ 15 → 2 * fp < fs → 0 <= gain <= 16384 →
  let h := half_angle fp fs in
  lcf_butterworth fp gain fs
  = Some (if h =? 0 then None else Some (but_b h gain, - 2 * but_b h gain, but_b h gain, but_a1 h, but_a2 h)).
Proof.
  intros Hp Hf Hg h. unfold lcf_butterworth. rewrite q_freq_ok by done. value.
  destruct (half_angle_bounds fp fs Hp Hf) as [Q H]. fold (half_angle fp fs). fold h. fold h in H.
  destruct (Z.eqb_spec h 0) as [?|Hh]; [done|].
  rewrite quot_int by lia. fold (half_angle fp fs). fold h. rewrite sub_int by lia. rewrite !entry_cos by lia.
  destruct (but_facts h ltac:(lia)) as (F1 & F2 & F3 & F4 & _).
  pose proof (cosine_bounds h ltac:(lia)) as (C1 & _). pose proof (cosine_bounds (2048 - h) ltac:(lia)) as (_ & _ & C2).
  rewrite shl_int by lia. rewrite quot_int by lia. value. fold (but_K h).
  rewrite quot_int by lia. value. fold (but_inv h).
  assert (Hm : 0 <= gain * but_K h <= 16384 * 2 ^ 25) by nia.
  rewrite mul_long by lia. value. rewrite sub_long by lia. rewrite shl_long by lia. value.
  rewrite sub_long by lia. rewrite add_long by lia. rewrite shl_long by lia. value.
  rewrite add_int by lia. rewrite add_int by lia. value. fold (but_div h).
  assert (Hd : but_div h ≠ 0) by (unfold but_div; lia).
  rewrite neg_long by lia. rewrite quot_long by lia. fold (but_gain h gain).
  destruct (but_b_range h gain ltac:(lia) Hg) as [B1 B2].
  rewrite narrow by lia. value. fold (but_b h gain). rewrite neg_int by lia. rewrite shl_int by lia. value.
  rewrite quot_long by lia. fold (but_a1 h). rewrite narrow by lia. value.
  rewrite quot_long by lia. fold (but_a2 h). rewrite narrow by lia. value. do 3 f_equal. do 3 f_equal. lia.
Qed.

(** ** The pair of first-order sections *)

(** The tangent of the half angle, times 4096, up to the end of the table. *)
Lemma tangent_wide h : 0 <= h <= 2047 → 0 <= tangent h < 2 ^ 23.
Proof.
  intros H.
  assert (F : forallb (λ h, (0 <=? tangent h) && (tangent h <? 2 ^ 23)) (seqZ 0 2048) = true) by (vm_compute; reflexivity).
  apply (forallb_seqZ _ 0 2048 h) in F; [|lia]. cbv beta in F. lia.
Qed.

Lemma q_tan_ok Qfp : 0 <= Qfp <= 4095 → q_tan Qfp = lit (tangent (Z.quot Qfp 2)).
Proof.
  intros H. pose proof (quot_bounds Qfp 2 ltac:(lia) ltac:(lia)) as Q. unfold q_tan.
  rewrite quot_int by lia. rewrite sub_int by lia. rewrite !entry_cos by lia.
  pose proof (cosine_bounds (Z.quot Qfp 2) ltac:(lia)) as (_ & _ & C1).
  pose proof (cosine_bounds (2048 - Z.quot Qfp 2) ltac:(lia)) as (C2 & _).
  rewrite shl_int by lia. by rewrite quot_int by lia.
Qed.

Lemma gain_of_ok dB : out_of_dB dB = false → gain_of dB = lit (linear_gain (2 * dB + 1440)).
Proof.
  intros H%out_of_dB_false. unfold gain_of. rewrite mul_int by lia. rewrite add_int by lia.
  rewrite quot_int by lia. rewrite gain_index by lia. value. rewrite i16_id by (unfold is_i16; lia).
  by rewrite entry_gain by lia.
Qed.

Lemma gain_of_range dB : out_of_dB dB = false → 1 <= linear_gain (2 * dB + 1440) < 2 ^ 15.
Proof. intros H%out_of_dB_false. pose proof (linear_gain_bounds (2 * dB + 1440) ltac:(lia)). lia. Qed.

Section sections.
Variables (w1 w2 g0 g1 k0 k1 : Z).

(** The terms of the numerator and of the denominator. *)
Definition f_b0 : Z := g1 * k1.
Definition f_b1 : Z := Z.shiftr (g0 * w1) 12 * k1 + Z.shiftr (k0 * w2) 12 * g1.
Definition f_b2 : Z := Z.shiftr (g0 * w1) 12 * Z.shiftr (k0 * w2) 12.
Definition f_a1 : Z := (w1 + w2) * 2 ^ 12.
Definition f_a2 : Z := w1 * w2.
Definition f_sum : Z := 2 ^ 24 + f_a1 + f_a2.
Definition f_div : Z := Z.shiftr f_sum 12.

Definition f_coefficients : Z * Z * Z * Z * Z :=
  (Z.quot ((f_b0 + f_b1 + f_b2) * 2 ^ 2) f_div, Z.quot ((f_b2 - f_b0) * 2 ^ 3) f_div,
   Z.quot ((f_b0 - f_b1 + f_b2) * 2 ^ 2) f_div,
   Z.quot ((f_a2 - 2 ^ 24) * 2 ^ 1) f_div * 2 ^ 2, Z.quot (2 ^ 24 - f_a1 + f_a2) f_div * 2 ^ 2).

Hypothesis Hw1 : 0 <= w1 < 2 ^ 23.
Hypothesis Hw2 : 0 <= w2 < 2 ^ 23.
Hypothesis Hg0 : 1 <= g0 < 2 ^ 15.
Hypothesis Hg1 : 1 <= g1 < 2 ^ 15.
Hypothesis Hk0 : 1 <= k0 < 2 ^ 15.
Hypothesis Hk1 : 1 <= k1 < 2 ^ 15.

Lemma scaled_bounds g w : 1 <= g < 2 ^ 15 → 0 <= w < 2 ^ 23 → 0 <= Z.shiftr (g * w) 12 <= 8 * w.
Proof.
  intros Hg Hw. rewrite Z.shiftr_div_pow2 by lia. change (2 ^ 12) with 4096.
  assert (0 <= g * w <= 2 ^ 15 * w) by nia.
  split; [apply Z.div_pos; lia|]. apply Z.div_le_upper_bound; lia.
Qed.

(** The denominator's terms: [2 ^ 24] and the middle one are multiples of [2 ^ 12]. *)
Lemma f_div_bounds :
  0 <= f_a1 < 2 ^ 36 ∧ 0 <= f_a2 < 2 ^ 46 ∧ 4096 <= f_div
  ∧ ∃ r, f_sum = 4096 * f_div + r ∧ 0 <= r <= 4095 ∧ r <= f_a2.
Proof.
  assert (A1 : 0 <= f_a1 < 2 ^ 36) by (unfold f_a1; lia).
  assert (A2 : 0 <= f_a2 < 2 ^ 46) by (unfold f_a2; nia).
  assert (E : f_div = 4096 + (w1 + w2) + f_a2 / 4096).
  { unfold f_div, f_sum, f_a1. rewrite Z.shiftr_div_pow2 by lia. change (2 ^ 12) with 4096.
    replace (2 ^ 24 + (w1 + w2) * 4096 + f_a2) with ((4096 + (w1 + w2)) * 4096 + f_a2) by lia.
    apply Z.div_add_l. lia. }
  pose proof (Z.div_mod f_a2 4096 ltac:(lia)) as D. pose proof (Z.mod_pos_bound f_a2 4096 ltac:(lia)) as M.
  split; [done|]. split; [done|]. split; [lia|]. exists (f_a2 mod 4096). unfold f_sum. unfold f_a1 in *. lia.
Qed.

Lemma f_numerator :
  0 <= f_b0 < 2 ^ 30 ∧ 0 <= f_b1 ∧ 0 <= f_b2 ∧ f_b0 + f_b1 + f_b2 <= 64 * f_sum.
Proof.
  pose proof (scaled_bounds g0 w1 Hg0 Hw1) as S1. pose proof (scaled_bounds k0 w2 Hk0 Hw2) as S2.
  unfold f_b0, f_b1, f_b2, f_sum, f_a1, f_a2.
  set (s1 := Z.shiftr (g0 * w1) 12) in *. set (s2 := Z.shiftr (k0 * w2) 12) in *. clearbody s1 s2.
  assert (0 <= g1 * k1 <= 32767 * 32767) by nia. assert (0 <= s1 * k1 <= 8 * w1 * 2 ^ 15) by nia.
  assert (0 <= s2 * g1 <= 8 * w2 * 2 ^ 15) by nia. assert (0 <= s1 * s2 <= 64 * (w1 * w2)) by nia. lia.
Qed.

(** The quotients of the numerator. *)
Lemma f_quot z : Z.abs z <= 512 * f_sum → Z.abs (Z.quot z f_div) <= 512 * 4097.
Proof.
  destruct f_div_bounds as (_ & _ & D & r & E & R & _). intros H. rewrite <- Z.quot_abs by lia.
  rewrite (Z.abs_eq f_div) by lia. apply Z.quot_le_upper_bound; lia.
Qed.

(** The coefficients of the denominator: in their range, and in the triangle of stability. *)
Lemma f_denominator :
  let x := Z.quot ((f_a2 - 2 ^ 24) * 2 ^ 1) f_div in
  let y := Z.quot (2 ^ 24 - f_a1 + f_a2) f_div in
  Z.abs x <= 4096 + y ∧ -8192 <= x <= 8191 ∧ y <= 4096.
Proof.
  destruct f_div_bounds as (A1 & A2 & D & r & E & R & R'). unfold f_sum in E.
  set (a1 := f_a1) in *. set (a2 := f_a2) in *. set (d := f_div) in *. clearbody a1 a2 d. intros x y.
  assert (Hx : d * Z.abs x <= Z.abs ((a2 - 2 ^ 24) * 2 ^ 1)).
  { subst x. rewrite <- Z.quot_abs by lia. rewrite (Z.abs_eq d) by lia.
    pose proof (quot_bounds (Z.abs ((a2 - 2 ^ 24) * 2 ^ 1)) d ltac:(lia) ltac:(lia)). lia. }
  assert (Hs : 0 < x → 2 ^ 24 <= a2).
  { intros P. destruct (Z.le_gt_cases (2 ^ 24) a2) as [?|H]; [done|]. exfalso. subst x.
    replace ((a2 - 2 ^ 24) * 2 ^ 1) with (- ((2 ^ 24 - a2) * 2 ^ 1)) in P by lia. rewrite quot_neg in P.
    pose proof (Z.quot_pos ((2 ^ 24 - a2) * 2 ^ 1) d ltac:(lia) ltac:(lia)). lia. }
  clearbody x. assert (Hy : 2 ^ 24 - a1 + a2 < d * (y + 1) ∧ (0 <= y → d * y <= Z.max 0 (2 ^ 24 - a1 + a2))).
  { subst y. destruct (Z.le_gt_cases 0 (2 ^ 24 - a1 + a2)) as [H|H].
    - pose proof (quot_bounds _ d H ltac:(lia)). lia.
    - replace (2 ^ 24 - a1 + a2) with (- (a1 - a2 - 2 ^ 24)) by lia. rewrite quot_neg.
      pose proof (quot_bounds (a1 - a2 - 2 ^ 24) d ltac:(lia) ltac:(lia)) as [Q1 Q2].
      set (q := Z.quot (a1 - a2 - 2 ^ 24) d) in *. clearbody q. split; [lia|]. intros. assert (q = 0) by lia. subst q. lia. }
  clearbody y. destruct Hy as [Hy1 Hy2].
  assert (T : d * Z.abs x < d * (4096 + y + 1)) by lia.
  apply Z.mul_lt_mono_pos_l in T; [|lia].
  assert (B1 : d * Z.abs x < d * 8193) by lia. apply Z.mul_lt_mono_pos_l in B1; [|lia].
  assert (B2 : x <= 8191).
  { destruct (Z.le_gt_cases x 8191) as [?|H]; [done|]. assert (x = 8192) as -> by lia. specialize (Hs ltac:(lia)). lia. }
  assert (B3 : y <= 4096).
  { destruct (Z.le_gt_cases y 4096) as [?|H]; [done|]. specialize (Hy2 ltac:(lia)).
    assert (d * 4097 <= d * y) by (apply Z.mul_le_mono_nonneg_l; lia). lia. }
  lia.
Qed.

(** The code computes them within 64 bits, and narrows them without a loss. *)
Lemma lcf_pair_spec : lcf_pair w1 w2 g0 g1 k0 k1 = Some f_coefficients.
Proof.
  pose proof (scaled_bounds g0 w1 Hg0 Hw1) as S1. pose proof (scaled_bounds k0 w2 Hk0 Hw2) as S2.
  destruct f_numerator as (N0 & N1 & N2 & N). destruct f_div_bounds as (A1 & A2 & D & r & E & R & _).
  destruct f_denominator as (T1 & T2 & T3). cbv zeta in T1, T2, T3.
  assert (S : 0 <= f_sum < 2 ^ 47) by (unfold f_sum; lia).
  assert (0 <= g0 * w1 < 2 ^ 38 ∧ 0 <= k0 * w2 < 2 ^ 38) by nia. unfold lcf_pair.
  rewrite mul_long by (fold f_b0; lia). value. fold f_b0.
  rewrite (mul_long g0), (mul_long k0) by lia. rewrite !shr_long by lia.
  assert (0 <= Z.shiftr (g0 * w1) 12 * k1 < 2 ^ 42) by nia. assert (0 <= Z.shiftr (k0 * w2) 12 * g1 < 2 ^ 42) by nia.
  rewrite (mul_long _ k1), (mul_long _ g1) by lia. rewrite add_long by lia. value. fold f_b1.
  rewrite mul_long by (fold f_b2; lia). value. fold f_b2.
  rewrite add_long by lia. rewrite shl_long by (fold f_a1; lia). value. fold f_a1.
  rewrite mul_long by (fold f_a2; lia). value. fold f_a2.
  rewrite (add_long (2 ^ 24)) by lia. rewrite add_long by lia. fold f_sum. rewrite shr_long by lia. value. fold f_div.
  pose proof (f_quot ((f_b0 + f_b1 + f_b2) * 2 ^ 2) ltac:(lia)) as K0.
  pose proof (f_quot ((f_b2 - f_b0) * 2 ^ 3) ltac:(lia)) as K1.
  pose proof (f_quot ((f_b0 - f_b1 + f_b2) * 2 ^ 2) ltac:(lia)) as K2.
  rewrite (add_long f_b0 f_b1) by lia. rewrite add_long by lia. rewrite shl_long by lia.
  rewrite quot_long by lia. rewrite narrow by lia. value.
  rewrite sub_long by lia. rewrite shl_long by lia. rewrite quot_long by lia. rewrite narrow by lia. value.
  rewrite (sub_long f_b0 f_b1) by lia. rewrite add_long by lia. rewrite shl_long by lia.
  rewrite quot_long by lia. rewrite narrow by lia. value.
  rewrite sub_long by lia. rewrite shl_long by lia. rewrite quot_long by lia. rewrite shl_long by lia.
  rewrite narrow by lia. value.
  rewrite sub_long by lia. rewrite add_long by lia. rewrite quot_long by lia. rewrite shl_long by lia.
  rewrite narrow by lia. by value.
Qed.
End sections.

(** The settings of the pair: frequencies below half the sample rate, gains in range. *)
Definition f1f1_ok (f : FILTER_LCF_F1F1_PARAM_T) (fs : Z) : Prop :=
  (0 <= f1_fp f < 2 ^ 15 ∧ 2 * f1_fp f < fs) ∧ (0 <= f2_fp f < 2 ^ 15 ∧ 2 * f2_fp f < fs)
  ∧ out_of_dB (f1_g0 f) = false ∧ out_of_dB (f1_g1 f) = false
  ∧ out_of_dB (f2_g0 f) = false ∧ out_of_dB (f2_g1 f) = false.

Definition f1f1_coefficients (f : FILTER_LCF_F1F1_PARAM_T) (fs : Z) : Z * Z * Z * Z * Z :=
  f_coefficients (tangent (half_angle (f1_fp f) fs)) (tangent (half_angle (f2_fp f) fs))
    (linear_gain (2 * f1_g0 f + 1440)) (linear_gain (2 * f1_g1 f + 1440))
    (linear_gain (2 * f2_g0 f + 1440)) (linear_gain (2 * f2_g1 f + 1440)).

Lemma lcf_f1f1_spec f fs : f1f1_ok f fs → lcf_f1f1 f fs = Some (Some (f1f1_coefficients f fs)).
Proof.
  intros ([P1 P1'] & [P2 P2'] & G1 & G2 & G3 & G4). unfold lcf_f1f1. rewrite G1, G2, G3, G4.
  rewrite !q_freq_ok by done. value.
  destruct (half_angle_bounds _ _ P1 P1') as [Q1 H1]. destruct (half_angle_bounds _ _ P2 P2') as [Q2 H2].
  unfold half_angle in H1, H2.
  destruct (Z.leb_spec 2048 (Z.quot (Z.quot (f1_fp f * 2 ^ 13) fs) 2)); [lia|]. value.
  destruct (Z.leb_spec 2048 (Z.quot (Z.quot (f2_fp f * 2 ^ 13) fs) 2)); [lia|].
  rewrite !q_tan_ok by done. value. value. rewrite !gain_of_ok by done. do 4 value.
  fold (half_angle (f1_fp f) fs) (half_angle (f2_fp f) fs). fold (half_angle (f1_fp f) fs) in H1.
  fold (half_angle (f2_fp f) fs) in H2. unfold f1f1_coefficients.
  pose proof (tangent_wide _ H1) as W1. pose proof (tangent_wide _ H2) as W2.
  apply gain_of_range in G1, G2, G3, G4.
  set (w1 := tangent (half_angle (f1_fp f) fs)) in *. set (w2 := tangent (half_angle (f2_fp f) fs)) in *.
  set (g0 := linear_gain (2 * f1_g0 f + 1440)) in *. set (g1 := linear_gain (2 * f1_g1 f + 1440)) in *.
  set (k0 := linear_gain (2 * f2_g0 f + 1440)) in *. set (k1 := linear_gain (2 * f2_g1 f + 1440)) in *.
  by rewrite lcf_pair_spec.
Qed.

(** ** The low-cut calculation *)

(** A low cut that is switched on, of one of the two types, below half the sample rate. *)
Definition low_cut (p : FILTER_LCF_CALC_PARA_T) (fs : Z) : Prop :=
  lcf_isFilterOn p = true ∧
  ((eLcfParaType p = FILTER_LCFPARA_F1F1 ∧ f1f1_ok (lcfPara p) fs)
   ∨ (eLcfParaType p = FILTER_LCFPARA_BUTTERWORTH ∧ 0 <= fp p < 2 ^ 15 ∧ 2 * fp p < fs)).

Definition in_triangle (a1 a2 : Z) : Prop := -32768 <= a1 <= 32767 ∧ Z.abs a1 <= 16384 + a2 ∧ a2 <= 16384.

Lemma f1f1_ranges f fs :
  f1f1_ok f fs → ∃ b0 b1 b2 a1 a2, f1f1_coefficients f fs = (b0, b1, b2, a1, a2)
    ∧ Z.abs b0 < 2 ^ 31 ∧ Z.abs b1 < 2 ^ 31 ∧ Z.abs b2 < 2 ^ 31 ∧ in_triangle a1 a2.
Proof.
  intros ([P1 P1'] & [P2 P2'] & G1 & G2 & G3 & G4). unfold f1f1_coefficients.
  destruct (half_angle_bounds _ _ P1 P1') as [_ H1]. destruct (half_angle_bounds _ _ P2 P2') as [_ H2].
  apply tangent_wide in H1, H2. apply gain_of_range in G1, G2, G3, G4.
  destruct (f_numerator _ _ _ _ _ _ H1 H2 G1 G2 G3 G4) as (N0 & N1 & N2 & N).
  destruct (f_denominator _ _ H1 H2) as (T1 & T2 & T3). cbv zeta in T1, T2, T3.
  eexists _, _, _, _, _. split; [reflexivity|]. unfold in_triangle.
  repeat split; try (eapply Z.le_lt_trans; [apply (f_quot _ _ H1 H2)|]); lia.
Qed.

Lemma lcf_terms p gain fs :
  low_cut p fs → 0 <= gain <= 16384 →
  ∃ r, (if eLcfParaType p =? FILTER_LCFPARA_F1F1 then lcf_f1f1 (lcfPara p) fs
        else if eLcfParaType p =? FILTER_LCFPARA_BUTTERWORTH then lcf_butterworth (fp p) gain fs
        else Some None) = Some r
    ∧ ∀ b0 b1 b2 a1 a2, r = Some (b0, b1, b2, a1, a2) →
        Z.abs b0 < 2 ^ 31 ∧ Z.abs b1 < 2 ^ 31 ∧ Z.abs b2 < 2 ^ 31 ∧ in_triangle a1 a2.
Proof.
  intros [_ [[-> Hf]|(-> & H1 & H2)]] Hg; cbn [Z.eqb FILTER_LCFPARA_F1F1 FILTER_LCFPARA_BUTTERWORTH].
  - rewrite lcf_f1f1_spec by done. eexists. split; [reflexivity|]. intros b0 b1 b2 a1 a2 E.
    destruct (f1f1_ranges _ _ Hf) as (b0' & b1' & b2' & a1' & a2' & E' & R). rewrite E' in E. by simplify_eq.
  - rewrite lcf_butterworth_spec by done. eexists. split; [reflexivity|]. intros b0 b1 b2 a1 a2 E.
    destruct (half_angle_bounds _ _ H1 H2) as [_ Hh]. set (h := half_angle (fp p) fs) in *.
    destruct (Z.eqb_spec h 0); [done|]. injection E as <- <- <- <- <-.
    destruct (but_facts h ltac:(lia)) as (_ & _ & F1 & F2 & _). destruct (but_b_range h gain ltac:(lia) Hg) as [_ B].
    unfold in_triangle. lia.
Qed.

(** For the frequencies below half the sample rate the calculation stays within the defined arithmetic of C
    and succeeds; the coefficients lose nothing in their 16-bit fields, and the filter has no pole
    outside the unit disc. *)
Lemma Filter_CalcLCF_stable p gain fs :
  low_cut p fs → 0 < fs → 0 <= gain <= 16384 →
  ∃ c g, Filter_CalcLCF p gain fs = Some (true, c, g) ∧ fits c ∧ 4096 <= g <= 32767 ∧ A0 c = 16384
    ∧ ∀ x y, pole c x y → (x * x + y * y <= 1)%R.
Proof.
  intros Hp Hfs Hg. unfold Filter_CalcLCF. destruct (Z.leb_spec fs 0); [lia|]. rewrite (proj1 Hp).
  destruct (lcf_terms p gain fs Hp Hg) as (r & -> & Hr). destruct r as [[[[[b0 b1] b2] a1] a2]|].
  - destruct (Hr _ _ _ _ _ eq_refl) as (R0 & R1 & R2 & T1 & T2 & T3).
    destruct (prevent_overflow_spec b0 b1 b2 4096) as (E & N & N0 & N1 & N2); [lia..|]. rewrite E. clear E.
    set (n := bits b0 b1 b2) in *. clearbody n. pose proof (Z.pow_pos_nonneg 2 n ltac:(lia) ltac:(lia)).
    eexists _, _. split; [reflexivity|]. unfold store_paras, fits. cbn [B0 B1 B2 A0 A1 A2].
    rewrite (i16_id (Z.min _ _)) by (unfold is_i16; lia).
    repeat split; try apply i16_range; try lia. intros x y Hz. unfold pole in Hz.
    apply (biquad_closed (IIR 0 0 0 16384 a1 a2)); cbn [A0 A1 A2]; [lia..|].
    cbn [A0 A1 A2] in Hz. rewrite !i16_id in Hz by (unfold is_i16; lia). exact Hz.
  - eexists _, _. split; [reflexivity|]. unfold fits, all_pass, is_i16. cbn [B0 B1 B2 A0 A1 A2].
    repeat split; try lia. intros x y. apply biquad_closed; cbn; lia.
Qed.

Definition wind_noise : FILTER_LCF_CALC_PARA_T := LcfPara true FILTER_LCFPARA_BUTTERWORTH (F1F1 300 0 0 0 0 0).

(** C23. The Butterworth filter removes zero frequency: the numerator, scaled exactly, has a double zero at one.
    Its poles are inside the unit disc for all angles but the three lowest and the three highest; below a
    step of the table the filter passes everything. *)
Theorem Filter_CalcLCF_butterworth p gain fs :
  lcf_isFilterOn p = true → eLcfParaType p = FILTER_LCFPARA_BUTTERWORTH →
  0 <= fp p < 2 ^ 15 → 2 * fp p < fs → 0 <= gain <= 16384 →
  ∃ c g, Filter_CalcLCF p gain fs = Some (true, c, g)
    ∧ if half_angle (fp p) fs =? 0 then c = all_pass ∧ g = 4096
      else B0 c < 0 ∧ B2 c = B0 c ∧ B1 c = - 2 * B0 c
           ∧ ∀ x y, 4 <= half_angle (fp p) fs <= 2044 → pole c x y → (x * x + y * y < 1)%R.
Proof.
  intros On Ty Hp Hf Hg. unfold Filter_CalcLCF. destruct (Z.leb_spec fs 0); [lia|]. rewrite On, Ty.
  change (FILTER_LCFPARA_BUTTERWORTH =? FILTER_LCFPARA_F1F1) with false.
  change (FILTER_LCFPARA_BUTTERWORTH =? FILTER_LCFPARA_BUTTERWORTH) with true. cbv iota.
  rewrite lcf_butterworth_spec by done. destruct (half_angle_bounds _ _ Hp Hf) as [_ Hh]. set (h := half_angle (fp p) fs) in *.
  destruct (Z.eqb_spec h 0) as [->|Hn]; [by eexists _, _|].
  destruct (but_facts h ltac:(lia)) as (_ & _ & F1 & F2 & F3). destruct (but_b_range h gain ltac:(lia) Hg) as [_ B].
  set (b := but_b h gain) in *. clearbody b.
  destruct (prevent_overflow_spec b (- 2 * b) b 4096) as (E & N & N0 & N1 & N2); [lia..|]. rewrite E.
  eexists _, _. split; [reflexivity|]. unfold store_paras. cbn [B0 B1 B2]. rewrite !i16_id by done.
  assert (S : Z.shiftr b (bits b (- 2 * b) b) < 0
              ∧ Z.shiftr (- 2 * b) (bits b (- 2 * b) b) = - 2 * Z.shiftr b (bits b (- 2 * b) b)).
  { destruct (Z.eq_dec b (-16384)) as [->|Hb]; [vm_compute; done|].
    assert (bits b (- 2 * b) b = 0) as ->; [|rewrite !Z.shiftr_0_r; lia].
    unfold bits. cbn [overflow_bits]. destruct (Z.ltb_spec 32767 (Z.max (Z.max (Z.abs b) (Z.abs (- 2 * b))) (Z.abs b))); [lia|done]. }
  split; [apply S|]. split; [done|]. split; [apply S|]. intros x y Hr Hz.
  apply (biquad_open (IIR 0 0 0 16384 (but_a1 h) (but_a2 h))); cbn [A0 A1 A2]; [lia..|].
  unfold pole in Hz. cbn [A0 A1 A2] in Hz. rewrite !i16_id in Hz by (unfold is_i16; lia). exact Hz.
Qed.

Theorem Filter_CalcLCF_butterworth_witness :
  half_angle 300 44100 = 27 ∧ ∃ c g, Filter_CalcLCF wind_noise 16384 44100 = Some (true, c, g)
    ∧ B1 c = - 2 * B0 c.
Proof.
  split; [vm_compute; reflexivity|].
  destruct (Filter_CalcLCF_butterworth wind_noise 16384 44100 eq_refl eq_refl ltac:(cbn; lia) ltac:(cbn; lia)
              ltac:(lia)) as (c & g & E & H).
  exists c, g. split; [exact E|]. exact (proj1 (proj2 (proj2 H))).
Defined.

(** Frequencies that the code lets through: at half the sample rate it divides by zero, and below
    zero it reads before the table of cosines. *)
Lemma Filter_CalcLCF_half_rate : Filter_CalcLCF (LcfPara true FILTER_LCFPARA_BUTTERWORTH (F1F1 22050 0 0 0 0 0)) 16384 44100 = None.
Proof. vm_compute. reflexivity. Qed.

Lemma Filter_CalcLCF_negative :
  Filter_CalcLCF (LcfPara true FILTER_LCFPARA_BUTTERWORTH (F1F1 (-100) 0 0 0 0 0)) 16384 44100 = None
  ∧ Filter_CalcLCF (LcfPara true FILTER_LCFPARA_F1F1 (F1F1 0 0 (-100) 0 0 100)) 16384 44100 = None.
Proof. split; vm_compute; reflexivity. Qed.
