(* ===== verification/VbHal.v ===== *)
(** * The register image of the audio effect unit (audio/sc8830/vb_effect/v2)

    vb_hal_adp.c and vb_hal_if.c write to the registers of the unit, which [init_regs] of vbc_codec_eq.c places in the
    words of a profile in memory.  A function of the layer is here the sequence of its writes; what a
    register holds afterwards is computed from the writes to it alone ([run_word]). *)

From stdpp Require Import list.
From S2P Require Import Prelude CArith.

Open Scope Z_scope.

(** ** Registers *)

Inductive half := H | L.

(** The variables that hold the address of a register. *)
Inductive name :=
  | DAPATCHCTL | DAHPCTL | DAALCCTL (n : Z) | STCTL (n : Z) | DACSRCCTL | MIXERCTL | VBNGCVTHD | VBNGCTTHD | VBNGCTL
  | HPCOEF (n : Z) (h : half) | ADC01_HPCOEF (n : Z) (h : half) | ADC23_HPCOEF (n : Z) (h : half)
  | DADGCTL | ADPATCHCTL | ADDG01CTL | ADDG23CTL | ADHPCTL.

#[export] Instance half_eq_dec : EqDecision half.
Proof. solve_decision. Defined.
#[export] Instance name_eq_dec : EqDecision name.
Proof. solve_decision. Defined.

(** Addresses: a byte of the profile, of its AD control words, of [reserved_resigter]. *)
Inductive address := P (byte : Z) | A (byte : Z) | R (byte : Z).

#[export] Instance address_eq_dec : EqDecision address.
Proof. solve_decision. Defined.

(** ** The placement of the registers *)

Definition init_control : list (name * address) := [
  (ADPATCHCTL, A 0); (ADHPCTL, A 0x4); (DADGCTL, R 0); (ADPATCHCTL, R 0x4); (ADDG01CTL, R 0x8);
  (ADDG23CTL, R 0xc); (ADHPCTL, R 0x10); (DAPATCHCTL, P 0); (DAHPCTL, P 0x4); (DAALCCTL 0, P 0x8);
  (DAALCCTL 1, P 0xc); (DAALCCTL 2, P 0x10); (DAALCCTL 3, P 0x14); (DAALCCTL 4, P 0x18); (DAALCCTL 5, P 0x1c);
  (DAALCCTL 6, P 0x20); (DAALCCTL 7, P 0x24); (DAALCCTL 8, P 0x28); (DAALCCTL 9, P 0x2c); (DAALCCTL 10, P 0x30);
  (STCTL 0, P 0x34); (STCTL 1, P 0x38); (DACSRCCTL, P 0x3c); (MIXERCTL, P 0x40); (VBNGCVTHD, P 0x44);
  (VBNGCTTHD, P 0x48); (VBNGCTL, P 0x4c)].

Definition init_hpcoef : list (name * address) := [
  (HPCOEF 0 H, P 0x50); (HPCOEF 0 L, P 0x54); (HPCOEF 1 H, P 0x58); (HPCOEF 1 L, P 0x5c); (HPCOEF 2 H, P 0x60);
  (HPCOEF 2 L, P 0x64); (HPCOEF 3 H, P 0x68); (HPCOEF 3 L, P 0x6c); (HPCOEF 4 H, P 0x70); (HPCOEF 4 L, P 0x74);
  (HPCOEF 5 H, P 0x78); (HPCOEF 5 L, P 0x7c); (HPCOEF 6 H, P 0x80); (HPCOEF 6 L, P 0x84); (HPCOEF 7 H, P 0x88);
  (HPCOEF 7 L, P 0x8c); (HPCOEF 8 H, P 0x90); (HPCOEF 8 L, P 0x94); (HPCOEF 9 H, P 0x98); (HPCOEF 9 L, P 0x9c);
  (HPCOEF 10 H, P 0xa0); (HPCOEF 10 L, P 0xa4); (HPCOEF 11 H, P 0xa8); (HPCOEF 11 L, P 0xac);
  (HPCOEF 12 H, P 0xb0); (HPCOEF 12 L, P 0xb4); (HPCOEF 13 H, P 0xb8); (HPCOEF 13 L, P 0xbc);
  (HPCOEF 14 H, P 0xc0); (HPCOEF 14 L, P 0xc4); (HPCOEF 15 H, P 0xc8); (HPCOEF 15 L, P 0xcc);
  (HPCOEF 16 H, P 0xd0); (HPCOEF 16 L, P 0xd4); (HPCOEF 17 H, P 0xd8); (HPCOEF 17 L, P 0xdc);
  (HPCOEF 18 H, P 0xe0); (HPCOEF 18 L, P 0xe4); (HPCOEF 19 H, P 0xe8); (HPCOEF 19 L, P 0xec);
  (HPCOEF 20 H, P 0xf0); (HPCOEF 20 L, P 0xf4); (HPCOEF 21 H, P 0xf8); (HPCOEF 21 L, P 0xfc);
  (HPCOEF 22 H, P 0x100); (HPCOEF 22 L, P 0x104); (HPCOEF 23 H, P 0x108); (HPCOEF 23 L, P 0x10c);
  (HPCOEF 24 H, P 0x110); (HPCOEF 24 L, P 0x114); (HPCOEF 25 H, P 0x118); (HPCOEF 25 L, P 0x11c);
  (HPCOEF 26 H, P 0x120); (HPCOEF 26 L, P 0x124); (HPCOEF 27 H, P 0x128); (HPCOEF 27 L, P 0x12c);
  (HPCOEF 28 H, P 0x130); (HPCOEF 28 L, P 0x134); (HPCOEF 29 H, P 0x138); (HPCOEF 29 L, P 0x13c);
  (HPCOEF 30 H, P 0x140); (HPCOEF 30 L, P 0x144); (HPCOEF 31 H, P 0x148); (HPCOEF 31 L, P 0x14c);
  (HPCOEF 32 H, P 0x150); (HPCOEF 32 L, P 0x154); (HPCOEF 33 H, P 0x158); (HPCOEF 33 L, P 0x15c);
  (HPCOEF 34 H, P 0x160); (HPCOEF 34 L, P 0x164); (HPCOEF 35 H, P 0x168); (HPCOEF 35 L, P 0x16c);
  (HPCOEF 36 H, P 0x170); (HPCOEF 36 L, P 0x174); (HPCOEF 37 H, P 0x178); (HPCOEF 37 L, P 0x17c);
  (HPCOEF 38 H, P 0x180); (HPCOEF 38 L, P 0x184); (HPCOEF 39 H, P 0x188); (HPCOEF 39 L, P 0x18c);
  (HPCOEF 40 H, P 0x190); (HPCOEF 40 L, P 0x194); (HPCOEF 41 H, P 0x198); (HPCOEF 41 L, P 0x19c);
  (HPCOEF 42 H, P 0x1a0); (HPCOEF 42 L, P 0x1a4); (HPCOEF 43 H, P 0x1a8); (HPCOEF 43 L, P 0x1ac);
  (HPCOEF 44 H, P 0x1b0); (HPCOEF 44 L, P 0x1b4); (HPCOEF 45 H, P 0x1b8); (HPCOEF 45 L, P 0x1bc);
  (HPCOEF 46 H, P 0x1c0); (HPCOEF 46 L, P 0x1c4); (HPCOEF 47 H, P 0x1c8); (HPCOEF 47 L, P 0x1cc);
  (HPCOEF 48 H, P 0x1d0); (HPCOEF 48 L, P 0x1d4); (HPCOEF 49 H, P 0x1d8); (HPCOEF 49 L, P 0x1dc);
  (HPCOEF 50 H, P 0x1e0); (HPCOEF 50 L, P 0x1e4); (HPCOEF 51 H, P 0x1e8); (HPCOEF 51 L, P 0x1ec);
  (HPCOEF 52 H, P 0x1f0); (HPCOEF 52 L, P 0x1f4); (HPCOEF 53 H, P 0x1f8); (HPCOEF 53 L, P 0x1fc);
  (HPCOEF 54 H, P 0x200); (HPCOEF 54 L, P 0x204); (HPCOEF 55 H, P 0x208); (HPCOEF 55 L, P 0x20c);
  (HPCOEF 56 H, P 0x210); (HPCOEF 56 L, P 0x214); (HPCOEF 57 H, P 0x218); (HPCOEF 57 L, P 0x21c);
  (HPCOEF 58 H, P 0x220); (HPCOEF 58 L, P 0x224); (HPCOEF 59 H, P 0x228); (HPCOEF 59 L, P 0x22c);
  (HPCOEF 60 H, P 0x230); (HPCOEF 60 L, P 0x234); (HPCOEF 61 H, P 0x238); (HPCOEF 61 L, P 0x23c);
  (HPCOEF 62 H, P 0x240); (HPCOEF 62 L, P 0x244); (HPCOEF 63 H, P 0x248); (HPCOEF 63 L, P 0x24c);
  (HPCOEF 64 H, P 0x250); (HPCOEF 64 L, P 0x254); (HPCOEF 65 H, P 0x258); (HPCOEF 65 L, P 0x25c);
  (HPCOEF 66 H, P 0x260); (HPCOEF 66 L, P 0x264); (HPCOEF 67 H, P 0x268); (HPCOEF 67 L, P 0x26c);
  (HPCOEF 68 H, P 0x270); (HPCOEF 68 L, P 0x274); (HPCOEF 69 H, P 0x278); (HPCOEF 69 L, P 0x27c);
  (HPCOEF 70 H, P 0x280); (HPCOEF 70 L, P 0x284); (HPCOEF 71 H, P 0x288); (HPCOEF 71 L, P 0x28c)].

Definition init_adc01 : list (name * address) := [
  (ADC01_HPCOEF 0 H, P 0x290); (ADC01_HPCOEF 0 L, P 0x294); (ADC01_HPCOEF 1 H, P 0x298);
  (ADC01_HPCOEF 1 L, P 0x29c); (ADC01_HPCOEF 2 H, P 0x2a0); (ADC01_HPCOEF 2 L, P 0x2a4);
  (ADC01_HPCOEF 3 H, P 0x2a8); (ADC01_HPCOEF 3 L, P 0x2ac); (ADC01_HPCOEF 4 H, P 0x2b0);
  (ADC01_HPCOEF 4 L, P 0x2b4); (ADC01_HPCOEF 5 H, P 0x2b8); (ADC01_HPCOEF 5 L, P 0x2bc);
  (ADC01_HPCOEF 6 H, P 0x2c0); (ADC01_HPCOEF 6 L, P 0x2c4); (ADC01_HPCOEF 7 H, P 0x2c8);
  (ADC01_HPCOEF 7 L, P 0x2cc); (ADC01_HPCOEF 8 H, P 0x2d0); (ADC01_HPCOEF 8 L, P 0x2d4);
  (ADC01_HPCOEF 9 H, P 0x2d8); (ADC01_HPCOEF 9 L, P 0x2dc); (ADC01_HPCOEF 10 H, P 0x2e0);
  (ADC01_HPCOEF 10 L, P 0x2e4); (ADC01_HPCOEF 11 H, P 0x2e8); (ADC01_HPCOEF 11 L, P 0x2ec);
  (ADC01_HPCOEF 12 H, P 0x2f0); (ADC01_HPCOEF 12 L, P 0x2f4); (ADC01_HPCOEF 13 H, P 0x2f8);
  (ADC01_HPCOEF 13 L, P 0x2fc); (ADC01_HPCOEF 14 H, P 0x300); (ADC01_HPCOEF 14 L, P 0x304);
  (ADC01_HPCOEF 15 H, P 0x308); (ADC01_HPCOEF 15 L, P 0x30c); (ADC01_HPCOEF 16 H, P 0x310);
  (ADC01_HPCOEF 16 L, P 0x314); (ADC01_HPCOEF 17 H, P 0x318); (ADC01_HPCOEF 17 L, P 0x31c);
  (ADC01_HPCOEF 18 H, P 0x320); (ADC01_HPCOEF 18 L, P 0x324); (ADC01_HPCOEF 19 H, P 0x328);
  (ADC01_HPCOEF 19 L, P 0x32c); (ADC01_HPCOEF 20 H, P 0x330); (ADC01_HPCOEF 20 L, P 0x334);
  (ADC01_HPCOEF 21 H, P 0x338); (ADC01_HPCOEF 21 L, P 0x33c); (ADC01_HPCOEF 22 H, P 0x340);
  (ADC01_HPCOEF 22 L, P 0x344); (ADC01_HPCOEF 23 H, P 0x348); (ADC01_HPCOEF 23 L, P 0x34c);
  (ADC01_HPCOEF 24 H, P 0x350); (ADC01_HPCOEF 24 L, P 0x354); (ADC01_HPCOEF 25 H, P 0x358);
  (ADC01_HPCOEF 25 L, P 0x35c); (ADC01_HPCOEF 26 H, P 0x360); (ADC01_HPCOEF 26 L, P 0x364);
  (ADC01_HPCOEF 27 H, P 0x368); (ADC01_HPCOEF 27 L, P 0x36c); (ADC01_HPCOEF 28 H, P 0x370);
  (ADC01_HPCOEF 28 L, P 0x374); (ADC01_HPCOEF 29 H, P 0x378); (ADC01_HPCOEF 29 L, P 0x37c);
  (ADC01_HPCOEF 30 H, P 0x380); (ADC01_HPCOEF 30 L, P 0x384); (ADC01_HPCOEF 31 H, P 0x388);
  (ADC01_HPCOEF 31 L, P 0x38c); (ADC01_HPCOEF 32 H, P 0x390); (ADC01_HPCOEF 32 L, P 0x394);
  (ADC01_HPCOEF 33 H, P 0x398); (ADC01_HPCOEF 33 L, P 0x39c); (ADC01_HPCOEF 34 H, P 0x3a0);
  (ADC01_HPCOEF 34 L, P 0x3a4); (ADC01_HPCOEF 35 H, P 0x3a8); (ADC01_HPCOEF 35 L, P 0x3ac);
  (ADC01_HPCOEF 36 H, P 0x3b0); (ADC01_HPCOEF 36 L, P 0x3b4); (ADC01_HPCOEF 37 H, P 0x3b8);
  (ADC01_HPCOEF 37 L, P 0x3bc); (ADC01_HPCOEF 38 H, P 0x3c0); (ADC01_HPCOEF 38 L, P 0x3c4);
  (ADC01_HPCOEF 39 H, P 0x3c8); (ADC01_HPCOEF 39 L, P 0x3cc); (ADC01_HPCOEF 40 H, P 0x3d0);
  (ADC01_HPCOEF 40 L, P 0x3d4); (ADC01_HPCOEF 41 H, P 0x3d8); (ADC01_HPCOEF 41 L, P 0x3dc);
  (ADC01_HPCOEF 42 H, P 0x3e0); (ADC01_HPCOEF 42 L, P 0x3e4)].

Definition init_adc23 : list (name * address) := [
  (ADC23_HPCOEF 0 H, P 0x3e8); (ADC23_HPCOEF 0 L, P 0x3ec); (ADC23_HPCOEF 1 H, P 0x3f0);
  (ADC23_HPCOEF 1 L, P 0x3f4); (ADC23_HPCOEF 2 H, P 0x3f8); (ADC23_HPCOEF 2 L, P 0x3fc);
  (ADC23_HPCOEF 3 H, P 0x400); (ADC23_HPCOEF 3 L, P 0x404); (ADC23_HPCOEF 4 H, P 0x408);
  (ADC23_HPCOEF 4 L, P 0x40c); (ADC23_HPCOEF 5 H, P 0x410); (ADC23_HPCOEF 5 L, P 0x414);
  (ADC23_HPCOEF 6 H, P 0x418); (ADC23_HPCOEF 6 L, P 0x41c); (ADC23_HPCOEF 7 H, P 0x420);
  (ADC23_HPCOEF 7 L, P 0x424); (ADC23_HPCOEF 8 H, P 0x428); (ADC23_HPCOEF 8 L, P 0x42c);
  (ADC23_HPCOEF 9 H, P 0x430); (ADC23_HPCOEF 9 L, P 0x434); (ADC23_HPCOEF 10 H, P 0x438);
  (ADC23_HPCOEF 10 L, P 0x43c); (ADC23_HPCOEF 11 H, P 0x440); (ADC23_HPCOEF 11 L, P 0x444);
  (ADC23_HPCOEF 12 H, P 0x448); (ADC23_HPCOEF 12 L, P 0x44c); (ADC23_HPCOEF 13 H, P 0x450);
  (ADC23_HPCOEF 13 L, P 0x454); (ADC23_HPCOEF 14 H, P 0x458); (ADC23_HPCOEF 14 L, P 0x45c);
  (ADC23_HPCOEF 15 H, P 0x460); (ADC23_HPCOEF 15 L, P 0x464); (ADC23_HPCOEF 16 H, P 0x468);
  (ADC23_HPCOEF 16 L, P 0x46c); (ADC23_HPCOEF 17 H, P 0x470); (ADC23_HPCOEF 17 L, P 0x474);
  (ADC23_HPCOEF 18 H, P 0x478); (ADC23_HPCOEF 18 L, P 0x47c); (ADC23_HPCOEF 19 H, P 0x480);
  (ADC23_HPCOEF 19 L, P 0x484); (ADC23_HPCOEF 20 H, P 0x488); (ADC23_HPCOEF 20 L, P 0x48c);
  (ADC23_HPCOEF 21 H, P 0x490); (ADC23_HPCOEF 21 L, P 0x494); (ADC23_HPCOEF 22 H, P 0x498);
  (ADC23_HPCOEF 22 L, P 0x49c); (ADC23_HPCOEF 23 H, P 0x4a0); (ADC23_HPCOEF 23 L, P 0x4a4);
  (ADC23_HPCOEF 24 H, P 0x4a8); (ADC23_HPCOEF 24 L, P 0x4ac); (ADC23_HPCOEF 25 H, P 0x4b0);
  (ADC23_HPCOEF 25 L, P 0x4b4); (ADC23_HPCOEF 26 H, P 0x4b8); (ADC23_HPCOEF 26 L, P 0x4bc);
  (ADC23_HPCOEF 27 H, P 0x4c0); (ADC23_HPCOEF 27 L, P 0x4c4); (ADC23_HPCOEF 28 H, P 0x4c8);
  (ADC23_HPCOEF 28 L, P 0x4cc); (ADC23_HPCOEF 29 H, P 0x4d0); (ADC23_HPCOEF 29 L, P 0x4d4);
  (ADC23_HPCOEF 30 H, P 0x4d8); (ADC23_HPCOEF 30 L, P 0x4dc); (ADC23_HPCOEF 31 H, P 0x4e0);
  (ADC23_HPCOEF 31 L, P 0x4e4); (ADC23_HPCOEF 32 H, P 0x4e8); (ADC23_HPCOEF 32 L, P 0x4ec);
  (ADC23_HPCOEF 33 H, P 0x4f0); (ADC23_HPCOEF 33 L, P 0x4f4); (ADC23_HPCOEF 34 H, P 0x4f8);
  (ADC23_HPCOEF 34 L, P 0x4fc); (ADC23_HPCOEF 35 H, P 0x500); (ADC23_HPCOEF 35 L, P 0x504);
  (ADC23_HPCOEF 36 H, P 0x508); (ADC23_HPCOEF 36 L, P 0x50c); (ADC23_HPCOEF 37 H, P 0x510);
  (ADC23_HPCOEF 37 L, P 0x514); (ADC23_HPCOEF 38 H, P 0x518); (ADC23_HPCOEF 38 L, P 0x51c);
  (ADC23_HPCOEF 39 H, P 0x520); (ADC23_HPCOEF 39 L, P 0x524); (ADC23_HPCOEF 40 H, P 0x528);
  (ADC23_HPCOEF 40 L, P 0x52c); (ADC23_HPCOEF 41 H, P 0x530); (ADC23_HPCOEF 41 L, P 0x534);
  (ADC23_HPCOEF 42 H, P 0x538); (ADC23_HPCOEF 42 L, P 0x53c)].

(** The assignments of [init_regs], in their order. *)
Definition init_regs : list (name * address) := init_control ++ init_hpcoef ++ init_adc01 ++ init_adc23.

(** ** The default words of a profile *)

(** Each value with the register its comment names. *)
Definition default_control : list (name * Z) := [
  (DAPATCHCTL, 0); (DAHPCTL, 0x7f); (DAALCCTL 0, 0); (DAALCCTL 1, 0); (DAALCCTL 2, 0); (DAALCCTL 3, 0);
  (DAALCCTL 4, 0); (DAALCCTL 5, 0); (DAALCCTL 6, 0); (DAALCCTL 7, 0); (DAALCCTL 8, 0); (DAALCCTL 9, 0);
  (DAALCCTL 10, 0); (STCTL 0, 0x183); (STCTL 1, 0x183); (DACSRCCTL, 0); (MIXERCTL, 0); (VBNGCVTHD, 0);
  (VBNGCTTHD, 0); (VBNGCTL, 0)].

Definition default_hpcoef : list (name * Z) := [
  (HPCOEF 0 H, 0); (HPCOEF 0 L, 0); (HPCOEF 1 H, 0); (HPCOEF 1 L, 0); (HPCOEF 2 H, 0); (HPCOEF 2 L, 0);
  (HPCOEF 3 H, 0); (HPCOEF 3 L, 0); (HPCOEF 4 H, 0); (HPCOEF 4 L, 0); (HPCOEF 5 H, 0); (HPCOEF 5 L, 0);
  (HPCOEF 6 H, 0); (HPCOEF 6 L, 0); (HPCOEF 7 H, 0); (HPCOEF 7 L, 0); (HPCOEF 8 H, 0); (HPCOEF 8 L, 0);
  (HPCOEF 9 H, 0); (HPCOEF 9 L, 0); (HPCOEF 10 H, 0); (HPCOEF 10 L, 0); (HPCOEF 11 H, 0); (HPCOEF 11 L, 0);
  (HPCOEF 12 H, 0); (HPCOEF 12 L, 0); (HPCOEF 13 H, 0); (HPCOEF 13 L, 0); (HPCOEF 14 H, 0); (HPCOEF 14 L, 0);
  (HPCOEF 15 H, 0); (HPCOEF 15 L, 0); (HPCOEF 16 H, 0); (HPCOEF 16 L, 0); (HPCOEF 17 H, 0); (HPCOEF 17 L, 0);
  (HPCOEF 18 H, 0); (HPCOEF 18 L, 0); (HPCOEF 19 H, 0); (HPCOEF 19 L, 0); (HPCOEF 20 H, 0); (HPCOEF 20 L, 0);
  (HPCOEF 21 H, 0); (HPCOEF 21 L, 0); (HPCOEF 22 H, 0); (HPCOEF 22 L, 0); (HPCOEF 23 H, 0); (HPCOEF 23 L, 0);
  (HPCOEF 24 H, 0); (HPCOEF 24 L, 0); (HPCOEF 25 H, 0); (HPCOEF 25 L, 0); (HPCOEF 26 H, 0); (HPCOEF 26 L, 0);
  (HPCOEF 27 H, 0); (HPCOEF 27 L, 0); (HPCOEF 28 H, 0); (HPCOEF 28 L, 0); (HPCOEF 29 H, 0); (HPCOEF 29 L, 0);
  (HPCOEF 30 H, 0); (HPCOEF 30 L, 0); (HPCOEF 31 H, 0); (HPCOEF 31 L, 0); (HPCOEF 32 H, 0); (HPCOEF 32 L, 0);
  (HPCOEF 33 H, 0); (HPCOEF 33 L, 0); (HPCOEF 34 H, 0); (HPCOEF 34 L, 0); (HPCOEF 35 H, 0); (HPCOEF 35 L, 0);
  (HPCOEF 36 H, 0); (HPCOEF 36 L, 0); (HPCOEF 37 H, 0); (HPCOEF 37 L, 0); (HPCOEF 38 H, 0); (HPCOEF 38 L, 0);
  (HPCOEF 39 H, 0); (HPCOEF 39 L, 0); (HPCOEF 40 H, 0); (HPCOEF 40 L, 0); (HPCOEF 41 H, 0); (HPCOEF 41 L, 0);
  (HPCOEF 42 H, 0); (HPCOEF 42 L, 0); (HPCOEF 43 H, 0x1000); (HPCOEF 43 L, 0); (HPCOEF 44 H, 0x4000);
  (HPCOEF 44 L, 0); (HPCOEF 45 H, 0x4000); (HPCOEF 45 L, 0); (HPCOEF 46 H, 0); (HPCOEF 46 L, 0); (HPCOEF 47 H, 0);
  (HPCOEF 47 L, 0); (HPCOEF 48 H, 0); (HPCOEF 48 L, 0); (HPCOEF 49 H, 0); (HPCOEF 49 L, 0); (HPCOEF 50 H, 0x1000);
  (HPCOEF 50 L, 0); (HPCOEF 51 H, 0x4000); (HPCOEF 51 L, 0); (HPCOEF 52 H, 0x4000); (HPCOEF 52 L, 0);
  (HPCOEF 53 H, 0); (HPCOEF 53 L, 0); (HPCOEF 54 H, 0); (HPCOEF 54 L, 0); (HPCOEF 55 H, 0); (HPCOEF 55 L, 0);
  (HPCOEF 56 H, 0); (HPCOEF 56 L, 0); (HPCOEF 57 H, 0x1000); (HPCOEF 57 L, 0); (HPCOEF 58 H, 0x4000);
  (HPCOEF 58 L, 0); (HPCOEF 59 H, 0x4000); (HPCOEF 59 L, 0); (HPCOEF 60 H, 0); (HPCOEF 60 L, 0); (HPCOEF 61 H, 0);
  (HPCOEF 61 L, 0); (HPCOEF 62 H, 0); (HPCOEF 62 L, 0); (HPCOEF 63 H, 0); (HPCOEF 63 L, 0); (HPCOEF 64 H, 0x1000);
  (HPCOEF 64 L, 0); (HPCOEF 65 H, 0x4000); (HPCOEF 65 L, 0); (HPCOEF 66 H, 0x4000); (HPCOEF 66 L, 0);
  (HPCOEF 67 H, 0); (HPCOEF 67 L, 0); (HPCOEF 68 H, 0); (HPCOEF 68 L, 0); (HPCOEF 69 H, 0); (HPCOEF 69 L, 0);
  (HPCOEF 70 H, 0); (HPCOEF 70 L, 0); (HPCOEF 71 H, 0x1000); (HPCOEF 71 L, 0)].

Definition default_adc01 : list (name * Z) := [
  (ADC01_HPCOEF 0 H, 0); (ADC01_HPCOEF 0 L, 0); (ADC01_HPCOEF 1 H, 0); (ADC01_HPCOEF 1 L, 0);
  (ADC01_HPCOEF 2 H, 0); (ADC01_HPCOEF 2 L, 0); (ADC01_HPCOEF 3 H, 0); (ADC01_HPCOEF 3 L, 0);
  (ADC01_HPCOEF 4 H, 0); (ADC01_HPCOEF 4 L, 0); (ADC01_HPCOEF 5 H, 0); (ADC01_HPCOEF 5 L, 0);
  (ADC01_HPCOEF 6 H, 0); (ADC01_HPCOEF 6 L, 0); (ADC01_HPCOEF 7 H, 0); (ADC01_HPCOEF 7 L, 0);
  (ADC01_HPCOEF 8 H, 0); (ADC01_HPCOEF 8 L, 0); (ADC01_HPCOEF 9 H, 0); (ADC01_HPCOEF 9 L, 0);
  (ADC01_HPCOEF 10 H, 0); (ADC01_HPCOEF 10 L, 0); (ADC01_HPCOEF 11 H, 0); (ADC01_HPCOEF 11 L, 0);
  (ADC01_HPCOEF 12 H, 0); (ADC01_HPCOEF 12 L, 0); (ADC01_HPCOEF 13 H, 0); (ADC01_HPCOEF 13 L, 0);
  (ADC01_HPCOEF 14 H, 0); (ADC01_HPCOEF 14 L, 0); (ADC01_HPCOEF 15 H, 0); (ADC01_HPCOEF 15 L, 0);
  (ADC01_HPCOEF 16 H, 0); (ADC01_HPCOEF 16 L, 0); (ADC01_HPCOEF 17 H, 0); (ADC01_HPCOEF 17 L, 0);
  (ADC01_HPCOEF 18 H, 0); (ADC01_HPCOEF 18 L, 0); (ADC01_HPCOEF 19 H, 0); (ADC01_HPCOEF 19 L, 0);
  (ADC01_HPCOEF 20 H, 0); (ADC01_HPCOEF 20 L, 0); (ADC01_HPCOEF 21 H, 0); (ADC01_HPCOEF 21 L, 0);
  (ADC01_HPCOEF 22 H, 0); (ADC01_HPCOEF 22 L, 0); (ADC01_HPCOEF 23 H, 0); (ADC01_HPCOEF 23 L, 0);
  (ADC01_HPCOEF 24 H, 0); (ADC01_HPCOEF 24 L, 0); (ADC01_HPCOEF 25 H, 0); (ADC01_HPCOEF 25 L, 0);
  (ADC01_HPCOEF 26 H, 0); (ADC01_HPCOEF 26 L, 0); (ADC01_HPCOEF 27 H, 0); (ADC01_HPCOEF 27 L, 0);
  (ADC01_HPCOEF 28 H, 0); (ADC01_HPCOEF 28 L, 0); (ADC01_HPCOEF 29 H, 0); (ADC01_HPCOEF 29 L, 0);
  (ADC01_HPCOEF 30 H, 0); (ADC01_HPCOEF 30 L, 0); (ADC01_HPCOEF 31 H, 0); (ADC01_HPCOEF 31 L, 0);
  (ADC01_HPCOEF 32 H, 0); (ADC01_HPCOEF 32 L, 0); (ADC01_HPCOEF 33 H, 0); (ADC01_HPCOEF 33 L, 0);
  (ADC01_HPCOEF 34 H, 0); (ADC01_HPCOEF 34 L, 0); (ADC01_HPCOEF 35 H, 0); (ADC01_HPCOEF 35 L, 0);
  (ADC01_HPCOEF 36 H, 0); (ADC01_HPCOEF 36 L, 0); (ADC01_HPCOEF 37 H, 0); (ADC01_HPCOEF 37 L, 0);
  (ADC01_HPCOEF 38 H, 0); (ADC01_HPCOEF 38 L, 0); (ADC01_HPCOEF 39 H, 0); (ADC01_HPCOEF 39 L, 0);
  (ADC01_HPCOEF 40 H, 0); (ADC01_HPCOEF 40 L, 0); (ADC01_HPCOEF 41 H, 0); (ADC01_HPCOEF 41 L, 0);
  (ADC01_HPCOEF 42 H, 0); (ADC01_HPCOEF 42 L, 0)].

Definition default_adc23 : list (name * Z) := [
  (ADC23_HPCOEF 0 H, 0); (ADC23_HPCOEF 0 L, 0); (ADC23_HPCOEF 1 H, 0); (ADC23_HPCOEF 1 L, 0);
  (ADC23_HPCOEF 2 H, 0); (ADC23_HPCOEF 2 L, 0); (ADC23_HPCOEF 3 H, 0); (ADC23_HPCOEF 3 L, 0);
  (ADC23_HPCOEF 4 H, 0); (ADC23_HPCOEF 4 L, 0); (ADC23_HPCOEF 5 H, 0); (ADC23_HPCOEF 5 L, 0);
  (ADC23_HPCOEF 6 H, 0); (ADC23_HPCOEF 6 L, 0); (ADC23_HPCOEF 7 H, 0); (ADC23_HPCOEF 7 L, 0);
  (ADC23_HPCOEF 8 H, 0); (ADC23_HPCOEF 8 L, 0); (ADC23_HPCOEF 9 H, 0); (ADC23_HPCOEF 9 L, 0);
  (ADC23_HPCOEF 10 H, 0); (ADC23_HPCOEF 10 L, 0); (ADC23_HPCOEF 11 H, 0); (ADC23_HPCOEF 11 L, 0);
  (ADC23_HPCOEF 12 H, 0); (ADC23_HPCOEF 12 L, 0); (ADC23_HPCOEF 13 H, 0); (ADC23_HPCOEF 13 L, 0);
  (ADC23_HPCOEF 14 H, 0); (ADC23_HPCOEF 14 L, 0); (ADC23_HPCOEF 15 H, 0); (ADC23_HPCOEF 15 L, 0);
  (ADC23_HPCOEF 16 H, 0); (ADC23_HPCOEF 16 L, 0); (ADC23_HPCOEF 17 H, 0); (ADC23_HPCOEF 17 L, 0);
  (ADC23_HPCOEF 18 H, 0); (ADC23_HPCOEF 18 L, 0); (ADC23_HPCOEF 19 H, 0); (ADC23_HPCOEF 19 L, 0);
  (ADC23_HPCOEF 20 H, 0); (ADC23_HPCOEF 20 L, 0); (ADC23_HPCOEF 21 H, 0); (ADC23_HPCOEF 21 L, 0);
  (ADC23_HPCOEF 22 H, 0); (ADC23_HPCOEF 22 L, 0); (ADC23_HPCOEF 23 H, 0); (ADC23_HPCOEF 23 L, 0);
  (ADC23_HPCOEF 24 H, 0); (ADC23_HPCOEF 24 L, 0); (ADC23_HPCOEF 25 H, 0); (ADC23_HPCOEF 25 L, 0);
  (ADC23_HPCOEF 26 H, 0); (ADC23_HPCOEF 26 L, 0); (ADC23_HPCOEF 27 H, 0); (ADC23_HPCOEF 27 L, 0);
  (ADC23_HPCOEF 28 H, 0); (ADC23_HPCOEF 28 L, 0); (ADC23_HPCOEF 29 H, 0); (ADC23_HPCOEF 29 L, 0);
  (ADC23_HPCOEF 30 H, 0); (ADC23_HPCOEF 30 L, 0); (ADC23_HPCOEF 31 H, 0); (ADC23_HPCOEF 31 L, 0);
  (ADC23_HPCOEF 32 H, 0); (ADC23_HPCOEF 32 L, 0); (ADC23_HPCOEF 33 H, 0); (ADC23_HPCOEF 33 L, 0);
  (ADC23_HPCOEF 34 H, 0); (ADC23_HPCOEF 34 L, 0); (ADC23_HPCOEF 35 H, 0); (ADC23_HPCOEF 35 L, 0);
  (ADC23_HPCOEF 36 H, 0); (ADC23_HPCOEF 36 L, 0); (ADC23_HPCOEF 37 H, 0); (ADC23_HPCOEF 37 L, 0);
  (ADC23_HPCOEF 38 H, 0); (ADC23_HPCOEF 38 L, 0); (ADC23_HPCOEF 39 H, 0); (ADC23_HPCOEF 39 L, 0);
  (ADC23_HPCOEF 40 H, 0); (ADC23_HPCOEF 40 L, 0); (ADC23_HPCOEF 41 H, 0); (ADC23_HPCOEF 41 L, 0);
  (ADC23_HPCOEF 42 H, 0); (ADC23_HPCOEF 42 L, 0)].

Definition vbc_reg_default : list (name * Z) := default_control ++ default_hpcoef ++ default_adc01 ++ default_adc23.

(** The address of a register once [init_regs] has run: the later assignment counts. *)
Definition half_word (h : half) : Z := match h with H => 0 | L => 4 end.
Definition addr (r : name) : address :=
  match r with
  | DAPATCHCTL => P 0 | DAHPCTL => P 4 | DAALCCTL n => P (8 + 4 * n) | STCTL n => P (0x34 + 4 * n)
  | DACSRCCTL => P 0x3c | MIXERCTL => P 0x40 | VBNGCVTHD => P 0x44 | VBNGCTTHD => P 0x48 | VBNGCTL => P 0x4c
  | HPCOEF n h => P (0x50 + 8 * n + half_word h) | ADC01_HPCOEF n h => P (0x290 + 8 * n + half_word h)
  | ADC23_HPCOEF n h => P (0x3e8 + 8 * n + half_word h)
  | DADGCTL => R 0 | ADPATCHCTL => R 4 | ADDG01CTL => R 8 | ADDG23CTL => R 12 | ADHPCTL => R 16
  end.

Fixpoint assigned (l : list (name * address)) (r : name) : option address :=
  match l with
  | [] => None
  | (r', a) :: l => match assigned l r with Some b => Some b | None => if decide (r' = r) then Some a else None end
  end.

Lemma init_regs_addr : Forall (λ p, assigned init_regs p.1 = Some (addr p.1)) init_regs.
Proof.
  apply Forall_forall. intros p Hp.
  assert (F : forallb (λ p, bool_decide (assigned init_regs p.1 = Some (addr p.1))) init_regs = true)
    by (vm_compute; reflexivity).
  rewrite forallb_forall in F. specialize (F p Hp). by apply bool_decide_eq_true_1 in F.
Qed.

(** The registers and the default words are in step: word [i] of the profile is the register that the comment at
    the [i]th default names. *)
Lemma default_words_placed i r v :
  vbc_reg_default !! i = Some (r, v) → addr r = P (4 * Z.of_nat i).
Proof.
  intros E. pose proof (lookup_lt_Some _ _ _ E) as Hi. change (length vbc_reg_default) with 336%nat in Hi.
  assert (F : forallb (λ i, bool_decide (option_map (λ p, addr p.1) (vbc_reg_default !! Z.to_nat i) = Some (P (4 * i)))) (seqZ 0 336) = true)
    by (vm_compute; reflexivity).
  apply (forallb_seqZ _ 0 336 (Z.of_nat i)) in F; [|lia]. cbv beta in F. rewrite Nat2Z.id, E in F.
  apply bool_decide_eq_true_1 in F. by injection F.
Qed.

(** ** Memory and writes *)

(** The words by address. *)
Definition words : Type := address → Z.

(** [REG32 (r) = v], [REG32 (r) |= v] and [REG32 (r) &= v], [v] being converted to the unsigned word. *)
Inductive event := Set_ (r : name) (v : Z) | Or_ (r : name) (v : Z) | And_ (r : name) (v : Z).

Definition target (e : event) : address :=
  addr match e with Set_ r _ => r | Or_ r _ => r | And_ r _ => r end.
Definition update (e : event) (old : Z) : Z :=
  match e with Set_ _ v => u32 v | Or_ _ v => Z.lor old (u32 v) | And_ _ v => Z.land old (u32 v) end.

Definition same (a b : address) : bool :=
  match a, b with P i, P j => i =? j | A i, A j => i =? j | R i, R j => i =? j | _, _ => false end.

Definition step (m : words) (e : event) : words :=
  λ a, if same a (target e) then update e (m a) else m a.
Definition run (t : list event) (m : words) : words := foldl step m t.
Definition REG32 (r : name) (m : words) : Z := m (addr r).

(** Code between two reads: the writes it makes, depending on the memory it starts with. *)
Definition code : Type := words → list event.
Definition writes (t : list event) : code := λ _, t.
Definition then_ (c d : code) : code := λ m, let t := c m in t ++ d (run t m).
Definition done_ : code := writes [].
Declare Scope code_scope.
Delimit Scope code_scope with code.
Notation "c ;; d" := (then_ c d) (at level 100, d at level 200, right associativity) : code_scope.
Fixpoint each {X} (l : list X) (f : X → code) : code :=
  match l with [] => done_ | x :: l => then_ (f x) (each l f) end.

(** ** vb_hal_adp.c *)

(** The bits. *)
Definition VBDAHP_LIMIT_SHIFT : Z := 0.
Definition VBDAHP_WID_SEL_SHIFT : Z := 8.
Definition VBDAHP_REG_CLR_SHIFT : Z := 9.
Definition VBDAHP_EN_SHIFT : Z := 10.
Definition VBDAALC_EN_SHIFT : Z := 11.
Definition VBDADG_DG0_SHIFT : Z := 0.
Definition VBDADG_EN0_SHIFT : Z := 7.
Definition VBDADG_DG1_SHIFT : Z := 8.
Definition VBDADG_EN1_SHIFT : Z := 15.
Definition VBDAPATH_DA0_ADDFM_SHIFT : Z := 0.
Definition VBDAPATH_DA1_ADDFM_SHIFT : Z := 2.

(** One bit set or cleared. *)
Definition switch_bit (r : name) (shift : Z) (is_enable : bool) : code :=
  writes [if is_enable then Or_ r (Z.shiftl 1 shift) else And_ r (Z.lnot (Z.shiftl 1 shift))].

Definition VB_PHY_HPFSwitch : bool → code := switch_bit DAHPCTL VBDAHP_EN_SHIFT.
Definition VB_PHY_SetHPFMode : bool → code := switch_bit DAHPCTL VBDAHP_REG_CLR_SHIFT.
Definition VB_PHY_ALCSwitch : bool → code := switch_bit DAHPCTL VBDAALC_EN_SHIFT.
Definition VB_PHY_DGSwitch (da_index : Z) (is_enable : bool) : code :=
  if da_index =? 0 then switch_bit DADGCTL VBDADG_EN0_SHIFT is_enable
  else if da_index =? 1 then switch_bit DADGCTL VBDADG_EN1_SHIFT is_enable
  else done_.

(** The twelve registers of a filter, from that of [B0] on. *)
Definition filter_writes (c B0 B1 B2 A0 minusA1 minusA2 : Z) : code :=
  writes [Set_ (HPCOEF c H) B0; Set_ (HPCOEF (c + 2) H) B1; Set_ (HPCOEF (c + 4) H) B2;
          Set_ (HPCOEF (c + 1) H) A0; Set_ (HPCOEF (c + 3) H) minusA1; Set_ (HPCOEF (c + 5) H) minusA2;
          Set_ (HPCOEF c L) 0; Set_ (HPCOEF (c + 2) L) 0; Set_ (HPCOEF (c + 4) L) 0;
          Set_ (HPCOEF (c + 1) L) 0; Set_ (HPCOEF (c + 3) L) 0; Set_ (HPCOEF (c + 5) L) 0].

(** The parameters are [int16_t]. *)
Definition VB_PHY_SetHPFParas (filter_index B0 B1 B2 A0 minusA1 minusA2 : Z) : code :=
  let go c := filter_writes c (i16 B0) (i16 B1) (i16 B2) (i16 A0) (i16 minusA1) (i16 minusA2) in
  match filter_index with
  | 1 => go 1 | 2 => go 8 | 3 => go 15 | 4 => go 22 | 5 => go 29 | 6 => go 36
  | _ => done_
  end.

(** The register of a gain. *)
Definition gain_register (gain_index : Z) : option Z :=
  match gain_index with
  | 0 => Some 0 | 1 => Some 7 | 2 => Some 14 | 3 => Some 21 | 4 => Some 28 | 5 => Some 35 | 6 => Some 42
  | _ => None
  end.

Definition VB_PHY_SetHPFGain (gain_index gain_value : Z) : code :=
  match gain_register gain_index with
  | Some c => writes [Set_ (HPCOEF c H) (i16 gain_value); Set_ (HPCOEF c L) 0]
  | None => done_
  end.

Definition VB_PHY_GetHPFGain (gain_index : Z) (m : words) : Z :=
  match gain_register gain_index with Some c => REG32 (HPCOEF c H) m | None => 0 end.

(** [int8_t] of the parameter. *)
Definition i8 (z : Z) : Z := (z + 2 ^ 7) mod 2 ^ 8 - 2 ^ 7.

Definition VB_PHY_SetHPFLimit (rLimit : Z) : code :=
  let limit_value := if i8 rLimit <? 0 then 0 else i8 rLimit in
  writes [And_ DAHPCTL (Z.lnot (Z.shiftl 0xff VBDAHP_LIMIT_SHIFT));
          Or_ DAHPCTL (Z.shiftl limit_value VBDAHP_LIMIT_SHIFT)].

Definition VB_PHY_SetHPFWidth (width : Z) : code := λ m,
  let data_width_value := if width =? 16 then 0 else Z.shiftl 1 VBDAHP_WID_SEL_SHIFT in
  if Z.land (REG32 DAHPCTL m) (Z.shiftl 1 VBDAHP_WID_SEL_SHIFT) =? data_width_value then []
  else [And_ DAHPCTL (Z.lnot (Z.shiftl 1 VBDAHP_WID_SEL_SHIFT)); Or_ DAHPCTL data_width_value].

(** The eleven fields of [VBC_ALC_PARAS_T], in their order. *)
Definition VB_PHY_SetALCParas (alc : list Z) : code :=
  writes (imap (λ i v, Set_ (DAALCCTL (Z.of_nat i)) v) alc).

Definition VB_PHY_SetFMMixMode (da_index mix_mode : Z) : code :=
  let value shift := match i16 mix_mode with 1 => Z.shiftl 1 shift | 2 => Z.shiftl 2 shift | _ => 0 end in
  let set shift := writes [And_ DAPATCHCTL (Z.lnot (Z.shiftl 3 shift)); Or_ DAPATCHCTL (value shift)] in
  if da_index =? 0 then set VBDAPATH_DA0_ADDFM_SHIFT
  else if da_index =? 1 then set VBDAPATH_DA1_ADDFM_SHIFT
  else done_.

Definition VB_PHY_SetDG (da_index dg_value : Z) : code :=
  let dg_value := if 63 <? i16 dg_value then 63 else i16 dg_value in
  let dg_value := if dg_value <? -64 then -64 else dg_value in
  let set shift := writes [And_ DADGCTL (Z.lnot (Z.shiftl 0x7f shift)); Or_ DADGCTL (Z.shiftl dg_value shift)] in
  if da_index =? 0 then set VBDADG_DG0_SHIFT
  else if da_index =? 1 then set VBDADG_DG1_SHIFT
  else done_.

(** ** vb_hal_if.c *)

(** The interface passes on to the functions above; the flag that [VB_SwitchHpf] keeps is read nowhere. *)
Definition VB_SwitchHpf : bool → code := VB_PHY_HPFSwitch.
Definition VB_SetHpfMode : bool → code := VB_PHY_SetHPFMode.
Definition VB_SetHpfParas : Z → Z → Z → Z → Z → Z → Z → code := VB_PHY_SetHPFParas.
Definition VB_SetHpfGain : Z → Z → code := VB_PHY_SetHPFGain.
Definition VB_GetHpfGain : Z → words → Z := VB_PHY_GetHPFGain.
Definition VB_SetHpfLimit : Z → code := VB_PHY_SetHPFLimit.
Definition VB_SetHpfWidth : Z → code := VB_PHY_SetHPFWidth.
Definition VB_ALCSwitch : bool → code := VB_PHY_ALCSwitch.
Definition VB_SetALCParas : list Z → code := VB_PHY_SetALCParas.
Definition VB_SetFMMixMode : Z → Z → code := VB_PHY_SetFMMixMode.
Definition VB_DGSwitch : Z → bool → code := VB_PHY_DGSwitch.
Definition VB_SetDG : Z → Z → code := VB_PHY_SetDG.

(** ** What a word holds after a trace *)

(** The writes to one word. *)
Definition settle (a : address) (t : list event) (old : Z) : Z :=
  foldl (λ v e, if same a (target e) then update e v else v) old t.

Lemma run_word t m a : run t m a = settle a t (m a).
Proof.
  unfold run, settle. revert m. induction t as [|e t IH]; intros m; [done|]. cbn [foldl]. by rewrite IH.
Qed.

Lemma settle_app a t u v : settle a (t ++ u) v = settle a u (settle a t v).
Proof. apply foldl_app. Qed.

Lemma run_trace_app t u m : run (t ++ u) m = run u (run t m).
Proof. apply foldl_app. Qed.

Lemma run_then c d m : run (then_ c d m) m = run (d (run (c m) m)) (run (c m) m).
Proof. apply run_trace_app. Qed.

(** A word that no write is aimed at. *)
Lemma settle_other a t v : Forall (λ e, same a (target e) = false) t → settle a t v = v.
Proof.
  intros H. unfold settle. revert v. induction H as [|e t He _ IH]; intros v; [done|]. cbn [foldl]. by rewrite He, IH.
Qed.
