(* ===== verification/EqSet.v ===== *)
(** * Setting the equaliser (audio/sc8830/vb_effect/v2/vbc_codec_eq.c)

    How the parameters of an audio mode become the registers of the effect unit: the settings are read out of
    the non-volatile structure into static variables, the filters are calculated, and the registers are
    written with fades around the change of the coefficients.  The results are [None] where the C code leaves its defined
    behaviour. *)

From stdpp Require Import list strings.
From S2P Require Import Prelude CArith EqCalc VbHal.

Open Scope Z_scope.

(** ** The non-volatile parameters (eng_audio.h) *)

Record EQ_BAND_INPUT_PARA_T := Band { band_fo : Z; band_q : Z; band_boostdB : Z; band_gaindB : Z }.
Record EQ_MODE_PARA_T := Mode { agc_in_gain : Z; band_control : Z; eq_band : list EQ_BAND_INPUT_PARA_T }.
Record AUDIO_ENHA_EQ_STRUCT_T := EqStruct {
  para_name : list Z; eq_control : Z; eq_modes : list EQ_MODE_PARA_T; externdArray : list Z }.

Record AUDIO_NV_ARM_DEVICE_PATH_T := DevicePath { valid_dev_set_count : Z; dev_reserve : Z; dev_set : list Z }.
Record AUDIO_NV_ARM_APP_CONFIG_INFO_T := AppConfig {
  eq_switch : Z; agc_input_gain : list Z; valid_volume_level_count : Z; arm_volume : list Z; app_reserve : list Z }.
(** [AUDIO_NV_ARM_MODE_STRUCT_T] with the members of its [AUDIO_NV_ARM_APP_SET_T], in their order. *)
Record AUDIO_NV_ARM_MODE_STRUCT_T := ModeStruct {
  dev_path_set : AUDIO_NV_ARM_DEVICE_PATH_T; valid_app_set_count : Z; valid_agc_input_gain_count : Z;
  aud_proc_exp_control : list Z; app_config_info : list AUDIO_NV_ARM_APP_CONFIG_INFO_T;
  midi_opt : Z; aud_dev : Z; reserve : list Z }.
Record AUDIO_TOTAL_T := Total {
  audio_enha_eq : AUDIO_ENHA_EQ_STRUCT_T; ucModeName : list Z; tAudioNvArmModeStruct : AUDIO_NV_ARM_MODE_STRUCT_T }.

Definition EQ_BAND_MAX : Z := 8.
Definition HPF_S_GAIN_NUM : Z := 6.
Definition TOTAL_S_GAIN_NUM : Z := 7.
Definition HPF_DATA_WIDTH_24 : Z := 24.
Definition AUDIO_NO_ERROR : Z := 0.
Definition AUDIO_ERROR : Z := 1.
Definition AUD_ENHA_EQMODE_SEL_OFF : Z := 0.
Definition AUD_ENHA_EQMODE_SEL_MMISET : Z := 15.
Definition AUD_ENHA_TUNABLE_EQPARA_COMMON : Z := 1.
Definition VBC_DA_RIGHT : Z := 0.
Definition VBC_DA_LEFT : Z := 1.

(** The tunable set (aud_enha.h). *)
Record TUNABLE_EQ_MODE_PARA_T := TunableMode { tun_agc_in_gain : Z; tun_band_control : Z; boostdB_current : list Z }.
Record AUDIO_ENHA_TUNABLE_EQ_STRUCT_T := Tunable {
  tun_eq_control : Z; fo_array : list Z; q_array : list Z; tun_eq_modes : list TUNABLE_EQ_MODE_PARA_T }.

(** ** The current parameters *)

Record HPF_CONTROL_PARAM_T := Hpf {
  data_width : Z; r_limit : Z; s_gain : list Z; lcf_para : FILTER_LCF_CALC_PARA_T; eq_band_num : Z;
  low_shelve_on : bool; high_shelve_on : bool; band_sw : list bool; eq_band_para : list EQ_BAND_INPUT_PARA_T }.
Record ALC_CONTROL_PARAM_T := Alc { alc_sw : bool; alc_input_gain : Z; alc_ingain_Set : Z; alc_Para : list Z }.
Record DG_CONTROL_PARAM_T := Dg { left_gain : Z; right_gain : Z }.
Record DAPATH_CONTROL_PARAM_T := DaPath { left_fm_mix_mode : Z; right_fm_mix_mode : Z }.

(** The static variables that a call leaves to the next; [s_cur_music_type] is always 0. *)
Record statics := Statics {
  eq_para_set : AUDIO_ENHA_EQ_STRUCT_T; tunable_eq_para_set : list AUDIO_ENHA_TUNABLE_EQ_STRUCT_T;
  s_cur_dg_param : DG_CONTROL_PARAM_T; s_cur_dapath_param : DAPATH_CONTROL_PARAM_T;
  s_cur_alc_param : ALC_CONTROL_PARAM_T; s_cur_hpf_param : HPF_CONTROL_PARAM_T;
  s_cur_sample_rate : Z; s_cur_eq_para_set_index : Z; s_cur_tunable_eq_para_set_index : Z;
  s_cur_eq_mode_sel : Z }.

Definition set_gain (i g : Z) (h : HPF_CONTROL_PARAM_T) : HPF_CONTROL_PARAM_T :=
  Hpf (data_width h) (r_limit h) (<[Z.to_nat i := g]> (s_gain h)) (lcf_para h) (eq_band_num h)
    (low_shelve_on h) (high_shelve_on h) (band_sw h) (eq_band_para h).

(** ** Fades *)

Definition HPF_FADE_OUT_GAIN_SET_TIMES : Z := 20.
Definition HPF_FADE_IN_GAIN_SET_TIMES : Z := 20.

(** [s[i]] of a gain structure. *)
Definition s_of (gains : list Z) (i : Z) : Z := default 0 (gains !! Z.to_nat i).
Definition gain_indices : list Z := seqZ 0 HPF_S_GAIN_NUM.

Definition AUDENHA_FadeOut (ori_gain : list Z) (fade_out_set_times : Z) : code :=
  (let step_value i := Z.quot (s_of ori_gain i) fade_out_set_times in
   each (seqZ 1 fade_out_set_times) (λ j,
     each gain_indices (λ i, VB_SetHpfGain i (s_of ori_gain i - j * step_value i)));;
   each gain_indices (λ i, VB_SetHpfGain i 0))%code.

Definition AUDENHA_FadeIn (dest_gain : list Z) (fade_in_set_times : Z) : code :=
  (let step_value i := Z.quot (s_of dest_gain i) fade_in_set_times in
   each (seqZ 1 fade_in_set_times) (λ j,
     each gain_indices (λ i, VB_SetHpfGain i (j * step_value i)));;
   each gain_indices (λ i, VB_SetHpfGain i (s_of dest_gain i)))%code.

(** ** The high-pass filters *)

(** The setting of band [i], or [Some None] where [AUDENHA_SetHpf] gives up; [old] is the union left by the
    band before. *)
Definition band_setting (h : HPF_CONTROL_PARAM_T) (i : Z) : option (option FILTER_EQ_CALC_PARA_T) :=
  b ← eq_band_para h !! Z.to_nat i;
  sw ← band_sw h !! Z.to_nat i;
  let setting type un := Some (Some (EqPara sw type (band_fo b) un (band_boostdB b) (band_gaindB b))) in
  if (i =? 0) && low_shelve_on h then
    next ← eq_band_para h !! Z.to_nat (i + 1);
    setting FILTER_EQPARA_LOW_SHELVE (band_fo next)
  else if (i =? eq_band_num h - 1) && high_shelve_on h then
    if (9 <? eq_band_num h) || (eq_band_num h <? 2) then Some None
    else
      prev ← eq_band_para h !! Z.to_nat (eq_band_num h - 2);
      setting FILTER_EQPARA_HIGH_SHELVE (band_fo prev)
  else setting FILTER_EQPARA_NORMAL_EQ (band_q b).

(** The coefficients and the gain that a calculation leaves: the all-pass filter where it fails. *)
Definition or_all_pass (r : calc_result) : option (IIR_FILTER_PARA_T * Z) :=
  match r with
  | Some (true, c, g) => Some (c, g)
  | Some (false, _, _) => Some (all_pass, 4096)
  | None => None
  end.

Definition no_filter : IIR_FILTER_PARA_T := IIR 0 0 0 0 0 0.

(** The loop over the bands from [i] on: the parameters with the gains stored, and the filters; [Some None] where
    it gives up. *)
Fixpoint set_bands (n : nat) (i : Z) (sample_rate : Z) (h : HPF_CONTROL_PARAM_T)
    : option (option (HPF_CONTROL_PARAM_T * list IIR_FILTER_PARA_T)) :=
  match n with
  | O => Some (Some (h, []))
  | S n =>
      match band_setting h i with
      | None => None
      | Some None => Some None
      | Some (Some eq_input_para) =>
          old ← s_gain h !! Z.to_nat (i + 1);
          r ← or_all_pass (Filter_CalcEQ eq_input_para sample_rate no_filter old);
          let '(c, g) := r in
          match set_bands n (i + 1) sample_rate (set_gain (i + 1) g h) with
          | None => None
          | Some None => Some None
          | Some (Some (h, cs)) => Some (Some (h, c :: cs))
          end
      end
  end.

(** [VB_SetHpfParas] for a filter: the unit takes the negated [A1] and [A2]. *)
Definition set_filter (index : Z) (c : IIR_FILTER_PARA_T) : code :=
  VB_SetHpfParas index (B0 c) (B1 c) (B2 c) 16384 (- A1 c) (- A2 c).

(** The writes of [AUDENHA_SetHpf]. *)
Definition reprogram (lcf_filter_set : IIR_FILTER_PARA_T) (eq_filter_set : list IIR_FILTER_PARA_T) (gains : list Z)
    : code :=
  ((λ m, let ori_hpf_gain := map (λ i, i16 (VB_GetHpfGain i m)) gain_indices in
         if s_of ori_hpf_gain (HPF_S_GAIN_NUM - 1) =? 0 then []
         else AUDENHA_FadeOut ori_hpf_gain HPF_FADE_OUT_GAIN_SET_TIMES m);;
   VB_SetHpfMode true;;
   each (seqZ 1 HPF_S_GAIN_NUM) (λ i, VB_SetHpfParas i 0 0 0 0 0 0);;
   set_filter 1 lcf_filter_set;;
   each (imap (λ i c, (Z.of_nat i, c)) eq_filter_set) (λ p, set_filter (p.1 + 2) p.2);;
   VB_SetHpfMode false;;
   AUDENHA_FadeIn gains HPF_FADE_IN_GAIN_SET_TIMES)%code.

(** The value returned, the parameters with the gains calculated, and the writes. *)
Definition AUDENHA_SetHpf (h : HPF_CONTROL_PARAM_T) (sample_rate : Z) : option (bool * HPF_CONTROL_PARAM_T * code) :=
  lcf ← or_all_pass (Filter_CalcLCF (lcf_para h) 16384 sample_rate);
  let '(lcf_filter_set, g) := lcf in
  match set_bands (Z.to_nat (eq_band_num h)) 0 sample_rate (set_gain 0 g h) with
  | None => None
  | Some None => Some (false, set_gain 0 g h, done_)
  | Some (Some (h, eq_filter_set)) => Some (true, h, reprogram lcf_filter_set eq_filter_set (s_gain h))
  end.

(** ** The other parts of the unit *)

(** The input gain, limited to 16 bits from above. *)
Definition alc_gain (a : ALC_CONTROL_PARAM_T) : Z :=
  let temp := Z.shiftr (alc_input_gain a * alc_ingain_Set a) 12 in
  if temp <=? 32767 then i16 temp else 32767.

Definition AUDENHA_SetAlcIngain (a : ALC_CONTROL_PARAM_T) : code := VB_SetHpfGain 6 (alc_gain a).

Definition AUDENHA_initDigiGain (d : DG_CONTROL_PARAM_T) : code :=
  (VB_SetDG VBC_DA_LEFT (left_gain d);; VB_SetDG VBC_DA_RIGHT (right_gain d);;
   VB_DGSwitch VBC_DA_LEFT true;; VB_DGSwitch VBC_DA_RIGHT true)%code.

Definition AUDENHA_initDAPath (d : DAPATH_CONTROL_PARAM_T) : code :=
  (VB_SetFMMixMode VBC_DA_LEFT (left_fm_mix_mode d);; VB_SetFMMixMode VBC_DA_RIGHT (right_fm_mix_mode d))%code.

Definition AUDENHA_initAlc (a : ALC_CONTROL_PARAM_T) : code :=
  (VB_SetHpfGain (TOTAL_S_GAIN_NUM - 1) (alc_gain a);;
   if alc_sw a then VB_SetALCParas (alc_Para a);; VB_ALCSwitch true else VB_ALCSwitch false)%code.

Definition AUDENHA_InitHpf (h : HPF_CONTROL_PARAM_T) (sample_rate : Z) : option (Z * HPF_CONTROL_PARAM_T * code) :=
  r ← AUDENHA_SetHpf h sample_rate;
  let '(ok, h', set) := r in
  Some (if ok : bool then AUDIO_NO_ERROR else AUDIO_ERROR, h',
        (VB_SetHpfLimit (r_limit h);; VB_SetHpfWidth (data_width h);; VB_SwitchHpf true;; set)%code).

Definition AUDENHA_Init (d : DG_CONTROL_PARAM_T) (p : DAPATH_CONTROL_PARAM_T) (a : ALC_CONTROL_PARAM_T)
    (h : HPF_CONTROL_PARAM_T) (sample_rate : Z) : option (Z * HPF_CONTROL_PARAM_T * code) :=
  r ← AUDENHA_InitHpf h sample_rate;
  let '(ret, h', set) := r in
  Some (if ret =? AUDIO_NO_ERROR then AUDIO_NO_ERROR else AUDIO_ERROR, h',
        (AUDENHA_initDigiGain d;; AUDENHA_initDAPath p;; AUDENHA_initAlc a;; set)%code).

Definition AUDENHA_SetEqMode (a : ALC_CONTROL_PARAM_T) (h : HPF_CONTROL_PARAM_T) (sample_rate : Z)
    : option (Z * HPF_CONTROL_PARAM_T * code) :=
  r ← AUDENHA_SetHpf h sample_rate;
  let '(ok, h', set) := r in
  Some (if ok : bool then AUDIO_NO_ERROR else AUDIO_ERROR, h', (AUDENHA_SetAlcIngain a;; set)%code).

Definition AUDENHA_SetDigiGain (d : DG_CONTROL_PARAM_T) : code :=
  (VB_SetDG VBC_DA_LEFT (left_gain d);; VB_SetDG VBC_DA_RIGHT (right_gain d))%code.

Definition AUDENHA_DeInit : code :=
  (each (seqZ 0 TOTAL_S_GAIN_NUM) (λ i, VB_SetHpfGain i 0);;
   VB_SetHpfMode true;; VB_SetHpfMode false;; VB_SwitchHpf false;; VB_ALCSwitch false;;
   VB_DGSwitch VBC_DA_LEFT false;; VB_DGSwitch VBC_DA_RIGHT false)%code.

(** ** Reading the parameters *)

Definition DEFAULT_OUT_SAMPLING_RATE : Z := 44100.
Definition get_cur_sample_rate : Z := DEFAULT_OUT_SAMPLING_RATE.

Definition set_alc (f : ALC_CONTROL_PARAM_T → ALC_CONTROL_PARAM_T) (s : statics) : statics :=
  Statics (eq_para_set s) (tunable_eq_para_set s) (s_cur_dg_param s) (s_cur_dapath_param s) (f (s_cur_alc_param s))
    (s_cur_hpf_param s) (s_cur_sample_rate s) (s_cur_eq_para_set_index s) (s_cur_tunable_eq_para_set_index s)
    (s_cur_eq_mode_sel s).
Definition set_hpf (f : HPF_CONTROL_PARAM_T → HPF_CONTROL_PARAM_T) (s : statics) : statics :=
  Statics (eq_para_set s) (tunable_eq_para_set s) (s_cur_dg_param s) (s_cur_dapath_param s) (s_cur_alc_param s)
    (f (s_cur_hpf_param s)) (s_cur_sample_rate s) (s_cur_eq_para_set_index s) (s_cur_tunable_eq_para_set_index s)
    (s_cur_eq_mode_sel s).

Definition set_ingain (g : Z) (a : ALC_CONTROL_PARAM_T) : ALC_CONTROL_PARAM_T :=
  Alc (alc_sw a) (alc_input_gain a) g (alc_Para a).

(** The first [n] bands, their switches and the shelves. *)
Definition set_eq (n : Z) (low high : bool) (sw : list bool) (bands : list EQ_BAND_INPUT_PARA_T)
    (h : HPF_CONTROL_PARAM_T) : HPF_CONTROL_PARAM_T :=
  Hpf (data_width h) (r_limit h) (s_gain h) (lcf_para h) n low high
    (sw ++ drop (length sw) (band_sw h)) (bands ++ drop (length bands) (eq_band_para h)).

Definition bit_of (z n : Z) : bool := Z.testbit z n.

(** [eq_band_num] for [eq_control]. *)
Definition band_count (control : Z) : Z := if bit_of control 15 then 8 else 5.

(** [AUDENHA_GetParaFromEqset] with an equaliser mode: the set that is not tunable, ... *)
Definition from_eq_set (mode : Z) (s : statics) : option statics :=
  m ← eq_modes (eq_para_set s) !! Z.to_nat mode;
  let n := band_count (eq_control (eq_para_set s)) in
  if Z.of_nat (length (eq_band m)) <? n then None
  else
    let sw := map (λ i, bit_of (band_control m) (15 - i)) (seqZ 0 n) in
    Some (set_hpf (set_eq n (bit_of (band_control m) 0) (bit_of (band_control m) 1) sw
                     (take (Z.to_nat n) (eq_band m)))
            (set_alc (set_ingain (agc_in_gain m)) s)).

(** ... and the tunable one. *)
Definition from_tunable_set (mode index : Z) (s : statics) : option statics :=
  let index := if AUD_ENHA_TUNABLE_EQPARA_COMMON <? index then AUD_ENHA_TUNABLE_EQPARA_COMMON else index in
  if index <? 1 then None
  else
    t ← tunable_eq_para_set s !! Z.to_nat (index - 1);
    m ← tun_eq_modes t !! Z.to_nat mode;
    let n := band_count (tun_eq_control t) in
    let band i :=
      f ← fo_array t !! Z.to_nat i; q ← q_array t !! Z.to_nat i; b ← boostdB_current m !! Z.to_nat i;
      Some (Band f q (i16 (b * Z.land (tun_eq_control t) 0x3ff)) 0) in
    bands ← mapM band (seqZ 0 n);
    Some (set_hpf (set_eq n (bit_of (tun_band_control m) 0) (bit_of (tun_band_control m) 1)
                     (map (λ _, true) (seqZ 0 n)) bands)
            (set_alc (set_ingain (tun_agc_in_gain m)) s)).

Definition AUDENHA_GetParaFromEqset (is_eq_para_tunable : bool) (eq_para_set_index tunable_eq_para_set_index : Z)
    (s : statics) : option (Z * statics) :=
  if s_cur_eq_mode_sel s =? AUD_ENHA_EQMODE_SEL_OFF then
    Some (AUDIO_NO_ERROR,
          set_hpf (λ h, Hpf (data_width h) (r_limit h) (s_gain h) (lcf_para h) (HPF_S_GAIN_NUM - 1) (low_shelve_on h)
                          (high_shelve_on h) (map (λ _, false) (band_sw h)) (eq_band_para h))
            (set_alc (set_ingain 4096) s))
  else if eq_para_set_index =? 0 then Some (AUDIO_ERROR, s)
  else
    let mode := if s_cur_eq_mode_sel s =? AUD_ENHA_EQMODE_SEL_MMISET then 0 else s_cur_eq_mode_sel s - 1 in
    s ← (if is_eq_para_tunable then from_tunable_set mode tunable_eq_para_set_index s else from_eq_set mode s);
    Some (AUDIO_NO_ERROR, s).

(** The low cut of an audio mode: [reserve] holds its type and its numbers. *)
Definition lcf_of (control1 : Z) (res : list Z) (old : FILTER_LCF_CALC_PARA_T) : option FILTER_LCF_CALC_PARA_T :=
  r0 ← res !! 0%nat; r1 ← res !! 1%nat; r2 ← res !! 2%nat; r3 ← res !! 3%nat; r4 ← res !! 4%nat;
  r5 ← res !! 5%nat; r6 ← res !! 6%nat;
  let type := Z.land r0 0x0700 in
  let f := lcfPara old in
  Some (LcfPara (bit_of control1 0) type
          (if type =? FILTER_LCFPARA_F1F1 then F1F1 (i16 r1) (i16 r2) (i16 r3) (i16 r4) (i16 r5) (i16 r6)
           else F1F1 (i16 r1) (f1_g1 f) (f1_fp f) (f2_g0 f) (f2_g1 f) (f2_fp f))).

(** [AUDENHA_GetParaFromAudMode]: the fields of the three parameters it sets, and the mode. *)
Definition AUDENHA_GetParaFromAudMode (t : AUDIO_NV_ARM_MODE_STRUCT_T) (s : statics) : option (Z * statics) :=
  control1 ← aud_proc_exp_control t !! 1%nat;
  app ← app_config_info t !! 0%nat;
  input_gain ← agc_input_gain app !! 0%nat;
  r0 ← reserve t !! 0%nat;
  let h := s_cur_hpf_param s in
  let a := s_cur_alc_param s in
  lcf ← lcf_of control1 (reserve t) (lcf_para h);
  if Z.of_nat (length (reserve t)) <? 18 then None
  else
    Some (AUDIO_NO_ERROR,
          Statics (eq_para_set s) (tunable_eq_para_set s) (s_cur_dg_param s)
            (DaPath (Z.land r0 0x3000) (Z.land r0 0xc000))
            (Alc (bit_of control1 8) (i16 input_gain) (alc_ingain_Set a) (map i16 (take 11 (drop 7 (reserve t)))))
            (Hpf (data_width h) (Z.land r0 0xff) (s_gain h) lcf (eq_band_num h) (low_shelve_on h) (high_shelve_on h)
               (band_sw h) (eq_band_para h))
            (s_cur_sample_rate s) (s_cur_eq_para_set_index s) (s_cur_tunable_eq_para_set_index s)
            (Z.land (eq_switch app) 0xf)).

(** The set that the name of the mode selects, by its first bytes. *)
Definition chars_of (s : string) : list Z := map (λ c, Z.of_nat (Ascii.nat_of_ascii c)) (String.list_ascii_of_string s).
Definition begins_with (s : string) (l : list Z) : bool := bool_decide (take (length (chars_of s)) l = chars_of s).
Definition eq_set_index (mode_name : list Z) : Z :=
  if begins_with "Headset" mode_name then 1
  else if begins_with "Headfree" mode_name then 2
  else if begins_with "Handset" mode_name then 3
  else 4.

(** [AUDENHA_GetPara]. *)
Definition AUDENHA_GetPara (p : AUDIO_TOTAL_T) (s : statics) : option (Z * statics) :=
  app ← app_config_info (tAudioNvArmModeStruct p) !! 0%nat;
  let vol_index := valid_volume_level_count app in
  arm_vol ← arm_volume app !! Z.to_nat vol_index;
  let gain := i16 (Z.shiftr (Z.land arm_vol 0xffff0000) 16) in
  r ← AUDENHA_GetParaFromAudMode (tAudioNvArmModeStruct p)
        (Statics (eq_para_set s) (tunable_eq_para_set s) (Dg gain gain) (s_cur_dapath_param s) (s_cur_alc_param s)
           (s_cur_hpf_param s) get_cur_sample_rate (s_cur_eq_para_set_index s) (s_cur_tunable_eq_para_set_index s)
           (s_cur_eq_mode_sel s));
  let s := r.2 in
  let index := eq_set_index (ucModeName p) in
  let s := Statics (audio_enha_eq p) (tunable_eq_para_set s) (s_cur_dg_param s) (s_cur_dapath_param s)
             (s_cur_alc_param s) (s_cur_hpf_param s) (s_cur_sample_rate s) index (s_cur_tunable_eq_para_set_index s)
             (s_cur_eq_mode_sel s) in
  r ← AUDENHA_GetParaFromEqset false index (s_cur_tunable_eq_para_set_index s) s;
  let '(ret, s) := r in
  if ret =? AUDIO_NO_ERROR then
    Some (AUDIO_NO_ERROR,
          set_hpf (λ h, Hpf HPF_DATA_WIDTH_24 (r_limit h) [4096; 4096; 4096; 4096; 4096; 4096] (lcf_para h)
                          (eq_band_num h) (low_shelve_on h) (high_shelve_on h) (band_sw h) (eq_band_para h)) s)
  else Some (AUDIO_ERROR, s).

(** [AUDENHA_SetPara] for a profile: the value returned, the statics and the writes to the profile. *)
Definition AUDENHA_SetPara (p : AUDIO_TOTAL_T) (s : statics) : option (Z * statics * code) :=
  r ← AUDENHA_GetPara p s;
  let '(ret, s) := r in
  if ret =? AUDIO_NO_ERROR then
    r ← AUDENHA_Init (s_cur_dg_param s) (s_cur_dapath_param s) (s_cur_alc_param s) (s_cur_hpf_param s)
          (s_cur_sample_rate s);
    let '(ret, h, c) := r in
    Some (if ret =? AUDIO_NO_ERROR then AUDIO_NO_ERROR else AUDIO_ERROR, set_hpf (λ _, h) s, c)
  else Some (AUDIO_ERROR, s, done_).
