(* ===== verification/EqImage.v ===== *)
(** * The registers a set of parameters becomes (audio/sc8830/vb_effect/v2/vbc_codec_eq.c)

    What the words of a profile hold after [AUDENHA_SetPara], from the settings: every filter in the place the
    unit reads it from, with stable coefficients; and the order in which [AUDENHA_SetHpf] writes. *)

From Stdlib Require Import Reals.
From stdpp Require Import list.
From S2P Require Import Prelude CArith EqTables EqCalc EqRange EqStable EqLow VbHal EqSet.

Open Scope Z_scope.

(** ** The filters of the bands *)

Definition i16_band (b : EQ_BAND_INPUT_PARA_T) : Prop :=
  is_i16 (band_fo b) ∧ is_i16 (band_q b) ∧ is_i16 (band_boostdB b) ∧ is_i16 (band_gaindB b).

(** The parameters of the filters: arrays of their lengths, 16-bit settings, and no more bands than gains. *)
Definition wf_hpf (h : HPF_CONTROL_PARAM_T) : Prop :=
  length (s_gain h) = 6%nat ∧ length (band_sw h) = 8%nat ∧ length (eq_band_para h) = 8%nat
  ∧ Forall i16_band (eq_band_para h) ∧ 0 <= eq_band_num h <= 5.

(** What a calculation promises of a filter: 16 bits, and no pole outside the unit disc. *)
Definition good_filter (c : IIR_FILTER_PARA_T) : Prop :=
  fits c ∧ A0 c = 16384 ∧ ∀ x y, pole c x y → (x * x + y * y <= 1)%R.

Lemma good_all_pass : good_filter all_pass.
Proof.
  split; [|split; [done|]]; [unfold fits, is_i16, all_pass; cbn; lia|].
  intros x y. apply biquad_closed; cbn; lia.
Qed.

Lemma good_eq_coefficients p fs : fs <= fs_limit → refused p fs = false → good_filter (eq_coefficients p fs).
Proof.
  intros Hf Hr. destruct (raw_ranges p fs Hf Hr) as (W0 & W2 & W1 & WA).
  destruct (eq_ranges p fs Hf Hr) as (R1 & R2 & R3 & R4).
  destruct (prevent_overflow_spec (raw_b0 p fs) (raw_a1 p fs) (raw_b2 p fs) 0) as (_ & N & N0 & N1 & N2); [lia..|].
  pose proof (peak_triangle _ _ _ R1 R2 R3) as [T1 _].
  pose proof (peak_a2_bounds _ _ R1 R2) as (_ & Y1 & _).
  unfold good_filter, fits, eq_coefficients, raw_bits. cbn [B0 B1 B2 A0 A1 A2].
  split; [unfold is_i16 in *; lia|]. split; [done|]. intros x y.
  apply biquad_closed; cbn [A0 A1 A2]; unfold raw_a1, raw_a2; lia.
Qed.

Definition i16_setting (q : FILTER_EQ_CALC_PARA_T) : Prop :=
  is_i16 (fo q) ∧ is_i16 (unEqPara q) ∧ is_i16 (boostdB q) ∧ is_i16 (basegaindB q).

(** The filter of any setting exists, is good and has a gain that is not negative; what was in memory before does not
    matter. *)
Lemma setting_filter q fs :
  i16_setting q → fs <= fs_limit →
  ∃ c g, (∀ old, or_all_pass (Filter_CalcEQ q fs no_filter old) = Some (c, g)) ∧ good_filter c ∧ 0 <= g <= 32767.
Proof.
  intros (I1 & I2 & I3 & I4) Hf. destruct (isFilterOn q) eqn:On.
  - destruct (Z.eqb_spec (eEqParaType q) FILTER_EQPARA_NORMAL_EQ) as [Ty|Ty].
    + assert (Hp : peaking q) by done. destruct (refused q fs) eqn:Hr.
      * exists all_pass, 4096. split; [|split; [apply good_all_pass|lia]].
        intros old. by rewrite Filter_CalcEQ_spec, Hr by done.
      * exists (eq_coefficients q fs), (eq_scaled_gain q fs).
        split; [intros old; by rewrite Filter_CalcEQ_spec, Hr by done|]. split; [by apply good_eq_coefficients|].
        destruct (eq_ranges q fs Hf Hr) as (_ & _ & _ & R4). pose proof (Z.pow_nonneg 2 (raw_bits q fs)).
        unfold eq_scaled_gain. nia.
    + exists all_pass, 4096. split; [|split; [apply good_all_pass|lia]].
      intros old. unfold Filter_CalcEQ. rewrite On. by rewrite (proj2 (Z.eqb_neq _ _) Ty).
  - exists all_pass, 4096. split; [|split; [apply good_all_pass|lia]]. intros old. unfold Filter_CalcEQ. by rewrite On.
Qed.

Lemma band_lookup h i :
  wf_hpf h → 0 <= i < 8 → ∃ b, eq_band_para h !! Z.to_nat i = Some b ∧ i16_band b.
Proof.
  intros (_ & _ & L & F & _) Hi. destruct (lookup_lt_is_Some_2 (eq_band_para h) (Z.to_nat i)) as [b E]; [lia|].
  exists b. split; [done|]. by eapply Forall_lookup_1.
Qed.

Lemma band_setting_ok h i :
  wf_hpf h → 0 <= i < eq_band_num h → eq_band_num h ≠ 1 →
  ∃ q, band_setting h i = Some (Some q) ∧ i16_setting q.
Proof.
  intros Hh Hi Hn. assert (Hb : eq_band_num h <= 5) by apply Hh.
  destruct (band_lookup h i Hh ltac:(lia)) as (b & E & (B1 & B2 & B3 & B4)).
  assert (Ls : length (band_sw h) = 8%nat) by apply Hh.
  destruct (lookup_lt_is_Some_2 (band_sw h) (Z.to_nat i)) as [sw Es]; [lia|].
  unfold band_setting. rewrite E, Es. cbn [mbind option_bind].
  destruct ((i =? 0) && low_shelve_on h).
  { destruct (band_lookup h (i + 1) Hh ltac:(lia)) as (b' & E' & (B' & _)). rewrite E'. by eexists. }
  destruct ((i =? eq_band_num h - 1) && high_shelve_on h); [|by eexists].
  destruct (Z.ltb_spec 9 (eq_band_num h)); [lia|]. destruct (Z.ltb_spec (eq_band_num h) 2); [lia|]. cbn [orb].
  destruct (band_lookup h (eq_band_num h - 2) Hh ltac:(lia)) as (b' & E' & (B' & _)). rewrite E'. by eexists.
Qed.

(** The filter and the gain of a band. *)
Definition is_band_filter (h : HPF_CONTROL_PARAM_T) (fs i : Z) (c : IIR_FILTER_PARA_T) (g : Z) : Prop :=
  ∃ q, band_setting h i = Some (Some q) ∧ (∀ old, or_all_pass (Filter_CalcEQ q fs no_filter old) = Some (c, g))
       ∧ good_filter c ∧ 0 <= g <= 32767.

Lemma set_gain_setting i g h j : band_setting (set_gain i g h) j = band_setting h j.
Proof. done. Qed.

Lemma wf_set_gain i g h : wf_hpf h → wf_hpf (set_gain i g h).
Proof. intros (L & ?). split; [|done]. cbn [set_gain s_gain]. by rewrite length_insert. Qed.

(** Parameters that differ in the gains only. *)
Definition with_gains (gains : list Z) (h : HPF_CONTROL_PARAM_T) : HPF_CONTROL_PARAM_T :=
  Hpf (data_width h) (r_limit h) gains (lcf_para h) (eq_band_num h) (low_shelve_on h) (high_shelve_on h)
    (band_sw h) (eq_band_para h).

(** The loop calculates the filter of every band from [i] on and stores its gain. *)
Lemma set_bands_spec n i fs h :
  wf_hpf h → eq_band_num h ≠ 1 → 0 <= i → i + Z.of_nat n = eq_band_num h → fs <= fs_limit →
  ∃ gains cs, set_bands n i fs h = Some (Some (with_gains gains h, cs)) ∧ length gains = 6%nat ∧ length cs = n
    ∧ (∀ k, (k <= Z.to_nat i)%nat → gains !! k = s_gain h !! k)
    ∧ ∀ k, (k < n)%nat → ∃ c g, cs !! k = Some c ∧ gains !! (Z.to_nat i + 1 + k)%nat = Some g
                                ∧ is_band_filter h fs (i + Z.of_nat k) c g.
Proof.
  intros Hh H1 Hi Hn Hf. revert i h Hh H1 Hi Hn. induction n as [|n IH]; intros i h Hh H1 Hi Hn.
  { exists (s_gain h), []. cbn [set_bands]. split; [by destruct h|]. split; [apply Hh|]. split; [done|]. split; [done|]. intros k Hk. lia. }
  cbn [set_bands]. destruct (band_setting_ok h i Hh ltac:(lia) H1) as (q & Eq & Iq). rewrite Eq.
  assert (Hb : eq_band_num h <= 5) by apply Hh. assert (Lg : length (s_gain h) = 6%nat) by apply Hh.
  destruct (lookup_lt_is_Some_2 (s_gain h) (Z.to_nat (i + 1))) as [old Eo]; [lia|]. rewrite Eo.
  destruct (setting_filter q fs Iq Hf) as (c & g & Ec & Gc & Gg). cbn [mbind option_bind]. rewrite Ec.
  cbn [mbind option_bind].
  destruct (IH (i + 1) (set_gain (i + 1) g h)) as (gains & cs & E & L & Lc & F & K);
    [by apply wf_set_gain|done|lia|cbn; lia|]. rewrite E.
  exists gains, (c :: cs). split; [done|]. split; [done|]. split; [by cbn; rewrite Lc|]. split.
  - intros k Hk. rewrite F by lia. cbn [set_gain s_gain]. apply list_lookup_insert_ne. lia.
  - intros [|k] Hk.
    + exists c, g. split; [done|]. split; [|by exists q; replace (i + Z.of_nat 0) with i by lia].
      replace (Z.to_nat i + 1 + 0)%nat with (Z.to_nat (i + 1)) by lia. rewrite F by lia. cbn [set_gain s_gain].
      apply list_lookup_insert_eq. lia.
    + destruct (K k ltac:(lia)) as (c' & g' & K1 & K2 & K3). exists c', g'. split; [done|].
      replace (Z.to_nat i + 1 + S k)%nat with (Z.to_nat (i + 1) + 1 + k)%nat by lia.
      replace (i + Z.of_nat (S k)) with (i + 1 + Z.of_nat k) by lia. done.
Qed.

(** ** The registers of the filters *)

(** Number [t] of the seven registers of a filter: its gain, then the coefficients as the unit wants them. *)
Definition filter_word (g : Z) (c : IIR_FILTER_PARA_T) (t : Z) : Z :=
  match t with
  | 0 => g | 1 => B0 c | 2 => 16384 | 3 => B1 c | 4 => - A1 c | 5 => B2 c | 6 => - A2 c
  | _ => 0
  end.

(** Register [n] of the six filters. *)
Definition hpcoef_word (gains : list Z) (filters : list IIR_FILTER_PARA_T) (n : Z) : Z :=
  u32 (i16 (filter_word (s_of gains (n / 7)) (nth (Z.to_nat (n / 7)) filters no_filter) (n mod 7))).

(** The part of the writes after the fade-out. *)
Definition load (lcf : IIR_FILTER_PARA_T) (cs : list IIR_FILTER_PARA_T) (gains : list Z) : code :=
  (VB_SetHpfMode true;;
   each (seqZ 1 HPF_S_GAIN_NUM) (λ i, VB_SetHpfParas i 0 0 0 0 0 0);;
   set_filter 1 lcf;;
   each (imap (λ i c, (Z.of_nat i, c)) cs) (λ p, set_filter (p.1 + 2) p.2);;
   VB_SetHpfMode false;;
   AUDENHA_FadeIn gains HPF_FADE_IN_GAIN_SET_TIMES)%code.

Definition fade_out : code := λ m,
  let ori_hpf_gain := map (λ i, i16 (VB_GetHpfGain i m)) gain_indices in
  if s_of ori_hpf_gain (HPF_S_GAIN_NUM - 1) =? 0 then []
  else AUDENHA_FadeOut ori_hpf_gain HPF_FADE_OUT_GAIN_SET_TIMES m.

Lemma reprogram_parts lcf cs gains : reprogram lcf cs gains = then_ fade_out (load lcf cs gains).
Proof. done. Qed.

(** The words that [reprogram] may change. *)
Definition hpf_words : list address :=
  addr DAHPCTL :: flat_map (λ n, [addr (HPCOEF n H); addr (HPCOEF n L)]) (seqZ 0 42).

Definition within (ws : list address) (t : list event) : bool := forallb (λ e, existsb (same (target e)) ws) t.

Lemma settle_within ws t a v : within ws t = true → existsb (λ w, same a w) ws = false → settle a t v = v.
Proof.
  intros Hw Ha. apply settle_other. apply Forall_forall. intros e He.
  unfold within in Hw. rewrite forallb_forall in Hw. specialize (Hw e He).
  destruct (same a (target e)) eqn:E; [|done]. rewrite <- Ha. symmetry. apply existsb_exists.
  apply existsb_exists in Hw as (w & Iw & Ew). exists w. split; [done|].
  destruct a as [x|x|x], (target e) as [y|y|y], w as [z|z|z]; cbn in *; lia.
Qed.

Ltac five cs L := do 6 (destruct cs as [|? cs]; [try discriminate L|]); [|discriminate L].

Lemma load_within lcf cs gains m : length cs = 5%nat → within hpf_words (load lcf cs gains m) = true.
Proof. intros L. five cs L. lazy. reflexivity. Qed.

Lemma fade_out_within m : within hpf_words (fade_out m) = true.
Proof.
  unfold fade_out. destruct (s_of _ _ =? 0); [done|]. set (g := map _ _). clearbody g. lazy. reflexivity.
Qed.

(** For each of the 42 registers, by evaluation. *)
Ltac each_register n H :=
  let F := fresh in
  revert n H;
  match goal with |- ∀ n, 0 <= n < 42 → @?P n =>
    assert (F : Forall P (seqZ 0 42));
    [let l := eval vm_compute in (seqZ 0 42) in change (seqZ 0 42) with l;
     repeat (apply List.Forall_cons; [lazy -[u32 i16]; repeat split; reflexivity|]); apply List.Forall_nil
    |intros n H; eapply (proj1 (List.Forall_forall _ _) F n), list_elem_of_In, elem_of_seqZ; lia]
  end.

(** Whatever a word holds, the load leaves the filters' words in the filters' registers. *)
Lemma load_words lcf cs gains m v n :
  length cs = 5%nat → 0 <= n < 42 →
  settle (addr (HPCOEF n H)) (load lcf cs gains m) v = hpcoef_word gains (lcf :: cs) n
  ∧ settle (addr (HPCOEF n L)) (load lcf cs gains m) v = 0.
Proof. intros Hl Hn. five cs Hl. each_register n Hn. Qed.

Lemma load_control lcf cs gains m v :
  length cs = 5%nat →
  settle (addr DAHPCTL) (load lcf cs gains m) v = Z.land (Z.lor v (u32 (Z.shiftl 1 9))) (u32 (Z.lnot (Z.shiftl 1 9))).
Proof. intros Hl. five cs Hl. lazy -[u32 i16 Z.land Z.lor Z.lnot Z.shiftl]. reflexivity. Qed.

Lemma fade_out_control m v : settle (addr DAHPCTL) (fade_out m) v = v.
Proof.
  unfold fade_out. destruct (s_of _ _ =? 0); [done|]. set (g := map _ _). clearbody g.
  apply (settle_within (flat_map (λ n, [addr (HPCOEF n H); addr (HPCOEF n L)]) (seqZ 0 42))); lazy; reflexivity.
Qed.

(** What [reprogram] leaves in memory, whatever was there. *)
Lemma reprogram_words lcf cs gains m :
  length cs = 5%nat →
  let w := run (reprogram lcf cs gains m) m in
  (∀ n, 0 <= n < 42 → REG32 (HPCOEF n H) w = hpcoef_word gains (lcf :: cs) n ∧ REG32 (HPCOEF n L) w = 0)
  ∧ REG32 DAHPCTL w = Z.land (Z.lor (REG32 DAHPCTL m) (u32 (Z.shiftl 1 9))) (u32 (Z.lnot (Z.shiftl 1 9)))
  ∧ ∀ a, existsb (λ w, same a w) hpf_words = false → w a = m a.
Proof.
  intros Hl w. subst w. unfold REG32. rewrite reprogram_parts, run_then. set (m' := run (fade_out m) m).
  split; [intros n Hn; rewrite !run_word; split; by apply load_words|]. split.
  - rewrite run_word, load_control by done. subst m'. by rewrite run_word, fade_out_control.
  - intros a Ha. rewrite run_word, (settle_within hpf_words) by (done || by apply load_within).
    subst m'. rewrite run_word. apply (settle_within hpf_words); [apply fade_out_within|done].
Qed.

(** ** The low cut and the whole function *)

(** Low-cut settings that the calculation handles: off, of a type it does not know, with a gain out of range, or
    with frequencies below half the sample rate. *)
Definition lcf_usable (p : FILTER_LCF_CALC_PARA_T) (fs : Z) : Prop :=
  lcf_isFilterOn p = false
  ∨ (eLcfParaType p ≠ FILTER_LCFPARA_F1F1 ∧ eLcfParaType p ≠ FILTER_LCFPARA_BUTTERWORTH)
  ∨ (eLcfParaType p = FILTER_LCFPARA_F1F1
     ∧ (out_of_dB (f1_g0 (lcfPara p)) || out_of_dB (f1_g1 (lcfPara p))
        || out_of_dB (f2_g0 (lcfPara p)) || out_of_dB (f2_g1 (lcfPara p)) = true))
  ∨ low_cut p fs.

Lemma lcf_filter p fs :
  lcf_usable p fs → 0 < fs →
  ∃ c g, or_all_pass (Filter_CalcLCF p 16384 fs) = Some (c, g) ∧ good_filter c ∧ 0 <= g <= 32767.
Proof.
  intros H Hfs.
  assert (AP : ∀ r, r = Some (true, all_pass, 4096) →
    ∃ c g, or_all_pass r = Some (c, g) ∧ good_filter c ∧ 0 <= g <= 32767).
  { intros r ->. exists all_pass, 4096. split; [done|]. split; [apply good_all_pass|lia]. }
  destruct (lcf_isFilterOn p) eqn:On; [|apply AP; unfold Filter_CalcLCF; rewrite On; destruct (Z.leb_spec fs 0); [lia|done]].
  destruct H as [H|[[H1 H2]|[[H1 H2]|H]]]; [by rewrite On in H| | |].
  - apply AP. unfold Filter_CalcLCF. rewrite On. destruct (Z.leb_spec fs 0); [lia|].
    by rewrite (proj2 (Z.eqb_neq _ _) H1), (proj2 (Z.eqb_neq _ _) H2).
  - apply AP. unfold Filter_CalcLCF, lcf_f1f1. rewrite On, H1. destruct (Z.leb_spec fs 0); [lia|].
    change (FILTER_LCFPARA_F1F1 =? FILTER_LCFPARA_F1F1) with true. cbv iota.
    destruct (out_of_dB (f1_g0 _)); [done|]. destruct (out_of_dB (f1_g1 _)); [done|].
    destruct (out_of_dB (f2_g0 _)); [done|]. destruct (out_of_dB (f2_g1 _)); done.
  - destruct (Filter_CalcLCF_stable p 16384 fs H Hfs ltac:(lia)) as (c & g & E & F & G & A & S). rewrite E.
    exists c, g. split; [done|]. split; [done|lia].
Qed.

(** The filters and gains that belong to the parameters. *)
Definition filters_of (h : HPF_CONTROL_PARAM_T) (fs : Z) (lcf : IIR_FILTER_PARA_T) (cs : list IIR_FILTER_PARA_T)
    (gains : list Z) : Prop :=
  length cs = 5%nat ∧ length gains = 6%nat
  ∧ or_all_pass (Filter_CalcLCF (lcf_para h) 16384 fs) = Some (lcf, s_of gains 0) ∧ good_filter lcf
  ∧ ∀ k, 0 <= k < 5 → is_band_filter h fs k (nth (Z.to_nat k) cs no_filter) (s_of gains (k + 1)).

Lemma AUDENHA_SetHpf_spec h fs :
  wf_hpf h → eq_band_num h = 5 → 0 < fs <= fs_limit → lcf_usable (lcf_para h) fs →
  ∃ lcf cs gains, AUDENHA_SetHpf h fs = Some (true, with_gains gains h, reprogram lcf cs gains)
    ∧ filters_of h fs lcf cs gains.
Proof.
  intros Hh Hn Hf Hl. unfold AUDENHA_SetHpf. destruct (lcf_filter _ fs Hl ltac:(lia)) as (lcf & g & E & Gl & Gg).
  rewrite E. cbn [mbind option_bind].
  destruct (set_bands_spec (Z.to_nat (eq_band_num h)) 0 fs (set_gain 0 g h)) as (gains & cs & Es & Lg & Lc & F & K);
    [by apply wf_set_gain|cbn; lia|lia|cbn; lia|lia|].
  rewrite Es. exists lcf, cs, gains. split; [done|]. rewrite Hn in Lc, K.
  split; [done|]. split; [done|].
  assert (G0 : gains !! 0%nat = Some g).
  { rewrite F by lia. cbn [set_gain s_gain]. apply list_lookup_insert_eq. destruct Hh as (L6 & _). rewrite L6. lia. }
  split; [unfold s_of; change (Z.to_nat 0) with 0%nat; by rewrite G0|]. split; [done|].
  intros k Hk. destruct (K (Z.to_nat k) ltac:(lia)) as (c & g' & K1 & K2 & (q & Q)).
  exists q. rewrite Z2Nat.id in Q by lia. rewrite (nth_lookup_Some _ _ _ _ K1).
  replace (Z.to_nat 0 + 1 + Z.to_nat k)%nat with (Z.to_nat (k + 1)) in K2 by lia. unfold s_of. rewrite K2. done.
Qed.

(** ** The order of the writes *)

(** The registers of the coefficients. *)
Definition coefficient_words : list address :=
  flat_map (λ n, if n mod 7 =? 0 then [] else [addr (HPCOEF n H); addr (HPCOEF n L)]) (seqZ 0 42).

(** The delay lines are held clear, and the gains are zero if the last one was not when it began. *)
Definition protected (playing : bool) (m : words) : Prop :=
  Z.testbit (REG32 DAHPCTL m) 9 = true
  ∧ (playing = true → ∀ k, 0 <= k < 6 → REG32 (HPCOEF (7 * k) H) m = 0).

(** Coefficients are written in protected states only. *)
Definition quiet (playing : bool) (m : words) (t : list event) : Prop :=
  ∀ pre e post, t = pre ++ e :: post → existsb (same (target e)) coefficient_words = true →
  protected playing (run pre m).

Lemma quiet_app p m t u : quiet p m t → quiet p (run t m) u → quiet p m (t ++ u).
Proof.
  intros Ht Hu pre e post E He. destruct (decide (length pre < length t)%nat) as [Hl|Hl].
  - assert (Et : t = pre ++ e :: drop (S (length pre)) t).
    { apply (f_equal (take (length t))) in E. rewrite take_app_length in E.
      rewrite take_app_ge in E by lia. destruct (length t - length pre)%nat as [|k] eqn:Ek; [lia|].
      cbn [firstn] in E. rewrite E at 1. f_equal. f_equal.
      rewrite E, drop_app_ge by lia. replace (S (length pre) - length pre)%nat with 1%nat by lia. cbn [drop].
      symmetry. rewrite skipn_O. done. }
    by eapply Ht.
  - assert (Ep : pre = t ++ drop (length t) pre).
    { rewrite <- (take_drop (length t) pre) at 1. f_equal.
      apply (f_equal (take (length t))) in E. rewrite take_app_length, take_app_le in E by lia. done. }
    rewrite Ep in E. rewrite <- app_assoc in E. apply app_inv_head in E. rewrite Ep, run_trace_app. by eapply Hu.
Qed.

(** Stretches without coefficients, and stretches of nothing else. *)
Lemma quiet_without p m t : forallb (λ e, negb (existsb (same (target e)) coefficient_words)) t = true → quiet p m t.
Proof.
  intros F pre e post -> He. rewrite forallb_app in F. cbn [forallb] in F. rewrite He in F. cbn in F.
  by rewrite andb_false_r in F.
Qed.

Lemma quiet_only p m t : within coefficient_words t = true → protected p m → quiet p m t.
Proof.
  intros F [P1 P2] pre e post -> He. unfold within in F. rewrite forallb_app in F. apply andb_prop in F as [F _].
  split; [|intros Hp k Hk]; unfold REG32; rewrite run_word, (settle_within coefficient_words); try done.
  - by apply P2.
  - assert (G : forallb (λ k, negb (existsb (λ w, same (addr (HPCOEF (7 * k) H)) w) coefficient_words)) (seqZ 0 6) = true)
      by (vm_compute; reflexivity).
    apply (forallb_seqZ _ 0 6 k) in G; [|lia]. by apply negb_true_iff.
Qed.

(** The load in three parts. *)
Definition coefficients (lcf : IIR_FILTER_PARA_T) (cs : list IIR_FILTER_PARA_T) : code :=
  (each (seqZ 1 HPF_S_GAIN_NUM) (λ i, VB_SetHpfParas i 0 0 0 0 0 0);;
   set_filter 1 lcf;;
   each (imap (λ i c, (Z.of_nat i, c)) cs) (λ p, set_filter (p.1 + 2) p.2))%code.

Lemma then_assoc a b c m : then_ (then_ a b) c m = then_ a (then_ b c) m.
Proof. unfold then_. rewrite <- app_assoc. do 2 f_equal. by rewrite run_trace_app. Qed.

Lemma then_congr a b c m : b (run (a m) m) = c (run (a m) m) → then_ a b m = then_ a c m.
Proof. intros E. unfold then_. by rewrite E. Qed.

Lemma load_parts lcf cs gains m :
  load lcf cs gains m
  = then_ (VB_SetHpfMode true) (then_ (coefficients lcf cs)
      (then_ (VB_SetHpfMode false) (AUDENHA_FadeIn gains HPF_FADE_IN_GAIN_SET_TIMES))) m.
Proof.
  unfold load, coefficients. apply then_congr. rewrite then_assoc. apply then_congr. by rewrite then_assoc.
Qed.

Lemma faded_out g m k v :
  0 <= k < 6 → settle (addr (HPCOEF (7 * k) H)) (AUDENHA_FadeOut g HPF_FADE_OUT_GAIN_SET_TIMES m) v = 0.
Proof.
  intros Hk. assert (k = 0 ∨ k = 1 ∨ k = 2 ∨ k = 3 ∨ k = 4 ∨ k = 5) as [-> |[-> |[-> |[-> |[-> | ->]]]]] by lia;
    lazy -[u32 i16]; reflexivity.
Qed.

Lemma set_bands_length n i fs h h' cs : set_bands n i fs h = Some (Some (h', cs)) → length cs = n.
Proof.
  revert i h h' cs. induction n as [|n IH]; intros i h h' cs E; cbn [set_bands] in E; [by simplify_eq|].
  destruct (band_setting h i) as [[q|]|]; [|done..]. destruct (s_gain h !! _) as [old|]; [|done].
  cbn [mbind option_bind] in E. destruct (or_all_pass _) as [[c g]|]; [|done]. cbn [mbind option_bind] in E.
  destruct (set_bands n _ _ _) as [[[h2 cs2]|]|] eqn:E2; [|done..]. simplify_eq. cbn. by rewrite (IH _ _ _ _ E2).
Qed.

(** C21. The coefficients are only changed while the filters are held clear, and with all gains at zero if the music is
    playing, which is whether the last gain register holds something. *)
Theorem AUDENHA_SetHpf_quiet h fs h' c m pre e post :
  AUDENHA_SetHpf h fs = Some (true, h', c) → eq_band_num h = 5 →
  c m = pre ++ e :: post → existsb (same (target e)) coefficient_words = true →
  protected (negb (i16 (REG32 (HPCOEF 35 H) m) =? 0)) (run pre m).
Proof.
  intros E Hn Ec. unfold AUDENHA_SetHpf in E. destruct (or_all_pass _) as [[lcf g]|]; [|done].
  cbn [mbind option_bind] in E. destruct (set_bands _ _ _ _) as [[[h2 cs]|]|] eqn:Es; [|done..]. simplify_eq.
  apply set_bands_length in Es. rewrite Hn in Es. change (Z.to_nat 5) with 5%nat in Es. revert pre e post Ec.
  fold (quiet (negb (i16 (REG32 (HPCOEF 35 H) m) =? 0)) m (reprogram lcf cs (s_gain h') m)).
  rewrite reprogram_parts. unfold then_ at 1. apply quiet_app.
  - apply quiet_without. unfold fade_out. destruct (s_of _ _ =? 0); [done|]. set (x := map _ _). clearbody x.
    lazy. reflexivity.
  - set (m1 := run (fade_out m) m). rewrite load_parts. apply quiet_app; [by apply quiet_without|].
    apply quiet_app; [|apply quiet_without; lazy; reflexivity]. apply quiet_only; [five cs Es; lazy; reflexivity|].
    split.
    + unfold REG32. rewrite run_word. cbn -[Z.testbit Z.lor u32]. by rewrite Z.lor_spec, orb_true_r.
    + intros Hp k Hk. unfold REG32. rewrite run_word, (settle_within [addr DAHPCTL]);
        [|done|cbn; destruct (Z.eqb_spec (80 + 8 * (7 * k) + 0) 4); [lia|done]].
      subst m1. rewrite run_word. unfold fade_out. change (s_of (map _ _) _) with (i16 (REG32 (HPCOEF 35 H) m)).
      apply negb_true_iff in Hp. rewrite Hp. by apply faded_out.
Qed.

(** Five bands at 1 kHz, loaded while the gains are not zero: the first coefficient is the 254th write. *)
Definition ex_hpf : HPF_CONTROL_PARAM_T :=
  Hpf 24 0 (repeat 4096 6) (LcfPara false 0 (F1F1 0 0 0 0 0 0)) 5 false false (repeat true 8)
    (repeat (Band 1000 512 60 0) 8).
Definition ex_playing : words := λ a, if same a (addr DAHPCTL) then 0 else 4096.
Definition ex_code : code :=
  match AUDENHA_SetHpf ex_hpf 44100 with Some (_, _, c) => c | None => done_ end.

Theorem AUDENHA_SetHpf_quiet_witness :
  ∃ h' e, AUDENHA_SetHpf ex_hpf 44100 = Some (true, h', ex_code)
    ∧ ex_code ex_playing !! 253%nat = Some e ∧ existsb (same (target e)) coefficient_words = true
    ∧ protected true (run (take 253 (ex_code ex_playing)) ex_playing).
Proof.
  exists (with_gains (repeat 4096 6) ex_hpf), (Set_ (HPCOEF 1 H) 0).
  assert (E : AUDENHA_SetHpf ex_hpf 44100 = Some (true, with_gains (repeat 4096 6) ex_hpf, ex_code)) by reflexivity.
  split; [exact E|]. split; [vm_compute; reflexivity|]. split; [vm_compute; reflexivity|].
  exact (AUDENHA_SetHpf_quiet ex_hpf 44100 _ ex_code ex_playing (take 253 (ex_code ex_playing)) (Set_ (HPCOEF 1 H) 0)
           (drop 254 (ex_code ex_playing)) E eq_refl ltac:(vm_compute; reflexivity) ltac:(vm_compute; reflexivity)).
Defined.
