(* ===== verification/EqPara.v ===== *)
(** * From the parameters of an audio mode to the words of its profile (audio/sc8830/vb_effect/v2/vbc_codec_eq.c)

    [AUDENHA_SetPara] succeeds for every well-formed set of parameters with five bands, keeps the static
    variables well formed, and fills the profile with the filters of the settings. *)

From Stdlib Require Import Reals.
From stdpp Require Import list strings.
From S2P Require Import Prelude CArith EqTables EqCalc EqRange EqStable EqLow VbHal EqSet EqImage.

Open Scope Z_scope.

(** ** Well-formed parameters *)

Definition wf_mode (m : EQ_MODE_PARA_T) : Prop := length (eq_band m) = 8%nat ∧ Forall i16_band (eq_band m).

(** The array lengths of eng_audio.h, 16-bit fields, and a volume level within its table. *)
Definition wf_app (a : AUDIO_NV_ARM_APP_CONFIG_INFO_T) : Prop :=
  length (agc_input_gain a) = 8%nat ∧ length (arm_volume a) = 31%nat ∧ 0 <= valid_volume_level_count a <= 30.
Definition wf_total (p : AUDIO_TOTAL_T) : Prop :=
  length (eq_modes (audio_enha_eq p)) = 6%nat ∧ Forall wf_mode (eq_modes (audio_enha_eq p))
  ∧ length (aud_proc_exp_control (tAudioNvArmModeStruct p)) = 2%nat
  ∧ length (app_config_info (tAudioNvArmModeStruct p)) = 16%nat
  ∧ Forall wf_app (app_config_info (tAudioNvArmModeStruct p))
  ∧ length (reserve (tAudioNvArmModeStruct p)) = 64%nat.

(** The fields by their meaning. *)
Definition app_of (p : AUDIO_TOTAL_T) : AUDIO_NV_ARM_APP_CONFIG_INFO_T :=
  nth 0 (app_config_info (tAudioNvArmModeStruct p)) (AppConfig 0 [] 0 [] []).
Definition reserve_of (p : AUDIO_TOTAL_T) (i : nat) : Z := nth i (reserve (tAudioNvArmModeStruct p)) 0.
Definition control_of (p : AUDIO_TOTAL_T) : Z := nth 1 (aud_proc_exp_control (tAudioNvArmModeStruct p)) 0.
Definition mode_of (p : AUDIO_TOTAL_T) : Z := Z.land (eq_switch (app_of p)) 0xf.

(** Parameters the code handles: five bands, a mode that exists (off, 1 to 6, or the one set by the user), and a low
    cut within its range. *)
Definition handled (p : AUDIO_TOTAL_T) : Prop :=
  bit_of (eq_control (audio_enha_eq p)) 15 = false
  ∧ (mode_of p <= 6 ∨ mode_of p = 15)
  ∧ (bit_of (control_of p) 0 = false
     ∨ lcf_usable (LcfPara true (Z.land (reserve_of p 0) 0x0700)
         (F1F1 (i16 (reserve_of p 1)) (i16 (reserve_of p 2)) (i16 (reserve_of p 3)) (i16 (reserve_of p 4))
            (i16 (reserve_of p 5)) (i16 (reserve_of p 6)))) DEFAULT_OUT_SAMPLING_RATE).

(** The static variables between calls. *)
Definition wf_statics (s : statics) : Prop :=
  length (band_sw (s_cur_hpf_param s)) = 8%nat ∧ length (eq_band_para (s_cur_hpf_param s)) = 8%nat
  ∧ Forall i16_band (eq_band_para (s_cur_hpf_param s)).

(** ** Reading the parameters *)

(** The settings of the equaliser: off, or those of the mode. *)
Definition eq_mode_index (p : AUDIO_TOTAL_T) : Z := if mode_of p =? 15 then 0 else mode_of p - 1.
Definition eq_read (p : AUDIO_TOTAL_T) (s : statics) : Prop :=
  let h := s_cur_hpf_param s in
  if mode_of p =? 0 then Forall (λ b, b = false) (band_sw h) ∧ alc_ingain_Set (s_cur_alc_param s) = 4096
  else ∃ m, eq_modes (audio_enha_eq p) !! Z.to_nat (eq_mode_index p) = Some m
    ∧ alc_ingain_Set (s_cur_alc_param s) = agc_in_gain m
    ∧ low_shelve_on h = bit_of (band_control m) 0 ∧ high_shelve_on h = bit_of (band_control m) 1
    ∧ take 5 (band_sw h) = map (λ i, bit_of (band_control m) (15 - i)) (seqZ 0 5)
    ∧ take 5 (eq_band_para h) = take 5 (eq_band m).

(** The settings of the low cut: its switch, its type and, for the pair of sections, all six numbers; for the other types
    the code takes the first number only. *)
Definition low_cut_read (p : AUDIO_TOTAL_T) (l : FILTER_LCF_CALC_PARA_T) : Prop :=
  lcf_isFilterOn l = bit_of (control_of p) 0 ∧ eLcfParaType l = Z.land (reserve_of p 0) 0x0700
  ∧ f1_g0 (lcfPara l) = i16 (reserve_of p 1)
  ∧ (eLcfParaType l = FILTER_LCFPARA_F1F1 →
     lcfPara l = F1F1 (i16 (reserve_of p 1)) (i16 (reserve_of p 2)) (i16 (reserve_of p 3)) (i16 (reserve_of p 4))
                   (i16 (reserve_of p 5)) (i16 (reserve_of p 6))).

(** The digital gain: the upper half of the volume at the level the mode selects. *)
Definition digital_gain (p : AUDIO_TOTAL_T) : Z :=
  i16 (Z.shiftr (Z.land (nth (Z.to_nat (valid_volume_level_count (app_of p))) (arm_volume (app_of p)) 0) 0xffff0000) 16).

(** What [AUDENHA_GetPara] leaves in the static variables. *)
Definition read_from (p : AUDIO_TOTAL_T) (s : statics) : Prop :=
  wf_hpf (s_cur_hpf_param s) ∧ eq_band_num (s_cur_hpf_param s) = 5
  ∧ lcf_usable (lcf_para (s_cur_hpf_param s)) DEFAULT_OUT_SAMPLING_RATE
  ∧ low_cut_read p (lcf_para (s_cur_hpf_param s)) ∧ s_cur_dg_param s = Dg (digital_gain p) (digital_gain p)
  ∧ s_cur_sample_rate s = DEFAULT_OUT_SAMPLING_RATE
  ∧ data_width (s_cur_hpf_param s) = 24 ∧ r_limit (s_cur_hpf_param s) = Z.land (reserve_of p 0) 0xff
  ∧ alc_sw (s_cur_alc_param s) = bit_of (control_of p) 8
  ∧ alc_input_gain (s_cur_alc_param s) = i16 (nth 0 (agc_input_gain (app_of p)) 0)
  ∧ alc_Para (s_cur_alc_param s) = map i16 (take 11 (drop 7 (reserve (tAudioNvArmModeStruct p))))
  ∧ left_fm_mix_mode (s_cur_dapath_param s) = Z.land (reserve_of p 0) 0x3000
  ∧ right_fm_mix_mode (s_cur_dapath_param s) = Z.land (reserve_of p 0) 0xc000
  ∧ s_cur_eq_mode_sel s = mode_of p ∧ eq_read p s.

Lemma lookup_nth {X} (l : list X) i d : (i < length l)%nat → l !! i = Some (nth i l d).
Proof. intros H. destruct (lookup_lt_is_Some_2 l i H) as [x E]. by rewrite (nth_lookup_Some _ _ _ _ E). Qed.

Lemma lcf_of_ok p old :
  length (reserve (tAudioNvArmModeStruct p)) = 64%nat →
  ∃ l, lcf_of (control_of p) (reserve (tAudioNvArmModeStruct p)) old = Some l ∧ low_cut_read p l.
Proof.
  intros L. unfold lcf_of. rewrite !(lookup_nth _ _ 0) by lia. cbn [mbind option_bind].
  eexists. split; [reflexivity|]. unfold low_cut_read, reserve_of. cbn [lcf_isFilterOn eLcfParaType lcfPara].
  split; [done|]. split; [done|]. destruct (Z.eqb_spec (Z.land (nth 0 (reserve (tAudioNvArmModeStruct p)) 0) 0x0700) FILTER_LCFPARA_F1F1); done.
Qed.

(** The type is not shifted down, so it is 0 or a multiple of 256: never the Butterworth filter's. *)
Lemma lcf_type_values r : Z.land r 0x0700 ≠ FILTER_LCFPARA_BUTTERWORTH.
Proof.
  intros E. apply (f_equal (λ z, Z.testbit z 0)) in E. rewrite Z.land_spec, andb_false_r in E. discriminate E.
Qed.

Lemma handled_lcf p l :
  handled p → low_cut_read p l → lcf_usable l DEFAULT_OUT_SAMPLING_RATE.
Proof.
  intros (_ & _ & H) (On & Ty & _ & Pa). destruct H as [H|H]; [left; congruence|].
  destruct (bit_of (control_of p) 0) eqn:B; [|by left]. pose proof (lcf_type_values (reserve_of p 0)) as NB.
  destruct (Z.eq_dec (eLcfParaType l) FILTER_LCFPARA_F1F1) as [Tf|Tf]; [|right; left; split; [done|by rewrite Ty]].
  specialize (Pa Tf). destruct l as [on ty pa]. cbn [lcf_isFilterOn eLcfParaType lcfPara] in *. subst on ty pa. done.
Qed.

(** The bands that the mode gives. *)
Lemma wf_set_eq n low high sw bands h :
  length (band_sw h) = 8%nat → length (eq_band_para h) = 8%nat → Forall i16_band (eq_band_para h) →
  (length sw <= 8)%nat → (length bands <= 8)%nat → Forall i16_band bands →
  let h' := set_eq n low high sw bands h in
  length (band_sw h') = 8%nat ∧ length (eq_band_para h') = 8%nat ∧ Forall i16_band (eq_band_para h').
Proof.
  intros L1 L2 F Ls Lb Fb h'. subst h'. cbn [set_eq band_sw eq_band_para]. rewrite !length_app, !length_drop.
  split; [lia|]. split; [lia|]. apply Forall_app. split; [done|]. by apply Forall_drop.
Qed.

Lemma from_eq_set_ok mode s :
  length (eq_modes (eq_para_set s)) = 6%nat → Forall wf_mode (eq_modes (eq_para_set s)) → wf_statics s →
  bit_of (eq_control (eq_para_set s)) 15 = false → 0 <= mode < 6 →
  ∃ m sw bands, eq_modes (eq_para_set s) !! Z.to_nat mode = Some m
    ∧ from_eq_set mode s
      = Some (set_hpf (set_eq 5 (bit_of (band_control m) 0) (bit_of (band_control m) 1) sw bands)
                (set_alc (set_ingain (agc_in_gain m)) s))
    ∧ sw = map (λ i, bit_of (band_control m) (15 - i)) (seqZ 0 5) ∧ bands = take 5 (eq_band m)
    ∧ length bands = 5%nat ∧ Forall i16_band bands.
Proof.
  intros L F Hs Hc Hm. destruct (lookup_lt_is_Some_2 (eq_modes (eq_para_set s)) (Z.to_nat mode)) as [m E]; [lia|].
  pose proof (Forall_lookup_1 _ _ _ _ F E) as [Lm Fm]. unfold from_eq_set. rewrite E. cbn [mbind option_bind].
  unfold band_count. rewrite Hc. destruct (Z.ltb_spec (Z.of_nat (length (eq_band m))) 5); [lia|].
  eexists m, _, _. split; [done|]. split; [reflexivity|]. split; [done|]. split; [done|]. rewrite length_take, Lm.
  split; [done|]. by apply Forall_take.
Qed.

Lemma app_of_ok p : wf_total p → app_config_info (tAudioNvArmModeStruct p) !! 0%nat = Some (app_of p) ∧ wf_app (app_of p).
Proof.
  intros (_ & _ & _ & L & F & _). assert (E : app_config_info (tAudioNvArmModeStruct p) !! 0%nat = Some (app_of p))
    by (apply lookup_nth; lia). split; [done|]. by eapply Forall_lookup_1.
Qed.

(** The static variables after [AUDENHA_GetParaFromAudMode]. *)
Definition after_mode (p : AUDIO_TOTAL_T) (lcf : FILTER_LCF_CALC_PARA_T) (s : statics) : statics :=
  let h := s_cur_hpf_param s in let a := s_cur_alc_param s in
  Statics (eq_para_set s) (tunable_eq_para_set s) (s_cur_dg_param s)
    (DaPath (Z.land (reserve_of p 0) 0x3000) (Z.land (reserve_of p 0) 0xc000))
    (Alc (bit_of (control_of p) 8) (i16 (nth 0 (agc_input_gain (app_of p)) 0)) (alc_ingain_Set a)
       (map i16 (take 11 (drop 7 (reserve (tAudioNvArmModeStruct p))))))
    (Hpf (data_width h) (Z.land (reserve_of p 0) 0xff) (s_gain h) lcf (eq_band_num h) (low_shelve_on h)
       (high_shelve_on h) (band_sw h) (eq_band_para h))
    (s_cur_sample_rate s) (s_cur_eq_para_set_index s) (s_cur_tunable_eq_para_set_index s) (mode_of p).

Lemma AUDENHA_GetParaFromAudMode_spec p s :
  wf_total p → handled p →
  ∃ lcf, AUDENHA_GetParaFromAudMode (tAudioNvArmModeStruct p) s = Some (AUDIO_NO_ERROR, after_mode p lcf s)
    ∧ low_cut_read p lcf.
Proof.
  intros Hp Hh. destruct (app_of_ok p Hp) as [Ea (La & _ & _)]. destruct Hp as (_ & _ & Lc & _ & _ & Lr).
  destruct (lcf_of_ok p (lcf_para (s_cur_hpf_param s)) Lr) as (l & El & Hl).
  exists l. split; [|done].
  unfold AUDENHA_GetParaFromAudMode. rewrite (lookup_nth _ 1 0) by lia. cbn [mbind option_bind].
  rewrite Ea. cbn [mbind option_bind]. rewrite (lookup_nth _ 0 0) by lia. cbn [mbind option_bind].
  rewrite (lookup_nth _ 0 0) by lia. cbn [mbind option_bind]. fold (control_of p). rewrite El. cbn [mbind option_bind].
  rewrite Lr. done.
Qed.

(** The mode of the equaliser is one that [eq_modes] has. *)
Lemma mode_index p : handled p → mode_of p ≠ 0 → 0 <= (if mode_of p =? 15 then 0 else mode_of p - 1) < 6.
Proof.
  intros (_ & H & _) Hn. assert (0 <= mode_of p) by (unfold mode_of; apply Z.land_nonneg; lia).
  destruct (Z.eqb_spec (mode_of p) 15); lia.
Qed.

Lemma eq_set_index_positive l : eq_set_index l ≠ 0.
Proof. unfold eq_set_index. by repeat case_match. Qed.

Lemma AUDENHA_GetPara_spec p s :
  wf_total p → handled p → wf_statics s →
  ∃ s', AUDENHA_GetPara p s = Some (AUDIO_NO_ERROR, s') ∧ read_from p s' ∧ wf_statics s'.
Proof.
  intros Hp Hh (S1 & S2 & S3). destruct (app_of_ok p Hp) as [Ea (La & Lv & Hv)].
  unfold AUDENHA_GetPara. rewrite Ea. cbn [mbind option_bind].
  rewrite (lookup_nth (arm_volume (app_of p)) _ 0) by lia. cbn [mbind option_bind].
  match goal with |- context [AUDENHA_GetParaFromAudMode _ ?s0] => set (s1 := s0) end.
  destruct (AUDENHA_GetParaFromAudMode_spec p s1 Hp Hh) as (lcf & E & Rl).
  pose proof (handled_lcf p lcf Hh Rl) as Ul. rewrite E. cbn [mbind option_bind snd].
  pose proof (eq_set_index_positive (ucModeName p)) as Hi. set (index := eq_set_index (ucModeName p)) in *.
  match goal with |- context [AUDENHA_GetParaFromEqset _ _ _ ?s0] => set (s2 := s0) end.
  unfold AUDENHA_GetParaFromEqset. change (s_cur_eq_mode_sel s2) with (mode_of p).
  unfold AUD_ENHA_EQMODE_SEL_OFF, AUD_ENHA_EQMODE_SEL_MMISET. rewrite (proj2 (Z.eqb_neq _ _) Hi).
  destruct (Z.eqb_spec (mode_of p) 0) as [Hm|Hm]; cbn [mbind option_bind].
  - eexists. split; [reflexivity|]. unfold read_from, wf_hpf, wf_statics, eq_read. rewrite Hm. cbn. rewrite length_map.
    split_and!; try done; try lia. apply Forall_fmap. by apply Forall_true.
  - destruct Hp as (P1 & P2 & _). pose proof (mode_index p Hh Hm) as Hx. fold (eq_mode_index p) in *.
    destruct (from_eq_set_ok (eq_mode_index p) s2 P1 P2 ltac:(done) (proj1 Hh) Hx)
      as (m & sw & bands & Em & Eq & Esw & Ebands & Lb & Fb). rewrite Eq. cbn [mbind option_bind].
    assert (Ls : length sw = 5%nat) by (rewrite Esw; done).
    destruct (wf_set_eq 5 (bit_of (band_control m) 0) (bit_of (band_control m) 1) sw bands (s_cur_hpf_param s2) S1 S2 S3
                ltac:(lia) ltac:(lia) Fb) as (W1 & W2 & W3).
    eexists. split; [reflexivity|]. unfold read_from, wf_hpf, wf_statics, eq_read. rewrite (proj2 (Z.eqb_neq _ _) Hm).
    cbn [set_hpf set_alc set_ingain s_cur_hpf_param s_cur_alc_param s_cur_dapath_param s_cur_sample_rate s_cur_eq_mode_sel
         s_gain band_sw eq_band_para eq_band_num lcf_para data_width r_limit alc_sw alc_input_gain alc_Para alc_ingain_Set
         low_shelve_on high_shelve_on set_eq].
    split_and!; try done; try lia. exists m. split; [exact Em|]. do 3 (split; [done|]).
    rewrite !take_app_ge, Ls, Lb, !take_0, !app_nil_r by lia. done.
Qed.

(** ** The writes before the filters *)

Definition before_filters (d : DG_CONTROL_PARAM_T) (p : DAPATH_CONTROL_PARAM_T) (a : ALC_CONTROL_PARAM_T) (limit : Z) : code :=
  (AUDENHA_initDigiGain d;; AUDENHA_initDAPath p;; AUDENHA_initAlc a;; VB_SetHpfLimit limit)%code.

Definition control_words : list address :=
  [addr DAHPCTL; addr DAPATCHCTL; addr (HPCOEF 42 H); addr (HPCOEF 42 L); addr DADGCTL]
  ++ map (λ k, addr (DAALCCTL k)) (seqZ 0 11).

(** The value [VB_PHY_SetHPFLimit] takes. *)
Definition limit_of (r : Z) : Z := if i8 r <? 0 then 0 else i8 r.

Lemma limit_range r : 0 <= limit_of r <= 127.
Proof. unfold limit_of, i8. pose proof (Z.mod_pos_bound (r + 2 ^ 7) (2 ^ 8)). destruct (Z.ltb_spec ((r + 2 ^ 7) mod 2 ^ 8 - 2 ^ 7) 0); lia. Qed.

(** The mixing with FM: the modes are not shifted down, so they are not the ones the function knows. *)
Lemma fm_mode_off r mask shift :
  Z.testbit mask 0 = false → Z.testbit mask 1 = false →
  match i16 (Z.land r mask) with 1 => Z.shiftl 1 shift | 2 => Z.shiftl 2 shift | _ => 0 end = 0.
Proof.
  intros M0 M1.
  assert (B : ∀ n v, n < 2 → 0 <= n → Z.testbit mask n = false → i16 (Z.land r mask) = v → Z.testbit v n = false).
  { intros n v Hn Hn' M <-. unfold i16.
    assert (E : ∃ k, (Z.land r mask + 2 ^ 15) mod 2 ^ 16 - 2 ^ 15 = Z.land r mask + k * 2 ^ 16).
    { exists (- ((Z.land r mask + 2 ^ 15) / 2 ^ 16)). pose proof (Z.div_mod (Z.land r mask + 2 ^ 15) (2 ^ 16) ltac:(lia)). lia. }
    destruct E as [k ->]. rewrite <- Z.mod_pow2_bits_low with (n := 16) by lia.
    rewrite Z.mod_add by lia. rewrite Z.mod_pow2_bits_low by lia. by rewrite Z.land_spec, M, andb_false_r. }
  destruct (i16 (Z.land r mask)) as [|[x|x|]|x] eqn:E; try done.
  - destruct x; try done. by specialize (B 1 2 ltac:(lia) ltac:(lia) M1 eq_refl).
  - by specialize (B 0 1 ltac:(lia) ltac:(lia) M0 eq_refl).
Qed.

Section before.
Variables (d : DG_CONTROL_PARAM_T) (left right : Z) (a : ALC_CONTROL_PARAM_T) (limit : Z) (m : words).
Hypothesis Ha : length (alc_Para a) = 11%nat.
Hypothesis Hleft : Z.testbit left 0 = false ∧ Z.testbit left 1 = false.
Hypothesis Hright : Z.testbit right 0 = false ∧ Z.testbit right 1 = false.
Let t : list event := before_filters d (DaPath left right) a limit m.

Ltac eleven := destruct a as [sw ig ing alc]; cbn in Ha;
  do 12 (destruct alc as [|? alc]; [try discriminate Ha|]); [|discriminate Ha]; destruct sw.

Lemma before_within : within control_words t = true.
Proof. subst t. eleven; lazy; reflexivity. Qed.

Lemma before_control v :
  settle (addr DAHPCTL) t v
  = Z.lor (Z.land (if alc_sw a then Z.lor v (u32 (Z.shiftl 1 11)) else Z.land v (u32 (Z.lnot (Z.shiftl 1 11))))
             (u32 (Z.lnot (Z.shiftl 0xff 0)))) (u32 (Z.shiftl (limit_of limit) 0)).
Proof. subst t. eleven; lazy -[u32 i16 i8 Z.land Z.lor Z.lnot Z.shiftl Z.ltb]; reflexivity. Qed.

Lemma before_gain v :
  settle (addr (HPCOEF 42 H)) t v = u32 (i16 (alc_gain a)) ∧ settle (addr (HPCOEF 42 L)) t v = 0.
Proof. subst t. eleven; split; lazy -[u32 i16 alc_gain]; reflexivity. Qed.

(** The mixing with FM stays off. *)
Lemma before_path : settle (addr DAPATCHCTL) t 0 = 0.
Proof.
  assert (F : ∀ z s, Z.testbit z 0 = false ∧ Z.testbit z 1 = false →
    match i16 z with 1 => Z.shiftl 1 s | 2 => Z.shiftl 2 s | _ => 0 end = 0).
  { intros z s [B0 B1]. pose proof (fm_mode_off z z s B0 B1) as E. by rewrite Z.land_diag in E. }
  pose proof (F left 2 Hleft) as F0. pose proof (F right 0 Hright) as F1. subst t.
  eleven; lazy -[u32 i16 Z.land Z.lor Z.lnot Z.shiftl]; rewrite F0, F1; reflexivity.
Qed.

Lemma before_alc v k :
  0 <= k < 11 →
  settle (addr (DAALCCTL k)) t v = if alc_sw a then u32 (nth (Z.to_nat k) (alc_Para a) 0) else v.
Proof.
  intros Hk. subst t.
  assert (k = 0 ∨ k = 1 ∨ k = 2 ∨ k = 3 ∨ k = 4 ∨ k = 5 ∨ k = 6 ∨ k = 7 ∨ k = 8 ∨ k = 9 ∨ k = 10) as E by lia.
  eleven; destruct E as [-> |[-> |[-> |[-> |[-> |[-> |[-> |[-> |[-> |[-> | ->]]]]]]]]]];
    lazy -[u32 i16]; reflexivity.
Qed.
End before.

(** ** The profile *)

(** A profile filled with the default words, and its AD control with zeros. *)
Definition fresh (m : words) : Prop :=
  (∀ i r v, vbc_reg_default !! i = Some (r, v) → m (addr r) = v) ∧ ∀ b, m (A b) = 0.

(** The rest of [AUDENHA_Init]: the width, the switch, and the filters. *)
Definition with_filters (c : code) : code := (VB_SetHpfWidth 24;; VB_SwitchHpf true;; c)%code.

Lemma width_switch m :
  let w := run ((VB_SetHpfWidth 24;; VB_SwitchHpf true)%code m) m in
  REG32 DAHPCTL w
  = Z.lor (if Z.land (REG32 DAHPCTL m) (Z.shiftl 1 8) =? Z.shiftl 1 8 then REG32 DAHPCTL m
           else Z.lor (Z.land (REG32 DAHPCTL m) (u32 (Z.lnot (Z.shiftl 1 8)))) (u32 (Z.shiftl 1 8)))
      (u32 (Z.shiftl 1 10))
  ∧ ∀ a, same a (addr DAHPCTL) = false → w a = m a.
Proof.
  intros w. subst w. rewrite run_then. set (m1 := run _ m) in |- * at 1 2.
  split.
  - unfold REG32 at 1. rewrite run_word.
    change (settle (addr DAHPCTL) (VB_SwitchHpf true m1) (m1 (addr DAHPCTL))) with
      (Z.lor (m1 (addr DAHPCTL)) (u32 (Z.shiftl 1 10))). f_equal. subst m1. rewrite run_word.
    unfold VB_SetHpfWidth, VB_PHY_SetHPFWidth, VBDAHP_WID_SEL_SHIFT.
    change (24 =? 16) with false. cbv iota zeta. by destruct (Z.land (REG32 DAHPCTL m) (Z.shiftl 1 8) =? Z.shiftl 1 8).
  - intros a Ha. rewrite run_word, (settle_other a).
    2:{ repeat constructor. done. }
    subst m1. rewrite run_word. apply settle_other. unfold VB_SetHpfWidth, VB_PHY_SetHPFWidth.
    destruct (Z.land _ _ =? _); repeat constructor; done.
Qed.

(** The control word, over all limits. *)
Lemma control_value sw l :
  0 <= l <= 127 →
  let c1 := Z.lor (Z.land (if sw : bool then Z.lor 0x7f (u32 (Z.shiftl 1 11)) else Z.land 0x7f (u32 (Z.lnot (Z.shiftl 1 11))))
                     (u32 (Z.lnot (Z.shiftl 0xff 0)))) (u32 (Z.shiftl l 0)) in
  let c2 := Z.lor (if Z.land c1 (Z.shiftl 1 8) =? Z.shiftl 1 8 then c1
                   else Z.lor (Z.land c1 (u32 (Z.lnot (Z.shiftl 1 8)))) (u32 (Z.shiftl 1 8))) (u32 (Z.shiftl 1 10)) in
  Z.land (Z.lor c2 (u32 (Z.shiftl 1 9))) (u32 (Z.lnot (Z.shiftl 1 9)))
  = l + 2 ^ 8 + 2 ^ 10 + if sw then 2 ^ 11 else 0.
Proof.
  intros Hl c1 c2. apply Z.eqb_eq. subst c2 c1. revert l Hl.
  assert (F : ∀ f, forallb f (seqZ 0 128) = true → ∀ l, 0 <= l <= 127 → f l = true)
    by (intros f H l Hl; apply (forallb_seqZ f 0 128 l); [done|lia]).
  destruct sw; intros l Hl; revert l Hl; apply (F (λ l, _)); vm_compute; reflexivity.
Qed.

(** What the words of a profile are after the parameters [p] have been set, with the filters [lcf] and [cs], the
    gains [gains] and the current gain of the limiter. *)
Definition profile_words (p : AUDIO_TOTAL_T) (a : ALC_CONTROL_PARAM_T) (lcf : IIR_FILTER_PARA_T)
    (cs : list IIR_FILTER_PARA_T) (gains : list Z) (w : words) : Prop :=
  (∀ n, 0 <= n < 42 → REG32 (HPCOEF n H) w = hpcoef_word gains (lcf :: cs) n ∧ REG32 (HPCOEF n L) w = 0)
  ∧ REG32 (HPCOEF 42 H) w = u32 (i16 (alc_gain a)) ∧ REG32 (HPCOEF 42 L) w = 0
  ∧ REG32 DAPATCHCTL w = 0
  ∧ REG32 DAHPCTL w = limit_of (Z.land (reserve_of p 0) 0xff) + 2 ^ 8 + 2 ^ 10
                      + (if bit_of (control_of p) 8 then 2 ^ 11 else 0)
  ∧ (∀ k, 0 <= k < 11 →
       REG32 (DAALCCTL k) w = if bit_of (control_of p) 8 then u32 (i16 (reserve_of p (7 + Z.to_nat k))) else 0)
  ∧ (∀ i r v, vbc_reg_default !! i = Some (r, v) →
      existsb (same (addr r)) (hpf_words ++ control_words) = false → REG32 r w = v)
  ∧ ∀ b, w (A b) = 0.

Lemma fresh_control m :
  fresh m → m (addr DAHPCTL) = 0x7f ∧ (∀ k, 0 <= k < 11 → m (addr (DAALCCTL k)) = 0).
Proof.
  intros [Hm _]. split; [by apply (Hm 1%nat)|]. intros k Hk.
  apply (Hm (Z.to_nat (k + 2)) (DAALCCTL k) 0).
  assert (k = 0 ∨ k = 1 ∨ k = 2 ∨ k = 3 ∨ k = 4 ∨ k = 5 ∨ k = 6 ∨ k = 7 ∨ k = 8 ∨ k = 9 ∨ k = 10) as E by lia.
  destruct E as [-> |[-> |[-> |[-> |[-> |[-> |[-> |[-> |[-> |[-> | ->]]]]]]]]]]; reflexivity.
Qed.

Lemma init_words d left right a limit m lcf cs gains :
  fresh m → length (alc_Para a) = 11%nat → Z.testbit left 0 = false ∧ Z.testbit left 1 = false →
  Z.testbit right 0 = false ∧ Z.testbit right 1 = false → length cs = 5%nat →
  let w := run (then_ (before_filters d (DaPath left right) a limit) (with_filters (reprogram lcf cs gains)) m) m in
  (∀ n, 0 <= n < 42 → REG32 (HPCOEF n H) w = hpcoef_word gains (lcf :: cs) n ∧ REG32 (HPCOEF n L) w = 0)
  ∧ REG32 (HPCOEF 42 H) w = u32 (i16 (alc_gain a)) ∧ REG32 (HPCOEF 42 L) w = 0
  ∧ REG32 DAPATCHCTL w = 0
  ∧ REG32 DAHPCTL w = limit_of limit + 2 ^ 8 + 2 ^ 10 + (if alc_sw a then 2 ^ 11 else 0)
  ∧ (∀ k, 0 <= k < 11 → REG32 (DAALCCTL k) w = if alc_sw a then u32 (nth (Z.to_nat k) (alc_Para a) 0) else 0)
  ∧ ∀ b, existsb (same b) (hpf_words ++ control_words) = false → w b = m b.
Proof.
  intros Hm Ha Hl Hr Hc w. subst w. rewrite run_then. set (m1 := run _ m).
  unfold with_filters. rewrite <- then_assoc, run_then. set (m2 := run _ m1).
  destruct (width_switch m1) as [W1 W2]. fold m2 in W1, W2.
  destruct (reprogram_words lcf cs gains m2 Hc) as (R1 & R2 & R3). set (w := run _ m2) in *.
  destruct (fresh_control m Hm) as [F1 F2].
  assert (O : ∀ b, existsb (same b) hpf_words = false → w b = m1 b).
  { intros b Hb. rewrite R3 by done. apply W2. cbn [hpf_words existsb] in Hb. by apply orb_false_iff in Hb as [Hb _]. }
  assert (P : m (addr DAPATCHCTL) = 0) by (by apply (proj1 Hm 0%nat)).
  split; [done|]. split; [|split; [|split; [|split; [|split]]]].
  - unfold REG32. rewrite O by (vm_compute; reflexivity). subst m1. rewrite run_word. by apply before_gain.
  - unfold REG32. rewrite O by (vm_compute; reflexivity). subst m1. rewrite run_word. by apply before_gain.
  - unfold REG32. rewrite O by (vm_compute; reflexivity). subst m1. rewrite run_word, P. by apply before_path.
  - rewrite R2, W1. unfold REG32. subst m1. rewrite run_word, before_control, F1 by done.
    apply control_value, limit_range.
  - intros k Hk. unfold REG32. rewrite O.
    2:{ assert (E : forallb (λ k, negb (existsb (same (addr (DAALCCTL k))) hpf_words)) (seqZ 0 11) = true)
          by (vm_compute; reflexivity).
        apply (forallb_seqZ _ 0 11 k) in E; [|lia]. by apply negb_true_iff. }
    subst m1. rewrite run_word, before_alc, F2 by done. done.
  - intros b Hb. rewrite existsb_app in Hb. apply orb_false_iff in Hb as [Hb1 Hb2]. rewrite O by done.
    subst m1. rewrite run_word. apply (settle_within control_words); [by apply before_within|done].
Qed.

Lemma init_code d p a limit set m :
  (AUDENHA_initDigiGain d;; AUDENHA_initDAPath p;; AUDENHA_initAlc a;;
   VB_SetHpfLimit limit;; VB_SetHpfWidth 24;; VB_SwitchHpf true;; set)%code m
  = then_ (before_filters d p a limit) (with_filters set) m.
Proof.
  unfold before_filters, with_filters. rewrite then_assoc. apply then_congr. rewrite then_assoc. apply then_congr.
  by rewrite then_assoc.
Qed.

(** Setting the parameters of an audio mode.  For every well-formed set the code handles, whatever the static
    variables hold, [AUDENHA_SetPara] succeeds within the defined behaviour of C and leaves the static variables well
    formed for the next mode.  A profile of default words then holds the filters of the settings at 44100 Hz, each with the
    sign the unit wants and in its place between the gains, all without a pole outside the unit disc, the limiter's gain and parameters, and
    the switches; every other word keeps its default. *)
Lemma AUDENHA_SetPara_spec p s :
  wf_total p → handled p → wf_statics s →
  ∃ s' c lcf cs gains, AUDENHA_SetPara p s = Some (AUDIO_NO_ERROR, s', c) ∧ wf_statics s' ∧ read_from p s'
    ∧ filters_of (s_cur_hpf_param s') DEFAULT_OUT_SAMPLING_RATE lcf cs gains
    ∧ ∀ m, fresh m → profile_words p (s_cur_alc_param s') lcf cs gains (run (c m) m).
Proof.
  intros Hp Hh Hs. destruct (AUDENHA_GetPara_spec p s Hp Hh Hs) as (s1 & E & Hr & Hs1).
  unfold AUDENHA_SetPara. rewrite E. cbn [mbind option_bind]. change (AUDIO_NO_ERROR =? AUDIO_NO_ERROR) with true.
  cbv iota. pose proof Hr as (W & N & U & _ & _ & F & D & R & A1 & A2 & A3 & L1 & L2 & M & _).
  unfold AUDENHA_Init, AUDENHA_InitHpf. rewrite F.
  destruct (AUDENHA_SetHpf_spec (s_cur_hpf_param s1) DEFAULT_OUT_SAMPLING_RATE W N) as (lcf & cs & gains & Es & Fs);
    [unfold fs_limit, DEFAULT_OUT_SAMPLING_RATE; lia|done|].
  rewrite Es. cbn [mbind option_bind]. change (AUDIO_NO_ERROR =? AUDIO_NO_ERROR) with true. cbv iota.
  cbn [mbind option_bind]. change (AUDIO_NO_ERROR =? AUDIO_NO_ERROR) with true. cbv iota.
  eexists _, _, lcf, cs, gains. split; [reflexivity|].
  split; [exact Hs1|]. split; [|split; [exact Fs|]].
  - destruct Fs as (_ & Lg & _). destruct W as (_ & W). unfold read_from, wf_hpf, eq_read in *.
    cbn [set_hpf with_gains s_cur_hpf_param s_cur_alc_param s_cur_dapath_param s_cur_sample_rate s_cur_eq_mode_sel
         s_gain band_sw eq_band_para eq_band_num lcf_para data_width r_limit low_shelve_on high_shelve_on]. tauto.
  - intros m Hm. rewrite D, init_code. destruct (s_cur_dapath_param s1) as [left right].
    cbn [left_fm_mix_mode right_fm_mix_mode] in L1, L2.
    assert (Lr : length (reserve (tAudioNvArmModeStruct p)) = 64%nat) by apply Hp.
    assert (La : length (alc_Para (s_cur_alc_param s1)) = 11%nat).
    { rewrite A3, length_map, length_take, length_drop, Lr. lia. }
    destruct (init_words (s_cur_dg_param s1) left right (s_cur_alc_param s1) (r_limit (s_cur_hpf_param s1)) m lcf cs
                gains Hm La) as (I1 & I2 & I3 & I0 & I4 & I5 & I6);
      [subst left; rewrite !Z.land_spec, !andb_false_r; done|subst right; rewrite !Z.land_spec, !andb_false_r; done
      |apply Fs|].
    cbn [set_hpf s_cur_alc_param]. rewrite R, A1 in *.
    do 5 (split; [done|]). split.
    + intros k Hk. rewrite (I5 k Hk). destruct (bit_of (control_of p) 8); [|done]. f_equal. rewrite A3.
      assert (El : map i16 (take 11 (drop 7 (reserve (tAudioNvArmModeStruct p)))) !! Z.to_nat k
                   = Some (i16 (reserve_of p (7 + Z.to_nat k)))).
      { rewrite list_lookup_fmap, lookup_take_lt, lookup_drop by lia. rewrite (lookup_nth _ _ 0) by lia. done. }
      by rewrite (nth_lookup_Some _ _ _ _ El).
    + split; [|intros b; rewrite I6 by (vm_compute; reflexivity); apply Hm].
      intros i r v Ei Hb. unfold REG32. rewrite I6 by done. by apply (proj1 Hm i).
Qed.

(** ** An example *)

Definition ex_bands : list EQ_BAND_INPUT_PARA_T :=
  [Band 100 512 60 0; Band 300 512 (-60) 0; Band 1000 512 60 0; Band 3000 512 30 0; Band 10000 512 60 0;
   Band 0 0 0 0; Band 0 0 0 0; Band 0 0 0 0].
Definition ex_eq (control : Z) : AUDIO_ENHA_EQ_STRUCT_T := EqStruct (repeat 0 16) control (repeat (Mode 4096 (-256) ex_bands) 6) (repeat 0 59).
Definition ex_app (switch : Z) : AUDIO_NV_ARM_APP_CONFIG_INFO_T :=
  AppConfig switch (repeat 4096 8) 5 (repeat 0x120034 31) (repeat 0 9).
(** The limiter and the low cut on, which is the pair of sections at 100 and 200 Hz, for a headset. *)
Definition ex_total (control switch : Z) : AUDIO_TOTAL_T :=
  Total (ex_eq control) (chars_of "Headset" ++ repeat 0 9)
    (ModeStruct (DevicePath 1 0 (repeat 0 8)) 1 1 [0; 0x101] (repeat (ex_app switch) 16) 0 0
       ([0x1020; 64816; 0; 100; 64816; 0; 200; 1; 2; 3; 4; 5; 6; 7; 8; 9; 10; 11] ++ repeat 0 46)).

(** The static variables of a program that starts. *)
Definition statics_start : statics :=
  Statics (EqStruct [] 0 [] []) [] (Dg 0 0) (DaPath 0 0) (Alc false 0 0 (repeat 0 11))
    (Hpf 0 0 (repeat 0 6) (LcfPara false 0 (F1F1 0 0 0 0 0 0)) 0 false false (repeat false 8) (repeat (Band 0 0 0 0) 8))
    44100 0 1 AUD_ENHA_EQMODE_SEL_OFF.

Lemma wf_start : wf_statics statics_start.
Proof. split; [done|]. split; [done|]. repeat constructor; unfold is_i16; cbn; lia. Qed.

Lemma wf_ex_total control switch : wf_total (ex_total control switch).
Proof.
  split; [done|]. split; [repeat constructor; unfold is_i16; cbn; lia|]. split; [done|]. split; [done|].
  split; [|done]. apply Forall_forall. intros a Ha%repeat_spec. subst a. unfold wf_app. cbn. lia.
Qed.

Lemma handled_ex : handled (ex_total 0 1).
Proof.
  split; [done|]. split; [left; vm_compute; discriminate|]. right. right. right. right. split; [done|]. left.
  split; [done|]. unfold f1f1_ok, DEFAULT_OUT_SAMPLING_RATE. vm_compute. repeat split; discriminate || done.
Qed.

(** With eight bands the gains leave their array, and an equaliser mode above six leaves the table of modes. *)
Lemma eight_bands_overrun : AUDENHA_SetPara (ex_total 0x8000 1) statics_start = None.
Proof. vm_compute. reflexivity. Qed.
Lemma mode_seven_overrun : AUDENHA_SetPara (ex_total 0 7) statics_start = None.
Proof. vm_compute. reflexivity. Qed.

(** The low cut of a Butterworth setting, as the comment on the bits has it, is never calculated. *)
Lemma butterworth_never control1 res old l :
  lcf_of control1 res old = Some l → eLcfParaType l ≠ FILTER_LCFPARA_BUTTERWORTH.
Proof.
  unfold lcf_of. destruct (res !! 0%nat) as [r0|]; cbn [mbind option_bind]; [|done].
  destruct (res !! 1%nat); cbn [mbind option_bind]; [|done]. destruct (res !! 2%nat); cbn [mbind option_bind]; [|done].
  destruct (res !! 3%nat); cbn [mbind option_bind]; [|done]. destruct (res !! 4%nat); cbn [mbind option_bind]; [|done].
  destruct (res !! 5%nat); cbn [mbind option_bind]; [|done]. destruct (res !! 6%nat); cbn [mbind option_bind]; [|done].
  intros [= <-]. apply lcf_type_values.
Qed.
