(* ===== verification/EqFile.v ===== *)
(** * The file of effect profiles (audio/sc8830/vb_effect/v2/vb_effect_if.c)

    [do_parse] turns the parameters of the first four audio modes into the file that the driver loads: a
    header, then the profiles of the output path, then those of the two input paths, each written with a seek to
    its place.  The mode is chosen for the devices in use by [vb_effect_profile_apply]. *)

From Stdlib Require Import Reals.
From stdpp Require Import list strings.
From S2P Require Import Prelude CArith EqTables EqCalc EqRange EqStable EqLow VbHal EqSet EqImage EqPara.

Open Scope Z_scope.

(** ** Data *)

Definition VBC_EQ_FIRMWARE_MAGIC_LEN : Z := 4.
Definition VBC_EQ_FIRMWARE_MAGIC_ID : list Z := chars_of "VBEQ".
Definition VBC_EQ_PROFILE_VERSION : Z := 2.
Definition VBC_EQ_PROFILE_NAME_MAX : Z := 32.
Definition VBC_EFFECT_PARAS_LEN : Z := 336.
Definition VBC_EFFECT_PROFILE_CNT : Z := 4.
Definition VBC_AD_CTL_PARAS_LEN : Z := 2.
Definition VBC_DA_EFFECT_PARAS_LEN : Z := 20 + 72 * 2.
Definition VBC_AD_EFFECT_PARAS_LEN : Z := 2 + 43 * 2.

Record vbc_fw_header := FwHeader {
  magic : list Z; profile_version : Z; num_profile : Z; num_da : Z; num_ad01 : Z; num_ad23 : Z }.
Record vbc_profile := Profile { profile_magic : list Z; profile_name : list Z; effect_paras : list Z }.

(** The bytes of the structures, and their sizes. *)
Definition header_bytes (h : vbc_fw_header) : bytes :=
  magic h ++ le32 (profile_version h) ++ le32 (num_profile h) ++ le32 (num_da h) ++ le32 (num_ad01 h) ++ le32 (num_ad23 h).
Definition profile_bytes (p : vbc_profile) : bytes :=
  profile_magic p ++ profile_name p ++ mbind le32 (effect_paras p).
Definition sizeof_header : Z := 24.
Definition sizeof_da : Z := VBC_EQ_FIRMWARE_MAGIC_LEN + VBC_EQ_PROFILE_NAME_MAX + 4 * VBC_DA_EFFECT_PARAS_LEN.
Definition sizeof_ad : Z := VBC_EQ_FIRMWARE_MAGIC_LEN + VBC_EQ_PROFILE_NAME_MAX + 4 * VBC_AD_EFFECT_PARAS_LEN.
(** [sizeof (AUDIO_TOTAL_T)]: 544 bytes of the equaliser and 2800 of the mode. *)
Definition sizeof_total : Z := 3344.

(** The assignments of [do_parse] to the header, [num_profile] being assigned again. *)
Definition fw_header : vbc_fw_header :=
  FwHeader VBC_EQ_FIRMWARE_MAGIC_ID VBC_EQ_PROFILE_VERSION VBC_EFFECT_PROFILE_CNT VBC_EFFECT_PROFILE_CNT 0 0.

(** ** Writing *)

(** [fseek (f, pos, SEEK_SET)] and [fwrite]: a gap is filled with zeros. *)
Definition write_at (pos : Z) (b : bytes) (f : bytes) : bytes :=
  take (Z.to_nat pos) f ++ replicate (Z.to_nat pos - length f) 0 ++ b ++ drop (Z.to_nat pos + length b) f.

(** [memset] and [memcpy] of the defaults: the words of the profile and of its AD control; [reserved_resigter] stays. *)
Definition default_word (byte : Z) : Z := default 0 (snd <$> vbc_reg_default !! Z.to_nat (byte / 4)).
Definition reset_words (m : words) : words :=
  λ a, match a with P b => default_word b | A _ => 0 | R b => m (R b) end.

(** The words [n] from word [i] of [effect_profile] on. *)
Definition paras_from (w : words) (i n : Z) : list Z := map (λ i, w (P (4 * i))) (seqZ i n).
Definition ad_ctl_paras (w : words) : list Z := [w (A 0); w (A 4)].

(** The 16 bytes copied of the mode's name, in a name of zeros. *)
Definition name_of (p : AUDIO_TOTAL_T) : list Z := take 16 (ucModeName p) ++ replicate 16 0.

Definition da_profile (p : AUDIO_TOTAL_T) (w : words) : vbc_profile :=
  Profile VBC_EQ_FIRMWARE_MAGIC_ID (name_of p) (paras_from w 0 VBC_DA_EFFECT_PARAS_LEN).
Definition ad01_profile (p : AUDIO_TOTAL_T) (w : words) : vbc_profile :=
  Profile VBC_EQ_FIRMWARE_MAGIC_ID (name_of p)
    (ad_ctl_paras w ++ paras_from w VBC_DA_EFFECT_PARAS_LEN (VBC_AD_EFFECT_PARAS_LEN - VBC_AD_CTL_PARAS_LEN)).
Definition ad23_profile (p : AUDIO_TOTAL_T) (w : words) : vbc_profile :=
  Profile VBC_EQ_FIRMWARE_MAGIC_ID (name_of p)
    (ad_ctl_paras w
     ++ paras_from w (VBC_DA_EFFECT_PARAS_LEN + (VBC_AD_EFFECT_PARAS_LEN - VBC_AD_CTL_PARAS_LEN))
          (VBC_AD_EFFECT_PARAS_LEN - VBC_AD_CTL_PARAS_LEN)).

(** The places of the profiles of mode [i]. *)
Definition da_place (i : Z) : Z := i * sizeof_da + sizeof_header.
Definition ad01_place (i : Z) : Z := sizeof_header + i * sizeof_ad + VBC_EFFECT_PROFILE_CNT * sizeof_da.
Definition ad23_place (i : Z) : Z :=
  sizeof_header + i * sizeof_ad + VBC_EFFECT_PROFILE_CNT * sizeof_da + VBC_EFFECT_PROFILE_CNT * sizeof_ad.

(** The body of the loop for mode [i]: the statics, the words and the file. *)
Definition parse_profile (i : Z) (p : AUDIO_TOTAL_T) (st : statics * words * bytes) : option (statics * words * bytes) :=
  let '(s, m, f) := st in
  r ← AUDENHA_SetPara p s;
  let '(_, s, c) := r in
  let m := reset_words m in
  let w := run (c m) m in
  let f := write_at (da_place i) (profile_bytes (da_profile p w)) f in
  let f := write_at (ad01_place i) (profile_bytes (ad01_profile p w)) f in
  let f := write_at (ad23_place i) (profile_bytes (ad23_profile p w)) f in
  Some (s, w, f).

Fixpoint parse_profiles (n : nat) (i : Z) (params : list AUDIO_TOTAL_T) (st : statics * words * bytes)
    : option (statics * words * bytes) :=
  match n with
  | O => Some st
  | S n => p ← params !! Z.to_nat i; st ← parse_profile i p st; parse_profiles n (i + 1) params st
  end.

(** The value returned, the statics, the words, and the file if it was opened.  [mode_count] is
    [adev_get_audiomodenum4eng ()], [allocated] and [opened] say whether [malloc] and [fopen] succeed. *)
Definition do_parse (audio_params : option (list AUDIO_TOTAL_T)) (params_size mode_count : Z) (allocated opened : bool)
    (s : statics) (m : words) : option (Z * statics * words * option bytes) :=
  match audio_params with
  | None => Some (-1, s, m, None)
  | Some params =>
      if negb (u32 (mode_count * sizeof_total) =? params_size) then Some (-1, s, m, None)
      else if negb allocated then Some (-1, s, m, None)
      else if negb opened then Some (-1, s, m, None)
      else
        r ← parse_profiles (Z.to_nat VBC_EFFECT_PROFILE_CNT) 0 params (s, m, header_bytes fw_header);
        let '(s, m, f) := r in
        Some (0, s, m, Some f)
  end.

(** ** Choosing a profile *)

(** Devices, as bits of the masks (system/audio.h and this file). *)
Record devices := Devices {
  out_earpiece : bool; out_speaker : bool; out_wired_headset : bool; out_wired_headphone : bool;
  out_fm_headset : bool; out_fm_speaker : bool; in_wired_headset : bool }.

(** The index written to the mixer control, or none. *)
Definition vb_effect_profile_apply (control : bool) (d : devices) : Z * option Z :=
  if control then
    if (out_wired_headset d && out_speaker d) || (out_wired_headphone d && out_speaker d) then (0, Some 1)
    else if out_earpiece d then (0, Some 2)
    else if out_speaker d || out_fm_speaker d then (0, Some 3)
    else if out_wired_headset d || out_wired_headphone d || out_fm_headset d || in_wired_headset d then (0, Some 0)
    else (-1, None)
  else (-1, None).

(** [vb_da_effect_profile_apply], [vb_ad01_effect_profile_apply], [vb_ad23_effect_profile_apply]: [set] is the call on the mixer. *)
Definition vb_effect_profile_apply_index (set : Z → Z) (index : Z) : Z :=
  if index <? VBC_EFFECT_PROFILE_CNT then set index else -1.

(** ** Reading back what was written *)

Lemma write_at_length pos b f : length (write_at pos b f) = Nat.max (length f) (Z.to_nat pos + length b).
Proof. unfold write_at. rewrite !length_app, length_take, length_replicate, length_drop. lia. Qed.

Lemma slice_write_same pos b f : slice (Z.to_nat pos) (length b) (write_at pos b f) = Some b.
Proof.
  unfold write_at. rewrite app_assoc. apply slice_mid; [|done]. rewrite length_app, length_take, length_replicate. lia.
Qed.

Lemma slice_write_other pos b f off n l :
  slice off n f = Some l → (off + n <= Z.to_nat pos ∨ Z.to_nat pos + length b <= off)%nat →
  slice off n (write_at pos b f) = Some l.
Proof.
  intros [-> Hl]%slice_Some H. rewrite slice_ok by (rewrite write_at_length; lia). f_equal. unfold write_at.
  destruct H as [H|H].
  - rewrite drop_app_le by (rewrite length_take; lia).
    rewrite take_app_le by (rewrite length_drop, length_take; lia).
    rewrite !take_drop_commute, take_take. do 2 f_equal. lia.
  - replace (Z.to_nat pos - length f)%nat with 0%nat by lia. cbn [replicate app].
    rewrite drop_app_ge by (rewrite length_take; lia). rewrite length_take, drop_app_ge by lia.
    rewrite drop_drop. do 2 f_equal. lia.
Qed.

Lemma length_words ws : length (mbind le32 ws) = (4 * length ws)%nat.
Proof. induction ws as [|w ws IH]; [done|]. cbn [mbind list_bind length]. rewrite length_app, length_le32. cbn in IH. lia. Qed.

Section places.
Variables (p : AUDIO_TOTAL_T) (w : words).
Hypothesis Hn : length (ucModeName p) = 16%nat.

Lemma profile_length q n :
  profile_magic q = VBC_EQ_FIRMWARE_MAGIC_ID → profile_name q = name_of p → length (effect_paras q) = n →
  length (profile_bytes q) = (36 + 4 * n)%nat.
Proof.
  intros E1 E2 <-. unfold profile_bytes, name_of. rewrite E1, E2, !length_app, length_words.
  unfold name_of. rewrite length_app, length_take, length_replicate, Hn. cbn. lia.
Qed.

Lemma da_length : length (profile_bytes (da_profile p w)) = Z.to_nat sizeof_da.
Proof. rewrite (profile_length _ 164); [done..|]. cbn. unfold paras_from. by rewrite length_map, length_seqZ. Qed.
Lemma ad01_length : length (profile_bytes (ad01_profile p w)) = Z.to_nat sizeof_ad.
Proof. rewrite (profile_length _ 88); [done..|]. cbn. unfold paras_from. by rewrite length_map, length_seqZ. Qed.
Lemma ad23_length : length (profile_bytes (ad23_profile p w)) = Z.to_nat sizeof_ad.
Proof. rewrite (profile_length _ 88); [done..|]. cbn. unfold paras_from. by rewrite length_map, length_seqZ. Qed.
End places.

(** The profile of a mode, read back from its three places. *)
Definition stored (f : bytes) (i : Z) (p : AUDIO_TOTAL_T) (w : words) : Prop :=
  slice (Z.to_nat (da_place i)) (Z.to_nat sizeof_da) f = Some (profile_bytes (da_profile p w))
  ∧ slice (Z.to_nat (ad01_place i)) (Z.to_nat sizeof_ad) f = Some (profile_bytes (ad01_profile p w))
  ∧ slice (Z.to_nat (ad23_place i)) (Z.to_nat sizeof_ad) f = Some (profile_bytes (ad23_profile p w)).

(** The places of the four modes and the header are disjoint: writing mode [j] keeps what was stored. *)
Definition write_mode (j : Z) (q : AUDIO_TOTAL_T) (u : words) (f : bytes) : bytes :=
  write_at (ad23_place j) (profile_bytes (ad23_profile q u))
    (write_at (ad01_place j) (profile_bytes (ad01_profile q u))
       (write_at (da_place j) (profile_bytes (da_profile q u)) f)).

Lemma write_mode_keeps j q u f off n l :
  length (ucModeName q) = 16%nat → slice off n f = Some l →
  let clear place size := (off + n <= Z.to_nat place ∨ Z.to_nat place + Z.to_nat size <= off)%nat in
  clear (da_place j) sizeof_da → clear (ad01_place j) sizeof_ad → clear (ad23_place j) sizeof_ad →
  slice off n (write_mode j q u f) = Some l.
Proof.
  intros Hn H clear C1 C2 C3. unfold write_mode. subst clear. cbv beta in *.
  repeat (apply slice_write_other); [done|by rewrite da_length|by rewrite ad01_length|by rewrite ad23_length].
Qed.

Lemma write_mode_stores j q u f :
  length (ucModeName q) = 16%nat → 0 <= j < 4 → stored (write_mode j q u f) j q u.
Proof.
  intros Hn Hj. unfold stored, write_mode.
  pose proof (da_length q u Hn) as L1. pose proof (ad01_length q u Hn) as L2. pose proof (ad23_length q u Hn) as L3.
  unfold da_place, ad01_place, ad23_place, sizeof_da, sizeof_ad, sizeof_header, VBC_EFFECT_PROFILE_CNT in *.
  unfold VBC_EQ_FIRMWARE_MAGIC_LEN, VBC_EQ_PROFILE_NAME_MAX, VBC_DA_EFFECT_PARAS_LEN, VBC_AD_EFFECT_PARAS_LEN in *.
  split; [|split].
  - apply slice_write_other; [|lia]. apply slice_write_other; [|lia]. rewrite <- L1. apply slice_write_same.
  - apply slice_write_other; [|lia]. rewrite <- L2. apply slice_write_same.
  - rewrite <- L3. apply slice_write_same.
Qed.

Lemma stored_kept f i p w j q u :
  length (ucModeName q) = 16%nat → stored f i p w → 0 <= i < j → j < 4 → stored (write_mode j q u f) i p w.
Proof.
  intros Hn (S1 & S2 & S3) Hi Hj.
  unfold stored. split; [|split]; (apply write_mode_keeps; [done|eassumption|..]);
    unfold da_place, ad01_place, ad23_place, sizeof_da, sizeof_ad, sizeof_header, VBC_EFFECT_PROFILE_CNT,
      VBC_EQ_FIRMWARE_MAGIC_LEN, VBC_EQ_PROFILE_NAME_MAX, VBC_DA_EFFECT_PARAS_LEN, VBC_AD_EFFECT_PARAS_LEN; lia.
Qed.

(** ** The file *)

Definition mode_ok (p : AUDIO_TOTAL_T) : Prop := wf_total p ∧ handled p ∧ length (ucModeName p) = 16%nat.

(** The words belong to the settings of [p]: bands, low cut, limiter, gains and switches are those of the mode, and
    every other word is the default.  By [made_from_determines] below the settings leave no word open. *)
Definition made_from (p : AUDIO_TOTAL_T) (w : words) : Prop :=
  ∃ s lcf cs gains, read_from p s ∧ filters_of (s_cur_hpf_param s) DEFAULT_OUT_SAMPLING_RATE lcf cs gains
    ∧ profile_words p (s_cur_alc_param s) lcf cs gains w.

(** *** The words are determined *)

Lemma low_cut_determined p l l' n fs :
  low_cut_read p l → low_cut_read p l' → Filter_CalcLCF l n fs = Filter_CalcLCF l' n fs.
Proof.
  intros (O & T & _ & F) (O' & T' & _ & F'). unfold Filter_CalcLCF. rewrite O, O', T, T' in *.
  destruct (fs <=? 0); [done|]. destruct (bit_of (control_of p) 0); [|done].
  rewrite (proj2 (Z.eqb_neq _ FILTER_LCFPARA_BUTTERWORTH) (lcf_type_values _)).
  destruct (Z.eqb_spec (Z.land (reserve_of p 0) 0x0700) FILTER_LCFPARA_F1F1) as [E|_]; [|done].
  by rewrite (F E), (F' E).
Qed.

(** A band that is off is the all-pass filter, ... *)
Lemma band_off h fs i c g :
  Forall (λ b, b = false) (band_sw h) → is_band_filter h fs i c g → c = all_pass ∧ g = 4096.
Proof.
  intros F (q & B & C & _). specialize (C 0). unfold band_setting in B.
  apply bind_Some in B as (b & _ & B). apply bind_Some in B as (sw & Es & B).
  assert (sw = false) as -> by exact (Forall_lookup_1 _ _ _ _ F Es).
  assert (Q : isFilterOn q = false).
  { destruct ((i =? 0) && _); [apply bind_Some in B as (x & _ & B); by injection B as <-|].
    destruct (_ && high_shelve_on h); [|by injection B as <-].
    destruct (_ || _); [done|]. apply bind_Some in B as (x & _ & B). by injection B as <-. }
  unfold Filter_CalcEQ in C. rewrite Q in C. by injection C.
Qed.

(** ... and the first five bands alone give the filters. *)
Lemma band_setting_first h h' i :
  eq_band_num h = 5 → eq_band_num h' = 5 → low_shelve_on h = low_shelve_on h' → high_shelve_on h = high_shelve_on h' →
  take 5 (band_sw h) = take 5 (band_sw h') → take 5 (eq_band_para h) = take 5 (eq_band_para h') → 0 <= i < 5 →
  band_setting h i = band_setting h' i.
Proof.
  intros N N' L H S B Hi. unfold band_setting. rewrite N, N', L, H.
  assert (K : ∀ j, (j < 5)%nat → band_sw h !! j = band_sw h' !! j ∧ eq_band_para h !! j = eq_band_para h' !! j).
  { intros j Hj. split; [rewrite <- (lookup_take_lt (band_sw h) 5) by done; rewrite S
                        |rewrite <- (lookup_take_lt (eq_band_para h) 5) by done; rewrite B]; by apply lookup_take_lt. }
  destruct (K (Z.to_nat i) ltac:(lia)) as [-> ->]. rewrite (proj2 (K (Z.to_nat (5 - 2)) ltac:(lia))).
  destruct (Z.eqb_spec i 0) as [->|_]; [|done]. by rewrite (proj2 (K (Z.to_nat (0 + 1)) ltac:(lia))).
Qed.

Lemma band_filter_determined p s s' fs i c g c' g' :
  read_from p s → read_from p s' → 0 <= i < 5 →
  is_band_filter (s_cur_hpf_param s) fs i c g → is_band_filter (s_cur_hpf_param s') fs i c' g' → c = c' ∧ g = g'.
Proof.
  intros R R' Hi K K'. pose proof R as (_ & N & _). pose proof R' as (_ & N' & _).
  assert (E : eq_read p s) by apply R. assert (E' : eq_read p s') by apply R'. unfold eq_read in E, E'.
  destruct (mode_of p =? 0).
  - destruct (band_off _ _ _ _ _ (proj1 E) K) as [-> ->]. by destruct (band_off _ _ _ _ _ (proj1 E') K') as [-> ->].
  - destruct E as (m & Em & _ & E1 & E2 & E3 & E4), E' as (m' & Em' & _ & E1' & E2' & E3' & E4').
    rewrite Em in Em'. injection Em' as <-.
    destruct K as (q & B & C & _), K' as (q' & B' & C' & _).
    rewrite (band_setting_first _ (s_cur_hpf_param s')) in B by (congruence || done). rewrite B in B'.
    injection B' as <-. specialize (C 0). rewrite (C' 0) in C. by injection C.
Qed.

Lemma gain_determined p s s' :
  read_from p s → read_from p s' → alc_gain (s_cur_alc_param s) = alc_gain (s_cur_alc_param s').
Proof.
  intros (_ & _ & _ & _ & _ & _ & _ & _ & _ & G & _ & _ & _ & _ & E) (_ & _ & _ & _ & _ & _ & _ & _ & _ & G' & _ & _ & _ & _ & E').
  unfold alc_gain. rewrite G, G'. f_equal. unfold eq_read in E, E'. destruct (mode_of p =? 0).
  - by rewrite (proj2 E), (proj2 E').
  - destruct E as (m & Em & -> & _), E' as (m' & Em' & -> & _). rewrite Em in Em'. by injection Em' as <-.
Qed.

(** The words of the profile that the code writes. *)
Lemma written_words i r v :
  vbc_reg_default !! i = Some (r, v) → existsb (same (addr r)) (hpf_words ++ control_words) = true →
  match r with
  | DAPATCHCTL | DAHPCTL => True | DAALCCTL k => 0 <= k < 11 | HPCOEF n _ => 0 <= n <= 42 | _ => False
  end.
Proof.
  set (known r := match r with
    | DAPATCHCTL | DAHPCTL => true | DAALCCTL k => (0 <=? k) && (k <? 11) | HPCOEF n _ => (0 <=? n) && (n <=? 42)
    | _ => false end).
  intros Ei X.
  assert (F : forallb (λ e, implb (existsb (same (addr e.1)) (hpf_words ++ control_words)) (known e.1)) vbc_reg_default
              = true) by (vm_compute; reflexivity).
  rewrite forallb_forall in F. specialize (F (r, v)). cbn [fst] in F. rewrite X in F. cbn [implb] in F.
  assert (K : known r = true) by (apply F, list_elem_of_In; by eapply list_elem_of_lookup_2).
  unfold known in K. destruct r; try done; lia.
Qed.

(** The settings determine every word of the profile: nothing of what the static variables held shows in it. *)
Lemma made_from_determines p w w' :
  made_from p w → made_from p w' → ∀ i r v, vbc_reg_default !! i = Some (r, v) → REG32 r w = REG32 r w'.
Proof.
  intros (s & lcf & cs & gains & R & (Lc & _ & Fl & _ & Fb) & W) (s' & lcf' & cs' & gains' & R' & (Lc' & _ & Fl' & _ & Fb') & W').
  assert (El : lcf = lcf' ∧ s_of gains 0 = s_of gains' 0).
  { rewrite (low_cut_determined p _ (lcf_para (s_cur_hpf_param s'))) in Fl; [|apply R|apply R'].
    rewrite Fl' in Fl. by injection Fl. }
  assert (Eb : ∀ k, 0 <= k < 6 → nth (Z.to_nat k) (lcf :: cs) no_filter = nth (Z.to_nat k) (lcf' :: cs') no_filter
                                 ∧ s_of gains k = s_of gains' k).
  { intros k Hk. destruct (Z.eq_dec k 0) as [->|H0]; [done|].
    destruct (band_filter_determined p s s' _ (k - 1) _ _ _ _ R R' ltac:(lia) (Fb (k - 1) ltac:(lia)) (Fb' (k - 1) ltac:(lia)))
      as [Ec Eg].
    replace (Z.to_nat k) with (S (Z.to_nat (k - 1))) by lia. replace (k - 1 + 1) with k in Eg by lia. done. }
  intros i r v Ei. destruct W as (W1 & W2 & W3 & W4 & W5 & W6 & W7 & _), W' as (W1' & W2' & W3' & W4' & W5' & W6' & W7' & _).
  destruct (existsb (same (addr r)) (hpf_words ++ control_words)) eqn:X; [|by rewrite (W7 i r v), (W7' i r v)].
  assert (N : ∀ n, 0 <= n < 42 → hpcoef_word gains (lcf :: cs) n = hpcoef_word gains' (lcf' :: cs') n).
  { intros n Hn. unfold hpcoef_word. by destruct (Eb (n / 7) ltac:(Z.to_euclidean_division_equations; lia)) as [-> ->]. }
  pose proof (gain_determined p s s' R R') as G. clear Eb El Fb Fb' Fl Fl' R R' Lc Lc'. 
  pose proof (written_words i r v Ei X) as K.
  destruct r as [| |k|?| | | | | |n []|? ?|? ?| | | | |]; try done; try congruence.
  - by rewrite (W6 k), (W6' k).
  - destruct (Z.eq_dec n 42) as [->|Hn]; [by rewrite W2, W2', G|].
    by rewrite (proj1 (W1 n ltac:(lia))), (proj1 (W1' n ltac:(lia))), N by lia.
  - destruct (Z.eq_dec n 42) as [->|Hn]; [by rewrite W3, W3'|].
    by rewrite (proj2 (W1 n ltac:(lia))), (proj2 (W1' n ltac:(lia))).
Qed.

Definition file_size : Z :=
  sizeof_header + VBC_EFFECT_PROFILE_CNT * sizeof_da + 2 * (VBC_EFFECT_PROFILE_CNT * sizeof_ad).

Lemma reset_fresh m : fresh (reset_words m).
Proof.
  split; [|done]. intros i r v E. rewrite (default_words_placed i r v E). unfold reset_words, default_word.
  replace (4 * Z.of_nat i / 4) with (Z.of_nat i) by (symmetry; rewrite Z.mul_comm; apply Z.div_mul; lia).
  by rewrite Nat2Z.id, E.
Qed.

Lemma parse_profile_ok i p s m f :
  mode_ok p → wf_statics s →
  ∃ s' w, parse_profile i p (s, m, f) = Some (s', w, write_mode i p w f) ∧ wf_statics s' ∧ made_from p w.
Proof.
  intros (Hp & Hh & _) Hs.
  destruct (AUDENHA_SetPara_spec p s Hp Hh Hs) as (s' & c & lcf & cs & gains & E & Hs' & Hr & Hf & Hw).
  unfold parse_profile. rewrite E. cbn [mbind option_bind]. eexists _, _. split; [reflexivity|]. split; [done|].
  exists s', lcf, cs, gains. split; [done|]. split; [done|]. apply Hw, reset_fresh.
Qed.

(** Two profiles made from the same settings are the same bytes. *)
Lemma paras_determined p w w' i n :
  made_from p w → made_from p w' → 0 <= i → i + n <= 336 → paras_from w i n = paras_from w' i n.
Proof.
  intros H H' Hi Hn. unfold paras_from. apply map_ext_in. intros j Hj%list_elem_of_In%elem_of_seqZ.
  destruct (lookup_lt_is_Some_2 vbc_reg_default (Z.to_nat j)) as [[r v] E].
  { change (length vbc_reg_default) with 336%nat. lia. }
  pose proof (made_from_determines p w w' H H' _ _ _ E) as D. unfold REG32 in D.
  rewrite (default_words_placed _ _ _ E) in D. by rewrite Z2Nat.id in D by lia.
Qed.

Lemma write_mode_determined p w w' i f :
  made_from p w → made_from p w' → write_mode i p w f = write_mode i p w' f.
Proof.
  intros H H'. unfold write_mode, da_profile, ad01_profile, ad23_profile, ad_ctl_paras.
  assert (A0 : ∀ b, w (A b) = w' (A b)).
  { intros b. destruct H as (s & lcf & cs & g & _ & _ & _ & _ & _ & _ & _ & _ & _ & ->).
    by destruct H' as (s' & lcf' & cs' & g' & _ & _ & _ & _ & _ & _ & _ & _ & _ & ->). }
  by rewrite !A0, !(paras_determined p w w' _ _ H H') by (vm_compute; discriminate).
Qed.

Lemma write_mode_length j q u f :
  length (ucModeName q) = 16%nat → 0 <= j < 4 →
  length (write_mode j q u f) = Nat.max (length f) (Z.to_nat (ad23_place j + sizeof_ad)).
Proof.
  intros Hn Hj. unfold write_mode. rewrite !write_at_length, da_length, ad01_length, ad23_length by done.
  unfold da_place, ad01_place, ad23_place, sizeof_da, sizeof_ad, sizeof_header, VBC_EFFECT_PROFILE_CNT,
    VBC_EQ_FIRMWARE_MAGIC_LEN, VBC_EQ_PROFILE_NAME_MAX, VBC_DA_EFFECT_PARAS_LEN, VBC_AD_EFFECT_PARAS_LEN. lia.
Qed.

Lemma header_kept j q u f h :
  length (ucModeName q) = 16%nat → 0 <= j < 4 → slice 0 24 f = Some h → slice 0 24 (write_mode j q u f) = Some h.
Proof.
  intros Hn Hj H. apply write_mode_keeps; [done|done|..];
    unfold da_place, ad01_place, ad23_place, sizeof_da, sizeof_ad, sizeof_header, VBC_EFFECT_PROFILE_CNT,
      VBC_EQ_FIRMWARE_MAGIC_LEN, VBC_EQ_PROFILE_NAME_MAX, VBC_DA_EFFECT_PARAS_LEN, VBC_AD_EFFECT_PARAS_LEN; lia.
Qed.

Lemma parse_profiles_ok params n i s m f h :
  (∀ j, 0 <= j < 4 → ∃ p, params !! Z.to_nat j = Some p ∧ mode_ok p) →
  0 <= i → i + Z.of_nat n = 4 → wf_statics s → slice 0 24 f = Some h → Z.of_nat (length f) <= file_size →
  ∃ s' m' f', parse_profiles n i params (s, m, f) = Some (s', m', f') ∧ wf_statics s' ∧ slice 0 24 f' = Some h
    ∧ (n ≠ 0%nat → Z.of_nat (length f') = file_size)
    ∧ (∀ j p w, 0 <= j < i → stored f j p w → stored f' j p w)
    ∧ ∀ j, i <= j < 4 → ∃ p w, params !! Z.to_nat j = Some p ∧ made_from p w ∧ stored f' j p w.
Proof.
  intros Hp. revert i s m f. induction n as [|n IH]; intros i s m f Hi Hn Hs Hh Hl.
  { exists s, m, f. cbn [parse_profiles]. do 4 (split; [done|]). split; [done|]. intros j Hj. lia. }
  cbn [parse_profiles]. destruct (Hp i ltac:(lia)) as (p & Ep & Pp). rewrite Ep. cbn [mbind option_bind].
  destruct (parse_profile_ok i p s m f Pp Hs) as (s1 & w & E1 & Hs1 & M1). rewrite E1. cbn [mbind option_bind].
  pose proof Pp as (_ & _ & Np).
  assert (L1 : Z.of_nat (length (write_mode i p w f)) <= file_size).
  { rewrite write_mode_length by (done || lia). revert Hl. unfold file_size, ad23_place, sizeof_da, sizeof_ad, sizeof_header,
      VBC_EFFECT_PROFILE_CNT, VBC_EQ_FIRMWARE_MAGIC_LEN, VBC_EQ_PROFILE_NAME_MAX, VBC_DA_EFFECT_PARAS_LEN, VBC_AD_EFFECT_PARAS_LEN.
    lia. }
  destruct (IH (i + 1) s1 w (write_mode i p w f)) as (s' & m' & f' & E & Hs' & Hh' & Hl' & Hold & Hnew);
    [lia|lia|done|by apply header_kept; [|lia|]|done|].
  exists s', m', f'. split; [done|]. split; [done|]. split; [done|]. split.
  { intros _. destruct n as [|n]; [|by apply Hl'].
    cbn [parse_profiles] in E. injection E as <- <- <-. assert (i = 3) as -> by lia. revert Hl L1.
    rewrite write_mode_length by (done || lia). unfold file_size, ad23_place, sizeof_da, sizeof_ad, sizeof_header,
      VBC_EFFECT_PROFILE_CNT, VBC_EQ_FIRMWARE_MAGIC_LEN, VBC_EQ_PROFILE_NAME_MAX, VBC_DA_EFFECT_PARAS_LEN, VBC_AD_EFFECT_PARAS_LEN.
    lia. }
  split; [intros j q u Hj Hq; apply Hold; [lia|]; apply stored_kept; done || lia|].
  intros j Hj. destruct (Z.eq_dec j i) as [->|Hji]; [|apply Hnew; lia].
  exists p, w. split; [done|]. split; [done|]. apply Hold; [lia|]. apply write_mode_stores; [done|lia].
Qed.

(** C7. The file of profiles.  For four well-formed modes that the code handles, and whatever the static variables and
    the words held before, [do_parse] writes a file of 5896 bytes without a byte left over between its
    parts: the header, and for every mode its three profiles in their places, which hold the words made from its settings,
    low cut, bands, limiter and switches alike. *)
Theorem do_parse_file params params_size mode_count s m :
  (∀ j, 0 <= j < 4 → ∃ p, params !! Z.to_nat j = Some p ∧ mode_ok p) → wf_statics s →
  u32 (mode_count * sizeof_total) = params_size →
  ∃ s' m' f, do_parse (Some params) params_size mode_count true true s m = Some (0, s', m', Some f)
    ∧ wf_statics s' ∧ Z.of_nat (length f) = 5896 ∧ slice 0 24 f = Some (header_bytes fw_header)
    ∧ ∀ j, 0 <= j < 4 → ∃ p w, params !! Z.to_nat j = Some p ∧ made_from p w ∧ stored f j p w.
Proof.
  intros Hp Hs <-. unfold do_parse. rewrite Z.eqb_refl. cbn [negb].
  destruct (parse_profiles_ok params (Z.to_nat VBC_EFFECT_PROFILE_CNT) 0 s m (header_bytes fw_header) (header_bytes fw_header))
    as (s' & m' & f & E & Hs' & Hh & Hl & _ & Hnew); [done|done|done|done|done|vm_compute; discriminate|].
  rewrite E. exists s', m', f. split; [done|]. split; [done|]. split; [|by split].
  exact (Hl ltac:(done)).
Qed.

(** The words and the static variables that one mode leaves do not show in the bytes of the next. *)
Lemma parse_profiles_same params n i f s1 m1 s2 m2 :
  (∀ j, 0 <= j < 4 → ∃ p, params !! Z.to_nat j = Some p ∧ mode_ok p) →
  0 <= i → i + Z.of_nat n <= 4 → wf_statics s1 → wf_statics s2 →
  ∃ s1' m1' s2' m2' f', parse_profiles n i params (s1, m1, f) = Some (s1', m1', f')
    ∧ parse_profiles n i params (s2, m2, f) = Some (s2', m2', f').
Proof.
  intros Hp. revert i f s1 m1 s2 m2. induction n as [|n IH]; intros i f s1 m1 s2 m2 Hi Hn H1 H2; [by do 5 eexists|].
  cbn [parse_profiles]. destruct (Hp i ltac:(lia)) as (p & -> & Pp). cbn [mbind option_bind].
  destruct (parse_profile_ok i p s1 m1 f Pp H1) as (s1' & w1 & -> & H1' & M1).
  destruct (parse_profile_ok i p s2 m2 f Pp H2) as (s2' & w2 & -> & H2' & M2). cbn [mbind option_bind].
  rewrite (write_mode_determined p w2 w1) by done. apply IH; lia || done.
Qed.

(** C33. The file is a function of the modes: whatever the static variables and the words held before, [do_parse] writes
    the same bytes for the same four modes, so that nothing of a mode parsed before, or of the mode before in the
    loop, shows in a profile. *)
Theorem do_parse_repeatable params params_size mode_count s1 m1 s2 m2 :
  (∀ j, 0 <= j < 4 → ∃ p, params !! Z.to_nat j = Some p ∧ mode_ok p) → wf_statics s1 → wf_statics s2 →
  u32 (mode_count * sizeof_total) = params_size →
  ∃ s1' m1' s2' m2' f,
    do_parse (Some params) params_size mode_count true true s1 m1 = Some (0, s1', m1', Some f)
    ∧ do_parse (Some params) params_size mode_count true true s2 m2 = Some (0, s2', m2', Some f).
Proof.
  intros Hp H1 H2 <-. unfold do_parse. rewrite Z.eqb_refl. cbn [negb].
  destruct (parse_profiles_same params (Z.to_nat VBC_EFFECT_PROFILE_CNT) 0 (header_bytes fw_header) s1 m1 s2 m2)
    as (s1' & m1' & s2' & m2' & f & -> & ->); [done|done|vm_compute; discriminate|done|done|]. by do 5 eexists.
Qed.

(** Four modes with the equaliser on, for example. *)
Definition ex_params : list AUDIO_TOTAL_T := repeat (ex_total 0 1) 4.

Lemma ex_params_ok j : 0 <= j < 4 → ∃ p, ex_params !! Z.to_nat j = Some p ∧ mode_ok p.
Proof.
  intros Hj. exists (ex_total 0 1). split; [|split; [apply wf_ex_total|split; [apply handled_ex|done]]].
  assert (j = 0 ∨ j = 1 ∨ j = 2 ∨ j = 3) as [-> |[-> |[-> | ->]]] by lia; done.
Qed.

Theorem do_parse_file_witness :
  ∃ s' m' f, do_parse (Some ex_params) 13376 4 true true statics_start (λ _, 0) = Some (0, s', m', Some f)
    ∧ Z.of_nat (length f) = 5896.
Proof.
  destruct (do_parse_file ex_params 13376 4 statics_start (λ _, 0) ex_params_ok wf_start eq_refl)
    as (s' & m' & f & E & _ & L & _).
  exists s', m', f. split; [exact E|exact L].
Defined.

(** Static variables as another mode may have left them. *)
Definition statics_used : statics :=
  Statics (ex_eq 0) [] (Dg 7 7) (DaPath 0x3000 0xc000) (Alc true 9 9 (repeat 5 11))
    (Hpf 16 3 [1; 2; 3; 4; 5; 6] (LcfPara true 0x100 (F1F1 1 2 3 4 5 6)) 5 true true (repeat true 8) ex_bands)
    44100 2 1 6.

Lemma wf_used : wf_statics statics_used.
Proof. split; [done|]. split; [done|]. repeat constructor; unfold is_i16; cbn; lia. Qed.

Lemma do_parse_repeatable_witness :
  ∃ s1 m1 s2 m2 f,
    do_parse (Some ex_params) 13376 4 true true statics_start (λ _, 0) = Some (0, s1, m1, Some f)
    ∧ do_parse (Some ex_params) 13376 4 true true statics_used (λ _, 77) = Some (0, s2, m2, Some f).
Proof. exact (do_parse_repeatable ex_params 13376 4 _ _ _ _ ex_params_ok wf_start wf_used eq_refl). Defined.

(** The header counts four profiles in all, and none for the input paths, of which the file holds eight. *)
Lemma header_counts : num_profile fw_header = 4 ∧ num_da fw_header = 4 ∧ num_ad01 fw_header = 0 ∧ num_ad23 fw_header = 0.
Proof. done. Qed.
