(* ===== verification/ParaText.v ===== *)
(** * The text of the audio parameters (audio/sc8830/nv_exchange/string_exchange_bin.c)

    The tuning parameters of the audio modes are kept in a text file, a line for every field.
    [nvstruct2stringfile] writes the file from the structures, [stringfile2nvstruct] reads it back; the
    table of modes comes from an XML file that a library parses and is an argument.  A C string is
    the list of its characters without the terminator; results are [None] where the C code leaves its defined behaviour. *)

From stdpp Require Import list strings functions.
From S2P Require Import Prelude CArith AtTok EqSet EqFile.

Open Scope Z_scope.

(** ** Strings *)

Fixpoint starts (p s : bytes) : bool :=
  match p, s with
  | [], _ => true
  | a :: p, b :: s => (a =? b) && starts p s
  | _, [] => false
  end.

(** [strstr]: what [s] is from the first occurrence of [p] on. *)
Fixpoint strstr (s p : bytes) : option bytes :=
  if starts p s then Some s else match s with [] => None | _ :: s => strstr s p end.
Definition has (s : bytes) (p : string) : bool :=
  match strstr s (chars_of p) with Some _ => true | None => false end.

(** What follows the first [c]. *)
Fixpoint after_char (c : Z) (s : bytes) : option bytes :=
  match s with [] => None | b :: s => if b =? c then Some s else after_char c s end.

Fixpoint span (f : Z → bool) (s : bytes) : bytes * bytes :=
  match s with
  | [] => ([], [])
  | c :: s => if f c then let '(a, b) := span f s in (c :: a, b) else ([], c :: s)
  end.

Definition is_digit (c : Z) : bool := (0x30 <=? c) && (c <=? 0x39).
Definition is_digit_1_9 (c : Z) : bool := (0x31 <=? c) && (c <=? 0x39).
Definition not_backslash (c : Z) : bool := negb (c =? 0x5c).

(** [sprintf (buf, "%0x", v)] of an [unsigned int]. *)
Definition x_char (v : Z) : Z := if v <? 10 then 0x30 + v else 0x61 + v - 10.
Fixpoint x_digits (fuel : nat) (v : Z) : bytes :=
  match fuel with
  | O => []
  | S fuel => (if v <? 16 then [] else x_digits fuel (v / 16)) ++ [x_char (v mod 16)]
  end.
Definition hex (v : Z) : bytes := x_digits 8 v.
(** [sprintf (buf, "%d", i)] of an index. *)
Definition dec (i : nat) : bytes := print_dec (Z.of_nat i).

(** ** The table of modes *)

Definition NAME_LEN_MAX : Z := 16.
Record audio_mode_item_t := ModeItem { item_index : Z; mode_name : bytes }.

(** ** Writing *)

Section writing.
Variables (arm_name eq_name : bytes).

(** A line of the [audio_arm] group and one of the equaliser. *)
Definition arm_line (path : string) (v : Z) : bytes :=
  chars_of "audio_arm\audio_arm\" ++ arm_name ++ chars_of path ++ hex v.
Definition arm_line_at (path : string) (i : nat) (path' : string) (v : Z) : bytes :=
  chars_of "audio_arm\audio_arm\" ++ arm_name ++ chars_of path ++ dec i ++ chars_of path' ++ hex v.
Definition arm_line_at2 (path : string) (i : nat) (path' : string) (k : nat) (path'' : string) (v : Z) : bytes :=
  chars_of "audio_arm\audio_arm\" ++ arm_name ++ chars_of path ++ dec i ++ chars_of path' ++ dec k
  ++ chars_of path'' ++ hex v.
Definition eq_line (path : string) (v : Z) : bytes := chars_of "%audio\" ++ eq_name ++ chars_of path ++ hex v.
Definition eq_line_at (path : string) (i : nat) (path' : string) (v : Z) : bytes :=
  chars_of "%audio\" ++ eq_name ++ chars_of path ++ dec i ++ chars_of path' ++ hex v.
Definition eq_line_at2 (path : string) (i : nat) (path' : string) (k : nat) (path'' : string) (v : Z) : bytes :=
  chars_of "%audio\" ++ eq_name ++ chars_of path ++ dec i ++ chars_of path' ++ dec k ++ chars_of path'' ++ hex v.

(** [ivalue & 0xffff] of a signed field. *)
Definition low16 (v : Z) : Z := Z.land (u32 v) 0xffff.

Definition dev_lines (d : AUDIO_NV_ARM_DEVICE_PATH_T) : list bytes :=
  [arm_line "\AudioStructure\dev_path_set\valid_dev_set_count=0x" (valid_dev_set_count d);
   arm_line "\AudioStructure\dev_path_set\reserve=0x" (dev_reserve d)]
  ++ imap (λ j, arm_line_at "\AudioStructure\dev_path_set\dev_set\dev_set[" j "]=0x") (dev_set d).

Definition app_path : string := "\AudioStructure\app_config_info_set\app_config_info\app_config_info[".
Definition app_lines (j : nat) (a : AUDIO_NV_ARM_APP_CONFIG_INFO_T) : list bytes :=
  [arm_line_at app_path j "]\eq_switch=0x" (eq_switch a)]
  ++ imap (λ k, arm_line_at2 app_path j "]\agc_input_gain\agc_input_gain[" k "]=0x") (agc_input_gain a)
  ++ [arm_line_at app_path j "]\valid_volume_level_count=0x" (valid_volume_level_count a)]
  ++ imap (λ k, arm_line_at2 app_path j "]\arm_volume\arm_volume[" k "]=0x") (arm_volume a)
  ++ imap (λ k, arm_line_at2 app_path j "]\reserve\reserve[" k "]=0x") (app_reserve a).

Definition arm_lines (m : AUDIO_NV_ARM_MODE_STRUCT_T) : list bytes :=
  dev_lines (dev_path_set m)
  ++ [arm_line "\AudioStructure\app_config_info_set\valid_app_set_count=0x" (valid_app_set_count m);
      arm_line "\AudioStructure\app_config_info_set\valid_agc_input_gain_count=0x" (valid_agc_input_gain_count m)]
  ++ imap (λ j, arm_line_at "\AudioStructure\app_config_info_set\aud_proc_exp_control\aud_proc_exp_control[" j "]=0x")
       (aud_proc_exp_control m)
  ++ mjoin (imap app_lines (app_config_info m))
  ++ [arm_line "\AudioStructure\midi_opt=0x" (midi_opt m); arm_line "\AudioStructure\aud_dev=0x" (aud_dev m)]
  ++ imap (λ j, arm_line_at "\AudioStructure\reserve\reserve[" j "]=0x") (reserve m).

(** The indices of modes and bands count from 1 here; [q] is printed without the mask. *)
Definition band_lines (j k : nat) (b : EQ_BAND_INPUT_PARA_T) : list bytes :=
  let line field := eq_line_at2 "\eq_mode_" (S j) "\eq_band_" (S k) field in
  [line "\fo=0x" (low16 (band_fo b)); line "\q=0x" (u32 (band_q b));
   line "\boostdB=0x" (low16 (band_boostdB b)); line "\gaindB=0x" (low16 (band_gaindB b))].
Definition eq_mode_lines (j : nat) (m : EQ_MODE_PARA_T) : list bytes :=
  [eq_line_at "\eq_mode_" (S j) "\agc_in_gain=0x" (low16 (agc_in_gain m));
   eq_line_at "\eq_mode_" (S j) "\band_control=0x" (low16 (band_control m))]
  ++ mjoin (imap (band_lines j) (eq_band m)).
Definition eq_lines (e : AUDIO_ENHA_EQ_STRUCT_T) : list bytes :=
  [eq_line "\eq_control=0x" (low16 (eq_control e))]
  ++ mjoin (imap eq_mode_lines (eq_modes e))
  ++ imap (λ j v, eq_line_at "\extendArray\extendArray[" j "]=0x" (low16 v)) (externdArray e).

Definition mode_lines (p : AUDIO_TOTAL_T) : list bytes :=
  arm_lines (tAudioNvArmModeStruct p) ++ eq_lines (audio_enha_eq p).
End writing.

(** [fputs (nvline, file); fputc ('\n', file)] of lines that fit into [nvline [1024]]. *)
Fixpoint put_lines (l : list bytes) : option bytes :=
  match l with
  | [] => Some []
  | line :: l => if Z.of_nat (length line) <? 1024 then r ← put_lines l; Some (line ++ 10 :: r) else None
  end.

(** The names: 16 bytes for each mode, those of the equaliser with a prefix. *)
Definition arm_names (modes : list audio_mode_item_t) : bytes := mjoin (map mode_name modes).
Definition eq_names (modes : list audio_mode_item_t) : bytes :=
  mjoin (map (λ m, chars_of "EQ_" ++ take 13 (mode_name m)) modes).

Fixpoint put_modes (modes : list audio_mode_item_t) (params : list AUDIO_TOTAL_T) (n i : nat) : option bytes :=
  match n with
  | O => Some []
  | S n =>
      arm_name ← cstr (arm_names modes) (16 * i);
      eq_name ← cstr (eq_names modes) (16 * i);
      p ← params !! i;
      b ← put_lines (mode_lines arm_name eq_name p);
      r ← put_modes modes params n (S i);
      Some (b ++ r)
  end.

(** The file written, or none; [created] says whether the memory for the names is there and the file can be opened. *)
Definition nvstruct2stringfile (modes : list audio_mode_item_t) (created : bool) (params : list AUDIO_TOTAL_T) (lenbytes : Z)
    : option (option bytes) :=
  if negb created then Some None
  else if negb (u32 lenbytes =? u32 (sizeof_total * Z.of_nat (length modes))) then Some None
  else Some <$> put_modes modes params (length modes) 0.

(** ** Reading a value *)

(** What follows the first '=' of [s], in [nvtemp [128]], or the empty string. *)
Definition nvtemp_of (s : bytes) : option bytes :=
  match after_char 0x3d s with
  | Some v => if Z.of_nat (length v) <? 128 then Some v else None
  | None => Some []
  end.

Definition atoi (s : bytes) : Z := (strtol 10 s).1.

(** [iValue], converted to [short] where [narrow]. *)
Definition nv_value (narrow : bool) (s : bytes) : option Z :=
  v ← nvtemp_of s;
  let x := if has v "0x" || has v "0X" then (strtol 16 v).1 else atoi v in
  Some (if narrow then i16 x else x).

(** The digits that [my_strtol] collects in [dest_data], at most [n]. *)
Fixpoint hex_run (n : nat) (s : bytes) : list Z :=
  match n, s with
  | S n, c :: s => match digit_in 16 c with Some d => d :: hex_run n s | None => [] end
  | _, _ => []
  end.

(** The loop that puts the digits together, [len] of them. *)
Definition my_strtol (src : bytes) : Z :=
  let dest_data := hex_run 8 (drop 2 src) in
  let len := Z.of_nat (length dest_data) in
  foldl (λ value p, i32 (Z.lor value (i32 (Z.shiftl p.2 ((len - Z.of_nat p.1 - 1) * 4))))) 0
    (imap (λ i d, (i, d)) dest_data).

(** The value of [arm_volume]. *)
Definition volume_value (s : bytes) : option Z :=
  v ← nvtemp_of s;
  Some (match strstr v (chars_of "0x"), strstr v (chars_of "0X") with
        | Some p, _ => my_strtol p
        | None, Some p => my_strtol p
        | None, None => atoi v
        end).

(** [sscanf (s, "%[set]%[^stop]", data)]: the second conversion has no argument, it must not find anything to store. *)
Definition scan_number (accept : Z → bool) (stop : Z) (s data : bytes) : option bytes :=
  match span accept s with
  | ([], _) => Some data
  | (run, rest) =>
      if 128 <=? Z.of_nat (length run) then None
      else match rest with
           | [] => Some run
           | c :: _ => if c =? stop then Some run else None
           end
  end.

(** ** Storing a value *)

Definition set_at {A} (l : list A) (i : Z) (v : A) : option (list A) :=
  if (0 <=? i) && (i <? Z.of_nat (length l)) then Some (<[Z.to_nat i := v]> l) else None.
Definition change_at {A} (f : A → option A) (i : Z) (l : list A) : option (list A) :=
  if i <? 0 then None else x ← l !! Z.to_nat i; y ← f x; Some (<[Z.to_nat i := y]> l).

(** The indices that are kept from line to line. *)
Inductive ctr := DevSet | AudProcExpControl | AgcInputGain | ArmVolume | Reserve1 | Reserve3 | ExtendArray.
#[export] Instance ctr_eq_dec : EqDecision ctr.
Proof. solve_decision. Defined.
Definition indices : Type := ctr → Z.

(** [index++; if (index == n) index = 0;] *)
Definition bump (c : ctr) (n : Z) (ix : indices) : indices :=
  <[c := if ix c + 1 =? n then 0 else ix c + 1]> ix.

Definition set_dev (d : AUDIO_NV_ARM_DEVICE_PATH_T) (m : AUDIO_NV_ARM_MODE_STRUCT_T) : AUDIO_NV_ARM_MODE_STRUCT_T :=
  ModeStruct d (valid_app_set_count m) (valid_agc_input_gain_count m) (aud_proc_exp_control m) (app_config_info m)
    (midi_opt m) (aud_dev m) (reserve m).
Definition set_counts (a g : Z) (c : list Z) (m : AUDIO_NV_ARM_MODE_STRUCT_T) : AUDIO_NV_ARM_MODE_STRUCT_T :=
  ModeStruct (dev_path_set m) a g c (app_config_info m) (midi_opt m) (aud_dev m) (reserve m).
Definition set_apps (l : list AUDIO_NV_ARM_APP_CONFIG_INFO_T) (m : AUDIO_NV_ARM_MODE_STRUCT_T) : AUDIO_NV_ARM_MODE_STRUCT_T :=
  ModeStruct (dev_path_set m) (valid_app_set_count m) (valid_agc_input_gain_count m) (aud_proc_exp_control m) l
    (midi_opt m) (aud_dev m) (reserve m).
Definition set_rest (o d : Z) (r : list Z) (m : AUDIO_NV_ARM_MODE_STRUCT_T) : AUDIO_NV_ARM_MODE_STRUCT_T :=
  ModeStruct (dev_path_set m) (valid_app_set_count m) (valid_agc_input_gain_count m) (aud_proc_exp_control m)
    (app_config_info m) o d r.

(** ** A line of the [audio_arm] group *)

(** What the lines of a mode change besides its structure: [data] and the indices. *)
Definition scratch : Type := bytes * indices.

(** In the application [k]: [t] is the line from the name of the array on. *)
Definition read_app (t : bytes) (k : Z) (m : AUDIO_NV_ARM_MODE_STRUCT_T) (data : bytes) (ix : indices)
    : option (AUDIO_NV_ARM_MODE_STRUCT_T * scratch) :=
  let store (f : AUDIO_NV_ARM_APP_CONFIG_INFO_T → option AUDIO_NV_ARM_APP_CONFIG_INFO_T) (ix : indices) :=
    l ← change_at f k (app_config_info m); Some (set_apps l m, (data, ix)) in
  if has t "eq_switch" then
    v ← nv_value true t;
    store (λ a, Some (AppConfig (u16 v) (agc_input_gain a) (valid_volume_level_count a) (arm_volume a) (app_reserve a))) ix
  else if has t "agc_input_gain" then
    v ← nv_value true t;
    store (λ a, l ← set_at (agc_input_gain a) (ix AgcInputGain) (u16 v);
                Some (AppConfig (eq_switch a) l (valid_volume_level_count a) (arm_volume a) (app_reserve a)))
      (bump AgcInputGain 8 ix)
  else if has t "valid_volume_level_count" then
    v ← nv_value false t;
    store (λ a, Some (AppConfig (eq_switch a) (agc_input_gain a) (u16 v) (arm_volume a) (app_reserve a))) ix
  else if has t "arm_volume" then
    v ← volume_value t;
    store (λ a, l ← set_at (arm_volume a) (ix ArmVolume) (u32 v);
                Some (AppConfig (eq_switch a) (agc_input_gain a) (valid_volume_level_count a) l (app_reserve a)))
      (bump ArmVolume 31 ix)
  else if has t "reserve" then
    v ← nv_value true t;
    store (λ a, l ← set_at (app_reserve a) (ix Reserve3) (u16 v);
                Some (AppConfig (eq_switch a) (agc_input_gain a) (valid_volume_level_count a) (arm_volume a) l))
      (bump Reserve3 9 ix)
  else Some (m, (data, ix)).

Definition app_pattern : bytes := chars_of "app_config_info_set\app_config_info\app_config_info[".

Definition read_arm (line : bytes) (s : AUDIO_NV_ARM_MODE_STRUCT_T * scratch)
    : option (AUDIO_NV_ARM_MODE_STRUCT_T * scratch) :=
  let '(m, (data, ix)) := s in
  let d := dev_path_set m in
  if has line "AudioStructure\midi_opt" then
    v ← nv_value false line; Some (set_rest (u16 v) (aud_dev m) (reserve m) m, (data, ix))
  else if has line "AudioStructure\aud_dev" then
    v ← nv_value true line; Some (set_rest (midi_opt m) (u16 v) (reserve m) m, (data, ix))
  else if has line "AudioStructure\reserve" then
    v ← nv_value true line; l ← set_at (reserve m) (ix Reserve1) (u16 v);
    Some (set_rest (midi_opt m) (aud_dev m) l m, (data, bump Reserve1 64 ix))
  else if has line "dev_path_set\valid_dev_set_count" then
    v ← nv_value true line; Some (set_dev (DevicePath (u16 v) (dev_reserve d) (dev_set d)) m, (data, ix))
  else if has line "dev_path_set\reserve" then
    v ← nv_value true line; Some (set_dev (DevicePath (valid_dev_set_count d) (u16 v) (dev_set d)) m, (data, ix))
  else if has line "dev_path_set\dev_set" then
    v ← nv_value true line; l ← set_at (dev_set d) (ix DevSet) (u16 v);
    Some (set_dev (DevicePath (valid_dev_set_count d) (dev_reserve d) l) m, (data, bump DevSet 8 ix))
  else if has line "app_config_info_set\valid_app_set_count" then
    v ← nv_value true line;
    Some (set_counts (u16 v) (valid_agc_input_gain_count m) (aud_proc_exp_control m) m, (data, ix))
  else if has line "app_config_info_set\valid_agc_input_gain_count" then
    v ← nv_value true line;
    Some (set_counts (valid_app_set_count m) (u16 v) (aud_proc_exp_control m) m, (data, ix))
  else if has line "app_config_info_set\aud_proc_exp_control" then
    v ← nv_value true line; l ← set_at (aud_proc_exp_control m) (ix AudProcExpControl) (u16 v);
    Some (set_counts (valid_app_set_count m) (valid_agc_input_gain_count m) l m, (data, bump AudProcExpControl 2 ix))
  else
    match strstr line app_pattern with
    | None => Some (m, (data, ix))
    | Some t =>
        data ← scan_number is_digit 0x5d (drop (length app_pattern) t) data;
        read_app t (i16 (atoi data)) m data ix
    end.

(** ** A line of the equaliser *)

Definition set_modes (l : list EQ_MODE_PARA_T) (e : AUDIO_ENHA_EQ_STRUCT_T) : AUDIO_ENHA_EQ_STRUCT_T :=
  EqStruct (para_name e) (eq_control e) l (externdArray e).

Definition read_extend (line : bytes) (e : AUDIO_ENHA_EQ_STRUCT_T) (sc : scratch)
    : option (AUDIO_ENHA_EQ_STRUCT_T * scratch) :=
  let '(data, ix) := sc in
  if has line "extendArray" then
    v ← nv_value true line; l ← set_at (externdArray e) (ix ExtendArray) (i16 v);
    Some (EqStruct (para_name e) (eq_control e) (eq_modes e) l, (data, bump ExtendArray 59 ix))
  else Some (e, (data, ix)).

(** The band [k] of the mode [j], both counted from 1: [b] is the line from "eq_band_" on. *)
Definition read_band (line b : bytes) (j k : Z) (e : AUDIO_ENHA_EQ_STRUCT_T) (sc : scratch)
    : option (AUDIO_ENHA_EQ_STRUCT_T * scratch) :=
  let store (f : Z → EQ_BAND_INPUT_PARA_T → EQ_BAND_INPUT_PARA_T) :=
    v ← nv_value true line;
    l ← change_at (λ m, bs ← change_at (λ x, Some (f (i16 v) x)) (k - 1) (eq_band m);
                        Some (Mode (agc_in_gain m) (band_control m) bs)) (j - 1) (eq_modes e);
    Some (set_modes l e, sc) in
  if has b "fo" then store (λ v x, Band v (band_q x) (band_boostdB x) (band_gaindB x))
  else if Z.of_nat (length b) <? 9 then None
  else if has (drop 9 b) "q" then store (λ v x, Band (band_fo x) v (band_boostdB x) (band_gaindB x))
  else if has b "boostdB" then store (λ v x, Band (band_fo x) (band_q x) v (band_gaindB x))
  else if has b "gaindB" then store (λ v x, Band (band_fo x) (band_q x) (band_boostdB x) v)
  else read_extend line e sc.

Definition read_eq (line : bytes) (s : AUDIO_ENHA_EQ_STRUCT_T * scratch)
    : option (AUDIO_ENHA_EQ_STRUCT_T * scratch) :=
  let '(e, (data, ix)) := s in
  if has line "eq_control" then
    v ← nv_value true line; Some (EqStruct (para_name e) (u16 v) (eq_modes e) (externdArray e), (data, ix))
  else
    match strstr line (chars_of "eq_mode_") with
    | None => read_extend line e (data, ix)
    | Some t =>
        data ← scan_number is_digit_1_9 0x5c (drop 8 t) data;
        let j := atoi data in
        let store (f : Z → EQ_MODE_PARA_T → EQ_MODE_PARA_T) :=
          v ← nv_value false line;
          l ← change_at (λ m, Some (f (i16 v) m)) (j - 1) (eq_modes e);
          Some (set_modes l e, (data, ix)) in
        if has t "agc_in_gain" then store (λ v m, Mode v (band_control m) (eq_band m))
        else if has t "band_control" then store (λ v m, Mode (agc_in_gain m) v (eq_band m))
        else match strstr t (chars_of "eq_band_") with
             | None => read_extend line e (data, ix)
             | Some b =>
                 data ← scan_number is_digit 0x5c (drop 8 b) data;
                 read_band line b j (i16 (atoi data)) e (data, ix)
             end
    end.

(** ** A line *)

Record reader := Reader {
  params : list AUDIO_TOTAL_T; outputstyle : bytes; output_arm : Z; output_eq : Z; read_scratch : scratch }.

(** [sscanf (line, "prefix%[^\\]", outputstyle)]: [Some None] if nothing is converted, else the 16 bytes of
    [outputstyle], which the end of the line leaves alone. *)
Definition scan_style (prefix line old : bytes) : option (option bytes) :=
  if starts prefix line then
    match span not_backslash (drop (length prefix) line) with
    | ([], []) => Some (Some old)
    | ([], _) => Some None
    | (run, _) =>
        if Z.of_nat (length run) <? NAME_LEN_MAX then Some (Some (run ++ 0 :: drop (S (length run)) old)) else None
    end
  else Some None.

(** The index of the mode of that name, or [old]. *)
Fixpoint find_mode (style : bytes) (modes : list audio_mode_item_t) (old : Z) : option Z :=
  match modes with
  | [] => Some old
  | m :: modes =>
      modename ← cstr (mode_name m) 0;
      if bool_decide (style = modename) then Some (item_index m) else find_mode style modes old
  end.

(** [memcpy (name, style, len); name [len] = 0;] *)
Definition put_name (style name : bytes) : bytes :=
  let len := Nat.min (length style) 15 in take len style ++ 0 :: drop (S len) name.

Definition name_eq (style : bytes) (e : AUDIO_ENHA_EQ_STRUCT_T) : AUDIO_ENHA_EQ_STRUCT_T :=
  EqStruct (put_name style (para_name e)) (eq_control e) (eq_modes e) (externdArray e).

Definition read_line (modes : list audio_mode_item_t) (line : bytes) (r : reader) : option reader :=
  if has line "audio_arm\audio_arm\" then
    o ← scan_style (chars_of "audio_arm\audio_arm\") line (outputstyle r);
    match o with
    | None => Some r
    | Some buf =>
        style ← cstr buf 0;
        output ← find_mode style modes (output_arm r);
        if output <? 0 then None
        else
          p ← params r !! Z.to_nat output;
          q ← read_arm line (tAudioNvArmModeStruct p, read_scratch r);
          let '(m, sc) := q in
          let p := Total (audio_enha_eq p) (put_name style (ucModeName p)) m in
          Some (Reader (<[Z.to_nat output := p]> (params r)) buf output (output_eq r) sc)
    end
  else if has line "%audio\" then
    o ← scan_style (chars_of "%audio\") (skip_space line) (outputstyle r);
    match o with
    | None => Some r
    | Some buf =>
        style ← cstr buf 0;
        suffix ← cstr buf 3;
        output ← find_mode suffix modes (output_eq r);
        if output <? 0 then None
        else
          p ← params r !! Z.to_nat output;
          let e := audio_enha_eq p in
          q ← read_eq line (name_eq style e, read_scratch r);
          let '(e, sc) := q in
          Some (Reader (<[Z.to_nat output := Total e (ucModeName p) (tAudioNvArmModeStruct p)]> (params r)) buf
                  (output_arm r) output sc)
    end
  else Some r.

(** ** The file *)

(** The lines as [fgets (nvLine, 1024, file)] gives them. *)
Fixpoint fgets_lines (room : nat) (cur f : bytes) : list bytes :=
  match f with
  | [] => match cur with [] => [] | _ => [cur] end
  | c :: f =>
      if (c =? 10) || (room <=? 1)%nat then (cur ++ [c]) :: fgets_lines (Z.to_nat 1023) [] f
      else fgets_lines (room - 1) (cur ++ [c]) f
  end.
Definition before_nul (s : bytes) : bytes := (span (λ c, negb (c =? 0)) s).1.

Fixpoint run_lines {S} (f : bytes → S → option S) (l : list bytes) (s : S) : option S :=
  match l with [] => Some s | line :: l => s ← f line s; run_lines f l s end.

Definition reader_start (params : list AUDIO_TOTAL_T) : reader :=
  Reader params (repeat 0 16) (-1) (-1) ([], λ _, 0).

(** The structures with what the file says, unchanged if it cannot be opened. *)
Definition stringfile2nvstruct (modes : list audio_mode_item_t) (file : option bytes) (params0 : list AUDIO_TOTAL_T)
    : option (list AUDIO_TOTAL_T) :=
  match file with
  | None => Some params0
  | Some f =>
      r ← run_lines (read_line modes) (map before_nul (fgets_lines (Z.to_nat 1023) [] f)) (reader_start params0); Some (params r)
  end.
