(* ===== verification/ParaMatch.v ===== *)
(** * Searching in the lines of the parameter text

    A line is known up to a name and some numbers.  Its skeleton lists the known characters and the unknown words
    with the class of their characters; what a search finds in every line of a skeleton is decided by evaluation,
    which is proved sound here for [strstr], [strchr] and the values of the lines of ParaText.v. *)

From stdpp Require Import list strings.
From S2P Require Import Prelude CArith AtTok EqSet ParaText.

Open Scope Z_scope.

(** ** Skeletons *)

Inductive cls := Alnum | Digit | Hex.
Definition in_cls (k : cls) (c : Z) : bool :=
  let digit := (0x30 <=? c) && (c <=? 0x39) in
  match k with
  | Alnum => digit || (0x41 <=? c) && (c <=? 0x5a) || (0x61 <=? c) && (c <=? 0x7a)
  | Digit => digit
  | Hex => digit || (0x61 <=? c) && (c <=? 0x66)
  end.

Inductive item := C (c : Z) | W (k : cls) (w : bytes).
Fixpoint fill (sk : list item) : bytes :=
  match sk with [] => [] | C c :: sk => c :: fill sk | W _ w :: sk => w ++ fill sk end.
Definition item_ok (i : item) : Prop :=
  match i with C _ => True | W k w => w ≠ [] ∧ Forall (λ c, in_cls k c = true) w end.
Definition lit (s : string) : list item := map C (chars_of s).

Lemma fill_app a b : fill (a ++ b) = fill a ++ fill b.
Proof. induction a as [|[c|k w] a IH]; cbn; [done|by rewrite IH|by rewrite IH, app_assoc]. Qed.

Lemma fill_lit s : fill (lit s) = chars_of s.
Proof. unfold lit. induction (chars_of s) as [|c l IH]; [done|]. cbn. by rewrite IH. Qed.

Lemma lit_ok s : Forall item_ok (lit s).
Proof. unfold lit. induction (chars_of s) as [|c l IH]; constructor; done. Qed.

(** ** Whether a pattern is at the front *)

Fixpoint prefix_sym (p : bytes) (sk : list item) : option bool :=
  match p, sk with
  | [], _ => Some true
  | _ :: _, [] => Some false
  | a :: p, C c :: sk => if a =? c then prefix_sym p sk else Some false
  | a :: _, W k _ :: _ => if in_cls k a then None else Some false
  end.

Lemma prefix_sound p sk b : Forall item_ok sk → prefix_sym p sk = Some b → starts p (fill sk) = b.
Proof.
  intros H. revert p. induction H as [|i sk Hi _ IH]; intros [|a p] E; cbn in E; try by injection E.
  destruct i as [c|k w]; cbn.
  - destruct (Z.eqb_spec a c) as [->|Hn]; [by rewrite (IH p E)|by injection E].
  - destruct (in_cls k a) eqn:Ek; [done|]. injection E as <-. destruct Hi as [Hw Hf].
    destruct w as [|c w]; [done|]. apply list.Forall_cons in Hf as [Hc _]. cbn.
    destruct (Z.eqb_spec a c) as [->|Hn]; [congruence|done].
Qed.

(** ** Words without an occurrence *)

(** No occurrence of [p] starts in a word of class [k] that [sk] follows: [p] leaves the class with some character,
    where the word ends, if it does, with what is not in the class and does not go on like [p]. *)
Fixpoint leaves (k : cls) (p : bytes) (sk : list item) : bool :=
  match p with
  | [] => false
  | c :: q =>
      if in_cls k c then leaves k q sk
      else match prefix_sym p sk with Some false => true | _ => false end
           && match sk with [] => true | C d :: _ => negb (in_cls k d) | W _ _ :: _ => false end
  end.
Definition skips (k : cls) (p : bytes) (sk : list item) : bool :=
  match p with [] => false | c :: _ => negb (in_cls k c) || leaves k p sk end.

Lemma leaves_starts k p sk w :
  Forall item_ok sk → leaves k p sk = true → Forall (λ c, in_cls k c = true) w → starts p (w ++ fill sk) = false.
Proof.
  intros Hs. revert w. induction p as [|c p IH]; intros w L Hw; [done|]. cbn [leaves] in L.
  destruct (in_cls k c) eqn:Ec.
  - destruct w as [|y w]; [|apply list.Forall_cons in Hw as [_ Hw]; cbn [app starts]; rewrite (IH w L Hw);
                            by rewrite andb_false_r].
    pose proof (IH [] L (List.Forall_nil _)) as B. cbn [app] in *. destruct sk as [|[d|k' v] sk]; [done| |].
    + cbn [fill starts]. destruct (Z.eqb_spec c d) as [->|]; [|done].
      assert (N : in_cls k d = false).
      { clear -L. induction p as [|x p IH]; [done|]. cbn [leaves] in L. destruct (in_cls k x); [by apply IH|].
        apply andb_prop in L as [_ L]. by apply negb_true_iff in L. }
      congruence.
    + exfalso. clear -L. induction p as [|x p IH]; [done|]. cbn [leaves] in L. destruct (in_cls k x); [by apply IH|].
      apply andb_prop in L as [_ L]. done.
  - apply andb_prop in L as [L _]. destruct (prefix_sym (c :: p) sk) as [[]|] eqn:P; try done.
    apply (prefix_sound _ _ _ Hs) in P. destruct w as [|y w]; [done|]. apply list.Forall_cons in Hw as [Hy _].
    cbn [app starts]. destruct (Z.eqb_spec c y) as [->|]; [congruence|done].
Qed.

Lemma skips_starts k p sk c w :
  Forall item_ok sk → skips k p sk = true → Forall (λ c, in_cls k c = true) (c :: w) →
  starts p ((c :: w) ++ fill sk) = false.
Proof.
  intros Hs S Hw. destruct p as [|a p]; [done|]. cbn [skips] in S. apply orb_prop in S as [N|L].
  - apply negb_true_iff in N. apply list.Forall_cons in Hw as [Hc _]. cbn [app starts].
    destruct (Z.eqb_spec a c) as [->|]; [congruence|done].
  - by apply (leaves_starts k).
Qed.

Lemma skip_word k p sk w :
  Forall item_ok sk → skips k p sk = true → Forall (λ c, in_cls k c = true) w →
  strstr (w ++ fill sk) p = strstr (fill sk) p.
Proof.
  intros Hs S. induction w as [|c w IH]; intros Hw; [done|].
  pose proof (skips_starts k p sk c w Hs S Hw) as N. apply list.Forall_cons in Hw as [_ Hw].
  rewrite <- (IH Hw). cbn [app] in *. cbn [strstr]. by rewrite N.
Qed.

(** ** Searching *)

Fixpoint strstr_sym (p : bytes) (sk : list item) : option (option (list item)) :=
  match sk with
  | W k _ :: sk => if skips k p sk then strstr_sym p sk else None
  | _ =>
      match prefix_sym p sk with
      | None => None
      | Some true => Some (Some sk)
      | Some false => match sk with [] => Some None | _ :: sk => strstr_sym p sk end
      end
  end.

Lemma strstr_sound p sk r : Forall item_ok sk → strstr_sym p sk = Some r → strstr (fill sk) p = fill <$> r.
Proof.
  intros H. induction H as [|i sk Hi Hs IH]; intros E.
  - cbn in *. destruct p; by injection E as <-.
  - destruct i as [c|k w].
    + cbn [strstr_sym] in E. destruct (prefix_sym p (C c :: sk)) as [[]|] eqn:P; [..|done];
        apply prefix_sound in P; try by constructor.
      * injection E as <-. change (fill (C c :: sk)) with (c :: fill sk) in *. cbn [strstr]. by rewrite P.
      * change (fill (C c :: sk)) with (c :: fill sk) in *. cbn [strstr]. rewrite P. by apply IH.
    + cbn [strstr_sym] in E. destruct (skips k p sk) eqn:K; [|done]. destruct Hi as [_ Hw].
      change (fill (W k w :: sk)) with (w ++ fill sk). rewrite (skip_word k) by done. by apply IH.
Qed.

Lemma strstr_found p sk r : Forall item_ok sk → strstr_sym p sk = Some (Some r) → strstr (fill sk) p = Some (fill r).
Proof. intros H E. by rewrite (strstr_sound _ _ _ H E). Qed.
Lemma strstr_absent p sk : Forall item_ok sk → strstr_sym p sk = Some None → strstr (fill sk) p = None.
Proof. intros H E. by rewrite (strstr_sound _ _ _ H E). Qed.

Definition has_sym (p : string) (sk : list item) : option bool :=
  match strstr_sym (chars_of p) sk with
  | Some (Some _) => Some true | Some None => Some false | None => None
  end.

Lemma has_sound p sk b : Forall item_ok sk → has_sym p sk = Some b → has (fill sk) p = b.
Proof.
  unfold has_sym, has. intros H E. destruct (strstr_sym (chars_of p) sk) as [r|] eqn:S; [|done].
  rewrite (strstr_sound _ _ _ H S). destruct r; by injection E as <-.
Qed.

(** The items after the first [c]. *)
Fixpoint after_sym (c : Z) (sk : list item) : option (list item) :=
  match sk with
  | [] => None
  | C d :: sk => if d =? c then Some sk else after_sym c sk
  | W k _ :: sk => if in_cls k c then None else after_sym c sk
  end.

Lemma after_sound c sk r : Forall item_ok sk → after_sym c sk = Some r → after_char c (fill sk) = Some (fill r).
Proof.
  intros H. induction H as [|i sk Hi _ IH]; intros E; [done|]. destruct i as [d|k w]; cbn in E |- *.
  - destruct (d =? c); [by injection E as <-|by apply IH].
  - destruct (in_cls k c) eqn:K; [done|]. destruct Hi as [_ Hw]. induction Hw as [|x w Hx _ IHw]; [by apply IH|].
    cbn. destruct (Z.eqb_spec x c) as [->|]; [congruence|done].
Qed.

(** ** Numbers *)

Lemma in_cls_digit k c : (k = Digit ∨ k = Hex) → in_cls k c = true → digit_in 16 c ≠ None ∧ c ≠ 10 ∧ c ≠ 0.
Proof. intros [-> | ->]; unfold in_cls, digit_in; intros H; repeat bcase; repeat split; try done; lia. Qed.

Lemma x_char_hex v : 0 <= v < 16 → in_cls Hex (x_char v) = true ∧ digit_in 16 (x_char v) = Some v.
Proof. intros H. assert (K : forallb (λ v, in_cls Hex (x_char v) && bool_decide (digit_in 16 (x_char v) = Some v)) (seqZ 0 16) = true) by reflexivity.
  apply (forallb_seqZ _ 0 16 v) in K; [|lia]. apply andb_prop in K as [K1 K2]. split; [done|]. by apply bool_decide_eq_true in K2.
Qed.

Lemma x_digits_ok fuel v :
  0 <= v < 16 ^ Z.of_nat fuel →
  read_number 16 0 (x_digits fuel v) = v ∧ Forall (λ c, in_cls Hex c = true) (x_digits fuel v)
  ∧ (length (x_digits fuel v) <= fuel)%nat.
Proof.
  revert v. induction fuel as [|fuel IH]; intros v Hv; [cbn in *; split_and!; [lia|constructor|lia]|].
  destruct (x_char_hex (v mod 16)) as [Hc Hd]; [apply Z.mod_pos_bound; lia|]. cbn [x_digits].
  destruct (Z.ltb_spec v 16) as [L|L].
  - cbn [app read_number length]. rewrite Hd. rewrite Z.mod_small in * by lia. split_and!; [lia|by repeat constructor|lia].
  - destruct (IH (v / 16)) as (E & F & N).
    { rewrite Nat2Z.inj_succ, Z.pow_succ_r in Hv by lia. split; [apply Z.div_pos; lia|].
      apply Z.div_lt_upper_bound; lia. }
    rewrite read_number_app, E.
    + cbn [read_number]. rewrite Hd. split_and!; [pose proof (Z.div_mod v 16); lia| |rewrite length_app; cbn; lia].
      apply Forall_app. split; [done|]. by repeat constructor.
    + eapply list.Forall_impl; [exact F|]. intros c. by apply (in_cls_digit Hex); right.
Qed.

(** A word printed by [hex]: what [strtol] and [my_strtol] make of it. *)
Definition hex_word (h : bytes) : Prop :=
  h ≠ [] ∧ Forall (λ c, in_cls Hex c = true) h ∧ (length h <= 8)%nat.

Lemma hex_ok v : 0 <= v < 2 ^ 32 → hex_word (hex v) ∧ read_number 16 0 (hex v) = v.
Proof.
  intros Hv. destruct (x_digits_ok 8 v) as (E & F & N); [exact Hv|]. repeat split; try done.
  unfold hex. cbn [x_digits]. by destruct (if v <? 16 then [] else _).
Qed.

Lemma dec_ok i : Z.of_nat i < 2 ^ 31 →
  dec i ≠ [] ∧ Forall (λ c, in_cls Digit c = true) (dec i) ∧ (length (dec i) <= 32)%nat ∧ atoi (dec i) = Z.of_nat i.
Proof.
  intros Hi. unfold dec, print_dec. destruct (Z.ltb_spec (Z.of_nat i) 0); [lia|].
  assert (Hb : 0 <= Z.of_nat i < 10 ^ Z.of_nat 32) by lia.
  destruct (print_digits_ok 10 32 (Z.of_nat i)) as [E F]; [lia|done|].
  destruct (print_digits_cons 10 31 (Z.of_nat i)) as (c & s & Ec).
  assert (Ed : dec i = print_digits 10 32 (Z.of_nat i)).
  { unfold dec, print_dec. destruct (Z.ltb_spec (Z.of_nat i) 0); [lia|done]. }
  split; [by rewrite Ec|]. split; [|split].
  - eapply list.Forall_impl; [exact F|]. intros x. unfold digit_in, in_cls. intros H1.
    destruct ((0x30 <=? x) && (x <=? 0x39)); [done|]. exfalso. apply H1.
    destruct ((0x41 <=? x) && (x <=? 0x5A)) eqn:E1; [bsplit; by bdecide|].
    destruct ((0x61 <=? x) && (x <=? 0x7A)) eqn:E2; [bsplit; by bdecide|done].
  - generalize (Z.of_nat i). generalize 32%nat. clear. intros n. induction n as [|n IH]; intros z; [cbn; lia|].
    cbn [print_digits]. rewrite length_app. cbn [length]. destruct (z <? 10); [cbn; lia|]. specialize (IH (z / 10)). lia.
  - rewrite <- Ed. unfold atoi. rewrite Ed.
    pose proof (strtol_print_dec (Z.of_nat i)) as S. unfold print_dec in S.
    destruct (Z.ltb_spec (Z.of_nat i) 0); [lia|]. rewrite S; [done|]. unfold LONG_MIN, LONG_MAX. lia.
Qed.

Lemma read_number_stop h : Forall (λ c, in_cls Hex c = true) h → read_number 16 0 (h ++ [10]) = read_number 16 0 h.
Proof.
  intros F. rewrite read_number_app; [done|]. eapply list.Forall_impl; [exact F|]. intros c. by apply (in_cls_digit Hex); right.
Qed.

(** A value line ends with the number and the line feed. *)
Definition value_items (h : bytes) : list item := [C 0x30; C 0x78; W Hex h; C 10].

Lemma strtol_value h : hex_word h → (strtol 16 (fill (value_items h))).1 = Z.min LONG_MAX (read_number 16 0 h).
Proof.
  intros (Hn & Hf & _). unfold strtol. enough (strto 16 (fill (value_items h)) = Some (false, read_number 16 0 h)) as -> by done.
  destruct h as [|c h]; [done|]. pose proof (read_number_stop (c :: h) Hf) as R. apply list.Forall_cons in Hf as [Hc _].
  destruct (in_cls_digit Hex c) as (D & _); [by right|done|].
  unfold strto. cbn [value_items fill app]. change (skip_space (0x30 :: ?s)) with (0x30 :: s). cbn [skip_sign Z.eqb].
  cbn [app] in R. unfold skip_prefix, starts_with_digit. cbn [skip_space isspace].
  change (if isspace 48 then _ else ?x) with x. cbn [skip_sign].
  destruct (digit_in 16 c) eqn:E; [|done]. cbn. rewrite E. cbn in R |- *. rewrite E in R |- *. cbn. by rewrite R.
Qed.

(** The number of a value line, as [strtol] reads it. *)
Definition long_value (h : bytes) : Z := Z.min LONG_MAX (read_number 16 0 h).

Lemma nvtemp_sound sk h :
  Forall item_ok sk → hex_word h → after_sym 0x3d sk = Some (value_items h) →
  nvtemp_of (fill sk) = Some (fill (value_items h)).
Proof.
  intros H (_ & _ & Hl) E. unfold nvtemp_of. rewrite (after_sound _ _ _ H E).
  assert (L : Z.of_nat (length (fill (value_items h))) < 128) by (cbn; rewrite length_app; cbn; lia).
  apply Z.ltb_lt in L. by rewrite L.
Qed.

Lemma nv_value_sound narrow sk h :
  Forall item_ok sk → hex_word h → after_sym 0x3d sk = Some (value_items h) →
  nv_value narrow (fill sk) = Some (if narrow then i16 (long_value h) else long_value h).
Proof.
  intros H Hh E. unfold nv_value. rewrite (nvtemp_sound sk h) by done. cbn [mbind option_bind].
  change (has (fill (value_items h)) "0x") with true. cbn [orb]. by rewrite strtol_value.
Qed.

(** ** [my_strtol] *)

Lemma u32_i32 z : u32 (i32 z) = u32 z.
Proof.
  unfold i32, u32. destruct (Z.ltb_spec (z mod 2 ^ 32) (2 ^ 31)); [by rewrite Z.mod_mod by lia|].
  replace (z mod 2 ^ 32 - 2 ^ 32) with (z mod 2 ^ 32 + -1 * 2 ^ 32) by lia. by rewrite Z.mod_add, Z.mod_mod by lia.
Qed.

Lemma u32_lor a b : u32 (Z.lor a b) = Z.lor (u32 a) (u32 b).
Proof. unfold u32. rewrite <- !Z.land_ones by lia. apply Z.land_lor_distr_l. Qed.

Lemma hex_run_word n h :
  Forall (λ c, in_cls Hex c = true) h → (length h <= n)%nat →
  ∃ ds, hex_run n (h ++ [10]) = ds ∧ length ds = length h ∧ Forall (λ d, 0 <= d < 16) ds
    ∧ ∀ a, read_number 16 a h = foldl (λ a d, 16 * a + d) a ds.
Proof.
  intros F. revert n. induction F as [|c h Hc _ IH]; intros n Hn; cbn [length] in *.
  - exists []. repeat split; [|constructor]. by destruct n.
  - destruct n as [|n]; [lia|]. destruct (IH n ltac:(lia)) as (ds & E & L & R & V).
    destruct (in_cls_digit Hex c) as (D & _); [by right|done|].
    destruct (digit_in 16 c) as [d|] eqn:Ed; [|done]. exists (d :: ds). cbn [app hex_run length]. rewrite Ed, E, L.
    repeat split; [constructor; [|done]|].
    + unfold digit_in in Ed. unfold in_cls in Hc. repeat bcase; simplify_eq; lia.
    + intros a. cbn [read_number foldl]. rewrite Ed. by rewrite V.
Qed.

(** The digits put together so far: [a] is the number of those that went before. *)
Lemma put_digits len i a acc ds :
  Forall (λ d, 0 <= d < 16) ds → (i + length ds = len)%nat → (len <= 8)%nat → 0 <= a < 16 ^ Z.of_nat i →
  u32 acc = a * 16 ^ Z.of_nat (length ds) →
  u32 (foldl (λ value p, i32 (Z.lor value (i32 (Z.shiftl p.2 ((Z.of_nat len - Z.of_nat p.1 - 1) * 4))))) acc
         (imap (λ k d, ((i + k)%nat, d)) ds)) = foldl (λ a d, 16 * a + d) a ds.
Proof.
  intros F. revert i a acc. induction F as [|d ds Hd _ IH]; intros i a acc Hi Hl Ha Hacc; cbn [length] in *.
  - cbn in *. lia.
  - cbn [imap foldl fst snd]. rewrite Nat.add_0_r.
    rewrite (imap_ext _ (λ k d, ((S i + k)%nat, d)) ds) by (intros; cbn; f_equal; lia).
    set (k := Z.of_nat (length ds)). replace ((Z.of_nat len - Z.of_nat i - 1) * 4) with (4 * k) by lia.
    assert (P : 16 ^ k = 2 ^ (4 * k)) by (change 16 with (2 ^ 4); by rewrite <- Z.pow_mul_r by lia).
    assert (Pk : 0 < 2 ^ (4 * k)) by (apply Z.pow_pos_nonneg; lia).
    assert (Hs : 16 ^ Z.of_nat (S (length ds)) = 16 * 2 ^ (4 * k)).
    { rewrite Nat2Z.inj_succ, Z.pow_succ_r by lia. fold k. lia. }
    assert (Hk : 16 * 2 ^ (4 * k) <= 2 ^ 32).
    { rewrite <- Hs. change (2 ^ 32) with (16 ^ 8). apply Z.pow_le_mono_r; lia. }
    apply IH; [lia|done| |].
    + rewrite Nat2Z.inj_succ, Z.pow_succ_r by lia. lia.
    + rewrite u32_i32, u32_lor, u32_i32, Hacc, Hs. fold k. rewrite P.
      replace (u32 (Z.shiftl d (4 * k))) with (Z.shiftl d (4 * k)).
      * replace (a * (16 * 2 ^ (4 * k))) with (Z.shiftl a (4 * k + 4)).
        -- rewrite lor_shiftl_low; [|lia|].
           ++ rewrite Z.shiftl_mul_pow2, Z.pow_add_r by lia. lia.
           ++ rewrite Z.shiftl_mul_pow2, Z.pow_add_r by lia. nia.
        -- rewrite Z.shiftl_mul_pow2, Z.pow_add_r by lia. lia.
      * unfold u32. rewrite Z.mod_small; [done|]. rewrite Z.shiftl_mul_pow2 by lia. nia.
Qed.

Lemma my_strtol_value h : hex_word h → u32 (my_strtol (fill (value_items h))) = read_number 16 0 h.
Proof.
  intros (_ & Hf & Hl). unfold my_strtol. change (drop 2 (fill (value_items h))) with (h ++ [10]).
  destruct (hex_run_word 8 h Hf Hl) as (ds & -> & L & F & V). rewrite V. cbv zeta.
  pose proof (put_digits (length ds) 0 0 0 ds F) as P. rewrite L in P. rewrite L. apply P; try done.
Qed.

Lemma volume_value_sound sk h :
  Forall item_ok sk → hex_word h → after_sym 0x3d sk = Some (value_items h) →
  ∃ v, volume_value (fill sk) = Some v ∧ u32 v = read_number 16 0 h.
Proof.
  intros H Hh E. unfold volume_value. rewrite (nvtemp_sound sk h) by done. cbn [mbind option_bind].
  change (strstr (fill (value_items h)) (chars_of "0x")) with (Some (fill (value_items h))). eexists. split; [done|].
  by apply my_strtol_value.
Qed.
