(* ===== verification/ParaRound.v ===== *)
(** * Reading the lines of the [audio_arm] group

    What a sequence of lines does to the structure and to the indices that [stringfile2nvstruct] counts, and each line
    that [nvstruct2stringfile] writes for the group: it stores the field that was written. *)

From stdpp Require Import list strings functions.
From S2P Require Import Prelude CArith AtTok EqSet EqFile ParaText ParaMatch.

Open Scope Z_scope.

(** ** Lines and what they lead to *)

Definition zero : indices := λ _, 0.
Definition at_ (c : ctr) (v : Z) : indices := λ c', if decide (c' = c) then v else 0.
(** The index after the entry [j] of an array of [n]. *)
Definition next (n j : Z) : Z := if j + 1 =? n then 0 else j + 1.

Section goes.
Context {M : Type} (f : bytes → M * scratch → option (M * scratch)).

(** The lines lead from [m] to [m'] and the indices from [k] to [k'], whatever was in [data]. *)
Definition goes (l : list bytes) (m : M) (k : indices) (m' : M) (k' : indices) : Prop :=
  ∀ data ix, (∀ c, ix c = k c) →
  ∃ data' ix', run_lines f (map (λ x, x ++ [10]) l) (m, (data, ix)) = Some (m', (data', ix')) ∧ ∀ c, ix' c = k' c.

Lemma run_lines_app {S} (g : bytes → S → option S) l1 l2 s :
  run_lines g (l1 ++ l2) s = s ← run_lines g l1 s; run_lines g l2 s.
Proof. revert s. induction l1 as [|x l1 IH]; intros s; [done|]. cbn. destruct (g x s); [apply IH|done]. Qed.

Lemma goes_nil m k : goes [] m k m k.
Proof. intros data ix H. by exists data, ix. Qed.

Lemma goes_app l1 l2 m k m1 k1 m2 k2 : goes l1 m k m1 k1 → goes l2 m1 k1 m2 k2 → goes (l1 ++ l2) m k m2 k2.
Proof.
  intros H1 H2 data ix Hk. destruct (H1 data ix Hk) as (d1 & x1 & E1 & Hk1).
  destruct (H2 d1 x1 Hk1) as (d2 & x2 & E2 & Hk2). exists d2, x2. split; [|done].
  rewrite map_app, run_lines_app, E1. exact E2.
Qed.

Lemma goes_cons x l m k m1 k1 m2 k2 : goes [x] m k m1 k1 → goes l m1 k1 m2 k2 → goes (x :: l) m k m2 k2.
Proof. apply (goes_app [x]). Qed.

Lemma goes_ext l m k m' k' k1 k1' :
  (∀ c, k1 c = k c) → (∀ c, k' c = k1' c) → goes l m k m' k' → goes l m k1 m' k1'.
Proof.
  intros H1 H2 G data ix H. destruct (G data ix) as (d & x & E & Hx); [by intros c; rewrite H, H1|].
  exists d, x. split; [done|]. intros c. by rewrite Hx, H2.
Qed.

(** A line for every element, or several: the [j]th stores element [j]. *)
Lemma goes_loop {A B} (block : nat → A → list bytes) (g : list B → M) (ks : nat → indices) (conv : A → B) l a :
  length a = length l →
  (∀ j x b, l !! j = Some x → length b = length l → b !! j = a !! j →
     goes (block j x) (g b) (ks j) (g (<[j := conv x]> b)) (ks (S j))) →
  goes (mjoin (imap block l)) (g a) (ks 0%nat) (g (conv <$> l)) (ks (length l)).
Proof.
  intros La H.
  enough (G : ∀ l1 l2, l = l1 ++ l2 →
    goes (mjoin (imap (λ j, block (length l1 + j)%nat) l2)) (g ((conv <$> l1) ++ drop (length l1) a)) (ks (length l1))
      (g (conv <$> l)) (ks (length l))).
  { specialize (G [] l eq_refl). cbn [length fmap list_fmap app] in G. by rewrite drop_0 in G. }
  intros l1 l2. revert l1. induction l2 as [|x l2 IH]; intros l1 E.
  - rewrite app_nil_r in E. subst l1. rewrite drop_ge, app_nil_r by lia. apply goes_nil.
  - cbn [imap mjoin list_join]. rewrite Nat.add_0_r. destruct (drop (length l1) a) as [|y a2] eqn:Ed.
    { apply (f_equal length) in Ed. rewrite length_drop, La, E, length_app in Ed. cbn in Ed. lia. }
    assert (Ea : drop (S (length l1)) a = a2) by (rewrite <- Nat.add_1_r, <- drop_drop, Ed; done).
    eapply goes_app.
    + apply (H (length l1) x); [rewrite E; by apply list_lookup_middle| |].
      * rewrite length_app, length_fmap. cbn [length]. rewrite E, length_app. cbn [length].
        apply (f_equal length) in Ed. rewrite length_drop, La, E, length_app in Ed. cbn [length] in Ed. lia.
      * rewrite lookup_app_r by (rewrite length_fmap; lia). rewrite length_fmap, Nat.sub_diag.
        rewrite <- (Nat.add_0_r (length l1)) at 1. by rewrite <- lookup_drop, Ed.
    + specialize (IH (l1 ++ [x])). rewrite length_app, Nat.add_1_r, fmap_app in IH. cbn [fmap list_fmap] in IH.
      rewrite Ea, <- !app_assoc in IH. cbn [app] in IH.
      replace (<[length l1:=conv x]> ((conv <$> l1) ++ y :: a2)) with ((conv <$> l1) ++ conv x :: a2).
      * rewrite (imap_ext _ (λ j, block (S (length l1) + j)%nat)) by (intros; cbn; by rewrite Nat.add_succ_r).
        by apply IH.
      * rewrite insert_app_r_alt by (rewrite length_fmap; lia). by rewrite length_fmap, Nat.sub_diag.
Qed.

(** One line for every element of an array whose index [c] counts. *)
Lemma goes_array {A B} (line : nat → A → bytes) (g : list B → M) (c : ctr) (conv : A → B) l a :
  length a = length l → l ≠ [] →
  (∀ j x b, l !! j = Some x → length b = length l →
     goes [line j x] (g b) (at_ c (Z.of_nat j)) (g (<[j := conv x]> b)) (at_ c (next (Z.of_nat (length l)) (Z.of_nat j)))) →
  goes (imap line l) (g a) zero (g (conv <$> l)) zero.
Proof.
  intros La Hl H.
  set (ks := λ j : nat, at_ c (if (j =? length l)%nat then 0 else Z.of_nat j)).
  pose proof (goes_loop (λ j x, [line j x]) g ks conv l a La) as G.
  replace (mjoin (imap (λ j x, [line j x]) l)) with (imap line l) in G.
  - eapply goes_ext; [| |apply G].
    + intros c'. unfold zero, ks, at_. destruct l; [done|]. cbn [length Nat.eqb]. by case_decide.
    + intros c'. unfold zero, ks, at_. rewrite Nat.eqb_refl. by case_decide.
    + intros j x b Hj Hb _. unfold ks. pose proof (lookup_lt_Some _ _ _ Hj) as Lj.
      destruct (Nat.eqb_spec j (length l)); [lia|].
      eapply goes_ext; [done| |by apply H]. intros c'. unfold at_, next. case_decide; [|done].
      destruct (Nat.eqb_spec (S j) (length l)); destruct (Z.eqb_spec (Z.of_nat j + 1) (Z.of_nat (length l))); lia.
  - clear. revert line. induction l as [|x l IH]; intros line; [done|]. cbn. f_equal. apply IH.
Qed.

Lemma goes_values {A} (line : nat → A → bytes) (g : list A → M) (c : ctr) n l a :
  length a = n → length l = n → (0 < n)%nat →
  (∀ j x b, l !! j = Some x → (j < n)%nat → length b = n →
     goes [line j x] (g b) (at_ c (Z.of_nat j)) (g (<[j := x]> b)) (at_ c (next (Z.of_nat n) (Z.of_nat j)))) →
  goes (imap line l) (g a) zero (g l) zero.
Proof.
  intros La Ll Hp H. rewrite <- (list_fmap_id l) at 2. apply (goes_array line g c id).
  - congruence.
  - destruct l; cbn in *; [lia|done].
  - intros j x b Hj Hb. rewrite Ll. pose proof (lookup_lt_Some _ _ _ Hj). apply H; [done|lia|congruence].
Qed.
End goes.

(** ** The skeletons of the lines *)

Definition arm_items (n : bytes) (rest : list item) : list item := lit "audio_arm\audio_arm\" ++ W Alnum n :: rest.
Definition eq_items (n : bytes) (rest : list item) : list item := lit "%audio\EQ_" ++ W Alnum n :: rest.

Lemma chars_of_app s t : chars_of (s +:+ t) = chars_of s ++ chars_of t.
Proof. unfold chars_of. induction s as [|c s IH]; [done|]. cbn. by rewrite <- IH. Qed.

Lemma fill_value path h : fill (lit path ++ value_items h) = chars_of (path +:+ "0x") ++ h ++ [10].
Proof. by rewrite fill_app, fill_lit, chars_of_app, <- app_assoc. Qed.

Section skeletons.
Variable n : bytes.

Lemma arm_line_items path v :
  arm_line n (path +:+ "0x") v ++ [10] = fill (arm_items n (lit path ++ value_items (hex v))).
Proof.
  unfold arm_line, arm_items. rewrite fill_app, fill_lit. cbn [fill]. by rewrite fill_value, <- !app_assoc.
Qed.

Lemma arm_line_at_items path j path' v :
  arm_line_at n path j (path' +:+ "0x") v ++ [10]
  = fill (arm_items n (lit path ++ W Digit (dec j) :: lit path' ++ value_items (hex v))).
Proof.
  unfold arm_line_at, arm_items. rewrite fill_app, fill_lit. cbn [fill]. rewrite fill_app, fill_lit. cbn [fill].
  by rewrite fill_value, <- !app_assoc.
Qed.

Lemma arm_line_at2_items path j path' k path'' v :
  arm_line_at2 n path j path' k (path'' +:+ "0x") v ++ [10]
  = fill (arm_items n (lit path ++ W Digit (dec j) :: lit path' ++ W Digit (dec k) :: lit path'' ++ value_items (hex v))).
Proof.
  unfold arm_line_at2, arm_items. rewrite fill_app, fill_lit. cbn [fill]. rewrite fill_app, fill_lit. cbn [fill].
  rewrite fill_app, fill_lit. cbn [fill]. by rewrite fill_value, <- !app_assoc.
Qed.

Lemma eq_line_items path v :
  eq_line (chars_of "EQ_" ++ n) (path +:+ "0x") v ++ [10] = fill (eq_items n (lit path ++ value_items (hex v))).
Proof.
  unfold eq_line, eq_items. rewrite fill_app, fill_lit. cbn [fill]. by rewrite fill_value, <- !app_assoc.
Qed.

Lemma eq_line_at_items path j path' v :
  eq_line_at (chars_of "EQ_" ++ n) path j (path' +:+ "0x") v ++ [10]
  = fill (eq_items n (lit path ++ W Digit (dec j) :: lit path' ++ value_items (hex v))).
Proof.
  unfold eq_line_at, eq_items. rewrite fill_app, fill_lit. cbn [fill]. rewrite fill_app, fill_lit. cbn [fill].
  by rewrite fill_value, <- !app_assoc.
Qed.

Lemma eq_line_at2_items path j path' k path'' v :
  eq_line_at2 (chars_of "EQ_" ++ n) path j path' k (path'' +:+ "0x") v ++ [10]
  = fill (eq_items n (lit path ++ W Digit (dec j) :: lit path' ++ W Digit (dec k) :: lit path'' ++ value_items (hex v))).
Proof.
  unfold eq_line_at2, eq_items. rewrite fill_app, fill_lit. cbn [fill]. rewrite fill_app, fill_lit. cbn [fill].
  rewrite fill_app, fill_lit. cbn [fill]. by rewrite fill_value, <- !app_assoc.
Qed.
End skeletons.

Ltac items_ok :=
  repeat first [apply Forall_app; split | apply lit_ok | apply list.Forall_cons; split | apply List.Forall_nil];
  try exact I; try assumption.

(** Evaluates the searches of the goal on the skeletons. *)
Ltac search :=
  repeat match goal with
  | |- context [has (fill ?sk) ?p] =>
      let b := eval vm_compute in (has_sym p sk) in
      lazymatch b with
      | Some ?v => rewrite (has_sound p sk v) by (first [vm_compute; reflexivity | items_ok]); cbv iota
      end
  end.

(** ** Values *)

Lemma long_hex v : 0 <= v < 2 ^ 31 → long_value (hex v) = v.
Proof. intros H. unfold long_value, LONG_MAX. destruct (hex_ok v) as [_ ->]; lia. Qed.
Lemma hex_word_item v : 0 <= v < 2 ^ 32 → item_ok (W Hex (hex v)).
Proof. intros H. destruct (hex_ok v H) as [(H1 & H2 & _) _]. by split. Qed.
Lemma dec_item j : Z.of_nat j < 2 ^ 31 → item_ok (W Digit (dec j)).
Proof. intros H. destruct (dec_ok j H) as (H1 & H2 & _). by split. Qed.
Lemma u16_i16 v : is_u16 v → u16 (i16 v) = v.
Proof. unfold is_u16, u16, i16. intros H. Z.to_euclidean_division_equations; lia. Qed.

(** Makes a word of [hex v], of [dec j], that is known by what the lemmas say of it. *)
Ltac hex_var v h Hl :=
  let Hh := fresh "Hh" in let Hi := fresh "Hi" in let E := fresh "E" in
  assert (Hh : hex_word (hex v)) by (apply hex_ok; lia); assert (Hl : long_value (hex v) = v) by (apply long_hex; lia);
  assert (Hi : item_ok (W Hex (hex v))) by (apply hex_word_item; lia);
  remember (hex v) as h eqn:E; clear E.
Ltac dec_var j d Hd :=
  let Hi := fresh "Hi" in let E := fresh "E" in
  assert (Hd : atoi (dec j) = Z.of_nat j ∧ (length (dec j) <= 32)%nat) by (split; apply dec_ok; lia);
  assert (Hi : item_ok (W Digit (dec j))) by (apply dec_item; lia);
  remember (dec j) as d eqn:E; clear E.

(** The value of the line of skeleton [sk] that the goal reads: the number of the word [h]. *)
Ltac value_is h Hl :=
  match goal with
  | |- context [nv_value ?b (fill ?sk)] =>
      rewrite (nv_value_sound b sk h); [rewrite Hl|items_ok|assumption|vm_compute; reflexivity]
  end; cbn [mbind option_bind].

Lemma bump_at c n j ix :
  (∀ c', ix c' = at_ c j c') → ∀ c', bump c n ix c' = at_ c (next n j) c'.
Proof.
  intros H c'. unfold bump. pose proof (H c) as Hc. unfold at_ in Hc. rewrite decide_True in Hc by done. rewrite Hc.
  unfold insert, fn_insert, at_, next. destruct (decide (c = c')) as [<-|N]; [by rewrite decide_True|].
  rewrite H. unfold at_. by rewrite !decide_False.
Qed.

Lemma set_at_ok {A} (l : list A) (c : ctr) j v (ix : indices) :
  (∀ c', ix c' = at_ c (Z.of_nat j) c') → (j < length l)%nat → set_at l (ix c) v = Some (<[j := v]> l).
Proof.
  intros H Hj. rewrite H. unfold at_. rewrite decide_True by done. unfold set_at.
  destruct (Z.leb_spec 0 (Z.of_nat j)); [|lia]. destruct (Z.ltb_spec (Z.of_nat j) (Z.of_nat (length l))); [|lia].
  cbn [andb]. by rewrite Nat2Z.id.
Qed.

Lemma change_at_ok {A} (f : A → option A) j (l : list A) x y :
  l !! j = Some x → f x = Some y → change_at f (Z.of_nat j) l = Some (<[j := y]> l).
Proof.
  intros Hx Hf. unfold change_at. destruct (Z.ltb_spec (Z.of_nat j) 0); [lia|]. rewrite Nat2Z.id, Hx. cbn. by rewrite Hf.
Qed.

(** ** The lines of the [audio_arm] group *)

Section arm_lines.
Variable n : bytes.
Hypothesis Hn : item_ok (W Alnum n).
Ltac scalar_line v :=
  let data := fresh "data" in let ix := fresh "ix" in
  intros Hv data ix Hk; pose proof Hv as Hr; unfold is_u16 in Hr; exists data, ix; split; [|exact Hk]; cbn [map run_lines];
  rewrite arm_line_items; let h := fresh "h" in let Hl := fresh "Hl" in
  hex_var v h Hl; unfold read_arm; search; value_is h Hl;
  rewrite ?u16_i16, ?u16_id by done; reflexivity.

Lemma goes_midi_opt v m k :
  is_u16 v → goes read_arm [arm_line n ("\AudioStructure\midi_opt=" +:+ "0x") v] m k (set_rest v (aud_dev m) (reserve m) m) k.
Proof. scalar_line v. Qed.
Lemma goes_aud_dev v m k :
  is_u16 v → goes read_arm [arm_line n ("\AudioStructure\aud_dev=" +:+ "0x") v] m k (set_rest (midi_opt m) v (reserve m) m) k.
Proof. scalar_line v. Qed.
Lemma goes_valid_dev v m k :
  is_u16 v → goes read_arm [arm_line n ("\AudioStructure\dev_path_set\valid_dev_set_count=" +:+ "0x") v] m k
    (set_dev (DevicePath v (dev_reserve (dev_path_set m)) (dev_set (dev_path_set m))) m) k.
Proof. scalar_line v. Qed.
Lemma goes_dev_reserve v m k :
  is_u16 v → goes read_arm [arm_line n ("\AudioStructure\dev_path_set\reserve=" +:+ "0x") v] m k
    (set_dev (DevicePath (valid_dev_set_count (dev_path_set m)) v (dev_set (dev_path_set m))) m) k.
Proof. scalar_line v. Qed.
Lemma goes_valid_app v m k :
  is_u16 v → goes read_arm [arm_line n ("\AudioStructure\app_config_info_set\valid_app_set_count=" +:+ "0x") v] m k
    (set_counts v (valid_agc_input_gain_count m) (aud_proc_exp_control m) m) k.
Proof. scalar_line v. Qed.
Lemma goes_valid_agc v m k :
  is_u16 v → goes read_arm [arm_line n ("\AudioStructure\app_config_info_set\valid_agc_input_gain_count=" +:+ "0x") v] m k
    (set_counts (valid_app_set_count m) v (aud_proc_exp_control m) m) k.
Proof. scalar_line v. Qed.

Ltac array_line v j c :=
  let data := fresh "data" in let ix := fresh "ix" in let Hk := fresh "Hk" in
  intros Hv Hj Hlen data ix Hk; pose proof Hv as Hr; unfold is_u16 in Hr;
  let k := eval cbv in (match c with DevSet => 8 | AudProcExpControl => 2 | _ => 64 end) in
  exists data, (bump c k ix); split; [|by apply bump_at]; cbn [map run_lines];
  rewrite arm_line_at_items; let h := fresh "h" in let Hl := fresh "Hl" in
  hex_var v h Hl; let d := fresh "d" in let Hd := fresh "Hd" in dec_var j d Hd;
  unfold read_arm; search; value_is h Hl; rewrite ?u16_i16, ?u16_id by done;
  rewrite (set_at_ok _ _ j) by (done || lia); reflexivity.

Lemma goes_dev_set v j m :
  is_u16 v → (j < 8)%nat → length (dev_set (dev_path_set m)) = 8%nat →
  goes read_arm [arm_line_at n "\AudioStructure\dev_path_set\dev_set\dev_set[" j ("]=" +:+ "0x") v] m
    (at_ DevSet (Z.of_nat j))
    (set_dev (DevicePath (valid_dev_set_count (dev_path_set m)) (dev_reserve (dev_path_set m))
                (<[j := v]> (dev_set (dev_path_set m)))) m) (at_ DevSet (next 8 (Z.of_nat j))).
Proof. array_line v j DevSet. Qed.

Lemma goes_aud_proc v j m :
  is_u16 v → (j < 2)%nat → length (aud_proc_exp_control m) = 2%nat →
  goes read_arm [arm_line_at n "\AudioStructure\app_config_info_set\aud_proc_exp_control\aud_proc_exp_control[" j
                   ("]=" +:+ "0x") v] m (at_ AudProcExpControl (Z.of_nat j))
    (set_counts (valid_app_set_count m) (valid_agc_input_gain_count m) (<[j := v]> (aud_proc_exp_control m)) m)
    (at_ AudProcExpControl (next 2 (Z.of_nat j))).
Proof. array_line v j AudProcExpControl. Qed.

Lemma goes_reserve v j m :
  is_u16 v → (j < 64)%nat → length (reserve m) = 64%nat →
  goes read_arm [arm_line_at n "\AudioStructure\reserve\reserve[" j ("]=" +:+ "0x") v] m (at_ Reserve1 (Z.of_nat j))
    (set_rest (midi_opt m) (aud_dev m) (<[j := v]> (reserve m)) m) (at_ Reserve1 (next 64 (Z.of_nat j))).
Proof. array_line v j Reserve1. Qed.
End arm_lines.

(** ** The lines of an application *)

Lemma span_word k accept d c s :
  (∀ x, in_cls k x = true → accept x = true) → accept c = false → Forall (λ x, in_cls k x = true) d →
  span accept (d ++ c :: s) = (d, c :: s).
Proof.
  intros Ha Hc F. induction F as [|x d Hx _ IH]; cbn; [by rewrite Hc|]. by rewrite (Ha x Hx), IH.
Qed.

Lemma scan_word accept stop d sk data :
  (∀ x, in_cls Digit x = true → accept x = true) → accept stop = false → item_ok (W Digit d) → (length d <= 32)%nat →
  scan_number accept stop (fill (W Digit d :: C stop :: sk)) data = Some d.
Proof.
  intros Ha Hs [Hn Hd] Hl. unfold scan_number. cbn [fill]. rewrite (span_word Digit) by done. destruct d as [|x d]; [done|].
  destruct (Z.leb_spec 128 (Z.of_nat (length (x :: d)))); [lia|]. by rewrite Z.eqb_refl.
Qed.

Lemma drop_lit s sk : drop (length (chars_of s)) (fill (lit s ++ sk)) = fill sk.
Proof. rewrite fill_app, fill_lit. apply drop_app_length. Qed.

Definition put_app (j : nat) (a : AUDIO_NV_ARM_APP_CONFIG_INFO_T) (m : AUDIO_NV_ARM_MODE_STRUCT_T)
    : AUDIO_NV_ARM_MODE_STRUCT_T := set_apps (<[j := a]> (app_config_info m)) m.

Lemma put_app_twice j a b m : put_app j b (put_app j a m) = put_app j b m.
Proof. unfold put_app, set_apps. cbn. by rewrite list_insert_insert_eq. Qed.

Lemma put_app_lookup j a m : (j < length (app_config_info m))%nat → app_config_info (put_app j a m) !! j = Some a.
Proof. intros H. cbn. by apply list_lookup_insert_eq. Qed.

Section app_lines.
Variable n : bytes.
Hypothesis Hn : item_ok (W Alnum n).

Definition app_name : string := "app_config_info_set\app_config_info\app_config_info[".

(** The line of an application from the name of the array on, with the index [d]. *)
Definition app_items (d : bytes) (rest : list item) : list item := lit app_name ++ W Digit d :: C 0x5d :: rest.

(** Reads the index of the application, then the line from there. *)
Lemma app_index j d rest data :
  item_ok (W Digit d) → atoi d = Z.of_nat j ∧ (length d <= 32)%nat → (j < 16)%nat →
  scan_number is_digit 0x5d (drop (length app_pattern) (fill (app_items d rest))) data = Some d
  ∧ i16 (atoi d) = Z.of_nat j.
Proof.
  intros Hi [Hd Hl] Hj. split; [|rewrite Hd; apply i16_id; unfold is_i16; lia].
  unfold app_items, app_pattern. fold app_name. rewrite drop_lit. by apply scan_word.
Qed.

Ltac app_line j d Hd rest :=
  unfold read_arm, app_path; search;
  match goal with |- context [strstr (fill ?sk) app_pattern] =>
    rewrite (strstr_sound app_pattern sk (Some (app_items d rest))); [|items_ok|vm_compute; reflexivity]
  end; cbn [fmap option_fmap option_map];
  match goal with |- context [scan_number _ _ _ ?x] =>
    let S := fresh "S" in let J := fresh "J" in
    destruct (app_index j d rest x) as [S J]; [assumption|exact Hd|lia|]; rewrite S; cbn [mbind option_bind]; rewrite J; clear S J
  end; unfold read_app, app_items, app_name; search.

Ltac app_scalar v j :=
  let data := fresh "data" in let ix := fresh "ix" in let Hk := fresh "Hk" in
  intros Hv Hj Ha data ix Hk; pose proof Hv as Hr; unfold is_u16 in Hr;
  exists (dec j), ix; split; [|exact Hk]; cbn [map run_lines];
  rewrite arm_line_at_items; let h := fresh "h" in let Hl := fresh "Hl" in hex_var v h Hl;
  let d := fresh "d" in let Hd := fresh "Hd" in dec_var j d Hd;
  match goal with |- context [C 0x5b :: W Digit d :: C 0x5d :: ?r] => app_line j d Hd r
  | |- context [W Digit d :: lit "]\eq_switch=" ++ ?r] => app_line j d Hd (lit "\eq_switch=" ++ r)
  | |- context [W Digit d :: lit "]\valid_volume_level_count=" ++ ?r] =>
      app_line j d Hd (lit "\valid_volume_level_count=" ++ r)
  end;
  value_is h Hl; rewrite ?u16_i16, ?u16_id by done; erewrite change_at_ok by done; reflexivity.

Lemma goes_eq_switch v j a m k :
  is_u16 v → (j < 16)%nat → app_config_info m !! j = Some a →
  goes read_arm [arm_line_at n app_path j ("]\eq_switch=" +:+ "0x") v] m k
    (put_app j (AppConfig v (agc_input_gain a) (valid_volume_level_count a) (arm_volume a) (app_reserve a)) m) k.
Proof. app_scalar v j. Qed.

Lemma goes_valid_volume v j a m k :
  is_u16 v → (j < 16)%nat → app_config_info m !! j = Some a →
  goes read_arm [arm_line_at n app_path j ("]\valid_volume_level_count=" +:+ "0x") v] m k
    (put_app j (AppConfig (eq_switch a) (agc_input_gain a) v (arm_volume a) (app_reserve a)) m) k.
Proof. app_scalar v j. Qed.

Ltac app_array v j i c path :=
  let data := fresh "data" in let ix := fresh "ix" in let Hk := fresh "Hk" in
  intros Hv Hj Hi Ha Hlen data ix Hk; pose proof Hv as Hr; unfold is_u16, is_u32 in Hr;
  let k := eval cbv in (match c with AgcInputGain => 8 | ArmVolume => 31 | _ => 9 end) in
  exists (dec j), (bump c k ix); split; [|by apply bump_at]; cbn [map run_lines];
  rewrite arm_line_at2_items.

Lemma goes_agc_gain v j i a m :
  is_u16 v → (j < 16)%nat → (i < 8)%nat → app_config_info m !! j = Some a → length (agc_input_gain a) = 8%nat →
  goes read_arm [arm_line_at2 n app_path j "]\agc_input_gain\agc_input_gain[" i ("]=" +:+ "0x") v] m
    (at_ AgcInputGain (Z.of_nat i))
    (put_app j (AppConfig (eq_switch a) (<[i := v]> (agc_input_gain a)) (valid_volume_level_count a) (arm_volume a)
                  (app_reserve a)) m) (at_ AgcInputGain (next 8 (Z.of_nat i))).
Proof.
  app_array v j i AgcInputGain "x". hex_var v h Hl. dec_var j d Hd. dec_var i b Hb.
  app_line j d Hd (lit "\agc_input_gain\agc_input_gain[" ++ W Digit b :: lit "]=" ++ value_items h).
  value_is h Hl. rewrite u16_i16 by done. erewrite change_at_ok; [reflexivity|exact Ha|].
  by rewrite (set_at_ok _ _ i) by (done || lia).
Qed.

Lemma goes_app_reserve v j i a m :
  is_u16 v → (j < 16)%nat → (i < 9)%nat → app_config_info m !! j = Some a → length (app_reserve a) = 9%nat →
  goes read_arm [arm_line_at2 n app_path j "]\reserve\reserve[" i ("]=" +:+ "0x") v] m (at_ Reserve3 (Z.of_nat i))
    (put_app j (AppConfig (eq_switch a) (agc_input_gain a) (valid_volume_level_count a) (arm_volume a)
                  (<[i := v]> (app_reserve a))) m) (at_ Reserve3 (next 9 (Z.of_nat i))).
Proof.
  app_array v j i Reserve3 "x". hex_var v h Hl. dec_var j d Hd. dec_var i b Hb.
  app_line j d Hd (lit "\reserve\reserve[" ++ W Digit b :: lit "]=" ++ value_items h).
  value_is h Hl. rewrite u16_i16 by done. erewrite change_at_ok; [reflexivity|exact Ha|].
  by rewrite (set_at_ok _ _ i) by (done || lia).
Qed.

Lemma goes_arm_volume v j i a m :
  is_u32 v → (j < 16)%nat → (i < 31)%nat → app_config_info m !! j = Some a → length (arm_volume a) = 31%nat →
  goes read_arm [arm_line_at2 n app_path j "]\arm_volume\arm_volume[" i ("]=" +:+ "0x") v] m (at_ ArmVolume (Z.of_nat i))
    (put_app j (AppConfig (eq_switch a) (agc_input_gain a) (valid_volume_level_count a) (<[i := v]> (arm_volume a))
                  (app_reserve a)) m) (at_ ArmVolume (next 31 (Z.of_nat i))).
Proof.
  app_array v j i ArmVolume "x". assert (Hn' : read_number 16 0 (hex v) = v) by (apply hex_ok; lia).
  assert (Hh : hex_word (hex v)) by (apply hex_ok; lia). pose proof (hex_word_item v Hr) as Hw.
  remember (hex v) as h eqn:E; clear E. dec_var j d Hd. dec_var i b Hb.
  app_line j d Hd (lit "\arm_volume\arm_volume[" ++ W Digit b :: lit "]=" ++ value_items h).
  match goal with |- context [volume_value (fill ?sk)] =>
    destruct (volume_value_sound sk h) as (x & -> & Hx); [items_ok|done|vm_compute; reflexivity|] end.
  cbn [mbind option_bind]. rewrite Hx, Hn'. erewrite change_at_ok; [reflexivity|exact Ha|].
  by rewrite (set_at_ok _ _ i) by (done || lia).
Qed.
End app_lines.
