(* ===== verification/ParaEq.v ===== *)
(** * The equaliser lines of the parameter text, and the lines of a mode

    The counterpart of the [audio_arm] lines of ParaRound.v for the equaliser, then the lines of a whole mode
    from those of its arrays. *)

From stdpp Require Import list strings functions.
From S2P Require Import Prelude CArith AtTok EqSet EqImage EqPara EqFile ParaText ParaMatch ParaRound.

Open Scope Z_scope.

(** ** Values *)

Lemma low16_range v : 0 <= low16 v < 2 ^ 16.
Proof. unfold low16. rewrite (Z.land_ones _ 16) by lia. apply Z.mod_pos_bound. lia. Qed.
Lemma low16_u16 v : is_u16 v → low16 v = v.
Proof. unfold is_u16, low16, u32. intros H. rewrite (Z.land_ones _ 16) by lia. rewrite (Z.mod_small v), Z.mod_small; lia. Qed.
Lemma i16_low16 v : is_i16 v → i16 (low16 v) = v.
Proof.
  unfold is_i16, low16, u32, i16. intros H. rewrite (Z.land_ones _ 16), Z.mod_mod_divide by (lia || by exists (2 ^ 16)).
  Z.to_euclidean_division_equations; lia.
Qed.
Lemma i16_i16 v : i16 (i16 v) = i16 v.
Proof. apply i16_id, i16_range. Qed.

(** What is read of the [q] that is written with all its bits: a negative one exceeds [LONG_MAX]. *)
Definition reread_q (q : Z) : Z := if q <? 0 then -1 else q.

Lemma long_q q : is_i16 q → i16 (long_value (hex (u32 q))) = reread_q q.
Proof.
  intros H. unfold long_value, reread_q. destruct (hex_ok (u32 q)) as [_ E]; [apply Z.mod_pos_bound; lia|]. rewrite E.
  unfold is_i16 in H. unfold u32. destruct (Z.ltb_spec q 0).
  - replace (q mod 2 ^ 32) with (q + 2 ^ 32) by (rewrite <- (Z.mod_add q 1), Z.mod_small; lia).
    rewrite Z.min_l by (unfold LONG_MAX; lia). done.
  - rewrite Z.mod_small by lia. rewrite Z.min_r by (unfold LONG_MAX; lia). by apply i16_id.
Qed.

(** ** The indices *)

Lemma small_dec i : (i < 9)%nat → dec (S i) = [0x31 + Z.of_nat i].
Proof. intros H. do 9 (destruct i as [|i]; [done|]). lia. Qed.

Lemma scan_small accept i sk data :
  (i < 9)%nat → (∀ c, is_digit_1_9 c = true → accept c = true) → accept 0x5c = false →
  scan_number accept 0x5c (fill (W Digit (dec (S i)) :: C 0x5c :: sk)) data = Some (dec (S i)).
Proof.
  intros H Ha Hs. rewrite small_dec by done. unfold scan_number. cbn [fill app span]. rewrite Ha, Hs; [reflexivity|].
  unfold is_digit_1_9. repeat bcase; try done; lia.
Qed.

Definition put_mode (j : nat) (m : EQ_MODE_PARA_T) (e : AUDIO_ENHA_EQ_STRUCT_T) : AUDIO_ENHA_EQ_STRUCT_T :=
  set_modes (<[j := m]> (eq_modes e)) e.
Definition put_band (i : nat) (b : EQ_BAND_INPUT_PARA_T) (m : EQ_MODE_PARA_T) : EQ_MODE_PARA_T :=
  Mode (agc_in_gain m) (band_control m) (<[i := b]> (eq_band m)).

Lemma put_mode_twice j a b e : put_mode j b (put_mode j a e) = put_mode j b e.
Proof. unfold put_mode, set_modes. cbn. by rewrite list_insert_insert_eq. Qed.
Lemma put_mode_lookup j a e : (j < length (eq_modes e))%nat → eq_modes (put_mode j a e) !! j = Some a.
Proof. intros H. cbn. by apply list_lookup_insert_eq. Qed.

Lemma has_after a b p : has b p = true → has (a ++ b) p = true.
Proof.
  unfold has. intros H. induction a as [|c a IH]; [done|]. cbn [app strstr].
  by destruct (starts (chars_of p) (c :: a ++ b)).
Qed.

(** A line that leaves the indices alone. *)
Lemma goes_one {M} (f : bytes → M * scratch → option (M * scratch)) line m m' k :
  (∀ data ix, ∃ data', f (line ++ [10]) (m, (data, ix)) = Some (m', (data', ix))) → goes f [line] m k m' k.
Proof. intros H data ix Hk. destruct (H data ix) as [d E]. exists d, ix. split; [|done].
  exact (f_equal (λ o, s ← o; Some s) E). Qed.

(** ** The branches of [read_eq] *)

Section branches.
Variables (line : bytes) (e : AUDIO_ENHA_EQ_STRUCT_T) (data : bytes) (ix : indices).

Lemma read_control :
  has line "eq_control" = true →
  read_eq line (e, (data, ix))
  = v ← nv_value true line; Some (EqStruct (para_name e) (u16 v) (eq_modes e) (externdArray e), (data, ix)).
Proof. intros H. unfold read_eq. by rewrite H. Qed.

Lemma read_array :
  has line "eq_control" = false → strstr line (chars_of "eq_mode_") = None → has line "extendArray" = true →
  read_eq line (e, (data, ix))
  = v ← nv_value true line; l ← set_at (externdArray e) (ix ExtendArray) (i16 v);
    Some (EqStruct (para_name e) (eq_control e) (eq_modes e) l, (data, bump ExtendArray 59 ix)).
Proof. intros H1 H2 H3. unfold read_eq, read_extend. by rewrite H1, H2, H3. Qed.

Context (t data' : bytes) (j : Z).
Hypothesis Hc : has line "eq_control" = false.
Hypothesis Ht : strstr line (chars_of "eq_mode_") = Some t.
Hypothesis Hs : scan_number is_digit_1_9 0x5c (drop 8 t) data = Some data'.
Hypothesis Hj : atoi data' = j.

Lemma read_agc :
  has t "agc_in_gain" = true →
  read_eq line (e, (data, ix))
  = v ← nv_value false line;
    l ← change_at (λ m, Some (Mode (i16 v) (band_control m) (eq_band m))) (j - 1) (eq_modes e);
    Some (set_modes l e, (data', ix)).
Proof. intros H. unfold read_eq. rewrite Hc, Ht, Hs. cbn [mbind option_bind]. by rewrite Hj, H. Qed.

Lemma read_band_control :
  has t "agc_in_gain" = false → has t "band_control" = true →
  read_eq line (e, (data, ix))
  = v ← nv_value false line;
    l ← change_at (λ m, Some (Mode (agc_in_gain m) (i16 v) (eq_band m))) (j - 1) (eq_modes e);
    Some (set_modes l e, (data', ix)).
Proof. intros H H'. unfold read_eq. rewrite Hc, Ht, Hs. cbn [mbind option_bind]. by rewrite Hj, H, H'. Qed.

Lemma read_in_band b data2 k :
  has t "agc_in_gain" = false → has t "band_control" = false → strstr t (chars_of "eq_band_") = Some b →
  scan_number is_digit 0x5c (drop 8 b) data' = Some data2 → i16 (atoi data2) = k →
  read_eq line (e, (data, ix)) = read_band line b j k e (data2, ix).
Proof.
  intros H H' Hb S K. unfold read_eq. rewrite Hc, Ht, Hs. cbn [mbind option_bind]. rewrite Hj, H, H', Hb, S.
  cbn [mbind option_bind]. by rewrite K.
Qed.
End branches.

Section eq_lines.
Variable n : bytes.
Hypothesis Hn : item_ok (W Alnum n).

Ltac find :=
  lazymatch goal with
  | |- has _ _ = _ => apply has_sound
  | |- strstr _ _ = None => apply strstr_absent
  | |- strstr _ _ = Some _ => apply strstr_found
  end; [items_ok | vm_compute; reflexivity].

Lemma read_eq_control x e data ix :
  0 <= x < 2 ^ 16 →
  read_eq (fill (eq_items n (lit "\eq_control=" ++ value_items (hex x)))) (e, (data, ix))
  = Some (EqStruct (para_name e) (u16 (i16 x)) (eq_modes e) (externdArray e), (data, ix)).
Proof. intros Hr. hex_var x h Hl. rewrite read_control by find. by value_is h Hl. Qed.

Lemma goes_eq_control v e k :
  is_u16 v → goes read_eq [eq_line (chars_of "EQ_" ++ n) ("\eq_control=" +:+ "0x") (low16 v)] e k
    (EqStruct (para_name e) v (eq_modes e) (externdArray e)) k.
Proof.
  intros Hv. apply goes_one. intros data ix. exists data. rewrite eq_line_items, read_eq_control by apply low16_range.
  by rewrite low16_u16, u16_i16.
Qed.

Lemma read_extend_line x j e data ix :
  0 <= x < 2 ^ 16 → (j < 59)%nat → length (externdArray e) = 59%nat → (∀ c, ix c = at_ ExtendArray (Z.of_nat j) c) →
  read_eq (fill (eq_items n (lit "\extendArray\extendArray[" ++ W Digit (dec j) :: lit "]=" ++ value_items (hex x))))
    (e, (data, ix))
  = Some (EqStruct (para_name e) (eq_control e) (eq_modes e) (<[j := i16 x]> (externdArray e)), (data, bump ExtendArray 59 ix)).
Proof.
  intros Hr Hj Hlen Hk. hex_var x h Hl. dec_var j d Hd. rewrite read_array.
  - value_is h Hl. rewrite i16_i16. by rewrite (set_at_ok _ _ j) by (done || lia).
  - find.
  - find.
  - unfold eq_items. rewrite fill_app. apply has_after. cbn [fill]. apply has_after. find.
Qed.

Lemma goes_extend v j e :
  is_i16 v → (j < 59)%nat → length (externdArray e) = 59%nat →
  goes read_eq [eq_line_at (chars_of "EQ_" ++ n) "\extendArray\extendArray[" j ("]=" +:+ "0x") (low16 v)] e
    (at_ ExtendArray (Z.of_nat j))
    (EqStruct (para_name e) (eq_control e) (eq_modes e) (<[j := v]> (externdArray e)))
    (at_ ExtendArray (next 59 (Z.of_nat j))).
Proof.
  intros Hv Hj Hlen data ix Hk. exists data, (bump ExtendArray 59 ix). split; [|by apply bump_at]. cbn [map run_lines].
  rewrite eq_line_at_items, (read_extend_line _ j) by (done || apply low16_range). by rewrite i16_low16.
Qed.

(** The line of a mode from "eq_mode_" on. *)
Definition mode_items (d : bytes) (rest : list item) : list item := lit "eq_mode_" ++ W Digit d :: C 0x5c :: rest.

Lemma mode_number j rest data :
  (j < 6)%nat → scan_number is_digit_1_9 0x5c (drop 8 (fill (mode_items (dec (S j)) rest))) data = Some (dec (S j)).
Proof.
  intros Hj. unfold mode_items. change 8%nat with (length (chars_of "eq_mode_")). rewrite drop_lit.
  apply scan_small; try done. lia.
Qed.

Lemma atoi_index j : (j < 9)%nat → atoi (dec (S j)) = Z.of_nat (S j).
Proof. intros Hj. apply dec_ok. lia. Qed.
Lemma index_pred j : Z.of_nat (S j) - 1 = Z.of_nat j.
Proof. lia. Qed.

(** Makes a word of the index [dec (S j)] of a mode. *)
Ltac mode_var j d Hs Ha :=
  let Hi := fresh "Hi" in let E := fresh "E" in
  pose proof (dec_item (S j) ltac:(lia)) as Hi; pose proof (λ rest data, mode_number j rest data ltac:(assumption)) as Hs;
  pose proof (atoi_index j ltac:(lia)) as Ha; remember (dec (S j)) as d eqn:E; clear E.

Lemma read_agc_line x j m e data ix :
  0 <= x < 2 ^ 16 → (j < 6)%nat → eq_modes e !! j = Some m →
  read_eq (fill (eq_items n (lit "\eq_mode_" ++ W Digit (dec (S j)) :: lit "\agc_in_gain=" ++ value_items (hex x))))
    (e, (data, ix)) = Some (put_mode j (Mode (i16 x) (band_control m) (eq_band m)) e, (dec (S j), ix)).
Proof.
  intros Hr Hj Hm. hex_var x h Hl. mode_var j d Hs Ha.
  rewrite (read_agc _ _ _ _ (fill (mode_items d (lit "agc_in_gain=" ++ value_items h))) d (Z.of_nat (S j))).
  - value_is h Hl. rewrite index_pred. by erewrite change_at_ok by done.
  - find.
  - find.
  - apply Hs.
  - exact Ha.
  - unfold mode_items. find.
Qed.

Lemma read_band_control_line x j m e data ix :
  0 <= x < 2 ^ 16 → (j < 6)%nat → eq_modes e !! j = Some m →
  read_eq (fill (eq_items n (lit "\eq_mode_" ++ W Digit (dec (S j)) :: lit "\band_control=" ++ value_items (hex x))))
    (e, (data, ix)) = Some (put_mode j (Mode (agc_in_gain m) (i16 x) (eq_band m)) e, (dec (S j), ix)).
Proof.
  intros Hr Hj Hm. hex_var x h Hl. mode_var j d Hs Ha.
  rewrite (read_band_control _ _ _ _ (fill (mode_items d (lit "band_control=" ++ value_items h))) d (Z.of_nat (S j))).
  - value_is h Hl. rewrite index_pred. by erewrite change_at_ok by done.
  - find.
  - find.
  - apply Hs.
  - exact Ha.
  - unfold mode_items. find.
  - unfold mode_items. find.
Qed.

Lemma goes_agc_in_gain v j m e k :
  is_i16 v → (j < 6)%nat → eq_modes e !! j = Some m →
  goes read_eq [eq_line_at (chars_of "EQ_" ++ n) "\eq_mode_" (S j) ("\agc_in_gain=" +:+ "0x") (low16 v)] e k
    (put_mode j (Mode v (band_control m) (eq_band m)) e) k.
Proof.
  intros Hv Hj Hm. apply goes_one. intros data ix. exists (dec (S j)).
  rewrite eq_line_at_items, (read_agc_line _ _ m) by (done || apply low16_range). by rewrite i16_low16.
Qed.

Lemma goes_band_control v j m e k :
  is_i16 v → (j < 6)%nat → eq_modes e !! j = Some m →
  goes read_eq [eq_line_at (chars_of "EQ_" ++ n) "\eq_mode_" (S j) ("\band_control=" +:+ "0x") (low16 v)] e k
    (put_mode j (Mode (agc_in_gain m) v (eq_band m)) e) k.
Proof.
  intros Hv Hj Hm. apply goes_one. intros data ix. exists (dec (S j)).
  rewrite eq_line_at_items, (read_band_control_line _ _ m) by (done || apply low16_range). by rewrite i16_low16.
Qed.

(** ** The lines of a band *)

(** The line of a band from "eq_band_" on. *)
Definition band_items (d : bytes) (rest : list item) : list item := lit "eq_band_" ++ W Digit d :: C 0x5c :: rest.

Lemma band_index i rest data :
  (i < 8)%nat →
  scan_number is_digit 0x5c (drop 8 (fill (band_items (dec (S i)) rest))) data = Some (dec (S i))
  ∧ i16 (atoi (dec (S i))) = Z.of_nat (S i)
  ∧ drop 9 (fill (band_items (dec (S i)) rest)) = fill (C 0x5c :: rest)
  ∧ (9 <= length (fill (band_items (dec (S i)) rest)))%nat.
Proof.
  intros Hi. unfold band_items. split_and!.
  - change 8%nat with (length (chars_of "eq_band_")). rewrite drop_lit. apply scan_small; [lia| |done].
    intros c. unfold is_digit, is_digit_1_9. repeat bcase; try done; lia.
  - rewrite atoi_index by lia. apply i16_id. unfold is_i16. lia.
  - rewrite small_dec by lia. reflexivity.
  - rewrite small_dec by lia. cbn. lia.
Qed.

Definition store_band (line : bytes) (j k : Z) (e : AUDIO_ENHA_EQ_STRUCT_T) (sc : scratch)
    (f : Z → EQ_BAND_INPUT_PARA_T → EQ_BAND_INPUT_PARA_T) : option (AUDIO_ENHA_EQ_STRUCT_T * scratch) :=
  v ← nv_value true line;
  l ← change_at (λ m, bs ← change_at (λ x, Some (f (i16 v) x)) (k - 1) (eq_band m);
                      Some (Mode (agc_in_gain m) (band_control m) bs)) (j - 1) (eq_modes e);
  Some (set_modes l e, sc).

Lemma store_band_ok line v i j m b e sc f :
  nv_value true line = Some v → eq_modes e !! j = Some m → eq_band m !! i = Some b →
  store_band line (Z.of_nat (S j)) (Z.of_nat (S i)) e sc f = Some (put_mode j (put_band i (f (i16 v) b) m) e, sc).
Proof.
  intros Hv Hm Hb. unfold store_band. rewrite Hv. cbn [mbind option_bind]. rewrite !index_pred.
  erewrite change_at_ok; [reflexivity|exact Hm|]. by erewrite change_at_ok by done.
Qed.

Definition set_fo (v : Z) (b : EQ_BAND_INPUT_PARA_T) := Band v (band_q b) (band_boostdB b) (band_gaindB b).
Definition set_q (v : Z) (b : EQ_BAND_INPUT_PARA_T) := Band (band_fo b) v (band_boostdB b) (band_gaindB b).
Definition set_boostdB (v : Z) (b : EQ_BAND_INPUT_PARA_T) := Band (band_fo b) (band_q b) v (band_gaindB b).
Definition set_gaindB (v : Z) (b : EQ_BAND_INPUT_PARA_T) := Band (band_fo b) (band_q b) (band_boostdB b) v.

(** What [read_band] looks for, field by field. *)
Definition field_found (b : bytes) (f : Z → EQ_BAND_INPUT_PARA_T → EQ_BAND_INPUT_PARA_T) : Prop :=
  ∀ line j k e sc, read_band line b j k e sc = store_band line j k e sc f.

Section fields.
Variable b : bytes.
Hypothesis Hb : (9 <= length b)%nat.
Let Hlt : (Z.of_nat (length b) <? 9) = false.
Proof. apply Z.ltb_ge. lia. Qed.

Lemma fo_found : has b "fo" = true → field_found b set_fo.
Proof. intros H line j k e sc. unfold read_band. by rewrite H. Qed.
Lemma q_found : has b "fo" = false → has (drop 9 b) "q" = true → field_found b set_q.
Proof. intros H1 H2 line j k e sc. unfold read_band. by rewrite H1, Hlt, H2. Qed.
Lemma boostdB_found :
  has b "fo" = false → has (drop 9 b) "q" = false → has b "boostdB" = true → field_found b set_boostdB.
Proof. intros H1 H2 H3 line j k e sc. unfold read_band. by rewrite H1, Hlt, H2, H3. Qed.
Lemma gaindB_found :
  has b "fo" = false → has (drop 9 b) "q" = false → has b "boostdB" = false → has b "gaindB" = true →
  field_found b set_gaindB.
Proof. intros H1 H2 H3 H4 line j k e sc. unfold read_band. by rewrite H1, Hlt, H2, H3, H4. Qed.
End fields.

Lemma fields_found i h :
  (i < 8)%nat → item_ok (W Hex h) →
  let b name := fill (band_items (dec (S i)) (lit name ++ value_items h)) in
  field_found (b "fo=") set_fo ∧ field_found (b "q=") set_q ∧ field_found (b "boostdB=") set_boostdB
  ∧ field_found (b "gaindB=") set_gaindB.
Proof.
  intros Hi Hh b. pose proof (dec_item (S i) ltac:(lia)) as Hd.
  assert (D : ∀ name, drop 9 (b name) = fill (C 0x5c :: lit name ++ value_items h) ∧ (9 <= length (b name))%nat).
  { intros name. by apply (band_index i (lit name ++ value_items h) []). }
  revert D. unfold b, band_items. generalize dependent (dec (S i)). intros d _ Hd D.
  split_and!.
  - apply fo_found. find.
  - apply q_found; [apply D|find|]. rewrite (proj1 (D _)). find.
  - apply boostdB_found; [apply D|find| |find]. rewrite (proj1 (D _)). find.
  - apply gaindB_found; [apply D|find| |find|find]. rewrite (proj1 (D _)). find.
Qed.

(** The line of a field of the band [i] of the mode [j]. *)
Lemma read_field name f h i j m b e data ix :
  (i < 8)%nat → (j < 6)%nat → hex_word h → item_ok (W Hex h) → eq_modes e !! j = Some m → eq_band m !! i = Some b →
  field_found (fill (band_items (dec (S i)) (lit name ++ value_items h))) f →
  name ∈ ["fo="; "q="; "boostdB="; "gaindB="] →
  read_eq (fill (eq_items n (lit "\eq_mode_" ++ W Digit (dec (S j)) :: lit "\eq_band_" ++ W Digit (dec (S i))
                             :: lit ("\" +:+ name) ++ value_items h))) (e, (data, ix))
  = Some (put_mode j (put_band i (f (i16 (long_value h)) b) m) e, (dec (S i), ix)).
Proof.
  intros Hi Hj Hh Hw Hm Hb Hf Hn'.
  destruct (band_index i (lit name ++ value_items h) (dec (S j)) Hi) as (S2 & A2 & _).
  revert Hf S2 A2. pose proof (dec_item (S i) ltac:(lia)) as Hi2. generalize dependent (dec (S i)). intros d2 Hd2 Hf S2 A2.
  mode_var j d Hs Ha.
  rewrite (read_in_band _ _ _ _
             (fill (mode_items d (lit "eq_band_" ++ W Digit d2 :: C 0x5c :: lit name ++ value_items h))) d (Z.of_nat (S j)))
    with (b := fill (band_items d2 (lit name ++ value_items h))) (data2 := d2) (k := Z.of_nat (S i));
    try done; try apply Hs;
    repeat (apply list.elem_of_cons in Hn' as [->|Hn']); try (by apply not_elem_of_nil in Hn'); unfold mode_items; try find.
  all: rewrite Hf, (store_band_ok _ (i16 (long_value h)) i j m b), i16_i16; try done;
    apply (nv_value_sound true); [items_ok|done|vm_compute; reflexivity].
Qed.

(** [e] with the band [i] of its mode [j] replaced. *)
Definition with_band (j i : nat) (e : AUDIO_ENHA_EQ_STRUCT_T) (m : EQ_MODE_PARA_T) (b : EQ_BAND_INPUT_PARA_T)
    : AUDIO_ENHA_EQ_STRUCT_T := put_mode j (put_band i b m) e.

Lemma goes_field field name (f : Z → EQ_BAND_INPUT_PARA_T → EQ_BAND_INPUT_PARA_T) v y i j m b e k :
  (i < 8)%nat → (j < 6)%nat → (j < length (eq_modes e))%nat → (i < length (eq_band m))%nat → 0 <= v < 2 ^ 32 →
  field_found (fill (band_items (dec (S i)) (lit name ++ value_items (hex v)))) f →
  name ∈ ["fo="; "q="; "boostdB="; "gaindB="] → field = "\" +:+ name +:+ "0x" → i16 (long_value (hex v)) = y →
  goes read_eq [eq_line_at2 (chars_of "EQ_" ++ n) "\eq_mode_" (S j) "\eq_band_" (S i) field v] (with_band j i e m b) k
    (with_band j i e m (f y b)) k.
Proof.
  intros Hi Hj Lj Li Hv Hf Hn' -> <-. apply goes_one. intros data ix. exists (dec (S i)).
  change ("\" +:+ name +:+ "0x") with (("\" +:+ name) +:+ "0x"). rewrite eq_line_at2_items.
  rewrite (read_field name f (hex v) i j (put_band i b m) b); try done; [|by apply hex_ok|by apply hex_word_item| |].
  - unfold with_band. rewrite put_mode_twice. unfold put_band. cbn. by rewrite list_insert_insert_eq.
  - by apply put_mode_lookup.
  - by apply list_lookup_insert_eq.
Qed.

(** All the lines of a band. *)
Definition reread_band (b : EQ_BAND_INPUT_PARA_T) : EQ_BAND_INPUT_PARA_T :=
  Band (band_fo b) (reread_q (band_q b)) (band_boostdB b) (band_gaindB b).

Lemma long_low16 v : is_i16 v → i16 (long_value (hex (low16 v))) = v.
Proof. intros H. pose proof (low16_range v). rewrite long_hex by lia. by apply i16_low16. Qed.

Lemma goes_band b i j m e k b0 :
  i16_band b → (i < 8)%nat → (j < 6)%nat → eq_modes e !! j = Some m → eq_band m !! i = Some b0 →
  goes read_eq (band_lines (chars_of "EQ_" ++ n) j i b) e k (put_mode j (put_band i (reread_band b) m) e) k.
Proof.
  intros (H1 & H2 & H3 & H4) Hi Hj Hm Hb.
  pose proof (lookup_lt_Some _ _ _ Hm) as Lm. pose proof (lookup_lt_Some _ _ _ Hb) as Lb.
  assert (E : e = with_band j i e m b0).
  { destruct e, m. unfold with_band, put_mode, put_band, set_modes. cbn in *.
    rewrite (list_insert_id _ i) by done. by rewrite list_insert_id. }
  rewrite E at 1. clear E.
  assert (R : ∀ v, 0 <= low16 v < 2 ^ 32) by (intros v; pose proof (low16_range v); lia).
  assert (R' : ∀ v, 0 <= u32 v < 2 ^ 32) by (intros v; apply Z.mod_pos_bound; lia).
  assert (F : ∀ v, 0 <= v < 2 ^ 32 → let b name := fill (band_items (dec (S i)) (lit name ++ value_items (hex v))) in
    field_found (b "fo=") set_fo ∧ field_found (b "q=") set_q ∧ field_found (b "boostdB=") set_boostdB
    ∧ field_found (b "gaindB=") set_gaindB) by (intros v Hv; apply fields_found; [done|by apply hex_word_item]).
  unfold band_lines. eapply goes_cons; [|eapply goes_cons; [|eapply goes_cons]].
  - apply (goes_field _ "fo=" set_fo _ (band_fo b)); try done; [by apply F|repeat constructor|by apply long_low16].
  - apply (goes_field _ "q=" set_q _ (reread_q (band_q b))); try done; [by apply F|repeat constructor|by apply long_q].
  - apply (goes_field _ "boostdB=" set_boostdB _ (band_boostdB b)); try done; [by apply F|repeat constructor|by apply long_low16].
  - apply (goes_field _ "gaindB=" set_gaindB _ (band_gaindB b)); try done; [by apply F|repeat constructor|by apply long_low16].
Qed.
End eq_lines.
