(* ===== verification/ParaMode.v ===== *)
(** * The lines of a mode are read back

    The lines of a whole mode from those of its arrays: whatever the structure in memory held, its fields become those
    written, except for a negative [q]. *)

From stdpp Require Import list strings functions.
From S2P Require Import Prelude CArith AtTok EqSet EqImage EqPara EqFile ParaText ParaMatch ParaRound ParaEq.

Open Scope Z_scope.

(** ** The structures *)

(** The lengths of the arrays, which the types of the code fix. *)
Definition eq_shape (e : AUDIO_ENHA_EQ_STRUCT_T) : Prop :=
  length (eq_modes e) = 6%nat ∧ Forall (λ m, length (eq_band m) = 8%nat) (eq_modes e) ∧ length (externdArray e) = 59%nat.
Definition app_shape (a : AUDIO_NV_ARM_APP_CONFIG_INFO_T) : Prop :=
  length (agc_input_gain a) = 8%nat ∧ length (arm_volume a) = 31%nat ∧ length (app_reserve a) = 9%nat.
Definition arm_shape (m : AUDIO_NV_ARM_MODE_STRUCT_T) : Prop :=
  length (dev_set (dev_path_set m)) = 8%nat ∧ length (aud_proc_exp_control m) = 2%nat
  ∧ length (app_config_info m) = 16%nat ∧ Forall app_shape (app_config_info m) ∧ length (reserve m) = 64%nat.

(** The ranges of the fields. *)
Definition mode_fields (m : EQ_MODE_PARA_T) : Prop :=
  is_i16 (agc_in_gain m) ∧ is_i16 (band_control m) ∧ Forall i16_band (eq_band m).
Definition eq_fields (e : AUDIO_ENHA_EQ_STRUCT_T) : Prop :=
  is_u16 (eq_control e) ∧ Forall mode_fields (eq_modes e) ∧ Forall is_i16 (externdArray e).
Definition app_fields (a : AUDIO_NV_ARM_APP_CONFIG_INFO_T) : Prop :=
  is_u16 (eq_switch a) ∧ Forall is_u16 (agc_input_gain a) ∧ is_u16 (valid_volume_level_count a)
  ∧ Forall is_u32 (arm_volume a) ∧ Forall is_u16 (app_reserve a).
Definition arm_fields (m : AUDIO_NV_ARM_MODE_STRUCT_T) : Prop :=
  (is_u16 (valid_dev_set_count (dev_path_set m)) ∧ is_u16 (dev_reserve (dev_path_set m))
   ∧ Forall is_u16 (dev_set (dev_path_set m)))
  ∧ (is_u16 (valid_app_set_count m) ∧ is_u16 (valid_agc_input_gain_count m) ∧ Forall is_u16 (aud_proc_exp_control m))
  ∧ Forall app_fields (app_config_info m)
  ∧ is_u16 (midi_opt m) ∧ is_u16 (aud_dev m) ∧ Forall is_u16 (reserve m).

(** What comes back of the equaliser. *)
Definition reread_mode (m : EQ_MODE_PARA_T) : EQ_MODE_PARA_T :=
  Mode (agc_in_gain m) (band_control m) (reread_band <$> eq_band m).
Definition reread_eq (name : list Z) (e : AUDIO_ENHA_EQ_STRUCT_T) : AUDIO_ENHA_EQ_STRUCT_T :=
  EqStruct name (eq_control e) (reread_mode <$> eq_modes e) (externdArray e).

(** ** The equaliser *)

Section eq.
Variable n : bytes.
Hypothesis Hn : item_ok (W Alnum n).

Lemma goes_mode m j e m0 k :
  mode_fields m → length (eq_band m) = 8%nat → (j < 6)%nat → eq_modes e !! j = Some m0 → length (eq_band m0) = 8%nat →
  goes read_eq (eq_mode_lines (chars_of "EQ_" ++ n) j m) e k (put_mode j (reread_mode m) e) k.
Proof.
  intros (H1 & H2 & H3) Lm Hj Hm Lm0. pose proof (lookup_lt_Some _ _ _ Hm) as Lj. unfold eq_mode_lines.
  eapply goes_app; [eapply goes_cons|].
  - by apply (goes_agc_in_gain n Hn (agc_in_gain m) j m0).
  - apply (goes_band_control n Hn (band_control m) j (Mode (agc_in_gain m) (band_control m0) (eq_band m0))); try done.
    by apply put_mode_lookup.
  - rewrite put_mode_twice. cbn [agc_in_gain eq_band].
    apply (goes_loop read_eq (band_lines _ j) (λ bs, put_mode j (Mode (agc_in_gain m) (band_control m) bs) e) (λ _, k)
             reread_band); [congruence|].
    intros i x b Hx Hb _. pose proof (lookup_lt_Some _ _ _ Hx) as Li.
    destruct (lookup_lt_is_Some_2 b i ltac:(lia)) as [b0 Hb0]. eapply list.Forall_lookup in H3; [|exact Hx].
    replace (put_mode j (Mode (agc_in_gain m) (band_control m) (<[i:=reread_band x]> b)) e)
      with (put_mode j (put_band i (reread_band x) (Mode (agc_in_gain m) (band_control m) b))
              (put_mode j (Mode (agc_in_gain m) (band_control m) b) e)) by apply put_mode_twice.
    eapply goes_band; [done|done|lia|done|by apply put_mode_lookup|exact Hb0].
Qed.

Lemma goes_eq e e0 :
  eq_fields e → eq_shape e → eq_shape e0 →
  goes read_eq (eq_lines (chars_of "EQ_" ++ n) e) e0 zero (reread_eq (para_name e0) e) zero.
Proof.
  intros (H1 & H2 & H3) (L1 & L2 & L3) (M1 & M2 & M3). unfold eq_lines.
  eapply goes_app; [by apply goes_eq_control|]. eapply goes_app.
  - apply (goes_loop read_eq (eq_mode_lines _)
             (λ ms, EqStruct (para_name e0) (eq_control e) ms (externdArray e0)) (λ _, zero) reread_mode
             _ (eq_modes e0)); [congruence|].
    intros j x b Hx Hb Hj. pose proof (lookup_lt_Some _ _ _ Hx) as Lj.
    destruct (lookup_lt_is_Some_2 (eq_modes e0) j ltac:(lia)) as [m0 Hm0].
    eapply list.Forall_lookup in H2; [|exact Hx]. eapply list.Forall_lookup in L2; [|exact Hx].
    eapply list.Forall_lookup in M2; [|exact Hm0].
    apply (goes_mode x j (EqStruct (para_name e0) (eq_control e) b (externdArray e0)) m0); try done; [lia|].
    cbn. congruence.
  - apply (goes_values read_eq _ (λ l, EqStruct (para_name e0) (eq_control e) (reread_mode <$> eq_modes e) l) ExtendArray 59);
      try done; [lia|].
    intros j x b Hx Hj Hb. eapply list.Forall_lookup in H3; [|exact Hx].
    exact (goes_extend n Hn x j (EqStruct (para_name e0) (eq_control e) (reread_mode <$> eq_modes e) b) H3 Hj Hb).
Qed.
End eq.

(** ** The [audio_arm] group *)

Section arm.
Variable n : bytes.
Hypothesis Hn : item_ok (W Alnum n).

Lemma goes_app_lines j a a0 m :
  app_fields a → app_shape a → (j < 16)%nat → app_config_info m !! j = Some a0 → app_shape a0 →
  goes read_arm (app_lines n j a) m zero (put_app j a m) zero.
Proof.
  intros (F1 & F2 & F3 & F4 & F5) (L1 & L2 & L3) Hj Ha (M1 & M2 & M3). pose proof (lookup_lt_Some _ _ _ Ha) as Lj.
  assert (P : ∀ x, app_config_info (put_app j x m) !! j = Some x) by (intros x; by apply put_app_lookup).
  unfold app_lines. eapply goes_app; [by eapply (goes_eq_switch n Hn (eq_switch a) j a0)|].
  eapply goes_app.
  { apply (goes_values read_arm _ (λ l, put_app j (AppConfig (eq_switch a) l (valid_volume_level_count a0) (arm_volume a0)
             (app_reserve a0)) m) AgcInputGain 8); try done; [lia|].
    intros i x b Hx Hi Hb. eapply list.Forall_lookup in F2; [|exact Hx].
    pose proof (goes_agc_gain n Hn x j i _ _ F2 Hj Hi (P (AppConfig (eq_switch a) b (valid_volume_level_count a0)
      (arm_volume a0) (app_reserve a0))) Hb) as G. by rewrite put_app_twice in G. }
  eapply goes_app.
  { pose proof (goes_valid_volume n Hn (valid_volume_level_count a) j _ _ zero F3 Hj (P (AppConfig (eq_switch a)
      (agc_input_gain a) (valid_volume_level_count a0) (arm_volume a0) (app_reserve a0)))) as G.
    rewrite put_app_twice in G. exact G. }
  eapply goes_app.
  { apply (goes_values read_arm _ (λ l, put_app j (AppConfig (eq_switch a) (agc_input_gain a) (valid_volume_level_count a) l
             (app_reserve a0)) m) ArmVolume 31); try done; [lia|].
    intros i x b Hx Hi Hb. eapply list.Forall_lookup in F4; [|exact Hx].
    pose proof (goes_arm_volume n Hn x j i _ _ F4 Hj Hi (P (AppConfig (eq_switch a) (agc_input_gain a)
      (valid_volume_level_count a) b (app_reserve a0))) Hb) as G. by rewrite put_app_twice in G. }
  replace (put_app j a m) with (put_app j (AppConfig (eq_switch a) (agc_input_gain a) (valid_volume_level_count a)
    (arm_volume a) (app_reserve a)) m) by (by destruct a).
  apply (goes_values read_arm _ (λ l, put_app j (AppConfig (eq_switch a) (agc_input_gain a) (valid_volume_level_count a)
           (arm_volume a) l) m) Reserve3 9); try done; [lia|].
  intros i x b Hx Hi Hb. eapply list.Forall_lookup in F5; [|exact Hx].
  pose proof (goes_app_reserve n Hn x j i _ _ F5 Hj Hi (P (AppConfig (eq_switch a) (agc_input_gain a)
    (valid_volume_level_count a) (arm_volume a) b)) Hb) as G. by rewrite put_app_twice in G.
Qed.

Lemma goes_dev d m :
  is_u16 (valid_dev_set_count d) → is_u16 (dev_reserve d) → Forall is_u16 (dev_set d) → length (dev_set d) = 8%nat →
  length (dev_set (dev_path_set m)) = 8%nat →
  goes read_arm (dev_lines n d) m zero (set_dev d m) zero.
Proof.
  intros F1 F2 F3 L M. unfold dev_lines. eapply goes_app.
  { eapply goes_cons; [by apply (goes_valid_dev n Hn)|by apply (goes_dev_reserve n Hn)]. }
  replace (set_dev d m) with (set_dev (DevicePath (valid_dev_set_count d) (dev_reserve d) (dev_set d)) m) by (by destruct d).
  apply (goes_values read_arm _ (λ l, set_dev (DevicePath (valid_dev_set_count d) (dev_reserve d) l) m) DevSet 8);
    try done; [lia|].
  intros j x b Hx Hj Hb. eapply list.Forall_lookup in F3; [|exact Hx].
  exact (goes_dev_set n Hn x j (set_dev (DevicePath (valid_dev_set_count d) (dev_reserve d) b) m) F3 Hj Hb).
Qed.

Lemma goes_apps l m :
  Forall app_fields l → Forall app_shape l → length l = 16%nat →
  Forall app_shape (app_config_info m) → length (app_config_info m) = 16%nat →
  goes read_arm (mjoin (imap (app_lines n) l)) m zero (set_apps l m) zero.
Proof.
  intros F L Ll M Lm. rewrite <- (list_fmap_id l) at 2.
  replace m with (set_apps (app_config_info m) m) at 1 by (by destruct m).
  apply (goes_loop read_arm (app_lines n) (λ l, set_apps l m) (λ _, zero) id); [congruence|].
  intros j x b Hx Hb Hj. pose proof (lookup_lt_Some _ _ _ Hx) as Lj.
  destruct (lookup_lt_is_Some_2 (app_config_info m) j ltac:(lia)) as [a0 Ha0].
  eapply list.Forall_lookup in F; [|exact Hx]. eapply list.Forall_lookup in L; [|exact Hx].
  eapply list.Forall_lookup in M; [|exact Ha0].
  apply (goes_app_lines j x a0 (set_apps b m) F L); [lia| |done]. cbn. congruence.
Qed.

Lemma goes_arm m m0 :
  arm_fields m → arm_shape m → arm_shape m0 → goes read_arm (arm_lines n m) m0 zero m zero.
Proof.
  intros ((F1 & F2 & F3) & (F4 & F5 & F6) & F7 & F8 & F9 & F10) (L1 & L2 & L3 & L4 & L5) (M1 & M2 & M3 & M4 & M5).
  unfold arm_lines. eapply goes_app; [by apply goes_dev|].
  eapply goes_app; [eapply goes_cons; [by apply (goes_valid_app n Hn)|by apply (goes_valid_agc n Hn)]|].
  eapply goes_app.
  { apply (goes_values read_arm _ (λ l, set_counts (valid_app_set_count m) (valid_agc_input_gain_count m) l
             (set_dev (dev_path_set m) m0)) AudProcExpControl 2); try done; [lia|].
    intros j x b Hx Hj Hb. eapply list.Forall_lookup in F6; [|exact Hx].
    exact (goes_aud_proc n Hn x j (set_counts (valid_app_set_count m) (valid_agc_input_gain_count m) b
             (set_dev (dev_path_set m) m0)) F6 Hj Hb). }
  eapply goes_app; [by apply goes_apps|].
  eapply goes_app; [eapply goes_cons; [by apply (goes_midi_opt n Hn)|by apply (goes_aud_dev n Hn)]|].
  set (m1 := ModeStruct (dev_path_set m) (valid_app_set_count m) (valid_agc_input_gain_count m) (aud_proc_exp_control m)
               (app_config_info m) (midi_opt m) (aud_dev m) (reserve m0)).
  enough (G : goes read_arm (imap (λ j, arm_line_at n "\AudioStructure\reserve\reserve[" j "]=0x") (reserve m))
                (set_rest (midi_opt m) (aud_dev m) (reserve m0) m1) zero
                (set_rest (midi_opt m) (aud_dev m) (reserve m) m1) zero) by (destruct m; exact G).
  apply (goes_values read_arm _ (λ l, set_rest (midi_opt m) (aud_dev m) l m1) Reserve1 64); try done; [lia|].
  intros j x b Hx Hj Hb. eapply list.Forall_lookup in F10; [|exact Hx].
  exact (goes_reserve n Hn x j (set_rest (midi_opt m) (aud_dev m) b m1) F10 Hj Hb).
Qed.
End arm.
