(* ===== verification/ParaForm.v ===== *)
(** * The lines of the parameter text and the table of modes

    What every line written has in common, which is what finding its mode needs: it starts with its group and the name,
    it fits the buffers, and a line of the equaliser never looks like one of the other group.  The table of modes,
    with the names that [nvstruct2stringfile] and [stringfile2nvstruct] take from it. *)

From stdpp Require Import list strings functions.
From S2P Require Import Prelude CArith AtTok EqSet EqImage EqPara EqFile ParaText ParaMatch ParaRound ParaEq ParaMode.

Open Scope Z_scope.

(** ** Strings in buffers *)

(** A string copied over the front of a buffer. *)
Definition put_str (s buf : bytes) : bytes := s ++ 0 :: drop (S (length s)) buf.

Lemma put_str_twice s buf : put_str s (put_str s buf) = put_str s buf.
Proof. unfold put_str. f_equal. f_equal. rewrite <- Nat.add_1_r, <- drop_drop, drop_app_length. done. Qed.

Lemma put_name_str s buf : (length s <= 15)%nat → put_name s buf = put_str s buf.
Proof. intros H. unfold put_name. cbv zeta. rewrite Nat.min_l by lia. by rewrite firstn_all. Qed.

Definition nonzero (s : bytes) : Prop := Forall (λ c, c ≠ 0) s.

Lemma cstr_put pre s buf : nonzero s → nonzero pre → cstr (put_str (pre ++ s) buf) (length pre) = Some s.
Proof. intros H _. unfold put_str. rewrite <- app_assoc. by apply cstr_at. Qed.

(** ** Names of modes *)

Definition name_ok (n : bytes) : Prop := item_ok (W Alnum n) ∧ (length n <= 12)%nat.

Lemma name_chars n : name_ok n → Forall (λ c, c ≠ 0 ∧ c ≠ 10 ∧ c ≠ 0x5c) n.
Proof.
  intros [[_ H] _]. eapply list.Forall_impl; [exact H|]. intros c. cbv beta. unfold in_cls. repeat bcase; try done; lia.
Qed.
Lemma name_nonzero n : name_ok n → nonzero n.
Proof. intros H. eapply list.Forall_impl; [by apply name_chars|]. intros c Hc. apply Hc. Qed.

Lemma scan_style_name p n rest buf :
  n ≠ [] → Forall (λ c, c ≠ 0 ∧ c ≠ 10 ∧ c ≠ 0x5c) n → (length n <= 15)%nat →
  scan_style p (p ++ n ++ 0x5c :: rest) buf = Some (Some (put_str n buf)).
Proof.
  intros Hn Hc Hl. unfold scan_style.
  assert (S : ∀ p s, starts p (p ++ s) = true).
  { clear. induction p as [|c p IH]; intros s; [done|]. cbn. by rewrite Z.eqb_refl, IH. }
  rewrite S, drop_app_length.
  assert (E : span not_backslash (n ++ 0x5c :: rest) = (n, 0x5c :: rest)).
  { clear -Hc. induction Hc as [|c n Hc _ IH]; [done|]. cbn [app span]. rewrite IH. unfold not_backslash.
    destruct (Z.eqb_spec c 0x5c); [lia|done]. }
  rewrite E. destruct n as [|c n]; [done|]. destruct (Z.ltb_spec (Z.of_nat (length (c :: n))) NAME_LEN_MAX) as [|L]; [done|].
  unfold NAME_LEN_MAX in L. lia.
Qed.

(** ** The table of modes *)

Definition label (m : audio_mode_item_t) : bytes := before_nul (mode_name m).

Definition table_ok (modes : list audio_mode_item_t) : Prop :=
  (∀ i m, modes !! i = Some m → item_index m = Z.of_nat i ∧ length (mode_name m) = 16%nat ∧ name_ok (label m))
  ∧ NoDup (map label modes).

Lemma before_nul_split s : (length (before_nul s) < length s)%nat → ∃ pad, s = before_nul s ++ 0 :: pad.
Proof.
  unfold before_nul. induction s as [|c s IH]; intros H; [cbn in H; lia|]. cbn [span] in *.
  destruct (Z.eqb_spec c 0) as [->|N]; cbn [negb] in *; [by exists s|].
  destruct (span _ s) as [a b] eqn:E. cbn in *. destruct IH as [pad Hp]; [lia|]. exists pad. by rewrite <- Hp.
Qed.

Lemma mode_name_split m : length (mode_name m) = 16%nat → name_ok (label m) → ∃ pad, mode_name m = label m ++ 0 :: pad.
Proof. intros H [_ L]. apply before_nul_split. fold (label m). lia. Qed.

Lemma mjoin_cons {A} (a : list A) l : mjoin (a :: l) = a ++ mjoin l.
Proof. done. Qed.

Section table.
Context (modes : list audio_mode_item_t) (Hmodes : table_ok modes).

Lemma concat_16 {A} (f : A → bytes) l i x :
  (∀ y, y ∈ l → length (f y) = 16%nat) → l !! i = Some x →
  ∃ pre post, mjoin (map f l) = pre ++ f x ++ post ∧ length pre = (16 * i)%nat.
Proof.
  intros H. revert i. induction l as [|y l IH]; intros i Hi; [done|]. destruct i as [|i].
  - injection Hi as ->. exists [], (mjoin (map f l)). done.
  - destruct (IH (λ y Hy, H y (list_elem_of_further _ _ _ Hy)) i Hi) as (pre & post & E & L).
    exists (f y ++ pre), post. cbn [map]. rewrite mjoin_cons, E, <- app_assoc, length_app, L.
    split; [done|]. rewrite (H y); [lia|left].
Qed.

Lemma in_table y : y ∈ modes → length (mode_name y) = 16%nat ∧ name_ok (label y).
Proof. intros Hy. apply list_elem_of_lookup_1 in Hy as [i Hi]. by destruct (proj1 Hmodes i y Hi) as (_ & H). Qed.

Lemma arm_name_at i m : modes !! i = Some m → cstr (arm_names modes) (16 * i) = Some (label m).
Proof.
  intros Hm. unfold arm_names. destruct (concat_16 mode_name modes i m) as (pre & post & -> & <-);
    [intros y Hy; by apply in_table|done|].
  destruct (proj1 Hmodes i m Hm) as (_ & L & N). destruct (mode_name_split m L N) as [pad E]. rewrite E, <- app_assoc.
  cbn [app]. by apply cstr_at, name_nonzero.
Qed.

Lemma eq_name_at i m : modes !! i = Some m → cstr (eq_names modes) (16 * i) = Some (chars_of "EQ_" ++ label m).
Proof.
  intros Hm. unfold eq_names.
  destruct (concat_16 (λ m, chars_of "EQ_" ++ take 13 (mode_name m)) modes i m) as (pre & post & -> & <-); [|done|].
  - intros y Hy. destruct (in_table y Hy) as [L _]. rewrite length_app, length_take, L. done.
  - destruct (proj1 Hmodes i m Hm) as (_ & L & N). destruct (mode_name_split m L N) as [pad E]. rewrite E.
    rewrite take_app_ge by (destruct N; lia). replace (13 - length (label m))%nat with (S (12 - length (label m)))
      by (destruct N; lia). cbn [take]. rewrite <- !app_assoc. cbn [app].
    rewrite (app_assoc (chars_of "EQ_") (label m)). apply cstr_at. apply Forall_app. split; [by repeat constructor|].
    by apply name_nonzero.
Qed.

Lemma label_cstr y : y ∈ modes → cstr (mode_name y) 0 = Some (label y).
Proof.
  intros Hy. destruct (in_table y Hy) as [L N]. destruct (mode_name_split y L N) as [pad E]. rewrite E at 1.
  by apply (cstr_at []), name_nonzero.
Qed.

Lemma find_mode_at i m old : modes !! i = Some m → find_mode (label m) modes old = Some (Z.of_nat i).
Proof.
  intros Hm. destruct (proj1 Hmodes i m Hm) as (Hi & _). destruct Hmodes as [_ Nd]. rewrite <- Hi.
  assert (C : ∀ y, y ∈ modes → cstr (mode_name y) 0 = Some (label y)) by apply label_cstr.
  apply list_elem_of_lookup_2 in Hm. clear Hi Hmodes. revert Hm Nd C. induction modes as [|y l IH]; intros Hm Nd C; [by apply not_elem_of_nil in Hm|].
  cbn [find_mode]. rewrite C by left. cbn [mbind option_bind]. cbn [map] in Nd. apply list.NoDup_cons in Nd as [Ny Nd].
  apply list.elem_of_cons in Hm as [<-|Hm]; [by rewrite bool_decide_eq_true_2|].
  rewrite bool_decide_eq_false_2; [apply IH; [done|done|]; intros z Hz; apply C; by right|].
  intros E. apply Ny. rewrite <- E. by apply (list_elem_of_fmap_2 label).
Qed.
End table.

(** ** The form of the lines *)

Definition plain (k : nat) (s : bytes) : Prop := Forall (λ c, c ≠ 0 ∧ c ≠ 10) s ∧ (length s <= k)%nat.

Lemma plain_app j k a b : plain j a → plain k b → plain (j + k) (a ++ b).
Proof. intros [A1 A2] [B1 B2]. split; [by apply Forall_app|rewrite length_app; lia]. Qed.
Lemma plain_dec i : Z.of_nat i < 2 ^ 31 → plain 32 (dec i).
Proof.
  intros H. destruct (dec_ok i H) as (_ & F & L & _). split; [|done]. eapply list.Forall_impl; [exact F|].
  intros c Hc. destruct (in_cls_digit Digit c) as (_ & H1 & H2); [by left|done|lia].
Qed.
Lemma plain_hex v : 0 <= v < 2 ^ 32 → plain 8 (hex v).
Proof.
  intros H. destruct (hex_ok v H) as [(_ & F & L) _]. split; [|done]. eapply list.Forall_impl; [exact F|].
  intros c Hc. destruct (in_cls_digit Hex c) as (_ & H1 & H2); [by right|done|lia].
Qed.
Lemma plain_name n : name_ok n → plain 12 n.
Proof. intros H. split; [|apply H]. eapply list.Forall_impl; [by apply name_chars|]. intros c Hc. cbv beta in *. lia. Qed.

(** A known string is plain: by evaluation. *)
Definition plainb (k : nat) (s : bytes) : bool :=
  forallb (λ c, negb (c =? 0) && negb (c =? 10)) s && (length s <=? k)%nat.
Lemma plainb_ok k s : plainb k s = true → plain k s.
Proof.
  intros H. apply andb_prop in H as [F L]. split; [|by apply Nat.leb_le]. apply Forall_forall. intros c Hc.
  rewrite forallb_forall in F. specialize (F c Hc). repeat bcase; try done; lia.
Qed.

Lemma Forall_imap {A B} (P : B → Prop) (f : nat → A → B) l :
  (∀ i x, l !! i = Some x → P (f i x)) → Forall P (imap f l).
Proof.
  intros H. apply Forall_lookup_2. intros i y Hy. rewrite list_lookup_imap in Hy.
  destruct (l !! i) eqn:E; [|done]. injection Hy as <-. by apply H.
Qed.
Lemma Forall_mjoin {A} (P : A → Prop) (l : list (list A)) : Forall (Forall P) l → Forall P (mjoin l).
Proof. intros H. induction H; [constructor|]. rewrite mjoin_cons. by apply Forall_app. Qed.

Definition arm_form (n line : bytes) : Prop :=
  (∃ rest, line = chars_of "audio_arm\audio_arm\" ++ n ++ 0x5c :: rest) ∧ plain 1000 line.
Definition eq_form (n line : bytes) : Prop :=
  (∃ rest, line = chars_of "%audio\" ++ (chars_of "EQ_" ++ n) ++ 0x5c :: rest) ∧ plain 1000 line
  ∧ has (line ++ [10]) "audio_arm\audio_arm\" = false.

Section forms.
Variable n : bytes.
Hypothesis Hn : name_ok n.

Ltac is_plain :=
  repeat match goal with
  | |- plain _ (_ ++ _) => eapply plain_app
  | |- plain _ (dec _) => apply plain_dec; lia
  | |- plain _ (hex _) => apply plain_hex; lia
  | |- plain _ n => by apply plain_name
  | |- plain _ (chars_of "EQ_") => apply (plainb_ok 100); vm_compute; reflexivity
  | |- plain _ (chars_of "%audio\") => apply (plainb_ok 100); vm_compute; reflexivity
  | |- plain _ (chars_of "audio_arm\audio_arm\") => apply (plainb_ok 100); vm_compute; reflexivity
  end.

Lemma plain_le j k s : plain j s → (j <= k)%nat → plain k s.
Proof. intros [F L] H. split; [done|lia]. Qed.

Lemma arm_line_form path v :
  plainb 100 (chars_of path) = true → head (chars_of path) = Some 0x5c → 0 <= v < 2 ^ 32 → arm_form n (arm_line n path v).
Proof.
  intros Hp Hh Hv. apply plainb_ok in Hp. split.
  - destruct (chars_of path) as [|c s] eqn:E; [done|]. injection Hh as ->. unfold arm_line. rewrite E. by eexists.
  - eapply plain_le; [unfold arm_line; is_plain; exact Hp|lia].
Qed.

Lemma arm_line_at_form path j path' v :
  plainb 100 (chars_of path) = true → head (chars_of path) = Some 0x5c → plainb 100 (chars_of path') = true →
  Z.of_nat j < 2 ^ 31 → 0 <= v < 2 ^ 32 → arm_form n (arm_line_at n path j path' v).
Proof.
  intros Hp Hh Hp' Hj Hv. apply plainb_ok in Hp, Hp'. split.
  - destruct (chars_of path) as [|c s] eqn:E; [done|]. injection Hh as ->. unfold arm_line_at. rewrite E. by eexists.
  - eapply plain_le; [unfold arm_line_at; is_plain; [exact Hp|exact Hp']|lia].
Qed.

Lemma arm_line_at2_form path j path' i path'' v :
  plainb 100 (chars_of path) = true → head (chars_of path) = Some 0x5c → plainb 100 (chars_of path') = true →
  plainb 100 (chars_of path'') = true →
  Z.of_nat j < 2 ^ 31 → Z.of_nat i < 2 ^ 31 → 0 <= v < 2 ^ 32 → arm_form n (arm_line_at2 n path j path' i path'' v).
Proof.
  intros Hp Hh Hp' Hp'' Hj Hi Hv. apply plainb_ok in Hp, Hp', Hp''. split.
  - destruct (chars_of path) as [|c s] eqn:E; [done|]. injection Hh as ->. unfold arm_line_at2. rewrite E. by eexists.
  - eapply plain_le; [unfold arm_line_at2; is_plain; [exact Hp|exact Hp'|exact Hp'']|lia].
Qed.

Ltac form :=
  first [apply arm_line_form | apply arm_line_at_form | apply arm_line_at2_form]; try reflexivity; try lia.

Lemma u16_u32 v : is_u16 v → 0 <= v < 2 ^ 32.
Proof. unfold is_u16. lia. Qed.

Ltac each_form := repeat (apply list.Forall_cons; split); try apply List.Forall_nil; form.

(** The lines of an array. *)
Lemma forms {A} (P : bytes → Prop) (line : nat → A → bytes) (Q : A → Prop) k l :
  length l = k → Forall Q l → (∀ j x, (j < k)%nat → Q x → P (line j x)) → Forall P (imap line l).
Proof.
  intros L F H. apply Forall_imap. intros j x Hx. apply H; [apply lookup_lt_Some in Hx; lia|by eapply list.Forall_lookup].
Qed.

Lemma app_forms j a : (j < 16)%nat → app_fields a → app_shape a → Forall (arm_form n) (app_lines n j a).
Proof.
  intros Hj (F1 & F2 & F3 & F4 & F5) (L1 & L2 & L3). unfold app_lines. apply u16_u32 in F1, F3.
  repeat (apply Forall_app; split).
  - each_form.
  - eapply forms; [exact L1|exact F2|]. intros i x Hi Hx%u16_u32. form.
  - each_form.
  - eapply forms; [exact L2|exact F4|]. intros i x Hi Hx. unfold is_u32 in Hx. form.
  - eapply forms; [exact L3|exact F5|]. intros i x Hi Hx%u16_u32. form.
Qed.

Lemma arm_forms m : arm_fields m → arm_shape m → Forall (arm_form n) (arm_lines n m).
Proof.
  intros ((F1 & F2 & F3) & (F4 & F5 & F6) & F7 & F8 & F9 & F10) (L1 & L2 & L3 & L4 & L5).
  apply u16_u32 in F1, F2, F4, F5, F8, F9. unfold arm_lines, dev_lines. repeat (apply Forall_app; split).
  - each_form.
  - eapply forms; [exact L1|exact F3|]. intros i x Hi Hx%u16_u32. form.
  - each_form.
  - eapply forms; [exact L2|exact F6|]. intros i x Hi Hx%u16_u32. form.
  - apply Forall_mjoin. apply Forall_imap. intros j a Ha. pose proof (lookup_lt_Some _ _ _ Ha).
    apply app_forms; [lia|by eapply list.Forall_lookup in F7|by eapply list.Forall_lookup in L4].
  - each_form.
  - eapply forms; [exact L5|exact F10|]. intros i x Hi Hx%u16_u32. form.
Qed.

(** The pattern of the other group is not found: by evaluation for every name and number. *)
Definition not_arm (sk : bytes → bytes → bytes → bytes → list item) : Prop :=
  ∀ w h d d', has_sym "audio_arm\audio_arm\" (sk w h d d') = Some false.

Lemma eq_line_form path v :
  plainb 100 (chars_of (path +:+ "0x")) = true → head (chars_of (path +:+ "0x")) = Some 0x5c →
  not_arm (λ w h _ _, eq_items w (lit path ++ value_items h)) → 0 <= v < 2 ^ 32 →
  eq_form n (eq_line (chars_of "EQ_" ++ n) (path +:+ "0x") v).
Proof.
  intros Hp Hh Hs Hv. apply plainb_ok in Hp. split_and!.
  - destruct (chars_of (path +:+ "0x")) as [|c s] eqn:E; [done|]. injection Hh as ->. unfold eq_line. rewrite E. by eexists.
  - eapply plain_le; [unfold eq_line; is_plain; exact Hp|lia].
  - rewrite eq_line_items. pose proof (hex_word_item v Hv). destruct Hn as [Hi _].
    apply has_sound; [items_ok|by apply (Hs _ _ [] [])].
Qed.

Lemma eq_line_at_form path j path' v :
  plainb 100 (chars_of path) = true → head (chars_of path) = Some 0x5c → plainb 100 (chars_of (path' +:+ "0x")) = true →
  not_arm (λ w h d _, eq_items w (lit path ++ W Digit d :: lit path' ++ value_items h)) →
  Z.of_nat j < 2 ^ 31 → 0 <= v < 2 ^ 32 → eq_form n (eq_line_at (chars_of "EQ_" ++ n) path j (path' +:+ "0x") v).
Proof.
  intros Hp Hh Hp' Hs Hj Hv. apply plainb_ok in Hp, Hp'. split_and!.
  - destruct (chars_of path) as [|c s] eqn:E; [done|]. injection Hh as ->. unfold eq_line_at. rewrite E. by eexists.
  - eapply plain_le; [unfold eq_line_at; is_plain; [exact Hp|exact Hp']|lia].
  - rewrite eq_line_at_items. pose proof (hex_word_item v Hv). pose proof (dec_item j Hj). destruct Hn as [Hi _].
    apply has_sound; [items_ok|by apply (Hs _ _ _ [])].
Qed.

Lemma eq_line_at2_form path j path' i path'' v :
  plainb 100 (chars_of path) = true → head (chars_of path) = Some 0x5c → plainb 100 (chars_of path') = true →
  plainb 100 (chars_of (path'' +:+ "0x")) = true →
  not_arm (λ w h d d', eq_items w (lit path ++ W Digit d :: lit path' ++ W Digit d' :: lit path'' ++ value_items h)) →
  Z.of_nat j < 2 ^ 31 → Z.of_nat i < 2 ^ 31 → 0 <= v < 2 ^ 32 →
  eq_form n (eq_line_at2 (chars_of "EQ_" ++ n) path j path' i (path'' +:+ "0x") v).
Proof.
  intros Hp Hh Hp' Hp'' Hs Hj Hi Hv. apply plainb_ok in Hp, Hp', Hp''. split_and!.
  - destruct (chars_of path) as [|c s] eqn:E; [done|]. injection Hh as ->. unfold eq_line_at2. rewrite E. by eexists.
  - eapply plain_le; [unfold eq_line_at2; is_plain; [exact Hp|exact Hp'|exact Hp'']|lia].
  - rewrite eq_line_at2_items. pose proof (hex_word_item v Hv). pose proof (dec_item j Hj). pose proof (dec_item i Hi).
    destruct Hn as [Hw _]. apply has_sound; [items_ok|by apply Hs].
Qed.

Lemma low16_u32 v : 0 <= low16 v < 2 ^ 32.
Proof. pose proof (low16_range v). lia. Qed.
Lemma u32_u32 v : 0 <= u32 v < 2 ^ 32.
Proof. apply Z.mod_pos_bound. lia. Qed.

Lemma band_forms j i b : (j < 6)%nat → (i < 8)%nat → Forall (eq_form n) (band_lines (chars_of "EQ_" ++ n) j i b).
Proof.
  intros Hj Hi. unfold band_lines. repeat (apply list.Forall_cons; split); try apply List.Forall_nil;
    [apply (eq_line_at2_form _ _ _ _ "\fo=")|apply (eq_line_at2_form _ _ _ _ "\q=")
    |apply (eq_line_at2_form _ _ _ _ "\boostdB=")|apply (eq_line_at2_form _ _ _ _ "\gaindB=")];
    try reflexivity; try lia; try apply low16_u32; try apply u32_u32; intros w h d d'; vm_compute; reflexivity.
Qed.

Lemma eq_forms e : eq_shape e → Forall (eq_form n) (eq_lines (chars_of "EQ_" ++ n) e).
Proof.
  intros (L1 & L2 & L3). unfold eq_lines. repeat (apply Forall_app; split).
  - apply list.Forall_cons; split; [|apply List.Forall_nil]. apply (eq_line_form "\eq_control="); try reflexivity;
      [intros w h d d'; vm_compute; reflexivity|apply low16_u32].
  - apply Forall_mjoin. apply Forall_imap. intros j m Hm. pose proof (lookup_lt_Some _ _ _ Hm) as Lj.
    eapply list.Forall_lookup in L2; [|exact Hm]. unfold eq_mode_lines. apply Forall_app. split.
    + repeat (apply list.Forall_cons; split); try apply List.Forall_nil;
        [apply (eq_line_at_form _ _ "\agc_in_gain=")|apply (eq_line_at_form _ _ "\band_control=")];
        try reflexivity; try lia; try apply low16_u32; intros w h d d'; vm_compute; reflexivity.
    + apply Forall_mjoin. apply Forall_imap. intros i b Hb. apply lookup_lt_Some in Hb. apply band_forms; lia.
  - apply Forall_imap. intros j v Hv. apply lookup_lt_Some in Hv.
    apply (eq_line_at_form _ _ "]="); try reflexivity; try lia; try apply low16_u32; intros w h d d'; vm_compute; reflexivity.
Qed.
End forms.
