(* ===== verification/ModeTable.v ===== *)
(** * The table of audio modes (audio/sc8830/nv_exchange/string_exchange_bin.c)

    The names and indices of the modes come from an XML file.  The parser is a library: the model starts from the
    elements it reports, each a tag and its attributes, names and values in turn.  [None] is undefined behaviour, as in
    ParaText.v. *)

From stdpp Require Import list strings functions.
From S2P Require Import Prelude CArith AtTok EqSet EqFile ParaText ParaMatch ParaRound ParaEq ParaMode ParaForm.

Open Scope Z_scope.

(** ** The elements *)

Definition AUDIO_MODE_NAME_MAX_LEN : Z := 16.
Definition sizeof_item : Z := 20.

(** [aud_mode_t]: the array once it is allocated. *)
Record aud_mode_t := AudMode { num : Z; audio_mode_item_info : option (list audio_mode_item_t) }.
(** The parser's data: the table, and the item that the next element fills, if any. *)
Record parse_state := ParseState { audio_mode_info : aud_mode_t; next_item : option nat }.

Definition zero_item : audio_mode_item_t := ModeItem 0 (repeat 0 (Z.to_nat NAME_LEN_MAX)).

Section xml.
(** Whether [malloc] of that many bytes succeeds. *)
Variable alloc : Z → bool.

Definition audmode_create (aud_mode : aud_mode_t) (n : bytes) : aud_mode_t * option nat :=
  if atoi n =? 0 then (aud_mode, None)
  else
    match audio_mode_item_info aud_mode with
    | Some items => (AudMode (atoi n) (Some items), Some 0%nat)
    | None =>
        let size := u32 (atoi n * sizeof_item) in
        if alloc size then (AudMode (atoi n) (Some (repeat zero_item (Z.to_nat (size / sizeof_item)))), Some 0%nat)
        else (AudMode (atoi n) None, None)
    end.

Definition is_word (b : bytes) (s : string) : bool := bool_decide (b = chars_of s).

(** The copied part of the name, at most all 16 bytes, over what was there. *)
Definition fill_item (name index : bytes) (m : audio_mode_item_t) : audio_mode_item_t :=
  let n := Nat.min (length name) (Z.to_nat AUDIO_MODE_NAME_MAX_LEN) in
  ModeItem (atoi index) (take n name ++ drop n (mode_name m)).

Definition start_tag (tag : bytes) (attr : list bytes) (st : parse_state) : option parse_state :=
  if is_word tag "audiomode" then
    a0 ← attr !! 0%nat;
    if is_word a0 "num" then
      a1 ← attr !! 1%nat;
      let '(m, p) := audmode_create (audio_mode_info st) a1 in Some (ParseState m p)
    else Some st
  else if is_word tag "item" then
    match next_item st with
    | None => Some st
    | Some k =>
        a0 ← attr !! 0%nat;
        if negb (is_word a0 "name") then Some st
        else
          a2 ← attr !! 2%nat;
          if negb (is_word a2 "index") then Some st
          else
            a1 ← attr !! 1%nat; a3 ← attr !! 3%nat;
            items ← audio_mode_item_info (audio_mode_info st);
            m ← items !! k;
            Some (ParseState (AudMode (num (audio_mode_info st)) (Some (<[k := fill_item a1 a3 m]> items))) (Some (S k)))
    end
  else Some st.

Fixpoint start_tags (l : list (bytes * list bytes)) (st : parse_state) : option parse_state :=
  match l with [] => Some st | e :: l => st ← start_tag e.1 e.2 st; start_tags l st end.

(** The table, or none if the file cannot be read or is not XML: [elements] are those reported until then. *)
Definition parse (elements : list (bytes * list bytes)) (ok : bool) : option (option aud_mode_t) :=
  if ok then
    st ← start_tags elements (ParseState (AudMode 0 None) None); Some (Some (audio_mode_info st))
  else Some None.

(** The number of modes; without a table a null pointer is followed. *)
Definition adev_get_audiomodenum4eng (s_audiomode : option aud_mode_t) : option Z := num <$> s_audiomode.

(** ** A document *)

Definition item_element (i : nat) (name : bytes) : bytes * list bytes :=
  (chars_of "item", [chars_of "name"; name; chars_of "index"; dec i]).
Definition mode_document (names : list bytes) : list (bytes * list bytes) :=
  (chars_of "audiomode", [chars_of "num"; dec (length names)]) :: imap item_element names.

Definition table_of (names : list bytes) : list audio_mode_item_t :=
  imap (λ i name, ModeItem (Z.of_nat i) (name ++ repeat 0 (16 - length name))) names.

Lemma drop_repeat {A} (x : A) k n : drop k (repeat x n) = repeat x (n - k).
Proof. revert k. induction n as [|n IH]; intros [|k]; cbn; [done..|apply IH]. Qed.

Lemma item_read k name n items :
  (length name <= 16)%nat → items !! k = Some zero_item → Z.of_nat k < 2 ^ 31 →
  start_tag (item_element k name).1 (item_element k name).2 (ParseState (AudMode n (Some items)) (Some k))
  = Some (ParseState (AudMode n (Some (<[k := ModeItem (Z.of_nat k) (name ++ repeat 0 (16 - length name))]> items))) (Some (S k))).
Proof.
  intros Hl Hk Hi. unfold start_tag. cbn [item_element fst snd].
  change (is_word (chars_of "item") "audiomode") with false. change (is_word (chars_of "item") "item") with true.
  cbv iota. cbn [next_item audio_mode_info audio_mode_item_info num].
  change ([chars_of "name"; name; chars_of "index"; dec k] !! 0%nat) with (Some (chars_of "name")). cbn [mbind option_bind].
  change (is_word (chars_of "name") "name") with true. cbn [negb].
  change ([chars_of "name"; name; chars_of "index"; dec k] !! 2%nat) with (Some (chars_of "index")). cbn [mbind option_bind].
  change (is_word (chars_of "index") "index") with true. cbn [negb].
  change ([chars_of "name"; name; chars_of "index"; dec k] !! 1%nat) with (Some name). cbn [mbind option_bind].
  change ([chars_of "name"; name; chars_of "index"; dec k] !! 3%nat) with (Some (dec k)). cbn [mbind option_bind].
  rewrite Hk. cbn [mbind option_bind]. unfold fill_item. destruct (dec_ok k Hi) as (_ & _ & _ & ->).
  unfold AUDIO_MODE_NAME_MAX_LEN. change (Z.to_nat 16) with 16%nat. rewrite Nat.min_l, firstn_all by lia.
  unfold zero_item. cbn [mode_name]. change (Z.to_nat NAME_LEN_MAX) with 16%nat.
  replace (drop (length name) (repeat 0 16)) with (repeat 0 (16 - length name)); [done|].
  symmetry. apply drop_repeat.
Qed.

Lemma items_read done names n :
  Forall (λ w, (length w <= 16)%nat) names → Z.of_nat (length done + length names) < 2 ^ 31 →
  start_tags (imap (λ i, item_element (length done + i)%nat) names)
    (ParseState (AudMode n (Some (done ++ repeat zero_item (length names)))) (Some (length done)))
  = Some (ParseState (AudMode n (Some (done ++ imap (λ i w, ModeItem (Z.of_nat (length done + i)) (w ++ repeat 0 (16 - length w))) names)))
            (Some (length done + length names)%nat)).
Proof.
  intros F. revert done. induction F as [|w names Hw _ IH]; intros d L.
  - cbn. by rewrite Nat.add_0_r.
  - cbn [length repeat] in *. cbn [imap start_tags]. rewrite Nat.add_0_r.
    rewrite (item_read (length d) w) by (done || lia || by apply list_lookup_middle). cbn [mbind option_bind].
    rewrite insert_app_r_alt by lia. rewrite Nat.sub_diag. cbn [insert list_insert].
    specialize (IH (d ++ [ModeItem (Z.of_nat (length d)) (w ++ repeat 0 (16 - length w))])).
    rewrite length_app in IH. cbn [length] in IH. rewrite <- !app_assoc in IH. cbn [app] in IH.
    rewrite Nat.add_1_r in IH. specialize (IH ltac:(lia)). 
    rewrite (imap_ext _ (λ i, item_element (S (length d) + i)%nat)) by (intros; cbn; by rewrite Nat.add_succ_r).
    rewrite IH. f_equal. f_equal; [|f_equal; lia]. f_equal. f_equal. f_equal. f_equal.
    apply imap_ext. intros i x _. cbn. by rewrite Nat.add_succ_r.
Qed.

(** The document gives the table. *)
Lemma document_parsed names :
  names ≠ [] → Forall (λ w, (length w <= 16)%nat) names → Z.of_nat (length names) * sizeof_item < 2 ^ 31 →
  alloc (Z.of_nat (length names) * sizeof_item) = true →
  parse (mode_document names) true = Some (Some (AudMode (Z.of_nat (length names)) (Some (table_of names)))).
Proof.
  unfold sizeof_item. intros Hn F L A. unfold parse, mode_document. cbn [start_tags fst snd].
  destruct (dec_ok (length names) ltac:(lia)) as (_ & _ & _ & Ea).
  assert (E : start_tag (chars_of "audiomode") [chars_of "num"; dec (length names)] (ParseState (AudMode 0 None) None)
    = Some (ParseState (AudMode (Z.of_nat (length names)) (Some (repeat zero_item (length names)))) (Some 0%nat))).
  { unfold start_tag. change (is_word (chars_of "audiomode") "audiomode") with true. cbv iota.
    change ([chars_of "num"; dec (length names)] !! 0%nat) with (Some (chars_of "num")). cbn [mbind option_bind].
    change (is_word (chars_of "num") "num") with true. cbv iota.
    change ([chars_of "num"; dec (length names)] !! 1%nat) with (Some (dec (length names))). cbn [mbind option_bind].
    unfold audmode_create. rewrite Ea. cbn [audio_mode_info audio_mode_item_info].
    destruct (Z.eqb_spec (Z.of_nat (length names)) 0); [destruct names; [done|cbn in *; lia]|].
    replace (u32 (Z.of_nat (length names) * sizeof_item)) with (Z.of_nat (length names) * 20)
      by (unfold u32, sizeof_item; rewrite Z.mod_small; lia).
    rewrite A. unfold sizeof_item. by rewrite Z.div_mul, Nat2Z.id by lia. }
  rewrite E. cbn [mbind option_bind]. pose proof (items_read [] names (Z.of_nat (length names)) F) as R. cbn [length app] in R.
  unfold table_of. cbn [Nat.add] in R.
    change (imap (λ i, item_element i) names) with (imap item_element names) in R. rewrite R by lia. done.
Qed.

Lemma before_nul_at w t : nonzero w → before_nul (w ++ 0 :: t) = w.
Proof.
  intros F. unfold before_nul. induction F as [|c w Hc _ IH]; [done|]. cbn [app span].
  destruct (Z.eqb_spec c 0); [done|]. cbn [negb]. destruct (span _ (w ++ 0 :: t)) as [x y]. cbn in *. by rewrite IH.
Qed.

Lemma table_label i w : name_ok w → label (ModeItem i (w ++ repeat 0 (16 - length w))) = w.
Proof.
  intros Hn. unfold label. cbn [mode_name]. replace (16 - length w)%nat with (S (15 - length w)) by (destruct Hn; lia).
  by apply before_nul_at, name_nonzero.
Qed.

Lemma table_of_ok names : Forall name_ok names → NoDup names → table_ok (table_of names) ∧ map label (table_of names) = names.
Proof.
  intros F N. assert (E : map label (table_of names) = names).
  { apply list_eq. intros i. unfold table_of. change (map label) with (fmap (M := list) label).
    rewrite list_lookup_fmap, list_lookup_imap. destruct (names !! i) as [w|] eqn:Ei; [|done]. cbn. f_equal.
    apply table_label. by eapply list.Forall_lookup. }
  split; [|done]. split; [|by rewrite E]. intros i m H. unfold table_of in H. rewrite list_lookup_imap in H.
  destruct (names !! i) as [w|] eqn:Ei; [|done]. injection H as <-. eapply list.Forall_lookup in F; [|exact Ei].
  rewrite table_label by done. split_and!; [done| |done]. cbn. rewrite length_app, repeat_length. destruct F. lia.
Qed.

(** An item beyond the number the document announces is written behind the array. *)
Lemma extra_item_overruns n items name i :
  start_tag (chars_of "item") [chars_of "name"; name; chars_of "index"; i] (ParseState (AudMode n (Some items)) (Some (length items))) = None.
Proof.
  unfold start_tag. change (is_word (chars_of "item") "audiomode") with false. change (is_word (chars_of "item") "item") with true.
  cbv iota. cbn [next_item audio_mode_info audio_mode_item_info]. cbn [lookup list_lookup mbind option_bind].
  change (is_word (chars_of "name") "name") with true. change (is_word (chars_of "index") "index") with true. cbn [negb].
  rewrite (proj2 (lookup_ge_None items (length items))) by lia. done.
Qed.
End xml.
