(* ===== verification/ParaFile.v ===== *)
(** * The text file of the audio parameters is read back

    From the lines of a mode to the file: what [stringfile2nvstruct] makes of the file that [nvstruct2stringfile] wrote,
    which settings it restores, and the profiles that [do_parse] makes of them. *)

From stdpp Require Import list strings functions.
From S2P Require Import Prelude CArith AtTok EqSet EqImage EqPara EqFile ParaText ParaMatch ParaRound ParaEq ParaMode ParaForm ModeTable.

Open Scope Z_scope.

(** ** A line in the file *)

Lemma has_front p s : has (chars_of p ++ s) p = true.
Proof.
  unfold has. assert (S : starts (chars_of p) (chars_of p ++ s) = true).
  { induction (chars_of p) as [|c q IH]; [done|]. cbn. by rewrite Z.eqb_refl. }
  destruct (chars_of p ++ s) eqn:E; cbn [strstr]; by rewrite S.
Qed.

Section lifting.
Context (modes : list audio_mode_item_t) (Hmodes : table_ok modes).
Context (i : nat) (item : audio_mode_item_t) (Hitem : modes !! i = Some item).
#[local] Notation "'name'" := (label item).

Lemma name_is_ok : name_ok name.
Proof. apply (proj1 Hmodes i item Hitem). Qed.

Lemma read_arm_line line r p m' sc' :
  arm_form name line → params r !! i = Some p →
  read_arm (line ++ [10]) (tAudioNvArmModeStruct p, read_scratch r) = Some (m', sc') →
  ∃ r', read_line modes (line ++ [10]) r = Some r' ∧ read_scratch r' = sc'
    ∧ params r' = <[i := Total (audio_enha_eq p) (put_str name (ucModeName p)) m']> (params r).
Proof.
  intros [[rest ->] _] Hp Hr. destruct name_is_ok as [Hi Hl]. pose proof (name_chars name name_is_ok) as Hc.
  rewrite <- !app_assoc in *. cbn [app] in *. unfold read_line. rewrite has_front, scan_style_name;
    [|apply Hi|done|lia]. cbn [mbind option_bind].
  pose proof (cstr_at [] name (drop (S (length name)) (outputstyle r)) (name_nonzero _ name_is_ok)) as C.
  cbn [app length] in C. change (put_str name (outputstyle r)) with (name ++ 0 :: drop (S (length name)) (outputstyle r)) in *.
  rewrite C. cbn [mbind option_bind]. rewrite (find_mode_at modes Hmodes i item) by done. cbn [mbind option_bind].
  destruct (Z.ltb_spec (Z.of_nat i) 0); [lia|]. rewrite Nat2Z.id, Hp. cbn [mbind option_bind]. rewrite Hr. cbn [mbind option_bind].
  eexists. split; [reflexivity|]. cbn [read_scratch params]. split; [done|]. by rewrite put_name_str by lia.
Qed.

Lemma read_eq_line line r p e' sc' :
  eq_form name line → params r !! i = Some p →
  read_eq (line ++ [10]) (EqStruct (put_str (chars_of "EQ_" ++ name) (para_name (audio_enha_eq p)))
                            (eq_control (audio_enha_eq p)) (eq_modes (audio_enha_eq p)) (externdArray (audio_enha_eq p)),
                          read_scratch r) = Some (e', sc') →
  ∃ r', read_line modes (line ++ [10]) r = Some r' ∧ read_scratch r' = sc'
    ∧ params r' = <[i := Total e' (ucModeName p) (tAudioNvArmModeStruct p)]> (params r).
Proof.
  intros ([rest E] & _ & Ha) Hp Hr. destruct name_is_ok as [Hi Hl]. pose proof (name_chars name name_is_ok) as Hc.
  unfold read_line. rewrite Ha. subst line. rewrite <- app_assoc in *. rewrite has_front.
  change (skip_space (chars_of "%audio\" ++ ?s)) with (chars_of "%audio\" ++ s). rewrite <- !app_assoc in *. cbn [app] in *.
  pose proof (scan_style_name (chars_of "%audio\") (chars_of "EQ_" ++ name) (rest ++ [10]) (outputstyle r)) as S.
  rewrite <- !app_assoc in S. rewrite S; clear S; [|by destruct Hi| |rewrite length_app; cbn; lia].
  2: { apply Forall_app. split; [by repeat constructor|done]. }
  cbn [mbind option_bind]. set (b := outputstyle r).
  assert (Nz : nonzero name) by apply name_nonzero, name_is_ok.
  assert (C3 : cstr (put_str (chars_of "EQ_" ++ name) b) 3 = Some name).
  { unfold put_str. rewrite <- app_assoc. by apply (cstr_at (chars_of "EQ_")). }
  assert (C0 : cstr (put_str (chars_of "EQ_" ++ name) b) 0 = Some (chars_of "EQ_" ++ name)).
  { apply (cstr_at []). apply Forall_app. split; [by repeat constructor|done]. }
  rewrite C0. cbn [mbind option_bind]. rewrite C3. cbn [mbind option_bind].
  rewrite (find_mode_at modes Hmodes i item) by done. cbn [mbind option_bind].
  destruct (Z.ltb_spec (Z.of_nat i) 0); [lia|]. rewrite Nat2Z.id, Hp. cbn [mbind option_bind].
  unfold name_eq. rewrite put_name_str by (rewrite length_app; cbn; lia). rewrite Hr. cbn [mbind option_bind].
  eexists. split; [reflexivity|]. done.
Qed.

(** ** The lines of a mode in the file *)

Definition feed (ls : list bytes) : list bytes := map (λ x, x ++ [10]) ls.

(** Once the name is in place the lines change nothing but the structure. *)
Lemma run_arm ls r e u m m' sc' :
  Forall (arm_form name) ls → params r !! i = Some (Total e u m) → put_str name u = u →
  run_lines read_arm (feed ls) (m, read_scratch r) = Some (m', sc') →
  ∃ r', run_lines (read_line modes) (feed ls) r = Some r' ∧ read_scratch r' = sc'
    ∧ params r' = <[i := Total e u m']> (params r).
Proof.
  intros F. revert r m. induction F as [|line ls Hl _ IH]; intros r m Hp Hu Hr.
  - injection Hr as -> <-. exists r. by rewrite list_insert_id.
  - cbn [feed map run_lines] in Hr |- *. destruct (read_arm _ _) as [[m1 sc1]|] eqn:E; [|done]. cbn [mbind option_bind] in Hr.
    destruct (read_arm_line line r _ m1 sc1 Hl Hp E) as (r1 & E1 & S1 & P1). cbn [audio_enha_eq ucModeName] in P1.
    rewrite Hu in P1. rewrite E1. cbn [mbind option_bind]. rewrite <- S1 in Hr.
    assert (L : (i < length (params r))%nat) by (by eapply lookup_lt_Some).
    destruct (IH r1 m1) as (r' & E' & S' & P'); [rewrite P1; by apply list_lookup_insert_eq|done|done|].
    exists r'. split_and!; [done|done|]. by rewrite P', P1, list_insert_insert_eq.
Qed.

Lemma read_eq_name line e sc e' sc' : read_eq line (e, sc) = Some (e', sc') → para_name e' = para_name e.
Proof.
  destruct sc as [data ix]. unfold read_eq, read_band, read_extend. intros H.
  repeat (match type of H with
          | (_ ≫= _) = Some _ => apply bind_Some in H as (? & _ & H)
          | context [if ?b then _ else _] => destruct b
          | context [match strstr ?a ?b with _ => _ end] => destruct (strstr a b)
          end; cbv beta iota zeta in H); try done; injection H as <- <-; done.
Qed.

Lemma run_eq ls r e u m e' sc' :
  Forall (eq_form name) ls → params r !! i = Some (Total e u m) → put_str (chars_of "EQ_" ++ name) (para_name e) = para_name e →
  run_lines read_eq (feed ls) (e, read_scratch r) = Some (e', sc') →
  ∃ r', run_lines (read_line modes) (feed ls) r = Some r' ∧ read_scratch r' = sc'
    ∧ params r' = <[i := Total e' u m]> (params r).
Proof.
  intros F. revert r e. induction F as [|line ls Hl _ IH]; intros r e Hp Hu Hr.
  - injection Hr as -> <-. exists r. by rewrite list_insert_id.
  - cbn [feed map run_lines] in Hr |- *. destruct (read_eq _ _) as [[e1 sc1]|] eqn:E; [|done]. cbn [mbind option_bind] in Hr.
    pose proof (read_eq_name _ _ _ _ _ E) as N.
    destruct (read_eq_line line r _ e1 sc1 Hl Hp) as (r1 & E1 & S1 & P1).
    { cbn [audio_enha_eq]. rewrite Hu. by destruct e. }
    cbn [ucModeName tAudioNvArmModeStruct] in P1. rewrite E1. cbn [mbind option_bind]. rewrite <- S1 in Hr.
    assert (L : (i < length (params r))%nat) by (by eapply lookup_lt_Some).
    destruct (IH r1 e1) as (r' & E' & S' & P'); [rewrite P1; by apply list_lookup_insert_eq|by rewrite N|done|].
    exists r'. split_and!; [done|done|]. by rewrite P', P1, list_insert_insert_eq.
Qed.

(** The first line puts the name in place. *)
Lemma run_arm_first ls r e u m m' k k' :
  Forall (arm_form name) ls → ls ≠ [] → params r !! i = Some (Total e u m) → goes read_arm ls m k m' k' →
  (∀ c, (read_scratch r).2 c = k c) →
  ∃ r', run_lines (read_line modes) (feed ls) r = Some r' ∧ (∀ c, (read_scratch r').2 c = k' c)
    ∧ params r' = <[i := Total e (put_str name u) m']> (params r).
Proof.
  intros F Hne Hp G Hk. destruct (read_scratch r) as [data ix] eqn:Es. destruct (G data ix Hk) as (d' & ix' & E & Hk').
  destruct ls as [|line ls]; [done|]. apply list.Forall_cons in F as [Hl F]. cbn [map run_lines] in E.
  cbn [feed map run_lines]. destruct (read_arm _ _) as [[m1 sc1]|] eqn:E1; [|done]. cbn [mbind option_bind] in E.
  assert (E1' : read_arm (line ++ [10]) (m, read_scratch r) = Some (m1, sc1)) by (rewrite Es; exact E1).
  destruct (read_arm_line line r _ m1 sc1 Hl Hp E1') as (r1 & R1 & S1 & P1).
  rewrite R1. cbn [mbind option_bind]. assert (L : (i < length (params r))%nat) by (by eapply lookup_lt_Some).
  destruct (run_arm ls r1 e (put_str name u) m1 m' (d', ix') F) as (r' & R & S & P);
    [rewrite P1; by apply list_lookup_insert_eq|apply put_str_twice|by rewrite S1|].
  exists r'. split_and!; [done|by rewrite S|]. by rewrite P, P1, list_insert_insert_eq.
Qed.

Lemma run_eq_first ls r e u m e' k k' :
  Forall (eq_form name) ls → ls ≠ [] → params r !! i = Some (Total e u m) →
  goes read_eq ls (EqStruct (put_str (chars_of "EQ_" ++ name) (para_name e)) (eq_control e) (eq_modes e) (externdArray e)) k e' k' →
  (∀ c, (read_scratch r).2 c = k c) →
  ∃ r', run_lines (read_line modes) (feed ls) r = Some r' ∧ (∀ c, (read_scratch r').2 c = k' c)
    ∧ params r' = <[i := Total e' u m]> (params r).
Proof.
  intros F Hne Hp G Hk. destruct (read_scratch r) as [data ix] eqn:Es. destruct (G data ix Hk) as (d' & ix' & E & Hk').
  destruct ls as [|line ls]; [done|]. apply list.Forall_cons in F as [Hl F]. cbn [map run_lines] in E.
  cbn [feed map run_lines]. destruct (read_eq _ _) as [[e1 sc1]|] eqn:E1; [|done]. cbn [mbind option_bind] in E.
  pose proof (read_eq_name _ _ _ _ _ E1) as N. cbn [para_name] in N.
  match type of E1 with read_eq _ (?e', _) = _ =>
    assert (E1' : read_eq (line ++ [10]) (e', read_scratch r) = Some (e1, sc1)) by (rewrite Es; exact E1) end.
  destruct (read_eq_line line r _ e1 sc1 Hl Hp E1') as (r1 & R1 & S1 & P1).
  rewrite R1. cbn [mbind option_bind]. assert (L : (i < length (params r))%nat) by (by eapply lookup_lt_Some).
  destruct (run_eq ls r1 e1 u m e' (d', ix') F) as (r' & R & S & P);
    [rewrite P1; by apply list_lookup_insert_eq|rewrite N; apply put_str_twice|by rewrite S1|].
  exists r'. split_and!; [done|by rewrite S|]. by rewrite P, P1, list_insert_insert_eq.
Qed.
End lifting.

(** ** The whole file *)

Definition total_shape (p : AUDIO_TOTAL_T) : Prop := eq_shape (audio_enha_eq p) ∧ arm_shape (tAudioNvArmModeStruct p).
Definition total_fields (p : AUDIO_TOTAL_T) : Prop := eq_fields (audio_enha_eq p) ∧ arm_fields (tAudioNvArmModeStruct p).

(** What the file of [p] leaves of the structure [p0] of the mode [m]. *)
Definition read_back (m : audio_mode_item_t) (p p0 : AUDIO_TOTAL_T) : AUDIO_TOTAL_T :=
  Total (reread_eq (put_str (chars_of "EQ_" ++ label m) (para_name (audio_enha_eq p0))) (audio_enha_eq p))
    (put_str (label m) (ucModeName p0)) (tAudioNvArmModeStruct p).

Section file.
Context (modes : list audio_mode_item_t) (Hmodes : table_ok modes).

Lemma run_mode i item p p0 r :
  modes !! i = Some item → total_fields p → total_shape p → params r !! i = Some p0 → total_shape p0 →
  (∀ c, (read_scratch r).2 c = 0) →
  ∃ r', run_lines (read_line modes) (feed (mode_lines (label item) (chars_of "EQ_" ++ label item) p)) r = Some r'
    ∧ (∀ c, (read_scratch r').2 c = 0) ∧ params r' = <[i := read_back item p p0]> (params r).
Proof.
  intros Hi (Fe & Fa) (Le & La) Hp (Me & Ma) Hk. pose proof (name_is_ok modes Hmodes i item Hi) as Hn.
  unfold mode_lines, feed. rewrite map_app, run_lines_app. destruct p0 as [e0 u0 m0]. cbn [audio_enha_eq tAudioNvArmModeStruct] in *.
  destruct (run_arm_first modes Hmodes i item Hi (arm_lines (label item) (tAudioNvArmModeStruct p)) r e0 u0 m0
              (tAudioNvArmModeStruct p) zero zero) as (r1 & R1 & K1 & P1);
    [by apply arm_forms|done|done|by apply goes_arm; [apply Hn|..]|done|].
  unfold feed in R1. rewrite R1. cbn [mbind option_bind].
  assert (L : (i < length (params r))%nat) by (by eapply lookup_lt_Some).
  destruct (run_eq_first modes Hmodes i item Hi (eq_lines (chars_of "EQ_" ++ label item) (audio_enha_eq p)) r1 e0
              (put_str (label item) u0) (tAudioNvArmModeStruct p)
              (reread_eq (put_str (chars_of "EQ_" ++ label item) (para_name e0)) (audio_enha_eq p)) zero zero)
    as (r2 & R2 & K2 & P2);
    [by apply eq_forms|done|rewrite P1; by apply list_lookup_insert_eq| |done|].
  - pose proof (goes_eq (label item) (proj1 Hn) (audio_enha_eq p) (EqStruct (put_str (chars_of "EQ_" ++ label item) (para_name e0))
      (eq_control e0) (eq_modes e0) (externdArray e0)) Fe Le Me) as G. exact G.
  - exists r2. split_and!; [exact R2|done|]. by rewrite P2, P1, list_insert_insert_eq.
Qed.

(** The lines of the file. *)
Definition all_lines (l : list (audio_mode_item_t * AUDIO_TOTAL_T)) : list bytes :=
  mjoin (map (λ q, mode_lines (label q.1) (chars_of "EQ_" ++ label q.1) q.2) l).

Lemma put_lines_ok ls : Forall (plain 1000) ls → put_lines ls = Some (mjoin (feed ls)).
Proof.
  intros F. induction F as [|line ls [_ L] _ IH]; [done|]. cbn [put_lines]. destruct (Z.ltb_spec (Z.of_nat (length line)) 1024); [|lia].
  rewrite IH. cbn [mbind option_bind]. unfold feed. cbn [map]. by rewrite mjoin_cons, <- app_assoc.
Qed.

Lemma fgets_line line rest cur room :
  Forall (λ c, c ≠ 0 ∧ c ≠ 10) line → (length line < room - 1)%nat →
  fgets_lines room cur (line ++ 10 :: rest) = (cur ++ line ++ [10]) :: fgets_lines (Z.to_nat 1023) [] rest.
Proof.
  intros F. revert cur room. induction F as [|c line [_ Hc] _ IH]; intros cur room L; [done|]. cbn [app fgets_lines length] in *.
  destruct (Z.eqb_spec c 10); [done|]. destruct (Nat.leb_spec room 1); [lia|]. cbn [orb]. rewrite IH by lia. by rewrite <- app_assoc.
Qed.

Lemma fgets_ok ls : Forall (plain 1000) ls → fgets_lines (Z.to_nat 1023) [] (mjoin (feed ls)) = feed ls.
Proof.
  intros F. induction F as [|line ls [F L] _ IH]; [done|]. unfold feed. cbn [map]. rewrite mjoin_cons, <- app_assoc.
  cbn [app]. rewrite fgets_line; [|done|]. { cbn [app]. f_equal. exact IH. }
  enough (Z.of_nat (length line) < Z.of_nat (Z.to_nat 1023 - 1)) by lia. rewrite Nat2Z.inj_sub, Z2Nat.id by lia. lia.
Qed.

Lemma before_nul_ok ls : Forall (plain 1000) ls → map before_nul (feed ls) = feed ls.
Proof.
  intros F. induction F as [|line ls [F _] _ IH]; [done|]. unfold feed in *. cbn [map]. rewrite IH. f_equal.
  unfold before_nul. clear -F. induction F as [|c line [Hc _] _ IH]; [done|]. cbn [app span].
  destruct (Z.eqb_spec c 0); [done|]. cbn [negb]. destruct (span _ (line ++ [10])) as [a b]. cbn in *. by rewrite IH.
Qed.

Lemma mode_plain item p :
  name_ok (label item) → total_fields p → total_shape p →
  Forall (plain 1000) (mode_lines (label item) (chars_of "EQ_" ++ label item) p).
Proof.
  intros Hn [Fe Fa] [Le La]. apply Forall_app. split.
  - eapply list.Forall_impl; [by apply arm_forms|]. by intros x [_ Hx].
  - eapply list.Forall_impl; [by apply eq_forms|]. by intros x (_ & Hx & _).
Qed.

Lemma put_modes_ok ps ms i params :
  ms = drop i modes → ps = drop i params → length ps = length ms → Forall total_fields ps → Forall total_shape ps →
  put_modes modes params (length ms) i = Some (mjoin (feed (all_lines (zip ms ps))))
  ∧ Forall (plain 1000) (all_lines (zip ms ps)).
Proof.
  revert ps i. induction ms as [|item ms IH]; intros ps i Em Ep L F Sh; [by split|].
  destruct ps as [|p ps]; [done|]. apply list.Forall_cons in F as [Fp F], Sh as [Sp Sh].
  assert (Hi : modes !! i = Some item) by (rewrite <- (Nat.add_0_r i), <- lookup_drop, <- Em; done).
  assert (Hp : params !! i = Some p) by (rewrite <- (Nat.add_0_r i), <- lookup_drop, <- Ep; done).
  assert (Hn : name_ok (label item)) by (by eapply name_is_ok).
  destruct (IH ps (S i)) as [IH1 IH2]; [by rewrite <- Nat.add_1_r, <- drop_drop, <- Em|
    by rewrite <- Nat.add_1_r, <- drop_drop, <- Ep|by injection L|done|done|].
  pose proof (mode_plain item p Hn Fp Sp) as Pl. cbn [length put_modes zip zip_with]. unfold all_lines in *. cbn [map fst snd].
  rewrite mjoin_cons. split; [|by apply Forall_app].
  rewrite (arm_name_at modes Hmodes i item Hi). cbn [mbind option_bind].
  rewrite (eq_name_at modes Hmodes i item Hi). cbn [mbind option_bind]. rewrite Hp. cbn [mbind option_bind].
  rewrite put_lines_ok by done. cbn [mbind option_bind]. rewrite IH1. cbn [mbind option_bind].
  unfold feed. by rewrite map_app, join_app.
Qed.

Lemma run_modes ps ms i p0s done r :
  ms = drop i modes → length ps = length ms → Forall total_fields ps → Forall total_shape ps →
  params r = done ++ p0s → length done = i → length p0s = length ms → Forall total_shape p0s →
  (∀ c, (read_scratch r).2 c = 0) →
  ∃ r', run_lines (read_line modes) (feed (all_lines (zip ms ps))) r = Some r'
    ∧ params r' = done ++ zip_with (λ q p0, read_back q.1 q.2 p0) (zip ms ps) p0s.
Proof.
  revert ps i p0s done r. induction ms as [|item ms IH]; intros ps i p0s d r Em L F S E Ed L0 S0 K.
  - exists r. split; [done|]. rewrite E. by destruct p0s.
  - destruct ps as [|p ps]; [done|]. destruct p0s as [|p0 p0s]; [done|].
    apply list.Forall_cons in F as [Fp F], S as [Sp S], S0 as [Sp0 S0].
    assert (Hi : modes !! i = Some item) by (rewrite <- (Nat.add_0_r i), <- lookup_drop, <- Em; done).
    assert (Hp : params r !! i = Some p0) by (rewrite E, <- Ed; by apply list_lookup_middle).
    destruct (run_mode i item p p0 r Hi Fp Sp Hp Sp0 K) as (r1 & R1 & K1 & P1).
    destruct (IH ps (Datatypes.S i) p0s (d ++ [read_back item p p0]) r1) as (r' & R & P); try done.
    + by rewrite <- Nat.add_1_r, <- drop_drop, <- Em.
    + by injection L.
    + rewrite P1, E, <- app_assoc. cbn [app]. rewrite insert_app_r_alt by lia. by rewrite Ed, Nat.sub_diag.
    + rewrite length_app, Ed. cbn. lia.
    + by injection L0.
    + exists r'. split.
      * unfold all_lines in *. cbn [zip zip_with map fst snd]. rewrite mjoin_cons. unfold feed in *.
        rewrite map_app, run_lines_app, R1. exact R.
      * rewrite P, <- app_assoc. done.
Qed.
End file.

(** What [nvstruct2stringfile] writes, [stringfile2nvstruct] reads: with a table of modes whose names are letters and
    digits, at most twelve, the structures in memory get every field that was written, a negative [q] excepted. *)
Lemma text_read_back modes params params0 :
  table_ok modes → length params = length modes → Forall total_fields params → Forall total_shape params →
  length params0 = length modes → Forall total_shape params0 →
  ∃ f, nvstruct2stringfile modes true params (sizeof_total * Z.of_nat (length modes)) = Some (Some f)
    ∧ stringfile2nvstruct modes (Some f) params0
      = Some (zip_with (λ q p0, read_back q.1 q.2 p0) (zip modes params) params0).
Proof.
  intros T L F S L0 S0. exists (mjoin (feed (all_lines (zip modes params)))).
  destruct (put_modes_ok modes T params modes 0 params) as [W P]; try done. split.
  - unfold nvstruct2stringfile. cbn [negb]. rewrite Z.eqb_refl. cbn [negb]. by rewrite W.
  - unfold stringfile2nvstruct. rewrite fgets_ok, before_nul_ok by done.
    destruct (run_modes modes T params modes 0 params0 [] (reader_start params0)) as (r & R & E); try done.
    rewrite R. cbn [mbind option_bind]. by rewrite E.
Qed.

(** ** What comes back *)

(** The settings of a mode, its names aside. *)
Definition same_settings (p p' : AUDIO_TOTAL_T) : Prop :=
  eq_control (audio_enha_eq p') = eq_control (audio_enha_eq p) ∧ eq_modes (audio_enha_eq p') = eq_modes (audio_enha_eq p)
  ∧ externdArray (audio_enha_eq p') = externdArray (audio_enha_eq p)
  ∧ tAudioNvArmModeStruct p' = tAudioNvArmModeStruct p.
(** No [q] that the file loses. *)
Definition q_kept (p : AUDIO_TOTAL_T) : Prop :=
  Forall (λ m, Forall (λ b, -1 <= band_q b) (eq_band m)) (eq_modes (audio_enha_eq p)).

Lemma fmap_fixed {A} (f : A → A) l : f <$> l = l ↔ Forall (λ x, f x = x) l.
Proof.
  induction l as [|x l IH]; [by split|]. cbn. rewrite list.Forall_cons, <- IH. split; [intros [= H1 H2]; done|by intros [-> ->]].
Qed.

Lemma reread_q_fixed q : reread_q q = q ↔ -1 <= q.
Proof. unfold reread_q. destruct (Z.ltb_spec q 0); lia. Qed.

Lemma reread_mode_fixed m : reread_mode m = m ↔ Forall (λ b, -1 <= band_q b) (eq_band m).
Proof.
  assert (E : reread_mode m = m ↔ reread_band <$> eq_band m = eq_band m).
  { destruct m. unfold reread_mode. cbn. split; [by intros [= H]|by intros ->]. }
  rewrite E, fmap_fixed, !Forall_forall. split; intros H b Hb; specialize (H b Hb); destruct b; unfold reread_band in *; cbn in *.
  - injection H as H. by apply reread_q_fixed.
  - f_equal. by apply reread_q_fixed.
Qed.

Lemma read_back_same m p p0 : same_settings p (read_back m p p0) ↔ q_kept p.
Proof.
  unfold same_settings, q_kept, read_back, reread_eq. cbn. rewrite fmap_fixed, !Forall_forall. split.
  - intros (_ & H & _) x Hx. by apply reread_mode_fixed, H.
  - intros H. split_and!; try done. intros x Hx. by apply reread_mode_fixed, H.
Qed.

(** C8. The text of the parameters is read back.  Let an XML document list modes with distinct names of letters and
    digits, at most twelve.  From the table that [parse] makes of it, [nvstruct2stringfile] writes a file for any structures,
    and [stringfile2nvstruct] reads from it, whatever the structures in memory held, every field of every mode, but for
    a negative [q], and the names of the modes. *)
Theorem stringfile_round_trip alloc names params params0 :
  Forall name_ok names → NoDup names → names ≠ [] → Z.of_nat (length names) * sizeof_item < 2 ^ 31 →
  alloc (Z.of_nat (length names) * sizeof_item) = true →
  length params = length names → Forall total_fields params → Forall total_shape params →
  length params0 = length names → Forall total_shape params0 →
  ∃ modes f, parse alloc (mode_document names) true = Some (Some (AudMode (Z.of_nat (length names)) (Some modes)))
    ∧ map label modes = names
    ∧ nvstruct2stringfile modes true params (sizeof_total * Z.of_nat (length names)) = Some (Some f)
    ∧ stringfile2nvstruct modes (Some f) params0
      = Some (zip_with (λ q p0, read_back q.1 q.2 p0) (zip modes params) params0).
Proof.
  intros Hn Nd Ne Hs Ha L F S L0 S0. destruct (table_of_ok names Hn Nd) as [T E].
  assert (Lt : length (table_of names) = length names) by apply length_imap.
  destruct (text_read_back (table_of names) params params0 T) as (f & W & R); try done; try congruence.
  exists (table_of names), f. rewrite Lt in W. split; [|done]. apply document_parsed; try done.
  eapply list.Forall_impl; [exact Hn|]. intros w [_ Hw]. lia.
Qed.

Lemma zip_reads modes params params0 i p' :
  length params = length modes → length params0 = length modes →
  zip_with (λ q p0, read_back q.1 q.2 p0) (zip modes params) params0 !! i = Some p' →
  ∃ m p p0, modes !! i = Some m ∧ params !! i = Some p ∧ params0 !! i = Some p0 ∧ p' = read_back m p p0.
Proof.
  intros L L0 H. apply lookup_zip_with_Some in H as ([m p] & p0 & -> & H & H0). apply lookup_zip_with_Some in H as (m' & p1 & [= -> ->] & H1 & H2).
  by exists m', p1, p0.
Qed.

Lemma zip_reads_length modes params params0 :
  length params = length modes → length params0 = length modes →
  length (zip_with (λ q p0, read_back q.1 q.2 p0) (zip modes params) params0) = length modes.
Proof. intros L L0. rewrite !length_zip_with. lia. Qed.

(** C20. The settings come back from the file if and only if no band has a [q] below -1: [q] alone is printed without
    the mask of its sixteen bits, so that a negative one exceeds what [strtol] can return and becomes -1. *)
Theorem text_restores_iff modes params params0 f ps :
  table_ok modes → length params = length modes → Forall total_fields params → Forall total_shape params →
  length params0 = length modes → Forall total_shape params0 →
  nvstruct2stringfile modes true params (sizeof_total * Z.of_nat (length modes)) = Some (Some f) →
  stringfile2nvstruct modes (Some f) params0 = Some ps →
  Forall2 same_settings params ps ↔ Forall q_kept params.
Proof.
  intros T L F S L0 S0 W R. destruct (text_read_back modes params params0 T L F S L0 S0) as (f' & W' & R').
  rewrite W in W'. injection W' as <-. rewrite R in R'. injection R' as ->. rewrite Forall2_lookup, Forall_lookup. split.
  - intros H i p Hp. specialize (H i). rewrite Hp in H. inversion H as [x y Hs E1 E2|]; subst.
    symmetry in E2. apply zip_reads in E2 as (m & p1 & p0 & _ & Hp1 & _ & ->); [|done|done].
    rewrite Hp in Hp1. injection Hp1 as <-. by apply read_back_same in Hs.
  - intros H i. pose proof (zip_reads_length modes params params0 L L0) as Lz.
    destruct (zip_with _ _ _ !! i) as [p'|] eqn:E.
    + apply zip_reads in E as (m & p & p0 & _ & Hp & _ & ->); [|done|done]. rewrite Hp. constructor.
      apply read_back_same. by eapply H.
    + apply lookup_ge_None in E. rewrite (proj2 (lookup_ge_None params i)) by lia. constructor.
Qed.

(** ** From the text to the profiles *)

(** What [do_parse] needs besides: settings it handles and volume levels within the table. *)
Definition servable (p : AUDIO_TOTAL_T) : Prop :=
  handled p ∧ Forall (λ a, valid_volume_level_count a <= 30) (app_config_info (tAudioNvArmModeStruct p)).

Lemma reread_band_i16 b : i16_band b → i16_band (reread_band b).
Proof.
  intros (H1 & H2 & H3 & H4). unfold reread_band, reread_q. split_and!; try done. cbn. unfold is_i16 in *.
  destruct (Z.ltb_spec (band_q b) 0); lia.
Qed.

Lemma read_back_mode_ok m p p0 :
  name_ok (label m) → total_fields p → total_shape p → servable p → length (ucModeName p0) = 16%nat → mode_ok (read_back m p p0).
Proof.
  intros [_ Hl] [(_ & Fe & _) (_ & _ & Fa & _)] [(L1 & L2 & _) (_ & M2 & M3 & M4 & M5)] [Hh Hv] Hu.
  split; [|split; [exact Hh|]].
  - unfold wf_total, read_back, reread_eq. cbn [audio_enha_eq eq_modes tAudioNvArmModeStruct]. rewrite length_fmap.
    split_and!; try done.
    + apply Forall_fmap. apply Forall_lookup_2. intros j x Hx. eapply list.Forall_lookup in Fe as (_ & _ & Fb); [|exact Hx].
      eapply list.Forall_lookup in L2; [|exact Hx]. unfold wf_mode, reread_mode. cbn. rewrite length_fmap. split; [done|].
      apply Forall_fmap. eapply list.Forall_impl; [exact Fb|]. intros b. apply reread_band_i16.
    + apply Forall_lookup_2. intros j a Ha. eapply list.Forall_lookup in Fa as (_ & _ & Ha1 & _); [|exact Ha].
      eapply list.Forall_lookup in M4 as (A1 & A2 & _); [|exact Ha]. eapply list.Forall_lookup in Hv; [|exact Ha].
      unfold is_u16 in Ha1. unfold wf_app. split_and!; done || lia.
  - cbn. unfold put_str. rewrite length_app. cbn. rewrite length_drop, Hu. lia.
Qed.

Lemma made_from_read_back m p p0 w : q_kept p → made_from (read_back m p p0) w → made_from p w.
Proof.
  intros Hq. apply (read_back_same m p p0) in Hq as (E1 & E2 & E3 & E4). unfold made_from, read_from, eq_read, profile_words, filters_of.
  intros H. unfold control_of, reserve_of, app_of in *. rewrite ?E1, ?E2, ?E3, ?E4 in H. exact H.
Qed.

(** C13. From the text to the registers: the structures that [stringfile2nvstruct] reads from a written file are
    structures that [do_parse] serves.  It makes the file of profiles of them, in which every mode has its words in their
    places; they are made from the settings as they were before the text, where these lose no [q]. *)
Theorem text_to_profiles modes params params0 s m :
  table_ok modes → (4 <= length modes)%nat → length params = length modes → Forall total_fields params →
  Forall total_shape params → Forall servable params → length params0 = length modes → Forall total_shape params0 →
  Forall (λ p, length (ucModeName p) = 16%nat) params0 → wf_statics s →
  let size := u32 (Z.of_nat (length modes) * sizeof_total) in
  ∃ f ps s' m' g, nvstruct2stringfile modes true params (sizeof_total * Z.of_nat (length modes)) = Some (Some f)
    ∧ stringfile2nvstruct modes (Some f) params0 = Some ps
    ∧ do_parse (Some ps) size (Z.of_nat (length modes)) true true s m = Some (0, s', m', Some g)
    ∧ Z.of_nat (length g) = 5896
    ∧ ∀ j, 0 <= j < 4 → ∃ p p' w, params !! Z.to_nat j = Some p ∧ ps !! Z.to_nat j = Some p'
        ∧ made_from p' w ∧ stored g j p' w ∧ (q_kept p → made_from p w).
Proof.
  intros T L4 L F S V L0 S0 U Hs size. destruct (text_read_back modes params params0 T L F S L0 S0) as (f & W & R).
  set (ps := zip_with _ _ _) in *. pose proof (zip_reads_length modes params params0 L L0) as Lz. fold ps in Lz.
  assert (G : ∀ j, 0 <= j < 4 → ∃ p, ps !! Z.to_nat j = Some p ∧ mode_ok p).
  { intros j Hj. destruct (lookup_lt_is_Some_2 ps (Z.to_nat j) ltac:(lia)) as [p' Hp']. exists p'. split; [done|].
    apply zip_reads in Hp' as (item & p & p0 & Hi & Hp & Hp0 & ->); [|done|done].
    apply read_back_mode_ok; [by eapply name_is_ok|exact (Forall_lookup_1 _ _ _ _ F Hp)|exact (Forall_lookup_1 _ _ _ _ S Hp)
      |exact (Forall_lookup_1 _ _ _ _ V Hp)|exact (Forall_lookup_1 _ _ _ _ U Hp0)]. }
  destruct (parse_profiles_ok ps (Z.to_nat VBC_EFFECT_PROFILE_CNT) 0 s m (header_bytes fw_header) (header_bytes fw_header))
    as (s' & m' & g & E & _ & _ & Hl & _ & Hnew); [done|done|done|done|done|vm_compute; discriminate|].
  exists f, ps, s', m', g. split; [done|]. split; [done|]. split; [|split; [exact (Hl ltac:(done))|]].
  - unfold do_parse, size. rewrite Z.eqb_refl. cbn [negb]. by rewrite E.
  - intros j Hj. destruct (Hnew j Hj) as (p' & w & Hp' & Hm & Hst).
    pose proof Hp' as (item & p & p0 & _ & Hp & _ & ->)%zip_reads; try done.
    exists p, (read_back item p p0), w. split_and!; try done. intros Hq. by eapply made_from_read_back.
Qed.

(** ** An example *)

(** The four modes with their names. *)
Definition ex_names : list bytes := [chars_of "Headset"; chars_of "Headfree"; chars_of "Handset"; chars_of "Handsfree"].
Definition ex_modes : list audio_mode_item_t := table_of ex_names.

Lemma ex_names_ok : Forall name_ok ex_names ∧ NoDup ex_names.
Proof.
  split; [|apply (bool_decide_unpack _); vm_compute; exact I].
  repeat (apply list.Forall_cons; split); try apply List.Forall_nil; (split; [|by apply Nat.leb_le]);
    (split; [done|by repeat constructor]).
Qed.
Lemma ex_modes_ok : table_ok ex_modes.
Proof. by destruct ex_names_ok; apply table_of_ok. Qed.

(** Memory of zeros, as the callers leave it. *)
Definition zero_total : AUDIO_TOTAL_T :=
  Total (EqStruct (repeat 0 16) 0 (repeat (Mode 0 0 (repeat (Band 0 0 0 0) 8)) 6) (repeat 0 59)) (repeat 0 16)
    (ModeStruct (DevicePath 0 0 (repeat 0 8)) 0 0 (repeat 0 2) (repeat (AppConfig 0 (repeat 0 8) 0 (repeat 0 31) (repeat 0 9)) 16)
       0 0 (repeat 0 64)).
Definition ex_memory : list AUDIO_TOTAL_T := repeat zero_total 4.

(** A mode with a negative [q] in its first band. *)
Definition ex_negative : AUDIO_TOTAL_T :=
  Total (EqStruct (repeat 0 16) 0 (repeat (Mode 0 0 (Band 100 (-512) 60 0 :: repeat (Band 0 0 0 0) 7)) 6) (repeat 0 59))
    (repeat 0 16) (tAudioNvArmModeStruct (ex_total 0 1)).

Ltac ranges :=
  repeat match goal with
  | |- _ ∧ _ => split
  | |- Forall _ (repeat _ _) => apply Forall_forall; intros ? ->%repeat_spec
  | |- Forall _ (_ ++ _) => apply Forall_app
  | |- Forall _ (_ :: _) => apply list.Forall_cons
  | |- Forall _ [] => apply List.Forall_nil
  end; unfold is_u16, is_u32, is_i16; cbn; try lia; try done.

Ltac fields :=
  unfold total_fields, total_shape, eq_fields, arm_fields, eq_shape, arm_shape;
  cbn [audio_enha_eq tAudioNvArmModeStruct eq_control eq_modes externdArray dev_path_set valid_dev_set_count dev_reserve
    dev_set valid_app_set_count valid_agc_input_gain_count aud_proc_exp_control app_config_info midi_opt aud_dev reserve
    ex_total ex_eq ex_negative zero_total];
  unfold mode_fields, app_fields, app_shape, i16_band, ex_app, ex_bands; ranges;
  repeat (apply list.Forall_cons; split); try apply List.Forall_nil; cbn; lia.

Lemma ex_total_ok : total_fields (ex_total 0 1) ∧ total_shape (ex_total 0 1).
Proof. fields. Qed.
Lemma ex_negative_ok : total_fields ex_negative ∧ total_shape ex_negative.
Proof. fields. Qed.
Lemma zero_total_ok : total_fields zero_total ∧ total_shape zero_total.
Proof. fields. Qed.

Lemma Forall_repeat {A} (P : A → Prop) x n : P x → Forall P (repeat x n).
Proof. intros H. apply Forall_forall. by intros y ->%repeat_spec. Qed.

Lemma ex_servable : servable (ex_total 0 1).
Proof. split; [apply handled_ex|]. apply Forall_repeat. cbn. lia. Qed.

Theorem stringfile_round_trip_witness :
  ∃ modes f, parse (λ n, n <? 1000) (mode_document ex_names) true = Some (Some (AudMode 4 (Some modes)))
    ∧ nvstruct2stringfile modes true ex_params 13376 = Some (Some f)
    ∧ stringfile2nvstruct modes (Some f) ex_memory
      = Some (zip_with (λ q p0, read_back q.1 q.2 p0) (zip modes ex_params) ex_memory).
Proof.
  destruct (stringfile_round_trip (λ n, n <? 1000) ex_names ex_params ex_memory) as (modes & f & P & _ & W & R);
    try apply Forall_repeat; try reflexivity; [apply ex_names_ok|apply ex_names_ok|discriminate|apply ex_total_ok|apply ex_total_ok
    |apply zero_total_ok|].
  exists modes, f. split; [exact P|]. split; [exact W|exact R].
Defined.

(** The negative [q] does not come back. *)
Theorem text_restores_iff_witness :
  ∃ f ps, nvstruct2stringfile ex_modes true (repeat ex_negative 4) 13376 = Some (Some f)
    ∧ stringfile2nvstruct ex_modes (Some f) ex_memory = Some ps
    ∧ (Forall2 same_settings (repeat ex_negative 4) ps → False).
Proof.
  destruct (text_read_back ex_modes (repeat ex_negative 4) ex_memory) as (f & W & R); try apply Forall_repeat; try reflexivity;
    [apply ex_modes_ok|apply ex_negative_ok|apply ex_negative_ok|apply zero_total_ok|].
  eexists f, _. split; [exact W|]. split; [exact R|]. intros H.
  apply (text_restores_iff ex_modes (repeat ex_negative 4) ex_memory f) in H; try apply Forall_repeat; try reflexivity;
    [|apply ex_modes_ok|apply ex_negative_ok|apply ex_negative_ok|apply zero_total_ok|exact W|exact R].
  do 2 (apply list.Forall_cons in H as [H _]; unfold q_kept in H; cbn in H). apply list.Forall_cons in H as [H _]. cbn in H. lia.
Defined.

Theorem text_to_profiles_witness :
  ∃ f ps s' m' g, nvstruct2stringfile ex_modes true ex_params 13376 = Some (Some f)
    ∧ stringfile2nvstruct ex_modes (Some f) ex_memory = Some ps
    ∧ do_parse (Some ps) 13376 4 true true statics_start (λ _, 0) = Some (0, s', m', Some g).
Proof.
  destruct (text_to_profiles ex_modes ex_params ex_memory statics_start (λ _, 0)) as (f & ps & s' & m' & g & W & R & D & _);
    try apply Forall_repeat; try reflexivity;
    [apply ex_modes_ok|apply ex_total_ok|apply ex_total_ok|apply ex_servable|apply zero_total_ok|apply wf_start|].
  exists f, ps, s', m', g. split; [exact W|]. split; [exact R|exact D].
Defined.
