(* ===== verification/ParaFault.v ===== *)
(** * Where the reader of the parameter text goes wrong

    Lines that [nvstruct2stringfile] does not write: a name that the table of modes lacks, a name that does not fit, and
    the elements of an array in another order. *)

From stdpp Require Import list strings functions.
From S2P Require Import Prelude CArith AtTok EqSet EqImage EqPara EqFile ParaText ParaMatch ParaRound ParaEq ParaMode ParaForm ModeTable ParaFile.

Open Scope Z_scope.

(** ** A mode that is not in the table *)

Lemma find_mode_unknown modes n old :
  (∀ y, y ∈ modes → cstr (mode_name y) 0 = Some (label y)) → n ∉ map label modes → find_mode n modes old = Some old.
Proof.
  induction modes as [|y l IH]; intros C N; [done|]. cbn [find_mode]. rewrite C by left. cbn [mbind option_bind].
  cbn [map] in N. rewrite bool_decide_eq_false_2 by (intros ->; apply N; left).
  apply IH; [intros z Hz; apply C; by right|]. intros H. apply N. by right.
Qed.

(** The structure that the reader works on when no mode has been found yet, or the one found last. *)
Definition selected (r : reader) (m : AUDIO_TOTAL_T) : Prop := 0 <= output_arm r ∧ params r !! Z.to_nat (output_arm r) = Some m.

(** C37. A line for a mode that the table lacks is not refused: with a mode found before, it changes that mode's structure and
    renames it; with none, it writes before the array of structures. *)
Theorem unknown_mode_overwrites modes n line r :
  table_ok modes → name_ok n → n ∉ map label modes → arm_form n line →
  (output_arm r < 0 → read_line modes (line ++ [10]) r = None)
  ∧ ∀ p m' sc', selected r p → read_arm (line ++ [10]) (tAudioNvArmModeStruct p, read_scratch r) = Some (m', sc') →
    ∃ r', read_line modes (line ++ [10]) r = Some r' ∧ output_arm r' = output_arm r
      ∧ params r' = <[Z.to_nat (output_arm r) := Total (audio_enha_eq p) (put_str n (ucModeName p)) m']> (params r).
Proof.
  intros T Hn Hu [[rest ->] _]. pose proof (name_chars n Hn) as Hc. pose proof (name_nonzero n Hn) as Nz. destruct Hn as [Hi Hl].
  rewrite <- !app_assoc. cbn [app]. unfold read_line. rewrite has_front, scan_style_name; [|apply Hi|done|lia].
  cbn [mbind option_bind].
  pose proof (cstr_at [] n (drop (S (length n)) (outputstyle r)) Nz) as C. cbn [app length] in C.
  change (put_str n (outputstyle r)) with (n ++ 0 :: drop (S (length n)) (outputstyle r)). rewrite C. cbn [mbind option_bind].
  rewrite (find_mode_unknown modes n (output_arm r)); [|intros y Hy; by apply (label_cstr modes T)|done].
  cbn [mbind option_bind]. split.
  - intros H. by destruct (Z.ltb_spec (output_arm r) 0); [|lia].
  - intros p m' sc' [H0 Hp] Hr. destruct (Z.ltb_spec (output_arm r) 0); [lia|]. rewrite Hp. cbn [mbind option_bind].
    rewrite Hr. cbn [mbind option_bind]. eexists. split; [reflexivity|]. split; [done|]. cbn [params].
    by rewrite put_name_str by lia.
Qed.

(** ** A name that does not fit *)

Lemma long_name_overflows modes n rest r :
  Forall (λ c, c ≠ 0x5c) n → (16 <= length n)%nat →
  read_line modes (chars_of "audio_arm\audio_arm\" ++ n ++ 0x5c :: rest) r = None.
Proof.
  intros Hc Hl. unfold read_line. rewrite has_front. unfold scan_style.
  assert (S : ∀ p s, starts p (p ++ s) = true).
  { clear. induction p as [|c p IH]; intros s; [done|]. cbn. by rewrite Z.eqb_refl, IH. }
  rewrite S, drop_app_length.
  assert (E : span not_backslash (n ++ 0x5c :: rest) = (n, 0x5c :: rest)).
  { clear -Hc. induction Hc as [|c n Hc _ IH]; [done|]. cbn [app span]. rewrite IH. unfold not_backslash.
    by destruct (Z.eqb_spec c 0x5c). }
  rewrite E. destruct n as [|c n]; [cbn in Hl; lia|].
  destruct (Z.ltb_spec (Z.of_nat (length (c :: n))) NAME_LEN_MAX) as [L|]; [unfold NAME_LEN_MAX in L; lia|done].
Qed.

(** ** The index in the line *)

(** The element goes where the count of lines stands, whatever index [w] the line has. *)
Lemma dev_set_index_ignored n v w j m :
  item_ok (W Alnum n) → is_u16 v → Z.of_nat w < 2 ^ 31 → (j < 8)%nat → length (dev_set (dev_path_set m)) = 8%nat →
  goes read_arm [arm_line_at n "\AudioStructure\dev_path_set\dev_set\dev_set[" w "]=0x" v] m (at_ DevSet (Z.of_nat j))
    (set_dev (DevicePath (valid_dev_set_count (dev_path_set m)) (dev_reserve (dev_path_set m))
                (<[j := v]> (dev_set (dev_path_set m)))) m) (at_ DevSet (next 8 (Z.of_nat j))).
Proof.
  intros Hn Hv Hw Hj Hlen data ix Hk. pose proof Hv as Hr. unfold is_u16 in Hr.
  exists data, (bump DevSet 8 ix). split; [|by apply bump_at]. cbn [map run_lines].
  change "]=0x"%string with ("]=" +:+ "0x"). rewrite arm_line_at_items. hex_var v h Hl. dec_var w d Hd.
  unfold read_arm. search. value_is h Hl. rewrite u16_i16 by done. by rewrite (set_at_ok _ _ j) by (done || lia).
Qed.

(** ** Examples *)

Definition ex_other : bytes :=
  arm_line (chars_of "Other") "\AudioStructure\midi_opt=0x" 1.
Lemma ex_other_form : arm_form (chars_of "Other") ex_other.
Proof. split; [by eexists|]. apply plainb_ok. reflexivity. Qed.

Theorem unknown_mode_overwrites_witness :
  read_line ex_modes (ex_other ++ [10]) (reader_start ex_memory) = None
  ∧ ∃ r', read_line ex_modes (ex_other ++ [10]) (Reader ex_memory (repeat 0 16) 2 (-1) ([], λ _, 0)) = Some r'
      ∧ ucModeName <$> params r' = [repeat 0 16; repeat 0 16; chars_of "Other" ++ repeat 0 11; repeat 0 16].
Proof.
  assert (N : name_ok (chars_of "Other")) by (repeat split; [done|by repeat constructor|cbn; lia]).
  assert (U : chars_of "Other" ∉ map label ex_modes) by (apply (bool_decide_unpack _); vm_compute; exact I).
  split.
  - by apply (unknown_mode_overwrites ex_modes (chars_of "Other") ex_other (reader_start ex_memory) ex_modes_ok N U ex_other_form).
  - destruct (unknown_mode_overwrites ex_modes (chars_of "Other") ex_other (Reader ex_memory (repeat 0 16) 2 (-1) ([], λ _, 0))
                ex_modes_ok N U ex_other_form) as [_ H].
    destruct (H zero_total (set_rest 1 0 (repeat 0 64) (tAudioNvArmModeStruct zero_total)) ([], λ _, 0)) as (r' & R & _ & P);
      [split; [cbn; lia|reflexivity]|vm_compute; reflexivity|].
    exists r'. split; [exact R|]. rewrite P. vm_compute. reflexivity.
Defined.
